(* ===== verification/_CoqProject ===== *)
-Q . S2P
Prelude.v
GoText.v
Sdk.v
Constants.v
Floats.v
Shares.v
Chains.v
Keys.v
Addresses.v
Assets.v
ShortCodes.v
Coins.v
Txs.v
NodeAccounts.v
Votes.v
TxOuts.v
Vaults.v
ObservedTxs.v
Pools.v
Mimirs.v
StreamingSwaps.v
SwapMsgs.v
LiquidityProviders.v
Records.v
MayaNames.v
Stores.v
Keeper.v
FuzzyAssets.v
Nodes.v
Bonds.v
VaultStore.v
Halts.v
Gas.v
TradeAccounts.v
Aggregators.v
Swapper.v
Swaps.v
Affiliates.v
Decimals.v
Memos.v
Collectors.v
SwapChecks.v
Liquidity.v
AddLiquidity.v
LiquidityBooks.v
Withdraw.v
WithdrawBooks.v
Slashing.v
Bonding.v
BondBooks.v
LiquidityLedger.v
Outbounds.v
OutboundBooks.v
SwapHandler.v
ManageMayaNames.v
NameHierarchy.v
CacaoPools.v
SwapQueue.v
SwapBlocks.v
SwapMarket.v
OutboundHandlers.v
InternalTxs.v
NodeHandlers.v
Market.v
Effects.v
Rewards.v
Contributions.v
Leaving.v
Observers.v
ObservedMsgs.v
ObservedIn.v
ObservedOut.v
