(* ===== verification/Prelude.v ===== *)
(** * A verification of the core of the Maya node

    The Maya node is a Cosmos application that runs a liquidity protocol: nodes
    observe deposits on external chains, agree on them by vote, swap them in
    pools of an asset and CACAO, and schedule outbound transactions. This
    library models the part of the Go code that decides amounts and agreement,
    and proves what makes it correct. It models version-current code; older
    versions are modelled only where the current entry point dispatches to them.

    ** Parts of the program and files of the library

    The files build on one another in this order.

    - [Prelude.v] (this file): the outcome of a Go call, machine integers,
      rounding, loops, sums over finite maps and stable sorting.
    - [GoText.v]: the functions of package [strings] the code uses, on ASCII.
    - [Sdk.v]: the interfaces of the Cosmos SDK and of other libraries as
      classes with laws, and a reference instance of each.
    - [Constants.v]: [constants/], the names of the parameters, their texts and
      their values at every version.
    - [Floats.v]: Go's [float64], as rounding to 53 bits.
    - [Shares.v]: [common/math.go], [common/type_convert.go] and
      [common/cosmos/cosmos.go]: proportional shares, saturating subtraction,
      rounding, median and mean.
    - [Chains.v], [Keys.v], [Addresses.v], [Assets.v], [ShortCodes.v], [Coins.v],
      [Txs.v]: the files of the same names of [common/]. An asset is a chain, a
      symbol, a ticker and two flags; a coin is an asset and an amount; a
      transaction carries coins and gas.
    - [NodeAccounts.v]: [types/type_node_account.go], the nodes and their bond
      providers.
    - [Votes.v]: the majorities of [types/types.go] and the six voters
      ([type_errata.go], [type_ban.go], [type_solvency_voter.go],
      [type_observed_network_fee_voter.go], [type_forgive_slash.go],
      [type_tss_keysign_fail.go]) behind one class [Voter].
    - [TxOuts.v] and [ObservedTxs.v]: [types/type_tx_out.go] and
      [types/type_observed_tx.go]. A voter keeps one observation per content with
      the nodes that signed it; consensus picks the one with a super majority.
    - [Vaults.v]: [types/type_vault.go], the vaults that hold the network's assets.
    - [Pools.v]: [types/type_pool.go].
    - [Mimirs.v]: [types/type_mimir.go], the nodes' votes on parameters.
    - [StreamingSwaps.v]: [types/type_streaming_swap.go] and the life of one
      streaming swap in [handler_swap.go] and [manager_swap_queue_current.go].
    - [SwapMsgs.v], [LiquidityProviders.v], [Records.v], [MayaNames.v]: the
      message of a swap ([types/msg_swap.go]), the position of a liquidity
      provider, the small records ([type_network.go], [type_pol.go],
      [type_cacao_pool.go] and others) and the registered names
      ([type_mayaname.go]).
    - [Stores.v] and [Keeper.v]: the part of [keeper/v1] below the components that
      follow: one record [KVStore] of finite maps, a field per key prefix, the bank
      as a class, and the operations on pools, parameters and modules.
    - [FuzzyAssets.v]: [fuzzyAssetMatch] of [handler.go].
    - [Nodes.v]: [keeper_node_account.go], the records of the nodes and the
      versions they run.
    - [Bonds.v]: [keeper_liquidity_provider.go], the bonds the positions make up
      for the nodes, and the security of the network ([helpers.go]).
    - [VaultStore.v]: [keeper_vault.go], [keeper_txout.go] and
      [keeper_liquidity_fees.go].
    - [Halts.v]: the part of [helpers.go] that says what is paused, and the price
      of a dollar.
    - [Gas.v]: [manager_gas_current.go].
    - [TradeAccounts.v]: [manager_trade_account_current.go].
    - [Aggregators.v]: [aggregators/], the tables of contracts on other chains.
    - [Swapper.v] and [Swaps.v]: [swap_current.go], one swap against a pool, and a
      swap between any two assets by way of CACAO.
    - [Affiliates.v] and [Collectors.v]: [helpers_affiliates.go]. The first divides
      an affiliate fee over the hierarchy of names, the second pays the shares and
      keeps the collectors of the names that want another asset than CACAO.
    - [Decimals.v] and [Memos.v]: the numbers the memos contain, and [memo/]: the
      parser of memos with the names of the keeper, and their text.
    - [ManageMayaNames.v] and [NameHierarchy.v]: [handler_manage_mayaname.go], and
      the hierarchy of names it keeps.
    - [CacaoPools.v]: [handler_cacao_pool_deposit.go] and
      [handler_cacao_pool_withdraw.go].
    - [SwapChecks.v] and [SwapHandler.v]: [handler_swap.go], the validation of a
      swap and what its handler does.
    - [Liquidity.v]: the arithmetic of adding and withdrawing liquidity, from
      [handler_add_liquidity.go], [withdraw_current.go] and what they call.
    - [AddLiquidity.v] and [LiquidityBooks.v]: the rest of
      [handler_add_liquidity.go], and the books it keeps: the units and pending
      amounts of a pool are the sums over its positions.
    - [Withdraw.v] and [WithdrawBooks.v]: [withdraw_current.go], [withdraw_v108.go]
      and [handler_withdraw.go], and the same books.
    - [Slashing.v]: [manager_slasher_current.go] and the part of [helpers.go] that
      repairs the pools; [Bonding.v]: [handler_bond.go] and [handler_unbond.go];
      [BondBooks.v]: the books together with the bonds of the positions.
    - [LiquidityLedger.v]: all operations on positions, as one step relation,
      against the class [TxOutStoreLaws] of what outbound payments promise.
    - [Outbounds.v] and [OutboundBooks.v]: [manager_txout_current.go], the manager
      of outbound transactions, and that it keeps that promise.
    - [SwapQueue.v]: [manager_swap_queue.go] and the scoring of
      [manager_swap_queue_current.go]: which swaps a block does.
    - [SwapBlocks.v]: [FetchQueue] and [EndBlock] of the same file, a whole block.
      The handler of a swap, the refund and the outbound are the class
      [SwapActions].
    - [SwapMarket.v]: [refundTx] of [helpers.go], and the three operations of that
      class as the code has them; queues that empty.
    - [OutboundHandlers.v]: [handler_common_outbound.go] with
      [handler_outbound_tx.go] and [handler_refund.go], what an observed payment
      settles; [InternalTxs.v]: the same for the transactions of the network itself
      ([handler_migrate.go], [handler_ragnarok.go], [handler_yggdrasil.go],
      [handler_consolidate.go], [handler_noop.go]).
    - [NodeHandlers.v]: the messages of the nodes ([handler_ban.go],
      [handler_network_fee.go], [handler_forgive_slash.go],
      [handler_node_pause_chain.go], [handler_mimir.go], [handler_version.go],
      [handler_set_node_keys.go]).
    - [Market.v]: everything above as one step relation.
    - [Effects.v]: computations that keep what they changed when they fail, with
      their rules; [Rewards.v]: [UpdateNetwork] of [manager_network_current.go], the
      rewards of a block.
    - [Contributions.v]: donations, contributions to the reserve and the messages of
      the trade accounts ([handler_donate.go], [handler_reserve_contrib.go],
      [handler_trade_account_deposit.go], [handler_trade_account_withdrawal.go]);
      [Leaving.v]: [handler_leave.go].
    - [Observers.v]: [manager_observer_current.go], who observed in a block, and the
      records of observations ([keeper_observer.go], [keeper_txin.go],
      [keeper_last_height.go]); [ObservedMsgs.v]: [processOneTxIn] and the internal
      handler of [handler.go], from a memo to its message and from a message to its
      handler.
    - [ObservedIn.v] and [ObservedOut.v]: [handler_observed_txin.go] and
      [handler_observed_txout.go], with [addGasFees] of [helpers.go]: the nodes agree
      on a transaction, the vault is credited or debited, and the message is passed to
      the handlers above.

    A swap reads its parameters and its pool from the store, withdraws a trade
    asset, computes with the shares, burns or mints synths at the bank and
    writes the pool back: [Swapper.v] uses everything below it. A memo names the
    affiliates of a transaction; their fee is divided over the hierarchy of names,
    which [ManageMayaNames.v] keeps, and paid from a module to addresses, to the
    collectors or by new entries of the swap queue. A withdrawal from the CACAO
    pool pays affiliates in the same way. The voters feed on the node accounts and
    the majorities only.

    ** What the theorems show

    - Agreement: the majority predicates are the fractions they stand for
      ([Votes.GetThreshold_least_super_majority]); two
      super majorities intersect ([Votes.quorum_intersection]); the version to join
      is the one two thirds run ([Nodes.GetMinJoinVersion_spec]); a ballot depends
      on who voted, not on order or repetition ([Votes.ballot_consensus]); two
      observations in consensus share accountable signers
      ([ObservedTxs.consensus_accountable]); parameters voted by a super majority
      are deterministic, by a simple majority they are not ([Mimirs.v]).
    - Money: a swap takes exactly what it emits, changes one pool and never
      lowers the product of its balances ([Swapper.swapOne_keeps_product] over
      [Swapper.CalcAssetEmission_spec]); a swap by way of CACAO loses none on the
      way ([Swaps.Swap_spec]); synths are minted and burnt by the
      amount swapped; a streaming swap pays out what its parts emitted and refunds
      exactly what they have not taken ([StreamingSwaps.streaming_conservation]); the units of the trade accounts
      always add up ([TradeAccounts.v]); a deposit of liquidity gets its share and
      no more, and a withdrawal never pays more than a side holds ([Liquidity.v]);
      the bonds of a position are a map ([LiquidityProviders.v]), and so are the
      funds of a vault ([Vaults.v]); synth units and the unit value of a pool
      are the fractions they should be ([Pools.v]); the security of the network is
      the least bond two thirds of the nodes have ([Bonds.v]); the stored vaults
      are a map and their index is exact ([VaultStore.v]); shares are accurate to two
      units and never exceed the allocation ([Shares.v]).
    - Observations: a transaction that is final is acted on once, and a payment is
      settled once, whatever is observed later ([ObservedIn.in_final_once],
      [ObservedOut.out_final_once]); the first agreement has a super majority and is
      what the observation that completes it says
      ([ObservedIn.agreed_with_last_observer]), but the vault is credited with the
      coins, and the memo acted on is that, of the last observer, whatever was agreed
      on: when nodes leave in between the two differ
      ([ObservedIn.last_observer_rewrites]); the observers of a block are those that
      observed on every chain ([Observers.List_observers_spec]). A donation changes its
      pool only, and in an auction gives each waiting position its claim
      ([Contributions.donate_Run_spec]).
    - Affiliates: with the default tick of 100 the shares of a fee stay within what
      is allowed ([Affiliates.affiliate_shares_within_limit]), and the module of the collectors
      holds exactly what the collectors have accrued
      ([Collectors.skim_keeps_collectors_backed]). The affiliates of a swap memo are
      capped ([Memos.swap_memo_affiliates_capped]).
    - Names: only the owner changes a name ([ManageMayaNames.v]); the hierarchy
      stays without cycle when names are in lower case, and then every division
      and every message ends ([NameHierarchy.v],
      [Affiliates.calculateAffiliateShares_returns]). Without that condition a
      cycle is possible ([NameHierarchy.case_variant_cycle]).
    - Books: the CACAO pool is the sum of its providers
      ([CacaoPools.cacao_pool_adds_up]); a deposit of liquidity keeps each pool the
      sum of its positions ([LiquidityBooks.addLiquidity_adds_up]), and so does a
      withdrawal, which pays what is due ([WithdrawBooks.withdraw_adds_up]), except that
      a saver with an address on the Maya chain may overwrite the position of another
      ([LiquidityBooks.saver_deposit_overwrites]); a slash takes its part of the bonded
      units, no others, and gives them to the reserve
      ([BondBooks.slash_takes_bonded_units]); a bond uses
      free units only ([BondBooks.bond_keeps_positions]); and a sequence of these
      operations, each under the condition of its step (plain deposits, the reserve no
      provider of a node where liquidity is slashed), keeps the books, the bonds and the
      balances sound, for any manager of outbound transactions that keeps its promise
      ([LiquidityLedger.liquidity_steps_sound]); with the one of the code, and with
      swaps, blocks, refunds, payments of the vaults and messages of the nodes in
      between, they stay sound as well ([Market.chain_steps_sound]); repaying the
      pools for gas moves exactly what is recorded ([Gas.ProcessGas_books]), and the
      rewards of a block move CACAO without making any up, even when they end with an
      error, as long as the fees are no more than the pools hold
      ([Rewards.UpdateNetwork_conserves]).
    - Outbounds: the vaults chosen send exactly what is asked for
      ([OutboundBooks.discoverOutbounds_spec]), the fees are taken from it and make
      nothing up ([OutboundBooks.prepareTxOutItem_conserves]), and it goes out in the
      first block with room ([OutboundBooks.CalcTxOutHeight_spec]); a payment that is
      observed settles the items it answers, or the vault is slashed
      ([OutboundHandlers.common_outbound_spec]).
    - Nodes: they change a parameter only together ([NodeHandlers.mimir_by_majority]),
      and a ban takes effect once, with a super majority ([NodeHandlers.ban_spec]).
    - Order: a block does the swaps of the queue with the most slip, at least one
      and none twice ([SwapQueue.v]); a queue of plain swaps empties when every
      attempt at one settles, which is assumed of the stores met on the way: that the
      handler does not panic, and that no affiliate is paid by a further swap, is not
      proved in general ([SwapMarket.queue_drains]).
    - Data: a memo is of the kind its first word names, and the memos the network
      writes read back ([Memos.v]); assets round-trip through their text and compare as their text
      ([Assets.v], [ShortCodes.v]); lists of coins implement maps from assets to
      amounts ([Coins.v]); transactions compare up to order ([Txs.v]); the signers
      of a node behave as a set when their keys are valid ([NodeAccounts.v]).
    - Defects: some theorems state what the code does where that is not what it
      means to do; their comments say so.

    ** How the code is modelled

    - A Go function is a Rocq function. One that may fail returns an [outcome]:
      a value, an error (its format string) or a panic. A method with a pointer
      receiver returns the new value. A function that changes the store takes
      and returns the [KVStore].
    - The state after an error is dropped, as the handlers run in a
      [CacheContext] and commit only when they succeed. The computations at the end
      of a block do not: those of [Effects.v] return the store with the error. An
      observed transaction drops the store of the internal handler that fails and goes
      on; what that handler gave to the gas manager, which is not part of the store, is
      dropped with it in the model, but not in the code.
    - [int], [int64] and [uint64] are [Z] with their wrap-around written out
      ([i64], [u64]); [cosmos.Uint], [cosmos.Dec] and [big.Int] are [Z] with the
      SDK's operations as parameters. [NewUint(n)] of a machine word is [n].
    - What is outside the repository is a class: [SdkUint], [SdkDec],
      [SdkAddress], [Semver], [SliceSort] (ties of [sort.Slice] are unspecified),
      [MapRange] (the order of a range over a Go map is unspecified),
      [PubKeyCodec], [CosmosBank] and a few more. Theorems assume only their
      laws; the witnesses use the reference instances.
    - Text is ASCII: case folding beyond it is not modelled. Logging, events and
      telemetry are left out, except the swap event that [swapOne] returns.
    - Functions that sort their arguments in place return the sorted arguments
      ([Coins_Equals], [Gas_Equals], [Tx_EqualsEx]). The voters compare
      observations without keeping that reordering.
    - Recursion is structural except for splitting a text ([split_all_fuel]),
      whose fuel is the length of the text: every step consumes a separator
      ([Assets.split_all_fuel_enough]); and for the division of affiliate fees and
      the check for cycles, which go down the hierarchy of names as deep as it
      goes. They take fuel and return [None] without it; the rank of the root is
      enough ([Affiliates.calculateAffiliateShares_returns],
      [NameHierarchy.manage_Run_returns]). The manager of outbound transactions
      treats a hierarchy deeper than its fuel as a panic.
    - Where a component calls one of a later file, or one that is not modelled, that is
      a class of operations ([SwapActions], [InternalHandlers]); the properties use the
      operations of the code ([SwapMarket.SwapQueueActions]) or hold for all that keep
      the conditions they state.
    - The invariant of the CACAO pool is kept by deposits and withdrawals; what
      the rewards add to its deposits is in [Rewards.UpdateNetwork_conserves], not in
      [CacaoPools.cacao_step].
    - A vault that is stored with the height 0 reads back as it is stored; the code reads
      the height of the block then, which no property looks at.

    ** Bounds

    Theorems about amounts state the range in which no operation of the SDK
    overflows: 10^17 for shares, 2^84 for the swap, score and unit formulas and for the blocks of swaps, 2^63 for
    one-sided withdrawals, 2^62 nodes for the
    majorities, 2^48 for the floating-point threshold. All are far above what the
    network can hold.

    ** Not modelled

    The order book, key generation and the metrics of key signing, the messages and
    handlers not named above (native deposits and transfers, errata, solvency), the slash for late signatures ([LackSigning]),
    churn and the liquidity owned by the protocol are not modelled.
    Memos are read as the current version reads them, with a keeper. The
    external-chain daemon ([bifrost/]), the commands and tools are mostly I/O
    and stay out, as do generated encoders and code kept to replay old blocks. *)
From Stdlib Require Export ZArith Lia Permutation Sorted Ascii.
From stdpp Require Export base tactics list strings gmap sorting.

#[export] Set Default Goal Selector "!".
#[global] Open Scope Z_scope.

(** ** Outcome of a Go call *)

(** A Go function that may fail returns one of three outcomes: a value, a
    non-nil [error] (kept as its format string), or a run-time panic that
    unwinds the caller. *)
Inductive outcome (A : Type) : Type :=
  | Ok (a : A)
  | Err (e : string)
  | Panic.
Arguments Ok {A} a.
Arguments Err {A} e.
Arguments Panic {A}.

#[export] Instance outcome_ret : MRet outcome := @Ok.
#[export] Instance outcome_bind : MBind outcome := fun A B f m =>
  match m with Ok a => f a | Err e => Err e | Panic => Panic end.
#[export] Instance outcome_fmap : FMap outcome := fun A B f m =>
  match m with Ok a => Ok (f a) | Err e => Err e | Panic => Panic end.

#[export] Instance outcome_eq_dec {A} `{EqDecision A} : EqDecision (outcome A).
Proof. solve_decision. Defined.

Definition is_ok {A} (m : outcome A) : bool :=
  match m with Ok _ => true | _ => false end.

Lemma bind_Ok {A B} (f : A -> outcome B) (m : outcome A) (b : B) :
  m ≫= f = Ok b <-> exists a, m = Ok a /\ f a = Ok b.
Proof.
  destruct m as [a| |]; cbn.
  - split; [by eauto|]. intros (a' & Ha & Hf). by simplify_eq.
  - split; [done|]. by intros (? & ? & ?).
  - split; [done|]. by intros (? & ? & ?).
Qed.

Lemma bind_assoc {A B C} (m : outcome A) (f : A -> outcome B) (g : B -> outcome C) :
  (m ≫= f) ≫= g = m ≫= (fun a => f a ≫= g).
Proof. by destruct m. Qed.

Lemma bind_ret {A} (m : outcome A) : m ≫= Ok = m.
Proof. by destruct m. Qed.

(** [invert_ok] turns a hypothesis [m = Ok v] about a monadic definition into
    the facts of its successful path. *)
Ltac invert_ok :=
  repeat match goal with
  | H : _ ≫= _ = Ok _ |- _ =>
      let a := fresh "v" in let Ha := fresh "Hv" in
      apply bind_Ok in H as (a & Ha & H)
  | H : Ok _ = Ok _ |- _ => injection H as H; try subst
  | H : Err _ = Ok _ |- _ => discriminate H
  | H : Panic = Ok _ |- _ => discriminate H
  | H : mret _ = Ok _ |- _ => injection H as H; try subst
  | H : (if ?b then _ else _) = Ok _ |- _ =>
      let E := fresh "Eb" in destruct b eqn:E; try discriminate H
  end.

(** ** Machine integers *)

(** Go's [int64] and [uint64] wrap around modulo 2^64 ([int] has 64 bits on
    every platform the node supports). *)
Definition i64 (z : Z) : Z := (z + 2 ^ 63) mod 2 ^ 64 - 2 ^ 63.
Definition u64 (z : Z) : Z := z mod 2 ^ 64.

Definition is_i64 (z : Z) : Prop := - 2 ^ 63 <= z < 2 ^ 63.
Definition is_u64 (z : Z) : Prop := 0 <= z < 2 ^ 64.

Lemma i64_id z : is_i64 z -> i64 z = z.
Proof. unfold is_i64, i64. intros. rewrite Z.mod_small; lia. Qed.

Lemma u64_id z : is_u64 z -> u64 z = z.
Proof. unfold is_u64, u64. intros. by rewrite Z.mod_small. Qed.

Lemma i64_range z : is_i64 (i64 z).
Proof. unfold is_i64, i64. pose proof (Z.mod_pos_bound (z + 2 ^ 63) (2 ^ 64)). lia. Qed.

(** Truncated division, as Go's [/] and [%] on non-negative operands. *)
Lemma quot_nonneg_bounds a b :
  0 <= a -> 0 < b -> b * Z.quot a b <= a < b * Z.quot a b + b.
Proof.
  intros. rewrite Z.quot_div_nonneg by lia.
  pose proof (Z.div_mod a b). pose proof (Z.mod_pos_bound a b). lia.
Qed.

Lemma quot_nonneg a b : 0 <= a -> 0 < b -> 0 <= Z.quot a b.
Proof. intros. rewrite Z.quot_div_nonneg by lia. by apply Z.div_pos. Qed.

Lemma quot_le_self a b : 0 <= a -> 0 < b -> Z.quot a b <= a.
Proof. intros. pose proof (quot_nonneg_bounds a b). pose proof (quot_nonneg a b). nia. Qed.

Lemma div_le_mul a b k : 0 <= a -> 0 <= k -> 0 < b -> k <= b -> a * k / b <= a.
Proof. intros. apply Z.div_le_upper_bound; nia. Qed.

Lemma abs_mul_le a b c d : Z.abs a <= c -> Z.abs b <= d -> Z.abs (a * b) <= c * d.
Proof. intros. rewrite Z.abs_mul. by apply Z.mul_le_mono_nonneg; lia. Qed.

Lemma mul_fits x y j k :
  0 <= x < 2 ^ j -> 0 <= y < 2 ^ k -> 0 <= j -> 0 <= k -> 0 <= x * y < 2 ^ (j + k).
Proof.
  intros. rewrite Z.pow_add_r by done.
  split; [apply Z.mul_nonneg_nonneg|apply Z.mul_lt_mono_nonneg]; lia.
Qed.

(** ** Rounding *)

(** [rounds_to n d q]: [q] is one of the two integers next to [n / d], and is
    the exact quotient when there is one. *)
Definition rounds_to (n d q : Z) : Prop :=
  n / d <= q <= n / d + 1 /\ (n mod d = 0 -> q = n / d).

Lemma rounds_to_exact n d q k : 0 < d -> n = k * d -> rounds_to n d q -> q = k.
Proof.
  intros Hd -> [_ H]. rewrite H; [by apply Z.div_mul; lia|]. apply Z.mod_mul; lia.
Qed.

Lemma rounds_to_le n d q m : 0 < d -> n <= m * d -> rounds_to n d q -> q <= m.
Proof.
  intros Hd Hn [[H1 H2] H3].
  destruct (Z.eq_dec (n mod d) 0) as [E|E].
  - rewrite H3 by done. apply Z.div_le_upper_bound; lia.
  - pose proof (Z.div_mod n d). pose proof (Z.mod_pos_bound n d). nia.
Qed.

Lemma rounds_to_ge n d q m : 0 < d -> m * d <= n -> rounds_to n d q -> m <= q.
Proof.
  intros Hd Hn [[H1 _] _]. etrans; [|exact H1]. apply Z.div_le_lower_bound; lia.
Qed.

Lemma rounds_to_nonneg n d q : 0 < d -> 0 <= n -> rounds_to n d q -> 0 <= q.
Proof. intros ? ? H. by eapply rounds_to_ge; [| |exact H]; lia. Qed.

(** The quotient is within one unit: |q * d - n| < d. *)
Lemma rounds_to_bounds n d q : 0 < d -> rounds_to n d q -> n - d < q * d <= n + d.
Proof.
  intros Hd [[H1 H2] _]. pose proof (Z.div_mod n d). pose proof (Z.mod_pos_bound n d). nia.
Qed.

(** Round half to even. *)
Definition half_even (n d : Z) : Z :=
  let q := n / d in let r := n mod d in
  if 2 * r <? d then q
  else if d <? 2 * r then q + 1
  else if Z.even q then q else q + 1.

Lemma half_even_rounds n d : 0 < d -> rounds_to n d (half_even n d).
Proof.
  intros Hd. unfold half_even, rounds_to.
  pose proof (Z.mod_pos_bound n d Hd).
  destruct (Z.ltb_spec (2 * (n mod d)) d); [lia|].
  destruct (Z.ltb_spec d (2 * (n mod d))); [lia|].
  destruct (Z.even (n / d)); lia.
Qed.

(** ** Loops over slices *)

(** [for i, x := range l { if p(x) { l[i] = f(x); return } }]: the first
    matching element is updated; [None] when the loop falls through. *)
Fixpoint upd_first {A} (p : A -> bool) (f : A -> outcome A) (l : list A)
  : outcome (option (list A)) :=
  match l with
  | [] => Ok None
  | x :: l' =>
      if p x then (x' ← f x; Ok (Some (x' :: l')))
      else (r ← upd_first p f l'; Ok (option_map (cons x) r))
  end.

(** [for i, x := range l { if p(x) { l = append(l[:i], l[i+1:]...); break } }] *)
Fixpoint remove_first {A} (p : A -> bool) (l : list A) : list A :=
  match l with
  | [] => []
  | x :: l' => if p x then l' else x :: remove_first p l'
  end.

(** The sum a [for] loop accumulates, mathematically. *)
Definition sumZ {A} (f : A -> Z) (l : list A) : Z := foldr (fun x s => f x + s) 0 l.

(** A [for] loop that threads a value and may panic or return an error. *)
Fixpoint foldM {A B} (f : B -> A -> outcome B) (b : B) (l : list A) : outcome B :=
  match l with
  | [] => Ok b
  | x :: l' => b' ← f b x; foldM f b' l'
  end.

(** A validation loop: [for _, x := range l { if err := f(x) ... return err }]. *)
Fixpoint forM_check {A} (f : A -> outcome unit) (l : list A) : outcome unit :=
  match l with
  | [] => Ok tt
  | x :: l' => _ ← f x; forM_check f l'
  end.

Section loops.
Context {A : Type}.
Implicit Types (p : A -> bool) (l : list A).

Lemma upd_first_None p f l :
  upd_first p f l = Ok None <-> Forall (fun x => p x = false) l.
Proof.
  induction l as [|x l IH]; cbn; [done|]. rewrite Forall_cons.
  destruct (p x) eqn:E.
  - split; [|by intros []]. by destruct (f x).
  - rewrite <- IH. destruct (upd_first p f l) as [[l'|]| |]; cbn;
      split; try done; by intros [].
Qed.

Lemma upd_first_Some p f l l' :
  upd_first p f l = Ok (Some l') <->
  exists l1 x l2 x', l = l1 ++ x :: l2 /\ Forall (fun y => p y = false) l1 /\
    p x = true /\ f x = Ok x' /\ l' = l1 ++ x' :: l2.
Proof.
  split.
  - revert l'. induction l as [|x l IH]; intros l' H; cbn in H; [done|].
    destruct (p x) eqn:E; invert_ok.
    + by exists [], x, l, v.
    + destruct v as [l2|]; simplify_eq/=.
      destruct (IH l2 Hv) as (l1 & y & l3 & y' & -> & ? & ? & ? & ->).
      exists (x :: l1), y, l3, y'. repeat split; auto.
  - intros (l1 & x & l2 & x' & -> & H1 & Hp & Hf & ->).
    induction H1 as [|y l1 Hy H1 IH]; cbn; [by rewrite Hp, Hf|].
    by rewrite Hy, IH.
Qed.

Lemma upd_first_total p f l :
  (forall x, In x l -> p x = true -> exists y, f x = Ok y) -> exists r, upd_first p f l = Ok r.
Proof.
  induction l as [|x l IH]; intros Hf; cbn; [by eexists|]. destruct (p x) eqn:E.
  - destruct (Hf x) as [y ->]; [by left|done|]. by eexists.
  - destruct IH as [r ->]; [|by eexists]. intros y Hy. apply Hf. by right.
Qed.

Lemma upd_first_ext p q f l : (forall x, p x = q x) -> upd_first p f l = upd_first q f l.
Proof. intros Hpq. induction l as [|x l IH]; cbn; [done|]. by rewrite Hpq, IH. Qed.

Lemma upd_first_length p f l l' :
  upd_first p f l = Ok (Some l') -> length l' = length l.
Proof.
  intros (l1 & x & l2 & x' & -> & _ & _ & _ & ->)%upd_first_Some.
  by rewrite !length_app.
Qed.

Lemma remove_first_split p l :
  Forall (fun x => p x = false) l /\ remove_first p l = l \/
  exists l1 x l2, l = l1 ++ x :: l2 /\ Forall (fun y => p y = false) l1 /\
    p x = true /\ remove_first p l = l1 ++ l2.
Proof.
  induction l as [|x l IH]; cbn; [by left|].
  destruct (p x) eqn:E; [by right; exists [], x, l|].
  destruct IH as [[H1 H2]|(l1 & y & l2 & -> & ? & ? & ->)].
  - left. rewrite H2. by auto.
  - right. exists (x :: l1), y, l2. auto.
Qed.

Lemma sumZ_app (f : A -> Z) l1 l2 : sumZ f (l1 ++ l2) = sumZ f l1 + sumZ f l2.
Proof. induction l1; cbn; unfold sumZ in *; lia. Qed.

Lemma sumZ_cons (f : A -> Z) x l : sumZ f (x :: l) = f x + sumZ f l.
Proof. done. Qed.

Lemma sumZ_nonneg (f : A -> Z) l : Forall (fun x => 0 <= f x) l -> 0 <= sumZ f l.
Proof. induction 1; cbn; unfold sumZ in *; lia. Qed.

Lemma existsb_Forall_false p l :
  existsb p l = false <-> Forall (fun x => p x = false) l.
Proof.
  induction l as [|x l IH]; cbn; [done|].
  rewrite orb_false_iff, IH, Forall_cons. done.
Qed.

Lemma forM_check_Ok (f : A -> outcome unit) l :
  forM_check f l = Ok tt <-> Forall (fun x => f x = Ok tt) l.
Proof.
  induction l as [|x l IH]; cbn; [done|]. rewrite Forall_cons, <- IH.
  destruct (f x) as [[]| |]; cbn; split; try done; by intros [].
Qed.
End loops.

(** [for _, x := range l { if !has(acc, x) { acc = append(acc, x) } }] *)
Definition distinct_by {A} (eqb : A -> A -> bool) (l : list A) : list A :=
  foldl (fun acc x => if existsb (fun y => eqb y x) acc then acc else acc ++ [x]) [] l.

Section distinct.
Context {A : Type} (eqb : A -> A -> bool).
Context (eqb_equiv : Equivalence (fun x y => eqb x y = true)).

Let step acc x := if existsb (fun y => eqb y x) acc then acc else acc ++ [x].

Lemma distinct_step_covers acc l x :
  existsb (fun y => eqb y x) (acc ++ l) = true ->
  existsb (fun y => eqb y x) (foldl step acc l) = true.
Proof.
  revert acc. induction l as [|z l IH]; intros acc; cbn; [by rewrite app_nil_r|].
  intros H. apply IH. rewrite existsb_app in *. cbn in H. unfold step.
  destruct (existsb (fun y => eqb y z) acc) eqn:E.
  - apply orb_true_iff in H as [->|[H|H]%orb_true_iff]; [done| |by rewrite H, orb_true_r].
    apply existsb_exists in E as (y & Hy & Hyz).
    rewrite (proj2 (existsb_exists _ acc)); [done|]. exists y. split; [done|].
    exact (Equivalence_Transitive (R := fun x y => eqb x y = true) y z x Hyz H).
  - rewrite existsb_app. cbn. by rewrite orb_false_r, <- orb_assoc.
Qed.

Lemma distinct_step_incl acc l x : In x (foldl step acc l) -> In x acc \/ In x l.
Proof.
  revert acc. induction l as [|z l IH]; intros acc; cbn; [by left|].
  intros [H|H]%IH; [|by right; right]. unfold step in H.
  destruct (existsb _ acc); [by left|]. apply in_app_or in H as [H|[<-|[]]]; auto.
Qed.

Lemma distinct_step_pairwise acc l :
  ForallOrdPairs (fun y x => eqb y x = false) acc ->
  ForallOrdPairs (fun y x => eqb y x = false) (foldl step acc l).
Proof.
  revert acc. induction l as [|z l IH]; intros acc Hacc; cbn; [done|].
  apply IH. unfold step. destruct (existsb _ acc) eqn:E; [done|].
  apply existsb_Forall_false in E. clear IH.
  induction Hacc as [|y acc Hy Hacc IHacc]; [by repeat constructor|].
  apply Forall_cons in E as [Ey E]. cbn. constructor; [|by apply IHacc].
  apply Forall_app. split; [done|]. by apply Forall_singleton.
Qed.

(** The result has no two equal elements, holds only elements of the input,
    and represents every element of the input. *)
Lemma distinct_by_spec l :
  ForallOrdPairs (fun y x => eqb y x = false) (distinct_by eqb l) /\
  (forall x, In x (distinct_by eqb l) -> In x l) /\
  (forall x, In x l -> existsb (fun y => eqb y x) (distinct_by eqb l) = true).
Proof.
  split; [|split].
  - apply (distinct_step_pairwise [] l). constructor.
  - intros x [[]|H]%(distinct_step_incl [] l); done.
  - intros x H. apply (distinct_step_covers [] l). cbn.
    apply existsb_exists. exists x. split; [done|].
    exact (Equivalence_Reflexive (R := fun x y => eqb x y = true) x).
Qed.
End distinct.

(** ** Sums over finite maps *)

Section map_sum.
Context {K V : Type} `{Countable K} (f : K -> V -> Z).

Definition map_sum (m : gmap K V) : Z := sumZ (fun kv => f (fst kv) (snd kv)) (map_to_list m).

Lemma sumZ_perm {X} (g : X -> Z) l l' : Permutation l l' -> sumZ g l = sumZ g l'.
Proof. induction 1; cbn; unfold sumZ in *; lia. Qed.

#[export] Instance sumZ_proper {X} (g : X -> Z) : Proper (Permutation ==> eq) (sumZ g).
Proof. intros l l'. apply sumZ_perm. Qed.

Lemma map_sum_empty : map_sum ∅ = 0.
Proof. unfold map_sum. by rewrite map_to_list_empty. Qed.

Lemma map_sum_insert_new m i x : m !! i = None -> map_sum (<[i := x]> m) = f i x + map_sum m.
Proof. intros Hi. unfold map_sum. by rewrite (sumZ_perm _ _ _ (map_to_list_insert m i x Hi)). Qed.

Lemma map_sum_lookup m i x : m !! i = Some x -> map_sum m = f i x + map_sum (delete i m).
Proof.
  intros Hi. rewrite <- (insert_delete_id m i x Hi) at 1.
  apply map_sum_insert_new, lookup_delete_eq.
Qed.

Lemma map_sum_insert m i x :
  map_sum (<[i := x]> m) = map_sum m - from_option (f i) 0 (m !! i) + f i x.
Proof.
  destruct (m !! i) as [y|] eqn:Hi; cbn.
  - rewrite <- insert_delete_eq, map_sum_insert_new by apply lookup_delete_eq.
    rewrite (map_sum_lookup m i y Hi). lia.
  - rewrite map_sum_insert_new by done. lia.
Qed.

Lemma map_sum_nonneg m : (forall i x, m !! i = Some x -> 0 <= f i x) -> 0 <= map_sum m.
Proof.
  intros Hf. apply sumZ_nonneg, Forall_forall. intros [i x] Hix%elem_of_map_to_list. by apply Hf.
Qed.

(** One entry is part of the sum. *)
Lemma map_sum_entry m i x :
  (forall j y, m !! j = Some y -> 0 <= f j y) -> m !! i = Some x -> f i x <= map_sum m.
Proof.
  intros Hf Hi. rewrite (map_sum_lookup m i x Hi).
  assert (0 <= map_sum (delete i m)); [|lia]. apply map_sum_nonneg.
  intros j y [_ Hj]%lookup_delete_Some. by apply Hf.
Qed.
End map_sum.

(** ** [sort.SliceStable] *)

(** The stable sort is determined by its comparison, so it is modelled by
    insertion sort. *)
Fixpoint insert_stable {A} (less : A -> A -> bool) (x : A) (l : list A) : list A :=
  match l with
  | [] => [x]
  | y :: l' => if less y x then y :: insert_stable less x l' else x :: y :: l'
  end.

Definition stable_sort {A} (less : A -> A -> bool) (l : list A) : list A :=
  foldr (insert_stable less) [] l.

Section stable_sort.
Context {A : Type} (less : A -> A -> bool).

Lemma insert_stable_perm x l : Permutation (insert_stable less x l) (x :: l).
Proof.
  induction l as [|y l IH]; cbn; [done|].
  destruct (less y x); [|done]. rewrite IH. constructor.
Qed.

Lemma stable_sort_perm l : Permutation (stable_sort less l) l.
Proof. induction l as [|x l IH]; cbn; [done|]. by rewrite insert_stable_perm, IH. Qed.

Lemma stable_sort_length l : length (stable_sort less l) = length l.
Proof. apply Permutation_length, stable_sort_perm. Qed.

(** Adjacent elements of the result are never out of order. *)
Context (less_asym : forall x y, less x y = true -> less y x = false).

Lemma insert_stable_sorted x l :
  Sorted (fun a b => less b a = false) l ->
  Sorted (fun a b => less b a = false) (insert_stable less x l).
Proof.
  induction 1 as [|y l Hl IH Hy]; cbn; [by repeat constructor|].
  destruct (less y x) eqn:E.
  - constructor; [done|]. destruct l as [|z l]; cbn.
    + constructor. by apply less_asym.
    + inversion Hy; subst. destruct (less z x); constructor; [done|]. by apply less_asym.
  - by repeat constructor.
Qed.

Lemma stable_sort_sorted l : Sorted (fun a b => less b a = false) (stable_sort less l).
Proof. induction l; cbn; [constructor|]. by apply insert_stable_sorted. Qed.

(** Elements that compare as equal keep an order [R] they were in. *)
Context (less_trans : forall x y z, less y x = false -> less z y = false -> less z x = false).
Context (R : A -> A -> Prop).

Definition lex (a b : A) : Prop := less b a = false /\ (less a b = false -> R a b).

Lemma insert_stable_lex x l :
  Forall (R x) l -> StronglySorted lex l -> StronglySorted lex (insert_stable less x l).
Proof.
  intros HR H. induction H as [|y l Hl IH Hy]; cbn; [by repeat constructor|].
  apply Forall_cons in HR as [Hxy HR]. destruct (less y x) eqn:E.
  - constructor; [by apply IH|]. rewrite insert_stable_perm. constructor; [|done].
    split; [by apply less_asym|congruence].
  - constructor; [by constructor|]. constructor; [done|].
    apply Forall_forall. intros z Hz. rewrite Forall_forall in Hy, HR.
    destruct (Hy z Hz) as [Hzy _]. split; [by eapply less_trans|]. intros _. by apply HR.
Qed.

Lemma stable_sort_lex l : StronglySorted R l -> StronglySorted lex (stable_sort less l).
Proof.
  induction 1 as [|x l Hl IH Hx]; cbn; [constructor|].
  apply insert_stable_lex; [|done]. fold (stable_sort less l). by rewrite stable_sort_perm.
Qed.
End stable_sort.

Lemma StronglySorted_weaken {A} (R S : A -> A -> Prop) l :
  (forall x y, R x y -> S x y) -> StronglySorted R l -> StronglySorted S l.
Proof.
  intros HRS. induction 1 as [|x l Hl IH Hx]; constructor; [done|].
  eapply Forall_impl; [exact Hx|]. intros y. apply HRS.
Qed.

(** ** Automation *)

Create HintDb maya.
Create Rewrite HintDb maya.
#[export] Hint Resolve i64_range quot_nonneg sumZ_nonneg : maya.
#[export] Hint Rewrite @sumZ_app @sumZ_cons : maya.
