(* ===== verification/GoText.v ===== *)
(** Go's [strings] package on ASCII text: the functions the [common] package
    uses to normalise, compare and split identifiers. Text is a [string] of
    bytes; the model speaks about ASCII text, where [ToUpper], [EqualFold] and
    [TrimSpace] act byte by byte. *)
From S2P Require Import Prelude.

(** ** Characters *)

Definition is_lower (c : ascii) : bool :=
  let n := nat_of_ascii c in (97 <=? n)%nat && (n <=? 122)%nat.
Definition is_upper (c : ascii) : bool :=
  let n := nat_of_ascii c in (65 <=? n)%nat && (n <=? 90)%nat.
Definition is_digit (c : ascii) : bool :=
  let n := nat_of_ascii c in (48 <=? n)%nat && (n <=? 57)%nat.
(** The ASCII characters [unicode.IsSpace] accepts. *)
Definition is_space (c : ascii) : bool :=
  let n := nat_of_ascii c in ((9 <=? n)%nat && (n <=? 13)%nat) || (n =? 32)%nat.

Definition upper_ascii (c : ascii) : ascii :=
  if is_lower c then ascii_of_nat (nat_of_ascii c - 32) else c.
Definition lower_ascii (c : ascii) : ascii :=
  if is_upper c then ascii_of_nat (nat_of_ascii c + 32) else c.

(** ** Strings *)

Fixpoint str_map (f : ascii -> ascii) (s : string) : string :=
  match s with
  | EmptyString => EmptyString
  | String c s' => String (f c) (str_map f s')
  end.

Fixpoint str_forallb (p : ascii -> bool) (s : string) : bool :=
  match s with
  | EmptyString => true
  | String c s' => p c && str_forallb p s'
  end.

Definition ToUpper : string -> string := str_map upper_ascii.
Definition ToLower : string -> string := str_map lower_ascii.

(** [strings.EqualFold] *)
Definition EqualFold (s t : string) : bool := String.eqb (ToUpper s) (ToUpper t).

(** [strings.TrimSpace(s) == ""] *)
Definition is_blank (s : string) : bool := str_forallb is_space s.

(** [len(s)], in bytes. *)
Definition str_len (s : string) : Z := Z.of_nat (String.length s).

(** [strings.HasPrefix(s, p)] *)
Definition HasPrefix (s p : string) : bool := String.prefix p s.

(** [strings.HasSuffix(s, p)] *)
Fixpoint HasSuffix (s p : string) : bool :=
  String.eqb s p || match s with EmptyString => false | String _ s' => HasSuffix s' p end.

(** [strings.SplitN(s, sep, 2)] for a one-character separator: the part before
    the first separator and, when there is one, everything after it. *)
Fixpoint split_at (sep : ascii) (s : string) : string * option string :=
  match s with
  | EmptyString => (EmptyString, None)
  | String c s' =>
      if Ascii.eqb c sep then (EmptyString, Some s')
      else let '(h, t) := split_at sep s' in (String c h, t)
  end.

(** The leftmost character of [s] that satisfies [p] ([Regexp.FindString] for
    a one-character class). *)
Fixpoint find_char (p : ascii -> bool) (s : string) : option ascii :=
  match s with
  | EmptyString => None
  | String c s' => if p c then Some c else find_char p s'
  end.

(** [strings.Contains(s, c)] for a one-character [c]. *)
Definition contains_char (c : ascii) (s : string) : bool :=
  negb (str_forallb (fun d => negb (Ascii.eqb d c)) s).

(** [strings.Join] *)
Definition Join (sep : string) (l : list string) : string := String.concat sep l.

(** ** Byte-wise order of Go strings ([s < t]) *)
Definition str_ltb (s t : string) : bool := String.ltb s t.

(** ** Lemmas *)

(** A property of all 256 characters is decided by enumeration. *)
Lemma ascii_ind_bool (p : ascii -> bool) :
  forallb (fun n => p (ascii_of_nat n)) (List.seq 0 256) = true ->
  forall c, p c = true.
Proof.
  intros H c. rewrite <- (ascii_nat_embedding c).
  rewrite forallb_forall in H. apply H, in_seq.
  pose proof (nat_ascii_bounded c). lia.
Qed.

Lemma upper_ascii_idem c : upper_ascii (upper_ascii c) = upper_ascii c.
Proof.
  apply Ascii.eqb_eq. revert c.
  apply (ascii_ind_bool (fun c => Ascii.eqb (upper_ascii (upper_ascii c)) (upper_ascii c))).
  by vm_compute.
Qed.

Lemma upper_ascii_upper c : is_upper c = true -> upper_ascii c = c.
Proof.
  intros H. apply Ascii.eqb_eq.
  pose proof (ascii_ind_bool
    (fun c => implb (is_upper c) (Ascii.eqb (upper_ascii c) c)) eq_refl c) as Hc.
  cbn beta in Hc. by rewrite H in Hc.
Qed.

Lemma str_app_length s t : String.length (s +:+ t) = (String.length s + String.length t)%nat.
Proof. induction s; cbn; [done|]. by rewrite <- IHs. Qed.

Lemma str_map_length f s : String.length (str_map f s) = String.length s.
Proof. induction s; cbn; congruence. Qed.

Lemma str_app_cons c s t : String c s +:+ t = String c (s +:+ t).
Proof. done. Qed.

Lemma str_app_nil t : "" +:+ t = t.
Proof. done. Qed.

Ltac str_simp := rewrite ?str_app_cons, ?str_app_nil in *; cbn.

Lemma str_map_app f s t : str_map f (s +:+ t) = str_map f s +:+ str_map f t.
Proof. induction s; [done|]. str_simp. by rewrite IHs. Qed.

Lemma str_forallb_app p s t : str_forallb p (s +:+ t) = str_forallb p s && str_forallb p t.
Proof. induction s; [done|]. str_simp. by rewrite IHs, andb_assoc. Qed.

Lemma str_forallb_impl (p q : ascii -> bool) s :
  (forall c, p c = true -> q c = true) -> str_forallb p s = true -> str_forallb q s = true.
Proof.
  intros Hpq. induction s; cbn; [done|].
  rewrite !andb_true_iff. intros []; auto.
Qed.

Lemma str_forallb_ext p q s : (forall c, p c = q c) -> str_forallb p s = str_forallb q s.
Proof. intros H. induction s; cbn; congruence. Qed.

Lemma str_forallb_map p f s :
  str_forallb p (str_map f s) = str_forallb (fun c => p (f c)) s.
Proof. induction s; cbn; congruence. Qed.

Lemma ToUpper_idem s : ToUpper (ToUpper s) = ToUpper s.
Proof. unfold ToUpper. induction s; cbn; [done|]. by rewrite upper_ascii_idem, IHs. Qed.

Lemma ToUpper_upper s : str_forallb is_upper s = true -> ToUpper s = s.
Proof.
  unfold ToUpper. induction s; cbn; [done|].
  rewrite andb_true_iff. intros []. rewrite upper_ascii_upper by done. by f_equal; auto.
Qed.

Lemma ToLower_ToUpper s : ToLower (ToUpper s) = ToLower s.
Proof.
  unfold ToLower, ToUpper. induction s as [|c s IH]; cbn; [done|]. rewrite IH. f_equal.
  apply Ascii.eqb_eq. revert c.
  apply (ascii_ind_bool (fun c => Ascii.eqb (lower_ascii (upper_ascii c)) (lower_ascii c))).
  by vm_compute.
Qed.

(** Strings without a capital are told apart by their capitals. *)
Lemma ToUpper_lower_inj s t : ToLower s = s -> ToLower t = t -> ToUpper s = ToUpper t -> s = t.
Proof. intros Hs Ht H. by rewrite <- Hs, <- Ht, <- ToLower_ToUpper, H, ToLower_ToUpper. Qed.

Lemma EqualFold_spec s t : EqualFold s t = true <-> ToUpper s = ToUpper t.
Proof. apply String.eqb_eq. Qed.

Lemma EqualFold_refl s : EqualFold s s = true.
Proof. by apply EqualFold_spec. Qed.

Lemma EqualFold_sym s t : EqualFold s t = EqualFold t s.
Proof. unfold EqualFold. apply String.eqb_sym. Qed.

Lemma EqualFold_ToUpper s t : EqualFold (ToUpper s) (ToUpper t) = EqualFold s t.
Proof. unfold EqualFold. by rewrite !ToUpper_idem. Qed.

(** Splitting at the first separator and gluing back. *)
Lemma split_at_None sep s h : split_at sep s = (h, None) -> h = s.
Proof.
  revert h. induction s as [|c s IH]; cbn; intros h H; [by simplify_eq|].
  destruct (Ascii.eqb c sep); [done|].
  destruct (split_at sep s) as [h' t']; simplify_eq. f_equal. by apply IH.
Qed.

Lemma split_at_app sep h t :
  str_forallb (fun c => negb (Ascii.eqb c sep)) h = true ->
  split_at sep (h +:+ String sep t) = (h, Some t).
Proof.
  induction h as [|c h IH]; str_simp; [by rewrite Ascii.eqb_refl|].
  rewrite andb_true_iff, negb_true_iff. intros [-> Hh]. by rewrite IH.
Qed.

Lemma split_at_Some sep s h t :
  split_at sep s = (h, Some t) ->
  s = h +:+ String sep t /\ str_forallb (fun c => negb (Ascii.eqb c sep)) h = true.
Proof.
  revert h t. induction s as [|c s IH]; cbn; intros h t H; [done|].
  destruct (Ascii.eqb c sep) eqn:E.
  - apply Ascii.eqb_eq in E. by simplify_eq.
  - destruct (split_at sep s) as [h' t'] eqn:Hs; simplify_eq.
    destruct (IH h' t eq_refl) as [-> Hh]. cbn. by rewrite E, Hh.
Qed.

(** Upper-casing commutes with splitting at a separator that is not a letter. *)
Lemma split_at_upper sep s :
  (forall c, Ascii.eqb (upper_ascii c) sep = Ascii.eqb c sep) ->
  split_at sep (ToUpper s) =
  (ToUpper (fst (split_at sep s)), option_map ToUpper (snd (split_at sep s))).
Proof.
  intros Hsep. unfold ToUpper. induction s as [|c s IH]; cbn; [done|].
  rewrite Hsep. destruct (Ascii.eqb c sep); [done|].
  rewrite IH. by destruct (split_at sep s).
Qed.

Lemma find_char_app p s t :
  str_forallb (fun c => negb (p c)) s = true ->
  find_char p (s +:+ t) = find_char p t.
Proof.
  induction s as [|c s IH]; str_simp; [done|].
  rewrite andb_true_iff, negb_true_iff. intros [-> ?]. auto.
Qed.

Lemma str_app_assoc (s t u : string) : (s +:+ t) +:+ u = s +:+ (t +:+ u).
Proof. induction s; [done|]. str_simp. by rewrite IHs. Qed.

Lemma str_app_inj_r (s t u : string) : s +:+ t = s +:+ u -> t = u.
Proof. induction s; [done|]. str_simp. intros. simplify_eq. auto. Qed.

#[export] Hint Rewrite ToUpper_idem EqualFold_ToUpper EqualFold_refl : maya.

(** ** The order of Go strings is total *)

Lemma ascii_compare_spec a b :
  Ascii.compare a b = N.compare (N_of_ascii a) (N_of_ascii b).
Proof. done. Qed.

Lemma str_ltb_antisym s t : str_ltb s t = false -> str_ltb t s = false -> s = t.
Proof.
  unfold str_ltb, String.ltb. intros H1 H2. apply String.compare_eq_iff.
  rewrite String.compare_antisym in H2. by destruct (String.compare s t).
Qed.

Lemma str_nlt_trans s t u : str_ltb t s = false -> str_ltb u t = false -> str_ltb u s = false.
Proof.
  unfold str_ltb, String.ltb. revert t u.
  induction s as [|a s IH]; intros [|b t] [|c u]; cbn; try done.
  rewrite !ascii_compare_spec.
  destruct (N.compare_spec (N_of_ascii b) (N_of_ascii a)),
    (N.compare_spec (N_of_ascii c) (N_of_ascii b)),
    (N.compare_spec (N_of_ascii c) (N_of_ascii a)); try done; try lia.
  apply IH.
Qed.

(** The part after the last separator determines the one before. *)
Lemma contains_char_app c s t : contains_char c (s +:+ t) = contains_char c s || contains_char c t.
Proof. unfold contains_char. by rewrite str_forallb_app, negb_andb. Qed.

Lemma last_sep_inj c a a' b b' :
  contains_char c b = false -> contains_char c b' = false ->
  a +:+ String c b = a' +:+ String c b' -> a = a' /\ b = b'.
Proof.
  assert (Hc : forall s t, contains_char c (s +:+ String c t) = true).
  { intros s t. rewrite contains_char_app. unfold contains_char at 2. cbn.
    rewrite Ascii.eqb_refl. cbn. by rewrite orb_true_r. }
  intros Hb Hb'. revert a'. induction a as [|x a IH]; intros [|y a']; str_simp; intros E.
  - by injection E.
  - injection E as <- ->. by rewrite Hc in Hb.
  - injection E as -> <-. by rewrite Hc in Hb'.
  - injection E as <- E. by destruct (IH _ E) as [-> ->].
Qed.

Lemma contains_slash_ToUpper s : contains_char "/" (ToUpper s) = contains_char "/" s.
Proof.
  unfold contains_char, ToUpper. f_equal. induction s as [|x s IH]; [done|]. cbn. rewrite IH. f_equal.
  apply eqb_prop. revert x. apply ascii_ind_bool. by vm_compute.
Qed.
