(* ===== verification/Sdk.v ===== *)
(** The Cosmos SDK number and address types, as an interface. [sdk.Uint],
    [sdk.Int], [sdk.Dec] and [sdk.AccAddress] live outside this repository
    (package [cosmos] only aliases them), so every definition that computes
    with them takes them as a parameter, and what the code relies on is stated
    as a class of laws. [Reference] gives one concrete instance of every
    interface, used to evaluate the model on concrete inputs. *)
From S2P Require Import Prelude GoText.

(** ** Unsigned 256-bit integers *)

(** A [Uint] is the integer it holds. Each operation may panic. *)
Class SdkUint := {
  uint_add : Z -> Z -> outcome Z;       (* Uint.Add *)
  uint_sub : Z -> Z -> outcome Z;       (* Uint.Sub *)
  uint_mul : Z -> Z -> outcome Z;       (* Uint.Mul *)
  uint_quo : Z -> Z -> outcome Z;       (* Uint.Quo *)
  uint_mul64 : Z -> Z -> outcome Z;     (* Uint.MulUint64 *)
  uint_quo64 : Z -> Z -> outcome Z;     (* Uint.QuoUint64 *)
  uint_of_big : Z -> outcome Z;         (* NewUintFromBigInt *)
}.

Definition is_uint (z : Z) : Prop := 0 <= z < 2 ^ 256.

(** The documented contract: the result is the exact integer when it is in
    [0, 2^256), and the operation panics on overflow, on underflow and on a
    division by zero. *)
Definition checked (z : Z) : outcome Z :=
  if (0 <=? z) && (z <? 2 ^ 256) then Ok z else Panic.

Definition checked_quo (a b : Z) : outcome Z :=
  if b =? 0 then Panic else checked (Z.quot a b).

Class SdkUintLaws (U : SdkUint) : Prop := {
  uint_add_law : forall a b, uint_add a b = checked (a + b);
  uint_sub_law : forall a b, uint_sub a b = checked (a - b);
  uint_mul_law : forall a b, uint_mul a b = checked (a * b);
  uint_quo_law : forall a b, uint_quo a b = checked_quo a b;
  uint_mul64_law : forall a b, uint_mul64 a b = checked (a * b);
  uint_quo64_law : forall a b, uint_quo64 a b = checked_quo a b;
  uint_of_big_law : forall a, uint_of_big a = checked a;
}.

(** ** Decimals *)

(** A [Dec] is the integer it stores, i.e. its value times 10^18. *)
Definition prec : Z := 10 ^ 18.

Class SdkDec := {
  dec_of_uint_str : Z -> outcome Z;     (* NewDecFromStr(u.String()) *)
  dec_of_big : Z -> Z;                  (* NewDecFromBigInt *)
  dec_of_int : Z -> Z;                  (* NewDec, on an int64 *)
  dec_add : Z -> Z -> outcome Z;        (* Dec.Add *)
  dec_sub : Z -> Z -> outcome Z;        (* Dec.Sub *)
  dec_mul : Z -> Z -> outcome Z;        (* Dec.Mul *)
  dec_quo : Z -> Z -> outcome Z;        (* Dec.Quo *)
  dec_round_int : Z -> outcome Z;       (* Dec.RoundInt().BigInt() *)
  dec_round_int64 : Z -> outcome Z;     (* Dec.RoundInt64 *)
  dec_truncate_int : Z -> outcome Z;    (* Dec.TruncateInt().BigInt() *)
}.

(** Results must fit in 255 + 60 bits, decimals being 60 bits wide. *)
Definition dec_limit : Z := 2 ^ 315.

(** The documented contract, on non-negative operands: conversions and [Add]
    and [Sub] are exact, [Mul], [Quo] and [RoundInt] round to a neighbour and
    are exact when the result is representable, [TruncateInt] rounds down, and
    each returns when its result fits. *)
Class SdkDecLaws (D : SdkDec) : Prop := {
  dec_of_uint_str_law : forall z, 0 <= z < 2 ^ 255 -> dec_of_uint_str z = Ok (z * prec);
  dec_of_uint_str_exact : forall z d, dec_of_uint_str z = Ok d -> d = z * prec;
  dec_of_big_law : forall z, dec_of_big z = z * prec;
  dec_of_int_law : forall z, dec_of_int z = z * prec;
  dec_add_exact : forall a b c, dec_add a b = Ok c -> c = a + b;
  dec_add_total : forall a b, 0 <= a -> 0 <= b -> a + b < dec_limit -> dec_add a b = Ok (a + b);
  dec_sub_exact : forall a b c, dec_sub a b = Ok c -> c = a - b;
  dec_sub_total : forall a b, 0 <= b <= a -> a < dec_limit -> dec_sub a b = Ok (a - b);
  dec_mul_rounds : forall a b c, 0 <= a -> 0 <= b -> dec_mul a b = Ok c ->
    rounds_to (a * b) prec c;
  dec_mul_total : forall a b, 0 <= a -> 0 <= b -> a * b / prec + 1 < dec_limit ->
    exists c, dec_mul a b = Ok c;
  dec_quo_by_zero : forall a, dec_quo a 0 = Panic;
  dec_quo_rounds : forall a b c, 0 <= a -> 0 < b -> dec_quo a b = Ok c ->
    rounds_to (a * prec) b c;
  dec_quo_total : forall a b, 0 <= a -> 0 < b -> a * prec / b + 1 < dec_limit ->
    exists c, dec_quo a b = Ok c;
  dec_round_int_rounds : forall a c, 0 <= a -> dec_round_int a = Ok c -> rounds_to a prec c;
  dec_round_int_total : forall a, 0 <= a -> a / prec + 1 < 2 ^ 255 ->
    exists c, dec_round_int a = Ok c;
  dec_round_int64_rounds : forall a c, 0 <= a -> dec_round_int64 a = Ok c -> rounds_to a prec c;
  dec_round_int64_total : forall a, 0 <= a -> a / prec + 1 < 2 ^ 63 ->
    exists c, dec_round_int64 a = Ok c;
  dec_truncate_int_law : forall a, 0 <= a -> a / prec < 2 ^ 255 ->
    dec_truncate_int a = Ok (a / prec);
  dec_truncate_int_exact : forall a c, 0 <= a -> dec_truncate_int a = Ok c -> c = a / prec;
}.

(** ** Account addresses *)

(** An [AccAddress] is its bytes. *)
Abbreviation AccAddress := string (only parsing).

Class SdkAddress := {
  acc_equals : AccAddress -> AccAddress -> bool;   (* AccAddress.Equals *)
  acc_empty : AccAddress -> bool;                  (* AccAddress.Empty *)
  acc_string : AccAddress -> string;               (* AccAddress.String *)
  acc_from_bech32 : string -> option AccAddress;   (* AccAddressFromBech32 *)
}.

(** Addresses of at most 255 bytes print to a Bech32 string that parses back. *)
Definition acc_wf (a : AccAddress) : Prop := a <> EmptyString /\ (String.length a <= 255)%nat.

Class SdkAddressLaws (A : SdkAddress) : Prop := {
  acc_equals_law : forall a b, acc_equals a b = true <-> a = b;
  acc_empty_law : forall a, acc_empty a = true <-> a = EmptyString;
  acc_roundtrip : forall a, acc_wf a -> acc_from_bech32 (acc_string a) = Some a;
}.

(** ** Semantic versions *)

(** [semver.Version] with [GTE], and the version [MustParse] reads from a
    release string "major.minor.patch". *)
Class Semver := {
  Version : Type;
  semver_release : Z -> Z -> Z -> Version;
  GTE : Version -> Version -> bool;
}.

Class SemverLaws (V : Semver) : Prop := {
  GTE_refl : forall v, GTE v v = true;
  GTE_trans : forall u v w, GTE u v = true -> GTE v w = true -> GTE u w = true;
  GTE_total : forall u v, GTE u v = true \/ GTE v u = true;
  GTE_release : forall a b c a' b' c',
    GTE (semver_release a b c) (semver_release a' b' c') = true <->
    a' < a \/ a' = a /\ (b' < b \/ b' = b /\ c' <= c);
}.

(** ** [sort.Slice] *)

(** [sort.Slice] orders by its comparison and leaves the order of equal
    elements unspecified, so the sort is a parameter. *)
Class SliceSort := {
  sort_slice : forall {A}, (A -> A -> bool) -> list A -> list A;
}.

Class SliceSortLaws (S : SliceSort) : Prop := {
  sort_slice_perm : forall A (less : A -> A -> bool) l, Permutation (sort_slice less l) l;
  sort_slice_sorted : forall A (key : A -> string) l,
    Sorted (fun a b => str_ltb (key b) (key a) = false)
      (sort_slice (fun a b => str_ltb (key a) (key b)) l);
}.

Lemma sorted_keys_unique (l l' : list string) :
  Sorted (fun a b => str_ltb b a = false) l -> Sorted (fun a b => str_ltb b a = false) l' ->
  Permutation l l' -> l = l'.
Proof.
  intros H H'. assert (Transitive (fun a b => str_ltb b a = false)).
  { intros x y z. apply str_nlt_trans. }
  apply Sorted_StronglySorted in H; [|done]. apply Sorted_StronglySorted in H'; [|done].
  apply (StronglySorted_unique_strong (fun a b => str_ltb b a = false)); [|done..].
  intros x y _ _ Hxy Hyx. by apply str_ltb_antisym.
Qed.

Lemma Sorted_map {A B} (f : A -> B) (R : B -> B -> Prop) l :
  Sorted (fun a b => R (f a) (f b)) l -> Sorted R (map f l).
Proof.
  induction 1 as [|x l Hl IH Hx]; cbn; constructor; [done|].
  by destruct Hx; constructor.
Qed.

(** ** Derived facts *)

Section uint_facts.
Context {U : SdkUint} {UL : SdkUintLaws U}.

Lemma checked_Ok z r : checked z = Ok r <-> r = z /\ is_uint z.
Proof.
  unfold checked, is_uint. destruct (_ && _) eqn:E.
  - apply andb_true_iff in E as [?%Z.leb_le ?%Z.ltb_lt]. split; [|by intros [-> _]].
    intros [= ->]. lia.
  - apply andb_false_iff in E. split; [done|]. intros [_ ?].
    destruct E as [?%Z.leb_gt|?%Z.ltb_ge]; lia.
Qed.

Lemma checked_no_Err z e : checked z <> Err e.
Proof. unfold checked. by destruct (_ && _). Qed.

Lemma checked_in z : is_uint z -> checked z = Ok z.
Proof. intros. by apply checked_Ok. Qed.

Lemma checked_quo_Ok a b r :
  0 <= a -> 0 <= b -> checked_quo a b = Ok r <-> 0 < b /\ r = a / b /\ is_uint (a / b).
Proof.
  unfold checked_quo. intros Ha Hb. destruct (Z.eqb_spec b 0) as [->|?].
  - split; [done|]. lia.
  - rewrite Z.quot_div_nonneg, checked_Ok by lia. intuition lia.
Qed.

Lemma uint_add_no_Err a b e : uint_add a b <> Err e.
Proof. rewrite uint_add_law. apply checked_no_Err. Qed.

Lemma uint_sub_no_Err a b e : uint_sub a b <> Err e.
Proof. rewrite uint_sub_law. apply checked_no_Err. Qed.

Lemma uint_add_Ok a b r : uint_add a b = Ok r <-> r = a + b /\ is_uint (a + b).
Proof. rewrite uint_add_law. apply checked_Ok. Qed.
Lemma uint_sub_Ok a b r : uint_sub a b = Ok r <-> r = a - b /\ is_uint (a - b).
Proof. rewrite uint_sub_law. apply checked_Ok. Qed.
Lemma uint_mul_Ok a b r : uint_mul a b = Ok r <-> r = a * b /\ is_uint (a * b).
Proof. rewrite uint_mul_law. apply checked_Ok. Qed.
Lemma uint_mul64_Ok a b r : uint_mul64 a b = Ok r <-> r = a * b /\ is_uint (a * b).
Proof. rewrite uint_mul64_law. apply checked_Ok. Qed.
Lemma uint_of_big_Ok a r : uint_of_big a = Ok r <-> r = a /\ is_uint a.
Proof. rewrite uint_of_big_law. apply checked_Ok. Qed.
Lemma uint_quo_Ok a b r : 0 <= a -> 0 <= b ->
  uint_quo a b = Ok r <-> 0 < b /\ r = a / b /\ is_uint (a / b).
Proof. rewrite uint_quo_law. apply checked_quo_Ok. Qed.
Lemma uint_quo64_Ok a b r : 0 <= a -> 0 <= b ->
  uint_quo64 a b = Ok r <-> 0 < b /\ r = a / b /\ is_uint (a / b).
Proof. rewrite uint_quo64_law. apply checked_quo_Ok. Qed.

Lemma is_uint_div a b : is_uint a -> 0 < b -> is_uint (a / b).
Proof.
  unfold is_uint. intros. split; [by apply Z.div_pos; lia|].
  apply Z.div_lt_upper_bound; nia.
Qed.
End uint_facts.

(** A 255-bit integer is far from the limit of decimals. *)
Lemma scaled_fits z : 0 <= z < 2 ^ 255 -> z * prec + 1 < dec_limit.
Proof. unfold prec, dec_limit. lia. Qed.

(** ** A reference instance *)

Module Reference.
Definition fits (lim z : Z) : outcome Z := if Z.abs z <? lim then Ok z else Panic.

#[export] Instance uint : SdkUint := {|
  uint_add a b := checked (a + b);
  uint_sub a b := checked (a - b);
  uint_mul a b := checked (a * b);
  uint_quo := checked_quo;
  uint_mul64 a b := checked (a * b);
  uint_quo64 := checked_quo;
  uint_of_big := checked;
|}.

#[export] Instance uint_laws : SdkUintLaws uint.
Proof. by split. Qed.

#[export] Instance dec : SdkDec := {|
  dec_of_uint_str z := fits dec_limit (z * prec);
  dec_of_big z := z * prec;
  dec_of_int z := z * prec;
  dec_add a b := fits dec_limit (a + b);
  dec_sub a b := fits dec_limit (a - b);
  dec_mul a b := fits dec_limit (half_even (a * b) prec);
  dec_quo a b := if b =? 0 then Panic else fits dec_limit (half_even (a * prec) b);
  dec_round_int a := fits (2 ^ 255) (half_even a prec);
  dec_round_int64 a := fits (2 ^ 63) (half_even a prec);
  dec_truncate_int a := fits (2 ^ 255) (Z.quot a prec);
|}.

Lemma fits_Ok lim z r : fits lim z = Ok r <-> r = z /\ Z.abs z < lim.
Proof.
  unfold fits. destruct (Z.ltb_spec (Z.abs z) lim).
  - split; [by intros [= ->]|by intros [-> _]].
  - split; [done|lia].
Qed.

Lemma half_even_fits lim n d : 0 <= n -> 0 < d -> n / d + 1 < lim ->
  exists c, fits lim (half_even n d) = Ok c.
Proof.
  intros Hn Hd Hl. exists (half_even n d). apply fits_Ok. split; [done|].
  destruct (half_even_rounds n d Hd) as [[] _]. pose proof (Z.div_pos n d). lia.
Qed.

#[export] Instance dec_laws : SdkDecLaws dec.
Proof.
  assert (Hp : 0 < prec) by done.
  split; cbn.
  - intros z Hz. apply fits_Ok. split; [done|]. unfold prec, dec_limit in *. lia.
  - by intros z d [-> _]%fits_Ok.
  - done.
  - done.
  - by intros a b c [-> _]%fits_Ok.
  - intros. apply fits_Ok. split; [done|lia].
  - by intros a b c [-> _]%fits_Ok.
  - intros. apply fits_Ok. split; [done|lia].
  - intros a b c Ha Hb [-> _]%fits_Ok. by apply half_even_rounds.
  - intros. apply half_even_fits; [nia|done|done].
  - done.
  - intros a b c Ha Hb. destruct (Z.eqb_spec b 0); [lia|].
    intros [-> _]%fits_Ok. by apply half_even_rounds.
  - intros a b Ha Hb. destruct (Z.eqb_spec b 0); [lia|].
    intros. apply half_even_fits; [nia|done|done].
  - intros a c Ha [-> _]%fits_Ok. by apply half_even_rounds.
  - intros. by apply half_even_fits.
  - intros a c Ha [-> _]%fits_Ok. by apply half_even_rounds.
  - intros. by apply half_even_fits.
  - intros a Ha Hl. rewrite Z.quot_div_nonneg by lia. apply fits_Ok.
    split; [done|]. pose proof (Z.div_pos a prec). lia.
  - intros a c Ha. rewrite Z.quot_div_nonneg by lia. by intros [-> _]%fits_Ok.
Qed.

(** Addresses print as their bytes behind a tag. *)
#[export] Instance address : SdkAddress := {|
  acc_equals := String.eqb;
  acc_empty a := String.eqb a EmptyString;
  acc_string a := if String.eqb a EmptyString then EmptyString else String "@"%char a;
  acc_from_bech32 s := match s with
    | String "@"%char (String c t) => Some (String c t)
    | _ => None end;
|}.

#[export] Instance address_laws : SdkAddressLaws address.
Proof.
  split; cbn.
  - apply String.eqb_eq.
  - intros. apply String.eqb_eq.
  - intros a [Ha _]. by destruct a as [|c a].
Qed.

(** Versions are triples, ordered lexicographically. *)
#[export] Instance semver : Semver := {|
  Version := Z * Z * Z;
  semver_release a b c := (a, b, c);
  GTE '(a, b, c) '(a', b', c') :=
    (a' <? a) || (a' =? a) && ((b' <? b) || (b' =? b) && (c' <=? c));
|}.

#[export] Instance semver_laws : SemverLaws semver.
Proof.
  split; cbn.
  - intros [[a b] c]. lia.
  - intros [[a b] c] [[a' b'] c'] [[a'' b''] c'']. lia.
  - intros [[a b] c] [[a' b'] c']. lia.
  - intros. lia.
Qed.
End Reference.

Module ReferenceSort.
#[export] Instance slice_sort : SliceSort := {| sort_slice A := @stable_sort A |}.

#[export] Instance slice_sort_laws : SliceSortLaws slice_sort.
Proof.
  split.
  - intros. apply stable_sort_perm.
  - intros. apply stable_sort_sorted. intros x y.
    unfold str_ltb, String.ltb. rewrite String.compare_antisym.
    by destruct (String.compare (key y) (key x)).
Qed.
End ReferenceSort.
