(* ===== verification/Constants.v ===== *)
(** [constants/constant_values.go] and the tables of constants of every version:
    their names, the text of a name, which is the key of the parameter that
    overrides it, and the values on the main network. *)
From S2P Require Import Prelude GoText Sdk.

(** A [ConstantName] is kept as its Go identifier instead of its position. *)
Definition ConstantNames : list string :=
  ["BlocksPerDay"; "BlocksPerYear"; "OutboundTransactionFee"; "NativeTransactionFee";
   "KillSwitchStart"; "KillSwitchDuration"; "PoolCycle"; "MinCacaoPoolDepth"; "MaxAvailablePools";
   "StagedPoolCost"; "MinimumNodesForYggdrasil"; "MinimumNodesForBFT"; "DesiredValidatorSet";
   "AsgardSize"; "ChurnInterval"; "ChurnRetryInterval"; "ValidatorsChangeWindow";
   "LeaveProcessPerBlockHeight"; "BadValidatorRedline"; "BadValidatorRate"; "OldValidatorRate";
   "LowBondValidatorRate"; "LackOfObservationPenalty"; "SigningTransactionPeriod";
   "DoubleSignMaxAge"; "PauseBond"; "PauseUnbond"; "MinimumBondInCacao"; "FundMigrationInterval";
   "ArtificialRagnarokBlockHeight"; "MaximumLiquidityCacao"; "StrictBondLiquidityRatio";
   "DefaultPoolStatus"; "MaxOutboundAttempts"; "SlashPenalty"; "PauseOnSlashThreshold";
   "FailKeygenSlashPoints"; "FailKeysignSlashPoints"; "LiquidityLockUpBlocks";
   "ObserveSlashPoints"; "DoubleBlockSignSlashPoints"; "MissBlockSignSlashPoints";
   "ObservationDelayFlexibility"; "ForgiveSlashPeriod"; "YggFundLimit"; "YggFundRetry";
   "JailTimeKeygen"; "JailTimeKeysign"; "NodePauseChainBlocks"; "MinSwapsPerBlock";
   "MaxSwapsPerBlock"; "MaxSlashRatio"; "MaxSynthPerAssetDepth"; "MaxSynthPerPoolDepth";
   "MaxSynthsForSaversYield"; "VirtualMultSynths"; "VirtualMultSynthsBasisPoints";
   "MinSlashPointsForBadValidator"; "FullImpLossProtectionBlocks"; "BondLockupPeriod";
   "MaxBondProviders"; "NumberOfNewNodesPerChurn"; "MinTxOutVolumeThreshold"; "TxOutDelayRate";
   "TxOutDelayMax"; "MaxTxOutOffset"; "TNSRegisterFee"; "TNSFeeOnSale"; "TNSFeePerBlock";
   "PermittedSolvencyGap"; "NodeOperatorFee"; "ValidatorMaxRewardRatio";
   "PoolDepthForYggFundingMin"; "MaxNodeToChurnOutForLowVersion"; "MayaFundPerc";
   "MinCacaoForMayaFundDist"; "WithdrawLimitTier1"; "WithdrawLimitTier2"; "WithdrawLimitTier3";
   "WithdrawDaysTier1"; "WithdrawDaysTier2"; "WithdrawDaysTier3"; "WithdrawTier1";
   "WithdrawTier2"; "WithdrawTier3"; "InflationPercentageThreshold"; "InflationPoolPercentage";
   "InflationFormulaMulValue"; "InflationFormulaSumValue"; "IBCReceiveEnabled"; "IBCSendEnabled";
   "RagnarokProcessNumOfLPPerIteration"; "SaverDepositDisabled"; "SaverWithdrawalDisabled";
   "SwapOutDexAggregationDisabled"; "POLMaxNetworkDeposit"; "POLMaxPoolMovement";
   "POLSynthUtilization"; "POLBuffer"; "SynthYieldBasisPoints"; "SynthYieldCycle";
   "MinimumL1OutboundFeeUSD"; "MinimumPoolLiquidityFee"; "SubsidizeReserveMultiplier";
   "LiquidityAuction"; "IncentiveCurveControl"; "FullImpLossProtectionBlocksTimes4";
   "ZeroImpLossProtectionBlocks"; "AllowWideBlame"; "MaxAffiliateFeeBasisPoints";
   "TargetOutboundFeeSurplusRune"; "MaxOutboundFeeMultiplierBasisPoints";
   "MinOutboundFeeMultiplierBasisPoints"; "SlipFeeAddedBasisPoints"; "PayBPNodeRewards";
   "PendingLiquidityAgeLimit"; "StreamingSwapPause"; "StreamingSwapMinBPFee";
   "StreamingSwapMaxLength"; "StreamingSwapMaxLengthNative"; "SaversStreamingSwapsInterval";
   "KeygenRetryInterval"; "RescheduleCoalesceBlocks"; "PreferredAssetOutboundFeeMultiplier";
   "MAYANameGracePeriodBlocks"; "MultipleAffiliatesMaxCount"; "SignerConcurrency";
   "EVMDisableContractWhitelist"; "AffiliateFeeTickGranularity"; "CACAOPoolEnabled";
   "CACAOPoolRewardsEnabled"; "CACAOPoolDepositMaturityBlocks"; "ChurnMigrateRounds";
   "TradeAccountsEnabled"; "TradeAccountsDepositEnabled"; "TradeAccountsWithdrawEnabled";
   "BurnSynths"; "ManualSwapsToSynthDisabled"; "MintSynths"].

Definition nameToString : list (string * string) :=
  [("BlocksPerDay", "BlocksPerDay"); ("BlocksPerYear", "BlocksPerYear");
   ("OutboundTransactionFee", "OutboundTransactionFee");
   ("NativeTransactionFee", "NativeTransactionFee"); ("PoolCycle", "PoolCycle");
   ("MinCacaoPoolDepth", "MinRunePoolDepth"); ("MaxAvailablePools", "MaxAvailablePools");
   ("StagedPoolCost", "StagedPoolCost"); ("KillSwitchStart", "KillSwitchStart");
   ("KillSwitchDuration", "KillSwitchDuration");
   ("MinimumNodesForYggdrasil", "MinimumNodesForYggdrasil");
   ("MinimumNodesForBFT", "MinimumNodesForBFT"); ("DesiredValidatorSet", "DesiredValidatorSet");
   ("AsgardSize", "AsgardSize"); ("ChurnInterval", "ChurnInterval");
   ("ChurnRetryInterval", "ChurnRetryInterval"); ("BadValidatorRedline", "BadValidatorRedline");
   ("BadValidatorRate", "BadValidatorRate"); ("OldValidatorRate", "OldValidatorRate");
   ("LowBondValidatorRate", "LowBondValidatorRate");
   ("LackOfObservationPenalty", "LackOfObservationPenalty");
   ("SigningTransactionPeriod", "SigningTransactionPeriod");
   ("DoubleSignMaxAge", "DoubleSignMaxAge"); ("PauseBond", "PauseBond");
   ("PauseUnbond", "PauseUnbond"); ("MinimumBondInCacao", "MinimumBondInRune");
   ("MaxBondProviders", "MaxBondProviders"); ("FundMigrationInterval", "FundMigrationInterval");
   ("ArtificialRagnarokBlockHeight", "ArtificialRagnarokBlockHeight");
   ("MaximumLiquidityCacao", "MaximumLiquidityRune");
   ("StrictBondLiquidityRatio", "StrictBondLiquidityRatio");
   ("DefaultPoolStatus", "DefaultPoolStatus"); ("MaxOutboundAttempts", "MaxOutboundAttempts");
   ("SlashPenalty", "SlashPenalty"); ("PauseOnSlashThreshold", "PauseOnSlashThreshold");
   ("FailKeygenSlashPoints", "FailKeygenSlashPoints");
   ("FailKeysignSlashPoints", "FailKeysignSlashPoints");
   ("LiquidityLockUpBlocks", "LiquidityLockUpBlocks");
   ("ObserveSlashPoints", "ObserveSlashPoints");
   ("MissBlockSignSlashPoints", "MissBlockSignSlashPoints");
   ("DoubleBlockSignSlashPoints", "DoubleBlockSignSlashPoints");
   ("ObservationDelayFlexibility", "ObservationDelayFlexibility");
   ("ForgiveSlashPeriod", "ForgiveSlashPeriod"); ("YggFundLimit", "YggFundLimit");
   ("YggFundRetry", "YggFundRetry"); ("JailTimeKeygen", "JailTimeKeygen");
   ("JailTimeKeysign", "JailTimeKeysign"); ("NodePauseChainBlocks", "NodePauseChainBlocks");
   ("MinSwapsPerBlock", "MinSwapsPerBlock"); ("MaxSwapsPerBlock", "MaxSwapsPerBlock");
   ("VirtualMultSynths", "VirtualMultSynths");
   ("VirtualMultSynthsBasisPoints", "VirtualMultSynthsBasisPoints");
   ("MaxSynthPerAssetDepth", "MaxSynthPerAssetDepth");
   ("MaxSynthPerPoolDepth", "MaxSynthPerPoolDepth");
   ("MaxSynthsForSaversYield", "MaxSynthsForSaversYield");
   ("MinSlashPointsForBadValidator", "MinSlashPointsForBadValidator");
   ("MaxSlashRatio", "MaxSlashRatio");
   ("FullImpLossProtectionBlocks", "FullImpLossProtectionBlocks");
   ("BondLockupPeriod", "BondLockupPeriod");
   ("NumberOfNewNodesPerChurn", "NumberOfNewNodesPerChurn");
   ("MinTxOutVolumeThreshold", "MinTxOutVolumeThreshold"); ("TxOutDelayRate", "TxOutDelayRate");
   ("TxOutDelayMax", "TxOutDelayMax"); ("MaxTxOutOffset", "MaxTxOutOffset");
   ("TNSRegisterFee", "TNSRegisterFee"); ("TNSFeeOnSale", "TNSFeeOnSale");
   ("TNSFeePerBlock", "TNSFeePerBlock"); ("PermittedSolvencyGap", "PermittedSolvencyGap");
   ("ValidatorMaxRewardRatio", "ValidatorMaxRewardRatio"); ("NodeOperatorFee", "NodeOperatorFee");
   ("PoolDepthForYggFundingMin", "PoolDepthForYggFundingMin");
   ("MaxNodeToChurnOutForLowVersion", "MaxNodeToChurnOutForLowVersion");
   ("MayaFundPerc", "MayaFundPerc"); ("MinCacaoForMayaFundDist", "MinRuneForMayaFundDist");
   ("WithdrawLimitTier1", "WithdrawLimitTier1"); ("WithdrawLimitTier2", "WithdrawLimitTier2");
   ("WithdrawLimitTier3", "WithdrawLimitTier3"); ("WithdrawDaysTier1", "WithdrawDaysTier1");
   ("WithdrawDaysTier2", "WithdrawDaysTier2"); ("WithdrawDaysTier3", "WithdrawDaysTier3");
   ("WithdrawTier1", "WithdrawTier1"); ("WithdrawTier2", "WithdrawTier2");
   ("WithdrawTier3", "WithdrawTier3");
   ("InflationPercentageThreshold", "InflationPercentageThreshold");
   ("InflationPoolPercentage", "InflationPoolPercentage");
   ("InflationFormulaMulValue", "InflationFormulaMulValue");
   ("InflationFormulaSumValue", "InflationFormulaSumValue");
   ("IBCReceiveEnabled", "IBCReceiveEnabled"); ("IBCSendEnabled", "IBCSendEnabled");
   ("SaverDepositDisabled", "SaverDepositDisabled");
   ("SaverWithdrawalDisabled", "SaverWithdrawalDisabled");
   ("SwapOutDexAggregationDisabled", "SwapOutDexAggregationDisabled");
   ("POLMaxNetworkDeposit", "POLMaxNetworkDeposit"); ("POLMaxPoolMovement", "POLMaxPoolMovement");
   ("POLSynthUtilization", "POLSynthUtilization"); ("POLBuffer", "POLBuffer");
   ("RagnarokProcessNumOfLPPerIteration", "RagnarokProcessNumOfLPPerIteration");
   ("SynthYieldBasisPoints", "SynthYieldBasisPoints"); ("SynthYieldCycle", "SynthYieldCycle");
   ("MinimumL1OutboundFeeUSD", "MinimumL1OutboundFeeUSD");
   ("MinimumPoolLiquidityFee", "MinimumPoolLiquidityFee");
   ("SubsidizeReserveMultiplier", "SubsidizeReserveMultiplier");
   ("LiquidityAuction", "LiquidityAuction"); ("IncentiveCurveControl", "IncentiveCurveControl");
   ("FullImpLossProtectionBlocksTimes4", "FullImpLossProtectionBlocksTimes4");
   ("ZeroImpLossProtectionBlocks", "ZeroImpLossProtectionBlocks");
   ("AllowWideBlame", "AllowWideBlame");
   ("MaxAffiliateFeeBasisPoints", "MaxAffiliateFeeBasisPoints");
   ("TargetOutboundFeeSurplusRune", "TargetOutboundFeeSurplusRune");
   ("MaxOutboundFeeMultiplierBasisPoints", "MaxOutboundFeeMultiplierBasisPoints");
   ("MinOutboundFeeMultiplierBasisPoints", "MinOutboundFeeMultiplierBasisPoints");
   ("SlipFeeAddedBasisPoints", "SlipFeeAddedBasisPoints");
   ("PayBPNodeRewards", "PayBPNodeRewards");
   ("PendingLiquidityAgeLimit", "PendingLiquidityAgeLimit");
   ("StreamingSwapPause", "StreamingSwapPause");
   ("StreamingSwapMinBPFee", "StreamingSwapMinBPFee");
   ("StreamingSwapMaxLength", "StreamingSwapMaxLength");
   ("StreamingSwapMaxLengthNative", "StreamingSwapMaxLengthNative");
   ("SaversStreamingSwapsInterval", "SaversStreamingSwapsInterval");
   ("KeygenRetryInterval", "KeygenRetryInterval");
   ("RescheduleCoalesceBlocks", "RescheduleCoalesceBlocks");
   ("PreferredAssetOutboundFeeMultiplier", "PreferredAssetOutboundFeeMultiplier");
   ("MAYANameGracePeriodBlocks", "MAYANameGracePeriodBlocks");
   ("MultipleAffiliatesMaxCount", "MultipleAffiliatesMaxCount");
   ("SignerConcurrency", "SignerConcurrency");
   ("EVMDisableContractWhitelist", "EVMDisableContractWhitelist");
   ("AffiliateFeeTickGranularity", "AffiliateFeeTickGranularity");
   ("CACAOPoolEnabled", "CACAOPoolEnabled");
   ("CACAOPoolRewardsEnabled", "CACAOPoolRewardsEnabled");
   ("CACAOPoolDepositMaturityBlocks", "CACAOPoolDepositMaturityBlocks");
   ("ChurnMigrateRounds", "ChurnMigrateRounds"); ("TradeAccountsEnabled", "TradeAccountsEnabled");
   ("TradeAccountsDepositEnabled", "TradeAccountsDepositEnabled");
   ("TradeAccountsWithdrawEnabled", "TradeAccountsWithdrawEnabled")].

(** The value of a key in a Go map written as a list. *)
Definition map_value {X} (m : list (string * X)) (key : string) : option X :=
  snd <$> List.find (fun e => String.eqb (fst e) key) m.

Definition ConstantName_String (cn : string) : string := default "NA" (map_value nameToString cn).

(** ** Tables *)

Record ConstantVals := mkConstantVals {
  int64values : list (string * Z);
  boolValues : list (string * bool);
  stringValues : list (string * string);
}.

Definition NewConstantValueVCUR : ConstantVals := mkConstantVals
  [("BlocksPerDay", 14400); ("BlocksPerYear", 5256000); ("OutboundTransactionFee", 2000000000);
   ("NativeTransactionFee", 2000000000); ("PoolCycle", 43200); ("StagedPoolCost", 100000000000);
   ("KillSwitchStart", 0); ("KillSwitchDuration", 0); ("MinCacaoPoolDepth", 100000000000000);
   ("MaxAvailablePools", 100); ("MinimumNodesForYggdrasil", 6); ("MinimumNodesForBFT", 4);
   ("DesiredValidatorSet", 100); ("AsgardSize", 40); ("FundMigrationInterval", 360);
   ("ChurnInterval", 43200); ("ChurnRetryInterval", 720); ("BadValidatorRedline", 3);
   ("BadValidatorRate", 43200); ("OldValidatorRate", 43200); ("LowBondValidatorRate", 43200);
   ("LackOfObservationPenalty", 2); ("SigningTransactionPeriod", 300); ("DoubleSignMaxAge", 23);
   ("PauseBond", 0); ("PauseUnbond", 0); ("MinimumBondInCacao", 100000000000000);
   ("MaxBondProviders", 2); ("MaxOutboundAttempts", 0); ("SlashPenalty", 15000);
   ("PauseOnSlashThreshold", 1000000000000); ("FailKeygenSlashPoints", 720);
   ("FailKeysignSlashPoints", 2); ("LiquidityLockUpBlocks", 0); ("ObserveSlashPoints", 1);
   ("ObservationDelayFlexibility", 10); ("ForgiveSlashPeriod", 17280); ("YggFundLimit", 50);
   ("YggFundRetry", 1000); ("JailTimeKeygen", 4320); ("JailTimeKeysign", 60);
   ("NodePauseChainBlocks", 720); ("NodeOperatorFee", 3300); ("MinSwapsPerBlock", 10);
   ("MaxSwapsPerBlock", 100); ("MaxSlashRatio", 25); ("VirtualMultSynths", 2);
   ("VirtualMultSynthsBasisPoints", 10000); ("MaxSynthPerAssetDepth", 2500);
   ("MaxSynthPerPoolDepth", 1700); ("MinSlashPointsForBadValidator", 100);
   ("FullImpLossProtectionBlocks", 2160000); ("FullImpLossProtectionBlocksTimes4", 6480000);
   ("ZeroImpLossProtectionBlocks", 720000); ("MinTxOutVolumeThreshold", 10000000000000);
   ("TxOutDelayRate", 250000000000); ("TxOutDelayMax", 17280); ("MaxTxOutOffset", 720);
   ("TNSRegisterFee", 100000000000); ("TNSFeeOnSale", 1000); ("TNSFeePerBlock", 2000);
   ("PermittedSolvencyGap", 100); ("ValidatorMaxRewardRatio", 1);
   ("PoolDepthForYggFundingMin", 5000000000000000); ("MaxNodeToChurnOutForLowVersion", 1);
   ("MayaFundPerc", 10); ("MinCacaoForMayaFundDist", 10000000000); ("WithdrawLimitTier1", 50);
   ("WithdrawLimitTier2", 150); ("WithdrawLimitTier3", 450); ("WithdrawDaysTier1", 200);
   ("WithdrawDaysTier2", 90); ("WithdrawDaysTier3", 30); ("WithdrawTier1", 1);
   ("WithdrawTier2", 2); ("WithdrawTier3", 3); ("InflationPercentageThreshold", 9000);
   ("InflationPoolPercentage", 50); ("InflationFormulaMulValue", 4000);
   ("InflationFormulaSumValue", 100); ("POLMaxNetworkDeposit", 0); ("POLMaxPoolMovement", 0);
   ("POLSynthUtilization", 0); ("POLBuffer", 0); ("RagnarokProcessNumOfLPPerIteration", 200);
   ("SynthYieldBasisPoints", 6000); ("SynthYieldCycle", 0); ("MinimumL1OutboundFeeUSD", 1);
   ("MinimumPoolLiquidityFee", 0); ("SubsidizeReserveMultiplier", 100); ("AllowWideBlame", 0);
   ("MaxAffiliateFeeBasisPoints", 500); ("TargetOutboundFeeSurplusRune", 10000000000000);
   ("MaxOutboundFeeMultiplierBasisPoints", 30000); ("MinOutboundFeeMultiplierBasisPoints", 15000);
   ("SlipFeeAddedBasisPoints", 0); ("PayBPNodeRewards", 1); ("MaxSynthsForSaversYield", 1500);
   ("PendingLiquidityAgeLimit", 100800); ("StreamingSwapPause", 0); ("StreamingSwapMinBPFee", 0);
   ("StreamingSwapMaxLength", 14400); ("StreamingSwapMaxLengthNative", 5256000);
   ("SaversStreamingSwapsInterval", 0); ("RescheduleCoalesceBlocks", 0);
   ("PreferredAssetOutboundFeeMultiplier", 100); ("MAYANameGracePeriodBlocks", 432000);
   ("MultipleAffiliatesMaxCount", 5); ("EVMDisableContractWhitelist", 0);
   ("AffiliateFeeTickGranularity", 100); ("CACAOPoolEnabled", 0); ("CACAOPoolRewardsEnabled", 1);
   ("CACAOPoolDepositMaturityBlocks", 14400); ("ChurnMigrateRounds", 5);
   ("TradeAccountsEnabled", 0); ("TradeAccountsDepositEnabled", 0);
   ("TradeAccountsWithdrawEnabled", 0)]
  [("StrictBondLiquidityRatio", false)]
  [("DefaultPoolStatus", "Staged")].

Definition NewConstantValue113 : ConstantVals := mkConstantVals
  [("BlocksPerDay", 14400); ("BlocksPerYear", 5256000); ("OutboundTransactionFee", 2000000000);
   ("NativeTransactionFee", 2000000000); ("PoolCycle", 43200); ("StagedPoolCost", 100000000000);
   ("KillSwitchStart", 0); ("KillSwitchDuration", 0); ("MinCacaoPoolDepth", 100000000000000);
   ("MaxAvailablePools", 100); ("MinimumNodesForYggdrasil", 6); ("MinimumNodesForBFT", 4);
   ("DesiredValidatorSet", 100); ("AsgardSize", 40); ("FundMigrationInterval", 360);
   ("ChurnInterval", 43200); ("ChurnRetryInterval", 720); ("BadValidatorRedline", 3);
   ("BadValidatorRate", 43200); ("OldValidatorRate", 43200); ("LowBondValidatorRate", 43200);
   ("LackOfObservationPenalty", 2); ("SigningTransactionPeriod", 300); ("DoubleSignMaxAge", 23);
   ("PauseBond", 0); ("PauseUnbond", 0); ("MinimumBondInCacao", 100000000000000);
   ("MaxBondProviders", 2); ("MaxOutboundAttempts", 0); ("SlashPenalty", 15000);
   ("PauseOnSlashThreshold", 1000000000000); ("FailKeygenSlashPoints", 720);
   ("FailKeysignSlashPoints", 2); ("LiquidityLockUpBlocks", 0); ("ObserveSlashPoints", 1);
   ("ObservationDelayFlexibility", 10); ("ForgiveSlashPeriod", 17280); ("YggFundLimit", 50);
   ("YggFundRetry", 1000); ("JailTimeKeygen", 4320); ("JailTimeKeysign", 60);
   ("NodePauseChainBlocks", 720); ("NodeOperatorFee", 3300); ("MinSwapsPerBlock", 10);
   ("MaxSwapsPerBlock", 100); ("MaxSlashRatio", 25); ("VirtualMultSynths", 2);
   ("VirtualMultSynthsBasisPoints", 10000); ("MaxSynthPerAssetDepth", 2500);
   ("MaxSynthPerPoolDepth", 1700); ("MinSlashPointsForBadValidator", 100);
   ("FullImpLossProtectionBlocks", 2160000); ("FullImpLossProtectionBlocksTimes4", 6480000);
   ("ZeroImpLossProtectionBlocks", 720000); ("MinTxOutVolumeThreshold", 10000000000000);
   ("TxOutDelayRate", 250000000000); ("TxOutDelayMax", 17280); ("MaxTxOutOffset", 720);
   ("TNSRegisterFee", 100000000000); ("TNSFeeOnSale", 1000); ("TNSFeePerBlock", 2000);
   ("PermittedSolvencyGap", 100); ("ValidatorMaxRewardRatio", 1);
   ("PoolDepthForYggFundingMin", 5000000000000000); ("MaxNodeToChurnOutForLowVersion", 1);
   ("MayaFundPerc", 10); ("MinCacaoForMayaFundDist", 10000000000); ("WithdrawLimitTier1", 50);
   ("WithdrawLimitTier2", 150); ("WithdrawLimitTier3", 450); ("WithdrawDaysTier1", 200);
   ("WithdrawDaysTier2", 90); ("WithdrawDaysTier3", 30); ("WithdrawTier1", 1);
   ("WithdrawTier2", 2); ("WithdrawTier3", 3); ("InflationPercentageThreshold", 9000);
   ("InflationPoolPercentage", 50); ("InflationFormulaMulValue", 4000);
   ("InflationFormulaSumValue", 100); ("POLMaxNetworkDeposit", 0); ("POLMaxPoolMovement", 0);
   ("POLSynthUtilization", 0); ("POLBuffer", 0); ("RagnarokProcessNumOfLPPerIteration", 200);
   ("SynthYieldBasisPoints", 6000); ("SynthYieldCycle", 0); ("MinimumL1OutboundFeeUSD", 1);
   ("MinimumPoolLiquidityFee", 0); ("SubsidizeReserveMultiplier", 100); ("AllowWideBlame", 0);
   ("MaxAffiliateFeeBasisPoints", 500); ("TargetOutboundFeeSurplusRune", 10000000000000);
   ("MaxOutboundFeeMultiplierBasisPoints", 30000); ("MinOutboundFeeMultiplierBasisPoints", 15000);
   ("SlipFeeAddedBasisPoints", 0); ("PayBPNodeRewards", 1); ("MaxSynthsForSaversYield", 1500);
   ("PendingLiquidityAgeLimit", 100800); ("StreamingSwapPause", 0); ("StreamingSwapMinBPFee", 0);
   ("StreamingSwapMaxLength", 14400); ("StreamingSwapMaxLengthNative", 5256000);
   ("SaversStreamingSwapsInterval", 0); ("RescheduleCoalesceBlocks", 0);
   ("PreferredAssetOutboundFeeMultiplier", 100); ("MAYANameGracePeriodBlocks", 432000);
   ("MultipleAffiliatesMaxCount", 5)]
  [("StrictBondLiquidityRatio", false)]
  [("DefaultPoolStatus", "Staged")].

Definition NewConstantValue112 : ConstantVals := mkConstantVals
  [("BlocksPerDay", 14400); ("BlocksPerYear", 5256000); ("OutboundTransactionFee", 2000000000);
   ("NativeTransactionFee", 2000000000); ("PoolCycle", 43200); ("StagedPoolCost", 100000000000);
   ("KillSwitchStart", 0); ("KillSwitchDuration", 0); ("MinCacaoPoolDepth", 100000000000000);
   ("MaxAvailablePools", 100); ("MinimumNodesForYggdrasil", 6); ("MinimumNodesForBFT", 4);
   ("DesiredValidatorSet", 100); ("AsgardSize", 40); ("FundMigrationInterval", 360);
   ("ChurnInterval", 43200); ("ChurnRetryInterval", 720); ("BadValidatorRedline", 3);
   ("BadValidatorRate", 43200); ("OldValidatorRate", 43200); ("LowBondValidatorRate", 43200);
   ("LackOfObservationPenalty", 2); ("SigningTransactionPeriod", 300); ("DoubleSignMaxAge", 23);
   ("PauseBond", 0); ("PauseUnbond", 0); ("MinimumBondInCacao", 100000000000000);
   ("MaxBondProviders", 2); ("MaxOutboundAttempts", 0); ("SlashPenalty", 15000);
   ("PauseOnSlashThreshold", 1000000000000); ("FailKeygenSlashPoints", 720);
   ("FailKeysignSlashPoints", 2); ("LiquidityLockUpBlocks", 0); ("ObserveSlashPoints", 1);
   ("ObservationDelayFlexibility", 10); ("ForgiveSlashPeriod", 17280); ("YggFundLimit", 50);
   ("YggFundRetry", 1000); ("JailTimeKeygen", 4320); ("JailTimeKeysign", 60);
   ("NodePauseChainBlocks", 720); ("NodeOperatorFee", 3300); ("MinSwapsPerBlock", 10);
   ("MaxSwapsPerBlock", 100); ("MaxSlashRatio", 25); ("VirtualMultSynths", 2);
   ("VirtualMultSynthsBasisPoints", 10000); ("MaxSynthPerAssetDepth", 2500);
   ("MaxSynthPerPoolDepth", 1700); ("MinSlashPointsForBadValidator", 100);
   ("FullImpLossProtectionBlocks", 2160000); ("FullImpLossProtectionBlocksTimes4", 6480000);
   ("ZeroImpLossProtectionBlocks", 720000); ("MinTxOutVolumeThreshold", 10000000000000);
   ("TxOutDelayRate", 250000000000); ("TxOutDelayMax", 17280); ("MaxTxOutOffset", 720);
   ("TNSRegisterFee", 100000000000); ("TNSFeeOnSale", 1000); ("TNSFeePerBlock", 2000);
   ("PermittedSolvencyGap", 100); ("ValidatorMaxRewardRatio", 1);
   ("PoolDepthForYggFundingMin", 5000000000000000); ("MaxNodeToChurnOutForLowVersion", 1);
   ("MayaFundPerc", 10); ("MinCacaoForMayaFundDist", 10000000000); ("WithdrawLimitTier1", 50);
   ("WithdrawLimitTier2", 150); ("WithdrawLimitTier3", 450); ("WithdrawDaysTier1", 200);
   ("WithdrawDaysTier2", 90); ("WithdrawDaysTier3", 30); ("WithdrawTier1", 1);
   ("WithdrawTier2", 2); ("WithdrawTier3", 3); ("InflationPercentageThreshold", 9000);
   ("InflationPoolPercentage", 50); ("InflationFormulaMulValue", 4000);
   ("InflationFormulaSumValue", 100); ("POLMaxNetworkDeposit", 0); ("POLMaxPoolMovement", 0);
   ("POLSynthUtilization", 0); ("POLBuffer", 0); ("RagnarokProcessNumOfLPPerIteration", 200);
   ("SynthYieldBasisPoints", 6000); ("SynthYieldCycle", 0); ("MinimumL1OutboundFeeUSD", 1);
   ("MinimumPoolLiquidityFee", 0); ("SubsidizeReserveMultiplier", 100); ("AllowWideBlame", 0);
   ("MaxAffiliateFeeBasisPoints", 500); ("TargetOutboundFeeSurplusRune", 10000000000000);
   ("MaxOutboundFeeMultiplierBasisPoints", 30000); ("MinOutboundFeeMultiplierBasisPoints", 15000);
   ("SlipFeeAddedBasisPoints", 0); ("PayBPNodeRewards", 1); ("MaxSynthsForSaversYield", 1500);
   ("PendingLiquidityAgeLimit", 100800); ("StreamingSwapPause", 0); ("StreamingSwapMinBPFee", 0);
   ("StreamingSwapMaxLength", 14400); ("StreamingSwapMaxLengthNative", 5256000);
   ("SaversStreamingSwapsInterval", 0); ("RescheduleCoalesceBlocks", 0);
   ("PreferredAssetOutboundFeeMultiplier", 100); ("MAYANameGracePeriodBlocks", 432000);
   ("MultipleAffiliatesMaxCount", 5)]
  [("StrictBondLiquidityRatio", false)]
  [("DefaultPoolStatus", "Staged")].

Definition NewConstantValue110 : ConstantVals := mkConstantVals
  [("BlocksPerDay", 14400); ("BlocksPerYear", 5256000); ("OutboundTransactionFee", 2000000000);
   ("NativeTransactionFee", 2000000000); ("PoolCycle", 43200); ("StagedPoolCost", 100000000000);
   ("KillSwitchStart", 0); ("KillSwitchDuration", 0); ("MinCacaoPoolDepth", 100000000000000);
   ("MaxAvailablePools", 100); ("MinimumNodesForYggdrasil", 6); ("MinimumNodesForBFT", 4);
   ("DesiredValidatorSet", 100); ("AsgardSize", 40); ("FundMigrationInterval", 360);
   ("ChurnInterval", 43200); ("ChurnRetryInterval", 720); ("BadValidatorRedline", 3);
   ("BadValidatorRate", 43200); ("OldValidatorRate", 43200); ("LowBondValidatorRate", 43200);
   ("LackOfObservationPenalty", 2); ("SigningTransactionPeriod", 300); ("DoubleSignMaxAge", 23);
   ("PauseBond", 0); ("PauseUnbond", 0); ("MinimumBondInCacao", 100000000000000);
   ("MaxBondProviders", 2); ("MaxOutboundAttempts", 0); ("SlashPenalty", 15000);
   ("PauseOnSlashThreshold", 1000000000000); ("FailKeygenSlashPoints", 720);
   ("FailKeysignSlashPoints", 2); ("LiquidityLockUpBlocks", 0); ("ObserveSlashPoints", 1);
   ("ObservationDelayFlexibility", 10); ("ForgiveSlashPeriod", 17280); ("YggFundLimit", 50);
   ("YggFundRetry", 1000); ("JailTimeKeygen", 4320); ("JailTimeKeysign", 60);
   ("NodePauseChainBlocks", 720); ("NodeOperatorFee", 3300); ("MinSwapsPerBlock", 10);
   ("MaxSwapsPerBlock", 100); ("MaxSlashRatio", 25); ("VirtualMultSynths", 2);
   ("VirtualMultSynthsBasisPoints", 10000); ("MaxSynthPerAssetDepth", 2500);
   ("MaxSynthPerPoolDepth", 1700); ("MinSlashPointsForBadValidator", 100);
   ("FullImpLossProtectionBlocks", 2160000); ("FullImpLossProtectionBlocksTimes4", 6480000);
   ("ZeroImpLossProtectionBlocks", 720000); ("MinTxOutVolumeThreshold", 10000000000000);
   ("TxOutDelayRate", 250000000000); ("TxOutDelayMax", 17280); ("MaxTxOutOffset", 720);
   ("TNSRegisterFee", 100000000000); ("TNSFeeOnSale", 1000); ("TNSFeePerBlock", 2000);
   ("PermittedSolvencyGap", 100); ("ValidatorMaxRewardRatio", 1);
   ("PoolDepthForYggFundingMin", 5000000000000000); ("MaxNodeToChurnOutForLowVersion", 1);
   ("MayaFundPerc", 10); ("MinCacaoForMayaFundDist", 10000000000); ("WithdrawLimitTier1", 50);
   ("WithdrawLimitTier2", 150); ("WithdrawLimitTier3", 450); ("WithdrawDaysTier1", 200);
   ("WithdrawDaysTier2", 90); ("WithdrawDaysTier3", 30); ("WithdrawTier1", 1);
   ("WithdrawTier2", 2); ("WithdrawTier3", 3); ("InflationPercentageThreshold", 9000);
   ("InflationPoolPercentage", 50); ("InflationFormulaMulValue", 4000);
   ("InflationFormulaSumValue", 100); ("POLMaxNetworkDeposit", 0); ("POLMaxPoolMovement", 0);
   ("POLSynthUtilization", 0); ("POLBuffer", 0); ("RagnarokProcessNumOfLPPerIteration", 200);
   ("SynthYieldBasisPoints", 6000); ("SynthYieldCycle", 0); ("MinimumL1OutboundFeeUSD", 1);
   ("MinimumPoolLiquidityFee", 0); ("SubsidizeReserveMultiplier", 100); ("AllowWideBlame", 0);
   ("TargetOutboundFeeSurplusRune", 10000000000000);
   ("MaxOutboundFeeMultiplierBasisPoints", 30000); ("MinOutboundFeeMultiplierBasisPoints", 15000);
   ("SlipFeeAddedBasisPoints", 0); ("PayBPNodeRewards", 1); ("MaxSynthsForSaversYield", 1500);
   ("StreamingSwapPause", 0); ("StreamingSwapMinBPFee", 0); ("StreamingSwapMaxLength", 14400);
   ("StreamingSwapMaxLengthNative", 5256000); ("SaversStreamingSwapsInterval", 0);
   ("RescheduleCoalesceBlocks", 0)]
  [("StrictBondLiquidityRatio", false)]
  [("DefaultPoolStatus", "Staged")].

Definition NewConstantValue108 : ConstantVals := mkConstantVals
  [("BlocksPerDay", 14400); ("BlocksPerYear", 5256000); ("OutboundTransactionFee", 2000000000);
   ("NativeTransactionFee", 2000000000); ("PoolCycle", 43200); ("StagedPoolCost", 100000000000);
   ("KillSwitchStart", 0); ("KillSwitchDuration", 0); ("MinCacaoPoolDepth", 100000000000000);
   ("MaxAvailablePools", 100); ("MinimumNodesForYggdrasil", 6); ("MinimumNodesForBFT", 4);
   ("DesiredValidatorSet", 100); ("AsgardSize", 40); ("FundMigrationInterval", 360);
   ("ChurnInterval", 43200); ("ChurnRetryInterval", 720); ("BadValidatorRedline", 3);
   ("BadValidatorRate", 43200); ("OldValidatorRate", 43200); ("LowBondValidatorRate", 43200);
   ("LackOfObservationPenalty", 2); ("SigningTransactionPeriod", 300); ("DoubleSignMaxAge", 23);
   ("PauseBond", 0); ("PauseUnbond", 0); ("MinimumBondInCacao", 100000000000000);
   ("MaxBondProviders", 2); ("MaxOutboundAttempts", 0); ("SlashPenalty", 15000);
   ("PauseOnSlashThreshold", 1000000000000); ("FailKeygenSlashPoints", 720);
   ("FailKeysignSlashPoints", 2); ("LiquidityLockUpBlocks", 0); ("ObserveSlashPoints", 1);
   ("ObservationDelayFlexibility", 10); ("ForgiveSlashPeriod", 17280); ("YggFundLimit", 50);
   ("YggFundRetry", 1000); ("JailTimeKeygen", 4320); ("JailTimeKeysign", 60);
   ("NodePauseChainBlocks", 720); ("NodeOperatorFee", 3300); ("MinSwapsPerBlock", 10);
   ("MaxSwapsPerBlock", 100); ("MaxSlashRatio", 25); ("VirtualMultSynths", 2);
   ("VirtualMultSynthsBasisPoints", 10000); ("MaxSynthPerAssetDepth", 2500);
   ("MaxSynthPerPoolDepth", 1700); ("MinSlashPointsForBadValidator", 100);
   ("FullImpLossProtectionBlocks", 2160000); ("FullImpLossProtectionBlocksTimes4", 6480000);
   ("ZeroImpLossProtectionBlocks", 720000); ("MinTxOutVolumeThreshold", 10000000000000);
   ("TxOutDelayRate", 250000000000); ("TxOutDelayMax", 17280); ("MaxTxOutOffset", 720);
   ("TNSRegisterFee", 100000000000); ("TNSFeeOnSale", 1000); ("TNSFeePerBlock", 2000);
   ("PermittedSolvencyGap", 100); ("ValidatorMaxRewardRatio", 1);
   ("PoolDepthForYggFundingMin", 5000000000000000); ("MaxNodeToChurnOutForLowVersion", 1);
   ("MayaFundPerc", 10); ("MinCacaoForMayaFundDist", 10000000000); ("WithdrawLimitTier1", 50);
   ("WithdrawLimitTier2", 150); ("WithdrawLimitTier3", 450); ("WithdrawDaysTier1", 200);
   ("WithdrawDaysTier2", 90); ("WithdrawDaysTier3", 30); ("WithdrawTier1", 1);
   ("WithdrawTier2", 2); ("WithdrawTier3", 3); ("InflationPercentageThreshold", 9000);
   ("InflationPoolPercentage", 50); ("InflationFormulaMulValue", 4000);
   ("InflationFormulaSumValue", 100); ("POLMaxNetworkDeposit", 0); ("POLMaxPoolMovement", 0);
   ("POLSynthUtilization", 0); ("POLBuffer", 0); ("RagnarokProcessNumOfLPPerIteration", 200);
   ("SynthYieldBasisPoints", 6000); ("SynthYieldCycle", 0); ("MinimumL1OutboundFeeUSD", 1);
   ("MinimumPoolLiquidityFee", 0); ("SubsidizeReserveMultiplier", 100); ("AllowWideBlame", 0);
   ("TargetOutboundFeeSurplusRune", 10000000000000);
   ("MaxOutboundFeeMultiplierBasisPoints", 30000); ("MinOutboundFeeMultiplierBasisPoints", 15000);
   ("SlipFeeAddedBasisPoints", 0); ("PayBPNodeRewards", 1); ("MaxSynthsForSaversYield", 1500)]
  [("StrictBondLiquidityRatio", false)]
  [("DefaultPoolStatus", "Staged")].

Definition NewConstantValue107 : ConstantVals := mkConstantVals
  [("BlocksPerDay", 14400); ("BlocksPerYear", 5256000); ("OutboundTransactionFee", 2000000000);
   ("NativeTransactionFee", 2000000000); ("PoolCycle", 43200); ("StagedPoolCost", 100000000000);
   ("KillSwitchStart", 0); ("KillSwitchDuration", 0); ("MinCacaoPoolDepth", 100000000000000);
   ("MaxAvailablePools", 100); ("MinimumNodesForYggdrasil", 6); ("MinimumNodesForBFT", 4);
   ("DesiredValidatorSet", 100); ("AsgardSize", 40); ("FundMigrationInterval", 360);
   ("ChurnInterval", 43200); ("ChurnRetryInterval", 720); ("BadValidatorRedline", 3);
   ("BadValidatorRate", 43200); ("OldValidatorRate", 43200); ("LowBondValidatorRate", 43200);
   ("LackOfObservationPenalty", 2); ("SigningTransactionPeriod", 300); ("DoubleSignMaxAge", 23);
   ("PauseBond", 0); ("PauseUnbond", 0); ("MinimumBondInCacao", 100000000000000);
   ("MaxBondProviders", 2); ("MaxOutboundAttempts", 0); ("SlashPenalty", 15000);
   ("PauseOnSlashThreshold", 1000000000000); ("FailKeygenSlashPoints", 720);
   ("FailKeysignSlashPoints", 2); ("LiquidityLockUpBlocks", 0); ("ObserveSlashPoints", 1);
   ("ObservationDelayFlexibility", 10); ("ForgiveSlashPeriod", 17280); ("YggFundLimit", 50);
   ("YggFundRetry", 1000); ("JailTimeKeygen", 4320); ("JailTimeKeysign", 60);
   ("NodePauseChainBlocks", 720); ("NodeOperatorFee", 3300); ("MinSwapsPerBlock", 10);
   ("MaxSwapsPerBlock", 100); ("MaxSlashRatio", 25); ("VirtualMultSynths", 2);
   ("VirtualMultSynthsBasisPoints", 10000); ("MaxSynthPerAssetDepth", 3300);
   ("MinSlashPointsForBadValidator", 100); ("FullImpLossProtectionBlocks", 2160000);
   ("FullImpLossProtectionBlocksTimes4", 6480000); ("ZeroImpLossProtectionBlocks", 720000);
   ("MinTxOutVolumeThreshold", 10000000000000); ("TxOutDelayRate", 250000000000);
   ("TxOutDelayMax", 17280); ("MaxTxOutOffset", 720); ("TNSRegisterFee", 100000000000);
   ("TNSFeeOnSale", 1000); ("TNSFeePerBlock", 2000); ("PermittedSolvencyGap", 100);
   ("ValidatorMaxRewardRatio", 1); ("PoolDepthForYggFundingMin", 5000000000000000);
   ("MaxNodeToChurnOutForLowVersion", 1); ("MayaFundPerc", 10);
   ("MinCacaoForMayaFundDist", 10000000000); ("WithdrawLimitTier1", 50);
   ("WithdrawLimitTier2", 150); ("WithdrawLimitTier3", 450); ("WithdrawDaysTier1", 200);
   ("WithdrawDaysTier2", 90); ("WithdrawDaysTier3", 30); ("WithdrawTier1", 1);
   ("WithdrawTier2", 2); ("WithdrawTier3", 3); ("InflationPercentageThreshold", 9000);
   ("InflationPoolPercentage", 50); ("InflationFormulaMulValue", 4000);
   ("InflationFormulaSumValue", 100); ("POLMaxNetworkDeposit", 0); ("POLMaxPoolMovement", 100);
   ("POLSynthUtilization", 0); ("POLBuffer", 0); ("RagnarokProcessNumOfLPPerIteration", 200);
   ("SynthYieldBasisPoints", 5000); ("SynthYieldCycle", 0); ("MinimumL1OutboundFeeUSD", 1);
   ("MinimumPoolLiquidityFee", 0); ("SubsidizeReserveMultiplier", 100); ("AllowWideBlame", 0);
   ("TargetOutboundFeeSurplusRune", 10000000000000);
   ("MaxOutboundFeeMultiplierBasisPoints", 30000); ("MinOutboundFeeMultiplierBasisPoints", 15000);
   ("SlipFeeAddedBasisPoints", 0); ("PayBPNodeRewards", 1)]
  [("StrictBondLiquidityRatio", false)]
  [("DefaultPoolStatus", "Staged")].

Definition NewConstantValue106 : ConstantVals := mkConstantVals
  [("BlocksPerDay", 14400); ("BlocksPerYear", 5256000); ("OutboundTransactionFee", 2000000000);
   ("NativeTransactionFee", 2000000000); ("PoolCycle", 43200); ("StagedPoolCost", 100000000000);
   ("KillSwitchStart", 0); ("KillSwitchDuration", 0); ("MinCacaoPoolDepth", 100000000000000);
   ("MaxAvailablePools", 100); ("MinimumNodesForYggdrasil", 6); ("MinimumNodesForBFT", 4);
   ("DesiredValidatorSet", 100); ("AsgardSize", 40); ("FundMigrationInterval", 360);
   ("ChurnInterval", 43200); ("ChurnRetryInterval", 720); ("BadValidatorRedline", 3);
   ("BadValidatorRate", 43200); ("OldValidatorRate", 43200); ("LowBondValidatorRate", 43200);
   ("LackOfObservationPenalty", 2); ("SigningTransactionPeriod", 300); ("DoubleSignMaxAge", 23);
   ("PauseBond", 0); ("PauseUnbond", 0); ("MinimumBondInCacao", 100000000000000);
   ("MaxBondProviders", 2); ("MaxOutboundAttempts", 0); ("SlashPenalty", 15000);
   ("PauseOnSlashThreshold", 1000000000000); ("FailKeygenSlashPoints", 720);
   ("FailKeysignSlashPoints", 2); ("LiquidityLockUpBlocks", 0); ("ObserveSlashPoints", 1);
   ("ObservationDelayFlexibility", 10); ("ForgiveSlashPeriod", 17280); ("YggFundLimit", 50);
   ("YggFundRetry", 1000); ("JailTimeKeygen", 4320); ("JailTimeKeysign", 60);
   ("NodePauseChainBlocks", 720); ("NodeOperatorFee", 3300); ("MinSwapsPerBlock", 10);
   ("MaxSwapsPerBlock", 100); ("MaxSlashRatio", 25); ("VirtualMultSynths", 2);
   ("VirtualMultSynthsBasisPoints", 10000); ("MaxSynthPerAssetDepth", 3300);
   ("MinSlashPointsForBadValidator", 100); ("FullImpLossProtectionBlocks", 2160000);
   ("FullImpLossProtectionBlocksTimes4", 6480000); ("ZeroImpLossProtectionBlocks", 720000);
   ("MinTxOutVolumeThreshold", 10000000000000); ("TxOutDelayRate", 250000000000);
   ("TxOutDelayMax", 17280); ("MaxTxOutOffset", 720); ("TNSRegisterFee", 100000000000);
   ("TNSFeeOnSale", 1000); ("TNSFeePerBlock", 2000); ("PermittedSolvencyGap", 100);
   ("ValidatorMaxRewardRatio", 1); ("PoolDepthForYggFundingMin", 5000000000000000);
   ("MaxNodeToChurnOutForLowVersion", 1); ("MayaFundPerc", 10);
   ("MinCacaoForMayaFundDist", 10000000000); ("WithdrawLimitTier1", 50);
   ("WithdrawLimitTier2", 150); ("WithdrawLimitTier3", 450); ("WithdrawDaysTier1", 200);
   ("WithdrawDaysTier2", 90); ("WithdrawDaysTier3", 30); ("WithdrawTier1", 1);
   ("WithdrawTier2", 2); ("WithdrawTier3", 3); ("InflationPercentageThreshold", 9000);
   ("InflationPoolPercentage", 50); ("InflationFormulaMulValue", 4000);
   ("InflationFormulaSumValue", 100); ("POLMaxNetworkDeposit", 0); ("POLMaxPoolMovement", 100);
   ("POLSynthUtilization", 0); ("POLBuffer", 0); ("RagnarokProcessNumOfLPPerIteration", 200);
   ("SynthYieldBasisPoints", 5000); ("SynthYieldCycle", 0); ("MinimumL1OutboundFeeUSD", 1);
   ("MinimumPoolLiquidityFee", 0); ("SubsidizeReserveMultiplier", 100); ("AllowWideBlame", 0);
   ("TargetOutboundFeeSurplusRune", 10000000000000);
   ("MaxOutboundFeeMultiplierBasisPoints", 30000); ("MinOutboundFeeMultiplierBasisPoints", 15000)]
  [("StrictBondLiquidityRatio", false)]
  [("DefaultPoolStatus", "Staged")].

Definition NewConstantValue102 : ConstantVals := mkConstantVals
  [("BlocksPerDay", 14400); ("BlocksPerYear", 5256000); ("OutboundTransactionFee", 2000000000);
   ("NativeTransactionFee", 2000000000); ("PoolCycle", 43200); ("StagedPoolCost", 100000000000);
   ("KillSwitchStart", 0); ("KillSwitchDuration", 0); ("MinCacaoPoolDepth", 100000000000000);
   ("MaxAvailablePools", 100); ("MinimumNodesForYggdrasil", 6); ("MinimumNodesForBFT", 4);
   ("DesiredValidatorSet", 100); ("AsgardSize", 40); ("FundMigrationInterval", 360);
   ("ChurnInterval", 43200); ("ChurnRetryInterval", 720); ("BadValidatorRedline", 3);
   ("BadValidatorRate", 43200); ("OldValidatorRate", 43200); ("LowBondValidatorRate", 43200);
   ("LackOfObservationPenalty", 2); ("SigningTransactionPeriod", 300); ("DoubleSignMaxAge", 23);
   ("PauseBond", 0); ("PauseUnbond", 0); ("MinimumBondInCacao", 100000000000000);
   ("MaxBondProviders", 2); ("MaxOutboundAttempts", 0); ("SlashPenalty", 15000);
   ("PauseOnSlashThreshold", 1000000000000); ("FailKeygenSlashPoints", 720);
   ("FailKeysignSlashPoints", 2); ("LiquidityLockUpBlocks", 0); ("ObserveSlashPoints", 1);
   ("ObservationDelayFlexibility", 10); ("ForgiveSlashPeriod", 17280); ("YggFundLimit", 50);
   ("YggFundRetry", 1000); ("JailTimeKeygen", 4320); ("JailTimeKeysign", 60);
   ("NodePauseChainBlocks", 720); ("NodeOperatorFee", 3300); ("MinSwapsPerBlock", 10);
   ("MaxSwapsPerBlock", 100); ("MaxSlashRatio", 25); ("VirtualMultSynths", 2);
   ("VirtualMultSynthsBasisPoints", 10000); ("MaxSynthPerAssetDepth", 3300);
   ("MinSlashPointsForBadValidator", 100); ("FullImpLossProtectionBlocks", 2160000);
   ("FullImpLossProtectionBlocksTimes4", 6480000); ("ZeroImpLossProtectionBlocks", 720000);
   ("MinTxOutVolumeThreshold", 10000000000000); ("TxOutDelayRate", 250000000000);
   ("TxOutDelayMax", 17280); ("MaxTxOutOffset", 720); ("TNSRegisterFee", 100000000000);
   ("TNSFeeOnSale", 1000); ("TNSFeePerBlock", 2000); ("PermittedSolvencyGap", 100);
   ("ValidatorMaxRewardRatio", 1); ("PoolDepthForYggFundingMin", 5000000000000000);
   ("MaxNodeToChurnOutForLowVersion", 1); ("MayaFundPerc", 10);
   ("MinCacaoForMayaFundDist", 10000000000); ("WithdrawLimitTier1", 50);
   ("WithdrawLimitTier2", 150); ("WithdrawLimitTier3", 450); ("WithdrawDaysTier1", 200);
   ("WithdrawDaysTier2", 90); ("WithdrawDaysTier3", 30); ("WithdrawTier1", 1);
   ("WithdrawTier2", 2); ("WithdrawTier3", 3); ("InflationPercentageThreshold", 9000);
   ("InflationPoolPercentage", 50); ("InflationFormulaMulValue", 4000);
   ("InflationFormulaSumValue", 100); ("POLMaxNetworkDeposit", 0); ("POLMaxPoolMovement", 100);
   ("POLSynthUtilization", 0); ("POLBuffer", 0); ("RagnarokProcessNumOfLPPerIteration", 200);
   ("SynthYieldBasisPoints", 5000); ("SynthYieldCycle", 0); ("MinimumL1OutboundFeeUSD", 1);
   ("MinimumPoolLiquidityFee", 0); ("SubsidizeReserveMultiplier", 100); ("AllowWideBlame", 0)]
  [("StrictBondLiquidityRatio", false)]
  [("DefaultPoolStatus", "Staged")].

Definition NewConstantValue010 : ConstantVals := mkConstantVals
  [("BlocksPerDay", 14400); ("BlocksPerYear", 5256000); ("OutboundTransactionFee", 2000000);
   ("NativeTransactionFee", 2000000); ("PoolCycle", 43200); ("StagedPoolCost", 1000000000);
   ("KillSwitchStart", 0); ("KillSwitchDuration", 0); ("MinCacaoPoolDepth", 1000000000000);
   ("MaxAvailablePools", 100); ("MinimumNodesForYggdrasil", 6); ("MinimumNodesForBFT", 4);
   ("DesiredValidatorSet", 100); ("AsgardSize", 40); ("FundMigrationInterval", 360);
   ("ChurnInterval", 43200); ("ChurnRetryInterval", 720); ("BadValidatorRedline", 3);
   ("BadValidatorRate", 43200); ("OldValidatorRate", 43200); ("LowBondValidatorRate", 43200);
   ("LackOfObservationPenalty", 2); ("SigningTransactionPeriod", 300); ("DoubleSignMaxAge", 23);
   ("PauseBond", 0); ("PauseUnbond", 0); ("MinimumBondInCacao", 1000000000000);
   ("MaxBondProviders", 6); ("MaxOutboundAttempts", 0); ("SlashPenalty", 15000);
   ("PauseOnSlashThreshold", 10000000000); ("FailKeygenSlashPoints", 720);
   ("FailKeysignSlashPoints", 2); ("LiquidityLockUpBlocks", 0); ("ObserveSlashPoints", 1);
   ("ObservationDelayFlexibility", 10); ("ForgiveSlashPeriod", 17280); ("YggFundLimit", 50);
   ("YggFundRetry", 1000); ("JailTimeKeygen", 4320); ("JailTimeKeysign", 60);
   ("NodePauseChainBlocks", 720); ("NodeOperatorFee", 500); ("MinSwapsPerBlock", 10);
   ("MaxSwapsPerBlock", 100); ("MaxSlashRatio", 25); ("VirtualMultSynths", 2);
   ("VirtualMultSynthsBasisPoints", 10000); ("MaxSynthPerAssetDepth", 3300);
   ("MaxSynthsForSaversYield", 0); ("MinSlashPointsForBadValidator", 100);
   ("FullImpLossProtectionBlocks", 2160000); ("FullImpLossProtectionBlocksTimes4", 6480000);
   ("ZeroImpLossProtectionBlocks", 720000); ("MinTxOutVolumeThreshold", 100000000000);
   ("TxOutDelayRate", 2500000000); ("TxOutDelayMax", 17280); ("MaxTxOutOffset", 720);
   ("TNSRegisterFee", 1000000000); ("TNSFeeOnSale", 1000); ("TNSFeePerBlock", 20);
   ("PermittedSolvencyGap", 100); ("ValidatorMaxRewardRatio", 1);
   ("PoolDepthForYggFundingMin", 50000000000000); ("MaxNodeToChurnOutForLowVersion", 1);
   ("MayaFundPerc", 10); ("MinCacaoForMayaFundDist", 100000000); ("WithdrawLimitTier1", 50);
   ("WithdrawLimitTier2", 150); ("WithdrawLimitTier3", 450); ("WithdrawDaysTier1", 200);
   ("WithdrawDaysTier2", 90); ("WithdrawDaysTier3", 30); ("WithdrawTier1", 1);
   ("WithdrawTier2", 2); ("WithdrawTier3", 3); ("InflationPercentageThreshold", 9000);
   ("InflationPoolPercentage", 50); ("InflationFormulaMulValue", 4000);
   ("InflationFormulaSumValue", 100); ("POLMaxNetworkDeposit", 0); ("POLMaxPoolMovement", 100);
   ("POLSynthUtilization", 0); ("POLBuffer", 0); ("RagnarokProcessNumOfLPPerIteration", 200);
   ("SynthYieldBasisPoints", 5000); ("SynthYieldCycle", 0); ("MinimumL1OutboundFeeUSD", 1);
   ("MinimumPoolLiquidityFee", 0); ("SubsidizeReserveMultiplier", 100);
   ("KeygenRetryInterval", 0)]
  [("StrictBondLiquidityRatio", false)]
  [("DefaultPoolStatus", "Staged")].

(** On the main network nothing overrides the tables. *)
Definition GetInt64Value (cv : ConstantVals) (name : string) : Z := default 0 (map_value (int64values cv) name).
Definition GetBoolValue (cv : ConstantVals) (name : string) : bool :=
  default false (map_value (boolValues cv) name).
Definition GetStringValue (cv : ConstantVals) (name : string) : string :=
  default EmptyString (map_value (stringValues cv) name).

Definition GetConstantValues `{Semver} (ver : Version) : option ConstantVals :=
  if GTE ver (semver_release 1 118 0) then Some NewConstantValueVCUR
  else if GTE ver (semver_release 1 113 0) then Some NewConstantValue113
  else if GTE ver (semver_release 1 112 0) then Some NewConstantValue112
  else if GTE ver (semver_release 1 110 0) then Some NewConstantValue110
  else if GTE ver (semver_release 1 108 0) then Some NewConstantValue108
  else if GTE ver (semver_release 1 107 0) then Some NewConstantValue107
  else if GTE ver (semver_release 1 106 0) then Some NewConstantValue106
  else if GTE ver (semver_release 1 102 0) then Some NewConstantValue102
  else if GTE ver (semver_release 0 1 0) then Some NewConstantValue010
  else None.

(** The constants as the store uses them, by the text of their name. *)
Definition int64_by_text (cv : ConstantVals) (key : string) : Z :=
  match List.find (fun e => String.eqb (snd e) key) nameToString with
  | Some (name, _) => GetInt64Value cv name
  | None => 0
  end.

(** ** Facts *)

Lemma NoDup_map_inj {X Y} (f : X -> Y) l a b :
  NoDup (map f l) -> a ∈ l -> b ∈ l -> f a = f b -> a = b.
Proof.
  induction l as [|x l IH]; [by intros _ ?%not_elem_of_nil|]. cbn. rewrite NoDup_cons.
  intros [Hx Hl] Ha Hb E.
  assert (Hin : forall y, y ∈ l -> f y ∈ map f l) by (intros y Hy; by apply list_elem_of_fmap_2).
  apply elem_of_cons in Ha as [->|Ha], Hb as [->|Hb]; [done| | |by apply IH].
  - rewrite E in Hx. by apply Hin in Hb.
  - rewrite <- E in Hx. by apply Hin in Ha.
Qed.

Definition unnamed : list string :=
  List.filter (fun cn => String.eqb (ConstantName_String cn) "NA") ConstantNames.

(** Five constants have no text: every one of them prints as "NA", so that the
    parameter of its name does not override it. *)
Lemma unnamed_constants :
  unnamed = ["ValidatorsChangeWindow"; "LeaveProcessPerBlockHeight"; "BurnSynths";
             "ManualSwapsToSynthDisabled"; "MintSynths"].
Proof. by vm_compute. Qed.

Definition named : list string :=
  List.filter (fun cn => negb (String.eqb (ConstantName_String cn) "NA")) ConstantNames.

Lemma named_texts_distinct :
  bool_decide (NoDup (map (fun cn => ToUpper (ConstantName_String cn)) named)) = true.
Proof. by vm_compute. Qed.

Lemma elem_of_named cn : cn ∈ ConstantNames -> cn ∉ unnamed -> cn ∈ named.
Proof.
  intros Hx Hn. apply list_elem_of_In, filter_In. split; [by apply list_elem_of_In|].
  apply negb_true_iff. destruct (String.eqb _ _) eqn:E; [|done].
  exfalso. apply Hn, list_elem_of_In, filter_In. by split; [apply list_elem_of_In|].
Qed.

(** The other names are told apart by their texts, in any letters. *)
Lemma ConstantName_String_inj a b :
  a ∈ ConstantNames -> b ∈ ConstantNames -> a ∉ unnamed -> b ∉ unnamed ->
  ToUpper (ConstantName_String a) = ToUpper (ConstantName_String b) -> a = b.
Proof.
  intros Ha Hb Hna Hnb. apply (NoDup_map_inj (fun cn => ToUpper (ConstantName_String cn)) named);
    [|by apply elem_of_named..]. apply (bool_decide_eq_true_1 _ named_texts_distinct).
Qed.
