(* ===== verification/Floats.v ===== *)
(** Go's [float64] on the non-negative numbers the code uses it for: conversion
    of integers, multiplication, division and [math.Ceil]. Numbers stay far
    below 2^1024 and are zero or at least one third, so neither infinities nor
    subnormals occur. *)
From S2P Require Import Prelude.

(** A float is a fraction whose denominator is a power of two. *)
Definition f64 : Type := Z * Z.

(** The nearest float to [n / d], ties to even: the 53-bit mantissa [m] is the
    rounded quotient at the exponent [e] that puts it between 2^52 and 2^53. *)
Definition f64_round (n d : Z) : f64 :=
  if n =? 0 then (0, 1)
  else
    let at_exp e := (n * 2 ^ Z.max 0 (- e), d * 2 ^ Z.max 0 e) in
    let e := Z.log2 n - Z.log2 d - 53 in
    let '(num, den) := at_exp e in
    let e := if 2 ^ 53 * den <=? num then e + 1 else e in
    let '(num, den) := at_exp e in
    (half_even num den * 2 ^ Z.max 0 e, 2 ^ Z.max 0 (- e)).

Definition f64_of_int (z : Z) : f64 := f64_round z 1.
Definition f64_mul (x y : f64) : f64 := f64_round (fst x * fst y) (snd x * snd y).
Definition f64_div (x y : f64) : f64 := f64_round (fst x * snd y) (snd x * fst y).
(** [math.Ceil], then the conversion to an integer. *)
Definition f64_ceil (x : f64) : Z := - (- fst x / snd x).
Definition f64_trunc (x : f64) : Z := fst x / snd x.

Lemma pow2_pos k : 0 < 2 ^ Z.max 0 k.
Proof. apply Z.pow_pos_nonneg; lia. Qed.

(** The exponent [f64_round] picks puts the quotient in the 53-bit range. *)
Lemma f64_exponent n d :
  0 < n -> 0 < d ->
  let e := Z.log2 n - Z.log2 d - 53 in
  2 ^ 52 * (d * 2 ^ Z.max 0 e) <= n * 2 ^ Z.max 0 (- e) < 2 ^ 54 * (d * 2 ^ Z.max 0 e).
Proof.
  intros Hn Hd e. pose proof (Z.log2_spec n Hn) as [Hn1 Hn2].
  pose proof (Z.log2_spec d Hd) as [Hd1 Hd2].
  pose proof (Z.log2_nonneg n). pose proof (Z.log2_nonneg d).
  rewrite Z.pow_succ_r in Hn2, Hd2 by done.
  set (a := Z.log2 n) in *. set (b := Z.log2 d) in *.
  assert (Hab : 2 ^ a * 2 ^ Z.max 0 (- e) = 2 ^ 53 * 2 ^ b * 2 ^ Z.max 0 e).
  { rewrite <- !Z.pow_add_r by lia. f_equal. lia. }
  pose proof (pow2_pos (- e)). pose proof (pow2_pos e).
  set (s := 2 ^ Z.max 0 (- e)) in *. set (t := 2 ^ Z.max 0 e) in *.
  clearbody s t. nia.
Qed.

(** A rounded fraction: [q] is 1 or a power of two, and the mantissa rounds the
    scaled quotient. *)
Lemma f64_round_spec n d p q :
  0 < n -> 0 < d -> f64_round n d = (p, q) ->
  exists s t m, 0 < s /\ 0 < t /\ (s = 1 \/ t = 1) /\ p = m * t /\ q = s /\
    rounds_to (n * s) (d * t) m /\ 2 ^ 52 * (d * t) <= n * s /\
    (t = 1 \/ 2 <= t) /\ (exists k, 0 <= k /\ s = 2 ^ k).
Proof.
  intros Hn Hd. unfold f64_round. rewrite (proj2 (Z.eqb_neq n 0)) by lia. cbn zeta.
  pose proof (f64_exponent n d Hn Hd) as He. cbn zeta in He.
  set (e0 := Z.log2 n - Z.log2 d - 53) in *.
  set (e := if 2 ^ 53 * (d * 2 ^ Z.max 0 e0) <=? n * 2 ^ Z.max 0 (- e0) then e0 + 1 else e0).
  assert (Hq : 2 ^ 52 * (d * 2 ^ Z.max 0 e) <= n * 2 ^ Z.max 0 (- e)).
  { unfold e. destruct (Z.leb_spec (2 ^ 53 * (d * 2 ^ Z.max 0 e0)) (n * 2 ^ Z.max 0 (- e0))); [|lia].
    destruct (Z.le_gt_cases 0 e0).
    - rewrite (Z.max_l 0 (- e0)), (Z.max_l 0 (- (e0 + 1))), (Z.max_r 0 e0), (Z.max_r 0 (e0 + 1)) in * by lia.
      rewrite Z.pow_add_r by lia. lia.
    - rewrite (Z.max_r 0 (- e0)), (Z.max_r 0 (- (e0 + 1))), (Z.max_l 0 e0), (Z.max_l 0 (e0 + 1)) in * by lia.
      replace (- e0) with (- (e0 + 1) + 1) in * by lia. rewrite Z.pow_add_r in * by lia. lia. }
  intros [= <- <-]. pose proof (pow2_pos e). pose proof (pow2_pos (- e)).
  exists (2 ^ Z.max 0 (- e)), (2 ^ Z.max 0 e), (half_even (n * 2 ^ Z.max 0 (- e)) (d * 2 ^ Z.max 0 e)).
  split_and!; try done.
  - destruct (Z.le_gt_cases 0 e); [left|right]; by rewrite Z.max_l by lia.
  - apply half_even_rounds. nia.
  - destruct (Z.le_gt_cases e 0); [left; by rewrite Z.max_l by lia|right].
    rewrite Z.max_r by lia. apply (Z.pow_le_mono_r 2 1 e); lia.
  - exists (Z.max 0 (- e)). split; [lia|done].
Qed.

(** A quotient that is an integer below 2^53 is represented exactly. *)
Lemma f64_round_int v d :
  0 <= v < 2 ^ 53 -> 0 < d ->
  let '(p, q) := f64_round (v * d) d in 0 < q /\ p = v * q.
Proof.
  intros Hv Hd. destruct (Z.eq_dec v 0) as [->|]; [by cbn|].
  destruct (f64_round (v * d) d) as [p q] eqn:E.
  apply f64_round_spec in E as (s & t & m & Hs & Ht & Hst & -> & -> & Hm & Hr & Ht2 & _); [|nia..].
  split; [done|]. assert (t = 1) as ->.
  { destruct Ht2 as [|Ht2]; [done|]. assert (s = 1) as -> by lia. nia. }
  assert (m = v * s) as -> by (eapply (rounds_to_exact _ _ _ (v * s)); [| |exact Hm]; lia). lia.
Qed.

Lemma f64_of_int_exact z :
  0 <= z < 2 ^ 53 -> let '(p, q) := f64_of_int z in 0 < q /\ p = z * q.
Proof.
  intros Hz. unfold f64_of_int.
  pose proof (f64_round_int z 1 Hz ltac:(lia)) as H. by rewrite Z.mul_1_r in H.
Qed.

(** The ceiling of a rounded quotient is the ceiling of the quotient, when the
    divisor is small and the quotient far from the precision. *)
Lemma f64_ceil_round n c d :
  0 <= n -> 0 < c -> 0 < d -> 2 * d * n < 2 ^ 52 ->
  f64_ceil (f64_round (n * c) (d * c)) = - (- n / d).
Proof.
  intros Hn Hc Hd Hb. destruct (Z.eq_dec n 0) as [->|Hn0]; [cbn; by rewrite Z.div_0_l by lia|].
  destruct (f64_round (n * c) (d * c)) as [p q] eqn:E.
  apply f64_round_spec in E as (s & t & m & Hs & Ht & Hst & -> & -> & Hm & Hr & Ht2 & _); [|nia..].
  assert (Hrt : 2 ^ 52 * (d * t) <= n * s) by (apply (Z.mul_le_mono_pos_r _ _ c); lia).
  assert (t = 1) as ->.
  { destruct Ht2 as [|Ht2]; [done|]. assert (s = 1) as -> by lia. nia. }
  assert (Hr' : 2 ^ 52 * d <= n * s) by lia. assert (Hs2 : 2 * d <= s).
  { destruct (Z.le_gt_cases (2 * d) s) as [|Hlt]; [done|].
    assert (n * s <= n * (2 * d)) by (apply Z.mul_le_mono_nonneg_l; lia). lia. }
  unfold f64_ceil. cbn [fst snd]. f_equal. rewrite Z.mul_1_r in *.
  assert (Hm' : rounds_to (n * s) d m).
  { destruct Hm as [[H1 H2] H3]. replace (n * c * s) with (n * s * c) in * by lia.
    rewrite Z.div_mul_cancel_r in H1, H2, H3 by lia.
    split; [done|]. intros Hz. apply H3. rewrite Z.mul_mod_distr_r by lia. lia. }
  clear Hm. set (k := - n / d).
  pose proof (Z.div_mod (- n) d). pose proof (Z.mod_pos_bound (- n) d). fold k in H.
  set (r := (- n) mod d) in *.
  destruct (Z.eq_dec r 0) as [Hr0|Hr0].
  - assert (m = - k * s) as -> by (eapply (rounds_to_exact _ d); [| |exact Hm']; nia).
    replace (- (- k * s)) with (k * s) by lia. apply Z.div_mul. lia.
  - (* n = - k d - r with 0 < r < d *)
    apply rounds_to_bounds in Hm' as [Hm1 Hm2]; [|done].
    symmetry. apply Z.div_unique with (- m - k * s); [|lia]. left.
    assert (n = - k * d - r) by lia. nia.
Qed.
