(* ===== verification/Shares.v ===== *)
(** Amount arithmetic: [common/math.go], [common/type_convert.go] and the
    numeric helpers of [common/cosmos/cosmos.go]. *)
From S2P Require Import Prelude Sdk.

(** ** [common/math.go] *)

Definition Max (a b : Z) : Z := if b <? a then a else b.
Definition Min (a b : Z) : Z := if a <? b then a else b.
Definition Abs (a : Z) : Z := if a <? 0 then i64 (- a) else a.

Section definitions.
Context `{U : SdkUint} `{D : SdkDec}.

(** Both medians sort the caller's slice in place: the sorted slice is the
    second component. *)
Definition GetMedianUint (vals : list Z) : outcome (Z * list Z) :=
  if (length vals =? 0)%nat then Ok (0, vals)
  else
    let vals := stable_sort Z.ltb vals in
    let n := length vals in
    if (0 <? n mod 2)%nat then Ok (nth (n / 2) vals 0, vals)
    else
      let pt1 := nth (n / 2 - 1) vals 0 in
      let pt2 := nth (n / 2) vals 0 in
      s ← uint_add pt1 pt2; median ← uint_quo64 s 2; Ok (median, vals).

Definition GetMedianInt64 (vals : list Z) : Z * list Z :=
  match vals with
  | [] => (0, vals)
  | [v] => (v, vals)
  | _ =>
    let vals := stable_sort Z.ltb vals in
    let n := length vals in
    if (0 <? n mod 2)%nat then (nth (n / 2) vals 0, vals)
    else
      let pt1 := nth (n / 2 - 1) vals 0 in
      let pt2 := nth (n / 2) vals 0 in
      (Z.quot (i64 (pt1 + pt2)) 2, vals)
  end.

(** [cosmos.Sum] *)
Definition Sum (u : list Z) : outcome Z := foldM uint_add 0 u.

(** The loop of [WeightedMean], on two slices of the same length. *)
Fixpoint weightedTotal (acc : Z) (vals weights : list Z) : outcome Z :=
  match vals, weights with
  | val :: vals', w :: weights' =>
      p ← uint_mul val w; acc' ← uint_add acc p; weightedTotal acc' vals' weights'
  | _, _ => Ok acc
  end.

Definition WeightedMean (vals weights : list Z) : outcome Z :=
  totalWeight ← Sum weights;
  if totalWeight =? 0 then Err "total weight is zero"
  else if negb (length vals =? length weights)%nat then Panic
  else
    t ← weightedTotal 0 vals weights;
    uint_quo t totalWeight.

(** ** [common/type_convert.go] *)

(** A panic after the [defer] is recovered and the share becomes zero; a
    conversion error panics by itself. *)
Definition GetUncappedShare (part total allocation : Z) : Z :=
  if (part =? 0) || (total =? 0) then 0
  else
    match
      aD ← dec_of_uint_str allocation;
      pD ← dec_of_uint_str part;
      tD ← dec_of_uint_str total;
      ratio ← dec_quo tD pD;
      result ← dec_quo aD ratio;
      rounded ← dec_round_int result;
      uint_of_big rounded
    with
    | Ok share => share
    | _ => 0
    end.

Definition GetSafeShare (part total allocation : Z) : Z :=
  let part := if total <=? part then total else part in
  GetUncappedShare part total allocation.

Definition SafeSub (input1 input2 : Z) : outcome Z :=
  if input1 <? input2 then Ok 0 else uint_sub input1 input2.

(** ** [common/cosmos/cosmos.go] *)

Definition DefaultCoinDecimals : Z := 8.

Definition RoundToDecimal (amt dec : Z) : outcome Z :=
  if negb (dec =? 0) && (dec <? DefaultCoinDecimals) then
    let prec := i64 (DefaultCoinDecimals - dec) in
    if prec =? 0 then Ok amt
    else
      precisionAdjust ← uint_of_big (10 ^ Z.max 0 prec);
      q ← uint_quo amt precisionAdjust;
      uint_mul q precisionAdjust
  else Ok amt.

Definition SafeUintFromInt64 (i : Z) : Z := if i <? 0 then 0 else u64 i.

Definition MinUint (u1 u2 : Z) : Z := if u1 <? u2 then u1 else u2.
End definitions.

(** ** Shares *)

Section shares.
Context {U : SdkUint} {D : SdkDec} {UL : SdkUintLaws U} {DL : SdkDecLaws D}.

Lemma SafeSub_total a b : is_uint a -> is_uint b -> SafeSub a b = Ok (Z.max 0 (a - b)).
Proof.
  unfold SafeSub, is_uint. intros Ha Hb. destruct (Z.ltb_spec a b).
  - f_equal. lia.
  - apply uint_sub_Ok. unfold is_uint. lia.
Qed.

Lemma SafeSub_no_Err a b e : SafeSub a b <> Err e.
Proof. unfold SafeSub. destruct (_ <? _); [done|]. apply uint_sub_no_Err. Qed.

Lemma SafeSub_Ok a b r : is_uint a -> is_uint b -> SafeSub a b = Ok r <-> r = Z.max 0 (a - b).
Proof. intros Ha Hb. rewrite SafeSub_total by done. split; congruence. Qed.

(** A share is a [Uint] whatever its arguments. *)
Lemma GetUncappedShare_uint part total alloc : is_uint (GetUncappedShare part total alloc).
Proof.
  unfold GetUncappedShare. destruct (_ || _); [by split|].
  destruct (_ ≫= _) as [share| |] eqn:Hs; [|by split..].
  invert_ok. by apply uint_of_big_Ok in Hs as [-> ?].
Qed.

(** The three facts a returned share rests on: the two rounded quotients. *)
Lemma GetUncappedShare_inv part total alloc :
  0 <= alloc -> 0 <= part -> 0 <= total ->
  GetUncappedShare part total alloc = 0 \/
  exists ratio result,
    0 < part /\ 0 < total /\ 0 < ratio /\
    rounds_to (total * prec * prec) (part * prec) ratio /\
    rounds_to (alloc * prec * prec) ratio result /\
    rounds_to result prec (GetUncappedShare part total alloc).
Proof.
  intros Ha Hp Ht. unfold GetUncappedShare.
  destruct ((part =? 0) || (total =? 0)) eqn:E; [by left|].
  apply orb_false_iff in E as [?%Z.eqb_neq ?%Z.eqb_neq].
  destruct (_ ≫= _) as [share| |] eqn:Hs; [|by left..].
  invert_ok. apply uint_of_big_Ok in Hs as [-> Hu].
  apply dec_of_uint_str_exact in Hv, Hv0, Hv1. subst.
  assert (Hprec : 0 < prec) by done.
  apply dec_quo_rounds in Hv2; [|nia..].
  assert (0 <= v2).
  { eapply rounds_to_nonneg; [| |exact Hv2]; nia. }
  destruct (Z.eq_dec v2 0) as [->|Hv2'].
  { by rewrite dec_quo_by_zero in Hv3. }
  apply dec_quo_rounds in Hv3; [|nia..].
  assert (0 <= v3) by (eapply rounds_to_nonneg; [| |exact Hv3]; nia).
  apply dec_round_int_rounds in Hv4; [|done].
  right. exists v2, v3. repeat split; try lia; apply Hv2 || apply Hv3 || apply Hv4.
Qed.

Lemma GetUncappedShare_nonneg part total alloc :
  0 <= alloc -> 0 <= part -> 0 <= total -> 0 <= GetUncappedShare part total alloc.
Proof.
  intros Ha Hp Ht.
  destruct (GetUncappedShare_inv part total alloc)
    as [->|(ratio & r & ? & ? & ? & H1 & H2 & H3)]; [done..|].
  assert (Hprec : 0 < prec) by done.
  eapply rounds_to_nonneg; [| |exact H3]; [lia|].
  eapply rounds_to_nonneg; [| |exact H2]; nia.
Qed.

(** With [part <= total] the first quotient is at least one. *)
Lemma share_result_le part total alloc ratio result :
  0 < part <= total -> 0 <= alloc ->
  rounds_to (total * prec * prec) (part * prec) ratio ->
  rounds_to (alloc * prec * prec) ratio result ->
  result <= alloc * prec.
Proof.
  intros Hp Ha H1 H2. assert (Hprec : 0 < prec) by done.
  assert (prec <= ratio) by (eapply rounds_to_ge; [| |exact H1]; nia).
  eapply rounds_to_le; [| |exact H2]; nia.
Qed.

Lemma GetUncappedShare_le part total alloc :
  0 <= part <= total -> 0 <= alloc -> GetUncappedShare part total alloc <= alloc.
Proof.
  intros Hp Ha.
  destruct (GetUncappedShare_inv part total alloc)
    as [->|(ratio & r & ? & ? & ? & H1 & H2 & H3)]; [lia..|].
  assert (Hprec : 0 < prec) by done.
  eapply rounds_to_le; [| |exact H3]; [lia|].
  eapply share_result_le; [| |exact H1|exact H2]; lia.
Qed.

(** The share a caller gets is within the rounding of the exact share. *)
Lemma share_error part total alloc ratio result share :
  0 < part <= total -> 0 <= alloc <= 10 ^ 17 ->
  rounds_to (total * prec * prec) (part * prec) ratio ->
  rounds_to (alloc * prec * prec) ratio result ->
  rounds_to result prec share ->
  Z.abs (share * total - part * alloc) <= 2 * total.
Proof.
  intros Hp Ha H1 H2 H3. assert (Hprec : prec = 10 ^ 18) by done.
  assert (prec <= ratio) by (eapply rounds_to_ge; [| |exact H1]; nia).
  pose proof (share_result_le _ _ _ _ _ Hp (proj1 Ha) H1 H2) as Hle.
  assert (0 <= result) by (eapply rounds_to_nonneg; [| |exact H2]; nia).
  apply rounds_to_bounds in H1, H2, H3; [|nia..].
  (* e1, e2, e3: the three rounding errors *)
  set (e1 := ratio * part - total * prec).
  assert (He1 : - part <= e1 <= part) by (unfold e1; nia).
  set (e2 := result * ratio - alloc * prec * prec) in *.
  assert (He2 : - ratio <= e2 <= ratio) by (unfold e2; lia).
  set (e3 := share * prec - result) in *.
  assert (He3 : - prec <= e3 <= prec) by (unfold e3; lia).
  assert (Heq : (share * total - part * alloc) * prec * prec =
                e3 * total * prec + e2 * part - result * e1).
  { unfold e1, e2, e3. ring. }
  assert (B3 : Z.abs (e3 * total) <= prec * total) by (apply abs_mul_le; lia).
  assert (B2 : Z.abs (e2 * part) <= ratio * part) by (apply abs_mul_le; lia).
  assert (B1 : Z.abs (result * e1) <= alloc * prec * part) by (apply abs_mul_le; lia).
  assert (B0 : alloc * part <= 10 ^ 17 * total) by (apply Z.mul_le_mono_nonneg; lia).
  clear H1 H2 H3 He2 He3 Hle.
  assert (ratio * part <= total * prec + part) by (unfold e1 in He1; lia).
  clearbody e1 e2 e3. rewrite Hprec in *. lia.
Qed.
End shares.

(** ** Totality on realistic amounts *)

Section total_shares.
Context {U : SdkUint} {D : SdkDec} {UL : SdkUintLaws U} {DL : SdkDecLaws D}.

Lemma GetUncappedShare_returns part total alloc :
  0 < part <= total -> total < 2 ^ 255 -> 0 <= alloc < 2 ^ 255 - 1 ->
  exists ratio result,
    rounds_to (total * prec * prec) (part * prec) ratio /\
    rounds_to (alloc * prec * prec) ratio result /\
    rounds_to result prec (GetUncappedShare part total alloc).
Proof.
  intros Hp Ht Ha. assert (Hprec : 0 < prec < 2 ^ 60) by done.
  unfold GetUncappedShare.
  rewrite (proj2 (Z.eqb_neq part 0)), (proj2 (Z.eqb_neq total 0)) by lia. cbn.
  rewrite !dec_of_uint_str_law by lia. cbn.
  destruct (dec_quo_total (total * prec) (part * prec)) as [ratio Hr]; [nia..| |].
  { pose proof (div_le_mul (total * prec) (part * prec) prec ltac:(nia) ltac:(lia) ltac:(nia) ltac:(nia)).
    pose proof (scaled_fits total). lia. }
  pose proof (dec_quo_rounds (total * prec) (part * prec) ratio ltac:(nia) ltac:(nia) Hr) as R1.
  assert (prec <= ratio) by (eapply rounds_to_ge; [| |exact R1]; nia).
  rewrite Hr. cbn.
  destruct (dec_quo_total (alloc * prec) ratio) as [res Hres]; [nia..| |].
  { pose proof (div_le_mul (alloc * prec) ratio prec ltac:(nia) ltac:(lia) ltac:(lia) ltac:(lia)).
    pose proof (scaled_fits alloc). lia. }
  pose proof (dec_quo_rounds (alloc * prec) ratio res ltac:(nia) ltac:(lia) Hres) as R2.
  assert (res <= alloc * prec) by (eapply share_result_le; [| |exact R1|exact R2]; lia).
  assert (0 <= res) by (eapply rounds_to_nonneg; [| |exact R2]; nia).
  rewrite Hres. cbn.
  destruct (dec_round_int_total res) as [share Hs]; [done| |].
  { assert (res / prec <= alloc) by (apply Z.div_le_upper_bound; nia). lia. }
  pose proof (dec_round_int_rounds res share ltac:(done) Hs) as R3.
  assert (share <= alloc) by (eapply rounds_to_le; [| |exact R3]; lia).
  assert (0 <= share) by (eapply rounds_to_nonneg; [| |exact R3]; lia).
  rewrite Hs. cbn. rewrite uint_of_big_law, checked_in by (unfold is_uint; lia).
  by exists ratio, res.
Qed.

(** The whole of the total gets the whole allocation. *)
Lemma GetUncappedShare_full total alloc :
  0 < total < 2 ^ 255 -> 0 <= alloc < 2 ^ 255 - 1 ->
  GetUncappedShare total total alloc = alloc.
Proof.
  intros Ht Ha.
  destruct (GetUncappedShare_returns total total alloc) as (ratio & res & H1 & H2 & H3); [lia..|].
  assert (Hprec : 0 < prec) by done.
  assert (ratio = prec) as -> by (eapply (rounds_to_exact _ _ _ prec); [| |exact H1]; nia).
  assert (res = alloc * prec) as -> by (eapply rounds_to_exact; [| |exact H2]; nia).
  eapply rounds_to_exact; [| |exact H3]; lia.
Qed.

(** [GetSafeShare] never allocates more than there is to allocate, nor a
    negative amount, whatever the part, the total and the rounding: a part
    above the total is capped, and an internal panic yields zero. *)
Lemma GetSafeShare_range part total alloc :
  0 <= part -> 0 <= total -> 0 <= alloc ->
  0 <= GetSafeShare part total alloc <= alloc.
Proof.
  intros Hp Ht Ha. unfold GetSafeShare. cbn zeta.
  destruct (Z.leb_spec total part).
  - split; [by apply GetUncappedShare_nonneg|by apply GetUncappedShare_le].
  - split; [by apply GetUncappedShare_nonneg|by apply GetUncappedShare_le; lia].
Qed.

Lemma GetSafeShare_error part total alloc :
  0 < part -> 0 < total < 2 ^ 255 -> 0 <= alloc <= 10 ^ 17 ->
  0 <= GetSafeShare part total alloc <= alloc /\
  Z.abs (GetSafeShare part total alloc * total - Z.min part total * alloc) <= 2 * total /\
  (total <= part -> GetSafeShare part total alloc = alloc).
Proof.
  intros Hp Ht Ha. split; [apply GetSafeShare_range; lia|]. unfold GetSafeShare. cbn zeta.
  destruct (Z.leb_spec total part).
  - rewrite Z.min_r, GetUncappedShare_full by lia. split; [lia|done].
  - rewrite Z.min_l by lia. split; [|lia].
    destruct (GetUncappedShare_returns part total alloc) as (ratio & res & H1 & H2 & H3); [lia..|].
    by eapply share_error; [| |exact H1|exact H2|exact H3]; lia.
Qed.
(** C36: on amounts up to 10^17 the share is the exact pro-rata amount
    [part * alloc / total] up to two units, and a part that reaches the total
    receives the allocation exactly. *)
Theorem GetSafeShare_accurate part total alloc :
  0 < part -> 0 < total < 2 ^ 255 -> 0 <= alloc <= 10 ^ 17 ->
  0 <= GetSafeShare part total alloc <= alloc /\
  Z.abs (GetSafeShare part total alloc * total - Z.min part total * alloc) <= 2 * total /\
  (total <= part -> GetSafeShare part total alloc = alloc).
Proof. apply GetSafeShare_error. Qed.
End total_shares.

Section share_witnesses.
Import Reference.

Lemma GetSafeShare_accurate_witness :
let s := @GetSafeShare Reference.uint Reference.dec 1 3 (10 ^ 10) in
s = 3333333333 /\ 0 <= s <= 10 ^ 10 /\ Z.abs (s * 3 - Z.min 1 3 * 10 ^ 10) <= 2 * 3 /\
(3 <= 1 -> s = 10 ^ 10).
Proof. split; [by vm_compute|]. apply (GetSafeShare_accurate 1 3 (10 ^ 10)); lia. Defined.
End share_witnesses.

(** ** Rounding to an asset's decimals *)

Section rounding.
Context {U : SdkUint} {UL : SdkUintLaws U}.

(** An amount is rounded down to a multiple of 10^(8 - decimals), losing
    less than one unit of that precision; 0 and 8 or more decimals leave it
    as it is, and no amount panics for 1 to 7 decimals. *)
Theorem RoundToDecimal_spec amt dec :
  is_uint amt -> 0 <= dec < 2 ^ 63 ->
  exists r, RoundToDecimal amt dec = Ok r /\
    (dec = 0 \/ 8 <= dec -> r = amt) /\
    (0 < dec < 8 -> exists k, r = k * 10 ^ (8 - dec) /\ r <= amt < r + 10 ^ (8 - dec)).
Proof.
  intros Ha Hd. unfold RoundToDecimal, DefaultCoinDecimals.
  destruct (negb (dec =? 0) && (dec <? 8)) eqn:E.
  - apply andb_true_iff in E as [?%negb_true_iff%Z.eqb_neq ?%Z.ltb_lt].
    rewrite i64_id by (unfold is_i64; lia). cbn zeta.
    rewrite (proj2 (Z.eqb_neq (8 - dec) 0)), Z.max_r by lia.
    assert (Hpow : 0 < 10 ^ (8 - dec) <= 10 ^ 8).
    { split; [apply Z.pow_pos_nonneg; lia|]. apply Z.pow_le_mono_r; lia. }
    rewrite uint_of_big_law, checked_in by (unfold is_uint; lia). cbn.
    set (p := 10 ^ (8 - dec)) in *.
    rewrite (proj2 (uint_quo_Ok amt p (amt / p) ltac:(unfold is_uint in *; lia) ltac:(lia)))
      by (split; [lia|split; [done|apply is_uint_div; [done|lia]]]).
    cbn. pose proof (Z.div_mod amt p). pose proof (Z.mod_pos_bound amt p).
    exists (amt / p * p). unfold is_uint in *. split_and!.
    + apply uint_mul_Ok. split; [done|]. unfold is_uint.
      pose proof (Z.mul_nonneg_nonneg (amt / p) p (Z.div_pos amt p ltac:(lia) ltac:(lia))). lia.
    + lia.
    + intros _. exists (amt / p). lia.
  - exists amt. split_and!; [done|done|]. intros ?.
    apply andb_false_iff in E as [?%negb_false_iff%Z.eqb_eq|?%Z.ltb_ge]; lia.
Qed.
End rounding.

Section rounding_witnesses.
Import Reference.

Lemma RoundToDecimal_spec_witness :
is_uint 123456789 /\ @RoundToDecimal Reference.uint 123456789 6 = Ok 123456700 /\
exists r, @RoundToDecimal Reference.uint 123456789 6 = Ok r /\
  (6 = 0 \/ 8 <= 6 -> r = 123456789) /\
  (0 < 6 < 8 -> exists k, r = k * 10 ^ (8 - 6) /\ r <= 123456789 < r + 10 ^ (8 - 6)).
Proof.
split; [by vm_compute|]. split; [by vm_compute|].
apply RoundToDecimal_spec; [by vm_compute|lia].
Defined.
End rounding_witnesses.

(** ** Medians *)

Lemma stable_sort_Z_sorted l : Sorted Z.le (stable_sort Z.ltb l).
Proof.
  assert (H : Sorted (fun a b => (b <? a) = false) (stable_sort Z.ltb l)).
  { apply stable_sort_sorted. intros x y. rewrite Z.ltb_lt, Z.ltb_ge. lia. }
  induction H as [|x l' H IH Hx]; constructor; [done|].
  destruct Hx; constructor. by apply Z.ltb_ge.
Qed.

Lemma stable_sort_Z_perm l1 l2 :
  Permutation l1 l2 -> stable_sort Z.ltb l1 = stable_sort Z.ltb l2.
Proof.
  intros H. apply (Sorted_unique Z.le); [by apply stable_sort_Z_sorted..|].
  by rewrite !stable_sort_perm.
Qed.

Lemma nth_Forall {A} (P : A -> Prop) (l : list A) n d :
  Forall P l -> (n < length l)%nat -> P (nth n l d).
Proof. intros H Hn. rewrite Forall_forall in H. apply H, list_elem_of_In, nth_In, Hn. Qed.

Section median.
Context {U : SdkUint} {UL : SdkUintLaws U}.

Lemma stable_sort_Forall (P : Z -> Prop) l : Forall P l -> Forall P (stable_sort Z.ltb l).
Proof. intros H. by rewrite stable_sort_perm. Qed.

(** The median of observed values (node votes on block heights, gas
    rates, ...) does not depend on the order in which the observations are
    listed, lies between the smallest and the largest of them, and is
    computed without overflow for values below 2^62 in magnitude. *)
Theorem GetMedianInt64_spec vals vals' lo hi :
  Permutation vals vals' ->
  - 2 ^ 62 <= lo -> hi < 2 ^ 62 -> vals <> [] ->
  Forall (fun v => lo <= v <= hi) vals ->
  fst (GetMedianInt64 vals) = fst (GetMedianInt64 vals') /\
  lo <= fst (GetMedianInt64 vals) <= hi.
Proof.
  intros Hperm Hlo Hhi Hne Hall. split.
  - pose proof (Permutation_length Hperm) as Hlen.
    destruct vals as [|a [|b vals]], vals' as [|a' [|b' vals']]; try done.
    + by apply Permutation_length_1 in Hperm as ->.
    + unfold GetMedianInt64. by rewrite (stable_sort_Z_perm _ _ Hperm).
  - destruct vals as [|a [|b vals]]; [done|by inversion Hall|].
    unfold GetMedianInt64. cbn zeta.
    apply stable_sort_Forall in Hall.
    pose proof (stable_sort_length Z.ltb (a :: b :: vals)) as Hl.
    set (l := stable_sort Z.ltb (a :: b :: vals)) in *.
    assert (2 <= length l)%nat by (rewrite Hl; cbn; lia).
    assert (H2 : (length l / 2 < length l)%nat) by (apply Nat.div_lt; lia).
    pose proof (nth_Forall _ l (length l / 2) 0 Hall H2).
    pose proof (nth_Forall _ l (length l / 2 - 1) 0 Hall ltac:(lia)).
    cbv beta in *. destruct (0 <? _)%nat; cbn [fst]; [done|].
    rewrite i64_id by (unfold is_i64; lia).
    split; [apply Z.quot_le_lower_bound|apply Z.quot_le_upper_bound]; lia.
Qed.
End median.

Lemma GetMedianInt64_spec_witness :
  GetMedianInt64 [5; 1; 9; 3] = (4, [1; 3; 5; 9]) /\
  fst (GetMedianInt64 [5; 1; 9; 3]) = fst (GetMedianInt64 [9; 3; 5; 1]) /\
  1 <= fst (GetMedianInt64 [5; 1; 9; 3]) <= 9.
Proof.
  split; [by vm_compute|].
  apply GetMedianInt64_spec; [|lia|lia|done|repeat constructor; lia].
  apply (Permutation_app_comm [5; 1] [9; 3]).
Defined.

(** ** Weighted means *)

Section weighted.
Context {U : SdkUint} {UL : SdkUintLaws U}.

Lemma Sum_Ok_from acc l s : foldM uint_add acc l = Ok s -> s = acc + sumZ id l.
Proof.
  revert acc. induction l as [|x l IH]; cbn; intros acc H; [invert_ok; lia|].
  invert_ok. apply uint_add_Ok in Hv as [-> _]. apply IH in H. unfold sumZ, id in *. lia.
Qed.

Lemma Sum_Ok l s : Sum l = Ok s -> s = sumZ id l.
Proof. intros H%Sum_Ok_from. lia. Qed.

Lemma foldM_add_total acc l :
  0 <= acc -> Forall (fun w => 0 <= w) l -> acc + sumZ id l < 2 ^ 256 ->
  foldM uint_add acc l = Ok (acc + sumZ id l).
Proof.
  intros Hacc Hl. revert acc Hacc.
  induction Hl as [|w l Hw Hl IH]; intros acc Hacc Hs; cbn; [by rewrite Z.add_0_r|].
  rewrite sumZ_cons in *. unfold id at 1 in Hs.
  pose proof (sumZ_nonneg id l Hl).
  rewrite uint_add_law, checked_in by (unfold is_uint; lia). cbn.
  rewrite IH by lia. f_equal. unfold sumZ, id. lia.
Qed.

Lemma weightedTotal_bounds acc vals weights t lo hi :
  length vals = length weights ->
  Forall (fun v => lo <= v <= hi) vals -> Forall (fun w => 0 <= w) weights ->
  weightedTotal acc vals weights = Ok t ->
  acc + lo * sumZ id weights <= t <= acc + hi * sumZ id weights.
Proof.
  revert acc weights. induction vals as [|v vals IH]; intros acc [|w weights] Hl Hv Hw H;
    cbn in Hl, H; try done; invert_ok; [cbn; lia|].
  apply uint_mul_Ok in Hv0 as [-> _]. apply uint_add_Ok in Hv1 as [-> _].
  inversion Hv; subst. inversion Hw; subst.
  apply IH in H; [|lia|done|done]. rewrite sumZ_cons. change (id w) with w.
  assert (lo * w <= v * w <= hi * w) by (split; apply Z.mul_le_mono_nonneg_r; lia). lia.
Qed.

Lemma weightedTotal_no_Err acc vals weights e : weightedTotal acc vals weights <> Err e.
Proof.
  revert acc weights. induction vals as [|v vals IH]; intros acc [|w ws]; cbn; try done.
  rewrite uint_mul_law. unfold checked. destruct (_ && _); cbn; [|done].
  rewrite uint_add_law. unfold checked. destruct (_ && _); cbn; [|done]. apply IH.
Qed.

(** A weighted mean that is returned lies between the smallest and the
    largest value; it is an error exactly when the weights sum to zero, and
    slices of different lengths with a non-zero weight panic. *)
Theorem WeightedMean_spec vals weights lo hi :
  0 <= lo ->
  Forall (fun v => lo <= v <= hi) vals -> Forall (fun w => 0 <= w) weights ->
  sumZ id weights < 2 ^ 256 ->
  match WeightedMean vals weights with
  | Ok m => length vals = length weights /\ lo <= m <= hi
  | Err _ => sumZ id weights = 0
  | Panic => 0 < sumZ id weights
  end.
Proof.
  intros Hlo Hvs Hws Hsum. unfold WeightedMean.
  unfold Sum. rewrite foldM_add_total, Z.add_0_l by (done || lia). cbn.
  pose proof (sumZ_nonneg id weights Hws).
  destruct (Z.eqb_spec (sumZ id weights) 0); [done|].
  destruct (Nat.eqb_spec (length vals) (length weights)); cbn; [|lia].
  destruct (weightedTotal 0 vals weights) as [t|e0|] eqn:Ht; cbn.
  - apply (weightedTotal_bounds _ _ _ _ lo hi) in Ht; [|done..].
    assert (0 <= lo * sumZ id weights) by (apply Z.mul_nonneg_nonneg; lia).
    rewrite uint_quo_law. unfold checked_quo.
    rewrite (proj2 (Z.eqb_neq _ 0)), Z.quot_div_nonneg by lia.
    destruct (checked _) as [m|e2|] eqn:Hm; [|by apply checked_no_Err in Hm|lia].
    apply checked_Ok in Hm as [-> _]. split; [done|].
    split; [apply Z.div_le_lower_bound|apply Z.div_le_upper_bound]; lia.
  - by apply weightedTotal_no_Err in Ht.
  - lia.
Qed.
End weighted.

Section weighted_witnesses.
Import Reference.

Lemma WeightedMean_spec_witness :
WeightedMean [10; 20] [1; 3] = Ok 17 /\
match WeightedMean [10; 20] [1; 3] with
| Ok m => length [10; 20] = length [1; 3] /\ 10 <= m <= 20
| Err _ => sumZ id [1; 3] = 0
| Panic => 0 < sumZ id [1; 3]
end.
Proof.
split; [by vm_compute|].
apply WeightedMean_spec; [lia|repeat constructor; lia|repeat constructor; lia|by vm_compute].
Defined.
End weighted_witnesses.
