(* ===== verification/Chains.v ===== *)
(** [common/chain.go] and [common/chain_network.go]: chain identifiers, their
    validation and the per-chain tables. A [Chain] is a Go string. *)
From S2P Require Import Prelude GoText Sdk.

Abbreviation Chain := string (only parsing).

(** ** Chain identifiers *)

Definition EmptyChain : Chain := EmptyString.
Definition BNBChain : Chain := "BNB".
Definition ETHChain : Chain := "ETH".
Definition BTCChain : Chain := "BTC".
Definition DASHChain : Chain := "DASH".
Definition BASEChain : Chain := "MAYA".
Definition AZTECChain : Chain := "AZTEC".
Definition THORChain : Chain := "THOR".
Definition AVAXChain : Chain := "AVAX".
Definition KUJIChain : Chain := "KUJI".
Definition ARBChain : Chain := "ARB".
Definition XRDChain : Chain := "XRD".
Definition ZECChain : Chain := "ZEC".

Definition AllChains : list Chain :=
  [ETHChain; BTCChain; DASHChain; BASEChain; THORChain; KUJIChain; ARBChain; XRDChain; ZECChain].

Definition Chain_Valid (c : Chain) : outcome unit :=
  if str_len c <? 3 then Err "chain id len is less than 3"
  else if 10 <? str_len c then Err "chain id len is more than 10"
  else if negb (str_forallb is_upper c) then Err "chain id can consist only of uppercase letters"
  else Ok tt.

(** [Validate] has the same body as [Valid]. *)
Definition Chain_Validate (c : Chain) : outcome unit :=
  if str_len c <? 3 then Err "chain id len is less than 3"
  else if 10 <? str_len c then Err "chain id len is more than 10"
  else if negb (str_forallb is_upper c) then Err "chain id can consist only of uppercase letters"
  else Ok tt.

(** On an error the code also returns the rejected text, which its callers drop. *)
Definition NewChain (chainID : string) : outcome Chain :=
  let chain := ToUpper chainID in
  _ ← Chain_Validate chain;
  Ok chain.

Definition Chain_String (c : Chain) : string := ToUpper c.

Definition Chain_Equals (c c2 : Chain) : bool := EqualFold (Chain_String c) (Chain_String c2).

Definition IsBASEChain (c : Chain) : bool := Chain_Equals c BASEChain.

Definition GetEVMChains : list Chain := [ETHChain; AVAXChain; ARBChain].
Definition GetUTXOChains : list Chain := [BTCChain; DASHChain].

Definition IsEVM (c : Chain) : bool := existsb (Chain_Equals c) GetEVMChains.
Definition IsUTXO (c : Chain) : bool := existsb (Chain_Equals c) GetUTXOChains.
Definition IsARB (c : Chain) : bool := Chain_Equals c ARBChain.
Definition Chain_IsBNB (c : Chain) : bool := Chain_Equals c BNBChain.

Definition Chain_IsEmpty (c : Chain) : bool := is_blank (Chain_String c).

Inductive SigningAlgo := SigningAlgoSecp256k1 | SigningAlgoEd25519.

Definition GetSigningAlgo (c : Chain) : SigningAlgo := SigningAlgoSecp256k1.

(** ** Per-chain tables *)

(** [switch c { case k1: return v1 ... default: return d }]: cases compare the
    identifier itself, without folding case. *)
Fixpoint switch {A} (c : string) (cases : list (list string * A)) (d : A) : A :=
  match cases with
  | [] => d
  | (ks, v) :: rest => if existsb (String.eqb c) ks then v else switch c rest d
  end.

Definition GetGasUnits (c : Chain) : string :=
  switch c
    [([AVAXChain], "nAVAX"); ([BNBChain], "ubnb"); ([BTCChain], "satsperbyte");
     ([DASHChain], "duffsperbyte"); ([ETHChain], "gwei"); ([ARBChain], "centigwei");
     ([KUJIChain], "ukuji"); ([THORChain], "rune"); ([XRDChain], "costunits");
     ([ZECChain], "satsperbyte")]
    EmptyString.

Definition GetGasAssetDecimal (c : Chain) : Z :=
  switch c [([BASEChain; THORChain], 8); ([KUJIChain], 6)] 8.

Definition DustThreshold (c : Chain) : Z :=
  switch c
    [([BTCChain; DASHChain; ZECChain], 10000);
     ([ETHChain; BNBChain; BASEChain; THORChain; AZTECChain; KUJIChain; ARBChain], 0)]
    0.

(** [constants.MaxMemoSize] *)
Definition MaxMemoSize : Z := 250.

Definition MaxMemoLength (c : Chain) : Z :=
  switch c [([BTCChain; DASHChain; ZECChain], 80)] MaxMemoSize.

Definition ApproximateBlockMilliseconds (c : Chain) : Z :=
  switch c
    [([BTCChain], 600000); ([DASHChain], 150000); ([ETHChain], 12000); ([AVAXChain], 3000);
     ([BNBChain], 500); ([KUJIChain], 3500); ([THORChain], 6000); ([BASEChain], 6000);
     ([ARBChain], 260); ([XRDChain], 500); ([ZECChain], 75000)]
    0.

Definition ChainsThatCanBundleMultipleBlocks : list Chain := [ARBChain; BNBChain; KUJIChain; XRDChain].

(** ** Networks and address prefixes *)

Inductive ChainNetwork := TestNet | MainNet | MockNet | StageNet.

#[export] Instance ChainNetwork_eq_dec : EqDecision ChainNetwork.
Proof. solve_decision. Defined.

Definition SoftEquals (net net2 : ChainNetwork) : bool :=
  if bool_decide (net = MainNet) && bool_decide (net2 = MainNet) then true
  else if bool_decide (net <> MainNet) && bool_decide (net2 <> MainNet) then true
  else false.

(** Prefixes the chain libraries define (binance-sdk, btcd, dashd-go) and the
    prefix set in the SDK configuration. *)
Class ChainParams := {
  bnb_test_prefix : string;
  bnb_prod_prefix : string;
  bech32_account_prefix : string;
  btc_regression_hrp : string;
  btc_testnet3_hrp : string;
  btc_mainnet_hrp : string;
  dash_regression_hrp : string;
  dash_testnet3_hrp : string;
  dash_mainnet_hrp : string;
}.

Definition AddressPrefix `{ChainParams} (c : Chain) (cn : ChainNetwork) : string :=
  if IsEVM c then "0x"
  else
    match cn with
    | MockNet =>
        switch c
          [([AZTECChain], "taztec"); ([BNBChain], bnb_test_prefix); ([THORChain], "tthor");
           ([KUJIChain], "kujira"); ([ETHChain], "0x"); ([BASEChain], bech32_account_prefix);
           ([BTCChain], btc_regression_hrp); ([DASHChain], dash_regression_hrp);
           ([XRDChain], "account_loc"); ([ZECChain], "tm")] EmptyString
    | TestNet =>
        switch c
          [([AZTECChain], "taztec"); ([BNBChain], bnb_test_prefix); ([THORChain], "tthor");
           ([KUJIChain], "kujira"); ([ETHChain], "0x"); ([BASEChain], bech32_account_prefix);
           ([BTCChain], btc_testnet3_hrp); ([DASHChain], dash_testnet3_hrp);
           ([XRDChain], "account_tdx_22_"); ([ZECChain], "tm")] EmptyString
    | StageNet =>
        switch c
          [([AZTECChain], "saztec"); ([BNBChain], bnb_prod_prefix); ([THORChain], "thor");
           ([KUJIChain], "kujira"); ([ETHChain], "0x"); ([BASEChain], bech32_account_prefix);
           ([BTCChain], btc_mainnet_hrp); ([DASHChain], dash_mainnet_hrp);
           ([XRDChain], "account_rdx"); ([ZECChain], "t")] EmptyString
    | MainNet =>
        switch c
          [([AZTECChain], "aztec"); ([BNBChain], bnb_prod_prefix); ([THORChain], "thor");
           ([KUJIChain], "kujira"); ([ETHChain], "0x"); ([BASEChain], bech32_account_prefix);
           ([BTCChain], btc_mainnet_hrp); ([DASHChain], dash_mainnet_hrp);
           ([XRDChain], "account_rdx"); ([ZECChain], "t")] EmptyString
    end.

(** [CurrentChainNetwork] is fixed by the build: it is an argument here. *)
Definition IsValidAddress `{ChainParams} (network : ChainNetwork) (c : Chain) (addr : string) : bool :=
  HasPrefix addr (AddressPrefix c network).

(** ** Lists of chains *)

Definition Chains_Has (chains : list Chain) (c : Chain) : bool :=
  existsb (fun ch => Chain_Equals ch c) chains.

Definition Chains_Distinct (chains : list Chain) : list Chain := distinct_by Chain_Equals chains.

Definition Chains_Strings (chains : list Chain) : list string := map Chain_String chains.

(** The chains that parse, and whether any did not (the combined error). *)
Definition NewChains (raw : list string) : list Chain * bool :=
  foldl (fun '(chains, failed) c =>
    match NewChain c with
    | Ok chain => (chains ++ [chain], failed)
    | _ => (chains, true)
    end) ([], false) raw.

(** ** Facts *)

Lemma Chain_Valid_Validate c : Chain_Valid c = Chain_Validate c.
Proof. done. Qed.

Lemma Chain_Valid_Ok c :
  Chain_Valid c = Ok tt <-> 3 <= str_len c <= 10 /\ str_forallb is_upper c = true.
Proof.
  unfold Chain_Valid.
  destruct (Z.ltb_spec (str_len c) 3); [split; [done|lia]|].
  destruct (Z.ltb_spec 10 (str_len c)); [split; [done|lia]|].
  destruct (str_forallb is_upper c); cbn; split; [|done|done|by intros []].
  intros _. split; [lia|done].
Qed.

Lemma Chain_Equals_spec c c2 : Chain_Equals c c2 = true <-> ToUpper c = ToUpper c2.
Proof. unfold Chain_Equals, Chain_String. by rewrite EqualFold_ToUpper, EqualFold_spec. Qed.

#[export] Instance Chain_Equals_equiv : Equivalence (fun c d => Chain_Equals c d = true).
Proof.
  split.
  - intros c. by apply Chain_Equals_spec.
  - intros c d. rewrite !Chain_Equals_spec. congruence.
  - intros c d e. rewrite !Chain_Equals_spec. congruence.
Qed.

Lemma NewChain_Ok s c :
  NewChain s = Ok c <-> c = ToUpper s /\ Chain_Valid c = Ok tt.
Proof.
  unfold NewChain. cbn zeta. rewrite bind_Ok. split.
  - intros ([] & Hv & [= <-]). by rewrite Chain_Valid_Validate.
  - intros [-> Hv]. exists tt. by rewrite <- Chain_Valid_Validate.
Qed.

Lemma NewChain_upper s c : NewChain s = Ok c -> str_forallb is_upper c = true.
Proof. by intros [_ [_ ?]%Chain_Valid_Ok]%NewChain_Ok. Qed.

Lemma NewChain_fixed c : Chain_Valid c = Ok tt -> NewChain c = Ok c.
Proof.
  intros Hv. apply NewChain_Ok. split; [|done].
  apply Chain_Valid_Ok in Hv as [_ Hv]. by rewrite ToUpper_upper.
Qed.

(** A valid identifier is its own canonical form: [Equals] is equality. *)
Lemma Chain_Equals_valid c d :
  Chain_Valid c = Ok tt -> Chain_Valid d = Ok tt -> Chain_Equals c d = true <-> c = d.
Proof.
  intros [_ Hc]%Chain_Valid_Ok [_ Hd]%Chain_Valid_Ok.
  by rewrite Chain_Equals_spec, !ToUpper_upper.
Qed.
