(* ===== verification/Keys.v ===== *)
(** [common/pubkey.go] and the comparisons of [common/address.go]: public keys,
    sets of keys and chain addresses. *)
From S2P Require Import Prelude GoText Sdk.

(** ** Addresses of a chain *)

Abbreviation Address := string (only parsing).

Definition NoAddress : Address := EmptyString.
Definition NoopAddress : Address := "noop".

Definition Address_String (addr : Address) : string := addr.
Definition Address_Equals (addr addr2 : Address) : bool :=
  EqualFold (Address_String addr) (Address_String addr2).
Definition Address_IsEmpty (addr : Address) : bool := is_blank (Address_String addr).
Definition IsNoop (addr : Address) : bool := Address_Equals addr NoopAddress.

(** ** Public keys *)

(** Whether a string decodes as a Bech32 account public key
    ([GetPubKeyFromBech32], of the SDK). *)
Class PubKeyCodec := { pubkey_decodes : string -> bool }.

Abbreviation PubKey := string (only parsing).
Abbreviation PubKeys := (list string) (only parsing).

Definition EmptyPubKey : PubKey := EmptyString.
Definition PubKey_Equals (pubKey pubKey1 : PubKey) : bool := String.eqb pubKey pubKey1.
Definition PubKey_IsEmpty (pubKey : PubKey) : bool := str_len pubKey =? 0.
Definition PubKey_String (pubKey : PubKey) : string := pubKey.

Section pubkeys.
Context `{C : PubKeyCodec}.

Definition NewPubKey (key : string) : outcome PubKey :=
  if str_len key =? 0 then Ok EmptyPubKey
  else if negb (pubkey_decodes key) then Err "%s is not bech32 encoded pub key,err : %w"
  else Ok key.

(** The keys of a stored list that parse. *)
Definition parsed_pubkeys (l : list string) : PubKeys :=
  omap (fun pk => match NewPubKey pk with Ok k => Some k | _ => None end) l.

Definition PubKeys_Valid (pks : PubKeys) : outcome unit :=
  forM_check (fun pk => NewPubKey (PubKey_String pk) ≫= fun _ => Ok tt) pks.
End pubkeys.

Definition PubKeys_Contains (pks : PubKeys) (pk : PubKey) : bool :=
  existsb (fun p => PubKey_Equals p pk) pks.

Definition PubKeys_Strings (pks : PubKeys) : list string := map PubKey_String pks.

Section compare.
Context `{SS : SliceSort}.

Definition sort_pubkeys (pks : PubKeys) : PubKeys :=
  sort_slice (fun a b => str_ltb (PubKey_String a) (PubKey_String b)) pks.

(** [for i := range source { if !source[i].Equals(dest[i]) { return false } }] *)
Fixpoint pubkeys_same (source dest : PubKeys) : bool :=
  match source, dest with
  | x :: source', y :: dest' =>
      if negb (PubKey_Equals x y) then false else pubkeys_same source' dest'
  | _, _ => true
  end.

Definition PubKeys_Equals (pks newPks : PubKeys) : bool :=
  if negb (length pks =? length newPks)%nat then false
  else pubkeys_same (sort_pubkeys pks) (sort_pubkeys newPks).
End compare.

(** ** Pairs of keys *)

Record PubKeySet := mkPubKeySet {
  Secp256k1 : PubKey;
  Ed25519 : PubKey;
}.

#[export] Instance PubKeySet_eq_dec : EqDecision PubKeySet.
Proof. solve_decision. Defined.

Definition EmptyPubKeySet : PubKeySet := mkPubKeySet EmptyPubKey EmptyPubKey.
Definition NewPubKeySet (secp256k1 ed25519 : PubKey) : PubKeySet := mkPubKeySet secp256k1 ed25519.
Definition PubKeySet_IsEmpty (pks : PubKeySet) : bool :=
  PubKey_IsEmpty (Secp256k1 pks) || PubKey_IsEmpty (Ed25519 pks).
Definition PubKeySet_Equals (pks pks1 : PubKeySet) : bool :=
  PubKey_Equals (Ed25519 pks) (Ed25519 pks1) && PubKey_Equals (Secp256k1 pks) (Secp256k1 pks1).
Definition PubKeySet_Contains (pks : PubKeySet) (pk : PubKey) : bool :=
  PubKey_Equals (Ed25519 pks) pk || PubKey_Equals (Secp256k1 pks) pk.

(** ** Facts *)

Lemma PubKey_Equals_spec a b : PubKey_Equals a b = true <-> a = b.
Proof. apply String.eqb_eq. Qed.

Lemma pubkeys_same_spec l l' : length l = length l' -> pubkeys_same l l' = true <-> l = l'.
Proof.
  revert l'. induction l as [|x l IH]; intros [|y l'] [=]; cbn; [done|].
  destruct (PubKey_Equals x y) eqn:E; cbn.
  - apply PubKey_Equals_spec in E as ->. rewrite IH by done. split; congruence.
  - split; [done|]. intros [= -> _]. by rewrite (proj2 (PubKey_Equals_spec y y)) in E.
Qed.

(** [PubKeys.Equals] decides whether two lists hold the same keys the same
    number of times, in any order. *)
Theorem PubKeys_Equals_spec {SS : SliceSort} {SSL : SliceSortLaws SS} pks newPks :
  PubKeys_Equals pks newPks = true <-> Permutation pks newPks.
Proof.
  unfold PubKeys_Equals, sort_pubkeys, PubKey_String.
  set (lt := fun a b : string => str_ltb a b).
  assert (Hp : forall l, Permutation (sort_slice lt l) l) by (intros; apply sort_slice_perm).
  assert (Hs : forall l, Sorted (fun a b => str_ltb b a = false) (sort_slice lt l))
    by (intros; apply (sort_slice_sorted string id)).
  destruct (Nat.eqb_spec (length pks) (length newPks)) as [Hl|Hl]; cbn.
  2:{ split; [done|]. by intros ?%Permutation_length. }
  rewrite pubkeys_same_spec by (by rewrite !Hp). split.
  - intros E. by rewrite <- (Hp pks), E, Hp.
  - intros E. apply sorted_keys_unique; [done..|]. by rewrite !Hp.
Qed.

Section keys_witnesses.
Import Reference ReferenceSort.

Lemma PubKeys_Equals_spec_witness :
  PubKeys_Equals ["b"; "a"; "b"] ["b"; "b"; "a"] = true /\
  Permutation ["b"; "a"; "b"] ["b"; "b"; "a"]%string.
Proof. split; [by vm_compute|]. apply PubKeys_Equals_spec. by vm_compute. Defined.
End keys_witnesses.
