(* ===== verification/Addresses.v ===== *)
(** [common/address.go] and the older versions it dispatches to: parsing an
    address, and the chain and the network it belongs to. The decoders of the
    chains are libraries. *)
From S2P Require Import Prelude GoText Sdk Chains Keys.

(** ** The decoders *)

Inductive chain_params := MainNetParams | TestNet3Params | RegressionNetParams.

Class AddressLib := {
  IsHexAddress : string -> bool;                      (* go-ethereum *)
  bech32_prefix : string -> option string;            (* bech32.Decode: the prefix *)
  btc_decodes : chain_params -> string -> bool;       (* btcutil.DecodeAddress *)
  dash_decodes : chain_params -> string -> bool;      (* dashd-go's DecodeAddress *)
  ret_network : string -> option Z;                   (* the Radix toolkit: the network id *)
  zec_valid : chain_params -> string -> bool;         (* zec.ValidateAddress *)
}.

Definition EVMNullAddress : Address := "0x0000000000000000000000000000000000000000".

(** The characters of the two patterns. *)
Definition is_alnum (c : ascii) : bool := is_upper c || is_lower c || is_digit c.
Definition alphaNumRegex (s : string) : bool :=
  str_forallb (fun c => is_alnum c || Ascii.eqb c ":") s.
Definition addressRegexV111 (s : string) : bool :=
  str_forallb (fun c => is_alnum c || Ascii.eqb c ":" || Ascii.eqb c "_") s.

(** [strings.CutPrefix] *)
Definition CutPrefix (s p : string) : string * bool :=
  if HasPrefix s p then (String.substring (String.length p) (String.length s - String.length p) s, true)
  else (s, false).

Definition RadixAccountAddressPrefix : string := "account_rdx1".
Definition RadixPrefixAbbreviations : list string := ["ardx1"; "rdx1"; "1"].

Section address.
Context `{L : AddressLib} `{V : Semver}.

Definition bech32_decodes (s : string) : bool := if bech32_prefix s is Some _ then true else false.
Definition ret_decodes (s : string) : bool := if ret_network s is Some _ then true else false.

(** The prefix [bech32.Decode] returns, empty on an error. *)
Definition bech32_hrp (s : string) : string := default EmptyString (bech32_prefix s).

(** The loop over the abbreviations stops at the first that is a prefix. *)
Fixpoint cut_abbreviation (addr : string) (prefixes : list string) : string :=
  match prefixes with
  | [] => addr
  | nextPrefix :: prefixes' =>
      let '(addrWithoutPrefix, found) := CutPrefix addr nextPrefix in
      if found : bool then addrWithoutPrefix else cut_abbreviation addr prefixes'
  end.

Definition tryUnabbreviateAddress (addr : string) (chain : Chain) : string :=
  if String.eqb chain XRDChain then
    if negb (ret_decodes addr)
    then RadixAccountAddressPrefix +:+ cut_abbreviation addr RadixPrefixAbbreviations
    else addr
  else addr.

Definition not_supported : string := "address format not supported: %s".

(** The formats every version accepts as they are. *)
Definition plain_format (address : string) : bool :=
  IsHexAddress address || bech32_decodes address
  || btc_decodes MainNetParams address || btc_decodes TestNet3Params address
  || dash_decodes MainNetParams address || dash_decodes TestNet3Params address
  || dash_decodes RegressionNetParams address.

Definition NewAddressV1 (address : string) : outcome Address :=
  if str_len address =? 0 then Ok NoAddress
  else if negb (alphaNumRegex address) then Err not_supported
  else if plain_format address then Ok address
  else Err not_supported.

Definition NewAddressV111 (address : string) : outcome Address :=
  if str_len address =? 0 then Ok NoAddress
  else if negb (addressRegexV111 address) then Err not_supported
  else if plain_format address then Ok address
  else
    let processedAddr := tryUnabbreviateAddress address XRDChain in
    if ret_decodes processedAddr then Ok processedAddr
    else Err not_supported.

Definition NewAddressV120 (address : string) : outcome Address :=
  if str_len address =? 0 then Ok NoAddress
  else if negb (addressRegexV111 address) then Err not_supported
  else if plain_format address then Ok address
  else
    let processedAddr := tryUnabbreviateAddress address XRDChain in
    if ret_decodes processedAddr then Ok processedAddr
    else if zec_valid MainNetParams address then Ok address
    else if zec_valid RegressionNetParams address then Ok address
    else Err not_supported.

Definition NewAddress (address : string) (version : Version) : outcome Address :=
  if GTE version (semver_release 1 120 0) then NewAddressV120 address
  else if GTE version (semver_release 1 111 0) then NewAddressV111 address
  else NewAddressV1 address.

(** ** The chain of an address *)

Definition has_hrp (prefixes : list string) (addr : Address) : bool :=
  existsb (String.eqb (bech32_hrp addr)) prefixes.

Definition is_btc (addr : Address) : bool :=
  has_hrp ["bc"; "tb"] addr || btc_decodes MainNetParams addr || btc_decodes TestNet3Params addr.

Definition is_dash (addr : Address) : bool :=
  dash_decodes MainNetParams addr || dash_decodes TestNet3Params addr
  || dash_decodes RegressionNetParams addr.

Definition is_zec (addr : Address) : bool :=
  zec_valid MainNetParams addr || zec_valid RegressionNetParams addr.

(** The cases of the [switch]; a chain that is not listed accepts any address. *)
Definition is_chain (checks : list (Chain * (Address -> bool))) (addr : Address) (chain : Chain) : bool :=
  if IsEVM chain then HasPrefix addr "0x"
  else
    match List.find (fun c => String.eqb (fst c) chain) checks with
    | Some (_, check) => check addr
    | None => true
    end.

Definition checks_V107 : list (Chain * (Address -> bool)) :=
  [(BNBChain, has_hrp ["bnb"; "tbnb"]); (AZTECChain, has_hrp ["aztec"; "taztec"; "saztec"]);
   (BASEChain, has_hrp ["maya"; "tmaya"; "smaya"]); (THORChain, has_hrp ["thor"; "tthor"]);
   (BTCChain, is_btc); (DASHChain, is_dash); (XRDChain, ret_decodes)].

Definition checks_V108 : list (Chain * (Address -> bool)) :=
  [(BNBChain, has_hrp ["bnb"; "tbnb"]); (AZTECChain, has_hrp ["aztec"; "taztec"; "saztec"]);
   (BASEChain, has_hrp ["maya"; "tmaya"; "smaya"]); (THORChain, has_hrp ["thor"; "tthor"]);
   (KUJIChain, has_hrp ["kujira"]); (BTCChain, is_btc); (DASHChain, is_dash)].

Definition checks_V111 : list (Chain * (Address -> bool)) :=
  [(BNBChain, has_hrp ["bnb"; "tbnb"]); (AZTECChain, has_hrp ["aztec"; "taztec"; "saztec"]);
   (BASEChain, has_hrp ["maya"; "tmaya"; "smaya"]); (THORChain, has_hrp ["thor"; "tthor"]);
   (KUJIChain, has_hrp ["kujira"]); (BTCChain, is_btc); (DASHChain, is_dash);
   (XRDChain, ret_decodes)].

Definition checks_V120 : list (Chain * (Address -> bool)) :=
  [(BNBChain, has_hrp ["bnb"; "tbnb"]); (AZTECChain, has_hrp ["aztec"; "taztec"; "saztec"]);
   (BASEChain, has_hrp ["maya"; "tmaya"; "smaya"]); (THORChain, has_hrp ["thor"; "tthor"]);
   (KUJIChain, has_hrp ["kujira"]); (BTCChain, is_btc); (DASHChain, is_dash);
   (XRDChain, ret_decodes); (ZECChain, is_zec)].

Definition IsChainV120 (addr : Address) (chain : Chain) : bool :=
  if String.eqb (Address_String addr) EmptyString then false else is_chain checks_V120 addr chain.
Definition IsChainV112 (addr : Address) (chain : Chain) : bool :=
  if String.eqb (Address_String addr) EmptyString then false else is_chain checks_V111 addr chain.
Definition IsChainV111 (addr : Address) (chain : Chain) : bool := is_chain checks_V111 addr chain.
Definition IsChainV108 (addr : Address) (chain : Chain) : bool := is_chain checks_V108 addr chain.
Definition IsChainV107 (addr : Address) (chain : Chain) : bool := is_chain checks_V107 addr chain.

Definition IsChain (addr : Address) (chain : Chain) (version : Version) : bool :=
  if GTE version (semver_release 1 120 0) then IsChainV120 addr chain
  else if GTE version (semver_release 1 112 0) then IsChainV112 addr chain
  else if GTE version (semver_release 1 111 0) then IsChainV111 addr chain
  else if GTE version (semver_release 1 108 0) then IsChainV108 addr chain
  else IsChainV107 addr chain.

Definition chains_V120 : list Chain :=
  [ETHChain; BNBChain; BASEChain; BTCChain; DASHChain; THORChain; KUJIChain; AVAXChain; ARBChain;
   XRDChain; ZECChain].
Definition chains_V112 : list Chain :=
  [ETHChain; BNBChain; BASEChain; BTCChain; DASHChain; THORChain; KUJIChain; AVAXChain; ARBChain;
   XRDChain].
Definition chains_V109 : list Chain :=
  [ETHChain; BNBChain; BASEChain; BTCChain; DASHChain; THORChain; KUJIChain; AVAXChain; ARBChain].
Definition chains_V107 : list Chain :=
  [ETHChain; BNBChain; BASEChain; BTCChain; DASHChain; THORChain; KUJIChain; AVAXChain].
Definition chains_V105 : list Chain :=
  [ETHChain; BNBChain; BASEChain; BTCChain; DASHChain; BASEChain; AVAXChain].

Definition Address_GetChain (addr : Address) (version : Version) : Chain :=
  let chains :=
    if GTE version (semver_release 1 120 0) then chains_V120
    else if GTE version (semver_release 1 112 0) then chains_V112
    else if GTE version (semver_release 1 109 0) then chains_V109
    else if GTE version (semver_release 1 107 0) then chains_V107
    else chains_V105 in
  default EmptyChain (List.find (fun chain => IsChain addr chain version) chains).

Definition AbbreviatedString (addr : Address) (version : Version) : string :=
  if String.eqb (Address_GetChain addr version) XRDChain
  then fst (CutPrefix (Address_String addr) RadixAccountAddressPrefix)
  else Address_String addr.
End address.

(** ** The network of an address *)

(** [CurrentChainNetwork] is fixed by the build, and so is the version
    [LatestVersion]. *)
Section network.
Context `{L : AddressLib} `{V : Semver} (CurrentChainNetwork : ChainNetwork) (LatestVersion : Version).

Definition mainNetPredicate : ChainNetwork :=
  if bool_decide (CurrentChainNetwork = StageNet) then StageNet else MainNet.

(** The network of the first prefix the address has, ignoring case. *)
Definition hrp_network (l : list (string * ChainNetwork)) (addr : Address) : option ChainNetwork :=
  option_map snd (List.find (fun pn => EqualFold (bech32_hrp addr) (fst pn)) l).

(** The network of the first parameters that decode the address. *)
Definition decoded_network (l : list (bool * ChainNetwork)) : option ChainNetwork :=
  option_map snd (List.find fst l).

Definition btc_network (addr : Address) : option ChainNetwork :=
  let prefix := bech32_hrp addr in
  if String.eqb prefix "bc" then Some mainNetPredicate
  else if String.eqb prefix "tb" then Some TestNet
  else if String.eqb prefix "bcrt" then Some MockNet
  else decoded_network [(btc_decodes MainNetParams addr, mainNetPredicate);
                        (btc_decodes TestNet3Params addr, TestNet);
                        (btc_decodes RegressionNetParams addr, MockNet)].

Definition dash_network (addr : Address) : option ChainNetwork :=
  decoded_network [(dash_decodes MainNetParams addr, mainNetPredicate);
                   (dash_decodes TestNet3Params addr, TestNet);
                   (dash_decodes RegressionNetParams addr, MockNet)].

Definition xrd_network (addr : Address) : option ChainNetwork :=
  Some (match ret_network addr with
        | Some 2 => StageNet
        | Some 34 => TestNet
        | Some 240 => MockNet
        | _ => mainNetPredicate
        end).

Definition zec_network (addr : Address) : option ChainNetwork :=
  if existsb (HasPrefix addr) ["tm"; "t2"; "ztestsapling"; "uregtest"; "utest"] then Some TestNet
  else if IsChain addr ZECChain LatestVersion then Some mainNetPredicate
  else None.

(** What the cases shared by the versions return, if they do. *)
Definition network_of (addr : Address) (chain : Chain) : option ChainNetwork :=
  if String.eqb chain BNBChain then
    hrp_network [("bnb", mainNetPredicate); ("tbnb", TestNet)] addr
  else if String.eqb chain AZTECChain then Some CurrentChainNetwork
  else if String.eqb chain BASEChain then
    hrp_network [("maya", mainNetPredicate); ("tmaya", TestNet); ("smaya", StageNet)] addr
  else if String.eqb chain KUJIChain then Some CurrentChainNetwork
  else if String.eqb chain THORChain then
    hrp_network [("thor", mainNetPredicate); ("tthor", TestNet)] addr
  else if String.eqb chain BTCChain then btc_network addr
  else if String.eqb chain DASHChain then dash_network addr
  else None.

Definition getNetworkV120 (addr : Address) (chain : Chain) : ChainNetwork :=
  if String.eqb addr NoAddress then mainNetPredicate
  else if IsEVM chain then CurrentChainNetwork
  else
    default CurrentChainNetwork
      (if String.eqb chain XRDChain then xrd_network addr
       else if String.eqb chain ZECChain then zec_network addr
       else network_of addr chain).

Definition getNetworkV111 (addr : Address) (chain : Chain) : ChainNetwork :=
  if String.eqb addr NoAddress then mainNetPredicate
  else if IsEVM chain then CurrentChainNetwork
  else
    default CurrentChainNetwork
      (if String.eqb chain XRDChain then xrd_network addr else network_of addr chain).

Definition getNetworkV1 (addr : Address) (ver : Version) (chain : Chain) : ChainNetwork :=
  if IsEVM chain then CurrentChainNetwork
  else
    default (if GTE ver (semver_release 1 93 0) then CurrentChainNetwork else MockNet)
      (network_of addr chain).

Definition Address_GetNetwork (addr : Address) (version : Version) (chain : Chain) : ChainNetwork :=
  if GTE version (semver_release 1 120 0) then getNetworkV120 addr chain
  else if GTE version (semver_release 1 111 0) then getNetworkV111 addr chain
  else getNetworkV1 addr version chain.
End network.

Definition AccAddress_of `{SdkAddress} (addr : Address) : outcome AccAddress :=
  match acc_from_bech32 (Address_String addr) with
  | Some a => Ok a
  | None => Err "decoding bech32 failed"
  end.

(** ** Facts *)

Section address_facts.
Context {L : AddressLib} {V : Semver}.

Lemma tryUnabbreviate_decodes addr : ret_decodes addr = true -> tryUnabbreviateAddress addr XRDChain = addr.
Proof. unfold tryUnabbreviateAddress. by intros ->. Qed.

(** What parsing returns is a fixed point: an accepted address parses to
    itself, so a stored address stays readable. The Radix toolkit is assumed to
    accept only non-empty text of letters, digits and underscores. *)
Theorem NewAddress_idempotent version s a :
  (forall t, ret_decodes t = true -> addressRegexV111 t = true /\ t <> EmptyString) ->
  NewAddress s version = Ok a -> NewAddress a version = Ok a.
Proof.
  intros Hret. unfold NewAddress.
  assert (Hrest : forall r, ret_decodes r = true ->
    NewAddressV120 r = Ok r /\ NewAddressV111 r = Ok r).
  { intros r Hr. destruct (Hret r Hr) as [Hre Hne].
    unfold NewAddressV120, NewAddressV111. rewrite Hre, tryUnabbreviate_decodes, Hr by done.
    destruct r; [done|]. change (str_len (String a0 r) =? 0) with false. cbn [negb].
    by destruct (plain_format _). }
  destruct (GTE version (semver_release 1 120 0)); [|destruct (GTE version (semver_release 1 111 0))].
  - unfold NewAddressV120 at 1. intros H.
    destruct (str_len s =? 0) eqn:E0; [by invert_ok|].
    destruct (addressRegexV111 s) eqn:E1; [|done]. cbn [negb] in H.
    destruct (plain_format s) eqn:E2; [|destruct (ret_decodes _) eqn:E3]; invert_ok;
      [|by apply Hrest|..]; unfold NewAddressV120; rewrite E0, E1; cbn [negb].
    + by rewrite E2.
    + by rewrite E2, E3, Eb.
    + by rewrite E2, E3, Eb, Eb0.
  - unfold NewAddressV111 at 1. intros H.
    destruct (str_len s =? 0) eqn:E0; [by invert_ok|].
    destruct (addressRegexV111 s) eqn:E1; [|done]. cbn [negb] in H.
    destruct (plain_format s) eqn:E2; [|destruct (ret_decodes _) eqn:E3]; invert_ok; [|by apply Hrest].
    unfold NewAddressV111. by rewrite E0, E1, E2.
  - unfold NewAddressV1 at 1. intros H.
    destruct (str_len s =? 0) eqn:E0; [by invert_ok|].
    destruct (alphaNumRegex s) eqn:E1; [|done]. cbn [negb] in H. invert_ok.
    unfold NewAddressV1. by rewrite E0, E1, Eb.
Qed.

(** The chain an address is given is one it belongs to. *)
Lemma Address_GetChain_sound addr version chain :
  Address_GetChain addr version = chain -> chain <> EmptyChain -> IsChain addr chain version = true.
Proof.
  unfold Address_GetChain. intros <-. destruct (List.find _ _) as [c|] eqn:E; [|done].
  intros _. by apply List.find_some in E as [_ E].
Qed.
End address_facts.

(** ** A reference instance *)

(** Decoders that only look at the start of an address. *)
Module ReferenceAddress.
#[export] Instance address_lib : AddressLib := {|
  IsHexAddress s := HasPrefix s "0x" && (str_len s =? 42);
  bech32_prefix s :=
    match split_at "1" s with
    | (h, Some t) =>
        if existsb (String.eqb h) ["maya"; "tmaya"; "thor"; "tthor"; "bc"; "tb"; "kujira"; "bnb"]
        then Some h else None
    | _ => None
    end;
  btc_decodes net s := if net is MainNetParams then HasPrefix s "3" else false;
  dash_decodes net s := if net is MainNetParams then HasPrefix s "X" else false;
  ret_network s :=
    if HasPrefix s "account_rdx1a" && addressRegexV111 s then Some 1 else None;
  zec_valid net s := if net is MainNetParams then HasPrefix s "t1" else false;
|}.

Lemma ret_text t : ret_decodes t = true -> addressRegexV111 t = true /\ t <> EmptyString.
Proof.
  unfold ret_decodes. cbn [ret_network address_lib].
  destruct (_ && _) eqn:E; [|done]. apply andb_prop in E as [E ->]. split; [done|]. by intros ->.
Qed.
End ReferenceAddress.

Section address_witnesses.
Import Reference ReferenceAddress.

(** An abbreviated Radix address and its full form. *)
Lemma NewAddress_idempotent_witness :
  NewAddress "rdx1abc" (semver_release 1 123 0) = Ok "account_rdx1abc"%string /\
  NewAddress "account_rdx1abc" (semver_release 1 123 0) = Ok "account_rdx1abc"%string.
Proof.
  split; [by vm_compute|].
  apply (NewAddress_idempotent _ "rdx1abc"); [apply ret_text|by vm_compute].
Defined.
End address_witnesses.
