(* ===== verification/Assets.v ===== *)
(** [common/symbol.go], [common/ticker.go] and [common/asset.go]: the asset
    notation (parsing, printing, equality) and the views of an asset. *)
From S2P Require Import Prelude GoText Chains.

(** ** Symbols and tickers *)

(** The class [A-Za-z0-9-._] of [isAlphaNumeric]. *)
Definition symbol_char (c : ascii) : bool :=
  is_upper c || is_lower c || is_digit c
  || Ascii.eqb c "-" || Ascii.eqb c "." || Ascii.eqb c "_".

Definition isAlphaNumeric (s : string) : bool :=
  negb (String.eqb s EmptyString) && str_forallb symbol_char s.

Definition NewSymbol (input : string) : outcome string :=
  if negb (isAlphaNumeric input) then Err "invalid symbol" else Ok (ToUpper input).

Definition Symbol_String (s : string) : string := ToUpper s.
Definition Symbol_Equals (s s2 : string) : bool := EqualFold (Symbol_String s) (Symbol_String s2).
Definition Symbol_IsEmpty (s : string) : bool := is_blank (Symbol_String s).
Definition Symbol_Valid (s : string) : outcome unit :=
  if negb (isAlphaNumeric (Symbol_String s)) then Err "symbol must be alphanumeric" else Ok tt.

Definition NewTicker (ticker : string) : outcome string :=
  if str_len ticker =? 0 then Err "ticker error: empty ticker"
  else if 13 <? str_len ticker then Err "ticker error: too many characters"
  else if contains_char "/" ticker then Err "ticker error: cannot contain a /"
  else Ok (ToUpper ticker).

Definition Ticker_String (t : string) : string := ToUpper t.
Definition Ticker_Equals (t t2 : string) : bool := EqualFold (Ticker_String t) (Ticker_String t2).
Definition Ticker_IsEmpty (t : string) : bool := is_blank (Ticker_String t).

(** The ticker part of a symbol; a symbol without one gives the empty ticker. *)
Definition Symbol_Ticker (s : string) : string :=
  match NewTicker (fst (split_at "-" (Symbol_String s))) with
  | Ok t => t
  | _ => EmptyString
  end.

(** [strings.Split(s, "-")] *)
Fixpoint split_all_fuel (n : nat) (sep : ascii) (s : string) : list string :=
  match n with
  | O => [s]
  | S n' =>
      match split_at sep s with
      | (h, None) => [h]
      | (h, Some t) => h :: split_all_fuel n' sep t
      end
  end.
Definition Split (sep : ascii) (s : string) : list string :=
  split_all_fuel (String.length s) sep s.

Definition HasSuffixM (s : string) : bool :=
  match String.get (String.length s - 1) s with Some c => Ascii.eqb c "M" | None => false end.

Definition IsMiniToken (s : string) : bool :=
  match Split "-" (Symbol_String s) with
  | _ :: p1 :: _ => (str_len p1 =? 4) && HasSuffixM (Symbol_String s)
  | _ => false
  end.

(** ** Assets *)

Record Asset := mkAsset {
  Asset_Chain : Chain;
  Asset_Symbol : string;
  Asset_Ticker : string;
  Asset_Synth : bool;
  Asset_Trade : bool;
}.

#[export] Instance Asset_eq_dec : EqDecision Asset.
Proof. solve_decision. Defined.

Definition EmptyAsset : Asset := mkAsset EmptyChain EmptyString EmptyString false false.

(** A layer-1 asset. *)
Definition L1 (c : Chain) (sym tick : string) : Asset := mkAsset c sym tick false false.

Definition RUNEAsset := L1 THORChain "RUNE" "RUNE".
Definition BNBAsset := L1 BNBChain "BNB" "BNB".
Definition BTCAsset := L1 BTCChain "BTC" "BTC".
Definition DASHAsset := L1 DASHChain "DASH" "DASH".
Definition ETHAsset := L1 ETHChain "ETH" "ETH".
Definition USDTAsset := L1 ETHChain "USDT-0xdAC17F958D2ee523a2206206994597C13D831ec7" "USDT".
Definition USDCAsset := L1 ETHChain "USDC-0xA0b86991c6218b36c1d19D4a2e9Eb0cE3606eB48" "USDC".
Definition WSTETHAsset := L1 ETHChain "WSTETH-0X7F39C581F595B53C5CB19BD0B3F8DA6C935E2CA0" "WSTETH".
Definition USDTAssetV1 := L1 ETHChain "USDT-0xdAC17F958D2ee523a2206206994597C13D831ec7" "ETH".
Definition USDCAssetV1 := L1 ETHChain "USDC-0xA0b86991c6218b36c1d19D4a2e9Eb0cE3606eB48" "ETH".
Definition WSTETHAssetV1 := L1 ETHChain "WSTETH-0X7F39C581F595B53C5CB19BD0B3F8DA6C935E2CA0" "ETH".
Definition PEPEAssetV1 := L1 ETHChain "PEPE-0x25D887CE7A35172C62FEBFD67A1856F20FAEBB00" "PEPE".
Definition PEPEAsset := L1 ETHChain "PEPE-0X6982508145454CE325DDBE47A25D4EC3D2311933" "PEPE".
Definition AETHAsset := L1 ARBChain "ETH" "ETH".
Definition AUSDTAsset := L1 ARBChain "USDT-0XFD086BC7CD5C481DCC9C85EBE478A1C0B69FCBB9" "USDT".
Definition AUSDCAsset := L1 ARBChain "USDC-0XAF88D065E77C8CC2239327C5EDB3A432268E5831" "USDC".
Definition ADAIAsset := L1 ARBChain "DAI-0XDA10009CBD5D07DD0CECC66161FC93D7C9000DA1" "DAI".
Definition APEPEAsset := L1 ARBChain "PEPE-0X25D887CE7A35172C62FEBFD67A1856F20FAEBB00" "PEPE".
Definition AWSTETHAsset := L1 ARBChain "WSTETH-0X5979D7B546E38E414F7E9822514BE443A4800529" "WSTETH".
Definition AWBTCAsset := L1 ARBChain "WBTC-0X2F2A2543B76A4166549F7AAB2E75BEF0AEFC5B0F" "WBTC".
Definition ATGTAsset := L1 ARBChain "TGT-0x429FED88F10285E61B12BDF00848315FBDFCC341" "TGT".
Definition KUJIAsset := L1 KUJIChain "KUJI" "KUJI".
Definition USKAsset := L1 KUJIChain "USK" "KUJI".
Definition AVAXAsset := L1 AVAXChain "AVAX" "AVAX".
Definition XRDAsset := L1 XRDChain "XRD" "XRD".
Definition ZECAsset := L1 ZECChain "ZEC" "ZEC".
Definition BaseNative := L1 BASEChain "CACAO" "CACAO".
Definition MayaNative := L1 BASEChain "MAYA" "MAYA".

Definition BaseAsset : Asset := BaseNative.

(** The class [~./] of [AssetSeparators]. *)
Definition is_separator (c : ascii) : bool :=
  Ascii.eqb c "~" || Ascii.eqb c "." || Ascii.eqb c "/".

Definition NewAsset (input : string) : outcome Asset :=
  (* the two flags, and the parts around the first separator *)
  let '(trade, synth, parts) :=
    match find_char is_separator input with
    | Some "~"%char => (true, false, split_at "~" input)
    | Some "/"%char => (false, true, split_at "/" input)
    | Some "."%char => (false, false, split_at "." input)
    | _ => (false, false, (input, None))
    end in
  '(chain, sym) ←
    match parts with
    | (p0, None) => Ok (BASEChain, p0)
    | (p0, Some p1) => chain ← NewChain p0; Ok (chain, p1)
    end;
  symbol ← NewSymbol sym;
  ticker ← NewTicker (fst (split_at "-" sym));
  Ok (mkAsset chain symbol ticker synth trade).

Definition Asset_String (a : Asset) : string :=
  let div := "." in
  let div := if Asset_Synth a then "/" else div in
  let div := if Asset_Trade a then "~" else div in
  Chain_String (Asset_Chain a) +:+ div +:+ Symbol_String (Asset_Symbol a).

Definition Asset_Valid (a : Asset) : outcome unit :=
  _ ← Chain_Valid (Asset_Chain a);
  _ ← Symbol_Valid (Asset_Symbol a);
  if Asset_Synth a && IsBASEChain (Asset_Chain a) then Err "synth asset cannot have chain MAYA: %s"
  else Ok tt.

Definition Asset_Equals (a a2 : Asset) : bool :=
  Chain_Equals (Asset_Chain a) (Asset_Chain a2)
  && Symbol_Equals (Asset_Symbol a) (Asset_Symbol a2)
  && Ticker_Equals (Asset_Ticker a) (Asset_Ticker a2)
  && Bool.eqb (Asset_Synth a) (Asset_Synth a2)
  && Bool.eqb (Asset_Trade a) (Asset_Trade a2).

Definition GetChain (a : Asset) : Chain :=
  if Asset_Synth a || Asset_Trade a then BASEChain else Asset_Chain a.

Definition IsSyntheticAsset (a : Asset) : bool := Asset_Synth a.
Definition IsTradeAsset (a : Asset) : bool := Asset_Trade a.
Definition IsVaultAsset (a : Asset) : bool := IsSyntheticAsset a.

Definition GetLayer1Asset (a : Asset) : Asset :=
  if negb (IsSyntheticAsset a) && negb (IsTradeAsset a) then a
  else mkAsset (Asset_Chain a) (Asset_Symbol a) (Asset_Ticker a) false false.

Definition GetSyntheticAsset (a : Asset) : Asset :=
  if IsSyntheticAsset a then a
  else mkAsset (Asset_Chain a) (Asset_Symbol a) (Asset_Ticker a) true false.

Definition GetTradeAsset (a : Asset) : Asset :=
  if IsTradeAsset a then a
  else mkAsset (Asset_Chain a) (Asset_Symbol a) (Asset_Ticker a) false true.

Definition IsBase (a : Asset) : bool := Asset_Equals a BaseNative.
Definition IsNativeBase (a : Asset) : bool := IsBase a && IsBASEChain (Asset_Chain a).
Definition Asset_IsNative (a : Asset) : bool := IsBASEChain (GetChain a).
Definition Asset_IsBNB (a : Asset) : bool := Asset_Equals a BNBAsset.

(** The bank denomination. *)
Definition Asset_Native (a : Asset) : string :=
  if IsBase a then "cacao"
  else if Asset_Equals a MayaNative then "maya"
  else ToLower (Asset_String a).

Definition Asset_IsEmpty (a : Asset) : bool :=
  Chain_IsEmpty (Asset_Chain a) || Symbol_IsEmpty (Asset_Symbol a) || Ticker_IsEmpty (Asset_Ticker a).

Definition MimirString (a : Asset) : string :=
  Chain_String (Asset_Chain a) +:+ "-" +:+ Symbol_String (Asset_Symbol a).

Definition GetGasAsset (c : Chain) : Asset :=
  switch c
    [([AZTECChain], BaseNative); ([BASEChain], BaseNative); ([BNBChain], BNBAsset);
     ([BTCChain], BTCAsset); ([DASHChain], DASHAsset); ([ETHChain], ETHAsset);
     ([THORChain], RUNEAsset); ([AVAXChain], AVAXAsset); ([KUJIChain], KUJIAsset);
     ([ARBChain], AETHAsset); ([XRDChain], XRDAsset); ([ZECChain], ZECAsset)]
    EmptyAsset.

Definition IsGasAsset (a : Asset) : bool :=
  let gasAsset := GetGasAsset (GetChain a) in
  if Asset_IsEmpty gasAsset then false else Asset_Equals a gasAsset.

Definition Assets_Contains (assets : list Asset) (a : Asset) : bool :=
  existsb (fun asset => Asset_Equals asset a) assets.

Definition ContainsAsset (asset : Asset) (assets : list Asset) : bool :=
  existsb (fun a => Asset_Equals a asset) assets.

(** 1e8 amounts to wei (1e18) and centiwei (1e16) on [big.Int]s. *)
Definition ConvertMayachainAmountToWei (amt : Z) : Z := amt * (100000000 * 100).
Definition ConvertMayachainAmountToCentiWei (amt : Z) : Z := amt * 10000000.

(** The JSON form of an asset is its string, except the lone dot, which reads
    as the empty asset; [s] is the decoded JSON string. *)
Definition Asset_UnmarshalJSON (s : string) : outcome Asset :=
  if String.eqb s "." then Ok EmptyAsset else NewAsset s.
Definition Asset_MarshalJSON (a : Asset) : string := Asset_String a.

(** ** Canonical assets *)

(** The assets the parser produces: valid upper-case chain, upper-case
    alphanumeric symbol, the ticker the symbol's prefix, one kind flag. *)
Definition canonical (a : Asset) : Prop :=
  Chain_Valid (Asset_Chain a) = Ok tt /\
  isAlphaNumeric (Asset_Symbol a) = true /\
  ToUpper (Asset_Symbol a) = Asset_Symbol a /\
  NewTicker (fst (split_at "-" (Asset_Symbol a))) = Ok (Asset_Ticker a) /\
  Asset_Synth a && Asset_Trade a = false.

(** The length of the text is fuel enough to split it. *)
Lemma split_all_fuel_enough n m sep s :
  (String.length s <= n)%nat -> (String.length s <= m)%nat ->
  split_all_fuel n sep s = split_all_fuel m sep s.
Proof.
  assert (Hnil : forall n, split_all_fuel n sep EmptyString = [EmptyString]) by (by intros []).
  revert m s. induction n as [|n IH]; intros m s Hn Hm.
  { destruct s; [|cbn in Hn; lia]. by rewrite !Hnil. }
  destruct m as [|m]; [destruct s; [by rewrite !Hnil|cbn in Hm; lia]|].
  cbn [split_all_fuel]. destruct (split_at sep s) as [h [t|]] eqn:E; [|done].
  apply split_at_Some in E as [-> _]. rewrite str_app_length in Hn, Hm.
  cbn in Hn, Hm. f_equal. apply IH; lia.
Qed.

Lemma symbol_char_upper c : symbol_char (upper_ascii c) = symbol_char c.
Proof.
  apply Bool.eqb_prop.
  exact (ascii_ind_bool (fun c => Bool.eqb (symbol_char (upper_ascii c)) (symbol_char c)) eq_refl c).
Qed.

Lemma isAlphaNumeric_upper s : isAlphaNumeric (ToUpper s) = isAlphaNumeric s.
Proof.
  unfold isAlphaNumeric. f_equal; [by destruct s|].
  unfold ToUpper. rewrite str_forallb_map.
  induction s; cbn; [done|]. by rewrite symbol_char_upper, IHs.
Qed.

Lemma dash_upper c : Ascii.eqb (upper_ascii c) "-" = Ascii.eqb c "-".
Proof.
  apply Bool.eqb_prop.
  exact (ascii_ind_bool (fun c => Bool.eqb (Ascii.eqb (upper_ascii c) "-") (Ascii.eqb c "-")) eq_refl c).
Qed.

Lemma slash_upper c : Ascii.eqb (upper_ascii c) "/" = Ascii.eqb c "/".
Proof.
  apply Bool.eqb_prop.
  exact (ascii_ind_bool (fun c => Bool.eqb (Ascii.eqb (upper_ascii c) "/") (Ascii.eqb c "/")) eq_refl c).
Qed.

Lemma contains_slash_upper s : contains_char "/" (ToUpper s) = contains_char "/" s.
Proof.
  unfold contains_char, ToUpper. f_equal. rewrite str_forallb_map.
  induction s; cbn; [done|]. by rewrite slash_upper, IHs.
Qed.

(** Parsing a ticker ignores case. *)
Lemma NewTicker_upper s t : NewTicker s = Ok t -> NewTicker (ToUpper s) = Ok t.
Proof.
  unfold NewTicker, str_len. rewrite contains_slash_upper. unfold ToUpper at 1 2 3.
  rewrite !str_map_length, <- ToUpper_idem. done.
Qed.

Lemma NewSymbol_Ok s sym :
  NewSymbol s = Ok sym <-> sym = ToUpper s /\ isAlphaNumeric s = true.
Proof.
  unfold NewSymbol. destruct (isAlphaNumeric s); cbn; split; try done.
  - by intros [= ->].
  - by intros [-> _].
  - by intros [_ ?].
Qed.

(** The symbol and ticker parsed from a part are canonical. *)
Lemma parsed_symbol sym symbol ticker :
  NewSymbol sym = Ok symbol -> NewTicker (fst (split_at "-" sym)) = Ok ticker ->
  isAlphaNumeric symbol = true /\ ToUpper symbol = symbol /\
  NewTicker (fst (split_at "-" symbol)) = Ok ticker.
Proof.
  intros [-> Ha]%NewSymbol_Ok Ht. rewrite isAlphaNumeric_upper, ToUpper_idem.
  split; [done|]. split; [done|].
  rewrite split_at_upper by apply dash_upper. cbn. by apply NewTicker_upper.
Qed.

Lemma NewAsset_canonical s a : NewAsset s = Ok a -> canonical a.
Proof.
  unfold NewAsset. intros H.
  destruct (match find_char is_separator s with Some _ => _ | None => _ end)
    as [[trade synth] [p0 p1]] eqn:Hparts.
  assert (Hflags : synth && trade = false).
  { destruct (find_char _ _) as [[[] [] [] [] [] [] [] []]|]; by simplify_eq. }
  assert (Hchain : forall chain sym,
    match p1 with
    | None => Ok (BASEChain, p0)
    | Some q => chain ← NewChain p0; Ok (chain, q)
    end = Ok (chain, sym) -> Chain_Valid chain = Ok tt).
  { intros chain sym Hc. destruct p1; invert_ok; [|by simplify_eq].
    simplify_eq. by apply NewChain_Ok in Hv as [_ ?]. }
  apply bind_Ok in H as ([chain sym] & Hcs & H). invert_ok.
  pose proof (Hchain _ _ Hcs). destruct (parsed_symbol _ _ _ Hv Hv0) as (? & ? & ?).
  by split_and!.
Qed.

Lemma upper_not_separator c : is_upper c = true -> negb (is_separator c) = true.
Proof.
  intros H.
  pose proof (ascii_ind_bool (fun c => implb (is_upper c) (negb (is_separator c))) eq_refl c) as Hc.
  cbv beta in Hc. by rewrite H in Hc.
Qed.

Lemma canonical_roundtrip a : canonical a -> NewAsset (Asset_String a) = Ok a.
Proof.
  destruct a as [chain sym tick synth trade]. unfold canonical; cbn.
  intros (Hc & Hs & Hup & Ht & Hf).
  pose proof Hc as [_ Hcu]%Chain_Valid_Ok.
  pose proof (str_forallb_impl _ _ _ upper_not_separator Hcu) as Hnosep.
  unfold Asset_String, Chain_String, Symbol_String; cbn.
  rewrite Hup, (ToUpper_upper chain) by done.
  assert (Hsplit : forall d, is_separator d = true ->
    split_at d (chain +:+ String d sym) = (chain, Some sym)).
  { intros d Hd. apply split_at_app. eapply str_forallb_impl; [|exact Hnosep].
    intros c Hcd. cbv beta in *. apply negb_true_iff in Hcd. apply negb_true_iff.
    apply Ascii.eqb_neq. intros ->. congruence. }
  unfold NewAsset.
  destruct trade, synth; try done;
    rewrite !str_app_cons, !str_app_nil, find_char_app by done;
    cbn; rewrite Hsplit by done; cbn; rewrite NewChain_fixed by done; cbn;
    rewrite (proj2 (NewSymbol_Ok sym sym)) by done; cbn; by rewrite Ht.
Qed.

(** C37: every asset the parser accepts, from any text and in any notation
    (layer 1, synthetic, trade), prints to a text that parses back to it. *)
Theorem NewAsset_roundtrip s a :
  NewAsset s = Ok a -> NewAsset (Asset_String a) = Ok a.
Proof. intros H. by apply canonical_roundtrip, (NewAsset_canonical s). Qed.

Lemma NewAsset_roundtrip_witness :
  let a := mkAsset "ETH" "USDC-0XA0B8" "USDC" true false in
  NewAsset "eth/usdc-0xa0b8" = Ok a /\ Asset_String a = "ETH/USDC-0XA0B8" /\
  NewAsset (Asset_String a) = Ok a.
Proof.
  split; [by vm_compute|]. split; [by vm_compute|].
  apply (NewAsset_roundtrip "eth/usdc-0xa0b8"). by vm_compute.
Defined.

(** ** Equality *)

Lemma Asset_Equals_fields a b :
  Asset_Equals a b = true <->
  ToUpper (Asset_Chain a) = ToUpper (Asset_Chain b) /\
  ToUpper (Asset_Symbol a) = ToUpper (Asset_Symbol b) /\
  ToUpper (Asset_Ticker a) = ToUpper (Asset_Ticker b) /\
  Asset_Synth a = Asset_Synth b /\ Asset_Trade a = Asset_Trade b.
Proof.
  unfold Asset_Equals, Symbol_Equals, Ticker_Equals, Symbol_String, Ticker_String.
  rewrite !andb_true_iff, Chain_Equals_spec, !EqualFold_ToUpper, !EqualFold_spec, !Bool.eqb_true_iff.
  tauto.
Qed.

Definition Asset_eqv (a b : Asset) : Prop := Asset_Equals a b = true.

#[export] Instance Asset_eqv_equiv : Equivalence Asset_eqv.
Proof.
  unfold Asset_eqv. split.
  - intros a. by apply Asset_Equals_fields.
  - intros a b. rewrite !Asset_Equals_fields. intuition congruence.
  - intros a b c. rewrite !Asset_Equals_fields. intuition congruence.
Qed.

Lemma Asset_Equals_refl a : Asset_Equals a a = true.
Proof. exact (Equivalence_Reflexive (R := Asset_eqv) a). Qed.

#[export] Instance Asset_Equals_proper : Proper (Asset_eqv ==> Asset_eqv ==> eq) Asset_Equals.
Proof.
  intros a a' Ha b b' Hb. apply Bool.eq_iff_eq_true. fold (Asset_eqv a b) (Asset_eqv a' b').
  by rewrite Ha, Hb.
Qed.

#[export] Instance Asset_String_proper : Proper (Asset_eqv ==> eq) Asset_String.
Proof.
  intros a b (Hc & Hs & _ & Hy & Ht)%Asset_Equals_fields.
  unfold Asset_String, Chain_String, Symbol_String. by rewrite Hc, Hs, Hy, Ht.
Qed.

Lemma Asset_Equals_sym a b : Asset_Equals a b = Asset_Equals b a.
Proof.
  apply Bool.eq_iff_eq_true. fold (Asset_eqv a b) (Asset_eqv b a).
  split; intros H; by symmetry.
Qed.

(** For parsed assets, [Equals], equality of the printed text (the key of
    the store's pools and balances) and equality of all fields agree. *)
Theorem Asset_Equals_iff_String s t a b :
  NewAsset s = Ok a -> NewAsset t = Ok b ->
  (Asset_Equals a b = true <-> a = b) /\ (Asset_String a = Asset_String b <-> a = b).
Proof.
  intros Ha Hb. assert (Hinj : Asset_String a = Asset_String b <-> a = b).
  { split; [|congruence]. intros He.
    apply NewAsset_roundtrip in Ha, Hb. rewrite He in Ha. congruence. }
  split; [|done]. split; [|intros ->; apply Asset_Equals_refl].
  intros He. apply Hinj. by apply Asset_String_proper.
Qed.

Lemma Asset_Equals_iff_String_witness :
  let a := mkAsset "BTC" "BTC" "BTC" false false in
  let b := mkAsset "BTC" "BTC" "BTC" false true in
  NewAsset "btc.btc" = Ok a /\ NewAsset "BTC~BTC" = Ok b /\ a <> b /\
  ((Asset_Equals a b = true <-> a = b) /\ (Asset_String a = Asset_String b <-> a = b)).
Proof.
  split; [by vm_compute|]. split; [by vm_compute|]. split; [done|].
  by apply (Asset_Equals_iff_String "btc.btc" "BTC~BTC"); vm_compute.
Defined.

(** ** Validity and gas assets *)

Lemma blank_not_alnum s : isAlphaNumeric s = true -> is_blank s = false.
Proof.
  unfold isAlphaNumeric. destruct s as [|c s]; cbn; [done|].
  rewrite !andb_true_iff. intros [Hc _].
  pose proof (ascii_ind_bool (fun c => implb (symbol_char c) (negb (is_space c))) eq_refl c) as Hs.
  cbv beta in Hs. rewrite Hc in Hs. cbn in Hs. by apply negb_true_iff in Hs as ->.
Qed.

Lemma upper_not_blank s : 3 <= str_len s -> str_forallb is_upper s = true -> is_blank s = false.
Proof.
  unfold str_len. destruct s as [|c s]; cbn; [lia|].
  rewrite andb_true_iff. intros _ [Hc _].
  pose proof (ascii_ind_bool (fun c => implb (is_upper c) (negb (is_space c))) eq_refl c) as Hs.
  cbv beta in Hs. rewrite Hc in Hs. cbn in Hs. by apply negb_true_iff in Hs as ->.
Qed.

(** A parsed asset passes [Valid] unless it is a synthetic of the MAYA
    chain, which the parser accepts and [Valid] rejects. *)
Theorem NewAsset_Valid s a :
  NewAsset s = Ok a ->
  Asset_Valid a =
    if Asset_Synth a && IsBASEChain (Asset_Chain a)
    then Err "synth asset cannot have chain MAYA: %s" else Ok tt.
Proof.
  intros (Hc & Hs & Hup & _ & _)%NewAsset_canonical.
  unfold Asset_Valid, Symbol_Valid, Symbol_String. by rewrite Hc, Hup, Hs.
Qed.

Lemma NewAsset_Valid_witness :
  let a := mkAsset "MAYA" "CACAO" "CACAO" true false in
  NewAsset "maya/cacao" = Ok a /\
  Asset_Valid a =
    if Asset_Synth a && IsBASEChain (Asset_Chain a)
    then Err "synth asset cannot have chain MAYA: %s" else Ok tt.
Proof. split; [by vm_compute|]. apply (NewAsset_Valid "maya/cacao"). by vm_compute. Defined.

Definition gas_asset_ok (c : Chain) : bool :=
  let gas := GetGasAsset c in
  String.eqb (GetChain gas) c && negb (Asset_IsEmpty gas)
  && bool_decide (NewAsset (Asset_String gas) = Ok gas) && negb (Asset_Synth gas).

Lemma gas_assets_ok : forallb gas_asset_ok AllChains = true.
Proof. by vm_compute. Qed.

(** Every supported chain has a non-empty gas asset that lives on that
    chain and parses back from its text, and among the assets of the chain
    [IsGasAsset] recognises exactly that one. *)
Theorem GetGasAsset_supported c a :
  In c AllChains ->
  let gas := GetGasAsset c in
  GetChain gas = c /\ Asset_IsEmpty gas = false /\
  NewAsset (Asset_String gas) = Ok gas /\
  (GetChain a = c -> IsGasAsset a = Asset_Equals a gas).
Proof.
  intros Hc. pose proof gas_assets_ok as H. rewrite forallb_forall in H.
  specialize (H c Hc). unfold gas_asset_ok in H.
  rewrite !andb_true_iff, !negb_true_iff, String.eqb_eq, bool_decide_eq_true in H.
  destruct H as [[[? He] ?] _]. split_and!; [done..|].
  intros Ha. unfold IsGasAsset. by rewrite Ha, He.
Qed.

Lemma GetGasAsset_supported_witness :
  In KUJIChain AllChains /\ IsGasAsset USKAsset = false /\
  GetChain (GetGasAsset KUJIChain) = KUJIChain.
Proof.
  split; [cbn; tauto|]. split; [by vm_compute|].
  apply (GetGasAsset_supported KUJIChain USKAsset). cbn. tauto.
Defined.
