(* ===== verification/ShortCodes.v ===== *)
(** The short codes of [common/asset.go]: one- and two-letter abbreviations of
    assets in memos, whose table depends on the network version. *)
From S2P Require Import Prelude GoText Sdk Chains Assets.

(** ** The codes *)

Definition ShortCode (a : Asset) : string :=
  switch (Asset_String a)
    [(["ARB.ETH"], "a"); (["BTC.BTC"], "b"); (["DASH.DASH"], "d"); (["ETH.ETH"], "e");
     (["KUJI.KUJI"], "k"); (["MAYA.CACAO"], "c"); (["THOR.RUNE"], "r"); (["XRD.XRD"], "x");
     (["ZEC.ZEC"], "z")]
    EmptyString.

Definition TwoLetterShortCodeV120 (a : Asset) : string :=
  switch (Asset_String a)
    [(["ARB.ETH"], "ae");
     (["ARB.USDT-0XFD086BC7CD5C481DCC9C85EBE478A1C0B69FCBB9"], "at");
     (["ARB.USDC-0XAF88D065E77C8CC2239327C5EDB3A432268E5831"], "ac");
     (["ARB.DAI-0XDA10009CBD5D07DD0CECC66161FC93D7C9000DA1"], "ad");
     (["ARB.PEPE-0X25D887CE7A35172C62FEBFD67A1856F20FAEBB00"], "ap");
     (["ARB.WSTETH-0X5979D7B546E38E414F7E9822514BE443A4800529"], "aw");
     (["ARB.WBTC-0X2F2A2543B76A4166549F7AAB2E75BEF0AEFC5B0F"], "ab");
     (["BTC.BTC"], "bb"); (["DASH.DASH"], "dd");
     (["ETH.USDT-0XDAC17F958D2EE523A2206206994597C13D831EC7"], "et");
     (["ETH.USDC-0XA0B86991C6218B36C1D19D4A2E9EB0CE3606EB48"], "ec");
     (["ETH.PEPE-0X6982508145454CE325DDBE47A25D4EC3D2311933"], "ep");
     (["ETH.WSTETH-0X7F39C581F595B53C5CB19BD0B3F8DA6C935E2CA0"], "ew");
     (["KUJI.USK"], "ku"); (["MAYA.CACAO"], "mc"); (["THOR.RUNE"], "tr"); (["XRD.XRD"], "xx");
     (["ETH.ETH"], "ee"); (["KUJI.KUJI"], "kk"); (["ZEC.ZEC"], "zz")]
    EmptyString.

Definition TwoLetterShortCodeV112 (a : Asset) : string :=
  switch (Asset_String a)
    [(["ARB.ETH"], "ae");
     (["ARB.USDT-0XFD086BC7CD5C481DCC9C85EBE478A1C0B69FCBB9"], "at");
     (["ARB.USDC-0XAF88D065E77C8CC2239327C5EDB3A432268E5831"], "ac");
     (["ARB.DAI-0XDA10009CBD5D07DD0CECC66161FC93D7C9000DA1"], "ad");
     (["ARB.PEPE-0X25D887CE7A35172C62FEBFD67A1856F20FAEBB00"], "ap");
     (["ARB.WSTETH-0X5979D7B546E38E414F7E9822514BE443A4800529"], "aw");
     (["ARB.WBTC-0X2F2A2543B76A4166549F7AAB2E75BEF0AEFC5B0F"], "ab");
     (["BTC.BTC"], "bb"); (["DASH.DASH"], "dd");
     (["ETH.USDT-0XDAC17F958D2EE523A2206206994597C13D831EC7"], "et");
     (["ETH.USDC-0XA0B86991C6218B36C1D19D4A2E9EB0CE3606EB48"], "ec");
     (["ETH.PEPE-0X6982508145454CE325DDBE47A25D4EC3D2311933"], "ep");
     (["ETH.WSTETH-0X7F39C581F595B53C5CB19BD0B3F8DA6C935E2CA0"], "ew");
     (["KUJI.USK"], "ku"); (["MAYA.CACAO"], "mc"); (["THOR.RUNE"], "tr"); (["XRD.XRD"], "xx");
     (["ETH.ETH"], "ee"); (["KUJI.KUJI"], "kk")]
    EmptyString.

Definition TwoLetterShortCodeV1 (a : Asset) : string :=
  switch (Asset_String a)
    [(["ARB.ETH"], "ae");
     (["ARB.USDT-0XFD086BC7CD5C481DCC9C85EBE478A1C0B69FCBB9"], "at");
     (["ARB.USDC-0XAF88D065E77C8CC2239327C5EDB3A432268E5831"], "ac");
     (["ARB.DAI-0XDA10009CBD5D07DD0CECC66161FC93D7C9000DA1"], "ad");
     (["ARB.PEPE-0X25D887CE7A35172C62FEBFD67A1856F20FAEBB00"], "ap");
     (["ARB.WSTETH-0X5979D7B546E38E414F7E9822514BE443A4800529"], "aw");
     (["ARB.WBTC-0X2F2A2543B76A4166549F7AAB2E75BEF0AEFC5B0F"], "ab");
     (["BTC.BTC"], "bb"); (["DASH.DASH"], "dd");
     (["ETH.USDT-0XDAC17F958D2EE523A2206206994597C13D831EC7"], "et");
     (["ETH.USDC-0XA0B86991C6218B36C1D19D4A2E9EB0CE3606EB48"], "ec");
     (["ETH.PEPE-0X6982508145454CE325DDBE47A25D4EC3D2311933"], "ep");
     (["ETH.WSTETH-0X7F39C581F595B53C5CB19BD0B3F8DA6C935E2CA0"], "ew");
     (["KUJI.USK"], "ku"); (["MAYA.CACAO"], "mc"); (["THOR.RUNE"], "tr"); (["XRD.XRD"], "xx")]
    EmptyString.

Section codes.
Context `{SV : Semver}.

Definition TwoLetterShortCode (version : Version) (a : Asset) : string :=
  if GTE version (semver_release 1 120 0) then TwoLetterShortCodeV120 a
  else if GTE version (semver_release 1 112 0) then TwoLetterShortCodeV112 a
  else TwoLetterShortCodeV1 a.

(** ** The tables: [shorts[code] = long], in the order of the assignments *)

Definition assign (shorts : gmap string string) (kv : string * string) : gmap string string :=
  <[fst kv := snd kv]> shorts.

Definition one_letter (assets : list Asset) : list (string * string) :=
  map (fun a => (ShortCode a, Asset_String a)) assets.

Definition two_letter (version : Version) (assets : list Asset) : list (string * string) :=
  map (fun a => (TwoLetterShortCode version a, Asset_String a)) assets.

(** [long, ok := shorts[input]; if ok { input = long }; return NewAsset(input)] *)
Definition expand (assignments : list (string * string)) (input : string) : outcome Asset :=
  let shorts := foldl assign ∅ assignments in
  match shorts !! input with
  | Some long => NewAsset long
  | None => NewAsset input
  end.

Definition NewAssetWithShortCodesV120 (version : Version) (input : string) : outcome Asset :=
  if String.eqb input EmptyString then NewAsset input
  else
    expand
      (one_letter [AETHAsset; BaseAsset; BTCAsset; DASHAsset; ETHAsset; KUJIAsset; RUNEAsset;
                   XRDAsset; ZECAsset]
       ++ two_letter version
            [AETHAsset; BaseAsset; BTCAsset; DASHAsset; ETHAsset; KUJIAsset; RUNEAsset;
             XRDAsset; ZECAsset]
       ++ two_letter version [AUSDTAsset; AUSDCAsset; ADAIAsset; APEPEAsset; AWSTETHAsset; AWBTCAsset]
       ++ two_letter version [USDTAsset; USDCAsset; PEPEAsset; WSTETHAsset]
       ++ two_letter version [USKAsset])
      input.

Definition NewAssetWithShortCodesV112 (version : Version) (input : string) : outcome Asset :=
  if String.eqb input EmptyString then NewAsset input
  else
    expand
      (one_letter [AETHAsset; BaseAsset; BTCAsset; DASHAsset; ETHAsset; KUJIAsset; RUNEAsset;
                   XRDAsset]
       ++ two_letter version
            [AETHAsset; BaseAsset; BTCAsset; DASHAsset; ETHAsset; KUJIAsset; RUNEAsset; XRDAsset]
       ++ two_letter version [AUSDTAsset; AUSDCAsset; ADAIAsset; APEPEAsset; AWSTETHAsset; AWBTCAsset]
       ++ two_letter version [USDTAsset; USDCAsset; PEPEAsset; WSTETHAsset]
       ++ two_letter version [USKAsset])
      input.

Definition NewAssetWithShortCodesV111 (version : Version) (input : string) : outcome Asset :=
  expand
    (one_letter [AETHAsset; BaseAsset; BTCAsset; DASHAsset; ETHAsset; KUJIAsset; RUNEAsset;
                 XRDAsset]
     ++ two_letter version
          [AETHAsset; BaseAsset; BTCAsset; DASHAsset; ETHAsset; KUJIAsset; RUNEAsset; XRDAsset]
     ++ two_letter version [AUSDTAsset; AUSDCAsset; ADAIAsset; APEPEAsset; AWSTETHAsset; AWBTCAsset]
     ++ two_letter version [USDTAsset; USDCAsset; PEPEAssetV1; WSTETHAsset]
     ++ two_letter version [USKAsset])
    input.

Definition NewAssetWithShortCodesV110 (version : Version) (input : string) : outcome Asset :=
  expand
    (one_letter [AETHAsset; BaseAsset; BTCAsset; DASHAsset; ETHAsset; KUJIAsset; RUNEAsset]
     ++ two_letter version
          [AETHAsset; BaseAsset; BTCAsset; DASHAsset; ETHAsset; KUJIAsset; RUNEAsset]
     ++ two_letter version [AUSDTAsset; AUSDCAsset; ADAIAsset; APEPEAsset; AWSTETHAsset; AWBTCAsset]
     ++ two_letter version [USDTAsset; USDCAsset; PEPEAssetV1; WSTETHAsset]
     ++ two_letter version [USKAsset])
    input.

Definition NewAssetWithShortCodes (version : Version) (input : string) : outcome Asset :=
  if GTE version (semver_release 1 120 0) then NewAssetWithShortCodesV120 version input
  else if GTE version (semver_release 1 112 0) then NewAssetWithShortCodesV112 version input
  else if GTE version (semver_release 1 111 0) then NewAssetWithShortCodesV111 version input
  else if GTE version (semver_release 1 110 0) then NewAssetWithShortCodesV110 version input
  else NewAsset input.
End codes.

(** ** The table in force from 1.120.0 *)

(** Code, and the notation of the asset it stands for. *)
Definition current_codes : list (string * string) :=
  [("a", "ARB.ETH"); ("b", "BTC.BTC"); ("d", "DASH.DASH"); ("e", "ETH.ETH"); ("k", "KUJI.KUJI");
   ("c", "MAYA.CACAO"); ("r", "THOR.RUNE"); ("x", "XRD.XRD"); ("z", "ZEC.ZEC");
   ("ae", "ARB.ETH"); ("bb", "BTC.BTC"); ("dd", "DASH.DASH"); ("ee", "ETH.ETH");
   ("kk", "KUJI.KUJI"); ("mc", "MAYA.CACAO"); ("tr", "THOR.RUNE"); ("xx", "XRD.XRD");
   ("zz", "ZEC.ZEC");
   ("at", "ARB.USDT-0XFD086BC7CD5C481DCC9C85EBE478A1C0B69FCBB9");
   ("ac", "ARB.USDC-0XAF88D065E77C8CC2239327C5EDB3A432268E5831");
   ("ad", "ARB.DAI-0XDA10009CBD5D07DD0CECC66161FC93D7C9000DA1");
   ("ap", "ARB.PEPE-0X25D887CE7A35172C62FEBFD67A1856F20FAEBB00");
   ("aw", "ARB.WSTETH-0X5979D7B546E38E414F7E9822514BE443A4800529");
   ("ab", "ARB.WBTC-0X2F2A2543B76A4166549F7AAB2E75BEF0AEFC5B0F");
   ("et", "ETH.USDT-0XDAC17F958D2EE523A2206206994597C13D831EC7");
   ("ec", "ETH.USDC-0XA0B86991C6218B36C1D19D4A2E9EB0CE3606EB48");
   ("ep", "ETH.PEPE-0X6982508145454CE325DDBE47A25D4EC3D2311933");
   ("ew", "ETH.WSTETH-0X7F39C581F595B53C5CB19BD0B3F8DA6C935E2CA0");
   ("ku", "KUJI.USK")].

Section facts.
Context `{SV : Semver} {SVL : SemverLaws SV}.

(** The last assignment to a key wins. *)
Lemma assign_lookup l m k :
  foldl assign m l !! k =
  match List.find (fun kv => String.eqb (fst kv) k) (rev l) with
  | Some kv => Some (snd kv)
  | None => m !! k
  end.
Proof.
  induction l as [|[k' v] l IH] using rev_ind; cbn; [done|].
  rewrite foldl_app, rev_app_distr. cbn. unfold assign at 1. cbn [fst snd].
  destruct (String.eqb_spec k' k) as [->|Hk]; [by rewrite lookup_insert_eq|].
  by rewrite lookup_insert_ne.
Qed.

(** [GTE] of a release against an older release. *)
Lemma GTE_older v a b c a' b' c' :
  GTE v (semver_release a b c) = true ->
  a' < a \/ a' = a /\ (b' < b \/ b' = b /\ c' <= c) ->
  GTE v (semver_release a' b' c') = true.
Proof. intros H Ho. eapply GTE_trans; [exact H|]. by apply GTE_release. Qed.

Lemma two_letter_V120 v assets :
  GTE v (semver_release 1 120 0) = true ->
  two_letter v assets = map (fun a => (TwoLetterShortCodeV120 a, Asset_String a)) assets.
Proof. intros H. apply map_ext. intros a. unfold TwoLetterShortCode. by rewrite H. Qed.

(** From version 1.120.0 on, every short code resolves to the asset of
    the table, and every other text is parsed as it stands: the codes shadow
    nothing else. *)
Theorem short_codes_current v input :
  GTE v (semver_release 1 120 0) = true ->
  NewAssetWithShortCodes v input =
    match List.find (fun kv => String.eqb (fst kv) input) current_codes with
    | Some kv => NewAsset (snd kv)
    | None => NewAsset input
    end.
Proof.
  intros H. unfold NewAssetWithShortCodes, NewAssetWithShortCodesV120, expand. rewrite H.
  rewrite !two_letter_V120, assign_lookup by done.
  destruct (String.eqb_spec input EmptyString) as [->|Hne]; [by vm_compute|].
  rewrite lookup_empty.
  match goal with |- context [rev ?l] => set (table := rev l) end.
  vm_compute in table. subst table. unfold current_codes. cbn [List.find fst].
  repeat match goal with
  | |- context [String.eqb ?k input] => destruct (String.eqb_spec k input) as [<-|?]; [by vm_compute|]
  end.
  done.
Qed.

Lemma two_letter_V1 v assets :
  GTE v (semver_release 1 112 0) = false ->
  two_letter v assets = map (fun a => (TwoLetterShortCodeV1 a, Asset_String a)) assets.
Proof.
  intros H. apply map_ext. intros a. unfold TwoLetterShortCode. rewrite H.
  destruct (GTE v (semver_release 1 120 0)) eqn:E; [|done].
  apply (GTE_older _ _ _ _ 1 112 0) in E; [congruence|lia].
Qed.

(** The empty text is rejected as an asset before 1.110.0 and from
    1.112.0 on, but versions in between resolve it to a token: assets without
    a two-letter code register the empty code, and the last of them wins. *)
Theorem short_codes_empty_input v :
  NewAssetWithShortCodes v EmptyString =
    if GTE v (semver_release 1 110 0) && negb (GTE v (semver_release 1 112 0))
    then NewAsset "ETH.PEPE-0X25D887CE7A35172C62FEBFD67A1856F20FAEBB00"
    else Err "invalid symbol".
Proof.
  unfold NewAssetWithShortCodes.
  destruct (GTE v (semver_release 1 112 0)) eqn:H112.
  - rewrite andb_false_r. by destruct (GTE v (semver_release 1 120 0)).
  - destruct (GTE v (semver_release 1 120 0)) eqn:H120.
    { apply (GTE_older _ _ _ _ 1 112 0) in H120; [congruence|lia]. }
    rewrite andb_true_r. unfold NewAssetWithShortCodesV111, NewAssetWithShortCodesV110.
    rewrite !two_letter_V1 by done.
    destruct (GTE v (semver_release 1 111 0)) eqn:H111.
    { apply (GTE_older _ _ _ _ 1 110 0) in H111 as ->; [|lia]. by vm_compute. }
    destruct (GTE v (semver_release 1 110 0)); by vm_compute.
Qed.
End facts.

Section short_code_witnesses.
Import Reference.

Lemma short_codes_current_witness :
GTE (semver_release 1 123 0) (semver_release 1 120 0) = true /\
NewAssetWithShortCodes (semver_release 1 123 0) "zz" = Ok ZECAsset /\
NewAssetWithShortCodes (semver_release 1 123 0) "zz" =
  match List.find (fun kv => String.eqb (fst kv) "zz") current_codes with
  | Some kv => NewAsset (snd kv)
  | None => NewAsset "zz"
  end.
Proof.
split; [by vm_compute|]. split; [by vm_compute|].
apply short_codes_current. by vm_compute.
Defined.

Lemma short_codes_empty_input_witness :
NewAssetWithShortCodes (semver_release 1 111 0) EmptyString =
NewAsset "ETH.PEPE-0X25D887CE7A35172C62FEBFD67A1856F20FAEBB00".
Proof. rewrite (short_codes_empty_input (semver_release 1 111 0)). by vm_compute. Defined.
End short_code_witnesses.
