(* ===== verification/Coins.v ===== *)
(** [common/coin.go] and [common/gas.go]: coins, lists of coins used as a
    ledger, and gas. *)
From S2P Require Import Prelude GoText Sdk Chains Assets Shares.

(** ** Data *)

Record Coin := mkCoin {
  Coin_Asset : Asset;
  Coin_Amount : Z;
  Coin_Decimals : Z;
}.

#[export] Instance Coin_eq_dec : EqDecision Coin.
Proof. solve_decision. Defined.

(** [Coins] and [Gas] are both slices of coins. *)
Abbreviation Coins := (list Coin) (only parsing).
Abbreviation Gas := (list Coin) (only parsing).

Definition NoCoin : Coin := mkCoin EmptyAsset 0 0.
Definition NewCoin (asset : Asset) (amount : Z) : Coin := mkCoin asset amount 0.
Definition set_Amount (c : Coin) (amt : Z) : Coin := mkCoin (Coin_Asset c) amt (Coin_Decimals c).
Definition WithDecimals (c : Coin) (decimal : Z) : Coin := mkCoin (Coin_Asset c) (Coin_Amount c) decimal.

(** ** One coin *)

Definition Coin_Equals (c cc : Coin) : bool :=
  if negb (Asset_Equals (Coin_Asset c) (Coin_Asset cc)) then false
  else if negb (Coin_Amount c =? Coin_Amount cc) then false
  else true.

Definition Coin_IsEmpty (c : Coin) : bool :=
  if Asset_IsEmpty (Coin_Asset c) then true
  else if Coin_Amount c =? 0 then true
  else false.

Definition Coin_Valid (c : Coin) : outcome unit :=
  if Asset_IsEmpty (Coin_Asset c) then Err "denom cannot be empty"
  else if Coin_Amount c =? 0 then Err "amount cannot be zero"
  else Ok tt.

Definition Coin_IsNative (c : Coin) : bool := Chain_Equals (GetChain (Coin_Asset c)) BASEChain.

(** ** Lists of coins *)

Definition Coins_Valid (cs : Coins) : outcome unit := forM_check Coin_Valid cs.

Definition Coins_Contains (cs : Coins) (c : Coin) : bool := existsb (Coin_Equals c) cs.

Definition Coins_IsEmpty (cs : Coins) : bool :=
  (length cs =? 0)%nat || forallb Coin_IsEmpty cs.

Definition GetCoin (cs : Coins) (asset : Asset) : Coin :=
  match List.find (fun item => Asset_Equals asset (Coin_Asset item)) cs with
  | Some item => item
  | None => NoCoin
  end.

Definition Coins_Distinct (cs : Coins) : Coins :=
  foldl (fun newCoins item =>
    if negb (Coins_Contains newCoins item) then newCoins ++ [item] else newCoins) [] cs.

Definition HasNoneNativeRune (cs : Coins) : bool :=
  existsb (fun c => IsBase (Coin_Asset c) && negb (Coin_IsNative c)) cs.

Definition HasSynthetic (cs : Coins) : bool :=
  existsb (fun c => IsSyntheticAsset (Coin_Asset c)) cs.

Definition NoneEmpty (cs : Coins) : Coins := List.filter (fun item => negb (Coin_IsEmpty item)) cs.

Definition Gas_NoneEmpty (g : Gas) : Gas := List.filter (fun item => negb (Coin_IsEmpty item)) g.

Section ledger_ops.
Context `{U : SdkUint}.

(** Add to the first coin of that asset, or append. *)
Definition Coins_Add (cs : Coins) (coin : Coin) : outcome Coins :=
  r ← upd_first (fun c => Asset_Equals (Coin_Asset c) (Coin_Asset coin))
        (fun c => amt ← uint_add (Coin_Amount c) (Coin_Amount coin); Ok (set_Amount c amt)) cs;
  match r with
  | Some cs' => Ok cs'
  | None => Ok (cs ++ [coin])
  end.

Definition Coins_SafeSub (cs : Coins) (coin : Coin) : outcome Coins :=
  r ← upd_first (fun c => Asset_Equals (Coin_Asset c) (Coin_Asset coin))
        (fun c => amt ← SafeSub (Coin_Amount c) (Coin_Amount coin); Ok (set_Amount c amt)) cs;
  match r with
  | Some cs' => Ok cs'
  | None => Ok cs
  end.

Definition Adds_deprecated (cs coins : Coins) : outcome Coins := foldM Coins_Add cs coins.

(** ** Gas *)

Definition Gas_Valid (g : Gas) : outcome unit := forM_check Coin_Valid g.
Definition Gas_IsEmpty (g : Gas) : bool := (length g =? 0)%nat || forallb Coin_IsEmpty g.

(** One round of [Gas.Add]'s outer loop: every matching coin of [g] grows. *)
Fixpoint gas_add_matching (gc2 : Coin) (g : Gas) : outcome (Gas * bool) :=
  match g with
  | [] => Ok ([], false)
  | gc1 :: g' =>
      if Asset_Equals (Coin_Asset gc1) (Coin_Asset gc2) then
        amt ← uint_add (Coin_Amount gc1) (Coin_Amount gc2);
        '(g'', _) ← gas_add_matching gc2 g';
        Ok (set_Amount gc1 amt :: g'', true)
      else
        '(g'', matched) ← gas_add_matching gc2 g';
        Ok (gc1 :: g'', matched)
  end.

Definition Gas_Add (g g2 : Gas) : outcome Gas :=
  '(g, newGasCoins) ← foldM (fun '(g, newGasCoins) gc2 =>
      '(g', matched) ← gas_add_matching gc2 g;
      Ok (g', if matched : bool then newGasCoins else newGasCoins ++ [gc2])) (g, []) g2;
  Ok (g ++ newGasCoins).

(** The inner loop of [Gas.Sub] stops at the first match. *)
Definition Gas_Sub (g g2 : Gas) : outcome Gas := foldM Coins_SafeSub g g2.

(** [ToCoins] drops the decimals. *)
Definition ToCoins (g : Gas) : Coins :=
  map (fun c => NewCoin (Coin_Asset c) (Coin_Amount c)) g.

Definition One : Z := 100000000.

Definition evmTransferFee : Z := 21000.
Definition evmGasPerByte : Z := 68.

Definition GetEVMGasFee (chain : Chain) (gasPrice msgLen : Z) : outcome Gas :=
  gasBytes ← uint_mul64 evmGasPerByte msgLen;
  units ← uint_add evmTransferFee gasBytes;
  price ← uint_of_big gasPrice;
  amt ← uint_mul units price;
  Ok [NewCoin (GetGasAsset chain) amt].

Definition MakeEVMGas (chain : Chain) (gasPrice gas : Z) : outcome Gas :=
  price ← uint_of_big gasPrice;
  unroundedGasAmt ← uint_mul gas price;
  roundedGasAmt ← uint_quo64 unroundedGasAmt (One * 100);
  back ← uint_mul64 roundedGasAmt (One * 100);
  roundedGasAmt ←
    (if back <? unroundedGasAmt then uint_add roundedGasAmt 1 else Ok roundedGasAmt);
  Ok [NewCoin (GetGasAsset chain) roundedGasAmt].
End ledger_ops.

(** ** Comparing lists of coins *)

Section compare.
Context `{SS : SliceSort}.

Definition sort_by_asset (cs : Coins) : Coins :=
  sort_slice (fun a b => str_ltb (Asset_String (Coin_Asset a)) (Asset_String (Coin_Asset b))) cs.

(** [for i := range cs { if !cs[i].Equals(cs2[i]) { return false } }] *)
Fixpoint all_equal (cs cs2 : Coins) : bool :=
  match cs, cs2 with
  | c :: cs', c2 :: cs2' => if negb (Coin_Equals c c2) then false else all_equal cs' cs2'
  | _, _ => true
  end.

(** The deprecated comparison sorts both receivers in place: the two lists
    it leaves behind are returned. *)
Definition Coins_Equals (cs cs2 : Coins) : bool * (Coins * Coins) :=
  if negb (length cs =? length cs2)%nat then (false, (cs, cs2))
  else
    let cs := sort_by_asset cs in
    let cs2 := sort_by_asset cs2 in
    (all_equal cs cs2, (cs, cs2)).

(** [EqualsEx] sorts copies. *)
Definition Coins_EqualsEx (cs cs2 : Coins) : bool :=
  if negb (length cs =? length cs2)%nat then false
  else
    let source := sort_by_asset cs in
    let dest := sort_by_asset cs2 in
    all_equal source dest.

Definition Gas_Equals (g gas2 : Gas) : bool * (Gas * Gas) :=
  if negb (length g =? length gas2)%nat then (false, (g, gas2))
  else
    let g := sort_by_asset g in
    let gas2 := sort_by_asset gas2 in
    (all_equal g gas2, (g, gas2)).
End compare.

(** ** The ledger a list of coins represents *)

Definition coin_of (a : Asset) (c : Coin) : Z :=
  if Asset_Equals (Coin_Asset c) a then Coin_Amount c else 0.

(** The total amount of an asset held by the list. *)
Definition amount_of (a : Asset) (cs : Coins) : Z := sumZ (coin_of a) cs.

(** At most one coin per asset. *)
Definition distinct_assets (cs : Coins) : Prop :=
  ForallOrdPairs (fun c d => Asset_Equals (Coin_Asset c) (Coin_Asset d) = false) cs.

Definition coins_wf (cs : Coins) : Prop :=
  distinct_assets cs /\ Forall (fun c => is_uint (Coin_Amount c)) cs.

Lemma coin_of_unfold a c :
  coin_of a c = if Asset_Equals (Coin_Asset c) a then Coin_Amount c else 0.
Proof. done. Qed.

Lemma coin_of_set_Amount a c amt :
  coin_of a (set_Amount c amt) = if Asset_Equals (Coin_Asset c) a then amt else 0.
Proof. done. Qed.

Lemma coin_of_proper a b c :
  Asset_Equals a b = true -> coin_of a c = coin_of b c.
Proof.
  intros H. unfold coin_of. fold (Asset_eqv a b) in H.
  by rewrite (Asset_Equals_proper (Coin_Asset c) (Coin_Asset c) ltac:(reflexivity) a b H).
Qed.

Lemma amount_of_absent a cs :
  Forall (fun c => Asset_Equals (Coin_Asset c) a = false) cs -> amount_of a cs = 0.
Proof.
  induction 1 as [|c cs Hc _ IH]; [done|].
  unfold amount_of in *. rewrite sumZ_cons, IH. unfold coin_of. by rewrite Hc.
Qed.

Lemma ForallOrdPairs_app {A} (R : A -> A -> Prop) l1 l2 :
  ForallOrdPairs R (l1 ++ l2) <->
  ForallOrdPairs R l1 /\ ForallOrdPairs R l2 /\ Forall (fun x => Forall (R x) l2) l1.
Proof.
  induction l1 as [|x l1 IH]; cbn.
  - split; [intros H; split_and!; try done; constructor|by intros (_ & ? & _)].
  - split.
    + intros H. inversion H as [|? ? Hx Hl]; subst. apply IH in Hl as (? & ? & ?).
      apply Forall_app in Hx as [? ?]. split_and!; [by constructor|done|by constructor].
    + intros (H1 & H2 & H3). inversion H1; subst. inversion H3; subst.
      constructor; [by apply Forall_app|]. by apply IH.
Qed.

(** Replacing a coin by one of the same asset keeps the assets distinct. *)
Lemma distinct_assets_replace l1 c c' l2 :
  Coin_Asset c' = Coin_Asset c ->
  distinct_assets (l1 ++ c :: l2) -> distinct_assets (l1 ++ c' :: l2).
Proof.
  unfold distinct_assets. intros He (H1 & H2 & H3)%ForallOrdPairs_app.
  apply ForallOrdPairs_app. split_and!; [done| |].
  - inversion H2; subst. constructor; [by rewrite He|done].
  - eapply Forall_impl; [exact H3|]. intros x Hx. inversion Hx; subst.
    constructor; [by rewrite He|done].
Qed.

Section ledger.
Context {U : SdkUint} {UL : SdkUintLaws U}.

Lemma Coins_Add_ledger cs coin cs' :
  distinct_assets cs -> Coins_Add cs coin = Ok cs' ->
  distinct_assets cs' /\
  forall a, amount_of a cs' = amount_of a cs + coin_of a coin.
Proof.
  unfold Coins_Add. intros Hd H. invert_ok.
  destruct v as [cs2|]; invert_ok.
  - apply upd_first_Some in Hv as (l1 & x & l2 & x' & -> & _ & Hx & Hf & ->).
    invert_ok. apply uint_add_Ok in Hv as [-> _].
    split; [by apply distinct_assets_replace with x|].
    intros a. unfold amount_of. rewrite !sumZ_app, !sumZ_cons.
    assert (Hp : Asset_Equals (Coin_Asset x) a = Asset_Equals (Coin_Asset coin) a)
      by (by apply Asset_Equals_proper).
    rewrite coin_of_set_Amount, (coin_of_unfold a x), (coin_of_unfold a coin), Hp.
    destruct (Asset_Equals (Coin_Asset coin) a); lia.
  - apply upd_first_None in Hv. split.
    + apply ForallOrdPairs_app. split_and!; [done|by repeat constructor|].
      eapply Forall_impl; [exact Hv|]. by intros; apply Forall_singleton.
    + intros a. unfold amount_of. rewrite sumZ_app.
      change (sumZ (coin_of a) [coin]) with (coin_of a coin + 0). lia.
Qed.

(** [Coins.SafeSub] lowers the balance of the coin's asset by the coin's amount,
    stopping at zero, and changes no other balance. *)
Lemma Coins_SafeSub_ledger cs coin cs' :
  coins_wf cs -> is_uint (Coin_Amount coin) -> Coins_SafeSub cs coin = Ok cs' ->
  coins_wf cs' /\
  forall a, amount_of a cs' =
    if Asset_Equals (Coin_Asset coin) a
    then Z.max 0 (amount_of a cs - Coin_Amount coin) else amount_of a cs.
Proof.
  unfold Coins_SafeSub. intros [Hd Hu] Hc H. invert_ok.
  destruct v as [cs2|]; invert_ok.
  - apply upd_first_Some in Hv as (l1 & x & l2 & x' & -> & H1 & Hx & Hf & ->).
    apply Forall_app in Hu as [Hu1 Hu2]. apply Forall_cons in Hu2 as [Hux Hu2].
    invert_ok. apply SafeSub_Ok in Hv; [subst|done..].
    split; [split; [by apply distinct_assets_replace with x|]|].
    { apply Forall_app; split; [done|]. constructor; [|done].
      cbn. unfold is_uint in *. lia. }
    intros a. unfold amount_of. rewrite !sumZ_app, !sumZ_cons.
    assert (Hp : Asset_Equals (Coin_Asset x) a = Asset_Equals (Coin_Asset coin) a)
      by (by apply Asset_Equals_proper).
    rewrite coin_of_set_Amount, (coin_of_unfold a x), Hp.
    destruct (Asset_Equals (Coin_Asset coin) a) eqn:E; [|done].
    (* the other coins are of other assets *)
    assert (Hsame : forall c, Asset_Equals (Coin_Asset c) (Coin_Asset x) = false ->
                              Asset_Equals (Coin_Asset c) a = false).
    { intros c Hcx. rewrite <- Hcx. symmetry. apply Asset_Equals_proper; [reflexivity|done]. }
    apply ForallOrdPairs_app in Hd as (_ & Hd2 & Hd3).
    inversion Hd2 as [|? ? Hx2 _]; subst.
    fold (amount_of a l1) (amount_of a l2).
    rewrite !amount_of_absent; [lia| |].
    + eapply Forall_impl; [exact Hx2|]. intros c Hcx. apply Hsame. by rewrite Asset_Equals_sym.
    + eapply Forall_impl; [exact Hd3|]. intros c Hcx. inversion Hcx; subst. by apply Hsame.
  - apply upd_first_None in Hv. split; [done|]. intros a.
    destruct (Asset_Equals (Coin_Asset coin) a) eqn:E; [|done].
    rewrite amount_of_absent; [unfold is_uint in *; lia|].
    eapply Forall_impl; [exact Hv|]. intros c Hcx. rewrite <- Hcx. symmetry.
    apply Asset_Equals_proper; [reflexivity|done].
Qed.

(** [Coins.Add] adds exactly the coin's amount to the balance of its
    asset and changes no other balance, and keeps one coin per asset. *)
Theorem Coins_Add_spec cs coin cs' :
  distinct_assets cs -> Coins_Add cs coin = Ok cs' ->
  distinct_assets cs' /\
  forall a, amount_of a cs' = amount_of a cs + coin_of a coin.
Proof. apply Coins_Add_ledger. Qed.
End ledger.

(** ** Comparison is order-insensitive *)

Definition coin_key (c : Coin) : string := Asset_String (Coin_Asset c).

Lemma all_equal_Forall2 cs cs2 : length cs = length cs2 ->
  all_equal cs cs2 = true <-> Forall2 (fun c d => Coin_Equals c d = true) cs cs2.
Proof.
  revert cs2. induction cs as [|c cs IH]; intros [|d cs2] [=]; cbn; [by split|].
  rewrite Forall2_cons, <- IH by done. by destruct (Coin_Equals c d); cbn; intuition.
Qed.

Lemma Coin_Equals_key c d : Coin_Equals c d = true -> coin_key c = coin_key d.
Proof.
  unfold Coin_Equals. destruct (Asset_Equals _ _) eqn:E; [|done]. intros _.
  by apply Asset_String_proper.
Qed.

Lemma Forall2_same_keys cs cs2 :
  Forall2 (fun c d => Coin_Equals c d = true) cs cs2 -> map coin_key cs = map coin_key cs2.
Proof. induction 1; cbn; f_equal; [by apply Coin_Equals_key|done]. Qed.

Lemma map_key_inj (l l' : list Coin) :
  NoDup (map coin_key l) -> Permutation l l' -> map coin_key l = map coin_key l' -> l = l'.
Proof.
  revert l'. induction l as [|c l IH]; intros l' Hn Hp Hk.
  { by apply Permutation_nil in Hp. }
  destruct l' as [|d l']; [done|]. cbn in Hn, Hk. apply NoDup_cons in Hn as [Hc Hn].
  injection Hk as Hcd Hk.
  assert (c = d) as <-.
  { assert (Hd : d ∈ c :: l) by (rewrite Hp; left).
    apply elem_of_cons in Hd as [->|Hd]; [done|].
    destruct Hc. rewrite Hcd. by apply list_elem_of_fmap_2. }
  f_equal. apply IH; [done| |done]. by apply Permutation_cons_inv in Hp.
Qed.

Section compare_spec.
Context {SS : SliceSort} {SSL : SliceSortLaws SS}.

Lemma sort_by_asset_perm cs : Permutation (sort_by_asset cs) cs.
Proof. apply sort_slice_perm. Qed.

Lemma sort_by_asset_keys cs cs2 :
  Permutation (map coin_key cs) (map coin_key cs2) ->
  map coin_key (sort_by_asset cs) = map coin_key (sort_by_asset cs2).
Proof.
  intros Hp. apply sorted_keys_unique.
  - apply (Sorted_map coin_key (fun a b => str_ltb b a = false)), (sort_slice_sorted Coin coin_key).
  - apply (Sorted_map coin_key (fun a b => str_ltb b a = false)), (sort_slice_sorted Coin coin_key).
  - by rewrite !sort_by_asset_perm.
Qed.

(** For a list with one coin per asset, [Coins.EqualsEx] holds exactly when
    the second list can be reordered so that the coins are equal one by one:
    the comparison depends on the contents of the lists and not on their
    order, nor on how the sort breaks ties. *)
Lemma Coins_EqualsEx_spec cs cs2 :
  NoDup (map coin_key cs) ->
  Coins_EqualsEx cs cs2 = true <->
  exists cs2', Permutation cs2 cs2' /\ Forall2 (fun c d => Coin_Equals c d = true) cs cs2'.
Proof.
  intros Hn. unfold Coins_EqualsEx. pose proof (sort_by_asset_perm cs) as Hs.
  pose proof (sort_by_asset_perm cs2) as Hs2.
  destruct (Nat.eqb_spec (length cs) (length cs2)) as [Hl|Hl]; cbn.
  2:{ split; [done|]. intros (l & Hl2%Permutation_length & Hf%Forall2_length). congruence. }
  rewrite all_equal_Forall2 by (by rewrite Hs, Hs2). split.
  - intros Hf. destruct (Permutation_Forall2 Hs Hf) as (l & Hp & Hf').
    exists l. split; [by rewrite <- Hp, Hs2|done].
  - intros (l & Hp & Hf).
    symmetry in Hs. destruct (Permutation_Forall2 Hs Hf) as (l' & Hp' & Hf').
    pose proof (Forall2_same_keys _ _ Hf) as Hk. pose proof (Forall2_same_keys _ _ Hf') as Hk'.
    replace (sort_by_asset cs2) with l'; [done|].
    apply map_key_inj.
    + rewrite <- Hk', <- Hs. done.
    + by rewrite <- Hp', <- Hp, Hs2.
    + rewrite <- Hk'. apply sort_by_asset_keys. by rewrite Hk, Hp.
Qed.
End compare_spec.

(** ** Gas in whole units *)

Section gas.
Context {U : SdkUint} {UL : SdkUintLaws U}.

(** [MakeEVMGas] charges the exact fee [gas * gasPrice] of wei rounded up
    to the network's 8 decimals, whenever the product fits in 256 bits: never
    less than what was spent, by less than one unit more. *)
Theorem MakeEVMGas_rounds_up chain gasPrice gas :
  is_uint gasPrice -> is_uint gas -> is_uint (gas * gasPrice) ->
  exists amt, MakeEVMGas chain gasPrice gas = Ok [NewCoin (GetGasAsset chain) amt] /\
    gas * gasPrice <= amt * (One * 100) < gas * gasPrice + One * 100.
Proof.
  intros Hp Hg Hm. unfold MakeEVMGas. set (u := One * 100).
  assert (Hu : u = 10000000000) by done.
  pose proof (Z.div_mod (gas * gasPrice) u). pose proof (Z.mod_pos_bound (gas * gasPrice) u).
  pose proof (is_uint_div _ u Hm ltac:(lia)) as Hd.
  rewrite (uint_of_big_law gasPrice), checked_in by done. cbn [mbind outcome_bind].
  rewrite uint_mul_law, checked_in by done. cbn [mbind outcome_bind].
  rewrite uint_quo64_law. unfold checked_quo. destruct (Z.eqb_spec u 0); [lia|].
  unfold is_uint in *. rewrite Z.quot_div_nonneg, checked_in by (unfold is_uint; lia).
  cbn [mbind outcome_bind]. rewrite uint_mul64_law, checked_in by (unfold is_uint; lia).
  cbn [mbind outcome_bind].
  destruct (Z.ltb_spec (gas * gasPrice / u * u) (gas * gasPrice)).
  - rewrite uint_add_law, checked_in by (unfold is_uint; lia).
    eexists. split; [reflexivity|]. lia.
  - eexists. split; [reflexivity|]. lia.
Qed.
End gas.

(** ** Witnesses *)

Section coins_witnesses.
Import Reference ReferenceSort.

Lemma Coins_Add_spec_witness :
  let cs := [NewCoin BTCAsset 5; NewCoin ETHAsset 7] in
  let cs' := [NewCoin BTCAsset 5; NewCoin ETHAsset 10] in
  Coins_Add cs (NewCoin ETHAsset 3) = Ok cs' /\ distinct_assets cs' /\
  forall a, amount_of a cs' = amount_of a cs + coin_of a (NewCoin ETHAsset 3).
Proof.
  cbv zeta. split; [by vm_compute|].
  apply (Coins_Add_spec [NewCoin BTCAsset 5; NewCoin ETHAsset 7] (NewCoin ETHAsset 3)).
  - repeat constructor.
  - by vm_compute.
Defined.

Lemma MakeEVMGas_rounds_up_witness :
  exists amt, MakeEVMGas ETHChain 30000000001 21000 = Ok [NewCoin ETHAsset amt] /\
    21000 * 30000000001 <= amt * (One * 100) < 21000 * 30000000001 + One * 100.
Proof. apply (MakeEVMGas_rounds_up ETHChain 30000000001 21000); by split. Defined.
End coins_witnesses.
