(* ===== verification/Txs.v ===== *)
(** [common/tx.go]: transaction ids and transactions. *)
From S2P Require Import Prelude GoText Sdk Chains Keys Assets Coins.

(** ** Transaction ids *)

Abbreviation TxID := string (only parsing).

Definition BlankTxID : TxID := "0000000000000000000000000000000000000000000000000000000000000000".

Definition NewTxID (hash : string) : outcome TxID :=
  if str_len hash =? 64 then Ok (ToUpper hash)
  else if str_len hash =? 66 then
    if negb (HasPrefix hash "0x") then Err "txid error: must be 66 characters (got %d)"
    else Ok (ToUpper hash)
  else Err "txid error: must be 64 characters (got %d)".

Definition TxID_String (tx : TxID) : string := tx.
Definition TxID_Equals (tx tx2 : TxID) : bool := EqualFold (TxID_String tx) (TxID_String tx2).
Definition TxID_IsEmpty (tx : TxID) : bool := is_blank (TxID_String tx).
Definition IsBlank (tx : TxID) : bool := TxID_Equals tx BlankTxID.

(** ** Transactions *)

Record Tx := mkTx {
  Tx_ID : TxID;
  Tx_Chain : Chain;
  FromAddress : Address;
  ToAddress : Address;
  Tx_Coins : Coins;
  Tx_Gas : Gas;
  Tx_Memo : string;
}.

#[export] Instance Tx_eq_dec : EqDecision Tx.
Proof. solve_decision. Defined.

Definition EmptyTx : Tx := mkTx EmptyString EmptyChain NoAddress NoAddress [] [] EmptyString.

Definition set_Coins (tx : Tx) (cs : Coins) : Tx :=
  mkTx (Tx_ID tx) (Tx_Chain tx) (FromAddress tx) (ToAddress tx) cs (Tx_Gas tx) (Tx_Memo tx).
Definition set_Gas (tx : Tx) (g : Gas) : Tx :=
  mkTx (Tx_ID tx) (Tx_Chain tx) (FromAddress tx) (ToAddress tx) (Tx_Coins tx) g (Tx_Memo tx).

Definition GetRagnarokTx (chain : Chain) (fromAddr toAddr : Address) : Tx :=
  mkTx BlankTxID chain fromAddr toAddr [NewCoin BNBAsset 1] [NewCoin BNBAsset 1] "Ragnarok".

(** The chain is that of the first coin. *)
Definition NewTx (txID : TxID) (from to : Address) (coins : Coins) (gas : Gas) (memo : string) : Tx :=
  let chain := match coins with coin :: _ => GetChain (Coin_Asset coin) | [] => EmptyChain end in
  mkTx txID chain from to coins gas memo.

Definition Tx_IsEmpty (tx : Tx) : bool := TxID_IsEmpty (Tx_ID tx).

Definition Tx_Valid (tx : Tx) : outcome unit :=
  if TxID_IsEmpty (Tx_ID tx) then Err "Tx ID cannot be empty"
  else if Address_IsEmpty (FromAddress tx) then Err "from address cannot be empty"
  else if Address_IsEmpty (ToAddress tx) then Err "to address cannot be empty"
  else if Chain_IsEmpty (Tx_Chain tx) then Err "chain cannot be empty"
  else if (length (Tx_Coins tx) =? 0)%nat then Err "must have at least 1 coin"
  else
    _ ← Coins_Valid (Tx_Coins tx);
    if negb (Chain_Equals (Tx_Chain tx) BASEChain) && (length (Tx_Gas tx) =? 0)%nat
    then Err "must have at least 1 gas coin"
    else
      _ ← Gas_Valid (Tx_Gas tx);
      if MaxMemoSize <? str_len (Tx_Memo tx) then Err "memo must not exceed %d bytes: %d"
      else Ok tt.

#[local] Arguments EqualFold : simpl never.

(** ** Comparison *)

Section compare.
Context `{SS : SliceSort}.

(** The verdict, and the two transactions as the comparison leaves them: the
    coins and gas are slices shared with the caller, sorted in place. *)
Definition Tx_Equals (tx tx2 : Tx) : bool * (Tx * Tx) :=
  if negb (TxID_Equals (Tx_ID tx) (Tx_ID tx2)) then (false, (tx, tx2))
  else if negb (Chain_Equals (Tx_Chain tx) (Tx_Chain tx2)) then (false, (tx, tx2))
  else if negb (Address_Equals (FromAddress tx) (FromAddress tx2)) then (false, (tx, tx2))
  else if negb (Address_Equals (ToAddress tx) (ToAddress tx2)) then (false, (tx, tx2))
  else
    let '(same, (cs, cs2)) := Coins_Equals (Tx_Coins tx) (Tx_Coins tx2) in
    let tx := set_Coins tx cs in let tx2 := set_Coins tx2 cs2 in
    if negb same then (false, (tx, tx2))
    else
      let '(same, (g, g2)) := Gas_Equals (Tx_Gas tx) (Tx_Gas tx2) in
      let tx := set_Gas tx g in let tx2 := set_Gas tx2 g2 in
      if negb same then (false, (tx, tx2))
      else if negb (EqualFold (Tx_Memo tx) (Tx_Memo tx2)) then (false, (tx, tx2))
      else (true, (tx, tx2)).

(** [EqualsEx] copies the coins before it sorts them, but not the gas. *)
Definition Tx_EqualsEx (tx tx2 : Tx) : bool * (Tx * Tx) :=
  if negb (TxID_Equals (Tx_ID tx) (Tx_ID tx2)) then (false, (tx, tx2))
  else if negb (Chain_Equals (Tx_Chain tx) (Tx_Chain tx2)) then (false, (tx, tx2))
  else if negb (Address_Equals (FromAddress tx) (FromAddress tx2)) then (false, (tx, tx2))
  else if negb (Address_Equals (ToAddress tx) (ToAddress tx2)) then (false, (tx, tx2))
  else if negb (Coins_EqualsEx (Tx_Coins tx) (Tx_Coins tx2)) then (false, (tx, tx2))
  else
    let '(same, (g, g2)) := Gas_Equals (Tx_Gas tx) (Tx_Gas tx2) in
    let tx := set_Gas tx g in let tx2 := set_Gas tx2 g2 in
    if negb same then (false, (tx, tx2))
    else if negb (EqualFold (Tx_Memo tx) (Tx_Memo tx2)) then (false, (tx, tx2))
    else (true, (tx, tx2)).
End compare.

(** ** What the comparison decides *)

(** Two lists hold the same coins, in some order. *)
Definition same_coins (cs cs2 : Coins) : Prop :=
  exists cs2', Permutation cs2 cs2' /\ Forall2 (fun c d => Coin_Equals c d = true) cs cs2'.

(** The same transaction, up to the case of its text fields and the order of its
    coins and gas. *)
Definition same_tx (tx tx2 : Tx) : Prop :=
  EqualFold (Tx_ID tx) (Tx_ID tx2) = true /\ Chain_Equals (Tx_Chain tx) (Tx_Chain tx2) = true /\
  EqualFold (FromAddress tx) (FromAddress tx2) = true /\
  EqualFold (ToAddress tx) (ToAddress tx2) = true /\
  same_coins (Tx_Coins tx) (Tx_Coins tx2) /\ same_coins (Tx_Gas tx) (Tx_Gas tx2) /\
  EqualFold (Tx_Memo tx) (Tx_Memo tx2) = true.

(** The same transaction but for the order of its gas. *)
Definition gas_reordered (tx tx' : Tx) : Prop :=
  exists g, Permutation g (Tx_Gas tx) /\ tx' = set_Gas tx g.

Section compare_spec.
Context {SS : SliceSort} {SSL : SliceSortLaws SS}.

Lemma Gas_Equals_fst g g2 : fst (Gas_Equals g g2) = Coins_EqualsEx g g2.
Proof. unfold Gas_Equals, Coins_EqualsEx. by destruct (_ =? _)%nat. Qed.

Lemma Coins_Equals_fst cs cs2 : fst (Coins_Equals cs cs2) = Coins_EqualsEx cs cs2.
Proof. unfold Coins_Equals, Coins_EqualsEx. by destruct (_ =? _)%nat. Qed.

Lemma Gas_Equals_perm g g2 :
  Permutation (fst (snd (Gas_Equals g g2))) g /\ Permutation (snd (snd (Gas_Equals g g2))) g2.
Proof.
  unfold Gas_Equals. destruct (_ =? _)%nat; cbn; [|done].
  split; apply sort_by_asset_perm.
Qed.

Lemma set_Gas_same tx : set_Gas tx (Tx_Gas tx) = tx.
Proof. by destruct tx. Qed.

Lemma gas_reordered_refl tx : gas_reordered tx tx.
Proof. exists (Tx_Gas tx). by rewrite set_Gas_same. Qed.

Lemma Tx_Equals_verdict tx tx2 : fst (Tx_Equals tx tx2) = fst (Tx_EqualsEx tx tx2).
Proof.
  unfold Tx_Equals, Tx_EqualsEx.
  repeat (destruct (negb _); [done|]).
  pose proof (Coins_Equals_fst (Tx_Coins tx) (Tx_Coins tx2)) as Hc.
  destruct (Coins_Equals (Tx_Coins tx) (Tx_Coins tx2)) as [b [cs cs2]]. cbn in Hc. subst b.
  destruct (Coins_EqualsEx _ _); cbn; [|done].
  destruct (Gas_Equals (Tx_Gas tx) (Tx_Gas tx2)) as [[] [g g2]]; cbn; [|done].
  by destruct (negb _).
Qed.

(** A branch that finds a difference. *)
Local Ltac differs :=
  split; [split; [done|]|done]; intros (? & ? & ? & ? & ? & ? & ?);
  repeat match goal with
  | E : _ <-> same_coins _ _, H : same_coins _ _ |- _ => apply E in H
  end.

(** With one coin per asset in the coins and in the gas, [Tx.EqualsEx] decides
    equality of transactions up to letter case and the order of coins, the
    deprecated [Tx.Equals] gives the same verdict, and [EqualsEx] may leave the
    gas of both transactions in another order but changes nothing else. *)
Theorem Tx_EqualsEx_spec tx tx2 :
  NoDup (map coin_key (Tx_Coins tx)) -> NoDup (map coin_key (Tx_Gas tx)) ->
  let '(same, (tx', tx2')) := Tx_EqualsEx tx tx2 in
  (same = true <-> same_tx tx tx2) /\ fst (Tx_Equals tx tx2) = same /\
  gas_reordered tx tx' /\ gas_reordered tx2 tx2'.
Proof.
  intros Hn Hg. rewrite Tx_Equals_verdict.
  unfold same_tx, Tx_EqualsEx, TxID_Equals, TxID_String, Address_Equals, Address_String.
  pose proof (gas_reordered_refl tx). pose proof (gas_reordered_refl tx2).
  destruct (EqualFold (Tx_ID tx) _); cbn; [|by differs].
  destruct (Chain_Equals _ _); cbn; [|by differs].
  destruct (EqualFold (FromAddress tx) _); cbn; [|by differs].
  destruct (EqualFold (ToAddress tx) _); cbn; [|by differs].
  pose proof (Coins_EqualsEx_spec (Tx_Coins tx) (Tx_Coins tx2) Hn) as Hc.
  fold (same_coins (Tx_Coins tx) (Tx_Coins tx2)) in Hc.
  destruct (Coins_EqualsEx (Tx_Coins tx) _); cbn; [|by differs].
  pose proof (Coins_EqualsEx_spec (Tx_Gas tx) (Tx_Gas tx2) Hg) as Hge.
  fold (same_coins (Tx_Gas tx) (Tx_Gas tx2)) in Hge. rewrite <- Gas_Equals_fst in Hge.
  pose proof (Gas_Equals_perm (Tx_Gas tx) (Tx_Gas tx2)) as [Hp1 Hp2].
  destruct (Gas_Equals (Tx_Gas tx) (Tx_Gas tx2)) as [b [g g2]]. cbn in Hge, Hp1, Hp2 |- *.
  assert (gas_reordered tx (set_Gas tx g)) by (by exists g).
  assert (gas_reordered tx2 (set_Gas tx2 g2)) by (by exists g2).
  destruct b; cbn; [|by differs]. destruct (EqualFold (Tx_Memo tx) _); cbn; [|by differs].
  split; [|done]. split; [|done]. intros _. split_and!; try done; [by apply Hc|by apply Hge].
Qed.
End compare_spec.

(** A transaction is valid exactly when its id, addresses and chain are not
    blank, it has coins, none of them empty, it has gas (unless it is native to
    the network), none of it empty, and its memo fits. *)
Theorem Tx_Valid_spec tx :
  Tx_Valid tx = Ok tt <->
  is_blank (Tx_ID tx) = false /\ is_blank (FromAddress tx) = false /\
  is_blank (ToAddress tx) = false /\ Chain_IsEmpty (Tx_Chain tx) = false /\
  Tx_Coins tx <> [] /\ Forall (fun c => Coin_IsEmpty c = false) (Tx_Coins tx) /\
  (IsBASEChain (Tx_Chain tx) = true \/ Tx_Gas tx <> []) /\
  Forall (fun c => Coin_IsEmpty c = false) (Tx_Gas tx) /\ str_len (Tx_Memo tx) <= 250.
Proof.
  unfold Tx_Valid, TxID_IsEmpty, TxID_String, Address_IsEmpty, Address_String, IsBASEChain.
  assert (Hv : forall cs, forM_check Coin_Valid cs = Ok tt <->
                     Forall (fun c => Coin_IsEmpty c = false) cs).
  { intros cs. rewrite forM_check_Ok. apply Forall_iff. intros c.
    unfold Coin_Valid, Coin_IsEmpty. destruct (Asset_IsEmpty _); [by split|].
    by destruct (_ =? 0). }
  assert (Hb : forall cs k, (_ ← forM_check Coin_Valid cs; k) = Ok tt <->
                     Forall (fun c => Coin_IsEmpty c = false) cs /\ k = Ok tt).
  { intros cs k. rewrite <- Hv, bind_Ok. split; [by intros ([] & ? & ?)|].
    intros []. by exists tt. }
  destruct (is_blank (Tx_ID tx)); [by split; [|intros (? & _)]|].
  destruct (is_blank (FromAddress tx)); [by split; [|intros (_ & ? & _)]|].
  destruct (is_blank (ToAddress tx)); [by split; [|intros (_ & _ & ? & _)]|].
  destruct (Chain_IsEmpty (Tx_Chain tx)); [by split; [|intros (_ & _ & _ & ? & _)]|].
  destruct (Tx_Coins tx) as [|c cs] eqn:Ec; cbn [length Nat.eqb];
    [by split; [|intros (_ & _ & _ & _ & ? & _)]|].
  unfold Coins_Valid, Gas_Valid. rewrite Hb.
  destruct (Chain_Equals (Tx_Chain tx) BASEChain), (Tx_Gas tx) as [|g gs] eqn:Eg;
    cbn [negb andb length Nat.eqb]; rewrite ?Hb; unfold MaxMemoSize;
    destruct (Z.ltb_spec 250 (str_len (Tx_Memo tx))); (split; [intuition (done || lia)|]);
    intros (_ & _ & _ & _ & _ & H1 & H2 & H3 & H4); try lia; auto.
  destruct H2 as [H2|H2]; done.
Qed.

(** ** Witnesses *)

Section txs_witnesses.
Import Reference ReferenceSort.

Definition example_tx (memo : string) (gas : Gas) : Tx :=
  mkTx "A1" BTCChain "alice" "bob" [NewCoin BTCAsset 5] gas memo.

Lemma Tx_EqualsEx_spec_witness :
  let tx := example_tx "memo" [NewCoin ETHAsset 1; NewCoin BTCAsset 2] in
  let tx2 := example_tx "MEMO" [NewCoin BTCAsset 2; NewCoin ETHAsset 1] in
  fst (Tx_EqualsEx tx tx2) = true /\
  let '(same, (tx', tx2')) := Tx_EqualsEx tx tx2 in
  (same = true <-> same_tx tx tx2) /\ fst (Tx_Equals tx tx2) = same /\
  gas_reordered tx tx' /\ gas_reordered tx2 tx2'.
Proof.
  cbv zeta. split; [by vm_compute|].
  apply (Tx_EqualsEx_spec (example_tx "memo" [NewCoin ETHAsset 1; NewCoin BTCAsset 2])
           (example_tx "MEMO" [NewCoin BTCAsset 2; NewCoin ETHAsset 1]));
    apply (bool_decide_unpack _); by vm_compute.
Defined.
End txs_witnesses.
