(* ===== verification/NodeAccounts.v ===== *)
(** [x/mayachain/types/type_node_account.go]: node accounts, their status, signer
    membership and bond units, and the bond providers of a node. *)
From S2P Require Import Prelude GoText Sdk Floats Keys.

(** ** Parameters *)

(** [cases.Title(language.Und)] of golang.org/x/text. *)
Class TextCases := { title : string -> string }.

(** [semver.Make], which gives the zero version on a malformed string, and
    [Version.Equals]. *)
Class SemverParse `{Semver} := {
  semver_make : string -> Version;
  semver_equals : Version -> Version -> bool;
}.

(** What converting an out-of-range float to [int64] gives: the language leaves
    it to the implementation. *)
Class FloatConversion := { int64_of_overflow : Z }.

(** ** Data *)

Definition NodeStatus := Z.
Definition NodeStatus_Unknown : NodeStatus := 0.
Definition NodeStatus_Whitelisted : NodeStatus := 1.
Definition NodeStatus_Standby : NodeStatus := 2.
Definition NodeStatus_Ready : NodeStatus := 3.
Definition NodeStatus_Active : NodeStatus := 4.
Definition NodeStatus_Disabled : NodeStatus := 5.

Definition NodeStatus_value : list (string * NodeStatus) :=
  [("Unknown", 0); ("Whitelisted", 1); ("Standby", 2); ("Ready", 3); ("Active", 4);
   ("Disabled", 5)].

Definition NodeType := Z.

Record NodeAccount := mkNodeAccount {
  NodeAddress : AccAddress;
  NodeAccount_Status : NodeStatus;
  NodeAccount_PubKeySet : PubKeySet;
  AztecAddress : Address;
  ValidatorConsPubKey : string;
  Bond : Z;
  ActiveBlockHeight : Z;
  NodeAccount_BondAddress : Address;
  NodeAccount_StatusSince : Z;
  SignerMembership : list string;
  RequestedToLeave : bool;
  ForcedToLeave : bool;
  LeaveScore : Z;
  IPAddress : string;
  NodeAccount_Version : string;
  NodeAccount_Type : NodeType;
  NodeAccount_Reward : Z;
}.

#[export] Instance NodeAccount_eq_dec : EqDecision NodeAccount.
Proof. solve_decision. Defined.

Definition set_status (m : NodeAccount) (status : NodeStatus) (since active : Z) : NodeAccount :=
  mkNodeAccount (NodeAddress m) status (NodeAccount_PubKeySet m) (AztecAddress m)
    (ValidatorConsPubKey m) (Bond m) active (NodeAccount_BondAddress m) since
    (SignerMembership m) (RequestedToLeave m) (ForcedToLeave m) (LeaveScore m) (IPAddress m)
    (NodeAccount_Version m) (NodeAccount_Type m) (NodeAccount_Reward m).
Definition set_SignerMembership (m : NodeAccount) (l : list string) : NodeAccount :=
  mkNodeAccount (NodeAddress m) (NodeAccount_Status m) (NodeAccount_PubKeySet m) (AztecAddress m)
    (ValidatorConsPubKey m) (Bond m) (ActiveBlockHeight m) (NodeAccount_BondAddress m)
    (NodeAccount_StatusSince m) l (RequestedToLeave m) (ForcedToLeave m) (LeaveScore m)
    (IPAddress m) (NodeAccount_Version m) (NodeAccount_Type m) (NodeAccount_Reward m).

(** A provider's reward is a pointer: [None] is nil. *)
Record BondProvider := mkBondProvider {
  BondProvider_BondAddress : AccAddress;
  Bonded : bool;
  BondProvider_Reward : option Z;
}.

Record BondProviders := mkBondProviders {
  BondProviders_NodeAddress : AccAddress;
  NodeOperatorFee : Z;
  Providers : list BondProvider;
}.

Definition set_Providers (bp : BondProviders) (l : list BondProvider) : BondProviders :=
  mkBondProviders (BondProviders_NodeAddress bp) (NodeOperatorFee bp) l.

(** ** Node status *)

Section status.
Context `{T : TextCases}.

Definition NodeStatus_name (x : NodeStatus) : option string :=
  fst <$> List.find (fun nv => snd nv =? x) NodeStatus_value.

(** A value without a name prints as a number, which has no title case and is
    no name. *)
Definition NodeStatus_Valid (x : NodeStatus) : outcome unit :=
  match NodeStatus_name x with
  | Some n =>
      if existsb (fun nv => String.eqb (fst nv) (title n)) NodeStatus_value then Ok tt
      else Err "invalid node status"
  | None => Err "invalid node status"
  end.

Definition getNodeStatus (ps : string) : NodeStatus :=
  match List.find (fun nv => String.eqb (fst nv) (title ps)) NodeStatus_value with
  | Some (_, val) => val
  | None => NodeStatus_Unknown
  end.
End status.

(** ** Node accounts *)

(** The block height a node became active is reset when it stops being so. *)
Definition UpdateStatus (m : NodeAccount) (status : NodeStatus) (height : Z) : NodeAccount :=
  if NodeAccount_Status m =? status then m
  else
    set_status m status height
      (if negb (status =? NodeStatus_Active) then 0 else ActiveBlockHeight m).

Definition NewNodeAccount (nodeAddress : AccAddress) (status : NodeStatus)
    (nodePubKeySet : PubKeySet) (validatorConsPubKey : string) (aztecAddress : Address)
    (bond : Z) (bondAddress : Address) (height : Z) : NodeAccount :=
  let na := mkNodeAccount nodeAddress 0 nodePubKeySet aztecAddress validatorConsPubKey bond 0
              bondAddress 0 [] false false 0 EmptyString EmptyString 0 0 in
  UpdateStatus na status height.

Section node_account.
Context `{A : SdkAddress} `{C : PubKeyCodec} `{V : Semver} `{!SemverParse}.

Definition NodeAccount_IsEmpty (m : NodeAccount) : bool :=
  acc_empty (NodeAddress m) || (NodeAccount_Status m =? NodeStatus_Unknown).

Definition NodeAccount_Valid (m : NodeAccount) : outcome unit :=
  if acc_empty (NodeAddress m) then Err "node thor address is empty"
  else if Address_IsEmpty (NodeAccount_BondAddress m) then Err "bond address is empty"
  else if NodeAccount_Status m =? NodeStatus_Unknown then Err "node status cannot be unknown"
  else Ok tt.

Definition GetVersion (m : NodeAccount) : Version := semver_make (NodeAccount_Version m).

Definition NodeAccount_Equals (m n1 : NodeAccount) : bool :=
  acc_equals (NodeAddress m) (NodeAddress n1)
  && PubKeySet_Equals (NodeAccount_PubKeySet m) (NodeAccount_PubKeySet n1)
  && String.eqb (ValidatorConsPubKey m) (ValidatorConsPubKey n1)
  && Address_Equals (NodeAccount_BondAddress m) (NodeAccount_BondAddress n1)
  && (NodeAccount_Reward m =? NodeAccount_Reward n1)
  && semver_equals (GetVersion m) (GetVersion n1).

(** ** Signer membership *)

Definition GetSignerMembership (m : NodeAccount) : PubKeys := parsed_pubkeys (SignerMembership m).

Definition TryAddSignerPubKey (m : NodeAccount) (key : PubKey) : NodeAccount :=
  if PubKey_IsEmpty key then m
  else if existsb (fun item => PubKey_Equals item key) (GetSignerMembership m) then m
  else set_SignerMembership m (SignerMembership m ++ [PubKey_String key]).

(** The index of the last match among the keys that parse ... *)
Fixpoint last_index (key : PubKey) (l : PubKeys) (idx : nat) (found : option nat) : option nat :=
  match l with
  | [] => found
  | item :: l' => last_index key l' (S idx) (if PubKey_Equals item key then Some idx else found)
  end.

(** ... is used to cut the stored list. *)
Definition TryRemoveSignerPubKey (m : NodeAccount) (key : PubKey) : NodeAccount :=
  if PubKey_IsEmpty key then m
  else
    match last_index key (GetSignerMembership m) 0 None with
    | Some idx =>
        set_SignerMembership m (take idx (SignerMembership m) ++ drop (S idx) (SignerMembership m))
    | None => m
    end.

(** ** Lists of node accounts *)

(** Whether the address belongs to an active node. *)
Definition IsNodeKeys (nas : list NodeAccount) (addr : AccAddress) : bool :=
  existsb (fun na => (NodeAccount_Status na =? NodeStatus_Active)
                     && acc_equals addr (NodeAddress na)) nas.

Definition NodeAccounts_IsEmpty (nas : list NodeAccount) : bool := (length nas =? 0)%nat.

(** [Less(i, j)] on the elements at the two indices. *)
Definition NodeAccounts_Less (x y : NodeAccount) : bool :=
  if NodeAccount_StatusSince x <? NodeAccount_StatusSince y then true
  else if NodeAccount_StatusSince y <? NodeAccount_StatusSince x then false
  else str_ltb (acc_string (NodeAddress x)) (acc_string (NodeAddress y)).

Definition NodeAccounts_Contains (nas : list NodeAccount) (na : NodeAccount) : bool :=
  existsb (fun item => NodeAccount_Equals item na) nas.

Definition GetNodeAddresses (nas : list NodeAccount) : list AccAddress := map NodeAddress nas.
End node_account.

(** ** Bond units *)

Section bond_units.
Context `{F : FloatConversion}.

(** [int64(math.Max(float64(0), float64(slashpoints)))] *)
Definition clamp_slashpoints (slashpoints : Z) : Z :=
  if slashpoints <=? 0 then 0
  else
    let v := f64_trunc (f64_of_int slashpoints) in
    if v <? 2 ^ 63 then v else int64_of_overflow.

(** The number of blocks a node earned since it became active. *)
Definition CalcBondUnits (m : NodeAccount) (height slashpoints : Z) : Z :=
  let slashpoints := clamp_slashpoints slashpoints in
  if (height <? 0) || (ActiveBlockHeight m <? 0) || (slashpoints <? 0) then 0
  else
    let blockCount := i64 (height - i64 (ActiveBlockHeight m + slashpoints)) in
    let blockCount := if blockCount <? 0 then 0 else blockCount in
    u64 blockCount.
End bond_units.

(** ** Jails ([type_jail.go]) *)

Record Jail := mkJail {
  Jail_NodeAddress : AccAddress;
  ReleaseHeight : Z;
  Reason : string;
}.

Definition NewJail (addr : AccAddress) : Jail := mkJail addr 0 EmptyString.

Definition IsJailed (m : Jail) (height : Z) : bool := height <? ReleaseHeight m.

(** ** Bond providers *)

Definition NewBondProviders (acc : AccAddress) : BondProviders := mkBondProviders acc 0 [].
Definition NewBondProvider (acc : AccAddress) : BondProvider := mkBondProvider acc false None.

Section providers.
Context `{A : SdkAddress}.

Definition BondProvider_IsEmpty (m : BondProvider) : bool := acc_empty (BondProvider_BondAddress m).
Definition HasBonded (m : BondProvider) : bool := Bonded m.

Definition positive_reward (r : option Z) : bool :=
  match r with Some r => 0 <? r | None => false end.

Definition BondProvider_HasRewards (m : BondProvider) : bool :=
  positive_reward (BondProvider_Reward m).

Definition is_provider (acc : AccAddress) (p : BondProvider) : bool :=
  acc_equals (BondProvider_BondAddress p) acc.

Definition BondProviders_Get (bp : BondProviders) (acc : AccAddress) : BondProvider :=
  match List.find (is_provider acc) (Providers bp) with
  | Some provider => provider
  | None => mkBondProvider EmptyString false None
  end.

Definition BondProviders_Has (bp : BondProviders) (acc : AccAddress) : bool :=
  negb (BondProvider_IsEmpty (BondProviders_Get bp acc)).

(** Change the first provider of that address. *)
Fixpoint update_provider (acc : AccAddress) (f : BondProvider -> BondProvider)
    (l : list BondProvider) : list BondProvider :=
  match l with
  | [] => []
  | p :: l' => if is_provider acc p then f p :: l' else p :: update_provider acc f l'
  end.

Definition with_bonded (b : bool) (p : BondProvider) : BondProvider :=
  mkBondProvider (BondProvider_BondAddress p) b (BondProvider_Reward p).

Definition BondLiquidity (bp : BondProviders) (acc : AccAddress) : BondProviders :=
  set_Providers bp (update_provider acc (with_bonded true) (Providers bp)).

Definition Unbond (bp : BondProviders) (acc : AccAddress) : BondProviders :=
  set_Providers bp (update_provider acc (with_bonded false) (Providers bp)).

Definition BondProviders_HasRewards (bp : BondProviders) (acc : AccAddress) : bool :=
  existsb (fun p => is_provider acc p && positive_reward (BondProvider_Reward p)) (Providers bp).

Definition RemoveRewards (bp : BondProviders) (acc : AccAddress) : BondProviders :=
  set_Providers bp
    (update_provider acc (fun p => mkBondProvider (BondProvider_BondAddress p) (Bonded p) (Some 0))
       (Providers bp)).

(** The first provider, the operator, stays; of the others the first that
    matches and is not bonded goes. *)
Definition BondProviders_Remove (bp : BondProviders) (acc : AccAddress) : BondProviders * bool :=
  match Providers bp with
  | [] => (bp, false)
  | operator :: rest =>
      let removable p := is_provider acc p && negb (Bonded p) in
      if existsb removable rest
      then (set_Providers bp (operator :: remove_first removable rest), true)
      else (bp, false)
  end.

Definition HasProviderBonded (bp : BondProviders) (opBondAddress : AccAddress) : bool :=
  existsb (fun p => negb (is_provider opBondAddress p) && Bonded p) (Providers bp).
End providers.

(** ** Theorems on bond units *)

Section bond_units_facts.
Context {F : FloatConversion}.

Lemma clamp_exact s : s < 2 ^ 53 -> clamp_slashpoints s = Z.max 0 s.
Proof.
  intros Hs. unfold clamp_slashpoints. destruct (Z.leb_spec s 0); [lia|].
  pose proof (f64_of_int_exact s ltac:(lia)) as Hf. destruct (f64_of_int s) as [p q].
  destruct Hf as [Hq ->]. unfold f64_trunc. cbn [fst snd]. rewrite Z.div_mul by lia.
  cbn zeta. destruct (Z.ltb_spec s (2 ^ 63)); lia.
Qed.

(** A node earns one bond unit per block since it became active, less its
    slash points, never below zero; negative slash points count as none. The
    passage through [float64] is exact for fewer than 2^53 slash points. *)
Theorem CalcBondUnits_spec m height slashpoints :
  is_i64 height -> is_i64 (ActiveBlockHeight m) -> slashpoints < 2 ^ 53 ->
  ActiveBlockHeight m + slashpoints < 2 ^ 63 ->
  CalcBondUnits m height slashpoints =
    if (height <? 0) || (ActiveBlockHeight m <? 0) then 0
    else Z.max 0 (height - ActiveBlockHeight m - Z.max 0 slashpoints).
Proof.
  unfold is_i64. intros Hh Ha Hs Hsum. unfold CalcBondUnits. cbn zeta.
  rewrite clamp_exact by done.
  rewrite (proj2 (Z.ltb_ge (Z.max 0 slashpoints) 0)), orb_false_r by lia.
  destruct (Z.ltb_spec height 0); [done|]. destruct (Z.ltb_spec (ActiveBlockHeight m) 0); [done|].
  cbn [orb]. rewrite (i64_id (ActiveBlockHeight m + _)), i64_id by (unfold is_i64; lia).
  destruct (Z.ltb_spec (height - (ActiveBlockHeight m + Z.max 0 slashpoints)) 0).
  - change (u64 0) with 0. lia.
  - rewrite u64_id by (unfold is_u64; lia). lia.
Qed.
End bond_units_facts.

(** ** Theorems on signer membership *)

Section membership.
Context {C : PubKeyCodec}.

Definition key_ok (k : string) : Prop := k <> EmptyString /\ pubkey_decodes k = true.

(** The stored keys parse and are distinct. *)
Definition membership_ok (l : list string) : Prop := NoDup l /\ Forall key_ok l.

Lemma PubKey_IsEmpty_spec k : PubKey_IsEmpty k = true <-> k = EmptyString.
Proof. unfold PubKey_IsEmpty, str_len. destruct k; cbn; split; intros; try done; lia. Qed.

Lemma parsed_ok l : Forall key_ok l -> parsed_pubkeys l = l.
Proof.
  unfold parsed_pubkeys. induction 1 as [|k l [Hk Hd] _ IH]; [done|]. cbn.
  unfold NewPubKey at 1. fold (PubKey_IsEmpty k).
  destruct (PubKey_IsEmpty k) eqn:E; [by apply PubKey_IsEmpty_spec in E|].
  rewrite Hd. cbn. by rewrite IH.
Qed.

Lemma last_index_absent key l idx found :
  key ∉ l -> last_index key l idx found = found.
Proof.
  revert idx found. induction l as [|x l IH]; intros idx found H; [done|].
  apply not_elem_of_cons in H as [Hx Hl]. cbn.
  destruct (PubKey_Equals x key) eqn:E; [by apply PubKey_Equals_spec in E as ->|]. by apply IH.
Qed.

Lemma last_index_at key l1 l2 idx found :
  key ∉ l2 -> last_index key (l1 ++ key :: l2) idx found = Some (idx + length l1)%nat.
Proof.
  revert idx found. induction l1 as [|x l1 IH]; intros idx found H; cbn.
  - rewrite (proj2 (PubKey_Equals_spec key key)), last_index_absent by done. f_equal. lia.
  - rewrite IH by done. f_equal. lia.
Qed.

Lemma elem_of_remove_middle (key k : string) (l1 l2 : list string) :
  key ∉ l1 -> key ∉ l2 -> k ∈ l1 ++ l2 <-> k <> key /\ k ∈ l1 ++ key :: l2.
Proof.
  intros H1 H2. rewrite !elem_of_app, elem_of_cons. split.
  - intros [H|H]; (split; [by intros ->|auto]).
  - intros [Hne [H|[H|H]]]; auto. done.
Qed.

Lemma membership_snoc l key : key ∉ l -> key_ok key -> membership_ok l -> membership_ok (l ++ [key]).
Proof.
  intros Ha Hk [Hn Hok]. split.
  - apply NoDup_app. split_and!; [done| |apply NoDup_singleton].
    intros x Hx ->%list_elem_of_singleton. done.
  - apply Forall_app. split; [done|]. by apply Forall_singleton.
Qed.

(** On a membership whose keys parse and are distinct, adding and removing a
    key behave as on a finite set of keys, and keep the membership so. *)
Theorem signer_membership_set m key :
  membership_ok (SignerMembership m) -> key_ok key ->
  let added := SignerMembership (TryAddSignerPubKey m key) in
  let removed := SignerMembership (TryRemoveSignerPubKey m key) in
  (membership_ok added /\ forall k, k ∈ added <-> k = key \/ k ∈ SignerMembership m) /\
  (membership_ok removed /\ forall k, k ∈ removed <-> k <> key /\ k ∈ SignerMembership m).
Proof.
  intros [Hn Hok] Hk. cbn zeta.
  unfold TryAddSignerPubKey, TryRemoveSignerPubKey, GetSignerMembership.
  destruct (PubKey_IsEmpty key) eqn:E; [by apply PubKey_IsEmpty_spec in E; destruct Hk|].
  rewrite parsed_ok by done. split.
  - destruct (existsb _ _) eqn:Ex.
    + apply existsb_exists in Ex as (x & Hx & ->%PubKey_Equals_spec). apply list_elem_of_In in Hx.
      split; [done|]. intros k. split; [by right|]. by intros [->|].
    + apply existsb_Forall_false in Ex. rewrite Forall_forall in Ex.
      assert (Ha : key ∉ SignerMembership m).
      { intros Hin. specialize (Ex key Hin). by rewrite (proj2 (PubKey_Equals_spec key key)) in Ex. }
      cbn. split; [by apply membership_snoc|]. intros k.
      rewrite elem_of_app, list_elem_of_singleton. tauto.
  - destruct (decide (key ∈ SignerMembership m)) as [Hin|Hin].
    + apply list_elem_of_split in Hin as (l1 & l2 & Hl). rewrite Hl in *.
      apply NoDup_app in Hn as (Hn1 & Hd & [Hk2 Hn2]%NoDup_cons).
      apply Forall_app in Hok as [Hok1 [_ Hok2]%Forall_cons].
      rewrite last_index_at by done. cbn. rewrite take_app_length.
      assert (drop (S (length l1)) (l1 ++ key :: l2) = l2) as ->.
      { rewrite (cons_middle key l1 l2), app_assoc.
        apply drop_app_length'. rewrite length_app. cbn. lia. }
      split; [split|].
      * apply NoDup_app. split_and!; [done| |done]. intros x Hx Hx2. by apply (Hd x Hx); right.
      * by apply Forall_app.
      * intros k. apply elem_of_remove_middle; [|done]. intros Hkk. by apply (Hd key Hkk); left.
    + rewrite last_index_absent by done. split; [done|]. intros k.
      split; [|by intros []]. intros Hkk. split; [|done]. by intros ->.
Qed.

(** The index is taken in the list of keys that parse and used in the stored
    list, so behind an entry that does not parse the wrong entry is removed: the
    key asked for stays. *)
Theorem TryRemoveSignerPubKey_misaligned m bad key :
  SignerMembership m = [bad; key] -> bad <> EmptyString -> pubkey_decodes bad = false ->
  key_ok key -> SignerMembership (TryRemoveSignerPubKey m key) = [key].
Proof.
  intros Hm Hb Hbd [Hk Hd]. unfold TryRemoveSignerPubKey, GetSignerMembership. rewrite Hm.
  assert (He : forall k, k <> EmptyString -> (str_len k =? 0) = false).
  { intros k Hne. destruct (str_len k =? 0) eqn:E; [by apply PubKey_IsEmpty_spec in E|done]. }
  unfold PubKey_IsEmpty, parsed_pubkeys, NewPubKey.
  cbn -[PubKey_Equals str_len]. rewrite !He, Hbd, Hd by done. cbn -[PubKey_Equals].
  by rewrite (proj2 (PubKey_Equals_spec key key)).
Qed.
End membership.

(** ** Theorems on bond providers *)

Section providers_facts.
Context {A : SdkAddress} {AL : SdkAddressLaws A}.

Lemma is_provider_spec acc p : is_provider acc p = true <-> BondProvider_BondAddress p = acc.
Proof. apply acc_equals_law. Qed.

(** [Remove] takes out exactly one provider, the first of that address that
    has not bonded, and never the operator at the head of the list; it reports
    false, and changes nothing, exactly when there is none. *)
Theorem BondProviders_Remove_spec bp acc bp' ok :
  BondProviders_Remove bp acc = (bp', ok) ->
  let removable p := BondProvider_BondAddress p = acc /\ Bonded p = false in
  if ok : bool
  then exists operator l1 p l2, Providers bp = operator :: l1 ++ p :: l2 /\ removable p /\
         Forall (fun q => ~ removable q) l1 /\ bp' = set_Providers bp (operator :: l1 ++ l2)
  else bp' = bp /\ Forall (fun q => ~ removable q) (tail (Providers bp)).
Proof.
  intros H removable. unfold BondProviders_Remove in H.
  set (rb := fun p => is_provider acc p && negb (Bonded p)) in H.
  assert (Hrb : forall p, rb p = true <-> removable p).
  { intros p. unfold rb, removable. rewrite andb_true_iff, is_provider_spec, negb_true_iff. done. }
  assert (Hnot : forall l, Forall (fun p => rb p = false) l -> Forall (fun q => ~ removable q) l).
  { intros l Hl. eapply Forall_impl; [exact Hl|]. intros p Hp Hr%Hrb. cbn in Hp. congruence. }
  destruct (Providers bp) as [|operator rest]; [by injection H as <- <-|].
  destruct (existsb rb rest) eqn:E; injection H as <- <-.
  - destruct (remove_first_split rb rest) as [[Hf _]|(l1 & p & l2 & -> & Hf & Hp & ->)].
    + by rewrite (proj2 (existsb_Forall_false rb rest)) in E.
    + exists operator, l1, p, l2. split_and!; [done|by apply Hrb|by apply Hnot|done].
  - split; [done|]. cbn. by apply Hnot, existsb_Forall_false.
Qed.
End providers_facts.

(** ** Witnesses *)

Section node_witnesses.
Import Reference.

Definition example_node (membership : list string) : NodeAccount :=
  mkNodeAccount "addr" NodeStatus_Active EmptyPubKeySet EmptyString EmptyString 0 100
    EmptyString 0 membership false false 0 EmptyString EmptyString 0 0.

#[local] Instance example_float : FloatConversion := {| int64_of_overflow := - 2 ^ 63 |}.
#[local] Instance example_codec : PubKeyCodec := {| pubkey_decodes s := negb (String.eqb s "bad") |}.

Lemma CalcBondUnits_spec_witness :
  CalcBondUnits (example_node []) 1000 50 = 850 /\
  CalcBondUnits (example_node []) 1000 50 =
    if (1000 <? 0) || (100 <? 0) then 0 else Z.max 0 (1000 - 100 - Z.max 0 50).
Proof.
  split; [by vm_compute|]. by apply (CalcBondUnits_spec (example_node []) 1000 50).
Defined.

Lemma signer_membership_set_witness :
  let m := example_node ["k1"; "k2"; "k3"] in
  let added := SignerMembership (TryAddSignerPubKey m "k2") in
  let removed := SignerMembership (TryRemoveSignerPubKey m "k2") in
  removed = ["k1"; "k3"] /\
  (membership_ok added /\ forall k, k ∈ added <-> k = "k2" \/ k ∈ SignerMembership m) /\
  (membership_ok removed /\ forall k, k ∈ removed <-> k <> "k2" /\ k ∈ SignerMembership m).
Proof.
  cbv zeta. split; [by vm_compute|].
  apply (signer_membership_set (example_node ["k1"; "k2"; "k3"]) "k2"); [|done].
  split; [apply (bool_decide_unpack _); by vm_compute|by repeat constructor].
Defined.

Lemma TryRemoveSignerPubKey_misaligned_witness :
  SignerMembership (TryRemoveSignerPubKey (example_node ["bad"; "k1"]) "k1") = ["k1"].
Proof. by apply (TryRemoveSignerPubKey_misaligned (example_node ["bad"; "k1"]) "bad" "k1"). Defined.

Lemma BondProviders_Remove_spec_witness :
  let op := mkBondProvider "op" true None in
  let bp := mkBondProviders "node" 0 [op; mkBondProvider "a" false None] in
  let removable p := BondProvider_BondAddress p = "a"%string /\ Bonded p = false in
  exists operator l1 p l2, Providers bp = operator :: l1 ++ p :: l2 /\ removable p /\
    Forall (fun q => ~ removable q) l1 /\
    mkBondProviders "node" 0 [op] = set_Providers bp (operator :: l1 ++ l2).
Proof.
  cbv zeta.
  apply (BondProviders_Remove_spec
           (mkBondProviders "node" 0 [mkBondProvider "op" true None; mkBondProvider "a" false None])
           "a" (mkBondProviders "node" 0 [mkBondProvider "op" true None]) true).
  by vm_compute.
Defined.
End node_witnesses.
