(* ===== verification/Votes.v ===== *)
(** [x/mayachain/types/types.go] and the voters of [x/mayachain/types]: the
    majorities, and the ballots that collect the signatures of node accounts
    ([ErrataTxVoter], [BanVoter], [SolvencyVoter], [ObservedNetworkFeeVoter],
    [ForgiveSlashVoter], [TssKeysignFailVoter]). *)
From S2P Require Import Prelude GoText Sdk Floats Chains Keys Assets Coins Txs NodeAccounts.

(** ** Majorities *)

Definition SuperMajorityFactor : Z := 3.
Definition SimpleMajorityFactor : Z := 2.

Definition HasSuperMajority (signers total : Z) : bool :=
  if total <? signers then false
  else if signers <=? 0 then false
  else
    let min := Z.quot (i64 (total * 2)) SuperMajorityFactor in
    let min := if 0 <? Z.rem (i64 (total * 2)) SuperMajorityFactor then i64 (min + 1) else min in
    min <=? signers.

Definition HasSimpleMajority (signers total : Z) : bool :=
  if total <? signers then false
  else if signers <=? 0 then false
  else
    let min := Z.quot total SimpleMajorityFactor in
    let min := if 0 <? Z.rem total SimpleMajorityFactor then i64 (min + 1) else min in
    min <=? signers.

Definition HasMinority (signers total : Z) : bool :=
  if total <? signers then false
  else if signers <=? 0 then false
  else
    let min := Z.quot total SuperMajorityFactor in
    let min := if 0 <? Z.rem total SuperMajorityFactor then i64 (min + 1) else min in
    min <=? signers.

(** [int(math.Ceil(float64(value) * 2.0 / 3.0))] *)
Definition GetThreshold (value : Z) : outcome Z :=
  if value <? 0 then Err "negative input"
  else Ok (f64_ceil (f64_div (f64_mul (f64_of_int value) (f64_of_int 2)) (f64_of_int 3))).

(** The least number of signers above a fraction [1/d] of [n]. *)
Lemma ceil_quot n d s :
  0 <= n < 2 ^ 63 -> 1 < d < 2 ^ 62 ->
  ((if 0 <? Z.rem n d then i64 (Z.quot n d + 1) else Z.quot n d) <=? s) = true <-> n <= d * s.
Proof.
  intros Hn Hd. rewrite Z.quot_div_nonneg, Z.rem_mod_nonneg by lia.
  pose proof (Z.div_mod n d). pose proof (Z.mod_pos_bound n d).
  assert (0 <= n / d <= n) by (split; [apply Z.div_pos; lia|apply Z.div_le_upper_bound; nia]).
  assert (n / d < n \/ n = 0) by nia.
  destruct (Z.ltb_spec 0 (n mod d)); [rewrite i64_id by (unfold is_i64; lia)|];
    rewrite Z.leb_le; nia.
Qed.

Lemma HasSuperMajority_iff s n :
  n < 2 ^ 62 -> HasSuperMajority s n = true <-> 0 < s <= n /\ 2 * n <= 3 * s.
Proof.
  intros Hn. unfold HasSuperMajority, SuperMajorityFactor.
  destruct (Z.ltb_spec n s); [split; [done|lia]|].
  destruct (Z.leb_spec s 0); [split; [done|lia]|]. cbn zeta.
  rewrite (i64_id (n * 2)) by (unfold is_i64; lia). rewrite ceil_quot by lia. lia.
Qed.

Lemma HasSimpleMajority_iff s n :
  n < 2 ^ 63 -> HasSimpleMajority s n = true <-> 0 < s <= n /\ n <= 2 * s.
Proof.
  intros Hn. unfold HasSimpleMajority, SimpleMajorityFactor.
  destruct (Z.ltb_spec n s); [split; [done|lia]|].
  destruct (Z.leb_spec s 0); [split; [done|lia]|]. cbn zeta.
  rewrite ceil_quot by lia. lia.
Qed.

Lemma HasMinority_iff s n :
  n < 2 ^ 63 -> HasMinority s n = true <-> 0 < s <= n /\ n <= 3 * s.
Proof.
  intros Hn. unfold HasMinority, SuperMajorityFactor.
  destruct (Z.ltb_spec n s); [split; [done|lia]|].
  destruct (Z.leb_spec s 0); [split; [done|lia]|]. cbn zeta.
  rewrite ceil_quot by lia. lia.
Qed.

(** Between one and all of the accounts, a super majority is two thirds or
    more, a simple majority one half or more (exactly one half included) and a
    minority one third or more. *)
Theorem majorities_spec signers total :
  total < 2 ^ 62 ->
  (HasSuperMajority signers total = true <-> 0 < signers <= total /\ 2 * total <= 3 * signers) /\
  (HasSimpleMajority signers total = true <-> 0 < signers <= total /\ total <= 2 * signers) /\
  (HasMinority signers total = true <-> 0 < signers <= total /\ total <= 3 * signers).
Proof.
  intros Hn. split_and!;
    [by apply HasSuperMajority_iff|apply HasSimpleMajority_iff; lia|apply HasMinority_iff; lia].
Qed.

Lemma GetThreshold_ceil value :
  0 <= value < 2 ^ 48 -> GetThreshold value = Ok (- (- (2 * value) / 3)).
Proof.
  intros Hv. unfold GetThreshold. rewrite (proj2 (Z.ltb_ge value 0)) by lia. f_equal.
  pose proof (f64_of_int_exact value ltac:(lia)) as H1.
  pose proof (f64_of_int_exact 2 ltac:(lia)) as H2.
  pose proof (f64_of_int_exact 3 ltac:(lia)) as H3.
  destruct (f64_of_int value) as [p1 q1], (f64_of_int 2) as [p2 q2], (f64_of_int 3) as [p3 q3].
  destruct H1 as [Hq1 ->], H2 as [Hq2 ->], H3 as [Hq3 ->].
  unfold f64_mul, f64_div. cbn [fst snd].
  pose proof (f64_round_int (2 * value) (q1 * q2) ltac:(lia) ltac:(nia)) as H4.
  replace (value * q1 * (2 * q2)) with (2 * value * (q1 * q2)) by lia.
  destruct (f64_round (2 * value * (q1 * q2)) (q1 * q2)) as [p4 q4]. destruct H4 as [Hq4 ->].
  cbn [fst snd]. replace (2 * value * q4 * q3) with (2 * value * (q4 * q3)) by lia.
  replace (q4 * (3 * q3)) with (3 * (q4 * q3)) by lia.
  apply f64_ceil_round; nia.
Qed.

(** C34: the floating-point threshold is exact for any realistic number of nodes:
    it is the least number of signers that forms a super majority. *)
Theorem GetThreshold_least_super_majority value signers :
  0 < value < 2 ^ 48 ->
  exists t, GetThreshold value = Ok t /\ 0 < t <= value /\
    (HasSuperMajority signers value = true <-> t <= signers <= value).
Proof.
  intros Hv. eexists. split; [apply GetThreshold_ceil; lia|].
  pose proof (Z.div_mod (- (2 * value)) 3). pose proof (Z.mod_pos_bound (- (2 * value)) 3).
  rewrite HasSuperMajority_iff by lia. lia.
Qed.

(** ** Ballots *)

(** What the six voters share: the signatures they hold, which node accounts
    count, and the majority they ask for. *)
Class Voter (T : Type) := {
  Signers : T -> list string;
  set_Signers : T -> list string -> T;
  eligible : NodeAccount -> bool;
  enough : Z -> Z -> bool;
}.

Class VoterLaws (T : Type) `{Voter T} : Prop := {
  Signers_set : forall m l, Signers (set_Signers m l) = l;
}.

Section voter.
Context `{A : SdkAddress} {T : Type} `{VT : Voter T}.

Definition GetSigners (m : T) : list AccAddress := omap acc_from_bech32 (Signers m).

Definition HasSigned (m : T) (signer : AccAddress) : bool :=
  existsb (fun sign => acc_equals sign signer) (GetSigners m).

(** The voter after the call, and whether the signature was new. *)
Definition Sign (m : T) (signer : AccAddress) : T * bool :=
  if HasSigned m signer then (m, false)
  else (set_Signers m (Signers m ++ [acc_string signer]), true).

(** Whether the address is one of an account that counts. *)
Definition counts (nas : list NodeAccount) (signer : AccAddress) : bool :=
  existsb (fun na => eligible na && acc_equals signer (NodeAddress na)) nas.

Definition HasConsensus (m : T) (nas : list NodeAccount) : bool :=
  let count := Z.of_nat (length (List.filter (counts nas) (GetSigners m))) in
  enough count (Z.of_nat (length nas)).
End voter.

(** ** The six voters *)

Definition is_active (na : NodeAccount) : bool := NodeAccount_Status na =? NodeStatus_Active.

Record ErrataTxVoter := mkErrataTxVoter {
  Errata_TxID : TxID;
  Errata_Chain : Chain;
  Errata_BlockHeight : Z;
  Errata_Signers : list string;
}.

#[export] Instance ErrataTxVoter_voter : Voter ErrataTxVoter := {|
  Signers := Errata_Signers;
  set_Signers m l := mkErrataTxVoter (Errata_TxID m) (Errata_Chain m) (Errata_BlockHeight m) l;
  eligible := is_active;
  enough := HasSuperMajority;
|}.

Record BanVoter := mkBanVoter {
  Ban_NodeAddress : AccAddress;
  Ban_BlockHeight : Z;
  Ban_Signers : list string;
}.

#[export] Instance BanVoter_voter : Voter BanVoter := {|
  Signers := Ban_Signers;
  set_Signers m l := mkBanVoter (Ban_NodeAddress m) (Ban_BlockHeight m) l;
  eligible := is_active;
  enough := HasSuperMajority;
|}.

Record SolvencyVoter := mkSolvencyVoter {
  Solvency_Id : TxID;
  Solvency_Chain : Chain;
  Solvency_PubKey : PubKey;
  Solvency_Coins : Coins;
  Solvency_Height : Z;
  Solvency_ConsensusBlockHeight : Z;
  Solvency_Signers : list string;
}.

(** A solvency report only needs a minority. *)
#[export] Instance SolvencyVoter_voter : Voter SolvencyVoter := {|
  Signers := Solvency_Signers;
  set_Signers m l := mkSolvencyVoter (Solvency_Id m) (Solvency_Chain m) (Solvency_PubKey m)
    (Solvency_Coins m) (Solvency_Height m) (Solvency_ConsensusBlockHeight m) l;
  eligible := is_active;
  enough := HasMinority;
|}.

Record ObservedNetworkFeeVoter := mkObservedNetworkFeeVoter {
  NetworkFee_BlockHeight : Z;
  ReportBlockHeight : Z;
  NetworkFeeVoter_Chain : Chain;
  NetworkFee_Signers : list string;
  FeeRate : Z;
}.

#[export] Instance ObservedNetworkFeeVoter_voter : Voter ObservedNetworkFeeVoter := {|
  Signers := NetworkFee_Signers;
  set_Signers m l := mkObservedNetworkFeeVoter (NetworkFee_BlockHeight m) (ReportBlockHeight m)
    (NetworkFeeVoter_Chain m) l (FeeRate m);
  eligible := is_active;
  enough := HasSuperMajority;
|}.

Record ForgiveSlashVoter := mkForgiveSlashVoter {
  Forgive_NodeAddress : AccAddress;
  Forgive_BlockHeight : Z;
  ProposedBlockHeight : Z;
  Forgive_Signers : list string;
}.

#[export] Instance ForgiveSlashVoter_voter : Voter ForgiveSlashVoter := {|
  Signers := Forgive_Signers;
  set_Signers m l := mkForgiveSlashVoter (Forgive_NodeAddress m) (Forgive_BlockHeight m)
    (ProposedBlockHeight m) l;
  eligible := is_active;
  enough := HasSuperMajority;
|}.

Record TssKeysignFailVoter := mkTssKeysignFailVoter {
  KeysignFail_ID : string;
  KeysignFail_Height : Z;
  KeysignFail_Signers : list string;
  LastRoundCount : Z;
}.

(** Any listed account counts, active or not, and one half is enough. *)
#[export] Instance TssKeysignFailVoter_voter : Voter TssKeysignFailVoter := {|
  Signers := KeysignFail_Signers;
  set_Signers m l := mkTssKeysignFailVoter (KeysignFail_ID m) (KeysignFail_Height m) l
    (LastRoundCount m);
  eligible _ := true;
  enough := HasSimpleMajority;
|}.

#[export] Instance ErrataTxVoter_laws : VoterLaws ErrataTxVoter. Proof. by split. Qed.
#[export] Instance BanVoter_laws : VoterLaws BanVoter. Proof. by split. Qed.
#[export] Instance SolvencyVoter_laws : VoterLaws SolvencyVoter. Proof. by split. Qed.
#[export] Instance ObservedNetworkFeeVoter_laws : VoterLaws ObservedNetworkFeeVoter. Proof. by split. Qed.
#[export] Instance ForgiveSlashVoter_laws : VoterLaws ForgiveSlashVoter. Proof. by split. Qed.
#[export] Instance TssKeysignFailVoter_laws : VoterLaws TssKeysignFailVoter. Proof. by split. Qed.

(** ** The methods of each voter *)

Section methods.
Context `{A : SdkAddress}.

Definition NewErrataTxVoter (txID : TxID) (chain : Chain) : ErrataTxVoter :=
  mkErrataTxVoter txID chain 0 [].
Definition ErrataTxVoter_GetSigners : ErrataTxVoter -> list AccAddress := GetSigners.
Definition ErrataTxVoter_HasSigned : ErrataTxVoter -> AccAddress -> bool := HasSigned.
Definition ErrataTxVoter_Sign : ErrataTxVoter -> AccAddress -> ErrataTxVoter * bool := Sign.
Definition ErrataTxVoter_HasConsensus : ErrataTxVoter -> list NodeAccount -> bool := HasConsensus.
Definition ErrataTxVoter_Empty (m : ErrataTxVoter) : bool :=
  TxID_IsEmpty (Errata_TxID m) || Chain_IsEmpty (Errata_Chain m).
Definition ErrataTxVoter_String (m : ErrataTxVoter) : string :=
  Chain_String (Errata_Chain m) +:+ "-" +:+ TxID_String (Errata_TxID m).

Definition NewBanVoter (addr : AccAddress) : BanVoter := mkBanVoter addr 0 [].
Definition BanVoter_Valid (m : BanVoter) : outcome unit :=
  if acc_empty (Ban_NodeAddress m) then Err "node address is empty"
  else if Ban_BlockHeight m <=? 0 then Err "block height cannot be equal to or less than zero"
  else Ok tt.
Definition BanVoter_IsEmpty (m : BanVoter) : bool := acc_empty (Ban_NodeAddress m).
Definition BanVoter_String (m : BanVoter) : string := acc_string (Ban_NodeAddress m).
Definition BanVoter_GetSigners : BanVoter -> list AccAddress := GetSigners.
Definition BanVoter_HasSigned : BanVoter -> AccAddress -> bool := HasSigned.
Definition BanVoter_Sign (m : BanVoter) (signer : AccAddress) : BanVoter := fst (Sign m signer).
Definition BanVoter_HasConsensus : BanVoter -> list NodeAccount -> bool := HasConsensus.

Definition NewSolvencyVoter (id : TxID) (chain : Chain) (pubKey : PubKey) (coins : Coins)
    (height : Z) (signer : AccAddress) : SolvencyVoter :=
  mkSolvencyVoter id chain pubKey coins height 0 [acc_string signer].
Definition SolvencyVoter_GetSigners : SolvencyVoter -> list AccAddress := GetSigners.
Definition SolvencyVoter_HasSigned : SolvencyVoter -> AccAddress -> bool := HasSigned.
Definition SolvencyVoter_Sign : SolvencyVoter -> AccAddress -> SolvencyVoter * bool := Sign.
Definition SolvencyVoter_HasConsensus : SolvencyVoter -> list NodeAccount -> bool := HasConsensus.
Definition SolvencyVoter_Empty (m : SolvencyVoter) : bool :=
  TxID_IsEmpty (Solvency_Id m) || Chain_IsEmpty (Solvency_Chain m)
  || (Solvency_Height m <=? 0) || (length (Solvency_Signers m) =? 0)%nat.
Definition SolvencyVoter_String (m : SolvencyVoter) : string := TxID_String (Solvency_Id m).

Definition NewObservedNetworkFeeVoter (reportBlockHeight : Z) (chain : Chain)
  : ObservedNetworkFeeVoter := mkObservedNetworkFeeVoter 0 reportBlockHeight chain [] 0.
Definition ObservedNetworkFeeVoter_GetSigners : ObservedNetworkFeeVoter -> list AccAddress :=
  GetSigners.
Definition ObservedNetworkFeeVoter_HasSigned : ObservedNetworkFeeVoter -> AccAddress -> bool :=
  HasSigned.
Definition ObservedNetworkFeeVoter_Sign :
  ObservedNetworkFeeVoter -> AccAddress -> ObservedNetworkFeeVoter * bool := Sign.
Definition ObservedNetworkFeeVoter_HasConsensus :
  ObservedNetworkFeeVoter -> list NodeAccount -> bool := HasConsensus.
Definition ObservedNetworkFeeVoter_IsEmpty (m : ObservedNetworkFeeVoter) : bool :=
  Chain_IsEmpty (NetworkFeeVoter_Chain m) && (ReportBlockHeight m =? 0).

(** [constants.ForgiveSlashPeriod] is a [ConstantName], the position of the
    name in its enumeration, and not the constant of that name. *)
Definition ConstantName_ForgiveSlashPeriod : Z := 43.

Definition NewForgiveSlashVoter (addr : AccAddress) : ForgiveSlashVoter :=
  mkForgiveSlashVoter addr 0 0 [].
Definition ForgiveSlashVoter_Valid (m : ForgiveSlashVoter) : outcome unit :=
  if acc_empty (Forgive_NodeAddress m) then Err "node address is empty"
  else if Forgive_BlockHeight m <=? 0 then Err "block height cannot be equal to or less than zero"
  else Ok tt.
Definition ForgiveSlashVoter_IsEmpty (m : ForgiveSlashVoter) : bool :=
  acc_empty (Forgive_NodeAddress m).
Definition ForgiveSlashVoter_String (m : ForgiveSlashVoter) : string :=
  acc_string (Forgive_NodeAddress m).
Definition ForgiveSlashVoter_GetSigners : ForgiveSlashVoter -> list AccAddress := GetSigners.
Definition ForgiveSlashVoter_HasSigned : ForgiveSlashVoter -> AccAddress -> bool := HasSigned.
Definition ForgiveSlashVoter_Sign (m : ForgiveSlashVoter) (signer : AccAddress)
  : ForgiveSlashVoter := fst (Sign m signer).
Definition ForgiveSlashVoter_HasConsensus : ForgiveSlashVoter -> list NodeAccount -> bool :=
  HasConsensus.
(** [height] is the block height of the context. *)
Definition ForgiveSlashVoter_HasExpired (m : ForgiveSlashVoter) (height : Z) : bool :=
  ConstantName_ForgiveSlashPeriod <? i64 (height - ProposedBlockHeight m).

Definition NewTssKeysignFailVoter (id : string) (height : Z) : TssKeysignFailVoter :=
  mkTssKeysignFailVoter id height [] 0.
Definition TssKeysignFailVoter_GetSigners : TssKeysignFailVoter -> list AccAddress := GetSigners.
Definition TssKeysignFailVoter_HasSigned : TssKeysignFailVoter -> AccAddress -> bool := HasSigned.
Definition TssKeysignFailVoter_Sign :
  TssKeysignFailVoter -> AccAddress -> TssKeysignFailVoter * bool := Sign.
Definition TssKeysignFailVoter_HasConsensus : TssKeysignFailVoter -> list NodeAccount -> bool :=
  HasConsensus.
Definition TssKeysignFailVoter_Empty (m : TssKeysignFailVoter) : bool :=
  (str_len (KeysignFail_ID m) =? 0) || (KeysignFail_Height m =? 0).
Definition TssKeysignFailVoter_String (m : TssKeysignFailVoter) : string := KeysignFail_ID m.
End methods.

(** The fee a chain's observers agreed on ([type_network_fee.go]). *)
Record NetworkFee := mkNetworkFee {
  NetworkFee_Chain : Chain;
  TransactionSize : Z;
  TransactionFeeRate : Z;
}.

Definition NewNetworkFee (chain : Chain) (transactionSize transactionFeeRate : Z) : NetworkFee :=
  mkNetworkFee chain transactionSize transactionFeeRate.

Definition NetworkFee_Valid (m : NetworkFee) : outcome unit :=
  if Chain_IsEmpty (NetworkFee_Chain m) then Err "chain can't be empty"
  else if TransactionSize m <=? 0 then Err "transaction size can't be zero or negative: %v"
  else if TransactionFeeRate m <=? 0 then Err "transaction fee rate can't be zero"
  else Ok tt.

(** The period documented for a request to forgive slash points, of 17280
    blocks, in the constants. *)
Definition ForgiveSlashPeriod : Z := 17280.

(** A request to forgive slash points expires 43 blocks after it was proposed,
    the position of the constant's name, and not after the constant's 17280
    blocks (24 hours): within that period it is refused from block 44 on. *)
Theorem ForgiveSlashVoter_expires_early m height :
  is_i64 (height - ProposedBlockHeight m) ->
  (ForgiveSlashVoter_HasExpired m height = true <-> 43 < height - ProposedBlockHeight m) /\
  (43 < height - ProposedBlockHeight m <= ForgiveSlashPeriod ->
   ForgiveSlashVoter_HasExpired m height = true).
Proof.
  intros Hi. unfold ForgiveSlashVoter_HasExpired, ConstantName_ForgiveSlashPeriod.
  rewrite i64_id, Z.ltb_lt by done. lia.
Qed.

(** ** What a consensus means *)

Section consensus.
Context {A : SdkAddress} {AL : SdkAddressLaws A}.
Context {T : Type} {VT : Voter T} {VL : VoterLaws T}.

(** The ballot after a sequence of attempts to sign. *)
Definition ballot (m0 : T) (votes : list AccAddress) : T :=
  foldl (fun m a => fst (Sign m a)) m0 votes.

Lemma HasSigned_spec (m : T) a : HasSigned m a = true <-> a ∈ GetSigners m.
Proof.
  unfold HasSigned. rewrite existsb_exists. setoid_rewrite acc_equals_law.
  split; [by intros (x & Hx%list_elem_of_In & ->)|].
  intros Ha%list_elem_of_In. by exists a.
Qed.

Lemma GetSigners_Sign (m : T) a :
  acc_wf a -> GetSigners (fst (Sign m a)) =
    if HasSigned m a then GetSigners m else GetSigners m ++ [a].
Proof.
  intros Ha. unfold Sign. destruct (HasSigned m a); [done|].
  unfold GetSigners. cbn. rewrite Signers_set, omap_app. cbn. by rewrite acc_roundtrip.
Qed.

(** No account signs twice, and exactly those who voted have signed. *)
Lemma ballot_signers m0 votes :
  NoDup (GetSigners m0) -> Forall acc_wf votes ->
  NoDup (GetSigners (ballot m0 votes)) /\
  forall a, a ∈ GetSigners (ballot m0 votes) <-> a ∈ GetSigners m0 \/ a ∈ votes.
Proof.
  intros Hn Hv. revert m0 Hn. induction Hv as [|v votes Hw _ IH]; intros m0 Hn; cbn.
  { split; [done|]. intros a. rewrite elem_of_nil. tauto. }
  destruct (IH (fst (Sign m0 v))) as [IH1 IH2].
  - rewrite GetSigners_Sign by done. destruct (HasSigned m0 v) eqn:E; [done|].
    apply NoDup_app. split_and!; [done| |apply NoDup_singleton].
    intros x Hx ->%list_elem_of_singleton. apply HasSigned_spec in Hx. congruence.
  - split; [done|]. intros a. rewrite IH2, GetSigners_Sign, elem_of_cons by done.
    destruct (HasSigned m0 v) eqn:E.
    + apply HasSigned_spec in E. split; [tauto|]. intros [H|[->|H]]; tauto.
    + rewrite elem_of_app, list_elem_of_singleton. tauto.
Qed.

Lemma NoDup_map_filter {X Y} (f : X -> Y) (p : X -> bool) l :
  NoDup (map f l) -> NoDup (map f (List.filter p l)).
Proof.
  induction l as [|x l IH]; cbn; [done|]. intros [Hx Hl]%NoDup_cons.
  destruct (p x); [|by apply IH]. cbn. apply NoDup_cons. split; [|by apply IH].
  intros (y & Hy & Hin)%list_elem_of_fmap. apply Hx. rewrite Hy. apply list_elem_of_fmap_2.
  apply list_elem_of_In in Hin. apply filter_In in Hin as [Hin _]. by apply list_elem_of_In.
Qed.

(** The node accounts that count and signed. *)
Definition voted (signers : list AccAddress) (na : NodeAccount) : bool :=
  eligible (T := T) na && bool_decide (NodeAddress na ∈ signers).

Lemma counted_signers signers nas :
  NoDup signers -> NoDup (map NodeAddress nas) ->
  length (List.filter (counts (T := T) nas) signers) = length (List.filter (voted signers) nas).
Proof.
  intros Hs Hn. rewrite <- (length_map NodeAddress). apply Permutation_length, NoDup_Permutation.
  - rewrite <- (map_id (List.filter _ _)). apply (NoDup_map_filter id). by rewrite map_id.
  - by apply NoDup_map_filter.
  - intros a. rewrite !list_elem_of_In, filter_In, in_map_iff. setoid_rewrite filter_In.
    unfold counts, voted. rewrite existsb_exists. setoid_rewrite andb_true_iff.
    setoid_rewrite acc_equals_law. setoid_rewrite bool_decide_eq_true.
    rewrite <- !list_elem_of_In. split.
    + intros (Ha & na & Hin & He & ->). by exists na.
    + intros (na & <- & Hin & He & Ha). split; [done|]. by exists na.
Qed.

(** Whatever the order and repetition of the votes, a ballot's consensus is
    the voter's majority of the number of node accounts that count and voted:
    nobody is counted twice, and nobody who is not on the list is counted. *)
Theorem ballot_consensus m0 votes nas :
  Signers m0 = [] -> Forall acc_wf votes -> NoDup (map NodeAddress nas) ->
  HasConsensus (ballot m0 votes) nas =
    enough (T := T) (Z.of_nat (length (List.filter (voted votes) nas))) (Z.of_nat (length nas)).
Proof.
  intros H0 Hv Hn.
  assert (Hm0 : GetSigners m0 = []) by (unfold GetSigners; by rewrite H0).
  destruct (ballot_signers m0 votes) as [Hd He]; [rewrite Hm0; constructor|done|].
  unfold HasConsensus. rewrite counted_signers by done. do 3 f_equal.
  apply filter_ext. intros na. unfold voted. f_equal. apply bool_decide_ext.
  rewrite He, Hm0, elem_of_nil. tauto.
Qed.
End consensus.

(** ** Quorum intersection *)

Lemma filter_overlap {X} (p q : X -> bool) l :
  (length (List.filter p l) + length (List.filter q l) <=
   length l + length (List.filter (fun x => p x && q x) l))%nat.
Proof. induction l as [|x l IH]; cbn; [done|]. destruct (p x), (q x); cbn; lia. Qed.

(** Two super majorities of the same accounts share at least a third of
    them: whenever two sets of votes both reach one, one third of the accounts,
    and at least one, voted for both. *)
Theorem quorum_intersection (p q : NodeAccount -> bool) nas :
  Z.of_nat (length nas) < 2 ^ 62 ->
  HasSuperMajority (Z.of_nat (length (List.filter p nas))) (Z.of_nat (length nas)) = true ->
  HasSuperMajority (Z.of_nat (length (List.filter q nas))) (Z.of_nat (length nas)) = true ->
  let both := Z.of_nat (length (List.filter (fun na => p na && q na) nas)) in
  Z.of_nat (length nas) <= 3 * both /\ 0 < both.
Proof.
  intros Hl Hp Hq both. apply HasSuperMajority_iff in Hp; [|done].
  apply HasSuperMajority_iff in Hq; [|done].
  pose proof (filter_overlap p q nas). lia.
Qed.

(** ** Witnesses *)

Section votes_witnesses.
Import Reference.

Definition example_nodes : list NodeAccount :=
  map (fun a => mkNodeAccount a NodeStatus_Active EmptyPubKeySet EmptyString EmptyString 0 100
                  EmptyString 0 [] false false 0 EmptyString EmptyString 0 0)
      ["a"; "b"; "c"; "d"].

Lemma majorities_spec_witness :
  (HasSuperMajority 2 4 = true <-> 0 < 2 <= 4 /\ 2 * 4 <= 3 * 2) /\
  (HasSimpleMajority 2 4 = true <-> 0 < 2 <= 4 /\ 4 <= 2 * 2) /\
  (HasMinority 2 4 = true <-> 0 < 2 <= 4 /\ 4 <= 3 * 2).
Proof. by apply (majorities_spec 2 4). Defined.

Lemma GetThreshold_least_super_majority_witness :
  GetThreshold 10 = Ok 7 /\
  exists t, GetThreshold 10 = Ok t /\ 0 < t <= 10 /\
    (HasSuperMajority 7 10 = true <-> t <= 7 <= 10).
Proof. split; [by vm_compute|]. by apply (GetThreshold_least_super_majority 10 7). Defined.

Lemma ForgiveSlashVoter_expires_early_witness :
  let m := mkForgiveSlashVoter "node" 0 100 [] in
  (ForgiveSlashVoter_HasExpired m 200 = true <-> 43 < 200 - 100) /\
  (43 < 200 - 100 <= ForgiveSlashPeriod -> ForgiveSlashVoter_HasExpired m 200 = true).
Proof. by apply (ForgiveSlashVoter_expires_early (mkForgiveSlashVoter "node" 0 100 []) 200). Defined.

Lemma ballot_consensus_witness :
  let m0 := NewErrataTxVoter "id" BTCChain in
  HasConsensus (ballot m0 ["a"; "b"; "a"; "z"; "c"]) example_nodes = true /\
  HasConsensus (ballot m0 ["a"; "b"; "a"; "z"; "c"]) example_nodes =
    enough (T := ErrataTxVoter)
      (Z.of_nat (length (List.filter (voted (T := ErrataTxVoter) ["a"; "b"; "a"; "z"; "c"]) example_nodes)))
      (Z.of_nat (length example_nodes)).
Proof.
  cbv zeta. split; [by vm_compute|].
  apply (ballot_consensus (NewErrataTxVoter "id" BTCChain) ["a"; "b"; "a"; "z"; "c"] example_nodes).
  - done.
  - repeat constructor; cbn; (done || lia).
  - apply (bool_decide_unpack _). by vm_compute.
Defined.

Lemma quorum_intersection_witness :
  let p na := bool_decide (NodeAddress na ∈ ["a"; "b"; "c"]) in
  let q na := bool_decide (NodeAddress na ∈ ["b"; "c"; "d"]) in
  let both := Z.of_nat (length (List.filter (fun na => p na && q na) example_nodes)) in
  4 <= 3 * both /\ 0 < both.
Proof.
  cbv zeta. apply (quorum_intersection (fun na => bool_decide (NodeAddress na ∈ ["a"; "b"; "c"]))
    (fun na => bool_decide (NodeAddress na ∈ ["b"; "c"; "d"])) example_nodes); by vm_compute.
Defined.
End votes_witnesses.
