(* ===== verification/TxOuts.v ===== *)
(** [x/mayachain/types/type_tx_out.go]: the outbound transactions a block
    schedules. *)
From S2P Require Import Prelude GoText Sdk Chains Keys Assets Coins Txs.

(** The module account that holds the liquidity ([key.go]). *)
Definition AsgardName : string := "asgard".

Record TxOutItem := mkTxOutItem {
  Toi_Chain : Chain;
  Toi_ToAddress : Address;
  Toi_VaultPubKey : PubKey;
  Toi_Coin : Coin;
  Toi_Memo : string;
  MaxGas : Gas;
  GasRate : Z;
  InHash : TxID;
  OutHash : TxID;
  ModuleName : string;
  Toi_Aggregator : string;
  AggregatorTargetAsset : string;
  Toi_AggregatorTargetLimit : option Z;
  VaultPubKeyEddsa : PubKey;
}.

#[export] Instance TxOutItem_eq_dec : EqDecision TxOutItem.
Proof. solve_decision. Defined.

Definition TxOutItem_Valid (m : TxOutItem) : outcome unit :=
  if Chain_IsEmpty (Toi_Chain m) then Err "chain cannot be empty"
  else if TxID_IsEmpty (InHash m) then Err "In Hash cannot be empty"
  else if Address_IsEmpty (Toi_ToAddress m) then Err "To address cannot be empty"
  else if PubKey_IsEmpty (Toi_VaultPubKey m) then Err "vault pubkey cannot be empty"
  else if GasRate m =? 0 then Err "gas rate is zero"
  else if Asset_IsEmpty (GetGasAsset (Toi_Chain m)) then Err "invalid base asset"
  else
    _ ← Coin_Valid (Toi_Coin m);
    _ ← Gas_Valid (MaxGas m);
    Ok tt.

Definition GetModuleName (toi : TxOutItem) : string :=
  if String.eqb (ModuleName toi) EmptyString then AsgardName else ModuleName toi.

Definition TxOutItem_Equals (m toi2 : TxOutItem) : bool :=
  if negb (Chain_Equals (Toi_Chain m) (Toi_Chain toi2)) then false
  else if negb (Address_Equals (Toi_ToAddress m) (Toi_ToAddress toi2)) then false
  else if negb (PubKey_Equals (Toi_VaultPubKey m) (Toi_VaultPubKey toi2)) then false
  else if negb (Coin_Equals (Toi_Coin m) (Toi_Coin toi2)) then false
  else if negb (TxID_Equals (InHash m) (InHash toi2)) then false
  else if negb (String.eqb (Toi_Memo m) (Toi_Memo toi2)) then false
  else if negb (GasRate m =? GasRate toi2) then false
  else true.

Record TxOut := mkTxOut {
  TxOut_Height : Z;
  TxArray : list TxOutItem;
}.

Definition NewTxOut (height : Z) : TxOut := mkTxOut height [].
Definition TxOut_IsEmpty (m : TxOut) : bool := (length (TxArray m) =? 0)%nat.
Definition TxOut_Valid (m : TxOut) : outcome unit := forM_check TxOutItem_Valid (TxArray m).
