(* ===== verification/Vaults.v ===== *)
(** [x/mayachain/types/type_vault.go], [type_vault_v2.go] and
    [type_chain_contract.go]: the vaults that hold the assets of the network. *)
From S2P Require Import Prelude GoText Sdk Shares Chains Keys Assets Coins Txs TxOuts.

(** ** Data *)

Record ChainContract := mkChainContract {
  Contract_Chain : Chain;
  Router : Address;
}.

#[export] Instance ChainContract_eq_dec : EqDecision ChainContract.
Proof. solve_decision. Defined.

Definition NewChainContract (chain : Chain) (router : Address) : ChainContract :=
  mkChainContract chain router.

Definition ChainContract_IsEmpty (m : ChainContract) : bool :=
  Chain_IsEmpty (Contract_Chain m) || Address_IsEmpty (Router m).

Definition ChainContract_String (m : ChainContract) : string :=
  (Contract_Chain m ++ "-" ++ Router m)%string.

Abbreviation VaultType := Z (only parsing).
Definition VaultType_UnknownVault : VaultType := 0.
Definition VaultType_AsgardVault : VaultType := 1.
Definition VaultType_YggdrasilVault : VaultType := 2.

Abbreviation VaultStatus := Z (only parsing).
Definition VaultStatus_InactiveVault : VaultStatus := 0.
Definition VaultStatus_ActiveVault : VaultStatus := 1.
Definition VaultStatus_RetiringVault : VaultStatus := 2.
Definition VaultStatus_InitVault : VaultStatus := 3.

Record Vault := mkVault {
  BlockHeight : Z;
  Vault_PubKey : PubKey;
  Vault_Coins : Coins;
  Vault_Type : VaultType;
  Vault_Status : VaultStatus;
  Vault_StatusSince : Z;
  Membership : list string;
  Vault_Chains : list string;
  InboundTxCount : Z;
  OutboundTxCount : Z;
  PendingTxBlockHeights : list Z;
  Routers : list ChainContract;
  Frozen : list string;
  PubKeyEddsa : PubKey;
}.

#[export] Instance Vault_eq_dec : EqDecision Vault.
Proof. solve_decision. Defined.

Abbreviation Vaults := (list Vault) (only parsing).

(** The zero value. *)
Definition zero_vault : Vault :=
  mkVault 0 EmptyPubKey [] VaultType_UnknownVault VaultStatus_InactiveVault 0 [] [] 0 0 [] [] []
    EmptyPubKey.

Definition NewVault (height : Z) (status : VaultStatus) (vtype : VaultType) (pk : PubKey)
    (chains : list string) (routers : list ChainContract) : Vault :=
  mkVault height pk [] vtype status height [] chains 0 0 [] routers [] EmptyPubKey.

Definition NewVaultV2 (height : Z) (status : VaultStatus) (vtype : VaultType) (ecdsaPubKey : PubKey)
    (chains : list string) (routers : list ChainContract) (eddsaPubKey : PubKey) : Vault :=
  mkVault height ecdsaPubKey [] vtype status height [] chains 0 0 [] routers [] eddsaPubKey.

Definition with_Coins (m : Vault) (cs : Coins) : Vault :=
  mkVault (BlockHeight m) (Vault_PubKey m) cs (Vault_Type m) (Vault_Status m) (Vault_StatusSince m)
    (Membership m) (Vault_Chains m) (InboundTxCount m) (OutboundTxCount m)
    (PendingTxBlockHeights m) (Routers m) (Frozen m) (PubKeyEddsa m).
Definition with_Chains (m : Vault) (chains : list string) : Vault :=
  mkVault (BlockHeight m) (Vault_PubKey m) (Vault_Coins m) (Vault_Type m) (Vault_Status m)
    (Vault_StatusSince m) (Membership m) chains (InboundTxCount m) (OutboundTxCount m)
    (PendingTxBlockHeights m) (Routers m) (Frozen m) (PubKeyEddsa m).
Definition with_Routers (m : Vault) (routers : list ChainContract) : Vault :=
  mkVault (BlockHeight m) (Vault_PubKey m) (Vault_Coins m) (Vault_Type m) (Vault_Status m)
    (Vault_StatusSince m) (Membership m) (Vault_Chains m) (InboundTxCount m) (OutboundTxCount m)
    (PendingTxBlockHeights m) routers (Frozen m) (PubKeyEddsa m).
Definition with_PendingTxBlockHeights (m : Vault) (heights : list Z) : Vault :=
  mkVault (BlockHeight m) (Vault_PubKey m) (Vault_Coins m) (Vault_Type m) (Vault_Status m)
    (Vault_StatusSince m) (Membership m) (Vault_Chains m) (InboundTxCount m) (OutboundTxCount m)
    heights (Routers m) (Frozen m) (PubKeyEddsa m).

Definition Vault_UpdateStatus (m : Vault) (s : VaultStatus) (height : Z) : Vault :=
  mkVault (BlockHeight m) (Vault_PubKey m) (Vault_Coins m) (Vault_Type m) s height
    (Membership m) (Vault_Chains m) (InboundTxCount m) (OutboundTxCount m)
    (PendingTxBlockHeights m) (Routers m) (Frozen m) (PubKeyEddsa m).

(** ** Status and members *)

Definition Vault_IsType (m : Vault) (vtype : VaultType) : bool := Vault_Type m =? vtype.
Definition IsAsgard (m : Vault) : bool := Vault_IsType m VaultType_AsgardVault.
Definition IsYggdrasil (m : Vault) : bool := Vault_IsType m VaultType_YggdrasilVault.
Definition Vault_IsActive (m : Vault) : bool := Vault_Status m =? VaultStatus_ActiveVault.
Definition IsRetiring (m : Vault) : bool := Vault_Status m =? VaultStatus_RetiringVault.
Definition Vault_IsEmpty (m : Vault) : bool := PubKey_IsEmpty (Vault_PubKey m).

Definition Vault_Valid (m : Vault) : outcome unit :=
  if PubKey_IsEmpty (Vault_PubKey m) then Err "pubkey cannot be empty" else Ok tt.

(** The chains that parse. *)
Definition GetChains (m : Vault) : list Chain :=
  omap (fun c => match NewChain c with Ok chain => Some chain | _ => None end) (Vault_Chains m).

Section members.
Context `{C : PubKeyCodec}.

Definition GetMembership (m : Vault) : PubKeys := parsed_pubkeys (Membership m).

Definition Vault_Contains (m : Vault) (pubkey : PubKey) : bool :=
  PubKeys_Contains (GetMembership m) pubkey.

Definition MembershipEquals (m : Vault) (pks : PubKeys) : bool :=
  if negb (length (Membership m) =? length pks)%nat then false
  else forallb (Vault_Contains m) pks.
End members.

(** ** Funds *)

Definition HasFunds (m : Vault) : bool :=
  existsb (fun coin => negb (IsBase (Coin_Asset coin)) && negb (Coin_Amount coin =? 0))
    (Vault_Coins m).

Definition HasFundsForChain (m : Vault) (chain : Chain) : bool :=
  existsb (fun coin => Chain_Equals (GetChain (Coin_Asset coin)) chain
                       && negb (Coin_Amount coin =? 0)) (Vault_Coins m).

Definition CoinLength (m : Vault) : Z :=
  Z.of_nat (length (List.filter (fun coin => negb (Coin_Amount coin =? 0)) (Vault_Coins m))).

Definition CoinLengthByChain (m : Vault) (c : Chain) : Z :=
  Z.of_nat (length (List.filter (fun coin => Chain_Equals (GetChain (Coin_Asset coin)) c
                                             && negb (Coin_Amount coin =? 0)) (Vault_Coins m))).

Definition Vault_GetCoin (m : Vault) (asset : Asset) : Coin :=
  match List.find (fun coin => Asset_Equals (Coin_Asset coin) asset) (Vault_Coins m) with
  | Some coin => coin
  | None => NewCoin asset 0
  end.

Definition HasAsset (m : Vault) (asset : Asset) : bool :=
  negb (Coin_Amount (Vault_GetCoin m asset) =? 0).

(** ** Routers *)

Definition GetContract (v : Vault) (chain : Chain) : ChainContract :=
  match List.find (fun item => Chain_Equals (Contract_Chain item) chain) (Routers v) with
  | Some item => item
  | None => mkChainContract EmptyChain NoAddress
  end.

(** Every contract of the chain is replaced; one is appended when there is none. *)
Definition UpdateContract (v : Vault) (chainContract : ChainContract) : Vault :=
  let same := fun item => Chain_Equals (Contract_Chain item) (Contract_Chain chainContract) in
  let routers := map (fun item => if same item then chainContract else item) (Routers v) in
  with_Routers v (if existsb same (Routers v) then routers else routers ++ [chainContract]).

(** ** Moving funds *)

Section funds.
Context `{U : SdkUint}.

Definition addFund (m : Vault) (coin : Coin) : outcome Vault :=
  r ← upd_first (fun ycoin => Asset_Equals (Coin_Asset ycoin) (Coin_Asset coin))
        (fun ycoin => amt ← uint_add (Coin_Amount ycoin) (Coin_Amount coin);
                      Ok (set_Amount ycoin amt)) (Vault_Coins m);
  match r with
  | Some cs => Ok (with_Coins m cs)
  | None =>
      let chain := GetChain (Coin_Asset coin) in
      let m := if negb (Chains_Has (GetChains m) chain)
               then with_Chains m (Vault_Chains m ++ [Chain_String chain]) else m in
      Ok (with_Coins m (Vault_Coins m ++ [coin]))
  end.

Definition AddFunds (m : Vault) (coins : Coins) : outcome Vault := foldM addFund m coins.

Definition subFund (m : Vault) (coin : Coin) : outcome Vault :=
  r ← upd_first (fun ycoin => Asset_Equals (Coin_Asset coin) (Coin_Asset ycoin))
        (fun ycoin => amt ← SafeSub (Coin_Amount ycoin) (Coin_Amount coin);
                      Ok (set_Amount ycoin amt)) (Vault_Coins m);
  match r with
  | Some cs => Ok (with_Coins m cs)
  | None => Ok m
  end.

Definition SubFunds (m : Vault) (coins : Coins) : outcome Vault := foldM subFund m coins.

(** One coin of the vault under an outstanding outbound transaction. Without gas
    the gas coin is a zero value, whose amount cannot be computed with. *)
Definition deduct_coin (item : TxOutItem) (gasCoin : option Coin) (c : Coin) : outcome Coin :=
  c ← (if Asset_Equals (Coin_Asset c) (Coin_Asset (Toi_Coin item)) then
         amt ← SafeSub (Coin_Amount c) (Coin_Amount (Toi_Coin item)); Ok (set_Amount c amt)
       else Ok c);
  match gasCoin with
  | Some g =>
      if Asset_Equals (Coin_Asset c) (Coin_Asset g) then
        amt ← SafeSub (Coin_Amount c) (Coin_Amount g); Ok (set_Amount c amt)
      else Ok c
  | None => if Asset_Equals (Coin_Asset c) EmptyAsset then Panic else Ok c
  end.

(** [for i := range m.Coins { ... }] *)
Fixpoint deduct_coins (item : TxOutItem) (gasCoin : option Coin) (cs : Coins) : outcome Coins :=
  match cs with
  | [] => Ok []
  | c :: cs' =>
      c' ← deduct_coin item gasCoin c;
      cs'' ← deduct_coins item gasCoin cs';
      Ok (c' :: cs'')
  end.

Definition outbound_gas (item : TxOutItem) : option Coin :=
  if negb (Gas_IsEmpty (MaxGas item))
  then Some (GetCoin (ToCoins (MaxGas item)) (GetGasAsset (Toi_Chain item)))
  else None.

(** One round of the loop over the outbound transactions. *)
Definition deduct_outbound (m : Vault) (item : TxOutItem) : outcome Vault :=
  if negb (PubKey_Equals (Toi_VaultPubKey item) (Vault_PubKey m)) then Ok m
  else if negb (TxID_IsEmpty (OutHash item)) then Ok m
  else
    cs ← deduct_coins item (outbound_gas item) (Vault_Coins m);
    Ok (with_Coins m cs).

Definition DeductVaultPendingOutbounds (m : Vault) (pendingOutbounds : list TxOutItem)
  : outcome Vault := foldM deduct_outbound m pendingOutbounds.
End funds.

(** ** Pending transactions *)

Definition AppendPendingTxBlockHeights (m : Vault) (blockHeight : Z) (constAccessor : string -> Z)
  : Vault :=
  with_PendingTxBlockHeights m
    (blockHeight :: List.filter (fun item =>
       i64 (blockHeight - item) <=? constAccessor "SigningTransactionPeriod")
       (PendingTxBlockHeights m)).

Definition RemovePendingTxBlockHeights (m : Vault) (blockHeight : Z) : Vault :=
  with_PendingTxBlockHeights m
    (remove_first (fun item => item =? blockHeight) (PendingTxBlockHeights m)).

Definition LenPendingTxBlockHeights (m : Vault) (currentBlockHeight maxBlocks : Z) : Z :=
  Z.of_nat (length (List.filter (fun item => i64 (currentBlockHeight - item) <=? maxBlocks)
                      (PendingTxBlockHeights m))).

(** ** Choosing a vault *)

Definition SortBy (vs : Vaults) (sortBy : Asset) : Vaults :=
  stable_sort (fun a b => Coin_Amount (Vault_GetCoin b sortBy) <? Coin_Amount (Vault_GetCoin a sortBy)) vs.

Definition Vaults_Has (vs : Vaults) (target : Coin) : Vaults :=
  List.filter (fun v => Coin_Amount target <=? Coin_Amount (Vault_GetCoin v (Coin_Asset target))) vs.

(** The loop replaces the choice while it is empty or worse. *)
Definition select_by (better : Z -> Z -> bool) (asset : Asset) (vs : Vaults) : Vault :=
  match vs with
  | [v] => v
  | _ =>
      foldl (fun vault v =>
        if Vault_IsEmpty vault
           || better (Coin_Amount (Vault_GetCoin v asset)) (Coin_Amount (Vault_GetCoin vault asset))
        then v else vault) zero_vault vs
  end.

Definition SelectByMinCoin (vs : Vaults) (asset : Asset) : Vault :=
  select_by (fun a b => a <? b) asset vs.

Definition SelectByMaxCoin (vs : Vaults) (asset : Asset) : Vault :=
  select_by (fun a b => b <? a) asset vs.

(** ** The ledger of a vault *)

Definition vault_amount (m : Vault) (a : Asset) : Z := Coin_Amount (Vault_GetCoin m a).

(** With one coin per asset, [GetCoin] reads the ledger. *)
Lemma vault_amount_of m a : distinct_assets (Vault_Coins m) -> vault_amount m a = amount_of a (Vault_Coins m).
Proof.
  unfold vault_amount, Vault_GetCoin. intros Hd.
  induction Hd as [|c cs Hc Hd IH]; [done|].
  cbn [List.find]. unfold amount_of in *. rewrite sumZ_cons, coin_of_unfold.
  destruct (Asset_Equals (Coin_Asset c) a) eqn:E.
  - fold (amount_of a cs). rewrite amount_of_absent; [lia|].
    eapply Forall_impl; [exact Hc|]. intros d Hcd. rewrite Asset_Equals_sym, <- Hcd.
    symmetry. by apply Asset_Equals_proper.
  - rewrite Z.add_0_l. exact IH.
Qed.

(** The chains of the coins are listed. *)
Definition chains_listed (m : Vault) : Prop :=
  Forall (fun c => Chains_Has (GetChains m) (GetChain (Coin_Asset c)) = true) (Vault_Coins m).

Definition vault_wf (m : Vault) : Prop := coins_wf (Vault_Coins m) /\ chains_listed m.

(** A coin the network can hold: an amount and a chain that parses. *)
Definition coin_ok (c : Coin) : Prop :=
  is_uint (Coin_Amount c) /\ Chain_Valid (GetChain (Coin_Asset c)) = Ok tt.

(** What moving funds leaves alone. *)
Definition same_vault (m m' : Vault) : Prop :=
  with_Chains (with_Coins m []) [] = with_Chains (with_Coins m' []) [].

#[export] Instance same_vault_equiv : Equivalence same_vault.
Proof. unfold same_vault. split; red; congruence. Qed.

Lemma same_with_Coins m cs : same_vault m (with_Coins m cs).
Proof. done. Qed.

Lemma same_with_Chains m cs : same_vault m (with_Chains m cs).
Proof. done. Qed.

Lemma GetChains_snoc m c :
  Chain_Valid c = Ok tt ->
  GetChains (with_Chains m (Vault_Chains m ++ [Chain_String c])) = GetChains m ++ [c].
Proof.
  intros Hc. unfold GetChains. cbn [Vault_Chains with_Chains].
  rewrite omap_app. cbn. unfold Chain_String.
  assert (Hu : ToUpper c = c) by (apply Chain_Valid_Ok in Hc as [_ ?]; by apply ToUpper_upper).
  by rewrite Hu, NewChain_fixed.
Qed.

Lemma Chains_Has_snoc l c d : Chains_Has l d = true -> Chains_Has (l ++ [c]) d = true.
Proof. unfold Chains_Has. rewrite existsb_app. by intros ->. Qed.

Lemma amount_of_nonneg a cs : Forall (fun c => is_uint (Coin_Amount c)) cs -> 0 <= amount_of a cs.
Proof.
  intros H. apply sumZ_nonneg. eapply Forall_impl; [exact H|]. intros c [Hc _].
  unfold coin_of. destruct (Asset_Equals _ _); lia.
Qed.

(** A coin of the list is at most the total of its asset. *)
Lemma amount_of_member cs c a :
  Forall (fun c => is_uint (Coin_Amount c)) cs -> In c cs -> Asset_Equals (Coin_Asset c) a = true ->
  Coin_Amount c <= amount_of a cs.
Proof.
  intros Hu Hc Ha. induction Hu as [|d cs Hd Hu IH]; [done|].
  unfold amount_of in *. rewrite sumZ_cons. fold (amount_of a cs) in *.
  pose proof (amount_of_nonneg a cs Hu). destruct Hc as [->|Hc].
  - unfold coin_of. rewrite Ha. lia.
  - apply IH in Hc. unfold coin_of, is_uint in *. destruct (Asset_Equals (Coin_Asset d) a); lia.
Qed.

(** Replacing an amount keeps the assets and the chains. *)
Lemma vault_wf_replace m l1 x l2 amt :
  Vault_Coins m = l1 ++ x :: l2 -> is_uint amt -> vault_wf m ->
  vault_wf (with_Coins m (l1 ++ set_Amount x amt :: l2)).
Proof.
  intros Hm Ha [[Hd Hu] Hch]. unfold vault_wf, coins_wf, chains_listed in *.
  cbn [Vault_Coins with_Coins] in *. rewrite Hm in *.
  apply Forall_app in Hu as [Hu1 Hu2]. apply Forall_cons in Hu2 as [_ Hu2].
  apply Forall_app in Hch as [Hc1 Hc2]. apply Forall_cons in Hc2 as [Hcx Hc2].
  split_and!; [by apply distinct_assets_replace with x| |].
  - apply Forall_app. split; [done|]. by constructor.
  - apply Forall_app. split; [done|]. by constructor.
Qed.

Lemma vault_wf_append m m' coin :
  vault_wf m -> Vault_Coins m' = Vault_Coins m -> distinct_assets (Vault_Coins m ++ [coin]) ->
  is_uint (Coin_Amount coin) ->
  (forall d, Chains_Has (GetChains m) d = true -> Chains_Has (GetChains m') d = true) ->
  Chains_Has (GetChains m') (GetChain (Coin_Asset coin)) = true ->
  vault_wf (with_Coins m' (Vault_Coins m' ++ [coin])).
Proof.
  intros [[_ Hu] Hl] -> Hd Hc Hmono Hhas. unfold vault_wf, coins_wf, chains_listed.
  cbn [Vault_Coins with_Coins]. split_and!; [done| |]; apply Forall_app; split.
  - done.
  - by constructor.
  - eapply Forall_impl; [exact Hl|]. intros c. apply Hmono.
  - by constructor.
Qed.

Section funds_facts.
Context {U : SdkUint} {UL : SdkUintLaws U}.

Lemma addFund_total m coin :
  vault_wf m -> coin_ok coin ->
  amount_of (Coin_Asset coin) (Vault_Coins m) + Coin_Amount coin < 2 ^ 256 ->
  exists m', addFund m coin = Ok m' /\ vault_wf m' /\ same_vault m m' /\
    forall a, amount_of a (Vault_Coins m') = amount_of a (Vault_Coins m) + coin_of a coin.
Proof.
  intros Hwf [Hc Hch] Hfit. destruct (Hwf) as [[Hd Hu] Hl].
  pose proof (Coins_Add_ledger (Vault_Coins m) coin) as Hledger. unfold Coins_Add in Hledger.
  unfold addFund. set (f := fun ycoin : Coin => _ ≫= _) in *.
  set (p := fun ycoin : Coin => Asset_Equals _ _) in *.
  destruct (upd_first_total p f (Vault_Coins m)) as [r Hr].
  { intros x Hx Ep. unfold f. pose proof (amount_of_member _ x _ Hu Hx Ep).
    rewrite Forall_forall in Hu. apply list_elem_of_In, Hu in Hx.
    rewrite uint_add_law, checked_in by (unfold is_uint in *; lia). by eexists. }
  rewrite Hr in *. cbn [mbind outcome_bind] in *. destruct r as [cs|].
  - exists (with_Coins m cs). destruct (Hledger cs Hd eq_refl) as [_ Ha].
    apply upd_first_Some in Hr as (l1 & x & l2 & x' & Hm & _ & _ & Hf & ->).
    apply bind_Ok in Hf as (amt & [-> Hamt]%uint_add_Ok & [= <-]).
    split_and!; [done|by apply vault_wf_replace|done|done].
  - destruct (Hledger (Vault_Coins m ++ [coin]) Hd eq_refl) as [Hd' Ha].
    cbv zeta. set (chain := GetChain (Coin_Asset coin)) in *.
    destruct (Chains_Has (GetChains m) chain) eqn:E; cbn [negb]; eexists;
      (split; [reflexivity|]); (split; [|by split]).
    + by apply (vault_wf_append m).
    + apply (vault_wf_append m); try done; rewrite GetChains_snoc by done.
      * intros d. apply Chains_Has_snoc.
      * unfold Chains_Has. rewrite existsb_app. cbn [existsb].
        by rewrite (proj2 (Chain_Equals_spec _ _) eq_refl), orb_true_r.
Qed.

Lemma AddFunds_total cs m :
  vault_wf m -> Forall coin_ok cs ->
  (forall a, amount_of a (Vault_Coins m) + amount_of a cs < 2 ^ 256) ->
  exists m', AddFunds m cs = Ok m' /\ vault_wf m' /\ same_vault m m' /\
    forall a, amount_of a (Vault_Coins m') = amount_of a (Vault_Coins m) + amount_of a cs.
Proof.
  intros Hwf Hok. revert m Hwf.
  induction Hok as [|c cs Hc Hcs IH]; intros m Hwf Hfit.
  { exists m. split_and!; [done..|]. intros a. unfold amount_of at 3, sumZ. cbn. lia. }
  assert (Hu : Forall (fun c => is_uint (Coin_Amount c)) cs)
    by (eapply Forall_impl; [exact Hcs|]; by intros ? []).
  assert (Hcons : forall a, amount_of a (c :: cs) = coin_of a c + amount_of a cs) by done.
  destruct (addFund_total m c) as (m1 & Hm1 & Hwf1 & Hs1 & Ha1); [done..| |].
  { specialize (Hfit (Coin_Asset c)). rewrite Hcons in Hfit. unfold coin_of in Hfit at 1.
    rewrite Asset_Equals_refl in Hfit. pose proof (amount_of_nonneg (Coin_Asset c) cs Hu). lia. }
  destruct (IH m1 Hwf1) as (m2 & Hm2 & Hwf2 & Hs2 & Ha2).
  { intros a. rewrite Ha1. specialize (Hfit a). rewrite Hcons in Hfit. lia. }
  exists m2. unfold AddFunds in *. cbn [foldM]. rewrite Hm1. cbn [mbind outcome_bind].
  split_and!; [done|done|by etrans|]. intros a. rewrite Ha2, Ha1, Hcons. lia.
Qed.

Lemma subFund_total m coin :
  vault_wf m -> is_uint (Coin_Amount coin) ->
  exists m', subFund m coin = Ok m' /\ vault_wf m' /\ same_vault m m' /\
    Vault_Chains m' = Vault_Chains m /\
    forall a, amount_of a (Vault_Coins m') = Z.max 0 (amount_of a (Vault_Coins m) - coin_of a coin).
Proof.
  intros Hwf Hc. destruct (Hwf) as [Hcwf Hl].
  pose proof (Coins_SafeSub_ledger (Vault_Coins m) coin) as Hledger. unfold Coins_SafeSub in Hledger.
  unfold subFund. set (f := fun ycoin : Coin => _ ≫= _) in *.
  rewrite (upd_first_ext _ (fun c => Asset_Equals (Coin_Asset c) (Coin_Asset coin)))
    by (intros; apply Asset_Equals_sym).
  destruct (upd_first_total (fun c => Asset_Equals (Coin_Asset c) (Coin_Asset coin)) f (Vault_Coins m))
    as [r Hr].
  { intros x Hx _. unfold f. destruct Hcwf as [_ Hu]. rewrite Forall_forall in Hu.
    rewrite SafeSub_total by (done || by apply Hu, list_elem_of_In). by eexists. }
  rewrite Hr in *. cbn [mbind outcome_bind] in *.
  assert (Hmax : forall cs a, Forall (fun c => is_uint (Coin_Amount c)) cs ->
    (if Asset_Equals (Coin_Asset coin) a then Z.max 0 (amount_of a cs - Coin_Amount coin)
     else amount_of a cs) = Z.max 0 (amount_of a cs - coin_of a coin)).
  { intros cs a Hu. pose proof (amount_of_nonneg a cs Hu). unfold coin_of.
    destruct (Asset_Equals (Coin_Asset coin) a); lia. }
  destruct r as [cs|].
  - exists (with_Coins m cs). destruct (Hledger cs Hcwf Hc eq_refl) as [_ Ha].
    apply upd_first_Some in Hr as (l1 & x & l2 & x' & Hm & _ & _ & Hf & ->).
    apply bind_Ok in Hf as (amt & Hamt & [= <-]).
    assert (Hx : is_uint (Coin_Amount x)).
    { destruct Hcwf as [_ Hu]. rewrite Hm in Hu. apply Forall_app in Hu as [_ Hu].
      by inversion Hu. }
    apply SafeSub_Ok in Hamt; [|done..].
    split_and!; [done|apply vault_wf_replace; [done| |done]|done|done|].
    + subst amt. unfold is_uint in *. lia.
    + intros a. cbn [Vault_Coins with_Coins]. rewrite Ha. apply Hmax, Hcwf.
  - exists m. destruct (Hledger (Vault_Coins m) Hcwf Hc eq_refl) as [_ Ha].
    split_and!; [done..|]. intros a. rewrite Ha at 1. apply Hmax, Hcwf.
Qed.

Lemma SubFunds_total cs m :
  vault_wf m -> Forall (fun c => is_uint (Coin_Amount c)) cs ->
  exists m', SubFunds m cs = Ok m' /\ vault_wf m' /\ same_vault m m' /\
    Vault_Chains m' = Vault_Chains m /\
    forall a, amount_of a (Vault_Coins m') = Z.max 0 (amount_of a (Vault_Coins m) - amount_of a cs).
Proof.
  intros Hwf Hu. revert m Hwf. induction Hu as [|c cs Hc Hu IH]; intros m Hwf.
  { exists m. split_and!; [done..|]. intros a.
    pose proof (amount_of_nonneg a (Vault_Coins m) (proj2 (proj1 Hwf))).
    change (amount_of a []) with 0. lia. }
  destruct (subFund_total m c Hwf Hc) as (m1 & Hm1 & Hwf1 & Hs1 & Hc1 & Ha1).
  destruct (IH m1 Hwf1) as (m2 & Hm2 & Hwf2 & Hs2 & Hc2 & Ha2).
  exists m2. unfold SubFunds in *. cbn [foldM]. rewrite Hm1. cbn [mbind outcome_bind].
  split_and!; [done|done|by etrans|congruence|]. intros a. rewrite Ha2, Ha1.
  change (amount_of a (c :: cs)) with (coin_of a c + amount_of a cs).
  assert (0 <= coin_of a c) by (unfold coin_of, is_uint in *; destruct (Asset_Equals _ _); lia).
  pose proof (amount_of_nonneg a cs Hu). lia.
Qed.

(** A vault implements a map from assets to amounts. Adding coins never
    panics below 2^256 and raises every asset by the total of its coins;
    subtracting coins lowers every asset by their total, down to zero. The vault
    keeps one coin per asset and lists the chain of every coin, and nothing else
    changes. *)
Theorem funds_refine_map m added removed :
  vault_wf m -> Forall coin_ok added -> Forall (fun c => is_uint (Coin_Amount c)) removed ->
  (forall a, amount_of a (Vault_Coins m) + amount_of a added < 2 ^ 256) ->
  exists m1 m2, AddFunds m added = Ok m1 /\ SubFunds m1 removed = Ok m2 /\
    vault_wf m1 /\ vault_wf m2 /\ same_vault m m1 /\ same_vault m m2 /\
    forall a, vault_amount m1 a = vault_amount m a + amount_of a added /\
      vault_amount m2 a = Z.max 0 (vault_amount m a + amount_of a added - amount_of a removed).
Proof.
  intros Hwf Hadd Hrem Hfit.
  destruct (AddFunds_total added m) as (m1 & Hm1 & Hwf1 & Hs1 & Ha1); [done..|].
  destruct (SubFunds_total removed m1) as (m2 & Hm2 & Hwf2 & Hs2 & _ & Ha2); [done..|].
  exists m1, m2. split_and!; [done..|by etrans|]. intros a.
  rewrite (vault_amount_of m), (vault_amount_of m1), (vault_amount_of m2)
    by (by apply Hwf || apply Hwf1 || apply Hwf2).
  by rewrite Ha2, Ha1.
Qed.
End funds_facts.

(** ** Outstanding outbound transactions *)

(** What an outbound transaction takes from a vault: its coin and its gas while it
    is outstanding, and nothing from another vault. *)
Definition owed (m : Vault) (a : Asset) (item : TxOutItem) : Z :=
  if PubKey_Equals (Toi_VaultPubKey item) (Vault_PubKey m) && TxID_IsEmpty (OutHash item)
  then coin_of a (Toi_Coin item) + match outbound_gas item with Some g => coin_of a g | None => 0 end
  else 0.

Definition outbound_ok (item : TxOutItem) : Prop :=
  is_uint (Coin_Amount (Toi_Coin item)) /\
  Forall (fun c => is_uint (Coin_Amount c)) (MaxGas item).

Lemma outbound_gas_uint item g :
  outbound_ok item -> outbound_gas item = Some g -> is_uint (Coin_Amount g).
Proof.
  intros [_ Hg] H. unfold outbound_gas in H. destruct (negb _); [|done]. injection H as <-.
  unfold GetCoin. destruct (List.find _ _) as [c|] eqn:E; [|by split].
  apply find_some in E as [E _]. unfold ToCoins in E. apply in_map_iff in E as (d & <- & Hd).
  rewrite Forall_forall in Hg. cbn. by apply Hg, list_elem_of_In.
Qed.

Section outbounds.
Context {U : SdkUint} {UL : SdkUintLaws U}.

(** A vault's coins with every amount lowered. *)
Definition lowered (owe : Asset -> Z) (c c' : Coin) : Prop :=
  Coin_Asset c' = Coin_Asset c /\ Coin_Amount c' = Z.max 0 (Coin_Amount c - owe (Coin_Asset c)).

Definition real_coin (c : Coin) : Prop :=
  is_uint (Coin_Amount c) /\ Asset_Equals (Coin_Asset c) EmptyAsset = false.

Lemma coin_of_sym a c : coin_of a c = if Asset_Equals a (Coin_Asset c) then Coin_Amount c else 0.
Proof. unfold coin_of. by rewrite Asset_Equals_sym. Qed.

Lemma deduct_coin_total item c :
  outbound_ok item -> real_coin c ->
  exists c', deduct_coin item (outbound_gas item) c = Ok c' /\
    lowered (fun a => coin_of a (Toi_Coin item) +
               match outbound_gas item with Some g => coin_of a g | None => 0 end) c c'.
Proof.
  intros Hok [Hc He]. pose proof (outbound_gas_uint item) as Hg. destruct (Hok) as [Hi _].
  unfold deduct_coin, lowered. rewrite coin_of_sym.
  assert (H1 : (if Asset_Equals (Coin_Asset c) (Coin_Asset (Toi_Coin item))
                then amt ← SafeSub (Coin_Amount c) (Coin_Amount (Toi_Coin item)); Ok (set_Amount c amt)
                else Ok c) =
    Ok (set_Amount c (Z.max 0 (Coin_Amount c -
          if Asset_Equals (Coin_Asset c) (Coin_Asset (Toi_Coin item))
          then Coin_Amount (Toi_Coin item) else 0)))).
  { destruct (Asset_Equals (Coin_Asset c) (Coin_Asset (Toi_Coin item))); [by rewrite SafeSub_total|].
    rewrite Z.max_r, Z.sub_0_r by (unfold is_uint in *; lia). by destruct c. }
  rewrite H1. cbn [mbind outcome_bind Coin_Asset set_Amount]. clear H1.
  set (x := if Asset_Equals (Coin_Asset c) (Coin_Asset (Toi_Coin item)) then _ else _).
  assert (Hx : 0 <= x) by (unfold x, is_uint in *;
    destruct (Asset_Equals (Coin_Asset c) (Coin_Asset (Toi_Coin item))); lia).
  destruct (outbound_gas item) as [g|].
  - specialize (Hg g Hok eq_refl). rewrite (coin_of_sym _ g).
    destruct (Asset_Equals (Coin_Asset c) (Coin_Asset g)).
    + rewrite SafeSub_total by (cbn; unfold is_uint in *; lia). eexists.
      split; [reflexivity|]. cbn. unfold is_uint in *. split; [done|lia].
    + eexists. split; [reflexivity|]. cbn. split; [done|lia].
  - rewrite He. eexists. split; [reflexivity|]. cbn. split; [done|lia].
Qed.

Lemma deduct_coins_total item cs :
  outbound_ok item -> Forall real_coin cs ->
  exists cs', deduct_coins item (outbound_gas item) cs = Ok cs' /\
    Forall2 (lowered (fun a => coin_of a (Toi_Coin item) +
               match outbound_gas item with Some g => coin_of a g | None => 0 end)) cs cs'.
Proof.
  intros Hok. induction 1 as [|c cs Hc _ (cs' & IH & Hl)]; cbn [deduct_coins]; [by exists []|].
  destruct (deduct_coin_total item c Hok Hc) as (c' & -> & Hc').
  cbn [mbind outcome_bind]. rewrite IH. exists (c' :: cs'). by split; [|constructor].
Qed.

Lemma lowered_zero owe cs cs' :
  Forall2 (lowered owe) cs cs' -> map Coin_Asset cs' = map Coin_Asset cs.
Proof. induction 1 as [|c c' l l' [Ha _] _ IH]; cbn; [done|]. by rewrite Ha, IH. Qed.

Lemma lowered_real owe cs cs' :
  (forall a, 0 <= owe a) -> Forall2 (lowered owe) cs cs' -> Forall real_coin cs ->
  Forall real_coin cs'.
Proof.
  intros Ho. induction 1 as [|c c' l l' [Ha Hc] _ IH]; intros HF; [done|].
  apply Forall_cons in HF as [[? ?] HF]. constructor; [|by apply IH]. unfold real_coin.
  rewrite Ha, Hc. specialize (Ho (Coin_Asset c)). unfold is_uint in *. split; [lia|done].
Qed.

Lemma vault_amount_lowered owe m cs' a :
  (forall b, Asset_Equals b a = true -> owe b = owe a) -> 0 <= owe a ->
  Forall2 (lowered owe) (Vault_Coins m) cs' ->
  vault_amount (with_Coins m cs') a = Z.max 0 (vault_amount m a - owe a).
Proof.
  intros Hp Ho H. unfold vault_amount, Vault_GetCoin. cbn [Vault_Coins with_Coins].
  induction H as [|c c' l l' [Ha Hc] _ IH]; cbn [List.find]; [cbn; lia|].
  rewrite Ha. destruct (Asset_Equals (Coin_Asset c) a) eqn:E; [|exact IH].
  rewrite Hc. by rewrite (Hp _ E).
Qed.

Lemma owed_nonneg m a item : outbound_ok item -> 0 <= owed m a item.
Proof.
  intros Hok. pose proof (outbound_gas_uint item) as Hg. destruct (Hok) as [Hi _].
  unfold owed. destruct (_ && _); [|done].
  assert (forall c, is_uint (Coin_Amount c) -> 0 <= coin_of a c)
    by (intros c ?; unfold coin_of, is_uint in *; destruct (Asset_Equals _ _); lia).
  destruct (outbound_gas item) as [g|].
  - specialize (Hg g Hok eq_refl). pose proof (H _ Hi). pose proof (H _ Hg). lia.
  - pose proof (H _ Hi). lia.
Qed.

Lemma owed_same m m' a item : same_vault m m' -> owed m' a item = owed m a item.
Proof. unfold same_vault, owed. by intros [= _ -> _]. Qed.

(** What a deduction of [o a] of every asset [a] leaves. *)
Definition deducted (m m' : Vault) (o : Asset -> Z) : Prop :=
  same_vault m m' /\ Vault_Chains m' = Vault_Chains m /\
  map Coin_Asset (Vault_Coins m') = map Coin_Asset (Vault_Coins m) /\
  forall a, vault_amount m' a = Z.max 0 (vault_amount m a - o a).

Lemma deducted_nothing m o :
  Forall real_coin (Vault_Coins m) -> (forall a, o a = 0) -> deducted m m o.
Proof.
  intros Hr Ho. unfold deducted. split_and!; [done..|]. intros a. rewrite Ho.
  unfold vault_amount, Vault_GetCoin. destruct (List.find _ _) as [c|] eqn:E; [|done].
  apply find_some in E as [E _]. rewrite Forall_forall in Hr.
  apply list_elem_of_In, Hr in E as [[? _] _]. lia.
Qed.

Lemma deduct_outbound_total item m :
  Forall real_coin (Vault_Coins m) -> outbound_ok item ->
  exists m', deduct_outbound m item = Ok m' /\ Forall real_coin (Vault_Coins m') /\
    deducted m m' (fun a => owed m a item).
Proof.
  intros Hr Hi. unfold deduct_outbound.
  destruct (PubKey_Equals _ _) eqn:Epk; cbn [negb];
    [|exists m; split_and!; [done..|apply deducted_nothing; [done|]; intros a; unfold owed; by rewrite Epk]].
  destruct (TxID_IsEmpty _) eqn:Eout; cbn [negb];
    [|exists m; split_and!; [done..|apply deducted_nothing; [done|]; intros a; unfold owed; by rewrite Epk, Eout]].
  destruct (deduct_coins_total item (Vault_Coins m) Hi Hr) as (cs & -> & Hcs).
  cbn [mbind outcome_bind]. set (owe := fun a => _) in Hcs.
  assert (Howe : forall a, owed m a item = owe a) by (intros a; unfold owed; by rewrite Epk, Eout).
  assert (Hpos : forall a, 0 <= owe a) by (intros a; rewrite <- Howe; by apply owed_nonneg).
  exists (with_Coins m cs). unfold deducted. split_and!; [done|by eapply lowered_real|done|done| |].
  - by eapply lowered_zero.
  - intros a. rewrite Howe. apply vault_amount_lowered; [|done..].
    intros b Hb. unfold owe. rewrite (coin_of_proper b a) by done.
    destruct (outbound_gas item); [|done]. by rewrite (coin_of_proper b a).
Qed.

(** Deducting pending outbounds never panics on a vault of real assets, and
    lowers every asset, down to zero, by the coins and the gas of the
    transactions of this vault that are still outstanding; transactions of other
    vaults, or that were sent, cost nothing. *)
Theorem DeductVaultPendingOutbounds_spec items m :
  Forall real_coin (Vault_Coins m) -> Forall outbound_ok items ->
  exists m', DeductVaultPendingOutbounds m items = Ok m' /\ same_vault m m' /\
    Vault_Chains m' = Vault_Chains m /\
    map Coin_Asset (Vault_Coins m') = map Coin_Asset (Vault_Coins m) /\
    forall a, vault_amount m' a = Z.max 0 (vault_amount m a - sumZ (owed m a) items).
Proof.
  intros Hr Hok. revert m Hr. induction Hok as [|item items Hi Hok IH]; intros m Hr.
  { exists m. split; [done|]. by apply (deducted_nothing m (fun _ => 0)). }
  destruct (deduct_outbound_total item m Hr Hi) as (m1 & Hm1 & Hr1 & Hs1 & Hc1 & Hl1 & Ha1).
  destruct (IH m1 Hr1) as (m2 & Hm2 & Hs2 & Hc2 & Hl2 & Ha2).
  exists m2. unfold DeductVaultPendingOutbounds in *. cbn [foldM]. rewrite Hm1.
  split_and!; [exact Hm2|by etrans|congruence|congruence|]. intros a.
  rewrite sumZ_cons, Ha2, Ha1.
  assert (Hsum : sumZ (owed m1 a) items = sumZ (owed m a) items).
  { unfold sumZ. clear -Hs1. induction items as [|i items IH]; cbn; [done|].
    by rewrite IH, (owed_same m m1). }
  assert (0 <= sumZ (owed m a) items).
  { apply sumZ_nonneg. eapply Forall_impl; [exact Hok|]. intros ?. apply owed_nonneg. }
  pose proof (owed_nonneg m a item Hi). lia.
Qed.
End outbounds.

(** ** Choosing a vault *)

(** The loops keep the first vault with the largest key. *)
Definition first_largest (key : Vault -> Z) (vs : Vaults) (v : Vault) : Prop :=
  exists l1 l2, vs = l1 ++ v :: l2 /\
    Forall (fun u => key u < key v) l1 /\ Forall (fun u => key u <= key v) l2.

Lemma pick_largest (key : Vault -> Z) vs seen v0 :
  Forall (fun v => Vault_IsEmpty v = false) (v0 :: vs) -> first_largest key seen v0 ->
  first_largest key (seen ++ vs)
    (foldl (fun vault v => if Vault_IsEmpty vault || (key vault <? key v) then v else vault) v0 vs).
Proof.
  revert seen v0. induction vs as [|u vs IH]; intros seen v0 He Hs.
  { by rewrite app_nil_r. }
  apply Forall_cons in He as [He0 He]. cbn [foldl]. rewrite He0. cbn [orb].
  rewrite (cons_middle u seen vs), app_assoc.
  destruct Hs as (l1 & l2 & -> & H1 & H2). destruct (Z.ltb_spec (key v0) (key u)) as [Hlt|Hge].
  - apply IH; [done|]. exists (l1 ++ v0 :: l2), []. split_and!; [done| |done].
    apply Forall_app. split; [|constructor; [done|]];
      (eapply Forall_impl; [eassumption|]); cbn; lia.
  - apply IH; [constructor; [done|by inversion He]|].
    exists l1, (l2 ++ [u]). split_and!; [by rewrite <- app_assoc|done|].
    apply Forall_app. split; [done|by repeat constructor].
Qed.

Lemma select_by_largest (key : Vault -> Z) (better : Z -> Z -> bool) asset vs :
  (forall u v, better (vault_amount v asset) (vault_amount u asset) = (key u <? key v)) ->
  vs <> [] -> Forall (fun v => Vault_IsEmpty v = false) vs ->
  first_largest key vs (select_by better asset vs).
Proof.
  intros Hb Hne He. unfold select_by. fold vault_amount.
  assert (Hf : forall l v0, foldl (fun vault v => if Vault_IsEmpty vault ||
      better (vault_amount v asset) (vault_amount vault asset) then v else vault) v0 l =
    foldl (fun vault v => if Vault_IsEmpty vault || (key vault <? key v) then v else vault) v0 l).
  { intros l. induction l as [|u l IH]; intros v0; cbn; [done|]. by rewrite IH, Hb. }
  destruct vs as [|v0 [|v1 vs]]; [done|by exists [], []|].
  rewrite (Hf (v0 :: v1 :: vs)). cbn [foldl]. change (Vault_IsEmpty zero_vault) with true.
  cbn [orb]. apply (pick_largest key (v1 :: vs) [v0] v0 He). by exists [], [].
Qed.

(** Among vaults with a key, the selection by the most of an asset returns the
    first vault that holds the largest amount, and the selection by the least
    the first that holds the smallest. *)
Theorem select_spec vs asset :
  vs <> [] -> Forall (fun v => Vault_IsEmpty v = false) vs ->
  (exists l1 l2, vs = l1 ++ SelectByMaxCoin vs asset :: l2 /\
    Forall (fun u => vault_amount u asset < vault_amount (SelectByMaxCoin vs asset) asset) l1 /\
    Forall (fun u => vault_amount u asset <= vault_amount (SelectByMaxCoin vs asset) asset) l2) /\
  (exists l1 l2, vs = l1 ++ SelectByMinCoin vs asset :: l2 /\
    Forall (fun u => vault_amount (SelectByMinCoin vs asset) asset < vault_amount u asset) l1 /\
    Forall (fun u => vault_amount (SelectByMinCoin vs asset) asset <= vault_amount u asset) l2).
Proof.
  intros Hne He. split.
  - by apply (select_by_largest (fun v => vault_amount v asset)).
  - destruct (select_by_largest (fun v => - vault_amount v asset) (fun a b => a <? b) asset vs)
      as (l1 & l2 & Hvs & H1 & H2); [|done|done|].
    + intros u v. apply eq_true_iff_eq. rewrite !Z.ltb_lt. lia.
    + exists l1, l2. fold (SelectByMinCoin vs asset) in *.
      split_and!; [done| |]; (eapply Forall_impl; [eassumption|]); cbn; lia.
Qed.

(** ** Membership *)

Section membership.
Context {C : PubKeyCodec}.

Lemma Vault_Contains_spec m pk :
  Vault_Contains m pk = true <-> pk ∈ GetMembership m.
Proof.
  unfold Vault_Contains, PubKeys_Contains. rewrite existsb_exists, list_elem_of_In. split.
  - by intros (x & Hx & <-%PubKey_Equals_spec).
  - intros Hx. exists pk. split; [done|]. by apply PubKey_Equals_spec.
Qed.

Lemma GetMembership_valid m :
  Forall (fun pk => pubkey_decodes pk = true) (Membership m) -> GetMembership m = Membership m.
Proof.
  unfold GetMembership, parsed_pubkeys. induction 1 as [|pk l Hpk _ IH]; cbn; [done|].
  unfold NewPubKey at 1. rewrite Hpk. cbn [negb]. destruct (Z.eqb_spec (str_len pk) 0) as [E|E].
  - rewrite IH. f_equal. unfold str_len in E. destruct pk; [done|cbn in E; lia].
  - by rewrite IH.
Qed.

(** On distinct keys and a membership that parses, [MembershipEquals] decides
    whether the two are the same set. Without distinct keys it does not: a list
    that repeats one member is accepted in place of the whole membership. *)
Theorem MembershipEquals_spec m :
  Forall (fun pk => pubkey_decodes pk = true) (Membership m) ->
  (forall pks, NoDup pks -> MembershipEquals m pks = true <-> Permutation pks (Membership m)) /\
  (forall pk, pk ∈ Membership m -> MembershipEquals m (repeat pk (length (Membership m))) = true).
Proof.
  intros Hv. unfold MembershipEquals. split.
  - intros pks Hd. destruct (Nat.eqb_spec (length (Membership m)) (length pks)) as [Hl|Hl]; cbn [negb].
    2:{ split; [done|]. by intros ?%Permutation_length. }
    rewrite forallb_forall. setoid_rewrite Vault_Contains_spec.
    rewrite (GetMembership_valid m Hv). split.
    + intros Hin. apply submseteq_length_Permutation; [|lia].
      apply NoDup_submseteq; [done|]. intros x Hx. by apply Hin, list_elem_of_In.
    + intros Hp x Hx. rewrite <- Hp. by apply list_elem_of_In.
  - intros pk Hpk. rewrite repeat_length, Nat.eqb_refl. cbn [negb].
    apply forallb_forall. intros x ->%repeat_spec. apply Vault_Contains_spec.
    by rewrite GetMembership_valid.
Qed.
End membership.

(** ** Witnesses *)

Section vault_witnesses.
Import Reference.

Definition vault_example (pk : PubKey) (btc eth : Z) : Vault :=
  with_Coins (NewVault 10 VaultStatus_ActiveVault VaultType_AsgardVault pk ["BTC"; "ETH"] [])
    [NewCoin BTCAsset btc; NewCoin ETHAsset eth].

Lemma vault_example_wf : vault_wf (vault_example "pk" 100 50).
Proof.
  split; [split|].
  - repeat constructor.
  - by repeat apply Forall_cons_2.
  - by repeat apply Forall_cons_2.
Qed.

Lemma funds_refine_map_witness :
  exists m1 m2, AddFunds (vault_example "pk" 100 50) [NewCoin AVAXAsset 7; NewCoin BTCAsset 5] = Ok m1 /\
    SubFunds m1 [NewCoin ETHAsset 80] = Ok m2 /\
    vault_wf m1 /\ vault_wf m2 /\ same_vault (vault_example "pk" 100 50) m1 /\
    same_vault (vault_example "pk" 100 50) m2 /\
    forall a, vault_amount m1 a = vault_amount (vault_example "pk" 100 50) a +
        amount_of a [NewCoin AVAXAsset 7; NewCoin BTCAsset 5] /\
      vault_amount m2 a = Z.max 0 (vault_amount (vault_example "pk" 100 50) a +
        amount_of a [NewCoin AVAXAsset 7; NewCoin BTCAsset 5] - amount_of a [NewCoin ETHAsset 80]).
Proof.
  apply (funds_refine_map (vault_example "pk" 100 50) [NewCoin AVAXAsset 7; NewCoin BTCAsset 5]
           [NewCoin ETHAsset 80]).
  - apply vault_example_wf.
  - repeat constructor; by vm_compute.
  - by repeat constructor.
  - intros a. unfold amount_of, sumZ, coin_of. cbn -[Asset_Equals Z.add].
    destruct (Asset_Equals BTCAsset a), (Asset_Equals ETHAsset a), (Asset_Equals AVAXAsset a); lia.
Defined.

Definition vault_outbound (pk : PubKey) (out : TxID) : TxOutItem :=
  mkTxOutItem BTCChain "bc1" pk (NewCoin BTCAsset 30) EmptyString [NewCoin BTCAsset 5] 1 "IN" out
    "asgard" EmptyString EmptyString None EmptyString.

Lemma DeductVaultPendingOutbounds_spec_witness :
  exists m', DeductVaultPendingOutbounds (vault_example "pk" 100 50)
      [vault_outbound "pk" EmptyString; vault_outbound "pk" "OUT"; vault_outbound "other" EmptyString] = Ok m' /\
    same_vault (vault_example "pk" 100 50) m' /\
    Vault_Chains m' = Vault_Chains (vault_example "pk" 100 50) /\
    map Coin_Asset (Vault_Coins m') = [BTCAsset; ETHAsset] /\
    forall a, vault_amount m' a = Z.max 0 (vault_amount (vault_example "pk" 100 50) a -
      sumZ (owed (vault_example "pk" 100 50) a)
        [vault_outbound "pk" EmptyString; vault_outbound "pk" "OUT"; vault_outbound "other" EmptyString]).
Proof.
  apply (DeductVaultPendingOutbounds_spec
    [vault_outbound "pk" EmptyString; vault_outbound "pk" "OUT"; vault_outbound "other" EmptyString]
    (vault_example "pk" 100 50)); by repeat constructor.
Defined.

Lemma select_spec_witness :
  let vs := [vault_example "a" 5 1; vault_example "b" 9 1; vault_example "c" 9 0] in
  SelectByMaxCoin vs BTCAsset = vault_example "b" 9 1 /\
  (exists l1 l2, vs = l1 ++ SelectByMaxCoin vs BTCAsset :: l2 /\
    Forall (fun u => vault_amount u BTCAsset < vault_amount (SelectByMaxCoin vs BTCAsset) BTCAsset) l1 /\
    Forall (fun u => vault_amount u BTCAsset <= vault_amount (SelectByMaxCoin vs BTCAsset) BTCAsset) l2) /\
  (exists l1 l2, vs = l1 ++ SelectByMinCoin vs BTCAsset :: l2 /\
    Forall (fun u => vault_amount (SelectByMinCoin vs BTCAsset) BTCAsset < vault_amount u BTCAsset) l1 /\
    Forall (fun u => vault_amount (SelectByMinCoin vs BTCAsset) BTCAsset <= vault_amount u BTCAsset) l2).
Proof.
  cbv zeta. split; [by vm_compute|].
  apply (select_spec [vault_example "a" 5 1; vault_example "b" 9 1; vault_example "c" 9 0] BTCAsset);
    [done|by repeat constructor].
Defined.

#[local] Instance vault_codec : PubKeyCodec := {| pubkey_decodes s := negb (String.eqb s "bad") |}.

Definition member_vault : Vault :=
  mkVault 10 "pk" [] VaultType_AsgardVault VaultStatus_ActiveVault 10 ["a"; "b"; "c"] [] 0 0 [] [] []
    EmptyPubKey.

Lemma MembershipEquals_spec_witness :
  MembershipEquals member_vault ["a"; "a"; "a"] = true /\
  MembershipEquals member_vault ["b"; "c"; "d"] = false /\
  (forall pks, NoDup pks -> MembershipEquals member_vault pks = true <-> Permutation pks ["a"; "b"; "c"]) /\
  (forall pk, pk ∈ ["a"; "b"; "c"] -> MembershipEquals member_vault (repeat pk 3) = true).
Proof.
  split; [by vm_compute|]. split; [by vm_compute|].
  apply (MembershipEquals_spec member_vault). by repeat apply Forall_cons_2.
Defined.
End vault_witnesses.
