(* ===== verification/ObservedTxs.v ===== *)
(** [x/mayachain/types/type_observed_tx.go]: what the nodes observe on the other
    chains, the voter that collects their observations of one transaction, and
    the outbound transactions that answer it.

    Comparing transactions may leave their coins and gas in another order
    ([Txs.Tx_EqualsEx]); that order is not read by anything below, and the
    voters keep the order in which coins and gas arrived. *)
From S2P Require Import Prelude GoText Sdk Chains Keys Assets Coins Txs NodeAccounts Votes TxOuts.

(** ** Data *)

Inductive Status := Status_incomplete | Status_done | Status_reverted.

#[export] Instance Status_eq_dec : EqDecision Status.
Proof. solve_decision. Defined.

Record ObservedTx := mkObservedTx {
  Obs_Tx : Tx;
  Obs_Status : Status;
  OutHashes : list string;
  BlockHeight : Z;
  Obs_Signers : list string;
  ObservedPubKey : PubKey;
  KeysignMs : Z;
  FinaliseHeight : Z;
  Aggregator : string;
  AggregatorTarget : string;
  AggregatorTargetLimit : option Z;
}.

#[export] Instance ObservedTx_eq_dec : EqDecision ObservedTx.
Proof. solve_decision. Defined.

Definition EmptyObservedTx : ObservedTx :=
  mkObservedTx EmptyTx Status_incomplete [] 0 [] EmptyPubKey 0 0 EmptyString EmptyString None.

Definition set_Obs_Status (m : ObservedTx) (s : Status) : ObservedTx :=
  mkObservedTx (Obs_Tx m) s (OutHashes m) (BlockHeight m) (Obs_Signers m) (ObservedPubKey m)
    (KeysignMs m) (FinaliseHeight m) (Aggregator m) (AggregatorTarget m) (AggregatorTargetLimit m).
Definition set_OutHashes (m : ObservedTx) (l : list string) : ObservedTx :=
  mkObservedTx (Obs_Tx m) (Obs_Status m) l (BlockHeight m) (Obs_Signers m) (ObservedPubKey m)
    (KeysignMs m) (FinaliseHeight m) (Aggregator m) (AggregatorTarget m) (AggregatorTargetLimit m).
Definition set_Obs_Signers (m : ObservedTx) (l : list string) : ObservedTx :=
  mkObservedTx (Obs_Tx m) (Obs_Status m) (OutHashes m) (BlockHeight m) l (ObservedPubKey m)
    (KeysignMs m) (FinaliseHeight m) (Aggregator m) (AggregatorTarget m) (AggregatorTargetLimit m).

(** An observation is a ballot of its own. *)
#[export] Instance ObservedTx_voter : Voter ObservedTx := {|
  Signers := Obs_Signers;
  set_Signers := set_Obs_Signers;
  eligible := is_active;
  enough := HasSuperMajority;
|}.

#[export] Instance ObservedTx_laws : VoterLaws ObservedTx.
Proof. by split. Qed.

Record ObservedTxVoter := mkObservedTxVoter {
  Voter_TxID : TxID;
  Voter_Tx : ObservedTx;
  Voter_Height : Z;
  Voter_Txs : list ObservedTx;
  Actions : list TxOutItem;
  OutTxs : list Tx;
  FinalisedHeight : Z;
  UpdatedVault : bool;
  Reverted : bool;
  OutboundHeight : Z;
}.

Definition set_Voter_Tx (m : ObservedTxVoter) (t : ObservedTx) : ObservedTxVoter :=
  mkObservedTxVoter (Voter_TxID m) t (Voter_Height m) (Voter_Txs m) (Actions m) (OutTxs m)
    (FinalisedHeight m) (UpdatedVault m) (Reverted m) (OutboundHeight m).
Definition set_Voter_Txs (m : ObservedTxVoter) (l : list ObservedTx) : ObservedTxVoter :=
  mkObservedTxVoter (Voter_TxID m) (Voter_Tx m) (Voter_Height m) l (Actions m) (OutTxs m)
    (FinalisedHeight m) (UpdatedVault m) (Reverted m) (OutboundHeight m).
Definition set_OutTxs (m : ObservedTxVoter) (l : list Tx) : ObservedTxVoter :=
  mkObservedTxVoter (Voter_TxID m) (Voter_Tx m) (Voter_Height m) (Voter_Txs m) (Actions m) l
    (FinalisedHeight m) (UpdatedVault m) (Reverted m) (OutboundHeight m).
Definition set_Reverted (m : ObservedTxVoter) (b : bool) : ObservedTxVoter :=
  mkObservedTxVoter (Voter_TxID m) (Voter_Tx m) (Voter_Height m) (Voter_Txs m) (Actions m)
    (OutTxs m) (FinalisedHeight m) (UpdatedVault m) b (OutboundHeight m).

(** ** One observation *)

Definition NewObservedTx (tx : Tx) (height : Z) (pk : PubKey) (finalisedHeight : Z) : ObservedTx :=
  mkObservedTx tx Status_incomplete [] height [] pk 0 finalisedHeight EmptyString EmptyString None.

Definition ObservedTx_Valid (m : ObservedTx) : outcome unit :=
  _ ← Tx_Valid (Obs_Tx m);
  if BlockHeight m <=? 0 then Err "block height can't be zero"
  else if PubKey_IsEmpty (ObservedPubKey m) then Err "observed pool pubkey is empty"
  else if FinaliseHeight m <=? 0 then Err "finalise block height can't be zero"
  else Ok tt.

Definition ObservedTx_IsEmpty (m : ObservedTx) : bool := Tx_IsEmpty (Obs_Tx m).

Definition IsFinal (m : ObservedTx) : bool := FinaliseHeight m =? BlockHeight m.

(** The out hashes that parse as transaction ids. *)
Definition GetOutHashes (m : ObservedTx) : list TxID :=
  omap (fun o => match NewTxID o with Ok txID => Some txID | _ => None end) (OutHashes m).

Definition ObservedTx_IsDone (m : ObservedTx) (numOuts : Z) : bool :=
  numOuts <=? Z.of_nat (length (OutHashes m)).

Definition ObservedTx_SetDone (m : ObservedTx) (hash : TxID) (numOuts : Z) : ObservedTx :=
  if existsb (fun done => TxID_Equals done hash) (GetOutHashes m) then m
  else
    let m := set_OutHashes m (OutHashes m ++ [TxID_String hash]) in
    if ObservedTx_IsDone m numOuts then set_Obs_Status m Status_done else m.

Section observed.
Context `{A : SdkAddress} `{SS : SliceSort}.

Definition ObservedTx_GetSigners : ObservedTx -> list AccAddress := GetSigners.
Definition ObservedTx_HasSigned : ObservedTx -> AccAddress -> bool := HasSigned.
Definition ObservedTx_Sign : ObservedTx -> AccAddress -> ObservedTx * bool := Sign.

(** A nil limit reads as zero. *)
Definition ObservedTx_Equals (m tx2 : ObservedTx) : bool :=
  if negb (fst (Tx_Equals (Obs_Tx m) (Obs_Tx tx2))) then false
  else if negb (PubKey_Equals (ObservedPubKey m) (ObservedPubKey tx2)) then false
  else if negb (BlockHeight m =? BlockHeight tx2) then false
  else if negb (FinaliseHeight m =? FinaliseHeight tx2) then false
  else if negb (EqualFold (Aggregator m) (Aggregator tx2)) then false
  else if negb (EqualFold (AggregatorTarget m) (AggregatorTarget tx2)) then false
  else if negb (default 0 (AggregatorTargetLimit m) =? default 0 (AggregatorTargetLimit tx2)) then false
  else true.

Definition ObservedTxs_Contains (txs : list ObservedTx) (tx : ObservedTx) : bool :=
  existsb (fun item => ObservedTx_Equals item tx) txs.

(** ** The voter of a transaction *)

Definition NewObservedTxVoter (txID : TxID) (txs : list ObservedTx) : ObservedTxVoter :=
  mkObservedTxVoter txID EmptyObservedTx 0 txs [] [] 0 false false 0.

Definition ObservedTxVoter_Valid (m : ObservedTxVoter) : outcome unit :=
  if TxID_IsEmpty (Voter_TxID m) then Err "cannot have an empty tx id"
  else forM_check ObservedTx_Valid (Voter_Txs m).

Definition ObservedTxVoter_Key (m : ObservedTxVoter) : TxID := Voter_TxID m.

(** The scan of [Add]: the index of the last equal observation, or [None] as soon
    as the signer turns out to have signed one. *)
Fixpoint add_scan (observedTx : ObservedTx) (signer : AccAddress) (txs : list ObservedTx)
    (idx : nat) (votedIdx : option nat) : option (option nat) :=
  match txs with
  | [] => Some votedIdx
  | transaction :: txs' =>
      if negb (ObservedTx_Equals transaction observedTx)
      then add_scan observedTx signer txs' (S idx) votedIdx
      else if existsb (fun siggy => acc_equals siggy signer) (GetSigners transaction) then None
      else add_scan observedTx signer txs' (S idx) (Some idx)
  end.

Definition ObservedTxVoter_Add (m : ObservedTxVoter) (observedTx : ObservedTx) (signer : AccAddress)
  : ObservedTxVoter * bool :=
  match add_scan observedTx signer (Voter_Txs m) 0 None with
  | None => (m, false)
  | Some (Some votedIdx) =>
      match Voter_Txs m !! votedIdx with
      | Some t =>
          let '(t', ok) := Sign t signer in
          (set_Voter_Txs m (<[votedIdx := t']> (Voter_Txs m)), ok)
      | None => (m, false)
      end
  | Some None =>
      (set_Voter_Txs m (Voter_Txs m ++ [set_Obs_Signers observedTx [acc_string signer]]), true)
  end.

(** ** Consensus on an observation *)

(** The active accounts that signed an observation of the same finality as
    [final] and equal to [txFinal]. *)
Definition consensus_voters (accounts : list NodeAccount) (final : bool) (txFinal : ObservedTx)
    (txs : list ObservedTx) : gset string :=
  foldl (fun voters txIn =>
      if negb (Bool.eqb (IsFinal txIn) final) then voters
      else if negb (fst (Tx_EqualsEx (Obs_Tx txFinal) (Obs_Tx txIn))) then voters
      else
        foldl (fun voters signer =>
            if negb (bool_decide (acc_string signer ∈ voters)) && IsNodeKeys accounts signer
            then {[ acc_string signer ]} ∪ voters else voters)
          voters (GetSigners txIn))
    ∅ txs.

Definition getConsensusTx (m : ObservedTxVoter) (accounts : list NodeAccount) (final : bool)
  : ObservedTx :=
  match List.find (fun txFinal =>
      if negb (Bool.eqb (IsFinal txFinal) final) then false
      else HasSuperMajority (Z.of_nat (size (consensus_voters accounts final txFinal (Voter_Txs m))))
             (Z.of_nat (length accounts))) (Voter_Txs m) with
  | Some txFinal => txFinal
  | None => EmptyObservedTx
  end.

(** The voter remembers the observation agreed on. *)
Definition GetTx (m : ObservedTxVoter) (nodeAccounts : list NodeAccount)
  : ObservedTxVoter * ObservedTx :=
  if negb (ObservedTx_IsEmpty (Voter_Tx m)) && IsFinal (Voter_Tx m) then (m, Voter_Tx m)
  else
    let finalTx := getConsensusTx m nodeAccounts true in
    let m :=
      if negb (ObservedTx_IsEmpty finalTx) then set_Voter_Tx m finalTx
      else
        let discoverTx := getConsensusTx m nodeAccounts false in
        if negb (ObservedTx_IsEmpty discoverTx) then set_Voter_Tx m discoverTx else m in
    (m, Voter_Tx m).

Definition ObservedTxVoter_HasConsensus (m : ObservedTxVoter) (nodeAccounts : list NodeAccount)
  : ObservedTxVoter * bool :=
  let '(m, consensusTx) := GetTx m nodeAccounts in
  (m, negb (ObservedTx_IsEmpty consensusTx)).

Definition HasFinalised (m : ObservedTxVoter) (nodeAccounts : list NodeAccount)
  : ObservedTxVoter * bool :=
  let '(m, finalTx) := GetTx m nodeAccounts in
  (m, if ObservedTx_IsEmpty finalTx then false else IsFinal finalTx).

(** ** Outbound transactions *)

Context `{U : SdkUint}.

Definition matches_action (outboundTx : Tx) (toi : TxOutItem) : outcome bool :=
  let matchCoin := Coins_Contains (Tx_Coins outboundTx) (Toi_Coin toi) in
  matchCoin ←
    (if negb matchCoin && Asset_Equals (Coin_Asset (Toi_Coin toi)) (GetGasAsset (Toi_Chain toi)) then
       let asset := GetGasAsset (Toi_Chain toi) in
       intendToSpend ← uint_add (Coin_Amount (Toi_Coin toi))
                         (Coin_Amount (GetCoin (ToCoins (MaxGas toi)) asset));
       actualSpend ← uint_add (Coin_Amount (GetCoin (Tx_Coins outboundTx) asset))
                       (Coin_Amount (GetCoin (ToCoins (Tx_Gas outboundTx)) asset));
       Ok (intendToSpend =? actualSpend)
     else Ok matchCoin);
  Ok (EqualFold (Toi_Memo toi) (Tx_Memo outboundTx)
      && Address_Equals (Toi_ToAddress toi) (ToAddress outboundTx)
      && Chain_Equals (Toi_Chain toi) (Tx_Chain outboundTx)
      && (matchCoin : bool)).

Fixpoint match_actions (outboundTx : Tx) (actions : list TxOutItem) : outcome bool :=
  match actions with
  | [] => Ok false
  | toi :: actions' =>
      found ← matches_action outboundTx toi;
      if found : bool then Ok true else match_actions outboundTx actions'
  end.

Definition matchActionItem (m : ObservedTxVoter) (outboundTx : Tx) : outcome bool :=
  match_actions outboundTx (Actions m).

Definition AddOutTx (m : ObservedTxVoter) (inTx : Tx) : outcome (ObservedTxVoter * bool) :=
  matched ← matchActionItem m inTx;
  if negb matched then Ok (m, false)
  else if existsb (fun t => TxID_Equals (Tx_ID inTx) (Tx_ID t)) (OutTxs m) then Ok (m, true)
  else
    let numOuts := Z.of_nat (length (Actions m)) in
    let m := set_OutTxs m (OutTxs m ++ [inTx]) in
    let m := set_Voter_Txs m (map (fun t => ObservedTx_SetDone t (Tx_ID inTx) numOuts) (Voter_Txs m)) in
    let m :=
      if negb (ObservedTx_IsEmpty (Voter_Tx m))
      then set_Voter_Tx m (ObservedTx_SetDone (Voter_Tx m) (Tx_ID inTx) numOuts) else m in
    Ok (m, true).

Definition ObservedTxVoter_IsDone (m : ObservedTxVoter) : bool :=
  (length (Actions m) <=? length (OutTxs m))%nat.

(** The loop over [m.Txs] assigns to copies: only [m.Tx] changes. *)
Definition setStatus (m : ObservedTxVoter) (toStatus : Status) : ObservedTxVoter :=
  if negb (ObservedTx_IsEmpty (Voter_Tx m))
  then set_Voter_Tx m (set_Obs_Status (Voter_Tx m) toStatus) else m.

Definition SetReverted (m : ObservedTxVoter) : ObservedTxVoter :=
  set_Reverted (setStatus m Status_reverted) true.

Definition ObservedTxVoter_SetDone (m : ObservedTxVoter) : ObservedTxVoter :=
  setStatus m Status_done.
End observed.

(** ** Who stands behind a consensus *)

Section consensus_facts.
Context {A : SdkAddress} {AL : SdkAddressLaws A} {SS : SliceSort}.

(** The observations [consensus_voters] looks at for [t]. *)
Definition supports (final : bool) (t txIn : ObservedTx) : Prop :=
  IsFinal txIn = final /\ fst (Tx_EqualsEx (Obs_Tx t) (Obs_Tx txIn)) = true.

Lemma add_signers_spec accounts (signers : list AccAddress) (voters : gset string) s :
  s ∈ foldl (fun voters signer =>
        if negb (bool_decide (acc_string signer ∈ voters)) && IsNodeKeys accounts signer
        then {[ acc_string signer ]} ∪ voters else voters) voters signers <->
  s ∈ voters \/ exists a, a ∈ signers /\ IsNodeKeys accounts a = true /\ s = acc_string a.
Proof.
  revert voters. induction signers as [|a signers IH]; intros voters; cbn.
  { split; [by left|]. intros [?|(a & Ha & _)]; [done|]. by apply elem_of_nil in Ha. }
  rewrite IH. setoid_rewrite elem_of_cons.
  destruct (IsNodeKeys accounts a) eqn:Ea; rewrite ?andb_true_r, ?andb_false_r.
  - case_bool_decide as Hin; cbn.
    + split; [intros [?|(b & ? & ?)]; [by left|right; eauto]|].
      intros [?|(b & [->|?] & ? & ->)]; [by left|by left|right; eauto].
    + rewrite elem_of_union, elem_of_singleton.
      split; [intros [[->|?]|(b & ? & ?)]; [right; eauto|by left|right; eauto]|].
      intros [?|(b & [->|?] & ? & ->)]; [by left; right|by left; left|right; eauto].
  - split; [intros [?|(b & ? & ?)]; [by left|right; eauto]|].
    intros [?|(b & [->|?] & ? & ->)]; [by left|congruence|right; eauto].
Qed.

(** [acc] collects the observations already visited. *)
Lemma consensus_voters_from accounts final t txs (acc : gset string) s :
  s ∈ foldl (fun voters txIn =>
      if negb (Bool.eqb (IsFinal txIn) final) then voters
      else if negb (fst (Tx_EqualsEx (Obs_Tx t) (Obs_Tx txIn))) then voters
      else
        foldl (fun voters signer =>
            if negb (bool_decide (acc_string signer ∈ voters)) && IsNodeKeys accounts signer
            then {[ acc_string signer ]} ∪ voters else voters)
          voters (GetSigners txIn)) acc txs <->
  s ∈ acc \/ exists a txIn, txIn ∈ txs /\ supports final t txIn /\ a ∈ GetSigners txIn /\
    IsNodeKeys accounts a = true /\ s = acc_string a.
Proof.
  revert acc. induction txs as [|x txs IH]; intros acc; cbn [foldl].
  { split; [by left|]. intros [?|(a & y & Hy & _)]; [done|]. by apply elem_of_nil in Hy. }
  rewrite IH. setoid_rewrite elem_of_cons. unfold supports.
  destruct (Bool.eqb (IsFinal x) final) eqn:Ef; cbn [negb].
  2:{ apply eqb_false_iff in Ef. split; [intros [?|(a & y & ? & ?)]; [by left|right; eauto 10]|].
      intros [?|(a & y & [->|?] & (? & ?) & ?)]; [by left|done|right; eauto 10]. }
  apply eqb_prop in Ef.
  destruct (fst (Tx_EqualsEx (Obs_Tx t) (Obs_Tx x))) eqn:Ee; cbn [negb].
  2:{ split; [intros [?|(a & y & ? & ?)]; [by left|right; eauto 10]|].
      intros [?|(a & y & [->|?] & (? & ?) & ?)]; [by left|congruence|right; eauto 10]. }
  rewrite add_signers_spec. split.
  - intros [[?|(a & ? & ? & ?)]|(a & y & ? & ?)]; [by left|right|right; eauto 10].
    exists a, x. split_and!; auto.
  - intros [?|(a & y & [->|?] & (? & ?) & ? & ? & ?)]; [by do 2 left|left; right; eauto|].
    right. exists a, y. split_and!; auto.
Qed.

Lemma consensus_voters_spec accounts final t txs s :
  s ∈ consensus_voters accounts final t txs <->
  exists a txIn, txIn ∈ txs /\ supports final t txIn /\ a ∈ GetSigners txIn /\
    IsNodeKeys accounts a = true /\ s = acc_string a.
Proof.
  unfold consensus_voters. rewrite consensus_voters_from, elem_of_empty. tauto.
Qed.

Lemma IsNodeKeys_address accounts a :
  IsNodeKeys accounts a = true -> a ∈ map NodeAddress accounts.
Proof.
  unfold IsNodeKeys. intros (na & Hin & [_ ->%acc_equals_law]%andb_true_iff)%existsb_exists.
  by apply list_elem_of_fmap_2, list_elem_of_In.
Qed.

(** Voters are accounts: there are no more of them. *)
Lemma consensus_voters_accounts accounts final t txs :
  consensus_voters accounts final t txs ⊆ list_to_set (map acc_string (map NodeAddress accounts)).
Proof.
  intros s (a & _ & _ & _ & _ & Ha%IsNodeKeys_address & ->)%consensus_voters_spec.
  apply elem_of_list_to_set. by apply list_elem_of_fmap_2.
Qed.

Lemma size_list_to_set_le (l : list string) :
  (size (list_to_set l : gset string) <= length l)%nat.
Proof.
  induction l as [|x l IH]; [done|]. rewrite list_to_set_cons.
  rewrite size_union_alt, size_singleton. cbn.
  assert (size (list_to_set l ∖ {[x]} : gset string) <= size (list_to_set l : gset string))%nat
    by (apply subseteq_size, subseteq_difference_l; done). lia.
Qed.

Lemma acc_string_inj accounts a b :
  Forall (fun na => acc_wf (NodeAddress na)) accounts ->
  IsNodeKeys accounts a = true -> IsNodeKeys accounts b = true ->
  acc_string a = acc_string b -> a = b.
Proof.
  intros Hwf Ha%IsNodeKeys_address Hb%IsNodeKeys_address Heq.
  apply list_elem_of_fmap in Ha as (x & -> & Hx), Hb as (y & -> & Hy).
  rewrite Forall_forall in Hwf.
  assert (Some (NodeAddress x) = Some (NodeAddress y)) as [=]; [|done].
  rewrite <- (acc_roundtrip (NodeAddress x)), Heq by auto. by apply acc_roundtrip, Hwf.
Qed.

(** C25: accountable agreement. When two observations of the same finality both
    have the super majority that [getConsensusTx] asks for, at least a third of
    the accounts (and at least one) are active nodes that signed an observation
    equal to the first and one equal to the second: if no node vouches for two
    different transactions, the network cannot agree on two. *)
Theorem consensus_accountable accounts final t1 t2 txs :
  let n := Z.of_nat (length accounts) in
  let voters t := consensus_voters accounts final t txs in
  n < 2 ^ 62 -> Forall (fun na => acc_wf (NodeAddress na)) accounts ->
  HasSuperMajority (Z.of_nat (size (voters t1))) n = true ->
  HasSuperMajority (Z.of_nat (size (voters t2))) n = true ->
  let common := voters t1 ∩ voters t2 in
  n <= 3 * Z.of_nat (size common) /\ 0 < Z.of_nat (size common) /\
  forall s, s ∈ common ->
    exists a x1 x2, s = acc_string a /\ IsNodeKeys accounts a = true /\
      x1 ∈ txs /\ supports final t1 x1 /\ a ∈ GetSigners x1 /\
      x2 ∈ txs /\ supports final t2 x2 /\ a ∈ GetSigners x2.
Proof.
  intros n voters Hn Hwf H1 H2 common. apply HasSuperMajority_iff in H1; [|done].
  apply HasSuperMajority_iff in H2; [|done].
  assert (Hu : (size (voters t1 ∪ voters t2) <= length accounts)%nat).
  { etrans; [apply subseteq_size, union_least; apply consensus_voters_accounts|].
    etrans; [apply size_list_to_set_le|]. by rewrite !length_map. }
  rewrite size_union_alt, size_difference_alt, (intersection_comm_L (voters t2)) in Hu.
  assert ((size common <= size (voters t2))%nat) by (apply subseteq_size, intersection_subseteq_r).
  fold common in Hu. split_and!; [lia|lia|].
  intros s [Ha%consensus_voters_spec Hb%consensus_voters_spec]%elem_of_intersection.
  destruct Ha as (a & x1 & ? & ? & ? & Ha & ->), Hb as (b & x2 & ? & ? & ? & Hb & Heq).
  assert (a = b) as <- by (by apply (acc_string_inj accounts)).
  exists a, x1, x2. by split_and!.
Qed.
End consensus_facts.

(** ** Adding observations *)

Section add_facts.
Context {A : SdkAddress} {AL : SdkAddressLaws A} {SS : SliceSort}.

(** No node signed one observation twice. *)
Definition votes_wf (txs : list ObservedTx) : Prop := Forall (fun t => NoDup (GetSigners t)) txs.

(** The number of signatures the voter holds. *)
Definition votes (txs : list ObservedTx) : Z := sumZ (fun t => Z.of_nat (length (GetSigners t))) txs.

Definition signed_equal (o : ObservedTx) (signer : AccAddress) (t : ObservedTx) : Prop :=
  ObservedTx_Equals t o = true /\ signer ∈ GetSigners t.

Lemma signed_spec (t : ObservedTx) signer :
  existsb (fun siggy => acc_equals siggy signer) (GetSigners t) = true <-> signer ∈ GetSigners t.
Proof. apply (HasSigned_spec t signer). Qed.

Lemma add_scan_None o signer txs idx found :
  add_scan o signer txs idx found = None -> Exists (signed_equal o signer) txs.
Proof.
  revert idx found. induction txs as [|t txs IH]; intros idx found; cbn -[GetSigners]; [done|].
  destruct (ObservedTx_Equals t o) eqn:E; cbn -[GetSigners]; [|intros H; right; by eapply IH].
  destruct (existsb _ _) eqn:Es; [|intros H; right; by eapply IH].
  intros _. left. split; [done|by apply signed_spec].
Qed.

Lemma add_scan_Some o signer txs idx found r :
  add_scan o signer txs idx found = Some r ->
  Forall (fun t => ~ signed_equal o signer t) txs /\
  (r = found \/ exists i t, r = Some (idx + i)%nat /\ txs !! i = Some t /\ ObservedTx_Equals t o = true).
Proof.
  revert idx found. induction txs as [|t txs IH]; intros idx found; cbn -[GetSigners].
  { intros [= ->]. split; [constructor|by left]. }
  destruct (ObservedTx_Equals t o) eqn:E; cbn -[GetSigners].
  - destruct (existsb _ _) eqn:Es; [done|]. intros [Hf Hr]%IH. split.
    + constructor; [|done]. intros [_ Hs%signed_spec]. congruence.
    + right. destruct Hr as [->|(i & t' & -> & Hi & Ht)].
      * exists 0%nat, t. split_and!; [f_equal; lia|done|done].
      * exists (S i), t'. split_and!; [f_equal; lia|done|done].
  - intros [Hf Hr]%IH. split.
    + constructor; [|done]. intros [? _]. congruence.
    + destruct Hr as [->|(i & t' & -> & Hi & Ht)]; [by left|].
      right. exists (S i), t'. split_and!; [f_equal; lia|done|done].
Qed.

Lemma GetSigners_new o signer :
  acc_wf signer -> GetSigners (set_Obs_Signers o [acc_string signer]) = [signer].
Proof. intros Hw. unfold GetSigners. cbn. by rewrite acc_roundtrip. Qed.

Lemma votes_insert txs i (t t' : ObservedTx) :
  txs !! i = Some t ->
  votes (<[i := t']> txs) =
    votes txs - Z.of_nat (length (GetSigners t)) + Z.of_nat (length (GetSigners t')).
Proof.
  intros Hi. rewrite <- (take_drop_middle txs i t Hi) at 2. unfold votes.
  rewrite insert_take_drop by (by eapply lookup_lt_Some).
  rewrite !sumZ_app, !sumZ_cons. lia.
Qed.

(** [Add] refuses a node, and changes nothing, exactly when it already signed
    an equal observation; otherwise it records exactly one more signature, and
    no node ever signs one observation twice. A node may still sign several
    different observations. *)
Theorem ObservedTxVoter_Add_spec m o signer m' ok :
  acc_wf signer -> votes_wf (Voter_Txs m) -> ObservedTxVoter_Add m o signer = (m', ok) ->
  votes_wf (Voter_Txs m') /\
  (ok = false <-> Exists (signed_equal o signer) (Voter_Txs m)) /\
  votes (Voter_Txs m') = votes (Voter_Txs m) + (if ok then 1 else 0) /\
  (ok = false -> m' = m).
Proof.
  intros Hw Hwf H. unfold ObservedTxVoter_Add in H.
  destruct (add_scan o signer (Voter_Txs m) 0 None) as [r|] eqn:E.
  2:{ injection H as <- <-. apply add_scan_None in E. split_and!; [done|done|lia|done]. }
  apply add_scan_Some in E as [Hf Hr].
  assert (Hno : ~ Exists (signed_equal o signer) (Voter_Txs m)) by (by apply Forall_Exists_neg).
  destruct Hr as [->|(i & t & -> & Hi & Ht)]; cbn in H.
  - injection H as <- <-. cbn [Voter_Txs set_Voter_Txs]. split_and!; [|by split| |done].
    + apply Forall_app. split; [done|]. apply Forall_singleton.
      rewrite GetSigners_new by done. apply NoDup_singleton.
    + unfold votes. rewrite sumZ_app, sumZ_cons, GetSigners_new by done. unfold sumZ at 2. cbn [foldr length]. lia.
  - rewrite Hi in H.
    assert (Hs : HasSigned t signer = false).
    { destruct (HasSigned t signer) eqn:Es; [|done]. apply HasSigned_spec in Es.
      destruct Hno. apply Exists_exists. exists t. split; [by eapply list_elem_of_lookup_2|by split]. }
    pose proof (GetSigners_Sign t signer Hw) as Hg. unfold Sign in H, Hg. rewrite Hs in H, Hg.
    change (GetSigners (set_Obs_Signers t (Obs_Signers t ++ [acc_string signer])) =
            GetSigners t ++ [signer]) in Hg.
    injection H as <- <-. cbn [Voter_Txs set_Voter_Txs]. split_and!; [|by split| |done].
    + apply Forall_insert; [done|]. rewrite Hg. apply NoDup_app. split_and!.
      * unfold votes_wf in Hwf. rewrite Forall_forall in Hwf. apply Hwf. by eapply list_elem_of_lookup_2.
      * intros x Hx ->%list_elem_of_singleton. apply HasSigned_spec in Hx. congruence.
      * apply NoDup_singleton.
    + rewrite (votes_insert _ _ t) by done. rewrite Hg, length_app. cbn. lia.
Qed.

(** ** Outbound transactions *)

Context {U : SdkUint}.

(** No two outbound transactions of the same id. *)
Definition distinct_ids (txs : list Tx) : Prop :=
  ForallOrdPairs (fun t u => TxID_Equals (Tx_ID u) (Tx_ID t) = false) txs.

(** [AddOutTx] accepts a transaction exactly when it matches a scheduled
    action, records each id once, so that [IsDone] counts distinct outbound
    transactions, and leaves the actions and, when it refuses, everything. *)
Theorem AddOutTx_spec m inTx m' ok :
  distinct_ids (OutTxs m) -> AddOutTx m inTx = Ok (m', ok) ->
  matchActionItem m inTx = Ok ok /\ distinct_ids (OutTxs m') /\ Actions m' = Actions m /\
  (ok = true -> Exists (fun t => TxID_Equals (Tx_ID inTx) (Tx_ID t) = true) (OutTxs m')) /\
  (ok = false -> m' = m).
Proof.
  intros Hd H. unfold AddOutTx in H. apply bind_Ok in H as (b & Hb & H). rewrite Hb.
  destruct b; cbn [negb] in H; [|by injection H as <- <-].
  destruct (existsb _ (OutTxs m)) eqn:E.
  - injection H as <- <-. split_and!; try done. intros _.
    apply existsb_exists in E as (t & Hin & Ht). apply Exists_exists. exists t.
    split; [by apply list_elem_of_In|done].
  - apply existsb_Forall_false in E.
    assert (Hout : OutTxs m' = OutTxs m ++ [inTx] /\ Actions m' = Actions m /\ ok = true).
    { destruct (ObservedTx_IsEmpty _) in H; by injection H as <- <-. }
    destruct Hout as (-> & -> & ->). split_and!; try done.
    + apply ForallOrdPairs_app. split_and!; [done|by repeat constructor|].
      eapply Forall_impl; [exact E|]. by intros; apply Forall_singleton.
    + intros _. apply Exists_app. right. constructor. apply EqualFold_refl.
Qed.
End add_facts.

(** ** Witnesses *)

Section observed_witnesses.
Import Reference ReferenceSort.

Definition example_observation (memo : string) (signers : list AccAddress) : ObservedTx :=
  mkObservedTx (example_tx memo []) Status_incomplete [] 10 (map acc_string signers) "pk" 0 10
    EmptyString EmptyString None.

Lemma consensus_accountable_witness :
  let t1 := example_observation "one" ["a"; "b"; "c"] in
  let t2 := example_observation "two" ["b"; "c"; "d"] in
  let voters t := consensus_voters example_nodes true t [t1; t2] in
  let common := voters t1 ∩ voters t2 in
  4 <= 3 * Z.of_nat (size common) /\ 0 < Z.of_nat (size common) /\
  forall s, s ∈ common ->
    exists a x1 x2, s = acc_string a /\ IsNodeKeys example_nodes a = true /\
      x1 ∈ [t1; t2] /\ supports true t1 x1 /\ a ∈ GetSigners x1 /\
      x2 ∈ [t1; t2] /\ supports true t2 x2 /\ a ∈ GetSigners x2.
Proof.
  apply (consensus_accountable example_nodes true
    (example_observation "one" ["a"; "b"; "c"]) (example_observation "two" ["b"; "c"; "d"])
    [example_observation "one" ["a"; "b"; "c"]; example_observation "two" ["b"; "c"; "d"]]).
  - done.
  - repeat constructor; cbn; (done || lia).
  - by vm_compute.
  - by vm_compute.
Defined.

Lemma ObservedTxVoter_Add_spec_witness :
  let o := example_observation "one" [] in
  let m := NewObservedTxVoter "A1" [example_observation "one" ["a"]] in
  let m' := NewObservedTxVoter "A1" [example_observation "one" ["a"; "b"]] in
  votes_wf (Voter_Txs m') /\ (true = false <-> Exists (signed_equal o "b") (Voter_Txs m)) /\
  votes (Voter_Txs m') = votes (Voter_Txs m) + (if true then 1 else 0) /\ (true = false -> m' = m).
Proof.
  apply (ObservedTxVoter_Add_spec (NewObservedTxVoter "A1" [example_observation "one" ["a"]])
    (example_observation "one" []) "b"
    (NewObservedTxVoter "A1" [example_observation "one" ["a"; "b"]]) true).
  - split; cbn; (done || lia).
  - apply Forall_singleton. apply (bool_decide_unpack _). by vm_compute.
  - by vm_compute.
Defined.

Definition example_action : TxOutItem :=
  mkTxOutItem BTCChain "bob" "vault" (NewCoin BTCAsset 5) "memo" [] 1 "A0" EmptyString
    EmptyString EmptyString EmptyString None EmptyString.

Lemma AddOutTx_spec_witness :
  let voter outs := mkObservedTxVoter "A0" EmptyObservedTx 0 [] [example_action] outs 0 false false 0 in
  let tx := example_tx "memo" [] in
  matchActionItem (voter []) tx = Ok true /\ distinct_ids [tx] /\
  Actions (voter [tx]) = Actions (voter []) /\
  (true = true -> Exists (fun t => TxID_Equals (Tx_ID tx) (Tx_ID t) = true) [tx]) /\
  (true = false -> voter [tx] = voter []).
Proof.
  apply (AddOutTx_spec
    (mkObservedTxVoter "A0" EmptyObservedTx 0 [] [example_action] [] 0 false false 0)
    (example_tx "memo" [])
    (mkObservedTxVoter "A0" EmptyObservedTx 0 [] [example_action] [example_tx "memo" []]
       0 false false 0) true).
  - constructor.
  - by vm_compute.
Defined.
End observed_witnesses.
