(* ===== verification/Pools.v ===== *)
(** [x/mayachain/types/type_pool.go]: the liquidity pools, their units and the
    value of one side in terms of the other. *)
From S2P Require Import Prelude GoText Sdk Shares Chains Assets.

(** ** Data *)

(** [PoolStatus] is an [int32] with four named values. *)
Definition PoolStatus := Z.
Definition PoolStatus_UnknownPoolStatus : PoolStatus := 0.
Definition PoolStatus_Available : PoolStatus := 1.
Definition PoolStatus_Staged : PoolStatus := 2.
Definition PoolStatus_Suspended : PoolStatus := 4.

Definition PoolStatus_value : list (string * PoolStatus) :=
  [("UnknownPoolStatus", 0); ("Available", 1); ("Staged", 2); ("Suspended", 4)].

(** [String] of a value without a name prints the number, which is no name. *)
Definition PoolStatus_Valid (x : PoolStatus) : outcome unit :=
  if existsb (fun nv => snd nv =? x) PoolStatus_value then Ok tt
  else Err "invalid pool status".

Definition GetPoolStatus (ps : string) : PoolStatus :=
  match List.find (fun nv => String.eqb (fst nv) ps) PoolStatus_value with
  | Some (_, val) => val
  | None => PoolStatus_Suspended
  end.

Record Pool := mkPool {
  BalanceCacao : Z;
  BalanceAsset : Z;
  Pool_Asset : Asset;
  LPUnits : Z;
  Pool_Status : PoolStatus;
  StatusSince : Z;
  Pool_Decimals : Z;
  SynthUnits : Z;
  PendingInboundCacao : Z;
  PendingInboundAsset : Z;
}.

#[export] Instance Pool_eq_dec : EqDecision Pool.
Proof. solve_decision. Defined.

Definition NewPool : Pool := mkPool 0 0 EmptyAsset 0 PoolStatus_Available 0 0 0 0 0.

Definition set_BalanceCacao (m : Pool) (v : Z) : Pool :=
  mkPool v (BalanceAsset m) (Pool_Asset m) (LPUnits m) (Pool_Status m) (StatusSince m)
    (Pool_Decimals m) (SynthUnits m) (PendingInboundCacao m) (PendingInboundAsset m).
Definition set_BalanceAsset (m : Pool) (v : Z) : Pool :=
  mkPool (BalanceCacao m) v (Pool_Asset m) (LPUnits m) (Pool_Status m) (StatusSince m)
    (Pool_Decimals m) (SynthUnits m) (PendingInboundCacao m) (PendingInboundAsset m).
Definition set_SynthUnits (m : Pool) (v : Z) : Pool :=
  mkPool (BalanceCacao m) (BalanceAsset m) (Pool_Asset m) (LPUnits m) (Pool_Status m)
    (StatusSince m) (Pool_Decimals m) v (PendingInboundCacao m) (PendingInboundAsset m).
Definition set_LPUnits (m : Pool) (v : Z) : Pool :=
  mkPool (BalanceCacao m) (BalanceAsset m) (Pool_Asset m) v (Pool_Status m)
    (StatusSince m) (Pool_Decimals m) (SynthUnits m) (PendingInboundCacao m)
    (PendingInboundAsset m).

Definition set_Status (m : Pool) (status : PoolStatus) : Pool :=
  mkPool (BalanceCacao m) (BalanceAsset m) (Pool_Asset m) (LPUnits m) status
    (StatusSince m) (Pool_Decimals m) (SynthUnits m) (PendingInboundCacao m) (PendingInboundAsset m).
Definition set_Pending (m : Pool) (cacao asset : Z) : Pool :=
  mkPool (BalanceCacao m) (BalanceAsset m) (Pool_Asset m) (LPUnits m) (Pool_Status m)
    (StatusSince m) (Pool_Decimals m) (SynthUnits m) cacao asset.

(** ** Status *)

Definition IsAvailable (m : Pool) : bool := Pool_Status m =? PoolStatus_Available.
Definition IsStaged (m : Pool) : bool := Pool_Status m =? PoolStatus_Staged.
Definition Pool_IsEmpty (m : Pool) : bool := Asset_IsEmpty (Pool_Asset m).

Definition Pool_Valid (m : Pool) : outcome unit :=
  if Pool_IsEmpty m then Err "pool asset cannot be empty" else Ok tt.

(** The message only matters as a [*MsgSwap] or not. *)
Definition EnsureValidPoolStatus (m : Pool) (is_swap : bool) : outcome unit :=
  if Pool_Status m =? PoolStatus_Available then Ok tt
  else if Pool_Status m =? PoolStatus_Staged then
    if is_swap then Err "pool is in staged status, can't swap" else Ok tt
  else if Pool_Status m =? PoolStatus_Suspended then Err "pool suspended"
  else Err "unknown pool status,%s".

(** ** Lists of pools *)

Abbreviation Pools := (list Pool) (only parsing).

Definition Pools_Get (m : Pools) (asset : Asset) : Pool * bool :=
  match List.find (fun p => Asset_Equals (Pool_Asset p) asset) m with
  | Some p => (p, true)
  | None => (NewPool, false)
  end.

(** Every match is replaced, and the pool is appended in any case. *)
Definition Pools_Set (m : Pools) (pool : Pool) : Pools :=
  map (fun p => if Asset_Equals (Pool_Asset p) (Pool_Asset pool) then pool else p) m ++ [pool].

Definition Pools_Contains (m : Pools) (asset : Asset) : bool :=
  existsb (fun p => Asset_Equals (Pool_Asset p) asset) m.

Section pool.
Context `{U : SdkUint} `{D : SdkDec} `{V : Semver}.

(** ** Units *)

Definition GetPoolUnits (m : Pool) : outcome Z := uint_add (LPUnits m) (SynthUnits m).

Definition CalcUnitsV80 (m : Pool) (s : Z) : outcome (Pool * Z) :=
  m ←
    (if (BalanceAsset m =? 0) || IsVaultAsset (Pool_Asset m) then Ok (set_SynthUnits m 0)
     else
       numerator ← uint_mul (LPUnits m) s;
       twice ← uint_mul64 (BalanceAsset m) 2;
       denominator ← SafeSub twice s;
       let denominator := if denominator =? 0 then 1 else denominator in
       su ← uint_quo numerator denominator;
       Ok (set_SynthUnits m su));
  u ← GetPoolUnits m;
  Ok (m, u).

(** The updated pool and the units returned. *)
Definition CalcUnits (m : Pool) (version : Version) (s : Z) : outcome (Pool * Z) :=
  if GTE version (semver_release 0 80 0) then CalcUnitsV80 m s
  else u ← GetPoolUnits m; Ok (m, u).

(** ** Value of one side in the other *)

Definition AssetValueInRune (m : Pool) (amt : Z) : Z :=
  if (BalanceCacao m =? 0) || (BalanceAsset m =? 0) then 0
  else GetUncappedShare (BalanceCacao m) (BalanceAsset m) amt.

Definition RuneReimbursementForAssetWithdrawal (m : Pool) (amt : Z) : outcome Z :=
  if (BalanceCacao m =? 0) || (BalanceAsset m =? 0) then Ok 0
  else
    denom ← SafeSub (BalanceAsset m) amt;
    if denom =? 0 then Ok 0
    else Ok (GetUncappedShare (BalanceCacao m) denom amt).

Definition RuneValueInAsset (m : Pool) (amt : Z) : outcome Z :=
  if (BalanceCacao m =? 0) || (BalanceAsset m =? 0) then Ok 0
  else
    let assetAmt := GetUncappedShare (BalanceAsset m) (BalanceCacao m) amt in
    RoundToDecimal assetAmt (Pool_Decimals m).

Definition RuneDisbursementForAssetAdd (m : Pool) (amt : Z) : outcome Z :=
  if (BalanceCacao m =? 0) || (BalanceAsset m =? 0) then Ok 0
  else
    denom ← uint_add (BalanceAsset m) amt;
    Ok (GetUncappedShare (BalanceCacao m) denom amt).

Definition AssetDisbursementForCacaoAdd (m : Pool) (amt : Z) : outcome Z :=
  if (BalanceCacao m =? 0) || (BalanceAsset m =? 0) then Ok 0
  else
    denom ← uint_add (BalanceCacao m) amt;
    let outAmt := GetUncappedShare (BalanceAsset m) denom amt in
    RoundToDecimal outAmt (Pool_Decimals m).

(** The liquidity unit value index: sqrt(cacao * asset) per unit. [big.Int.Sqrt]
    rounds down. *)
Definition GetLUVI (m : Pool) : outcome Z :=
  balRune ← uint_mul64 (BalanceCacao m) (10 ^ 12);
  balAsset ← uint_mul64 (BalanceAsset m) (10 ^ 12);
  let num := Z.sqrt (balRune * balAsset) in
  denom ← GetPoolUnits m;
  if denom =? 0 then Ok 0
  else uint_of_big (Z.quot num denom).
End pool.

(** ** Well-formed pools *)

(** Every amount of the pool is a [Uint]. *)
Definition pool_wf (m : Pool) : Prop :=
  is_uint (BalanceCacao m) /\ is_uint (BalanceAsset m) /\ is_uint (LPUnits m) /\
  is_uint (SynthUnits m) /\ is_uint (PendingInboundCacao m) /\ is_uint (PendingInboundAsset m).

(** ** Lists of pools behave as a map *)

Lemma find_map_replace (m : Pools) (pool : Pool) (asset : Asset) :
  Asset_Equals (Pool_Asset pool) asset = false ->
  List.find (fun p => Asset_Equals (Pool_Asset p) asset) (Pools_Set m pool) =
  List.find (fun p => Asset_Equals (Pool_Asset p) asset) m.
Proof.
  intros Hne. unfold Pools_Set. induction m as [|p m IH]; cbn; [by rewrite Hne|].
  destruct (Asset_Equals (Pool_Asset p) (Pool_Asset pool)) eqn:E; [|by rewrite IH].
  rewrite Hne, IH. replace (Asset_Equals (Pool_Asset p) asset) with false; [done|].
  rewrite <- Hne. symmetry. by apply Asset_Equals_proper.
Qed.

Lemma find_replaced (m : Pools) (pool : Pool) :
  List.find (fun p => Asset_Equals (Pool_Asset p) (Pool_Asset pool)) (Pools_Set m pool) = Some pool.
Proof.
  unfold Pools_Set. induction m as [|p m IH]; cbn; [by rewrite Asset_Equals_refl|].
  destruct (Asset_Equals (Pool_Asset p) (Pool_Asset pool)) eqn:E.
  - by rewrite Asset_Equals_refl.
  - by rewrite E.
Qed.

(** After [Pools.Set] the pool's asset resolves to that pool and every other
    asset resolves as before, although the list always grows by one entry: a
    pool that was already there is present twice. *)
Theorem Pools_Set_spec (m : Pools) (pool : Pool) :
  Pools_Get (Pools_Set m pool) (Pool_Asset pool) = (pool, true) /\
  (forall asset, Asset_Equals (Pool_Asset pool) asset = false ->
     Pools_Get (Pools_Set m pool) asset = Pools_Get m asset) /\
  length (Pools_Set m pool) = S (length m).
Proof.
  split_and!.
  - unfold Pools_Get. by rewrite find_replaced.
  - intros asset Hne. unfold Pools_Get. by rewrite find_map_replace.
  - unfold Pools_Set. rewrite length_app, length_map. cbn. lia.
Qed.

(** ** Synth units *)

Section units.
Context {U : SdkUint} {UL : SdkUintLaws U} {V : Semver}.

Lemma GetPoolUnits_Ok m u :
  GetPoolUnits m = Ok u <-> u = LPUnits m + SynthUnits m /\ is_uint (LPUnits m + SynthUnits m).
Proof. apply uint_add_Ok. Qed.

(** The synth units of a pool that is not a vault, in terms of the supply. *)
Lemma CalcUnitsV80_Ok m s m' u :
  pool_wf m -> is_uint s -> 0 < BalanceAsset m -> Asset_Synth (Pool_Asset m) = false ->
  CalcUnitsV80 m s = Ok (m', u) ->
  m' = set_SynthUnits m (LPUnits m * s / Z.max 1 (2 * BalanceAsset m - s)) /\
  u = LPUnits m' + SynthUnits m' /\ is_uint u.
Proof.
  intros (_ & Ha & Hl & _) Hs Hpos Hv. unfold CalcUnitsV80, IsVaultAsset, IsSyntheticAsset.
  rewrite Hv, (proj2 (Z.eqb_neq (BalanceAsset m) 0)) by lia. cbn [orb]. intros H.
  invert_ok. apply uint_mul_Ok in Hv2 as [-> Hm]. apply uint_mul64_Ok in Hv3 as [-> ?].
  apply SafeSub_Ok in Hv4; [subst v3|done..]. apply GetPoolUnits_Ok in Hv1 as [-> ?].
  rewrite Z.mul_comm in Hv5.
  assert (Hd : (if Z.max 0 (BalanceAsset m * 2 - s) =? 0 then 1
                else Z.max 0 (BalanceAsset m * 2 - s)) = Z.max 1 (2 * BalanceAsset m - s))
    by (destruct (Z.eqb_spec (Z.max 0 (BalanceAsset m * 2 - s)) 0); lia).
  rewrite Hd in Hv5. apply uint_quo_Ok in Hv5 as (_ & -> & _); [|unfold is_uint in *; nia|lia].
  split; [by rewrite (Z.mul_comm s)|done].
Qed.

(** Whatever the supply, only the synth units change. *)
Lemma CalcUnits_shape m version s m' u :
  pool_wf m -> is_uint s -> CalcUnits m version s = Ok (m', u) ->
  exists su, is_uint su /\ m' = set_SynthUnits m su.
Proof.
  intros (_ & Ha & Hl & Hs & _) Hu H. unfold CalcUnits in H. destruct (GTE _ _).
  - unfold CalcUnitsV80 in H. apply bind_Ok in H as (m1 & H1 & H).
    apply bind_Ok in H as (v & _ & H). injection H as <- _.
    destruct (_ || _) in H1; invert_ok; [by exists 0|].
    apply uint_mul_Ok in Hv as [-> ?]. apply uint_mul64_Ok in Hv0 as [-> ?].
    apply SafeSub_Ok in Hv1; [|done..]. eexists. split; [|reflexivity].
    apply uint_quo_Ok in Hv2 as (_ & -> & ?); [done|unfold is_uint in *; nia|].
    destruct (_ =? 0); lia.
  - apply bind_Ok in H as (v & _ & H). injection H as <- _. exists (SynthUnits m).
    split; [done|]. by destruct m.
Qed.

Lemma CalcUnitsV80_returns m s :
  pool_wf m -> 0 < BalanceAsset m -> Asset_Synth (Pool_Asset m) = false ->
  0 <= s < 2 * BalanceAsset m -> is_uint (2 * BalanceAsset m) -> is_uint (LPUnits m * s) ->
  is_uint (LPUnits m + LPUnits m * s / (2 * BalanceAsset m - s)) ->
  let su := LPUnits m * s / (2 * BalanceAsset m - s) in
  CalcUnitsV80 m s = Ok (set_SynthUnits m su, LPUnits m + su).
Proof.
  intros Hwf Hpos Hv Hs Ha Hm Hu su. unfold CalcUnitsV80, IsVaultAsset, IsSyntheticAsset.
  rewrite Hv, (proj2 (Z.eqb_neq (BalanceAsset m) 0)) by lia.
  rewrite uint_mul_law, checked_in by done.
  rewrite uint_mul64_law, (Z.mul_comm _ 2), checked_in by done.
  cbn -[SafeSub uint_quo].
  rewrite SafeSub_total, Z.max_r by (unfold is_uint in *; lia).
  cbn -[uint_quo]. rewrite (proj2 (Z.eqb_neq (2 * BalanceAsset m - s) 0)) by lia.
  destruct (uint_quo (LPUnits m * s) (2 * BalanceAsset m - s)) as [q|e|] eqn:Eq.
  - apply uint_quo_Ok in Eq as (_ & -> & _); [|unfold is_uint in *; lia..].
    cbn. unfold GetPoolUnits; cbn. by rewrite uint_add_law, checked_in.
  - rewrite uint_quo_law in Eq. unfold checked_quo in Eq. destruct (_ =? 0); [done|].
    by apply checked_no_Err in Eq.
  - assert (H : uint_quo (LPUnits m * s) (2 * BalanceAsset m - s) = Ok su); [|congruence].
    apply uint_quo_Ok; [unfold is_uint in *; lia..|].
    split_and!; [lia|done|]. apply is_uint_div; [done|lia].
Qed.

(** [CalcUnits] sets the synth units so that the synth holders own the share
    [s / 2A] of the pool's units, rounded down: [su * 2A <= s * (L + su)], and
    one unit more would exceed it. The LP units and the balances stay. *)
Theorem CalcUnits_share m version s :
  GTE version (semver_release 0 80 0) = true ->
  pool_wf m -> 0 < BalanceAsset m -> Asset_Synth (Pool_Asset m) = false ->
  0 <= s < 2 * BalanceAsset m -> is_uint (2 * BalanceAsset m) -> is_uint (LPUnits m * s) ->
  is_uint (LPUnits m + LPUnits m * s / (2 * BalanceAsset m - s)) ->
  exists su, CalcUnits m version s = Ok (set_SynthUnits m su, LPUnits m + su) /\
    0 <= su /\ su * (2 * BalanceAsset m) <= s * (LPUnits m + su) /\
    s * (LPUnits m + (su + 1)) < (su + 1) * (2 * BalanceAsset m).
Proof.
  intros Hver Hwf Hpos Hv Hs Ha Hm Hu. unfold CalcUnits. rewrite Hver.
  eexists. split; [by apply CalcUnitsV80_returns|].
  set (d := 2 * BalanceAsset m - s) in *.
  pose proof (Z.div_mod (LPUnits m * s) d). pose proof (Z.mod_pos_bound (LPUnits m * s) d).
  pose proof (Z.div_pos (LPUnits m * s) d). unfold is_uint in *. nia.
Qed.

(** ** The liquidity unit value index *)

Lemma GetLUVI_Ok m r :
  pool_wf m -> GetLUVI m = Ok r -> 0 < LPUnits m + SynthUnits m ->
  r = Z.sqrt (BalanceCacao m * 10 ^ 12 * (BalanceAsset m * 10 ^ 12)) / (LPUnits m + SynthUnits m).
Proof.
  intros (Hc & Ha & _) H Hu. unfold GetLUVI in H. invert_ok.
  all: apply uint_mul64_Ok in Hv as [-> ?]; apply uint_mul64_Ok in Hv0 as [-> ?];
    apply GetPoolUnits_Ok in Hv1 as [-> ?].
  { apply Z.eqb_eq in Eb. lia. }
  apply uint_of_big_Ok in H as [-> _].
  rewrite Z.quot_div_nonneg; [done| |done]. apply Z.sqrt_nonneg.
Qed.

(** A deeper product at the same units has at least the same index. *)
Lemma GetLUVI_mono m m' r r' :
  pool_wf m -> pool_wf m' -> GetLUVI m = Ok r -> GetLUVI m' = Ok r' ->
  0 < LPUnits m + SynthUnits m ->
  LPUnits m' + SynthUnits m' = LPUnits m + SynthUnits m ->
  BalanceCacao m * BalanceAsset m <= BalanceCacao m' * BalanceAsset m' -> r <= r'.
Proof.
  intros Hm Hm' Hr Hr' Hu He Hp.
  apply GetLUVI_Ok in Hr; [|done..]. apply GetLUVI_Ok in Hr'; [|done|lia]. subst.
  rewrite He. apply Z.div_le_mono; [done|]. apply Z.sqrt_le_mono. lia.
Qed.

(** [GetLUVI] is the largest [r] with [(r * units)^2 <= cacao * asset * 10^24]:
    the geometric mean of the balances per unit, in 10^12ths, rounded down. *)
Theorem GetLUVI_spec m r :
  pool_wf m -> GetLUVI m = Ok r -> 0 < LPUnits m + SynthUnits m ->
  let units := LPUnits m + SynthUnits m in
  let n := BalanceCacao m * BalanceAsset m * 10 ^ 24 in
  0 <= r /\ (r * units) ^ 2 <= n < ((r + 1) * units) ^ 2.
Proof.
  intros Hwf H Hu units n. apply GetLUVI_Ok in H; [|done..].
  destruct Hwf as ([] & [] & _).
  assert (Hn : BalanceCacao m * 10 ^ 12 * (BalanceAsset m * 10 ^ 12) = n) by (unfold n; lia).
  rewrite Hn in H. fold units in H, Hu. assert (0 <= n) by (unfold n; nia).
  pose proof (Z.sqrt_spec n ltac:(done)) as [Hs1 Hs2]. pose proof (Z.sqrt_nonneg n) as Hs0.
  set (q := Z.sqrt n) in *. clearbody q n units.
  pose proof (Z.div_mod q units). pose proof (Z.mod_pos_bound q units).
  assert (0 <= r) by (subst r; by apply Z.div_pos). rewrite !Z.pow_2_r.
  assert (r * units <= q < (r + 1) * units) by (subst r; nia). nia.
Qed.
End units.

(** ** Witnesses *)

Section pools_witnesses.
Import Reference.

Definition example_pool : Pool :=
  mkPool 4000 100 BTCAsset 1000 PoolStatus_Available 0 8 0 0 0.

Lemma example_pool_wf : pool_wf example_pool.
Proof. by repeat split. Qed.

Lemma CalcUnits_share_witness :
  exists su, CalcUnits example_pool (semver_release 1 118 0) 40 =
      Ok (set_SynthUnits example_pool su, LPUnits example_pool + su) /\
    0 <= su /\ su * (2 * 100) <= 40 * (1000 + su) /\
    40 * (1000 + (su + 1)) < (su + 1) * (2 * 100).
Proof.
  apply (CalcUnits_share example_pool (semver_release 1 118 0) 40);
    [done|apply example_pool_wf|done|done|done|by vm_compute..].
Defined.

Lemma GetLUVI_spec_witness :
  GetLUVI example_pool = Ok 632455532033 /\
  0 <= 632455532033 /\
  (632455532033 * 1000) ^ 2 <= 4000 * 100 * 10 ^ 24 < ((632455532033 + 1) * 1000) ^ 2.
Proof.
  split; [by vm_compute|].
  apply (GetLUVI_spec example_pool); [apply example_pool_wf|by vm_compute|done].
Defined.
End pools_witnesses.
