(* ===== verification/Mimirs.v ===== *)
(** [x/mayachain/types/type_mimir.go]: the votes of nodes on network parameters. *)
From S2P Require Import Prelude GoText Sdk Votes.

Record NodeMimir := mkNodeMimir {
  Mimir_Key : string;
  Mimir_Value : Z;
  Mimir_Signer : AccAddress;
}.

#[export] Instance NodeMimir_eq_dec : EqDecision NodeMimir.
Proof. solve_decision. Defined.

(** The range over a Go map visits its entries in an order the language does not
    fix. *)
Class MapRange := {
  map_range : gmap Z nat -> list (Z * nat);
}.

Class MapRangeLaws (R : MapRange) : Prop := {
  map_range_perm : forall m, Permutation (map_range m) (map_to_list m);
}.

#[local] Arguments EqualFold : simpl never.

Section mimirs.
Context `{A : SdkAddress}.

Definition mimir_of (key : string) (acc : AccAddress) (mim : NodeMimir) : bool :=
  acc_equals (Mimir_Signer mim) acc && EqualFold (Mimir_Key mim) key.

Definition NodeMimirs_Has (m : list NodeMimir) (key : string) (acc : AccAddress) : bool :=
  existsb (mimir_of key acc) m.

Definition NodeMimirs_Get (m : list NodeMimir) (key : string) (acc : AccAddress) : Z * bool :=
  match List.find (mimir_of key acc) m with
  | Some mim => (Mimir_Value mim, true)
  | None => (0, false)
  end.

(** Overwrite the first vote of that node on that key, or append one. *)
Fixpoint NodeMimirs_Set (m : list NodeMimir) (key : string) (val : Z) (acc : AccAddress)
  : list NodeMimir :=
  match m with
  | [] => [mkNodeMimir key val acc]
  | mim :: m' =>
      if mimir_of key acc mim then mkNodeMimir (Mimir_Key mim) val (Mimir_Signer mim) :: m'
      else mim :: NodeMimirs_Set m' key val acc
  end.

Definition NodeMimirs_Delete (m : list NodeMimir) (key : string) (acc : AccAddress)
  : list NodeMimir := remove_first (mimir_of key acc) m.

(** [counter[val]++], from zero when the value is new. *)
Definition count_vote (val : Z) (counter : gmap Z nat) : gmap Z nat :=
  <[val := S (default 0%nat (counter !! val))]> counter.

(** The inner loop: the vote counts once for every occurrence of its node. *)
Definition count_active (mimir : NodeMimir) (st : gmap Z nat * gset string) (acc : AccAddress)
  : gmap Z nat * gset string :=
  let '(counter, voted) := st in
  if negb (acc_equals acc (Mimir_Signer mimir)) then (counter, voted)
  else (count_vote (Mimir_Value mimir) counter, {[ acc_string (Mimir_Signer mimir) ]} ∪ voted).

(** One vote of the list: a node votes once on a key. *)
Definition count_mimir (key : string) (active : list AccAddress)
    (st : gmap Z nat * gset string) (mimir : NodeMimir) : gmap Z nat * gset string :=
  let '(counter, voted) := st in
  if negb (EqualFold (Mimir_Key mimir) key) then (counter, voted)
  else if bool_decide (acc_string (Mimir_Signer mimir) ∈ voted) then (counter, voted)
  else foldl (count_active mimir) (counter, voted) active.

Definition tally (m : list NodeMimir) (key : string) (active : list AccAddress) : gmap Z nat :=
  fst (foldl (count_mimir key active) (∅, ∅) m).

Context `{R : MapRange}.

(** The first value, in the order of the range, that has the majority. *)
Definition countActive (m : list NodeMimir) (key : string) (active : list AccAddress)
    (maj : Z -> Z -> bool) : Z * bool :=
  match List.find (fun vc => maj (Z.of_nat (snd vc)) (Z.of_nat (length active)))
          (map_range (tally m key active)) with
  | Some (val, _) => (val, true)
  | None => (0, false)
  end.

Definition NodeMimirs_HasSuperMajority (m : list NodeMimir) (key : string)
    (nas : list AccAddress) : Z * bool := countActive m key nas HasSuperMajority.

Definition NodeMimirs_HasSimpleMajority (m : list NodeMimir) (key : string)
    (nas : list AccAddress) : Z * bool := countActive m key nas HasSimpleMajority.

(** Not implemented. *)
Definition NodeMimirs_HasMinority (m : list NodeMimir) (key : string)
    (nas : list AccAddress) : Z * bool := (0, false).
End mimirs.

(** ** The votes are a map from node and key to value *)

Section mimir_map.
Context {A : SdkAddress} {AL : SdkAddressLaws A}.

Lemma mimir_of_spec key acc mim :
  mimir_of key acc mim = true <-> Mimir_Signer mim = acc /\ EqualFold (Mimir_Key mim) key = true.
Proof. unfold mimir_of. rewrite andb_true_iff, acc_equals_law. done. Qed.

Lemma EqualFold_trans_r a b c : EqualFold a b = true -> EqualFold a c = EqualFold b c.
Proof.
  intros Hab. apply EqualFold_spec in Hab. apply eq_iff_eq_true.
  rewrite !EqualFold_spec. by rewrite Hab.
Qed.

(** A vote is stored under the node and the key, whatever the key's case:
    [Get] returns the value last [Set], other votes are as before, and after
    [Delete] of a vote [Set] on a list that had none, the list is as before. *)
Theorem NodeMimirs_Set_spec m key val acc :
  let m' := NodeMimirs_Set m key val acc in
  NodeMimirs_Get m' key acc = (val, true) /\
  (forall key' acc', acc' <> acc \/ EqualFold key' key = false ->
     NodeMimirs_Get m' key' acc' = NodeMimirs_Get m key' acc') /\
  (NodeMimirs_Has m key acc = false -> NodeMimirs_Delete m' key acc = m) /\
  (NodeMimirs_Has m key acc = true -> length m' = length m).
Proof.
  cbn zeta. unfold NodeMimirs_Get, NodeMimirs_Has, NodeMimirs_Delete.
  induction m as [|mim m (IH1 & IH2 & IH3 & IH4)]; cbn [NodeMimirs_Set].
  - assert (Hself : mimir_of key acc (mkNodeMimir key val acc) = true)
      by (apply mimir_of_spec; split; [done|apply EqualFold_refl]).
    cbn -[mimir_of]. rewrite Hself. split_and!; [done| |done|done].
    intros key' acc' Hd. destruct (mimir_of key' acc' _) eqn:E; [|done].
    apply mimir_of_spec in E as [Hs Hk]. cbn in Hs, Hk. rewrite EqualFold_sym in Hk.
    destruct Hd; congruence.
  - destruct (mimir_of key acc mim) eqn:E; cbn -[mimir_of].
    + apply mimir_of_spec in E as [Hs Hk].
      assert (Hself : mimir_of key acc (mkNodeMimir (Mimir_Key mim) val (Mimir_Signer mim)) = true)
        by (by apply mimir_of_spec).
      rewrite Hself. split_and!; [done| |by rewrite (proj2 (mimir_of_spec key acc mim))|done].
      intros key' acc' Hd. unfold mimir_of. cbn.
      destruct (acc_equals (Mimir_Signer mim) acc') eqn:Ea; cbn; [|done].
      apply acc_equals_law in Ea. destruct Hd as [Hd|Hd]; [congruence|].
      rewrite (EqualFold_trans_r _ _ key' Hk), EqualFold_sym, Hd. done.
    + rewrite E. split_and!; [done| | |].
      * intros key' acc' Hd. destruct (mimir_of key' acc' mim); [done|]. by apply IH2.
      * intros Hn. f_equal. by apply IH3.
      * intros Hh. f_equal. by apply IH4.
Qed.
End mimir_map.

(** ** Counting votes *)

(** The number of votes a counter holds. *)
Definition counted (c : gmap Z nat) : Z := map_sum (fun _ n => Z.of_nat n) c.

Lemma counted_count_vote v c : counted (count_vote v c) = counted c + 1.
Proof.
  unfold counted, count_vote. rewrite map_sum_insert.
  destruct (c !! v) as [n|]; cbn; unfold id; lia.
Qed.

Lemma counted_two (c : gmap Z nat) v1 v2 n1 n2 :
  v1 <> v2 -> c !! v1 = Some n1 -> c !! v2 = Some n2 ->
  Z.of_nat n1 + Z.of_nat n2 <= counted c.
Proof.
  intros Hne H1 H2. unfold counted. rewrite (map_sum_lookup _ c v1 n1 H1).
  assert (H2' : delete v1 c !! v2 = Some n2) by (by rewrite lookup_delete_ne).
  pose proof (map_sum_entry (fun _ n => Z.of_nat n) (delete v1 c) v2 n2) as He. cbn in He.
  assert (Z.of_nat n2 <= map_sum (fun _ n => Z.of_nat n) (delete v1 c)); [|lia].
  apply He; [intros; lia|done].
Qed.

Section tally.
Context {A : SdkAddress} {AL : SdkAddressLaws A}.

(** The active accounts among those that voted. *)
Definition among (voted : gset string) (acc : AccAddress) : bool :=
  bool_decide (acc_string acc ∈ voted).

Definition occurrences (signer : AccAddress) (l : list AccAddress) : nat :=
  length (List.filter (fun acc => acc_equals acc signer) l).

Lemma count_occurrences mimir counter voted l :
  let '(counter', voted') := foldl (count_active mimir) (counter, voted) l in
  counted counter' = counted counter + Z.of_nat (occurrences (Mimir_Signer mimir) l) /\
  voted ⊆ voted' /\
  (occurrences (Mimir_Signer mimir) l <> 0%nat -> acc_string (Mimir_Signer mimir) ∈ voted').
Proof.
  revert counter voted. induction l as [|acc l IH]; intros counter voted; cbn [foldl].
  { unfold occurrences. cbn. split_and!; [lia|done|done]. }
  unfold occurrences. cbn [List.filter]. fold (occurrences (Mimir_Signer mimir) l).
  unfold count_active at 2. destruct (acc_equals acc (Mimir_Signer mimir)); cbn [negb].
  - specialize (IH (count_vote (Mimir_Value mimir) counter)
                   ({[ acc_string (Mimir_Signer mimir) ]} ∪ voted)).
    destruct (foldl _ _ l) as [counter' voted']. destruct IH as (-> & Hsub & _).
    rewrite counted_count_vote. cbn [length]. fold (occurrences (Mimir_Signer mimir) l).
    split_and!; [lia|set_solver|set_solver].
  - apply IH.
Qed.

Lemma among_more (signer : AccAddress) (voted voted' : gset string) l :
  acc_string signer ∉ voted -> voted ⊆ voted' ->
  (occurrences signer l <> 0%nat -> acc_string signer ∈ voted') ->
  (length (List.filter (among voted) l) + occurrences signer l <=
   length (List.filter (among voted') l))%nat.
Proof.
  intros Hn Hsub Hs.
  assert (Hmono : forall x, among voted x = true -> among voted' x = true).
  { intros x. unfold among. rewrite !bool_decide_eq_true. apply Hsub. }
  assert (Hsig : among voted signer = false) by (by apply bool_decide_eq_false_2).
  destruct (decide (occurrences signer l = 0%nat)) as [Hz|Hz].
  - rewrite Hz. clear Hz Hs. induction l as [|x l IH]; cbn; [done|].
    specialize (Hmono x). destruct (among voted x), (among voted' x); cbn; lia.
  - assert (Hsig' : among voted' signer = true) by (by apply bool_decide_eq_true_2, Hs).
    clear Hz Hs. unfold occurrences in *. induction l as [|x l IH]; cbn; [done|].
    specialize (Hmono x). destruct (acc_equals x signer) eqn:E.
    + apply acc_equals_law in E as ->. rewrite Hsig, Hsig'. cbn. lia.
    + destruct (among voted x), (among voted' x); cbn; lia.
Qed.

(** No more votes are counted than there are active accounts. *)
Lemma tally_bound m key active : counted (tally m key active) <= Z.of_nat (length active).
Proof.
  unfold tally.
  assert (H : forall st, counted (fst st) <= Z.of_nat (length (List.filter (among (snd st)) active)) ->
    let st' := foldl (count_mimir key active) st m in
    counted (fst st') <= Z.of_nat (length (List.filter (among (snd st')) active))).
  { induction m as [|mimir m IH]; intros st Hst; [done|]. cbn [foldl]. apply IH.
    destruct st as [counter voted]. unfold count_mimir.
    destruct (EqualFold (Mimir_Key mimir) key); cbn [negb]; [|done].
    case_bool_decide as Hv; [done|].
    pose proof (count_occurrences mimir counter voted active) as Hc.
    destruct (foldl _ _ active) as [counter' voted']. cbn [fst snd] in *.
    destruct Hc as (-> & Hsub & Hin).
    pose proof (among_more (Mimir_Signer mimir) voted voted' active Hv Hsub Hin). lia. }
  specialize (H (∅, ∅)). cbn zeta in H. etrans; [apply H|].
  - cbn [fst]. assert (counted ∅ = 0) as -> by done. lia.
  - pose proof (List.filter_length_le
      (among (snd (foldl (count_mimir key active) (∅, ∅) m))) active). lia.
Qed.

(** The value a super majority of the active nodes votes for does not depend
    on the order in which the runtime ranges over the counter: at most one value
    has it, so all nodes read the same. *)
Theorem NodeMimirs_super_majority_deterministic (R1 R2 : MapRange)
    {RL1 : MapRangeLaws R1} {RL2 : MapRangeLaws R2} m key nas :
  Z.of_nat (length nas) < 2 ^ 62 ->
  NodeMimirs_HasSuperMajority (R := R1) m key nas = NodeMimirs_HasSuperMajority (R := R2) m key nas.
Proof.
  intros Hn. unfold NodeMimirs_HasSuperMajority, countActive.
  pose proof (tally_bound m key nas) as Hb. set (c := tally m key nas) in *.
  set (p := fun vc : Z * nat => HasSuperMajority (Z.of_nat (snd vc)) (Z.of_nat (length nas))).
  assert (Hin : forall (R : MapRange) (_ : MapRangeLaws R) v n,
    List.find p (map_range c) = Some (v, n) -> c !! v = Some n /\ p (v, n) = true).
  { intros R RL v n [Hi Hp]%find_some. split; [|done].
    apply elem_of_map_to_list, list_elem_of_In.
    by apply (Permutation_in _ (map_range_perm c)). }
  assert (Hout : forall (R : MapRange) (_ : MapRangeLaws R) v n,
    List.find p (map_range c) = None -> c !! v = Some n -> p (v, n) = false).
  { intros R RL v n Hf Hv. apply (find_none _ _ Hf).
    apply elem_of_map_to_list, list_elem_of_In in Hv.
    by apply (Permutation_in _ (Permutation_sym (map_range_perm c))). }
  destruct (List.find p (map_range (MapRange := R1) c)) as [[v1 n1]|] eqn:E1,
    (List.find p (map_range (MapRange := R2) c)) as [[v2 n2]|] eqn:E2; [| | |done].
  - apply Hin in E1 as [H1 P1]; [|done]. apply Hin in E2 as [H2 P2]; [|done].
    apply HasSuperMajority_iff in P1; [|done]. apply HasSuperMajority_iff in P2; [|done].
    destruct (decide (v1 = v2)) as [->|Hne]; [done|].
    pose proof (counted_two c v1 v2 n1 n2 Hne H1 H2). cbn in P1, P2. lia.
  - apply Hin in E1 as [H1 P1]; [|done]. by rewrite (Hout R2 RL2 v1 n1 E2 H1) in P1.
  - apply Hin in E2 as [H2 P2]; [|done]. by rewrite (Hout R1 RL1 v2 n2 E1 H2) in P2.
Qed.
End tally.

(** ** The order can matter *)

Module ReferenceRange.
#[export] Instance ascending : MapRange := {| map_range := map_to_list |}.
#[export] Instance ascending_laws : MapRangeLaws ascending.
Proof. by split. Qed.

Definition descending : MapRange := {| map_range m := rev (map_to_list m) |}.
Lemma descending_laws : MapRangeLaws descending.
Proof. split. intros m. cbn. symmetry. apply Permutation_rev. Qed.
End ReferenceRange.

Section mimirs_witnesses.
Import Reference ReferenceRange.

(** A simple majority is not deterministic: when the active nodes split in
    two halves, both values have it, and the value returned is the one the range
    over the counter reaches first. *)
Theorem NodeMimirs_simple_majority_ambiguous :
  let m := [mkNodeMimir "KEY" 1 "a"; mkNodeMimir "key" 2 "b"] in
  NodeMimirs_HasSimpleMajority (R := ascending) m "Key" ["a"; "b"] <>
  NodeMimirs_HasSimpleMajority (R := descending) m "Key" ["a"; "b"].
Proof. by vm_compute. Qed.

Lemma NodeMimirs_super_majority_deterministic_witness :
  let m := [mkNodeMimir "KEY" 1 "a"; mkNodeMimir "key" 2 "b"; mkNodeMimir "key" 1 "c"] in
  NodeMimirs_HasSuperMajority (R := ascending) m "Key" ["a"; "b"; "c"] = (1, true) /\
  NodeMimirs_HasSuperMajority (R := ascending) m "Key" ["a"; "b"; "c"] =
  NodeMimirs_HasSuperMajority (R := descending) m "Key" ["a"; "b"; "c"].
Proof.
  cbv zeta. split; [by vm_compute|].
  apply (NodeMimirs_super_majority_deterministic ascending descending
    (RL1 := ascending_laws) (RL2 := descending_laws)). done.
Defined.

Lemma NodeMimirs_Set_spec_witness :
  let m := [mkNodeMimir "KEY" 1 "a"; mkNodeMimir "key" 2 "b"] in
  let m' := NodeMimirs_Set m "Key" 5 "b" in
  NodeMimirs_Get m' "Key" "b" = (5, true) /\
  (forall key' acc', acc' <> "b" \/ EqualFold key' "Key" = false ->
     NodeMimirs_Get m' key' acc' = NodeMimirs_Get m key' acc') /\
  (NodeMimirs_Has m "Key" "b" = false -> NodeMimirs_Delete m' "Key" "b" = m) /\
  (NodeMimirs_Has m "Key" "b" = true -> length m' = length m).
Proof.
  exact (NodeMimirs_Set_spec [mkNodeMimir "KEY" 1 "a"; mkNodeMimir "key" 2 "b"] "Key" 5 "b").
Defined.
End mimirs_witnesses.
