(* ===== verification/StreamingSwaps.v ===== *)
(** [x/mayachain/types/type_streaming_swap.go]: a swap split into sub-swaps. *)
From S2P Require Import Prelude Sdk Shares Txs.

Record StreamingSwap := mkStreamingSwap {
  Swp_TxID : TxID;
  Interval : Z;
  Quantity : Z;
  Count : Z;
  LastHeight : Z;
  TradeTarget : Z;
  Deposit : Z;
  In : Z;
  Out : Z;
  FailedSwaps : list Z;
  FailedSwapReasons : list string;
}.

Definition NewStreamingSwap (hash : TxID) (quan interval target deposit : Z) : StreamingSwap :=
  mkStreamingSwap hash interval quan 0 0 target deposit 0 0 [] [].

Definition StreamingSwap_Valid (m : StreamingSwap) : outcome unit :=
  if Quantity m <? 1 then Err "quantity cannot be less than 1"
  else if Interval m <? 1 then Err "interval cannot be less than 1"
  else if Deposit m =? 0 then Err "deposit amount cannot be zero"
  else Ok tt.

Definition StreamingSwap_IsDone (m : StreamingSwap) : bool := Quantity m <=? Count m.

Definition IsLastSwap (m : StreamingSwap) : bool := Quantity m <=? u64 (Count m + 1).

Definition with_In_Out (m : StreamingSwap) (i o : Z) : StreamingSwap :=
  mkStreamingSwap (Swp_TxID m) (Interval m) (Quantity m) (Count m) (LastHeight m) (TradeTarget m)
    (Deposit m) i o (FailedSwaps m) (FailedSwapReasons m).

Definition with_Count (m : StreamingSwap) (c : Z) : StreamingSwap :=
  mkStreamingSwap (Swp_TxID m) (Interval m) (Quantity m) c (LastHeight m) (TradeTarget m)
    (Deposit m) (In m) (Out m) (FailedSwaps m) (FailedSwapReasons m).

Section streaming.
Context `{U : SdkUint} `{D : SdkDec} `{V : Semver}.

Definition DefaultSwapSize (m : StreamingSwap) : outcome Z :=
  if Quantity m =? 0 then Ok 0 else uint_quo64 (Deposit m) (Quantity m).

(** The size of the next sub-swap and its price target. *)
Definition NextSizeV110 (m : StreamingSwap) : outcome (Z * Z) :=
  swapSize ← DefaultSwapSize m;
  after ← uint_add (In m) swapSize;
  swapSize ←
    (if (Deposit m <? after) || IsLastSwap m then SafeSub (Deposit m) (In m) else Ok swapSize);
  remainingIn ← SafeSub (Deposit m) (In m);
  remainingOut ← SafeSub (TradeTarget m) (Out m);
  let target := GetSafeShare swapSize remainingIn remainingOut in
  Ok (swapSize, target).

Definition NextSize (m : StreamingSwap) (version : Version) : outcome (Z * Z) := NextSizeV110 m.

(** ** One attempt at a sub-swap *)

(** What the swap handler does with the amounts when the sub-swap emitted
    [inl emit]; it leaves them alone when the sub-swap failed. *)
Definition handle_sub_swap (m : StreamingSwap) (result : Z + string) : outcome StreamingSwap :=
  '(size, _) ← NextSizeV110 m;
  match result with
  | inl emit =>
      i ← uint_add (In m) size;
      o ← uint_add (Out m) emit;
      Ok (with_In_Out m i o)
  | inr _ => Ok m
  end.

(** What the swap queue records afterwards. *)
Definition record_attempt (m : StreamingSwap) (result : Z + string) (height : Z) : StreamingSwap :=
  let m := with_Count m (u64 (Count m + 1)) in
  match result with
  | inl _ =>
      mkStreamingSwap (Swp_TxID m) (Interval m) (Quantity m) (Count m) height (TradeTarget m)
        (Deposit m) (In m) (Out m) (FailedSwaps m) (FailedSwapReasons m)
  | inr reason =>
      mkStreamingSwap (Swp_TxID m) (Interval m) (Quantity m) (Count m) height (TradeTarget m)
        (Deposit m) (In m) (Out m) (FailedSwaps m ++ [Count m]) (FailedSwapReasons m ++ [reason])
  end.

(** Where a streaming swap is after an attempt: still in the queue, or finished,
    its output sent and the rest of its deposit refunded. *)
Inductive progress :=
  | Running (m : StreamingSwap)
  | Finished (m : StreamingSwap) (refund : Z).

(** A swap that is done pays out [Out]. The refund of a remainder dereferences
    the error of the last attempt. *)
Definition settle (m : StreamingSwap) (result : Z + string) : outcome progress :=
  if In m <? Deposit m then
    match result with
    | inl _ => Panic
    | inr _ => remainder ← SafeSub (Deposit m) (In m); Ok (Finished m remainder)
    end
  else Ok (Finished m 0).

(** A failure before anything was swapped refunds the deposit. *)
Definition attempt (m : StreamingSwap) (r : (Z + string) * Z) : outcome progress :=
  let '(result, height) := r in
  m1 ← handle_sub_swap m result;
  let refund_all := match result with inl _ => false | inr _ => (In m =? 0) && (Out m =? 0) end in
  if refund_all then Ok (Finished m (Deposit m))
  else
    let m2 := record_attempt m1 result height in
    if is_ok (StreamingSwap_Valid m2) && StreamingSwap_IsDone m2 then settle m2 result
    else Ok (Running m2).

(** The attempts of the queue, until the swap is finished. *)
Fixpoint attempts (m : StreamingSwap) (rs : list ((Z + string) * Z)) : outcome progress :=
  match rs with
  | [] => Ok (Running m)
  | r :: rs' =>
      p ← attempt m r;
      match p with
      | Running m' => attempts m' rs'
      | Finished _ _ => Ok p
      end
  end.
End streaming.

(** ** Conservation of the deposit *)

Section streaming_facts.
Context {U : SdkUint} {D : SdkDec} {UL : SdkUintLaws U} {DL : SdkDecLaws D}.

Definition swp_ok (m : StreamingSwap) : Prop :=
  0 < Quantity m < 2 ^ 64 - 1 /\ 0 <= Count m < 2 ^ 64 - 1 /\
  0 <= In m <= Deposit m /\ Deposit m < 2 ^ 255 /\ is_uint (Out m) /\ is_uint (TradeTarget m).

(** The size the code asks for: an equal part, or all that remains at the end. *)
Definition next_size (m : StreamingSwap) : Z :=
  if (Deposit m <? In m + Deposit m / Quantity m) || (Quantity m <=? Count m + 1)
  then Deposit m - In m else Deposit m / Quantity m.

Lemma next_size_range m : swp_ok m -> 0 <= next_size m <= Deposit m - In m.
Proof.
  intros (Hq & _ & Hi & _). unfold next_size.
  assert (0 <= Deposit m / Quantity m) by (apply Z.div_pos; lia).
  destruct (Z.ltb_spec (Deposit m) (In m + Deposit m / Quantity m)); cbn [orb]; [lia|].
  destruct (Z.leb_spec (Quantity m) (Count m + 1)); lia.
Qed.

Lemma NextSizeV110_Ok m :
  swp_ok m -> exists target, NextSizeV110 m = Ok (next_size m, target) /\
    0 <= target <= Z.max 0 (TradeTarget m - Out m).
Proof.
  intros Hok. pose proof (next_size_range m Hok) as Hr.
  destruct Hok as (Hq & Hc & Hi & Hd & Ho & Ht). unfold NextSizeV110, DefaultSwapSize.
  rewrite (proj2 (Z.eqb_neq (Quantity m) 0)) by lia.
  assert (Hdiv : 0 <= Deposit m / Quantity m <= Deposit m)
    by (rewrite <- Z.quot_div_nonneg by lia; split; [apply quot_nonneg; lia|apply quot_le_self; lia]).
  assert (uint_quo64 (Deposit m) (Quantity m) = Ok (Deposit m / Quantity m)) as ->.
  { apply uint_quo64_Ok; [lia..|]. unfold is_uint. lia. }
  cbn [mbind outcome_bind]. rewrite uint_add_law, checked_in by (unfold is_uint; lia).
  cbn [mbind outcome_bind]. unfold IsLastSwap. rewrite u64_id by (unfold is_u64; lia).
  assert (Hsz : (if (Deposit m <? In m + Deposit m / Quantity m) || (Quantity m <=? Count m + 1)
                 then SafeSub (Deposit m) (In m) else Ok (Deposit m / Quantity m)) =
                Ok (next_size m)).
  { unfold next_size. destruct (_ || _); [|done].
    rewrite SafeSub_total by (unfold is_uint; lia). f_equal. lia. }
  rewrite Hsz. cbn [mbind outcome_bind]. rewrite !SafeSub_total by (done || unfold is_uint; lia).
  cbn [mbind outcome_bind]. eexists. split; [reflexivity|]. apply GetSafeShare_range; lia.
Qed.

(** What an attempt emits. *)
Definition emitted (r : (Z + string) * Z) : Z :=
  match fst r with inl emit => emit | inr _ => 0 end.

Lemma next_size_last m : Quantity m <= Count m + 1 -> next_size m = Deposit m - In m.
Proof. intros Hl. unfold next_size. by rewrite (proj2 (Z.leb_le _ _) Hl), orb_true_r. Qed.

Lemma handle_sub_swap_Ok m r :
  swp_ok m -> 0 <= emitted r -> is_uint (Out m + emitted r) ->
  handle_sub_swap m (fst r) =
    Ok (match fst r with
        | inl emit => with_In_Out m (In m + next_size m) (Out m + emit)
        | inr _ => m
        end).
Proof.
  intros Hok Hr Hu. destruct (NextSizeV110_Ok m Hok) as (target & Hn & _).
  pose proof (next_size_range m Hok). destruct Hok as (_ & _ & Hi & Hd & _).
  unfold handle_sub_swap. rewrite Hn. cbn -[uint_add].
  destruct r as [[emit|reason] height]; cbn -[uint_add] in *; [|done].
  rewrite !uint_add_law, (checked_in (In m + _)) by (unfold is_uint; lia).
  cbn [mbind outcome_bind]. by rewrite checked_in.
Qed.

(** A swap that runs: its counters are in range and it is not done. *)
Definition running (m : StreamingSwap) : Prop :=
  swp_ok m /\ Count m < Quantity m /\ 1 <= Interval m /\ 0 < Deposit m.

Definition succeeded (r : (Z + string) * Z) : bool := match fst r with inl _ => true | inr _ => false end.

(** What the attempts made so far have taken of the deposit: an equal part for each that
    succeeded, and all of it if the last of them did. *)
Definition taken (m : StreamingSwap) (rs : list ((Z + string) * Z)) : Z :=
  if (Z.of_nat (length rs) =? Quantity m) && match last rs with Some r => succeeded r | None => false end
  then Deposit m else Z.of_nat (length (List.filter succeeded rs)) * (Deposit m / Quantity m).

(** Where a swap is after the attempts [rs], of which none was the last. *)
Definition ran (m0 : StreamingSwap) (rs : list ((Z + string) * Z)) (m : StreamingSwap) : Prop :=
  running m /\ Count m = Z.of_nat (length rs) /\ Quantity m = Quantity m0 /\ Deposit m = Deposit m0 /\
  Out m = sumZ emitted rs /\ In m = Z.of_nat (length (List.filter succeeded rs)) * (Deposit m0 / Quantity m0).

(** It is over, after its last attempt or because the first that failed had nothing
    before it. *)
Definition over (m0 : StreamingSwap) (rs : list ((Z + string) * Z)) (m : StreamingSwap) (refund : Z) : Prop :=
  Z.of_nat (length rs) <= Quantity m0 /\ Out m = sumZ emitted rs /\ In m = taken m0 rs /\
  0 <= In m <= Deposit m0 /\ refund = Deposit m0 - In m /\
  (Z.of_nat (length rs) = Quantity m0 \/
   refund = Deposit m0 /\ Out m = 0 /\ exists r, last rs = Some r /\ succeeded r = false).

Lemma ran_size m0 rs m : ran m0 rs m -> Count m + 1 < Quantity m ->
  next_size m = Deposit m0 / Quantity m0.
Proof.
  intros (Hok & Hc & Hq & Hd & _ & Hi) Hl. destruct Hok as ((Hq0 & _ & Hi0 & _) & _).
  unfold next_size. rewrite (proj2 (Z.leb_gt _ _)) by lia. rewrite orb_false_r.
  pose proof (List.filter_length_le succeeded rs) as Hle. rewrite Hq, Hd in *.
  assert (H0 : 0 <= Deposit m0 / Quantity m0) by (apply Z.div_pos; lia).
  pose proof (Z.mul_div_le (Deposit m0) (Quantity m0) ltac:(lia)).
  rewrite (proj2 (Z.ltb_ge _ _)); [done|]. rewrite Hi. nia.
Qed.

Lemma emitted_snoc rs r : sumZ emitted (rs ++ [r]) = sumZ emitted rs + emitted r.
Proof. rewrite sumZ_app, sumZ_cons. change (sumZ emitted []) with 0. lia. Qed.

Lemma succeeded_snoc rs r : Z.of_nat (length (List.filter succeeded (rs ++ [r]))) =
  Z.of_nat (length (List.filter succeeded rs)) + (if succeeded r then 1 else 0).
Proof. rewrite List.filter_app, length_app. cbn. destruct (succeeded r); cbn; lia. Qed.

(** One attempt never panics. It leaves a running swap with one attempt less to
    make, or finishes it with its deposit taken or refunded. *)
Lemma attempt_total m0 rs m r :
  ran m0 rs m -> 0 <= emitted r -> is_uint (Out m + emitted r) ->
  exists p, attempt m r = Ok p /\
    match p with
    | Running m' => ran m0 (rs ++ [r]) m'
    | Finished m' refund => over m0 (rs ++ [r]) m' refund
    end.
Proof.
  intros Hran Hr Hu. pose proof Hran as ((Hok & Hcq & Hint & Hdep) & Hcm & HQ & HD & HO & HI).
  unfold attempt. destruct r as [result height].
  pose proof (handle_sub_swap_Ok m (result, height) Hok Hr Hu) as Hh. cbn [fst] in Hh.
  rewrite Hh. clear Hh. pose proof (next_size_range m Hok) as Hsz.
  pose proof (next_size_last m) as Hlast. pose proof (ran_size m0 rs m Hran) as Hpart. cbn [mbind outcome_bind].
  destruct Hok as (Hq & Hc & Hi & Hd & Ho & Ht).
  assert (Hlen : Z.of_nat (length (rs ++ [(result, height)])) = Count m + 1) by (rewrite length_app; cbn; lia).
  unfold ran, over, taken. rewrite last_snoc, emitted_snoc, succeeded_snoc, Hlen, <- HQ, <- HD.
  rewrite <- HQ, <- HD in HI, Hpart. set (part := Deposit m / Quantity m) in *. set (done_ := Z.of_nat (length (List.filter succeeded rs))) in *.
  set (outs := sumZ emitted rs) in *.
  destruct (match result with inl _ => false | inr _ => _ end) eqn:Er.
  { destruct result as [emit|reason]; [done|]. apply andb_true_iff in Er as [Ei%Z.eqb_eq Eo%Z.eqb_eq].
    eexists. split; [reflexivity|]. unfold emitted, succeeded. cbn. rewrite andb_false_r.
    split_and!; [lia|lia|lia|lia|lia|lia|]. right. split_and!; [lia|lia|]. by eexists. }
  assert (Hcount : u64 (Count m + 1) = Count m + 1) by (apply u64_id; unfold is_u64; lia).
  unfold StreamingSwap_Valid, StreamingSwap_IsDone, settle, emitted, running, swp_ok in *.
  destruct result as [emit|reason]; cbn [fst] in *; cbn -[SafeSub];
    rewrite Hcount, (proj2 (Z.ltb_ge _ _) (ltac:(lia) : 1 <= Quantity m)),
      (proj2 (Z.ltb_ge _ _) Hint), (proj2 (Z.eqb_neq (Deposit m) 0)) by lia;
    cbn -[SafeSub];
    (destruct (Z.leb_spec (Quantity m) (Count m + 1)) as [Hl|Hl];
       [|eexists; split; [reflexivity|]; cbn; unfold is_uint in *; rewrite ?Hpart by lia; lia]).
  - rewrite (proj2 (Z.ltb_ge _ _)) by (rewrite Hlast by done; lia).
    eexists. split; [reflexivity|]. cbn. rewrite Hlast by done. rewrite (proj2 (Z.eqb_eq _ _)) by lia. cbn. lia.
  - rewrite andb_false_r. destruct (Z.ltb_spec (In m) (Deposit m)) as [Hlt|Hge].
    + rewrite SafeSub_total by (unfold is_uint; lia). cbn. eexists. split; [reflexivity|]. cbn. lia.
    + eexists. split; [reflexivity|]. cbn. lia.
Qed.

Lemma attempts_total m0 rs before m :
  ran m0 before m -> Forall (fun r => 0 <= emitted r) rs -> is_uint (Out m + sumZ emitted rs) ->
  exists p, attempts m rs = Ok p /\
    match p with
    | Running m' => ran m0 (before ++ rs) m'
    | Finished m' refund => exists n, (0 < n <= length rs)%nat /\ over m0 (before ++ take n rs) m' refund
    end.
Proof.
  revert before m. induction rs as [|r rs IH]; intros before m Hrun Hr Hu.
  { eexists. split; [reflexivity|]. by rewrite app_nil_r. }
  rewrite sumZ_cons in Hu. apply Forall_cons in Hr as [Hr0 Hr]. pose proof (sumZ_nonneg emitted rs Hr).
  assert (Hou : 0 <= Out m) by apply Hrun.
  destruct (attempt_total m0 before m r Hrun Hr0) as (p & Hp & Hspec); [unfold is_uint in *; lia|].
  cbn [attempts]. rewrite Hp. cbn [mbind outcome_bind]. destruct p as [m'|m' refund].
  - destruct Hrun as (_ & _ & _ & _ & Ho & _). pose proof Hspec as (_ & _ & _ & _ & Ho' & _).
    rewrite emitted_snoc in Ho'.
    destruct (IH (before ++ [r]) m' Hspec Hr) as (p & Hp' & Hspec'); [rewrite Ho', <- Ho; unfold is_uint in *; lia|].
    exists p. split; [done|]. rewrite <- app_assoc in Hspec'. destruct p as [m2|m2 refund]; [exact Hspec'|].
    destruct Hspec' as (n & Hn & Hov). exists (S n). split; [cbn; lia|]. cbn [take]. by rewrite <- app_assoc in Hov.
  - exists (Finished m' refund). split; [done|]. exists 1%nat. split; [cbn; lia|]. cbn [take]. by rewrite take_0.
Qed.

End streaming_facts.

(** ** Witness *)

Section streaming_witnesses.
Import Reference.

(** Three parts of 333, 333 and 334, of which the second fails. *)
Example streaming_partial :
  attempts (NewStreamingSwap "A1" 3 5 100 1000) [(inl 30, 5); (inl 20, 10); (inr "slip", 15)] =
  Ok (Finished (mkStreamingSwap "A1" 5 3 3 15 100 1000 666 50 [3] ["slip"]) 334).
Proof. by vm_compute. Qed.

End streaming_witnesses.
