(* ===== verification/SwapMsgs.v ===== *)
(** [x/mayachain/types/msg_swap.go]: the message that asks for a swap, with the
    streaming swap it starts. *)
From S2P Require Import Prelude GoText Sdk Shares Chains Keys Assets Coins Txs StreamingSwaps.

(** ** The message *)

Abbreviation OrderType := Z (only parsing).
Definition OrderType_market : OrderType := 0.
Definition OrderType_limit : OrderType := 1.

Record MsgSwap := mkMsgSwap {
  Msg_Tx : Tx;
  TargetAsset : Asset;
  Destination : Address;
  Msg_TradeTarget : Z;
  AffiliateAddress : Address;
  AffiliateBasisPoints : Z;
  Signer : AccAddress;
  Aggregator : string;
  AggregatorTargetAddress : string;
  AggregatorTargetLimit : option Z;
  Msg_OrderType : OrderType;
  StreamQuantity : Z;
  StreamInterval : Z;
}.

Definition NewMsgSwap (tx : Tx) (target : Asset) (destination : Address) (tradeTarget : Z)
    (affAddr : Address) (affPts : Z) (agg aggregatorTargetAddr : string)
    (aggregatorTargetLimit : option Z) (otype : OrderType) (quan interval : Z)
    (signer : AccAddress) : MsgSwap :=
  mkMsgSwap tx target destination tradeTarget affAddr affPts signer agg aggregatorTargetAddr
    aggregatorTargetLimit otype quan interval.

Definition IsStreaming (m : MsgSwap) : bool := 0 <? StreamInterval m.

Definition GetStreamingSwap (m : MsgSwap) : outcome StreamingSwap :=
  match Tx_Coins (Msg_Tx m) with
  | [] => Panic
  | c :: _ =>
      Ok (NewStreamingSwap (Tx_ID (Msg_Tx m)) (StreamQuantity m) (StreamInterval m)
            (Msg_TradeTarget m) (Coin_Amount c))
  end.
