(* ===== verification/LiquidityProviders.v ===== *)
(** [x/mayachain/types/type_liquidity_provider.go]: the position of a liquidity
    provider in a pool, what it is worth, and the units it bonds to nodes. *)
From S2P Require Import Prelude GoText Sdk Shares Keys Assets Txs Pools.

(** The basis points of a whole withdrawal ([msg_withdraw_liquidity.go]). *)
Definition MaxWithdrawBasisPoints : Z := 10000.

Record LPBondedNode := mkLPBondedNode {
  LPB_NodeAddress : AccAddress;
  LPB_Units : Z;
}.

Record LiquidityProvider := mkLiquidityProvider {
  Lp_Asset : Asset;
  Lp_CacaoAddress : Address;
  Lp_AssetAddress : Address;
  Lp_LastAddHeight : Z;
  Lp_LastWithdrawHeight : Z;
  Lp_Units : Z;
  PendingCacao : Z;
  PendingAsset : Z;
  PendingTxID : TxID;
  CacaoDepositValue : Z;
  AssetDepositValue : Z;
  NodeBondAddress : AccAddress;
  WithdrawCounter : Z;
  LastWithdrawCounterHeight : Z;
  BondedNodes : list LPBondedNode;
}.

#[export] Instance LPBondedNode_eq_dec : EqDecision LPBondedNode.
Proof. solve_decision. Defined.

(** The two fields bonding changes. *)
Definition with_bonds (lp : LiquidityProvider) (node : AccAddress) (bonds : list LPBondedNode)
  : LiquidityProvider :=
  mkLiquidityProvider (Lp_Asset lp) (Lp_CacaoAddress lp) (Lp_AssetAddress lp) (Lp_LastAddHeight lp)
    (Lp_LastWithdrawHeight lp) (Lp_Units lp) (PendingCacao lp) (PendingAsset lp) (PendingTxID lp)
    (CacaoDepositValue lp) (AssetDepositValue lp) node (WithdrawCounter lp)
    (LastWithdrawCounterHeight lp) bonds.

Definition LiquidityProvider_Valid (m : LiquidityProvider) : outcome unit :=
  if Lp_LastAddHeight m =? 0 then Err "last add liquidity height cannot be empty"
  else if Address_IsEmpty (Lp_AssetAddress m) && Address_IsEmpty (Lp_CacaoAddress m)
  then Err "asset address and rune address cannot be empty"
  else Ok tt.

Definition Lp_GetAddress (lp : LiquidityProvider) : Address :=
  if negb (Address_IsEmpty (Lp_CacaoAddress lp)) then Lp_CacaoAddress lp else Lp_AssetAddress lp.

Definition LiquidityProvider_Key (lp : LiquidityProvider) : string :=
  Asset_String (Lp_Asset lp) +:+ "/" +:+ Address_String (Lp_GetAddress lp).

Section liquidity_provider.
Context `{U : SdkUint} `{D : SdkDec} `{V : Semver} `{A : SdkAddress}.

(** ** Values *)

(** The square root of the product of two amounts, per unit. *)
Definition luvi (x y units : Z) : outcome Z :=
  if units =? 0 then Ok 0 else uint_of_big (Z.quot (Z.sqrt (x * y)) units).

Definition GetLuviDepositValue (lp : LiquidityProvider) (pool : Pool) : outcome Z :=
  if negb (Asset_Equals (Lp_Asset lp) (Pool_Asset pool)) then Err "LP and Pool assets do not match (%s, %s)"
  else
    runeDeposit ← uint_mul64 (CacaoDepositValue lp) 4;
    assetDeposit ← uint_mul64 (AssetDepositValue lp) 4;
    luvi runeDeposit assetDeposit (Lp_Units lp).

(** The share of a depth the units stand for, once the synth units are known. *)
Definition redeem_value (lp : LiquidityProvider) (version : Version) (pool : Pool)
    (depth synthSupply : Z) : outcome Z :=
  if negb (Asset_Equals (Lp_Asset lp) (Pool_Asset pool)) then Err "LP and Pool assets do not match (%s, %s)"
  else
    '(pool, _) ← CalcUnits pool version synthSupply;
    denom ← GetPoolUnits pool;
    if denom =? 0 then Ok 0 else uint_of_big (Z.quot (Lp_Units lp * depth) denom).

Definition GetRuneRedeemValue (lp : LiquidityProvider) (version : Version) (pool : Pool)
    (synthSupply : Z) : outcome Z :=
  redeem_value lp version pool (BalanceCacao pool) synthSupply.

Definition GetAssetRedeemValue (lp : LiquidityProvider) (version : Version) (pool : Pool)
    (synthSupply : Z) : outcome Z :=
  redeem_value lp version pool (BalanceAsset pool) synthSupply.

Definition GetLuviRedeemValue (lp : LiquidityProvider) (runeRedeemValue assetRedeemValue : Z)
  : outcome Z :=
  runeValue ← uint_mul64 runeRedeemValue 100000000;
  assetValue ← uint_mul64 assetRedeemValue 100000000;
  luvi runeValue assetValue (Lp_Units lp).

Definition GetSaversAssetRedeemValue (lp : LiquidityProvider) (pool : Pool) : outcome Z :=
  if LPUnits pool =? 0 then Ok 0
  else uint_of_big (Z.quot (Lp_Units lp * BalanceAsset pool) (LPUnits pool)).

(** ** Bonds *)

Definition IsLiquidityBondProvider (lp : LiquidityProvider) : bool :=
  negb (acc_empty (NodeBondAddress lp)).

Definition SetNodeAccount (lps : list LiquidityProvider) (na : AccAddress) : list LiquidityProvider :=
  map (fun lp => with_bonds lp na (BondedNodes lp)) lps.

Definition bonded_to (nodeAddr : AccAddress) (b : LPBondedNode) : bool :=
  acc_equals (LPB_NodeAddress b) nodeAddr.

Definition Lp_Bond (lp : LiquidityProvider) (nodeAddr : AccAddress) (units : Z)
  : outcome LiquidityProvider :=
  r ← upd_first (bonded_to nodeAddr)
        (fun b => u ← uint_add (LPB_Units b) units; Ok (mkLPBondedNode (LPB_NodeAddress b) u))
        (BondedNodes lp);
  match r with
  | Some bonds => Ok (with_bonds lp (NodeBondAddress lp) bonds)
  | None => Ok (with_bonds lp (NodeBondAddress lp) (BondedNodes lp ++ [mkLPBondedNode nodeAddr units]))
  end.

(** The record of the node shrinks, or goes when nothing is left. *)
Fixpoint unbond_first (nodeAddr : AccAddress) (units : Z) (l : list LPBondedNode)
  : outcome (list LPBondedNode) :=
  match l with
  | [] => Ok []
  | b :: l' =>
      if bonded_to nodeAddr b then
        u ← SafeSub (LPB_Units b) units;
        if u =? 0 then Ok l' else Ok (mkLPBondedNode (LPB_NodeAddress b) u :: l')
      else l'' ← unbond_first nodeAddr units l'; Ok (b :: l'')
  end.

(** A position with the deprecated address moves to the records first. *)
Definition Lp_Unbond (lp : LiquidityProvider) (nodeAddr : AccAddress) (units : Z)
  : outcome LiquidityProvider :=
  if negb (acc_empty (NodeBondAddress lp)) then
    if units <? Lp_Units lp then
      u ← SafeSub (Lp_Units lp) units;
      Ok (with_bonds lp EmptyString [mkLPBondedNode nodeAddr u])
    else Ok (with_bonds lp EmptyString (BondedNodes lp))
  else
    bonds ← unbond_first nodeAddr units (BondedNodes lp);
    Ok (with_bonds lp (NodeBondAddress lp) bonds).

Definition GetRemainingUnits (lp : LiquidityProvider) : outcome Z :=
  if negb (acc_empty (NodeBondAddress lp)) then Ok 0
  else
    bondedUnits ← foldM (fun acc b => uint_add acc (LPB_Units b)) 0 (BondedNodes lp);
    SafeSub (Lp_Units lp) bondedUnits.

Definition GetUnitsBondedToNode (lp : LiquidityProvider) (nodeAddr : AccAddress) : Z :=
  if acc_equals (NodeBondAddress lp) nodeAddr then Lp_Units lp
  else
    match List.find (bonded_to nodeAddr) (BondedNodes lp) with
    | Some b => LPB_Units b
    | None => 0
    end.

Definition LPBondedNode_IsEmpty (bn : LPBondedNode) : bool := acc_empty (LPB_NodeAddress bn).
End liquidity_provider.

(** ** The bonds are a map from nodes to units *)

Section bonds.
Context {U : SdkUint} {UL : SdkUintLaws U} {D : SdkDec} {A : SdkAddress} {AL : SdkAddressLaws A}.

Definition bonded_at (n : AccAddress) (l : list LPBondedNode) : Z :=
  match List.find (bonded_to n) l with Some b => LPB_Units b | None => 0 end.

Definition total_bonded (l : list LPBondedNode) : Z := sumZ LPB_Units l.

(** One record per node, with a positive [Uint]. *)
Definition bonds_wf (l : list LPBondedNode) : Prop :=
  NoDup (map LPB_NodeAddress l) /\ Forall (fun b => 0 < LPB_Units b < 2 ^ 256) l.

Lemma bonded_to_spec n b : bonded_to n b = true <-> LPB_NodeAddress b = n.
Proof. apply acc_equals_law. Qed.

Lemma bonded_to_ne n b : bonded_to n b = false <-> LPB_NodeAddress b <> n.
Proof. rewrite <- bonded_to_spec. by destruct (bonded_to n b). Qed.

Lemma bonded_at_cons n b l :
  bonded_at n (b :: l) = if bonded_to n b then LPB_Units b else bonded_at n l.
Proof. unfold bonded_at. cbn. by destruct (bonded_to n b). Qed.

Lemma bonded_at_absent n l : n ∉ map LPB_NodeAddress l -> bonded_at n l = 0.
Proof.
  induction l as [|b l IH]; intros Hn; [done|]. cbn in Hn. apply not_elem_of_cons in Hn as [].
  rewrite bonded_at_cons, (proj2 (bonded_to_ne n b)) by done. by apply IH.
Qed.

(** Changing the first record of a node that has one. *)
Lemma bond_present n u l r :
  upd_first (bonded_to n)
    (fun b => v ← uint_add (LPB_Units b) u; Ok (mkLPBondedNode (LPB_NodeAddress b) v)) l = Ok (Some r) ->
  map LPB_NodeAddress r = map LPB_NodeAddress l /\ total_bonded r = total_bonded l + u /\
  (0 <= u -> Forall (fun b => 0 < LPB_Units b < 2 ^ 256) l ->
   Forall (fun b => 0 < LPB_Units b < 2 ^ 256) r) /\
  forall m, bonded_at m r = bonded_at m l + if decide (m = n) then u else 0.
Proof.
  intros (l1 & b & l2 & b' & -> & Hl1 & Hb & Hf & ->)%upd_first_Some.
  apply bind_Ok in Hf as (v & [-> Hv]%uint_add_Ok & [= <-]). apply bonded_to_spec in Hb as <-.
  split_and!.
  - by rewrite !map_app.
  - unfold total_bonded. rewrite !sumZ_app, !sumZ_cons. cbn. lia.
  - intros Hu [? [? ?]%Forall_cons]%Forall_app. apply Forall_app. split; [done|].
    constructor; [cbn; unfold is_uint in Hv; lia|done].
  - intros m. induction Hl1 as [|c l1 Hc Hl1 IH]; cbn [app].
    + rewrite !bonded_at_cons. unfold bonded_to. cbn [LPB_NodeAddress LPB_Units].
      destruct (acc_equals (LPB_NodeAddress b) m) eqn:E.
      * apply acc_equals_law in E. rewrite decide_True by done. lia.
      * rewrite decide_False; [lia|]. intros ->. by rewrite (proj2 (acc_equals_law _ _)) in E.
    + rewrite !bonded_at_cons, IH. destruct (bonded_to m c) eqn:E; [|done].
      apply bonded_to_spec in E as <-. rewrite decide_False; [lia|]. by apply bonded_to_ne in Hc.
Qed.

Lemma bonded_at_snoc m n u l :
  n ∉ map LPB_NodeAddress l ->
  bonded_at m (l ++ [mkLPBondedNode n u]) = bonded_at m l + if decide (m = n) then u else 0.
Proof.
  induction l as [|b l IH]; intros Hn; cbn [app].
  - rewrite bonded_at_cons. unfold bonded_to. cbn.
    destruct (acc_equals n m) eqn:E.
    + apply acc_equals_law in E. by rewrite decide_True.
    + rewrite decide_False; [done|]. intros ->. by rewrite (proj2 (acc_equals_law _ _)) in E.
  - cbn in Hn. apply not_elem_of_cons in Hn as [Hb Hn]. rewrite !bonded_at_cons, IH by done.
    destruct (bonded_to m b) eqn:E; [|done]. apply bonded_to_spec in E as <-.
    rewrite decide_False; [lia|congruence].
Qed.

Lemma Lp_Bond_total lp n u :
  bonds_wf (BondedNodes lp) -> 0 <= u -> total_bonded (BondedNodes lp) + u < 2 ^ 256 ->
  exists lp', Lp_Bond lp n u = Ok lp'.
Proof.
  intros [_ Hpos] Hu Ht. unfold Lp_Bond.
  assert (H : exists r, upd_first (bonded_to n)
    (fun b => v ← uint_add (LPB_Units b) u; Ok (mkLPBondedNode (LPB_NodeAddress b) v))
    (BondedNodes lp) = Ok r).
  { unfold total_bonded in Ht. induction Hpos as [|b l Hb Hpos IH]; [by eexists|].
    rewrite sumZ_cons in Ht. cbn [upd_first].
    assert (0 <= sumZ LPB_Units l)
      by (apply sumZ_nonneg; eapply Forall_impl; [exact Hpos|cbn; lia]).
    destruct (bonded_to n b).
    - rewrite uint_add_law, checked_in by (unfold is_uint; lia). by eexists.
    - destruct IH as [r ->]; [lia|]. by eexists. }
  destruct H as [[r|] ->]; by eexists.
Qed.

Lemma Lp_Bond_Ok lp n u lp' :
  bonds_wf (BondedNodes lp) -> 0 < u < 2 ^ 256 -> Lp_Bond lp n u = Ok lp' ->
  exists bonds, lp' = with_bonds lp (NodeBondAddress lp) bonds /\ bonds_wf bonds /\
    total_bonded bonds = total_bonded (BondedNodes lp) + u /\
    forall m, bonded_at m bonds = bonded_at m (BondedNodes lp) + if decide (m = n) then u else 0.
Proof.
  intros [Hnd Hpos] Hu H. unfold Lp_Bond in H. apply bind_Ok in H as ([r|] & Hr & H); injection H as <-.
  - exists r. apply bond_present in Hr as (Hm & Ht & Hp & Hat).
    split_and!; [done| |done|done]. split; [by rewrite Hm|apply Hp; [lia|done]].
  - apply upd_first_None in Hr. eexists. split; [reflexivity|].
    assert (Hn : n ∉ map LPB_NodeAddress (BondedNodes lp)).
    { intros (b & -> & Hb)%list_elem_of_fmap. rewrite Forall_forall in Hr.
      specialize (Hr b Hb). by apply bonded_to_ne in Hr. }
    split_and!; [|unfold total_bonded; rewrite sumZ_app, sumZ_cons; cbn; lia
                 |intros m; by apply bonded_at_snoc].
    split; [|apply Forall_app; split; [done|by apply Forall_singleton]].
    rewrite map_app. apply NoDup_app. split_and!; [done| |apply NoDup_singleton].
    intros x Hx ->%list_elem_of_singleton. done.
Qed.

Lemma unbond_first_Ok n u l :
  bonds_wf l -> 0 <= u < 2 ^ 256 ->
  exists r, unbond_first n u l = Ok r /\ bonds_wf r /\
    (forall m, m ∉ map LPB_NodeAddress l -> m ∉ map LPB_NodeAddress r) /\
    total_bonded r = total_bonded l - Z.min u (bonded_at n l) /\
    forall m, bonded_at m r = if decide (m = n) then Z.max 0 (bonded_at n l - u) else bonded_at m l.
Proof.
  intros [Hnd Hpos] Hu. induction l as [|b l IH].
  { exists []. split_and!; [done|by split; constructor|done| |].
    - by unfold total_bonded, sumZ; cbn; lia.
    - intros m. cbn. case_decide; [lia|done]. }
  cbn [map] in Hnd. apply NoDup_cons in Hnd as [Hb Hnd]. apply Forall_cons in Hpos as [Hbu Hpos].
  unfold total_bonded in *. cbn [unbond_first]. rewrite bonded_at_cons, sumZ_cons.
  destruct (bonded_to n b) eqn:E.
  - apply bonded_to_spec in E as <-. rewrite SafeSub_total by (unfold is_uint; lia).
    pose proof (bonded_at_absent _ _ Hb) as H0. cbn [mbind outcome_bind].
    destruct (Z.eqb_spec (Z.max 0 (LPB_Units b - u)) 0) as [Hz|Hz].
    + exists l. split_and!; [done|done| |lia|].
      * intros m [_ Hm]%not_elem_of_cons. done.
      * intros m. rewrite bonded_at_cons. case_decide as Hd; [subst m; lia|].
        by rewrite (proj2 (bonded_to_ne m b)).
    + eexists. split; [reflexivity|]. split_and!.
      * split; [by apply NoDup_cons|]. apply Forall_cons. cbn. split; [lia|done].
      * done.
      * rewrite sumZ_cons. cbn. lia.
      * intros m. rewrite !bonded_at_cons. unfold bonded_to. cbn.
        destruct (acc_equals (LPB_NodeAddress b) m) eqn:E.
        -- apply acc_equals_law in E. rewrite decide_True by done. lia.
        -- rewrite decide_False; [done|]. intros ->. by rewrite (proj2 (acc_equals_law _ _)) in E.
  - destruct (IH Hnd Hpos) as (r & Hr & [Hrd Hrp] & Hin & Ht & Hat). rewrite Hr. cbn [mbind outcome_bind].
    exists (b :: r). split_and!; [done| | |rewrite sumZ_cons; lia|].
    + split; [apply NoDup_cons; split; [by apply Hin|done]|by apply Forall_cons].
    + intros m [? ?]%not_elem_of_cons. apply not_elem_of_cons. split; [done|by apply Hin].
    + intros m. rewrite !bonded_at_cons, Hat. destruct (bonded_to m b) eqn:Em; [|done].
      apply bonded_to_spec in Em as <-. rewrite decide_False; [done|]. by apply bonded_to_ne in E.
Qed.

Lemma total_bonded_at l n : bonds_wf l -> 0 <= bonded_at n l <= total_bonded l.
Proof.
  intros [_ Hpos]. unfold total_bonded. induction Hpos as [|b l Hb Hpos IH]; [done|].
  rewrite bonded_at_cons, sumZ_cons. destruct (bonded_to n b); lia.
Qed.

Lemma GetRemainingUnits_Ok lp :
  NodeBondAddress lp = EmptyString -> bonds_wf (BondedNodes lp) -> is_uint (Lp_Units lp) ->
  total_bonded (BondedNodes lp) < 2 ^ 256 ->
  GetRemainingUnits lp = Ok (Z.max 0 (Lp_Units lp - total_bonded (BondedNodes lp))).
Proof.
  intros Hn [_ Hpos] Hu Ht. unfold GetRemainingUnits. rewrite (proj2 (acc_empty_law _) Hn). cbn [negb].
  assert (Hf : forall l acc, 0 <= acc -> Forall (fun b => 0 < LPB_Units b < 2 ^ 256) l ->
    acc + total_bonded l < 2 ^ 256 ->
    foldM (fun acc b => uint_add acc (LPB_Units b)) acc l = Ok (acc + total_bonded l) /\
    0 <= total_bonded l).
  { unfold total_bonded. induction l as [|b l IH]; intros acc Hacc Hl Hs.
    { cbn. split; [f_equal|]; unfold sumZ; cbn; lia. }
    apply Forall_cons in Hl as [Hb Hl]. rewrite sumZ_cons in *.
    assert (Hs0 : 0 <= sumZ LPB_Units l)
      by (apply sumZ_nonneg; eapply Forall_impl; [exact Hl|cbn; lia]).
    cbn [foldM]. rewrite uint_add_law, checked_in by (unfold is_uint; lia). cbn [mbind outcome_bind].
    destruct (IH (acc + LPB_Units b)) as [-> _]; [lia|done|lia|]. split; [f_equal; lia|lia]. }
  destruct (Hf (BondedNodes lp) 0) as [-> ?]; [lia|done|lia|]. cbn [mbind outcome_bind].
  rewrite Z.add_0_l, SafeSub_total by (unfold is_uint in *; lia). done.
Qed.

(** The bonds of a position implement a map from nodes to units. Bonding adds
    units to one node and takes them from the remaining units; unbonding takes
    away at most what the node had, and gives it back; no other node is touched,
    and what remains is what the position holds beyond its bonds. *)
Theorem bonds_refine_map lp n u :
  NodeBondAddress lp = EmptyString -> bonds_wf (BondedNodes lp) -> is_uint (Lp_Units lp) ->
  0 < u -> total_bonded (BondedNodes lp) + u <= Lp_Units lp ->
  let free l := Lp_Units lp - total_bonded l in
  GetRemainingUnits lp = Ok (free (BondedNodes lp)) /\
  (exists lp', Lp_Bond lp n u = Ok lp' /\ bonds_wf (BondedNodes lp') /\
     GetRemainingUnits lp' = Ok (free (BondedNodes lp) - u) /\
     forall m, m <> EmptyString ->
       GetUnitsBondedToNode lp' m = GetUnitsBondedToNode lp m + if decide (m = n) then u else 0) /\
  (exists lp', Lp_Unbond lp n u = Ok lp' /\ bonds_wf (BondedNodes lp') /\
     GetRemainingUnits lp' = Ok (free (BondedNodes lp) + Z.min u (bonded_at n (BondedNodes lp))) /\
     forall m, m <> EmptyString ->
       GetUnitsBondedToNode lp' m =
         if decide (m = n) then Z.max 0 (GetUnitsBondedToNode lp m - u) else GetUnitsBondedToNode lp m).
Proof.
  intros Hnb Hwf Hu Hpos Hle free.
  assert (Hget : forall lp' m, NodeBondAddress lp' = EmptyString -> m <> EmptyString ->
    GetUnitsBondedToNode lp' m = bonded_at m (BondedNodes lp')).
  { intros lp' m He Hm. unfold GetUnitsBondedToNode, bonded_at. rewrite He.
    destruct (acc_equals EmptyString m) eqn:E; [|done]. by apply acc_equals_law in E as <-. }
  pose proof (total_bonded_at (BondedNodes lp) n Hwf) as Hat. unfold free, is_uint in *.
  split_and!.
  - rewrite GetRemainingUnits_Ok by (done || lia). f_equal. lia.
  - destruct (Lp_Bond_total lp n u) as (lp' & H); [done|lia|lia|]. exists lp'. split; [done|].
    apply Lp_Bond_Ok in H as (bonds & -> & Hwf' & Ht & Hb); [|done|lia].
    cbn [BondedNodes with_bonds]. split_and!; [done| |].
    + rewrite GetRemainingUnits_Ok by (cbn [NodeBondAddress BondedNodes Lp_Units with_bonds];
        done || unfold is_uint; lia).
      cbn [NodeBondAddress BondedNodes Lp_Units with_bonds]. f_equal. lia.
    + intros m Hm. by rewrite !Hget, <- Hb.
  - unfold Lp_Unbond. rewrite (proj2 (acc_empty_law _) Hnb). cbn [negb].
    destruct (unbond_first_Ok n u (BondedNodes lp)) as (r & -> & Hwf' & _ & Ht & Hb); [done|lia|].
    cbn [mbind outcome_bind]. eexists. split; [reflexivity|]. cbn [BondedNodes with_bonds].
    split_and!; [done| |].
    + rewrite GetRemainingUnits_Ok by (cbn [NodeBondAddress BondedNodes Lp_Units with_bonds];
        done || unfold is_uint; lia).
      cbn [NodeBondAddress BondedNodes Lp_Units with_bonds]. f_equal. lia.
    + intros m Hm. rewrite !Hget by done. cbn [BondedNodes with_bonds]. rewrite Hb.
      case_decide; [by subst|done].
Qed.
End bonds.

(** ** Witness *)

Section liquidity_providers_witnesses.
Import Reference.

(** A position of 100 units, of which 30 are bonded to "node". *)
Definition example_lp : LiquidityProvider :=
  mkLiquidityProvider BTCAsset "maya1" "bc1" 5 0 100 0 0 EmptyString 0 0 EmptyString 0 0
    [mkLPBondedNode "node" 30].

Lemma bonds_refine_map_witness :
  GetRemainingUnits example_lp = Ok 70 /\
  (exists lp', Lp_Bond example_lp "node" 20 = Ok lp' /\ bonds_wf (BondedNodes lp') /\
     GetRemainingUnits lp' = Ok 50 /\
     forall m, m <> EmptyString ->
       GetUnitsBondedToNode lp' m =
         GetUnitsBondedToNode example_lp m + if decide (m = "node") then 20 else 0) /\
  (exists lp', Lp_Unbond example_lp "node" 20 = Ok lp' /\ bonds_wf (BondedNodes lp') /\
     GetRemainingUnits lp' = Ok 90 /\
     forall m, m <> EmptyString ->
       GetUnitsBondedToNode lp' m =
         if decide (m = "node") then Z.max 0 (GetUnitsBondedToNode example_lp m - 20)
         else GetUnitsBondedToNode example_lp m).
Proof.
  assert (Hwf : bonds_wf (BondedNodes example_lp))
    by (split; [apply NoDup_singleton|by constructor]).
  exact (bonds_refine_map example_lp "node" 20 eq_refl Hwf ltac:(by split) ltac:(lia) ltac:(by vm_compute)).
Defined.
End liquidity_providers_witnesses.
