(* ===== verification/Records.v ===== *)
(** The small records of [x/mayachain/types]: the network, the liquidity the
    protocol owns, reserve contributors, auction tiers, and the CACAO pool with
    its providers. *)
From S2P Require Import Prelude GoText Sdk Shares Keys.

(** ** The network *)

Record Network := mkNetwork {
  BondRewardRune : Z;
  TotalBondUnits : Z;
  LPIncomeSplit : Z;
  NodeIncomeSplit : Z;
  OutboundGasSpentCacao : Z;
  OutboundGasWithheldCacao : Z;
}.

Definition NewNetwork : Network := mkNetwork 0 0 0 0 0 0.

Definition with_gas_spent (m : Network) (v : Z) : Network :=
  mkNetwork (BondRewardRune m) (TotalBondUnits m) (LPIncomeSplit m) (NodeIncomeSplit m) v
    (OutboundGasWithheldCacao m).

(** ** Liquidity the protocol owns *)

Record ProtocolOwnedLiquidity := mkPOL {
  POL_CacaoDeposited : Z;
  POL_CacaoWithdrawn : Z;
}.

Definition NewProtocolOwnedLiquidity : ProtocolOwnedLiquidity := mkPOL 0 0.

(** [cosmos.Int] holds the amounts with a sign, up to 255 bits. *)
Definition POL_CurrentDeposit (pol : ProtocolOwnedLiquidity) : Z :=
  POL_CacaoDeposited pol - POL_CacaoWithdrawn pol.

Definition PnL (pol : ProtocolOwnedLiquidity) (value : Z) : Z :=
  POL_CacaoWithdrawn pol - POL_CacaoDeposited pol + value.

(** ** Reserve contributors *)

Record ReserveContributor := mkReserveContributor {
  Contributor_Address : Address;
  Contributor_Amount : Z;
}.

Definition NewReserveContributor (addr : Address) (amt : Z) : ReserveContributor :=
  mkReserveContributor addr amt.

Definition ReserveContributor_IsEmpty (m : ReserveContributor) : bool :=
  Address_IsEmpty (Contributor_Address m).

Definition ReserveContributor_Valid (m : ReserveContributor) : outcome unit :=
  if Contributor_Amount m =? 0 then Err "amount cannot be zero"
  else if Address_IsEmpty (Contributor_Address m) then Err "address cannot be empty"
  else Ok tt.

(** ** Tiers of the liquidity auction *)

Record LiquidityAuctionTier := mkLiquidityAuctionTier {
  LATier_Address : Address;
  LATier_Tier : Z;
}.

Definition LiquidityAuctionTier_Valid (m : LiquidityAuctionTier) : outcome unit :=
  if Address_IsEmpty (LATier_Address m) then Err "the address should not be empty" else Ok tt.

Definition LiquidityAuctionTier_Key (laTier : LiquidityAuctionTier) : string :=
  Address_String (LATier_Address laTier).

(** ** The CACAO pool *)

Record CACAOPool := mkCACAOPool {
  ReserveUnits : Z;
  PoolUnits : Z;
  CacaoDeposited : Z;
  CacaoWithdrawn : Z;
}.

Definition NewCACAOPool : CACAOPool := mkCACAOPool 0 0 0 0.

Definition CACAOPool_CurrentDeposit (rp : CACAOPool) : Z := CacaoDeposited rp - CacaoWithdrawn rp.

Record CACAOProvider := mkCACAOProvider {
  CacaoAddress : AccAddress;
  DepositAmount : Z;
  WithdrawAmount : Z;
  Provider_Units : Z;
  LastDepositHeight : Z;
  Provider_LastWithdrawHeight : Z;
}.

Section records.
Context `{U : SdkUint} `{D : SdkDec} `{A : SdkAddress}.

Definition CalcNodeRewards (m : Network) (nodeUnits : Z) : Z :=
  GetUncappedShare nodeUnits (TotalBondUnits m) (BondRewardRune m).

Definition Reserve_Add (reses : list ReserveContributor) (res : ReserveContributor)
  : outcome (list ReserveContributor) :=
  r ← upd_first (fun r => Address_Equals (Contributor_Address r) (Contributor_Address res))
        (fun r => amt ← uint_add (Contributor_Amount r) (Contributor_Amount res);
                  Ok (mkReserveContributor (Contributor_Address r) amt)) reses;
  match r with
  | Some reses => Ok reses
  | None => Ok (reses ++ [res])
  end.

Definition TotalUnits (rp : CACAOPool) : outcome Z := uint_add (ReserveUnits rp) (PoolUnits rp).

(** A provider that deposited nothing yet. *)
Definition empty_provider (addr : AccAddress) : CACAOProvider := mkCACAOProvider addr 0 0 0 0 0.

Definition CACAOProvider_Key (rp : CACAOProvider) : string := acc_string (CacaoAddress rp).
End records.
