(* ===== verification/MayaNames.v ===== *)
(** [x/mayachain/types/type_mayaname.go]: names registered on the chain, with
    their addresses per chain, their preferred asset and the affiliates they
    share fees with; and [type_affiliate_fee_collector.go]. *)
From S2P Require Import Prelude GoText Sdk Chains Keys Assets.

(** ** Data *)

Record MAYANameAlias := mkMAYANameAlias {
  Alias_Chain : Chain;
  Alias_Address : Address;
}.

Record MAYANameSubaffiliate := mkMAYANameSubaffiliate {
  Sub_Name : string;
  Sub_Bps : Z;
}.

(** The basis points are behind a pointer. *)
Record MAYAName := mkMAYAName {
  Name : string;
  ExpireBlockHeight : Z;
  MN_Owner : AccAddress;
  PreferredAsset : Asset;
  Aliases : list MAYANameAlias;
  MN_AffiliateBps : option Z;
  Subaffiliates : list MAYANameSubaffiliate;
}.

#[export] Instance MAYANameAlias_eq_dec : EqDecision MAYANameAlias.
Proof. solve_decision. Defined.
#[export] Instance MAYANameSubaffiliate_eq_dec : EqDecision MAYANameSubaffiliate.
Proof. solve_decision. Defined.
#[export] Instance MAYAName_eq_dec : EqDecision MAYAName.
Proof. solve_decision. Defined.

(** The zero value, of a [MAYAName] that was not found. *)
Definition EmptyMAYAName : MAYAName := mkMAYAName EmptyString 0 EmptyString EmptyAsset [] None [].

Definition with_Expire (m : MAYAName) (v : Z) : MAYAName :=
  mkMAYAName (Name m) v (MN_Owner m) (PreferredAsset m) (Aliases m) (MN_AffiliateBps m)
    (Subaffiliates m).
Definition with_Owner (m : MAYAName) (v : AccAddress) : MAYAName :=
  mkMAYAName (Name m) (ExpireBlockHeight m) v (PreferredAsset m) (Aliases m) (MN_AffiliateBps m)
    (Subaffiliates m).
Definition with_PreferredAsset (m : MAYAName) (v : Asset) : MAYAName :=
  mkMAYAName (Name m) (ExpireBlockHeight m) (MN_Owner m) v (Aliases m) (MN_AffiliateBps m)
    (Subaffiliates m).
Definition with_Aliases (m : MAYAName) (v : list MAYANameAlias) : MAYAName :=
  mkMAYAName (Name m) (ExpireBlockHeight m) (MN_Owner m) (PreferredAsset m) v (MN_AffiliateBps m)
    (Subaffiliates m).
Definition with_AffiliateBps (m : MAYAName) (v : option Z) : MAYAName :=
  mkMAYAName (Name m) (ExpireBlockHeight m) (MN_Owner m) (PreferredAsset m) (Aliases m) v
    (Subaffiliates m).
Definition with_Subaffiliates (m : MAYAName) (v : list MAYANameSubaffiliate) : MAYAName :=
  mkMAYAName (Name m) (ExpireBlockHeight m) (MN_Owner m) (PreferredAsset m) (Aliases m)
    (MN_AffiliateBps m) v.

Record AffiliateFeeCollector := mkAffiliateFeeCollector {
  OwnerAddress : AccAddress;
  CacaoAmount : Z;
}.

Definition NewAffiliateFeeCollector (owner : AccAddress) (cacaoAmount : Z) : AffiliateFeeCollector :=
  mkAffiliateFeeCollector owner cacaoAmount.

(** ** Keys of the store *)

Definition base64_alphabet : string :=
  "ABCDEFGHIJKLMNOPQRSTUVWXYZabcdefghijklmnopqrstuvwxyz0123456789+/".

Definition base64_digit (n : nat) : ascii := default "A"%char (String.get n base64_alphabet).

(** [base64.StdEncoding.EncodeToString] *)
Fixpoint EncodeToString (s : string) : string :=
  match s with
  | EmptyString => EmptyString
  | String a EmptyString =>
      let x := nat_of_ascii a in
      String (base64_digit (x / 4)) (String (base64_digit (x mod 4 * 16)) "==")
  | String a (String b EmptyString) =>
      let x := nat_of_ascii a in let y := nat_of_ascii b in
      String (base64_digit (x / 4)) (String (base64_digit (x mod 4 * 16 + y / 16))
        (String (base64_digit (y mod 16 * 4)) "="))
  | String a (String b (String c s')) =>
      let x := nat_of_ascii a in let y := nat_of_ascii b in let z := nat_of_ascii c in
      String (base64_digit (x / 4)) (String (base64_digit (x mod 4 * 16 + y / 16))
        (String (base64_digit (y mod 16 * 4 + z / 64)) (String (base64_digit (z mod 64))
          (EncodeToString s'))))
  end.

Definition name_key (name : string) : string := EncodeToString (ToLower name).
Definition MAYAName_Key (m : MAYAName) : string := name_key (Name m).

(** The characters of [IsValidMAYANameV1]. *)
Definition name_char (c : ascii) : bool :=
  is_lower c || is_upper c || is_digit c
  || Ascii.eqb c "+" || Ascii.eqb c "_" || Ascii.eqb c "-".

Definition IsValidMAYANameV1 (n : string) : bool :=
  negb (String.eqb n EmptyString) && str_forallb name_char n.

(** ** Operations *)

Definition MaxBasisPts : Z := 10000.

Definition EmptyBps : Z := 501.

Definition GetAlias (m : MAYAName) (chain : Chain) : Address :=
  match List.find (fun a => Chain_Equals (Alias_Chain a) chain) (Aliases m) with
  | Some a => Alias_Address a
  | None => NoAddress
  end.

Fixpoint set_alias (chain : Chain) (addr : Address) (l : list MAYANameAlias) : list MAYANameAlias :=
  match l with
  | [] => [mkMAYANameAlias chain addr]
  | a :: l' =>
      if Chain_Equals (Alias_Chain a) chain then mkMAYANameAlias (Alias_Chain a) addr :: l'
      else a :: set_alias chain addr l'
  end.

Definition SetAlias (m : MAYAName) (chain : Chain) (addr : Address) : MAYAName :=
  with_Aliases m (set_alias chain addr (Aliases m)).

Definition GetAffiliateBps (m : MAYAName) : Z :=
  match MN_AffiliateBps m with None => 0 | Some bps => bps end.

(** The pointer is assigned whatever the value: the zero case is overwritten. *)
Definition SetAffiliateBps (m : MAYAName) (affiliateBps : Z) : MAYAName :=
  let m := if affiliateBps =? 0 then with_AffiliateBps m None else m in
  with_AffiliateBps m (Some affiliateBps).

Definition NewMAYAName (name : string) (exp : Z) (aliases : list MAYANameAlias)
    (preferredAsset : Asset) (owner : AccAddress) (affiliateBps : Z)
    (subaffiliates : list MAYANameSubaffiliate) : MAYAName :=
  SetAffiliateBps (mkMAYAName name exp owner preferredAsset aliases None subaffiliates) affiliateBps.

Definition sub_named (name : string) (s : MAYANameSubaffiliate) : bool :=
  String.eqb (Sub_Name s) name.

Definition RemoveSubaffiliate (m : MAYAName) (name : string) : MAYAName :=
  with_Subaffiliates m (remove_first (sub_named name) (Subaffiliates m)).

Section mayaname.
Context `{U : SdkUint} `{A : SdkAddress}.

Definition alias_valid (a : MAYANameAlias) : outcome unit :=
  if Chain_IsEmpty (Alias_Chain a) then Err "chain can't be empty"
  else if Address_IsEmpty (Alias_Address a) then Err "address cannot be empty"
  else Ok tt.

Definition add_sub_bps (sum : Z) (a : MAYANameSubaffiliate) : outcome Z :=
  if String.eqb (Sub_Name a) EmptyString then Err "subaffiliate name can't be empty"
  else if MaxBasisPts <? Sub_Bps a then Err "subaffiliates basis points must not exceed %d"
  else uint_add sum (Sub_Bps a).

Definition MAYAName_Valid (m : MAYAName) : outcome unit :=
  if String.eqb (Name m) EmptyString then Err "name can't be empty"
  else if (length (Aliases m) =? 0)%nat then Err "aliases can't be empty"
  else
    _ ← forM_check alias_valid (Aliases m);
    sum ← foldM add_sub_bps 0 (Subaffiliates m);
    if MaxBasisPts <? sum
    then Err "the total basis points for subaffiliates must not exceed %d"
    else Ok tt.

(** The sum the loop of [SetSubaffiliate] accumulates and the last entry of
    that name it found. *)
Fixpoint sub_loop (name : string) (bps : Z) (i : nat) (l : list MAYANameSubaffiliate)
    (sum : Z) (found : option nat) : outcome (Z * option nat) :=
  match l with
  | [] => Ok (sum, found)
  | s :: l' =>
      if sub_named name s then
        sum ← uint_add sum bps; sub_loop name bps (S i) l' sum (Some i)
      else
        sum ← uint_add sum (Sub_Bps s); sub_loop name bps (S i) l' sum found
  end.

Definition SetSubaffiliate (m : MAYAName) (name : string) (bps : Z) : outcome MAYAName :=
  r ← sub_loop name bps 0 (Subaffiliates m) 0 None;
  let '(sum, found) := (r : Z * option nat) in
  sum ← (if found is Some _ then uint_add sum bps else Ok sum);
  if MaxBasisPts <? sum then Err "the total basis points for subaffiliates must not exceed %d"
  else
    match found with
    | Some i =>
        Ok (with_Subaffiliates m
              (alter (fun s => mkMAYANameSubaffiliate (Sub_Name s) bps) i (Subaffiliates m)))
    | None => Ok (with_Subaffiliates m (Subaffiliates m ++ [mkMAYANameSubaffiliate name bps]))
    end.

Definition CanReceiveAffiliateFee (m : MAYAName) : bool :=
  if acc_empty (MN_Owner m) then false
  else if negb (Asset_IsEmpty (PreferredAsset m)) then
    negb (Address_IsEmpty (GetAlias m (GetChain (PreferredAsset m))))
  else true.
End mayaname.

(** ** Keys tell names apart *)

Lemma digit_upper n n' : (n < 64)%nat -> (n' < 64)%nat ->
  upper_ascii (base64_digit n) = upper_ascii (base64_digit n') ->
  n = n' \/ (n < 26 /\ n' = n + 26)%nat \/ (n' < 26 /\ n = n' + 26)%nat.
Proof.
  intros Hn Hn' E.
  assert (H : forallb (fun n => forallb (fun n' =>
    implb (Ascii.eqb (upper_ascii (base64_digit n)) (upper_ascii (base64_digit n')))
      ((n =? n') || (n <? 26) && (n' =? n + 26) || (n' <? 26) && (n =? n' + 26))%nat)
    (seq 0 64)) (seq 0 64) = true) by by vm_compute.
  rewrite forallb_forall in H. specialize (H n). rewrite in_seq in H.
  specialize (H ltac:(lia)). rewrite forallb_forall in H. specialize (H n').
  rewrite in_seq in H. specialize (H ltac:(lia)). rewrite E, Ascii.eqb_refl in H. cbn [implb] in H.
  apply orb_prop in H as [H|H]; [apply orb_prop in H as [H|H]|];
    [left; by apply Nat.eqb_eq| |]; apply andb_prop in H as [?%Nat.ltb_lt ?%Nat.eqb_eq]; lia.
Qed.

Lemma digit_not_pad n : upper_ascii "=" <> upper_ascii (base64_digit n).
Proof.
  intros E. destruct (Nat.lt_ge_cases n 64) as [Hn|Hn].
  - assert (H : forallb (fun n => negb (Ascii.eqb (upper_ascii "=") (upper_ascii (base64_digit n))))
      (seq 0 64) = true) by by vm_compute.
    rewrite forallb_forall in H. specialize (H n). rewrite in_seq, E, Ascii.eqb_refl in H.
    by specialize (H ltac:(lia)).
  - replace n with (64 + (n - 64))%nat in E by lia. by vm_compute in E.
Qed.

(** What is left of a valid name after [ToLower]. *)
Definition lower_name_char (c : ascii) : bool :=
  is_lower c || is_digit c || Ascii.eqb c "+" || Ascii.eqb c "_" || Ascii.eqb c "-".

Lemma lower_name_char_range c : lower_name_char c = true ->
  let n := nat_of_ascii c in
  (97 <= n <= 122 \/ 48 <= n <= 57 \/ n = 43 \/ n = 45 \/ n = 95)%nat.
Proof.
  unfold lower_name_char, is_lower, is_digit. cbn zeta. intros H.
  repeat (apply orb_prop in H as [H|H]);
    try (apply andb_prop in H as [?%Nat.leb_le ?%Nat.leb_le]; lia);
    apply Ascii.eqb_eq in H as ->; vm_compute; lia.
Qed.

Lemma lower_name n : str_forallb name_char n = true ->
  str_forallb lower_name_char (ToLower n) = true.
Proof.
  intros H. unfold ToLower. rewrite str_forallb_map. revert H. apply str_forallb_impl.
  intros c. pattern c. revert c.
  assert (G : forall c, implb (name_char c) (lower_name_char (lower_ascii c)) = true).
  { apply ascii_ind_bool. by vm_compute. }
  intros c Hc. specialize (G c). by rewrite Hc in G.
Qed.

Lemma ascii_nat_inj a b : nat_of_ascii a = nat_of_ascii b -> a = b.
Proof. intros E. by rewrite <- (ascii_nat_embedding a), E, ascii_nat_embedding. Qed.

Definition name_code (n : nat) : Prop :=
  (97 <= n <= 122 \/ 48 <= n <= 57 \/ n = 43 \/ n = 45 \/ n = 95)%nat.

Definition name_codes : list nat := seq 97 26 ++ seq 48 10 ++ [43; 45; 95]%nat.

Lemma name_codes_spec n : name_code n <-> In n name_codes.
Proof. unfold name_code, name_codes. rewrite !in_app_iff, !in_seq. cbn [In]. lia. Qed.

(** A property of two codes is decided by enumeration. *)
Lemma name_code_ind2 (p : nat -> nat -> bool) :
  forallb (fun x => forallb (p x) name_codes) name_codes = true ->
  forall x y, name_code x -> name_code y -> p x y = true.
Proof.
  intros H x y Hx%name_codes_spec Hy%name_codes_spec. rewrite forallb_forall in H.
  specialize (H x Hx). rewrite forallb_forall in H. by apply H.
Qed.

(** The four digits of a group of three characters. *)
Definition sextets (x y z : nat) : list nat :=
  [x / 4; x mod 4 * 16 + y / 16; y mod 16 * 4 + z / 64; z mod 64]%nat.

(** No digit of a name is 26 more than an upper-case digit at the same place. *)
Lemma sextet_ranges x y : name_code x -> name_code y ->
  (10 <= x / 4 <= 30 /\ x / 64 <= 1 /\ 31 <= x mod 64 < 64 /\
   (x / 16 = 2 \/ x / 16 = 3 \/ x / 16 = 5 \/ x / 16 = 6 \/ x / 16 = 7))%nat.
Proof.
  intros Hx Hy.
  assert (H := name_code_ind2 (fun x _ =>
    ((10 <=? x / 4) && (x / 4 <=? 30) && ((x / 64 <=? 1) && ((31 <=? x mod 64) && (x mod 64 <? 64)))
     && ((x / 16 =? 2) || (x / 16 =? 3) || (x / 16 =? 5) || (x / 16 =? 6) || (x / 16 =? 7)))%nat)
    ltac:(by vm_compute) x y Hx Hy).
  cbv beta in H. rewrite !andb_true_iff, !orb_true_iff, !Nat.leb_le, !Nat.ltb_lt, !Nat.eqb_eq in H.
  tauto.
Qed.

(** Equal digits, up to case, at a place where the codes are [n] and [n']. *)
Definition same_digit (n n' : nat) : Prop :=
  upper_ascii (base64_digit n) = upper_ascii (base64_digit n').

Definition middle (q : nat) : Prop := (q = 2 \/ q = 3 \/ q = 5 \/ q = 6 \/ q = 7)%nat.

Lemma digit_first p p' : (10 <= p <= 30)%nat -> (10 <= p' <= 30)%nat -> same_digit p p' -> p = p'.
Proof. intros ? ? E%digit_upper; lia. Qed.

Lemma digit_second p q p' q' : (p < 4)%nat -> (p' < 4)%nat -> middle q -> middle q' ->
  same_digit (p * 16 + q) (p' * 16 + q') -> p = p' /\ q = q'.
Proof. unfold middle. intros ? ? ? ? E%digit_upper; lia. Qed.

Lemma digit_second_last p p' : (p < 4)%nat -> (p' < 4)%nat ->
  same_digit (p * 16) (p' * 16) -> p = p'.
Proof. intros ? ? E%digit_upper; lia. Qed.

Lemma digit_third p q p' q' : (p < 16)%nat -> (p' < 16)%nat -> (q <= 1)%nat -> (q' <= 1)%nat ->
  same_digit (p * 4 + q) (p' * 4 + q') -> p = p' /\ q = q'.
Proof. intros ? ? ? ? E%digit_upper; lia. Qed.

Lemma digit_third_last p p' : (p < 16)%nat -> (p' < 16)%nat ->
  same_digit (p * 4) (p' * 4) -> p = p'.
Proof. intros ? ? E%digit_upper; lia. Qed.

Lemma digit_fourth p p' : (31 <= p < 64)%nat -> (31 <= p' < 64)%nat -> same_digit p p' -> p = p'.
Proof. intros ? ? E%digit_upper; lia. Qed.

Lemma div_mod_inj k n m : k <> 0%nat -> (n / k = m / k -> n mod k = m mod k -> n = m)%nat.
Proof. intros Hk E1 E2. by rewrite (Nat.div_mod_eq n k), E1, E2, <- Nat.div_mod_eq. Qed.

Lemma group1 x x' : name_code x -> name_code x' ->
  same_digit (x / 4) (x' / 4) -> same_digit (x mod 4 * 16) (x' mod 4 * 16) -> x = x'.
Proof.
  intros H H' E1 E2. pose proof (sextet_ranges x x H H). pose proof (sextet_ranges x' x' H' H').
  apply (div_mod_inj 4); [done| |].
  - by apply digit_first in E1; [|tauto..].
  - by apply digit_second_last in E2; [|by apply Nat.mod_upper_bound..].
Qed.

Lemma group_first x y x' y' : name_code x -> name_code x' -> name_code y -> name_code y' ->
  same_digit (x / 4) (x' / 4) ->
  same_digit (x mod 4 * 16 + y / 16) (x' mod 4 * 16 + y' / 16) ->
  x = x' /\ (y / 16 = y' / 16)%nat.
Proof.
  intros Hx Hx' Hy Hy' E1 E2.
  destruct (sextet_ranges x x Hx Hx) as (? & _). destruct (sextet_ranges x' x' Hx' Hx') as (? & _).
  destruct (sextet_ranges y y Hy Hy) as (_ & _ & _ & ?).
  destruct (sextet_ranges y' y' Hy' Hy') as (_ & _ & _ & ?).
  apply digit_second in E2 as [E2 E3]; [|by apply Nat.mod_upper_bound..|done|done].
  split; [|done]. apply (div_mod_inj 4); [done| |done]. by apply digit_first in E1.
Qed.

Lemma group2 y y' : (y / 16 = y' / 16)%nat ->
  same_digit (y mod 16 * 4) (y' mod 16 * 4) -> y = y'.
Proof.
  intros E1 E2. apply (div_mod_inj 16); [done..|].
  by apply digit_third_last in E2; [|by apply Nat.mod_upper_bound..].
Qed.

Lemma group3 y z y' z' : name_code z -> name_code z' -> (y / 16 = y' / 16)%nat ->
  same_digit (y mod 16 * 4 + z / 64) (y' mod 16 * 4 + z' / 64) ->
  same_digit (z mod 64) (z' mod 64) -> y = y' /\ z = z'.
Proof.
  intros Hz Hz' E1 E2 E3.
  pose proof (sextet_ranges z z Hz Hz). pose proof (sextet_ranges z' z' Hz' Hz').
  apply digit_third in E2 as [E2 E4]; [|by apply Nat.mod_upper_bound|by apply Nat.mod_upper_bound
    |tauto..].
  split; [by apply (div_mod_inj 16)|]. apply (div_mod_inj 64); [done..|].
  by apply digit_fourth in E3; [|tauto..].
Qed.

Lemma name_char_code c : lower_name_char c = true -> name_code (nat_of_ascii c).
Proof. apply lower_name_char_range. Qed.

#[local] Opaque base64_digit Nat.div Nat.modulo upper_ascii.

Lemma encode_inj s s' :
  str_forallb lower_name_char s = true -> str_forallb lower_name_char s' = true ->
  ToUpper (EncodeToString s) = ToUpper (EncodeToString s') -> s = s'.
Proof.
  remember (String.length s) as n eqn:Hn. revert s s' Hn.
  induction (lt_wf n) as [n _ IH]. intros s s' -> Hs Hs' E.
  destruct s as [|a [|b [|c s]]], s' as [|a' [|b' [|c' s']]]; try done;
    cbn in Hs, Hs', E;
    repeat match goal with
    | H : _ && _ = true |- _ => apply andb_prop in H as []
    | H : lower_name_char _ = true |- _ => apply name_char_code in H
    end; injection E as; try (exfalso; by eapply digit_not_pad); try (exfalso; by eapply digit_not_pad, eq_sym).
  - f_equal. by apply ascii_nat_inj, group1.
  - edestruct (group_first (nat_of_ascii a) (nat_of_ascii b)) as [Ha Hb]; [..|eassumption|eassumption|];
      [done..|]. f_equal; [by apply ascii_nat_inj|]. f_equal. by apply ascii_nat_inj, group2.
  - edestruct (group_first (nat_of_ascii a) (nat_of_ascii b)) as [Ha Hb]; [..|eassumption|eassumption|];
      [done..|].
    edestruct (group3 (nat_of_ascii b) (nat_of_ascii c)) as [Hb' Hc];
      [..|exact Hb|eassumption|eassumption|]; [done..|].
    f_equal; [by apply ascii_nat_inj|]. f_equal; [by apply ascii_nat_inj|].
    f_equal; [by apply ascii_nat_inj|].
    eapply IH; [|reflexivity|done..]. cbn. lia.
Qed.

(** Upper-casing the Base64 of a key, as the store does, keeps valid names
    apart: two share a key only when they differ by case. *)
Lemma name_key_inj n n' : IsValidMAYANameV1 n = true -> IsValidMAYANameV1 n' = true ->
  ToUpper (name_key n) = ToUpper (name_key n') <-> ToLower n = ToLower n'.
Proof.
  unfold IsValidMAYANameV1, name_key. intros [_ Hn]%andb_prop [_ Hn']%andb_prop. split; [|by intros ->].
  apply encode_inj; by apply lower_name.
Qed.
