(* ===== verification/Stores.v ===== *)
(** The store of [x/mayachain/keeper/v1]: a record of finite maps, one per prefix
    of keys, with the accounts of modules and the interface of the bank. What the
    store holds decodes, so the errors of decoding do not occur. *)
From S2P Require Import Prelude GoText Sdk Floats Chains Keys Assets Coins Txs NodeAccounts Votes TxOuts Vaults.
From S2P Require Import ObservedTxs Pools Mimirs StreamingSwaps SwapMsgs LiquidityProviders Records MayaNames.

(** ** The bank *)

(** The accounts of modules of [app/app.go]; none of them may receive coins from
    a user or by [SendCoinsFromModuleToAccount]. *)
Definition ModuleName : string := "mayachain".
Definition ReserveName : string := "reserve".
Definition BondName : string := "bond".
Definition MayaFund : string := "maya_fund".
Definition AffiliateCollectorName : string := "affiliate_collector".
Definition CACAOPoolName : string := "cacao_pool".

Definition maccPerms : list string :=
  ["fee_collector"; "mint"; "bonded_tokens_pool"; "not_bonded_tokens_pool"; "transfer"; ModuleName;
   AsgardName; BondName; ReserveName; MayaFund; AffiliateCollectorName; CACAOPoolName].

Definition is_module (m : string) : bool := existsb (String.eqb m) maccPerms.

(** The bank keeper of the Cosmos SDK, with the conversion of a denomination and
    an amount to a coin. Modules are named; a module has an account of its own. *)
Class CosmosBank := {
  BankState : Type;
  bank_supply : BankState -> string -> Z;
  bank_balance : BankState -> AccAddress -> string -> Z;
  bank_module : string -> AccAddress;
  bank_coin : string -> Z -> outcome (string * Z);
  bank_send : string -> string -> list (string * Z) -> BankState -> outcome BankState;
  bank_pay : string -> AccAddress -> list (string * Z) -> BankState -> outcome BankState;
  bank_mint : string -> list (string * Z) -> BankState -> outcome BankState;
  bank_burn : string -> list (string * Z) -> BankState -> outcome BankState;
}.

(** The amount of a denomination in a list of coins. *)
Definition denom_amount (d : string) (cs : list (string * Z)) : Z :=
  sumZ (fun c => if String.eqb (fst c) d then snd c else 0) cs.

(** What account [a] gets when coins go to account [b]. *)
Definition moved (b a : AccAddress) (d : string) (cs : list (string * Z)) : Z :=
  if String.eqb a b then denom_amount d cs else 0.

(** Transfers leave the supply alone and move exactly the coins given, minting
    adds to it and burning takes from it exactly the coins given. The addresses of
    the modules differ, and a payment to one of them is refused. *)
Class CosmosBankLaws (B : CosmosBank) : Prop := {
  bank_coin_law : forall d a c, bank_coin d a = Ok c -> c = (d, a);
  bank_send_supply : forall f t cs b b' d,
    bank_send f t cs b = Ok b' -> bank_supply b' d = bank_supply b d;
  bank_send_balance : forall f t cs b b' a d,
    bank_send f t cs b = Ok b' ->
    bank_balance b' a d =
      bank_balance b a d - moved (bank_module f) a d cs + moved (bank_module t) a d cs;
  bank_pay_balance : forall f t cs b b' a d,
    bank_pay f t cs b = Ok b' ->
    bank_balance b' a d = bank_balance b a d - moved (bank_module f) a d cs + moved t a d cs;
  bank_module_inj : forall m m', is_module m = true -> is_module m' = true ->
    bank_module m = bank_module m' -> m = m';
  bank_pay_blocked : forall f t cs b b' m,
    is_module m = true -> bank_pay f t cs b = Ok b' -> t <> bank_module m;
  bank_mint_supply : forall m cs b b' d,
    bank_mint m cs b = Ok b' -> bank_supply b' d = bank_supply b d + denom_amount d cs;
  bank_burn_supply : forall m cs b b' d,
    bank_burn m cs b = Ok b' -> bank_supply b' d = bank_supply b d - denom_amount d cs;
}.

(** ** Trade accounts *)

Record TradeUnit := mkTradeUnit {
  TradeUnit_Asset : Asset;
  TradeUnit_Units : Z;
  Depth : Z;
}.

Record TradeAccount := mkTradeAccount {
  TradeAccount_Asset : Asset;
  TradeAccount_Units : Z;
  Owner : AccAddress;
  LastAddHeight : Z;
  LastWithdrawHeight : Z;
}.

Definition NewTradeUnit (asset : Asset) : TradeUnit := mkTradeUnit asset 0 0.
Definition NewTradeAccount (addr : AccAddress) (asset : Asset) : TradeAccount :=
  mkTradeAccount asset 0 addr 0 0.

(** ** The store *)

(** What the nodes observe and vote on, apart from the voters of inbound
    transactions: heights, observers, one map of voters per kind of ballot, the outbound
    hashes that name an inbound one, and what is left of the ragnarok. *)
Record Ballots := mkBallots {
  bl_last_signed : Z;
  bl_chain_heights : gmap string Z;
  bl_observe_heights : gmap (string * string) Z;
  bl_observers : list string;
  bl_out_voters : gmap string ObservedTxVoter;
  bl_bans : gmap string BanVoter;
  bl_fee_voters : gmap string ObservedNetworkFeeVoter;
  bl_errata_voters : gmap string ErrataTxVoter;
  bl_solvency_voters : gmap string SolvencyVoter;
  bl_forgive_voters : gmap string ForgiveSlashVoter;
  bl_keysign_voters : gmap string TssKeysignFailVoter;
  bl_pauses : gmap string Z;
  bl_links : gmap string (list string);
  bl_ragnarok_pending : Z;
}.

(** Trade accounts are stored under "owner/asset"; an address has no slash, so
    the key is kept as the pair, as is "id-index" of an item of the swap queue.
    A record the store does not hold yet is its zero value. *)
Record KVStore `{Semver, CosmosBank} := mkKVStore {
  kv_version : Version;
  kv_constants : string -> Z;
  kv_height : Z;
  kv_pools : gmap string Pool;
  kv_mimirs : gmap string Z;
  kv_node_mimirs : gmap string (list NodeMimir);
  kv_node_accounts : gmap string NodeAccount;
  kv_bond_providers : gmap string BondProviders;
  kv_slash_points : gmap string Z;
  kv_jails : gmap string Jail;
  kv_ragnarok_height : Z;
  kv_ragnarok : gmap string Z;
  kv_trade_units : gmap string TradeUnit;
  kv_trade_accounts : gmap (string * string) TradeAccount;
  kv_lps : gmap string LiquidityProvider;
  kv_tiers : gmap string LiquidityAuctionTier;
  kv_vaults : gmap string Vault;
  kv_asgard_index : list string;
  kv_tx_outs : gmap Z TxOut;
  kv_total_fees : gmap Z Z;
  kv_pool_fees : gmap (Z * string) Z;
  kv_rolling_fees : gmap string Z;
  kv_network : Network;
  kv_pol : ProtocolOwnedLiquidity;
  kv_network_fees : gmap string NetworkFee;
  kv_names : gmap string MAYAName;
  kv_collectors : gmap string AffiliateFeeCollector;
  kv_cacao_pool : CACAOPool;
  kv_cacao_providers : gmap string CACAOProvider;
  kv_swap_items : gmap (string * Z) MsgSwap;
  kv_streams : gmap string StreamingSwap;
  kv_voters : gmap string ObservedTxVoter;
  kv_bank : BankState;
  kv_ballots : Ballots;
}.

Section stores.
Context `{V : Semver} `{B : CosmosBank} `{A : SdkAddress} `{R : MapRange}.
Implicit Types k : KVStore.

Definition set_kv_pools k (p : gmap string Pool) : KVStore :=
  mkKVStore _ _ (kv_version k) (kv_constants k) (kv_height k) p (kv_mimirs k) (kv_node_mimirs k)
    (kv_node_accounts k) (kv_bond_providers k) (kv_slash_points k) (kv_jails k)
    (kv_ragnarok_height k) (kv_ragnarok k) (kv_trade_units k) (kv_trade_accounts k) (kv_lps k)
    (kv_tiers k) (kv_vaults k) (kv_asgard_index k) (kv_tx_outs k) (kv_total_fees k) (kv_pool_fees k)
    (kv_rolling_fees k) (kv_network k) (kv_pol k) (kv_network_fees k) (kv_names k) (kv_collectors k)
    (kv_cacao_pool k) (kv_cacao_providers k) (kv_swap_items k) (kv_streams k) (kv_voters k)
    (kv_bank k) (kv_ballots k).
Definition set_kv_mimirs k (p : gmap string Z) : KVStore :=
  mkKVStore _ _ (kv_version k) (kv_constants k) (kv_height k) (kv_pools k) p (kv_node_mimirs k)
    (kv_node_accounts k) (kv_bond_providers k) (kv_slash_points k) (kv_jails k)
    (kv_ragnarok_height k) (kv_ragnarok k) (kv_trade_units k) (kv_trade_accounts k) (kv_lps k)
    (kv_tiers k) (kv_vaults k) (kv_asgard_index k) (kv_tx_outs k) (kv_total_fees k) (kv_pool_fees k)
    (kv_rolling_fees k) (kv_network k) (kv_pol k) (kv_network_fees k) (kv_names k) (kv_collectors k)
    (kv_cacao_pool k) (kv_cacao_providers k) (kv_swap_items k) (kv_streams k) (kv_voters k)
    (kv_bank k) (kv_ballots k).
Definition set_kv_node_accounts k (p : gmap string NodeAccount) : KVStore :=
  mkKVStore _ _ (kv_version k) (kv_constants k) (kv_height k) (kv_pools k) (kv_mimirs k)
    (kv_node_mimirs k) p (kv_bond_providers k) (kv_slash_points k) (kv_jails k)
    (kv_ragnarok_height k) (kv_ragnarok k) (kv_trade_units k) (kv_trade_accounts k) (kv_lps k)
    (kv_tiers k) (kv_vaults k) (kv_asgard_index k) (kv_tx_outs k) (kv_total_fees k) (kv_pool_fees k)
    (kv_rolling_fees k) (kv_network k) (kv_pol k) (kv_network_fees k) (kv_names k) (kv_collectors k)
    (kv_cacao_pool k) (kv_cacao_providers k) (kv_swap_items k) (kv_streams k) (kv_voters k)
    (kv_bank k) (kv_ballots k).
Definition set_kv_bond_providers k (p : gmap string BondProviders) : KVStore :=
  mkKVStore _ _ (kv_version k) (kv_constants k) (kv_height k) (kv_pools k) (kv_mimirs k)
    (kv_node_mimirs k) (kv_node_accounts k) p (kv_slash_points k) (kv_jails k)
    (kv_ragnarok_height k) (kv_ragnarok k) (kv_trade_units k) (kv_trade_accounts k) (kv_lps k)
    (kv_tiers k) (kv_vaults k) (kv_asgard_index k) (kv_tx_outs k) (kv_total_fees k) (kv_pool_fees k)
    (kv_rolling_fees k) (kv_network k) (kv_pol k) (kv_network_fees k) (kv_names k) (kv_collectors k)
    (kv_cacao_pool k) (kv_cacao_providers k) (kv_swap_items k) (kv_streams k) (kv_voters k)
    (kv_bank k) (kv_ballots k).
Definition set_kv_slash_points k (p : gmap string Z) : KVStore :=
  mkKVStore _ _ (kv_version k) (kv_constants k) (kv_height k) (kv_pools k) (kv_mimirs k)
    (kv_node_mimirs k) (kv_node_accounts k) (kv_bond_providers k) p (kv_jails k)
    (kv_ragnarok_height k) (kv_ragnarok k) (kv_trade_units k) (kv_trade_accounts k) (kv_lps k)
    (kv_tiers k) (kv_vaults k) (kv_asgard_index k) (kv_tx_outs k) (kv_total_fees k) (kv_pool_fees k)
    (kv_rolling_fees k) (kv_network k) (kv_pol k) (kv_network_fees k) (kv_names k) (kv_collectors k)
    (kv_cacao_pool k) (kv_cacao_providers k) (kv_swap_items k) (kv_streams k) (kv_voters k)
    (kv_bank k) (kv_ballots k).
Definition set_kv_jails k (p : gmap string Jail) : KVStore :=
  mkKVStore _ _ (kv_version k) (kv_constants k) (kv_height k) (kv_pools k) (kv_mimirs k)
    (kv_node_mimirs k) (kv_node_accounts k) (kv_bond_providers k) (kv_slash_points k) p
    (kv_ragnarok_height k) (kv_ragnarok k) (kv_trade_units k) (kv_trade_accounts k) (kv_lps k)
    (kv_tiers k) (kv_vaults k) (kv_asgard_index k) (kv_tx_outs k) (kv_total_fees k) (kv_pool_fees k)
    (kv_rolling_fees k) (kv_network k) (kv_pol k) (kv_network_fees k) (kv_names k) (kv_collectors k)
    (kv_cacao_pool k) (kv_cacao_providers k) (kv_swap_items k) (kv_streams k) (kv_voters k)
    (kv_bank k) (kv_ballots k).
Definition set_kv_trade k (u : gmap string TradeUnit)
    (a : gmap (string * string) TradeAccount) : KVStore :=
  mkKVStore _ _ (kv_version k) (kv_constants k) (kv_height k) (kv_pools k) (kv_mimirs k)
    (kv_node_mimirs k) (kv_node_accounts k) (kv_bond_providers k) (kv_slash_points k) (kv_jails k)
    (kv_ragnarok_height k) (kv_ragnarok k) u a (kv_lps k) (kv_tiers k) (kv_vaults k)
    (kv_asgard_index k) (kv_tx_outs k) (kv_total_fees k) (kv_pool_fees k) (kv_rolling_fees k)
    (kv_network k) (kv_pol k) (kv_network_fees k) (kv_names k) (kv_collectors k) (kv_cacao_pool k)
    (kv_cacao_providers k) (kv_swap_items k) (kv_streams k) (kv_voters k) (kv_bank k) (kv_ballots k).
Definition set_kv_lps k (p : gmap string LiquidityProvider) : KVStore :=
  mkKVStore _ _ (kv_version k) (kv_constants k) (kv_height k) (kv_pools k) (kv_mimirs k)
    (kv_node_mimirs k) (kv_node_accounts k) (kv_bond_providers k) (kv_slash_points k) (kv_jails k)
    (kv_ragnarok_height k) (kv_ragnarok k) (kv_trade_units k) (kv_trade_accounts k) p (kv_tiers k)
    (kv_vaults k) (kv_asgard_index k) (kv_tx_outs k) (kv_total_fees k) (kv_pool_fees k)
    (kv_rolling_fees k) (kv_network k) (kv_pol k) (kv_network_fees k) (kv_names k) (kv_collectors k)
    (kv_cacao_pool k) (kv_cacao_providers k) (kv_swap_items k) (kv_streams k) (kv_voters k)
    (kv_bank k) (kv_ballots k).
Definition set_kv_tiers k (p : gmap string LiquidityAuctionTier) : KVStore :=
  mkKVStore _ _ (kv_version k) (kv_constants k) (kv_height k) (kv_pools k) (kv_mimirs k)
    (kv_node_mimirs k) (kv_node_accounts k) (kv_bond_providers k) (kv_slash_points k) (kv_jails k)
    (kv_ragnarok_height k) (kv_ragnarok k) (kv_trade_units k) (kv_trade_accounts k) (kv_lps k) p
    (kv_vaults k) (kv_asgard_index k) (kv_tx_outs k) (kv_total_fees k) (kv_pool_fees k)
    (kv_rolling_fees k) (kv_network k) (kv_pol k) (kv_network_fees k) (kv_names k) (kv_collectors k)
    (kv_cacao_pool k) (kv_cacao_providers k) (kv_swap_items k) (kv_streams k) (kv_voters k)
    (kv_bank k) (kv_ballots k).
Definition set_kv_vaults k (p : gmap string Vault) : KVStore :=
  mkKVStore _ _ (kv_version k) (kv_constants k) (kv_height k) (kv_pools k) (kv_mimirs k)
    (kv_node_mimirs k) (kv_node_accounts k) (kv_bond_providers k) (kv_slash_points k) (kv_jails k)
    (kv_ragnarok_height k) (kv_ragnarok k) (kv_trade_units k) (kv_trade_accounts k) (kv_lps k)
    (kv_tiers k) p (kv_asgard_index k) (kv_tx_outs k) (kv_total_fees k) (kv_pool_fees k)
    (kv_rolling_fees k) (kv_network k) (kv_pol k) (kv_network_fees k) (kv_names k) (kv_collectors k)
    (kv_cacao_pool k) (kv_cacao_providers k) (kv_swap_items k) (kv_streams k) (kv_voters k)
    (kv_bank k) (kv_ballots k).
Definition set_kv_asgard_index k (p : list string) : KVStore :=
  mkKVStore _ _ (kv_version k) (kv_constants k) (kv_height k) (kv_pools k) (kv_mimirs k)
    (kv_node_mimirs k) (kv_node_accounts k) (kv_bond_providers k) (kv_slash_points k) (kv_jails k)
    (kv_ragnarok_height k) (kv_ragnarok k) (kv_trade_units k) (kv_trade_accounts k) (kv_lps k)
    (kv_tiers k) (kv_vaults k) p (kv_tx_outs k) (kv_total_fees k) (kv_pool_fees k)
    (kv_rolling_fees k) (kv_network k) (kv_pol k) (kv_network_fees k) (kv_names k) (kv_collectors k)
    (kv_cacao_pool k) (kv_cacao_providers k) (kv_swap_items k) (kv_streams k) (kv_voters k)
    (kv_bank k) (kv_ballots k).
Definition set_kv_tx_outs k (p : gmap Z TxOut) : KVStore :=
  mkKVStore _ _ (kv_version k) (kv_constants k) (kv_height k) (kv_pools k) (kv_mimirs k)
    (kv_node_mimirs k) (kv_node_accounts k) (kv_bond_providers k) (kv_slash_points k) (kv_jails k)
    (kv_ragnarok_height k) (kv_ragnarok k) (kv_trade_units k) (kv_trade_accounts k) (kv_lps k)
    (kv_tiers k) (kv_vaults k) (kv_asgard_index k) p (kv_total_fees k) (kv_pool_fees k)
    (kv_rolling_fees k) (kv_network k) (kv_pol k) (kv_network_fees k) (kv_names k) (kv_collectors k)
    (kv_cacao_pool k) (kv_cacao_providers k) (kv_swap_items k) (kv_streams k) (kv_voters k)
    (kv_bank k) (kv_ballots k).
Definition set_kv_total_fees k (p : gmap Z Z) : KVStore :=
  mkKVStore _ _ (kv_version k) (kv_constants k) (kv_height k) (kv_pools k) (kv_mimirs k)
    (kv_node_mimirs k) (kv_node_accounts k) (kv_bond_providers k) (kv_slash_points k) (kv_jails k)
    (kv_ragnarok_height k) (kv_ragnarok k) (kv_trade_units k) (kv_trade_accounts k) (kv_lps k)
    (kv_tiers k) (kv_vaults k) (kv_asgard_index k) (kv_tx_outs k) p (kv_pool_fees k)
    (kv_rolling_fees k) (kv_network k) (kv_pol k) (kv_network_fees k) (kv_names k) (kv_collectors k)
    (kv_cacao_pool k) (kv_cacao_providers k) (kv_swap_items k) (kv_streams k) (kv_voters k)
    (kv_bank k) (kv_ballots k).
Definition set_kv_pool_fees k (p : gmap (Z * string) Z) : KVStore :=
  mkKVStore _ _ (kv_version k) (kv_constants k) (kv_height k) (kv_pools k) (kv_mimirs k)
    (kv_node_mimirs k) (kv_node_accounts k) (kv_bond_providers k) (kv_slash_points k) (kv_jails k)
    (kv_ragnarok_height k) (kv_ragnarok k) (kv_trade_units k) (kv_trade_accounts k) (kv_lps k)
    (kv_tiers k) (kv_vaults k) (kv_asgard_index k) (kv_tx_outs k) (kv_total_fees k) p
    (kv_rolling_fees k) (kv_network k) (kv_pol k) (kv_network_fees k) (kv_names k) (kv_collectors k)
    (kv_cacao_pool k) (kv_cacao_providers k) (kv_swap_items k) (kv_streams k) (kv_voters k)
    (kv_bank k) (kv_ballots k).
Definition set_kv_rolling_fees k (p : gmap string Z) : KVStore :=
  mkKVStore _ _ (kv_version k) (kv_constants k) (kv_height k) (kv_pools k) (kv_mimirs k)
    (kv_node_mimirs k) (kv_node_accounts k) (kv_bond_providers k) (kv_slash_points k) (kv_jails k)
    (kv_ragnarok_height k) (kv_ragnarok k) (kv_trade_units k) (kv_trade_accounts k) (kv_lps k)
    (kv_tiers k) (kv_vaults k) (kv_asgard_index k) (kv_tx_outs k) (kv_total_fees k) (kv_pool_fees k)
    p (kv_network k) (kv_pol k) (kv_network_fees k) (kv_names k) (kv_collectors k) (kv_cacao_pool k)
    (kv_cacao_providers k) (kv_swap_items k) (kv_streams k) (kv_voters k) (kv_bank k) (kv_ballots k).
Definition set_kv_network k (p : Network) : KVStore :=
  mkKVStore _ _ (kv_version k) (kv_constants k) (kv_height k) (kv_pools k) (kv_mimirs k)
    (kv_node_mimirs k) (kv_node_accounts k) (kv_bond_providers k) (kv_slash_points k) (kv_jails k)
    (kv_ragnarok_height k) (kv_ragnarok k) (kv_trade_units k) (kv_trade_accounts k) (kv_lps k)
    (kv_tiers k) (kv_vaults k) (kv_asgard_index k) (kv_tx_outs k) (kv_total_fees k) (kv_pool_fees k)
    (kv_rolling_fees k) p (kv_pol k) (kv_network_fees k) (kv_names k) (kv_collectors k)
    (kv_cacao_pool k) (kv_cacao_providers k) (kv_swap_items k) (kv_streams k) (kv_voters k)
    (kv_bank k) (kv_ballots k).
Definition set_kv_pol k (p : ProtocolOwnedLiquidity) : KVStore :=
  mkKVStore _ _ (kv_version k) (kv_constants k) (kv_height k) (kv_pools k) (kv_mimirs k)
    (kv_node_mimirs k) (kv_node_accounts k) (kv_bond_providers k) (kv_slash_points k) (kv_jails k)
    (kv_ragnarok_height k) (kv_ragnarok k) (kv_trade_units k) (kv_trade_accounts k) (kv_lps k)
    (kv_tiers k) (kv_vaults k) (kv_asgard_index k) (kv_tx_outs k) (kv_total_fees k) (kv_pool_fees k)
    (kv_rolling_fees k) (kv_network k) p (kv_network_fees k) (kv_names k) (kv_collectors k)
    (kv_cacao_pool k) (kv_cacao_providers k) (kv_swap_items k) (kv_streams k) (kv_voters k)
    (kv_bank k) (kv_ballots k).
Definition set_kv_network_fees k (p : gmap string NetworkFee) : KVStore :=
  mkKVStore _ _ (kv_version k) (kv_constants k) (kv_height k) (kv_pools k) (kv_mimirs k)
    (kv_node_mimirs k) (kv_node_accounts k) (kv_bond_providers k) (kv_slash_points k) (kv_jails k)
    (kv_ragnarok_height k) (kv_ragnarok k) (kv_trade_units k) (kv_trade_accounts k) (kv_lps k)
    (kv_tiers k) (kv_vaults k) (kv_asgard_index k) (kv_tx_outs k) (kv_total_fees k) (kv_pool_fees k)
    (kv_rolling_fees k) (kv_network k) (kv_pol k) p (kv_names k) (kv_collectors k) (kv_cacao_pool k)
    (kv_cacao_providers k) (kv_swap_items k) (kv_streams k) (kv_voters k) (kv_bank k) (kv_ballots k).
Definition set_kv_names k (p : gmap string MAYAName) : KVStore :=
  mkKVStore _ _ (kv_version k) (kv_constants k) (kv_height k) (kv_pools k) (kv_mimirs k)
    (kv_node_mimirs k) (kv_node_accounts k) (kv_bond_providers k) (kv_slash_points k) (kv_jails k)
    (kv_ragnarok_height k) (kv_ragnarok k) (kv_trade_units k) (kv_trade_accounts k) (kv_lps k)
    (kv_tiers k) (kv_vaults k) (kv_asgard_index k) (kv_tx_outs k) (kv_total_fees k) (kv_pool_fees k)
    (kv_rolling_fees k) (kv_network k) (kv_pol k) (kv_network_fees k) p (kv_collectors k)
    (kv_cacao_pool k) (kv_cacao_providers k) (kv_swap_items k) (kv_streams k) (kv_voters k)
    (kv_bank k) (kv_ballots k).
Definition set_kv_collectors k (p : gmap string AffiliateFeeCollector) : KVStore :=
  mkKVStore _ _ (kv_version k) (kv_constants k) (kv_height k) (kv_pools k) (kv_mimirs k)
    (kv_node_mimirs k) (kv_node_accounts k) (kv_bond_providers k) (kv_slash_points k) (kv_jails k)
    (kv_ragnarok_height k) (kv_ragnarok k) (kv_trade_units k) (kv_trade_accounts k) (kv_lps k)
    (kv_tiers k) (kv_vaults k) (kv_asgard_index k) (kv_tx_outs k) (kv_total_fees k) (kv_pool_fees k)
    (kv_rolling_fees k) (kv_network k) (kv_pol k) (kv_network_fees k) (kv_names k) p
    (kv_cacao_pool k) (kv_cacao_providers k) (kv_swap_items k) (kv_streams k) (kv_voters k)
    (kv_bank k) (kv_ballots k).
Definition set_kv_cacao_pool k (p : CACAOPool) : KVStore :=
  mkKVStore _ _ (kv_version k) (kv_constants k) (kv_height k) (kv_pools k) (kv_mimirs k)
    (kv_node_mimirs k) (kv_node_accounts k) (kv_bond_providers k) (kv_slash_points k) (kv_jails k)
    (kv_ragnarok_height k) (kv_ragnarok k) (kv_trade_units k) (kv_trade_accounts k) (kv_lps k)
    (kv_tiers k) (kv_vaults k) (kv_asgard_index k) (kv_tx_outs k) (kv_total_fees k) (kv_pool_fees k)
    (kv_rolling_fees k) (kv_network k) (kv_pol k) (kv_network_fees k) (kv_names k) (kv_collectors k)
    p (kv_cacao_providers k) (kv_swap_items k) (kv_streams k) (kv_voters k) (kv_bank k) (kv_ballots k).
Definition set_kv_cacao_providers k (p : gmap string CACAOProvider) : KVStore :=
  mkKVStore _ _ (kv_version k) (kv_constants k) (kv_height k) (kv_pools k) (kv_mimirs k)
    (kv_node_mimirs k) (kv_node_accounts k) (kv_bond_providers k) (kv_slash_points k) (kv_jails k)
    (kv_ragnarok_height k) (kv_ragnarok k) (kv_trade_units k) (kv_trade_accounts k) (kv_lps k)
    (kv_tiers k) (kv_vaults k) (kv_asgard_index k) (kv_tx_outs k) (kv_total_fees k) (kv_pool_fees k)
    (kv_rolling_fees k) (kv_network k) (kv_pol k) (kv_network_fees k) (kv_names k) (kv_collectors k)
    (kv_cacao_pool k) p (kv_swap_items k) (kv_streams k) (kv_voters k) (kv_bank k) (kv_ballots k).
Definition set_kv_swap_items k (p : gmap (string * Z) MsgSwap) : KVStore :=
  mkKVStore _ _ (kv_version k) (kv_constants k) (kv_height k) (kv_pools k) (kv_mimirs k)
    (kv_node_mimirs k) (kv_node_accounts k) (kv_bond_providers k) (kv_slash_points k) (kv_jails k)
    (kv_ragnarok_height k) (kv_ragnarok k) (kv_trade_units k) (kv_trade_accounts k) (kv_lps k)
    (kv_tiers k) (kv_vaults k) (kv_asgard_index k) (kv_tx_outs k) (kv_total_fees k) (kv_pool_fees k)
    (kv_rolling_fees k) (kv_network k) (kv_pol k) (kv_network_fees k) (kv_names k) (kv_collectors k)
    (kv_cacao_pool k) (kv_cacao_providers k) p (kv_streams k) (kv_voters k) (kv_bank k) (kv_ballots k).
Definition set_kv_streams k (p : gmap string StreamingSwap) : KVStore :=
  mkKVStore _ _ (kv_version k) (kv_constants k) (kv_height k) (kv_pools k) (kv_mimirs k)
    (kv_node_mimirs k) (kv_node_accounts k) (kv_bond_providers k) (kv_slash_points k) (kv_jails k)
    (kv_ragnarok_height k) (kv_ragnarok k) (kv_trade_units k) (kv_trade_accounts k) (kv_lps k)
    (kv_tiers k) (kv_vaults k) (kv_asgard_index k) (kv_tx_outs k) (kv_total_fees k) (kv_pool_fees k)
    (kv_rolling_fees k) (kv_network k) (kv_pol k) (kv_network_fees k) (kv_names k) (kv_collectors k)
    (kv_cacao_pool k) (kv_cacao_providers k) (kv_swap_items k) p (kv_voters k) (kv_bank k) (kv_ballots k).
Definition set_kv_voters k (p : gmap string ObservedTxVoter) : KVStore :=
  mkKVStore _ _ (kv_version k) (kv_constants k) (kv_height k) (kv_pools k) (kv_mimirs k)
    (kv_node_mimirs k) (kv_node_accounts k) (kv_bond_providers k) (kv_slash_points k) (kv_jails k)
    (kv_ragnarok_height k) (kv_ragnarok k) (kv_trade_units k) (kv_trade_accounts k) (kv_lps k)
    (kv_tiers k) (kv_vaults k) (kv_asgard_index k) (kv_tx_outs k) (kv_total_fees k) (kv_pool_fees k)
    (kv_rolling_fees k) (kv_network k) (kv_pol k) (kv_network_fees k) (kv_names k) (kv_collectors k)
    (kv_cacao_pool k) (kv_cacao_providers k) (kv_swap_items k) (kv_streams k) p (kv_bank k) (kv_ballots k).
Definition set_kv_bank k (p : BankState) : KVStore :=
  mkKVStore _ _ (kv_version k) (kv_constants k) (kv_height k) (kv_pools k) (kv_mimirs k)
    (kv_node_mimirs k) (kv_node_accounts k) (kv_bond_providers k) (kv_slash_points k) (kv_jails k)
    (kv_ragnarok_height k) (kv_ragnarok k) (kv_trade_units k) (kv_trade_accounts k) (kv_lps k)
    (kv_tiers k) (kv_vaults k) (kv_asgard_index k) (kv_tx_outs k) (kv_total_fees k) (kv_pool_fees k)
    (kv_rolling_fees k) (kv_network k) (kv_pol k) (kv_network_fees k) (kv_names k) (kv_collectors k)
    (kv_cacao_pool k) (kv_cacao_providers k) (kv_swap_items k) (kv_streams k) (kv_voters k) p (kv_ballots k).

Definition set_kv_node_mimirs k (p : gmap string (list NodeMimir)) : KVStore :=
  mkKVStore _ _ (kv_version k) (kv_constants k) (kv_height k) (kv_pools k) (kv_mimirs k) p
    (kv_node_accounts k) (kv_bond_providers k) (kv_slash_points k) (kv_jails k)
    (kv_ragnarok_height k) (kv_ragnarok k) (kv_trade_units k) (kv_trade_accounts k) (kv_lps k)
    (kv_tiers k) (kv_vaults k) (kv_asgard_index k) (kv_tx_outs k) (kv_total_fees k) (kv_pool_fees k)
    (kv_rolling_fees k) (kv_network k) (kv_pol k) (kv_network_fees k) (kv_names k) (kv_collectors k)
    (kv_cacao_pool k) (kv_cacao_providers k) (kv_swap_items k) (kv_streams k) (kv_voters k)
    (kv_bank k) (kv_ballots k).
Definition set_kv_ragnarok k (p : gmap string Z) : KVStore :=
  mkKVStore _ _ (kv_version k) (kv_constants k) (kv_height k) (kv_pools k) (kv_mimirs k)
    (kv_node_mimirs k) (kv_node_accounts k) (kv_bond_providers k) (kv_slash_points k) (kv_jails k)
    (kv_ragnarok_height k) p (kv_trade_units k) (kv_trade_accounts k) (kv_lps k) (kv_tiers k)
    (kv_vaults k) (kv_asgard_index k) (kv_tx_outs k) (kv_total_fees k) (kv_pool_fees k)
    (kv_rolling_fees k) (kv_network k) (kv_pol k) (kv_network_fees k) (kv_names k) (kv_collectors k)
    (kv_cacao_pool k) (kv_cacao_providers k) (kv_swap_items k) (kv_streams k) (kv_voters k)
    (kv_bank k) (kv_ballots k).
Definition set_kv_ballots k (p : Ballots) : KVStore :=
  mkKVStore _ _ (kv_version k) (kv_constants k) (kv_height k) (kv_pools k) (kv_mimirs k)
    (kv_node_mimirs k) (kv_node_accounts k) (kv_bond_providers k) (kv_slash_points k) (kv_jails k)
    (kv_ragnarok_height k) (kv_ragnarok k) (kv_trade_units k) (kv_trade_accounts k) (kv_lps k)
    (kv_tiers k) (kv_vaults k) (kv_asgard_index k) (kv_tx_outs k) (kv_total_fees k) (kv_pool_fees k)
    (kv_rolling_fees k) (kv_network k) (kv_pol k) (kv_network_fees k) (kv_names k) (kv_collectors k)
    (kv_cacao_pool k) (kv_cacao_providers k) (kv_swap_items k) (kv_streams k) (kv_voters k)
    (kv_bank k) p.
Definition set_bl_last_signed k (p : Z) : KVStore :=
  set_kv_ballots k (mkBallots p (bl_chain_heights (kv_ballots k))
    (bl_observe_heights (kv_ballots k)) (bl_observers (kv_ballots k)) (bl_out_voters (kv_ballots k))
    (bl_bans (kv_ballots k)) (bl_fee_voters (kv_ballots k)) (bl_errata_voters (kv_ballots k))
    (bl_solvency_voters (kv_ballots k)) (bl_forgive_voters (kv_ballots k))
    (bl_keysign_voters (kv_ballots k)) (bl_pauses (kv_ballots k)) (bl_links (kv_ballots k))
    (bl_ragnarok_pending (kv_ballots k))).
Definition set_bl_chain_heights k (p : gmap string Z) : KVStore :=
  set_kv_ballots k (mkBallots (bl_last_signed (kv_ballots k)) p (bl_observe_heights (kv_ballots k))
    (bl_observers (kv_ballots k)) (bl_out_voters (kv_ballots k)) (bl_bans (kv_ballots k))
    (bl_fee_voters (kv_ballots k)) (bl_errata_voters (kv_ballots k))
    (bl_solvency_voters (kv_ballots k)) (bl_forgive_voters (kv_ballots k))
    (bl_keysign_voters (kv_ballots k)) (bl_pauses (kv_ballots k)) (bl_links (kv_ballots k))
    (bl_ragnarok_pending (kv_ballots k))).
Definition set_bl_observe_heights k (p : gmap (string * string) Z) : KVStore :=
  set_kv_ballots k (mkBallots (bl_last_signed (kv_ballots k)) (bl_chain_heights (kv_ballots k)) p
    (bl_observers (kv_ballots k)) (bl_out_voters (kv_ballots k)) (bl_bans (kv_ballots k))
    (bl_fee_voters (kv_ballots k)) (bl_errata_voters (kv_ballots k))
    (bl_solvency_voters (kv_ballots k)) (bl_forgive_voters (kv_ballots k))
    (bl_keysign_voters (kv_ballots k)) (bl_pauses (kv_ballots k)) (bl_links (kv_ballots k))
    (bl_ragnarok_pending (kv_ballots k))).
Definition set_bl_observers k (p : list string) : KVStore :=
  set_kv_ballots k (mkBallots (bl_last_signed (kv_ballots k)) (bl_chain_heights (kv_ballots k))
    (bl_observe_heights (kv_ballots k)) p (bl_out_voters (kv_ballots k)) (bl_bans (kv_ballots k))
    (bl_fee_voters (kv_ballots k)) (bl_errata_voters (kv_ballots k))
    (bl_solvency_voters (kv_ballots k)) (bl_forgive_voters (kv_ballots k))
    (bl_keysign_voters (kv_ballots k)) (bl_pauses (kv_ballots k)) (bl_links (kv_ballots k))
    (bl_ragnarok_pending (kv_ballots k))).
Definition set_bl_out_voters k (p : gmap string ObservedTxVoter) : KVStore :=
  set_kv_ballots k (mkBallots (bl_last_signed (kv_ballots k)) (bl_chain_heights (kv_ballots k))
    (bl_observe_heights (kv_ballots k)) (bl_observers (kv_ballots k)) p (bl_bans (kv_ballots k))
    (bl_fee_voters (kv_ballots k)) (bl_errata_voters (kv_ballots k))
    (bl_solvency_voters (kv_ballots k)) (bl_forgive_voters (kv_ballots k))
    (bl_keysign_voters (kv_ballots k)) (bl_pauses (kv_ballots k)) (bl_links (kv_ballots k))
    (bl_ragnarok_pending (kv_ballots k))).
Definition set_bl_bans k (p : gmap string BanVoter) : KVStore :=
  set_kv_ballots k (mkBallots (bl_last_signed (kv_ballots k)) (bl_chain_heights (kv_ballots k))
    (bl_observe_heights (kv_ballots k)) (bl_observers (kv_ballots k)) (bl_out_voters (kv_ballots k))
    p (bl_fee_voters (kv_ballots k)) (bl_errata_voters (kv_ballots k))
    (bl_solvency_voters (kv_ballots k)) (bl_forgive_voters (kv_ballots k))
    (bl_keysign_voters (kv_ballots k)) (bl_pauses (kv_ballots k)) (bl_links (kv_ballots k))
    (bl_ragnarok_pending (kv_ballots k))).
Definition set_bl_fee_voters k (p : gmap string ObservedNetworkFeeVoter) : KVStore :=
  set_kv_ballots k (mkBallots (bl_last_signed (kv_ballots k)) (bl_chain_heights (kv_ballots k))
    (bl_observe_heights (kv_ballots k)) (bl_observers (kv_ballots k)) (bl_out_voters (kv_ballots k))
    (bl_bans (kv_ballots k)) p (bl_errata_voters (kv_ballots k)) (bl_solvency_voters (kv_ballots k))
    (bl_forgive_voters (kv_ballots k)) (bl_keysign_voters (kv_ballots k)) (bl_pauses (kv_ballots k))
    (bl_links (kv_ballots k)) (bl_ragnarok_pending (kv_ballots k))).
Definition set_bl_errata_voters k (p : gmap string ErrataTxVoter) : KVStore :=
  set_kv_ballots k (mkBallots (bl_last_signed (kv_ballots k)) (bl_chain_heights (kv_ballots k))
    (bl_observe_heights (kv_ballots k)) (bl_observers (kv_ballots k)) (bl_out_voters (kv_ballots k))
    (bl_bans (kv_ballots k)) (bl_fee_voters (kv_ballots k)) p (bl_solvency_voters (kv_ballots k))
    (bl_forgive_voters (kv_ballots k)) (bl_keysign_voters (kv_ballots k)) (bl_pauses (kv_ballots k))
    (bl_links (kv_ballots k)) (bl_ragnarok_pending (kv_ballots k))).
Definition set_bl_solvency_voters k (p : gmap string SolvencyVoter) : KVStore :=
  set_kv_ballots k (mkBallots (bl_last_signed (kv_ballots k)) (bl_chain_heights (kv_ballots k))
    (bl_observe_heights (kv_ballots k)) (bl_observers (kv_ballots k)) (bl_out_voters (kv_ballots k))
    (bl_bans (kv_ballots k)) (bl_fee_voters (kv_ballots k)) (bl_errata_voters (kv_ballots k)) p
    (bl_forgive_voters (kv_ballots k)) (bl_keysign_voters (kv_ballots k)) (bl_pauses (kv_ballots k))
    (bl_links (kv_ballots k)) (bl_ragnarok_pending (kv_ballots k))).
Definition set_bl_forgive_voters k (p : gmap string ForgiveSlashVoter) : KVStore :=
  set_kv_ballots k (mkBallots (bl_last_signed (kv_ballots k)) (bl_chain_heights (kv_ballots k))
    (bl_observe_heights (kv_ballots k)) (bl_observers (kv_ballots k)) (bl_out_voters (kv_ballots k))
    (bl_bans (kv_ballots k)) (bl_fee_voters (kv_ballots k)) (bl_errata_voters (kv_ballots k))
    (bl_solvency_voters (kv_ballots k)) p (bl_keysign_voters (kv_ballots k))
    (bl_pauses (kv_ballots k)) (bl_links (kv_ballots k)) (bl_ragnarok_pending (kv_ballots k))).
Definition set_bl_keysign_voters k (p : gmap string TssKeysignFailVoter) : KVStore :=
  set_kv_ballots k (mkBallots (bl_last_signed (kv_ballots k)) (bl_chain_heights (kv_ballots k))
    (bl_observe_heights (kv_ballots k)) (bl_observers (kv_ballots k)) (bl_out_voters (kv_ballots k))
    (bl_bans (kv_ballots k)) (bl_fee_voters (kv_ballots k)) (bl_errata_voters (kv_ballots k))
    (bl_solvency_voters (kv_ballots k)) (bl_forgive_voters (kv_ballots k)) p
    (bl_pauses (kv_ballots k)) (bl_links (kv_ballots k)) (bl_ragnarok_pending (kv_ballots k))).
Definition set_bl_pauses k (p : gmap string Z) : KVStore :=
  set_kv_ballots k (mkBallots (bl_last_signed (kv_ballots k)) (bl_chain_heights (kv_ballots k))
    (bl_observe_heights (kv_ballots k)) (bl_observers (kv_ballots k)) (bl_out_voters (kv_ballots k))
    (bl_bans (kv_ballots k)) (bl_fee_voters (kv_ballots k)) (bl_errata_voters (kv_ballots k))
    (bl_solvency_voters (kv_ballots k)) (bl_forgive_voters (kv_ballots k))
    (bl_keysign_voters (kv_ballots k)) p (bl_links (kv_ballots k))
    (bl_ragnarok_pending (kv_ballots k))).
Definition set_bl_links k (p : gmap string (list string)) : KVStore :=
  set_kv_ballots k (mkBallots (bl_last_signed (kv_ballots k)) (bl_chain_heights (kv_ballots k))
    (bl_observe_heights (kv_ballots k)) (bl_observers (kv_ballots k)) (bl_out_voters (kv_ballots k))
    (bl_bans (kv_ballots k)) (bl_fee_voters (kv_ballots k)) (bl_errata_voters (kv_ballots k))
    (bl_solvency_voters (kv_ballots k)) (bl_forgive_voters (kv_ballots k))
    (bl_keysign_voters (kv_ballots k)) (bl_pauses (kv_ballots k)) p
    (bl_ragnarok_pending (kv_ballots k))).
Definition set_bl_ragnarok_pending k (p : Z) : KVStore :=
  set_kv_ballots k (mkBallots (bl_last_signed (kv_ballots k)) (bl_chain_heights (kv_ballots k))
    (bl_observe_heights (kv_ballots k)) (bl_observers (kv_ballots k)) (bl_out_voters (kv_ballots k))
    (bl_bans (kv_ballots k)) (bl_fee_voters (kv_ballots k)) (bl_errata_voters (kv_ballots k))
    (bl_solvency_voters (kv_ballots k)) (bl_forgive_voters (kv_ballots k))
    (bl_keysign_voters (kv_ballots k)) (bl_pauses (kv_ballots k)) (bl_links (kv_ballots k)) p).

Definition empty_ballots : Ballots := mkBallots 0 ∅ ∅ [] ∅ ∅ ∅ ∅ ∅ ∅ ∅ ∅ ∅ 0.

(** A store that holds nothing but the bank's state. *)
Definition empty_kv (version : Version) (constants : string -> Z) (height : Z) (b : BankState)
  : KVStore :=
  mkKVStore _ _ version constants height ∅ ∅ ∅ ∅ ∅ ∅ ∅ 0 ∅ ∅ ∅ ∅ ∅ ∅ [] ∅ ∅ ∅ ∅ NewNetwork
    NewProtocolOwnedLiquidity ∅ ∅ ∅ NewCACAOPool ∅ ∅ ∅ ∅ b empty_ballots.

End stores.
