(* ===== verification/Keeper.v ===== *)
(** The part of [x/mayachain/keeper/v1] that the swapper and the trade accounts
    use: the pools, the network parameters (mimir), the supply of synths and the
    trade accounts. [GetKey] upper-cases every key. *)
From S2P Require Import Prelude GoText Sdk Floats Chains Keys Assets Coins Txs NodeAccounts Votes TxOuts.
From S2P Require Import ObservedTxs Pools Mimirs StreamingSwaps SwapMsgs LiquidityProviders Records MayaNames Stores.

Section keeper.
Context `{V : Semver} `{B : CosmosBank} `{A : SdkAddress} `{R : MapRange}.
Implicit Types k : KVStore.

(** [GetKey] without the prefix. *)
Definition GetKey (key : string) : string := ToUpper key.

(** ** Pools *)

Definition GetPool k (asset : Asset) : Pool :=
  default NewPool (kv_pools k !! GetKey (Asset_String asset)).

Definition SetPool k (pool : Pool) : outcome KVStore :=
  if Asset_IsEmpty (Pool_Asset pool) then Err "cannot save a pool with an empty asset"
  else Ok (set_kv_pools k (<[GetKey (Asset_String (Pool_Asset pool)) := pool]> (kv_pools k))).

Definition PoolExist k (asset : Asset) : bool :=
  bool_decide (is_Some (kv_pools k !! GetKey (Asset_String asset))).

Definition RemovePool k (asset : Asset) : KVStore :=
  set_kv_pools k (delete (GetKey (Asset_String asset)) (kv_pools k)).

(** The store iterates in the order of the keys. *)
Definition GetPoolIterator k : list Pool :=
  map snd (stable_sort (fun a b => str_ltb (fst a) (fst b)) (map_to_list (kv_pools k))).

Definition GetPools k : list Pool := GetPoolIterator k.

Definition RagnarokInProgress k : bool := 0 <? kv_ragnarok_height k.

Definition GetPoolRagnarokStart k (asset : Asset) : Z :=
  default 0 (kv_ragnarok k !! GetKey (Asset_String asset)).

(** ** Network parameters *)

Definition NodeTypeValidator : NodeType := 0.

(** The store iterates in the order of the keys. *)
Definition GetNodeAccountIterator k : list NodeAccount :=
  map snd (stable_sort (fun a b => str_ltb (fst a) (fst b)) (map_to_list (kv_node_accounts k))).

Definition ListValidatorsByStatus k (status : NodeStatus) : list NodeAccount :=
  List.filter (fun na => (NodeAccount_Type na =? NodeTypeValidator)
                         && (NodeAccount_Status na =? status)) (GetNodeAccountIterator k).

Definition ListActiveValidators k : list NodeAccount := ListValidatorsByStatus k NodeStatus_Active.

Definition KRAKEN : string := "ReleaseTheKraken".

Definition haveKraken k : bool := 0 <=? default (-1) (kv_mimirs k !! GetKey KRAKEN).

Definition GetNodeMimirs k (key : string) : list NodeMimir :=
  default [] (kv_node_mimirs k !! GetKey (ToUpper key)).

(** Before 1.92.0 the votes of the nodes come first. *)
Definition GetMimir k (key : string) : Z :=
  let voted :=
    if negb (GTE (kv_version k) (semver_release 1 92 0)) then
      let '(i, ok) := NodeMimirs_HasSuperMajority (GetNodeMimirs k key) key
                        (GetNodeAddresses (ListActiveValidators k)) in
      if ok : bool then Some i else None
    else None in
  match voted with
  | Some i => i
  | None =>
      if haveKraken k then -1
      else default (-1) (kv_mimirs k !! GetKey key)
  end.

Definition SetMimir k (key : string) (value : Z) : KVStore :=
  if haveKraken k then k else set_kv_mimirs k (<[GetKey key := value]> (kv_mimirs k)).

Definition GetConfigInt64 k (key : string) : Z :=
  let val := GetMimir k key in
  if val <? 0 then kv_constants k key else val.

(** ** Supply *)

(** [coin.Amount.Uint64()] panics on more than 64 bits. *)
Definition amount_uint64 (z : Z) : outcome Z :=
  if (0 <=? z) && (z <? 2 ^ 64) then Ok z else Panic.

Definition GetTotalSupply k (asset : Asset) : outcome Z :=
  if GTE (kv_version k) (semver_release 1 91 0)
     && (0 <? GetPoolRagnarokStart k (GetLayer1Asset asset))
  then Ok 0
  else amount_uint64 (bank_supply (kv_bank k) (Asset_Native asset)).

Definition Coin_Native (c : Coin) : outcome (string * Z) :=
  if negb (Coin_IsNative c) then Err "coin is not on thorchain"
  else bank_coin (Asset_Native (Coin_Asset c)) (Coin_Amount c).

(** The coins of a transfer, in order. *)
Fixpoint native_coins (coins : Coins) : outcome (list (string * Z)) :=
  match coins with
  | [] => Ok []
  | c :: coins' =>
      c' ← bank_coin (Asset_Native (Coin_Asset c)) (Coin_Amount c);
      cs ← native_coins coins';
      Ok (c' :: cs)
  end.

Definition SendFromModuleToModule k (from to : string) (coins : Coins) : outcome KVStore :=
  cs ← native_coins coins;
  b ← bank_send from to cs (kv_bank k);
  Ok (set_kv_bank k b).

Definition SendFromModuleToAccount k (from : string) (to : AccAddress) (coins : Coins)
  : outcome KVStore :=
  cs ← native_coins coins;
  b ← bank_pay from to cs (kv_bank k);
  Ok (set_kv_bank k b).

Definition BurnFromModule k (module : string) (coin : Coin) : outcome KVStore :=
  c ← Coin_Native coin;
  b ← bank_burn module [c] (kv_bank k);
  Ok (set_kv_bank k b).

(** Minting beyond the supply cap pauses the network. *)
Definition MintToModule k (module : string) (coin : Coin) : outcome KVStore :=
  c ← Coin_Native coin;
  b ← bank_mint module [c] (kv_bank k);
  let k := set_kv_bank k b in
  if GTE (kv_version k) (semver_release 1 95 0) then
    let supply := bank_supply (kv_bank k) (Asset_Native BaseAsset) in
    let maxAmt := GetMimir k "MaxRuneSupply" in
    if (0 <? maxAmt) && (maxAmt <? supply) then
      let k := SetMimir k "HaltTrading" 1 in
      let k := SetMimir k "HaltChainGlobal" 1 in
      let k := SetMimir k "PauseLP" 1 in
      Ok (SetMimir k "HaltTHORChain" 1)
    else Ok k
  else Ok k.

(** ** Trade accounts *)

Definition account_key (addr : AccAddress) (asset : Asset) : string * string :=
  (GetKey (acc_string addr), GetKey (Asset_String asset)).

Definition GetTradeAccount k (addr : AccAddress) (asset : Asset) : TradeAccount :=
  default (NewTradeAccount addr asset) (kv_trade_accounts k !! account_key addr asset).

Definition SetTradeAccount k (tr : TradeAccount) : KVStore :=
  set_kv_trade k (kv_trade_units k)
    (<[account_key (Owner tr) (TradeAccount_Asset tr) := tr]> (kv_trade_accounts k)).

Definition GetTradeUnit k (asset : Asset) : TradeUnit :=
  default (NewTradeUnit asset) (kv_trade_units k !! GetKey (Asset_String asset)).

Definition SetTradeUnit k (tu : TradeUnit) : KVStore :=
  set_kv_trade k (<[GetKey (Asset_String (TradeUnit_Asset tu)) := tu]> (kv_trade_units k))
    (kv_trade_accounts k).
(** ** The network *)

Definition GetNetwork k : Network := kv_network k.
Definition SetNetwork k (data : Network) : KVStore := set_kv_network k data.

Definition GetPOL k : ProtocolOwnedLiquidity := kv_pol k.
Definition SetPOL k (data : ProtocolOwnedLiquidity) : KVStore := set_kv_pol k data.

Definition GetNetworkFee k (chain : Chain) : NetworkFee :=
  default (mkNetworkFee chain 0 0) (kv_network_fees k !! GetKey (Chain_String chain)).

Definition SaveNetworkFee k (chain : Chain) (networkFee : NetworkFee) : outcome KVStore :=
  _ ← NetworkFee_Valid networkFee;
  Ok (set_kv_network_fees k (<[GetKey (Chain_String chain) := networkFee]> (kv_network_fees k))).

(** ** The CACAO pool *)

Definition GetCACAOPool k : CACAOPool := kv_cacao_pool k.
Definition SetCACAOPool k (pool : CACAOPool) : KVStore := set_kv_cacao_pool k pool.

Definition GetCACAOProvider k (addr : AccAddress) : CACAOProvider :=
  default (empty_provider addr) (kv_cacao_providers k !! GetKey (acc_string addr)).

Definition SetCACAOProvider k (rp : CACAOProvider) : KVStore :=
  set_kv_cacao_providers k (<[GetKey (CACAOProvider_Key rp) := rp]> (kv_cacao_providers k)).

Definition RemoveCACAOProvider k (rp : CACAOProvider) : KVStore :=
  set_kv_cacao_providers k (delete (GetKey (CACAOProvider_Key rp)) (kv_cacao_providers k)).

(** ** MAYANames *)

Definition SetMAYAName k (name : MAYAName) : KVStore :=
  set_kv_names k (<[GetKey (MAYAName_Key name) := name]> (kv_names k)).

Definition getMAYANameGracePeriod k : Z :=
  let gracePeriod := GetMimir k "MAYANameGracePeriodBlocks" in
  if gracePeriod <? 0 then kv_constants k "MAYANameGracePeriodBlocks" else gracePeriod.

(** The last block at which a name is served. *)
Definition name_expiration k (record : MAYAName) : Z :=
  if GTE (kv_version k) (semver_release 1 112 0)
  then i64 (ExpireBlockHeight record + getMAYANameGracePeriod k)
  else ExpireBlockHeight record.

(** The record with only its name, of a name that is no longer served. *)
Definition bare_name (name : string) : MAYAName :=
  mkMAYAName name 0 EmptyString EmptyAsset [] None [].

Definition GetMAYAName k (name : string) : outcome MAYAName :=
  match kv_names k !! GetKey (name_key name) with
  | None => Err "MAYAName doesn't exist: %s"
  | Some record =>
      if name_expiration k record <? kv_height k then Ok (bare_name name) else Ok record
  end.

(** The record that is checked is the one [GetMAYAName] returns, so an expired
    name counts from height zero. *)
Definition MAYANameExists k (name : string) : bool :=
  match GetMAYAName k name with
  | Ok record => kv_height k <=? name_expiration k record
  | _ => false
  end.

Definition DeleteMAYAName k (name : string) : KVStore :=
  set_kv_names k (delete (GetKey (name_key name)) (kv_names k)).

(** ** Affiliate collectors *)

Definition SetAffiliateCollector k (collector : AffiliateFeeCollector) : KVStore :=
  set_kv_collectors k
    (<[GetKey (acc_string (OwnerAddress collector)) := collector]> (kv_collectors k)).

Definition GetAffiliateCollector k (acc : AccAddress) : AffiliateFeeCollector :=
  default (NewAffiliateFeeCollector acc 0) (kv_collectors k !! GetKey (acc_string acc)).

(** ** The swap queue and the voters of inbound transactions *)

Definition SetSwapQueueItem k (msg : MsgSwap) (i : Z) : KVStore :=
  set_kv_swap_items k
    (<[(GetKey (TxID_String (Tx_ID (Msg_Tx msg))), i) := msg]> (kv_swap_items k)).

Definition RemoveSwapQueueItem k (txID : TxID) (i : Z) : KVStore :=
  set_kv_swap_items k (delete (GetKey (TxID_String txID), i) (kv_swap_items k)).

Definition GetSwapQueueItem k (txID : TxID) (i : Z) : outcome MsgSwap :=
  match kv_swap_items k !! (GetKey (TxID_String txID), i) with
  | Some record => Ok record
  | None => Err "not found"
  end.

Definition HasSwapQueueItem k (txID : TxID) (i : Z) : bool :=
  match kv_swap_items k !! (GetKey (TxID_String txID), i) with Some _ => true | None => false end.

(** The record of a streaming swap, an empty one when there is none. *)
Definition k_GetStreamingSwap k (hash : TxID) : StreamingSwap :=
  default (NewStreamingSwap hash 0 0 0 0) (kv_streams k !! GetKey (TxID_String hash)).

Definition StreamingSwapExists k (hash : TxID) : bool :=
  match kv_streams k !! GetKey (TxID_String hash) with Some _ => true | None => false end.

Definition SetStreamingSwap k (swp : StreamingSwap) : KVStore :=
  set_kv_streams k (<[GetKey (TxID_String (Swp_TxID swp)) := swp]> (kv_streams k)).

Definition RemoveStreamingSwap k (hash : TxID) : KVStore :=
  set_kv_streams k (delete (GetKey (TxID_String hash)) (kv_streams k)).

Definition SetObservedTxInVoter k (tx : ObservedTxVoter) : KVStore :=
  set_kv_voters k (<[GetKey (TxID_String (Voter_TxID tx)) := tx]> (kv_voters k)).

Definition GetObservedTxInVoter k (hash : TxID) : ObservedTxVoter :=
  default (NewObservedTxVoter hash []) (kv_voters k !! GetKey (TxID_String hash)).
End keeper.

(** ** Invariants of the store *)

Section store_facts.
Context {V : Semver} {B : CosmosBank}.
Implicit Types k : KVStore.

(** Pools are stored under their asset's key and their amounts are [Uint]s. *)
Definition pools_inv k : Prop := forall a p, kv_pools k !! a = Some p ->
  GetKey (Asset_String (Pool_Asset p)) = a /\ pool_wf p.

(** The CACAO all pools hold. *)
Definition pools_cacao k : Z := map_sum (fun _ => BalanceCacao) (kv_pools k).

(** The pool of an asset, whether it is stored or not. *)
Lemma GetPool_inv k asset : pools_inv k -> Pool_Valid (GetPool k asset) = Ok tt ->
  kv_pools k !! GetKey (Asset_String asset) = Some (GetPool k asset) /\
  GetKey (Asset_String (Pool_Asset (GetPool k asset))) = GetKey (Asset_String asset) /\
  pool_wf (GetPool k asset).
Proof.
  intros Hinv. unfold GetPool. destruct (kv_pools k !! _) as [p|] eqn:E; cbn; [|done].
  intros _. by destruct (Hinv _ _ E).
Qed.

(** Writing a pool back under its key changes the CACAO of the pools by its own. *)
Lemma SetPool_inv k p p' k' : pools_inv k -> SetPool k p' = Ok k' -> Pool_Asset p' = Pool_Asset p ->
  kv_pools k !! GetKey (Asset_String (Pool_Asset p)) = Some p -> pool_wf p' ->
  pools_inv k' /\ pools_cacao k' = pools_cacao k - BalanceCacao p + BalanceCacao p' /\
  kv_bank k' = kv_bank k /\ kv_network k' = kv_network k.
Proof.
  intros Hinv Hset Ha Hp Hwf. unfold SetPool in Hset. invert_ok. rewrite Ha in *. split_and!; try done.
  - intros a q. cbn. intros [[<- <-]|[_ Hq]]%lookup_insert_Some; [by rewrite Ha|by apply Hinv].
  - unfold pools_cacao. cbn. rewrite map_sum_insert, Hp. cbn. lia.
Qed.
End store_facts.

(** ** Balances of modules *)

Section balances.
Context `{V : Semver} `{B : CosmosBank} `{U : SdkUint}.

Definition GetBalanceOfModule (k : KVStore) (moduleName denom : string) : outcome Z :=
  uint_of_big (bank_balance (kv_bank k) (bank_module moduleName) denom).

Definition GetRuneBalanceOfModule (k : KVStore) (moduleName : string) : outcome Z :=
  GetBalanceOfModule k moduleName (Asset_Native BaseNative).
End balances.

Section bank_facts.
Context {V : Semver} {B : CosmosBank} {BL : CosmosBankLaws B}.
Implicit Types k : KVStore.

Definition cacao_of k (module : string) : Z :=
  bank_balance (kv_bank k) (bank_module module) (Asset_Native BaseNative).

Lemma SendFromModuleToModule_frame k from to coins k' :
  SendFromModuleToModule k from to coins = Ok k' -> exists b, k' = set_kv_bank k b.
Proof. unfold SendFromModuleToModule. intros H. invert_ok. by eexists. Qed.

Lemma SendFromModuleToAccount_frame k from to coins k' :
  SendFromModuleToAccount k from to coins = Ok k' -> exists b, k' = set_kv_bank k b.
Proof. unfold SendFromModuleToAccount. intros H. invert_ok. by eexists. Qed.

Lemma module_eqb m m' : is_module m = true -> is_module m' = true ->
  String.eqb (bank_module m) (bank_module m') = String.eqb m m'.
Proof.
  intros Hm Hm'. destruct (String.eqb_spec m m') as [->|Hne]; [apply String.eqb_refl|].
  apply String.eqb_neq. intros E. by apply Hne, bank_module_inj.
Qed.

(** What the modules hold after CACAO moved from one to another, or to a user. *)
Lemma module_send_cacao k from to amount k' m :
  SendFromModuleToModule k from to [NewCoin BaseNative amount] = Ok k' ->
  is_module from = true -> is_module to = true -> is_module m = true ->
  cacao_of k' m = cacao_of k m - (if String.eqb m from then amount else 0)
    + (if String.eqb m to then amount else 0).
Proof.
  intros H Hf Ht Hm. unfold SendFromModuleToModule in H. cbn [native_coins] in H. invert_ok.
  apply bank_coin_law in Hv1 as ->. unfold cacao_of. cbn [kv_bank set_kv_bank].
  rewrite (bank_send_balance _ _ _ _ _ _ _ Hv0). unfold moved, denom_amount.
  cbn [sumZ foldr fst snd Coin_Asset Coin_Amount NewCoin].
  rewrite String.eqb_refl, !module_eqb by done. by rewrite Z.add_0_r.
Qed.

Lemma module_pay_cacao k from to amount k' m :
  SendFromModuleToAccount k from to [NewCoin BaseNative amount] = Ok k' ->
  is_module from = true -> is_module m = true ->
  cacao_of k' m = cacao_of k m - (if String.eqb m from then amount else 0).
Proof.
  intros H Hf Hm. unfold SendFromModuleToAccount in H. cbn [native_coins] in H. invert_ok.
  apply bank_coin_law in Hv1 as ->. unfold cacao_of. cbn [kv_bank set_kv_bank].
  rewrite (bank_pay_balance _ _ _ _ _ _ _ Hv0). unfold moved, denom_amount.
  assert (Hne : String.eqb (bank_module m) to = false).
  { apply String.eqb_neq. intros <-. by eapply bank_pay_blocked. }
  cbn [sumZ foldr fst snd Coin_Asset Coin_Amount NewCoin].
  rewrite String.eqb_refl, module_eqb, Hne by done. destruct (String.eqb m from); lia.
Qed.
End bank_facts.

(** ** A reference bank *)

(** Balances by module and denomination; the supply is kept beside them. *)
Module ReferenceBank.
Record state := mkState {
  balances : gmap (string * string) Z;
  supply : gmap string Z;
}.

Definition move (sign : Z) (module : string) (c : string * Z) (m : gmap (string * string) Z)
  : outcome (gmap (string * string) Z) :=
  let v := default 0 (m !! (module, fst c)) + sign * snd c in
  if v <? 0 then Err "insufficient funds" else Ok (<[(module, fst c) := v]> m).

Definition issue (sign : Z) (c : string * Z) (m : gmap string Z) : gmap string Z :=
  <[fst c := default 0 (m !! fst c) + sign * snd c]> m.

Definition change (sign : Z) (module : string) (cs : list (string * Z)) (b : state) : outcome state :=
  m ← foldM (fun m c => move sign module c m) (balances b) cs;
  Ok (mkState m (foldr (issue sign) (supply b) cs)).

Definition transfer (f t : string) (cs : list (string * Z)) (b : state) : outcome state :=
  m ← foldM (fun m c => move (-1) f c m) (balances b) cs;
  m ← foldM (fun m c => move 1 t c m) m cs;
  Ok (mkState m (supply b)).

#[export] Instance bank : CosmosBank := {|
  BankState := state;
  bank_supply b d := default 0 (supply b !! d);
  bank_balance b a d := default 0 (balances b !! (a, d));
  bank_module m := m;
  bank_coin d a := if a <? 0 then Panic else Ok (d, a);
  bank_send := transfer;
  bank_pay f t cs b := if is_module t then Err "unauthorized" else transfer f t cs b;
  bank_mint module cs b := change 1 module cs b;
  bank_burn module cs b := change (-1) module cs b;
|}.

Lemma issue_supply sign cs m d :
  default 0 (foldr (issue sign) m cs !! d) = default 0 (m !! d) + sign * denom_amount d cs.
Proof.
  unfold denom_amount. induction cs as [|c cs IH]; cbn [foldr].
  - cbn. lia.
  - rewrite sumZ_cons. unfold issue at 1. destruct (String.eqb_spec (fst c) d) as [<-|Hne].
    + rewrite lookup_insert_eq. cbn. rewrite IH. lia.
    + rewrite lookup_insert_ne, IH by done. lia.
Qed.

Lemma move_balance sign f cs m m' a d :
  foldM (fun m c => move sign f c m) m cs = Ok m' ->
  default 0 (m' !! (a, d)) = default 0 (m !! (a, d)) + sign * moved f a d cs.
Proof.
  unfold moved, denom_amount. revert m. induction cs as [|c cs IH]; intros m H; cbn in H; invert_ok.
  - cbn. destruct (String.eqb a f); lia.
  - rewrite (IH _ H), sumZ_cons. unfold move in Hv. invert_ok.
    destruct (String.eqb_spec a f) as [->|Hne]; [destruct (String.eqb_spec (fst c) d) as [<-|Hd]|].
    + rewrite lookup_insert_eq. cbn. lia.
    + rewrite lookup_insert_ne by congruence. lia.
    + rewrite lookup_insert_ne by congruence. lia.
Qed.

Lemma transfer_balance f t cs b b' a d : transfer f t cs b = Ok b' ->
  default 0 (balances b' !! (a, d)) =
    default 0 (balances b !! (a, d)) - moved f a d cs + moved t a d cs.
Proof.
  unfold transfer. intros H. invert_ok. cbn.
  rewrite (move_balance _ _ _ _ _ _ _ Hv0), (move_balance _ _ _ _ _ _ _ Hv). lia.
Qed.

#[export] Instance bank_laws : CosmosBankLaws bank.
Proof.
  split; cbn -[is_module].
  - intros d a c. destruct (a <? 0); [done|]. by intros [= <-].
  - intros f t cs b b' d H. unfold transfer in H. by invert_ok.
  - intros. by apply transfer_balance.
  - intros f t cs b b' a d. destruct (is_module t); [done|]. apply transfer_balance.
  - done.
  - intros f t cs b b' m Hm H ->. by rewrite Hm in H.
  - intros m cs b b' d H. unfold change in H. invert_ok. cbn. rewrite issue_supply. lia.
  - intros m cs b b' d H. unfold change in H. invert_ok. cbn. rewrite issue_supply. lia.
Qed.

Definition empty : state := mkState ∅ ∅.
End ReferenceBank.
