(* ===== verification/FuzzyAssets.v ===== *)
(** [fuzzyAssetMatchV123] of [x/mayachain/handler.go]: an asset written with part
    of its symbol stands for the deepest pool it matches. *)
From S2P Require Import Prelude GoText Sdk Floats Shares Chains Keys Assets Coins Txs NodeAccounts.
From S2P Require Import Votes TxOuts Pools Mimirs SwapMsgs Records MayaNames Stores Keeper.

Section fuzzy.
Context `{V : Semver} `{B : CosmosBank}.
Implicit Types k : KVStore.

(** The text after the first dash, if there is any, ends the symbol of the pool. *)
Definition symbol_matches (asset : Asset) (pool : Pool) : bool :=
  match Split "-" (Symbol_String (Asset_Symbol asset)) with
  | _ :: part :: _ =>
      EqualFold part EmptyString
      || HasSuffix (ToLower (Symbol_String (Asset_Symbol (Pool_Asset pool)))) (ToLower part)
  | _ => true
  end.

Definition fuzzy_match (asset : Asset) (pool : Pool) : bool :=
  Chain_Equals (Asset_Chain asset) (Asset_Chain (Pool_Asset pool))
  && Ticker_Equals (Asset_Ticker asset) (Asset_Ticker (Pool_Asset pool))
  && symbol_matches asset pool.

Definition deeper (winner pool : Pool) : Pool :=
  if BalanceCacao winner <? BalanceCacao pool then pool else winner.

Definition with_Symbol (a : Asset) (symbol : string) : Asset :=
  mkAsset (Asset_Chain a) symbol (Asset_Ticker a) (Asset_Synth a) (Asset_Trade a).

Definition fuzzyAssetMatchV123 k (origAsset : Asset) : Asset :=
  let asset := GetLayer1Asset origAsset in
  if PoolExist k (GetLayer1Asset asset) then origAsset
  else
    match List.filter (fuzzy_match asset) (GetPoolIterator k) with
    | [] => origAsset
    | matches =>
        let winner := fold_left deeper matches NewPool in
        with_Symbol origAsset (Asset_Symbol (Pool_Asset winner))
    end.
End fuzzy.

Section fuzzy_facts.
Context {V : Semver} {B : CosmosBank}.
Implicit Types k : KVStore.

Lemma GetPoolIterator_elem k p : p ∈ GetPoolIterator k <-> exists a, kv_pools k !! a = Some p.
Proof.
  unfold GetPoolIterator. rewrite list_elem_of_fmap. split.
  - intros ([a q] & -> & Hin). rewrite stable_sort_perm in Hin. exists a.
    by apply elem_of_map_to_list in Hin.
  - intros [a Ha]. exists (a, p). split; [done|]. rewrite stable_sort_perm.
    by apply elem_of_map_to_list.
Qed.

(** The deepest of a list, or the pool to start with. *)
Lemma deepest l w :
  let r := fold_left deeper l w in
  (r = w \/ r ∈ l) /\ BalanceCacao w <= BalanceCacao r /\ Forall (fun p => BalanceCacao p <= BalanceCacao r) l.
Proof.
  revert w. induction l as [|p l IH]; intros w; cbn [fold_left]; [split_and!; [by left|lia|done]|].
  destruct (IH (deeper w p)) as (H1 & H2 & H3). cbn zeta. set (r := fold_left _ _ _) in *.
  assert (Hd : deeper w p = w \/ deeper w p = p) by (unfold deeper; destruct (_ <? _); auto).
  assert (Hm : BalanceCacao w <= BalanceCacao (deeper w p) /\ BalanceCacao p <= BalanceCacao (deeper w p)).
  { unfold deeper. destruct (Z.ltb_spec (BalanceCacao w) (BalanceCacao p)); lia. }
  split_and!; [|lia|constructor; [lia|done]].
  destruct H1 as [->|H1]; [|right; by right]. destruct Hd as [->| ->]; [by left|right; by left].
Qed.

Lemma Asset_key_L1 a b :
  Asset_Synth a = Asset_Synth b -> Asset_Trade a = Asset_Trade b ->
  Chain_Equals (Asset_Chain a) (Asset_Chain b) = true -> Asset_Symbol a = Asset_Symbol b ->
  GetKey (Asset_String a) = GetKey (Asset_String b).
Proof.
  intros Hs Ht Hc%Chain_Equals_spec Hy. unfold GetKey, Asset_String, Chain_String. by rewrite Hs, Ht, Hy, Hc.
Qed.

(** An asset that has a pool, or that no pool matches, is kept. Otherwise its
    symbol becomes that of the deepest pool it matches, everything else being kept,
    and the result has a pool, which is at least as deep as every match; unless no
    match has any CACAO, when the symbol is lost. *)
Theorem fuzzyAssetMatch_spec k a :
  (forall key p, kv_pools k !! key = Some p -> key = GetKey (Asset_String (Pool_Asset p)) /\
     Asset_Synth (Pool_Asset p) = false /\ Asset_Trade (Pool_Asset p) = false /\ 0 <= BalanceCacao p) ->
  let r := fuzzyAssetMatchV123 k a in
  let matched p := (exists key, kv_pools k !! key = Some p) /\ fuzzy_match (GetLayer1Asset a) p = true in
  r = with_Symbol a (Asset_Symbol r) /\
  if PoolExist k (GetLayer1Asset a) then r = a
  else
    ((forall p, ~ matched p) /\ r = a) \/
    (exists p, matched p /\ Asset_Symbol r = Asset_Symbol (Pool_Asset p) /\
       PoolExist k (GetLayer1Asset r) = true /\ forall q, matched q -> BalanceCacao q <= BalanceCacao p) \/
    ((exists p, matched p) /\ (forall p, matched p -> BalanceCacao p = 0) /\ Asset_Symbol r = EmptyString).
Proof.
  intros Hk r matched.
  assert (Hl1 : GetLayer1Asset (GetLayer1Asset a) = GetLayer1Asset a).
  { unfold GetLayer1Asset, IsSyntheticAsset, IsTradeAsset. destruct a as [c s t [] []]; done. }
  assert (Hself : a = with_Symbol a (Asset_Symbol a)) by by destruct a.
  unfold r, fuzzyAssetMatchV123. rewrite Hl1. destruct (PoolExist k (GetLayer1Asset a)) eqn:Ep; [done|].
  set (l := List.filter _ _).
  assert (Hl : forall p, p ∈ l <-> matched p).
  { intros p. unfold l. rewrite list_elem_of_In, filter_In, <- list_elem_of_In, GetPoolIterator_elem. done. }
  destruct (deepest l NewPool) as (H1 & H2 & H3). rewrite Forall_forall in H3.
  clearbody l. destruct l as [|p0 l0].
  { split; [done|]. left. split; [|done]. intros p Hp%Hl. by apply elem_of_nil in Hp. }
  set (w := fold_left deeper (p0 :: l0) NewPool) in *. split; [by destruct a|]. right.
  destruct H1 as [Hw|Hw].
  - right. rewrite Hw. split_and!; [exists p0; apply Hl; by left| |done].
    intros p Hp. pose proof (H3 p (proj2 (Hl p) Hp)) as Hle. rewrite Hw in Hle. cbn in Hle.
    destruct Hp as [[key Hkey] _]. apply Hk in Hkey as (_ & _ & _ & ?). lia.
  - left. exists w. apply Hl in Hw as Hm. split_and!; [done|done| |intros q Hq; by apply H3, Hl].
    destruct Hm as [[key Hkey] Hf]. unfold PoolExist. apply bool_decide_eq_true.
    exists w. rewrite <- Hkey. destruct (Hk key w Hkey) as (-> & Hs & Ht & _).
    unfold fuzzy_match in Hf. apply andb_true_iff in Hf as [[Hc _]%andb_true_iff _]. f_equal.
    apply Asset_key_L1.
    all: unfold GetLayer1Asset, IsSyntheticAsset, IsTradeAsset, with_Symbol in *;
      destruct a as [c s t [] []]; cbn in *; congruence.
Qed.
End fuzzy_facts.

(** ** Witness *)

Section fuzzy_witness.
Import Reference ReferenceBank.

Definition fuzzy_pool (cacao : Z) (symbol : string) : Pool :=
  mkPool cacao 1000 (mkAsset ETHChain symbol "USDT" false false) 1000 PoolStatus_Available 0 6 0 0 0.

Definition fuzzy_store : KVStore :=
  set_kv_pools (empty_kv (semver_release 1 123 0) (fun _ => 0) 10 ReferenceBank.empty)
    (<["ETH.USDT-0XAB12" := fuzzy_pool 500 "USDT-0XAB12"]>
      (<["ETH.USDT-0XCD12" := fuzzy_pool 900 "USDT-0XCD12"]> ∅)).

Lemma fuzzyAssetMatch_spec_witness :
  let a := mkAsset ETHChain "USDT-12" "USDT" false true in
  let r := fuzzyAssetMatchV123 fuzzy_store a in
  r = mkAsset ETHChain "USDT-0XCD12" "USDT" false true /\ r = with_Symbol a (Asset_Symbol r) /\
  fuzzyAssetMatchV123 fuzzy_store (mkAsset ETHChain "USDT-13" "USDT" false true) =
    mkAsset ETHChain "USDT-13" "USDT" false true.
Proof.
  cbv zeta. split; [by vm_compute|]. split; [|by vm_compute].
  apply (fuzzyAssetMatch_spec fuzzy_store (mkAsset ETHChain "USDT-12" "USDT" false true)).
  intros key p. cbn [kv_pools set_kv_pools fuzzy_store].
  intros [[<- <-]|[_ [[<- <-]|[_ H]]%lookup_insert_Some]]%lookup_insert_Some; by vm_compute.
Defined.
End fuzzy_witness.
