(* ===== verification/Nodes.v ===== *)
(** [x/mayachain/keeper/v1/keeper_node_account.go]: the records of the nodes in
    the store, their slash points and jail terms, and the version a node must run
    to join. *)
From S2P Require Import Prelude GoText Sdk Floats Chains Keys Assets Coins Txs NodeAccounts Votes.
From S2P Require Import TxOuts Pools Mimirs SwapMsgs Records MayaNames Stores Keeper.

(** [Version.String] of the semver library. *)
Class SemverText `{Semver} := { version_string : Version -> string }.

Section nodes.
Context `{V : Semver} `{B : CosmosBank} `{A : SdkAddress} `{R : MapRange}.
Implicit Types k : KVStore.

(** ** Accounts *)

Definition TotalActiveValidators k : Z := Z.of_nat (length (ListActiveValidators k)).

Definition ListValidatorsByStatuses k (statuses : list NodeStatus) : list NodeAccount :=
  List.filter (fun na => (NodeAccount_Type na =? NodeTypeValidator)
                         && existsb (Z.eqb (NodeAccount_Status na)) statuses)
    (GetNodeAccountIterator k).

(** An account the store does not hold has the status unknown. *)
Definition GetNodeAccount k (addr : AccAddress) : NodeAccount :=
  default (NewNodeAccount addr NodeStatus_Unknown EmptyPubKeySet EmptyString EmptyString 0
             EmptyString (kv_height k))
    (kv_node_accounts k !! GetKey (acc_string addr)).

Definition GetNodeAccountSlashPoints k (addr : AccAddress) : Z :=
  default 0 (kv_slash_points k !! GetKey (acc_string addr)).

Definition SetNodeAccountSlashPoints k (addr : AccAddress) (pts : Z) : KVStore :=
  let pts := if pts <? 0 then 0 else pts in
  set_kv_slash_points k (<[GetKey (acc_string addr) := pts]> (kv_slash_points k)).

Definition ResetNodeAccountSlashPoints k (addr : AccAddress) : KVStore :=
  set_kv_slash_points k (delete (GetKey (acc_string addr)) (kv_slash_points k)).

Definition IncNodeAccountSlashPoints k (addr : AccAddress) (pts : Z) : KVStore :=
  SetNodeAccountSlashPoints k addr (i64 (GetNodeAccountSlashPoints k addr + pts)).

Definition DecNodeAccountSlashPoints k (addr : AccAddress) (pts : Z) : KVStore :=
  SetNodeAccountSlashPoints k addr (i64 (GetNodeAccountSlashPoints k addr - pts)).

(** The first block of an active node is noted, and its slash points go. *)
Definition k_SetNodeAccount k (na : NodeAccount) : KVStore :=
  if NodeAccount_IsEmpty na then k
  else
    let key := GetKey (acc_string (NodeAddress na)) in
    if (NodeAccount_Status na =? NodeStatus_Active) && (ActiveBlockHeight na =? 0) then
      let na := set_status na (NodeAccount_Status na) (NodeAccount_StatusSince na) (kv_height k) in
      let k := ResetNodeAccountSlashPoints k (NodeAddress na) in
      set_kv_node_accounts k (<[key := na]> (kv_node_accounts k))
    else set_kv_node_accounts k (<[key := na]> (kv_node_accounts k)).

Definition EnsureNodeKeysUnique k (consensusPubKey : string) (pubKeys : PubKeySet) : outcome unit :=
  forM_check (fun na =>
    if EqualFold EmptyString consensusPubKey then Err "Validator Consensus Key cannot be empty"
    else if String.eqb (ValidatorConsPubKey na) consensusPubKey then Err "%s already exist"
    else if PubKeySet_Equals pubKeys EmptyPubKeySet then Err "PubKeySet cannot be empty"
    else if PubKeySet_Equals (NodeAccount_PubKeySet na) pubKeys then Err "%s already exist"
    else Ok tt) (GetNodeAccountIterator k).

Definition EnsureAztecAddressUnique k (aztecAddress : Address) : outcome unit :=
  forM_check (fun na =>
    if EqualFold EmptyString (Address_String aztecAddress) then Err "Aztec Address cannot be empty"
    else if String.eqb (AztecAddress na) aztecAddress then Err "%s already exist"
    else Ok tt) (GetNodeAccountIterator k).

(** ** Jail *)

Definition GetNodeAccountJail k (addr : AccAddress) : Jail :=
  default (NewJail addr) (kv_jails k !! GetKey (acc_string addr)).

Definition setJail k (addr : AccAddress) (jail : Jail) : KVStore :=
  set_kv_jails k (<[GetKey (acc_string addr) := jail]> (kv_jails k)).

Definition SetNodeAccountJail k (addr : AccAddress) (height : Z) (reason : string) : KVStore :=
  let jail := GetNodeAccountJail k addr in
  if height <? ReleaseHeight jail then k
  else setJail k addr (mkJail (Jail_NodeAddress jail) height reason).

Definition ReleaseNodeAccountFromJail k (addr : AccAddress) : KVStore :=
  let jail := GetNodeAccountJail k addr in
  setJail k addr (mkJail (Jail_NodeAddress jail) (kv_height k) EmptyString).

(** ** Versions *)

Context `{!SemverParse} `{!SemverText}.

Definition LT (v w : Version) : bool := negb (GTE v w).
Definition LTE (v w : Version) : bool := GTE w v.
Definition GT (v w : Version) : bool := negb (GTE w v).

(** A version with the number of nodes that run it or a later one. *)
Abbreviation tmpVersionInfo := (Version * Z)%type (only parsing).

Definition count_version (vCount : list tmpVersionInfo) (na : NodeAccount) : list tmpVersionInfo :=
  let exist := existsb (fun item => String.eqb (version_string (fst item)) (NodeAccount_Version na))
                 vCount in
  let vCount := if exist then vCount else vCount ++ [(GetVersion na, 0)] in
  map (fun v => if LTE (fst v) (GetVersion na) then (fst v, snd v + 1) else v) vCount.

Definition later_majority (totalCount : Z) (version : Version) (info : tmpVersionInfo) : Version :=
  if negb (HasSuperMajority (snd info) totalCount) then version
  else if GT (fst info) version then fst info else version.

Definition GetMinJoinVersion k : Version :=
  let nodes := stable_sort (fun x y => LT (GetVersion x) (GetVersion y)) (ListActiveValidators k) in
  let vCount := fold_left count_version nodes [] in
  let totalCount := Z.of_nat (length nodes) in
  let vCount := stable_sort (fun x y => GT (fst x) (fst y)) vCount in
  fold_left (later_majority totalCount) vCount (semver_release 0 0 0).

Definition lower_version (version : Version) (na : NodeAccount) : Version :=
  if LT (GetVersion na) version then GetVersion na else version.

(** Without an active node the version is that of the software. *)
Definition GetLowestActiveVersion (SWVersion : Version) k : Version :=
  match ListActiveValidators k with
  | [] => SWVersion
  | na :: _ as nodes => fold_left lower_version nodes (GetVersion na)
  end.
End nodes.

(** Membership in a list with elements added. *)
Ltac mem_solver :=
  repeat match goal with
  | H : _ ∈ _ ++ _ |- _ => apply elem_of_app in H as [H|H]
  | H : _ ∈ _ :: _ |- _ => apply elem_of_cons in H as [H|H]
  | H : _ ∈ [] |- _ => by apply elem_of_nil in H
  end;
  rewrite ?elem_of_app, ?elem_of_cons; eauto.

(** ** Orders on versions *)

Section versions.
Context {V : Semver} {VL : SemverLaws V} {P : SemverParse} {T : SemverText}.

Lemma GTE_not_LT v w : GTE v w = false -> GTE w v = true.
Proof. destruct (GTE_total v w) as [->|]; [done|done]. Qed.

Lemma GT_spec v w : GT v w = true <-> GTE w v = false.
Proof. unfold GT. destruct (GTE w v); naive_solver. Qed.

(** The number of nodes that run [v] or a later version. *)
Definition running (l : list NodeAccount) (v : Version) : Z :=
  sumZ (fun na => if GTE (GetVersion na) v then 1 else 0) l.

Definition ascending (l : list NodeAccount) : Prop :=
  StronglySorted (fun x y => GTE (GetVersion y) (GetVersion x) = true) l.

(** Versions are written one way only. *)
Definition canonical (l : list NodeAccount) : Prop :=
  (forall x, x ∈ l -> version_string (GetVersion x) = NodeAccount_Version x) /\
  forall x y, x ∈ l -> y ∈ l -> GTE (GetVersion x) (GetVersion y) = true ->
    GTE (GetVersion y) (GetVersion x) = true -> NodeAccount_Version x = NodeAccount_Version y.

Record counted (l : list NodeAccount) (vCount : list (Version * Z)) : Prop := {
  counted_sound : forall v c, (v, c) ∈ vCount -> c = running l v /\ exists x, x ∈ l /\ GetVersion x = v;
  counted_all : forall x, x ∈ l -> exists c, (GetVersion x, c) ∈ vCount;
}.

Lemma running_bounds l v : 0 <= running l v <= Z.of_nat (length l).
Proof.
  unfold running. induction l as [|x l IH]; [done|]. rewrite sumZ_cons. cbn [length].
  destruct (GTE _ _); lia.
Qed.

Lemma running_self l x : x ∈ l -> 0 < running l (GetVersion x).
Proof.
  unfold running. induction 1 as [x l|x y l _ IH]; rewrite sumZ_cons.
  - rewrite GTE_refl. pose proof (running_bounds l (GetVersion x)). unfold running in *. lia.
  - destruct (GTE _ _); lia.
Qed.

(** A version is new only if no node before runs it or a later one. *)
Lemma running_new l x :
  ascending (l ++ [x]) -> canonical (l ++ [x]) ->
  (forall y, y ∈ l -> NodeAccount_Version y <> NodeAccount_Version x) -> running l (GetVersion x) = 0.
Proof.
  intros Ha [_ Hc] Hn. unfold running. revert Ha Hc Hn.
  induction l as [|y l IH]; intros Ha Hc Hn; [done|]. rewrite sumZ_cons.
  apply StronglySorted_inv in Ha as [Ha Hy]. rewrite Forall_app in Hy. destruct Hy as [_ Hy].
  rewrite Forall_singleton in Hy.
  assert (Hl : sumZ (fun na => if GTE (GetVersion na) (GetVersion x) then 1 else 0) l = 0).
  { apply IH; [done| |]; intros; [apply Hc|apply Hn]; mem_solver. }
  rewrite Hl. destruct (GTE (GetVersion y) (GetVersion x)) eqn:E; [|done].
  destruct (Hn y); [mem_solver|]. apply Hc; mem_solver.
Qed.

Lemma count_version_counted l vCount x :
  counted l vCount -> ascending (l ++ [x]) -> canonical (l ++ [x]) ->
  counted (l ++ [x]) (count_version vCount x).
Proof.
  intros [Hs Hall] Ha Hc. unfold count_version.
  set (exist := existsb _ _). set (vCount' := if exist then _ else _).
  assert (Hnew : exist = false -> running l (GetVersion x) = 0).
  { intros He. apply running_new; [done..|]. intros y Hy Heq. destruct (Hall y Hy) as [c Hin].
    apply (not_true_iff_false exist) in He. apply He. unfold exist. apply existsb_exists.
    exists (GetVersion y, c). split; [by apply list_elem_of_In|]. cbn. apply String.eqb_eq.
    rewrite (proj1 Hc) by mem_solver. done. }
  assert (Hs' : forall v c, (v, c) ∈ vCount' -> c = running l v /\ exists y, y ∈ l ++ [x] /\ GetVersion y = v).
  { intros v c. unfold vCount'. destruct exist eqn:E.
    - intros Hin. destruct (Hs v c Hin) as (-> & y & ? & ?). split; [done|]. exists y. mem_solver.
    - intros [Hin|Hin]%elem_of_app; [|apply list_elem_of_singleton in Hin as [= -> ->]].
      + destruct (Hs v c Hin) as (-> & y & ? & ?). split; [done|]. exists y. mem_solver.
      + split; [by rewrite Hnew|]. exists x. mem_solver. }
  assert (Hsort : forall y, y ∈ l -> GTE (GetVersion x) (GetVersion y) = true).
  { clear -Ha. induction l as [|z l IH]; intros y Hy; [by inversion Hy|].
    apply StronglySorted_inv in Ha as [Ha Hz]. apply elem_of_cons in Hy as [->|Hy]; [|by apply IH].
    rewrite Forall_app in Hz. destruct Hz as [_ Hz]. by rewrite Forall_singleton in Hz. }
  assert (Hx : forall y, y ∈ l ++ [x] -> GTE (GetVersion x) (GetVersion y) = true).
  { intros y [Hy|Hy]%elem_of_app; [by apply Hsort|].
    apply list_elem_of_singleton in Hy as ->. apply GTE_refl. }
  split.
  - intros v c ([v' c'] & Heq & Hin)%list_elem_of_fmap. destruct (Hs' v' c' Hin) as (-> & y & Hy & <-).
    cbn in Heq. unfold LTE in Heq. rewrite Hx in Heq by done. injection Heq as -> ->.
    split; [|by exists y]. unfold running. rewrite sumZ_app. unfold sumZ at 3. cbn.
    rewrite Hx by done. lia.
  - intros y Hy. assert (exists c, (GetVersion y, c) ∈ vCount') as [c Hc'].
    { unfold vCount'. apply elem_of_app in Hy as [Hy|Hy];
        [|apply list_elem_of_singleton in Hy as ->].
      - destruct (Hall y Hy) as [c ?]. exists c. destruct exist; mem_solver.
      - destruct exist eqn:E; [|exists 0; mem_solver]. unfold exist in E.
        apply existsb_exists in E as ([v c] & Hin%list_elem_of_In & Heq%String.eqb_eq).
        destruct (Hs v c Hin) as (_ & z & Hz & <-). exists c. cbn in Heq.
        rewrite (proj1 Hc) in Heq by mem_solver. unfold GetVersion at 1. rewrite <- Heq. exact Hin. }
    eexists. apply list_elem_of_fmap. exists (GetVersion y, c). split; [|done]. cbn. unfold LTE.
    rewrite Hx by done. reflexivity.
Qed.

Lemma count_versions l2 l1 vCount :
  counted l1 vCount -> ascending (l1 ++ l2) -> canonical (l1 ++ l2) ->
  counted (l1 ++ l2) (fold_left count_version l2 vCount).
Proof.
  revert l1 vCount. induction l2 as [|x l2 IH]; intros l1 vCount H Ha Hc; [by rewrite app_nil_r|].
  cbn [fold_left]. rewrite (cons_middle x l1 l2), app_assoc in Ha, Hc |- *.
  apply IH; [|done..]. apply count_version_counted; [done| |].
  - clear -Ha. induction l1 as [|y l1 IH]; cbn [app] in *; [by repeat constructor|].
    apply StronglySorted_inv in Ha as [Ha Hy]. constructor; [by apply IH|].
    by apply Forall_app in Hy as [? _].
  - destruct Hc as [H1 H2]. split; intros; [apply H1|apply H2]; mem_solver.
Qed.

(** The latest of the versions a majority runs. *)
Lemma later_majority_max total l v0 :
  let r := fold_left (later_majority total) l v0 in
  (r = v0 \/ exists info, info ∈ l /\ r = fst info /\ HasSuperMajority (snd info) total = true) /\
  GTE r v0 = true /\
  forall info, info ∈ l -> HasSuperMajority (snd info) total = true -> GTE r (fst info) = true.
Proof.
  revert v0. induction l as [|i l IH]; intros v0; cbn [fold_left].
  { split_and!; [by left|apply GTE_refl|]. intros ? []%elem_of_nil. }
  specialize (IH (later_majority total v0 i)). cbn zeta in IH |- *. destruct IH as (H1 & H2 & H3).
  set (r := fold_left _ _ _) in *.
  assert (Hstep : GTE (later_majority total v0 i) v0 = true /\
    (HasSuperMajority (snd i) total = true -> GTE (later_majority total v0 i) (fst i) = true) /\
    (later_majority total v0 i = v0 \/
     later_majority total v0 i = fst i /\ HasSuperMajority (snd i) total = true)).
  { unfold later_majority. destruct (HasSuperMajority _ _) eqn:E; cbn [negb].
    - destruct (GT (fst i) v0) eqn:G.
      + apply GT_spec, GTE_not_LT in G. split_and!; [done|intros; apply GTE_refl|by right].
      + split_and!; [apply GTE_refl| |by left]. intros _. unfold GT in G. by destruct (GTE v0 _).
    - split_and!; [apply GTE_refl|done|by left]. }
  destruct Hstep as (Ha & Hb & Hc). split_and!.
  - destruct H1 as [H1|(info & ? & ? & ?)]; [|right; exists info; mem_solver].
    rewrite H1. destruct Hc as [->|[-> ?]]; [by left|]. right. exists i. mem_solver.
  - by eapply GTE_trans.
  - intros info [->|Hin]%elem_of_cons Hm; [|by apply H3]. eapply GTE_trans; [exact H2|by apply Hb].
Qed.

Lemma stable_ascending l : ascending (stable_sort (fun x y => LT (GetVersion x) (GetVersion y)) l).
Proof.
  assert (HLT : forall x y, LT (GetVersion y) (GetVersion x) = false <->
            GTE (GetVersion y) (GetVersion x) = true).
  { intros x y. unfold LT. by destruct (GTE _ _). }
  apply (StronglySorted_weaken (fun x y => LT (GetVersion y) (GetVersion x) = false)).
  { intros x y. apply HLT. }
  apply Sorted_StronglySorted.
  - intros x y z Hxy%HLT Hyz%HLT. apply HLT. by eapply GTE_trans.
  - apply stable_sort_sorted. intros x y. unfold LT. intros H%negb_true_iff%GTE_not_LT. by rewrite H.
Qed.
End versions.

Section version_facts.
Context `{V : Semver} `{VL : !SemverLaws V} `{B : CosmosBank} `{A : SdkAddress} `{R : MapRange}.
Context `{P : !SemverParse} `{T : !SemverText}.

(** C5: to join, a node must run the latest version that two thirds of the active
    validators run or have gone past; it is 0.0.0 if there is none. *)
Theorem GetMinJoinVersion_spec k :
  canonical (ListActiveValidators k) -> TotalActiveValidators k < 2 ^ 62 ->
  let nodes := ListActiveValidators k in
  let n := TotalActiveValidators k in
  let r := GetMinJoinVersion k in
  (r = semver_release 0 0 0 \/
   exists x, x ∈ nodes /\ GetVersion x = r /\ 2 * n <= 3 * running nodes r) /\
  forall x, x ∈ nodes -> 2 * n <= 3 * running nodes (GetVersion x) -> GTE r (GetVersion x) = true.
Proof.
  intros Hc Hn nodes n r. unfold r, GetMinJoinVersion. fold nodes.
  set (sorted := stable_sort _ nodes).
  assert (Hp : Permutation sorted nodes) by apply stable_sort_perm.
  assert (Hrun : forall v, running sorted v = running nodes v) by (intros v; by apply sumZ_perm).
  assert (Hk : counted sorted (fold_left count_version sorted [])).
  { apply (count_versions sorted [] []).
    - split; [by intros v c []%elem_of_nil|by intros x []%elem_of_nil].
    - apply stable_ascending.
    - destruct Hc as [H1 H2]. split; intros *; cbn [app]; rewrite ?Hp; [apply H1|apply H2]. }
  destruct Hk as [Hs Hall].
  set (vCount := stable_sort _ (fold_left _ _ _)).
  assert (Hv : forall i, i ∈ vCount <-> i ∈ fold_left count_version sorted []).
  { intros i. unfold vCount. by rewrite stable_sort_perm. }
  assert (Hlen : Z.of_nat (length sorted) = n) by (unfold sorted; by rewrite stable_sort_length).
  rewrite Hlen. destruct (later_majority_max n vCount (semver_release 0 0 0)) as (H1 & _ & H3).
  split.
  - destruct H1 as [->|([v c] & Hin & -> & Hm)]; [by left|]. right. apply Hv in Hin.
    destruct (Hs v c Hin) as (-> & x & Hx & <-). exists x. cbn [fst snd] in *.
    rewrite Hp in Hx. rewrite <- Hrun. split_and!; [done|done|].
    by apply (HasSuperMajority_iff _ _ Hn) in Hm as [_ ?].
  - intros x Hx Hm. assert (Hx' : x ∈ sorted) by by rewrite Hp.
    destruct (Hall x Hx') as [c Hin]. destruct (Hs _ _ Hin) as [-> _].
    apply (H3 (GetVersion x, running sorted (GetVersion x))); [by apply Hv|]. cbn [snd]. rewrite Hrun.
    apply (proj2 (HasSuperMajority_iff _ _ Hn)). split; [|done].
    pose proof (running_self nodes x Hx). pose proof (running_bounds nodes (GetVersion x)).
    unfold n, TotalActiveValidators. fold nodes. lia.
Qed.
End version_facts.

(** ** The records of the nodes *)

Section records_inv.
Context `{V : Semver} `{B : CosmosBank} `{A : SdkAddress} `{R : MapRange}.
Implicit Types k : KVStore.

(** What changes the records of the nodes. *)
Inductive node_step k : KVStore -> Prop :=
  | step_account na : node_step k (k_SetNodeAccount k na)
  | step_slash addr pts : is_i64 pts -> node_step k (SetNodeAccountSlashPoints k addr pts)
  | step_inc addr pts : node_step k (IncNodeAccountSlashPoints k addr pts)
  | step_dec addr pts : node_step k (DecNodeAccountSlashPoints k addr pts)
  | step_reset addr : node_step k (ResetNodeAccountSlashPoints k addr)
  | step_jail addr height reason : node_step k (SetNodeAccountJail k addr height reason)
  | step_release addr : node_step k (ReleaseNodeAccountFromJail k addr).

Definition account_wf (key : string) (na : NodeAccount) : Prop :=
  key = GetKey (acc_string (NodeAddress na)) /\ NodeAccount_IsEmpty na = false /\
  (NodeAccount_Status na = NodeStatus_Active -> ActiveBlockHeight na <> 0).

Record nodes_inv k : Prop := {
  nodes_height : 0 < kv_height k;
  nodes_accounts : map_Forall account_wf (kv_node_accounts k);
  nodes_slash : map_Forall (fun _ pts => 0 <= pts < 2 ^ 63) (kv_slash_points k);
}.

Lemma slash_range k addr : nodes_inv k -> 0 <= GetNodeAccountSlashPoints k addr < 2 ^ 63.
Proof.
  intros [_ _ Hs]. unfold GetNodeAccountSlashPoints.
  destruct (_ !! _) eqn:E; [|done]. by apply Hs in E.
Qed.

Lemma SetSlashPoints_inv k addr pts :
  nodes_inv k -> is_i64 pts -> nodes_inv (SetNodeAccountSlashPoints k addr pts).
Proof.
  intros [Hh Ha Hs] Hp. split; [done|done|]. apply map_Forall_insert_2; [|done].
  unfold is_i64 in Hp. destruct (Z.ltb_spec pts 0); lia.
Qed.

Lemma ResetSlashPoints_inv k addr : nodes_inv k -> nodes_inv (ResetNodeAccountSlashPoints k addr).
Proof. intros [Hh Ha Hs]. split; [done|done|]. by apply map_Forall_delete. Qed.

Lemma SetNodeAccount_inv k na : nodes_inv k -> nodes_inv (k_SetNodeAccount k na).
Proof.
  intros Hk. unfold k_SetNodeAccount. destruct (NodeAccount_IsEmpty na) eqn:E; [done|].
  destruct ((_ =? NodeStatus_Active) && _) eqn:E1.
  - apply andb_true_iff in E1 as [E1%Z.eqb_eq _].
    destruct (ResetSlashPoints_inv k (NodeAddress na) Hk) as [Hh Ha Hs].
    split; [done| |done]. apply map_Forall_insert_2; [|done].
    split_and!; [done|exact E|]. intros _. cbn in *. lia.
  - destruct Hk as [Hh Ha Hs]. split; [done| |done]. apply map_Forall_insert_2; [|done].
    split_and!; [done..|]. intros Hact Hz. by rewrite Hact, Hz in E1.
Qed.

Lemma jail_get k addr jail addr' :
  GetNodeAccountJail (setJail k addr jail) addr' =
    if decide (GetKey (acc_string addr') = GetKey (acc_string addr)) then jail
    else GetNodeAccountJail k addr'.
Proof.
  unfold GetNodeAccountJail, setJail. cbn. case_decide as E.
  - by rewrite E, lookup_insert_eq.
  - by rewrite lookup_insert_ne.
Qed.

(** Whatever happens to the records of the nodes, slash points stay between
    zero and the largest [int64], a validator that is active has a height since
    which it is, with its slash points cleared when it became so, and only releasing
    a node shortens its sentence, to the current height. *)
Theorem node_step_inv k k' :
  nodes_inv k -> node_step k k' ->
  nodes_inv k' /\
  (forall addr, ReleaseHeight (GetNodeAccountJail k addr) <= ReleaseHeight (GetNodeAccountJail k' addr) \/
     exists a, k' = ReleaseNodeAccountFromJail k a /\ GetKey (acc_string addr) = GetKey (acc_string a) /\
       ReleaseHeight (GetNodeAccountJail k' addr) = kv_height k) /\
  forall na, k' = k_SetNodeAccount k na -> NodeAccount_IsEmpty na = false ->
    NodeAccount_Status na = NodeStatus_Active -> ActiveBlockHeight na = 0 ->
    GetNodeAccountSlashPoints k' (NodeAddress na) = 0.
Proof.
  intros Hk Hs. split_and!.
  - destruct Hs; try (by apply SetNodeAccount_inv); try (by apply ResetSlashPoints_inv);
      try (apply SetSlashPoints_inv; [done|first [done|apply i64_range]]).
    + unfold SetNodeAccountJail. destruct (_ <? _); [done|]. by destruct Hk.
    + by destruct Hk.
  - intros a. destruct Hs; try by left.
    + left. unfold k_SetNodeAccount. destruct (NodeAccount_IsEmpty na); [done|]. by destruct (_ && _).
    + left. unfold SetNodeAccountJail. destruct (Z.ltb_spec height (ReleaseHeight (GetNodeAccountJail k addr))); [done|].
      rewrite jail_get. case_decide as E; [|done]. unfold GetNodeAccountJail at 1. rewrite E. cbn.
      unfold GetNodeAccountJail in *. destruct (kv_jails k !! _); cbn in *; lia.
    + destruct (decide (GetKey (acc_string a) = GetKey (acc_string addr))) as [E|E].
      * right. exists addr. split_and!; [done..|]. unfold ReleaseNodeAccountFromJail. by rewrite jail_get, decide_True.
      * left. unfold ReleaseNodeAccountFromJail. by rewrite jail_get, decide_False.
  - intros na -> He Hact Hz. unfold k_SetNodeAccount. rewrite He, Hact, Hz. cbn.
    unfold GetNodeAccountSlashPoints. cbn. by rewrite lookup_delete_eq.
Qed.
End records_inv.

(** ** Witnesses *)

Section nodes_witnesses.
Import Reference ReferenceBank ReferenceRange.

(** Versions are one digit per part. *)
#[local] Instance digit_parse : SemverParse := {|
  semver_make s :=
    match s with
    | String a (String _ (String b (String _ (String c EmptyString)))) =>
        (Z.of_nat (nat_of_ascii a) - 48, Z.of_nat (nat_of_ascii b) - 48,
         Z.of_nat (nat_of_ascii c) - 48)
    | _ => (0, 0, 0)
    end;
  semver_equals v w := bool_decide (v = w);
|}.

#[local] Instance digit_text : SemverText := {|
  version_string '(a, b, c) :=
    let digit z := ascii_of_nat (Z.to_nat (z + 48)) in
    String (digit a) (String "." (String (digit b) (String "." (String (digit c) EmptyString))));
|}.

Definition versioned_node (addr version : string) : NodeAccount :=
  mkNodeAccount addr NodeStatus_Active EmptyPubKeySet EmptyString EmptyString 0 100
    EmptyString 0 [] false false 0 EmptyString version 0 0.

Definition versioned_nodes : KVStore :=
  foldr (fun na k => k_SetNodeAccount k na)
    (empty_kv (semver_release 1 123 0) (fun _ => 0) 10 ReferenceBank.empty)
    [versioned_node "a" "1.2.0"; versioned_node "b" "1.3.0"; versioned_node "c" "1.2.0";
     versioned_node "d" "1.1.0"].

Example join_version : GetMinJoinVersion versioned_nodes = (1, 2, 0).
Proof. by vm_compute. Qed.

Lemma GetMinJoinVersion_spec_witness :
  let nodes := ListActiveValidators versioned_nodes in
  GetMinJoinVersion versioned_nodes = (1, 2, 0) /\
  forall x, x ∈ nodes -> 2 * 4 <= 3 * running nodes (GetVersion x) ->
    GTE (GetMinJoinVersion versioned_nodes) (GetVersion x) = true.
Proof.
  cbv zeta. split; [by vm_compute|].
  apply (GetMinJoinVersion_spec versioned_nodes); [|by vm_compute].
  assert (E : ListActiveValidators versioned_nodes =
    [versioned_node "a" "1.2.0"; versioned_node "b" "1.3.0"; versioned_node "c" "1.2.0";
     versioned_node "d" "1.1.0"]) by (by vm_compute).
  rewrite E. split.
  - intros x Hx. repeat (apply elem_of_cons in Hx as [->|Hx]; [by vm_compute|]). by apply elem_of_nil in Hx.
  - intros x y Hx Hy.
    repeat (apply elem_of_cons in Hx as [->|Hx];
      [repeat (apply elem_of_cons in Hy as [->|Hy]; [by vm_compute|]); by apply elem_of_nil in Hy|]).
    by apply elem_of_nil in Hx.
Defined.

Definition slashed_nodes : KVStore := IncNodeAccountSlashPoints versioned_nodes "e" 30.

Lemma node_step_inv_witness :
  let na := set_status (versioned_node "e" "1.2.0") NodeStatus_Active 10 0 in
  let k' := k_SetNodeAccount slashed_nodes na in
  GetNodeAccountSlashPoints slashed_nodes "e" = 30 /\ nodes_inv k' /\
  GetNodeAccountSlashPoints k' "e" = 0.
Proof.
  cbv zeta. split; [by vm_compute|].
  assert (Hk : nodes_inv slashed_nodes).
  { apply SetSlashPoints_inv; [|apply i64_range]. unfold versioned_nodes. cbn [foldr].
    repeat apply SetNodeAccount_inv. by split. }
  destruct (node_step_inv slashed_nodes _ Hk
    (step_account slashed_nodes (set_status (versioned_node "e" "1.2.0") NodeStatus_Active 10 0)))
    as (H1 & _ & H3).
  split; [exact H1|]. by apply (H3 (set_status (versioned_node "e" "1.2.0") NodeStatus_Active 10 0)).
Defined.
End nodes_witnesses.
