(* ===== verification/Bonds.v ===== *)
(** The positions of liquidity providers in the store, the bond they make up for
    the nodes ([keeper_liquidity_provider.go], [keeper_node_account.go] of
    [x/mayachain/keeper/v1]), and the security of the network that follows from
    the bonds ([x/mayachain/helpers.go]). *)
From S2P Require Import Prelude GoText Sdk Floats Shares Chains Keys Addresses Assets Coins Txs.
From S2P Require Import NodeAccounts Votes TxOuts Pools Mimirs SwapMsgs LiquidityProviders Records.
From S2P Require Import MayaNames Stores Keeper Nodes.

(** ** Pools whose liquidity can be bonded *)

Definition LiquidityPoolsV104 : list Asset := [BTCAsset; BNBAsset; ETHAsset].
Definition LiquidityPoolsV105 : list Asset := [BTCAsset; RUNEAsset; ETHAsset].
Definition LiquidityPoolsV107 : list Asset := [BTCAsset; RUNEAsset; ETHAsset; DASHAsset; KUJIAsset].
Definition LiquidityPoolsV108 : list Asset :=
  [BTCAsset; RUNEAsset; ETHAsset; DASHAsset; KUJIAsset; USDTAssetV1; USDCAssetV1; USKAsset;
   WSTETHAssetV1].
Definition LiquidityPoolsV109 : list Asset :=
  [BTCAsset; RUNEAsset; ETHAsset; DASHAsset; KUJIAsset; USDTAssetV1; USDCAssetV1; USKAsset;
   WSTETHAssetV1].
Definition LiquidityPoolsV110 : list Asset :=
  [BTCAsset; RUNEAsset; ETHAsset; DASHAsset; KUJIAsset; USDTAsset; USDCAsset; USKAsset; WSTETHAsset;
   AETHAsset; AWBTCAsset; ATGTAsset; AUSDTAsset; AUSDCAsset].
Definition LiquidityPoolsV111 : list Asset :=
  [BTCAsset; RUNEAsset; ETHAsset; DASHAsset; KUJIAsset; USDTAsset; USDCAsset; USKAsset; WSTETHAsset].
Definition LiquidityPoolsV122 : list Asset :=
  [BTCAsset; RUNEAsset; ETHAsset; DASHAsset; KUJIAsset; USDTAsset; USDCAsset; WSTETHAsset; AETHAsset;
   AWBTCAsset; ATGTAsset; AUSDTAsset; AUSDCAsset; XRDAsset].
Definition LiquidityPoolsVCUR : list Asset :=
  [BTCAsset; RUNEAsset; ETHAsset; DASHAsset; KUJIAsset; USDTAsset; USDCAsset; WSTETHAsset; AETHAsset;
   AWBTCAsset; ATGTAsset; AUSDTAsset; AUSDCAsset; XRDAsset; ZECAsset].

Definition GetLiquidityPools `{Semver} (version : Version) : list Asset :=
  if GTE version (semver_release 1 123 0) then LiquidityPoolsVCUR
  else if GTE version (semver_release 1 112 0) then LiquidityPoolsV122
  else if GTE version (semver_release 1 111 0) then LiquidityPoolsV111
  else if GTE version (semver_release 1 110 0) then LiquidityPoolsV110
  else if GTE version (semver_release 1 109 0) then LiquidityPoolsV109
  else if GTE version (semver_release 1 108 0) then LiquidityPoolsV108
  else if GTE version (semver_release 1 107 0) then LiquidityPoolsV107
  else if GTE version (semver_release 1 105 0) then LiquidityPoolsV105
  else LiquidityPoolsV104.

Section bonds.
Context `{V : Semver} `{B : CosmosBank} `{A : SdkAddress} `{R : MapRange} `{L : AddressLib}.
Context `{U : SdkUint} `{D : SdkDec}.
Implicit Types k : KVStore.

(** ** Positions *)

Definition empty_position (asset : Asset) (cacaoAddr assetAddr : Address) : LiquidityProvider :=
  mkLiquidityProvider asset cacaoAddr assetAddr 0 0 0 0 0 EmptyString 0 0 EmptyString 0 0 [].

Definition GetLiquidityProvider k (asset : Asset) (addr : Address) : LiquidityProvider :=
  let record :=
    if negb (IsChain addr (Asset_Chain BaseAsset) (kv_version k))
    then empty_position asset NoAddress addr
    else empty_position asset addr EmptyString in
  default record (kv_lps k !! GetKey (LiquidityProvider_Key record)).

Definition SetLiquidityProvider k (lp : LiquidityProvider) : KVStore :=
  set_kv_lps k (<[GetKey (LiquidityProvider_Key lp) := lp]> (kv_lps k)).

Definition SetLiquidityProviders k (lps : list LiquidityProvider) : KVStore :=
  fold_left SetLiquidityProvider lps k.

Definition RemoveLiquidityProvider k (lp : LiquidityProvider) : KVStore :=
  set_kv_lps k (delete (GetKey (LiquidityProvider_Key lp)) (kv_lps k)).

Definition GetLiquidityProviderByAssets k (assets : list Asset) (addr : Address)
  : list LiquidityProvider :=
  List.filter (fun lp => 0 <? Lp_Units lp) (map (fun asset => GetLiquidityProvider k asset addr) assets).

Definition SetLiquidityAuctionTier k (addr : Address) (newTier : Z) : KVStore :=
  let newLATier := mkLiquidityAuctionTier addr newTier in
  set_kv_tiers k (<[GetKey (LiquidityAuctionTier_Key newLATier) := newLATier]> (kv_tiers k)).

Definition GetLiquidityAuctionTier k (addr : Address) : Z :=
  let key := if negb (IsChain addr (Asset_Chain BaseAsset) (kv_version k)) then NoAddress else addr in
  match kv_tiers k !! GetKey (Address_String key) with
  | Some record => LATier_Tier record
  | None => 0
  end.

(** ** Bonds *)

(** What [units] of a position are worth in CACAO, added to [liquidity]. *)
Definition add_units_value k (units : Z) (lp : LiquidityProvider) (liquidity : Z) : outcome Z :=
  let pool := GetPool k (Lp_Asset lp) in
  liquidity ← uint_add liquidity (GetSafeShare units (LPUnits pool) (BalanceCacao pool));
  uint_add liquidity (AssetValueInRune pool (GetSafeShare units (LPUnits pool) (BalanceAsset pool))).

(** The units a position has with a node: all of them with the deprecated
    address, those of its record otherwise. *)
Definition bonded_units (nodeAddr : AccAddress) (lp : LiquidityProvider) : Z :=
  if negb (acc_empty (NodeBondAddress lp)) && acc_equals (NodeBondAddress lp) nodeAddr then Lp_Units lp
  else
    match List.find (bonded_to nodeAddr) (BondedNodes lp) with
    | Some bond => LPB_Units bond
    | None => 0
    end.

Definition bondable k (addr : Address) : list LiquidityProvider :=
  GetLiquidityProviderByAssets k (GetLiquidityPools (kv_version k)) addr.

Definition calcLPLiquidityBondV105 k (bondAddr : Address) (nodeAddr : AccAddress) : outcome Z :=
  foldM (fun liquidity lp => add_units_value k (bonded_units nodeAddr lp) lp liquidity) 0
    (bondable k bondAddr).

Definition calcLPLiquidityBondV1 k (bondAddr : Address) : outcome Z :=
  foldM (fun liquidity lp => add_units_value k (Lp_Units lp) lp liquidity) 0 (bondable k bondAddr).

Definition CalcLPLiquidityBond k (bondAddr : Address) (nodeAddr : AccAddress) : outcome Z :=
  if GTE (kv_version k) (semver_release 1 105 0) then calcLPLiquidityBondV105 k bondAddr nodeAddr
  else calcLPLiquidityBondV1 k bondAddr.

(** The positions with a record for the node, but not those with the deprecated
    address, are listed. *)
Definition listed_bond (nodeAddr : AccAddress) (lp : LiquidityProvider) : bool :=
  negb (negb (acc_empty (NodeBondAddress lp)) && acc_equals (NodeBondAddress lp) nodeAddr)
  && existsb (bonded_to nodeAddr) (BondedNodes lp).

Definition GetLPLiquidityBond k (bondAddr : Address) (nodeAddr : AccAddress)
  : outcome (Z * list LiquidityProvider) :=
  liquidity ← calcLPLiquidityBondV105 k bondAddr nodeAddr;
  Ok (liquidity, List.filter (listed_bond nodeAddr) (bondable k bondAddr)).

Definition CalcTotalBondableLiquidity k (addr : Address) : outcome Z :=
  foldM (fun total lp => add_units_value k (Lp_Units lp) lp total) 0 (bondable k addr).

(** ** Bond providers *)

Definition GetBondProviders k (addr : AccAddress) : BondProviders :=
  default (NewBondProviders addr) (kv_bond_providers k !! GetKey (acc_string addr)).

Definition SetBondProviders k (record : BondProviders) : KVStore :=
  set_kv_bond_providers k
    (<[GetKey (acc_string (BondProviders_NodeAddress record)) := record]> (kv_bond_providers k)).

Definition provider_bond k (node : AccAddress) (b : BondProvider) : outcome Z :=
  if HasBonded b then CalcLPLiquidityBond k (acc_string (BondProvider_BondAddress b)) node else Ok 0.

Definition CalcNodeLiquidityBond k (na : NodeAccount) : outcome Z :=
  foldM (fun nodeBond b =>
    if negb (HasBonded b) then Ok nodeBond
    else bond ← provider_bond k (NodeAddress na) b; uint_add nodeBond bond) 0
    (Providers (GetBondProviders k (NodeAddress na))).

Definition CalcNodeBondProvidersLiquidityBond k (na : NodeAccount) : outcome (Z * list Z) :=
  foldM (fun '(nodeBond, bpBonds) b =>
    if negb (HasBonded b) then Ok (nodeBond, bpBonds ++ [0])
    else
      bond ← provider_bond k (NodeAddress na) b;
      nodeBond ← uint_add nodeBond bond;
      Ok (nodeBond, bpBonds ++ [bond])) (0, [])
    (Providers (GetBondProviders k (NodeAddress na))).

Fixpoint with_bond k (nas : list NodeAccount) : outcome (list NodeAccount) :=
  match nas with
  | [] => Ok []
  | na :: nas' =>
      naBond ← CalcNodeLiquidityBond k na;
      rest ← with_bond k nas';
      Ok (if (NodeAccount_Type na =? NodeTypeValidator) && negb (naBond =? 0) then na :: rest else rest)
  end.

Definition ListValidatorsWithBond k : outcome (list NodeAccount) :=
  with_bond k (GetNodeAccountIterator k).

(** ** Security *)

Fixpoint getNodeAccountsBond k (nas : list NodeAccount) : outcome (list Z) :=
  match nas with
  | [] => Ok []
  | na :: nas' =>
      naBond ← CalcNodeLiquidityBond k na;
      rest ← getNodeAccountsBond k nas';
      Ok (if negb (naBond =? 0) then naBond :: rest else rest)
  end.

(** The index of the last of the bottom two thirds of [n] bonds. *)
Definition two_thirds (n : Z) : Z :=
  let t := Z.quot (n * 2) 3 in if Z.rem n 3 =? 0 then t - 1 else t.

Definition getEffectiveSecurityBond k (nas : list NodeAccount) : outcome Z :=
  naBonds ← getNodeAccountsBond k nas;
  let naBonds := stable_sort Z.ltb naBonds in
  let t := two_thirds (Z.of_nat (length naBonds)) in
  foldM (fun amt naBond => uint_add amt naBond) 0 (take (Z.to_nat (t + 1)) naBonds).

Definition getHardBondCap k (nas : list NodeAccount) : outcome Z :=
  if (length nas =? 0)%nat then Ok 0
  else
    naBonds ← getNodeAccountsBond k nas;
    let naBonds := stable_sort Z.ltb naBonds in
    match naBonds with
    | [] => Ok 0
    | _ => from_option Ok Panic (naBonds !! Z.to_nat (two_thirds (Z.of_nat (length naBonds))))
    end.
End bonds.

(** ** The smallest part of a sorted list *)

Lemma take_smallest (l g r : list Z) (m : nat) :
  StronglySorted Z.le l -> Forall (fun z => 0 <= z) l -> Permutation l (g ++ r) ->
  (m <= length g)%nat -> sumZ id (take m l) <= sumZ id g.
Proof.
  intros Hs. revert g r m. induction Hs as [|x l Hs IH Hx]; intros g r m Hpos Hp Hm.
  { apply Permutation_nil in Hp. apply app_eq_nil in Hp as [-> ->]. by rewrite take_nil. }
  apply Forall_cons in Hpos as [Hx0 Hpos].
  assert (Hgpos : Forall (fun z => 0 <= z) g).
  { assert (H : Forall (fun z => 0 <= z) (g ++ r)) by (rewrite <- Hp; by constructor).
    by apply Forall_app in H as [? _]. }
  destruct m as [|m]; [by apply sumZ_nonneg|]. cbn [take]. rewrite sumZ_cons.
  assert (Hin : x ∈ g ++ r) by (rewrite <- Hp; apply elem_of_cons; by left).
  apply elem_of_app in Hin as [Hin|Hin].
  - apply elem_of_Permutation in Hin as [g' Hg]. rewrite Hg in Hp, Hm |- *. cbn in Hm.
    apply Permutation_cons_inv in Hp. rewrite sumZ_cons.
    specialize (IH g' r m Hpos Hp ltac:(lia)). lia.
  - apply elem_of_Permutation in Hin as [r' Hr]. destruct g as [|y g]; [cbn in Hm; lia|].
    rewrite sumZ_cons. rewrite Hr in Hp. cbn in Hm.
    assert (Hp' : Permutation l (g ++ y :: r')).
    { apply (Permutation_cons_inv (a := x)). by rewrite Hp, <- !Permutation_middle. }
    assert (x <= y).
    { rewrite Forall_forall in Hx. apply Hx. rewrite Hp'. apply elem_of_app. right.
      apply elem_of_cons. by left. }
    specialize (IH g (y :: r') m Hpos Hp' ltac:(lia)). unfold id in *. lia.
Qed.

Lemma ascending_bonds l : StronglySorted Z.le (stable_sort Z.ltb l).
Proof.
  apply (StronglySorted_weaken (fun x y => (y <? x) = false)); [intros x y; lia|].
  apply Sorted_StronglySorted; [intros x y z; lia|]. apply stable_sort_sorted. lia.
Qed.

(** A least number of members that is two thirds of [n]. *)
Lemma two_thirds_spec n : 0 < n -> 2 * n <= 3 * (two_thirds n + 1) < 2 * n + 3.
Proof.
  intros Hn. unfold two_thirds. rewrite Z.quot_div_nonneg, Z.rem_mod_nonneg by lia.
  pose proof (Z.div_mod (n * 2) 3). pose proof (Z.mod_pos_bound (n * 2) 3).
  pose proof (Z.div_mod n 3). pose proof (Z.mod_pos_bound n 3).
  destruct (Z.eqb_spec (n mod 3) 0); lia.
Qed.

Section security.
Context {V : Semver} {B : CosmosBank} {A : SdkAddress} {R : MapRange} {L : AddressLib}.
Context {U : SdkUint} {UL : SdkUintLaws U} {D : SdkDec}.

Lemma foldM_nonneg {X} (f : Z -> X -> outcome Z) (l : list X) acc r :
  (forall a x b, 0 <= a -> f a x = Ok b -> 0 <= b) -> 0 <= acc -> foldM f acc l = Ok r -> 0 <= r.
Proof.
  intros Hf. revert acc. induction l as [|x l IH]; intros acc Ha H; [by injection H as <-|].
  cbn in H. apply bind_Ok in H as (b & Hb & H). eapply IH; [|exact H]. by eapply Hf.
Qed.

Lemma CalcNodeLiquidityBond_nonneg k na b : CalcNodeLiquidityBond k na = Ok b -> 0 <= b.
Proof.
  apply foldM_nonneg; [|done]. intros a p c Ha H. destruct (negb _); [by injection H as <-|].
  apply bind_Ok in H as (d & _ & H). apply uint_add_Ok in H as [-> Hu]. unfold is_uint in Hu. lia.
Qed.

Lemma getNodeAccountsBond_pos k nas bonds :
  getNodeAccountsBond k nas = Ok bonds -> Forall (fun z => 0 < z) bonds.
Proof.
  revert bonds. induction nas as [|na nas IH]; intros bonds H; [by injection H as <-|]. cbn in H.
  apply bind_Ok in H as (b & Hb & H). apply bind_Ok in H as (rest & Hr & [= <-]).
  apply CalcNodeLiquidityBond_nonneg in Hb. destruct (Z.eqb_spec b 0); cbn; [by apply IH|].
  constructor; [lia|by apply IH].
Qed.

(** C4: the security of the network is the least bond a group of two thirds of
    the bonded nodes can have: every group of that size has at least that much, and
    one has exactly that. The cap of the bonds is the largest bond of such a group:
    at least two thirds of the bonds are below or at it. *)
Theorem getEffectiveSecurityBond_spec k nas bonds amt :
  getNodeAccountsBond k nas = Ok bonds -> bonds <> [] -> getEffectiveSecurityBond k nas = Ok amt ->
  let n := Z.of_nat (length bonds) in
  (forall group, group ⊆+ bonds -> 2 * n <= 3 * Z.of_nat (length group) -> amt <= sumZ id group) /\
  exists cap lowest, getHardBondCap k nas = Ok cap /\ lowest ⊆+ bonds /\ sumZ id lowest = amt /\
    2 * n <= 3 * Z.of_nat (length lowest) < 2 * n + 3 /\
    cap ∈ lowest /\ Forall (fun b => b <= cap) lowest /\
    forall rest, Permutation bonds (lowest ++ rest) -> Forall (fun b => cap <= b) rest.
Proof.
  intros Hb Hne Hamt n. pose proof (getNodeAccountsBond_pos k nas bonds Hb) as Hpos.
  unfold getEffectiveSecurityBond in Hamt. rewrite Hb in Hamt. cbn [mbind outcome_bind] in Hamt.
  set (l := stable_sort Z.ltb bonds) in *.
  assert (Hp : Permutation l bonds) by apply stable_sort_perm.
  assert (Hl : StronglySorted Z.le l) by apply ascending_bonds.
  assert (Hlen : Z.of_nat (length l) = n) by (unfold l; by rewrite stable_sort_length).
  assert (Hlpos : Forall (fun z => 0 <= z) l).
  { rewrite Hp. eapply Forall_impl; [exact Hpos|]. cbn. lia. }
  assert (Hn : 0 < n) by (unfold n; destruct bonds; [done|cbn; lia]).
  rewrite Hlen in Hamt. pose proof (two_thirds_spec n Hn) as Ht.
  set (m := Z.to_nat (two_thirds n + 1)) in *. apply Sum_Ok_from in Hamt. rewrite Z.add_0_l in Hamt.
  assert (Hm : (m <= length l)%nat) by lia.
  split.
  { intros group [r Hr]%submseteq_Permutation Hg. rewrite Hamt. rewrite <- Hp in Hr.
    apply (take_smallest l group r m Hl Hlpos Hr). lia. }
  destruct (lookup_lt_is_Some_2 l (Z.to_nat (two_thirds n))) as [cap Hcap]; [lia|].
  assert (Hmt : m = S (Z.to_nat (two_thirds n))) by lia.
  assert (Hsplit : take m l = take (Z.to_nat (two_thirds n)) l ++ [cap]).
  { rewrite Hmt. by apply take_S_r. }
  rewrite <- (take_drop m l) in Hl. apply StronglySorted_app_1_l in Hl as Hl1.
  exists cap, (take m l). split_and!; try done.
  - unfold getHardBondCap. rewrite Hb. cbn [mbind outcome_bind]. fold l. rewrite Hlen, Hcap.
    destruct nas; [by injection Hb as <-|]. cbn. destruct l; [cbn in Hlen; lia|done].
  - rewrite <- Hp. apply sublist_submseteq, sublist_take.
  - rewrite length_take. lia.
  - rewrite length_take. lia.
  - rewrite Hsplit. apply elem_of_app. right. by apply list_elem_of_singleton.
  - rewrite Hsplit in Hl1 |- *. apply Forall_app. split; [|by repeat constructor].
    apply Forall_forall. intros x Hx. eapply (StronglySorted_app_1_elem_of Z.le); [exact Hl1|done|].
    by apply list_elem_of_singleton.
  - intros rest Hrest. rewrite <- Hp in Hrest. rewrite <- (take_drop m l) in Hrest at 1.
    apply Permutation_app_inv_l in Hrest. rewrite <- Hrest. apply Forall_forall. intros x Hx.
    eapply (StronglySorted_app_1_elem_of Z.le); [exact Hl| |exact Hx].
    rewrite Hsplit. apply elem_of_app. right. by apply list_elem_of_singleton.
Qed.
End security.

(** ** Witness *)

Section bonds_witness.
Import Reference ReferenceBank ReferenceRange ReferenceAddress.

(** A node that is its own only provider, with [units] of the pool bonded. *)
Definition bond_units_of (k : KVStore) (entry : AccAddress * Z) : KVStore :=
  let '(addr, units) := entry in
  let lp := empty_position BTCAsset NoAddress (acc_string addr) in
  let lp := mkLiquidityProvider (Lp_Asset lp) (Lp_CacaoAddress lp) (Lp_AssetAddress lp) 1 0 units 0 0
              EmptyString 0 0 EmptyString 0 0 [mkLPBondedNode addr units] in
  SetBondProviders (SetLiquidityProvider k lp) (mkBondProviders addr 0 [mkBondProvider addr true None]).

Definition bonded_nodes : KVStore :=
  fold_left bond_units_of [("a", 300); ("b", 100); ("c", 400); ("d", 200)]%string
    (set_kv_pools (empty_kv (semver_release 1 123 0) (fun _ => 0) 10 ReferenceBank.empty)
       (<["BTC.BTC" := mkPool 4000000 1000000 BTCAsset 1000 PoolStatus_Available 0 8 0 0 0]> ∅)).

Definition bonded_accounts : list NodeAccount :=
  map (fun addr => NewNodeAccount addr NodeStatus_Active EmptyPubKeySet EmptyString EmptyString 0
                     EmptyString 10) ["a"; "b"; "c"; "d"]%string.

(** The units are worth 8000 each; the three smallest bonds count. *)
Lemma getEffectiveSecurityBond_spec_witness :
  getNodeAccountsBond bonded_nodes bonded_accounts = Ok [2400000; 800000; 3200000; 1600000] /\
  getEffectiveSecurityBond bonded_nodes bonded_accounts = Ok 4800000 /\
  getHardBondCap bonded_nodes bonded_accounts = Ok 2400000 /\
  forall group, group ⊆+ [2400000; 800000; 3200000; 1600000] ->
    2 * 4 <= 3 * Z.of_nat (length group) -> 4800000 <= sumZ id group.
Proof.
  assert (Hb : getNodeAccountsBond bonded_nodes bonded_accounts =
    Ok [2400000; 800000; 3200000; 1600000]) by (by vm_compute).
  assert (He : getEffectiveSecurityBond bonded_nodes bonded_accounts = Ok 4800000) by (by vm_compute).
  split_and!; [exact Hb|exact He|by vm_compute|].
  by apply (getEffectiveSecurityBond_spec bonded_nodes bonded_accounts
    [2400000; 800000; 3200000; 1600000] 4800000 Hb).
Defined.
End bonds_witness.
