(* ===== verification/VaultStore.v ===== *)
(** [keeper_vault.go], [keeper_txout.go] and [keeper_liquidity_fees.go] of
    [x/mayachain/keeper/v1]: the vaults in the store with the index of the asgard
    ones, the outbound transactions of the blocks, the fees of the swaps; and the
    cap on the value the vaults may hold ([x/mayachain/helpers.go]). *)
From S2P Require Import Prelude GoText Sdk Floats Shares Chains Keys Addresses Assets Coins Txs.
From S2P Require Import NodeAccounts Votes TxOuts Vaults Pools Mimirs SwapMsgs LiquidityProviders.
From S2P Require Import Records MayaNames Stores Keeper Nodes Bonds.

(** The address of a public key on a chain, which the crypto libraries compute,
    and the account of a node's key. *)
Class PubKeyAddress := {
  pubkey_address : PubKey -> Chain -> outcome Address;
  GetThorAddress : PubKey -> outcome AccAddress;
}.

Section vault_store.
Context `{V : Semver} `{B : CosmosBank} `{A : SdkAddress} `{R : MapRange} `{L : AddressLib}.
Context `{U : SdkUint} `{D : SdkDec} `{C : PubKeyCodec}.
Implicit Types k : KVStore.

(** ** Outbound transactions of a block *)

Definition GetTxOut k (height : Z) : TxOut := default (NewTxOut height) (kv_tx_outs k !! height).

(** A block without an item is not stored: it cannot be emptied this way. *)
Definition SetTxOut k (blockOut : TxOut) : KVStore :=
  if TxOut_IsEmpty blockOut then k
  else set_kv_tx_outs k (<[TxOut_Height blockOut := blockOut]> (kv_tx_outs k)).

Definition AppendTxOut k (height : Z) (item : TxOutItem) : KVStore :=
  let block := GetTxOut k height in
  SetTxOut k (mkTxOut (TxOut_Height block) (TxArray block ++ [item])).

Definition ClearTxOut k (height : Z) : KVStore := set_kv_tx_outs k (delete height (kv_tx_outs k)).

Definition coin_value k (coin : Coin) : Z :=
  if IsBase (Coin_Asset coin) then Coin_Amount coin
  else AssetValueInRune (GetPool k (Coin_Asset coin)) (Coin_Amount coin).

Definition GetTxOutValue k (height : Z) : outcome Z :=
  foldM (fun runeValue item => uint_add runeValue (coin_value k (Toi_Coin item))) 0
    (TxArray (GetTxOut k height)).

(** The items for the asset that are not sent yet, over the heights from [height]
    on; an empty block past the largest offset ends the search. *)
Fixpoint pending_from (blocks : nat) k (asset : Asset) (height maxHeight lastHeight : Z)
  : list TxOutItem :=
  match blocks with
  | O => []
  | S blocks' =>
      if lastHeight <? height then []
      else
        let blockOut := TxArray (GetTxOut k height) in
        if (maxHeight <? height) && (length blockOut =? 0)%nat then []
        else
          List.filter (fun item => Asset_Equals (Coin_Asset (Toi_Coin item)) asset
                                   && TxID_IsEmpty (OutHash item)) blockOut
          ++ pending_from blocks' k asset (height + 1) maxHeight lastHeight
  end.

Definition GetPendingOutbounds k (asset : Asset) : list TxOutItem :=
  let startHeight := kv_height k - kv_constants k "SigningTransactionPeriod" in
  let startHeight := if startHeight <? 1 then 1 else startHeight in
  let lastHeight := kv_height k + kv_constants k "TxOutDelayMax" in
  pending_from (Z.to_nat (lastHeight - startHeight + 1)) k asset startHeight
    (kv_height k + kv_constants k "MaxTxOutOffset") lastHeight.

(** ** Liquidity fees *)

Definition GetTotalLiquidityFees k (height : Z) : Z := default 0 (kv_total_fees k !! height).

(** The key is "height-asset"; a height has no dash, so it is kept as the pair. *)
Definition GetPoolLiquidityFees k (height : Z) (asset : Asset) : Z :=
  default 0 (kv_pool_fees k !! (height, GetKey (Asset_String asset))).

Definition GetRollingPoolLiquidityFee k (asset : Asset) : Z :=
  default 0 (kv_rolling_fees k !! GetKey (Asset_String asset)).

Definition ResetRollingPoolLiquidityFee k (asset : Asset) : KVStore :=
  set_kv_rolling_fees k (<[GetKey (Asset_String asset) := 0]> (kv_rolling_fees k)).

(** The amounts are stored in 64 bits: [Uint64] panics on more, the rolling sum
    wraps. *)
Definition AddToLiquidityFees k (asset : Asset) (fee : Z) : outcome KVStore :=
  let height := u64 (kv_height k) in
  let key := GetKey (Asset_String asset) in
  totalFees ← uint_add (GetTotalLiquidityFees k height) fee;
  poolFees ← uint_add (GetPoolLiquidityFees k height asset) fee;
  total ← amount_uint64 totalFees;
  let k := set_kv_total_fees k (<[height := total]> (kv_total_fees k)) in
  pool ← amount_uint64 poolFees;
  let k := set_kv_pool_fees k (<[(height, key) := pool]> (kv_pool_fees k)) in
  if GTE (kv_version k) (semver_release 1 95 0) then
    let currentValue := GetRollingPoolLiquidityFee k asset in
    added ← amount_uint64 (if GTE (kv_version k) (semver_release 1 96 0) then fee else poolFees);
    Ok (set_kv_rolling_fees k (<[key := u64 (currentValue + added)]> (kv_rolling_fees k)))
  else Ok k.

(** ** Vaults *)

Definition getAsgardIndex k : outcome PubKeys :=
  foldM (fun pks s => pk ← NewPubKey s; Ok (pks ++ [pk])) [] (kv_asgard_index k).

Definition addAsgardIndex k (pubkey : PubKey) : outcome KVStore :=
  pks ← getAsgardIndex k;
  if existsb (fun pk => PubKey_Equals pk pubkey) pks then Ok k
  else Ok (set_kv_asgard_index k (PubKeys_Strings (pks ++ [pubkey]))).

Definition RemoveFromAsgardIndex k (pubkey : PubKey) : outcome KVStore :=
  pks ← getAsgardIndex k;
  Ok (set_kv_asgard_index k
        (PubKeys_Strings (List.filter (fun pk => negb (PubKey_Equals pk pubkey)) pks))).

Definition SetVault k (vault : Vault) : outcome KVStore :=
  k ← (if IsAsgard vault then addAsgardIndex k (Vault_PubKey vault) else Ok k);
  Ok (set_kv_vaults k (<[GetKey (PubKey_String (Vault_PubKey vault)) := vault]> (kv_vaults k))).

Definition VaultExists k (pk : PubKey) : bool :=
  bool_decide (is_Some (kv_vaults k !! GetKey (PubKey_String pk))).

Definition errVaultNotFound : string := "vault not found".

Definition GetVault k (pk : PubKey) : outcome Vault :=
  match kv_vaults k !! GetKey (PubKey_String pk) with
  | None => Err errVaultNotFound
  | Some record =>
      if PubKey_IsEmpty (Vault_PubKey record) then
        Ok (mkVault (BlockHeight record) pk (Vault_Coins record) (Vault_Type record)
              (Vault_Status record) (Vault_StatusSince record) (Membership record)
              (Vault_Chains record) (InboundTxCount record) (OutboundTxCount record)
              (PendingTxBlockHeights record) (Routers record) (Frozen record) (PubKeyEddsa record))
      else Ok record
  end.

Definition GetVaultIterator k : list Vault :=
  map snd (stable_sort (fun a b => str_ltb (fst a) (fst b)) (map_to_list (kv_vaults k))).

Definition HasValidVaultPools k : bool := existsb HasFunds (GetVaultIterator k).

Definition GetAsgardVaults k : outcome (list Vault) :=
  pks ← getAsgardIndex k;
  foldM (fun asgards pk =>
    vault ← GetVault k pk;
    Ok (if IsAsgard vault then asgards ++ [vault] else asgards)) [] pks.

Definition GetAsgardVaultsByStatus k (status : VaultStatus) : outcome (list Vault) :=
  all ← GetAsgardVaults k;
  Ok (List.filter (fun vault => Vault_Status vault =? status) all).

(** A vault that is not there is deleted; the index failing is only logged. *)
Definition DeleteVault k (pubkey : PubKey) : outcome KVStore :=
  match GetVault k pubkey with
  | Panic => Panic
  | Err e => if String.eqb e errVaultNotFound then Ok k else Err e
  | Ok vault =>
      if HasFunds vault then Err "unable to delete vault: it still contains funds"
      else
        k ← (if IsAsgard vault then
               match RemoveFromAsgardIndex k pubkey with
               | Ok k' => Ok k'
               | Err _ => Ok k
               | Panic => Panic
               end
             else Ok k);
        Ok (set_kv_vaults k (delete (GetKey (PubKey_String (Vault_PubKey vault))) (kv_vaults k)))
  end.

(** ** The cap on the value of the vaults *)

(** A synth counts with its layer-1 asset; the pool of CACAO itself has no
    balances. *)
Definition add_coin_value k (total : Z) (coin : Coin) : outcome Z :=
  if Coin_IsEmpty coin then Ok total
  else
    let asset := Coin_Asset coin in
    let asset := if IsSyntheticAsset asset then GetLayer1Asset asset else asset in
    let pool := GetPool k asset in
    if negb (IsAvailable pool) && negb (IsStaged pool) then Ok total
    else if (BalanceCacao pool =? 0) || (BalanceAsset pool =? 0) then Ok total
    else uint_add total (AssetValueInRune pool (Coin_Amount coin)).

Definition atTVLCapV110 k (coins : Coins) : outcome bool :=
  match GetAsgardVaults k with
  | Panic => Panic
  | Err _ => Ok true
  | Ok vaults =>
      coins ← foldM (fun coins vault =>
        if IsAsgard vault && (Vault_IsActive vault || IsRetiring vault)
        then Adds_deprecated coins (Vault_Coins vault)
        else Ok coins) coins vaults;
      totalCacaoValue ← foldM (add_coin_value k) (Coin_Amount (GetCoin coins BaseAsset)) coins;
      effectiveSecurity ← getEffectiveSecurityBond k (ListActiveValidators k);
      Ok (effectiveSecurity <? totalCacaoValue)
  end.

Definition atTVLCap k (coins : Coins) : outcome bool :=
  if GTE (kv_version k) (semver_release 1 110 0) then atTVLCapV110 k coins else Ok false.

(** ** The security of a vault *)

Context `{K : PubKeyAddress}.

Definition GetNodeAccountByPubKey k (pk : PubKey) : outcome NodeAccount :=
  addr ← GetThorAddress pk; Ok (GetNodeAccount k addr).

Definition Vault_GetAddress (m : Vault) (chain : Chain) : outcome Address :=
  match GetSigningAlgo chain with
  | SigningAlgoSecp256k1 => pubkey_address (Vault_PubKey m) chain
  | SigningAlgoEd25519 =>
      if PubKey_IsEmpty (PubKeyEddsa m) then Err "vault has no eddsa public key"
      else pubkey_address (PubKeyEddsa m) chain
  end.

(** A member without an account, or not active, adds nothing. *)
Definition add_member_bond k (totalBond : Z) (pk : PubKey) : outcome Z :=
  match GetNodeAccountByPubKey k pk with
  | Panic => Panic
  | Err _ => Ok totalBond
  | Ok na =>
      naBond ← CalcNodeLiquidityBond k na;
      if NodeAccount_Status na =? NodeStatus_Active then uint_add totalBond naBond else Ok totalBond
  end.

Definition add_asset_value k (totalValue : Z) (coin : Coin) : outcome Z :=
  if IsBase (Coin_Asset coin) then Ok totalValue
  else uint_add totalValue (AssetValueInRune (GetPool k (Coin_Asset coin)) (Coin_Amount coin)).

(** An item not sent yet leaves the vault, or comes to it from another. *)
Definition settle_item k (vault : Vault) (totalValue : Z) (item : TxOutItem) : outcome Z :=
  if negb (TxID_IsEmpty (OutHash item)) then Ok totalValue
  else
    match Vault_GetAddress vault (GetChain (Coin_Asset (Toi_Coin item))) with
    | Panic => Panic
    | Err _ => Ok totalValue
    | Ok toAddress =>
        if PubKey_Equals (Toi_VaultPubKey item) (Vault_PubKey vault)
        then SafeSub totalValue (coin_value k (Toi_Coin item))
        else if Address_Equals (Toi_ToAddress item) toAddress
        then uint_add totalValue (coin_value k (Toi_Coin item))
        else Ok totalValue
    end.

(** The blocks whose transactions may still be signed. *)
Definition recent_items k (signingTransPeriod : Z) : list TxOutItem :=
  let h := kv_height k - signingTransPeriod in
  let h := if h <? 1 then 1 else h in
  concat (map (fun i => TxArray (GetTxOut k (h + Z.of_nat i))) (seq 0 (Z.to_nat (kv_height k - h + 1)))).

(** How far the bond of the members is above the value of the vault. *)
Definition vault_diff k (signingTransPeriod : Z) (vault : Vault) : outcome Z :=
  totalBond ← foldM (add_member_bond k) 0 (GetMembership vault);
  totalValue ← foldM (add_asset_value k) 0 (Vault_Coins vault);
  totalValue ← foldM (settle_item k vault) totalValue (recent_items k signingTransPeriod);
  if totalBond <? totalValue then
    diff ← SafeSub totalValue totalBond; d ← amount_uint64 diff; Ok (i64 (- i64 d))
  else diff ← SafeSub totalBond totalValue; d ← amount_uint64 diff; Ok (i64 d).

Definition SortBySecurity k (vaults : list Vault) (signingTransPeriod : Z) : outcome (list Vault) :=
  if (length vaults <=? 1)%nat then Ok vaults
  else
    vaultSecurity ← foldM (fun l vault =>
      diff ← vault_diff k signingTransPeriod vault; Ok (l ++ [(vault, diff)])) [] vaults;
    Ok (map fst (stable_sort (fun x y => snd x <? snd y) vaultSecurity)).

Definition GetMostSecure k (vaults : list Vault) (signingTransPeriod : Z) : outcome Vault :=
  vaults ← SortBySecurity k vaults signingTransPeriod;
  Ok (List.last vaults zero_vault).

Definition GetLeastSecure k (vaults : list Vault) (signingTransPeriod : Z) : outcome Vault :=
  vaults ← SortBySecurity k vaults signingTransPeriod;
  Ok (List.hd zero_vault vaults).
End vault_store.

(** ** The vaults are a finite map *)

Section vault_facts.
Context {V : Semver} {B : CosmosBank} {A : SdkAddress} {R : MapRange} {L : AddressLib}.
Context {U : SdkUint} {D : SdkDec} {C : PubKeyCodec}.
Implicit Types k : KVStore.

(** A public key in lower case that parses. *)
Definition pubkey_ok (pk : PubKey) : Prop := key_ok pk /\ ToLower pk = pk.

Definition stored_vault (key : string) (v : Vault) : Prop :=
  key = GetKey (Vault_PubKey v) /\ pubkey_ok (Vault_PubKey v).

(** The index lists the keys of the asgard vaults. *)
Record vaults_inv k : Prop := {
  vaults_stored : map_Forall stored_vault (kv_vaults k);
  index_distinct : NoDup (kv_asgard_index k);
  index_lists : forall pk, pk ∈ kv_asgard_index k <->
    exists v, kv_vaults k !! GetKey pk = Some v /\ Vault_PubKey v = pk /\ IsAsgard v = true;
}.

Lemma GetKey_inj pk pk' : pubkey_ok pk -> pubkey_ok pk' -> GetKey pk = GetKey pk' -> pk = pk'.
Proof. intros [_ H] [_ H']. by apply ToUpper_lower_inj. Qed.

Lemma NewPubKey_ok pk : key_ok pk -> NewPubKey pk = Ok pk.
Proof.
  intros [Hne Hd]. unfold NewPubKey. fold (PubKey_IsEmpty pk).
  destruct (PubKey_IsEmpty pk) eqn:E; [by apply PubKey_IsEmpty_spec in E|]. by rewrite Hd.
Qed.

Lemma index_ok k : vaults_inv k -> Forall pubkey_ok (kv_asgard_index k).
Proof.
  intros [Hv _ Hi]. apply Forall_forall. intros pk Hpk. apply Hi in Hpk as (v & Hv' & <- & _).
  by apply Hv in Hv' as [_ ?].
Qed.

Lemma getAsgardIndex_ok k : vaults_inv k -> getAsgardIndex k = Ok (kv_asgard_index k).
Proof.
  intros Hk. apply index_ok in Hk.
  assert (H : forall acc, foldM (fun pks s => pk ← NewPubKey s; Ok (pks ++ [pk])) acc
                            (kv_asgard_index k) = Ok (acc ++ kv_asgard_index k)); [|apply (H [])].
  induction Hk as [|pk l [Hpk _] _ IH]; intros acc; cbn [foldM]; [by rewrite app_nil_r|].
  rewrite NewPubKey_ok by done. cbn [mbind outcome_bind]. by rewrite IH, <- app_assoc.
Qed.

Lemma GetVault_stored k key v :
  vaults_inv k -> kv_vaults k !! key = Some v -> GetVault k (Vault_PubKey v) = Ok v.
Proof.
  intros [Hv _ _] H. destruct (Hv key v H) as [-> [[Hne _] _]]. unfold GetVault.
  unfold PubKey_String. rewrite H. destruct (PubKey_IsEmpty _) eqn:E; [|done].
  by apply PubKey_IsEmpty_spec in E.
Qed.

(** Every asgard vault is found, and nothing else. *)
Lemma GetAsgardVaults_lists k :
  vaults_inv k -> exists l, GetAsgardVaults k = Ok l /\
    forall v, v ∈ l <-> IsAsgard v = true /\ kv_vaults k !! GetKey (Vault_PubKey v) = Some v.
Proof.
  intros Hk. unfold GetAsgardVaults. rewrite getAsgardIndex_ok by done. cbn [mbind outcome_bind].
  assert (H : forall pks acc, (forall pk, pk ∈ pks -> pk ∈ kv_asgard_index k) ->
    exists l, foldM (fun asgards pk => vault ← GetVault k pk;
                Ok (if IsAsgard vault then asgards ++ [vault] else asgards)) acc pks = Ok l /\
      forall v, v ∈ l <-> v ∈ acc \/ IsAsgard v = true /\ Vault_PubKey v ∈ pks /\
        kv_vaults k !! GetKey (Vault_PubKey v) = Some v).
  { induction pks as [|pk pks IH]; intros acc Hin; cbn [foldM].
    { exists acc. split; [done|]. intros v. split; [by left|]. intros [?|(_ & []%elem_of_nil & _)]; done. }
    assert (Hpk : pk ∈ kv_asgard_index k) by (apply Hin; by left).
    apply (index_lists k Hk) in Hpk as (v & Hv & <- & Has).
    rewrite (GetVault_stored k _ v Hk Hv). cbn [mbind outcome_bind]. rewrite Has.
    destruct (IH (acc ++ [v])) as (l & -> & Hl); [intros; apply Hin; by right|].
    exists l. split; [done|]. intros w. rewrite Hl, elem_of_app, list_elem_of_singleton, elem_of_cons.
    split; [intros [[?| ->]|(? & ? & ?)]; [by left|right..]; auto|].
    intros [?|(Hw & [Hq|?] & Hs)]; [by left; left| |by right].
    left. right. rewrite Hq, Hv in Hs. congruence. }
  destruct (H (kv_asgard_index k) [] ltac:(done)) as (l & -> & Hl). exists l. split; [done|].
  intros v. rewrite Hl. split; [by intros [[]%elem_of_nil|(? & _ & ?)]|].
  intros [Has Hs]. right. split_and!; [done| |done]. apply (index_lists k Hk). by exists v.
Qed.
Lemma PubKeys_Strings_id l : PubKeys_Strings l = l.
Proof. apply map_id. Qed.

Lemma existsb_pubkey pk l : existsb (fun p => PubKey_Equals p pk) l = true <-> pk ∈ l.
Proof.
  rewrite existsb_exists. split.
  - intros (p & Hp%list_elem_of_In & ->%PubKey_Equals_spec). done.
  - intros Hp%list_elem_of_In. exists pk. split; [done|]. by apply PubKey_Equals_spec.
Qed.

(** What the index becomes when an asgard vault is added. *)
Lemma addAsgardIndex_lists k pk : vaults_inv k ->
  exists index, addAsgardIndex k pk = Ok (set_kv_asgard_index k index) /\ NoDup index /\
    forall p, p ∈ index <-> p = pk \/ p ∈ kv_asgard_index k.
Proof.
  intros Hk. unfold addAsgardIndex. rewrite getAsgardIndex_ok by done. cbn [mbind outcome_bind].
  pose proof (index_distinct k Hk) as Hnd. destruct (existsb _ _) eqn:E.
  - apply existsb_pubkey in E. exists (kv_asgard_index k). split_and!; [by destruct k|done|].
    intros p. split; [by right|by intros [->|?]].
  - eexists. split; [reflexivity|]. rewrite PubKeys_Strings_id.
    assert (Hpk : pk ∉ kv_asgard_index k) by (intros H%existsb_pubkey; congruence).
    split.
    + apply NoDup_app. split_and!; [done| |by apply NoDup_singleton].
      by intros x Hx ->%list_elem_of_singleton.
    + intros p. rewrite elem_of_app, list_elem_of_singleton. tauto.
Qed.

Lemma SetVault_inv k v :
  vaults_inv k -> pubkey_ok (Vault_PubKey v) ->
  (forall w, kv_vaults k !! GetKey (Vault_PubKey v) = Some w -> IsAsgard w = true -> IsAsgard v = true) ->
  exists k', SetVault k v = Ok k' /\ vaults_inv k' /\
    kv_vaults k' = <[GetKey (Vault_PubKey v) := v]> (kv_vaults k).
Proof.
  intros Hk Hv Has.
  assert (Hst : map_Forall stored_vault (<[GetKey (Vault_PubKey v) := v]> (kv_vaults k))).
  { apply map_Forall_insert_2; [by split|apply Hk]. }
  (* the records of the other keys are as before *)
  assert (Hother : forall p, p <> Vault_PubKey v ->
    (exists w, <[GetKey (Vault_PubKey v) := v]> (kv_vaults k) !! GetKey p = Some w /\
       Vault_PubKey w = p /\ IsAsgard w = true) <-> p ∈ kv_asgard_index k).
  { intros p Hp. rewrite (index_lists k Hk). split; intros (w & Hw & <- & ?); exists w; split_and!; try done.
    - apply lookup_insert_Some in Hw as [[_ <-]|[_ ?]]; done.
    - rewrite lookup_insert_ne; [done|]. intros Heq. apply Hp. apply GetKey_inj; [|done|done].
      by apply (vaults_stored k Hk) in Hw as [_ ?]. }
  unfold SetVault. destruct (IsAsgard v) eqn:Ev.
  - destruct (addAsgardIndex_lists k (Vault_PubKey v) Hk) as (index & -> & Hnd & Hi).
    eexists. split; [reflexivity|]. split; [|done]. split; [done|done|].
    cbn [kv_asgard_index kv_vaults set_kv_vaults set_kv_asgard_index]. intros p. rewrite Hi.
    destruct (decide (p = Vault_PubKey v)) as [->|Hp]; [|rewrite Hother by done; tauto].
    split; [|by left]. intros _. exists v. by rewrite lookup_insert_eq.
  - eexists. split; [reflexivity|]. split; [|done]. split; [done|by destruct Hk|].
    cbn [kv_asgard_index kv_vaults set_kv_vaults]. intros p.
    destruct (decide (p = Vault_PubKey v)) as [->|Hp]; [|by rewrite Hother].
    split.
    + intros (w & Hw & _ & Hwa)%(index_lists k Hk). specialize (Has w Hw Hwa). congruence.
    + intros (w & Hw & _ & Hwa). rewrite lookup_insert_eq in Hw. congruence.
Qed.

Lemma DeleteVault_inv k pk v :
  vaults_inv k -> pubkey_ok pk -> kv_vaults k !! GetKey pk = Some v -> HasFunds v = false ->
  exists k', DeleteVault k pk = Ok k' /\ vaults_inv k' /\
    kv_vaults k' = delete (GetKey pk) (kv_vaults k).
Proof.
  intros Hk Hpk Hv Hf. destruct (vaults_stored k Hk _ _ Hv) as [Hkey Hvok].
  assert (pk = Vault_PubKey v) as -> by by apply GetKey_inj.
  unfold DeleteVault. rewrite (GetVault_stored k _ v Hk Hv), Hf.
  assert (Hst : map_Forall stored_vault (delete (GetKey (Vault_PubKey v)) (kv_vaults k))).
  { by apply map_Forall_delete, Hk. }
  assert (Hother : forall p,
    (exists w, delete (GetKey (Vault_PubKey v)) (kv_vaults k) !! GetKey p = Some w /\
       Vault_PubKey w = p /\ IsAsgard w = true) <-> p <> Vault_PubKey v /\ p ∈ kv_asgard_index k).
  { intros p. rewrite (index_lists k Hk). split.
    - intros (w & Hw & <- & ?). apply lookup_delete_Some in Hw as [Hne Hw]. split; [congruence|by exists w].
    - intros (Hne & w & Hw & <- & ?). exists w. split_and!; try done. apply lookup_delete_Some.
      split; [|done]. intros Heq. apply Hne. apply GetKey_inj; [|done|done].
      by apply (vaults_stored k Hk) in Hw as [_ ?]. }
  destruct (IsAsgard v) eqn:Ev.
  - unfold RemoveFromAsgardIndex. rewrite getAsgardIndex_ok by done. cbn [mbind outcome_bind].
    eexists. split; [reflexivity|]. split; [|done]. split; [done| |].
    + cbn. rewrite PubKeys_Strings_id. apply NoDup_ListNoDup, List.NoDup_filter, NoDup_ListNoDup, Hk.
    + cbn [kv_asgard_index kv_vaults set_kv_vaults set_kv_asgard_index]. intros p.
      rewrite PubKeys_Strings_id, Hother, list_elem_of_In, filter_In, <- list_elem_of_In.
      rewrite negb_true_iff, <- not_true_iff_false, PubKey_Equals_spec. tauto.
  - eexists. split; [reflexivity|]. split; [|done]. split; [done|by destruct Hk|].
    cbn [kv_asgard_index kv_vaults set_kv_vaults]. intros p. rewrite Hother. split; [|by intros []].
    intros Hp. split; [|done]. intros ->. apply (index_lists k Hk) in Hp as (w & Hw & _ & Hwa).
    rewrite Hv in Hw. congruence.
Qed.

(** C3: the vaults in the store are a finite map from public keys. Setting a vault
    changes its entry only, deleting one removes its entry only and is refused as
    long as the vault holds funds, and the asgard vaults listed by the index are
    exactly the asgard vaults of the map, so that listing them never fails. *)
Theorem vaults_refine_map k :
  vaults_inv k ->
  (exists l, GetAsgardVaults k = Ok l /\
     forall v, v ∈ l <-> IsAsgard v = true /\ kv_vaults k !! GetKey (Vault_PubKey v) = Some v) /\
  (forall v, pubkey_ok (Vault_PubKey v) ->
     (forall w, kv_vaults k !! GetKey (Vault_PubKey v) = Some w -> IsAsgard w = true -> IsAsgard v = true) ->
     exists k', SetVault k v = Ok k' /\ vaults_inv k' /\
       kv_vaults k' = <[GetKey (Vault_PubKey v) := v]> (kv_vaults k)) /\
  forall pk, pubkey_ok pk ->
    match kv_vaults k !! GetKey pk with
    | None => DeleteVault k pk = Ok k
    | Some v =>
        if HasFunds v then exists e, DeleteVault k pk = Err e
        else exists k', DeleteVault k pk = Ok k' /\ vaults_inv k' /\
               kv_vaults k' = delete (GetKey pk) (kv_vaults k)
    end.
Proof.
  intros Hk. split_and!.
  - by apply GetAsgardVaults_lists.
  - intros v. by apply SetVault_inv.
  - intros pk Hpk. destruct (kv_vaults k !! GetKey pk) as [v|] eqn:Hv.
    + destruct (HasFunds v) eqn:Hf; [|by eapply DeleteVault_inv].
      destruct (vaults_stored k Hk _ _ Hv) as [Hkey Hvok].
      assert (pk = Vault_PubKey v) as -> by by apply GetKey_inj.
      unfold DeleteVault. rewrite (GetVault_stored k _ v Hk Hv), Hf. by eexists.
    + unfold DeleteVault, GetVault, PubKey_String. by rewrite Hv.
Qed.
End vault_facts.

(** ** Witness *)

Section vaults_witness.
Import Reference ReferenceBank ReferenceRange ReferenceAddress.

#[local] Instance any_codec : PubKeyCodec := {| pubkey_decodes s := negb (String.eqb s "bad") |}.

Definition stored_example (pk : PubKey) (type : VaultType) (coins : Coins) : Vault :=
  mkVault 1 pk coins type VaultStatus_ActiveVault 0 [] [] 0 0 [] [] [] EmptyPubKey.

Definition vault_store : KVStore :=
  let k := empty_kv (semver_release 1 123 0) (fun _ => 0) 10 ReferenceBank.empty in
  match SetVault k (stored_example "pk1" VaultType_AsgardVault [NewCoin BTCAsset 5]) with
  | Ok k => match SetVault k (stored_example "pk2" VaultType_AsgardVault []) with Ok k => k | _ => k end
  | _ => k
  end.

Lemma vault_store_inv : vaults_inv vault_store.
Proof.
  assert (E : kv_vaults vault_store =
    <["PK2" := stored_example "pk2" VaultType_AsgardVault []]>
      (<["PK1" := stored_example "pk1" VaultType_AsgardVault [NewCoin BTCAsset 5]]> ∅)) by (by vm_compute).
  split.
  - rewrite E. apply map_Forall_insert_2; [by repeat split|].
    apply map_Forall_insert_2; [by repeat split|apply map_Forall_empty].
  - apply (bool_decide_unpack _). by vm_compute.
  - intros pk. change (kv_asgard_index vault_store) with ["pk1"; "pk2"]%string. rewrite E. split.
    + intros Hpk. repeat (apply elem_of_cons in Hpk as [->|Hpk]; [by eexists|]).
      by apply elem_of_nil in Hpk.
    + intros (v & Hv & <- & _). apply lookup_insert_Some in Hv as [[_ <-]|[_ Hv]]; [by right; left|].
      apply lookup_insert_Some in Hv as [[_ <-]|[_ Hv]]; [by left|done].
Qed.

Lemma vaults_refine_map_witness :
  (exists e, DeleteVault vault_store "pk1" = Err e) /\
  exists k', DeleteVault vault_store "pk2" = Ok k' /\ vaults_inv k' /\
    kv_vaults k' = delete (GetKey "pk2") (kv_vaults vault_store).
Proof.
  destruct (vaults_refine_map vault_store vault_store_inv) as (_ & _ & H).
  assert (H1 : pubkey_ok "pk1") by by repeat split.
  assert (H2 : pubkey_ok "pk2") by by repeat split.
  split; [exact (H "pk1"%string H1)|exact (H "pk2"%string H2)].
Defined.
End vaults_witness.
