(* ===== verification/Halts.v ===== *)
(** The part of [x/mayachain/helpers.go] that decides whether trading, a chain,
    liquidity or the minting of synths is paused, and the price of a dollar in
    CACAO. *)
From S2P Require Import Prelude GoText Sdk Shares Chains Keys Addresses Assets Coins Txs.
From S2P Require Import NodeAccounts Votes TxOuts Mimirs Pools SwapMsgs Records MayaNames Stores Keeper.

Definition WhitelistedArbs : list string :=
  ["maya1a7gg93dgwlulsrqf6qtage985ujhpu068zllw7"; "thor1a7gg93dgwlulsrqf6qtage985ujhpu0684pncw";
   "bc1qztdn5395243l3zwskwdxaghgrgs8swy5fjrhls"; "0xef1c6f153afaf86424fd984728d32535902f1c3d";
   "bnb13sjakc98xrjz4we6d8a546xvlvrzver3pdfhap"].

Definition WhitelistedArbsV107 : list string :=
  WhitelistedArbs ++
  ["XmjZcjdymUo79tJikPJxKQWQuRVbcqkFp5"; "kujira1a7gg93dgwlulsrqf6qtage985ujhpu06s66sqm"].

(** The messages the check distinguishes. *)
Inductive halt_msg :=
  | Halt_MsgSwap (m : MsgSwap)
  | Halt_MsgAddLiquidity (asset : Asset)
  | Halt_other.

Section halts.
Context `{V : Semver} `{B : CosmosBank} `{A : SdkAddress} `{R : MapRange} `{L : AddressLib}.
Context `{U : SdkUint} `{D : SdkDec}.
Implicit Types k : KVStore.

(** A parameter that holds the height after which something stops. *)
Definition height_passed k (key : string) : bool :=
  let v := GetMimir k key in (0 <? v) && (v <? kv_height k).

Definition isChainHaltedV87 k (chain : Chain) : bool :=
  height_passed k "HaltChainGlobal"
  || (kv_height k <? GetMimir k "NodePauseChainGlobal")
  || height_passed k ("Halt" +:+ Chain_String chain +:+ "Chain")
  || height_passed k ("SolvencyHalt" +:+ Chain_String chain +:+ "Chain").

Definition isChainHaltedV65 k (chain : Chain) : bool :=
  height_passed k "HaltChainGlobal"
  || (kv_height k <? GetMimir k "NodePauseChainGlobal")
  || height_passed k ("Halt" +:+ Chain_String chain +:+ "Chain").

Definition isChainHalted k (chain : Chain) : bool :=
  if GTE (kv_version k) (semver_release 1 87 0) then isChainHaltedV87 k chain
  else if GTE (kv_version k) (semver_release 0 65 0) then isChainHaltedV65 k chain
  else false.

Definition isGlobalTradingHalted k : bool :=
  height_passed k "HaltTrading" || RagnarokInProgress k.

Definition isChainTradingHalted k (chain : Chain) : bool :=
  height_passed k ("Halt" +:+ Chain_String chain +:+ "Trading") || isChainHalted k chain.

Definition isPoolTradingHalted k (asset : Asset) : bool :=
  height_passed k ("HaltTrading-" +:+ MimirString asset).

Definition getWhitelistedArbs k : list string :=
  if GTE (kv_version k) (semver_release 1 107 0) then WhitelistedArbsV107 else WhitelistedArbs.

(** The listed addresses have no space to trim. One that does not parse is skipped. *)
Definition whitelisted k (from : Address) : bool :=
  existsb (fun raw => match NewAddress raw (kv_version k) with
                      | Ok address => Address_Equals address from
                      | _ => false
                      end) (getWhitelistedArbs k).

Definition source_asset (m : MsgSwap) : Asset :=
  match Tx_Coins (Msg_Tx m) with [] => EmptyAsset | c :: _ => Coin_Asset c end.

Definition source_chain (m : MsgSwap) : Chain :=
  match Tx_Coins (Msg_Tx m) with
  | [] => EmptyChain
  | c :: _ => Asset_Chain (GetLayer1Asset (Coin_Asset c))
  end.

Definition isTradingHaltV123 k (msg : halt_msg) : bool :=
  match msg with
  | Halt_MsgSwap m =>
      if whitelisted k (FromAddress (Msg_Tx m)) then false
      else if negb (Asset_IsEmpty (source_asset m)) && isPoolTradingHalted k (source_asset m) then true
      else if negb (Asset_IsEmpty (TargetAsset m)) && isPoolTradingHalted k (TargetAsset m) then true
      else
        isChainTradingHalted k (source_chain m)
        || isChainTradingHalted k (Asset_Chain (GetLayer1Asset (TargetAsset m)))
        || isGlobalTradingHalted k
  | Halt_MsgAddLiquidity asset =>
      if isPoolTradingHalted k asset then true
      else isChainTradingHalted k (Asset_Chain asset) || isGlobalTradingHalted k
  | Halt_other => isGlobalTradingHalted k
  end.

Definition isTradingHaltV65 k (msg : halt_msg) : bool :=
  match msg with
  | Halt_MsgSwap m =>
      if whitelisted k (FromAddress (Msg_Tx m)) then false
      else
        isChainTradingHalted k (source_chain m)
        || isChainTradingHalted k (Asset_Chain (GetLayer1Asset (TargetAsset m)))
        || isGlobalTradingHalted k
  | Halt_MsgAddLiquidity asset => isChainTradingHalted k (Asset_Chain asset) || isGlobalTradingHalted k
  | Halt_other => isGlobalTradingHalted k
  end.

Definition isTradingHalt k (msg : halt_msg) : bool :=
  if GTE (kv_version k) (semver_release 1 123 0) then isTradingHaltV123 k msg
  else if GTE (kv_version k) (semver_release 0 65 0) then isTradingHaltV65 k msg
  else false.

Definition isLPPausedV1 k (chain : Chain) : bool :=
  height_passed k "PauseLP" || height_passed k ("PauseLP" +:+ Chain_String chain).

Definition isLPPaused k (chain : Chain) : bool :=
  if GTE (kv_version k) (semver_release 0 1 0) then isLPPausedV1 k chain else false.

Definition isLiquidityAuction k : bool :=
  let liquidityAuction := GetMimir k "LiquidityAuction" in
  (0 <? liquidityAuction) && (kv_height k <=? liquidityAuction).

(** [Uint64] panics on more than 64 bits; the conversion to [int64] wraps. *)
Definition isSynthMintPaused108 k (targetAsset : Asset) (outputAmt : Z) : outcome unit :=
  let maxSynths := GetMimir k "MaxSynthPerPoolDepth" in
  let maxSynths := if maxSynths <? 0 then kv_constants k "MaxSynthPerPoolDepth" else maxSynths in
  synthSupply ← GetTotalSupply k (GetSyntheticAsset targetAsset);
  let pool := GetPool k (GetLayer1Asset targetAsset) in
  if BalanceAsset pool =? 0 then Err "pool(%s) has zero asset balance"
  else
    after ← uint_add synthSupply outputAmt;
    n ← uint_mul64 after 10000;
    d ← uint_mul64 (BalanceAsset pool) 2;
    q ← uint_quo n d;
    q ← amount_uint64 q;
    if maxSynths <? i64 q
    then Err "synth quantity is too high relative to asset depth of related pool (%d/%d)"
    else Ok tt.

Definition isSynthMintPaused k (targetAsset : Asset) (outputAmt : Z) : outcome unit :=
  if GTE (kv_version k) (semver_release 1 108 0) then isSynthMintPaused108 k targetAsset outputAmt
  else Ok tt.

(** ** The price of a dollar *)

Definition usdAssets : list Asset :=
  [mkAsset "BNB" "BUSD-BD1" "BUSD" false false;
   mkAsset "ETH" "USDC-0XA0B86991C6218B36C1D19D4A2E9EB0CE3606EB48" "USDC" false false;
   mkAsset "ETH" "USDT-0XDAC17F958D2EE523A2206206994597C13D831EC7" "USDT" false false].

Definition usd_value k (asset : Asset) : option Z :=
  if isGlobalTradingHalted k || isChainTradingHalted k (Asset_Chain asset) then None
  else
    let pool := GetPool k asset in
    if negb (Pool_Status pool =? PoolStatus_Available) then None
    else
      let value := AssetValueInRune pool One in
      if value =? 0 then None else Some value.

(** The values compare as 64-bit words; one that is larger panics. *)
Definition DollarInRune k : outcome Z :=
  let dollarInRune := GetMimir k "DollarInRune" in
  if 0 <? dollarInRune then Ok dollarInRune
  else
    let usd := omap (usd_value k) usdAssets in
    match usd with
    | [] => Ok 0
    | [v] => Ok v
    | _ =>
        _ ← forM_check (fun v => _ ← amount_uint64 v; Ok tt) usd;
        let usd := stable_sort Z.ltb usd in
        let n := length usd in
        if (0 <? n mod 2)%nat then Ok (nth (n / 2) usd 0)
        else s ← uint_add (nth (n / 2 - 1) usd 0) (nth (n / 2) usd 0); uint_quo64 s 2
    end.
End halts.

(** The three dollar assets are what the parser makes of their names. *)
Lemma usdAssets_parse :
  map NewAsset ["BNB.BUSD-BD1"; "ETH.USDC-0XA0B86991C6218B36C1D19D4A2E9EB0CE3606EB48";
                "ETH.USDT-0XDAC17F958D2EE523A2206206994597C13D831EC7"] = map Ok usdAssets.
Proof. by vm_compute. Qed.
