(* ===== verification/Gas.v ===== *)
(** [x/mayachain/manager_gas_current.go]: the fee an outbound transaction pays,
    the gas rates, and the repayment of the pools for the gas they spent. *)
From S2P Require Import Prelude GoText Sdk Shares Chains Keys Addresses Assets Coins Txs.
From S2P Require Import NodeAccounts Votes TxOuts Mimirs Pools SwapMsgs Records MayaNames Stores Keeper Halts.

(** ** The manager's own state *)

(** What one event says of a pool. *)
Record GasPool := mkGasPool {
  GasPool_Asset : Asset;
  GasPool_CacaoAmt : Z;
  GasPool_AssetAmt : Z;
  GasPool_Count : Z;
}.

(** The gas of the block, how many transactions paid it per asset, the pools of
    the block's event, and whether [BeginBlock] ran. *)
Record GasMgr := mkGasMgr {
  gm_gasEvent : list GasPool;
  gm_gas : Gas;
  gm_gasCount : Asset -> Z;
  gm_mgr : bool;
}.

Definition newGasMgr : GasMgr := mkGasMgr [] [] (fun _ => 0) false.
Definition GasMgr_reset (gm : GasMgr) : GasMgr := mkGasMgr [] [] (fun _ => 0) (gm_mgr gm).
Definition GasMgr_BeginBlock (gm : GasMgr) : GasMgr := mkGasMgr [] [] (fun _ => 0) true.
Definition GetGas (gm : GasMgr) : Gas := gm_gas gm.

Definition count_gas (m : Asset -> Z) (coin : Coin) : Asset -> Z :=
  fun a => if decide (a = Coin_Asset coin) then i64 (m a + 1) else m a.

Section gas.
Context `{V : Semver} `{B : CosmosBank} `{A : SdkAddress} `{R : MapRange} `{L : AddressLib}.
Context `{U : SdkUint} `{D : SdkDec}.
Implicit Types (k : KVStore) (gm : GasMgr).

Definition AddGasAsset gm (gas : Gas) (increaseTxCount : bool) : outcome GasMgr :=
  total ← Gas_Add (gm_gas gm) gas;
  if negb increaseTxCount then Ok (mkGasMgr (gm_gasEvent gm) total (gm_gasCount gm) (gm_mgr gm))
  else Ok (mkGasMgr (gm_gasEvent gm) total (foldl count_gas (gm_gasCount gm) gas) (gm_mgr gm)).

Definition SubGas gm (gas : Gas) : outcome GasMgr :=
  rest ← Gas_Sub (gm_gas gm) gas;
  Ok (mkGasMgr (gm_gasEvent gm) rest (gm_gasCount gm) (gm_mgr gm)).

Definition UpsertGasPool (pools : list GasPool) (pool : GasPool) : outcome (list GasPool) :=
  r ← upd_first (fun p => bool_decide (GasPool_Asset p = GasPool_Asset pool))
        (fun p =>
           cacao ← uint_add (GasPool_CacaoAmt p) (GasPool_CacaoAmt pool);
           asset ← uint_add (GasPool_AssetAmt p) (GasPool_AssetAmt pool);
           Ok (mkGasPool (GasPool_Asset p) cacao asset (GasPool_Count p))) pools;
  match r with
  | Some pools => Ok pools
  | None => Ok (pools ++ [pool])
  end.

(** ** Fees *)

(** A parameter that the nodes or an admin may override, as the manager reads it. *)
Definition mimir_or_constant k (key : string) : Z :=
  let v := GetMimir k key in if v <? 0 then kv_constants k key else v.

Definition getRuneInAssetValue k (transactionFee : Z) (asset : Asset) : outcome Z :=
  let asset := if IsSyntheticAsset asset || IsTradeAsset asset then GetLayer1Asset asset else asset in
  let pool := GetPool k asset in
  if (BalanceAsset pool =? 0) || (BalanceCacao pool =? 0) then Ok transactionFee
  else RuneValueInAsset pool transactionFee.

(** In basis points. *)
Definition CalcOutboundFeeMultiplier
    (targetSurplusRune gasSpentRune gasWithheldRune maxMultiplier minMultiplier : Z) : outcome Z :=
  if targetSurplusRune =? 0 then Ok maxMultiplier
  else if maxMultiplier <? minMultiplier then Ok 30000
  else
    surplusRune ← SafeSub gasWithheldRune gasSpentRune;
    range ← SafeSub maxMultiplier minMultiplier;
    SafeSub maxMultiplier (GetSafeShare surplusRune targetSurplusRune range).

(** The least fee, in the gas asset: a number of dollars. *)
Definition min_fee gm k (pool : Pool) : outcome Z :=
  oneDollarRune ← (if gm_mgr gm then DollarInRune k else Ok 0);
  if oneDollarRune =? 0 then Ok 0
  else
    let minOutboundUSD := mimir_or_constant k "MinimumL1OutboundFeeUSD" in
    RuneValueInAsset pool (GetUncappedShare (u64 minOutboundUSD) One oneDollarRune).

(** The fee in the gas asset of the chain, for a size and a rate. *)
Definition gas_asset_fee gm k (chain : Chain) (pool : Pool) (networkFee : NetworkFee) : outcome Z :=
  minAsset ← min_fee gm k pool;
  let network := GetNetwork k in
  let base := u64 (TransactionSize networkFee * TransactionFeeRate networkFee) in
  let base := if Chain_Equals chain ARBChain then Z.quot base 1000 else base in
  feeMultiplierBps ← CalcOutboundFeeMultiplier
    (u64 (mimir_or_constant k "TargetOutboundFeeSurplusRune"))
    (OutboundGasSpentCacao network) (OutboundGasWithheldCacao network)
    (u64 (mimir_or_constant k "MaxOutboundFeeMultiplierBasisPoints"))
    (u64 (mimir_or_constant k "MinOutboundFeeMultiplierBasisPoints"));
  fee ← RoundToDecimal (GetUncappedShare base 10000 feeMultiplierBps) (Pool_Decimals pool);
  Ok (if fee <? minAsset then minAsset else fee).

Definition GetFee gm k (chain : Chain) (asset : Asset) : outcome Z :=
  let transactionFee := u64 (mimir_or_constant k "OutboundTransactionFee") in
  if IsBase asset && Chain_Equals chain BASEChain then Ok transactionFee
  else if IsSyntheticAsset asset || IsTradeAsset asset then getRuneInAssetValue k transactionFee asset
  else
    let pool := GetPool k (GetGasAsset chain) in
    let networkFee := GetNetworkFee k chain in
    match NetworkFee_Valid networkFee with
    | Ok _ =>
        fee ← gas_asset_fee gm k chain pool networkFee;
        if Asset_Equals asset (GetGasAsset (GetChain asset)) && Chain_Equals chain (GetChain asset)
        then Ok fee
        else if (BalanceAsset pool =? 0) || (BalanceCacao pool =? 0) then Ok 2000000
        else
          let fee := AssetValueInRune pool fee in
          if IsBase asset then Ok fee
          else
            let pool := GetPool k asset in
            if (BalanceAsset pool =? 0) || (BalanceCacao pool =? 0) then Ok 2000000
            else RuneValueInAsset pool fee
    | _ => Ok transactionFee
    end.

Definition GetGasRate k (chain : Chain) : outcome Z :=
  let transactionFee := u64 (mimir_or_constant k "OutboundTransactionFee") in
  if Chain_Equals chain BASEChain then Ok transactionFee
  else
    let networkFee := GetNetworkFee k chain in
    match NetworkFee_Valid networkFee with
    | Ok _ =>
        if Chain_Equals chain THORChain then Ok (TransactionFeeRate networkFee)
        else
          RoundToDecimal (Z.quot (u64 (TransactionFeeRate networkFee * 3)) 2) (GetGasAssetDecimal chain)
    | _ => Ok transactionFee
    end.

Definition GasMgr_GetNetworkFee k (chain : Chain) : NetworkFee :=
  if Chain_Equals chain BASEChain
  then NewNetworkFee chain 1 (u64 (GetConfigInt64 k "OutboundTransactionFee"))
  else GetNetworkFee k chain.

Definition GetMaxGas k (chain : Chain) : outcome Coin :=
  let gasAsset := GetGasAsset chain in
  let nf := GetNetworkFee k chain in
  let cost := u64 (TransactionSize nf * TransactionFeeRate nf) in
  amount ←
    (if Chain_IsBNB chain || Chain_Equals chain THORChain then Ok cost
     else a ← uint_mul64 cost 3; uint_quo64 a 2);
  amount ← (if Chain_Equals chain ARBChain then uint_quo64 amount 1000 else Ok amount);
  rounded ← RoundToDecimal amount (GetGasAssetDecimal chain);
  Ok (WithDecimals (set_Amount (NewCoin gasAsset amount) rounded) (GetGasAssetDecimal chain)).

(** ** Repaying the pools *)

(** One coin of the block's gas. A transfer that fails changes nothing; the
    loop goes on to the next coin after a problem with one. *)
Definition process_gas_coin (count : Asset -> Z) (s : KVStore * Network * list GasPool) (gas : Coin)
  : outcome (KVStore * Network * list GasPool) :=
  let '(k, network, events) := s in
  if Coin_Amount gas =? 0 then Ok s
  else
    let pool := GetPool k (Coin_Asset gas) in
    match Pool_Valid pool with
    | Ok _ =>
        let cacaoGas := AssetValueInRune pool (Coin_Amount gas) in
        if cacaoGas =? 0 then Ok s
        else
          reserve ← GetRuneBalanceOfModule k ReserveName;
          paid ←
            (if cacaoGas <? reserve then
               match SendFromModuleToModule k ReserveName AsgardName [NewCoin BaseNative cacaoGas] with
               | Ok k =>
                   balance ← uint_add (BalanceCacao pool) cacaoGas;
                   spent ← amount_uint64 cacaoGas;
                   Ok (Some (k, set_BalanceCacao pool balance,
                             with_gas_spent network (u64 (OutboundGasSpentCacao network + spent)),
                             cacaoGas))
               | Err _ => Ok None
               | Panic => Panic
               end
             else Ok (Some (k, pool, network, 0)));
          match (paid : option (KVStore * Pool * Network * Z)) with
          | None => Ok s
          | Some (k, pool, network, cacaoGas) =>
              balance ← SafeSub (BalanceAsset pool) (Coin_Amount gas);
              let pool := set_BalanceAsset pool balance in
              match SetPool k pool with
              | Ok k =>
                  events ← UpsertGasPool events
                    (mkGasPool (Coin_Asset gas) cacaoGas (Coin_Amount gas) (count (Coin_Asset gas)));
                  Ok (k, network, events)
              | Err _ => Ok (k, network, events)
              | Panic => Panic
              end
          end
    | _ => Ok s
    end.

Definition ProcessGas gm k : outcome (GasMgr * KVStore) :=
  if RagnarokInProgress k then Ok (gm, k)
  else
    r ← foldM (process_gas_coin (gm_gasCount gm)) (k, GetNetwork k, gm_gasEvent gm) (gm_gas gm);
    let '(k, network, events) := (r : KVStore * Network * list GasPool) in
    Ok (mkGasMgr events (gm_gas gm) (gm_gasCount gm) (gm_mgr gm), SetNetwork k network).
End gas.

(** ** Facts *)

Section gas_facts.
Context {V : Semver} {B : CosmosBank} {BL : CosmosBankLaws B} {A : SdkAddress} {R : MapRange}.
Context {L : AddressLib} {U : SdkUint} {D : SdkDec} {UL : SdkUintLaws U} {DL : SdkDecLaws D}.
Implicit Types (k : KVStore) (gm : GasMgr).

(** The multiplier stays between its two limits; it is the largest while
    the gas spent is not withheld, and the smallest once the surplus reaches the
    target. *)
Theorem CalcOutboundFeeMultiplier_spec target spent withheld max min r :
  is_uint withheld -> is_uint spent -> 0 < target < 2 ^ 255 -> 0 <= min <= max -> max < 2 ^ 255 - 1 ->
  CalcOutboundFeeMultiplier target spent withheld max min = Ok r ->
  min <= r <= max /\ (withheld <= spent -> r = max) /\ (target <= withheld - spent -> r = min).
Proof.
  unfold is_uint. intros Hw Hs Ht Hmin Hmax. unfold CalcOutboundFeeMultiplier, SafeSub.
  destruct (Z.eqb_spec target 0); [lia|]. destruct (Z.ltb_spec max min); [lia|].
  rewrite !uint_sub_law, (checked_in (max - min)) by (unfold is_uint; lia).
  assert (Hsur : (if withheld <? spent then Ok 0 else checked (withheld - spent)) =
    Ok (Z.max 0 (withheld - spent))).
  { destruct (Z.ltb_spec withheld spent); [by rewrite Z.max_l by lia|].
    rewrite Z.max_r, checked_in by (unfold is_uint; lia). done. }
  rewrite Hsur. cbn [mbind outcome_bind]. set (s := Z.max 0 _).
  pose proof (GetSafeShare_range s target (max - min) ltac:(lia) ltac:(lia) ltac:(lia)) as Hg.
  destruct (Z.ltb_spec max (GetSafeShare s target (max - min))); [lia|].
  rewrite uint_sub_law, checked_in by (unfold is_uint; lia). intros [= <-].
  split_and!; [lia|lia| |].
  - intros. replace s with 0 by lia. unfold GetSafeShare, GetUncappedShare.
    destruct (Z.leb_spec target 0); [lia|]. cbn. lia.
  - intros. unfold GetSafeShare. destruct (Z.leb_spec target s); [|lia].
    rewrite GetUncappedShare_full by lia. lia.
Qed.

(** What repaying the pools leaves alone: the CACAO that backs the pools, the
    CACAO of the two modules together, and the account of what was spent. *)
Definition gas_books (s s' : KVStore * Network * list GasPool) : Prop :=
  let '(k, n, _) := s in let '(k', n', _) := s' in
  pools_inv k' /\
  cacao_of k' AsgardName - pools_cacao k' = cacao_of k AsgardName - pools_cacao k /\
  cacao_of k' AsgardName + cacao_of k' ReserveName = cacao_of k AsgardName + cacao_of k ReserveName /\
  cacao_of k' ReserveName <= cacao_of k ReserveName /\
  OutboundGasSpentCacao n' =
    u64 (OutboundGasSpentCacao n + (cacao_of k ReserveName - cacao_of k' ReserveName)).

Definition books_ok (s : KVStore * Network * list GasPool) : Prop :=
  pools_inv (fst (fst s)) /\ is_u64 (OutboundGasSpentCacao (snd (fst s))).

Lemma gas_books_refl s : books_ok s -> gas_books s s.
Proof. destruct s as [[k n] e]. intros [? ?]. split_and!; try done. by rewrite Z.sub_diag, Z.add_0_r, u64_id. Qed.

Lemma gas_books_trans s1 s2 s3 : gas_books s1 s2 -> gas_books s2 s3 -> gas_books s1 s3.
Proof.
  destruct s1 as [[k1 n1] e1], s2 as [[k2 n2] e2], s3 as [[k3 n3] e3].
  intros (_ & H1 & H2 & H3 & H4) (? & G1 & G2 & G3 & G4). split_and!; try done; [lia..|].
  rewrite G4, H4. unfold u64. rewrite Zplus_mod_idemp_l. f_equal. lia.
Qed.

Lemma gas_books_ok s s' : gas_books s s' -> books_ok s'.
Proof.
  destruct s as [[k n] e], s' as [[k' n'] e']. intros (? & _ & _ & _ & E). split; [done|]. cbn.
  rewrite E. unfold u64, is_u64. by apply Z.mod_pos_bound.
Qed.

Lemma pay_from_reserve k amount k' :
  SendFromModuleToModule k ReserveName AsgardName [NewCoin BaseNative amount] = Ok k' ->
  (exists b, k' = set_kv_bank k b) /\
  cacao_of k' AsgardName = cacao_of k AsgardName + amount /\
  cacao_of k' ReserveName = cacao_of k ReserveName - amount.
Proof.
  intros H. split; [by eapply SendFromModuleToModule_frame|].
  rewrite !(module_send_cacao _ _ _ _ _ _ H) by done.
  change (String.eqb AsgardName ReserveName) with false. rewrite String.eqb_refl.
  change (String.eqb ReserveName AsgardName) with false. rewrite String.eqb_refl. lia.
Qed.

Lemma process_gas_coin_books count s gas s' : books_ok s -> is_uint (Coin_Amount gas) ->
  process_gas_coin count s gas = Ok s' -> gas_books s s'.
Proof.
  destruct s as [[k n] ev]. intros Hok Hg H. unfold process_gas_coin in H.
  destruct (Coin_Amount gas =? 0); [invert_ok; by apply gas_books_refl|].
  destruct Hok as [Hinv Hspent]. cbn [fst snd] in *.
  destruct (Pool_Valid (GetPool k (Coin_Asset gas))) as [[]| |] eqn:Hvalid;
    [|invert_ok; by apply gas_books_refl..].
  destruct (GetPool_inv k _ Hinv Hvalid) as (Hp & Hkey & Hwf).
  set (p := GetPool k (Coin_Asset gas)) in *. rewrite <- Hkey in Hp.
  destruct (AssetValueInRune p (Coin_Amount gas) =? 0); [invert_ok; by apply gas_books_refl|].
  assert (Hc : 0 <= AssetValueInRune p (Coin_Amount gas)).
  { unfold AssetValueInRune. destruct (_ || _); [done|]. apply GetUncappedShare_uint. }
  set (c := AssetValueInRune _ _) in *.
  apply bind_Ok in H as (reserve & _ & H). apply bind_Ok in H as (paid & Hpaid & H).
  assert (Hset : forall k1 n1 c1 q, pools_inv k1 -> kv_pools k1 = kv_pools k ->
    Pool_Asset q = Pool_Asset p -> pool_wf q -> BalanceCacao q = BalanceCacao p + c1 ->
    cacao_of k1 AsgardName = cacao_of k AsgardName + c1 ->
    cacao_of k1 ReserveName = cacao_of k ReserveName - c1 -> 0 <= c1 ->
    OutboundGasSpentCacao n1 = u64 (OutboundGasSpentCacao n + c1) ->
    (balance ← SafeSub (BalanceAsset q) (Coin_Amount gas);
     match SetPool k1 (set_BalanceAsset q balance) with
     | Ok k => events ← UpsertGasPool ev
                 (mkGasPool (Coin_Asset gas) c1 (Coin_Amount gas) (count (Coin_Asset gas)));
               Ok (k, n1, events)
     | Err _ => Ok (k1, n1, ev)
     | Panic => Panic
     end) = Ok s' -> gas_books (k, n, ev) s').
  { intros k1 n1 c1 q Hinv1 Hpools Ha Hq Hb Has Hre Hc1 Hn1 Hrun. clear H Hpaid paid. invert_ok.
    assert (is_uint v).
    { unfold SafeSub in Hv. destruct (_ <? _); [invert_ok; by split|]. by apply uint_sub_Ok in Hv as [-> ?]. }
    destruct (SetPool k1 (set_BalanceAsset q v)) as [k2|e|] eqn:Hs; [| |done].
    - invert_ok. destruct (SetPool_inv k1 p (set_BalanceAsset q v) k2) as (? & Hpc & Hbk & _); try done.
      { by rewrite Hpools. }
      { destruct Hq as (?&?&?&?&?&?). unfold pool_wf. by split_and!. }
      unfold gas_books, cacao_of in *. rewrite Hbk. cbn [BalanceCacao set_BalanceAsset] in Hpc.
      assert (pools_cacao k1 = pools_cacao k) by (unfold pools_cacao; by rewrite Hpools).
      split_and!; try done; [lia..|]. rewrite Hn1. f_equal. lia.
    - exfalso. unfold SetPool in Hs. cbn [Pool_Asset set_BalanceAsset] in Hs. rewrite Ha in Hs.
      unfold Pool_Valid, Pool_IsEmpty in Hvalid. by destruct (Asset_IsEmpty (Pool_Asset p)). }
  destruct (c <? reserve) eqn:Hlt.
  - destruct (SendFromModuleToModule _ _ _ _) as [k1|e|] eqn:Hsend; [| |done].
    + apply bind_Ok in Hpaid as (balance & Hbal & Hpaid). apply bind_Ok in Hpaid as (sp & Hsp & Hpaid).
      injection Hpaid as <-. apply pay_from_reserve in Hsend as ([b ->] & ? & ?).
      apply uint_add_Ok in Hbal as [-> ?]. unfold amount_uint64 in Hsp.
      destruct (_ && _); [|done]. injection Hsp as <-.
      apply (Hset (set_kv_bank k b) (with_gas_spent n (u64 (OutboundGasSpentCacao n + c))) c
        (set_BalanceCacao p (BalanceCacao p + c))); try done.
      destruct Hwf as (?&?&?&?&?&?). unfold pool_wf. by split_and!.
    + injection Hpaid as <-. injection H as <-. by apply gas_books_refl.
  - injection Hpaid as <-. apply (Hset k n 0 p); try done; try lia. by rewrite Z.add_0_r, u64_id.
Qed.

(** Repaying the pools for their gas keeps the books: Asgard receives exactly
    the CACAO that is added to the pools, the reserve pays exactly that, and the
    network's record of gas spent grows by it, as a 64-bit word. *)
Theorem ProcessGas_books gm k gm' k' :
  pools_inv k -> is_u64 (OutboundGasSpentCacao (kv_network k)) ->
  Forall (fun c => is_uint (Coin_Amount c)) (gm_gas gm) ->
  ProcessGas gm k = Ok (gm', k') ->
  pools_inv k' /\
  cacao_of k' AsgardName - pools_cacao k' = cacao_of k AsgardName - pools_cacao k /\
  cacao_of k' AsgardName + cacao_of k' ReserveName = cacao_of k AsgardName + cacao_of k ReserveName /\
  cacao_of k' ReserveName <= cacao_of k ReserveName /\
  OutboundGasSpentCacao (kv_network k') =
    u64 (OutboundGasSpentCacao (kv_network k) + (cacao_of k ReserveName - cacao_of k' ReserveName)).
Proof.
  intros Hinv Hn Hgas H. unfold ProcessGas in H.
  assert (Hfold : forall l s s', Forall (fun c => is_uint (Coin_Amount c)) l -> books_ok s ->
    foldM (process_gas_coin (gm_gasCount gm)) s l = Ok s' -> gas_books s s').
  { clear H. induction l as [|c l IH]; intros s s' Hl Hs Hf; cbn in Hf.
    - invert_ok. by apply gas_books_refl.
    - apply Forall_cons in Hl as [Hc Hl]. invert_ok.
      apply process_gas_coin_books in Hv; [|done..]. eapply gas_books_trans; [exact Hv|].
      apply IH; [done| |done]. by eapply gas_books_ok. }
  destruct (RagnarokInProgress k).
  - invert_ok. exact (gas_books_refl (k', kv_network k', []) (conj Hinv Hn)).
  - invert_ok. destruct v as [[k1 n1] ev]. invert_ok. by apply Hfold in Hv.
Qed.
End gas_facts.

Section gas_witnesses.
Import Reference ReferenceBank ReferenceRange ReferenceAddress.

Lemma CalcOutboundFeeMultiplier_spec_witness :
  CalcOutboundFeeMultiplier 1000 200 700 30000 15000 = Ok 22500 /\
  15000 <= 22500 <= 30000 /\ (700 <= 200 -> 22500 = 30000) /\ (1000 <= 700 - 200 -> 22500 = 15000).
Proof.
  split; [by vm_compute|].
  apply (CalcOutboundFeeMultiplier_spec 1000 200 700 30000 15000); by vm_compute.
Defined.

(** A pool of 1000 CACAO and 100 BTC that spent 10 BTC on gas. *)
Definition gas_example : KVStore :=
  set_kv_pools
    (empty_kv (semver_release 1 123 0) (fun _ => 0) 10
      (mkState (<[("reserve", "cacao") := 5000]> ∅) ∅))
    (<["BTC.BTC" := mkPool 1000 100 BTCAsset 1000 PoolStatus_Available 0 8 0 0 0]> ∅).

Definition gas_example_mgr : GasMgr := mkGasMgr [] [NewCoin BTCAsset 10] (fun _ => 0) true.

Lemma gas_example_pools : pools_inv gas_example.
Proof.
  intros a p. cbn [kv_pools set_kv_pools gas_example].
  intros [[<- <-]|[_ [=]]]%lookup_insert_Some. split; [by vm_compute|]. by repeat split.
Qed.

Lemma ProcessGas_books_witness :
  exists gm k, ProcessGas gas_example_mgr gas_example = Ok (gm, k) /\
    cacao_of k AsgardName = 100 /\
    cacao_of k AsgardName - pools_cacao k =
      cacao_of gas_example AsgardName - pools_cacao gas_example.
Proof.
  assert (Hr : match ProcessGas gas_example_mgr gas_example with
    | Ok (_, k) => cacao_of k AsgardName =? 100 | _ => false end = true) by by vm_compute.
  destruct (ProcessGas gas_example_mgr gas_example) as [[gm k]| |] eqn:E; [|done..].
  pose proof (ProcessGas_books gas_example_mgr gas_example gm k gas_example_pools ltac:(by split)
    ltac:(by repeat constructor) E) as (_ & H & _).
  exists gm, k. split; [done|]. split; [by apply Z.eqb_eq|exact H].
Defined.
End gas_witnesses.
