(* ===== verification/TradeAccounts.v ===== *)
(** [x/mayachain/manager_trade_account_current.go]: the trade accounts, shares of
    a common depth of each asset. *)
From S2P Require Import Prelude GoText Sdk Shares Keys Assets.
From S2P Require Import Coins NodeAccounts Votes Mimirs Pools SwapMsgs Records MayaNames Stores Keeper.

Section trade_manager.
Context `{V : Semver} `{B : CosmosBank} `{A : SdkAddress} `{U : SdkUint} `{D : SdkDec}.
Implicit Types k : KVStore.

(** The part of the depth an account's units stand for. *)
Definition BalanceOf k (asset : Asset) (addr : AccAddress) : Z :=
  let asset := GetTradeAsset asset in
  let tu := GetTradeUnit k asset in
  let tr := GetTradeAccount k addr asset in
  GetSafeShare (TradeAccount_Units tr) (TradeUnit_Units tu) (Depth tu).

Definition calcDepositUnits (oldUnits depth add : Z) : Z :=
  if (oldUnits =? 0) || (depth =? 0) then add
  else if add =? 0 then 0
  else GetUncappedShare add depth oldUnits.

Definition TradeMgr_Deposit k (asset : Asset) (amount : Z) (owner : AccAddress)
  : outcome (KVStore * Z) :=
  let asset := GetTradeAsset asset in
  let tu := GetTradeUnit k asset in
  let tr := GetTradeAccount k owner asset in
  let units := calcDepositUnits (TradeUnit_Units tu) (Depth tu) amount in
  tuUnits ← uint_add (TradeUnit_Units tu) units;
  trUnits ← uint_add (TradeAccount_Units tr) units;
  depth ← uint_add (Depth tu) amount;
  let k := SetTradeUnit k (mkTradeUnit (TradeUnit_Asset tu) tuUnits depth) in
  let k := SetTradeAccount k
             (mkTradeAccount (TradeAccount_Asset tr) trUnits (Owner tr) (kv_height k)
                (LastWithdrawHeight tr)) in
  Ok (k, amount).

Definition TradeMgr_Withdrawal k (asset : Asset) (amount : Z) (owner : AccAddress)
  : outcome (KVStore * Z) :=
  let asset := GetTradeAsset asset in
  let tu := GetTradeUnit k asset in
  let tr := GetTradeAccount k owner asset in
  let assetAvailable := GetSafeShare (TradeAccount_Units tr) (TradeUnit_Units tu) (Depth tu) in
  let unitsToClaim := GetSafeShare amount assetAvailable (TradeAccount_Units tr) in
  let tokensToClaim := GetSafeShare unitsToClaim (TradeAccount_Units tr) assetAvailable in
  tuUnits ← SafeSub (TradeUnit_Units tu) unitsToClaim;
  trUnits ← SafeSub (TradeAccount_Units tr) unitsToClaim;
  depth ← SafeSub (Depth tu) tokensToClaim;
  let k := SetTradeUnit k (mkTradeUnit (TradeUnit_Asset tu) tuUnits depth) in
  let k := SetTradeAccount k
             (mkTradeAccount (TradeAccount_Asset tr) trUnits (Owner tr) (LastAddHeight tr)
                (kv_height k)) in
  Ok (k, tokensToClaim).
End trade_manager.

(** ** The units balance *)

Section trade_facts.
Context {V : Semver} {B : CosmosBank} {A : SdkAddress}.
Context {U : SdkUint} {D : SdkDec} {UL : SdkUintLaws U} {DL : SdkDecLaws D}.
Implicit Types k : KVStore.

(** The units of all accounts of an asset, by its key. *)
Definition units_of (a : string) (m : gmap (string * string) TradeAccount) : Z :=
  map_sum (fun key tr => if String.eqb (snd key) a then TradeAccount_Units tr else 0) m.

Definition total_units k (a : string) : Z := from_option TradeUnit_Units 0 (kv_trade_units k !! a).
Definition total_depth k (a : string) : Z := from_option Depth 0 (kv_trade_units k !! a).

(** Records are stored under their own key, amounts are [Uint]s, and the units of
    an asset's accounts add up to its total. *)
Record trade_inv k : Prop := {
  inv_units : forall a tu, kv_trade_units k !! a = Some tu ->
    GetKey (Asset_String (TradeUnit_Asset tu)) = a /\
    is_uint (TradeUnit_Units tu) /\ is_uint (Depth tu);
  inv_accounts : forall key tr, kv_trade_accounts k !! key = Some tr ->
    account_key (Owner tr) (TradeAccount_Asset tr) = key /\ is_uint (TradeAccount_Units tr);
  inv_balance : forall a, units_of a (kv_trade_accounts k) = total_units k a;
}.

Lemma GetTradeUnit_inv k asset :
  trade_inv k ->
  let tu := GetTradeUnit k asset in
  let a := GetKey (Asset_String asset) in
  GetKey (Asset_String (TradeUnit_Asset tu)) = a /\ TradeUnit_Units tu = total_units k a /\
  Depth tu = total_depth k a /\ is_uint (TradeUnit_Units tu) /\ is_uint (Depth tu).
Proof.
  intros Hinv tu a. unfold tu, GetTradeUnit, total_units, total_depth. fold a.
  destruct (kv_trade_units k !! a) as [u|] eqn:E; cbn.
  - apply (inv_units k Hinv) in E as (? & ? & ?). by split_and!.
  - by split_and!.
Qed.

Lemma GetTradeAccount_inv k owner asset :
  trade_inv k ->
  let tr := GetTradeAccount k owner asset in
  account_key (Owner tr) (TradeAccount_Asset tr) = account_key owner asset /\
  is_uint (TradeAccount_Units tr) /\
  TradeAccount_Units tr =
    from_option TradeAccount_Units 0 (kv_trade_accounts k !! account_key owner asset) /\
  TradeAccount_Units tr <= total_units k (GetKey (Asset_String asset)).
Proof.
  intros Hinv tr. unfold tr, GetTradeAccount.
  rewrite <- (inv_balance k Hinv (GetKey (Asset_String asset))). unfold units_of.
  set (f := fun key tr => if String.eqb (snd key) _ then TradeAccount_Units tr else 0).
  assert (Hf : forall key x, kv_trade_accounts k !! key = Some x -> 0 <= f key x).
  { intros key x [_ Hx]%(inv_accounts k Hinv). unfold f, is_uint in *. destruct (String.eqb _ _); lia. }
  destruct (kv_trade_accounts k !! account_key owner asset) as [x|] eqn:E; cbn.
  - pose proof (map_sum_entry f _ _ x Hf E) as Hle.
    apply (inv_accounts k Hinv) in E as [? ?].
    unfold f in Hle. cbn in Hle. rewrite String.eqb_refl in Hle. by split_and!.
  - split_and!; try done. by apply map_sum_nonneg.
Qed.

(** Writing back an account and the total of its asset, both changed by the same
    number of units, keeps the units balanced. *)
Lemma update_inv k owner asset units depth (tu : TradeUnit) (tr : TradeAccount) add withdraw :
  trade_inv k -> tu = GetTradeUnit k asset -> tr = GetTradeAccount k owner asset ->
  is_uint (TradeUnit_Units tu + units) -> is_uint (TradeAccount_Units tr + units) -> is_uint depth ->
  let k1 := SetTradeUnit k (mkTradeUnit (TradeUnit_Asset tu) (TradeUnit_Units tu + units) depth) in
  let k' := SetTradeAccount k1 (mkTradeAccount (TradeAccount_Asset tr)
              (TradeAccount_Units tr + units) (Owner tr) add withdraw) in
  trade_inv k' /\ forall a, total_depth k' a =
    if String.eqb (GetKey (Asset_String asset)) a then depth else total_depth k a.
Proof.
  intros Hinv -> -> Hu Hr Hd k1 k'.
  destruct (GetTradeUnit_inv k asset Hinv) as (Hka & Htu & _).
  destruct (GetTradeAccount_inv k owner asset Hinv) as (Hkr & _ & Htr & _).
  set (a0 := GetKey (Asset_String asset)) in *.
  set (tu' := mkTradeUnit (TradeUnit_Asset (GetTradeUnit k asset))
                (TradeUnit_Units (GetTradeUnit k asset) + units) depth) in *.
  set (tr' := mkTradeAccount _ _ _ add withdraw) in *.
  assert (HU : kv_trade_units k' = <[a0 := tu']> (kv_trade_units k)) by (cbn; by rewrite Hka).
  assert (HA : kv_trade_accounts k' = <[account_key owner asset := tr']> (kv_trade_accounts k))
    by (cbn; by rewrite Hkr).
  clearbody k'. clear k1. split; [split|].
  - intros a x. rewrite HU. intros [[<- <-]|[_ Hx]]%lookup_insert_Some; [done|].
    by apply (inv_units k Hinv).
  - intros key x. rewrite HA. intros [[<- <-]|[_ Hx]]%lookup_insert_Some; [done|].
    by apply (inv_accounts k Hinv).
  - intros a. unfold units_of, total_units. rewrite HA, HU, map_sum_insert.
    fold (units_of a (kv_trade_accounts k)). rewrite (inv_balance k Hinv). unfold total_units.
    assert (Hs : snd (account_key owner asset) = a0) by done. rewrite Hs.
    destruct (String.eqb_spec a0 a) as [<-|Hne].
    + rewrite lookup_insert_eq. unfold total_units in Htu. cbn -[GetTradeUnit GetTradeAccount].
      rewrite Htu. destruct (kv_trade_accounts k !! _) in Htr |- *; cbn in Htr |- *; lia.
    + rewrite lookup_insert_ne by done. destruct (kv_trade_accounts k !! _); cbn; lia.
  - intros a. unfold total_depth. rewrite HU. destruct (String.eqb_spec a0 a) as [<-|Hne].
    + by rewrite lookup_insert_eq.
    + by rewrite lookup_insert_ne.
Qed.

Lemma calcDepositUnits_nonneg u d add :
  0 <= u -> 0 <= d -> 0 <= add -> 0 <= calcDepositUnits u d add.
Proof.
  intros. unfold calcDepositUnits. destruct (_ || _); [done|]. destruct (_ =? 0); [done|].
  by apply GetUncappedShare_nonneg.
Qed.

(** A deposit keeps the units of the accounts of every asset equal to the
    asset's total units, and raises the depth of that asset alone, by exactly
    the amount. *)
Theorem TradeMgr_Deposit_inv k asset amount owner k' r :
  trade_inv k -> is_uint amount -> TradeMgr_Deposit k asset amount owner = Ok (k', r) ->
  trade_inv k' /\ r = amount /\
  forall a, total_depth k' a =
    total_depth k a + if String.eqb (GetKey (Asset_String (GetTradeAsset asset))) a then amount else 0.
Proof.
  intros Hinv Ha H. unfold TradeMgr_Deposit in H. cbv zeta in H.
  set (ta := GetTradeAsset asset) in *.
  destruct (GetTradeUnit_inv k ta Hinv) as (_ & _ & Hd & Huu & Hud).
  invert_ok. apply uint_add_Ok in Hv as [-> ?], Hv0 as [-> ?], Hv1 as [-> ?].
  edestruct (update_inv k owner ta) as [Hinv' Hdep];
    [done|reflexivity|reflexivity|done|done|exact H1|].
  split; [exact Hinv'|]. split; [done|]. intros a. etrans; [apply Hdep|].
  destruct (String.eqb_spec (GetKey (Asset_String ta)) a) as [<-|]; [by rewrite Hd|lia].
Qed.

(** What a withdrawal pays is a [Uint]. *)
Lemma TradeMgr_Withdrawal_uint k asset amount owner k' r :
  trade_inv k -> is_uint amount -> TradeMgr_Withdrawal k asset amount owner = Ok (k', r) ->
  is_uint r.
Proof.
  intros Hinv Ha H. unfold TradeMgr_Withdrawal in H. cbv zeta in H. invert_ok.
  set (ta := GetTradeAsset asset) in *.
  destruct (GetTradeUnit_inv k ta Hinv) as (_ & _ & _ & Huu & Hud).
  destruct (GetTradeAccount_inv k owner ta Hinv) as (_ & Hur & _).
  set (units := TradeAccount_Units (GetTradeAccount k owner ta)) in *.
  unfold is_uint in *.
  pose proof (GetSafeShare_range units (TradeUnit_Units (GetTradeUnit k ta)) (Depth (GetTradeUnit k ta))).
  set (av := GetSafeShare units _ _) in *.
  pose proof (GetSafeShare_range amount av units).
  pose proof (GetSafeShare_range (GetSafeShare amount av units) units av). lia.
Qed.

(** C26: a withdrawal keeps the units balanced, pays out at most the account's
    balance, and lowers the depth of that asset alone, by exactly what it pays:
    the depth never goes below what is withdrawn, so no amount is clamped. *)
Theorem TradeMgr_Withdrawal_inv k asset amount owner :
  trade_inv k -> is_uint amount ->
  exists k' r, TradeMgr_Withdrawal k asset amount owner = Ok (k', r) /\
    trade_inv k' /\ 0 <= r <= BalanceOf k asset owner /\
    forall a, total_depth k' a =
      total_depth k a - if String.eqb (GetKey (Asset_String (GetTradeAsset asset))) a then r else 0.
Proof.
  intros Hinv Ha. unfold TradeMgr_Withdrawal, BalanceOf. cbv zeta.
  set (ta := GetTradeAsset asset) in *.
  destruct (GetTradeUnit_inv k ta Hinv) as (_ & Htu & Hd & Huu & Hud).
  destruct (GetTradeAccount_inv k owner ta Hinv) as (_ & Hur & _ & Hle).
  set (tu := GetTradeUnit k ta) in *. set (tr := GetTradeAccount k owner ta) in *.
  unfold is_uint in *.
  pose proof (GetSafeShare_range (TradeAccount_Units tr) (TradeUnit_Units tu) (Depth tu)) as Hav.
  set (available := GetSafeShare (TradeAccount_Units tr) (TradeUnit_Units tu) (Depth tu)) in *.
  pose proof (GetSafeShare_range amount available (TradeAccount_Units tr)) as Hun.
  set (claim := GetSafeShare amount available (TradeAccount_Units tr)) in *.
  pose proof (GetSafeShare_range claim (TradeAccount_Units tr) available) as Htok.
  set (tokens := GetSafeShare claim (TradeAccount_Units tr) available) in *.
  rewrite !SafeSub_total by (unfold is_uint; lia). cbn [mbind outcome_bind].
  rewrite !Z.max_r by lia. eexists _, tokens. split; [reflexivity|].
  replace (TradeUnit_Units tu - claim) with (TradeUnit_Units tu + - claim) by lia.
  replace (TradeAccount_Units tr - claim) with (TradeAccount_Units tr + - claim) by lia.
  edestruct (update_inv k owner ta (- claim) (Depth tu - tokens)) as [Hinv' Hdep];
    [done|reflexivity|reflexivity|unfold is_uint; fold tu; lia|unfold is_uint; fold tr; lia
    |unfold is_uint; lia|].
  split; [exact Hinv'|]. split; [lia|]. intros a. etrans; [apply Hdep|].
  destruct (String.eqb_spec (GetKey (Asset_String ta)) a) as [<-|]; [by rewrite Hd|lia].
Qed.
End trade_facts.

(** ** Witnesses *)

Section trade_witnesses.
Import Reference ReferenceBank.

(** The trade asset "BTC~BTC", of which "alice" and "bob" deposited 30 and 70. *)
Definition trade_btc : Asset := GetTradeAsset BTCAsset.

Definition trade_example : KVStore :=
  set_kv_trade (empty_kv (semver_release 1 123 0) (fun _ => 0) 10 empty)
    (<["BTC~BTC" := mkTradeUnit trade_btc 100 100]> ∅)
    (<[account_key "alice" trade_btc := mkTradeAccount trade_btc 30 "alice" 1 0]>
       (<[account_key "bob" trade_btc := mkTradeAccount trade_btc 70 "bob" 1 0]> ∅)).

Lemma trade_example_inv : trade_inv trade_example.
Proof.
  split; cbn [kv_trade_units kv_trade_accounts set_kv_trade trade_example].
  - intros a tu [[<- <-]|[_ [=]]]%lookup_insert_Some. split_and!; by vm_compute.
  - intros key tr [[<- <-]|[_ [[<- <-]|[_ [=]]]%lookup_insert_Some]]%lookup_insert_Some;
      split_and!; by vm_compute.
  - intros a. unfold units_of, total_units. cbn [kv_trade_units kv_trade_accounts set_kv_trade trade_example].
    rewrite !map_sum_insert, lookup_insert_ne, !lookup_empty, map_sum_empty by done.
    assert (Hk : forall addr, snd (account_key addr trade_btc) = "BTC~BTC") by done.
    rewrite !Hk. cbn [from_option TradeAccount_Units].
    destruct (String.eqb_spec "BTC~BTC" a) as [<-|Hne].
    + by rewrite lookup_insert_eq.
    + by rewrite lookup_insert_ne.
Qed.

Lemma TradeMgr_Deposit_inv_witness :
  exists k', TradeMgr_Deposit trade_example BTCAsset 50 "bob" = Ok (k', 50) /\
    trade_inv k' /\ 50 = 50 /\
    forall a, total_depth k' a =
      total_depth trade_example a +
      if String.eqb (GetKey (Asset_String (GetTradeAsset BTCAsset))) a then 50 else 0.
Proof.
  assert (Hok : is_ok (TradeMgr_Deposit trade_example BTCAsset 50 "bob") = true) by (by vm_compute).
  destruct (TradeMgr_Deposit trade_example BTCAsset 50 "bob") as [[k' r]| |] eqn:E; [|done..].
  assert (Ha : is_uint 50) by (by split).
  pose proof (TradeMgr_Deposit_inv trade_example BTCAsset 50 "bob" k' r trade_example_inv Ha E)
    as (Hinv & -> & Hdepth).
  exists k'. split; [reflexivity|]. split; [exact Hinv|]. split; [reflexivity|exact Hdepth].
Defined.

Lemma TradeMgr_Withdrawal_inv_witness :
  exists k' r, TradeMgr_Withdrawal trade_example BTCAsset 20 "alice" = Ok (k', r) /\
    trade_inv k' /\ 0 <= r <= BalanceOf trade_example BTCAsset "alice" /\
    forall a, total_depth k' a =
      total_depth trade_example a -
      if String.eqb (GetKey (Asset_String (GetTradeAsset BTCAsset))) a then r else 0.
Proof.
  apply (TradeMgr_Withdrawal_inv trade_example BTCAsset 20 "alice"); [apply trade_example_inv|by split].
Defined.
End trade_witnesses.
