(* ===== verification/Aggregators.v ===== *)
(** [x/mayachain/aggregators]: the contracts that continue a swap on another
    exchange, per version of the mainnet build, found by chain and the end of the
    address. *)
From S2P Require Import Prelude GoText Sdk Chains Keys.

Record Aggregator_entry := mkAggregator {
  Agg_Chain : Chain;
  Agg_Address : string;
  GasUnitsLimit : Z;
}.

#[export] Instance Aggregator_eq_dec : EqDecision Aggregator_entry.
Proof. solve_decision. Defined.

Definition DexAggregatorsV118 : list Aggregator_entry :=
  [mkAggregator ETHChain "0x69460570c93f9DE5E2edbC3052bf10125f0Ca22d" 400000;
   mkAggregator ETHChain "0x70F75937546fB26c6FD3956eBBfb285f41526186" 400000;
   mkAggregator ETHChain "0xd1687354CBA0e56facd0c44eD0F69D97F5734Dc1" 400000;
   mkAggregator ETHChain "0xaFa4cBA6db85515f66E3ed7d6784e8cf5b689E2D" 400000;
   mkAggregator ETHChain "0x0964347B0019eb227c901220ce7d66BB01479220" 400000;
   mkAggregator ETHChain "0x6f281993AB68216F8898c593C4578C8a4a76F063" 400000;
   mkAggregator ETHChain "0x2a7813412b8da8d18Ce56FE763B9eb264D8e28a8" 400000;
   mkAggregator ETHChain "0xbB8De86F3b041B3C084431dcf3159fE4827c5F0D" 400000;
   mkAggregator ARBChain "0x69460570c93f9DE5E2edbC3052bf10125f0Ca22d" 400000;
   mkAggregator ETHChain "0x35CF22003c90126528fbe95b21bB3ADB2ca8c53D" 400000;
   mkAggregator ETHChain "0xd31f7e39afECEc4855fecc51b693F9A0Cec49fd2" 400000;
   mkAggregator ETHChain "0x86904eb2b3c743400d03f929f2246efa80b91215" 400000;
   mkAggregator ETHChain "0xbf365e79aa44a2164da135100c57fdb6635ae870" 400000;
   mkAggregator ETHChain "0xbd68cbe6c247e2c3a0e36b8f0e24964914f26ee8" 400000;
   mkAggregator ETHChain "0xe4ddca21881bac219af7f217703db0475d2a9f02" 400000;
   mkAggregator ETHChain "0x11733abf0cdb43298f7e949c930188451a9a9ef2" 400000;
   mkAggregator ETHChain "0xb33874810e5395eb49d8bd7e912631db115d5a03" 400000;
   mkAggregator ETHChain "0xB81C7C2D2d078205D7FA515DDB2dEA3d896F4016" 500000;
   mkAggregator ETHChain "0x0fA226e8BCf45ec2f3c3163D2d7ba0d2aAD2eBcF" 400000;
   mkAggregator ETHChain "0xE4e8313AbbADc8E18543EC9528f67Fde2e44D3D6" 600000;
   mkAggregator ETHChain "0x94B7F2145C328DaB2EC56aB982CaB95F00941aE7" 400000;
   mkAggregator ETHChain "0x1204b5Bf0D6d48E718B1d9753A4166A7258B8432" 800000;
   mkAggregator ETHChain "0x48f68ff093b3b3A80D2FC97488EaD97E16b86283" 800000;
   mkAggregator ETHChain "0xd917C32Cfa50b0FcA692A208118AfE4d1d06f1f1" 250000;
   mkAggregator ARBChain "0xcD6f8B17d19077f7f5a8Fa30C9b645B689626ceb" 400000;
   mkAggregator ETHChain "0xDd40F17b848cE3a30b4F71652535E744F45fA5A3" 400000;
   mkAggregator ARBChain "0x8bAF33E755Ee29E5E37F370a11A0a889DaC5d5f7" 400000;
   mkAggregator ARBChain "0x6e5Add41C751e89432CdA5763156A3f41F1b17aC" 400000;
   mkAggregator ARBChain "0xE378FBDed20d6A21A61a7B84189265F4944fBb70" 400000;
   mkAggregator ARBChain "0x33d241aB15c2861347fB886Ff6C4A90aB99c463B" 400000;
   mkAggregator ARBChain "0x4D32857A09df8D4ef610B9cDc9450E28b900fEC6" 400000;
   mkAggregator ARBChain "0x50Cbe1330100df9086F6fBc994a300b75dd78012" 400000;
   mkAggregator ARBChain "0x2F661FE1441FE5dD9197660c9030FE71b9632E60" 400000;
   mkAggregator ETHChain "0x00000047bB99ea4D791bb749D970DE71EE0b1A34" 100000;
   mkAggregator ARBChain "0x07964f135f276412b3182a3B2407b8dd45000000" 100000;
   mkAggregator ETHChain "0xd3f64BAa732061F8B3626ee44bab354f854877AC" 600000;
   mkAggregator ARBChain "0x1C7F7e0258c81CF41bcEa31ea4bB5191914Bf7D7" 600000;
   mkAggregator ETHChain "0x4432d5179E29FBBd1a91F5c6949a220999790AAC" 600000;
   mkAggregator ETHChain "0xe93685f3bBA03016F02bD1828BaDD6195988D950" 800000;
   mkAggregator ARBChain "0xe93685f3bBA03016F02bD1828BaDD6195988D950" 800000;
   mkAggregator ETHChain "0x4fd39C9E151e50580779bd04B1f7eCc310079fd3" 800000;
   mkAggregator ETHChain "0x1231DEB6f5749EF6cE6943a275A1D3E7486F4EaE" 800000;
   mkAggregator ETHChain "0xbEbCDb5093B47Cd7add8211E4c77B6826aF7bc5F" 800000;
   mkAggregator ARBChain "0x1231DEB6f5749EF6cE6943a275A1D3E7486F4EaE" 800000;
   mkAggregator ARBChain "0xbEbCDb5093B47Cd7add8211E4c77B6826aF7bc5F" 800000;
   mkAggregator ETHChain "0xFc99f58A8974A4bc36e60E2d490Bb8D72899ee9f" 800000;
   mkAggregator ARBChain "0xFc99f58A8974A4bc36e60E2d490Bb8D72899ee9f" 800000;
   mkAggregator ETHChain "0x7E1B771bBA8f017E0988F068C320b8852F4A3265" 600000;
   mkAggregator ARBChain "0x52cdB00b69f11C4cA932fA9108C6BFdD65F20d62" 600000;
   mkAggregator ETHChain "0x9E9b95b22bA7A1A875D3f93C2Ec54C015C14Aa9c" 800000].

Definition DexAggregatorsV115 : list Aggregator_entry :=
  [mkAggregator ETHChain "0x69460570c93f9DE5E2edbC3052bf10125f0Ca22d" 400000;
   mkAggregator ETHChain "0x70F75937546fB26c6FD3956eBBfb285f41526186" 400000;
   mkAggregator ETHChain "0xd1687354CBA0e56facd0c44eD0F69D97F5734Dc1" 400000;
   mkAggregator ETHChain "0xaFa4cBA6db85515f66E3ed7d6784e8cf5b689E2D" 400000;
   mkAggregator ETHChain "0x0964347B0019eb227c901220ce7d66BB01479220" 400000;
   mkAggregator ETHChain "0x6f281993AB68216F8898c593C4578C8a4a76F063" 400000;
   mkAggregator ETHChain "0x35CF22003c90126528fbe95b21bB3ADB2ca8c53D" 400000;
   mkAggregator ETHChain "0xd31f7e39afECEc4855fecc51b693F9A0Cec49fd2" 400000;
   mkAggregator ETHChain "0x2a7813412b8da8d18Ce56FE763B9eb264D8e28a8" 400000;
   mkAggregator ETHChain "0xbB8De86F3b041B3C084431dcf3159fE4827c5F0D" 400000;
   mkAggregator ETHChain "0x86904eb2b3c743400d03f929f2246efa80b91215" 400000;
   mkAggregator ETHChain "0xbf365e79aa44a2164da135100c57fdb6635ae870" 400000;
   mkAggregator ETHChain "0xbd68cbe6c247e2c3a0e36b8f0e24964914f26ee8" 400000;
   mkAggregator ETHChain "0xe4ddca21881bac219af7f217703db0475d2a9f02" 400000;
   mkAggregator ETHChain "0x11733abf0cdb43298f7e949c930188451a9a9ef2" 400000;
   mkAggregator ETHChain "0xb33874810e5395eb49d8bd7e912631db115d5a03" 400000;
   mkAggregator ETHChain "0xB81C7C2D2d078205D7FA515DDB2dEA3d896F4016" 500000;
   mkAggregator ETHChain "0x0fA226e8BCf45ec2f3c3163D2d7ba0d2aAD2eBcF" 400000;
   mkAggregator ETHChain "0xE4e8313AbbADc8E18543EC9528f67Fde2e44D3D6" 600000;
   mkAggregator ETHChain "0x94B7F2145C328DaB2EC56aB982CaB95F00941aE7" 400000;
   mkAggregator ETHChain "0x1231DEB6f5749EF6cE6943a275A1D3E7486F4EaE" 800000;
   mkAggregator ETHChain "0xbEbCDb5093B47Cd7add8211E4c77B6826aF7bc5F" 800000;
   mkAggregator ARBChain "0x1231DEB6f5749EF6cE6943a275A1D3E7486F4EaE" 800000;
   mkAggregator ARBChain "0xbEbCDb5093B47Cd7add8211E4c77B6826aF7bc5F" 800000;
   mkAggregator ETHChain "0xFc99f58A8974A4bc36e60E2d490Bb8D72899ee9f" 800000;
   mkAggregator ARBChain "0xFc99f58A8974A4bc36e60E2d490Bb8D72899ee9f" 800000;
   mkAggregator ETHChain "0x7E1B771bBA8f017E0988F068C320b8852F4A3265" 600000;
   mkAggregator ARBChain "0x52cdB00b69f11C4cA932fA9108C6BFdD65F20d62" 600000;
   mkAggregator ETHChain "0x1204b5Bf0D6d48E718B1d9753A4166A7258B8432" 800000;
   mkAggregator ETHChain "0x48f68ff093b3b3A80D2FC97488EaD97E16b86283" 800000;
   mkAggregator ETHChain "0xe93685f3bBA03016F02bD1828BaDD6195988D950" 800000;
   mkAggregator ARBChain "0xe93685f3bBA03016F02bD1828BaDD6195988D950" 800000;
   mkAggregator ETHChain "0x4fd39C9E151e50580779bd04B1f7eCc310079fd3" 800000;
   mkAggregator ETHChain "0xd917C32Cfa50b0FcA692A208118AfE4d1d06f1f1" 250000;
   mkAggregator ARBChain "0xcD6f8B17d19077f7f5a8Fa30C9b645B689626ceb" 400000;
   mkAggregator ETHChain "0x9E9b95b22bA7A1A875D3f93C2Ec54C015C14Aa9c" 800000;
   mkAggregator ETHChain "0xd3f64BAa732061F8B3626ee44bab354f854877AC" 600000;
   mkAggregator ARBChain "0x1C7F7e0258c81CF41bcEa31ea4bB5191914Bf7D7" 600000;
   mkAggregator ETHChain "0x4432d5179E29FBBd1a91F5c6949a220999790AAC" 600000;
   mkAggregator ETHChain "0xDd40F17b848cE3a30b4F71652535E744F45fA5A3" 400000;
   mkAggregator ARBChain "0x8bAF33E755Ee29E5E37F370a11A0a889DaC5d5f7" 400000;
   mkAggregator ARBChain "0x6e5Add41C751e89432CdA5763156A3f41F1b17aC" 400000;
   mkAggregator ARBChain "0xE378FBDed20d6A21A61a7B84189265F4944fBb70" 400000;
   mkAggregator ARBChain "0x33d241aB15c2861347fB886Ff6C4A90aB99c463B" 400000;
   mkAggregator ARBChain "0x4D32857A09df8D4ef610B9cDc9450E28b900fEC6" 400000;
   mkAggregator ARBChain "0x50Cbe1330100df9086F6fBc994a300b75dd78012" 400000;
   mkAggregator ARBChain "0x2F661FE1441FE5dD9197660c9030FE71b9632E60" 400000;
   mkAggregator ETHChain "0x00000047bB99ea4D791bb749D970DE71EE0b1A34" 100000;
   mkAggregator ARBChain "0x07964f135f276412b3182a3B2407b8dd45000000" 100000].

Definition DexAggregatorsV112 : list Aggregator_entry :=
  [mkAggregator ETHChain "0x69460570c93f9DE5E2edbC3052bf10125f0Ca22d" 400000;
   mkAggregator ETHChain "0x70F75937546fB26c6FD3956eBBfb285f41526186" 400000;
   mkAggregator ETHChain "0xd1687354CBA0e56facd0c44eD0F69D97F5734Dc1" 400000;
   mkAggregator ETHChain "0xaFa4cBA6db85515f66E3ed7d6784e8cf5b689E2D" 400000;
   mkAggregator ETHChain "0x0964347B0019eb227c901220ce7d66BB01479220" 400000;
   mkAggregator ETHChain "0x6f281993AB68216F8898c593C4578C8a4a76F063" 400000;
   mkAggregator ETHChain "0x35CF22003c90126528fbe95b21bB3ADB2ca8c53D" 400000;
   mkAggregator ETHChain "0xd31f7e39afECEc4855fecc51b693F9A0Cec49fd2" 400000;
   mkAggregator ETHChain "0x2a7813412b8da8d18Ce56FE763B9eb264D8e28a8" 400000;
   mkAggregator ETHChain "0xbB8De86F3b041B3C084431dcf3159fE4827c5F0D" 400000;
   mkAggregator ETHChain "0x86904eb2b3c743400d03f929f2246efa80b91215" 400000;
   mkAggregator ETHChain "0xbf365e79aa44a2164da135100c57fdb6635ae870" 400000;
   mkAggregator ETHChain "0xbd68cbe6c247e2c3a0e36b8f0e24964914f26ee8" 400000;
   mkAggregator ETHChain "0xe4ddca21881bac219af7f217703db0475d2a9f02" 400000;
   mkAggregator ETHChain "0x11733abf0cdb43298f7e949c930188451a9a9ef2" 400000;
   mkAggregator ETHChain "0xb33874810e5395eb49d8bd7e912631db115d5a03" 400000;
   mkAggregator ETHChain "0xB81C7C2D2d078205D7FA515DDB2dEA3d896F4016" 500000;
   mkAggregator ETHChain "0x0fA226e8BCf45ec2f3c3163D2d7ba0d2aAD2eBcF" 400000;
   mkAggregator ETHChain "0xE4e8313AbbADc8E18543EC9528f67Fde2e44D3D6" 600000;
   mkAggregator ETHChain "0x94B7F2145C328DaB2EC56aB982CaB95F00941aE7" 400000;
   mkAggregator ETHChain "0x1231DEB6f5749EF6cE6943a275A1D3E7486F4EaE" 800000;
   mkAggregator ETHChain "0xbEbCDb5093B47Cd7add8211E4c77B6826aF7bc5F" 800000;
   mkAggregator ARBChain "0x1231DEB6f5749EF6cE6943a275A1D3E7486F4EaE" 800000;
   mkAggregator ARBChain "0xbEbCDb5093B47Cd7add8211E4c77B6826aF7bc5F" 800000;
   mkAggregator ETHChain "0xFc99f58A8974A4bc36e60E2d490Bb8D72899ee9f" 800000;
   mkAggregator ARBChain "0xFc99f58A8974A4bc36e60E2d490Bb8D72899ee9f" 800000;
   mkAggregator ETHChain "0x7E1B771bBA8f017E0988F068C320b8852F4A3265" 600000;
   mkAggregator ARBChain "0x52cdB00b69f11C4cA932fA9108C6BFdD65F20d62" 600000;
   mkAggregator ETHChain "0x1204b5Bf0D6d48E718B1d9753A4166A7258B8432" 800000;
   mkAggregator ETHChain "0x48f68ff093b3b3A80D2FC97488EaD97E16b86283" 800000;
   mkAggregator ETHChain "0xe93685f3bBA03016F02bD1828BaDD6195988D950" 800000;
   mkAggregator ARBChain "0xe93685f3bBA03016F02bD1828BaDD6195988D950" 800000;
   mkAggregator ETHChain "0x4fd39C9E151e50580779bd04B1f7eCc310079fd3" 800000;
   mkAggregator ETHChain "0xd917C32Cfa50b0FcA692A208118AfE4d1d06f1f1" 250000;
   mkAggregator ARBChain "0xcD6f8B17d19077f7f5a8Fa30C9b645B689626ceb" 400000;
   mkAggregator ETHChain "0x9E9b95b22bA7A1A875D3f93C2Ec54C015C14Aa9c" 800000;
   mkAggregator ETHChain "0xd3f64BAa732061F8B3626ee44bab354f854877AC" 600000;
   mkAggregator ARBChain "0x1C7F7e0258c81CF41bcEa31ea4bB5191914Bf7D7" 600000;
   mkAggregator ETHChain "0x4432d5179E29FBBd1a91F5c6949a220999790AAC" 600000;
   mkAggregator ETHChain "0xDd40F17b848cE3a30b4F71652535E744F45fA5A3" 400000;
   mkAggregator ARBChain "0x8bAF33E755Ee29E5E37F370a11A0a889DaC5d5f7" 400000;
   mkAggregator ARBChain "0x6e5Add41C751e89432CdA5763156A3f41F1b17aC" 400000;
   mkAggregator ARBChain "0xE378FBDed20d6A21A61a7B84189265F4944fBb70" 400000;
   mkAggregator ARBChain "0x33d241aB15c2861347fB886Ff6C4A90aB99c463B" 400000;
   mkAggregator ARBChain "0x4D32857A09df8D4ef610B9cDc9450E28b900fEC6" 400000;
   mkAggregator ARBChain "0x50Cbe1330100df9086F6fBc994a300b75dd78012" 400000;
   mkAggregator ARBChain "0x2F661FE1441FE5dD9197660c9030FE71b9632E60" 400000].

Definition DexAggregatorsV111 : list Aggregator_entry :=
  [mkAggregator ETHChain "0x69460570c93f9DE5E2edbC3052bf10125f0Ca22d" 400000;
   mkAggregator ETHChain "0x70F75937546fB26c6FD3956eBBfb285f41526186" 400000;
   mkAggregator ETHChain "0xd1687354CBA0e56facd0c44eD0F69D97F5734Dc1" 400000;
   mkAggregator ETHChain "0xaFa4cBA6db85515f66E3ed7d6784e8cf5b689E2D" 400000;
   mkAggregator ETHChain "0x0964347B0019eb227c901220ce7d66BB01479220" 400000;
   mkAggregator ETHChain "0x6f281993AB68216F8898c593C4578C8a4a76F063" 400000;
   mkAggregator ETHChain "0x35CF22003c90126528fbe95b21bB3ADB2ca8c53D" 400000;
   mkAggregator ETHChain "0xd31f7e39afECEc4855fecc51b693F9A0Cec49fd2" 400000;
   mkAggregator ETHChain "0x2a7813412b8da8d18Ce56FE763B9eb264D8e28a8" 400000;
   mkAggregator ETHChain "0xbB8De86F3b041B3C084431dcf3159fE4827c5F0D" 400000;
   mkAggregator ETHChain "0x86904eb2b3c743400d03f929f2246efa80b91215" 400000;
   mkAggregator ETHChain "0xbf365e79aa44a2164da135100c57fdb6635ae870" 400000;
   mkAggregator ETHChain "0xbd68cbe6c247e2c3a0e36b8f0e24964914f26ee8" 400000;
   mkAggregator ETHChain "0xe4ddca21881bac219af7f217703db0475d2a9f02" 400000;
   mkAggregator ETHChain "0x11733abf0cdb43298f7e949c930188451a9a9ef2" 400000;
   mkAggregator ETHChain "0xb33874810e5395eb49d8bd7e912631db115d5a03" 400000;
   mkAggregator ETHChain "0xB81C7C2D2d078205D7FA515DDB2dEA3d896F4016" 500000;
   mkAggregator ETHChain "0x0fA226e8BCf45ec2f3c3163D2d7ba0d2aAD2eBcF" 400000;
   mkAggregator ETHChain "0xE4e8313AbbADc8E18543EC9528f67Fde2e44D3D6" 600000;
   mkAggregator ETHChain "0x94B7F2145C328DaB2EC56aB982CaB95F00941aE7" 400000;
   mkAggregator ETHChain "0x1231DEB6f5749EF6cE6943a275A1D3E7486F4EaE" 800000;
   mkAggregator ETHChain "0xbEbCDb5093B47Cd7add8211E4c77B6826aF7bc5F" 800000;
   mkAggregator ARBChain "0x1231DEB6f5749EF6cE6943a275A1D3E7486F4EaE" 800000;
   mkAggregator ARBChain "0xbEbCDb5093B47Cd7add8211E4c77B6826aF7bc5F" 800000;
   mkAggregator ETHChain "0xFc99f58A8974A4bc36e60E2d490Bb8D72899ee9f" 800000;
   mkAggregator ARBChain "0xFc99f58A8974A4bc36e60E2d490Bb8D72899ee9f" 800000;
   mkAggregator ETHChain "0x7E1B771bBA8f017E0988F068C320b8852F4A3265" 600000;
   mkAggregator ARBChain "0x52cdB00b69f11C4cA932fA9108C6BFdD65F20d62" 600000;
   mkAggregator ETHChain "0x1204b5Bf0D6d48E718B1d9753A4166A7258B8432" 800000;
   mkAggregator ETHChain "0x48f68ff093b3b3A80D2FC97488EaD97E16b86283" 800000;
   mkAggregator ETHChain "0xe93685f3bBA03016F02bD1828BaDD6195988D950" 800000;
   mkAggregator ARBChain "0xe93685f3bBA03016F02bD1828BaDD6195988D950" 800000;
   mkAggregator ETHChain "0x4fd39C9E151e50580779bd04B1f7eCc310079fd3" 800000;
   mkAggregator ETHChain "0xd917C32Cfa50b0FcA692A208118AfE4d1d06f1f1" 800000;
   mkAggregator ARBChain "0xcD6f8B17d19077f7f5a8Fa30C9b645B689626ceb" 400000;
   mkAggregator ETHChain "0x9E9b95b22bA7A1A875D3f93C2Ec54C015C14Aa9c" 800000;
   mkAggregator ETHChain "0xd3f64BAa732061F8B3626ee44bab354f854877AC" 600000;
   mkAggregator ARBChain "0x1C7F7e0258c81CF41bcEa31ea4bB5191914Bf7D7" 600000;
   mkAggregator ETHChain "0x4432d5179E29FBBd1a91F5c6949a220999790AAC" 600000].

Definition DexAggregatorsV110 : list Aggregator_entry :=
  [mkAggregator ETHChain "0x69460570c93f9DE5E2edbC3052bf10125f0Ca22d" 400000;
   mkAggregator ETHChain "0x70F75937546fB26c6FD3956eBBfb285f41526186" 400000;
   mkAggregator ETHChain "0xd1687354CBA0e56facd0c44eD0F69D97F5734Dc1" 400000;
   mkAggregator ETHChain "0xaFa4cBA6db85515f66E3ed7d6784e8cf5b689E2D" 400000;
   mkAggregator ETHChain "0x0964347B0019eb227c901220ce7d66BB01479220" 400000;
   mkAggregator ETHChain "0x6f281993AB68216F8898c593C4578C8a4a76F063" 400000;
   mkAggregator ETHChain "0x35CF22003c90126528fbe95b21bB3ADB2ca8c53D" 400000;
   mkAggregator ETHChain "0xd31f7e39afECEc4855fecc51b693F9A0Cec49fd2" 400000;
   mkAggregator ETHChain "0x2a7813412b8da8d18Ce56FE763B9eb264D8e28a8" 400000;
   mkAggregator ETHChain "0xbB8De86F3b041B3C084431dcf3159fE4827c5F0D" 400000;
   mkAggregator ETHChain "0x86904eb2b3c743400d03f929f2246efa80b91215" 400000;
   mkAggregator ETHChain "0xbf365e79aa44a2164da135100c57fdb6635ae870" 400000;
   mkAggregator ETHChain "0xbd68cbe6c247e2c3a0e36b8f0e24964914f26ee8" 400000;
   mkAggregator ETHChain "0xe4ddca21881bac219af7f217703db0475d2a9f02" 400000;
   mkAggregator ETHChain "0x11733abf0cdb43298f7e949c930188451a9a9ef2" 400000;
   mkAggregator ETHChain "0xb33874810e5395eb49d8bd7e912631db115d5a03" 400000;
   mkAggregator ETHChain "0xB81C7C2D2d078205D7FA515DDB2dEA3d896F4016" 500000;
   mkAggregator ETHChain "0x0fA226e8BCf45ec2f3c3163D2d7ba0d2aAD2eBcF" 400000;
   mkAggregator ETHChain "0xE4e8313AbbADc8E18543EC9528f67Fde2e44D3D6" 600000;
   mkAggregator ETHChain "0x94B7F2145C328DaB2EC56aB982CaB95F00941aE7" 400000;
   mkAggregator ETHChain "0x1231DEB6f5749EF6cE6943a275A1D3E7486F4EaE" 800000;
   mkAggregator ETHChain "0xbEbCDb5093B47Cd7add8211E4c77B6826aF7bc5F" 800000;
   mkAggregator ARBChain "0x1231DEB6f5749EF6cE6943a275A1D3E7486F4EaE" 800000;
   mkAggregator ARBChain "0xbEbCDb5093B47Cd7add8211E4c77B6826aF7bc5F" 800000;
   mkAggregator ETHChain "0xFc99f58A8974A4bc36e60E2d490Bb8D72899ee9f" 800000;
   mkAggregator ARBChain "0xFc99f58A8974A4bc36e60E2d490Bb8D72899ee9f" 800000;
   mkAggregator ETHChain "0x7E1B771bBA8f017E0988F068C320b8852F4A3265" 600000;
   mkAggregator ARBChain "0x52cdB00b69f11C4cA932fA9108C6BFdD65F20d62" 600000;
   mkAggregator ETHChain "0x1204b5Bf0D6d48E718B1d9753A4166A7258B8432" 800000;
   mkAggregator ETHChain "0x48f68ff093b3b3A80D2FC97488EaD97E16b86283" 800000;
   mkAggregator ETHChain "0xe93685f3bBA03016F02bD1828BaDD6195988D950" 800000;
   mkAggregator ARBChain "0xe93685f3bBA03016F02bD1828BaDD6195988D950" 800000;
   mkAggregator ETHChain "0x4fd39C9E151e50580779bd04B1f7eCc310079fd3" 800000;
   mkAggregator ETHChain "0xd917C32Cfa50b0FcA692A208118AfE4d1d06f1f1" 800000;
   mkAggregator ARBChain "0xcD6f8B17d19077f7f5a8Fa30C9b645B689626ceb" 400000;
   mkAggregator ETHChain "0x9E9b95b22bA7A1A875D3f93C2Ec54C015C14Aa9c" 800000;
   mkAggregator ETHChain "0xd3f64BAa732061F8B3626ee44bab354f854877AC" 600000;
   mkAggregator ARBChain "0x1C7F7e0258c81CF41bcEa31ea4bB5191914Bf7D7" 600000;
   mkAggregator ETHChain "0x4432d5179E29FBBd1a91F5c6949a220999790AAC" 600000].

Definition DexAggregatorsV109 : list Aggregator_entry :=
  [mkAggregator ETHChain "0x69460570c93f9DE5E2edbC3052bf10125f0Ca22d" 400000;
   mkAggregator ETHChain "0x70F75937546fB26c6FD3956eBBfb285f41526186" 400000;
   mkAggregator ETHChain "0xd1687354CBA0e56facd0c44eD0F69D97F5734Dc1" 400000;
   mkAggregator ETHChain "0xaFa4cBA6db85515f66E3ed7d6784e8cf5b689E2D" 400000;
   mkAggregator ETHChain "0x0964347B0019eb227c901220ce7d66BB01479220" 400000;
   mkAggregator ETHChain "0x6f281993AB68216F8898c593C4578C8a4a76F063" 400000;
   mkAggregator ETHChain "0x35CF22003c90126528fbe95b21bB3ADB2ca8c53D" 400000;
   mkAggregator ETHChain "0xd31f7e39afECEc4855fecc51b693F9A0Cec49fd2" 400000;
   mkAggregator ETHChain "0x2a7813412b8da8d18Ce56FE763B9eb264D8e28a8" 400000;
   mkAggregator ETHChain "0xbB8De86F3b041B3C084431dcf3159fE4827c5F0D" 400000;
   mkAggregator ETHChain "0x86904eb2b3c743400d03f929f2246efa80b91215" 400000;
   mkAggregator ETHChain "0xbf365e79aa44a2164da135100c57fdb6635ae870" 400000;
   mkAggregator ETHChain "0xbd68cbe6c247e2c3a0e36b8f0e24964914f26ee8" 400000;
   mkAggregator ETHChain "0xe4ddca21881bac219af7f217703db0475d2a9f02" 400000;
   mkAggregator ETHChain "0x11733abf0cdb43298f7e949c930188451a9a9ef2" 400000;
   mkAggregator ETHChain "0xb33874810e5395eb49d8bd7e912631db115d5a03" 400000;
   mkAggregator ETHChain "0xB81C7C2D2d078205D7FA515DDB2dEA3d896F4016" 500000;
   mkAggregator ETHChain "0x0fA226e8BCf45ec2f3c3163D2d7ba0d2aAD2eBcF" 400000;
   mkAggregator ETHChain "0xE4e8313AbbADc8E18543EC9528f67Fde2e44D3D6" 600000;
   mkAggregator ETHChain "0x94B7F2145C328DaB2EC56aB982CaB95F00941aE7" 400000;
   mkAggregator ETHChain "0x1231DEB6f5749EF6cE6943a275A1D3E7486F4EaE" 800000;
   mkAggregator ETHChain "0xbEbCDb5093B47Cd7add8211E4c77B6826aF7bc5F" 800000;
   mkAggregator ARBChain "0x1231DEB6f5749EF6cE6943a275A1D3E7486F4EaE" 800000;
   mkAggregator ARBChain "0xbEbCDb5093B47Cd7add8211E4c77B6826aF7bc5F" 800000;
   mkAggregator ETHChain "0xFc99f58A8974A4bc36e60E2d490Bb8D72899ee9f" 800000;
   mkAggregator ARBChain "0xFc99f58A8974A4bc36e60E2d490Bb8D72899ee9f" 800000].

Definition DexAggregatorsV106 : list Aggregator_entry :=
  [mkAggregator ETHChain "0x69460570c93f9DE5E2edbC3052bf10125f0Ca22d" 400000;
   mkAggregator AVAXChain "0x69460570c93f9DE5E2edbC3052bf10125f0Ca22d" 400000;
   mkAggregator ETHChain "0x70F75937546fB26c6FD3956eBBfb285f41526186" 400000;
   mkAggregator ETHChain "0xd1687354CBA0e56facd0c44eD0F69D97F5734Dc1" 400000;
   mkAggregator ETHChain "0xaFa4cBA6db85515f66E3ed7d6784e8cf5b689E2D" 400000;
   mkAggregator ETHChain "0x0964347B0019eb227c901220ce7d66BB01479220" 400000;
   mkAggregator ETHChain "0x6f281993AB68216F8898c593C4578C8a4a76F063" 400000;
   mkAggregator AVAXChain "0x892Fb7C2A23772f4A2FFC3DC82419147dC22021C" 400000;
   mkAggregator AVAXChain "0xBd039a45e656221E28594d2761DDed8F6712AE46" 400000].

Definition DexAggregatorsV96 : list Aggregator_entry :=
  [mkAggregator ETHChain "0xd31f7e39afECEc4855fecc51b693F9A0Cec49fd2" 400000;
   mkAggregator ETHChain "0x7C38b8B2efF28511ECc14a621e263857Fb5771d3" 400000;
   mkAggregator ETHChain "0x0747c681e5ADa7936Ad915CcfF6cD3bd71DBF121" 400000;
   mkAggregator ETHChain "0xd1ea5F7cE9dA98D0bd7B1F4e3E05985E88b1EF10" 400000;
   mkAggregator ETHChain "0x94a852F0a21E473078846cf88382dd8d15bD1Dfb" 400000;
   mkAggregator ETHChain "0x3660dE6C56cFD31998397652941ECe42118375DA" 400000;
   mkAggregator ETHChain "0x0F2CD5dF82959e00BE7AfeeF8245900FC4414199" 400000;
   mkAggregator ETHChain "0x2a7813412b8da8d18Ce56FE763B9eb264D8e28a8" 400000;
   mkAggregator ETHChain "0xbB8De86F3b041B3C084431dcf3159fE4827c5F0D" 400000;
   mkAggregator AVAXChain "0x7a68c37D8AFA3078f3Ad51D98eA23Fe57a8Ae21a" 400000].

Definition DexAggregatorsV94 : list Aggregator_entry :=
  [mkAggregator ETHChain "0xd31f7e39afECEc4855fecc51b693F9A0Cec49fd2" 400000;
   mkAggregator ETHChain "0x7C38b8B2efF28511ECc14a621e263857Fb5771d3" 400000;
   mkAggregator ETHChain "0x0747c681e5ADa7936Ad915CcfF6cD3bd71DBF121" 400000;
   mkAggregator ETHChain "0xd1ea5F7cE9dA98D0bd7B1F4e3E05985E88b1EF10" 400000;
   mkAggregator ETHChain "0x94a852F0a21E473078846cf88382dd8d15bD1Dfb" 400000;
   mkAggregator ETHChain "0x3660dE6C56cFD31998397652941ECe42118375DA" 400000;
   mkAggregator ETHChain "0x0F2CD5dF82959e00BE7AfeeF8245900FC4414199" 400000;
   mkAggregator ETHChain "0x2a7813412b8da8d18Ce56FE763B9eb264D8e28a8" 400000;
   mkAggregator ETHChain "0xbB8De86F3b041B3C084431dcf3159fE4827c5F0D" 400000].

Definition DexAggregatorsV93 : list Aggregator_entry :=
  [mkAggregator ETHChain "0xd31f7e39afECEc4855fecc51b693F9A0Cec49fd2" 400000;
   mkAggregator ETHChain "0x7C38b8B2efF28511ECc14a621e263857Fb5771d3" 400000;
   mkAggregator ETHChain "0x1C0Ee4030f771a1BB8f72C86150730d063f6b3ff" 400000;
   mkAggregator ETHChain "0x96ab925EFb957069507894CD941F40734f0288ad" 400000;
   mkAggregator ETHChain "0xE308B9562de7689B2d31C76a41649933F38ab761" 400000;
   mkAggregator ETHChain "0x3660dE6C56cFD31998397652941ECe42118375DA" 400000;
   mkAggregator ETHChain "0x0F2CD5dF82959e00BE7AfeeF8245900FC4414199" 400000;
   mkAggregator ETHChain "0x2a7813412b8da8d18Ce56FE763B9eb264D8e28a8" 400000;
   mkAggregator ETHChain "0xbB8De86F3b041B3C084431dcf3159fE4827c5F0D" 400000].

Definition DexAggregatorsDefault : list Aggregator_entry :=
  [mkAggregator ETHChain "0xd31f7e39afECEc4855fecc51b693F9A0Cec49fd2" 400000;
   mkAggregator ETHChain "0x7C38b8B2efF28511ECc14a621e263857Fb5771d3" 400000;
   mkAggregator ETHChain "0x1C0Ee4030f771a1BB8f72C86150730d063f6b3ff" 400000;
   mkAggregator ETHChain "0x96ab925EFb957069507894CD941F40734f0288ad" 400000;
   mkAggregator ETHChain "0xE308B9562de7689B2d31C76a41649933F38ab761" 400000;
   mkAggregator ETHChain "0x3660dE6C56cFD31998397652941ECe42118375DA" 400000;
   mkAggregator ETHChain "0x0F2CD5dF82959e00BE7AfeeF8245900FC4414199" 400000].

Definition DexAggregators `{Semver} (version : Version) : list Aggregator_entry :=
  if GTE version (semver_release 1 118 0) then DexAggregatorsV118
  else if GTE version (semver_release 1 115 0) then DexAggregatorsV115
  else if GTE version (semver_release 1 112 0) then DexAggregatorsV112
  else if GTE version (semver_release 1 111 0) then DexAggregatorsV111
  else if GTE version (semver_release 1 110 0) then DexAggregatorsV110
  else if GTE version (semver_release 1 109 0) then DexAggregatorsV109
  else if GTE version (semver_release 1 106 0) then DexAggregatorsV106
  else if GTE version (semver_release 1 96 0) then DexAggregatorsV96
  else if GTE version (semver_release 1 94 0) then DexAggregatorsV94
  else if GTE version (semver_release 1 93 0) then DexAggregatorsV93
  else DexAggregatorsDefault.

Section dex.
Context `{V : Semver}.

(** The first aggregator of the chain whose address ends with the suffix. *)
Definition find_aggregator (chain : Chain) (suffix : string) (l : list Aggregator_entry)
  : option Aggregator_entry :=
  List.find (fun agg => Chain_Equals chain (Agg_Chain agg) && HasSuffix (Agg_Address agg) suffix) l.

Definition FetchDexAggregator (version : Version) (chain : Chain) (suffix : string) : outcome string :=
  match find_aggregator chain suffix (DexAggregators version) with
  | Some agg => Ok (Agg_Address agg)
  | None => Err "%s aggregator not found"
  end.

Definition FetchDexAggregatorGasLimit (version : Version) (chain : Chain) (suffix : string) : outcome Z :=
  match find_aggregator chain suffix (DexAggregators version) with
  | Some agg => Ok (GasUnitsLimit agg)
  | None => Err "%s aggregator not found"
  end.

(** A full address finds its own entry. *)
Definition reached (l : list Aggregator_entry) : Prop :=
  Forall (fun agg => find_aggregator (Agg_Chain agg) (Agg_Address agg) l = Some agg) l.

Lemma tables_reached :
  Forall reached [DexAggregatorsV118; DexAggregatorsV115; DexAggregatorsV112; DexAggregatorsV111;
    DexAggregatorsV110; DexAggregatorsV109; DexAggregatorsV106; DexAggregatorsV96; DexAggregatorsV94;
    DexAggregatorsV93; DexAggregatorsDefault].
Proof. repeat (constructor; [apply (bool_decide_unpack _); by vm_compute|]). constructor. Qed.

Lemma find_aggregator_Some chain suffix l agg :
  find_aggregator chain suffix l = Some agg ->
  agg ∈ l /\ Chain_Equals chain (Agg_Chain agg) = true /\ HasSuffix (Agg_Address agg) suffix = true.
Proof.
  intros H. apply find_some in H as [Hin [Hc Hs]%andb_true_iff].
  split_and!; [by apply list_elem_of_In|done|done].
Qed.

Lemma DexAggregators_reached version : reached (DexAggregators version).
Proof.
  pose proof tables_reached as H. rewrite Forall_forall in H. unfold DexAggregators.
  repeat (destruct (GTE _ _); [apply H; repeat (apply elem_of_cons; first [by left|right])|]).
  apply H. repeat (apply elem_of_cons; first [by left|right]).
Qed.

(** Whatever is fetched is a listed aggregator of that chain, with an address
    that ends as asked; and no listed aggregator is hidden by another: its full
    address finds it, with its own gas limit, in every version. *)
Theorem FetchDexAggregator_spec version :
  (forall chain suffix addr, FetchDexAggregator version chain suffix = Ok addr ->
     exists agg, agg ∈ DexAggregators version /\ Agg_Address agg = addr /\
       Chain_Equals chain (Agg_Chain agg) = true /\ HasSuffix addr suffix = true /\
       FetchDexAggregatorGasLimit version chain suffix = Ok (GasUnitsLimit agg)) /\
  forall agg, agg ∈ DexAggregators version ->
    FetchDexAggregator version (Agg_Chain agg) (Agg_Address agg) = Ok (Agg_Address agg) /\
    FetchDexAggregatorGasLimit version (Agg_Chain agg) (Agg_Address agg) = Ok (GasUnitsLimit agg).
Proof.
  unfold FetchDexAggregator, FetchDexAggregatorGasLimit. split.
  - intros chain suffix addr. destruct (find_aggregator _ _ _) as [agg|] eqn:E; [|done].
    intros [= <-]. apply find_aggregator_Some in E as (? & ? & ?). by exists agg.
  - intros agg Hin. pose proof (DexAggregators_reached version) as H.
    unfold reached in H. rewrite Forall_forall in H. by rewrite (H agg Hin).
Qed.
End dex.
