(* ===== verification/Swapper.v ===== *)
(** [x/mayachain/swap_current.go]: one swap against a pool, with the formulas of
    the emission, the fee and the slip. *)
From S2P Require Import Prelude GoText Sdk Shares Chains Keys Assets Coins Txs.
From S2P Require Import TxOuts NodeAccounts Votes Mimirs Pools SwapMsgs Records MayaNames Stores Keeper TradeAccounts.

(** ** Data *)

Record EventSwap := mkEventSwap {
  Evt_Pool : Asset;
  SwapTarget : Z;
  SwapSlip : Z;
  LiquidityFee : Z;
  LiquidityFeeInCacao : Z;
  InTx : Tx;
  OutTxs : Tx;
  EmitAsset : Coin;
  Evt_SynthUnits : Z;
  StreamingSwapQuantity : Z;
  StreamingSwapCount : Z;
}.

Definition NewEventSwap (pool : Asset) (swapTarget fee swapSlip liquidityFeeInCacao : Z)
    (inTx : Tx) (emitAsset : Coin) (synthUnits : Z) : EventSwap :=
  mkEventSwap pool swapTarget swapSlip fee liquidityFeeInCacao inTx EmptyTx emitAsset synthUnits 0 0.

(** [validateMessage] reads the first coin without a check of its own: a valid
    transaction has one. *)
Definition validateMessage (tx : Tx) (target : Asset) (destination : Address) : outcome unit :=
  _ ← Tx_Valid tx;
  if Asset_IsEmpty target then Err "target is empty"
  else if Address_IsEmpty destination then Err "destination is empty"
  else
    match Tx_Coins tx with
    | [] => Panic
    | coin :: _ =>
        if IsTradeAsset (Coin_Asset coin) && negb (IsTradeAsset target) && negb (IsBase target)
        then Err "swaps from trade asset to L1 incur slip, use trade-"
        else if IsTradeAsset target && negb (IsTradeAsset (Coin_Asset coin))
                && negb (IsBase (Coin_Asset coin))
        then Err "swaps from L1 to trade asset incur slip, use trade+"
        else Ok tt
    end.

Section swapper.
Context `{V : Semver} `{B : CosmosBank} `{A : SdkAddress} `{R : MapRange}.
Context `{U : SdkUint} `{D : SdkDec}.
Implicit Types k : KVStore.

(** ** Formulas *)

(** x X Y / (x + X)^2 *)
Definition CalcAssetEmission (X x Y : Z) : outcome Z :=
  xX ← uint_mul x X;
  numerator ← uint_mul xX Y;
  s1 ← uint_add x X;
  s2 ← uint_add x X;
  denominator ← uint_mul s1 s2;
  if denominator =? 0 then Ok 0 else uint_quo numerator denominator.

(** x^2 Y / (x + X)^2 *)
Definition CalcLiquidityFee (X x Y : Z) : outcome Z :=
  xx ← uint_mul x x;
  numerator ← uint_mul xx Y;
  s1 ← uint_add x X;
  s2 ← uint_add x X;
  denominator ← uint_mul s1 s2;
  if denominator =? 0 then Ok 0 else uint_quo numerator denominator.

(** x / (x + X), in basis points, and the added ones. *)
Definition CalcSwapSlip (Xi xi slipFeeAddedBasisPoints : Z) : outcome Z :=
  let xD := dec_of_big xi in
  let XD := dec_of_big Xi in
  let dec10k := dec_of_int 10000 in
  denD ← dec_add xD XD;
  if denD =? 0 then Ok 0
  else
    swapSlipD ← dec_quo xD denD;
    swapSlip ← dec_mul swapSlipD dec10k;
    rounded ← dec_round_int64 swapSlip;
    uint_add (u64 rounded) slipFeeAddedBasisPoints.

Definition getSlipFeeAddedBasisPoints k : Z :=
  let bps := GetConfigInt64 k "SlipFeeAddedBasisPoints" in
  if (bps <? 0) || (50 <? bps) then 0 else u64 bps.

(** ** The stages of [swapOne] *)

(** A trade source is withdrawn from the account of the sender first: what is
    swapped is what the account holds. *)
Definition swap_withdraw k (tx : Tx) (source : Asset) (amount : Z) : outcome (KVStore * Z) :=
  if IsTradeAsset source then
    if GetConfigInt64 k "TradeAccountsEnabled" <=? 0 then Err "trade accounts are disabled"
    else if GetConfigInt64 k "TradeAccountsWithdrawEnabled" <=? 0
    then Err "trade accounts withdrawals are disabled"
    else
      match acc_from_bech32 (Address_String (FromAddress tx)) with
      | None => Err "fail to parse from address"
      | Some fromAcc => TradeMgr_Withdrawal k source amount fromAcc
      end
  else Ok (k, amount).

(** The depths [X] of the source side and [Y] of the target side, virtually
    deeper when a synth is involved. *)
Definition swap_depths (pool : Pool) (source target : Asset) (synthVirtualDepthMult : Z) : Z * Z :=
  let '(X, Y) := if IsBase source then (BalanceCacao pool, BalanceAsset pool)
                 else (BalanceAsset pool, BalanceCacao pool) in
  if IsSyntheticAsset source || IsSyntheticAsset target then
    (GetUncappedShare (u64 synthVirtualDepthMult) 10000 X,
     GetUncappedShare (u64 synthVirtualDepthMult) 10000 Y)
  else (X, Y).

(** The amount emitted, less the added slip fee, to the decimals of the pool. *)
Definition swap_emission (bps : Z) (pool : Pool) (X x Y : Z) : outcome Z :=
  emitAssets ← CalcAssetEmission X x Y;
  emitAssets ←
    (if 0 <? bps then
       Xx ← uint_add X x;
       let spotAmount := GetSafeShare x Xx Y in
       let addedBasisPointsAmount := GetSafeShare bps 10000 spotAmount in
       SafeSub emitAssets addedBasisPointsAmount
     else Ok emitAssets);
  RoundToDecimal emitAssets (Pool_Decimals pool).

(** An input synth is burnt; a burn that fails is only logged. *)
Definition swap_burn k (burnCoin : Coin) : outcome KVStore :=
  if IsSyntheticAsset (Coin_Asset burnCoin) then
    k ← SendFromModuleToModule k AsgardName ModuleName [burnCoin];
    match BurnFromModule k ModuleName burnCoin with
    | Ok k' => Ok k'
    | Err _ => Ok k
    | Panic => Panic
    end
  else Ok k.

(** An output synth is minted to the vaults' module. *)
Definition swap_mint k (target : Asset) (emitAssets : Z) : outcome KVStore :=
  if IsSyntheticAsset target && negb (emitAssets =? 0) then
    let mintCoin := NewCoin target emitAssets in
    k ← MintToModule k ModuleName mintCoin;
    SendFromModuleToModule k ModuleName AsgardName [mintCoin]
  else Ok k.

(** The asset balance of the pool moves only when no synth stands for it. *)
Definition swap_balances (pool : Pool) (source target : Asset) (x emitAssets : Z) : outcome Pool :=
  if IsBase source then
    c ← uint_add (BalanceCacao pool) x;
    let pool := set_BalanceCacao pool c in
    if negb (IsSyntheticAsset target) then
      a ← SafeSub (BalanceAsset pool) emitAssets;
      Ok (set_BalanceAsset pool a)
    else Ok pool
  else
    c ← SafeSub (BalanceCacao pool) emitAssets;
    let pool := set_BalanceCacao pool c in
    if negb (IsSyntheticAsset source) then
      a ← uint_add (BalanceAsset pool) x;
      Ok (set_BalanceAsset pool a)
    else Ok pool.

Definition swap_units k (pool : Pool) : outcome Pool :=
  synthSupply ← GetTotalSupply k (GetSyntheticAsset (Pool_Asset pool));
  '(pool, _) ← CalcUnits pool (kv_version k) synthSupply;
  Ok pool.

(** One swap between an asset and CACAO. An error loses the changes to the
    store: the handlers run in a [CacheContext]. *)
Definition swapOne k (tx : Tx) (target : Asset) (swapTarget synthVirtualDepthMult : Z)
  : outcome (KVStore * Z * EventSwap) :=
  match Tx_Coins tx with
  | [] => Panic
  | burnCoin :: _ =>
    let tradeAccountsEnabled := GetConfigInt64 k "TradeAccountsEnabled" in
    let tradeAccountsDepositEnabled := GetConfigInt64 k "TradeAccountsDepositEnabled" in
    let source := Coin_Asset burnCoin in
    let poolAsset := if IsBase source then GetLayer1Asset target else GetLayer1Asset source in
    '(k, amount) ← swap_withdraw k tx source (Coin_Amount burnCoin);
    if IsTradeAsset target && (tradeAccountsDepositEnabled <=? 0)
    then Err "trade accounts deposits are disabled"
    else if negb (PoolExist k poolAsset) then Err "pool %s doesn't exist"
    else
      let pool := GetPool k poolAsset in
      if IsVaultAsset (Pool_Asset pool)
      then Err "dev error: swapping with a vault(%s) is not allowed"
      else
        pool ← swap_units k pool;
        if negb (IsSyntheticAsset source) && negb (IsAvailable pool)
        then Err "pool(%s) is not available"
        else
          let '(X, Y) := swap_depths pool source target synthVirtualDepthMult in
          let x := amount in
          if x =? 0 then Err "fail swap, invalid amount"
          else if (X =? 0) || (Y =? 0) then Err "fail swap, invalid balance"
          else
            liquidityFee ← CalcLiquidityFee X x Y;
            let bps := getSlipFeeAddedBasisPoints k in
            swapSlip ← CalcSwapSlip X x bps;
            emitAssets ← swap_emission bps pool X x Y;
            let feeInCacao :=
              if IsBase source then AssetValueInRune pool liquidityFee else liquidityFee in
            let swapEvt :=
              NewEventSwap poolAsset swapTarget liquidityFee swapSlip feeInCacao
                (set_Coins tx [NewCoin source amount]) (NewCoin target emitAssets) 0 in
            if Y <=? emitAssets then Err "fail swap, not enough balance"
            else
              k ← swap_burn k burnCoin;
              k ← swap_mint k target emitAssets;
              pool ← swap_balances pool source target x emitAssets;
              pool ←
                (if IsSyntheticAsset source || IsSyntheticAsset target then swap_units k pool
                 else Ok pool);
              k ← SetPool k pool;
              if IsTradeAsset target && (tradeAccountsEnabled <=? 0)
              then Err "trade accounts are disabled"
              else Ok (k, emitAssets, swapEvt)
  end.
End swapper.

(** ** The formulas *)

Section emission.
Context {U : SdkUint} {D : SdkDec} {UL : SdkUintLaws U} {DL : SdkDecLaws D}.

Lemma quotient_formula n s r :
  0 <= n -> 0 <= s -> uint_quo n (s * s) = Ok r -> 0 < s * s ->
  0 <= r /\ r * (s * s) <= n < (r + 1) * (s * s).
Proof.
  intros Hn Hs H Hp. apply uint_quo_Ok in H as (_ & -> & _); [|lia..].
  pose proof (Z.div_mod n (s * s)). pose proof (Z.mod_pos_bound n (s * s)).
  pose proof (Z.div_pos n (s * s)). nia.
Qed.

Lemma CalcAssetEmission_Ok X x Y e :
  0 <= X -> 0 <= x -> 0 <= Y -> 0 < X + x -> CalcAssetEmission X x Y = Ok e ->
  0 <= e /\ e * ((x + X) * (x + X)) <= x * X * Y < (e + 1) * ((x + X) * (x + X)).
Proof.
  intros HX Hx HY Hp H. unfold CalcAssetEmission in H. invert_ok.
  all: apply uint_mul_Ok in Hv as [-> _]; apply uint_mul_Ok in Hv0 as [-> _];
    apply uint_add_Ok in Hv1 as [-> _]; apply uint_add_Ok in Hv2 as [-> _];
    apply uint_mul_Ok in Hv3 as [-> _].
  - apply Z.eqb_eq in Eb. nia.
  - apply quotient_formula in H; nia.
Qed.

Lemma CalcLiquidityFee_Ok X x Y f :
  0 <= X -> 0 <= x -> 0 <= Y -> 0 < X + x -> CalcLiquidityFee X x Y = Ok f ->
  0 <= f /\ f * ((x + X) * (x + X)) <= x * x * Y < (f + 1) * ((x + X) * (x + X)).
Proof.
  intros HX Hx HY Hp H. unfold CalcLiquidityFee in H. invert_ok.
  all: apply uint_mul_Ok in Hv as [-> _]; apply uint_mul_Ok in Hv0 as [-> _];
    apply uint_add_Ok in Hv1 as [-> _]; apply uint_add_Ok in Hv2 as [-> _];
    apply uint_mul_Ok in Hv3 as [-> _].
  - apply Z.eqb_eq in Eb. nia.
  - apply quotient_formula in H; nia.
Qed.

(** What an emission at most [e] means for the pool. *)
Lemma emission_bounds X x Y e :
  0 <= X -> 0 <= x -> 0 <= Y -> 0 < X + x -> 0 <= e -> e * ((x + X) * (x + X)) <= x * X * Y ->
  e * (x + X) <= x * Y /\ 4 * e <= Y /\ X * Y <= (X + x) * (Y - e).
Proof.
  intros HX Hx HY Hp He H. set (s := x + X) in *.
  assert (Hs : e * s <= x * Y).
  { apply (Z.mul_le_mono_pos_r _ _ s); [lia|].
    transitivity (x * X * Y); [lia|]. unfold s. nia. }
  assert (H4 : 4 * (x * X) <= s * s).
  { unfold s. pose proof (Z.square_nonneg (x - X)). lia. }
  split_and!; [done| |unfold s in *; lia].
  apply (Z.mul_le_mono_pos_r _ _ (s * s)); [nia|].
  transitivity (4 * (x * X) * Y); [lia|]. rewrite (Z.mul_comm Y).
  by apply Z.mul_le_mono_nonneg_r.
Qed.

(** Both formulas return when the depths are below 2^84 (their products fit). *)
Lemma products_fit X x Y Z' :
  0 <= X < 2 ^ 84 -> 0 <= x < 2 ^ 84 -> 0 <= Y < 2 ^ 84 -> 0 <= Z' < 2 ^ 84 -> 0 < X + x ->
  is_uint (x * Z') /\ is_uint (x * Z' * Y) /\ is_uint (x + X) /\
  is_uint ((x + X) * (x + X)) /\ 0 < (x + X) * (x + X).
Proof.
  intros. assert (0 <= x * Z' < 2 ^ 168) by (change (2 ^ 168) with (2 ^ 84 * 2 ^ 84); nia).
  assert (0 <= x * Z' * Y < 2 ^ 252) by (change (2 ^ 252) with (2 ^ 168 * 2 ^ 84); nia).
  assert (0 < (x + X) * (x + X) < 2 ^ 170) by (change (2 ^ 170) with (2 ^ 85 * 2 ^ 85); nia).
  unfold is_uint. lia.
Qed.

Lemma formulas_return X x Y :
  0 <= X < 2 ^ 84 -> 0 <= x < 2 ^ 84 -> 0 <= Y < 2 ^ 84 -> 0 < X + x ->
  exists e f, CalcAssetEmission X x Y = Ok e /\ CalcLiquidityFee X x Y = Ok f.
Proof.
  intros HX Hx HY Hp. destruct (products_fit X x Y X) as (H1 & H2 & H3 & H4 & H5); [done..|].
  destruct (products_fit X x Y x) as (H6 & H7 & _); [done..|].
  exists (x * X * Y / ((x + X) * (x + X))), (x * x * Y / ((x + X) * (x + X))).
  unfold CalcAssetEmission, CalcLiquidityFee.
  repeat (rewrite ?uint_mul_law, ?uint_add_law, checked_in by done; cbn -[uint_quo]).
  rewrite (proj2 (Z.eqb_neq ((x + X) * (x + X)) 0)) by lia.
  split; (apply uint_quo_Ok; [unfold is_uint in *; lia..|]);
    (split_and!; [done|done|]); by apply is_uint_div.
Qed.

(** Below 2^84 the emission and fee formulas do not overflow, and round their
    fractions down. The emission never empties a pool (at most a quarter of the
    depth leaves), keeps the product of the depths from falling, and adds up with
    the liquidity fee to the amount at the price after the trade,
    [x Y / (x + X)], less than two units short. *)
Theorem CalcAssetEmission_spec X x Y :
  0 <= X < 2 ^ 84 -> 0 <= x < 2 ^ 84 -> 0 <= Y < 2 ^ 84 -> 0 < X + x ->
  exists e f, CalcAssetEmission X x Y = Ok e /\ CalcLiquidityFee X x Y = Ok f /\
  e * (x + X) ^ 2 <= x * X * Y < (e + 1) * (x + X) ^ 2 /\
  0 <= e /\ 4 * e <= Y /\ X * Y <= (X + x) * (Y - e) /\
  0 <= f /\ (e + f) * (x + X) <= x * Y < (e + f + 2) * (x + X).
Proof.
  intros HX Hx HY Hp. destruct (formulas_return X x Y HX Hx HY Hp) as (e & f & He & Hf).
  exists e, f. split; [exact He|]. split; [exact Hf|].
  apply CalcAssetEmission_Ok in He as (He0 & He1 & He2); [|lia..].
  apply CalcLiquidityFee_Ok in Hf as (Hf0 & Hf1 & Hf2); [|lia..].
  destruct (emission_bounds X x Y e) as (_ & H4 & Hk); [lia..|].
  rewrite Z.pow_2_r. set (s := x + X) in *. assert (Hs : 0 < s) by lia.
  assert (Hsum : x * X * Y + x * x * Y = x * Y * s) by (unfold s; ring).
  split_and!; try done.
  - apply (Z.mul_le_mono_pos_r _ _ s); [done|]. lia.
  - apply (Z.mul_lt_mono_pos_r s); [done|]. lia.
Qed.

Lemma RoundToDecimal_le amt dec r : 0 <= amt -> RoundToDecimal amt dec = Ok r -> 0 <= r <= amt.
Proof.
  intros Ha H. unfold RoundToDecimal in H. cbv zeta in H. invert_ok; try lia.
  apply uint_of_big_Ok in Hv as [-> _]. set (p := 10 ^ _) in *.
  assert (0 < p) by (apply Z.pow_pos_nonneg; lia).
  apply uint_quo_Ok in Hv0 as (_ & -> & _); [|lia..]. apply uint_mul_Ok in H as [-> _].
  pose proof (Z.div_mod amt p). pose proof (Z.mod_pos_bound amt p). pose proof (Z.div_pos amt p). nia.
Qed.

(** The added fee and the rounding only lower the emission. *)
Lemma swap_emission_le bps pool X x Y e :
  is_uint X -> is_uint x -> is_uint Y -> 0 < X + x -> 0 <= bps ->
  swap_emission bps pool X x Y = Ok e ->
  0 <= e /\ 4 * e <= Y /\ X * Y <= (X + x) * (Y - e).
Proof.
  intros HX Hx HY Hp Hb H. unfold swap_emission in H.
  apply bind_Ok in H as (e1 & He1 & H). apply bind_Ok in H as (e2 & He2 & H).
  unfold is_uint in *.
  apply CalcAssetEmission_Ok in He1 as (H0 & H1 & _); [|lia..].
  destruct (emission_bounds X x Y e1) as (_ & H4 & Hk); [lia..|].
  assert (He : 0 <= e2 <= e1).
  { destruct (0 <? bps); [|invert_ok; lia]. apply bind_Ok in He2 as (Xx & HXx & He2).
    apply uint_add_Ok in HXx as [-> HXx]. cbv zeta in He2.
    pose proof (GetSafeShare_range x (X + x) Y ltac:(lia) ltac:(lia) ltac:(lia)) as Hs.
    set (spot := GetSafeShare x (X + x) Y) in *.
    pose proof (GetSafeShare_range bps 10000 spot Hb ltac:(lia) ltac:(lia)).
    apply SafeSub_Ok in He2; [lia|unfold is_uint; lia..]. }
  apply RoundToDecimal_le in H; [|lia]. split_and!; nia.
Qed.
End emission.

(** ** One swap *)

Section swap_facts.
Context {V : Semver} {B : CosmosBank} {A : SdkAddress} {R : MapRange}.
Context {U : SdkUint} {D : SdkDec} {UL : SdkUintLaws U} {DL : SdkDecLaws D}.
Implicit Types k : KVStore.

Definition swap_pool (source target : Asset) : Asset :=
  if IsBase source then GetLayer1Asset target else GetLayer1Asset source.

(** The stages of a swap that succeeded. *)
Lemma swapOne_inv k tx coin coins target swapTarget mult k' e evt :
  Tx_Coins tx = coin :: coins -> swapOne k tx target swapTarget mult = Ok (k', e, evt) ->
  let source := Coin_Asset coin in
  exists k1 x p0 p X Y k2 k3 p3 p4,
    swap_withdraw k tx source (Coin_Amount coin) = Ok (k1, x) /\
    kv_pools k1 !! GetKey (Asset_String (swap_pool source target)) = Some p0 /\
    swap_units k1 p0 = Ok p /\ swap_depths p source target mult = (X, Y) /\
    x <> 0 /\ X <> 0 /\ Y <> 0 /\
    swap_emission (getSlipFeeAddedBasisPoints k1) p X x Y = Ok e /\ e < Y /\
    swap_burn k1 coin = Ok k2 /\ swap_mint k2 target e = Ok k3 /\
    swap_balances p source target x e = Ok p3 /\
    (if IsSyntheticAsset source || IsSyntheticAsset target then swap_units k3 p3 else Ok p3) = Ok p4 /\
    SetPool k3 p4 = Ok k' /\
    Tx_Coins (InTx evt) = [NewCoin source x] /\ EmitAsset evt = NewCoin target e.
Proof.
  intros Hc H. unfold swapOne in H. rewrite Hc in H. cbv zeta in H.
  apply bind_Ok in H as ([k1 x] & H1 & H).
  destruct (_ && _) in H; [done|]. destruct (PoolExist k1 _) eqn:Ep; [|done]. cbn [negb] in H.
  apply bool_decide_eq_true in Ep as [p0 Ep]. unfold GetPool in H. rewrite Ep in H.
  cbn [default] in H. destruct (IsVaultAsset _) in H; [done|].
  apply bind_Ok in H as (p & Hp & H). destruct (_ && _) in H; [done|].
  destruct (swap_depths p (Coin_Asset coin) target mult) as [X Y] eqn:Ed.
  destruct (Z.eqb_spec x 0) as [|Hx]; [done|].
  destruct (Z.eqb_spec X 0) as [|HX]; [done|]. destruct (Z.eqb_spec Y 0) as [|HY]; [done|].
  cbn [orb] in H. apply bind_Ok in H as (f & _ & H). apply bind_Ok in H as (slip & _ & H).
  apply bind_Ok in H as (e1 & He & H). destruct (Z.leb_spec Y e1) as [|Hlt]; [done|].
  apply bind_Ok in H as (k2 & Hk2 & H). apply bind_Ok in H as (k3 & Hk3 & H).
  apply bind_Ok in H as (p3 & Hp3 & H). apply bind_Ok in H as (p4 & Hp4 & H).
  apply bind_Ok in H as (k4 & Hk4 & H). destruct (_ && _) in H; [done|].
  injection H as <- <- <-. exists k1, x, p0, p, X, Y, k2, k3, p3, p4. by split_and!.
Qed.

(** Withdrawing, burning and minting leave the pools alone. *)
Lemma swap_withdraw_frame k tx source amount k1 x :
  swap_withdraw k tx source amount = Ok (k1, x) ->
  kv_pools k1 = kv_pools k /\ kv_bank k1 = kv_bank k /\
  (IsTradeAsset source = false -> x = amount).
Proof.
  intros H. unfold swap_withdraw in H. destruct (IsTradeAsset source).
  - destruct (_ <=? 0); [done|]. destruct (_ <=? 0); [done|].
    destruct (acc_from_bech32 _); [|done].
    unfold TradeMgr_Withdrawal in H. cbv zeta in H. by invert_ok.
  - by injection H as <- <-.
Qed.

Lemma swap_withdraw_amount k tx source amount k1 x :
  (IsTradeAsset source = true -> trade_inv k) -> is_uint amount ->
  swap_withdraw k tx source amount = Ok (k1, x) -> is_uint x.
Proof.
  intros Hinv Ha H. unfold swap_withdraw in H. destruct (IsTradeAsset source).
  - destruct (_ <=? 0); [done|]. destruct (_ <=? 0); [done|].
    destruct (acc_from_bech32 _) as [owner|]; [|done].
    eapply TradeMgr_Withdrawal_uint; [by apply Hinv|done..].
  - by injection H as <- <-.
Qed.

Lemma SetMimir_pools k key v : kv_pools (SetMimir k key v) = kv_pools k.
Proof. unfold SetMimir. by destruct (haveKraken k). Qed.
Lemma SetMimir_bank k key v : kv_bank (SetMimir k key v) = kv_bank k.
Proof. unfold SetMimir. by destruct (haveKraken k). Qed.

Lemma MintToModule_frame k m c k' :
  MintToModule k m c = Ok k' -> kv_pools k' = kv_pools k /\
  exists d b, Coin_Native c = Ok d /\ bank_mint m [d] (kv_bank k) = Ok b /\ kv_bank k' = b.
Proof.
  intros H. unfold MintToModule in H.
  apply bind_Ok in H as (d & Hd & H). apply bind_Ok in H as (b & Hb & H). cbv zeta in H.
  split; [|exists d, b; split_and!; [done..|]].
  all: destruct (GTE _ _); [|by injection H as <-];
    destruct (_ && _); injection H as <-; rewrite ?SetMimir_pools, ?SetMimir_bank; done.
Qed.

Lemma swap_burn_pools k c k' : swap_burn k c = Ok k' -> kv_pools k' = kv_pools k.
Proof.
  intros H. unfold swap_burn in H. destruct (IsSyntheticAsset _); [|by injection H as <-].
  apply bind_Ok in H as (k1 & H1 & H). unfold SendFromModuleToModule in H1. invert_ok.
  destruct (BurnFromModule _ _ _) eqn:E; [|by injection H as <-|done].
  injection H as <-. unfold BurnFromModule in E. by invert_ok.
Qed.

Lemma swap_mint_pools k target e k' : swap_mint k target e = Ok k' -> kv_pools k' = kv_pools k.
Proof.
  intros H. unfold swap_mint in H. destruct (_ && _); [|by injection H as <-].
  apply bind_Ok in H as (k1 & [H1 _]%MintToModule_frame & H).
  unfold SendFromModuleToModule in H. invert_ok. done.
Qed.

Lemma swap_units_shape k p p' :
  pool_wf p -> swap_units k p = Ok p' -> exists su, is_uint su /\ p' = set_SynthUnits p su.
Proof.
  intros Hwf H. unfold swap_units in H. apply bind_Ok in H as (s & Hs & H).
  assert (is_uint s).
  { unfold GetTotalSupply, amount_uint64 in Hs. destruct (_ && _); [invert_ok; by split|].
    destruct (_ && _) eqn:E in Hs; [|done]. invert_ok. apply andb_true_iff in E as [].
    unfold is_uint. lia. }
  apply bind_Ok in H as ([q u] & Hq & H). injection H as <-. by eapply CalcUnits_shape.
Qed.

Lemma getSlipFeeAddedBasisPoints_nonneg k : 0 <= getSlipFeeAddedBasisPoints k.
Proof.
  unfold getSlipFeeAddedBasisPoints. cbv zeta. destruct (_ || _); [done|].
  by apply Z.mod_pos_bound.
Qed.

Lemma swap_depths_uint p source target mult X Y :
  pool_wf p -> swap_depths p source target mult = (X, Y) -> is_uint X /\ is_uint Y.
Proof.
  intros (Hc & Ha & _) H. unfold swap_depths in H.
  destruct (IsBase source), (_ || _); injection H as <- <-; split;
    try done; apply GetUncappedShare_uint.
Qed.

(** The balances a swap leaves, in terms of the amounts. *)
Definition balance_change (source target : Asset) (x e : Z) (p p' : Pool) : Prop :=
  if IsBase source then
    BalanceCacao p' = BalanceCacao p + x /\
    BalanceAsset p' = if IsSyntheticAsset target then BalanceAsset p else Z.max 0 (BalanceAsset p - e)
  else
    BalanceCacao p' = Z.max 0 (BalanceCacao p - e) /\
    BalanceAsset p' = if IsSyntheticAsset source then BalanceAsset p else BalanceAsset p + x.

Lemma swap_balances_Ok p source target x e p' :
  pool_wf p -> is_uint e -> swap_balances p source target x e = Ok p' ->
  balance_change source target x e p p' /\ pool_wf p' /\ Pool_Asset p' = Pool_Asset p.
Proof.
  intros (Hc & Ha & Hrest) He H. unfold swap_balances, balance_change in *.
  destruct (IsBase source).
  - apply bind_Ok in H as (c & [-> Hc']%uint_add_Ok & H). cbv zeta in H.
    destruct (IsSyntheticAsset target); cbn [negb] in H; [by invert_ok|].
    apply bind_Ok in H as (a & Ha' & H). cbn in Ha'. apply SafeSub_Ok in Ha'; [|done..].
    invert_ok. cbn. split_and!; try done. unfold pool_wf, is_uint in *. cbn. lia.
  - apply bind_Ok in H as (c & Hc' & H). apply SafeSub_Ok in Hc'; [|done..]. subst c.
    assert (is_uint (Z.max 0 (BalanceCacao p - e))) by (unfold is_uint in *; lia).
    cbv zeta in H. destruct (IsSyntheticAsset source); cbn [negb] in H; [by invert_ok|].
    apply bind_Ok in H as (a & [-> Ha']%uint_add_Ok & H). by invert_ok.
Qed.

(** What a swap that succeeded did to the pools. *)
Lemma swapOne_pools k tx coin coins target swapTarget mult k' e evt :
  Tx_Coins tx = coin :: coins -> swapOne k tx target swapTarget mult = Ok (k', e, evt) ->
  pools_inv k -> (IsTradeAsset (Coin_Asset coin) = true -> trade_inv k) ->
  is_uint (Coin_Amount coin) ->
  let source := Coin_Asset coin in
  let a := GetKey (Asset_String (swap_pool source target)) in
  exists x p p' X Y,
    kv_pools k !! a = Some p /\ kv_pools k' = <[a := p']> (kv_pools k) /\ pools_inv k' /\
    pool_wf p /\ 0 < x /\ (IsTradeAsset source = false -> x = Coin_Amount coin) /\
    swap_depths p source target mult = (X, Y) /\ 0 <= e /\ 4 * e <= Y /\ X * Y <= (X + x) * (Y - e) /\
    balance_change source target x e p p' /\
    Tx_Coins (InTx evt) = [NewCoin source x] /\ EmitAsset evt = NewCoin target e.
Proof.
  intros Hc H Hp Ht Hamt source a.
  destruct (swapOne_inv k tx coin coins target swapTarget mult k' e evt Hc H) as
    (k1 & x & p & p2 & X & Y & k2 & k3 & p3 & p4 & Hw & Hlk & Hu & Hd & Hx & HX & HY & He & _ &
     Hk2 & Hk3 & Hb & Hu4 & Hset & Hin & Hemit).
  fold source in Hw, Hlk, Hd, Hb, Hu4, Hin. fold a in Hlk.
  pose proof (swap_withdraw_amount _ _ _ _ _ _ Ht Hamt Hw) as Hxu.
  apply swap_withdraw_frame in Hw as (Hk1 & _ & Hxamt). rewrite Hk1 in Hlk.
  destruct (Hp a p Hlk) as [Hkey Hwf].
  apply swap_units_shape in Hu as (su & Hsu & ->); [|done].
  assert (Hwf2 : pool_wf (set_SynthUnits p su)).
  { destruct Hwf as (? & ? & ? & _ & ? & ?). by split_and!. }
  destruct (swap_depths_uint _ _ _ _ _ _ Hwf2 Hd) as [HXu HYu].
  assert (0 <= getSlipFeeAddedBasisPoints k1) by apply getSlipFeeAddedBasisPoints_nonneg.
  assert (0 < X + x) by (unfold is_uint in *; lia).
  apply swap_emission_le in He as (He0 & He4 & Hprod); [|done..].
  assert (Heu : is_uint e) by (unfold is_uint in *; lia).
  apply swap_balances_Ok in Hb as (Hchg & Hwf3 & Ha3); [|done..].
  assert (H4 : balance_change source target x e p p4 /\ pool_wf p4 /\ Pool_Asset p4 = Pool_Asset p).
  { destruct (_ || _) in Hu4; [|injection Hu4 as <-; by split_and!].
    apply swap_units_shape in Hu4 as (su4 & ? & ->); [|done].
    destruct Hwf3 as (? & ? & ? & _ & ? & ?). by split_and!. }
  destruct H4 as (Hchg4 & Hwf4 & Ha4).
  apply swap_burn_pools in Hk2. apply swap_mint_pools in Hk3.
  assert (Hk' : kv_pools k' = <[a := p4]> (kv_pools k)).
  { unfold SetPool in Hset. destruct (Asset_IsEmpty _); [done|]. injection Hset as <-. cbn.
    by rewrite Hk3, Hk2, Hk1, Ha4, Hkey. }
  exists x, p, p4, X, Y. split_and!; try done.
  - intros b q. rewrite Hk'. intros [[<- <-]|[_ ?]]%lookup_insert_Some; [|by apply Hp].
    by rewrite Ha4.
  - unfold is_uint in *. lia.
Qed.

(** C1: a swap between an asset and CACAO that involves no synth changes one
    pool only: the input is added to one side, exactly the emission leaves the
    other side, at most a quarter of it leaves, the product of the balances
    never falls, and the event states the amounts swapped. *)
Theorem swapOne_keeps_product k tx coin coins target swapTarget mult k' e evt :
  pools_inv k -> trade_inv k -> is_uint (Coin_Amount coin) ->
  Tx_Coins tx = coin :: coins ->
  IsSyntheticAsset (Coin_Asset coin) = false -> IsSyntheticAsset target = false ->
  swapOne k tx target swapTarget mult = Ok (k', e, evt) ->
  let source := Coin_Asset coin in
  let a := GetKey (Asset_String (swap_pool source target)) in
  exists x p p',
    kv_pools k !! a = Some p /\ kv_pools k' = <[a := p']> (kv_pools k) /\ pools_inv k' /\ 0 < x /\
    (IsTradeAsset source = false -> x = Coin_Amount coin) /\ 0 <= e /\
    (if IsBase source
     then BalanceCacao p' = BalanceCacao p + x /\ BalanceAsset p' = BalanceAsset p - e /\
          4 * e <= BalanceAsset p
     else BalanceAsset p' = BalanceAsset p + x /\ BalanceCacao p' = BalanceCacao p - e /\
          4 * e <= BalanceCacao p) /\
    BalanceCacao p * BalanceAsset p <= BalanceCacao p' * BalanceAsset p' /\
    Tx_Coins (InTx evt) = [NewCoin source x] /\ EmitAsset evt = NewCoin target e.
Proof.
  intros Hp Ht Hamt Hc Hs1 Hs2 H source a.
  destruct (swapOne_pools _ _ _ _ _ _ _ _ _ _ Hc H Hp (fun _ => Ht) Hamt) as
    (x & p & p' & X & Y & Hlk & Hk' & Hp' & Hwf & Hx & Hxa & Hd & He & H4 & Hprod & Hchg & Hin & Hem).
  exists x, p, p'. fold source in Hchg, Hd, Hs1. unfold swap_depths in Hd.
  unfold balance_change in Hchg. rewrite Hs1, Hs2 in Hd, Hchg. cbn [orb] in Hd.
  destruct (IsBase source); injection Hd as <- <-; destruct Hchg as [Hc' Ha'];
    (split_and!; try done; try lia).
  all: rewrite ?Hc', ?Ha', ?Z.max_r by lia; lia.
Qed.

Section bank.
Context {BL : CosmosBankLaws B}.

Lemma swap_mint_supply k target e k' d :
  swap_mint k target e = Ok k' -> IsSyntheticAsset target = true ->
  bank_supply (kv_bank k') d =
    bank_supply (kv_bank k) d + if String.eqb (Asset_Native target) d then e else 0.
Proof.
  intros H Hs. unfold swap_mint in H. rewrite Hs in H. cbn [andb] in H.
  destruct (Z.eqb_spec e 0) as [->|]; cbn [negb] in H.
  { injection H as <-. destruct (String.eqb _ _); lia. }
  apply bind_Ok in H as (k1 & Hm & H).
  apply MintToModule_frame in Hm as (_ & c & b & Hc & Hb & Hk1).
  unfold SendFromModuleToModule in H. invert_ok. cbn.
  erewrite bank_send_supply by done. erewrite bank_mint_supply by done.
  unfold Coin_Native in Hc. destruct (negb _) in Hc; [done|]. apply bank_coin_law in Hc as ->.
  unfold denom_amount, sumZ. cbn. destruct (String.eqb _ _); lia.
Qed.

Lemma swap_burn_supply k coin k' d :
  swap_burn k coin = Ok k' -> IsSyntheticAsset (Coin_Asset coin) = true ->
  (bank_supply (kv_bank k') d = bank_supply (kv_bank k) d -
     (if String.eqb (Asset_Native (Coin_Asset coin)) d then Coin_Amount coin else 0) \/
   exists k1 err, SendFromModuleToModule k AsgardName ModuleName [coin] = Ok k1 /\
     BurnFromModule k1 ModuleName coin = Err err /\
     bank_supply (kv_bank k') d = bank_supply (kv_bank k) d).
Proof.
  intros H Hs. unfold swap_burn in H. rewrite Hs in H.
  apply bind_Ok in H as (k1 & Hk1 & H).
  assert (Hs1 : bank_supply (kv_bank k1) d = bank_supply (kv_bank k) d).
  { unfold SendFromModuleToModule in Hk1. invert_ok. cbn. by erewrite bank_send_supply. }
  destruct (BurnFromModule k1 ModuleName coin) as [k2|err|] eqn:E; [|injection H as <-|done].
  - injection H as <-. left. rewrite <- Hs1. unfold BurnFromModule in E.
    apply bind_Ok in E as (c & Hc & E). invert_ok. cbn. erewrite bank_burn_supply by done.
    unfold Coin_Native in Hc. destruct (negb _) in Hc; [done|]. apply bank_coin_law in Hc as ->.
    unfold denom_amount, sumZ. cbn. destruct (String.eqb _ _); lia.
  - right. by exists k1, err.
Qed.

(** The supply after a swap. *)
Lemma swapOne_bank k tx coin coins target swapTarget mult k' e evt :
  Tx_Coins tx = coin :: coins -> swapOne k tx target swapTarget mult = Ok (k', e, evt) ->
  exists k1 k2, kv_bank k1 = kv_bank k /\ swap_burn k1 coin = Ok k2 /\
    exists k3, swap_mint k2 target e = Ok k3 /\ kv_bank k' = kv_bank k3.
Proof.
  intros Hc H.
  destruct (swapOne_inv k tx coin coins target swapTarget mult k' e evt Hc H) as
    (k1 & x & p & p2 & X & Y & k2 & k3 & p3 & p4 & Hw & _ & _ & _ & _ & _ & _ & _ & _ &
     Hk2 & Hk3 & _ & _ & Hset & _).
  apply swap_withdraw_frame in Hw as (_ & Hb & _). exists k1, k2. split_and!; [done..|].
  exists k3. split; [done|]. unfold SetPool in Hset. destruct (Asset_IsEmpty _); [done|].
  by injection Hset as <-.
Qed.

(** A swap of CACAO into a synth moves CACAO into the pool, leaves the asset
    where it is, and raises the supply of that synth, and of nothing else, by
    exactly the amount emitted. *)
Theorem swapOne_mints_synth k tx coin coins target swapTarget mult k' e evt :
  pools_inv k -> trade_inv k -> is_uint (Coin_Amount coin) ->
  Tx_Coins tx = coin :: coins -> IsBase (Coin_Asset coin) = true ->
  IsSyntheticAsset (Coin_Asset coin) = false -> IsSyntheticAsset target = true ->
  swapOne k tx target swapTarget mult = Ok (k', e, evt) ->
  let a := GetKey (Asset_String (GetLayer1Asset target)) in
  (exists x p p',
    kv_pools k !! a = Some p /\ kv_pools k' = <[a := p']> (kv_pools k) /\ pools_inv k' /\ 0 < x /\
    (IsTradeAsset (Coin_Asset coin) = false -> x = Coin_Amount coin) /\
    BalanceCacao p' = BalanceCacao p + x /\ BalanceAsset p' = BalanceAsset p) /\
  0 <= e /\
  forall d, bank_supply (kv_bank k') d =
    bank_supply (kv_bank k) d + if String.eqb (Asset_Native target) d then e else 0.
Proof.
  intros Hp Ht Hamt Hc Hb Hs1 Hs2 H a.
  destruct (swapOne_pools _ _ _ _ _ _ _ _ _ _ Hc H Hp (fun _ => Ht) Hamt) as
    (x & p & p' & X & Y & Hlk & Hk' & Hp' & _ & Hx & Hxa & _ & He & _ & _ & Hchg & _).
  unfold swap_pool in Hlk, Hk'. unfold balance_change in Hchg.
  rewrite Hb in Hlk, Hk', Hchg. rewrite Hs2 in Hchg. split_and!; [|done|].
  - exists x, p, p'. destruct Hchg. by split_and!.
  - intros d. destruct (swapOne_bank _ _ _ _ _ _ _ _ _ _ Hc H) as
      (k1 & k2 & Hk1 & Hburn & k3 & Hm & ->).
    unfold swap_burn in Hburn. rewrite Hs1 in Hburn. injection Hburn as <-.
    rewrite (swap_mint_supply _ _ _ _ d Hm Hs2). by rewrite Hk1.
Qed.

Lemma IsBase_synth a : IsSyntheticAsset a = true -> IsBase a = false.
Proof.
  unfold IsBase, Asset_Equals, IsSyntheticAsset. intros ->.
  by destruct (Chain_Equals _ _), (Symbol_Equals _ _), (Ticker_Equals _ _).
Qed.

(** A synth swapped into CACAO takes CACAO out of the pool, at most a quarter
    of it, and leaves the asset where it is. The synths given in are burnt,
    unless the burn fails: then the swap goes on and the supply stays. *)
Theorem swapOne_redeems_synth k tx coin coins target swapTarget mult k' e evt :
  pools_inv k -> trade_inv k -> is_uint (Coin_Amount coin) ->
  Tx_Coins tx = coin :: coins -> 0 <= mult <= 10000 ->
  IsSyntheticAsset (Coin_Asset coin) = true -> IsSyntheticAsset target = false ->
  swapOne k tx target swapTarget mult = Ok (k', e, evt) ->
  let source := Coin_Asset coin in
  let a := GetKey (Asset_String (GetLayer1Asset source)) in
  (exists p p',
    kv_pools k !! a = Some p /\ kv_pools k' = <[a := p']> (kv_pools k) /\ pools_inv k' /\
    BalanceCacao p' = BalanceCacao p - e /\ 4 * e <= BalanceCacao p /\
    BalanceAsset p' = BalanceAsset p) /\
  0 <= e /\
  forall d,
    bank_supply (kv_bank k') d = bank_supply (kv_bank k) d -
      (if String.eqb (Asset_Native source) d then Coin_Amount coin else 0) \/
    (exists k1 err, BurnFromModule k1 ModuleName coin = Err err) /\
    bank_supply (kv_bank k') d = bank_supply (kv_bank k) d.
Proof.
  intros Hp Ht Hamt Hc Hmult Hs1 Hs2 H source a.
  pose proof (IsBase_synth (Coin_Asset coin) Hs1) as Hb.
  destruct (swapOne_pools _ _ _ _ _ _ _ _ _ _ Hc H Hp (fun _ => Ht) Hamt) as
    (x & p & p' & X & Y & Hlk & Hk' & Hp' & Hwf & Hx & Hxa & Hd & He & H4 & _ & Hchg & _).
  unfold swap_pool in Hlk, Hk'. unfold balance_change in Hchg. unfold swap_depths in Hd.
  rewrite Hb in Hlk, Hk', Hchg, Hd. rewrite Hs1 in Hchg, Hd. cbn [orb] in Hd.
  injection Hd as _ <-. rewrite u64_id in H4 by (unfold is_u64; lia).
  destruct Hwf as ([? _] & _).
  pose proof (GetUncappedShare_le mult 10000 (BalanceCacao p) ltac:(lia) ltac:(done)).
  split_and!; [|done|].
  - exists p, p'. destruct Hchg as [Hcc ?]. split_and!; try done; lia.
  - intros d. destruct (swapOne_bank _ _ _ _ _ _ _ _ _ _ Hc H) as
      (k1 & k2 & Hk1 & Hburn & k3 & Hm & ->).
    unfold swap_mint in Hm. rewrite Hs2 in Hm. injection Hm as <-. rewrite <- Hk1.
    destruct (swap_burn_supply k1 coin k2 d Hburn Hs1) as [?|(k4 & err & _ & ? & ?)];
      [by left|right]. split; [by exists k4, err|done].
Qed.
End bank.
End swap_facts.

(** ** Witnesses *)

Section swapper_witnesses.
Import Reference ReferenceBank ReferenceRange.

Definition swap_example_pool : Pool :=
  mkPool 4000000 1000000 BTCAsset 1000 PoolStatus_Available 0 8 0 0 0.

(** "BTC.BTC" with a pool, and a module that holds some synths of it. *)
Definition swap_example : KVStore :=
  set_kv_pools
    (empty_kv (semver_release 1 123 0) (fun _ => 0) 10
      (mkState (<[("asgard", "btc/btc") := 5000]> ∅) (<["btc/btc" := 5000]> ∅)))
    (<["BTC.BTC" := swap_example_pool]> ∅).

Definition swap_tx (coin : Coin) : Tx := mkTx "A1" BASEChain "alice" "asgard" [coin] [] EmptyString.

Lemma swap_example_pools : pools_inv swap_example.
Proof.
  intros a p. cbn [kv_pools set_kv_pools swap_example].
  intros [[<- <-]|[_ [=]]]%lookup_insert_Some. split; [by vm_compute|]. by repeat split.
Qed.

Lemma swap_example_trade : trade_inv swap_example.
Proof.
  split; [done|done|]. intros a. unfold units_of, total_units.
  change (kv_trade_accounts swap_example) with (∅ : gmap (string * string) TradeAccount).
  by rewrite map_sum_empty.
Qed.

Definition swap_emits (coin : Coin) (target : Asset) : option Z :=
  match swapOne swap_example (swap_tx coin) target 0 10000 with
  | Ok (_, e, _) => Some e
  | _ => None
  end.

Example swap_emits_asset : swap_emits (NewCoin BaseAsset 1000000) BTCAsset = Some 160000.
Proof. by vm_compute. Qed.
Example swap_emits_synth : swap_emits (NewCoin BaseAsset 1000000) (GetSyntheticAsset BTCAsset) = Some 160000.
Proof. by vm_compute. Qed.
Example swap_emits_cacao : swap_emits (NewCoin (GetSyntheticAsset BTCAsset) 5000) BaseAsset = Some 19801.
Proof. by vm_compute. Qed.

Lemma swap_runs coin target e :
  swap_emits coin target = Some e ->
  exists k' evt, swapOne swap_example (swap_tx coin) target 0 10000 = Ok (k', e, evt).
Proof.
  unfold swap_emits. destruct (swapOne _ _ _ _ _) as [[[k' e'] evt]| |]; [|done..].
  intros [= ->]. by exists k', evt.
Qed.

Lemma CalcAssetEmission_spec_witness :
  let X := 4000000 in let x := 1000000 in let Y := 1000000 in
  exists e f, CalcAssetEmission X x Y = Ok e /\ CalcLiquidityFee X x Y = Ok f /\
  e * (x + X) ^ 2 <= x * X * Y < (e + 1) * (x + X) ^ 2 /\
  0 <= e /\ 4 * e <= Y /\ X * Y <= (X + x) * (Y - e) /\
  0 <= f /\ (e + f) * (x + X) <= x * Y < (e + f + 2) * (x + X).
Proof. cbv zeta. apply (CalcAssetEmission_spec 4000000 1000000 1000000); lia. Defined.

Lemma swapOne_keeps_product_witness :
  exists k' evt x p p',
    swapOne swap_example (swap_tx (NewCoin BaseAsset 1000000)) BTCAsset 0 10000 = Ok (k', 160000, evt) /\
    kv_pools swap_example !! "BTC.BTC" = Some p /\ BalanceCacao p' = BalanceCacao p + x /\
    BalanceAsset p' = BalanceAsset p - 160000 /\
    BalanceCacao p * BalanceAsset p <= BalanceCacao p' * BalanceAsset p'.
Proof.
  destruct (swap_runs _ _ _ swap_emits_asset) as (k' & evt & E).
  pose proof (swapOne_keeps_product swap_example (swap_tx (NewCoin BaseAsset 1000000)) (NewCoin BaseAsset 1000000) [] BTCAsset 0 10000
    k' 160000 evt swap_example_pools swap_example_trade ltac:(by split) eq_refl eq_refl eq_refl E)
    as (x & p & p' & Hp & _ & _ & _ & _ & _ & Hb & Hprod & _).
  destruct Hb as (Hc & Ha & _). exists k', evt, x, p, p'. by split_and!.
Defined.

Lemma swapOne_mints_synth_witness :
  let target := GetSyntheticAsset BTCAsset in
  exists k' evt,
    swapOne swap_example (swap_tx (NewCoin BaseAsset 1000000)) target 0 10000 = Ok (k', 160000, evt) /\
    bank_supply (kv_bank k') (Asset_Native target) =
      bank_supply (kv_bank swap_example) (Asset_Native target) + 160000.
Proof.
  destruct (swap_runs _ _ _ swap_emits_synth) as (k' & evt & E).
  pose proof (swapOne_mints_synth swap_example (swap_tx (NewCoin BaseAsset 1000000)) (NewCoin BaseAsset 1000000) []
    (GetSyntheticAsset BTCAsset) 0 10000 k' 160000 evt swap_example_pools swap_example_trade
    ltac:(by split) eq_refl eq_refl eq_refl eq_refl E) as (_ & _ & Hs).
  exists k', evt. split; [exact E|]. etransitivity; [apply Hs|]. by rewrite String.eqb_refl.
Defined.

Lemma swapOne_redeems_synth_witness :
  let coin := NewCoin (GetSyntheticAsset BTCAsset) 5000 in
  exists k' evt p p',
    swapOne swap_example (swap_tx coin) BaseAsset 0 10000 = Ok (k', 19801, evt) /\
    BalanceCacao p' = BalanceCacao p - 19801 /\ 4 * 19801 <= BalanceCacao p /\
    BalanceAsset p' = BalanceAsset p.
Proof.
  destruct (swap_runs _ _ _ swap_emits_cacao) as (k' & evt & E).
  pose proof (swapOne_redeems_synth swap_example (swap_tx (NewCoin (GetSyntheticAsset BTCAsset) 5000)) (NewCoin (GetSyntheticAsset BTCAsset) 5000) []
    BaseAsset 0 10000 k' 19801 evt swap_example_pools swap_example_trade
    ltac:(by split) eq_refl ltac:(lia) eq_refl eq_refl E)
    as ((p & p' & _ & _ & _ & Hc & H4 & Ha) & _).
  exists k', evt, p, p'. by split_and!.
Defined.
End swapper_witnesses.
