(* ===== verification/Swaps.v ===== *)
(** [Swap] of [x/mayachain/swap_current.go]: a swap between any two assets, by way
    of CACAO, with its checks, the fees it records and the outbound transaction it
    schedules. *)
From S2P Require Import Prelude GoText Sdk Floats Shares Chains Keys Addresses Assets Coins Txs.
From S2P Require Import NodeAccounts Votes TxOuts Vaults Pools Mimirs StreamingSwaps SwapMsgs.
From S2P Require Import LiquidityProviders Records MayaNames Stores Keeper Nodes Bonds VaultStore.
From S2P Require Import TradeAccounts Swapper.

(** What is asked of the manager of outbound transactions: to schedule one, unless it
    is worth less than the least amount; and to add one to a block without a check. *)
Class TxOutStore `{V : Semver} `{B : CosmosBank} := {
  TryAddTxOutItem : KVStore -> TxOutItem -> Z -> outcome (KVStore * bool);
  UnSafeAddTxOutItem : KVStore -> TxOutItem -> Z -> outcome KVStore;
}.

Section swaps.
Context `{V : Semver} `{B : CosmosBank} `{A : SdkAddress} `{R : MapRange} `{L : AddressLib}.
Context `{U : SdkUint} `{D : SdkDec} {TO : TxOutStore}.
Implicit Types k : KVStore.

(** A parameter that holds the height after which synths of a kind are disabled. *)
Definition synths_disabled k (key : string) : bool :=
  let height := GetMimir k key in (0 <? height) && (height <? kv_height k).

Definition swap_checks k (tx : Tx) (target : Asset) (destination : Address) : outcome Asset :=
  _ ← validateMessage tx target destination;
  match Tx_Coins tx with
  | [] => Panic
  | coin :: _ =>
      let source := Coin_Asset coin in
      if IsSyntheticAsset source && synths_disabled k "BurnSynths"
      then Err "burning synthetics has been disabled"
      else if IsSyntheticAsset target && synths_disabled k "MintSynths"
      then Err "minting synthetics has been disabled"
      else if negb (IsNoop destination) && negb (IsChain destination (GetChain target) (kv_version k))
      then Err "destination address is not a valid %s address"
      else if Asset_Equals source target then Err "cannot swap from %s --> %s, assets match"
      else Ok source
  end.

(** One swap, or two by way of CACAO; the limit is for the last one. *)
Definition swap_legs k (tx : Tx) (source target : Asset) (swapTarget synthVirtualDepthMult : Z)
  : outcome (KVStore * Z * list EventSwap) :=
  if negb (IsBase source) && negb (IsBase target) then
    '(k, amt, evt1) ← swapOne k tx BaseAsset 0 synthVirtualDepthMult;
    let tx := set_Gas (set_Coins tx [NewCoin BaseAsset amt]) [] in
    '(k, assetAmount, evt2) ← swapOne k tx target swapTarget synthVirtualDepthMult;
    Ok (k, assetAmount, [evt1; evt2])
  else
    '(k, assetAmount, evt) ← swapOne k tx target swapTarget synthVirtualDepthMult;
    Ok (k, assetAmount, [evt]).

Definition set_streaming (evt : EventSwap) (quantity count : Z) : EventSwap :=
  mkEventSwap (Evt_Pool evt) (SwapTarget evt) (SwapSlip evt) (LiquidityFee evt)
    (LiquidityFeeInCacao evt) (InTx evt) (OutTxs evt) (EmitAsset evt) (Evt_SynthUnits evt)
    quantity count.

Definition stream_event (swp : StreamingSwap) (evt : EventSwap) : EventSwap :=
  if StreamingSwapQuantity evt <? Quantity swp
  then set_streaming evt (Quantity swp) (u64 (Count swp + 1))
  else set_streaming evt 1 1.

Definition record_fees k (evts : list EventSwap) : outcome KVStore :=
  foldM (fun k evt => AddToLiquidityFees k (Evt_Pool evt) (LiquidityFeeInCacao evt)) k evts.

(** The output of a streaming swap is sent when that is done. *)
Definition swap_outbound k (tx : Tx) (target : Asset) (destination : Address) (assetAmount swapTarget : Z)
    (dexAgg dexAggTargetAsset : string) (dexAggLimit : option Z) (swp : StreamingSwap)
  : outcome KVStore :=
  if negb (IsNoop destination) && negb (is_ok (StreamingSwap_Valid swp)) then
    let toi := mkTxOutItem (GetChain target) destination EmptyPubKey (NewCoin target assetAmount)
                 EmptyString [] 0 (Tx_ID tx) EmptyString EmptyString dexAgg dexAggTargetAsset
                 dexAggLimit EmptyPubKey in
    r ← TryAddTxOutItem k toi swapTarget;
    let '(k, ok) := (r : KVStore * bool) in
    if ok then Ok k else Err "fail to add outbound tx"
  else Ok k.

Definition Swap k (tx : Tx) (target : Asset) (destination : Address) (swapTarget : Z)
    (dexAgg dexAggTargetAsset : string) (dexAggLimit : option Z) (swp : StreamingSwap)
    (synthVirtualDepthMult : Z) : outcome (KVStore * Z * list EventSwap) :=
  source ← swap_checks k tx target destination;
  '(k, assetAmount, evts) ← swap_legs k tx source target swapTarget synthVirtualDepthMult;
  if negb (swapTarget =? 0) && (assetAmount <? swapTarget)
  then Err "emit asset %s less than price limit %s"
  else if assetAmount =? 0 then Err "zero emit asset"
  else
    let evts := map (stream_event swp) evts in
    k ← record_fees k evts;
    k ← swap_outbound k tx target destination assetAmount swapTarget dexAgg dexAggTargetAsset
          dexAggLimit swp;
    Ok (k, assetAmount, evts).
End swaps.

(** ** What a swap changes *)

Section swaps_frame.
Context {V : Semver} {B : CosmosBank} {A : SdkAddress} {R : MapRange} {U : SdkUint} {D : SdkDec}.
Implicit Types k : KVStore.

(** Only pools, parameters, trade accounts and the bank. *)
Definition swap_frame k k' : Prop := exists u a m p b,
  k' = set_kv_bank (set_kv_pools (set_kv_mimirs (set_kv_trade k u a) m) p) b.

#[export] Instance swap_frame_preorder : PreOrder swap_frame.
Proof.
  split.
  - intros k. exists (kv_trade_units k), (kv_trade_accounts k), (kv_mimirs k), (kv_pools k), (kv_bank k).
    by destruct k.
  - intros k1 k2 k3 (u & a & m & p & b & ->) (u' & a' & m' & p' & b' & ->).
    by exists u', a', m', p', b'.
Qed.

Lemma bank_frame k b : swap_frame k (set_kv_bank k b).
Proof.
  exists (kv_trade_units k), (kv_trade_accounts k), (kv_mimirs k), (kv_pools k), b. by destruct k.
Qed.

Lemma trade_frame k u a : swap_frame k (set_kv_trade k u a).
Proof. exists u, a, (kv_mimirs k), (kv_pools k), (kv_bank k). by destruct k. Qed.

Lemma SetMimir_frame k key v : swap_frame k (SetMimir k key v).
Proof.
  unfold SetMimir. destruct (haveKraken k); [reflexivity|].
  exists (kv_trade_units k), (kv_trade_accounts k), (<[GetKey key := v]> (kv_mimirs k)), (kv_pools k),
    (kv_bank k). by destruct k.
Qed.

Lemma SetPool_frame k p k' : SetPool k p = Ok k' -> swap_frame k k'.
Proof.
  intros H. unfold SetPool in H. destruct (Asset_IsEmpty _); [done|]. injection H as <-.
  exists (kv_trade_units k), (kv_trade_accounts k), (kv_mimirs k),
    (<[GetKey (Asset_String (Pool_Asset p)) := p]> (kv_pools k)), (kv_bank k). by destruct k.
Qed.

Lemma send_frame k f t cs k' : SendFromModuleToModule k f t cs = Ok k' -> swap_frame k k'.
Proof. intros H. unfold SendFromModuleToModule in H. invert_ok. apply bank_frame. Qed.

Lemma MintToModule_swap_frame k m c k' : MintToModule k m c = Ok k' -> swap_frame k k'.
Proof.
  intros H. unfold MintToModule in H. cbv zeta in H. apply bind_Ok in H as (d & _ & H).
  apply bind_Ok in H as (b & _ & H).
  transitivity (set_kv_bank k b); [apply bank_frame|].
  destruct (GTE _ _); [|injection H as <-; reflexivity].
  destruct (_ && _); injection H as <-; [|reflexivity].
  repeat (etransitivity; [|apply SetMimir_frame]). reflexivity.
Qed.

Lemma swap_withdraw_swap_frame k tx source amount k' x :
  swap_withdraw k tx source amount = Ok (k', x) -> swap_frame k k'.
Proof.
  intros H. unfold swap_withdraw in H. destruct (IsTradeAsset source); [|injection H as <- <-; reflexivity].
  destruct (_ <=? 0); [done|]. destruct (_ <=? 0); [done|]. destruct (acc_from_bech32 _); [|done].
  unfold TradeMgr_Withdrawal in H. cbv zeta in H. invert_ok.
  etransitivity; [apply trade_frame|apply trade_frame].
Qed.

Lemma swap_burn_swap_frame k c k' : swap_burn k c = Ok k' -> swap_frame k k'.
Proof.
  intros H. unfold swap_burn in H. destruct (IsSyntheticAsset _); [|injection H as <-; reflexivity].
  apply bind_Ok in H as (k1 & H1%send_frame & H).
  destruct (BurnFromModule _ _ _) eqn:E; [|by injection H as <-|done]. injection H as <-.
  etransitivity; [exact H1|]. unfold BurnFromModule in E. invert_ok. apply bank_frame.
Qed.

Lemma swap_mint_swap_frame k target e k' : swap_mint k target e = Ok k' -> swap_frame k k'.
Proof.
  intros H. unfold swap_mint in H. destruct (_ && _); [|injection H as <-; reflexivity].
  apply bind_Ok in H as (k1 & H1%MintToModule_swap_frame & H%send_frame). by etransitivity.
Qed.

Lemma swapOne_frame k tx target swapTarget mult k' e evt :
  swapOne k tx target swapTarget mult = Ok (k', e, evt) -> swap_frame k k'.
Proof.
  intros H. destruct (Tx_Coins tx) as [|coin coins] eqn:Hc; [unfold swapOne in H; by rewrite Hc in H|].
  destruct (swapOne_inv _ _ _ _ _ _ _ _ _ _ Hc H) as
    (k1 & x & p0 & p & X & Y & k2 & k3 & p3 & p4 & Hw & _ & _ & _ & _ & _ & _ & _ & _ & Hk2 & Hk3 &
     _ & _ & Hset & _).
  apply swap_withdraw_swap_frame in Hw. apply swap_burn_swap_frame in Hk2.
  apply swap_mint_swap_frame in Hk3. apply SetPool_frame in Hset.
  etransitivity; [exact Hw|]. etransitivity; [exact Hk2|]. by etransitivity.
Qed.

Lemma swap_legs_frame k tx source target swapTarget mult k' e evts :
  swap_legs k tx source target swapTarget mult = Ok (k', e, evts) -> swap_frame k k'.
Proof.
  intros H. unfold swap_legs in H. destruct (_ && _).
  - apply bind_Ok in H as ([[k1 amt] evt1] & H1%swapOne_frame & H).
    apply bind_Ok in H as ([[k2 amt2] evt2] & H2%swapOne_frame & H). injection H as <- <- <-.
    by etransitivity.
  - apply bind_Ok in H as ([[k1 amt] evt1] & H1%swapOne_frame & H). by injection H as <- <- <-.
Qed.
End swaps_frame.

Section swaps_facts.
Context {V : Semver} {B : CosmosBank} {A : SdkAddress} {R : MapRange} {L : AddressLib}.
Context {U : SdkUint} {D : SdkDec} {UL : SdkUintLaws U} {DL : SdkDecLaws D} {TO : TxOutStore}.
Implicit Types k : KVStore.

Lemma IsBase_trade a : IsBase a = true -> IsTradeAsset a = false.
Proof.
  unfold IsBase, Asset_Equals, IsTradeAsset. intros H. apply andb_true_iff in H as [_ H].
  by destruct (Asset_Trade a).
Qed.

(** One leg moves the CACAO of the pools by the amount it takes in or gives. *)
Lemma leg_cacao k tx coin coins target swapTarget mult k' e evt :
  pools_inv k -> (IsTradeAsset (Coin_Asset coin) = true -> trade_inv k) -> is_uint (Coin_Amount coin) ->
  0 <= mult <= 10000 -> Tx_Coins tx = coin :: coins ->
  swapOne k tx target swapTarget mult = Ok (k', e, evt) ->
  pools_inv k' /\ is_uint e /\
  pools_cacao k' = pools_cacao k + if IsBase (Coin_Asset coin) then Coin_Amount coin else - e.
Proof.
  intros Hp Ht Hamt Hm Hc H.
  destruct (swapOne_pools _ _ _ _ _ _ _ _ _ _ Hc H Hp Ht Hamt) as
    (x & p & p' & X & Y & Hlk & Hk' & Hp' & Hwf & Hx & Hxa & Hd & He & H4 & _ & Hchg & _).
  split; [done|]. destruct (swap_depths_uint _ _ _ _ _ _ Hwf Hd) as [_ HY].
  split; [unfold is_uint in *; lia|].
  unfold pools_cacao. rewrite Hk', map_sum_insert, Hlk. cbn [from_option].
  destruct Hwf as (Hcu & _). unfold balance_change, swap_depths in *.
  destruct (IsBase (Coin_Asset coin)) eqn:Eb; destruct Hchg as [-> _].
  - rewrite Hxa by by apply IsBase_trade. lia.
  - assert (Y <= BalanceCacao p).
    { destruct (_ || _); injection Hd as _ <-; [|lia]. rewrite u64_id by (unfold is_u64; lia).
      apply GetUncappedShare_le; unfold is_uint in *; lia. }
    lia.
Qed.

Lemma AddToLiquidityFees_Ok k asset fee k' :
  AddToLiquidityFees k asset fee = Ok k' ->
  kv_pools k' = kv_pools k /\ kv_height k' = kv_height k /\ kv_version k' = kv_version k /\
  GetTotalLiquidityFees k' (u64 (kv_height k)) = GetTotalLiquidityFees k (u64 (kv_height k)) + fee.
Proof.
  intros H. unfold AddToLiquidityFees in H. apply bind_Ok in H as (t & [-> _]%uint_add_Ok & H).
  apply bind_Ok in H as (pl & _ & H). apply bind_Ok in H as (t' & Ht & H). apply bind_Ok in H as (pl' & _ & H).
  unfold amount_uint64 in Ht. destruct (_ && _) in Ht; [|done]. injection Ht as <-.
  assert (Hres : forall k2, kv_total_fees k2 = kv_total_fees k' -> GetTotalLiquidityFees k2 =
    GetTotalLiquidityFees k') by (intros k2 Hk2; unfold GetTotalLiquidityFees; by rewrite Hk2).
  cbn in H. destruct (GTE _ _); [apply bind_Ok in H as (added & _ & H)|];
    injection H as <-; (split_and!; [done..|]); unfold GetTotalLiquidityFees at 1; cbn;
    by rewrite lookup_insert_eq.
Qed.

Lemma record_fees_Ok k evts k' :
  record_fees k evts = Ok k' ->
  kv_pools k' = kv_pools k /\ kv_height k' = kv_height k /\ kv_version k' = kv_version k /\
  GetTotalLiquidityFees k' (u64 (kv_height k)) =
    GetTotalLiquidityFees k (u64 (kv_height k)) + sumZ LiquidityFeeInCacao evts.
Proof.
  revert k. induction evts as [|evt evts IH]; intros k H.
  { injection H as <-. split_and!; try done. cbn. lia. }
  cbn in H. apply bind_Ok in H as (k1 & (Hp & Hh & Hv & Hf)%AddToLiquidityFees_Ok & H).
  apply IH in H as (Hp' & Hh' & Hv' & Hf'). rewrite Hh in Hf'. rewrite sumZ_cons.
  split_and!; [congruence..|]. lia.
Qed.

Lemma sum_stream_fees swp evts :
  sumZ LiquidityFeeInCacao (map (stream_event swp) evts) = sumZ LiquidityFeeInCacao evts.
Proof.
  induction evts as [|e evts IH]; [done|]. cbn [map]. rewrite !sumZ_cons, IH. f_equal.
  unfold stream_event. by destruct (_ <? _).
Qed.

(** What a swap that succeeds does before its output is scheduled. *)
Lemma Swap_inv k tx target destination swapTarget dexAgg dexTarget dexLimit swp mult k' amt evts :
  Swap k tx target destination swapTarget dexAgg dexTarget dexLimit swp mult = Ok (k', amt, evts) ->
  exists source k1 legs k2, swap_checks k tx target destination = Ok source /\
    swap_legs k tx source target swapTarget mult = Ok (k1, amt, legs) /\
    (swapTarget = 0 \/ swapTarget <= amt) /\ amt <> 0 /\ evts = map (stream_event swp) legs /\
    record_fees k1 evts = Ok k2 /\
    swap_outbound k2 tx target destination amt swapTarget dexAgg dexTarget dexLimit swp = Ok k'.
Proof.
  intros H. unfold Swap in H. apply bind_Ok in H as (source & Hs & H).
  apply bind_Ok in H as ([[k1 a] legs] & Hl & H).
  destruct (negb (swapTarget =? 0) && (a <? swapTarget)) eqn:El; [done|].
  destruct (Z.eqb_spec a 0) as [|Ha]; [done|].
  apply bind_Ok in H as (k2 & Hf & H). apply bind_Ok in H as (k3 & Ho & H). injection H as <- <- <-.
  exists source, k1, legs, k2. split_and!; try done.
  apply andb_false_iff in El as [?%negb_false_iff%Z.eqb_eq|?%Z.ltb_ge]; auto.
Qed.

Lemma swap_checks_source k tx target destination source :
  swap_checks k tx target destination = Ok source ->
  exists coin coins, Tx_Coins tx = coin :: coins /\ source = Coin_Asset coin.
Proof.
  intros H. unfold swap_checks in H. apply bind_Ok in H as ([] & _ & H).
  destruct (Tx_Coins tx) as [|coin coins]; [done|]. invert_ok. by exists coin, coins.
Qed.

(** C2: a swap that succeeds emits a positive amount that respects the price limit.
    Before its output is scheduled, a swap between two assets neither of which is
    CACAO has passed all the CACAO that left one pool to the other, any other swap
    has moved the CACAO of the pools by exactly what was given in or emitted; and
    the fees recorded for the block rose by the fees of the legs. *)
Theorem Swap_spec k tx coin coins target destination swapTarget dexAgg dexTarget dexLimit swp mult
    k' amt evts :
  pools_inv k -> trade_inv k -> is_uint (Coin_Amount coin) -> 0 <= mult <= 10000 ->
  Tx_Coins tx = coin :: coins ->
  Swap k tx target destination swapTarget dexAgg dexTarget dexLimit swp mult = Ok (k', amt, evts) ->
  let source := Coin_Asset coin in
  let double := negb (IsBase source) && negb (IsBase target) in
  let height := u64 (kv_height k) in
  0 < amt /\ swapTarget <= amt /\ length evts = (if double then 2%nat else 1%nat) /\
  exists k1, pools_inv k1 /\
    pools_cacao k1 = pools_cacao k +
      (if double then 0 else if IsBase source then Coin_Amount coin else - amt) /\
    GetTotalLiquidityFees k1 height = GetTotalLiquidityFees k height + sumZ LiquidityFeeInCacao evts /\
    swap_outbound k1 tx target destination amt swapTarget dexAgg dexTarget dexLimit swp = Ok k'.
Proof.
  intros Hp Ht Hamt Hm Hc H source double height.
  destruct (Swap_inv _ _ _ _ _ _ _ _ _ _ _ _ _ H) as
    (s & k1 & legs & k2 & Hs & Hl & Hlim & Ha & -> & Hf & Ho).
  apply swap_checks_source in Hs as (c & cs & Hc' & ->). rewrite Hc in Hc'. injection Hc' as <- <-.
  pose proof (swap_legs_frame _ _ _ _ _ _ _ _ _ Hl) as (u & ac & m & p & b & Hk1).
  assert (Hlegs : is_uint amt /\ pools_inv k1 /\ length legs = (if double then 2%nat else 1%nat) /\
    pools_cacao k1 = pools_cacao k +
      (if double then 0 else if IsBase source then Coin_Amount coin else - amt)).
  { unfold swap_legs in Hl. fold source in Hl. fold double in Hl. destruct double eqn:Ed.
    - apply bind_Ok in Hl as ([[k3 a1] e1] & H1 & Hl).
      apply bind_Ok in Hl as ([[k4 a2] e2] & H2 & Hl). injection Hl as <- <- <-.
      eapply leg_cacao in H1 as (Hp3 & Hu & Hc3); [|done..].
      apply (leg_cacao _ _ (NewCoin BaseAsset a1) []) in H2 as (Hp4 & Hu2 & Hc4); [|done|discriminate|exact Hu|exact Hm|reflexivity].
      cbn [Coin_Asset Coin_Amount NewCoin] in Hc4. change (IsBase BaseAsset) with true in Hc4.
      unfold double in Ed. apply andb_true_iff in Ed as [Ed%negb_true_iff _].
      unfold source in Ed. rewrite Ed in Hc3. split_and!; [done..|]. cbn in Hc4. lia.
    - apply bind_Ok in Hl as ([[k3 a1] e1] & H1 & Hl). injection Hl as <- <- <-.
      eapply leg_cacao in H1 as (Hp3 & Hu & Hc3); [|done..]. by split_and!. }
  destruct Hlegs as (Hu & Hp1 & Hlen & Hcacao).
  apply record_fees_Ok in Hf as (Hpools & Hh & Hv & Hfees).
  assert (Hheight : u64 (kv_height k1) = height) by by rewrite Hk1.
  assert (Htot : forall h, GetTotalLiquidityFees k1 h = GetTotalLiquidityFees k h) by by rewrite Hk1.
  unfold is_uint in Hu. split_and!; [lia|lia|by rewrite length_map|].
  exists k2. split_and!; try done.
  - intros a q. rewrite Hpools. apply Hp1.
  - unfold pools_cacao in *. by rewrite Hpools.
  - by rewrite <- Hheight, Hfees, Htot.
Qed.
End swaps_facts.

(** ** Witness *)

Section swaps_witness.
Import Reference ReferenceBank ReferenceRange ReferenceAddress.

(** A manager that schedules every outbound transaction. *)
#[local] Instance tx_out_store : TxOutStore := {|
  TryAddTxOutItem := fun k toi _ => Ok (k, true);
  UnSafeAddTxOutItem := fun k toi _ => Ok k;
|}.

(** Pools of BTC and ETH. *)
Definition swaps_example : KVStore :=
  set_kv_pools swap_example
    (<["ETH.ETH" := mkPool 9000000 3000000 ETHAsset 1000 PoolStatus_Available 0 8 0 0 0]>
      (kv_pools swap_example)).

Definition swaps_tx : Tx :=
  mkTx "A1" BTCChain "alice" "asgard" [NewCoin BTCAsset 1000000]
    [NewCoin BTCAsset 10] EmptyString.

Definition swaps_run : outcome (KVStore * Z * list EventSwap) :=
  Swap swaps_example swaps_tx ETHAsset NoopAddress 200000 EmptyString EmptyString None
    (mkStreamingSwap EmptyString 0 0 0 0 0 0 0 0 [] []) 10000.

Definition swap_amounts (r : outcome (KVStore * Z * list EventSwap)) : option (Z * Z) :=
  match r with Ok (_, amt, evts) => Some (amt, sumZ LiquidityFeeInCacao evts) | _ => None end.

Example swaps_run_emits : swap_amounts swaps_run = Some (270000, 1090000).
Proof. by vm_compute. Qed.

Lemma swaps_example_pools : pools_inv swaps_example.
Proof.
  intros a p. cbn [kv_pools set_kv_pools swaps_example].
  intros [[<- <-]|[_ Hp]]%lookup_insert_Some.
  - split; [by vm_compute|]. by repeat split.
  - by apply swap_example_pools.
Qed.

Lemma swaps_example_trade : trade_inv swaps_example.
Proof.
  split; [done|done|]. intros a. unfold units_of, total_units.
  change (kv_trade_accounts swaps_example) with (∅ : gmap (string * string) TradeAccount).
  by rewrite map_sum_empty.
Qed.

Lemma Swap_spec_witness :
  exists k' evts k1, swaps_run = Ok (k', 270000, evts) /\ length evts = 2%nat /\
  pools_cacao k1 = pools_cacao swaps_example /\
  GetTotalLiquidityFees k1 10 = sumZ LiquidityFeeInCacao evts.
Proof.
  pose proof swaps_run_emits as E. destruct swaps_run as [[[k' amt] evts]| |] eqn:Hr; [|done..].
  injection E as Ha _. rewrite Ha in Hr.
  pose proof (Swap_spec swaps_example swaps_tx (NewCoin BTCAsset 1000000) [] ETHAsset NoopAddress
    200000 EmptyString EmptyString None (mkStreamingSwap EmptyString 0 0 0 0 0 0 0 0 [] []) 10000 k' 270000 evts
    swaps_example_pools swaps_example_trade ltac:(by split) ltac:(lia) eq_refl Hr)
    as (_ & _ & Hlen & k1 & _ & Hc & Hf & _).
  exists k', evts, k1. split_and!; [by rewrite Ha|exact Hlen| |exact Hf].
  rewrite Hc. apply Z.add_0_r.
Defined.
End swaps_witness.
