(* ===== verification/Affiliates.v ===== *)
(** [x/mayachain/helpers_affiliates.go]: how an affiliate fee is divided among the
    affiliates of a transaction and, for each of them, among its subaffiliates.
    The shares are accurate, every hierarchy without cycle is divided, and a
    name that is its own subaffiliate up to case is divided for ever. *)
From S2P Require Import Prelude GoText Sdk Shares Chains Keys Addresses Assets Coins Txs.
From S2P Require Import NodeAccounts Votes TxOuts ObservedTxs Mimirs Pools StreamingSwaps SwapMsgs Records.
From S2P Require Import MayaNames Stores Keeper Halts Gas TradeAccounts Swapper.

Record affiliateFeeShare := mkShare {
  share_amount : Z;
  share_cacaoDest : Address;
  share_mayaname : MAYAName;
  share_parent : string;
  share_subFeeBps : Z;
}.

(** [SplitN] of a name at its first dot, and the chain after it. *)
Definition FetchAddress `{Semver, CosmosBank, SdkAddress, MapRange, AddressLib} (k : KVStore)
    (name : string) (chain : Chain) : outcome Address :=
  match NewAddress name (kv_version k) with
  | Ok addr => Ok addr
  | Panic => Panic
  | Err _ =>
      let '(part, rest) := split_at "." name in
      chain ← match rest with Some c => NewChain c | None => Ok chain end;
      if MAYANameExists k part then
        mayaname ← GetMAYAName k part;
        Ok (GetAlias mayaname chain)
      else Err "%s is not recognizable"
  end.

Section affiliates.
Context `{V : Semver} `{B : CosmosBank} `{A : SdkAddress} `{R : MapRange} `{L : AddressLib}.
Context `{U : SdkUint} `{D : SdkDec}.
Implicit Types k : KVStore.

(** ** Dividing a fee *)

(** The slice of subaffiliates that a loop ranges over, and the length that the
    record in hand still has: removing an entry shifts the entries after it to
    the left in the same array, while the loop goes on by index. *)
Definition shift_out (name : string) (arr : list MAYANameSubaffiliate) (len : nat)
  : list MAYANameSubaffiliate * nat :=
  match list_find (fun s => sub_named name s = true) (take len arr) with
  | Some (i, _) => (take i arr ++ drop (S i) (take len arr) ++ drop (len - 1) arr, (len - 1)%nat)
  | None => (arr, len)
  end.

(** The name of a subaffiliate, and where its CACAO goes: [None] when it is
    neither a name nor an address, and is removed; after an error it is skipped. *)
Definition sub_target k (name : string) : outcome (option (MAYAName * Address)) :=
  if MAYANameExists k name then
    match GetMAYAName k name with
    | Ok mn =>
        let dest :=
          if Asset_IsEmpty (PreferredAsset mn) then
            let dest := GetAlias mn BASEChain in
            if Address_IsEmpty dest then acc_string (MN_Owner mn) else dest
          else NoAddress in
        Ok (Some (mn, dest))
    | Err e => Err e
    | Panic => Panic
    end
  else
    match FetchAddress k name BASEChain with
    | Ok addr => Ok (Some (EmptyMAYAName, addr))
    | Err _ => Ok None
    | Panic => Panic
    end.

(** What a run returns, and [None] when it ran out of fuel. *)
Definition shares_result : Type := option (KVStore * list affiliateFeeShare * Z).

(** The shares of the subaffiliates of a subaffiliate, and the ticks of a basis
    point that are left to itself. *)
Definition nested_shares (nested : KVStore -> MAYAName -> Z -> Z -> outcome shares_result)
    (granularity inputAmt : Z) (subAff : MAYANameSubaffiliate) (subAffMayaname : MAYAName) k
    (shares : list affiliateFeeShare) : outcome shares_result :=
  finalAffBps ← uint_mul64 (Sub_Bps subAff) granularity;
  if negb (String.eqb (Name subAffMayaname) EmptyString)
     && (0 <? length (Subaffiliates subAffMayaname))%nat
  then
    let subAmt := GetSafeShare (Sub_Bps subAff) MaxBasisPts inputAmt in
    r ← nested k subAffMayaname subAmt 0;
    match r with
    | None => Ok None
    | Some (k, subShares, remainingSubAffBps) =>
        p ← uint_mul remainingSubAffBps (Sub_Bps subAff);
        q ← uint_quo64 p granularity;
        Ok (Some (k, shares ++ subShares, q))
    end
  else Ok (Some (k, shares, finalAffBps)).

(** The loop over the subaffiliates of [mayaname]: [i] is the index, [todo] the
    iterations left, [arr] and [len] the array and the record's length. *)
Fixpoint subaffiliates_loop
    (nested : KVStore -> MAYAName -> Z -> Z -> outcome shares_result)
    (granularity : Z) (mayaname : MAYAName) (inputAmt : Z) (todo i : nat) k
    (arr : list MAYANameSubaffiliate) (len : nat) (shares : list affiliateFeeShare) (remaining : Z)
  : outcome shares_result :=
  match todo with
  | O => Ok (Some (k, shares, remaining))
  | S todo' =>
      match arr !! i with
      | None => Panic
      | Some subAff =>
          match sub_target k (Sub_Name subAff) with
          | Panic => Panic
          | Err _ =>
              subaffiliates_loop nested granularity mayaname inputAmt todo' (S i) k arr len shares
                remaining
          | Ok None =>
              let '(arr, len) := shift_out (Sub_Name subAff) arr len in
              let k := SetMAYAName k (with_Subaffiliates mayaname (take len arr)) in
              subaffiliates_loop nested granularity mayaname inputAmt todo' (S i) k arr len shares
                remaining
          | Ok (Some (subAffMayaname, cacaoDest)) =>
              if remaining <? Sub_Bps subAff then Ok (Some (k, shares, remaining))
              else
                remaining ← uint_sub remaining (Sub_Bps subAff);
                r ← nested_shares nested granularity inputAmt subAff subAffMayaname k shares;
                match r with
                | None => Ok None
                | Some (k, shares, finalAffBps) =>
                    whole ← uint_mul64 MaxBasisPts granularity;
                    let subAmt := GetSafeShare finalAffBps whole inputAmt in
                    let share := mkShare subAmt cacaoDest subAffMayaname (Name mayaname) finalAffBps in
                    subaffiliates_loop nested granularity mayaname inputAmt todo' (S i) k arr len
                      (shares ++ [share]) remaining
                end
          end
      end
  end.

(** The basis points the subaffiliates may share: of the transaction for the
    affiliates of the root, whose name is empty, and of the name's own fee below. *)
Definition max_sub_bps k (mayaname : MAYAName) (maxTotalAffBps : Z) : Z :=
  if String.eqb (Name mayaname) EmptyString then
    if maxTotalAffBps =? 0 then u64 (GetConfigInt64 k "MaxAffiliateFeeBasisPoints")
    else maxTotalAffBps
  else MaxBasisPts.

Fixpoint calculateNestedAffiliateSharesV118 (fuel : nat) k (mayaname : MAYAName)
    (inputAmt maxTotalAffBps : Z) : outcome shares_result :=
  match fuel with
  | O => Ok None
  | S fuel =>
      let granularity := u64 (GetConfigInt64 k "AffiliateFeeTickGranularity") in
      let subs := Subaffiliates mayaname in
      subaffiliates_loop (calculateNestedAffiliateSharesV118 fuel) granularity mayaname inputAmt
        (length subs) 0 k subs (length subs) [] (max_sub_bps k mayaname maxTotalAffBps)
  end.

(** The affiliates of a transaction are the subaffiliates of a name without name. *)
Definition virtualMayaname (affiliates : list string) (affiliatesBps : list Z) : outcome MAYAName :=
  if (length affiliatesBps <? length affiliates)%nat then Panic
  else Ok (NewMAYAName EmptyString 0 [] EmptyAsset EmptyString 0
             (zip_with mkMAYANameSubaffiliate affiliates affiliatesBps)).

Definition calculateAffiliateSharesV118 (fuel : nat) k (inputAmount : Z) (affiliates : list string)
    (affiliatesBps : list Z) (maxTotalAffBps : Z) : outcome shares_result :=
  root ← virtualMayaname affiliates affiliatesBps;
  calculateNestedAffiliateSharesV118 fuel k root inputAmount maxTotalAffBps.
End affiliates.

(** ** What the division changes *)

Section names_only.
Context `{V : Semver} `{B : CosmosBank} `{A : SdkAddress} `{R : MapRange}.
Implicit Types k : KVStore.

(** Only registered names are written. *)
Definition names_only k k' : Prop := exists names, k' = set_kv_names k names.

#[export] Instance names_only_preorder : PreOrder names_only.
Proof.
  split.
  - intros k. exists (kv_names k). by destruct k.
  - intros k1 k2 k3 [n ->] [n' ->]. by exists n'.
Qed.

Lemma names_only_set k m : names_only k (SetMAYAName k m).
Proof. by eexists. Qed.

Lemma names_only_config k k' key : names_only k k' -> GetConfigInt64 k' key = GetConfigInt64 k key.
Proof. by intros [n ->]. Qed.
End names_only.

(** ** The array the loop ranges over *)

Lemma shift_out_spec (P : MAYANameSubaffiliate -> Prop) name arr len arr' len' :
  shift_out name arr len = (arr', len') -> Forall P arr -> (len <= length arr)%nat ->
  Forall P arr' /\ length arr' = length arr /\ (len' <= length arr')%nat.
Proof.
  unfold shift_out. intros E HP Hlen.
  destruct (list_find _ _) as [[i s]|] eqn:Hf; injection E as <- <-; [|done].
  apply list_find_Some in Hf as (Hi%lookup_lt_Some & _). rewrite length_take in Hi.
  rewrite !length_app, !length_drop, !length_take. split_and!; [|lia..].
  apply Forall_app. split; [by apply Forall_take|]. apply Forall_app.
  split; apply Forall_drop; [by apply Forall_take|done].
Qed.

Lemma div_mul_le a b c : 0 <= a -> 0 < b -> 0 <= c -> a / b * c * b <= a * c.
Proof. intros. pose proof (Z.mul_div_le a b ltac:(lia)). nia. Qed.

(** ** The shares are accurate *)

Section accuracy.
Context `{V : Semver} `{B : CosmosBank} `{A : SdkAddress} `{R : MapRange} `{L : AddressLib}.
Context `{U : SdkUint} `{UL : !SdkUintLaws U} `{D : SdkDec} `{DL : !SdkDecLaws D}.
Implicit Types k : KVStore.

(** The shares of a budget of basis points of an amount. Each share may be off
    by four units: two from its own rounding, two from that of the amount its
    subaffiliates divide. *)
Definition within_budget (amt budget : Z) (shares : list affiliateFeeShare) : Prop :=
  Forall (fun s => 0 <= share_amount s) shares /\
  sumZ share_amount shares * 10 ^ 4 <= budget * amt + 4 * 10 ^ 4 * Z.of_nat (length shares).

Lemma within_budget_nil amt : within_budget amt 0 [].
Proof. by split; [constructor|cbn]. Qed.

Lemma within_budget_app amt b1 b2 l1 l2 :
  within_budget amt b1 l1 -> within_budget amt b2 l2 -> within_budget amt (b1 + b2) (l1 ++ l2).
Proof.
  intros [H1 H2] [H3 H4]. split; [by apply Forall_app|].
  rewrite sumZ_app, length_app, Nat2Z.inj_add. lia.
Qed.

Lemma GetSafeShare_close part total alloc :
  0 <= part <= total -> 0 < total < 2 ^ 255 -> 0 <= alloc <= 10 ^ 17 ->
  0 <= GetSafeShare part total alloc <= alloc /\
  GetSafeShare part total alloc * total <= part * alloc + 2 * total.
Proof.
  intros Hp Ht Ha. destruct (decide (part = 0)) as [->|].
  - unfold GetSafeShare, GetUncappedShare. destruct (Z.leb_spec total 0); [lia|]. cbn. lia.
  - destruct (GetSafeShare_error part total alloc) as (? & H & _); [lia..|].
    rewrite Z.min_l in H by lia. lia.
Qed.

(** A subaffiliate that shares with nobody. *)
Lemma leaf_budget amt bps s : 0 <= bps <= 10 ^ 4 -> 0 <= amt <= 10 ^ 17 ->
  share_amount s = GetSafeShare (bps * 100) (10 ^ 6) amt -> within_budget amt bps [s].
Proof.
  intros Hb Ha E.
  destruct (GetSafeShare_close (bps * 100) (10 ^ 6) amt) as [H1 H2]; [lia..|].
  split; [repeat constructor; lia|]. cbn [length]. unfold sumZ; cbn. lia.
Qed.

(** A subaffiliate that shares with others: they have taken all but [r] of it. *)
Lemma node_budget amt bps r inner s : 0 <= bps <= 10 ^ 4 -> 0 <= r <= 10 ^ 4 -> 0 <= amt <= 10 ^ 17 ->
  within_budget (GetSafeShare bps (10 ^ 4) amt) (10 ^ 4 - r) inner ->
  share_amount s = GetSafeShare (r * bps / 100) (10 ^ 6) amt ->
  within_budget amt bps (inner ++ [s]).
Proof.
  intros Hb Hr Ha [Hpos Hsum] E.
  destruct (GetSafeShare_close bps (10 ^ 4) amt) as [H1 H2]; [lia..|].
  assert (Hq : 0 <= r * bps / 100 <= 10 ^ 6).
  { split; [apply Z.div_pos; nia|]. apply Z.div_le_upper_bound; nia. }
  destruct (GetSafeShare_close (r * bps / 100) (10 ^ 6) amt) as [H3 H4]; [lia..|].
  assert (Hdiv : r * bps / 100 * amt * 100 <= r * bps * amt) by (apply div_mul_le; nia).
  rewrite <- E in H3, H4. split; [apply Forall_app; split; [done|]; repeat constructor; lia|].
  rewrite sumZ_app, length_app. cbn [length]. unfold sumZ at 2; cbn.
  set (sub := GetSafeShare bps (10 ^ 4) amt) in *. clearbody sub.
  set (q := r * bps / 100) in *. clearbody q.
  assert ((10 ^ 4 - r) * sub * 10 ^ 4 <= (10 ^ 4 - r) * (bps * amt + 2 * 10 ^ 4)).
  { rewrite <- Z.mul_assoc. apply Z.mul_le_mono_nonneg_l; lia. }
  nia.
Qed.

(** The granularity the formula of a name with subaffiliates is written for. *)
Definition granular k : Prop := GetConfigInt64 k "AffiliateFeeTickGranularity" = 100.

(** What a call divides, from a budget of which [remaining] is left. *)
Definition divides k (amt budget : Z) (r : KVStore * list affiliateFeeShare * Z) : Prop :=
  let '(k', shares, remaining) := r in
  names_only k k' /\ 0 <= remaining <= budget /\ within_budget amt (budget - remaining) shares.

Lemma divides_step k k1 amt b1 rem new r : names_only k k1 -> 0 <= b1 - rem ->
  within_budget amt (b1 - rem) new -> divides k1 amt rem r ->
  divides k amt b1 (r.1.1, new ++ r.1.2, r.2).
Proof.
  destruct r as [[k' shares] r]. intros Hk Hle Hnew (Hk' & Hr & Hs). cbn.
  split_and!; [by etrans|lia..|].
  replace (b1 - r) with (b1 - rem + (rem - r)) by lia. by apply within_budget_app.
Qed.

(** A call of the division on the subaffiliates of a name. *)
Definition nested_divides (nested : KVStore -> MAYAName -> Z -> Z -> outcome shares_result) : Prop :=
  forall k m a r, granular k -> 0 <= a <= 10 ^ 17 -> Name m <> EmptyString ->
    nested k m a 0 = Ok (Some r) -> divides k a (10 ^ 4) r.

Lemma nested_shares_divides nested amt k s mn shares k1 shares1 final :
  nested_divides nested -> granular k -> 0 <= amt <= 10 ^ 17 -> Sub_Bps s <= 10 ^ 4 ->
  nested_shares nested 100 amt s mn k shares = Ok (Some (k1, shares1, final)) ->
  names_only k k1 /\ 0 <= Sub_Bps s /\
  exists new, shares1 = shares ++ new /\
    forall share, share_amount share = GetSafeShare final (10 ^ 6) amt ->
      within_budget amt (Sub_Bps s) (new ++ [share]).
Proof.
  intros Hnested Hk Ha Hs E. unfold nested_shares in E. rewrite uint_mul64_law in E.
  apply bind_Ok in E as (ticks & [-> [Ht _]]%checked_Ok & E).
  destruct (_ && _) eqn:Hsub.
  - apply andb_prop in Hsub as [Hn%negb_true_iff%String.eqb_neq _].
    apply bind_Ok in E as ([[[k2 inner] left]|] & Hin & E); [|done].
    destruct (GetSafeShare_close (Sub_Bps s) MaxBasisPts amt) as [Hsa _];
      [unfold MaxBasisPts; lia..|].
    apply Hnested in Hin as (? & Hleft & Hin); [|done|lia|done].
    rewrite uint_mul_law in E. apply bind_Ok in E as (p & [-> _]%checked_Ok & E).
    rewrite uint_quo64_law in E. apply bind_Ok in E as (q & [-> _]%checked_Ok & E).
    injection E as <- <- <-. split_and!; [done|lia|]. exists inner. split; [done|]. intros share Hshare.
    apply (node_budget _ _ left); [lia..|done|]. by rewrite Hshare, Z.quot_div_nonneg by nia.
  - injection E as <- <- <-. split_and!; [done|lia|]. exists []. split; [by rewrite app_nil_r|].
    intros share Hshare. apply leaf_budget; [lia..|done].
Qed.

Lemma granular_names k k' : names_only k k' -> granular k -> granular k'.
Proof. intros E. unfold granular. by rewrite (names_only_config k k'). Qed.

Lemma divides_nothing k amt remaining : 0 <= remaining ->
  divides k amt remaining (k, [], remaining).
Proof. intros. split_and!; [done|lia..|]. rewrite Z.sub_diag. apply within_budget_nil. Qed.

(** The loop appends to the shares it is given. *)
Lemma loop_divides nested amt todo : nested_divides nested -> 0 <= amt <= 10 ^ 17 ->
  forall m i k arr len shares remaining r, granular k -> 0 <= remaining <= 10 ^ 4 ->
  subaffiliates_loop nested 100 m amt todo i k arr len shares remaining = Ok (Some r) ->
  exists new, r.1.2 = shares ++ new /\ divides k amt remaining (r.1.1, new, r.2).
Proof.
  intros Hnested Ha. induction todo as [|todo IH]; intros m i k arr len shares remaining r Hk Hr E.
  { injection E as <-. exists []. cbn. by split; [rewrite app_nil_r|apply divides_nothing; lia]. }
  cbn [subaffiliates_loop] in E. destruct (arr !! i) as [s|]; [|done].
  destruct (sub_target k (Sub_Name s)) as [[[mn dest]|]|e|]; [|..|by eapply IH|done].
  - destruct (Z.ltb_spec remaining (Sub_Bps s)) as [|Hle].
    { injection E as <-. exists []. cbn. by split; [rewrite app_nil_r|apply divides_nothing; lia]. }
    rewrite uint_sub_law in E. apply bind_Ok in E as (rem & [-> [Hrem _]]%checked_Ok & E).
    apply bind_Ok in E as ([[[k1 shares1] final]|] & Hx & E); [|done].
    apply nested_shares_divides in Hx as (Hk1 & ? & new & -> & Hnew); [|done|done|done|lia].
    rewrite uint_mul64_law in E. change (checked (MaxBasisPts * 100)) with (Ok (10 ^ 6)) in E.
    cbn [mbind outcome_bind] in E. apply IH in E as (new' & Hs & Hd);
      [|by eapply granular_names|lia].
    exists ((new ++ [mkShare (GetSafeShare final (10 ^ 6) amt) dest mn (Name m) final]) ++ new').
    split; [by rewrite Hs, <- !app_assoc|].
    apply (divides_step k k1 amt remaining (remaining - Sub_Bps s) _ (r.1.1, new', r.2));
      [done|lia| |done].
    replace (remaining - (remaining - Sub_Bps s)) with (Sub_Bps s) by lia. by apply Hnew.
  - destruct (shift_out _ arr len) as [arr' len'].
    assert (Hset := names_only_set k (with_Subaffiliates m (take len' arr'))).
    apply IH in E as (new & Hnew & Hd); [|by eapply granular_names|done].
    exists new. split; [done|]. destruct Hd as (Hd & ?). split; [by etrans|done].
Qed.

(** One name's subaffiliates, from the basis points that they may share. *)
Lemma nested_divides_all fuel k m amt maxTotal r : granular k -> 0 <= amt <= 10 ^ 17 ->
  0 <= max_sub_bps k m maxTotal <= 10 ^ 4 ->
  calculateNestedAffiliateSharesV118 fuel k m amt maxTotal = Ok (Some r) ->
  divides k amt (max_sub_bps k m maxTotal) r.
Proof.
  revert k m amt maxTotal r. induction fuel as [|fuel IH]; [done|]; intros k m amt maxTotal r Hk Ha Hmax E.
  cbn [calculateNestedAffiliateSharesV118] in E. rewrite Hk in E. change (u64 100) with 100 in E.
  destruct r as [[k' shares] rem].
  eapply loop_divides in E as (new & Hnew & Hd); [|..|done|done|done].
  - cbn in Hnew, Hd. by rewrite Hnew.
  - intros k1 m1 a r1 Hk1 Ha1 Hn E1.
    assert (Hm : max_sub_bps k1 m1 0 = 10 ^ 4).
    { unfold max_sub_bps. by rewrite (proj2 (String.eqb_neq _ _) Hn). }
    rewrite <- Hm. apply (IH _ _ _ _ _ Hk1 Ha1); [by rewrite Hm|done].
Qed.

(** C27: with the tick of a fee at its default, AffiliateFeeTickGranularity = 100, and
    amounts up to 10^17, an affiliate fee is never overdrawn: whatever the affiliates
    of a transaction and the subaffiliates among which they divide their shares, no
    share is negative and together they take at most the basis points allowed of
    the amount, at most all of it, up to four units for each share. Nothing but names is
    written. Another tick may overdraw: what is left to a name is then divided by the tick
    where it should be divided by 100. *)
Theorem affiliate_shares_within_limit fuel k amt affiliates bps maxTotal k' shares remaining :
  let allowed := max_sub_bps k EmptyMAYAName maxTotal in
  GetConfigInt64 k "AffiliateFeeTickGranularity" = 100 -> 0 <= amt <= 10 ^ 17 ->
  0 <= allowed <= 10 ^ 4 ->
  calculateAffiliateSharesV118 fuel k amt affiliates bps maxTotal = Ok (Some (k', shares, remaining)) ->
  (exists names, k' = set_kv_names k names) /\
  Forall (fun s => 0 <= share_amount s) shares /\
  sumZ share_amount shares * 10 ^ 4 <= allowed * amt + 4 * 10 ^ 4 * Z.of_nat (length shares).
Proof.
  intros allowed Hk Ha Hmax E. unfold calculateAffiliateSharesV118 in E.
  apply bind_Ok in E as (root & Hroot & E). unfold virtualMayaname in Hroot.
  destruct (_ <? _)%nat; [done|]. injection Hroot as <-.
  apply nested_divides_all in E as (Hn & Hr & Hp & Hs); [|done|done|done].
  split_and!; [done|done|]. change (max_sub_bps k _ maxTotal) with allowed in Hr, Hs. nia.
Qed.
End accuracy.

(** ** The division of a hierarchy without cycle returns *)

Section termination.
Context `{V : Semver} `{B : CosmosBank} `{A : SdkAddress} `{R : MapRange} `{L : AddressLib}.
Context `{U : SdkUint} `{D : SdkDec}.
Implicit Types k : KVStore.

Definition sub_key (s : MAYANameSubaffiliate) : string := GetKey (name_key (Sub_Name s)).

Definition subs_below (rank : string -> nat) (n : nat) (l : list MAYANameSubaffiliate) : Prop :=
  Forall (fun s => rank (sub_key s) < n)%nat l.

(** A rank under which every subaffiliate of a served name is lower: there is one
    when no name is below itself. *)
Definition ranked (rank : string -> nat) k : Prop := forall key m, kv_names k !! key = Some m ->
  key = GetKey (MAYAName_Key m) /\
  (kv_height k <= name_expiration k m -> subs_below rank (rank key) (Subaffiliates m)).

Lemma ranked_set rank k m : ranked rank k ->
  subs_below rank (rank (GetKey (MAYAName_Key m))) (Subaffiliates m) -> ranked rank (SetMAYAName k m).
Proof.
  intros Hk Hm key m'. cbn. intros [[<- <-]|[_ H]]%lookup_insert_Some; [done|by apply (Hk key)].
Qed.

(** A subaffiliate that has subaffiliates is a stored name under its own key. *)
Lemma sub_target_stored k s mn dest : sub_target k (Sub_Name s) = Ok (Some (mn, dest)) ->
  Subaffiliates mn <> [] ->
  kv_names k !! sub_key s = Some mn /\ kv_height k <= name_expiration k mn.
Proof.
  unfold sub_target, GetMAYAName, sub_key. destruct (MAYANameExists k (Sub_Name s)).
  - destruct (kv_names k !! _) as [m|]; [|done].
    destruct (Z.ltb_spec (name_expiration k m) (kv_height k)); intros [= <- _]; [done|].
    intros _. by split.
  - destruct (FetchAddress _ _ _); [intros [= <- _]| |]; done.
Qed.

Definition returns (rank : string -> nat) (o : outcome shares_result) : Prop :=
  match o with
  | Ok None => False
  | Ok (Some (k, _, _)) => ranked rank k
  | _ => True
  end.

Lemma returns_bind {X} rank (m : outcome X) f :
  (forall x, m = Ok x -> returns rank (f x)) -> returns rank (m ≫= f).
Proof. destruct m as [x|e|]; [intros H; by apply H|done..]. Qed.

Definition returns_below rank (n : nat) (nested : KVStore -> MAYAName -> Z -> Z -> outcome shares_result)
  : Prop :=
  forall k m a, ranked rank k -> (rank (GetKey (MAYAName_Key m)) < n)%nat ->
    subs_below rank (rank (GetKey (MAYAName_Key m))) (Subaffiliates m) ->
    returns rank (nested k m a 0).

Lemma nested_shares_returns rank nested n g amt s mn dest k shares :
  returns_below rank n nested -> ranked rank k -> (rank (sub_key s) < n)%nat ->
  sub_target k (Sub_Name s) = Ok (Some (mn, dest)) ->
  returns rank (nested_shares nested g amt s mn k shares).
Proof.
  intros Hnested Hk Hs Ht. unfold nested_shares. apply returns_bind. intros ticks _.
  destruct (_ && _) eqn:E; [|done]. apply andb_prop in E as [_ E%Nat.ltb_lt].
  apply sub_target_stored in Ht as [Ht Hserved]; [|by intros H; rewrite H in E; cbn in E; lia].
  destruct (Hk _ _ Ht) as [Hkey Hsubs]. specialize (Hsubs Hserved).
  specialize (Hnested k mn (GetSafeShare (Sub_Bps s) MaxBasisPts amt) Hk).
  rewrite <- Hkey in Hnested. specialize (Hnested Hs Hsubs).
  destruct (nested _ _ _ _) as [[[[k2 inner] left]|]|e|]; try done. cbn [mbind outcome_bind].
  apply returns_bind. intros p _. apply returns_bind. by intros q _.
Qed.

Lemma loop_returns rank nested n g amt m todo : returns_below rank n nested ->
  forall i k arr len shares remaining, ranked rank k ->
  (rank (GetKey (MAYAName_Key m)) <= n)%nat ->
  subs_below rank (rank (GetKey (MAYAName_Key m))) arr -> (len <= length arr)%nat ->
  returns rank (subaffiliates_loop nested g m amt todo i k arr len shares remaining).
Proof.
  intros Hnested. induction todo as [|todo IH]; intros i k arr len shares remaining Hk Hn Harr Hlen; [done|].
  cbn [subaffiliates_loop]. destruct (arr !! i) as [s|] eqn:Hi; [|done].
  assert (Hs := Forall_lookup_1 _ _ _ _ Harr Hi). cbn in Hs.
  destruct (sub_target k (Sub_Name s)) as [[[mn dest]|]|e|] eqn:Ht; [|..|by apply IH|done].
  - destruct (_ <? _); [done|]. apply returns_bind. intros rem _. apply returns_bind.
    intros x Hx. eapply nested_shares_returns in Hnested; [|exact Hk| |exact Ht]; [|lia].
    rewrite Hx in Hnested. destruct x as [[[k1 shares1] final]|]; [|done].
    apply returns_bind. intros whole _. by apply IH.
  - destruct (shift_out _ arr len) as [arr' len'] eqn:Hsh.
    destruct (shift_out_spec _ _ _ _ _ _ Hsh Harr Hlen) as (Harr' & _ & Hlen').
    apply IH; [|done..]. apply ranked_set; [done|]. cbn. by apply Forall_take.
Qed.

Lemma nested_returns rank fuel k m amt maxTotal : ranked rank k ->
  subs_below rank (rank (GetKey (MAYAName_Key m))) (Subaffiliates m) ->
  (rank (GetKey (MAYAName_Key m)) < fuel)%nat ->
  returns rank (calculateNestedAffiliateSharesV118 fuel k m amt maxTotal).
Proof.
  revert k m amt maxTotal. induction fuel as [|fuel IH]; [lia|]. intros k m amt maxTotal Hk Hm Hf.
  cbn [calculateNestedAffiliateSharesV118]. apply (loop_returns _ _ fuel); [|done|lia|done|done].
  intros k' m' a Hk' ? ?. by apply IH.
Qed.

(** A run that returned returns the same with more fuel. *)
Definition agrees (nested nested' : KVStore -> MAYAName -> Z -> Z -> outcome shares_result) : Prop :=
  forall k m a, nested k m a 0 <> Ok None -> nested' k m a 0 = nested k m a 0.

Lemma bind_congr {X} (m : outcome X) (f g : X -> outcome shares_result) :
  (forall x, f x <> Ok None -> g x = f x) -> m ≫= f <> Ok None -> m ≫= g = m ≫= f.
Proof. destruct m as [x|e|]; cbn; auto. Qed.

Lemma nested_shares_agrees nested nested' g amt s mn k shares : agrees nested nested' ->
  nested_shares nested g amt s mn k shares <> Ok None ->
  nested_shares nested' g amt s mn k shares = nested_shares nested g amt s mn k shares.
Proof.
  intros H. unfold nested_shares. apply bind_congr. intros ticks. destruct (_ && _); [|done].
  intros Hr. rewrite H; [done|]. intros E. by rewrite E in Hr.
Qed.

Lemma loop_agrees nested nested' g amt m todo : agrees nested nested' ->
  forall i k arr len shares remaining,
  subaffiliates_loop nested g m amt todo i k arr len shares remaining <> Ok None ->
  subaffiliates_loop nested' g m amt todo i k arr len shares remaining
  = subaffiliates_loop nested g m amt todo i k arr len shares remaining.
Proof.
  intros H. induction todo as [|todo IH]; [done|]. intros i k arr len shares remaining.
  cbn [subaffiliates_loop]. destruct (arr !! i) as [s|]; [|done].
  destruct (sub_target _ _) as [[[mn dest]|]|e|]; [|..|by apply IH|done].
  - destruct (_ <? _); [done|]. apply bind_congr. intros rem Hr.
    rewrite (nested_shares_agrees nested nested'); [|done|by intros E; rewrite E in Hr].
    revert Hr. apply bind_congr. intros [[[k1 shares1] final]|]; [|done].
    apply bind_congr. intros whole. apply IH.
  - destruct (shift_out _ _ _). apply IH.
Qed.

Lemma nested_more_fuel fuel fuel' k m amt maxTotal : (fuel <= fuel')%nat ->
  calculateNestedAffiliateSharesV118 fuel k m amt maxTotal <> Ok None ->
  calculateNestedAffiliateSharesV118 fuel' k m amt maxTotal
  = calculateNestedAffiliateSharesV118 fuel k m amt maxTotal.
Proof.
  revert fuel' k m amt maxTotal. induction fuel as [|fuel IH]; [done|].
  intros [|fuel'] k m amt maxTotal Hle; [lia|]. cbn [calculateNestedAffiliateSharesV118].
  apply loop_agrees. intros k' m' a. apply IH. lia.
Qed.

(** C29: the division of a fee returns, with a result that does not depend on the
    fuel, whenever the registered names have a rank under which every
    subaffiliate is lower, which is the case when no name is below itself. *)
Theorem calculateAffiliateShares_returns rank k amt affiliates bps maxTotal :
  let top := rank (GetKey (name_key EmptyString)) in
  ranked rank k -> Forall (fun a => rank (GetKey (name_key a)) < top)%nat affiliates ->
  exists result, result <> Ok None /\ forall fuel, (top < fuel)%nat ->
    calculateAffiliateSharesV118 fuel k amt affiliates bps maxTotal = result.
Proof.
  intros top Hk Haffs. exists (calculateAffiliateSharesV118 (S top) k amt affiliates bps maxTotal).
  unfold calculateAffiliateSharesV118, virtualMayaname.
  destruct (_ <? _)%nat; [done|]. cbn [mbind outcome_bind].
  set (root := NewMAYAName _ _ _ _ _ _ _).
  assert (Hm : subs_below rank (rank (GetKey (MAYAName_Key root))) (Subaffiliates root)).
  { cbn. clear -Haffs. revert bps. induction Haffs; intros [|b bps]; constructor; [done|].
    apply IHHaffs. }
  pose proof (nested_returns rank (S top) k root amt maxTotal Hk Hm) as Hret.
  specialize (Hret (Nat.lt_succ_diag_r top)).
  assert (calculateNestedAffiliateSharesV118 (S top) k root amt maxTotal <> Ok None)
    by (intros E; by rewrite E in Hret).
  split; [done|]. intros fuel Hf. by apply nested_more_fuel.
Qed.

(** The recursion reaches what it must go through first. *)
Lemma first_share_diverges `{UL : !SdkUintLaws U} nested g m amt s subs k mn dest shares remaining :
  sub_target k (Sub_Name s) = Ok (Some (mn, dest)) -> Name mn <> EmptyString ->
  Subaffiliates mn <> [] -> 0 <= Sub_Bps s <= remaining -> remaining <= MaxBasisPts ->
  (forall a, nested k mn a 0 = Ok None) ->
  subaffiliates_loop nested (u64 g) m amt (length (s :: subs)) 0 k (s :: subs) (length (s :: subs))
    shares remaining = Ok None.
Proof.
  intros Ht Hname Hsubs Hbps Hr Hnested. cbn [length subaffiliates_loop lookup list_lookup]. rewrite Ht.
  rewrite (proj2 (Z.ltb_ge _ _) (proj2 Hbps)), uint_sub_law, checked_in
    by (unfold is_uint, MaxBasisPts in *; lia).
  cbn [mbind outcome_bind]. unfold nested_shares. rewrite (uint_mul64_law (Sub_Bps s)), checked_in.
  2: { unfold is_uint, MaxBasisPts, u64 in *. pose proof (Z.mod_pos_bound g (2 ^ 64) ltac:(lia)). nia. }
  rewrite (proj2 (String.eqb_neq _ _) Hname). destruct (Subaffiliates mn); [done|].
  cbn [mbind outcome_bind negb andb length Nat.ltb Nat.leb]. by rewrite Hnested.
Qed.

Lemma sub_target_name k n mn : MAYANameExists k n = true -> GetMAYAName k n = Ok mn ->
  exists dest, sub_target k n = Ok (Some (mn, dest)).
Proof. unfold sub_target. intros -> ->. by eexists. Qed.

(** A name that is its own first subaffiliate, whatever the case in which it is
    written, is divided for ever: no fuel is enough. *)
Lemma self_subaffiliate_diverges `{UL : !SdkUintLaws U} fuel k mn s subs amt maxTotal :
  MAYANameExists k (Name mn) = true -> GetMAYAName k (Name mn) = Ok mn ->
  Name mn <> EmptyString -> Subaffiliates mn = s :: subs ->
  ToLower (Sub_Name s) = ToLower (Name mn) -> 0 <= Sub_Bps s <= MaxBasisPts ->
  calculateNestedAffiliateSharesV118 fuel k mn amt maxTotal = Ok None.
Proof.
  intros Hex Hget Hname Hsubs Hlower Hbps. revert amt maxTotal.
  assert (Hsame : GetMAYAName k (Sub_Name s) = Ok mn).
  { revert Hget. unfold GetMAYAName, name_key. rewrite Hlower. destruct (kv_names k !! _); [|done].
    destruct (_ <? _); [|done]. intros [= E]. by rewrite <- E in Hsubs. }
  assert (Hex' : MAYANameExists k (Sub_Name s) = true).
  { unfold MAYANameExists in *. rewrite Hget in Hex. by rewrite Hsame. }
  destruct (sub_target_name _ _ _ Hex' Hsame) as [dest Ht].
  induction fuel as [|fuel IH]; [done|]; intros amt maxTotal.
  cbn [calculateNestedAffiliateSharesV118]. rewrite Hsubs.
  eapply first_share_diverges; [exact Ht|done|by rewrite Hsubs| | |done];
    unfold max_sub_bps; by rewrite (proj2 (String.eqb_neq _ _) Hname).
Qed.

(** So is a transaction whose first affiliate is such a name. *)
Lemma affiliate_diverges `{UL : !SdkUintLaws U} fuel k t b amt mn maxTotal :
  let allowed := max_sub_bps k EmptyMAYAName maxTotal in
  MAYANameExists k t = true -> GetMAYAName k t = Ok mn ->
  Name mn <> EmptyString -> Subaffiliates mn <> [] -> 0 <= b <= allowed -> allowed <= MaxBasisPts ->
  (forall fuel a, calculateNestedAffiliateSharesV118 fuel k mn a 0 = Ok None) ->
  calculateAffiliateSharesV118 fuel k amt [t] [b] maxTotal = Ok None.
Proof.
  intros allowed Hex Hget Hname Hsubs Hb Ha Hdiv. destruct fuel as [|fuel]; [done|].
  destruct (sub_target_name _ _ _ Hex Hget) as [dest Ht].
  by eapply first_share_diverges; [exact Ht|..].
Qed.
End termination.

(** ** Examples *)

Section affiliate_witnesses.
Import Reference ReferenceBank ReferenceRange ReferenceAddress.

Definition affiliate_constants (key : string) : Z :=
  if String.eqb key "AffiliateFeeTickGranularity" then 100
  else if String.eqb key "MaxAffiliateFeeBasisPoints" then 500
  else if String.eqb key "MultipleAffiliatesMaxCount" then 5 else 0.

Definition example_name (name : string) (subs : list MAYANameSubaffiliate) : MAYAName :=
  mkMAYAName name 1000 "alice" EmptyAsset [] None subs.

(** "dog" gives "cat" 40% of its fees. *)
Definition dog_and_cat : KVStore :=
  SetMAYAName
    (SetMAYAName (empty_kv (semver_release 1 123 0) affiliate_constants 10 empty)
       (example_name "cat" []))
    (example_name "dog" [mkMAYANameSubaffiliate "cat" 4000]).

Definition dog_shares : list affiliateFeeShare :=
  match calculateAffiliateSharesV118 3 dog_and_cat (10 ^ 10) ["dog"] [200] 0 with
  | Ok (Some (_, shares, _)) => shares
  | _ => []
  end.

Lemma affiliate_shares_within_limit_witness :
  map share_amount dog_shares = [80000000; 120000000] /\
  Forall (fun s => 0 <= share_amount s) dog_shares /\
  sumZ share_amount dog_shares * 10 ^ 4 <= 500 * 10 ^ 10 + 4 * 10 ^ 4 * 2.
Proof.
  split; [by vm_compute|].
  assert (Hs : dog_shares <> []) by by vm_compute. revert Hs. unfold dog_shares.
  destruct (calculateAffiliateSharesV118 3 dog_and_cat (10 ^ 10) ["dog"] [200] 0)
    as [[[[k shares] rem]|]| |] eqn:E; [|done..]. intros _.
  pose proof (affiliate_shares_within_limit 3 dog_and_cat (10 ^ 10) ["dog"] [200] 0 k shares rem
                ltac:(by vm_compute) ltac:(lia) ltac:(by vm_compute) E) as (_ & H1 & H2).
  split; [exact H1|]. assert (Hl : length shares = 2%nat).
  { assert (Hl : length dog_shares = 2%nat) by by vm_compute. unfold dog_shares in Hl. by rewrite E in Hl. }
  rewrite Hl in H2. exact H2.
Defined.

Definition dog_rank (key : string) : nat :=
  if String.eqb key (GetKey (name_key "cat")) then 0
  else if String.eqb key (GetKey (name_key "dog")) then 1 else 2.

Lemma dog_ranked : ranked dog_rank dog_and_cat.
Proof.
  intros key m. cbn [kv_names dog_and_cat SetMAYAName set_kv_names empty_kv].
  intros [[<- <-]|[_ [[<- <-]|[_ [=]]]%lookup_insert_Some]]%lookup_insert_Some;
    (split; [done|]); repeat constructor; vm_compute; lia.
Qed.

Lemma calculateAffiliateShares_returns_witness :
  exists result, result <> Ok None /\ forall fuel, (2 < fuel)%nat ->
    calculateAffiliateSharesV118 fuel dog_and_cat (10 ^ 10) ["dog"] [200] 0 = result.
Proof.
  apply (calculateAffiliateShares_returns dog_rank dog_and_cat (10 ^ 10) ["dog"] [200] 0);
    [apply dog_ranked|]. constructor; [|constructor]. vm_compute. lia.
Defined.

End affiliate_witnesses.
