(* ===== verification/Decimals.v ===== *)
(** Numbers in text: [strconv.ParseInt], [strconv.ParseUint], the printing of
    integers, and [big.ParseFloat] in base 10 as the memos use it. *)
From stdpp Require Import pretty.
From S2P Require Import Prelude GoText.

(** ** Digits *)

Definition digit_value (c : ascii) : Z := Z.of_nat (nat_of_ascii c) - 48.

(** The number of a text of digits after [acc]; [None] when a character is not a
    digit. *)
Fixpoint digits_after (acc : Z) (s : string) : option Z :=
  match s with
  | EmptyString => Some acc
  | String c s' => if is_digit c then digits_after (acc * 10 + digit_value c) s' else None
  end.

Definition parse_digits (s : string) : option Z :=
  if String.eqb s EmptyString then None else digits_after 0 s.

(** An optional sign, and whether it is a minus. *)
Definition split_sign (s : string) : bool * string :=
  match s with
  | String "-" s' => (true, s')
  | String "+" s' => (false, s')
  | _ => (false, s)
  end.

Definition ParseInt (s : string) : option Z :=
  let '(neg, t) := split_sign s in
  match parse_digits t with
  | Some n =>
      let v := if neg then - n else n in
      if (- 2 ^ 63 <=? v) && (v <? 2 ^ 63) then Some v else None
  | None => None
  end.

Definition ParseUint64 (s : string) : option Z :=
  match parse_digits s with
  | Some n => if n <? 2 ^ 64 then Some n else None
  | None => None
  end.

(** ["%d"] *)
Definition print_int (z : Z) : string :=
  if z <? 0 then String "-" (pretty (Z.to_N (- z))) else pretty (Z.to_N z).

(** ** Decimal fractions *)

(** The digits at the front of a text, and the rest. *)
Fixpoint take_digits (s : string) : string * string :=
  match s with
  | String c s' => if is_digit c then let '(d, r) := take_digits s' in (String c d, r)
                   else (EmptyString, s)
  | EmptyString => (EmptyString, EmptyString)
  end.

(** An exponent, of ten or of two: [None] when malformed. *)
Definition parse_exponent (s : string) : option (bool * Z) :=
  match s with
  | EmptyString => Some (false, 0)
  | String c s' =>
      let '(neg, t) := split_sign s' in
      match parse_digits t with
      | Some n =>
          let e := if neg then - n else n in
          if Ascii.eqb c "e" || Ascii.eqb c "E" then Some (false, e)
          else if Ascii.eqb c "p" || Ascii.eqb c "P" then Some (true, e)
          else None
      | None => None
      end
  end.

(** The integer part of [n / d] kept to 64 bits, towards zero. *)
Definition truncate64 (n d : Z) : Z :=
  let v := n / d in
  if v <? 2 ^ 64 then v
  else let shift := Z.log2 v - 63 in Z.shiftl (Z.shiftr v shift) shift.

(** The integer part of [big.ParseFloat(s, 10, 0, big.ToZero)], whose mantissa has
    64 bits. An infinity has the integer part 0. *)
Definition ParseFloatInt (s : string) : option Z :=
  let '(neg, t) := split_sign s in
  if String.eqb t "Inf" || String.eqb t "inf" then Some 0
  else
    let '(whole, rest) := take_digits t in
    let '(frac, rest) :=
      match rest with
      | String "." r => take_digits r
      | _ => (EmptyString, rest)
      end in
    match parse_digits (whole +:+ frac), parse_exponent rest with
    | Some m, Some (binary, e) =>
        let base := if binary : bool then 2 else 10 in
        let n := m * base ^ Z.max 0 e in
        let d := 10 ^ str_len frac * base ^ Z.max 0 (- e) in
        let v := truncate64 n d in
        Some (if neg then - v else v)
    | _, _ => None
    end.

(** ** Printing and parsing *)

Lemma str_app_nil_r (s : string) : s +:+ EmptyString = s.
Proof. induction s as [|c s IH]; [done|]. by rewrite str_app_cons, IH. Qed.

Lemma digit_char n : (n < 10)%N ->
  is_digit (pretty_N_char n) = true /\ digit_value (pretty_N_char n) = Z.of_N n.
Proof.
  intros Hn. assert (H : In n (map N.of_nat (seq 0 10))).
  { apply in_map_iff. exists (N.to_nat n). rewrite in_seq. lia. }
  repeat (destruct H as [<-|H]; [by vm_compute|]). done.
Qed.

Lemma digits_pretty_go x s : digits_after 0 (pretty_N_go x s) = digits_after (Z.of_N x) s.
Proof.
  revert s. induction (N.lt_wf_0 x) as [x _ IH]. intros s.
  destruct (decide (x = 0)%N) as [->|Hx]; [done|]. rewrite pretty_N_go_step by lia.
  rewrite IH by (apply N.div_lt; lia). cbn.
  destruct (digit_char (x mod 10)) as [-> ->]; [by apply N.mod_lt|]. f_equal.
  pose proof (N.div_mod x 10 ltac:(done)). lia.
Qed.

Lemma pretty_parses (n : N) : parse_digits (pretty n) = Some (Z.of_N n).
Proof.
  unfold parse_digits. assert (Hne : String.eqb (pretty n) EmptyString = false).
  { apply String.eqb_neq. intros E. pose proof (digits_pretty_go n EmptyString) as H.
    destruct (decide (n = 0)%N) as [->|Hn]; [by vm_compute in E|].
    unfold pretty, pretty_N in E. rewrite decide_False in E by done. rewrite E in H. cbn in H.
    injection H as H. lia. }
  rewrite Hne. unfold pretty, pretty_N. destruct (decide (n = 0)%N) as [->|]; [done|].
  by rewrite digits_pretty_go.
Qed.

Lemma pretty_no_sign (n : N) : split_sign (pretty n) = (false, pretty n).
Proof.
  pose proof (pretty_parses n) as H. unfold parse_digits in H.
  destruct (pretty n) as [|c s]; [done|]. cbn [String.eqb digits_after] in H.
  destruct (is_digit c) eqn:Hc; [|done].
  assert (Hsign : implb (is_digit c) (negb (Ascii.eqb c "-") && negb (Ascii.eqb c "+")) = true).
  { revert c Hc H. intros c _ _. revert c. apply ascii_ind_bool. by vm_compute. }
  rewrite Hc in Hsign. cbn in Hsign. apply andb_prop in Hsign as [H1 H2].
  cbn. destruct c as [[] [] [] [] [] [] [] []]; done.
Qed.

Lemma print_int_parses z : is_i64 z -> ParseInt (print_int z) = Some z.
Proof.
  unfold is_i64, ParseInt, print_int. intros Hz. destruct (Z.ltb_spec z 0).
  - cbn [split_sign]. rewrite pretty_parses. rewrite Z2N.id, Z.opp_involutive by lia.
    destruct (Z.leb_spec (- 2 ^ 63) z), (Z.ltb_spec z (2 ^ 63)); (done || lia).
  - rewrite pretty_no_sign, pretty_parses, Z2N.id by lia.
    destruct (Z.leb_spec (- 2 ^ 63) z), (Z.ltb_spec z (2 ^ 63)); (done || lia).
Qed.

Lemma ParseFloatInt_small (n : N) : (n < 2 ^ 64)%N -> ParseFloatInt (pretty n) = Some (Z.of_N n).
Proof.
  intros Hn. unfold ParseFloatInt. rewrite pretty_no_sign.
  assert (Htake : forall s z acc, digits_after acc s = Some z -> take_digits s = (s, EmptyString)).
  { induction s as [|c s IH]; intros z acc H; cbn in *; [done|]. destruct (is_digit c); [|done].
    by rewrite (IH _ _ H). }
  pose proof (pretty_parses n) as H. assert (Hd := H). unfold parse_digits in Hd.
  destruct (String.eqb (pretty n) EmptyString) eqn:Hne; [done|].
  assert (Hinf : String.eqb (pretty n) "Inf" || String.eqb (pretty n) "inf" = false).
  { apply orb_false_iff. split; apply String.eqb_neq; intros E; by rewrite E in Hd. }
  rewrite Hinf, (Htake _ _ _ Hd). cbn [parse_exponent].
  rewrite str_app_nil_r, H. cbn. unfold truncate64. rewrite Z.mul_1_r, Z.div_1_r.
  destruct (Z.ltb_spec (Z.of_N n) (2 ^ 64)); [done|lia].
Qed.
