(* ===== verification/Memos.v ===== *)
(** [x/mayachain/memo]: the memos that tell the chain what a transaction is for.
    The parser of a transaction's memo with the names registered at the keeper, at
    version 1.123.0, and the memos that the network writes itself. *)
From S2P Require Import Prelude GoText Sdk Shares Chains Keys Addresses Assets ShortCodes Coins Txs.
From S2P Require Import NodeAccounts Votes TxOuts ObservedTxs Mimirs Pools StreamingSwaps SwapMsgs LiquidityProviders Records.
From S2P Require Import MayaNames Stores Keeper Halts Gas TradeAccounts Swapper Affiliates Decimals.

(** [cosmos.ParseUint], which also reads hexadecimal, octal and underscores. *)
Class UintText := { uint_of_text : string -> option Z }.

(** ** Kinds of memo *)

Inductive TxType :=
| TxUnknown | TxAdd | TxWithdraw | TxSwap | TxLimitOrder | TxOutbound | TxDonate | TxBond
| TxUnbond | TxLeave | TxYggdrasilFund | TxYggdrasilReturn | TxReserve | TxRefund | TxMigrate
| TxRagnarok | TxNoOp | TxConsolidate | TxMAYAName | TxForgiveSlash | TxCacaoPoolDeposit
| TxCacaoPoolWithdraw | TxTradeAccountDeposit | TxTradeAccountWithdrawal.

#[export] Instance TxType_eq_dec : EqDecision TxType.
Proof. solve_decision. Defined.

Definition stringToTxTypeMap : list (string * TxType) :=
  [("add", TxAdd); ("+", TxAdd); ("withdraw", TxWithdraw); ("wd", TxWithdraw); ("-", TxWithdraw);
   ("swap", TxSwap); ("s", TxSwap); ("=", TxSwap); ("out", TxOutbound); ("donate", TxDonate);
   ("d", TxDonate); ("bond", TxBond); ("unbond", TxUnbond); ("leave", TxLeave);
   ("yggdrasil+", TxYggdrasilFund); ("yggdrasil-", TxYggdrasilReturn); ("reserve", TxReserve);
   ("refund", TxRefund); ("migrate", TxMigrate); ("ragnarok", TxRagnarok); ("noop", TxNoOp);
   ("consolidate", TxConsolidate); ("name", TxMAYAName); ("n", TxMAYAName); ("~", TxMAYAName);
   ("pool+", TxCacaoPoolDeposit); ("pool-", TxCacaoPoolWithdraw);
   ("trade+", TxTradeAccountDeposit); ("trade-", TxTradeAccountWithdrawal)].

Definition StringToTxType (s : string) : outcome TxType :=
  match List.find (fun e => String.eqb (fst e) (ToLower s)) stringToTxTypeMap with
  | Some (_, t) => Ok t
  | None => Err "invalid tx type: %s"
  end.

(** A type that the map lacks prints as nothing. *)
Definition TxType_String (tx : TxType) : string :=
  match tx with
  | TxAdd => "add" | TxWithdraw => "withdraw" | TxSwap => "swap" | TxOutbound => "out"
  | TxRefund => "refund" | TxDonate => "donate" | TxBond => "bond" | TxUnbond => "unbond"
  | TxLeave => "leave" | TxYggdrasilFund => "yggdrasil+" | TxYggdrasilReturn => "yggdrasil-"
  | TxReserve => "reserve" | TxMigrate => "migrate" | TxRagnarok => "ragnarok" | TxNoOp => "noop"
  | TxConsolidate => "consolidate" | TxMAYAName => "mayaname" | TxForgiveSlash => "forgive_slash"
  | TxCacaoPoolDeposit => "pool+" | TxCacaoPoolWithdraw => "pool-"
  | TxTradeAccountDeposit => "trade+" | TxTradeAccountWithdrawal => "trade-"
  | TxUnknown | TxLimitOrder => EmptyString
  end.

Definition TxType_IsInbound (tx : TxType) : bool :=
  match tx with
  | TxAdd | TxWithdraw | TxCacaoPoolDeposit | TxCacaoPoolWithdraw | TxTradeAccountDeposit | TxSwap
  | TxDonate | TxBond | TxUnbond | TxLeave | TxReserve | TxNoOp | TxMAYAName | TxForgiveSlash => true
  | _ => false
  end.

Definition TxType_IsOutbound (tx : TxType) : bool :=
  match tx with TxOutbound | TxRefund | TxRagnarok => true | _ => false end.

Definition TxType_IsInternal (tx : TxType) : bool :=
  match tx with
  | TxYggdrasilFund | TxYggdrasilReturn | TxMigrate | TxConsolidate => true
  | _ => false
  end.

Definition HasOutbound (tx : TxType) : bool :=
  match tx with
  | TxAdd | TxBond | TxCacaoPoolDeposit | TxTradeAccountDeposit | TxDonate | TxYggdrasilReturn
  | TxReserve | TxMigrate | TxRagnarok => false
  | _ => true
  end.

(** ** Memos *)

Record SwapMemo := mkSwapMemo {
  Swap_Asset : Asset;
  Swap_Destination : Address;
  Swap_SlipLimit : Z;
  Swap_AffiliateAddress : Address;
  Swap_AffiliateBasisPoints : Z;
  DexAggregator : string;
  DexTargetAddress : string;
  DexTargetLimit : option Z;
  Swap_OrderType : OrderType;
  StreamInterval : Z;
  StreamQuantity : Z;
  Swap_RefundAddress : Address;
  Affiliates : list string;
  AffiliatesBasisPoints : list Z;
}.

Record ManageMAYANameMemo := mkManageMAYANameMemo {
  NameMemo_Name : string;
  NameMemo_Chain : Chain;
  NameMemo_Address : Address;
  NameMemo_PreferredAsset : Asset;
  NameMemo_Expire : Z;
  NameMemo_Owner : AccAddress;
  NameMemo_AffiliateBps : Z;
  NameMemo_SubaffiliateName : list string;
  NameMemo_SubaffiliateBps : list Z;
}.

(** One case per struct that implements the interface. [EmptyMemo] also stands for
    the zero values that come with an error. *)
Inductive Memo :=
| EmptyMemo
| MSwap (m : SwapMemo)
| MAddLiquidity (asset : Asset) (addr affAddr : Address) (affPts tier : Z)
| MWithdrawLiquidity (asset : Asset) (amt : Z) (withdrawalAsset : Asset) (pairAddress : Address)
| MDonate (asset : Asset)
| MBond (asset : Asset) (addr additional : AccAddress) (units operatorFee : Z)
| MUnbond (asset : Asset) (addr additional : AccAddress) (units : Z)
| MLeave (addr : AccAddress)
| MOutbound (txID : TxID)
| MRefund (txID : TxID)
| MYggdrasilFund (blockHeight : Z)
| MYggdrasilReturn (blockHeight : Z)
| MMigrate (blockHeight : Z)
| MRagnarok (blockHeight : Z)
| MReserve
| MNoOp (action : string)
| MConsolidate
| MMAYAName (m : ManageMAYANameMemo)
| MCacaoPoolDeposit
| MCacaoPoolWithdraw (basisPoints affiliateBps : Z) (affiliates : list string)
    (affiliatesBasisPoints : list Z)
| MTradeAccountDeposit (addr : AccAddress)
| MTradeAccountWithdrawal (addr : Address).

Definition GetType (m : Memo) : TxType :=
  match m with
  | EmptyMemo => TxUnknown
  | MSwap _ => TxSwap
  | MAddLiquidity _ _ _ _ _ => TxAdd
  | MWithdrawLiquidity _ _ _ _ => TxWithdraw
  | MDonate _ => TxDonate
  | MBond _ _ _ _ _ => TxBond
  | MUnbond _ _ _ _ => TxUnbond
  | MLeave _ => TxLeave
  | MOutbound _ => TxOutbound
  | MRefund _ => TxRefund
  | MYggdrasilFund _ => TxYggdrasilFund
  | MYggdrasilReturn _ => TxYggdrasilReturn
  | MMigrate _ => TxMigrate
  | MRagnarok _ => TxRagnarok
  | MReserve => TxReserve
  | MNoOp _ => TxNoOp
  | MConsolidate => TxConsolidate
  | MMAYAName _ => TxMAYAName
  | MCacaoPoolDeposit => TxCacaoPoolDeposit
  | MCacaoPoolWithdraw _ _ _ _ => TxCacaoPoolWithdraw
  | MTradeAccountDeposit _ => TxTradeAccountDeposit
  | MTradeAccountWithdrawal _ => TxTradeAccountWithdrawal
  end.

Definition GetAffiliates (m : Memo) : list string :=
  match m with
  | MSwap s => Affiliates s
  | MCacaoPoolWithdraw _ _ affiliates _ => affiliates
  | _ => []
  end.

Definition GetAffiliatesBasisPoints (m : Memo) : list Z :=
  match m with
  | MSwap s => AffiliatesBasisPoints s
  | MCacaoPoolWithdraw _ _ _ bps => bps
  | _ => []
  end.

Definition GetDestination (m : Memo) : Address :=
  match m with
  | MSwap s => Swap_Destination s
  | MAddLiquidity _ addr _ _ _ => addr
  | _ => NoAddress
  end.

Definition GetTxID (m : Memo) : TxID :=
  match m with MOutbound t | MRefund t => t | _ => EmptyString end.

Definition GetBlockHeight (m : Memo) : Z :=
  match m with
  | MYggdrasilFund h | MYggdrasilReturn h | MMigrate h | MRagnarok h => h
  | _ => 0
  end.

(** ** The parser's state *)

(** The errors so far and how many fields are required. *)
Record pstate := mkPstate { p_errs : list string; p_required : Z }.

(** An early [return] with an error is [Err]. *)
Definition parsing (X : Type) : Type := pstate -> outcome (X * pstate).

#[export] Instance parsing_ret : MRet parsing := fun X x s => Ok (x, s).
#[export] Instance parsing_bind : MBind parsing := fun X Y f m s =>
  match m s with
  | Ok (x, s') => f x s'
  | Err e => Err e
  | Panic => Panic
  end.

Definition lift {X} (m : outcome X) : parsing X := fun s => x ← m; Ok (x, s).

Definition addErr (e : string) : parsing unit :=
  fun s => Ok (tt, mkPstate (p_errs s ++ [e]) (p_required s)).

Definition incRequired (required : bool) : parsing unit :=
  fun s => Ok (tt, if required then mkPstate (p_errs s) (p_required s + 1) else s).

Definition when (b : bool) (m : parsing unit) : parsing unit := if b then m else mret tt.

(** [strings.SplitN(s, sep, 3)]. *)
Definition split3 (sep : ascii) (s : string) : list string :=
  match split_at sep s with
  | (a, None) => [a]
  | (a, Some t) =>
      match split_at sep t with
      | (b, None) => [a; b]
      | (b, Some u) => [a; b; u]
      end
  end.

Section memo.
Context `{V : Semver} `{B : CosmosBank} `{A : SdkAddress} `{R : MapRange} `{L : AddressLib}.
Context `{U : SdkUint} `{T : UintText}.
Implicit Types (k : KVStore) (parts : list string).

(** ** Fields *)

Definition getp parts (idx : nat) : string := default EmptyString (parts !! idx).

(** What a field becomes when it cannot be read: an error, unless it is optional
    and empty. *)
Definition field {X} parts (idx : nat) (required : bool) (def : X) (value : option X) (e : string)
  : parsing X :=
  _ ← incRequired required;
  match value with
  | Some v => mret v
  | None =>
      _ ← when (required || negb (String.eqb (getp parts idx) EmptyString)) (addErr e);
      mret def
  end.

(** The value of a call that returns an error rather than panics. *)
Definition returned {X} (m : outcome X) : parsing (option X) :=
  match m with
  | Ok x => mret (Some x)
  | Err _ => mret None
  | Panic => fun _ => Panic
  end.

Definition getInt64 parts (idx : nat) (required : bool) (def : Z) : parsing Z :=
  field parts idx required def (ParseInt (getp parts idx)) "cannot parse '%s' as an int64: %w".

Definition getUint parts (idx : nat) (required : bool) (def : Z) : parsing Z :=
  field parts idx required def (uint_of_text (getp parts idx)) "cannot parse '%s' as an uint: %w".

Definition getUintWithScientificNotation parts (idx : nat) (required : bool) (def : Z) : parsing Z :=
  _ ← incRequired required;
  match ParseFloatInt (getp parts idx) with
  | Some i => lift (uint_of_big i)
  | None =>
      _ ← when (required || negb (String.eqb (getp parts idx) EmptyString))
            (addErr "cannot parse '%s' as an uint with sci notation: %w");
      mret def
  end.

Definition getUintWithMaxValue parts (idx : nat) (required : bool) (def max : Z) : parsing Z :=
  value ← getUint parts idx required def;
  if max <? value then
    _ ← when (required || negb (String.eqb (getp parts idx) EmptyString))
          (addErr "%s cannot exceed '%d'");
    mret max
  else mret value.

Definition getAccAddress parts (idx : nat) (required : bool) (def : AccAddress) : parsing AccAddress :=
  field parts idx required def (acc_from_bech32 (getp parts idx))
    "cannot parse '%s' as an AccAddress: %w".

Definition getAddress k parts (idx : nat) (required : bool) (def : Address) : parsing Address :=
  value ← returned (NewAddress (getp parts idx) (kv_version k));
  field parts idx required def value "cannot parse '%s' as an Address: %w".

(** An address or a name; on an error the address is empty. *)
Definition getAddressFromString k (val : string) (chain : Chain) (required : bool) : parsing Address :=
  addr ← returned (FetchAddress k val chain);
  match addr with
  | Some a => mret a
  | None =>
      _ ← when (required || negb (String.eqb val EmptyString))
            (addErr "cannot parse '%s' as an Address: %w");
      mret NoAddress
  end.

Definition getAddressWithKeeper k parts (idx : nat) (required : bool) (chain : Chain)
  : parsing Address :=
  _ ← incRequired required;
  getAddressFromString k (getp parts idx) chain required.

Definition getStringArrayBySeparator parts (idx : nat) (required : bool) (sep : ascii)
  : parsing (list string) :=
  _ ← incRequired required;
  mret (let value := getp parts idx in
        if String.eqb value EmptyString then [] else Split sep value).

(** Basis points as they were given, or the pointer [EmptyBps]: the code tells them
    apart by the pointer, so "501" is not empty. *)
Definition bps_value (b : option Z) : Z := default EmptyBps b.

Fixpoint parse_bps (required : bool) (max : Z) (strs : list string) (result : list (option Z))
  : parsing (list (option Z)) :=
  match strs with
  | [] => mret result
  | str :: strs' =>
      match uint_of_text str with
      | None =>
          if required then
            _ ← addErr "cannot parse '%s' as an uint: %w"; mret []
          else parse_bps required max strs' (result ++ [None])
      | Some u =>
          _ ← when (negb (u =? EmptyBps) && negb (max =? 0) && (max <? u))
                (addErr "uint value %s is greater than max value %s");
          parse_bps required max strs' (result ++ [Some u])
      end
  end.

Definition getUintArrayBySeparatorV121 parts (idx : nat) (required : bool) (sep : ascii) (max : Z)
  : parsing (list (option Z)) :=
  _ ← incRequired required;
  let value := getp parts idx in
  if String.eqb value EmptyString then mret [] else parse_bps required max (Split sep value) [].

Definition getAddressAndRefundAddressWithKeeper k parts (idx : nat) (required : bool) (chain : Chain)
  : parsing (Address * Address) :=
  _ ← incRequired required;
  '(destination, refundAddress) ←
    match split_at "/" (getp parts idx) with
    | (dest, Some refund) =>
        destination ← getAddressFromString k dest chain required;
        refundAddress ← returned (NewAddress refund (kv_version k));
        mret (destination, default NoAddress refundAddress)
    | (_, None) =>
        destination ← getAddressWithKeeper k parts idx false chain;
        mret (destination, NoAddress)
    end;
  _ ← when (Address_IsEmpty destination && negb (Address_IsEmpty refundAddress))
        (addErr "refund address is set but destination address is empty");
  mret (destination, refundAddress).

Definition getChain parts (idx : nat) (required : bool) (def : Chain) : parsing Chain :=
  value ← returned (NewChain (getp parts idx));
  field parts idx required def value "cannot parse '%s' as a chain: %w".

(** Version 1.123.0 returns what the failed call returns, when the field is optional
    and empty. *)
Definition getAssetV123 k parts (idx : nat) (required : bool) (def : Asset) : parsing Asset :=
  _ ← incRequired required;
  value ← returned (NewAssetWithShortCodes (kv_version k) (getp parts idx));
  match value with
  | Some v => mret v
  | None =>
      if required || negb (String.eqb (getp parts idx) EmptyString) then
        _ ← addErr "cannot parse '%s' as an asset: %w"; mret def
      else mret EmptyAsset
  end.

Definition getTxID parts (idx : nat) (required : bool) (def : TxID) : parsing TxID :=
  value ← returned (NewTxID (getp parts idx));
  field parts idx required def value "cannot parse '%s' as tx hash: %w".

(** ** Affiliates *)

Fixpoint check_affiliates k (names : list string) : outcome unit :=
  match names with
  | [] => Ok tt
  | name :: names' =>
      match FetchAddress k name BASEChain with
      | Ok _ => check_affiliates k names'
      | Err _ => Err "invalid affiliate mayaname or address: %w"
      | Panic => Panic
      end
  end.

(** The basis points of one of several names when only the first was given some. *)
Definition spread_bps k (bpsRequired : bool) (fee : option Z) (name : string) : outcome (option Z) :=
  if bpsRequired || negb (MAYANameExists k name) then Ok fee
  else
    match GetMAYAName k name with
    | Ok mn => Ok (if MN_AffiliateBps mn is Some _ then None else fee)
    | Err _ => Err "fail to get MAYAName %s"
    | Panic => Panic
    end.

Fixpoint mapM_outcome {X Y} (f : X -> outcome Y) (l : list X) : outcome (list Y) :=
  match l with
  | [] => Ok []
  | x :: l' => y ← f x; ys ← mapM_outcome f l'; Ok (y :: ys)
  end.

(** The default of a name, for basis points that were left empty. *)
Definition resolve_bps k (name : string) (bps : option Z) : outcome Z :=
  match bps with
  | Some b => Ok b
  | None =>
      if negb (MAYANameExists k name)
      then Err "cannot parse '%s' as a MAYAName while empty affiliate basis points provided at index %d"
      else
        match GetMAYAName k name with
        | Ok mn => Ok (GetAffiliateBps mn)
        | Err _ => Err "fail to get MAYAName %s"
        | Panic => Panic
        end
  end.

(** The basis points of all names, and their sum so far. *)
Fixpoint resolve_all k (names : list string) (bps : list (option Z)) (affiliatesBps : list Z)
    (totalAffBps : Z) : outcome (list Z * Z) :=
  match names, bps with
  | name :: names', b :: bps' =>
      v ← resolve_bps k name b;
      totalAffBps ← uint_add totalAffBps v;
      resolve_all k names' bps' (affiliatesBps ++ [v]) totalAffBps
  | _, _ => Ok (affiliatesBps, totalAffBps)
  end.

Definition getMultipleAffiliatesAndBpsV118 k (bpsRequired : bool) (totalBpsMax : Z)
    (affiliatesNames : list string) (affiliatesBpsIn : list (option Z)) : outcome (list Z * Z) :=
  _ ← check_affiliates k affiliatesNames;
  bps ←
    match affiliatesBpsIn, affiliatesNames with
    | [fee], _ :: (_ :: _) as rest =>
        others ← mapM_outcome (spread_bps k bpsRequired fee) rest;
        Ok (fee :: others)
    | [], _ :: _ => if bpsRequired then Ok [] else Ok (map (fun _ => None) affiliatesNames)
    | bps, _ => Ok bps
    end;
  if negb (length affiliatesNames =? length bps)%nat
  then Err "affiliate mayanames and affiliate fee bps count mismatch (%d / %d)"
  else
    r ← resolve_all k affiliatesNames bps [] 0;
    let '(affiliatesBps, totalAffBps) := (r : list Z * Z) in
    if negb (totalBpsMax =? 0) && (totalBpsMax <? totalAffBps)
    then Err "total affiliate fee basis points must not exceed %s (provided total bps: %s)"
    else Ok (affiliatesBps, totalAffBps).

Definition getMultipleAffiliatesAndBps k parts (idx : nat) (bpsRequired : bool) (totalBpsMax : Z)
  : parsing (list string * list Z * Z) :=
  affiliatesNames ← getStringArrayBySeparator parts idx false "/";
  bps ← getUintArrayBySeparatorV121 parts (idx + 1) bpsRequired "/" totalBpsMax;
  r ← returned (getMultipleAffiliatesAndBpsV118 k bpsRequired totalBpsMax affiliatesNames bps);
  match r with
  | Some (affiliatesBps, totalAffBps) => mret (affiliatesNames, affiliatesBps, totalAffBps)
  | None =>
      _ ← addErr "failed to process affiliate parameters: %w";
      mret (affiliatesNames, [], 0)
  end.

(** ** Memos of a kind *)

Definition parseTradeTarget (limit : string) : outcome Z :=
  match ParseFloatInt limit with
  | Some i => uint_of_big i
  | None => Err "swap price limit:%s is invalid: %s"
  end.

Definition or_zero (s : string) : string := if String.eqb s EmptyString then "0" else s.

(** "limit/interval/quantity", or a limit alone. *)
Definition swap_limit parts : parsing (Z * Z * Z) :=
  if contains_char "/" (getp parts 3) then
    match map or_zero (split3 "/" (getp parts 3)) with
    | limit :: stream =>
        slip ← lift (parseTradeTarget limit);
        interval ← lift (match stream with
          | i :: _ => match ParseUint64 i with
                      | Some v => Ok v | None => Err "failed to parse stream frequency: %s: %s" end
          | [] => Ok 0 end);
        quantity ← lift (match stream with
          | _ :: q :: _ => match ParseUint64 q with
                           | Some v => Ok v | None => Err "failed to parse stream quantity: %s: %s" end
          | _ => Ok 0 end);
        mret (slip, interval, quantity)
    | [] => lift (Err "invalid streaming swap format: %s")
    end
  else slip ← getUintWithScientificNotation parts 3 false 0; mret (slip, 0, 0).

(** The address of the first affiliate, which only has to be there. *)
Definition swap_affiliate_address k (affiliates : list string) (totalAffBps : Z) : parsing Address :=
  match affiliates with
  | aff :: _ =>
      if negb (totalAffBps =? 0) then
        affAddr ← getAddressFromString k aff BASEChain false;
        if Address_IsEmpty affAddr && MAYANameExists k aff then
          lift (match GetMAYAName k aff with
            | Ok mn =>
                let owner := acc_string (MN_Owner mn) in
                if negb (Address_IsEmpty owner) then Ok owner
                else
                  let alias := GetAlias mn BASEChain in
                  if negb (Address_IsEmpty alias) then Ok alias
                  else
                    match NewAddress (acc_string (bank_module AffiliateCollectorName)) (kv_version k) with
                    | Err _ => Err "failed to get affiliate collector module address: %w"
                    | r => r
                    end
            | Err _ => Err "failed to get MAYAName %s: %w"
            | Panic => Panic
            end)
        else mret affAddr
      else mret NoAddress
  | [] => mret NoAddress
  end.

Definition ParseSwapMemoV121 k parts : parsing Memo :=
  asset ← getAssetV123 k parts 1 true EmptyAsset;
  '(destination, refundAddress) ←
    getAddressAndRefundAddressWithKeeper k parts 2 false (Asset_Chain asset);
  '(slip, streamInterval, streamQuantity) ← swap_limit parts;
  let maxAffiliateFeeBasisPoints := u64 (GetConfigInt64 k "MaxAffiliateFeeBasisPoints") in
  '(affiliates, affFeeBps, totalAffBps) ←
    getMultipleAffiliatesAndBps k parts 4 false maxAffiliateFeeBasisPoints;
  let maxAffiliates := GetConfigInt64 k "MultipleAffiliatesMaxCount" in
  if maxAffiliates <? Z.of_nat (length affiliates)
  then lift (Err "maximum allowed affiliates is %d")
  else
    affAddr ← swap_affiliate_address k affiliates totalAffBps;
    dexTargetLimit ← getUintWithScientificNotation parts 8 false 0;
    mret (MSwap (mkSwapMemo asset destination slip affAddr totalAffBps (getp parts 6) (getp parts 7)
      (if dexTargetLimit =? 0 then None else Some dexTargetLimit) OrderType_market streamInterval
      streamQuantity refundAddress affiliates affFeeBps)).

Definition ParseAddLiquidityMemoV112 k parts : parsing Memo :=
  asset ← getAssetV123 k parts 1 true EmptyAsset;
  addr ← getAddressWithKeeper k parts 2 false (Asset_Chain asset);
  let affChain := if IsSyntheticAsset asset then GetChain (GetLayer1Asset asset) else BASEChain in
  affAddr ← getAddressWithKeeper k parts 3 false affChain;
  affPts ← getUintWithMaxValue parts 4 false 0 (u64 (GetConfigInt64 k "MaxAffiliateFeeBasisPoints"));
  mret (MAddLiquidity asset addr affAddr affPts 0).

Definition ParseWithdrawLiquidityMemoV112 k parts : parsing Memo :=
  asset ← getAssetV123 k parts 1 true EmptyAsset;
  withdrawalBasisPts ← getUintWithMaxValue parts 2 false MaxWithdrawBasisPoints MaxWithdrawBasisPoints;
  withdrawalAsset ← getAssetV123 k parts 3 false EmptyAsset;
  pairAddress ← getAddressWithKeeper k parts 4 false (GetChain asset);
  mret (MWithdrawLiquidity asset withdrawalBasisPts withdrawalAsset pairAddress).

Definition ParseDonateMemoV112 k parts : parsing Memo :=
  asset ← getAssetV123 k parts 1 true EmptyAsset; mret (MDonate asset).

Definition ParseBondMemoV112 k parts : parsing Memo :=
  asset ← getAssetV123 k parts 1 false EmptyAsset;
  units ← getUint parts 2 false 0;
  addr ← getAccAddress parts 3 true EmptyString;
  additional ← getAccAddress parts 4 false EmptyString;
  operatorFee ← getInt64 parts 5 false (-1);
  mret (MBond asset addr additional units operatorFee).

Definition ParseUnbondMemoV112 k parts : parsing Memo :=
  asset ← getAssetV123 k parts 1 false EmptyAsset;
  amt ← getUint parts 2 false 0;
  addr ← getAccAddress parts 3 true EmptyString;
  additional ← getAccAddress parts 4 false EmptyString;
  mret (MUnbond asset addr additional amt).

Definition ParseLeaveMemoV112 parts : parsing Memo :=
  addr ← getAccAddress parts 1 true EmptyString; mret (MLeave addr).

Definition ParseOutboundMemoV112 parts : parsing Memo :=
  txID ← getTxID parts 1 true BlankTxID; mret (MOutbound txID).

Definition ParseRefundMemoV112 parts : parsing Memo :=
  txID ← getTxID parts 1 true BlankTxID; mret (MRefund txID).

Definition ParseYggdrasilFundMemoV112 parts : parsing Memo :=
  blockHeight ← getInt64 parts 1 true 0; mret (MYggdrasilFund blockHeight).

Definition ParseYggdrasilReturnMemoV112 parts : parsing Memo :=
  blockHeight ← getInt64 parts 1 true 0; mret (MYggdrasilReturn blockHeight).

Definition ParseMigrateMemoV112 parts : parsing Memo :=
  blockHeight ← getInt64 parts 1 true 0; mret (MMigrate blockHeight).

Definition ParseRagnarokMemoV112 parts : parsing Memo :=
  blockHeight ← getInt64 parts 1 true 0; mret (MRagnarok blockHeight).

Definition ParseCacaoPoolWithdrawMemoV121 k parts : parsing Memo :=
  basisPoints ← getUint parts 1 true 0;
  '(affiliates, affiliatesBps, totalAffBps) ← getMultipleAffiliatesAndBps k parts 2 false MaxBasisPts;
  mret (MCacaoPoolWithdraw basisPoints totalAffBps affiliates affiliatesBps).

Definition ParseManageMAYANameMemoV112 k parts : parsing Memo :=
  chain ← getChain parts 2 false EmptyChain;
  addr ← getAddress k parts 3 false NoAddress;
  if (Chain_IsEmpty chain && negb (Address_IsEmpty addr))
     || (negb (Chain_IsEmpty chain) && Address_IsEmpty addr)
  then lift (Err "both chain and address must be provided, or neither")
  else
    owner ← getAccAddress parts 4 false EmptyString;
    preferredAsset ← getAssetV123 k parts 5 false EmptyAsset;
    expire ← getInt64 parts 6 false 0;
    affiliateBps ← getUintWithMaxValue parts 7 false 0
                     (u64 (GetConfigInt64 k "MaxAffiliateFeeBasisPoints"));
    let affiliateBps := if String.eqb (getp parts 7) EmptyString then EmptyBps else affiliateBps in
    let required := negb (String.eqb (getp parts 8) EmptyString) in
    _ ← incRequired required;
    '(subAffiliates, subAffiliateBps, _) ← getMultipleAffiliatesAndBps k parts 8 required MaxBasisPts;
    mret (MMAYAName (mkManageMAYANameMemo (getp parts 1) chain addr preferredAsset expire owner
      affiliateBps subAffiliates subAffiliateBps)).

Definition ParseTradeAccountDeposit parts : parsing Memo :=
  addr ← getAccAddress parts 1 true EmptyString; mret (MTradeAccountDeposit addr).

Definition ParseTradeAccountWithdrawal k parts : parsing Memo :=
  addr ← getAddress k parts 1 true NoAddress; mret (MTradeAccountWithdrawal addr).

(** ** The parser *)

Definition parse k (t : TxType) parts : parsing Memo :=
  match t with
  | TxLeave => ParseLeaveMemoV112 parts
  | TxDonate => ParseDonateMemoV112 k parts
  | TxAdd => ParseAddLiquidityMemoV112 k parts
  | TxWithdraw => ParseWithdrawLiquidityMemoV112 k parts
  | TxCacaoPoolDeposit => mret MCacaoPoolDeposit
  | TxCacaoPoolWithdraw => ParseCacaoPoolWithdrawMemoV121 k parts
  | TxSwap => ParseSwapMemoV121 k parts
  | TxOutbound => ParseOutboundMemoV112 parts
  | TxRefund => ParseRefundMemoV112 parts
  | TxBond => ParseBondMemoV112 k parts
  | TxUnbond => ParseUnbondMemoV112 k parts
  | TxYggdrasilFund => ParseYggdrasilFundMemoV112 parts
  | TxYggdrasilReturn => ParseYggdrasilReturnMemoV112 parts
  | TxReserve => mret MReserve
  | TxMigrate => ParseMigrateMemoV112 parts
  | TxRagnarok => ParseRagnarokMemoV112 parts
  | TxNoOp => mret (MNoOp (getp parts 1))
  | TxConsolidate => mret MConsolidate
  | TxMAYAName => ParseManageMAYANameMemoV112 k parts
  | TxTradeAccountDeposit => ParseTradeAccountDeposit parts
  | TxTradeAccountWithdrawal => ParseTradeAccountWithdrawal k parts
  | TxUnknown | TxLimitOrder | TxForgiveSlash => lift (Err "TxType not supported: %s")
  end.

(** The errors at the end: there must be a part for each required field. *)
Definition parser_Error parts (s : pstate) : list string :=
  if Z.of_nat (length parts) <? p_required s + 1
  then p_errs s ++ ["not enough parameters: %d/%d"] else p_errs s.

(** The text before the first bar, split at colons. *)
Definition memo_parts (memo : string) : list string := Split ":" (fst (split_at "|" memo)).

(** The memo with the errors that come with it: none when it is accepted. A panic
    is recovered. *)
Definition ParseMemoWithMAYANames k (memo : string) : Memo * list string :=
  if String.eqb memo EmptyString then (EmptyMemo, ["memo can't be empty"])
  else
    let parts := memo_parts memo in
    match StringToTxType (getp parts 0) with
    | Ok t =>
        match parse k t parts (mkPstate [] 0) with
        | Ok (m, s) => (m, parser_Error parts s)
        | Err e => (EmptyMemo, [e])
        | Panic => (EmptyMemo, ["panicked parsing memo(%s), err: %s"])
        end
    | Err e => (EmptyMemo, [e])
    | Panic => (EmptyMemo, ["panicked parsing memo(%s), err: %s"])
    end.
End memo.

(** ** Printing *)

Section printing.
Context `{V : Semver} `{L : AddressLib} (LatestVersion : Version).

(** An address is shortened, a name is kept; so is what is neither. *)
Definition affiliate_text (aff : string) : string :=
  match NewAddress aff LatestVersion with
  | Ok addr => if Address_IsEmpty addr then aff else AbbreviatedString addr LatestVersion
  | _ => aff
  end.

Definition getAffiliatesMemoString (affiliates : list string) (affiliatesBasisPoints : list Z)
  : string * string :=
  (Join "/" (map affiliate_text affiliates), Join "/" (map print_int affiliatesBasisPoints)).

Definition SwapMemo_string (m : SwapMemo) (short : bool) : string :=
  let slip := print_int (Swap_SlipLimit m) in
  let stream := (0 <? StreamInterval m) || (1 <? StreamQuantity m) in
  let slipLimit :=
    if stream then
      slip +:+ "/" +:+ print_int (StreamInterval m) +:+ "/" +:+ print_int (StreamQuantity m)
    else if Swap_SlipLimit m =? 0 then EmptyString else slip in
  let assetString :=
    if short && (0 <? str_len (ShortCode (Swap_Asset m))) then ShortCode (Swap_Asset m)
    else Asset_String (Swap_Asset m) in
  let destString := AbbreviatedString (Swap_Destination m) LatestVersion in
  let destString :=
    if negb (Address_IsEmpty (Swap_RefundAddress m))
    then destString +:+ "/" +:+ AbbreviatedString (Swap_RefundAddress m) LatestVersion
    else destString in
  let '(affString, affBpsString) :=
    getAffiliatesMemoString (Affiliates m) (AffiliatesBasisPoints m) in
  let limit := match DexTargetLimit m with
               | Some l => if l =? 0 then None else Some l | None => None end in
  let args := ["="; assetString; destString; slipLimit; affString; affBpsString; DexAggregator m;
               DexTargetAddress m] ++ match limit with Some l => [print_int l] | None => [] end in
  let last := 3%nat in
  let last := if negb (Swap_SlipLimit m =? 0) || stream then 4%nat else last in
  let last := if (0 <? length (Affiliates m))%nat then 5%nat else last in
  let last := if (0 <? length (AffiliatesBasisPoints m))%nat then 6%nat else last in
  let last := if negb (String.eqb (DexAggregator m) EmptyString) then 8%nat else last in
  let last := if limit is Some _ then 9%nat else last in
  Join ":" (take last args).

(** The kinds without a text of their own print as nothing. *)
Definition Memo_String (m : Memo) : string :=
  match m with
  | MSwap s => SwapMemo_string s false
  | MDonate asset => "DONATE:" +:+ Asset_String asset
  | MOutbound txID => "OUT:" +:+ TxID_String txID
  | MRefund txID => "REFUND:" +:+ TxID_String txID
  | MYggdrasilFund h => "YGGDRASIL+:" +:+ print_int h
  | MYggdrasilReturn h => "YGGDRASIL-:" +:+ print_int h
  | MMigrate h => "MIGRATE:" +:+ print_int h
  | MRagnarok h => "RAGNAROK:" +:+ print_int h
  | MNoOp action => if String.eqb action EmptyString then "noop" else "noop:" +:+ action
  | MConsolidate => "consolidate"
  | MCacaoPoolDeposit => "pool+"
  | MCacaoPoolWithdraw basisPoints _ affiliates bps =>
      let '(affString, affBpsString) := getAffiliatesMemoString affiliates bps in
      Join ":" [TxType_String TxCacaoPoolWithdraw; print_int basisPoints; affString; affBpsString]
  | _ => EmptyString
  end.
End printing.

(** ** Facts about the parser *)

Section parser_facts.
Context `{V : Semver} `{B : CosmosBank} `{A : SdkAddress} `{R : MapRange} `{L : AddressLib}.
Context `{U : SdkUint} `{UL : !SdkUintLaws U} `{T : UintText}.
Implicit Types (k : KVStore) (parts : list string).

Lemma parsing_bind_Ok {X Y} (f : X -> parsing Y) (m : parsing X) s r :
  (m ≫= f) s = Ok r -> exists x s1, m s = Ok (x, s1) /\ f x s1 = Ok r.
Proof.
  unfold mbind, parsing_bind. destruct (m s) as [[x s1]| |] eqn:E; [|done..]. eauto.
Qed.

Lemma parsing_ret_Ok {X} (x : X) s r : (mret x : parsing X) s = Ok r -> r = (x, s).
Proof. by intros [= <-]. Qed.

Lemma lift_Err {X} e s : (lift (Err e) : parsing X) s = Err e.
Proof. done. Qed.

(** The last step of a memo gives its kind. *)
Lemma parse_type k t parts s m s' : parse k t parts s = Ok (m, s') -> GetType m = t.
Proof.
  destruct t; cbn [parse]; intros H; try done;
    try (apply parsing_ret_Ok in H; by injection H as -> _);
    repeat (apply parsing_bind_Ok in H as (? & ? & _ & H); cbv zeta in H;
            repeat match type of H with
            | (let '(_, _) := ?x in _) _ = _ => destruct x
            | (if ?b then _ else _) _ = _ => destruct b; [done|]
            end);
    apply parsing_ret_Ok in H; by injection H as -> _.
Qed.

(** C30: a memo that is accepted is of the kind its first word names, and one of no
    known kind is not accepted: the word decides the handler. *)
Theorem ParseMemo_kind k memo m :
  ParseMemoWithMAYANames k memo = (m, []) ->
  StringToTxType (getp (memo_parts memo) 0) = Ok (GetType m).
Proof.
  unfold ParseMemoWithMAYANames. destruct (String.eqb memo EmptyString); [done|].
  destruct (StringToTxType _) as [t| |]; [|done..].
  destruct (parse k t _ _) as [[m' s]| |] eqn:E; [|done..]. intros [= -> _].
  by apply parse_type in E as ->.
Qed.

(** ** Affiliates of a memo *)

Lemma resolve_all_spec k names bps acc total r t : length names = length bps ->
  resolve_all k names bps acc total = Ok (r, t) ->
  exists new, r = acc ++ new /\ length new = length names /\ t = total + sumZ id new.
Proof.
  revert bps acc total. induction names as [|n names IH]; intros [|b bps] acc total Hl E; try done.
  - injection E as <- <-. exists []. split_and!; [by rewrite app_nil_r|done|cbn; lia].
  - cbn in E. apply bind_Ok in E as (v & _ & E). apply bind_Ok in E as (t' & [-> _]%uint_add_Ok & E).
    apply IH in E as (new & -> & Hn & ->); [|by injection Hl].
    exists (v :: new). rewrite sumZ_cons. change (id v) with v.
    split_and!; [by rewrite <- app_assoc|by cbn; rewrite Hn|lia].
Qed.

Lemma multiple_affiliates_spec k required max names bpsIn bps total :
  getMultipleAffiliatesAndBpsV118 k required max names bpsIn = Ok (bps, total) ->
  length bps = length names /\ total = sumZ id bps /\ (max <> 0 -> total <= max).
Proof.
  unfold getMultipleAffiliatesAndBpsV118. intros E. apply bind_Ok in E as ([] & _ & E).
  apply bind_Ok in E as (spread & _ & E). destruct (Nat.eqb_spec (length names) (length spread)) as [Hl|];
    [|done]. cbn [negb] in E. apply bind_Ok in E as ([r t] & Hr & E).
  apply resolve_all_spec in Hr as (new & -> & Hn & ->); [|done]. cbn [app] in E.
  destruct (Z.eqb_spec max 0), (Z.ltb_spec max (0 + sumZ id new)); cbn in E; try done;
    injection E as <- <-; split_and!; (done || lia).
Qed.

Lemma affiliates_field k parts idx required max s names bps total s' : 0 <= max ->
  getMultipleAffiliatesAndBps k parts idx required max s = Ok ((names, bps, total), s') ->
  total = sumZ id bps /\ (length bps = length names \/ bps = []) /\ (max <> 0 -> total <= max).
Proof.
  intros Hmax E. apply parsing_bind_Ok in E as (names' & s1 & _ & E).
  apply parsing_bind_Ok in E as (bps' & s2 & _ & E). apply parsing_bind_Ok in E as (r & s3 & Hr & E).
  destruct (getMultipleAffiliatesAndBpsV118 _ _ _ _ _) as [[bps1 t1]| |] eqn:Hm; cbn in Hr.
  - apply parsing_ret_Ok in Hr. injection Hr as -> ->. apply parsing_ret_Ok in E.
    injection E as -> -> -> _. apply multiple_affiliates_spec in Hm as (? & ? & ?). by auto.
  - apply parsing_ret_Ok in Hr. injection Hr as -> ->.
    apply parsing_bind_Ok in E as (u & s4 & _ & E). apply parsing_ret_Ok in E.
    injection E as _ -> -> _. split_and!; [done|by right|by cbn].
  - done.
Qed.

(** Whatever a swap memo says, its affiliates are at most as many as the
    network allows, each with its basis points, and together they take no more than
    the network's maximum. *)
Theorem swap_memo_affiliates_capped k memo m errs :
  let max := u64 (GetConfigInt64 k "MaxAffiliateFeeBasisPoints") in
  ParseMemoWithMAYANames k memo = (MSwap m, errs) ->
  Z.of_nat (length (Affiliates m)) <= GetConfigInt64 k "MultipleAffiliatesMaxCount" /\
  (length (AffiliatesBasisPoints m) = length (Affiliates m) \/ AffiliatesBasisPoints m = []) /\
  Swap_AffiliateBasisPoints m = sumZ id (AffiliatesBasisPoints m) /\
  (max <> 0 -> Swap_AffiliateBasisPoints m <= max).
Proof.
  unfold ParseMemoWithMAYANames. destruct (String.eqb memo EmptyString); [done|].
  destruct (StringToTxType _) as [t| |]; [|done..].
  destruct (parse k t _ _) as [[m' s]| |] eqn:E; [|done..]. intros [= -> _].
  assert (Ht := parse_type _ _ _ _ _ _ E). cbn in Ht. subst t. cbn [parse] in E.
  apply parsing_bind_Ok in E as (asset & s1 & _ & E).
  apply parsing_bind_Ok in E as ([dest refund] & s2 & _ & E).
  apply parsing_bind_Ok in E as ([[slip interval] quantity] & s3 & _ & E).
  cbv zeta in E. apply parsing_bind_Ok in E as ([[names bps] total] & s4 & Ha & E).
  destruct (Z.ltb_spec (GetConfigInt64 k "MultipleAffiliatesMaxCount") (Z.of_nat (length names)));
    [done|].
  apply parsing_bind_Ok in E as (affAddr & s5 & _ & E).
  apply parsing_bind_Ok in E as (limit & s6 & _ & E). apply parsing_ret_Ok in E. injection E as -> _.
  cbn. apply affiliates_field in Ha as (-> & Hl & Hmax); [by split_and!|].
  apply Z.mod_pos_bound. lia.
Qed.

(** ** The memos of the network *)

(** No colon and no bar. *)
Definition plain (s : string) : bool :=
  str_forallb (fun c => negb (Ascii.eqb c ":") && negb (Ascii.eqb c "|")) s.

Lemma split_at_absent sep s : str_forallb (fun c => negb (Ascii.eqb c sep)) s = true ->
  split_at sep s = (s, None).
Proof.
  induction s as [|c s IH]; [done|]. cbn. intros [Hc Hs]%andb_prop.
  destruct (Ascii.eqb c sep); [done|]. by rewrite IH.
Qed.

Lemma plain_colon s : plain s = true -> str_forallb (fun c => negb (Ascii.eqb c ":")) s = true.
Proof. apply str_forallb_impl. by intros c [? _]%andb_prop. Qed.

Lemma plain_bar s : plain s = true -> str_forallb (fun c => negb (Ascii.eqb c "|")) s = true.
Proof. apply str_forallb_impl. by intros c [_ ?]%andb_prop. Qed.

Lemma Split_absent sep s : str_forallb (fun c => negb (Ascii.eqb c sep)) s = true -> Split sep s = [s].
Proof.
  intros H. unfold Split. destruct s as [|c s]; [done|]. cbn [String.length split_all_fuel].
  by rewrite split_at_absent.
Qed.

Lemma memo_parts_one s : plain s = true -> memo_parts s = [s].
Proof.
  intros H. unfold memo_parts. rewrite split_at_absent by by apply plain_bar.
  by apply Split_absent, plain_colon.
Qed.

Lemma memo_parts_two kw a : plain kw = true -> plain a = true ->
  memo_parts (kw +:+ String ":" a) = [kw; a].
Proof.
  intros Hk Ha. unfold memo_parts. rewrite split_at_absent.
  2: { rewrite str_forallb_app. cbn. by rewrite !plain_bar. }
  cbn [fst]. unfold Split. rewrite str_app_length. cbn [String.length].
  rewrite Nat.add_succ_r. cbn [split_all_fuel].
  rewrite split_at_app by by apply plain_colon. f_equal.
  rewrite (split_all_fuel_enough _ (String.length a)) by lia. by apply Split_absent, plain_colon.
Qed.

Lemma digits_plain acc s z : digits_after acc s = Some z -> plain s = true.
Proof.
  revert acc. induction s as [|c s IH]; [done|]. intros acc. cbn.
  destruct (is_digit c) eqn:Hc; [|done]. intros E. unfold plain in *. cbn. rewrite (IH _ E), andb_true_r.
  assert (H : implb (is_digit c) (negb (Ascii.eqb c ":") && negb (Ascii.eqb c "|")) = true).
  { revert c Hc E. intros c _ _. revert c. apply ascii_ind_bool. by vm_compute. }
  by rewrite Hc in H.
Qed.

Lemma print_int_plain z : plain (print_int z) = true.
Proof.
  assert (H : forall n : N, plain (pretty.pretty n) = true).
  { intros n. pose proof (pretty_parses n) as H. unfold parse_digits in H.
    destruct (String.eqb _ _); [done|]. by eapply digits_plain. }
  unfold print_int. destruct (_ <? _); [|apply H]. unfold plain in *. cbn. apply H.
Qed.

(** The memos that a vault writes on its own transactions, with their data in
    range: an identifier of 64 upper-case characters, a 64-bit height. *)
Definition network_memo (m : Memo) : Prop :=
  match m with
  | MOutbound t | MRefund t => str_len t = 64 /\ ToUpper t = t /\ plain t = true
  | MYggdrasilFund h | MYggdrasilReturn h | MMigrate h | MRagnarok h => is_i64 h
  | MNoOp action => plain action = true
  | MConsolidate | MCacaoPoolDeposit => True
  | _ => False
  end.

Lemma parse_two k kw a t m n : n <= 1 -> plain kw = true -> plain a = true -> StringToTxType kw = Ok t ->
  parse k t [kw; a] (mkPstate [] 0) = Ok (m, mkPstate [] n) ->
  ParseMemoWithMAYANames k (kw +:+ String ":" a) = (m, []).
Proof.
  intros Hn Hk Ha Ht Hp. unfold ParseMemoWithMAYANames.
  assert (Hne : String.eqb (kw +:+ String ":" a) EmptyString = false) by by destruct kw.
  rewrite Hne, memo_parts_two by done. change (getp [kw; a] 0) with kw. rewrite Ht, Hp.
  unfold parser_Error. cbn [length p_required p_errs].
  by rewrite (proj2 (Z.ltb_ge (Z.of_nat 2) (n + 1))) by lia.
Qed.

Lemma height_memo k kw t (mk : Z -> Memo) h : plain kw = true -> StringToTxType kw = Ok t ->
  (forall parts, parse k t parts = (h ← getInt64 parts 1 true 0; mret (mk h))) -> is_i64 h ->
  ParseMemoWithMAYANames k (kw +:+ String ":" (print_int h)) = (mk h, []).
Proof.
  intros Hk Ht Hp Hh. apply (parse_two _ _ _ t _ 1); [done|done|apply print_int_plain|done|].
  rewrite Hp. unfold getInt64, field. change (getp [kw; print_int h] 1) with (print_int h).
  by rewrite print_int_parses.
Qed.

Lemma txid_memo k kw t (mk : TxID -> Memo) id : plain kw = true -> StringToTxType kw = Ok t ->
  (forall parts, parse k t parts = (id ← getTxID parts 1 true BlankTxID; mret (mk id))) ->
  str_len id = 64 -> ToUpper id = id -> plain id = true ->
  ParseMemoWithMAYANames k (kw +:+ String ":" id) = (mk id, []).
Proof.
  intros Hk Ht Hp Hl Hu Hpl. apply (parse_two _ _ _ t _ 1); [done..|].
  rewrite Hp. unfold getTxID, NewTxID. change (getp [kw; id] 1) with id.
  by rewrite Hl, Hu.
Qed.

(** C31: what the network writes it reads back: the memos of outbound, refund,
    migration, ragnarok and Yggdrasil transactions, and those without data, parse to
    the memo they were printed from, with no error. *)
Theorem network_memo_roundtrip (LatestVersion : Version) k m :
  network_memo m -> ParseMemoWithMAYANames k (Memo_String LatestVersion m) = (m, []).
Proof.
  destruct m; try done.
  - intros (? & ? & ?). by apply (txid_memo k "OUT" TxOutbound MOutbound).
  - intros (? & ? & ?). by apply (txid_memo k "REFUND" TxRefund MRefund).
  - intros ?. by apply (height_memo k "YGGDRASIL+" TxYggdrasilFund MYggdrasilFund).
  - intros ?. by apply (height_memo k "YGGDRASIL-" TxYggdrasilReturn MYggdrasilReturn).
  - intros ?. by apply (height_memo k "MIGRATE" TxMigrate MMigrate).
  - intros ?. by apply (height_memo k "RAGNAROK" TxRagnarok MRagnarok).
  - intros Hp. cbn [network_memo Memo_String] in *.
    destruct (String.eqb_spec action EmptyString) as [->|Hne]; [done|].
    by apply (parse_two k "noop" action TxNoOp _ 0).
Qed.
End parser_facts.

(** ** Examples *)

(** Decimal text only. *)
Module ReferenceText.
#[export] Instance uint_text : UintText :=
  {| uint_of_text s := match parse_digits s with
                       | Some n => if n <? 2 ^ 256 then Some n else None
                       | None => None
                       end |}.
End ReferenceText.

Section memo_witnesses.
Import Reference ReferenceBank ReferenceRange ReferenceAddress ReferenceText.

(** "dog" is registered. *)
Definition memo_example : KVStore :=
  SetMAYAName (empty_kv (semver_release 1 123 0) affiliate_constants 10 empty) (example_name "dog" []).

Definition swap_text : string := "=:BTC.BTC:3abc:100/2/5:dog/dog:30/20".

Definition swap_example_memo : SwapMemo :=
  mkSwapMemo BTCAsset "3abc" 100 "@alice" 50 EmptyString EmptyString None 0 2 5 EmptyString
    ["dog"; "dog"] [30; 20].

Lemma swap_text_parses : ParseMemoWithMAYANames memo_example swap_text = (MSwap swap_example_memo, []).
Proof. by vm_compute. Qed.

Lemma ParseMemo_kind_witness :
  ParseMemoWithMAYANames memo_example swap_text = (MSwap swap_example_memo, []) /\
  StringToTxType (getp (memo_parts swap_text) 0) = Ok TxSwap.
Proof.
  split; [apply swap_text_parses|]. apply (ParseMemo_kind _ _ _ swap_text_parses).
Defined.

Lemma swap_memo_affiliates_capped_witness :
  Z.of_nat (length (Affiliates swap_example_memo)) <= 5 /\
  Swap_AffiliateBasisPoints swap_example_memo = 50.
Proof.
  destruct (swap_memo_affiliates_capped _ _ _ _ swap_text_parses) as (H1 & _ & H2 & _).
  split; [exact H1|exact H2].
Defined.

Lemma network_memo_roundtrip_witness :
  ParseMemoWithMAYANames memo_example "MIGRATE:1024" = (MMigrate 1024, []).
Proof.
  apply (network_memo_roundtrip (semver_release 1 123 0) memo_example (MMigrate 1024)). by split.
Defined.
End memo_witnesses.
