(* ===== verification/Collectors.v ===== *)
(** [x/mayachain/helpers_affiliates.go]: how the shares of an affiliate fee are
    paid, the collectors of the affiliates that want another asset than CACAO, and
    the swaps that empty the collectors. The module of the collectors holds what
    the collectors have accrued. *)
From S2P Require Import Prelude GoText Sdk Shares Chains Keys Addresses Assets Coins Txs.
From S2P Require Import NodeAccounts Votes TxOuts ObservedTxs Mimirs Pools StreamingSwaps SwapMsgs Records.
From S2P Require Import MayaNames Stores Keeper Halts Gas TradeAccounts Swapper.
From S2P Require Import Affiliates Decimals Memos.

(** [sha256.Sum256], printed in upper-case hexadecimal. *)
Class Sha256 := { sha256_hex : string -> string }.

Definition PreferredAssetSwapMemoPrefix : string := "MAYA-PREFERRED-ASSET".

Section collectors.
Context `{V : Semver} `{B : CosmosBank} `{A : SdkAddress} `{R : MapRange} `{L : AddressLib}.
Context `{U : SdkUint} `{D : SdkDec} `{SH : Sha256} `{T : UintText}.
Implicit Types (k : KVStore) (gm : GasMgr).

(** ** Collectors *)

Definition getPreferredAssetSwapThresholdV118 gm k (preferredAsset : Asset) : outcome Z :=
  if Asset_IsEmpty preferredAsset || IsNativeBase preferredAsset then Ok 0
  else
    ofCacao ← GetFee gm k (Asset_Chain preferredAsset) BaseNative;
    uint_mul ofCacao (u64 (GetConfigInt64 k "PreferredAssetOutboundFeeMultiplier")).

Definition releaseAffiliateCollector k (mayaname : MAYAName) : outcome KVStore :=
  let affCol := GetAffiliateCollector k (MN_Owner mayaname) in
  if CacaoAmount affCol =? 0 then Ok k
  else
    let destAddr := GetAlias mayaname BASEChain in
    destAcc ← (if Address_IsEmpty destAddr then Ok (MN_Owner mayaname) else AccAddress_of destAddr);
    k ← SendFromModuleToAccount k AffiliateCollectorName destAcc
          [NewCoin BaseNative (CacaoAmount affCol)];
    Ok (SetAffiliateCollector k (mkAffiliateFeeCollector (OwnerAddress affCol) 0)).

Definition GetModuleAddress k (module : string) : outcome Address :=
  NewAddress (acc_string (bank_module module)) (kv_version k).

(** An error after a change keeps the change, as its callers only log it: the
    result is the store with the error, if any. *)
Definition triggerPreferredAssetSwapV118 k (mn : MAYAName) (affCol : AffiliateFeeCollector)
    (queueIndex : Z) : outcome (KVStore * option string) :=
  if CacaoAmount affCol =? 0 then Ok (k, Some "can't execute preferred asset swap, accrued RUNE amount is zero"%string)
  else
    acBalance ← GetRuneBalanceOfModule k AffiliateCollectorName;
    if acBalance <? CacaoAmount affCol
    then Ok (k, Some "cacao amount greater than module balance: (%s/%s)"%string)
    else if Asset_IsEmpty (PreferredAsset mn) || IsNativeBase (PreferredAsset mn) then
      match releaseAffiliateCollector k mn with
      | Ok k => Ok (k, None)
      | Err e => Ok (k, Some e)
      | Panic => Panic
      end
    else
      let alias := GetAlias mn (GetChain (PreferredAsset mn)) in
      if Address_Equals alias NoAddress
      then Ok (k, Some "no alias for preferred asset, skip preferred asset swap: %s"%string)
      else if negb (Pool_Status (GetPool k (PreferredAsset mn)) =? PoolStatus_Available)
      then Ok (k, Some "preferred asset (%s) pool is not available"%string)
      else
        let affCacao := CacaoAmount affCol in
        let affCoin := NewCoin BaseAsset affCacao in
        let networkMemo := PreferredAssetSwapMemoPrefix +:+ "-" +:+ Name mn in
        match
          asgardAddress ← GetModuleAddress k AsgardName;
          affColAddress ← GetModuleAddress k AffiliateCollectorName;
          let str := Name mn +:+ "|" +:+ (print_int affCacao +:+ " " +:+ Asset_String BaseAsset)
                       +:+ "|" +:+ print_int (kv_height k) in
          paTxID ← NewTxID (sha256_hex str);
          Ok (asgardAddress, affColAddress, paTxID)
        with
        | Panic => Panic
        | Err e => Ok (k, Some e)
        | Ok (asgardAddress, affColAddress, paTxID) =>
            if (0 <? length (Voter_Txs (GetObservedTxInVoter k paTxID)))%nat
            then Ok (k, Some "preferred asset tx: %s already exists"%string)
            else
              let tx := NewTx paTxID affColAddress asgardAddress [affCoin] [] networkMemo in
              let preferredAssetSwap :=
                NewMsgSwap tx (PreferredAsset mn) alias 0 NoAddress 0 EmptyString EmptyString None
                  OrderType_market 0 0 (MN_Owner mn) in
              let txIn := mkObservedTx tx Status_incomplete [] 0 [] EmptyPubKey 0 0 EmptyString
                            EmptyString None in
              let voter := mkObservedTxVoter (Tx_ID tx) txIn (kv_height k) [txIn] [] [] (kv_height k)
                             false false 0 in
              let k := SetObservedTxInVoter k voter in
              let k := SetSwapQueueItem k preferredAssetSwap queueIndex in
              match SendFromModuleToModule k AffiliateCollectorName AsgardName [affCoin] with
              | Panic => Panic
              | Err _ => Ok (k, Some "failed to send rune to asgard: %w"%string)
              | Ok k => Ok (SetAffiliateCollector k (mkAffiliateFeeCollector (OwnerAddress affCol) 0), None)
              end
        end.

(** The index of the next item of the swap queue moves on after a swap. *)
Definition checkAndTriggerPreferredAssetSwap gm k (mayaname : MAYAName) (swapIndex : Z)
  : outcome (KVStore * Z) :=
  let affCol := GetAffiliateCollector k (MN_Owner mayaname) in
  threshold ← getPreferredAssetSwapThresholdV118 gm k (PreferredAsset mayaname);
  if threshold <? CacaoAmount affCol then
    r ← triggerPreferredAssetSwapV118 k mayaname affCol swapIndex;
    let '(k, e) := (r : KVStore * option string) in
    Ok (k, if e is Some _ then swapIndex else i64 (swapIndex + 1))
  else Ok (k, swapIndex).

Definition updateAffiliateCollector gm k (amount : Z) (mayaname : MAYAName) (swapIndex : Z)
  : outcome (KVStore * Z) :=
  let affCol := GetAffiliateCollector k (MN_Owner mayaname) in
  total ← uint_add (CacaoAmount affCol) amount;
  let k := SetAffiliateCollector k (mkAffiliateFeeCollector (OwnerAddress affCol) total) in
  checkAndTriggerPreferredAssetSwap gm k mayaname swapIndex.

Definition addToAffiliateCollector gm k (amount : Z) (mayaname : MAYAName) (swapIndex : Z)
    (fromModule : string) : outcome (KVStore * Z) :=
  k ← SendFromModuleToModule k fromModule AffiliateCollectorName [NewCoin BaseNative amount];
  updateAffiliateCollector gm k amount mayaname swapIndex.

(** ** Paying a share *)

Definition sendShareV118 gm k (share : affiliateFeeShare) (swapIndex : Z) (fromModule : string)
  : outcome (KVStore * Z) :=
  if negb (Address_IsEmpty (share_cacaoDest share)) then
    toAccAddress ← AccAddress_of (share_cacaoDest share);
    k ← SendFromModuleToAccount k fromModule toAccAddress [NewCoin BaseNative (share_amount share)];
    Ok (k, swapIndex)
  else addToAffiliateCollector gm k (share_amount share) (share_mayaname share) swapIndex fromModule.

Definition NewSimpleSwapMemo (targetAsset : Asset) (destination : Address) (limit : Z)
    (affiliate : string) : string :=
  let memo := "=:" +:+ Asset_String targetAsset +:+ ":" +:+ destination +:+ ":" +:+ print_int limit in
  if String.eqb affiliate EmptyString then memo else memo +:+ ":" +:+ affiliate.

(** What the swap emits, pool by pool, without the fees of the chain. *)
Definition expected_emission k (source : Coin) (target : Asset) : outcome Z :=
  let source_asset := Coin_Asset source in
  if negb (IsNativeBase source_asset) && negb (IsNativeBase target) then
    let sourcePool := GetPool k (GetLayer1Asset source_asset) in
    let targetPool := GetPool k (GetLayer1Asset target) in
    emit ← CalcAssetEmission (BalanceAsset sourcePool) (Coin_Amount source) (BalanceCacao sourcePool);
    CalcAssetEmission (BalanceCacao targetPool) emit (BalanceAsset targetPool)
  else if IsNativeBase source_asset then
    let pool := GetPool k (GetLayer1Asset target) in
    CalcAssetEmission (BalanceCacao pool) (Coin_Amount source) (BalanceAsset pool)
  else
    let pool := GetPool k (GetLayer1Asset source_asset) in
    CalcAssetEmission (BalanceAsset pool) (Coin_Amount source) (BalanceCacao pool).

Definition willSwapOutputExceedLimitAndFees gm k (msg : MsgSwap) : outcome bool :=
  match Tx_Coins (Msg_Tx msg) with
  | [] => Panic
  | source :: _ =>
      emit ← expected_emission k source (TargetAsset msg);
      fee ← GetFee gm k (Asset_Chain (TargetAsset msg)) (TargetAsset msg);
      least ← uint_add (Msg_TradeTarget msg) fee;
      Ok (least <? emit)
  end.

Definition swapShareV118 gm k (share : affiliateFeeShare) (mainTx : Tx) (signer : AccAddress)
    (swapIndex : Z) : outcome (KVStore * Z) :=
  match Tx_Coins mainTx with
  | [] => Panic
  | coin :: coins =>
      let memoStr := NewSimpleSwapMemo BaseAsset (share_cacaoDest share) 0 (Name (share_mayaname share)) in
      let tx := mkTx (Tx_ID mainTx) (Tx_Chain mainTx) (FromAddress mainTx) (ToAddress mainTx)
                  (set_Amount coin (share_amount share) :: coins) (Tx_Gas mainTx) memoStr in
      let msg := NewMsgSwap tx BaseAsset (share_cacaoDest share) 0 NoAddress 0 EmptyString
                   EmptyString None OrderType_market 0 0 signer in
      willSucceed ← willSwapOutputExceedLimitAndFees gm k msg;
      if negb willSucceed then Err "affiliate fee swap for affiliate '%s' will fail: %s"
      else
        msg ←
          (if Address_IsEmpty (share_cacaoDest share) then
             collector ← GetModuleAddress k AffiliateCollectorName;
             Ok (NewMsgSwap tx BaseAsset collector 0 (acc_string (MN_Owner (share_mayaname share))) 0
                   EmptyString EmptyString None OrderType_market 0 0 signer)
           else Ok msg);
        Ok (SetSwapQueueItem k msg swapIndex, i64 (swapIndex + 1))
  end.

(** A share that cannot be paid counts for nothing: the errors come before any change. *)
Definition distributeShare gm k (share : affiliateFeeShare) (mainTx : Tx) (signer : AccAddress)
    (swapIndex : Z) (fromModule : string) : outcome (KVStore * Z * Z) :=
  match Tx_Coins mainTx with
  | [] => Panic
  | coin :: _ =>
      match
        (if IsNativeBase (Coin_Asset coin) then sendShareV118 gm k share swapIndex fromModule
         else swapShareV118 gm k share mainTx signer swapIndex)
      with
      | Ok (k, swapIndex) => Ok (k, swapIndex, share_amount share)
      | Err _ => Ok (k, swapIndex, 0)
      | Panic => Panic
      end
  end.

(** One share, with the release of what its name has collected. *)
Definition pay_share gm (mainTx : Tx) (signer : AccAddress) (fromModule : string)
    (s : KVStore * Z * Z) (share : affiliateFeeShare) : outcome (KVStore * Z * Z) :=
  let '(k, swapIndex, total) := s in
  if share_amount share =? 0 then Ok s
  else
    r ← distributeShare gm k share mainTx signer swapIndex fromModule;
    let '(k, swapIndex, distributed) := (r : KVStore * Z * Z) in
    total ← uint_add total distributed;
    let mn := share_mayaname share in
    if negb (String.eqb (Name mn) EmptyString)
       && (Asset_IsEmpty (PreferredAsset mn) || IsNativeBase (PreferredAsset mn))
    then
      match releaseAffiliateCollector k mn with
      | Ok k => Ok (k, swapIndex, total)
      | Err _ => Ok (k, swapIndex, total)
      | Panic => Panic
      end
    else Ok (k, swapIndex, total).

(** [skimAffiliateFeesV118] after the memo is parsed: the affiliates and their
    basis points. The result is the CACAO (or the asset) distributed. *)
Definition skim_affiliates (fuel : nat) gm k (mainTx : Tx) (signer : AccAddress)
    (affiliates : list string) (affiliatesBps : list Z) (maxTotalAffBps : Z) (fromModule : string)
  : outcome (option (KVStore * Z)) :=
  if (length affiliates =? 0)%nat || (length affiliatesBps =? 0)%nat then Ok (Some (k, 0))
  else
    match Tx_Coins mainTx with
    | [] => Panic
    | coin :: _ =>
        r ← calculateAffiliateSharesV118 fuel k (Coin_Amount coin) affiliates affiliatesBps
              maxTotalAffBps;
        match r with
        | None => Ok None
        | Some (k, shares, _) =>
            r ← foldM (pay_share gm mainTx signer fromModule) (k, 1, 0) shares;
            let '(k, _, total) := (r : KVStore * Z * Z) in
            Ok (Some (k, total))
        end
    end.

(** The affiliates are those of the memo. *)
Definition skimAffiliateFeesV118 (fuel : nat) gm k (mainTx : Tx) (signer : AccAddress)
    (memoStr : string) (maxTotalAffBps : Z) (fromModule : string) : outcome (option (KVStore * Z)) :=
  if Tx_IsEmpty mainTx then Err "main tx is empty"
  else
    match Tx_Coins mainTx with
    | [] => Panic
    | coin :: _ =>
        if Coin_IsEmpty coin then Err "coin is empty"
        else
          match ParseMemoWithMAYANames k memoStr with
          | (memo, []) =>
              skim_affiliates fuel gm k mainTx signer (GetAffiliates memo)
                (GetAffiliatesBasisPoints memo) maxTotalAffBps fromModule
          | (_, e :: _) => Err e
          end
    end.
End collectors.

(** ** What paying changes *)

Section pays.
Context `{V : Semver} `{B : CosmosBank} `{A : SdkAddress} `{R : MapRange} `{L : AddressLib}.
Context `{U : SdkUint} `{D : SdkDec} `{SH : Sha256} `{T : UintText}.
Implicit Types (k : KVStore) (gm : GasMgr).

(** Paying affiliates changes collectors, balances, the swap queue and the voters
    of inbound transactions. *)
Definition pays_only k k' : Prop := exists collectors bank items voters,
  k' = set_kv_collectors (set_kv_bank (set_kv_swap_items (set_kv_voters k voters) items) bank)
         collectors.

#[export] Instance pays_only_preorder : PreOrder pays_only.
Proof.
  split.
  - intros k. exists (kv_collectors k), (kv_bank k), (kv_swap_items k), (kv_voters k). by destruct k.
  - intros k1 k2 k3 (c & b & i & v & ->) (c' & b' & i' & v' & ->). by exists c', b', i', v'.
Qed.

Lemma pays_bank k b : pays_only k (set_kv_bank k b).
Proof. exists (kv_collectors k), b, (kv_swap_items k), (kv_voters k). by destruct k. Qed.

Lemma pays_collector k c : pays_only k (SetAffiliateCollector k c).
Proof.
  exists (<[GetKey (acc_string (OwnerAddress c)) := c]> (kv_collectors k)), (kv_bank k),
    (kv_swap_items k), (kv_voters k). by destruct k.
Qed.

Lemma pays_item k msg i : pays_only k (SetSwapQueueItem k msg i).
Proof.
  exists (kv_collectors k), (kv_bank k),
    (<[(GetKey (TxID_String (Tx_ID (Msg_Tx msg))), i) := msg]> (kv_swap_items k)), (kv_voters k).
  by destruct k.
Qed.

Lemma pays_voter k v : pays_only k (SetObservedTxInVoter k v).
Proof.
  exists (kv_collectors k), (kv_bank k), (kv_swap_items k),
    (<[GetKey (TxID_String (Voter_TxID v)) := v]> (kv_voters k)). by destruct k.
Qed.

Lemma pays_send k from to coins k' : SendFromModuleToModule k from to coins = Ok k' -> pays_only k k'.
Proof. intros [b ->]%SendFromModuleToModule_frame. apply pays_bank. Qed.

Lemma pays_account k from to coins k' : SendFromModuleToAccount k from to coins = Ok k' ->
  pays_only k k'.
Proof. intros [b ->]%SendFromModuleToAccount_frame. apply pays_bank. Qed.

Lemma release_pays k mn k' : releaseAffiliateCollector k mn = Ok k' -> pays_only k k'.
Proof.
  intros E. unfold releaseAffiliateCollector in E. destruct (_ =? 0); [by injection E as <-|].
  apply bind_Ok in E as (dest & _ & E). apply bind_Ok in E as (k1 & Hpay & E). injection E as <-.
  etrans; [by eapply pays_account|apply pays_collector].
Qed.

Lemma trigger_pays k mn c i k' e : triggerPreferredAssetSwapV118 k mn c i = Ok (k', e) ->
  pays_only k k'.
Proof.
  intros E. unfold triggerPreferredAssetSwapV118 in E.
  destruct (_ =? 0); [by injection E as <- _|].
  apply bind_Ok in E as (balance & _ & E). destruct (_ <? _); [by injection E as <- _|].
  destruct (_ || _).
  { destruct (releaseAffiliateCollector _ _) as [k1| |] eqn:Hr; [|by injection E as <- _|done].
    injection E as <- _. by eapply release_pays. }
  destruct (Address_Equals _ _); [by injection E as <- _|].
  destruct (negb _); [by injection E as <- _|].
  match type of E with match ?o with _ => _ end = _ =>
    destruct o as [[[asgard collector] txid]| |]; [|by injection E as <- _|done] end.
  destruct (_ <? _)%nat; [by injection E as <- _|].
  match type of E with match SendFromModuleToModule ?k1 _ _ _ with _ => _ end = _ =>
    assert (Hk1 : pays_only k k1) by (etrans; [apply pays_voter|apply pays_item]) end.
  destruct (SendFromModuleToModule _ _ _ _) as [k2| |] eqn:Hsend; [|by injection E as <- _|done].
  injection E as <- _. etrans; [exact Hk1|]. etrans; [by eapply pays_send|apply pays_collector].
Qed.

Lemma check_pays gm k mn i k' i' : checkAndTriggerPreferredAssetSwap gm k mn i = Ok (k', i') ->
  pays_only k k'.
Proof.
  intros E. unfold checkAndTriggerPreferredAssetSwap in E.
  apply bind_Ok in E as (threshold & _ & E). destruct (_ <? _); [|by injection E as <- _].
  apply bind_Ok in E as ([k1 e] & Ht & E). injection E as <- _. by eapply trigger_pays.
Qed.

Lemma distribute_pays gm k share tx signer i from k' i' total :
  distributeShare gm k share tx signer i from = Ok (k', i', total) -> pays_only k k'.
Proof.
  intros E. unfold distributeShare in E. destruct (Tx_Coins tx) as [|coin coins] eqn:Hc; [done|].
  match type of E with match ?o with _ => _ end = _ =>
    destruct o as [[k1 i1]| |] eqn:Hshare; [|by injection E as <- _|done] end.
  injection E as <- _ _. destruct (IsNativeBase _).
  - unfold sendShareV118 in Hshare. destruct (negb _).
    + apply bind_Ok in Hshare as (acc & _ & Hshare). apply bind_Ok in Hshare as (k2 & Hpay & Hshare).
      injection Hshare as <- _. by eapply pays_account.
    + unfold addToAffiliateCollector, updateAffiliateCollector in Hshare.
      apply bind_Ok in Hshare as (k2 & Hsend & Hshare). apply bind_Ok in Hshare as (t & _ & Hshare).
      apply check_pays in Hshare. etrans; [by eapply pays_send|].
      etrans; [apply pays_collector|exact Hshare].
  - unfold swapShareV118 in Hshare. rewrite Hc in Hshare.
    apply bind_Ok in Hshare as (ok & _ & Hshare). destruct (negb ok); [done|].
    apply bind_Ok in Hshare as (msg & _ & Hshare). injection Hshare as <- _. apply pays_item.
Qed.

Lemma pay_share_pays gm tx signer from s share s' :
  pay_share gm tx signer from s share = Ok s' -> pays_only s.1.1 s'.1.1.
Proof.
  destruct s as [[k i] total]. intros E. unfold pay_share in E.
  destruct (_ =? 0); [by injection E as <-|].
  apply bind_Ok in E as ([[k1 i1] d] & Hd & E). apply distribute_pays in Hd.
  apply bind_Ok in E as (t & _ & E). destruct (_ && _); [|by injection E as <-].
  destruct (releaseAffiliateCollector _ _) as [k2| |] eqn:Hr; [| |done]; injection E as <-; [|done].
  etrans; [exact Hd|by eapply release_pays].
Qed.

Lemma pay_shares_pays gm tx signer from shares s s' :
  foldM (pay_share gm tx signer from) s shares = Ok s' -> pays_only s.1.1 s'.1.1.
Proof.
  revert s. induction shares as [|share shares IH]; intros s E; cbn in E; [by injection E as <-|].
  apply bind_Ok in E as (s1 & Hs & E). etrans; [by eapply pay_share_pays|by apply IH].
Qed.

(** The division writes names only. *)
Lemma loop_names nested g m amt todo :
  (forall k m a k' l r, nested k m a 0 = Ok (Some (k', l, r)) -> names_only k k') ->
  forall i k arr len shares remaining k' l r,
  subaffiliates_loop nested g m amt todo i k arr len shares remaining = Ok (Some (k', l, r)) ->
  names_only k k'.
Proof.
  intros Hn. induction todo as [|todo IH]; intros i k arr len shares remaining k' l r E.
  { by injection E as <- _ _. }
  cbn [subaffiliates_loop] in E. destruct (arr !! i) as [s|]; [|done].
  destruct (sub_target _ _) as [[[mn dest]|]|e|]; [|..|by eapply IH|done].
  - destruct (_ <? _); [by injection E as <- _ _|]. apply bind_Ok in E as (rem & _ & E).
    apply bind_Ok in E as ([[[k1 l1] final]|] & Hx & E); [|done].
    apply bind_Ok in E as (whole & _ & E). apply IH in E. etrans; [|exact E].
    unfold nested_shares in Hx. apply bind_Ok in Hx as (ticks & _ & Hx).
    destruct (_ && _); [|by injection Hx as <- _ _].
    apply bind_Ok in Hx as ([[[k2 l2] left]|] & Hx2 & Hx); [|done].
    apply bind_Ok in Hx as (p & _ & Hx). apply bind_Ok in Hx as (q & _ & Hx).
    injection Hx as <- _ _. by apply Hn in Hx2.
  - destruct (shift_out _ _ _) as [arr' len']. apply IH in E. etrans; [apply names_only_set|exact E].
Qed.

Lemma nested_names fuel k m amt maxTotal k' l r :
  calculateNestedAffiliateSharesV118 fuel k m amt maxTotal = Ok (Some (k', l, r)) -> names_only k k'.
Proof.
  revert k m amt maxTotal k' l r. induction fuel as [|fuel IH]; [done|].
  intros k m amt maxTotal k' l r. apply loop_names. intros k1 m1 a k2 l2 r2. apply IH.
Qed.


Lemma skim_pays fuel gm k tx signer memo maxTotal from k' total :
  skimAffiliateFeesV118 fuel gm k tx signer memo maxTotal from = Ok (Some (k', total)) ->
  exists names, pays_only (set_kv_names k names) k'.
Proof.
  assert (Hid : exists names, pays_only (set_kv_names k names) k)
    by (exists (kv_names k); by destruct k).
  intros E. unfold skimAffiliateFeesV118 in E. destruct (Tx_IsEmpty tx); [done|].
  destruct (Tx_Coins tx) as [|coin coins] eqn:Hc; [done|]. destruct (Coin_IsEmpty coin); [done|].
  destruct (ParseMemoWithMAYANames k memo) as [m [|e es]]; [|done].
  unfold skim_affiliates in E. rewrite Hc in E. destruct (_ || _); [by injection E as <- _|].
  apply bind_Ok in E as ([[[k1 shares] r]|] & Hs & E); [|done].
  apply bind_Ok in E as ([[k2 i] t] & Hp & E). injection E as <- _.
  apply pay_shares_pays in Hp. unfold calculateAffiliateSharesV118 in Hs.
  apply bind_Ok in Hs as (root & _ & Hs). apply nested_names in Hs as [names ->]. by exists names.
Qed.
End pays.

(** ** The module of the collectors backs what they have accrued *)

Section invariant.
Context `{V : Semver} `{B : CosmosBank} `{U : SdkUint}.
Implicit Types k : KVStore.

(** Whether the invariant of the keeper is broken. *)
Definition AffiliateCollectorInvariant k : outcome bool :=
  affColModuleCacao ← GetBalanceOfModule k AffiliateCollectorName (Asset_Native BaseNative);
  totalAffCacao ← foldM (fun total kv => uint_add total (CacaoAmount (snd kv))) 0
                    (map_to_list (kv_collectors k));
  Ok (negb (totalAffCacao =? affColModuleCacao)).
End invariant.

Section collector_facts.
Context {V : Semver} {B : CosmosBank} {BL : CosmosBankLaws B} {A : SdkAddress} {R : MapRange}.
Context {L : AddressLib} {U : SdkUint} {UL : SdkUintLaws U} {D : SdkDec} {SH : Sha256} {T : UintText}.
Implicit Types (k : KVStore) (gm : GasMgr).

Definition accrued k : Z := map_sum (fun _ => CacaoAmount) (kv_collectors k).

Definition collector_wf (key : string) (c : AffiliateFeeCollector) : Prop :=
  key = GetKey (acc_string (OwnerAddress c)) /\ is_uint (CacaoAmount c).

(** The module holds what is accrued and [due], which is not accounted for yet. *)
Record collectors_owe (due : Z) k : Prop := {
  co_wf : forall key c, kv_collectors k !! key = Some c -> collector_wf key c;
  co_sum : cacao_of k AffiliateCollectorName = accrued k + due;
}.

Definition collectors_inv k : Prop := collectors_owe 0 k.

Lemma GetAffiliateCollector_wf due k owner : collectors_owe due k ->
  let c := GetAffiliateCollector k owner in
  collector_wf (GetKey (acc_string owner)) c /\
  from_option CacaoAmount 0 (kv_collectors k !! GetKey (acc_string owner)) = CacaoAmount c.
Proof.
  intros H. unfold GetAffiliateCollector. destruct (kv_collectors k !! _) as [c|] eqn:E; cbn.
  - split; [by apply (co_wf due k H)|done].
  - by repeat split.
Qed.

(** Writing a collector back with another amount. *)
Lemma collectors_set due k k0 owner amount : collectors_owe due k ->
  kv_collectors k0 = kv_collectors k -> is_uint amount ->
  let c := GetAffiliateCollector k owner in
  let k' := SetAffiliateCollector k0 (mkAffiliateFeeCollector (OwnerAddress c) amount) in
  collectors_owe (cacao_of k0 AffiliateCollectorName - accrued k + CacaoAmount c - amount) k'.
Proof.
  intros H Hk Ha c k'. destruct (GetAffiliateCollector_wf due k owner H) as [[Hkey _] Hold].
  fold c in Hkey, Hold. split.
  - intros key c'. unfold k'. cbn. rewrite Hk. intros [[<- <-]|[_ Hc]]%lookup_insert_Some; [done|].
    by apply (co_wf due k H).
  - unfold k', accrued. cbn [kv_collectors SetAffiliateCollector set_kv_collectors OwnerAddress].
    rewrite Hk, map_sum_insert, <- Hkey, Hold. cbn [CacaoAmount].
    match goal with |- ?l = _ => change l with (cacao_of k0 AffiliateCollectorName) end. lia.
Qed.

(** What leaves the collectors and the balance of their module alone. *)
Definition same_collectors k k' : Prop :=
  kv_collectors k' = kv_collectors k /\
  cacao_of k' AffiliateCollectorName = cacao_of k AffiliateCollectorName.

Lemma same_collectors_owe due k k' : same_collectors k k' -> collectors_owe due k ->
  collectors_owe due k'.
Proof. intros [E1 E2] [H1 H2]. split; unfold accrued in *; by rewrite ?E1, ?E2. Qed.

(** Paying a collector's amount out of the module empties it. *)
Lemma collectors_paid due k k0 owner :
  collectors_owe due k -> kv_collectors k0 = kv_collectors k ->
  cacao_of k0 AffiliateCollectorName =
    cacao_of k AffiliateCollectorName - CacaoAmount (GetAffiliateCollector k owner) ->
  collectors_owe due (SetAffiliateCollector k0
    (mkAffiliateFeeCollector (OwnerAddress (GetAffiliateCollector k owner)) 0)).
Proof.
  intros H Hk Hb. pose proof (collectors_set due k k0 owner 0 H Hk ltac:(by split)) as Hset.
  cbn zeta in Hset. rewrite Hb, (co_sum due k H) in Hset.
  by replace (accrued k + due - CacaoAmount (GetAffiliateCollector k owner) - accrued k
    + CacaoAmount (GetAffiliateCollector k owner) - 0) with due in Hset by lia.
Qed.

Lemma release_owes due k mn k' : collectors_owe due k ->
  releaseAffiliateCollector k mn = Ok k' -> collectors_owe due k'.
Proof.
  intros H E. unfold releaseAffiliateCollector in E.
  destruct (_ =? 0); [by injection E as <-|].
  apply bind_Ok in E as (dest & _ & E). apply bind_Ok in E as (k1 & Hpay & E). injection E as <-.
  apply (collectors_paid due k k1); [done| |].
  - by apply SendFromModuleToAccount_frame in Hpay as [b ->].
  - by rewrite (module_pay_cacao _ _ _ _ _ _ Hpay), String.eqb_refl.
Qed.

Lemma trigger_owes due k mn i k' e : collectors_owe due k ->
  triggerPreferredAssetSwapV118 k mn (GetAffiliateCollector k (MN_Owner mn)) i = Ok (k', e) ->
  collectors_owe due k'.
Proof.
  intros H E. unfold triggerPreferredAssetSwapV118 in E.
  destruct (CacaoAmount _ =? 0); [by injection E as <- <-|].
  apply bind_Ok in E as (balance & _ & E).
  destruct (_ <? _); [by injection E as <- <-|].
  destruct (_ || _).
  { destruct (releaseAffiliateCollector _ _) as [k1| |] eqn:Hr; [|by injection E as <- <-|done].
    injection E as <- <-. by eapply release_owes. }
  destruct (Address_Equals _ _); [by injection E as <- <-|].
  destruct (negb _); [by injection E as <- <-|].
  match type of E with match ?o with _ => _ end = _ =>
    destruct o as [[[asgard collector] txid]| |]; [|by injection E as <- <-|done] end.
  destruct (_ <? _)%nat; [by injection E as <- <-|].
  match type of E with match SendFromModuleToModule ?k1 _ _ _ with _ => _ end = _ =>
    assert (Hs : same_collectors k k1) by done; set (k1' := k1) in * end.
  destruct (SendFromModuleToModule _ _ _ _) as [k2| |] eqn:Hsend; [| |done].
  - injection E as <- <-. apply (collectors_paid due k k2); [done| |].
    + apply SendFromModuleToModule_frame in Hsend as [b ->]. apply Hs.
    + rewrite (module_send_cacao _ _ _ _ _ AffiliateCollectorName Hsend) by done.
      rewrite String.eqb_refl. change (String.eqb _ AsgardName) with false.
      destruct Hs as [_ ->]. cbn [CacaoAmount]. lia.
  - injection E as <- <-. by eapply same_collectors_owe.
Qed.

Lemma check_owes due gm k mn i k' i' : collectors_owe due k ->
  checkAndTriggerPreferredAssetSwap gm k mn i = Ok (k', i') -> collectors_owe due k'.
Proof.
  intros H E. unfold checkAndTriggerPreferredAssetSwap in E.
  apply bind_Ok in E as (threshold & _ & E). destruct (_ <? _); [|by injection E as <- <-].
  apply bind_Ok in E as ([k1 e] & Ht & E). injection E as <- _. by eapply trigger_owes.
Qed.

(** Accounting for what the module has received. *)
Lemma update_owes amount gm k mn i k' i' : collectors_owe amount k ->
  updateAffiliateCollector gm k amount mn i = Ok (k', i') -> collectors_inv k'.
Proof.
  intros H E. unfold updateAffiliateCollector in E.
  apply bind_Ok in E as (total & Ht & E). apply uint_add_Ok in Ht as [-> Ht].
  eapply check_owes; [|exact E].
  pose proof (collectors_set amount k k (MN_Owner mn) _ H eq_refl Ht) as Hset. cbn zeta in Hset.
  rewrite (co_sum _ _ H) in Hset.
  match type of Hset with collectors_owe ?d _ => by replace d with 0 in Hset by lia end.
Qed.

Lemma add_inv gm k amount mn i from k' i' : collectors_inv k ->
  is_module from = true -> from <> AffiliateCollectorName ->
  addToAffiliateCollector gm k amount mn i from = Ok (k', i') -> collectors_inv k'.
Proof.
  intros H Hf Hne E. unfold addToAffiliateCollector in E.
  apply bind_Ok in E as (k1 & Hsend & E). eapply update_owes; [|exact E].
  assert (Hc := SendFromModuleToModule_frame _ _ _ _ _ Hsend). destruct Hc as [b ->].
  split; [by apply (co_wf 0 k)|].
  rewrite (module_send_cacao _ _ _ _ _ _ Hsend) by done. rewrite String.eqb_refl.
  rewrite (proj2 (String.eqb_neq _ _) (not_eq_sym Hne)), (co_sum 0 k H).
  change (accrued (set_kv_bank k b)) with (accrued k). lia.
Qed.

Lemma distribute_inv gm k share tx signer i from k' i' total : collectors_inv k ->
  is_module from = true -> from <> AffiliateCollectorName ->
  distributeShare gm k share tx signer i from = Ok (k', i', total) -> collectors_inv k'.
Proof.
  intros H Hf Hne E. unfold distributeShare in E. destruct (Tx_Coins tx) as [|coin coins] eqn:Hc; [done|].
  match type of E with match ?o with _ => _ end = _ =>
    destruct o as [[k1 i1]| |] eqn:Hshare; [|by injection E as <- _|done] end.
  injection E as <- _ _. destruct (IsNativeBase _).
  - unfold sendShareV118 in Hshare. destruct (negb _); [|by eapply add_inv].
    apply bind_Ok in Hshare as (acc & _ & Hshare). apply bind_Ok in Hshare as (k2 & Hpay & Hshare).
    injection Hshare as <- <-. assert (Hb := SendFromModuleToAccount_frame _ _ _ _ _ Hpay).
    destruct Hb as [b ->]. eapply same_collectors_owe; [|exact H]. split; [done|].
    rewrite (module_pay_cacao _ _ _ _ _ _ Hpay) by done.
    rewrite (proj2 (String.eqb_neq _ _) (not_eq_sym Hne)). lia.
  - unfold swapShareV118 in Hshare. rewrite Hc in Hshare.
    apply bind_Ok in Hshare as (ok & _ & Hshare). destruct (negb ok); [done|].
    apply bind_Ok in Hshare as (msg & _ & Hshare). injection Hshare as <- _.
    apply (same_collectors_owe 0 k); [done|exact H].
Qed.

Lemma pay_share_inv gm tx signer from s share s' : collectors_inv s.1.1 ->
  is_module from = true -> from <> AffiliateCollectorName ->
  pay_share gm tx signer from s share = Ok s' -> collectors_inv s'.1.1.
Proof.
  destruct s as [[k i] total]. intros H Hf Hne E. unfold pay_share in E.
  destruct (_ =? 0); [by injection E as <-|].
  apply bind_Ok in E as ([[k1 i1] d] & Hd & E). apply distribute_inv in Hd; [|done..].
  apply bind_Ok in E as (t & _ & E). destruct (_ && _); [|by injection E as <-].
  destruct (releaseAffiliateCollector _ _) as [k2| |] eqn:Hr; [| |done]; injection E as <-; [|done].
  by eapply release_owes.
Qed.

Lemma pay_shares_inv gm tx signer from shares s s' : collectors_inv s.1.1 ->
  is_module from = true -> from <> AffiliateCollectorName ->
  foldM (pay_share gm tx signer from) s shares = Ok s' -> collectors_inv s'.1.1.
Proof.
  revert s. induction shares as [|share shares IH]; intros s H Hf Hne E; cbn in E.
  - by injection E as <-.
  - apply bind_Ok in E as (s1 & Hs & E). apply pay_share_inv in Hs; [|done..]. by apply IH in E.
Qed.

Lemma skim_inv fuel gm k tx signer affiliates bps maxTotal from k' total : collectors_inv k ->
  is_module from = true -> from <> AffiliateCollectorName ->
  skim_affiliates fuel gm k tx signer affiliates bps maxTotal from = Ok (Some (k', total)) ->
  collectors_inv k'.
Proof.
  intros H Hf Hne E. unfold skim_affiliates in E. destruct (_ || _); [by injection E as <- _|].
  destruct (Tx_Coins tx) as [|coin coins]; [done|].
  apply bind_Ok in E as ([[[k1 shares] r]|] & Hc & E); [|done].
  apply bind_Ok in E as ([[k2 i] t] & Hp & E). injection E as <- _.
  apply pay_shares_inv in Hp; [done| |done..].
  unfold calculateAffiliateSharesV118 in Hc. apply bind_Ok in Hc as (root & _ & Hc).
  apply nested_names in Hc as [names ->]. destruct H as [H1 H2]. by split.
Qed.

Lemma sum_amounts l total : Forall (fun kv => collector_wf (fst kv) (snd kv)) l -> 0 <= total ->
  total + sumZ (fun kv => CacaoAmount (snd kv)) l < 2 ^ 256 ->
  foldM (fun total kv => uint_add total (CacaoAmount (snd kv))) total l =
    Ok (total + sumZ (fun kv : string * AffiliateFeeCollector => CacaoAmount (snd kv)) l).
Proof.
  intros Hl. revert total. induction Hl as [|kv l Hx Hl IH]; intros total Ht Hlt.
  - cbn. by rewrite Z.add_0_r.
  - rewrite sumZ_cons in *. destruct Hx as [_ [Hx _]].
    assert (0 <= sumZ (fun kv => CacaoAmount (snd kv)) l).
    { apply sumZ_nonneg. eapply Forall_impl; [exact Hl|]. by intros ? [_ []]. }
    cbn [foldM]. rewrite uint_add_law, checked_in by (unfold is_uint; lia). cbn [mbind outcome_bind].
    rewrite IH by lia. f_equal. lia.
Qed.

Lemma collectors_inv_checks k : collectors_inv k -> is_uint (cacao_of k AffiliateCollectorName) ->
  AffiliateCollectorInvariant k = Ok false.
Proof.
  intros H Hb. unfold AffiliateCollectorInvariant, GetBalanceOfModule. fold (cacao_of k AffiliateCollectorName).
  rewrite uint_of_big_law, checked_in by done. cbn [mbind outcome_bind].
  pose proof (co_sum 0 k H) as Hs. unfold accrued, map_sum in Hs. destruct Hb as [_ Hb].
  rewrite sum_amounts; [|..|lia|]; [|apply Forall_forall|].
  - cbn [mbind outcome_bind]. rewrite Hs, Z.add_0_r, Z.add_0_l. by rewrite Z.eqb_refl.
  - intros [key c] Hin%elem_of_map_to_list. by apply (co_wf 0 k H).
  - lia.
Qed.

(** C24: skimming the affiliate fees of a transaction, whatever its memo and whether
    its affiliates are paid, collect or are swapped for, keeps the invariant that
    the keeper checks: the module of the collectors holds exactly what the
    collectors have accrued. *)
Theorem skim_keeps_collectors_backed fuel gm k tx signer memo maxTotal from k' total :
  collectors_inv k -> is_module from = true -> from <> AffiliateCollectorName ->
  skimAffiliateFeesV118 fuel gm k tx signer memo maxTotal from = Ok (Some (k', total)) ->
  collectors_inv k' /\
  (is_uint (cacao_of k' AffiliateCollectorName) -> AffiliateCollectorInvariant k' = Ok false).
Proof.
  intros H Hf Hne E. assert (H' : collectors_inv k').
  { unfold skimAffiliateFeesV118 in E. destruct (Tx_IsEmpty tx); [done|].
    destruct (Tx_Coins tx) as [|coin coins]; [done|]. destruct (Coin_IsEmpty coin); [done|].
    destruct (ParseMemoWithMAYANames k memo) as [m [|e es]]; [|done]. by eapply skim_inv. }
  split; [done|]. by apply collectors_inv_checks.
Qed.
End collector_facts.

Section collector_witnesses.
Import Reference ReferenceBank ReferenceRange ReferenceAddress ReferenceText.

#[local] Instance reference_sha : Sha256 := {| sha256_hex s := s |}.

(** "cat" wants BTC; its share is collected. "dog" has none: "alice" is paid. *)
Definition collecting : KVStore :=
  SetMAYAName
    (set_kv_bank dog_and_cat (mkState (<[("asgard", Asset_Native BaseNative) := 10 ^ 12]> ∅) ∅))
    (with_Owner (with_PreferredAsset (example_name "cat" []) BTCAsset) "carol").

Definition skim_tx : Tx :=
  mkTx "A1" BASEChain "alice" "asgard" [NewCoin BaseNative (10 ^ 10)] [] EmptyString.

Definition skim_result : outcome (option (KVStore * Z)) :=
  skimAffiliateFeesV118 3 newGasMgr collecting skim_tx "alice" "=:BTC.BTC:3abc::dog:200" 0 AsgardName.

Lemma collecting_inv : collectors_inv collecting.
Proof. split; [done|by vm_compute]. Qed.

Lemma skim_keeps_collectors_backed_witness :
  exists k', skim_result = Ok (Some (k', 200000000)) /\ collectors_inv k' /\
    accrued k' = 80000000 /\ AffiliateCollectorInvariant k' = Ok false.
Proof.
  assert (Hr : match skim_result with
    | Ok (Some (k', total)) => (total =? 200000000) && (accrued k' =? 80000000)
        && (cacao_of k' AffiliateCollectorName =? 80000000)
    | _ => false end = true) by by vm_compute.
  destruct skim_result as [[[k' total]|]| |] eqn:E; [|done..].
  apply andb_prop in Hr as [[->%Z.eqb_eq Ha%Z.eqb_eq]%andb_prop Hc%Z.eqb_eq].
  destruct (skim_keeps_collectors_backed 3 newGasMgr collecting skim_tx "alice"
    "=:BTC.BTC:3abc::dog:200" 0 AsgardName k' 200000000 collecting_inv eq_refl ltac:(done) E) as [H1 H2].
  exists k'. split_and!; [done|done|done|]. apply H2. rewrite Hc. by split.
Defined.
End collector_witnesses.
