(* ===== verification/SwapChecks.v ===== *)
(** The checks before a swap: [ValidateBasicV112] of [types/msg_swap.go] and
    [validateV123] of [x/mayachain/handler_swap.go]. *)
From S2P Require Import Prelude GoText Sdk Constants Floats Shares Chains Keys Addresses Assets Coins Txs.
From S2P Require Import NodeAccounts Votes TxOuts Vaults Pools Mimirs StreamingSwaps SwapMsgs LiquidityProviders.
From S2P Require Import Records MayaNames Stores Keeper Nodes Bonds VaultStore Halts Gas TradeAccounts.
From S2P Require Import Aggregators Swapper Affiliates Decimals Memos Collectors.

Section swap_validation.
Context `{V : Semver} `{B : CosmosBank} `{A : SdkAddress} `{R : MapRange} `{L : AddressLib}.
Context `{U : SdkUint} `{D : SdkDec} `{T : UintText} `{C : PubKeyCodec}.
Implicit Types k : KVStore.

(** [m.AffiliateBasisPoints.Equal(EmptyBps)] stands for basis points that are not
    given. *)
Definition affiliate_checks (m : MsgSwap) (version : Version) : outcome unit :=
  if Address_IsEmpty (AffiliateAddress m) then
    if negb ((AffiliateBasisPoints m =? 0) || (AffiliateBasisPoints m =? EmptyBps))
    then Err "swap affiliate address is empty while affiliate basis points is provided" else Ok tt
  else if negb (IsChain (AffiliateAddress m) BASEChain version)
  then Err "swap affiliate address must be a MAYA address"
  else if AffiliateBasisPoints m =? EmptyBps
  then Err "swap affiliate basis points mut be provided" else Ok tt.

Definition MsgSwap_ValidateBasicV112 (m : MsgSwap) (version : Version) : outcome unit :=
  let coins := Tx_Coins (Msg_Tx m) in
  if acc_empty (Signer m) then Err "invalid address"
  else
    _ ← Tx_Valid (Msg_Tx m);
    if Asset_IsEmpty (TargetAsset m) then Err "swap Target cannot be empty"
    else if (1 <? length coins)%nat then Err "not expecting multiple coins in a swap"
    else if Coins_IsEmpty coins then Err "swap coin cannot be empty"
    else if existsb (fun coin => Asset_Equals (Coin_Asset coin) (TargetAsset m)) coins
    then Err "swap Source and Target cannot be the same."
    else if HasNoneNativeRune coins then Err "only NATIVE RUNE can be used for swap"
    else if Address_IsEmpty (Destination m) then Err "swap Destination cannot be empty"
    else
      _ ← affiliate_checks m version;
      if negb (IsNoop (Destination m)) && negb (IsChain (Destination m) (GetChain (TargetAsset m)) version)
      then Err "swap destination address is not the same chain as the target asset"
      else if negb (String.eqb (Aggregator m) EmptyString) && String.eqb (AggregatorTargetAddress m) EmptyString
      then Err "aggregator target asset address is empty"
      else if negb (String.eqb (AggregatorTargetAddress m) EmptyString) && String.eqb (Aggregator m) EmptyString
      then Err "aggregator is empty"
      else Ok tt.

(** ** Modules as destinations *)

Definition module_accounts k : list string :=
  if GTE (kv_version k) (semver_release 1 118 0)
  then [AsgardName; BondName; ReserveName; ModuleName; MayaFund; CACAOPoolName; AffiliateCollectorName]
  else if GTE (kv_version k) (semver_release 1 112 0)
  then [AsgardName; BondName; ReserveName; ModuleName; MayaFund; AffiliateCollectorName]
  else if GTE (kv_version k) (semver_release 1 110 0)
  then [AsgardName; BondName; ReserveName; ModuleName; MayaFund]
  else [].

Definition IsModuleAccAddress k (accAddr : AccAddress) : bool :=
  existsb (fun name => acc_equals accAddr (bank_module name)) (module_accounts k).

(** A memo that does not parse is taken to be internal. *)
Definition check_memo k (msg : MsgSwap) : outcome unit :=
  match fst (ParseMemoWithMAYANames k (Tx_Memo (Msg_Tx msg))) with
  | MSwap mem =>
      match AccAddress_of (Swap_Destination mem) with
      | Panic => Panic
      | r =>
          if (if r is Ok destAccAddr then IsModuleAccAddress k destAccAddr else false)
          then Err "a network module cannot be the final destination of a swap memo"
          else if IsSyntheticAsset (TargetAsset msg)
                  && (0 <? GetConfigInt64 k (ConstantName_String "ManualSwapsToSynthDisabled"))
          then Err "manual swaps to synths not supported, use trade assets instead"
          else Ok tt
      end
  | _ => Ok tt
  end.

Definition check_aggregator k (msg : MsgSwap) : outcome unit :=
  if String.eqb (Aggregator msg) EmptyString then Ok tt
  else if 0 <? GetConfigInt64 k (ConstantName_String "SwapOutDexAggregationDisabled")
  then Err "swap out dex integration disabled"
  else if negb (Asset_Equals (TargetAsset msg) (GetGasAsset (Asset_Chain (TargetAsset msg))))
  then Err "target asset (%s) is not gas asset , can't use dex feature"
  else
    addr ← FetchDexAggregator (kv_version k) (Asset_Chain (TargetAsset msg)) (Aggregator msg);
    if String.eqb addr EmptyString then Err "aggregator address is empty"
    else if String.eqb (AggregatorTargetAddress msg) EmptyString
    then Err "aggregator target address is empty"
    else Ok tt.

(** ** Streaming swaps *)

Definition ragnarok_asset k (asset : Asset) : bool := 0 <? GetMimir k ("RAGNAROK-" +:+ MimirString asset).

Definition current_stream k (msg : MsgSwap) : outcome StreamingSwap :=
  swp ← GetStreamingSwap msg;
  Ok (if StreamingSwapExists k (Tx_ID (Msg_Tx msg)) then k_GetStreamingSwap k (Tx_ID (Msg_Tx msg)) else swp).

(** The coin the remaining checks are for, or [None] when they are skipped: they
    are done once, for the whole deposit. *)
Definition check_stream k (msg : MsgSwap) (sourceCoin : Coin) : outcome (option Coin) :=
  if negb (IsStreaming msg) then Ok (Some sourceCoin)
  else if 0 <? GetConfigInt64 k (ConstantName_String "StreamingSwapPause") then Err "streaming swaps are paused"
  else if existsb (ragnarok_asset k) [Coin_Asset sourceCoin; TargetAsset msg]
  then Err "streaming swaps disabled on ragnarok asset %s"
  else
    swp ← current_stream k msg;
    if ((0 <? Quantity swp) && StreamingSwap_IsDone swp) || (Deposit swp <=? In swp)
    then Err "streaming swap is completed, cannot continue to swap again"
    else if 0 <? Count swp then Ok None
    else Ok (Some (set_Amount sourceCoin (Deposit swp))).

(** ** Limits on synths *)

Definition getTotalLiquidityRUNE k : outcome Z :=
  foldM (fun total p =>
    if (Pool_Status p =? PoolStatus_Suspended) || Asset_IsNative (Pool_Asset p) then Ok total
    else uint_add total (BalanceCacao p)) 0 (GetPools k).

Definition coin_cacao_value k (coin : Coin) : Z :=
  if IsBase (Coin_Asset coin) then Coin_Amount coin
  else AssetValueInRune (GetPool k (GetLayer1Asset (Coin_Asset coin))) (Coin_Amount coin).

Definition maximum_liquidity k : Z :=
  let key := ConstantName_String "MaximumLiquidityCacao" in
  let m := GetMimir k key in if m <? 0 then kv_constants k key else m.

(** What a simulated swap emits, with the fee of a plain swap. *)
Definition simulated_synths k (sourceCoin : Coin) (target : Asset) : outcome Z :=
  cacaoAmount ←
    (if IsBase (Coin_Asset sourceCoin) then Ok (Coin_Amount sourceCoin)
     else
       let sourceAssetPool := if IsSyntheticAsset (Coin_Asset sourceCoin)
                              then GetLayer1Asset (Coin_Asset sourceCoin) else Coin_Asset sourceCoin in
       let sourcePool := GetPool k sourceAssetPool in
       CalcAssetEmission (BalanceAsset sourcePool) (Coin_Amount sourceCoin) (BalanceCacao sourcePool));
  let targetPool := GetPool k (GetLayer1Asset target) in
  CalcAssetEmission (BalanceCacao targetPool) cacaoAmount (BalanceAsset targetPool).

(** Whether liquidity must not exceed the bond: the parameter, or the constant. *)
Definition strict_bond_ratio k : bool :=
  let m := GetMimir k "EnsureLiquidityNoLargerThanBond" in
  if m <? 0 then
    match GetConstantValues (kv_version k) with
    | Some cv => GetBoolValue cv "StrictBondLiquidityRatio"
    | None => false
    end
  else m =? 1.

Definition errAddLiquidityRUNEOverLimit : string := "add liquidity rune is over limit".
Definition errAddLiquidityCACAOMoreThanBond : string := "add liquidity cacao is more than bond".

Definition check_synth k (sourceCoin : Coin) (target : Asset) : outcome unit :=
  totalLiquidityCACAO ← getTotalLiquidityRUNE k;
  totalLiquidityCACAO ← uint_add totalLiquidityCACAO (coin_cacao_value k sourceCoin);
  if (0 <? maximum_liquidity k) && (u64 (maximum_liquidity k) <? totalLiquidityCACAO)
  then Err errAddLiquidityRUNEOverLimit
  else
    targetAmount ← simulated_synths k sourceCoin target;
    _ ← isSynthMintPaused k target targetAmount;
    if strict_bond_ratio k && negb (IsSyntheticAsset (Coin_Asset sourceCoin)) then
      full ← atTVLCap k [sourceCoin];
      if (full : bool) then Err errAddLiquidityCACAOMoreThanBond else Ok tt
    else Ok tt.

(** ** All the checks *)

Definition affiliate_bps_over k (bps : Z) : bool :=
  negb (bps =? EmptyBps) && (u64 (GetConfigInt64 k "MaxAffiliateFeeBasisPoints") <? bps).

Definition swap_validateV123 k (msg : MsgSwap) : outcome unit :=
  let target := TargetAsset msg in
  _ ← MsgSwap_ValidateBasicV112 msg (kv_version k);
  if isTradingHalt k (Halt_MsgSwap msg) then Err "trading is halted, can't process swap"
  else if affiliate_bps_over k (AffiliateBasisPoints msg)
  then Err "affiliate fee basis points must not exceed %d"
  else
    _ ← check_memo k msg;
    if isLiquidityAuction k then Err "liquidity auction is in progress, can't process swap"
    else
      _ ← check_aggregator k msg;
      if IsSyntheticAsset target && Asset_IsNative (GetLayer1Asset target)
      then Err "minting a synthetic of a native coin is not allowed"
      else if IsTradeAsset target && Asset_IsNative (GetLayer1Asset target)
      then Err "swapping to a trade asset of a native coin is not allowed"
      else
        match Tx_Coins (Msg_Tx msg) with
        | [] => Panic
        | sourceCoin :: _ =>
            checked ← check_stream k msg sourceCoin;
            match checked with
            | Some coin => if IsSyntheticAsset target then check_synth k coin target else Ok tt
            | None => Ok tt
            end
        end.
End swap_validation.
