(* ===== verification/Liquidity.v ===== *)
(** The arithmetic of adding and withdrawing liquidity
    ([x/mayachain/handler_add_liquidity.go], [withdraw_current.go] and the
    functions of [withdraw_v91.go] and [withdraw_v105.go] it still calls). *)
From S2P Require Import Prelude GoText Sdk Shares Keys Assets Txs Pools LiquidityProviders.

Section liquidity.
Context `{U : SdkUint} `{D : SdkDec}.

(** ** Adding *)

(** The new total of pool units and the units of the deposit:
    P (a R + A r) / (2 A R) * (1 - |R a - r A| / ((r + R) (a + A))). *)
Definition calculatePoolUnitsV1 (oldPoolUnits poolRune poolAsset addRune addAsset : Z)
  : outcome (Z * Z) :=
  totalRune ← uint_add addRune poolRune;
  if totalRune =? 0 then Err "total RUNE in the pool is zero"
  else
    totalAsset ← uint_add addAsset poolAsset;
    if totalAsset =? 0 then Err "total asset in the pool is zero"
    else if (poolRune =? 0) || (poolAsset =? 0) then Ok (addRune, addRune)
    else
      let P := dec_of_big oldPoolUnits in
      let R := dec_of_big poolRune in
      let A := dec_of_big poolAsset in
      let r := dec_of_big addRune in
      let a := dec_of_big addAsset in
      rR ← dec_add r R;
      aA ← dec_add a A;
      slipAdjDenominator ← dec_mul rR aA;
      Ra ← dec_mul R a;
      rA ← dec_mul r A;
      diff ← (if rA <? Ra then dec_sub Ra rA else dec_sub rA Ra);
      slipAdjustment ← dec_quo diff slipAdjDenominator;
      slipAdjustment ← dec_sub (dec_of_int 1) slipAdjustment;
      aR ← dec_mul a R;
      Ar ← dec_mul A r;
      value ← dec_add aR Ar;
      numerator ← dec_mul P value;
      twoA ← dec_mul (dec_of_int 2) A;
      denominator ← dec_mul twoA R;
      units ← dec_quo numerator denominator;
      liquidityUnits ← dec_mul units slipAdjustment;
      newPoolUnit ← dec_add P liquidityUnits;
      pTrunc ← dec_truncate_int newPoolUnit;
      pUnits ← uint_of_big pTrunc;
      sTrunc ← dec_truncate_int liquidityUnits;
      sUnits ← uint_of_big sTrunc;
      Ok (pUnits, sUnits).

Definition calculateVaultUnitsV1 (oldPoolUnits poolAmt addAmt : Z) : outcome (Z * Z) :=
  if (oldPoolUnits =? 0) || (poolAmt =? 0) then Ok (addAmt, addAmt)
  else if addAmt =? 0 then Ok (oldPoolUnits, 0)
  else
    let lpUnits := GetUncappedShare addAmt poolAmt oldPoolUnits in
    total ← uint_add oldPoolUnits lpUnits;
    Ok (total, lpUnits).

(** ** Withdrawing *)

(** The side to withdraw: both for the empty asset. *)
Definition assetToWithdrawV89 (msgAsset withdrawalAsset : Asset) (lp : LiquidityProvider)
    (pauseAsym : Z) : Asset :=
  if Address_IsEmpty (Lp_CacaoAddress lp) then msgAsset
  else if Address_IsEmpty (Lp_AssetAddress lp) then BaseAsset
  else if 0 <? pauseAsym then EmptyAsset
  else withdrawalAsset.

(** (s A (2 T^2 - 2 T s + s^2)) / T^3 *)
Definition calcAsymWithdrawalV1 (s t a : Z) : outcome Z :=
  part1 ← uint_mul s a;
  tt ← uint_mul t t;
  part2 ← uint_mul64 tt 2;
  ts ← uint_mul t s;
  part3 ← uint_mul64 ts 2;
  part4 ← uint_mul s s;
  d ← SafeSub part2 part3;
  sum ← uint_add d part4;
  numerator ← uint_mul part1 sum;
  tt' ← uint_mul t t;
  part5 ← uint_mul tt' t;
  uint_quo numerator part5.

(** What is withdrawn of either side, and the units left. *)
Definition calculateWithdrawV91
    (poolUnits poolRune poolAsset lpUnits extraUnits withdrawBasisPoints : Z)
    (withdrawalAsset : Asset) : outcome (Z * Z * Z) :=
  if poolUnits =? 0 then Err "poolUnits can't be zero"
  else if poolRune =? 0 then Err "pool rune balance can't be zero"
  else if poolAsset =? 0 then Err "pool asset balance can't be zero"
  else if lpUnits =? 0 then Err "liquidity provider unit can't be zero"
  else if MaxWithdrawBasisPoints <? withdrawBasisPoints
  then Err "withdraw basis point %s is not valid"
  else
    let unitsToClaim := GetSafeShare withdrawBasisPoints 10000 lpUnits in
    unitAfter ← SafeSub lpUnits unitsToClaim;
    unitsToClaim ← uint_add unitsToClaim extraUnits;
    if Asset_IsEmpty withdrawalAsset then
      Ok (GetSafeShare unitsToClaim poolUnits poolRune,
          GetSafeShare unitsToClaim poolUnits poolAsset, unitAfter)
    else if IsBase withdrawalAsset then
      w ← calcAsymWithdrawalV1 unitsToClaim poolUnits poolRune; Ok (w, 0, unitAfter)
    else
      w ← calcAsymWithdrawalV1 unitsToClaim poolUnits poolAsset; Ok (0, w, unitAfter).

Definition calculateVaultWithdrawV1 (vaultUnits assetAmt lpUnits withdrawBasisPoints : Z)
  : outcome (Z * Z * Z) :=
  if (vaultUnits =? 0) || (lpUnits =? 0) || (assetAmt =? 0) || (withdrawBasisPoints =? 0)
  then Ok (0, 0, 0)
  else
    let unitsToClaim := GetSafeShare withdrawBasisPoints MaxWithdrawBasisPoints lpUnits in
    unitAfter ← SafeSub lpUnits unitsToClaim;
    Ok (0, GetSafeShare unitsToClaim vaultUnits assetAmt, unitAfter).
End liquidity.

(** ** Exact decimals *)

Section decimals.
Context {D : SdkDec} {DL : SdkDecLaws D}.

Lemma dec_mul_int x y :
  0 <= x -> 0 <= y -> x * y < 2 ^ 255 -> dec_mul (x * prec) (y * prec) = Ok (x * y * prec).
Proof.
  intros Hx Hy Hb. assert (Hp : 0 < prec) by done.
  assert (Hm : x * prec * (y * prec) = x * y * prec * prec) by ring.
  destruct (dec_mul_total (x * prec) (y * prec)) as [c Hc]; [nia..| |].
  { rewrite Hm, Z.div_mul by lia. apply scaled_fits. nia. }
  rewrite Hc. f_equal. apply dec_mul_rounds in Hc; [|nia..]. rewrite Hm in Hc.
  by eapply rounds_to_exact; [|reflexivity|exact Hc].
Qed.

Lemma dec_add_int x y :
  0 <= x -> 0 <= y -> x + y < 2 ^ 255 -> dec_add (x * prec) (y * prec) = Ok ((x + y) * prec).
Proof.
  intros. assert (Hp : 0 < prec) by done. rewrite dec_add_total; [f_equal; ring|nia|nia|].
  pose proof (scaled_fits (x + y)). lia.
Qed.

Lemma dec_quo_int n d :
  0 <= n < 2 ^ 255 -> 0 < d ->
  exists q, dec_quo (n * prec) (d * prec) = Ok q /\ rounds_to (n * prec) d q.
Proof.
  intros Hn Hd. assert (Hp : 0 < prec) by done.
  assert (Hcancel : n * prec * prec / (d * prec) = n * prec / d) by (apply Z.div_mul_cancel_r; lia).
  destruct (dec_quo_total (n * prec) (d * prec)) as [q Hq]; [nia|nia| |].
  { rewrite Hcancel. pose proof (scaled_fits n Hn).
    assert (n * prec / d <= n * prec) by (apply Z.div_le_upper_bound; nia). lia. }
  exists q. split; [done|]. apply dec_quo_rounds in Hq as [H1 H2]; [|nia|nia].
  rewrite Hcancel in H1, H2. split; [done|]. intros Hm. apply H2.
  rewrite Zmult_mod_distr_r, Hm. lia.
Qed.

Lemma dec_truncate_scaled c : 0 <= c -> c / prec < 2 ^ 255 -> dec_truncate_int c = Ok (c / prec).
Proof. apply dec_truncate_int_law. Qed.
End decimals.

(** ** Units of a deposit *)

Section units.
Context {U : SdkUint} {D : SdkDec} {UL : SdkUintLaws U} {DL : SdkDecLaws D}.

(** A product with a factor of at most one never exceeds the other factor. *)
Lemma dec_mul_le_one u s c :
  0 <= u -> 0 <= s <= prec -> dec_mul u s = Ok c -> 0 <= c <= u /\ (s = prec -> c = u).
Proof.
  intros Hu Hs Hc. assert (Hp : 0 < prec) by done.
  apply dec_mul_rounds in Hc; [|lia..]. split_and!.
  - eapply rounds_to_nonneg; [| |exact Hc]; nia.
  - eapply rounds_to_le; [| |exact Hc]; nia.
  - intros ->. by eapply rounds_to_exact; [|reflexivity|exact Hc].
Qed.

Lemma slip_adjustment R A r a :
  0 < R < 2 ^ 84 -> 0 < A < 2 ^ 84 -> 0 <= r < 2 ^ 84 -> 0 <= a < 2 ^ 84 ->
  exists diff q,
    (if r * A * prec <? R * a * prec then dec_sub (R * a * prec) (r * A * prec)
     else dec_sub (r * A * prec) (R * a * prec)) = Ok diff /\
    dec_quo diff ((r + R) * (a + A) * prec) = Ok q /\ 0 <= q <= prec /\
    (R * a = r * A -> q = 0).
Proof.
  intros HR HA Hr Ha. assert (Hp : 0 < prec) by done.
  set (n := Z.abs (R * a - r * A)).
  pose proof (mul_fits R a 84 84 ltac:(lia) ltac:(lia) ltac:(lia) ltac:(lia)) as Hra.
  pose proof (mul_fits r A 84 84 ltac:(lia) ltac:(lia) ltac:(lia) ltac:(lia)) as HrA.
  change (84 + 84) with 168 in Hra, HrA.
  assert (Hn : 0 <= n < 2 ^ 255) by (unfold n; lia).
  assert (Hden : 0 < (r + R) * (a + A) /\ n <= (r + R) * (a + A)) by (unfold n; nia).
  assert (Hdiff : (if r * A * prec <? R * a * prec then dec_sub (R * a * prec) (r * A * prec)
     else dec_sub (r * A * prec) (R * a * prec)) = Ok (n * prec)).
  { pose proof (scaled_fits (R * a) ltac:(lia)). pose proof (scaled_fits (r * A) ltac:(lia)).
    destruct (Z.ltb_spec (r * A * prec) (R * a * prec)).
    - rewrite dec_sub_total by nia. f_equal. unfold n. nia.
    - rewrite dec_sub_total by nia. f_equal. unfold n. nia. }
  destruct (dec_quo_int n ((r + R) * (a + A)) Hn) as (q & Hq & Hround); [lia|].
  exists (n * prec), q. split_and!; try done.
  - eapply rounds_to_nonneg; [| |exact Hround]; nia.
  - eapply rounds_to_le; [| |exact Hround]; nia.
  - intros He. assert (Hn0 : n = 0) by (unfold n; lia).
    eapply rounds_to_exact; [| |exact Hround]; [lia|]. by rewrite Hn0.
Qed.

(** The units of a deposit before truncation. *)
Lemma scaled_units N d sl :
  0 <= N < 2 ^ 254 -> 0 < d -> 0 <= sl <= prec ->
  exists u c, dec_quo (N * prec) (d * prec) = Ok u /\ dec_mul u sl = Ok c /\
    0 <= c <= N * prec + 1 /\ c * d <= N * prec + d /\ (sl = prec -> N * prec < (c + 1) * d).
Proof.
  intros HN Hd Hs. assert (Hp : 0 < prec) by done.
  destruct (dec_quo_int N d ltac:(lia) Hd) as (u & Hu & Hround).
  assert (HNp : 0 <= N * prec) by (apply Z.mul_nonneg_nonneg; lia).
  pose proof (rounds_to_nonneg _ _ _ Hd HNp Hround) as Hu0.
  pose proof (rounds_to_bounds _ _ _ Hd Hround) as Hb.
  pose proof (scaled_fits N ltac:(lia)). pose proof Hround as [[Hlo Hhi] _].
  assert (Hdiv : N * prec / d <= N * prec) by (apply Z.div_le_upper_bound; nia).
  destruct (dec_mul_total u sl) as [c Hc]; [done|lia| |].
  { assert (u * sl / prec <= u) by (apply Z.div_le_upper_bound; nia).
    assert (N * prec + 2 < dec_limit) by (unfold prec, dec_limit in *; lia). lia. }
  destruct (dec_mul_le_one u sl c Hu0 Hs Hc) as [Hcu Hfull].
  exists u, c. split_and!; [done|done|lia|lia|nia|].
  intros Hsl. rewrite (Hfull Hsl).
  pose proof (Z.div_mod (N * prec) d). pose proof (Z.mod_pos_bound (N * prec) d). nia.
Qed.

Lemma truncate_units P c :
  0 <= P < 2 ^ 84 -> 0 <= c <= 2 ^ 253 * prec + 1 ->
  exists p s, dec_add (P * prec) c = Ok p /\ s = c / prec /\ 0 <= s /\
    dec_truncate_int p = Ok (P + s) /\ uint_of_big (P + s) = Ok (P + s) /\
    dec_truncate_int c = Ok s /\ uint_of_big s = Ok s.
Proof.
  intros HP Hc. assert (Hp : 1 < prec) by done.
  assert (Hs : 0 <= c / prec <= 2 ^ 253) .
  { split; [by apply Z.div_pos; lia|]. apply Z.lt_succ_r, Z.div_lt_upper_bound; lia. }
  assert (Hadd : (P * prec + c) / prec = P + c / prec) by (rewrite Z.div_add_l; lia).
  exists (P * prec + c), (c / prec). split_and!; [|done|lia| | | |].
  - apply dec_add_total; [nia|lia|]. unfold prec, dec_limit in *. lia.
  - rewrite <- Hadd. apply dec_truncate_int_law; [nia|lia].
  - apply uint_of_big_Ok. unfold is_uint. split; [done|lia].
  - apply dec_truncate_int_law; lia.
  - apply uint_of_big_Ok. unfold is_uint. split; [done|lia].
Qed.

(** Truncating the units of the SDK's arithmetic, between two bounds. *)
Lemma units_at_most N d c s :
  0 < d -> c * d <= N * prec + d -> prec * s <= c -> d * s * prec <= N * prec + d.
Proof.
  intros Hd Hc Hs. transitivity (c * d); [|done].
  replace (d * s * prec) with (prec * s * d) by ring. by apply Z.mul_le_mono_nonneg_r; lia.
Qed.

Lemma units_at_least N d c s :
  0 < d -> s = c / prec -> N * prec < (c + 1) * d -> N < (s + 1) * d.
Proof.
  intros Hd -> Hc. assert (Hp : 0 < prec) by done.
  apply (Z.mul_lt_mono_pos_r prec); [done|].
  pose proof (Z.mod_pos_bound c prec Hp). pose proof (Z.div_mod c prec).
  apply (Z.lt_le_trans _ _ _ Hc).
  replace ((c / prec + 1) * d * prec) with ((prec * (c / prec) + prec) * d) by ring.
  apply Z.mul_le_mono_nonneg_r; lia.
Qed.

(** C35: a deposit of [r] CACAO and [a] asset into a pool of [R], [A] and [P] units
    gets at most [P (a R + A r) / (2 A R)] units, its share of the pool at the
    price before it (up to the last decimal of the SDK's arithmetic); the pool's
    total grows by exactly those units; and a deposit in the ratio of the pool
    gets its full share [P r / R], rounded down. No amount below 2^84 fails. *)
Theorem calculatePoolUnitsV1_spec P R A r a :
  0 <= P < 2 ^ 84 -> 0 < R < 2 ^ 84 -> 0 < A < 2 ^ 84 -> 0 <= r < 2 ^ 84 -> 0 <= a < 2 ^ 84 ->
  exists s, calculatePoolUnitsV1 P R A r a = Ok (P + s, s) /\ 0 <= s /\
    2 * A * R * s * 10 ^ 18 <= P * (a * R + A * r) * 10 ^ 18 + 2 * A * R /\
    (R * a = r * A -> s * R * 10 ^ 18 <= P * r * 10 ^ 18 + R /\ P * r < (s + 1) * R).
Proof.
  intros HP HR HA Hr Ha. assert (Hp : 0 < prec) by done.
  unfold calculatePoolUnitsV1.
  rewrite (uint_add_law r R), (checked_in (r + R)) by (unfold is_uint; lia). cbn [mbind outcome_bind].
  rewrite (proj2 (Z.eqb_neq (r + R) 0)) by lia.
  rewrite (uint_add_law a A), (checked_in (a + A)) by (unfold is_uint; lia). cbn [mbind outcome_bind].
  rewrite (proj2 (Z.eqb_neq (a + A) 0)), (proj2 (Z.eqb_neq R 0)), (proj2 (Z.eqb_neq A 0)) by lia.
  cbn [orb]. rewrite !dec_of_big_law, !dec_of_int_law.
  destruct (slip_adjustment R A r a HR HA Hr Ha) as (diff & q & Hdiff & Hq & Hq1 & Hq0).
  pose proof (mul_fits (r + R) (a + A) 85 85 ltac:(lia) ltac:(lia) ltac:(lia) ltac:(lia)) as B1.
  pose proof (mul_fits R a 84 84 ltac:(lia) ltac:(lia) ltac:(lia) ltac:(lia)) as B2.
  pose proof (mul_fits A r 84 84 ltac:(lia) ltac:(lia) ltac:(lia) ltac:(lia)) as B3.
  pose proof (mul_fits (2 * A) R 85 84 ltac:(lia) ltac:(lia) ltac:(lia) ltac:(lia)) as B4.
  change (85 + 85) with 170 in B1. change (84 + 84) with 168 in B2, B3. change (85 + 84) with 169 in B4.
  pose proof (mul_fits P (a * R + A * r) 84 169 ltac:(lia) ltac:(lia) ltac:(lia) ltac:(lia)) as B5.
  change (84 + 169) with 253 in B5. remember (P * (a * R + A * r)) as N eqn:HN.
  assert (Hone : dec_sub (1 * prec) q = Ok (prec - q)).
  { rewrite dec_sub_total; [f_equal; lia|lia|]. unfold prec, dec_limit. lia. }
  destruct (scaled_units N (2 * A * R) (prec - q)) as (u & c & Hu & Hc & Hc0 & Hcd & Hfull); [lia|nia|lia|].
  destruct (truncate_units P c HP) as (p & s & Hpc & Hs & Hs0 & T1 & T2 & T3 & T4).
  { assert (N * prec <= 2 ^ 253 * prec) by (apply Z.mul_le_mono_nonneg_r; lia). lia. }
  rewrite (dec_add_int r R), (dec_add_int a A) by lia. cbn [mbind outcome_bind].
  rewrite (dec_mul_int (r + R) (a + A)), (dec_mul_int R a), (dec_mul_int r A) by lia.
  cbn [mbind outcome_bind]. rewrite Hdiff. cbn [mbind outcome_bind].
  rewrite Hq. cbn [mbind outcome_bind]. rewrite Hone. cbn [mbind outcome_bind].
  rewrite (dec_mul_int a R), (dec_mul_int A r) by lia. cbn [mbind outcome_bind].
  rewrite (dec_add_int (a * R) (A * r)) by lia. cbn [mbind outcome_bind].
  rewrite (dec_mul_int P (a * R + A * r)), (dec_mul_int 2 A) by lia. cbn [mbind outcome_bind].
  rewrite (dec_mul_int (2 * A) R) by lia. rewrite <- HN. cbn [mbind outcome_bind].
  rewrite Hu. cbn [mbind outcome_bind]. rewrite Hc. cbn [mbind outcome_bind].
  rewrite Hpc. cbn [mbind outcome_bind]. rewrite T1. cbn [mbind outcome_bind].
  rewrite T2. cbn [mbind outcome_bind]. rewrite T3. cbn [mbind outcome_bind].
  rewrite T4. cbn [mbind outcome_bind].
  exists s. split; [reflexivity|]. split; [done|].
  change (10 ^ 18) with prec.
  pose proof (Z.mul_div_le c prec Hp) as Hsc. rewrite <- Hs in Hsc.
  set (d := 2 * A * R) in *. assert (Hd : 0 < d) by (unfold d; nia).
  split; [by apply (units_at_most N d c s)|]. intros He.
  assert (HN2 : N = 2 * A * (P * r)) by (rewrite HN; replace (a * R) with (A * r) by lia; ring).
  split.
  - apply (Z.mul_le_mono_pos_l _ _ (2 * A)); [lia|].
    replace (2 * A * (P * r * prec + R)) with (N * prec + d) by (rewrite HN2; unfold d; ring).
    replace (2 * A * (s * R * prec)) with (d * s * prec) by (unfold d; ring).
    by apply (units_at_most N d c s).
  - apply (Z.mul_lt_mono_pos_l (2 * A)); [lia|].
    rewrite <- HN2.
    replace (2 * A * ((s + 1) * R)) with ((s + 1) * d) by (unfold d; ring).
    apply (units_at_least N d c s); [done|done|]. apply Hfull. rewrite Hq0; [lia|done].
Qed.
End units.

(** ** Withdrawals *)

Section withdrawals.
Context {U : SdkUint} {D : SdkDec} {UL : SdkUintLaws U} {DL : SdkDecLaws D}.

(** The share of one side that [s] of [t] units redeem, as a polynomial. *)
Definition asym_numerator (s t a : Z) : Z := s * a * (2 * (t * t) - 2 * (t * s) + s * s).

Lemma asym_numerator_bounds s t a :
  0 <= s <= t -> 0 <= a ->
  s * a * (t * t) <= asym_numerator s t a <= a * (t * t * t) /\
  asym_numerator s t a <= 2 * (s * a * (t * t)).
Proof.
  intros Hs Ha. unfold asym_numerator. assert (Hsa : 0 <= s * a) by nia.
  assert (Hq : t * t <= 2 * (t * t) - 2 * (t * s) + s * s) by nia.
  assert (Hq2 : 2 * (t * t) - 2 * (t * s) + s * s <= 2 * (t * t)) by nia.
  assert (Hcube : s * (2 * (t * t) - 2 * (t * s) + s * s) <= t * t * t).
  { assert (0 <= (t - s) * (t * t - t * s + s * s)) by (apply Z.mul_nonneg_nonneg; nia). nia. }
  split_and!.
  - by apply Z.mul_le_mono_nonneg_l.
  - replace (s * a * (2 * (t * t) - 2 * (t * s) + s * s))
      with (a * (s * (2 * (t * t) - 2 * (t * s) + s * s))) by ring.
    by apply Z.mul_le_mono_nonneg_l.
  - replace (2 * (s * a * (t * t))) with (s * a * (2 * (t * t))) by ring.
    by apply Z.mul_le_mono_nonneg_l.
Qed.

Lemma calcAsymWithdrawalV1_Ok s t a :
  0 <= s <= t -> 0 < t < 2 ^ 63 -> 0 <= a < 2 ^ 63 ->
  calcAsymWithdrawalV1 s t a = Ok (asym_numerator s t a / (t * t * t)).
Proof.
  intros Hs Ht Ha. unfold calcAsymWithdrawalV1.
  pose proof (mul_fits s a 63 63 ltac:(lia) ltac:(lia) ltac:(lia) ltac:(lia)) as B1.
  pose proof (mul_fits t t 63 63 ltac:(lia) ltac:(lia) ltac:(lia) ltac:(lia)) as B2.
  pose proof (mul_fits t s 63 63 ltac:(lia) ltac:(lia) ltac:(lia) ltac:(lia)) as B3.
  pose proof (mul_fits s s 63 63 ltac:(lia) ltac:(lia) ltac:(lia) ltac:(lia)) as B4.
  pose proof (mul_fits (t * t) t 126 63 B2 ltac:(lia) ltac:(lia) ltac:(lia)) as B5.
  change (63 + 63) with 126 in B1, B2, B3, B4. change (126 + 63) with 189 in B5.
  assert (Hts : t * s <= t * t) by nia.
  assert (Hss : s * s <= t * s) by nia.
  pose proof (mul_fits (s * a) (2 * (t * t) - 2 * (t * s) + s * s) 126 127 B1
    ltac:(lia) ltac:(lia) ltac:(lia)) as B6.
  change (126 + 127) with 253 in B6. fold (asym_numerator s t a) in B6.
  assert (Hpos : 0 < t * t * t) by nia.
  rewrite (uint_mul_law s a), checked_in by (unfold is_uint; lia). cbn [mbind outcome_bind].
  rewrite (uint_mul_law t t), checked_in by (unfold is_uint; lia). cbn [mbind outcome_bind].
  rewrite (uint_mul64_law (t * t) 2), checked_in by (unfold is_uint; lia). cbn [mbind outcome_bind].
  rewrite (uint_mul_law t s), checked_in by (unfold is_uint; lia). cbn [mbind outcome_bind].
  rewrite (uint_mul64_law (t * s) 2), checked_in by (unfold is_uint; lia). cbn [mbind outcome_bind].
  rewrite (uint_mul_law s s), checked_in by (unfold is_uint; lia). cbn [mbind outcome_bind].
  rewrite SafeSub_total, Z.max_r by (unfold is_uint; lia). cbn [mbind outcome_bind].
  rewrite uint_add_law, checked_in by (unfold is_uint; lia). cbn [mbind outcome_bind].
  replace (t * t * 2 - t * s * 2 + s * s) with (2 * (t * t) - 2 * (t * s) + s * s) by ring.
  rewrite (uint_mul_law (s * a)). fold (asym_numerator s t a).
  rewrite checked_in by (unfold is_uint; lia). cbn [mbind outcome_bind].
  rewrite (uint_mul_law (t * t) t), checked_in by (unfold is_uint; lia). cbn [mbind outcome_bind].
  apply uint_quo_Ok; [lia|lia|]. split_and!; [lia|done|].
  apply is_uint_div; [unfold is_uint; lia|lia].
Qed.

Lemma asym_side s t a :
  0 <= s <= t -> 0 < t < 2 ^ 63 -> 0 <= a < 2 ^ 63 ->
  exists w, calcAsymWithdrawalV1 s t a = Ok w /\ 0 <= w /\ s * a / t <= w <= a /\ w * t <= 2 * (s * a).
Proof.
  intros Hs Ht Ha. eexists. split; [by apply calcAsymWithdrawalV1_Ok|].
  destruct (asym_numerator_bounds s t a Hs) as ([Hlo Hhi] & H2); [lia|].
  set (n := asym_numerator s t a) in *. assert (Hpos : 0 < t * t * t) by nia.
  assert (Hlow : s * a / t <= n / (t * t * t)).
  { apply Z.div_le_lower_bound; [done|]. etrans; [|exact Hlo].
    pose proof (Z.mul_div_le (s * a) t ltac:(lia)). nia. }
  split_and!; [|done| |].
  - etrans; [|exact Hlow]. apply Z.div_pos; nia.
  - apply Z.div_le_upper_bound; [done|]. lia.
  - apply (Z.mul_le_mono_pos_r _ _ (t * t)); [nia|].
    pose proof (Z.mul_div_le n (t * t * t) Hpos). nia.
Qed.

(** Redeeming [s] of [t] units from one side only gives at least the share of
    that side, at most twice that share and never more than the side holds; all
    the units give all of it, and no amount below 2^63 overflows. *)
Theorem calcAsymWithdrawalV1_spec s t a :
  0 <= s <= t -> 0 < t < 2 ^ 63 -> 0 <= a < 2 ^ 63 ->
  exists w, calcAsymWithdrawalV1 s t a = Ok w /\
    s * a / t <= w <= a /\ w * t <= 2 * (s * a) /\ (s = t -> w = a).
Proof.
  intros Hs Ht Ha. destruct (asym_side s t a Hs Ht Ha) as (w & Hw & _ & Hb & H2).
  exists w. split_and!; [done|lia|lia|done|]. intros ->.
  rewrite calcAsymWithdrawalV1_Ok in Hw by lia. injection Hw as <-.
  symmetry. apply Z.div_unique_exact; [nia|]. unfold asym_numerator. ring.
Qed.

(** A withdrawal of some basis points claims that part of the position's
    units, and all of them at 10000; no side pays more than it holds. Without an
    asset to withdraw, claiming every unit of the pool empties both sides; with
    one, only that side pays, at least its share and at most twice its share. *)
Theorem calculateWithdrawV91_spec T R A units extra bps asset :
  0 < T < 2 ^ 63 -> 0 < R < 2 ^ 63 -> 0 < A < 2 ^ 63 -> 0 < units -> 0 <= extra ->
  units + extra <= T -> 0 <= bps <= 10000 ->
  exists r a after, calculateWithdrawV91 T R A units extra bps asset = Ok (r, a, after) /\
    0 <= after <= units /\ (bps = 10000 -> after = 0) /\ 0 <= r <= R /\ 0 <= a <= A /\
    let claim := units - after + extra in
    if Asset_IsEmpty asset then claim = T -> r = R /\ a = A
    else if IsBase asset then a = 0 /\ claim * R / T <= r /\ r * T <= 2 * (claim * R)
    else r = 0 /\ claim * A / T <= a /\ a * T <= 2 * (claim * A).
Proof.
  intros HT HR HA Hu He Hle Hb. unfold calculateWithdrawV91, MaxWithdrawBasisPoints.
  rewrite (proj2 (Z.eqb_neq T 0)), (proj2 (Z.eqb_neq R 0)), (proj2 (Z.eqb_neq A 0)),
    (proj2 (Z.eqb_neq units 0)), (proj2 (Z.ltb_ge 10000 bps)) by lia.
  pose proof (GetSafeShare_range bps 10000 units ltac:(lia) ltac:(lia) ltac:(lia)) as Hc.
  assert (Hfull : bps = 10000 -> GetSafeShare bps 10000 units = units).
  { intros ->. unfold GetSafeShare. cbn [Z.leb]. apply GetUncappedShare_full; lia. }
  set (c := GetSafeShare bps 10000 units) in *. clearbody c.
  rewrite SafeSub_total, Z.max_r by (unfold is_uint; lia). cbn [mbind outcome_bind].
  rewrite uint_add_law, checked_in by (unfold is_uint; lia). cbn [mbind outcome_bind].
  replace (units - (units - c) + extra) with (c + extra) by lia.
  set (claim := c + extra). assert (Hcl : 0 <= claim <= T) by (unfold claim; lia).
  destruct (Asset_IsEmpty asset); [|destruct (IsBase asset)].
  - pose proof (GetSafeShare_range claim T R ltac:(lia) ltac:(lia) ltac:(lia)).
    pose proof (GetSafeShare_range claim T A ltac:(lia) ltac:(lia) ltac:(lia)).
    do 3 eexists. split; [reflexivity|]. split_and!; try lia.
    replace (units - (units - c) + extra) with claim by (unfold claim; lia).
    intros ->. unfold GetSafeShare. cbv zeta. destruct (_ <=? _);
      split; apply GetUncappedShare_full; lia.
  - destruct (asym_side claim T R Hcl HT) as (w & -> & ? & ? & ?); [lia|].
    do 3 eexists. split; [reflexivity|].
    replace (units - (units - c) + extra) with claim by (unfold claim; lia). split_and!; lia.
  - destruct (asym_side claim T A Hcl HT) as (w & -> & ? & ? & ?); [lia|].
    do 3 eexists. split; [reflexivity|].
    replace (units - (units - c) + extra) with claim by (unfold claim; lia). split_and!; lia.
Qed.
End withdrawals.

(** ** Witnesses *)

Section liquidity_witnesses.
Import Reference.

Lemma calculatePoolUnitsV1_spec_witness :
  exists s, calculatePoolUnitsV1 1000 500 100 50 10 = Ok (1000 + s, s) /\ 0 <= s /\
    2 * 100 * 500 * s * 10 ^ 18 <= 1000 * (10 * 500 + 100 * 50) * 10 ^ 18 + 2 * 100 * 500 /\
    (500 * 10 = 50 * 100 -> s * 500 * 10 ^ 18 <= 1000 * 50 * 10 ^ 18 + 500 /\ 1000 * 50 < (s + 1) * 500).
Proof. apply (calculatePoolUnitsV1_spec 1000 500 100 50 10); lia. Defined.

Lemma calcAsymWithdrawalV1_spec_witness :
  exists w, calcAsymWithdrawalV1 10 100 5000 = Ok w /\
    10 * 5000 / 100 <= w <= 5000 /\ w * 100 <= 2 * (10 * 5000) /\ (10 = 100 -> w = 5000).
Proof. apply (calcAsymWithdrawalV1_spec 10 100 5000); lia. Defined.

Lemma calculateWithdrawV91_spec_witness :
  exists r a after, calculateWithdrawV91 1000 5000 400 100 0 5000 BaseAsset = Ok (r, a, after) /\
    0 <= after <= 100 /\ (5000 = 10000 -> after = 0) /\ 0 <= r <= 5000 /\ 0 <= a <= 400 /\
    a = 0 /\ (100 - after + 0) * 5000 / 1000 <= r /\ r * 1000 <= 2 * ((100 - after + 0) * 5000).
Proof. apply (calculateWithdrawV91_spec 1000 5000 400 100 0 5000 BaseAsset); lia. Defined.
End liquidity_witnesses.
