(* ===== verification/AddLiquidity.v ===== *)
(** [x/mayachain/handler_add_liquidity.go]: the message that adds liquidity to a
    pool, with what is pending until both sides have arrived. *)
From stdpp Require Import pretty.
From S2P Require Import Prelude GoText Sdk Constants Floats Shares Chains Keys Addresses Assets Coins Txs.
From S2P Require Import NodeAccounts Votes TxOuts Vaults Pools Mimirs StreamingSwaps SwapMsgs LiquidityProviders.
From S2P Require Import Records MayaNames Stores Keeper Nodes Bonds VaultStore Halts Gas TradeAccounts.
From S2P Require Import Swapper Affiliates Decimals Memos Collectors SwapChecks Liquidity.

Record MsgAddLiquidity := mkMsgAddLiquidity {
  Add_Tx : Tx;
  Add_Asset : Asset;
  AssetAmount : Z;
  CacaoAmount : Z;
  Add_CacaoAddress : Address;
  Add_AssetAddress : Address;
  Add_AffiliateAddress : Address;
  Add_AffiliateBasisPoints : Z;
  Add_Signer : AccAddress;
  LiquidityAuctionTier : Z;
}.

Definition NewMsgAddLiquidity (tx : Tx) (asset : Asset) (baseAmount assetAmount : Z)
    (runeAddr assetAddr affAddr : Address) (affPts : Z) (signer : AccAddress) (tier : Z)
  : MsgAddLiquidity :=
  mkMsgAddLiquidity tx asset assetAmount baseAmount runeAddr assetAddr affAddr affPts signer tier.

(** The nodes of the main network at genesis. *)
Definition GenesisNodes : list string :=
  ["maya1q3jj8n8pkvl2kjv3pajdyju4hp92cmxnadknd2"; "maya10sy79jhw9hw9sqwdgu0k4mw4qawzl7czewzs47";
   "maya1gv85v0jvc0rsjunku3qxempax6kmrg5jqh8vmg"; "maya1vm43yk3jq0evzn2u6a97mh2k9x4xf5mzp62g23";
   "maya12amvthg5jqv99j0w4pnmqwqnysgvgljxmazgnq"].

Definition errAddLiquidityFailValidation : string := "fail to validate add liquidity".
Definition errAddLiquidityMismatchAddr : string := "mismatch of address".

Section add_liquidity.
Context `{V : Semver} `{B : CosmosBank} `{A : SdkAddress} `{R : MapRange} `{L : AddressLib}.
Context `{U : SdkUint} `{D : SdkDec} `{T : UintText} `{C : PubKeyCodec}.
Implicit Types k : KVStore.

Definition MsgAddLiquidity_ValidateBasicV112 (m : MsgAddLiquidity) : outcome unit :=
  let n := length (Tx_Coins (Add_Tx m)) in
  if acc_empty (Add_Signer m) then Err "invalid address"
  else if Asset_IsEmpty (Add_Asset m) then Err "add liquidity asset cannot be empty"
  else
    _ ← Tx_Valid (Add_Tx m);
    if IsBase (Add_Asset m) then Err "asset cannot be cacao"
    else if (n =? 2)%nat && ((AssetAmount m =? 0) || (CacaoAmount m =? 0)) then Err "did not find both coins"
    else if (2 <? n)%nat then Err "not expecting more than two coins in adding liquidity"
    else if Address_IsEmpty (Add_CacaoAddress m) && Address_IsEmpty (Add_AssetAddress m)
    then Err "rune address and asset address cannot be empty"
    else if Address_IsEmpty (Add_AffiliateAddress m) && negb (Add_AffiliateBasisPoints m =? 0)
    then Err "affiliate address is empty while affiliate basis points is non-zero"
    else Ok tt.

(** ** Validation *)

Definition needsSwap (msg : MsgAddLiquidity) : bool :=
  match Tx_Coins (Add_Tx msg) with
  | [coin] => negb (IsNativeBase (Coin_Asset coin)) && negb (Asset_Equals (Add_Asset msg) (Coin_Asset coin))
  | _ => false
  end.

Definition check_vault_asset k (msg : MsgAddLiquidity) : outcome unit :=
  let layer1 := GetLayer1Asset (Add_Asset msg) in
  if negb (IsVaultAsset (Add_Asset msg)) then Ok tt
  else if negb (IsGasAsset layer1) then Err "asset must be a gas asset for the layer1 protocol"
  else if negb (IsChain (Add_AssetAddress msg) (GetChain layer1) (kv_version k))
  then Err "asset address must be layer1 chain"
  else if negb (CacaoAmount msg =? 0) then Err "cannot deposit rune into a vault"
  else Ok tt.

Definition check_needed_swap (msg : MsgAddLiquidity) : outcome unit :=
  if negb (needsSwap msg) then Ok tt
  else if negb (IsVaultAsset (Add_Asset msg))
  then Err "swap & add liquidity is only available for synthetic pools"
  else
    match Tx_Coins (Add_Tx msg) with
    | [] => Panic
    | coin :: _ =>
        if negb (Asset_Equals (GetLayer1Asset (Add_Asset msg)) (Coin_Asset coin))
        then Err "deposit asset must be the layer1 equivalent for the synthetic asset"
        else Ok tt
    end.

Fixpoint check_genesis (nodes : list string) (node : AccAddress) : outcome unit :=
  match nodes with
  | [] => Ok tt
  | genesis :: nodes' =>
      match acc_from_bech32 genesis with
      | None => Err "fail to parse genesis node address"
      | Some genAddr =>
          if acc_equals genAddr node then Err "cannot add liquidity to genesis node: %s"
          else check_genesis nodes' node
      end
  end.

(** A position bonded through the deprecated address. *)
Definition check_bonded k (msg : MsgAddLiquidity) : outcome unit :=
  let node := NodeBondAddress (GetLiquidityProvider k (Add_Asset msg) (Add_CacaoAddress msg)) in
  if negb (Assets_Contains (GetLiquidityPools (kv_version k)) (Add_Asset msg)) || acc_empty node then Ok tt
  else
    _ ← check_genesis GenesisNodes node;
    let na := GetNodeAccount k node in
    if NodeAccount_Status na =? NodeStatus_Ready then Err "cannot add bond while node is ready status: %s"
    else if 0 <? GetConfigInt64 k (ConstantName_String "PauseBond") then Err "bonding has been paused"
    else
      liquidityBond ← CalcNodeLiquidityBond k na;
      bond ← uint_add liquidityBond (CacaoAmount msg);
      let maxBond := GetMimir k "MaximumBondInRune" in
      if (0 <? maxBond) && (u64 maxBond <? bond)
      then Err "too much bond, max validator bond (%s), bond(%s)"
      else Ok tt.

Definition getTotalLiquidityBase k : outcome Z :=
  foldM (fun total p =>
    if (Pool_Status p =? PoolStatus_Suspended) || IsVaultAsset (Pool_Asset p) then Ok total
    else uint_add total (BalanceCacao p)) 0 (GetPools k).

Definition check_security k (msg : MsgAddLiquidity) : outcome unit :=
  if IsVaultAsset (Add_Asset msg) || negb (strict_bond_ratio k) then Ok tt
  else
    totalLiquidity ← getTotalLiquidityBase k;
    totalLiquidity ← uint_add totalLiquidity (CacaoAmount msg);
    totalLiquidity ← uint_add totalLiquidity
      (AssetValueInRune (GetPool k (Add_Asset msg)) (AssetAmount msg));
    if (0 <? maximum_liquidity k) && (u64 (maximum_liquidity k) <? totalLiquidity)
    then Err errAddLiquidityRUNEOverLimit
    else
      full ← atTVLCap k [NewCoin BaseAsset (CacaoAmount msg); NewCoin (Add_Asset msg) (AssetAmount msg)];
      if (full : bool) then Err errAddLiquidityCACAOMoreThanBond else Ok tt.

Definition add_validateV123 k (msg : MsgAddLiquidity) : outcome unit :=
  let saverDepositDisabled := GetMimir k (ConstantName_String "SaverDepositDisabled") in
  if (0 <? saverDepositDisabled) && IsSyntheticAsset (Add_Asset msg) then Err "saver deposits are disabled"
  else
    _ ← (if IsBlank (Tx_ID (Add_Tx msg)) then Ok tt
         else match MsgAddLiquidity_ValidateBasicV112 msg with
              | Err _ => Err errAddLiquidityFailValidation
              | r => r
              end);
    if IsTradeAsset (Add_Asset msg) then Err "asset cannot be a trade asset"
    else if affiliate_bps_over k (Add_AffiliateBasisPoints msg)
    then Err "affiliate fee basis points must not exceed %d"
    else
      _ ← check_vault_asset k msg;
      if negb (Address_IsEmpty (Add_CacaoAddress msg))
         && negb (IsChain (Add_CacaoAddress msg) BASEChain (kv_version k))
      then Err errAddLiquidityFailValidation
      else
        _ ← check_needed_swap msg;
        _ ← (match EnsureValidPoolStatus (GetPool k (Add_Asset msg)) false with
             | Err _ => Err "invalid pool status"
             | r => r
             end);
        if isChainHalted k (Asset_Chain (Add_Asset msg)) || isLPPaused k (Asset_Chain (Add_Asset msg))
        then Err "unable to add liquidity while chain has paused LP actions"
        else _ ← check_bonded k msg; check_security k msg.

(** ** Savers deposit the layer-1 asset, which is swapped first *)

Definition add_swap_memo (msg : MsgAddLiquidity) (bps : Z) : string :=
  "+:" +:+ Asset_String (Add_Asset msg) +:+ "::" +:+ Add_AffiliateAddress msg +:+ ":" +:+ print_int bps.

Definition add_swapV110 k (msg : MsgAddLiquidity) : outcome KVStore :=
  if HasSwapQueueItem k (Tx_ID (Add_Tx msg)) 0 then Err "txn hash conflict"
  else if contains_char ":" (Asset_String (Add_Asset msg) +:+ Add_AffiliateAddress msg)
  then Err "illegal character"
  else
    bps ← amount_uint64 (Add_AffiliateBasisPoints msg);
    let tx := Add_Tx msg in
    let tx := mkTx (Tx_ID tx) (Tx_Chain tx) (FromAddress tx) (ToAddress tx) (Tx_Coins tx) (Tx_Gas tx)
                (add_swap_memo msg bps) in
    let ssInterval := GetConfigInt64 k (ConstantName_String "SaversStreamingSwapsInterval") in
    let ssInterval := if ssInterval <=? 0 then 0 else ssInterval in
    let swapMsg := NewMsgSwap tx (Add_Asset msg) NoopAddress 0 NoAddress 0 EmptyString EmptyString None
                     OrderType_market 0 (u64 ssInterval) (Add_Signer msg) in
    _ ← swap_validateV123 k swapMsg;
    Ok (SetSwapQueueItem k swapMsg 0).

(** ** Adding *)

Definition validateAddLiquidityMessage k (asset : Asset) (tx : Tx) (runeAddr assetAddr : Address)
  : outcome unit :=
  if Asset_IsEmpty asset then Err "asset is empty"
  else if TxID_IsEmpty (Tx_ID tx) then Err "request tx hash is empty"
  else if Address_IsEmpty runeAddr && Address_IsEmpty assetAddr
  then Err "rune address and asset address is empty"
  else if negb (PoolExist k asset) then Err "%s doesn't exist"
  else if (Pool_Status (GetPool k asset) =? PoolStatus_Staged)
          && (Address_IsEmpty runeAddr || Address_IsEmpty assetAddr)
  then Err "cannot add single sided liquidity while a pool is staged"
  else Ok tt.

Definition with_position (su : LiquidityProvider) (cacaoAddr assetAddr : Address) (lastAdd units : Z)
    (pendingCacao pendingAsset : Z) (pendingTx : TxID) (cacaoValue assetValue : Z) : LiquidityProvider :=
  mkLiquidityProvider (Lp_Asset su) cacaoAddr assetAddr lastAdd (Lp_LastWithdrawHeight su) units
    pendingCacao pendingAsset pendingTx cacaoValue assetValue (NodeBondAddress su) (WithdrawCounter su)
    (LastWithdrawCounterHeight su) (BondedNodes su).

(** The addresses of a position without units. *)
Definition new_addresses (asset : Asset) (su : LiquidityProvider) (runeAddr assetAddr : Address)
  : outcome (Address * Address) :=
  if negb (Lp_Units su =? 0) then Ok (Lp_CacaoAddress su, Lp_AssetAddress su)
  else
    let free := TxID_IsEmpty (PendingTxID su) in
    let cacaoAddress := if free && Address_IsEmpty (Lp_CacaoAddress su) then runeAddr
                        else Lp_CacaoAddress su in
    let assetAddress := if free && Address_IsEmpty (Lp_AssetAddress su) then assetAddr
                        else Lp_AssetAddress su in
    if IsVaultAsset asset then Ok (NoAddress, assetAddr)
    else if negb (Address_Equals runeAddr cacaoAddress) || negb (Address_Equals assetAddr assetAddress)
    then Err errAddLiquidityMismatchAddr
    else Ok (cacaoAddress, assetAddress).

(** The position a deposit is for, with its addresses. *)
Definition find_position k (asset : Asset) (runeAddr assetAddr : Address) : outcome LiquidityProvider :=
  let fetchAddr := if Address_IsEmpty runeAddr then assetAddr else runeAddr in
  let su := GetLiquidityProvider k asset fetchAddr in
  '(cacaoAddress, assetAddress) ← new_addresses asset su runeAddr assetAddr;
  let su := with_position su cacaoAddress assetAddress (kv_height k) (Lp_Units su) (PendingCacao su)
              (PendingAsset su) (PendingTxID su) (CacaoDepositValue su) (AssetDepositValue su) in
  if (if IsVaultAsset asset
      then Address_IsEmpty assetAddress
           || negb (IsChain assetAddress (GetChain (GetLayer1Asset asset)) (kv_version k))
      else negb (Address_IsEmpty assetAddr) && negb (Address_Equals assetAddress assetAddr))
  then Err errAddLiquidityMismatchAddr
  else Ok su.

(** An error when the pool is saved is only logged. *)
Definition set_pool_logged k (pool : Pool) : outcome KVStore :=
  match SetPool k pool with Ok k' => Ok k' | Err _ => Ok k | Panic => Panic end.

Definition auction_tier k (addr : Address) (tier : Z) : Z :=
  let tier1 := kv_constants k "WithdrawTier1" in
  let tier3 := kv_constants k "WithdrawTier3" in
  let oldTier := GetLiquidityAuctionTier k addr in
  if negb (oldTier =? 0) && (oldTier <? tier) then oldTier
  else if (tier <? tier1) || (tier3 <? tier) then tier3
  else tier.

Definition stage_cacao k (pool : Pool) (su : LiquidityProvider) (txID : TxID) (addCacao pendingCacao : Z)
  : outcome KVStore :=
  inbound ← uint_add (PendingInboundCacao pool) addCacao;
  let pool := set_Pending pool inbound (PendingInboundAsset pool) in
  let su := with_position su (Lp_CacaoAddress su) (Lp_AssetAddress su) (Lp_LastAddHeight su) (Lp_Units su)
              pendingCacao (PendingAsset su) txID (CacaoDepositValue su) (AssetDepositValue su) in
  set_pool_logged (SetLiquidityProvider k su) pool.

Definition stage_asset k (pool : Pool) (su : LiquidityProvider) (txID : TxID) (addAsset pendingAsset : Z)
    (runeAddr : Address) (tier : Z) : outcome KVStore :=
  inbound ← uint_add (PendingInboundAsset pool) addAsset;
  let pool := set_Pending pool (PendingInboundCacao pool) inbound in
  let su := with_position su (Lp_CacaoAddress su) (Lp_AssetAddress su) (Lp_LastAddHeight su) (Lp_Units su)
              (PendingCacao su) pendingAsset txID (CacaoDepositValue su) (AssetDepositValue su) in
  k ← set_pool_logged (SetLiquidityProvider k su) pool;
  Ok (if isLiquidityAuction k
      then SetLiquidityAuctionTier k runeAddr (auction_tier k (Lp_CacaoAddress su) tier) else k).

(** The value of the position at its last deposit, for impermanent loss. *)
Definition deposit_values (pool : Pool) (su : LiquidityProvider) (units liquidityUnits : Z)
  : outcome (Z * Z) :=
  if negb (Pool_Status pool =? PoolStatus_Available) then Ok (CacaoDepositValue su, AssetDepositValue su)
  else
    poolUnits ← GetPoolUnits pool;
    if (AssetDepositValue su =? 0) && (CacaoDepositValue su =? 0)
    then Ok (GetSafeShare units poolUnits (BalanceCacao pool),
             GetSafeShare units poolUnits (BalanceAsset pool))
    else
      c ← uint_add (CacaoDepositValue su) (GetSafeShare liquidityUnits poolUnits (BalanceCacao pool));
      a ← uint_add (AssetDepositValue su) (GetSafeShare liquidityUnits poolUnits (BalanceAsset pool));
      Ok (c, a).

(** What the protocol itself adds is recorded. *)
Definition record_pol k (addr : Address) (amount : Z) : outcome KVStore :=
  polAddress ← GetModuleAddress k ReserveName;
  if Address_Equals polAddress addr then
    let pol := GetPOL k in
    deposited ← uint_add (POL_CacaoDeposited pol) amount;
    Ok (SetPOL k (mkPOL deposited (POL_CacaoWithdrawn pol)))
  else Ok k.

Definition commit_liquidity k (asset : Asset) (pool : Pool) (su : LiquidityProvider)
    (pendingCacao pendingAsset : Z) : outcome KVStore :=
  inboundCacao ← SafeSub (PendingInboundCacao pool) (PendingCacao su);
  inboundAsset ← SafeSub (PendingInboundAsset pool) (PendingAsset su);
  let pool := set_Pending pool inboundCacao inboundAsset in
  oldPoolUnits ← GetPoolUnits pool;
  let pendingCacao := if IsVaultAsset asset then 0 else pendingCacao in
  '(_, liquidityUnits) ←
    (if IsVaultAsset asset then calculateVaultUnitsV1 oldPoolUnits (BalanceAsset pool) pendingAsset
     else calculatePoolUnitsV1 oldPoolUnits (BalanceCacao pool) (BalanceAsset pool) pendingCacao pendingAsset);
  poolRune ← uint_add (BalanceCacao pool) pendingCacao;
  poolAsset ← uint_add (BalanceAsset pool) pendingAsset;
  lpUnits ← uint_add (LPUnits pool) liquidityUnits;
  let pool := set_BalanceAsset (set_BalanceCacao (set_LPUnits pool lpUnits) poolRune) poolAsset in
  if ((poolRune =? 0) && negb (IsVaultAsset asset)) || (poolAsset =? 0)
  then Err "pool cannot have zero rune or asset balance"
  else
    k ← SetPool k pool;
    units ← uint_add (Lp_Units su) liquidityUnits;
    '(cacaoValue, assetValue) ← deposit_values pool su units liquidityUnits;
    let su := with_position su (Lp_CacaoAddress su) (Lp_AssetAddress su) (Lp_LastAddHeight su) units 0 0
                EmptyString cacaoValue assetValue in
    record_pol (SetLiquidityProvider k su) (Lp_CacaoAddress su) pendingCacao.

(** With [stage] a side that is still missing is waited for. *)
Definition addLiquidityV108 k (asset : Asset) (addCacaoAmount addAssetAmount : Z)
    (runeAddr assetAddr : Address) (tx : Tx) (stage : bool) (tier : Z) : outcome KVStore :=
  _ ← validateAddLiquidityMessage k asset tx runeAddr assetAddr;
  let pool := GetPool k asset in
  synthSupply ← GetTotalSupply k (GetSyntheticAsset (Pool_Asset pool));
  '(pool, _) ← CalcUnits pool (kv_version k) synthSupply;
  su ← find_position k asset runeAddr assetAddr;
  pendingCacaoAmt ← uint_add (PendingCacao su) addCacaoAmount;
  pendingAssetAmt ← uint_add (PendingAsset su) addAssetAmount;
  if stage && (pendingAssetAmt =? 0) then stage_cacao k pool su (Tx_ID tx) addCacaoAmount pendingCacaoAmt
  else if stage && (pendingCacaoAmt =? 0)
  then stage_asset k pool su (Tx_ID tx) addAssetAmount pendingAssetAmt runeAddr tier
  else commit_liquidity k asset pool su pendingCacaoAmt pendingAssetAmt.

(** ** The handler *)

Definition default_pool_status k (asset : Asset) : string :=
  if negb (Asset_Equals asset (GetGasAsset (GetChain asset))) && negb (IsVaultAsset asset) then
    match GetConstantValues (kv_version k) with
    | Some cv => GetStringValue cv "DefaultPoolStatus"
    | None => EmptyString
    end
  else "Available".

(** A pool that does not exist yet is made. *)
Definition ensure_pool k (msg : MsgAddLiquidity) : outcome (KVStore * Pool) :=
  let pool := GetPool k (Add_Asset msg) in
  if Pool_IsEmpty pool then
    let pool := mkPool (BalanceCacao pool) (BalanceAsset pool) (Add_Asset msg) (LPUnits pool)
                  (GetPoolStatus (default_pool_status k (Add_Asset msg))) (StatusSince pool)
                  (Pool_Decimals pool) (SynthUnits pool) (PendingInboundCacao pool)
                  (PendingInboundAsset pool) in
    k ← SetPool k pool; Ok (k, pool)
  else Ok (k, pool).

Definition set_decimals k (pool : Pool) (msg : MsgAddLiquidity) : outcome KVStore :=
  let coin := GetCoin (Tx_Coins (Add_Tx msg)) (Pool_Asset pool) in
  if (Pool_Decimals pool =? 0) && negb (Coin_IsEmpty coin) then
    SetPool k (mkPool (BalanceCacao pool) (BalanceAsset pool) (Pool_Asset pool) (LPUnits pool)
                 (Pool_Status pool) (StatusSince pool)
                 (if 0 <? Coin_Decimals coin then Coin_Decimals coin else Pool_Decimals pool)
                 (SynthUnits pool) (PendingInboundCacao pool) (PendingInboundAsset pool))
  else Ok k.

Definition stages (msg : MsgAddLiquidity) : bool :=
  negb (IsVaultAsset (Add_Asset msg)) && negb (IsBlank (Tx_ID (Add_Tx msg)))
  && ((negb (Address_IsEmpty (Add_AssetAddress msg)) && (AssetAmount msg =? 0))
      || (negb (Address_IsEmpty (Add_CacaoAddress msg)) && (CacaoAmount msg =? 0))).

(** The affiliate's share is added at once, never staged. *)
Definition add_handleV112 k (msg : MsgAddLiquidity) : outcome KVStore :=
  if needsSwap msg then add_swapV110 k msg
  else
    '(k, pool) ← ensure_pool k msg;
    k ← set_decimals k pool msg;
    let asset := Add_Asset msg in
    let bps := Add_AffiliateBasisPoints msg in
    if bps =? 0 then
      addLiquidityV108 k asset (CacaoAmount msg) (AssetAmount msg) (Add_CacaoAddress msg)
        (Add_AssetAddress msg) (Add_Tx msg) (stages msg) (LiquidityAuctionTier msg)
    else
      let affiliateRune := GetSafeShare bps 10000 (CacaoAmount msg) in
      let affiliateAsset := GetSafeShare bps 10000 (AssetAmount msg) in
      userRune ← SafeSub (CacaoAmount msg) affiliateRune;
      userAsset ← SafeSub (AssetAmount msg) affiliateAsset;
      k ← addLiquidityV108 k asset userRune userAsset (Add_CacaoAddress msg) (Add_AssetAddress msg)
            (Add_Tx msg) (stages msg) (LiquidityAuctionTier msg);
      let on_base := IsChain (Add_AffiliateAddress msg) BASEChain (kv_version k) in
      addLiquidityV108 k asset affiliateRune affiliateAsset
        (if on_base then Add_AffiliateAddress msg else NoAddress)
        (if on_base then NoAddress else Add_AffiliateAddress msg)
        (Add_Tx msg) false (LiquidityAuctionTier msg).

Definition add_Run k (msg : MsgAddLiquidity) : outcome KVStore :=
  _ ← add_validateV123 k msg; add_handleV112 k msg.
End add_liquidity.
