(* ===== verification/LiquidityBooks.v ===== *)
(** The books of the pools and the positions: the units and the pending amounts of
    a pool are the sums over the positions in it, and adding liquidity keeps them.
    For savers that is not so: a deposit may overwrite the position of another. *)
From S2P Require Import Prelude GoText Sdk Constants Floats Shares Chains Keys Addresses Assets Coins Txs.
From S2P Require Import NodeAccounts Votes TxOuts Vaults Pools Mimirs StreamingSwaps SwapMsgs LiquidityProviders.
From S2P Require Import Records MayaNames Stores Keeper Nodes Bonds VaultStore Halts Gas TradeAccounts.
From S2P Require Import Swapper Affiliates Decimals Memos Collectors SwapChecks Liquidity AddLiquidity.

(** ** The books *)

Definition lp_pool (lp : LiquidityProvider) : string := GetKey (Asset_String (Lp_Asset lp)).

Definition sum_in (f : LiquidityProvider -> Z) (lps : gmap string LiquidityProvider) (pool : string) : Z :=
  map_sum (fun _ lp => if String.eqb (lp_pool lp) pool then f lp else 0) lps.

(** A position is stored under its key, which ends with an address. *)
Definition lp_stored (key : string) (lp : LiquidityProvider) : Prop :=
  key = GetKey (LiquidityProvider_Key lp) /\ contains_char "/" (Lp_GetAddress lp) = false /\
  is_uint (Lp_Units lp) /\ is_uint (PendingCacao lp) /\ is_uint (PendingAsset lp).

Definition pool_stored (lps : gmap string LiquidityProvider) (key : string) (p : Pool) : Prop :=
  key = GetKey (Asset_String (Pool_Asset p)) /\ Asset_IsEmpty (Pool_Asset p) = false /\
  is_uint (LPUnits p) /\ is_uint (PendingInboundCacao p) /\ is_uint (PendingInboundAsset p) /\
  LPUnits p = sum_in Lp_Units lps key /\
  PendingInboundCacao p = sum_in PendingCacao lps key /\
  PendingInboundAsset p = sum_in PendingAsset lps key.

Record books (lps : gmap string LiquidityProvider) (pools : gmap string Pool) : Prop := {
  books_lps : map_Forall lp_stored lps;
  books_pools : map_Forall (pool_stored lps) pools;
}.

Definition liquidity_books `{Semver, CosmosBank} (k : KVStore) : Prop := books (kv_lps k) (kv_pools k).

(** Whether the books are right can be computed. *)
Definition is_uint_b (n : Z) : bool := (0 <=? n) && (n <? 2 ^ 256).

Definition lp_stored_b (key : string) (lp : LiquidityProvider) : bool :=
  String.eqb key (GetKey (LiquidityProvider_Key lp)) && negb (contains_char "/" (Lp_GetAddress lp)) &&
  is_uint_b (Lp_Units lp) && is_uint_b (PendingCacao lp) && is_uint_b (PendingAsset lp).

Definition pool_stored_b (lps : gmap string LiquidityProvider) (key : string) (p : Pool) : bool :=
  String.eqb key (GetKey (Asset_String (Pool_Asset p))) && negb (Asset_IsEmpty (Pool_Asset p)) &&
  is_uint_b (LPUnits p) && is_uint_b (PendingInboundCacao p) && is_uint_b (PendingInboundAsset p) &&
  (LPUnits p =? sum_in Lp_Units lps key) && (PendingInboundCacao p =? sum_in PendingCacao lps key) &&
  (PendingInboundAsset p =? sum_in PendingAsset lps key).

Definition liquidity_books_b `{Semver, CosmosBank} (k : KVStore) : bool :=
  forallb (fun e => lp_stored_b (fst e) (snd e)) (map_to_list (kv_lps k)) &&
  forallb (fun e => pool_stored_b (kv_lps k) (fst e) (snd e)) (map_to_list (kv_pools k)).

Lemma is_uint_b_spec n : is_uint_b n = true <-> is_uint n.
Proof. unfold is_uint_b, is_uint. rewrite andb_true_iff. lia. Qed.

Lemma map_forallb {X} (P : string -> X -> Prop) (b : string -> X -> bool) (m : gmap string X) :
  (forall i x, b i x = true <-> P i x) ->
  forallb (fun e => b (fst e) (snd e)) (map_to_list m) = true <-> map_Forall P m.
Proof.
  intros Hb. rewrite forallb_forall. split.
  - intros H i x Hi. apply Hb. apply (H (i, x)). by apply list_elem_of_In, elem_of_map_to_list.
  - intros H [i x] Hi%list_elem_of_In%elem_of_map_to_list. apply Hb. by apply H.
Qed.

Lemma liquidity_books_b_spec `{Semver, CosmosBank} (k : KVStore) :
  liquidity_books_b k = true <-> liquidity_books k.
Proof.
  unfold liquidity_books_b. rewrite andb_true_iff, !map_forallb.
  - split; [by intros []|by intros []].
  - intros i p. unfold pool_stored_b, pool_stored.
    rewrite !andb_true_iff, String.eqb_eq, negb_true_iff, !is_uint_b_spec, !Z.eqb_eq. tauto.
  - intros i lp. unfold lp_stored_b, lp_stored.
    rewrite !andb_true_iff, String.eqb_eq, negb_true_iff, !is_uint_b_spec. tauto.
Qed.

(** What the entry of a key contributes. *)
Definition entry_of (f : LiquidityProvider -> Z) (lps : gmap string LiquidityProvider) (key : string) : Z :=
  from_option f 0 (lps !! key).

Lemma sum_in_insert f lps key lp pool :
  (forall old, lps !! key = Some old -> lp_pool old = lp_pool lp) ->
  sum_in f (<[key := lp]> lps) pool =
    sum_in f lps pool + if String.eqb (lp_pool lp) pool then f lp - entry_of f lps key else 0.
Proof.
  intros Hold. unfold sum_in, entry_of. rewrite map_sum_insert.
  destruct (lps !! key) as [old|] eqn:E; cbn.
  - rewrite (Hold old eq_refl). destruct (String.eqb _ _); lia.
  - destruct (String.eqb _ _); lia.
Qed.

Lemma sum_in_entry f lps key lp :
  (forall i x, lps !! i = Some x -> 0 <= f x) -> lps !! key = Some lp -> f lp <= sum_in f lps (lp_pool lp).
Proof.
  intros Hf Hk. unfold sum_in.
  pose proof (map_sum_entry (fun _ x => if String.eqb (lp_pool x) (lp_pool lp) then f x else 0) lps key lp) as H.
  cbn in H. rewrite String.eqb_refl in H. apply H; [|done].
  intros j y Hj. destruct (String.eqb _ _); [by eapply Hf|lia].
Qed.

(** A position that changes together with its pool by the same amounts. *)
Lemma books_update lps pools key old lp pool p p' :
  books lps pools -> pools !! pool = Some p -> lp_pool lp = pool ->
  (lps !! key = Some old \/
   lps !! key = None /\ Lp_Units old = 0 /\ PendingCacao old = 0 /\ PendingAsset old = 0) ->
  lp_pool old = pool -> lp_stored key lp ->
  Pool_Asset p' = Pool_Asset p ->
  is_uint (LPUnits p') -> is_uint (PendingInboundCacao p') -> is_uint (PendingInboundAsset p') ->
  LPUnits p' - LPUnits p = Lp_Units lp - Lp_Units old ->
  PendingInboundCacao p' - PendingInboundCacao p = PendingCacao lp - PendingCacao old ->
  PendingInboundAsset p' - PendingInboundAsset p = PendingAsset lp - PendingAsset old ->
  books (<[key := lp]> lps) (<[pool := p']> pools).
Proof.
  intros [Hl Hp] Hpool Hlp Hold Hop Hst Ha Hu1 Hu2 Hu3 Hdu Hdc Hda.
  assert (Hsame : forall o, lps !! key = Some o -> lp_pool o = lp_pool lp).
  { intros o Ho. rewrite Hlp. destruct Hold as [Hold|[Hold _]]; congruence. }
  assert (He : forall f, (f = Lp_Units \/ f = PendingCacao \/ f = PendingAsset) ->
            entry_of f lps key = f old).
  { intros f Hf. unfold entry_of. destruct Hold as [->|(-> & ? & ? & ?)]; [done|]. cbn.
    destruct Hf as [->|[->| ->]]; by symmetry. }
  split.
  - by apply map_Forall_insert_2.
  - intros q r. rewrite lookup_insert_Some. intros [[<- <-]|[Hne Hq]].
    + destruct (Hp _ _ Hpool) as (H1 & H2 & H3 & H4 & H5 & H6 & H7 & H8).
      unfold pool_stored. rewrite Ha, !sum_in_insert by done. rewrite Hlp, String.eqb_refl, !He by auto.
      split_and!; try done; lia.
    + destruct (Hp _ _ Hq) as (H1 & H2 & H3 & H4 & H5 & H6 & H7 & H8).
      unfold pool_stored. rewrite !sum_in_insert by done. rewrite Hlp, (proj2 (String.eqb_neq _ _)) by done.
      rewrite !Z.add_0_r. by split_and!.
Qed.

(** ** Positions and their keys *)

Section position_keys.
Context `{V : Semver} `{B : CosmosBank} `{A : SdkAddress} `{R : MapRange} `{L : AddressLib}.
Implicit Types k : KVStore.

Definition position_key (asset : Asset) (addr : Address) : string :=
  GetKey (Asset_String asset +:+ "/" +:+ addr).

Lemma Lp_Key_position lp : GetKey (LiquidityProvider_Key lp) = position_key (Lp_Asset lp) (Lp_GetAddress lp).
Proof. done. Qed.

Lemma GetKey_app s t : GetKey (s +:+ t) = GetKey s +:+ GetKey t.
Proof. apply str_map_app. Qed.

Lemma position_key_inj a b x y :
  contains_char "/" x = false -> contains_char "/" y = false ->
  position_key a x = position_key b y ->
  GetKey (Asset_String a) = GetKey (Asset_String b) /\ GetKey x = GetKey y.
Proof.
  intros Hx Hy. unfold position_key. rewrite !GetKey_app. change (GetKey "/") with "/"%string.
  apply (last_sep_inj "/"); unfold GetKey; by rewrite contains_slash_ToUpper.
Qed.

Lemma position_key_upper a b x y :
  GetKey (Asset_String a) = GetKey (Asset_String b) -> GetKey x = GetKey y ->
  position_key a x = position_key b y.
Proof. intros Ha Hx. unfold position_key. by rewrite !GetKey_app, Ha, Hx. Qed.

Lemma GetKey_blank x y : GetKey x = GetKey y -> Address_IsEmpty x = Address_IsEmpty y.
Proof.
  unfold Address_IsEmpty, Address_String, is_blank. intros E.
  assert (H : forall s, str_forallb is_space s = str_forallb is_space (GetKey s)).
  { intros s. unfold GetKey, ToUpper. rewrite str_forallb_map. apply str_forallb_ext. intros c.
    apply eqb_prop. revert c. apply ascii_ind_bool. by vm_compute. }
  by rewrite (H x), (H y), E.
Qed.

(** What is read for an address: the stored position, or an empty one. *)
Lemma GetLiquidityProvider_books k asset addr :
  liquidity_books k -> Address_IsEmpty addr = false -> contains_char "/" addr = false ->
  let su := GetLiquidityProvider k asset addr in
  let key := position_key asset addr in
  GetKey (Asset_String (Lp_Asset su)) = GetKey (Asset_String asset) /\
  GetKey (Lp_GetAddress su) = GetKey addr /\
  (kv_lps k !! key = Some su /\ lp_stored key su \/
   kv_lps k !! key = None /\
   su = (if IsChain addr (Asset_Chain BaseAsset) (kv_version k)
         then empty_position asset addr EmptyString else empty_position asset NoAddress addr)).
Proof.
  intros [Hl _] Hne Hs su key.
  assert (Hrec : GetKey (LiquidityProvider_Key (if negb (IsChain addr (Asset_Chain BaseAsset) (kv_version k))
    then empty_position asset NoAddress addr else empty_position asset addr EmptyString)) = key).
  { rewrite Lp_Key_position. destruct (IsChain _ _ _); [|done].
    unfold Lp_GetAddress, empty_position. cbn -[Address_IsEmpty position_key]. by rewrite Hne. }
  unfold su, GetLiquidityProvider. cbv zeta. rewrite Hrec.
  destruct (kv_lps k !! key) as [lp|] eqn:E; cbn [default from_option].
  - destruct (Hl _ _ E) as (Hk & Hslash & Hu). rewrite Lp_Key_position in Hk.
    unfold key in Hk. apply position_key_inj in Hk as [Ha Hx]; [|done..].
    split_and!; [done..|]. left. split; [done|]. unfold lp_stored. rewrite Lp_Key_position.
    split_and!; [by apply position_key_upper|done|apply Hu..].
  - destruct (IsChain _ _ _); cbn [negb]; (split_and!; [done| |by right]);
      unfold Lp_GetAddress, empty_position; cbn -[Address_IsEmpty GetKey]; by rewrite ?Hne.
Qed.
End position_keys.

(** ** Finding the position of a deposit *)

Section deposits.
Context {V : Semver} {B : CosmosBank} {A : SdkAddress} {R : MapRange} {L : AddressLib}.
Context {U : SdkUint} {UL : SdkUintLaws U} {D : SdkDec} {T : UintText} {C : PubKeyCodec}.
Implicit Types k : KVStore.

Definition fetch_address (runeAddr assetAddr : Address) : Address :=
  if Address_IsEmpty runeAddr then assetAddr else runeAddr.

(** The addresses a position gets keep its key, unless a saver gives an address on
    the Maya chain. *)
Lemma new_addresses_key asset su runeAddr assetAddr c a :
  let fetch := fetch_address runeAddr assetAddr in
  Address_IsEmpty fetch = false -> GetKey (Lp_GetAddress su) = GetKey fetch ->
  (IsVaultAsset asset = true -> Address_IsEmpty runeAddr = true) ->
  new_addresses asset su runeAddr assetAddr = Ok (c, a) ->
  GetKey (if negb (Address_IsEmpty c) then c else a) = GetKey fetch.
Proof.
  intros fetch Hne Hk Hvault H. unfold new_addresses in H.
  destruct (negb (Lp_Units su =? 0)); [by injection H as <- <-|].
  destruct (IsVaultAsset asset) eqn:Ev.
  { injection H as <- <-. change (Address_IsEmpty NoAddress) with true. cbn [negb].
    unfold fetch, fetch_address. by rewrite Hvault. }
  unfold fetch, fetch_address, Lp_GetAddress in *. pose proof (GetKey_blank _ _ Hk) as Hb. rewrite Hne in Hb.
  destruct (Address_IsEmpty (Lp_CacaoAddress su)) eqn:Ec; cbn [negb] in *.
  - destruct (Address_IsEmpty (Lp_AssetAddress su)) eqn:Ea; [congruence|]. rewrite !andb_false_r in H.
    destruct (TxID_IsEmpty _) eqn:Et; cbn [andb] in H.
    + destruct (_ || _); [done|]. injection H as <- <-.
      destruct (Address_IsEmpty runeAddr) eqn:Er; by cbn [negb].
    + destruct (_ || _); [done|]. injection H as <- <-. by rewrite Ec.
  - rewrite andb_false_r in H. destruct (_ || _); [done|]. injection H as <- <-. by rewrite Ec.
Qed.

Lemma find_position_books k asset runeAddr assetAddr su :
  let fetch := fetch_address runeAddr assetAddr in
  let key := position_key asset fetch in
  liquidity_books k -> Address_IsEmpty fetch = false -> contains_char "/" fetch = false ->
  (IsVaultAsset asset = true -> Address_IsEmpty runeAddr = true) ->
  find_position k asset runeAddr assetAddr = Ok su ->
  lp_pool su = GetKey (Asset_String asset) /\ lp_stored key su /\
  exists old, lp_pool old = GetKey (Asset_String asset) /\
    Lp_Units old = Lp_Units su /\ PendingCacao old = PendingCacao su /\ PendingAsset old = PendingAsset su /\
    (kv_lps k !! key = Some old \/
     kv_lps k !! key = None /\ Lp_Units old = 0 /\ PendingCacao old = 0 /\ PendingAsset old = 0) /\
    BondedNodes su = BondedNodes old /\ NodeBondAddress su = NodeBondAddress old /\
    (kv_lps k !! key = None -> BondedNodes old = []).
Proof.
  intros fetch key Hk Hne Hs Hvault H.
  destruct (GetLiquidityProvider_books k asset fetch Hk Hne Hs) as (Hpool & Haddr & Hst).
  unfold find_position in H. fold (fetch_address runeAddr assetAddr) in H. fold fetch in H.
  set (old := GetLiquidityProvider k asset fetch) in *.
  apply bind_Ok in H as ([c a] & Hna & H). destruct (if IsVaultAsset asset then _ else _); [done|].
  injection H as <-.
  pose proof (new_addresses_key asset old runeAddr assetAddr c a Hne Haddr Hvault Hna) as Hnk.
  assert (Hu : is_uint (Lp_Units old) /\ is_uint (PendingCacao old) /\ is_uint (PendingAsset old)).
  { destruct Hst as [(_ & _ & _ & Hu)|(_ & ->)]; [done|]. by destruct (IsChain _ _ _). }
  split_and!; [done| |].
  - unfold lp_stored. rewrite Lp_Key_position. split_and!; try apply Hu.
    + by apply position_key_upper.
    + rewrite <- contains_slash_ToUpper. fold (GetKey (Lp_GetAddress (with_position old c a (kv_height k) (Lp_Units old)
        (PendingCacao old) (PendingAsset old) (PendingTxID old) (CacaoDepositValue old) (AssetDepositValue old)))).
      unfold Lp_GetAddress, with_position. cbn [Lp_CacaoAddress Lp_AssetAddress]. rewrite Hnk.
      unfold GetKey. by rewrite contains_slash_ToUpper.
  - exists old. split_and!; [done..| |done|done|].
    + destruct Hst as [[? _]|[? E]]; [by left|right]. split; [done|]. by rewrite E; destruct (IsChain _ _ _).
    + intros Hnone. unfold key in Hnone. destruct Hst as [[? _]|[? E]]; [congruence|]. by rewrite E; destruct (IsChain _ _ _).
Qed.

Lemma SafeSub_inv a b r : SafeSub a b = Ok r -> r = Z.max 0 (a - b).
Proof.
  unfold SafeSub. destruct (Z.ltb_spec a b).
  - intros [= <-]. lia.
  - intros [-> ?]%uint_sub_Ok. lia.
Qed.

Lemma CalcUnits_synths (p : Pool) version s p' u :
  CalcUnits p version s = Ok (p', u) ->
  exists su, p' = set_SynthUnits p su /\ (0 <= SynthUnits p -> 0 <= su).
Proof.
  unfold CalcUnits, CalcUnitsV80. intros H. destruct (GTE _ _).
  - apply bind_Ok in H as (q & Hq & H). apply bind_Ok in H as (u' & _ & [= <- <-]).
    destruct (_ || _); [by injection Hq as <-; exists 0|].
    apply bind_Ok in Hq as (n & [-> Hn]%uint_mul_Ok & Hq). apply bind_Ok in Hq as (t & [-> Ht]%uint_mul64_Ok & Hq).
    apply bind_Ok in Hq as (d & ->%SafeSub_inv & Hq). cbv zeta in Hq.
    apply bind_Ok in Hq as (su & Hsu & [= <-]). unfold is_uint in *.
    apply uint_quo_Ok in Hsu as (_ & -> & [Hpos _]);
      [eexists; split; [done|intros _; exact Hpos]|lia|].
    destruct (_ =? 0); lia.
  - apply bind_Ok in H as (u' & _ & [= <- <-]). exists (SynthUnits p). by destruct p.
Qed.

Lemma PoolExist_stored k asset :
  liquidity_books k -> PoolExist k asset = true ->
  kv_pools k !! GetKey (Asset_String asset) = Some (GetPool k asset) /\
  pool_stored (kv_lps k) (GetKey (Asset_String asset)) (GetPool k asset).
Proof.
  intros [_ Hp] He. unfold PoolExist in He. apply bool_decide_eq_true in He as [p Hp'].
  unfold GetPool. rewrite Hp'. split; [done|]. by apply Hp.
Qed.

(** What is stored with the pool and the position in one go. *)
Lemma SetPool_stored k p k' :
  SetPool k p = Ok k' ->
  k' = set_kv_pools k (<[GetKey (Asset_String (Pool_Asset p)) := p]> (kv_pools k)).
Proof. unfold SetPool. destruct (Asset_IsEmpty _); [done|]. by intros [= <-]. Qed.

Lemma set_pool_logged_stored k p :
  Asset_IsEmpty (Pool_Asset p) = false ->
  set_pool_logged k p = Ok (set_kv_pools k (<[GetKey (Asset_String (Pool_Asset p)) := p]> (kv_pools k))).
Proof. intros H. unfold set_pool_logged, SetPool. by rewrite H. Qed.

(** What is pending for a position is part of what is pending for its pool. *)
Lemma pending_le lps pools key old pool p f g :
  books lps pools -> pools !! pool = Some p -> lp_pool old = pool ->
  (f = PendingCacao /\ g = PendingInboundCacao \/ f = PendingAsset /\ g = PendingInboundAsset) ->
  (lps !! key = Some old \/
   lps !! key = None /\ Lp_Units old = 0 /\ PendingCacao old = 0 /\ PendingAsset old = 0) ->
  f old <= g p.
Proof.
  intros [Hl Hp] Hpool Hop Hfg Hold. destruct (Hp _ _ Hpool) as (_ & _ & _ & Hc & Ha & _ & Hsc & Hsa).
  unfold is_uint in *. destruct Hold as [Hold|(_ & _ & H1 & H2)]; [|destruct Hfg as [[-> ->]|[-> ->]]; lia].
  assert (Hpos : forall i x, lps !! i = Some x -> 0 <= PendingCacao x /\ 0 <= PendingAsset x).
  { intros i x Hx. destruct (Hl _ _ Hx) as (_ & _ & _ & H1 & H2). unfold is_uint in *. lia. }
  destruct Hfg as [[-> ->]|[-> ->]]; rewrite ?Hsc, ?Hsa, <- Hop; eapply sum_in_entry; try exact Hold;
    intros i x Hx; by apply (Hpos i x).
Qed.

Lemma record_pol_frame k addr amount k' :
  record_pol k addr amount = Ok k' -> kv_lps k' = kv_lps k /\ kv_pools k' = kv_pools k.
Proof.
  unfold record_pol. intros H. apply bind_Ok in H as (a & _ & H).
  destruct (Address_Equals _ _); [|by injection H as <-]. apply bind_Ok in H as (d & _ & [= <-]). done.
Qed.

(** The units of a deposit are a [Uint] when the CACAO is. *)
Lemma calculatePoolUnitsV1_uint units X Y r a p s :
  is_uint r -> calculatePoolUnitsV1 units X Y r a = Ok (p, s) -> is_uint s.
Proof.
  intros Hr H. unfold calculatePoolUnitsV1 in H.
  apply bind_Ok in H as (tr & _ & H). destruct (tr =? 0); [done|].
  apply bind_Ok in H as (ta & _ & H). destruct (ta =? 0); [done|].
  destruct (_ || _); [by injection H as _ <-|]. cbv zeta in H.
  repeat (let x := fresh in apply bind_Ok in H as (x & _ & H); try (apply bind_Ok in H as (? & [-> ?]%uint_of_big_Ok & [= <- <-]); done)).
Qed.
Lemma calculateVaultUnitsV1_nonneg units X a p s :
  0 <= a -> calculateVaultUnitsV1 units X a = Ok (p, s) -> 0 <= s.
Proof.
  intros Ha H. unfold calculateVaultUnitsV1 in H. destruct (_ || _); [by injection H as _ <-|].
  destruct (a =? 0); [by injection H as _ <-|]. apply bind_Ok in H as (t & _ & [= _ <-]).
  apply GetUncappedShare_uint.
Qed.

(** What a deposit stores: a pool and a position, and how they differ from those read. *)
Definition stored_as (k k' : KVStore) (p : Pool) (su : LiquidityProvider) : Prop :=
  kv_pools k' = <[GetKey (Asset_String (Pool_Asset p)) := p]> (kv_pools k) /\
  kv_lps k' = <[GetKey (LiquidityProvider_Key su) := su]> (kv_lps k).

Record deposit_change (vault : bool) (q p : Pool) (su0 su : LiquidityProvider) (addCacao addAsset : Z) : Prop := {
  dc_pool : Pool_Asset p = Pool_Asset q;
  dc_asset : Lp_Asset su = Lp_Asset su0;
  dc_address : Lp_GetAddress su = Lp_GetAddress su0;
  dc_uints : is_uint (Lp_Units su) /\ is_uint (PendingCacao su) /\ is_uint (PendingAsset su) /\
    is_uint (LPUnits p) /\ is_uint (PendingInboundCacao p) /\ is_uint (PendingInboundAsset p);
  dc_bonds : BondedNodes su = BondedNodes su0 /\ NodeBondAddress su = NodeBondAddress su0;
  dc_grows : Lp_Units su0 <= Lp_Units su;
  dc_balances : BalanceCacao q <= BalanceCacao p /\ BalanceAsset q <= BalanceAsset p /\
    SynthUnits p = SynthUnits q;
  dc_units : LPUnits p - LPUnits q = Lp_Units su - Lp_Units su0;
  dc_pending_cacao : PendingInboundCacao p - PendingInboundCacao q = PendingCacao su - PendingCacao su0;
  dc_pending_asset : PendingInboundAsset p - PendingInboundAsset q = PendingAsset su - PendingAsset su0;
  dc_gets_asset :
    BalanceAsset p + PendingInboundAsset p = BalanceAsset q + PendingInboundAsset q + addAsset;
  dc_gets_cacao : vault = false ->
    BalanceCacao p + PendingInboundCacao p = BalanceCacao q + PendingInboundCacao q + addCacao;
}.

(** The pool and the position a deposit starts from. *)
Definition sound_start (q : Pool) (su : LiquidityProvider) : Prop :=
  Asset_IsEmpty (Pool_Asset q) = false /\
  (is_uint (LPUnits q) /\ is_uint (PendingInboundCacao q) /\ is_uint (PendingInboundAsset q)) /\
  (is_uint (Lp_Units su) /\ is_uint (PendingCacao su) /\ is_uint (PendingAsset su)) /\
  PendingCacao su <= PendingInboundCacao q /\ PendingAsset su <= PendingInboundAsset q.

Ltac change_done :=
  split; cbn; unfold is_uint in *;
  try match goal with |- _ = false -> _ => let E := fresh in intros E; rewrite E in * end;
  try done; try lia; try (split_and!; try done; try lia; destruct (IsVaultAsset _); lia).

Lemma stage_cacao_stored k q su tx c k' vault :
  sound_start q su -> is_uint c -> is_uint (PendingCacao su + c) ->
  stage_cacao k q su tx c (PendingCacao su + c) = Ok k' ->
  exists p su', stored_as k k' p su' /\ deposit_change vault q p su su' c 0.
Proof.
  intros (Hne & (Hu1 & Hu2 & Hu3) & (Hv1 & Hv2 & Hv3) & _) Hc Hp H. unfold stage_cacao in H.
  apply bind_Ok in H as (inb & [-> Hinb]%uint_add_Ok & H). rewrite set_pool_logged_stored in H by done.
  injection H as <-.
  match goal with |- context [stored_as k (set_kv_pools (SetLiquidityProvider k ?s) (<[_ := ?p]> _))] =>
    exists p, s end.
  split; [by split|]. change_done.
Qed.

Lemma stage_asset_stored k q su tx a addr tier k' vault :
  sound_start q su -> is_uint a -> is_uint (PendingAsset su + a) ->
  stage_asset k q su tx a (PendingAsset su + a) addr tier = Ok k' ->
  exists p su', stored_as k k' p su' /\ deposit_change vault q p su su' 0 a.
Proof.
  intros (Hne & (Hu1 & Hu2 & Hu3) & (Hv1 & Hv2 & Hv3) & _) Hc Hp H. unfold stage_asset in H.
  apply bind_Ok in H as (inb & [-> Hinb]%uint_add_Ok & H). rewrite set_pool_logged_stored in H by done.
  cbn [mbind outcome_bind] in H.
  match type of H with context [set_Pending ?a ?b ?c] => set (p' := set_Pending a b c) in * end.
  match type of H with context [SetLiquidityProvider k ?s] => exists p', s end. split.
  - destruct (isLiquidityAuction _); injection H as <-; by split.
  - change_done.
Qed.

Lemma commit_stored k asset q su c a k' :
  sound_start q su -> 0 <= c -> 0 <= a -> is_uint (PendingCacao su + c) -> is_uint (PendingAsset su + a) ->
  commit_liquidity k asset q su (PendingCacao su + c) (PendingAsset su + a) = Ok k' ->
  exists p su', stored_as k k' p su' /\ deposit_change (IsVaultAsset asset) q p su su' c a.
Proof.
  intros (Hne & (Hu1 & Hu2 & Hu3) & (Hv1 & Hv2 & Hv3) & Hle1 & Hle2) Hc0 Ha0 Hc Ha H. unfold commit_liquidity in H.
  apply bind_Ok in H as (ic & Hic & H). apply bind_Ok in H as (ia & Hia & H).
  unfold is_uint in *.
  apply SafeSub_Ok in Hic, Hia; [|unfold is_uint; lia..]. rewrite Z.max_r in Hic, Hia by lia. subst ic ia.
  apply bind_Ok in H as (old & _ & H). cbv zeta in H.
  apply bind_Ok in H as ([pu lu] & Hlu & H).
  assert (0 <= lu) as Hlu0.
  { destruct (IsVaultAsset asset); [eapply calculateVaultUnitsV1_nonneg; [|exact Hlu]; lia|].
    apply calculatePoolUnitsV1_uint in Hlu; [apply Hlu|]. unfold is_uint. lia. }
  clear Hlu. cbn [BalanceCacao BalanceAsset LPUnits set_Pending] in H.
  apply bind_Ok in H as (pr & [-> Hpr]%uint_add_Ok & H). apply bind_Ok in H as (ps & [-> Hps]%uint_add_Ok & H).
  apply bind_Ok in H as (lpu & [-> Hlpu]%uint_add_Ok & H).
  destruct (_ || _); [done|]. apply bind_Ok in H as (k1 & ->%SetPool_stored & H).
  apply bind_Ok in H as (u & [-> Hu]%uint_add_Ok & H). apply bind_Ok in H as ([cv av] & _ & H).
  apply record_pol_frame in H as [Hl Hp].
  match type of Hl with context [SetLiquidityProvider (set_kv_pools _ (<[_ := ?p]> _)) ?s] => exists p, s end.
  split; [split; [exact Hp|exact Hl]|]. change_done.
Qed.

(** The outcome of a deposit: the position and the pool that are stored. *)
Lemma addLiquidity_inv k asset addCacao addAsset runeAddr assetAddr tx stage tier k' :
  let fetch := fetch_address runeAddr assetAddr in
  let pool := GetKey (Asset_String asset) in
  let key := position_key asset fetch in
  liquidity_books k -> is_uint addCacao -> is_uint addAsset -> contains_char "/" fetch = false ->
  (IsVaultAsset asset = true -> Address_IsEmpty runeAddr = true) ->
  addLiquidityV108 k asset addCacao addAsset runeAddr assetAddr tx stage tier = Ok k' ->
  exists p p' old su, kv_pools k !! pool = Some p /\ kv_pools k' = <[pool := p']> (kv_pools k) /\
    kv_lps k' = <[key := su]> (kv_lps k) /\ books (kv_lps k') (kv_pools k') /\
    (kv_lps k !! key = Some old \/ kv_lps k !! key = None /\ Lp_Units old = 0) /\
    (0 <= BalanceCacao p -> 0 <= BalanceAsset p -> 0 <= SynthUnits p ->
     0 <= BalanceCacao p' /\ 0 <= BalanceAsset p' /\ 0 <= SynthUnits p') /\
    lp_pool su = pool /\ lp_pool old = pool /\ Lp_Units old <= Lp_Units su /\
    BondedNodes su = BondedNodes old /\ NodeBondAddress su = NodeBondAddress old /\
    (kv_lps k !! key = None -> BondedNodes old = []) /\
    LPUnits p' - LPUnits p = Lp_Units su - Lp_Units old /\
    BalanceAsset p' + PendingInboundAsset p' = BalanceAsset p + PendingInboundAsset p + addAsset /\
    (IsVaultAsset asset = false ->
     BalanceCacao p' + PendingInboundCacao p' = BalanceCacao p + PendingInboundCacao p + addCacao).
Proof.
  intros fetch pool key Hk Hc Ha Hs Hvault H. unfold addLiquidityV108 in H.
  apply bind_Ok in H as ([] & Hval & H). unfold validateAddLiquidityMessage in Hval.
  destruct (Asset_IsEmpty asset); [done|]. destruct (TxID_IsEmpty _); [done|].
  destruct (_ && _) eqn:Eaddr in Hval; [done|]. destruct (PoolExist k asset) eqn:He; [|done]. clear Hval.
  assert (Hne : Address_IsEmpty fetch = false).
  { unfold fetch, fetch_address. destruct (Address_IsEmpty runeAddr) eqn:E; by rewrite ?E. }
  destruct (PoolExist_stored k asset Hk He) as (Hpool & Hpk & Hpe & HuL & HuC & HuA & _).
  set (p := GetPool k asset) in *. fold pool in Hpool, Hpk.
  apply bind_Ok in H as (supply & _ & H). apply bind_Ok in H as ([q u] & (synths & -> & Hsy)%CalcUnits_synths & H).
  apply bind_Ok in H as (su & Hsu & H).
  destruct (find_position_books k asset runeAddr assetAddr su Hk Hne Hs Hvault Hsu)
    as (Hlp & (Hkey & Hslash & Hu1 & Hu2 & Hu3) & old & Hop & Ho1 & Ho2 & Ho3 & Hold & Hob1 & Hob2 & Hob3).
  fold fetch in Hkey, Hold. fold key in Hkey, Hold. fold pool in Hlp, Hop.
  pose proof (pending_le _ _ key old pool p PendingCacao _ Hk Hpool Hop (or_introl (conj eq_refl eq_refl)) Hold) as Hlec.
  pose proof (pending_le _ _ key old pool p PendingAsset _ Hk Hpool Hop (or_intror (conj eq_refl eq_refl)) Hold) as Hlea.
  apply bind_Ok in H as (pc & [-> Hpc]%uint_add_Ok & H). apply bind_Ok in H as (pa & [-> Hpa]%uint_add_Ok & H).
  assert (Hst : sound_start (set_SynthUnits p synths) su).
  { unfold sound_start. split_and!; try done; cbn; lia. }
  assert (Hdep : exists p' su', stored_as k k' p' su' /\
            deposit_change (IsVaultAsset asset) (set_SynthUnits p synths) p' su su' addCacao addAsset).
  { unfold is_uint in *. destruct (stage && (PendingAsset su + addAsset =? 0)) eqn:E1.
    - apply andb_true_iff in E1 as [_ E1%Z.eqb_eq]. replace addAsset with 0 by lia. by eapply stage_cacao_stored.
    - destruct (stage && (PendingCacao su + addCacao =? 0)) eqn:E2.
      + apply andb_true_iff in E2 as [_ E2%Z.eqb_eq]. replace addCacao with 0 by lia. by eapply stage_asset_stored.
      + eapply commit_stored; [done|lia|lia|done..]. }
  destruct Hdep as (p' & su' & [Hkp Hkl] & []). cbn in *.
  assert (Hkey' : GetKey (LiquidityProvider_Key su') = key).
  { rewrite Hkey, !Lp_Key_position. congruence. }
  rewrite dc_pool0 in Hkp. fold p in Hkp. rewrite <- Hpk in Hkp. rewrite Hkey' in Hkl.
  exists p, p', old, su'. rewrite Hkp, Hkl, Ho1. destruct dc_bonds0 as [Hb1 Hb2].
  destruct dc_balances0 as (Hbc & Hba & Hbs).
  split_and!; try done; try congruence; try (unfold lp_pool in *; congruence); try (unfold is_uint in *; lia);
    [|intuition congruence].
  destruct dc_uints0 as (? & ? & ? & ? & ? & ?).
  eapply (books_update _ _ key old su' pool p p'); try done; rewrite ?Ho1, ?Ho2, ?Ho3; try done.
  - unfold lp_pool. by rewrite dc_asset0.
  - split_and!; [by symmetry|by rewrite dc_address0|done..].
Qed.
End deposits.

(** ** Adding liquidity *)

Section books_theorems.
Context {V : Semver} {B : CosmosBank} {A : SdkAddress} {R : MapRange} {L : AddressLib}.
Context {U : SdkUint} {UL : SdkUintLaws U} {D : SdkDec} {T : UintText} {C : PubKeyCodec}.

(** C7: Adding liquidity keeps the books: the units and the pending amounts of each
    pool stay the sums over its positions. The pool gets the assets that were added,
    committed or pending, its units grow by what the position gets, and no other
    pool and no other position changes. The deposit of a saver must come without an
    address on the Maya chain. *)
Theorem addLiquidity_adds_up (k k' : KVStore) asset addCacao addAsset runeAddr assetAddr tx stage tier :
  let fetch := fetch_address runeAddr assetAddr in
  liquidity_books k -> is_uint addCacao -> is_uint addAsset -> contains_char "/" fetch = false ->
  (IsVaultAsset asset = true -> Address_IsEmpty runeAddr = true) ->
  addLiquidityV108 k asset addCacao addAsset runeAddr assetAddr tx stage tier = Ok k' ->
  let p := GetPool k asset in let p' := GetPool k' asset in
  let units s := entry_of Lp_Units (kv_lps s) (position_key asset fetch) in
  liquidity_books k' /\
  LPUnits p' - LPUnits p = units k' - units k /\
  BalanceAsset p' + PendingInboundAsset p' = BalanceAsset p + PendingInboundAsset p + addAsset /\
  (IsVaultAsset asset = false ->
   BalanceCacao p' + PendingInboundCacao p' = BalanceCacao p + PendingInboundCacao p + addCacao) /\
  (forall key, key <> position_key asset fetch -> kv_lps k' !! key = kv_lps k !! key) /\
  (forall key, key <> GetKey (Asset_String asset) -> kv_pools k' !! key = kv_pools k !! key).
Proof.
  intros fetch Hk Hc Ha Hs Hv H p p' units.
  destruct (addLiquidity_inv _ _ _ _ _ _ _ _ _ _ Hk Hc Ha Hs Hv H)
    as (q & q' & old & su & Hq & Hp' & Hl' & Hb & Hold & _ & _ & _ & _ & _ & _ & _ & Hu & Has & Hca).
  assert (p = q /\ p' = q') as [-> ->].
  { unfold p, p', GetPool. by rewrite Hq, Hp', lookup_insert_eq. }
  assert (Huo : units k = Lp_Units old).
  { unfold units, entry_of. fold fetch in Hold. by destruct Hold as [->|[-> ->]]. }
  assert (Hun : units k' = Lp_Units su).
  { unfold units, entry_of. by rewrite Hl', lookup_insert_eq. }
  rewrite Huo, Hun. split_and!; try done.
  - intros key Hne. by rewrite Hl', lookup_insert_ne.
  - intros key Hne. by rewrite Hp', lookup_insert_ne.
Qed.
(** The deposit of a saver from the Maya chain: where it is saved. *)
Lemma saver_deposit_stored k asset addCacao addAsset runeAddr assetAddr tx stage tier k' :
  liquidity_books k -> is_uint addCacao -> is_uint addAsset -> IsVaultAsset asset = true ->
  Address_IsEmpty runeAddr = false -> contains_char "/" runeAddr = false ->
  kv_lps k !! position_key asset runeAddr = None ->
  addLiquidityV108 k asset addCacao addAsset runeAddr assetAddr tx stage tier = Ok k' ->
  exists p p' su, kv_pools k !! GetKey (Asset_String asset) = Some p /\
    kv_pools k' = <[GetKey (Asset_String asset) := p']> (kv_pools k) /\
    kv_lps k' = <[position_key asset assetAddr := su]> (kv_lps k) /\
    lp_pool su = GetKey (Asset_String asset) /\ LPUnits p' - LPUnits p = Lp_Units su /\
    BalanceAsset p' + PendingInboundAsset p' = BalanceAsset p + PendingInboundAsset p + addAsset.
Proof.
  intros Hk Hc Ha Hv Hre Hrs Hnone H. unfold addLiquidityV108 in H.
  apply bind_Ok in H as ([] & Hval & H). unfold validateAddLiquidityMessage in Hval.
  destruct (Asset_IsEmpty asset); [done|]. destruct (TxID_IsEmpty _); [done|].
  destruct (_ && _) eqn:Eaddr in Hval; [done|]. destruct (PoolExist k asset) eqn:He; [|done]. clear Hval Eaddr.
  destruct (PoolExist_stored k asset Hk He) as (Hpool & Hpk & Hpe & HuL & HuC & HuA & _).
  set (p := GetPool k asset) in *.
  apply bind_Ok in H as (supply & _ & H). apply bind_Ok in H as ([q u] & (synths & -> & Hsy)%CalcUnits_synths & H).
  apply bind_Ok in H as (su & Hsu & H).
  destruct (GetLiquidityProvider_books k asset runeAddr Hk Hre Hrs) as (_ & _ & Hst).
  unfold find_position in Hsu. rewrite Hre in Hsu. set (old := GetLiquidityProvider k asset runeAddr) in *.
  assert (Hold : Lp_Asset old = asset /\ Lp_Units old = 0 /\ PendingCacao old = 0 /\ PendingAsset old = 0).
  { destruct Hst as [[Hx _]|[_ ->]]; [congruence|]. by destruct (IsChain _ _ _). }
  destruct Hold as (Ho1 & Ho2 & Ho3 & Ho4). unfold new_addresses in Hsu. rewrite Ho2, Hv in Hsu. cbn in Hsu.
  destruct (_ || _); [done|]. injection Hsu as <-. rewrite Ho3, Ho4 in H.
  match type of H with context [stage_cacao k _ ?s] => set (su := s) in * end.
  assert (Hs : PendingCacao su = 0 /\ PendingAsset su = 0 /\ Lp_Units su = 0) by done. destruct Hs as (Hs1 & Hs2 & Hs3).
  assert (Hstart : sound_start (set_SynthUnits p synths) su).
  { unfold sound_start, is_uint in *. rewrite Hs1, Hs2, Hs3. cbn. split_and!; done || lia. }
  apply bind_Ok in H as (pc & [-> Hpc]%uint_add_Ok & H). apply bind_Ok in H as (pa & [-> Hpa]%uint_add_Ok & H).
  assert (Hdep : exists p' su', stored_as k k' p' su' /\
            deposit_change (IsVaultAsset asset) (set_SynthUnits p synths) p' su su' addCacao addAsset).
  { unfold is_uint in *. destruct (stage && (PendingAsset su + addAsset =? 0)) eqn:E1.
    - apply andb_true_iff in E1 as [_ E1%Z.eqb_eq]. replace addAsset with 0 by lia. by eapply stage_cacao_stored.
    - destruct (stage && (PendingCacao su + addCacao =? 0)) eqn:E2.
      + apply andb_true_iff in E2 as [_ E2%Z.eqb_eq]. replace addCacao with 0 by lia. by eapply stage_asset_stored.
      + eapply commit_stored; [done|lia|lia|done..]. }
  destruct Hdep as (p' & su' & [Hkp Hkl] & []). cbn [Pool_Asset LPUnits BalanceAsset PendingInboundAsset set_SynthUnits] in *.
  rewrite dc_pool0 in Hkp. rewrite <- Hpk in Hkp. exists p, p', su'. split; [done|]. split; [done|].
  assert (Hkey : GetKey (LiquidityProvider_Key su') = position_key asset assetAddr).
  { rewrite Lp_Key_position, dc_asset0, dc_address0. change (Lp_Asset su) with (Lp_Asset old). rewrite Ho1. done. }
  rewrite Hkey in Hkl. split; [exact Hkl|]. split; [unfold lp_pool; rewrite dc_asset0; change (Lp_Asset su) with (Lp_Asset old); by rewrite Ho1|].
  rewrite Hs3 in dc_units0. split; [lia|exact dc_gets_asset0].
Qed.

End books_theorems.

Section books_witnesses.
Import Reference ReferenceBank ReferenceRange ReferenceAddress ReferenceText.

#[local] Instance books_address : SdkAddress := {|
  acc_equals := String.eqb;
  acc_empty a := String.eqb a EmptyString;
  acc_string a := "maya1" +:+ a;
  acc_from_bech32 s := if HasPrefix s "maya1" then Some (String.substring 5 (String.length s - 5) s) else None;
|}.
#[local] Instance books_codec : PubKeyCodec := {| pubkey_decodes s := negb (String.eqb s "bad") |}.

(** A saver "3victim" holds all the units of the savers' pool of bitcoin, and one
    position in the pool of bitcoin itself waits for its second side. *)
Definition savers_pool : Pool :=
  mkPool 0 1000 (GetSyntheticAsset BTCAsset) 1000 PoolStatus_Available 0 8 0 0 0.
Definition btc_pool : Pool := mkPool 5000 1000 BTCAsset 500 PoolStatus_Available 0 8 0 70 0.

Definition position (asset : Asset) (cacao addr : Address) (units pending : Z) : LiquidityProvider :=
  with_position (empty_position asset NoAddress addr) cacao addr 1 units pending 0 "T0" 0 0.

Definition books_start : KVStore :=
  set_kv_lps (set_kv_pools (empty_kv (semver_release 1 123 0) (fun _ => 0) 10 ReferenceBank.empty)
    (<["BTC/BTC" := savers_pool]> (<["BTC.BTC" := btc_pool]> ∅)))
    (<["BTC/BTC/3VICTIM" := position (GetSyntheticAsset BTCAsset) NoAddress "3victim" 1000 0]>
     (<["BTC.BTC/MAYA1ALICE" := position BTCAsset "maya1alice" "3alice" 500 70]> ∅)).

Definition add_tx (from : Address) (coins : Coins) : Tx := mkTx "T1" BASEChain from "asgard" coins [] EmptyString.

Lemma books_start_sound : liquidity_books books_start.
Proof.
  assert (H : liquidity_books_b books_start = true) by by vm_compute. by apply liquidity_books_b_spec.
Qed.

Definition books_deposit : outcome KVStore :=
  addLiquidityV108 books_start BTCAsset 0 30 "maya1alice" "3alice" (add_tx "3alice" [NewCoin BTCAsset 30]) true 0.

Lemma addLiquidity_adds_up_witness :
  exists k', books_deposit = Ok k' /\
  liquidity_books k' /\ BalanceAsset (GetPool k' BTCAsset) = 1030 /\ BalanceCacao (GetPool k' BTCAsset) = 5070.
Proof.
  assert (Hr : match books_deposit with
      | Ok k' => let p := GetPool k' BTCAsset in
          (BalanceAsset p =? 1030) && (PendingInboundAsset p =? 0) && (PendingInboundCacao p =? 0)
      | _ => false end = true) by by vm_compute.
  destruct books_deposit as [k'| |] eqn:E; [|done..].
  exists k'. apply andb_prop in Hr as [[Hr1 Hr2]%andb_prop Hr3].
  apply Z.eqb_eq in Hr1, Hr2, Hr3. cbv zeta in *.
  destruct (addLiquidity_adds_up books_start k' BTCAsset 0 30 "maya1alice" "3alice"
    (add_tx "3alice" [NewCoin BTCAsset 30]) true 0) as (Hb & _ & _ & Hc & _);
    [apply books_start_sound|unfold is_uint; lia|unfold is_uint; lia|by vm_compute| |exact E|].
  { intros Hv. exfalso. revert Hv. by vm_compute. }
  split_and!; [done|done|done|]. specialize (Hc eq_refl). rewrite Hr3 in Hc.
  change (BalanceCacao (GetPool books_start BTCAsset)) with 5000 in Hc.
  change (PendingInboundCacao (GetPool books_start BTCAsset)) with 70 in Hc. lia.
Defined.

(** "bob" deposits 10 synthetic bitcoin from the Maya chain and names "victim", who has
    1000 units: 10 are left. *)
Definition overwriting_deposit : MsgAddLiquidity :=
  let synth := GetSyntheticAsset BTCAsset in
  NewMsgAddLiquidity (add_tx "maya1bob" [NewCoin synth 10]) synth 0 10 "maya1bob" "3victim" NoAddress 0 "bob" 0.

Definition overwritten_check (r : outcome KVStore) : bool :=
  match r with
  | Ok k' => let synth := GetSyntheticAsset BTCAsset in
      (Lp_Units (GetLiquidityProvider k' synth "3victim") =? 10) && (LPUnits (GetPool k' synth) =? 1010)
  | _ => false
  end.

Lemma overwritten_checked : overwritten_check (add_Run books_start overwriting_deposit) = true.
Proof. by vm_compute. Qed.

Lemma overwritten_check_spec r : overwritten_check r = true ->
  exists k', r = Ok k' /\ Lp_Units (GetLiquidityProvider k' (GetSyntheticAsset BTCAsset) "3victim") = 10.
Proof.
  destruct r as [k'| |]; [|done..]. unfold overwritten_check. cbv zeta. intros [H _]%andb_true_iff.
  exists k'. split; [done|]. by apply Z.eqb_eq.
Qed.

End books_witnesses.
