(* ===== verification/Withdraw.v ===== *)
(** [x/mayachain/withdraw_current.go] and [handler_withdraw.go]: taking liquidity
    out of a pool, with the protection against impermanent loss, the limits of the
    liquidity auction, and the outbound transactions or swaps that pay it. *)
From stdpp Require Import pretty.
From S2P Require Import Prelude GoText Sdk Constants Floats Shares Chains Keys Addresses Assets Coins Txs.
From S2P Require Import NodeAccounts Votes TxOuts Vaults Pools Mimirs StreamingSwaps SwapMsgs LiquidityProviders.
From S2P Require Import Records MayaNames Stores Keeper Nodes Bonds VaultStore Halts Gas TradeAccounts.
From S2P Require Import Swapper Swaps Affiliates Decimals Memos Collectors SwapChecks Liquidity AddLiquidity.

Record MsgWithdrawLiquidity := mkMsgWithdrawLiquidity {
  Wd_Tx : Tx;
  WithdrawAddress : Address;
  Wd_BasisPoints : Z;
  Wd_Asset : Asset;
  WithdrawalAsset : Asset;
  Wd_Signer : AccAddress;
}.

Definition NewMsgWithdrawLiquidity (tx : Tx) (withdrawAddress : Address) (withdrawBasisPoints : Z)
    (asset withdrawalAsset : Asset) (signer : AccAddress) : MsgWithdrawLiquidity :=
  mkMsgWithdrawLiquidity tx withdrawAddress withdrawBasisPoints asset withdrawalAsset signer.

Definition errWithdrawFail : string := "fail to withdraw".
Definition errWithdrawFailValidation : string := "fail to validate withdraw".
Definition errNoLiquidityUnitLeft : string := "nothing to withdraw".
Definition errWithdrawLiquidityMismatchAddr : string := "mismatch of address".
Definition errFailAddOutboundTx : string := "prepare outbound tx not successful".

(** What a withdrawal pays: the CACAO, the asset, the protection from the reserve,
    the units and the gas kept back. *)
Record withdrawal := mkWithdrawal {
  paid_cacao : Z;
  paid_asset : Z;
  protection : Z;
  paid_units : Z;
  gas_asset : Z;
}.

Section withdraw.
Context `{V : Semver} `{B : CosmosBank} `{A : SdkAddress} `{R : MapRange} `{L : AddressLib}.
Context `{U : SdkUint} `{D : SdkDec} `{T : UintText} `{C : PubKeyCodec}.
Implicit Types k : KVStore.

Definition MsgWithdrawLiquidity_ValidateBasic (m : MsgWithdrawLiquidity) : outcome unit :=
  if acc_empty (Wd_Signer m) then Err "invalid address"
  else if TxID_IsEmpty (Tx_ID (Wd_Tx m)) then Err "tx id cannot be empty"
  else if Asset_IsEmpty (Wd_Asset m) then Err "pool asset cannot be empty"
  else if IsBase (Wd_Asset m) then Err "asset cannot be cacao"
  else if Address_IsEmpty (WithdrawAddress m) then Err "address cannot be empty"
  else if Wd_BasisPoints m =? 0 then Err "basis points can't be zero"
  else if MaxWithdrawBasisPoints <? Wd_BasisPoints m
  then Err "basis points is larger than maximum withdraw basis points"
  else if negb (Asset_IsEmpty (WithdrawalAsset m)) && negb (IsBase (WithdrawalAsset m))
          && negb (Asset_Equals (WithdrawalAsset m) (Wd_Asset m))
  then Err "withdrawal asset must be empty, rune, or pool asset"
  else Ok tt.

(** ** Impermanent loss *)

(** In basis points; the divisor is positive when it is reached. *)
Definition calcImpLossProtectionAmtV2 k (lastDepositHeight target : Z) : Z :=
  let age := i64 (kv_height k - lastDepositHeight) in
  let zeroILPBlocks := GetConfigInt64 k (ConstantName_String "ZeroImpLossProtectionBlocks") in
  if age <? zeroILPBlocks then 0
  else if target <=? age then 10000
  else i64 (Z.quot (i64 (i64 (age - zeroILPBlocks) * 10000)) (i64 (target - zeroILPBlocks))).

(** The loss against the deposit, for the part that is withdrawn and as far as the
    position is covered. *)
Definition calcImpLossV102 k (lastAddHeight : Z) (lp : LiquidityProvider)
    (withdrawBasisPoints fullProtectionLine : Z) (pool : Pool) : outcome (Z * Z * Z) :=
  let A0 := AssetDepositValue lp in
  let R0 := CacaoDepositValue lp in
  poolUnits ← GetPoolUnits pool;
  let A1 := GetSafeShare (Lp_Units lp) poolUnits (BalanceAsset pool) in
  let R1 := GetSafeShare (Lp_Units lp) poolUnits (BalanceCacao pool) in
  if A1 =? 0 then Ok (0, 0, 0)
  else
    value ← uint_mul A0 R1;
    value ← uint_quo value A1;
    depositValue ← uint_add value R0;
    redeemValue ← uint_add R1 R1;
    coverage ← SafeSub depositValue redeemValue;
    let coverage := GetSafeShare withdrawBasisPoints 10000 coverage in
    let prevAssetDec := dec_of_int (i64 A0) in
    let prevCACAODec := dec_of_int (i64 R0) in
    let currentAssetDec := dec_of_int (i64 A1) in
    let currentCACAODec := dec_of_int (i64 R1) in
    if (prevAssetDec =? 0) || (currentAssetDec =? 0) then Ok (0, 0, 0)
    else
      prevRatio ← dec_quo prevCACAODec prevAssetDec;
      currRatio ← dec_quo currentCACAODec currentAssetDec;
      let fullProtectionLine :=
        if currRatio <=? prevRatio
        then GetConfigInt64 k (ConstantName_String "FullImpLossProtectionBlocksTimes4")
        else fullProtectionLine in
      let protectionBasisPoints := calcImpLossProtectionAmtV2 k lastAddHeight fullProtectionLine in
      result ← uint_mul64 coverage (u64 protectionBasisPoints);
      result ← uint_quo64 result 10000;
      Ok (result, depositValue, redeemValue).

(** The protection granted, the units for it, and the pool with both. From 1.124.0
    on there is none when the reserve cannot pay it. *)
Definition grant_protection k (reserve_checked : bool) (lp : LiquidityProvider) (bps : Z) (pool : Pool)
  : outcome (Z * Z * Pool) :=
  let fullProtectionLine := GetConfigInt64 k (ConstantName_String "FullImpLossProtectionBlocks") in
  let ilpDisabled := GetMimir k ("ILP-DISABLED-" +:+ Asset_String (Pool_Asset pool)) in
  if (0 <? fullProtectionLine) && (Pool_Status pool =? PoolStatus_Available)
     && negb ((0 <? ilpDisabled) && negb (IsVaultAsset (Pool_Asset pool)))
  then
    let lastAddHeight := if Lp_LastAddHeight lp <? StatusSince pool then StatusSince pool
                         else Lp_LastAddHeight lp in
    '(amount, _, _) ← calcImpLossV102 k lastAddHeight lp bps fullProtectionLine pool;
    if amount =? 0 then Ok (0, 0, pool)
    else
      reserveBalance ← (if reserve_checked then GetRuneBalanceOfModule k ReserveName else Ok amount);
      if reserveBalance <? amount then Ok (0, 0, pool)
      else
        poolUnits ← GetPoolUnits pool;
        '(_, extraUnits) ← calculatePoolUnitsV1 poolUnits (BalanceCacao pool) (BalanceAsset pool) amount 0;
        poolCacao ← uint_add (BalanceCacao pool) amount;
        lpUnits ← uint_add (LPUnits pool) extraUnits;
        Ok (amount, extraUnits, set_BalanceCacao (set_LPUnits pool lpUnits) poolCacao)
  else Ok (0, 0, pool).

(** ** The limits of the liquidity auction *)

Definition isWithinWithdrawDaysLimitV118 k (addr : Address) : bool :=
  let blocksPerDay := kv_constants k (ConstantName_String "BlocksPerDay") in
  let tier := GetLiquidityAuctionTier k addr in
  let liquidityAuction := GetMimir k (ConstantName_String "LiquidityAuction") in
  let within days :=
    let withdrawDays := GetConfigInt64 k (ConstantName_String days) in
    (liquidityAuction <? kv_height k)
    && (kv_height k <=? i64 (liquidityAuction + i64 (withdrawDays * blocksPerDay))) in
  if liquidityAuction <? 1 then false
  else if tier =? kv_constants k (ConstantName_String "WithdrawTier1") then within "WithdrawDaysTier1"
  else if tier =? kv_constants k (ConstantName_String "WithdrawTier2") then within "WithdrawDaysTier2"
  else if tier =? kv_constants k (ConstantName_String "WithdrawTier3") then within "WithdrawDaysTier3"
  else false.

Definition getWithdrawLimitV118 k (addr : Address) : Z :=
  let tier := GetLiquidityAuctionTier k addr in
  if tier =? kv_constants k (ConstantName_String "WithdrawTier1")
  then GetConfigInt64 k (ConstantName_String "WithdrawLimitTier1")
  else if tier =? kv_constants k (ConstantName_String "WithdrawTier2")
  then GetConfigInt64 k (ConstantName_String "WithdrawLimitTier2")
  else if tier =? kv_constants k (ConstantName_String "WithdrawTier3")
  then GetConfigInt64 k (ConstantName_String "WithdrawLimitTier3")
  else 10000.

Definition with_counter (lp : LiquidityProvider) (counter height : Z) : LiquidityProvider :=
  mkLiquidityProvider (Lp_Asset lp) (Lp_CacaoAddress lp) (Lp_AssetAddress lp) (Lp_LastAddHeight lp)
    (Lp_LastWithdrawHeight lp) (Lp_Units lp) (PendingCacao lp) (PendingAsset lp) (PendingTxID lp)
    (CacaoDepositValue lp) (AssetDepositValue lp) (NodeBondAddress lp) counter height (BondedNodes lp).

(** At most a part of the position may be withdrawn in a day. *)
Definition checkWithdrawLimit k (msg : MsgWithdrawLiquidity) (lp : LiquidityProvider)
  : outcome LiquidityProvider :=
  if negb (isWithinWithdrawDaysLimitV118 k (Lp_CacaoAddress lp)) || RagnarokInProgress k
     || String.eqb (Tx_Memo (Wd_Tx msg)) "Ragnarok"
  then Ok lp
  else
    let blockThreshold :=
      u64 (LastWithdrawCounterHeight lp + kv_constants k (ConstantName_String "BlocksPerDay")) in
    let currentBlock := u64 (kv_height k) in
    addRune ← uint_add (WithdrawCounter lp) (Wd_BasisPoints msg);
    let '(lp, addRune) :=
      if WithdrawCounter lp =? 0 then (with_counter lp (WithdrawCounter lp) (kv_height k), addRune)
      else if negb (currentBlock <? blockThreshold) then (with_counter lp 0 (kv_height k), Wd_BasisPoints msg)
      else (lp, addRune) in
    let withdrawLimit := u64 (getWithdrawLimitV118 k (Lp_CacaoAddress lp)) in
    if withdrawLimit <=? WithdrawCounter lp then Err "address already reached the max amount of withdraw"
    else if withdrawLimit <? addRune then Err "max amount to withdraw exceeded"
    else Ok (with_counter lp addRune (LastWithdrawCounterHeight lp)).

(** ** The withdrawal *)

Definition validateWithdrawV105 k (msg : MsgWithdrawLiquidity) : outcome unit :=
  if Address_IsEmpty (WithdrawAddress msg) then Err "empty withdraw address"
  else if TxID_IsEmpty (Tx_ID (Wd_Tx msg)) then Err "request tx hash is empty"
  else if Asset_IsEmpty (Wd_Asset msg) then Err "empty asset"
  else if negb (0 <? Wd_BasisPoints msg) || (MaxWithdrawBasisPoints <? Wd_BasisPoints msg)
  then Err "withdraw basis points %s is invalid"
  else if negb (PoolExist k (Wd_Asset msg)) then Err "pool-%s doesn't exist"
  else
    let lp := GetLiquidityProvider k (Wd_Asset msg) (WithdrawAddress msg) in
    let unitsToClaim := GetSafeShare (Wd_BasisPoints msg) MaxWithdrawBasisPoints (Lp_Units lp) in
    remainingUnits ← GetRemainingUnits lp;
    if remainingUnits <? unitsToClaim
    then Err "some units are bonded, withdrawing %s basis points exceeds remaining %s units"
    else Ok tt.

(** A position without units gets back what is pending. *)
Definition withdraw_pending k (pool : Pool) (lp : LiquidityProvider) : outcome (KVStore * withdrawal) :=
  if (PendingCacao lp =? 0) && (PendingAsset lp =? 0) then Err errNoLiquidityUnitLeft
  else if isLiquidityAuction k
          && (GetLiquidityAuctionTier k (Lp_CacaoAddress lp)
              =? kv_constants k (ConstantName_String "WithdrawTier1"))
  then Err "tier1 cannot withdraw during liquidity auction"
  else
    inboundCacao ← SafeSub (PendingInboundCacao pool) (PendingCacao lp);
    inboundAsset ← SafeSub (PendingInboundAsset pool) (PendingAsset lp);
    k ← set_pool_logged (RemoveLiquidityProvider k lp) (set_Pending pool inboundCacao inboundAsset);
    amount ← RoundToDecimal (PendingAsset lp) (Pool_Decimals pool);
    Ok (k, mkWithdrawal (PendingCacao lp) amount 0 (Lp_Units lp) 0).

(** The deposit a position without a record of it is taken to have made. *)
Definition assumed_deposit (pool : Pool) (lp : LiquidityProvider) : outcome LiquidityProvider :=
  if (Pool_Status pool =? PoolStatus_Available) && (CacaoDepositValue lp =? 0)
     && (AssetDepositValue lp =? 0)
  then
    poolUnits ← GetPoolUnits pool;
    c ← uint_add (CacaoDepositValue lp) (GetSafeShare (Lp_Units lp) poolUnits (BalanceCacao pool));
    a ← uint_add (AssetDepositValue lp) (GetSafeShare (Lp_Units lp) poolUnits (BalanceAsset pool));
    Ok (with_position lp (Lp_CacaoAddress lp) (Lp_AssetAddress lp) (Lp_LastAddHeight lp) (Lp_Units lp)
          (PendingCacao lp) (PendingAsset lp) (PendingTxID lp) c a)
  else Ok lp.

(** What [lp] takes of either side of the pool, and the units it keeps. *)
Definition withdraw_amounts (pool : Pool) (lp : LiquidityProvider) (extraUnits bps : Z) (side : Asset)
  : outcome (Z * Z * Z) :=
  poolUnits ← GetPoolUnits pool;
  if IsVaultAsset (Pool_Asset pool)
  then calculateVaultWithdrawV1 poolUnits (BalanceAsset pool) (Lp_Units lp) bps
  else
    match calculateWithdrawV91 poolUnits (BalanceCacao pool) (BalanceAsset pool) (Lp_Units lp) extraUnits
            bps side with
    | Err _ => Err errWithdrawFail
    | Panic => Panic
    | Ok (withdrawCacao, withDrawAsset, unitAfter) =>
        if ((withdrawCacao =? BalanceCacao pool) && negb (withDrawAsset =? BalanceAsset pool))
           || (negb (withdrawCacao =? BalanceCacao pool) && (withDrawAsset =? BalanceAsset pool))
        then Err errWithdrawFail
        else Ok (withdrawCacao, withDrawAsset, unitAfter)
    end.

(** The last one to leave the pool of a gas asset leaves the gas of the
    outbound transaction. CACAO is native, so the case of BNB does not occur. *)
Definition gas_kept k (pool : Pool) (units unitAfter withDrawAsset : Z) : outcome (Z * Z) :=
  poolUnits ← GetPoolUnits pool;
  left ← SafeSub poolUnits units;
  left ← uint_add left unitAfter;
  if left =? 0 then
    maxGas ← GetMaxGas k (GetChain (Pool_Asset pool));
    if Asset_IsBNB (Pool_Asset pool) && negb (Chain_Equals (Asset_Chain BaseAsset) BASEChain) then
      twice ← uint_mul64 (Coin_Amount maxGas) 2;
      rest ← SafeSub withDrawAsset twice;
      gas ← uint_sub withDrawAsset rest;
      Ok (rest, gas)
    else if Asset_Equals (GetGasAsset (GetChain (Pool_Asset pool))) (Pool_Asset pool) then
      let gas := if withDrawAsset <? Coin_Amount maxGas then withDrawAsset else Coin_Amount maxGas in
      rest ← SafeSub withDrawAsset gas;
      Ok (rest, gas)
    else Ok (withDrawAsset, 0)
  else Ok (withDrawAsset, 0).

Definition pool_after_withdraw (pool : Pool) (units unitAfter withdrawCacao withDrawAsset : Z) : outcome Pool :=
  burnt ← SafeSub units unitAfter;
  lpUnits ← SafeSub (LPUnits pool) burnt;
  cacao ← SafeSub (BalanceCacao pool) withdrawCacao;
  asset ← SafeSub (BalanceAsset pool) withDrawAsset;
  let pool := set_BalanceAsset (set_BalanceCacao (set_LPUnits pool lpUnits) cacao) asset in
  Ok (if ((asset =? 0) || (cacao =? 0)) && negb (IsVaultAsset (Pool_Asset pool))
      then set_Status pool PoolStatus_Staged else pool).

Definition lp_after_withdraw k (lp : LiquidityProvider) (bps unitAfter : Z) : outcome LiquidityProvider :=
  c ← SafeSub (CacaoDepositValue lp) (GetSafeShare bps MaxWithdrawBasisPoints (CacaoDepositValue lp));
  a ← SafeSub (AssetDepositValue lp) (GetSafeShare bps MaxWithdrawBasisPoints (AssetDepositValue lp));
  Ok (mkLiquidityProvider (Lp_Asset lp) (Lp_CacaoAddress lp) (Lp_AssetAddress lp) (Lp_LastAddHeight lp)
        (kv_height k) unitAfter (PendingCacao lp) (PendingAsset lp) (PendingTxID lp) c a (NodeBondAddress lp)
        (WithdrawCounter lp) (LastWithdrawCounterHeight lp) (BondedNodes lp)).

(** A position with nothing left is removed, except during ragnarok. *)
Definition store_position k (lp : LiquidityProvider) : outcome KVStore :=
  if RagnarokInProgress k then Ok (SetLiquidityProvider k lp)
  else
    total ← uint_add (Lp_Units lp) (PendingAsset lp);
    total ← uint_add total (PendingCacao lp);
    Ok (if negb (total =? 0) then SetLiquidityProvider k lp else RemoveLiquidityProvider k lp).

Definition withdraw_units k (reserve_checked : bool) (msg : MsgWithdrawLiquidity) (pool : Pool)
    (lp : LiquidityProvider) : outcome (KVStore * withdrawal) :=
  if kv_height k <? i64 (Lp_LastAddHeight lp + kv_constants k (ConstantName_String "LiquidityLockUpBlocks"))
  then Err "you cannot withdraw for 24 hours after providing liquidity for this blockchain"
  else
    let bps := Wd_BasisPoints msg in
    let pauseAsym := GetMimir k ("PauseAsymWithdrawal-" +:+ Chain_String (GetChain (Pool_Asset pool))) in
    let side := assetToWithdrawV89 (Wd_Asset msg) (WithdrawalAsset msg) lp pauseAsym in
    lp ← assumed_deposit pool lp;
    '(protectionCacao, extraUnits, pool) ← grant_protection k reserve_checked lp bps pool;
    units ← (if protectionCacao =? 0 then Ok (Lp_Units lp) else uint_add (Lp_Units lp) extraUnits);
    '(withdrawCacao, withDrawAsset, unitAfter) ← withdraw_amounts pool lp extraUnits bps side;
    lp ← checkWithdrawLimit k msg lp;
    withDrawAsset ← RoundToDecimal withDrawAsset (Pool_Decimals pool);
    '(withDrawAsset, gasAsset) ←
      (match gas_kept k pool units unitAfter withDrawAsset with Err _ => Err errWithdrawFail | r => r end);
    pool ← pool_after_withdraw pool units unitAfter withdrawCacao withDrawAsset;
    lp' ← lp_after_withdraw k lp bps unitAfter;
    if Lp_Units lp <=? unitAfter
    then Err "sanity check: LP units cannot increase during a withdrawal: %d --> %d"
    else
      k ← SetPool k pool;
      k ← store_position k lp';
      k ← (if negb (protectionCacao =? 0)
           then SendFromModuleToModule k ReserveName AsgardName [NewCoin BaseAsset protectionCacao]
           else Ok k);
      taken ← SafeSub (Lp_Units lp) unitAfter;
      Ok (k, mkWithdrawal withdrawCacao withDrawAsset protectionCacao taken gasAsset).

Definition withdraw_with k (reserve_checked : bool) (msg : MsgWithdrawLiquidity)
  : outcome (KVStore * withdrawal) :=
  _ ← validateWithdrawV105 k msg;
  let pool := GetPool k (Wd_Asset msg) in
  synthSupply ← GetTotalSupply k (GetSyntheticAsset (Pool_Asset pool));
  '(pool, _) ← CalcUnits pool (kv_version k) synthSupply;
  let lp := GetLiquidityProvider k (Wd_Asset msg) (WithdrawAddress msg) in
  if Lp_Units lp =? 0 then withdraw_pending k pool lp
  else withdraw_units k reserve_checked msg pool lp.

Definition withdrawV124 k (msg : MsgWithdrawLiquidity) : outcome (KVStore * withdrawal) :=
  withdraw_with k true msg.

Definition withdrawV108 k (msg : MsgWithdrawLiquidity) : outcome (KVStore * withdrawal) :=
  withdraw_with k false msg.

(** From 1.108.0 on. *)
Definition withdraw k (msg : MsgWithdrawLiquidity) : outcome (KVStore * withdrawal) :=
  if GTE (kv_version k) (semver_release 1 124 0) then withdrawV124 k msg else withdrawV108 k msg.
End withdraw.

(** ** The handler *)

Section withdraw_handler.
Context `{V : Semver} `{B : CosmosBank} `{A : SdkAddress} `{R : MapRange} `{L : AddressLib}.
Context `{U : SdkUint} `{D : SdkDec} `{T : UintText} `{C : PubKeyCodec} {TO : TxOutStore}.
Implicit Types k : KVStore.

Definition withdraw_validateV118 k (msg : MsgWithdrawLiquidity) : outcome unit :=
  match MsgWithdrawLiquidity_ValidateBasic msg with
  | Err _ => Err errWithdrawFailValidation
  | Panic => Panic
  | Ok _ =>
      let disabled := GetMimir k (ConstantName_String "SaverWithdrawalDisabled") in
      let tx := Wd_Tx msg in
      let pool := GetPool k (Wd_Asset msg) in
      let chain := Asset_Chain (Wd_Asset msg) in
      if (0 <? disabled) && IsSyntheticAsset (Wd_Asset msg) then Err "saver withdrawals are disabled"
      else
        _ ← EnsureValidPoolStatus pool false;
        if negb (Pool_Status pool =? PoolStatus_Available) && negb (Asset_IsEmpty (WithdrawalAsset msg))
           && negb (TxID_Equals (Tx_ID tx) BlankTxID)
        then Err "cannot specify a withdrawal asset while the pool is not available"
        else if isChainHalted k chain || isLPPaused k chain
        then Err "unable to withdraw liquidity while chain is halted or paused LP actions"
        else if negb (Chain_Equals (Tx_Chain tx) BASEChain)
                && IsChain (WithdrawAddress msg) BASEChain (kv_version k)
                && negb (TxID_Equals (Tx_ID tx) BlankTxID)
                && negb (Address_Equals
                     (Lp_AssetAddress (GetLiquidityProvider k (Wd_Asset msg) (WithdrawAddress msg)))
                     (FromAddress tx))
        then Err errWithdrawLiquidityMismatchAddr
        else Ok tt
  end.

(** Everything of the transaction is kept but the memo and the coins. *)
Definition with_memo_coins (tx : Tx) (memo : string) (coins : Coins) : Tx :=
  mkTx (Tx_ID tx) (Tx_Chain tx) (FromAddress tx) (ToAddress tx) coins (Tx_Gas tx) memo.

(** A saver is paid in the layer-1 asset, by a swap. *)
Definition withdraw_swapV110 k (msg : MsgWithdrawLiquidity) (coin : Coin) (addr : Address)
  : outcome KVStore :=
  if HasSwapQueueItem k (Tx_ID (Wd_Tx msg)) 0 then Err "txn hash conflict"
  else
    let targetAsset := GetLayer1Asset (Wd_Asset msg) in
    let ssInterval := GetConfigInt64 k (ConstantName_String "SaversStreamingSwapsInterval") in
    let ssInterval := if ssInterval <=? 0 then 0 else ssInterval in
    let ssInterval := if ragnarok_asset k targetAsset then 0 else ssInterval in
    let target := GetGasAsset (Address_GetChain addr (kv_version k)) in
    let memo := "=:" +:+ Asset_String target +:+ ":" +:+ addr in
    let swapMsg := NewMsgSwap (with_memo_coins (Wd_Tx msg) memo [coin]) target addr 0 NoAddress 0
                     EmptyString EmptyString None OrderType_market 0 (u64 ssInterval) (Wd_Signer msg) in
    _ ← swap_validateV123 k swapMsg;
    Ok (SetSwapQueueItem k swapMsg 0).

(** The transaction that pays one side. *)
Definition withdraw_transfer k (msg : MsgWithdrawLiquidity) (gasAsset : Z) (coin : Coin) (addr : Address)
  : outcome KVStore :=
  let memo := if TxID_Equals (Tx_ID (Wd_Tx msg)) BlankTxID
              then "RAGNAROK:" +:+ print_int (kv_height k) else EmptyString in
  '(maxGas, gasRate) ←
    (if gasAsset =? 0 then Ok ([], 0)
     else
       let chain := GetChain (Wd_Asset msg) in
       maxGas ←
         (if Asset_IsBNB (Wd_Asset msg) then
            half ← uint_quo64 gasAsset 2;
            Ok [NewCoin (GetGasAsset (GetChain BaseAsset)) half]
          else if Asset_Equals (GetGasAsset chain) (Wd_Asset msg)
          then Ok [NewCoin (GetGasAsset chain) gasAsset]
          else Ok []);
       rate ← GetGasRate k chain;
       rate ← amount_uint64 rate;
       Ok (maxGas, i64 rate));
  let toi := mkTxOutItem (GetChain (Coin_Asset coin)) addr EmptyPubKey coin memo maxGas gasRate
               (Tx_ID (Wd_Tx msg)) EmptyString EmptyString EmptyString EmptyString None EmptyPubKey in
  match TryAddTxOutItem k toi 0 with
  | Ok (k, true) => Ok k
  | Panic => Panic
  | _ => Err errFailAddOutboundTx
  end.

Definition pay_asset k (msg : MsgWithdrawLiquidity) (lp : LiquidityProvider) (w : withdrawal)
  : outcome KVStore :=
  if paid_asset w =? 0 then Ok k
  else
    let coin := NewCoin (Wd_Asset msg) (paid_asset w) in
    if negb (IsNativeBase (Wd_Asset msg))
       && negb (IsChain (Lp_AssetAddress lp) (GetChain (Wd_Asset msg)) (kv_version k))
    then withdraw_swapV110 k msg coin (Lp_AssetAddress lp)
    else withdraw_transfer k msg (gas_asset w) coin (Lp_AssetAddress lp).

(** Whether the address is that of a node at genesis. *)
Fixpoint is_genesis k (nodes : list string) (addr : Address) : outcome bool :=
  match nodes with
  | [] => Ok false
  | genesis :: nodes' =>
      address ← NewAddress genesis (kv_version k);
      if Address_Equals addr address then Ok true else is_genesis k nodes' addr
  end.

(** The CACAO of the nodes at genesis goes to the reserve. *)
Definition pay_cacao k (msg : MsgWithdrawLiquidity) (lp : LiquidityProvider) (w : withdrawal)
  : outcome KVStore :=
  polAddress ← GetModuleAddress k ReserveName;
  if paid_cacao w =? 0 then Ok k
  else
    genesis ← is_genesis k GenesisNodes (Lp_CacaoAddress lp);
    let addr := if (genesis : bool) then polAddress else Lp_CacaoAddress lp in
    k ← withdraw_transfer k msg (gas_asset w) (NewCoin BaseAsset (paid_cacao w)) addr;
    if Address_Equals polAddress addr && negb genesis then
      let pol := GetPOL k in
      withdrawn ← uint_add (POL_CacaoWithdrawn pol) (paid_cacao w);
      Ok (SetPOL k (mkPOL (POL_CacaoDeposited pol) withdrawn))
    else Ok k.

Definition AddPoolFeeToReserve k (fee : Z) : outcome KVStore :=
  SendFromModuleToModule k AsgardName ReserveName [NewCoin BaseNative fee].

Definition withdraw_handleV110 k (msg : MsgWithdrawLiquidity) : outcome KVStore :=
  let lp := GetLiquidityProvider k (Wd_Asset msg) (WithdrawAddress msg) in
  r ← (match withdraw k msg with Err _ => Err "fail to process withdraw request" | r => r end);
  let '(k, w) := (r : KVStore * withdrawal) in
  k ← pay_asset k msg lp w;
  k ← pay_cacao k msg lp w;
  let reserveCoin := GetCoin (Tx_Coins (Wd_Tx msg)) BaseAsset in
  if Coin_IsEmpty reserveCoin then Ok k else AddPoolFeeToReserve k (Coin_Amount reserveCoin).

Definition withdraw_Run k (msg : MsgWithdrawLiquidity) : outcome KVStore :=
  _ ← withdraw_validateV118 k msg; withdraw_handleV110 k msg.
End withdraw_handler.
