(* ===== verification/WithdrawBooks.v ===== *)
(** Withdrawals keep the books of [LiquidityBooks.v]: the pool gives exactly what is
    paid, the reserve pays the protection, and the position keeps the rest. *)
From S2P Require Import Prelude GoText Sdk Constants Floats Shares Chains Keys Addresses Assets Coins Txs.
From S2P Require Import NodeAccounts Votes TxOuts Vaults Pools Mimirs StreamingSwaps SwapMsgs LiquidityProviders.
From S2P Require Import Records MayaNames Stores Keeper Nodes Bonds VaultStore Halts Gas TradeAccounts.
From S2P Require Import Swapper Affiliates Decimals Memos Collectors SwapChecks Liquidity AddLiquidity.
From S2P Require Import LiquidityBooks Withdraw.

(** ** Positions that leave *)

Lemma sum_in_delete f lps key old pool :
  lps !! key = Some old ->
  sum_in f (delete key lps) pool = sum_in f lps pool - if String.eqb (lp_pool old) pool then f old else 0.
Proof. intros H. unfold sum_in. rewrite (map_sum_lookup _ lps key old H). lia. Qed.

Lemma books_remove lps pools key old pool p p' :
  books lps pools -> pools !! pool = Some p -> lps !! key = Some old -> lp_pool old = pool ->
  Pool_Asset p' = Pool_Asset p ->
  is_uint (LPUnits p') -> is_uint (PendingInboundCacao p') -> is_uint (PendingInboundAsset p') ->
  LPUnits p' = LPUnits p - Lp_Units old ->
  PendingInboundCacao p' = PendingInboundCacao p - PendingCacao old ->
  PendingInboundAsset p' = PendingInboundAsset p - PendingAsset old ->
  books (delete key lps) (<[pool := p']> pools).
Proof.
  intros [Hl Hp] Hpool Hold Hop Ha Hu1 Hu2 Hu3 Hdu Hdc Hda. split.
  - by apply map_Forall_delete.
  - intros q r. rewrite lookup_insert_Some. intros [[<- <-]|[Hne Hq]].
    + destruct (Hp _ _ Hpool) as (H1 & H2 & H3 & H4 & H5 & H6 & H7 & H8).
      unfold pool_stored. rewrite Ha, !(sum_in_delete _ lps key old) by done. rewrite Hop, String.eqb_refl.
      split_and!; try done; lia.
    + destruct (Hp _ _ Hq) as (H1 & H2 & H3 & H4 & H5 & H6 & H7 & H8).
      unfold pool_stored. rewrite !(sum_in_delete _ lps key old) by done.
      rewrite Hop, (proj2 (String.eqb_neq _ _)) by done. rewrite !Z.sub_0_r. by split_and!.
Qed.

(** The units of a position are part of those of its pool. *)
Lemma units_le lps pools key old :
  books lps pools -> lps !! key = Some old -> forall p, pools !! lp_pool old = Some p -> Lp_Units old <= LPUnits p.
Proof.
  intros [Hl Hp] Hold p Hpool. destruct (Hp _ _ Hpool) as (_ & _ & _ & _ & _ & -> & _).
  eapply sum_in_entry; [|done]. intros i x Hx. destruct (Hl _ _ Hx) as (_ & _ & H & _). by destruct H.
Qed.

(** ** The amounts *)

Section amounts.
Context {U : SdkUint} {UL : SdkUintLaws U} {D : SdkDec} {DL : SdkDecLaws D}.

(** What [s] of [t] units take when only one side, of [a], is withdrawn. *)
Definition asym_share (s t a : Z) : Z := asym_numerator s t a / (t * t * t).

Lemma calcAsymWithdrawalV1_range s t a w :
  0 <= s <= t -> 0 < t -> 0 <= a -> calcAsymWithdrawalV1 s t a = Ok w -> w = asym_share s t a /\ 0 <= w <= a.
Proof.
  intros Hs Ht Ha H. unfold calcAsymWithdrawalV1 in H.
  apply bind_Ok in H as (p1 & [-> _]%uint_mul_Ok & H). apply bind_Ok in H as (t2 & [-> _]%uint_mul_Ok & H).
  apply bind_Ok in H as (p2 & [-> _]%uint_mul64_Ok & H). apply bind_Ok in H as (ts & [-> _]%uint_mul_Ok & H).
  apply bind_Ok in H as (p3 & [-> _]%uint_mul64_Ok & H). apply bind_Ok in H as (p4 & [-> _]%uint_mul_Ok & H).
  apply bind_Ok in H as (d & ->%SafeSub_inv & H). apply bind_Ok in H as (sum & [-> _]%uint_add_Ok & H).
  apply bind_Ok in H as (n & [-> Hn]%uint_mul_Ok & H). apply bind_Ok in H as (t2' & [-> _]%uint_mul_Ok & H).
  apply bind_Ok in H as (p5 & [-> _]%uint_mul_Ok & H).
  assert (Ht3 : 0 < t * t * t) by nia.
  assert (Hd : t * t * 2 - t * s * 2 >= 0) by nia.
  rewrite Z.max_r in H, Hn by lia.
  replace (s * a * (t * t * 2 - t * s * 2 + s * s)) with (asym_numerator s t a) in H, Hn
    by (unfold asym_numerator; ring).
  destruct (asym_numerator_bounds s t a Hs Ha) as ([Hlo Hhi] & _).
  apply uint_quo_Ok in H as (_ & -> & _); [|unfold is_uint in Hn; lia..].
  split; [done|]. split; [apply Z.div_pos; [unfold is_uint in Hn; lia|done]|].
  apply Z.div_le_upper_bound; [done|]. lia.
Qed.
End amounts.

(** ** The steps of a withdrawal *)

Section steps.
Context {V : Semver} {B : CosmosBank} {BL : CosmosBankLaws B} {A : SdkAddress} {R : MapRange} {L : AddressLib}.
Context {U : SdkUint} {UL : SdkUintLaws U} {D : SdkDec} {DL : SdkDecLaws D} {T : UintText} {C : PubKeyCodec}.
Implicit Types k : KVStore.

Lemma calcImpLossV102_uint k h lp bps line p amount dv rv :
  calcImpLossV102 k h lp bps line p = Ok (amount, dv, rv) -> is_uint amount.
Proof.
  unfold calcImpLossV102. intros H. apply bind_Ok in H as (pu & _ & H). cbv zeta in H.
  destruct (_ =? 0); [by injection H as <- _ _|].
  apply bind_Ok in H as (v1 & _ & H). apply bind_Ok in H as (v2 & _ & H). apply bind_Ok in H as (v3 & _ & H).
  apply bind_Ok in H as (v4 & _ & H). apply bind_Ok in H as (v5 & _ & H).
  destruct (_ || _); [by injection H as <- _ _|].
  apply bind_Ok in H as (pr & _ & H). apply bind_Ok in H as (cr & _ & H).
  apply bind_Ok in H as (r & [-> Hr]%uint_mul64_Ok & H). apply bind_Ok in H as (r' & Hr' & [= <- _ _]).
  apply uint_quo64_Ok in Hr' as (_ & -> & Hr'); [done|apply Hr|lia].
Qed.

(** The units for a protection of [prot] are those of a deposit of so much CACAO. *)
Definition units_granted (p : Pool) (prot extra : Z) : Prop :=
  if prot =? 0 then extra = 0
  else exists total,
    calculatePoolUnitsV1 (LPUnits p + SynthUnits p) (BalanceCacao p) (BalanceAsset p) prot 0 = Ok (total, extra).

Lemma grant_protection_spec k checked lp bps p prot extra q :
  grant_protection k checked lp bps p = Ok (prot, extra, q) ->
  0 <= prot /\ 0 <= extra /\ units_granted p prot extra /\
  q = set_BalanceCacao (set_LPUnits p (LPUnits p + extra)) (BalanceCacao p + prot).
Proof.
  assert (Hnone : forall q', Ok (0, 0, p) = Ok q' -> let '(prot, extra, q) := q' in
    0 <= prot /\ 0 <= extra /\ units_granted p prot extra /\
    q = set_BalanceCacao (set_LPUnits p (LPUnits p + extra)) (BalanceCacao p + prot)).
  { intros q' [= <-]. rewrite !Z.add_0_r. by destruct p. }
  unfold grant_protection. intros H. destruct (_ && _); [|by apply (Hnone (prot, extra, q))].
  apply bind_Ok in H as ([[amount dv] rv] & Hloss & H).
  destruct (Z.eqb_spec amount 0); [by apply (Hnone (prot, extra, q))|].
  apply bind_Ok in H as (res & _ & H). destruct (res <? amount); [by apply (Hnone (prot, extra, q))|].
  apply bind_Ok in H as (pu & [-> _]%uint_add_Ok & H). apply bind_Ok in H as ([tot ex] & Hex & H).
  apply bind_Ok in H as (pc & [-> _]%uint_add_Ok & H). apply bind_Ok in H as (lu & [-> _]%uint_add_Ok & H).
  injection H as <- <- <-.
  apply calcImpLossV102_uint in Hloss as Hu.
  assert (Hgrant : units_granted p amount ex). { unfold units_granted. rewrite (proj2 (Z.eqb_neq _ _)) by done. by exists tot. }
  apply calculatePoolUnitsV1_uint in Hex; [|done]. unfold is_uint in *. by split_and!; try lia.
Qed.

Lemma GetMaxGas_nonneg k chain c : GetMaxGas k chain = Ok c -> 0 <= Coin_Amount c.
Proof.
  unfold GetMaxGas. intros H. cbv zeta in H. apply bind_Ok in H as (a & Ha & H).
  apply bind_Ok in H as (b & Hb & H). apply bind_Ok in H as (r & Hr & [= <-]).
  assert (Ha0 : 0 <= a).
  { destruct (_ || _); [injection Ha as <-; unfold u64; apply Z.mod_pos_bound; lia|].
    apply bind_Ok in Ha as (x & [-> Hx]%uint_mul64_Ok & Ha). unfold is_uint in Hx.
    apply uint_quo64_Ok in Ha as (_ & -> & Ha); [apply Ha|lia..]. }
  assert (Hb0 : 0 <= b).
  { destruct (Chain_Equals chain ARBChain); [|by injection Hb as <-].
    apply uint_quo64_Ok in Hb as (_ & -> & Hb); [apply Hb|lia..]. }
  apply RoundToDecimal_le in Hr; [|done]. cbn. lia.
Qed.

Lemma gas_kept_le k p units after a rest gas :
  0 <= a -> gas_kept k p units after a = Ok (rest, gas) ->
  0 <= rest <= a /\ rest + gas = a /\ (gas = 0 \/ Z.max 0 (LPUnits p + SynthUnits p - units) + after = 0).
Proof.
  intros Ha H. unfold gas_kept, GetPoolUnits in H. apply bind_Ok in H as (pu & [-> _]%uint_add_Ok & H).
  apply bind_Ok in H as (l & ->%SafeSub_inv & H). apply bind_Ok in H as (l' & [-> _]%uint_add_Ok & H).
  destruct (Z.eqb_spec (Z.max 0 (LPUnits p + SynthUnits p - units) + after) 0); [|injection H as <- <-; lia].
  apply bind_Ok in H as (mg & Hmg & H). apply GetMaxGas_nonneg in Hmg. destruct (_ && _).
  - apply bind_Ok in H as (tw & [-> Htw]%uint_mul64_Ok & H). apply bind_Ok in H as (re & ->%SafeSub_inv & H).
    apply bind_Ok in H as (g & [-> _]%uint_sub_Ok & [= <- <-]). lia.
  - destruct (Asset_Equals _ _); [|injection H as <- <-; lia]. cbv zeta in H.
    apply bind_Ok in H as (re & ->%SafeSub_inv & [= <- <-]). destruct (Z.ltb_spec a (Coin_Amount mg)); lia.
Qed.

(** No side pays more than it has. *)
Lemma withdraw_amounts_range p lp extra bps side c a after :
  is_uint (Lp_Units lp) -> 0 <= extra -> Lp_Units lp + extra <= LPUnits p -> 0 <= SynthUnits p ->
  0 <= bps <= 10000 -> 0 <= BalanceCacao p -> 0 <= BalanceAsset p ->
  withdraw_amounts p lp extra bps side = Ok (c, a, after) ->
  0 <= c <= BalanceCacao p /\ 0 <= a <= BalanceAsset p /\ 0 <= after <= Lp_Units lp /\
  (IsVaultAsset (Pool_Asset p) = false \/ BalanceAsset p <> 0 /\ Lp_Units lp <> 0 /\ bps <> 0 ->
   Lp_Units lp - after <= GetSafeShare bps 10000 (Lp_Units lp)).
Proof.
  intros Hu He Hle Hs Hb Hc Ha H. unfold withdraw_amounts, GetPoolUnits, is_uint in *.
  apply bind_Ok in H as (pu & [-> Hpu]%uint_add_Ok & H).
  pose proof (GetSafeShare_range bps 10000 (Lp_Units lp) ltac:(lia) ltac:(lia) ltac:(lia)) as Hshare.
  destruct (IsVaultAsset _).
  - unfold calculateVaultWithdrawV1, MaxWithdrawBasisPoints in H. destruct (_ || _) eqn:E0.
    { injection H as <- <- <-. rewrite !orb_true_iff, !Z.eqb_eq in E0. split_and!; lia. }
    apply bind_Ok in H as (u & ->%SafeSub_inv & [= <- <- <-]).
    split_and!; try lia; apply GetSafeShare_range; lia.
  - destruct (calculateWithdrawV91 _ _ _ _ _ _ _) as [[[c' a'] u']| |] eqn:E; [|done..].
    destruct (_ || _); [done|]. injection H as <- <- <-. unfold calculateWithdrawV91 in E.
    destruct (Z.eqb_spec (LPUnits p + SynthUnits p) 0); [done|]. destruct (BalanceCacao p =? 0); [done|].
    destruct (BalanceAsset p =? 0); [done|]. destruct (Lp_Units lp =? 0); [done|]. destruct (_ <? _); [done|].
    cbv zeta in E. apply bind_Ok in E as (u & ->%SafeSub_inv & E).
    apply bind_Ok in E as (cl & [-> Hcl]%uint_add_Ok & E).
    set (s := GetSafeShare bps 10000 (Lp_Units lp)) in *.
    destruct (Asset_IsEmpty side); [|destruct (IsBase side)].
    + injection E as <- <- <-. split_and!; try lia; apply GetSafeShare_range; lia.
    + apply bind_Ok in E as (w & Hw & [= <- <- <-]).
      apply calcAsymWithdrawalV1_range in Hw as [_ Hw]; [split_and!; lia|lia..].
    + apply bind_Ok in E as (w & Hw & [= <- <- <-]).
      apply calcAsymWithdrawalV1_range in Hw as [_ Hw]; [split_and!; lia|lia..].
Qed.

(** The units a position of [units] gives up for [bps] basis points of it, and what
    it takes of either side of the pool, which has been given [prot] CACAO and
    [extra] units for it. A vault that is empty takes all units for nothing. *)
Definition due (q : Pool) (units prot extra bps : Z) (side : Asset) : Z * Z * Z :=
  let claim := GetSafeShare bps 10000 units in
  let total := LPUnits q + extra + SynthUnits q in
  if IsVaultAsset (Pool_Asset q) then
    if BalanceAsset q =? 0 then (units, 0, 0) else (claim, 0, GetSafeShare claim total (BalanceAsset q))
  else if Asset_IsEmpty side then
    (claim, GetSafeShare (claim + extra) total (BalanceCacao q + prot),
     GetSafeShare (claim + extra) total (BalanceAsset q))
  else if IsBase side then (claim, asym_share (claim + extra) total (BalanceCacao q + prot), 0)
  else (claim, 0, asym_share (claim + extra) total (BalanceAsset q)).

Lemma withdraw_amounts_due q lp prot extra bps side c a after :
  0 < Lp_Units lp -> 0 <= extra -> Lp_Units lp <= LPUnits q -> 0 <= SynthUnits q ->
  0 < bps <= 10000 -> 0 <= BalanceCacao q + prot -> 0 <= BalanceAsset q ->
  withdraw_amounts (set_BalanceCacao (set_LPUnits q (LPUnits q + extra)) (BalanceCacao q + prot)) lp extra
    bps side = Ok (c, a, after) ->
  due q (Lp_Units lp) prot extra bps side = (Lp_Units lp - after, c, a).
Proof.
  intros Hu He Hle Hs Hb Hc Ha H. unfold withdraw_amounts, GetPoolUnits, due in *.
  cbn [Pool_Asset BalanceCacao BalanceAsset LPUnits SynthUnits set_BalanceCacao set_LPUnits] in H.
  apply bind_Ok in H as (pu & [-> Hpu]%uint_add_Ok & H).
  pose proof (GetSafeShare_range bps 10000 (Lp_Units lp) ltac:(lia) ltac:(lia) ltac:(lia)) as Hshare.
  destruct (IsVaultAsset _).
  - unfold calculateVaultWithdrawV1, MaxWithdrawBasisPoints in H.
    destruct (Z.eqb_spec (LPUnits q + extra + SynthUnits q) 0); [lia|].
    destruct (Z.eqb_spec (Lp_Units lp) 0); [lia|]. destruct (Z.eqb_spec bps 0); [lia|].
    destruct (Z.eqb_spec (BalanceAsset q) 0); cbn [orb] in H.
    + injection H as <- <- <-. by rewrite Z.sub_0_r.
    + apply bind_Ok in H as (u & ->%SafeSub_inv & [= <- <- <-]). do 2 f_equal. lia.
  - destruct (calculateWithdrawV91 _ _ _ _ _ _ _) as [[[c' a'] u']| |] eqn:E; [|done..].
    destruct (_ || _); [done|]. injection H as <- <- <-. unfold calculateWithdrawV91 in E.
    destruct (_ =? 0); [done|]. destruct (_ =? 0); [done|]. destruct (_ =? 0); [done|].
    destruct (_ =? 0); [done|]. destruct (_ <? _); [done|]. cbv zeta in E.
    apply bind_Ok in E as (u & ->%SafeSub_inv & E). apply bind_Ok in E as (cl & [-> Hcl]%uint_add_Ok & E).
    set (s := GetSafeShare bps 10000 (Lp_Units lp)) in *.
    assert (Lp_Units lp - Z.max 0 (Lp_Units lp - s) = s) as Hmax by lia.
    destruct (Asset_IsEmpty side); [|destruct (IsBase side)].
    + injection E as <- <- <-. by rewrite Hmax.
    + apply bind_Ok in E as (w & Hw & [= <- <- <-]). rewrite Hmax.
      apply calcAsymWithdrawalV1_range in Hw as [-> _]; [done|lia..].
    + apply bind_Ok in E as (w & Hw & [= <- <- <-]). rewrite Hmax.
      apply calcAsymWithdrawalV1_range in Hw as [-> _]; [done|lia..].
Qed.

Lemma pool_after_withdraw_exact p units after c a p' :
  0 <= after <= units -> units - after <= LPUnits p -> 0 <= c <= BalanceCacao p -> 0 <= a <= BalanceAsset p ->
  pool_after_withdraw p units after c a = Ok p' ->
  Pool_Asset p' = Pool_Asset p /\ LPUnits p' = LPUnits p - (units - after) /\
  BalanceCacao p' = BalanceCacao p - c /\ BalanceAsset p' = BalanceAsset p - a /\
  PendingInboundCacao p' = PendingInboundCacao p /\ PendingInboundAsset p' = PendingInboundAsset p /\
  SynthUnits p' = SynthUnits p.
Proof.
  intros Hu Hl Hc Ha H. unfold pool_after_withdraw in H.
  apply bind_Ok in H as (b & ->%SafeSub_inv & H). apply bind_Ok in H as (l & ->%SafeSub_inv & H).
  apply bind_Ok in H as (x & ->%SafeSub_inv & H). apply bind_Ok in H as (y & ->%SafeSub_inv & [= <-]).
  destruct (_ && _); cbn; split_and!; try done; lia.
Qed.

Lemma checkWithdrawLimit_frame k msg lp lp' :
  checkWithdrawLimit k msg lp = Ok lp' ->
  exists counter height, lp' = with_counter lp counter height.
Proof.
  unfold checkWithdrawLimit. intros H.
  assert (Hid : lp = with_counter lp (WithdrawCounter lp) (LastWithdrawCounterHeight lp)) by by destruct lp.
  destruct (_ || _); [injection H as <-; by do 2 eexists|].
  apply bind_Ok in H as (add & _ & H). destruct (WithdrawCounter lp =? 0); [|destruct (negb _)];
    cbv zeta in H; destruct (_ <=? _); try done; destruct (_ <? _); try done; injection H as <-; by do 2 eexists.
Qed.

Lemma assumed_deposit_frame p lp lp' :
  assumed_deposit p lp = Ok lp' ->
  exists c a, lp' = with_position lp (Lp_CacaoAddress lp) (Lp_AssetAddress lp) (Lp_LastAddHeight lp)
                (Lp_Units lp) (PendingCacao lp) (PendingAsset lp) (PendingTxID lp) c a.
Proof.
  unfold assumed_deposit. intros H. destruct (_ && _).
  - apply bind_Ok in H as (u & _ & H). apply bind_Ok in H as (c & _ & H). apply bind_Ok in H as (a & _ & [= <-]).
    by do 2 eexists.
  - injection H as <-. exists (CacaoDepositValue lp), (AssetDepositValue lp). by destruct lp.
Qed.

Lemma store_position_stored k lp k' :
  store_position k lp = Ok k' ->
  0 <= Lp_Units lp -> 0 <= PendingCacao lp -> 0 <= PendingAsset lp ->
  let key := GetKey (LiquidityProvider_Key lp) in
  k' = set_kv_lps k (<[key := lp]> (kv_lps k)) \/
  k' = set_kv_lps k (delete key (kv_lps k)) /\ Lp_Units lp = 0 /\ PendingCacao lp = 0 /\ PendingAsset lp = 0.
Proof.
  unfold store_position. intros H H1 H2 H3. destruct (RagnarokInProgress k); [injection H as <-; by left|].
  apply bind_Ok in H as (t & [-> _]%uint_add_Ok & H). apply bind_Ok in H as (t & [-> _]%uint_add_Ok & [= <-]).
  destruct (Z.eqb_spec (Lp_Units lp + PendingAsset lp + PendingCacao lp) 0); [right|by left].
  split_and!; [done|lia..].
Qed.
End steps.

(** ** Withdrawing *)

Section withdrawals.
Context {V : Semver} {B : CosmosBank} {BL : CosmosBankLaws B} {A : SdkAddress} {R : MapRange} {L : AddressLib}.
Context {U : SdkUint} {UL : SdkUintLaws U} {D : SdkDec} {DL : SdkDecLaws D} {T : UintText} {C : PubKeyCodec}.
Implicit Types k : KVStore.

(** What a withdrawal pays for the position [su]: one without units is removed for
    its pending amounts; another one is paid what is due for the claimed units, but
    for the gas kept back of the last one to leave. *)
Definition paid_as_due k' (bps : Z) (side : Asset) (q p : Pool) (su : LiquidityProvider) (w : withdrawal) : Prop :=
  if Lp_Units su =? 0 then
    paid_units w = 0 /\ protection w = 0 /\ gas_asset w = 0 /\ paid_cacao w = PendingCacao su /\
    RoundToDecimal (PendingAsset su) (Pool_Decimals q) = Ok (paid_asset w) /\
    kv_lps k' !! GetKey (LiquidityProvider_Key su) = None
  else
    exists extra asset, units_granted q (protection w) extra /\ 0 <= extra /\
      due q (Lp_Units su) (protection w) extra bps side = (paid_units w, paid_cacao w, asset) /\
      RoundToDecimal asset (Pool_Decimals q) = Ok (paid_asset w + gas_asset w) /\
      (gas_asset w = 0 \/ LPUnits p + SynthUnits q = 0).

(** What a withdrawal stores under the key of the position [su0], when the pool [q]
    becomes [p], and what it pays. *)
Record withdraw_change k k' (bps : Z) (side : Asset) (q p : Pool) (su0 : LiquidityProvider) (w : withdrawal) : Prop := {
  wc_pools : kv_pools k' = <[GetKey (Asset_String (Pool_Asset q)) := p]> (kv_pools k);
  wc_position : exists su, Lp_Asset su = Lp_Asset su0 /\ Lp_GetAddress su = Lp_GetAddress su0 /\
    Lp_Units su = Lp_Units su0 - paid_units w /\ 0 <= Lp_Units su /\
    (BondedNodes su = BondedNodes su0 /\ NodeBondAddress su = NodeBondAddress su0) /\
    PendingCacao su - PendingCacao su0 = PendingInboundCacao p - PendingInboundCacao q /\
    PendingAsset su - PendingAsset su0 = PendingInboundAsset p - PendingInboundAsset q /\
    0 <= PendingCacao su <= PendingCacao su0 /\ 0 <= PendingAsset su <= PendingAsset su0 /\
    (kv_lps k' = <[GetKey (LiquidityProvider_Key su0) := su]> (kv_lps k) \/
     kv_lps k' = delete (GetKey (LiquidityProvider_Key su0)) (kv_lps k) /\
     Lp_Units su = 0 /\ PendingCacao su = 0 /\ PendingAsset su = 0);
  wc_asset : Pool_Asset p = Pool_Asset q;
  wc_units : LPUnits p = LPUnits q - paid_units w /\ 0 <= paid_units w;
  wc_claim : IsVaultAsset (Pool_Asset q) = false \/ BalanceAsset q <> 0 ->
    paid_units w <= GetSafeShare bps 10000 (Lp_Units su0);
  wc_balances : 0 <= BalanceCacao q -> 0 <= BalanceAsset q ->
    0 <= BalanceCacao p /\ 0 <= BalanceAsset p /\ SynthUnits p = SynthUnits q;
  wc_gives_cacao : BalanceCacao p + PendingInboundCacao p =
    BalanceCacao q + PendingInboundCacao q + protection w - paid_cacao w;
  wc_gives_asset :
    let lost := BalanceAsset q + PendingInboundAsset q
                - (BalanceAsset p + PendingInboundAsset p) - paid_asset w in
    0 <= lost /\ (Lp_Units su0 <> 0 -> lost = 0);
  wc_bank : forall m, is_module m = true ->
    cacao_of k' m = cacao_of k m - (if String.eqb m ReserveName then protection w else 0)
      + (if String.eqb m AsgardName then protection w else 0);
  wc_paid : paid_as_due k' bps side q p su0 w;
}.

Lemma withdraw_pending_stored k bps side q su k' w :
  0 <= bps ->
  sound_start q su -> Lp_Units su = 0 -> withdraw_pending k q su = Ok (k', w) ->
  exists p, withdraw_change k k' bps side q p su w.
Proof.
  intros Hbps (Hne & _ & (_ & Hc & Ha) & Hle1 & Hle2) Hu H. unfold withdraw_pending, is_uint in *.
  destruct (_ && _); [done|]. destruct (_ && _); [done|].
  apply bind_Ok in H as (ic & ->%SafeSub_inv & H). apply bind_Ok in H as (ia & ->%SafeSub_inv & H).
  rewrite set_pool_logged_stored in H by done. apply bind_Ok in H as (k1 & [= <-] & H).
  apply bind_Ok in H as (amt & Hamt & [= <- <-]). pose proof Hamt as Hround.
  apply RoundToDecimal_le in Hamt; [|lia]. rewrite Hu. eexists. split; cbn.
  - done.
  - exists (with_position su (Lp_CacaoAddress su) (Lp_AssetAddress su) 0 0 0 0 EmptyString 0 0). cbn.
    split_and!; try done; try lia. by right.
  - done.
  - cbn. lia.
  - intros _. apply GetSafeShare_range; lia.
  - done.
  - cbn. lia.
  - cbn. split; [lia|done].
  - intros m _. do 2 destruct (String.eqb _ _); unfold cacao_of; cbn; lia.
  - unfold paid_as_due. rewrite Hu. cbn. split_and!; try done. apply lookup_delete_eq.
Qed.

(** The side a position withdraws. *)
Definition withdrawn_side k (msg : MsgWithdrawLiquidity) (pool : Pool) (lp : LiquidityProvider) : Asset :=
  assetToWithdrawV89 (Wd_Asset msg) (WithdrawalAsset msg) lp
    (GetMimir k ("PauseAsymWithdrawal-" +:+ Chain_String (GetChain (Pool_Asset pool)))).

Lemma withdraw_units_stored k checked msg q su k' w :
  sound_start q su -> Lp_Units su <= LPUnits q -> 0 <= SynthUnits q -> 0 <= BalanceCacao q ->
  0 <= BalanceAsset q -> 0 < Wd_BasisPoints msg <= 10000 -> Lp_Units su <> 0 ->
  withdraw_units k checked msg q su = Ok (k', w) ->
  exists p, withdraw_change k k' (Wd_BasisPoints msg) (withdrawn_side k msg q su) q p su w.
Proof.
  intros (Hne & _ & (Hu & Hpc & Hpa) & Hle1 & Hle2) Hle Hs Hbc Hba Hbps Hu0 H.
  unfold withdraw_units in H. destruct (_ <? _); [done|]. cbv zeta in H.
  apply bind_Ok in H as (lp1 & (c1 & a1 & ->)%assumed_deposit_frame & H).
  apply bind_Ok in H as ([[prot extra] q1] & (Hprot & Hex & Hgrant & ->)%grant_protection_spec & H).
  cbn [Lp_Units with_position] in H. apply bind_Ok in H as (units & Hunits & H).
  assert (units = Lp_Units su + extra) as ->.
  { unfold units_granted in Hgrant. destruct (Z.eqb_spec prot 0) as [E|]; [injection Hunits as <-; lia|].
    by apply uint_add_Ok in Hunits as [-> _]. }
  clear Hunits. apply bind_Ok in H as ([[wc wa] after] & Hamt & H).
  assert (Hdue := Hamt). apply withdraw_amounts_due in Hdue; [|cbn; unfold is_uint in *; lia..].
  cbn [Lp_Units with_position] in Hdue.
  apply withdraw_amounts_range in Hamt as (Hwc & Hwa & Hafter & Hclaim); [|cbn; try done; lia..].
  cbn [BalanceCacao BalanceAsset set_BalanceCacao set_LPUnits Lp_Units with_position Pool_Asset] in Hwc, Hwa, Hafter, Hclaim.
  apply bind_Ok in H as (lp2 & (cnt & hgt & ->)%checkWithdrawLimit_frame & H).
  apply bind_Ok in H as (wa' & Hwa' & H). pose proof Hwa' as Hround. apply RoundToDecimal_le in Hwa'; [|lia].
  apply bind_Ok in H as ([wa2 gas] & Hgas & H).
  destruct (gas_kept _ _ _ _ _) as [[x y]| |] eqn:Eg; [|done..]. injection Hgas as -> ->.
  apply gas_kept_le in Eg as (Eg & Hsum & Hlast); [|lia]. cbn in Hround, Hlast.
  apply bind_Ok in H as (p & Hp & H). apply pool_after_withdraw_exact in Hp as (P1 & P2 & P3 & P4 & P5 & P6 & P7);
    [|cbn; lia..].
  cbn [Pool_Asset LPUnits BalanceCacao BalanceAsset PendingInboundCacao PendingInboundAsset
    SynthUnits set_BalanceCacao set_LPUnits] in P1, P2, P3, P4, P5, P6, P7.
  apply bind_Ok in H as (lp3 & Hlp & H). unfold lp_after_withdraw in Hlp.
  apply bind_Ok in Hlp as (c2 & _ & Hlp). apply bind_Ok in Hlp as (a2 & _ & [= <-]).
  cbn [Lp_Units with_counter with_position] in H.
  destruct (Z.leb_spec (Lp_Units su) after) as [|Hlt]; [done|].
  apply bind_Ok in H as (k1 & Hk1%SetPool_stored & H). apply bind_Ok in H as (k2 & Hk2 & H).
  apply store_position_stored in Hk2; [|cbn; unfold is_uint in *; lia..]. cbv zeta in Hk2.
  match type of Hk2 with context [LiquidityProvider_Key ?s] => set (su' := s) in * end.
  change (LiquidityProvider_Key su') with (LiquidityProvider_Key su) in Hk2.
  apply bind_Ok in H as (k3 & Hk3 & H). apply bind_Ok in H as (taken & ->%SafeSub_inv & [= <- <-]).
  rewrite Z.max_r by lia. exists p.
  assert (Hb : kv_pools k3 = kv_pools k2 /\ kv_lps k3 = kv_lps k2 /\
    forall m, is_module m = true -> cacao_of k3 m = cacao_of k2 m - (if String.eqb m ReserveName then prot else 0)
      + (if String.eqb m AsgardName then prot else 0)).
  { destruct (Z.eqb_spec prot 0) as [->|]; cbn [negb] in Hk3.
    - injection Hk3 as <-. split_and!; [done..|]. intros m _. do 2 destruct (String.eqb _ _); lia.
    - destruct (SendFromModuleToModule_frame _ _ _ _ _ Hk3) as [b ->]. split_and!; [done..|].
      intros m Hm. by apply (module_send_cacao k2 ReserveName AsgardName prot). }
  destruct Hb as (Hb1 & Hb2 & Hb3). subst k1. rewrite P1 in Hk2.
  split; cbn; rewrite ?Hb1, ?Hb2; try (unfold is_uint in *; lia); try done.
  - destruct Hk2 as [->|[-> _]]; by cbn.
  - exists su'. unfold is_uint in *. split_and!; try done; cbn; try lia.
    destruct Hk2 as [->|(-> & H1 & H2 & H3)]; [by left|by right].
  - intros Hv. apply Hclaim. destruct Hv; [by left|right; split_and!; [done|done|lia]].
  - intros m Hm. rewrite (Hb3 m Hm). by destruct Hk2 as [->|[-> _]].
  - unfold paid_as_due. rewrite (proj2 (Z.eqb_neq _ _)) by done. exists extra, wa. cbn.
    rewrite Hsum. split_and!; try done.
    destruct Hlast; [by left|right; lia].
Qed.

(** The outcome of a withdrawal. *)
Lemma withdraw_inv k checked msg k' w :
  let p := GetPool k (Wd_Asset msg) in
  let key := position_key (Wd_Asset msg) (WithdrawAddress msg) in
  liquidity_books k -> contains_char "/" (WithdrawAddress msg) = false ->
  0 <= BalanceCacao p -> 0 <= BalanceAsset p -> 0 <= SynthUnits p ->
  withdraw_with k checked msg = Ok (k', w) ->
  exists su q p', kv_lps k !! key = Some su /\ q = set_SynthUnits p (SynthUnits q) /\
    withdraw_change k k' (Wd_BasisPoints msg) (withdrawn_side k msg p su) q p' su w /\
    (exists r, GetRemainingUnits su = Ok r /\ GetSafeShare (Wd_BasisPoints msg) 10000 (Lp_Units su) <= r) /\
    0 <= SynthUnits q /\
    GetKey (LiquidityProvider_Key su) = key /\
    GetKey (Asset_String (Pool_Asset p)) = GetKey (Asset_String (Wd_Asset msg)) /\
    books (kv_lps k') (kv_pools k') /\
    (exists supply u, GetTotalSupply k (GetSyntheticAsset (Pool_Asset p)) = Ok supply /\
       CalcUnits p (kv_version k) supply = Ok (q, u)) /\
    su = GetLiquidityProvider k (Wd_Asset msg) (WithdrawAddress msg).
Proof.
  intros p key Hk Hs Hbc Hba Hsu H. unfold withdraw_with in H. apply bind_Ok in H as ([] & Hval & H).
  unfold validateWithdrawV105, MaxWithdrawBasisPoints in Hval.
  destruct (Address_IsEmpty _) eqn:Hne; [done|]. destruct (TxID_IsEmpty _); [done|].
  destruct (Asset_IsEmpty _); [done|]. destruct (Z.ltb_spec 0 (Wd_BasisPoints msg)); [|done].
  destruct (Z.ltb_spec 10000 (Wd_BasisPoints msg)); [done|].
  destruct (PoolExist k (Wd_Asset msg)) eqn:He; [|done]. cbn [negb] in Hval. cbv zeta in Hval.
  apply bind_Ok in Hval as (rem & Hrem & Hval). destruct (Z.ltb_spec rem (GetSafeShare (Wd_BasisPoints msg) 10000
    (Lp_Units (GetLiquidityProvider k (Wd_Asset msg) (WithdrawAddress msg))))) as [|Hle10]; [done|]. clear Hval.
  destruct (PoolExist_stored k _ Hk He) as (Hpool & Hpk & Hpe & HuL & HuC & HuA & _). fold p in Hpool, Hpk, HuL, HuC, HuA, Hpe.
  apply bind_Ok in H as (supply & Hsupply & H).
  apply bind_Ok in H as ([q u] & Hcalc & H). pose proof Hcalc as (synths & -> & Hsy)%CalcUnits_synths. specialize (Hsy Hsu).
  destruct (GetLiquidityProvider_books k (Wd_Asset msg) (WithdrawAddress msg) Hk Hne Hs) as (Hsp & Haddr & Hst).
  set (su := GetLiquidityProvider k (Wd_Asset msg) (WithdrawAddress msg)) in *. fold key in Hst.
  destruct Hst as [[Hold Hstored]|[_ Hempty]].
  2:{ exfalso. rewrite Hempty in H. destruct (IsChain _ _ _); cbn in H; unfold withdraw_pending in H; by cbn in H. }
  destruct Hstored as (Hkey & Hslash & Hu1 & Hu2 & Hu3).
  set (q := set_SynthUnits p synths) in *.
  assert (Hle : Lp_Units su <= LPUnits p).
  { eapply units_le; [exact Hk|exact Hold|]. unfold lp_pool. by rewrite Hsp. }
  assert (Hpend : forall f g, (f = PendingCacao /\ g = PendingInboundCacao \/ f = PendingAsset /\ g = PendingInboundAsset) ->
    f su <= g p).
  { intros f g Hfg. eapply (pending_le (kv_lps k) (kv_pools k) key su); [exact Hk|exact Hpool|exact Hsp|exact Hfg|by left]. }
  assert (Hstart : sound_start q su).
  { unfold sound_start. split_and!; try done; (apply Hpend; first [by left|by right]). }
  assert (Hw : exists p', withdraw_change k k' (Wd_BasisPoints msg) (withdrawn_side k msg q su) q p' su w).
  { destruct (Z.eqb_spec (Lp_Units su) 0).
    - apply withdraw_pending_stored; [lia|done..].
    - eapply withdraw_units_stored; [exact Hstart|exact Hle|exact Hsy|exact Hbc|exact Hba| |done|exact H]. lia. }
  destruct Hw as [p' Hw]. exists su, q, p'. split_and!; try done; [by exists rem| |by exists supply, u].
  destruct Hw as [Hp' Hl' Ha' Hu' _ _ _ _ _ _].
  rewrite Hp'. change (Pool_Asset q) with (Pool_Asset p). rewrite <- Hpk.
  destruct Hl' as (su' & Hs1 & Hs2 & Hs3 & Hs4 & _ & Hs5 & Hs6 & Hs7 & Hs8 & Hl'). rewrite <- Hkey in Hl'.
  assert (Hlp' : lp_stored key su').
  { unfold lp_stored. rewrite Hkey, !Lp_Key_position, Hs1, Hs2. unfold is_uint in *. split_and!; try done; lia. }
  change (LPUnits q) with (LPUnits p) in Hu'. change (PendingInboundCacao q) with (PendingInboundCacao p) in Hs5.
  change (PendingInboundAsset q) with (PendingInboundAsset p) in Hs6. unfold is_uint in *.
  pose proof (Hpend _ _ (or_introl (conj eq_refl eq_refl))). pose proof (Hpend _ _ (or_intror (conj eq_refl eq_refl))).
  destruct Hl' as [->|(-> & Hz1 & Hz2 & Hz3)].
  - eapply (books_update _ _ key su su' _ p p'); [exact Hk|exact Hpool| |by left|exact Hsp|exact Hlp'|exact Ha'|..];
      unfold is_uint; try lia. unfold lp_pool. by rewrite Hs1.
  - eapply (books_remove _ _ key su _ p p'); [exact Hk|exact Hpool|exact Hold|exact Hsp|exact Ha'|..];
      unfold is_uint; lia.
Qed.

(** C8: A withdrawal keeps the books. The units that leave the position leave the
    pool; the pool gives the CACAO that is paid and gets the protection, which the
    reserve pays to the vaults' module; it gives the asset that is paid, but for
    what rounding a pending amount to the decimals of the pool leaves; and no other
    pool and no other position changes. What is paid is what is due: a position
    without units is removed for its pending CACAO and its pending asset, rounded;
    another one gives up the asked part of its units (all of them for nothing in an
    empty vault) and is paid their share of either side, or of the one side it
    withdraws, the asset rounded and but for the gas that the last one leaves. *)
Theorem withdraw_adds_up k msg k' w :
  let p := GetPool k (Wd_Asset msg) in
  let key := position_key (Wd_Asset msg) (WithdrawAddress msg) in
  liquidity_books k -> contains_char "/" (WithdrawAddress msg) = false ->
  0 <= BalanceCacao p -> 0 <= BalanceAsset p -> 0 <= SynthUnits p ->
  withdraw k msg = Ok (k', w) ->
  let p' := GetPool k' (Wd_Asset msg) in
  let su := GetLiquidityProvider k (Wd_Asset msg) (WithdrawAddress msg) in
  let units s := entry_of Lp_Units (kv_lps s) key in
  let lost := BalanceAsset p + PendingInboundAsset p
              - (BalanceAsset p' + PendingInboundAsset p') - paid_asset w in
  liquidity_books k' /\ 0 <= paid_units w /\
  LPUnits p' = LPUnits p - paid_units w /\ units k' = units k - paid_units w /\
  BalanceCacao p' + PendingInboundCacao p' =
    BalanceCacao p + PendingInboundCacao p + protection w - paid_cacao w /\
  0 <= lost /\ (units k <> 0 -> lost = 0) /\
  (forall m, is_module m = true ->
     cacao_of k' m = cacao_of k m - (if String.eqb m ReserveName then protection w else 0)
       + (if String.eqb m AsgardName then protection w else 0)) /\
  (forall i, i <> key -> kv_lps k' !! i = kv_lps k !! i) /\
  (forall i, i <> GetKey (Asset_String (Wd_Asset msg)) -> kv_pools k' !! i = kv_pools k !! i) /\
  (exists supply q u, GetTotalSupply k (GetSyntheticAsset (Pool_Asset p)) = Ok supply /\
     CalcUnits p (kv_version k) supply = Ok (q, u) /\
     paid_as_due k' (Wd_BasisPoints msg) (withdrawn_side k msg p su) q p' su w).
Proof.
  intros p key Hk Hs Hbc Hba Hsu H p' su0 units lost.
  assert (Hw : exists checked, withdraw_with k checked msg = Ok (k', w)).
  { unfold withdraw in H. destruct (GTE _ _); by eexists. }
  destruct Hw as [checked Hw].
  destruct (withdraw_inv k checked msg k' w Hk Hs Hbc Hba Hsu Hw)
    as (su & q & r & Hsu0 & Hq & [] & _ & _ & Hkey & Hpk & Hb & (supply & u & Hsup & Hcalc) & Hsu').
  subst su0. rewrite <- Hsu'.
  assert (Hdue : exists supply q u, GetTotalSupply k (GetSyntheticAsset (Pool_Asset p)) = Ok supply /\
     CalcUnits p (kv_version k) supply = Ok (q, u) /\
     paid_as_due k' (Wd_BasisPoints msg) (withdrawn_side k msg p su) q r su w) by by exists supply, q, u.
  clear Hsup Hcalc wc_paid0 Hsu'.
  rewrite Hq in wc_pools0. cbn [Pool_Asset set_SynthUnits] in wc_pools0. rewrite Hpk in wc_pools0.
  assert (p' = r) as Hr. { unfold p', GetPool. by rewrite wc_pools0, lookup_insert_eq. }
  destruct wc_position0 as (su' & _ & _ & Hu' & _ & _ & _ & _ & _ & _ & Hl').
  rewrite Hkey in Hl'. fold key in Hsu0, Hl', Hkey.
  assert (Huk : units k = Lp_Units su). { unfold units, entry_of. by rewrite Hsu0. }
  assert (Huk' : units k' = Lp_Units su').
  { unfold units, entry_of. by destruct Hl' as [->|(-> & -> & _)]; rewrite ?lookup_insert_eq, ?lookup_delete_eq. }
  unfold lost. rewrite Hr, Huk, Huk'. rewrite Hq in *. cbn [LPUnits BalanceCacao BalanceAsset PendingInboundCacao
    PendingInboundAsset set_SynthUnits] in *. fold p in wc_units0, wc_gives_cacao0, wc_gives_asset0.
  split_and!; try done; try apply wc_units0; try apply wc_gives_asset0.
  - intros i Hi. by destruct Hl' as [->|(-> & _)]; rewrite ?lookup_insert_ne, ?lookup_delete_ne by done.
  - intros i Hi. by rewrite wc_pools0, lookup_insert_ne.
Qed.
End withdrawals.

Section withdraw_witnesses.
Import Reference ReferenceBank ReferenceRange ReferenceAddress ReferenceText.

#[local] Instance withdraw_codec : PubKeyCodec := {| pubkey_decodes s := negb (String.eqb s "bad") |}.

(** "alice" has 400 of the 500 units of the pool and takes a quarter of them. *)
Definition withdraw_start : KVStore :=
  set_kv_lps (set_kv_pools (empty_kv (semver_release 1 124 0) (fun _ => 0) 10 ReferenceBank.empty)
    (<["BTC.BTC" := btc_pool]> ∅))
    (<["BTC.BTC/MAYA1ALICE" := position BTCAsset "maya1alice" "3alice" 400 70]>
     (<["BTC.BTC/MAYA1BOB" := position BTCAsset "maya1bob" "3bob" 100 0]> ∅)).

Definition withdraw_message : MsgWithdrawLiquidity :=
  NewMsgWithdrawLiquidity (add_tx "maya1alice" []) "maya1alice" 2500 BTCAsset EmptyAsset "alice".

Lemma withdraw_start_sound : liquidity_books withdraw_start.
Proof.
  assert (H : liquidity_books_b withdraw_start = true) by by vm_compute. by apply liquidity_books_b_spec.
Qed.

Lemma withdraw_adds_up_witness :
  exists k' w, withdraw withdraw_start withdraw_message = Ok (k', w) /\ liquidity_books k' /\
    w = mkWithdrawal 1000 200 0 100 0 /\ LPUnits (GetPool k' BTCAsset) = 400.
Proof.
  assert (Hr : match withdraw withdraw_start withdraw_message with
    | Ok (k', w) => (paid_cacao w =? 1000) && (paid_asset w =? 200) && (protection w =? 0)
                    && (paid_units w =? 100) && (gas_asset w =? 0)
    | _ => false end = true) by by vm_compute.
  destruct (withdraw withdraw_start withdraw_message) as [[k' w]| |] eqn:E; [|discriminate Hr..].
  destruct (withdraw_adds_up withdraw_start withdraw_message k' w) as (H1 & _ & H2 & _);
    [apply withdraw_start_sound|by vm_compute|by vm_compute|by vm_compute|by vm_compute|exact E|].
  exists k', w. destruct w as [c a pr u g]. cbn [paid_cacao paid_asset protection paid_units gas_asset] in *.
  rewrite !andb_true_iff, !Z.eqb_eq in Hr. destruct Hr as [[[[-> ->] ->] ->] ->].
  split; [done|]. split; [exact H1|]. split; [done|]. exact H2.
Defined.
End withdraw_witnesses.
