(* ===== verification/Slashing.v ===== *)
(** [x/mayachain/manager_slasher_current.go] and the part of [helpers.go] that
    repairs the pools after a theft: slash points for nodes that sign twice, miss a
    block or do not observe a transaction, and the slash of bonded liquidity. *)
From S2P Require Import Prelude GoText Sdk Constants Floats Shares Chains Keys Addresses Assets Coins Txs.
From S2P Require Import NodeAccounts Votes TxOuts Vaults ObservedTxs Pools Mimirs StreamingSwaps SwapMsgs.
From S2P Require Import LiquidityProviders Records MayaNames Stores Keeper Nodes Bonds VaultStore Halts Gas.
From S2P Require Import TradeAccounts Swapper Swaps Affiliates Decimals Memos Collectors SwapChecks.
From S2P Require Import Liquidity AddLiquidity Withdraw.

(** The address of a consensus key, as its text: Bech32 and a hash of the key. *)
Class ConsensusKeys := { cons_address : string -> outcome string }.

Definition mimirStopFundYggdrasil : string := "StopFundYggdrasil".

(** A node and the address of its consensus key. *)
Record nodeAddressValidatorAddressPair := mkValidatorPair {
  pair_nodeAddress : AccAddress;
  pair_validatorAddress : string;
}.

(** What the consensus engine says at the start of a block: the evidence of
    infractions (whether it is a duplicate vote, the validator, the height), and
    who signed the last block. *)
Record RequestBeginBlock := mkRequestBeginBlock {
  ByzantineValidators : list (bool * string * Z);
  LastCommitVotes : list (string * bool);
}.

Record PoolAmt := mkPoolAmt { PoolAmt_Asset : Asset; PoolAmt_Amount : Z }.

Section slash_points.
Context `{V : Semver} `{B : CosmosBank} `{A : SdkAddress} `{R : MapRange} `{CK : ConsensusKeys}.
Implicit Types k : KVStore.

Definition IncSlashPoints k (point : Z) (addresses : list AccAddress) : KVStore :=
  fold_left (fun k addr => IncNodeAccountSlashPoints k addr point) addresses k.

Definition DecSlashPoints k (point : Z) (addresses : list AccAddress) : KVStore :=
  fold_left (fun k addr => DecNodeAccountSlashPoints k addr point) addresses k.

(** The first node with the address gets the points. *)
Definition slash_validator k (addr : string) (points : Z) (pairs : list nodeAddressValidatorAddressPair)
  : outcome KVStore :=
  match List.find (fun p0 => String.eqb addr (pair_validatorAddress p0)) pairs with
  | Some vp =>
      let na := GetNodeAccount k (pair_nodeAddress vp) in
      Ok (k_SetNodeAccount (IncNodeAccountSlashPoints k (NodeAddress na) points) na)
  | None => Err "could not find active node account with validator address: %s"
  end.

Definition HandleDoubleSign k (addr : string) (infractionHeight : Z)
    (pairs : list nodeAddressValidatorAddressPair) : outcome KVStore :=
  if kv_constants k (ConstantName_String "DoubleSignMaxAge") <? i64 (kv_height k - infractionHeight) then Ok k
  else slash_validator k addr (GetConfigInt64 k (ConstantName_String "DoubleBlockSignSlashPoints")) pairs.

Definition HandleMissingSign k (addr : string) (pairs : list nodeAddressValidatorAddressPair)
  : outcome KVStore :=
  slash_validator k addr (GetConfigInt64 k (ConstantName_String "MissBlockSignSlashPoints")) pairs.

(** Nodes whose key cannot be read are skipped. *)
Fixpoint validator_pairs (nas : list NodeAccount) : list nodeAddressValidatorAddressPair :=
  match nas with
  | [] => []
  | na :: nas' =>
      match cons_address (ValidatorConsPubKey na) with
      | Ok addr => mkValidatorPair (NodeAddress na) addr :: validator_pairs nas'
      | _ => validator_pairs nas'
      end
  end.

(** An error is logged and the block goes on. *)
Definition logged k (r : outcome KVStore) : outcome KVStore :=
  match r with Err _ => Ok k | r => r end.

Definition Slasher_BeginBlock k (req : RequestBeginBlock) : outcome KVStore :=
  let doubleSignEvidence := List.filter (fun e => fst (fst e)) (ByzantineValidators req) in
  let missingSignAddresses := map fst (List.filter (fun v => negb (snd v)) (LastCommitVotes req)) in
  if (length doubleSignEvidence + length missingSignAddresses =? 0)%nat then Ok k
  else
    let pairs := validator_pairs (ListActiveValidators k) in
    k ← foldM (fun k e => logged k (HandleDoubleSign k (snd (fst e)) (snd e) pairs)) k doubleSignEvidence;
    foldM (fun k addr => logged k (HandleMissingSign k addr pairs)) k missingSignAddresses.

(** ** Transactions that are not observed *)

Context `{SS : SliceSort}.

(** The nodes that were active by then and are not among the signers. *)
Definition checkSignerAndSlash k (nodes : list NodeAccount) (blockHeight : Z) (signers : list AccAddress)
  : KVStore :=
  fold_left (fun k na =>
    if blockHeight <? ActiveBlockHeight na then k
    else if existsb (fun addr => acc_equals (NodeAddress na) addr) signers then k
    else IncNodeAccountSlashPoints k (NodeAddress na)
           (GetConfigInt64 k (ConstantName_String "LackOfObservationPenalty"))) nodes k.

Definition slashNotObserving k (txHash : TxID) : KVStore :=
  let voter := GetObservedTxInVoter k txHash in
  if (length (Voter_Txs voter) =? 0)%nat then k
  else
    let tx := Voter_Tx voter in
    if negb (ObservedTx_IsEmpty tx) && negb (length (Obs_Signers tx) =? 0)%nat then
      let height := if IsFinal tx then FinalisedHeight voter else Voter_Height voter in
      checkSignerAndSlash k (ListActiveValidators k) height (concat (map ObservedTx_GetSigners (Voter_Txs voter)))
    else k.

Definition LackObserving k : KVStore :=
  let signingTransPeriod := GetConfigInt64 k (ConstantName_String "SigningTransactionPeriod") in
  if kv_height k <? signingTransPeriod then k
  else
    fold_left (fun k item =>
      if TxID_IsEmpty (InHash item) || TxID_Equals (InHash item) BlankTxID then k
      else slashNotObserving k (InHash item))
      (TxArray (GetTxOut k (i64 (kv_height k - signingTransPeriod)))) k.
End slash_points.

(** ** Slashing bonded liquidity *)

Section slash_liquidity.
Context `{V : Semver} `{B : CosmosBank} `{A : SdkAddress} `{R : MapRange} `{L : AddressLib}.
Context `{U : SdkUint} `{D : SdkDec} `{T : UintText} `{C : PubKeyCodec}.
Implicit Types k : KVStore.

(** The bond of a node at genesis; texts that are no address are skipped. *)
Definition genesis_bond k (addr : Address) : bool :=
  existsb (fun genesis => match NewAddress genesis (kv_version k) with
                          | Ok add => Address_Equals addr add
                          | _ => false
                          end) GenesisNodes.

Definition with_units (lp : LiquidityProvider) (units : Z) : LiquidityProvider :=
  with_position lp (Lp_CacaoAddress lp) (Lp_AssetAddress lp) (Lp_LastAddHeight lp) units
    (PendingCacao lp) (PendingAsset lp) (PendingTxID lp) (CacaoDepositValue lp) (AssetDepositValue lp).

(** The units of a position that are slashed go to the position of the reserve in
    the same pool. The amount that is reported is the whole slash each time. *)
Definition slash_position (node : AccAddress) (polAddress : Address) (slash naBond : Z)
    (acc : KVStore * (Z * list PoolAmt)) (lp : LiquidityProvider)
  : outcome (KVStore * (Z * list PoolAmt)) :=
  let '(k, (totalSlashed, amounts)) := acc in
  let pool := GetPool k (Lp_Asset lp) in
  if IsAvailable pool then
    let polLP := GetLiquidityProvider k (Pool_Asset pool) polAddress in
    let bondedUnits := GetUnitsBondedToNode lp node in
    if bondedUnits =? 0 then Ok (k, (totalSlashed, amounts))
    else
      let slashLPUnits := GetSafeShare slash naBond bondedUnits in
      let slashedAmount := GetSafeShare slash naBond naBond in
      totalSlashed ← uint_add totalSlashed slashedAmount;
      lp ← Lp_Unbond lp node slashLPUnits;
      units ← uint_sub (Lp_Units lp) slashLPUnits;
      polUnits ← uint_add (Lp_Units polLP) slashLPUnits;
      Ok (SetLiquidityProviders k [with_units lp units; with_units polLP polUnits],
          (totalSlashed, amounts ++ [mkPoolAmt (Pool_Asset pool) (i64 slashedAmount)]))
  else Ok (k, (totalSlashed, amounts)).

Definition slash_provider (node : AccAddress) (polAddress : Address) (slash naBond : Z)
    (acc : KVStore * (Z * list PoolAmt)) (b : BondProvider) : outcome (KVStore * (Z * list PoolAmt)) :=
  foldM (slash_position node polAddress slash naBond) acc
    (bondable (fst acc) (acc_string (BondProvider_BondAddress b))).

Definition SlashNodeAccountLP k (na : NodeAccount) (slash : Z) : outcome (KVStore * (Z * list PoolAmt)) :=
  if slash =? 0 then Ok (k, (0, []))
  else if genesis_bond k (NodeAccount_BondAddress na) then Ok (k, (0, []))
  else
    naBond ← CalcNodeLiquidityBond k na;
    polAddress ← GetModuleAddress k ReserveName;
    if naBond =? 0 then Err "validator's bond is zero, can't be slashed"
    else
      let slash := if naBond <? slash then naBond else slash in
      foldM (slash_provider (NodeAddress na) polAddress slash naBond) (k, (0, []))
        (Providers (GetBondProviders k (NodeAddress na))).
End slash_liquidity.

(** ** Slashing a vault *)

Section slash_vault.
Context `{V : Semver} `{B : CosmosBank} `{A : SdkAddress} `{R : MapRange} `{L : AddressLib}.
Context `{U : SdkUint} `{D : SdkDec} `{T : UintText} `{C : PubKeyCodec} `{K : PubKeyAddress} {TO : TxOutStore}.
Implicit Types k : KVStore.

(** The bonds of the members whose account can be read. *)
Definition membership_bond k (membership : PubKeys) : outcome Z :=
  foldM (fun totalBond member =>
    match GetNodeAccountByPubKey k member with
    | Ok na => naBond ← CalcNodeLiquidityBond k na; uint_add totalBond naBond
    | Err _ => Ok totalBond
    | Panic => Panic
    end) 0 membership.

(** What is missing of a coin: no more than the vault or the pool has. *)
Definition stolen_amount (vault : Vault) (pool : Pool) (coin : Coin) : Z :=
  let stolen := Coin_Amount coin in
  let vaultAmount := Coin_Amount (Vault_GetCoin vault (Coin_Asset coin)) in
  let stolen := if vaultAmount <? stolen then vaultAmount else stolen in
  if BalanceAsset pool <? stolen then BalanceAsset pool else stolen.

Definition pause_on_slash k (coin : Coin) (totalBaseToSlash : Z) : KVStore :=
  let threshold := GetConfigInt64 k (ConstantName_String "PauseOnSlashThreshold") in
  if (0 <? threshold) && (u64 threshold <=? totalBaseToSlash) then
    let k := SetMimir k mimirStopFundYggdrasil (kv_height k) in
    SetMimir k ("Halt" +:+ Chain_String (Asset_Chain (Coin_Asset coin)) +:+ "Chain") (kv_height k)
  else k.

(** The store, what is to be slashed and what is stolen, in CACAO. *)
Definition slash_coin (vault : Vault) (acc : KVStore * (Z * Z)) (coin : Coin)
  : outcome (KVStore * (Z * Z)) :=
  let '(k, (totalBaseToSlash, totalBaseStolen)) := acc in
  let pool := GetPool k (Coin_Asset coin) in
  if Coin_IsEmpty coin || Pool_IsEmpty pool then Ok acc
  else
    let stolenBaseValue := AssetValueInRune pool (stolen_amount vault pool coin) in
    totalBaseStolen ← uint_add totalBaseStolen stolenBaseValue;
    if stolenBaseValue =? 0 then Ok (k, (totalBaseToSlash, totalBaseStolen))
    else
      let penaltyPts := GetConfigInt64 k (ConstantName_String "SlashPenalty") in
      totalBaseToSlash ← uint_add totalBaseToSlash (GetUncappedShare (u64 penaltyPts) 10000 stolenBaseValue);
      Ok (pause_on_slash k coin totalBaseToSlash, (totalBaseToSlash, totalBaseStolen)).

(** A member pays in proportion to its bond. The mark of a ban is set on a copy of
    the account that is not stored. *)
Definition slash_member (totalBond totalBaseToSlash : Z) (acc : KVStore * Z) (member : PubKey)
  : outcome (KVStore * Z) :=
  let '(k, totalBaseSlashed) := acc in
  match GetNodeAccountByPubKey k member with
  | Panic => Panic
  | Err _ => Ok acc
  | Ok na =>
      naBond ← CalcNodeLiquidityBond k na;
      if naBond =? 0 then Ok acc
      else
        let slashAmountRune := GetSafeShare naBond totalBond totalBaseToSlash in
        let slashAmountRune := if naBond <? slashAmountRune then naBond else slashAmountRune in
        match SlashNodeAccountLP k na slashAmountRune with
        | Panic => Panic
        | Err _ => Ok acc
        | Ok (k, (slashedAmount, _)) =>
            totalBaseSlashed ← uint_add totalBaseSlashed slashedAmount; Ok (k, totalBaseSlashed)
        end
  end.

(** *** Repairing the pools *)

Record fund := mkFund { fund_asset : Asset; stolenAsset : Z; subsidiseRune : Z }.

Fixpoint stolen_funds k (coins : Coins) : outcome (list fund) :=
  match coins with
  | [] => Ok []
  | coin :: coins' =>
      rest ← stolen_funds k coins';
      let runeValue := AssetValueInRune (GetPool k (Coin_Asset coin)) (Coin_Amount coin) in
      Ok (if Coin_IsEmpty coin || IsBase (Coin_Asset coin) || (runeValue =? 0) then rest
          else mkFund (Coin_Asset coin) (Coin_Amount coin) runeValue :: rest)
  end.

(** The pool gets the value in CACAO from the reserve for the asset it lost. *)
Definition subsidize_fund k (f : fund) : outcome (KVStore * option string) :=
  let pool := GetPool k (fund_asset f) in
  if Pool_IsEmpty pool then Ok (k, None)
  else
    cacao ← uint_add (BalanceCacao pool) (subsidiseRune f);
    asset ← SafeSub (BalanceAsset pool) (stolenAsset f);
    k ← SetPool k (set_BalanceAsset (set_BalanceCacao pool cacao) asset);
    if subsidiseRune f =? 0 then Ok (k, None)
    else
      match SendFromModuleToModule k ReserveName AsgardName [NewCoin BaseAsset (subsidiseRune f)] with
      | Ok k => Ok (k, None)
      | Err e => Ok (k, Some e)
      | Panic => Panic
      end.

(** An error, of a transfer that fails, keeps the pools repaired so far and the
    pool the transfer was for. *)
Fixpoint subsidize_funds k (funds : list fund) : outcome (KVStore * option string) :=
  match funds with
  | [] => Ok (k, None)
  | f :: funds' =>
      '(k, err) ← subsidize_fund k f;
      match (err : option string) with
      | Some e => Ok (k, Some e)
      | None => subsidize_funds k funds'
      end
  end.

(** The part of the reserve's position in [asset] that is withdrawn. *)
Definition remove_pol k (funds : list fund) (polAddress asgardAddress : Address) (signer : AccAddress)
    (totalBaseStolen polLiquidity : Z) (asset : Asset) : outcome KVStore :=
  let val := GetMimir k ("POL-" +:+ MimirString asset) in
  if (val =? -1) || (val =? 0) then Ok k
  else
    part ← foldM (fun part f =>
      if Asset_Equals (fund_asset f) asset then uint_quo64 (subsidiseRune f) 2 else Ok part)
      totalBaseStolen funds;
    let basisPts := GetSafeShare part polLiquidity 10000 in
    let tx := NewTx BlankTxID polAddress asgardAddress [NewCoin BaseAsset 1] [] "MAYA-POL-REMOVE" in
    logged k (withdraw_Run k (NewMsgWithdrawLiquidity tx polAddress basisPts asset BaseAsset signer)).

(** Whether the reserve can pay several times what was stolen. *)
Definition reserve_rich k (totalBaseStolen : Z) : outcome bool :=
  reserveBalance ← GetRuneBalanceOfModule k ReserveName;
  enough ← uint_mul64 totalBaseStolen
             (u64 (GetConfigInt64 k (ConstantName_String "SubsidizeReserveMultiplier")));
  Ok (enough <? reserveBalance).

(** An error keeps what was done before it: the callers log it. *)
Definition subsidizePoolWithSlashBondV92 k (coins : Coins) (totalBaseStolen slashedAmount : Z)
  : outcome (KVStore * option string) :=
  if (totalBaseStolen =? 0) || (slashedAmount =? 0) then Ok (k, None)
  else
    match GetModuleAddress k ReserveName with
    | Panic => Panic
    | Err e => Ok (k, Some e)
    | Ok polAddress =>
        polLiquidity ← CalcTotalBondableLiquidity k polAddress;
        let totalBaseStolen := if polLiquidity <? totalBaseStolen then polLiquidity else totalBaseStolen in
        funds ← stolen_funds k coins;
        rich ← reserve_rich k totalBaseStolen;
        '(k, err) ← (if (rich : bool) then subsidize_funds k funds else Ok (k, None));
        match (err : option string), GetModuleAddress k AsgardName with
        | Some e, _ | None, Err e => Ok (k, Some e)
        | None, Panic => Panic
        | None, Ok asgardAddress =>
            match ListActiveValidators k with
            | [] => Ok (k, Some "dev err: no active node accounts"%string)
            | na :: _ =>
                k ← foldM (fun k asset =>
                       remove_pol k funds polAddress asgardAddress (NodeAddress na) totalBaseStolen
                         polLiquidity asset) k (GetLiquidityPools (kv_version k));
                Ok (k, None)
            end
        end
    end.

Definition subsidizePoolsWithSlashBond k (coins : Coins) (totalBaseStolen slashedAmount : Z)
  : outcome (KVStore * option string) :=
  if GTE (kv_version k) (semver_release 1 92 0)
  then subsidizePoolWithSlashBondV92 k coins totalBaseStolen slashedAmount
  else Ok (k, Some "bad version"%string).

Definition SlashVaultToLP k (vaultPK : PubKey) (coins : Coins) (subsidize : bool)
  : outcome (KVStore * option string) :=
  if Coins_IsEmpty coins then Ok (k, None)
  else
    match GetVault k vaultPK with
    | Panic => Panic
    | Err e => Ok (k, Some e)
    | Ok vault =>
        let membership := GetMembership vault in
        totalBond ← membership_bond k membership;
        '(k, (totalBaseToSlash, totalBaseStolen)) ← foldM (slash_coin vault) (k, (0, 0)) coins;
        '(k, totalBaseSlashed) ← foldM (slash_member totalBond totalBaseToSlash) (k, 0) membership;
        if subsidize then subsidizePoolsWithSlashBond k coins totalBaseStolen totalBaseSlashed
        else Ok (k, None)
    end.

(** What a yggdrasil vault holds, in CACAO. *)
Definition getTotalYggValueInRune k (ygg : Vault) : outcome Z :=
  foldM (fun yggRune coin =>
    if IsBase (Coin_Asset coin) then uint_add yggRune (Coin_Amount coin)
    else uint_add yggRune (AssetValueInRune (GetPool k (Coin_Asset coin)) (Coin_Amount coin))) 0
    (Vault_Coins ygg).
End slash_vault.
