(* ===== verification/Bonding.v ===== *)
(** [x/mayachain/handler_bond.go], [handler_unbond.go] and what they call in
    [helpers.go]: liquidity units are bonded to a node and released again, and the
    rewards of the providers are paid. *)
From stdpp Require Import pretty.
From S2P Require Import Prelude GoText Sdk Constants Floats Shares Chains Keys Addresses Assets Coins Txs.
From S2P Require Import NodeAccounts Votes TxOuts Vaults ObservedTxs Pools Mimirs StreamingSwaps SwapMsgs.
From S2P Require Import LiquidityProviders Records MayaNames Stores Keeper Nodes Bonds VaultStore Halts Gas.
From S2P Require Import TradeAccounts Swapper Swaps Affiliates Decimals Memos Collectors SwapChecks.
From S2P Require Import Liquidity AddLiquidity Withdraw Slashing.

Record MsgBond := mkMsgBond {
  Bond_TxIn : Tx;
  Bond_NodeAddress : AccAddress;
  Bond_Amount : Z;
  Bond_BondAddress : Address;
  Bond_ProviderAddress : AccAddress;
  Bond_Signer : AccAddress;
  OperatorFee : Z;
  Bond_Asset : Asset;
  Bond_Units : Z;
}.

Record MsgUnBond := mkMsgUnBond {
  UnBond_TxIn : Tx;
  UnBond_NodeAddress : AccAddress;
  UnBond_BondAddress : Address;
  UnBond_ProviderAddress : AccAddress;
  UnBond_Signer : AccAddress;
  UnBond_Asset : Asset;
  UnBond_Units : Z;
}.

Definition NewMsgBond (txin : Tx) (nodeAddr : AccAddress) (amount : Z) (bondAddress : Address)
    (provider signer : AccAddress) (operatorFee : Z) (asset : Asset) (units : Z) : MsgBond :=
  mkMsgBond txin nodeAddr amount bondAddress provider signer operatorFee asset units.

Definition NewMsgUnBond (txin : Tx) (nodeAddr : AccAddress) (bondAddress : Address)
    (provider signer : AccAddress) (asset : Asset) (units : Z) : MsgUnBond :=
  mkMsgUnBond txin nodeAddr bondAddress provider signer asset units.

(** Whether the SDK knows an account. *)
Class AccountKeeper `{CosmosBank} := { has_account : BankState -> AccAddress -> bool }.

Section bonding.
Context `{V : Semver} `{B : CosmosBank} `{A : SdkAddress} `{R : MapRange} `{L : AddressLib}.
Context `{U : SdkUint} `{D : SdkDec} `{T : UintText} `{C : PubKeyCodec} `{K : PubKeyAddress} {TO : TxOutStore}.
Context {AK : AccountKeeper}.
Implicit Types k : KVStore.

(** ** The messages *)

Definition MsgBond_ValidateBasic (m : MsgBond) : outcome unit :=
  if acc_empty (Bond_NodeAddress m) then Err "node address cannot be empty"
  else if Bond_Amount m =? 0 then Err "amount cannot be zero"
  else if Address_IsEmpty (Bond_BondAddress m) then Err "bond address cannot be empty"
  else
    _ ← Tx_Valid (Bond_TxIn m);
    match Tx_Coins (Bond_TxIn m) with
    | _ :: _ :: _ => Err "cannot bond more than one coin"
    | [] => Err "must send bond msg with at least one rune"
    | [coin] =>
        if negb (IsNativeBase (Coin_Asset coin)) then Err "cannot bond non-native rune asset"
        else if acc_empty (Bond_Signer m) then Err "empty signer address"
        else if (OperatorFee m <? -1) || (10000 <? OperatorFee m) then Err "operator fee must be 0-10000"
        else if Asset_IsEmpty (Bond_Asset m) && negb (Bond_Units m =? 0)
        then Err "cannot set units without asset"
        else Ok tt
    end.

Definition MsgUnBond_ValidateBasic (m : MsgUnBond) : outcome unit :=
  if acc_empty (UnBond_NodeAddress m) then Err "node address cannot be empty"
  else if Address_IsEmpty (UnBond_BondAddress m) then Err "bond address cannot be empty"
  else if TxID_IsEmpty (Tx_ID (UnBond_TxIn m)) then Err "tx id cannot be empty"
  else if Address_IsEmpty (FromAddress (UnBond_TxIn m)) then Err "tx from address cannot be empty"
  else if acc_empty (UnBond_Signer m) then Err "empty signer address"
  else if negb (acc_empty (UnBond_ProviderAddress m)) && negb (Asset_IsEmpty (UnBond_Asset m))
  then Err "bond provider address and asset cannot be set at the same time"
  else if Asset_IsEmpty (UnBond_Asset m) && negb (UnBond_Units m =? 0)
  then Err "asset cannot be empty when units is not zero"
  else Ok tt.

(** ** Helpers *)

Definition calcLiquidityInCacao k (asset : Asset) (units : Z) : outcome Z :=
  let pool := GetPool k asset in
  if LPUnits pool <? units then Err "pool doesn't have enough LP units"
  else
    uint_add (GetSafeShare units (LPUnits pool) (BalanceCacao pool))
      (AssetValueInRune pool (GetSafeShare units (LPUnits pool) (BalanceAsset pool))).

(** The reward of a provider is paid and taken from its record. The providers of
    the caller share their array with those stored here, so the caller goes on with
    them; an error after the payment keeps it. *)
Definition payBondProviderReward k (provider : BondProvider) (bp : BondProviders)
  : outcome (KVStore * BondProviders * option string) :=
  match BondProvider_Reward provider with
  | None => Panic
  | Some bpReward =>
      match SendFromModuleToAccount k BondName (BondProvider_BondAddress provider)
              [NewCoin BaseNative bpReward] with
      | Panic => Panic
      | Err e => Ok (k, bp, Some e)
      | Ok k =>
          let bp := RemoveRewards bp (BondProvider_BondAddress provider) in
          let k := SetBondProviders k bp in
          match NewAddress (acc_string (BondProvider_BondAddress provider)) (kv_version k),
                GetModuleAddress k BondName with
          | Panic, _ => Panic
          | Err _, _ => Ok (k, bp, Some "fail to parse bond address: %w"%string)
          | Ok _, Panic => Panic
          | Ok _, Err _ => Ok (k, bp, Some "fail to get bond module address: %w"%string)
          | Ok _, Ok _ => Ok (k, bp, None)
          end
      end
  end.

(** ** Bonding *)

(** The units that are bonded: all that remain when none are named. *)
Definition units_to_bond (lp : LiquidityProvider) (units : Z) : outcome Z :=
  if units =? 0 then GetRemainingUnits lp else Ok units.

Definition check_bond_asset k (msg : MsgBond) (nodeAccount : NodeAccount) : outcome unit :=
  if negb (acc_empty (Bond_ProviderAddress msg)) || (OperatorFee msg <? -1)
  then Err "cannot set provider address or operator fee when bonding with an asset"
  else
    let lp := GetLiquidityProvider k (Bond_Asset msg) (Bond_BondAddress msg) in
    remLPUnits ← GetRemainingUnits lp;
    if remLPUnits =? 0 then Err "no free liquidity units in pool to bond: %s, %s"
    else if remLPUnits <? Bond_Units msg
    then Err "insufficient free liquidity units in pool to bond: %s, %s only has %s free units"
    else
      let maxLPBondedNodes := GetMimir k "MaximumLPBondedNodes" in
      if (0 <? maxLPBondedNodes) && (maxLPBondedNodes <=? Z.of_nat (length (BondedNodes lp)))
         && (GetUnitsBondedToNode lp (Bond_NodeAddress msg) =? 0)
      then Err "lp has reached maximum bonded nodes"
      else
        let units := if Bond_Units msg =? 0 then remLPUnits else Bond_Units msg in
        nodeBond ← CalcNodeLiquidityBond k nodeAccount;
        lpBond ← calcLiquidityInCacao k (Bond_Asset msg) units;
        bond ← uint_add nodeBond lpBond;
        let maxBond := GetMimir k "MaximumBondInRune" in
        if (0 <? maxBond) && (u64 maxBond <? bond)
        then Err "too much bond, max validator bond (%s), bond(%s)"
        else if negb (ContainsAsset (Bond_Asset msg) (GetLiquidityPools (kv_version k)))
        then Err "asset is not in valid liquidity pools list"
        else Ok tt.

Definition bond_validateV107 k (msg : MsgBond) : outcome unit :=
  _ ← MsgBond_ValidateBasic msg;
  let nodeAccount := GetNodeAccount k (Bond_NodeAddress msg) in
  let operator := NodeAccount_BondAddress nodeAccount in
  if NodeAccount_Status nodeAccount =? NodeStatus_Ready then Err "cannot add bond while node is ready status"
  else if 0 <? GetConfigInt64 k (ConstantName_String "PauseBond") then Err "bonding has been paused"
  else if negb (IsChain (Bond_BondAddress msg) BASEChain (kv_version k))
  then Err "bonding address is NOT a BASEChain address: %s"
  else
    let bp := GetBondProviders k (Bond_NodeAddress msg) in
    let stranger := negb (Address_IsEmpty operator)
                    && negb (Address_Equals operator (Bond_BondAddress msg)) in
    if (-1 <? OperatorFee msg) && stranger then Err "only node operator can set fee"
    else
      _ ← (if stranger then
             from ← AccAddress_of (Bond_BondAddress msg);
             if BondProviders_Has bp from then Ok tt
             else Err "address is not a valid bond provider for this node"
           else Ok tt);
      if Asset_IsEmpty (Bond_Asset msg) then Ok tt else check_bond_asset k msg nodeAccount.

(** The account of a node that bonds for the first time. *)
Definition bonding_node k (msg : MsgBond) : NodeAccount :=
  let nodeAccount := GetNodeAccount k (Bond_NodeAddress msg) in
  if NodeAccount_Status nodeAccount =? NodeStatus_Unknown then
    NewNodeAccount (Bond_NodeAddress msg) NodeStatus_Whitelisted EmptyPubKeySet EmptyString EmptyString 0
      (Bond_BondAddress msg) (kv_height k)
  else nodeAccount.

(** A node without an account of the SDK gets the CACAO of the message, so that it
    can send transactions; if that fails it is not whitelisted. *)
Definition create_account k (msg : MsgBond) (nodeAccount : NodeAccount) : outcome (KVStore * NodeAccount) :=
  if negb (has_account (kv_bank k) (Bond_NodeAddress msg)) && (One <=? Bond_Amount msg) then
    match SendFromModuleToAccount k BondName (Bond_NodeAddress msg) [NewCoin BaseAsset (Bond_Amount msg)] with
    | Ok k => Ok (k, nodeAccount)
    | Panic => Panic
    | Err _ => Ok (k, set_status nodeAccount NodeStatus_Unknown (NodeAccount_StatusSince nodeAccount)
                        (ActiveBlockHeight nodeAccount))
    end
  else Ok (k, nodeAccount).

(** The operator is the first provider, and names the others. *)
Definition add_providers k (msg : MsgBond) (nodeAccount : NodeAccount) (bp : BondProviders)
  : outcome BondProviders :=
  bp ← (if (length (Providers bp) =? 0)%nat then
          nodeOpBondAddr ← AccAddress_of (NodeAccount_BondAddress nodeAccount);
          Ok (mkBondProviders (BondProviders_NodeAddress bp)
                (u64 (GetConfigInt64 k (ConstantName_String "NodeOperatorFee")))
                [NewBondProvider nodeOpBondAddr])
        else Ok bp);
  bp ← (if Address_Equals (Bond_BondAddress msg) (NodeAccount_BondAddress nodeAccount)
           && negb (acc_empty (Bond_ProviderAddress msg)) then
          if GetConfigInt64 k (ConstantName_String "MaxBondProviders") <=? Z.of_nat (length (Providers bp))
          then Err "additional bond providers are not allowed, maximum reached"
          else if BondProviders_Has bp (Bond_ProviderAddress msg) then Ok bp
          else Ok (set_Providers bp (Providers bp ++ [NewBondProvider (Bond_ProviderAddress msg)]))
        else Ok bp);
  Ok (if (-1 <? OperatorFee msg) && (OperatorFee msg <=? 10000)
      then mkBondProviders (BondProviders_NodeAddress bp) (u64 (OperatorFee msg)) (Providers bp) else bp).

Definition bond_position k (msg : MsgBond) (bp : BondProviders) : outcome (KVStore * BondProviders) :=
  if Asset_IsEmpty (Bond_Asset msg) then Ok (k, bp)
  else
    let lp := GetLiquidityProvider k (Bond_Asset msg) (Bond_BondAddress msg) in
    units ← units_to_bond lp (Bond_Units msg);
    lp ← Lp_Bond lp (Bond_NodeAddress msg) units;
    let k := SetLiquidityProvider k lp in
    from ← AccAddress_of (Bond_BondAddress msg);
    Ok (k, BondLiquidity bp from).

(** A reward that cannot be paid does not stop the bond. *)
Definition bond_reward k (msg : MsgBond) (bp : BondProviders) : outcome (KVStore * BondProviders) :=
  if BondProviders_HasRewards bp (Bond_Signer msg) then
    '(k, bp, _) ← payBondProviderReward k (BondProviders_Get bp (Bond_Signer msg)) bp; Ok (k, bp)
  else Ok (k, bp).

Definition bond_handleV107 k (msg : MsgBond) : outcome KVStore :=
  let nodeAccount := bonding_node k msg in
  '(k, nodeAccount) ← create_account k msg nodeAccount;
  bp ← add_providers k msg nodeAccount (GetBondProviders k (NodeAddress nodeAccount));
  '(k, bp) ← bond_position k msg bp;
  '(k, bp) ← bond_reward k msg bp;
  Ok (SetBondProviders (k_SetNodeAccount k nodeAccount) bp).

Definition bond_Run k (msg : MsgBond) : outcome KVStore :=
  _ ← bond_validateV107 k msg; bond_handleV107 k msg.
End bonding.

(** ** Unbonding *)

Section unbonding.
Context `{V : Semver} `{B : CosmosBank} `{A : SdkAddress} `{R : MapRange} `{L : AddressLib}.
Context `{U : SdkUint} `{D : SdkDec} `{T : UintText} `{C : PubKeyCodec} `{K : PubKeyAddress} {TO : TxOutStore}.
Implicit Types k : KVStore.

Definition node_key (na : NodeAccount) : PubKey := Secp256k1 (NodeAccount_PubKeySet na).

(** The yggdrasil vault of a node, or an empty one. *)
Definition ygg_vault k (na : NodeAccount) : outcome Vault :=
  if VaultExists k (node_key na) then GetVault k (node_key na) else Ok zero_vault.

Definition unbond_validateV105 k (msg : MsgUnBond) : outcome unit :=
  _ ← MsgUnBond_ValidateBasic msg;
  let na := GetNodeAccount k (UnBond_NodeAddress msg) in
  if (NodeAccount_Status na =? NodeStatus_Active) || (NodeAccount_Status na =? NodeStatus_Ready)
  then Err "cannot unbond while node is in active or ready status"
  else if 0 <? GetConfigInt64 k (ConstantName_String "PauseUnbond") then Err "unbonding has been paused"
  else
    _ ← (if VaultExists k (node_key na) then
           ygg ← GetVault k (node_key na);
           if IsYggdrasil ygg then Ok tt else Err "this is not a Yggdrasil vault"
         else Ok tt);
    if IsJailed (GetNodeAccountJail k (UnBond_NodeAddress msg)) (kv_height k)
    then Err "failed to unbond due to jail status: (release height %d) %s"
    else
      from ← AccAddress_of (UnBond_BondAddress msg);
      if negb (BondProviders_Has (GetBondProviders k (UnBond_NodeAddress msg)) from)
         && negb (Address_Equals (NodeAccount_BondAddress na) (UnBond_BondAddress msg))
      then Err "%s are not authorized to manage %s"
      else if Asset_IsEmpty (UnBond_Asset msg) then Ok tt
      else
        let lp := GetLiquidityProvider k (UnBond_Asset msg) (UnBond_BondAddress msg) in
        let bonded := GetUnitsBondedToNode lp (UnBond_NodeAddress msg) in
        if bonded =? 0 then Err "address has not bonded to node %s with asset %s"
        else if bonded <? UnBond_Units msg
        then Err "request unbond units %s is more than bonded units(%s)"
        else if negb (ContainsAsset (UnBond_Asset msg) (GetLiquidityPools (kv_version k)))
        then Err "asset is not in valid liquidity pools list"
        else Ok tt.

(** Whether what is left in the vault is no more than gas, and what it is worth in
    CACAO; the value does not count when it is more. *)
Fixpoint ygg_remains k (coins : Coins) (canUnbond : bool) (total : Z) : outcome (bool * Z) :=
  match coins with
  | [] => Ok (canUnbond, total)
  | c :: coins' =>
      if Coin_Amount c =? 0 then ygg_remains k coins' canUnbond total
      else if negb (IsGasAsset (Coin_Asset c)) then Ok (false, total)
      else
        match GetMaxGas k (GetChain (Coin_Asset c)) with
        | Panic => Panic
        | Err _ => Ok (false, total)
        | Ok maxGas =>
            limit ← uint_mul64 (Coin_Amount maxGas) 10;
            let canUnbond := if limit <? Coin_Amount c then false else canUnbond in
            total ← uint_add total (AssetValueInRune (GetPool k (Coin_Asset c)) (Coin_Amount c));
            ygg_remains k coins' canUnbond total
        end
  end.

(** The node is asked to return what its vault holds, to the most secure vault. *)
Definition RequestYggReturn k (node : NodeAccount) : outcome KVStore :=
  if negb (VaultExists k (node_key node)) then Ok k
  else
    ygg ← GetVault k (node_key node);
    if IsAsgard ygg || negb (HasFunds ygg) then Ok k
    else
      active ← GetAsgardVaultsByStatus k VaultStatus_ActiveVault;
      retiring ← GetAsgardVaultsByStatus k VaultStatus_RetiringVault;
      let chains := Chains_Distinct (concat (map GetChains (active ++ retiring))) in
      vault ← GetMostSecure k active (kv_constants k (ConstantName_String "SigningTransactionPeriod"));
      if Vault_IsEmpty vault then Err "unable to determine asgard vault"
      else
        foldM (fun k chain =>
          if Chain_Equals chain BASEChain || negb (HasFundsForChain ygg chain) then Ok k
          else
            toAddr ← pubkey_address (Vault_PubKey vault) chain;
            if Address_IsEmpty toAddr then Ok k
            else
              rate ← GetGasRate k chain;
              rate ← amount_uint64 rate;
              UnSafeAddTxOutItem k
                (mkTxOutItem chain toAddr (Vault_PubKey ygg) (NewCoin BaseAsset 0)
                   ("YGGDRASIL-:" +:+ print_int (kv_height k)) [] (i64 rate) BlankTxID EmptyString
                   EmptyString EmptyString EmptyString None EmptyPubKey) (kv_height k)) k chains.

(** One position is released from the node: [units] of it, or all of it when none
    are named or there are fewer. The value of the bonds before the last position
    is released is what the sum of the values is compared with. *)
Definition release_position (acc : AccAddress) (node : AccAddress) (units : Z)
    (st : KVStore * (Z * Z)) (lp : LiquidityProvider) : outcome (KVStore * (Z * Z)) :=
  let '(k, (withdrawn, _)) := st in
  let withdrawUnits := if (units =? 0) || (Lp_Units lp <? units)
                       then GetUnitsBondedToNode lp node else units in
  value ← calcLiquidityInCacao k (Lp_Asset lp) withdrawUnits;
  withdrawn ← uint_add withdrawn value;
  totalLPBonded ← CalcLPLiquidityBond k (acc_string acc) node;
  lp ← Lp_Unbond lp node withdrawUnits;
  Ok (SetLiquidityProvider k lp, (withdrawn, totalLPBonded)).

Definition release_positions k (na : NodeAccount) (acc : AccAddress) (assets : list Asset) (units : Z)
    (bp : BondProviders) : outcome (KVStore * BondProviders) :=
  let provider := BondProviders_Get bp acc in
  let lps := GetLiquidityProviderByAssets k assets (acc_string acc) in
  '(k, (withdrawn, totalLPBonded)) ←
    foldM (release_position acc (NodeAddress na) units) (k, (0, 0)) lps;
  let bp := if negb (withdrawn =? 0) && (totalLPBonded =? withdrawn)
            then Unbond bp (BondProvider_BondAddress provider) else bp in
  if BondProvider_HasRewards provider then
    '(k, bp, err) ← payBondProviderReward k provider bp;
    match (err : option string) with
    | Some _ => Err "fail to pay bond provider reward: %w"
    | None => Ok (k, bp)
    end
  else Ok (k, bp).

(** What the vault still held is accounted for: it is emptied and deleted. *)
Definition close_vault k (ygg : Vault) : outcome KVStore :=
  ygg ← SubFunds ygg (Vault_Coins ygg);
  k ← SetVault k ygg;
  DeleteVault k (Vault_PubKey ygg).

Definition slash_remains k (na : NodeAccount) (nodeBond yggRune : Z) : outcome (KVStore * Z) :=
  let penaltyPts := GetConfigInt64 k (ConstantName_String "SlashPenalty") in
  let slashRune := GetUncappedShare (u64 penaltyPts) 10000 yggRune in
  let slashRune := if nodeBond <? slashRune then nodeBond else slashRune in
  match SlashNodeAccountLP k na slashRune with
  | Ok (k, (slashedAmount, _)) => Ok (k, slashedAmount)
  | Err _ => Err "fail to slash node account"
  | Panic => Panic
  end.

(** The account of the node as the caller sees it afterwards is returned too. *)
Definition refundBondV109 k (acc : AccAddress) (asset : Asset) (units : Z) (nodeAcc : NodeAccount)
  : outcome (KVStore * NodeAccount) :=
  if (NodeAccount_Status nodeAcc =? NodeStatus_Active) || (NodeAccount_Status nodeAcc =? NodeStatus_Ready)
  then Ok (k, nodeAcc)
  else
    nodeBond ← CalcNodeLiquidityBond k nodeAcc;
    ygg ← ygg_vault k nodeAcc;
    if VaultExists k (node_key nodeAcc) && negb (IsYggdrasil ygg) then Err "this is not a Yggdrasil vault"
    else
      let bp := GetBondProviders k (NodeAddress nodeAcc) in
      yggRune ← getTotalYggValueInRune k ygg;
      '(k, slashedAmount) ← slash_remains k nodeAcc nodeBond yggRune;
      if Asset_IsEmpty asset && negb (units =? 0) then Err "units must be zero when asset is empty"
      else
        let assets := if Asset_IsEmpty asset then GetLiquidityPools (kv_version k) else [asset] in
        '(k, bp) ←
          (if negb (BondProvider_IsEmpty (BondProviders_Get bp acc)) && negb (nodeBond =? 0)
           then release_positions k nodeAcc acc assets units bp else Ok (k, bp));
        let nodeAcc := if RequestedToLeave nodeAcc
                       then UpdateStatus nodeAcc NodeStatus_Disabled (kv_height k) else nodeAcc in
        let k := SetBondProviders (k_SetNodeAccount k nodeAcc) bp in
        '(k, _) ← subsidizePoolsWithSlashBond k (Vault_Coins ygg) yggRune slashedAmount;
        k ← close_vault k ygg;
        Ok (k, nodeAcc).

(** From 1.109.0 on. *)
Definition refundBond k (acc : AccAddress) (asset : Asset) (units : Z) (nodeAcc : NodeAccount)
  : outcome (KVStore * NodeAccount) := refundBondV109 k acc asset units nodeAcc.

(** What is left of gas in the vault is slashed; [None] when more is left, and the
    return of it is requested. *)
Definition settle_vault k (na : NodeAccount) : outcome (KVStore * bool) :=
  ygg ← ygg_vault k na;
  if HasFunds ygg then
    '(canUnbond, total) ← ygg_remains k (Vault_Coins ygg) true 0;
    if negb canUnbond then
      match RequestYggReturn k na with
      | Ok k => Ok (k, false)
      | Err _ => Err "fail to request yggdrasil return fund"
      | Panic => Panic
      end
    else
      let penaltyPts := GetConfigInt64 k (ConstantName_String "SlashPenalty") in
      match SlashNodeAccountLP k na (GetUncappedShare (u64 penaltyPts) 10000 total) with
      | Ok (k, _) => Ok (k, true)
      | Err _ => Err "fail to slash node account"
      | Panic => Panic
      end
  else Ok (k, true).

(** A provider without a bond is removed. *)
Definition drop_provider k (na : NodeAccount) (bondProviderAddress : AccAddress) : outcome KVStore :=
  if acc_empty bondProviderAddress then Ok k
  else
    let bp := GetBondProviders k (NodeAddress na) in
    let provider := BondProviders_Get bp bondProviderAddress in
    providerBond ← CalcLPLiquidityBond k (acc_string (BondProvider_BondAddress provider)) (NodeAddress na);
    if negb (BondProvider_IsEmpty provider) && (providerBond =? 0) then
      let '(bp, removed) := BondProviders_Remove bp bondProviderAddress in
      Ok (if removed : bool then SetBondProviders k bp else k)
    else Ok k.

Definition with_reward (m : NodeAccount) (reward : Z) : NodeAccount :=
  mkNodeAccount (NodeAddress m) (NodeAccount_Status m) (NodeAccount_PubKeySet m) (AztecAddress m)
    (ValidatorConsPubKey m) (Bond m) (ActiveBlockHeight m) (NodeAccount_BondAddress m)
    (NodeAccount_StatusSince m) (SignerMembership m) (RequestedToLeave m) (ForcedToLeave m)
    (LeaveScore m) (IPAddress m) (NodeAccount_Version m) (NodeAccount_Type m) reward.

Definition unbond_handleV108 k (msg : MsgUnBond) : outcome KVStore :=
  let na := GetNodeAccount k (UnBond_NodeAddress msg) in
  '(k, settled) ← settle_vault k na;
  if negb (settled : bool) then Ok k
  else
    let bondLockPeriod := GetConfigInt64 k (ConstantName_String "BondLockupPeriod") in
    if i64 (kv_height k - NodeAccount_StatusSince na) <? bondLockPeriod
    then Err "node can not unbond before %d"
    else
      vaults ← GetAsgardVaultsByStatus k VaultStatus_RetiringVault;
      if existsb (fun v => PubKeys_Contains (GetMembership v) (node_key na)) vaults
      then Err "fail to unbond, still part of the retiring vault"
      else
        from ← AccAddress_of (UnBond_BondAddress msg);
        let provider :=
          if Address_Equals (UnBond_BondAddress msg) (NodeAccount_BondAddress na)
             && negb (acc_empty (UnBond_ProviderAddress msg))
          then UnBond_ProviderAddress msg else from in
        '(k, na) ← (match refundBond k provider (UnBond_Asset msg) (UnBond_Units msg) na with
                    | Err _ => Err "fail to unbond" | r => r end);
        k ← drop_provider k na provider;
        let coin := GetCoin (Tx_Coins (UnBond_TxIn msg)) BaseAsset in
        if Coin_IsEmpty coin then Ok k
        else
          reward ← uint_add (NodeAccount_Reward na) (Coin_Amount coin);
          Ok (k_SetNodeAccount k (with_reward na reward)).

Definition unbond_Run k (msg : MsgUnBond) : outcome KVStore :=
  _ ← unbond_validateV105 k msg; unbond_handleV108 k msg.
End unbonding.
