(* ===== verification/BondBooks.v ===== *)
(** The books of [LiquidityBooks.v] together with the bonds: no position has more
    units bonded than it has units, and slashing, bonding and unbonding keep both. *)
From S2P Require Import Prelude GoText Sdk Constants Floats Shares Chains Keys Addresses Assets Coins Txs.
From S2P Require Import NodeAccounts Votes TxOuts Vaults ObservedTxs Pools Mimirs StreamingSwaps SwapMsgs.
From S2P Require Import LiquidityProviders Records MayaNames Stores Keeper Nodes Bonds VaultStore Halts Gas.
From S2P Require Import TradeAccounts Swapper Swaps Affiliates Decimals Memos Collectors SwapChecks.
From S2P Require Import Liquidity AddLiquidity LiquidityBooks Withdraw WithdrawBooks Slashing Bonding.

(** ** The invariant *)

(** A position with the deprecated address of a node has no records. *)
Definition sound_bonds (lp : LiquidityProvider) : Prop :=
  bonds_wf (BondedNodes lp) /\ total_bonded (BondedNodes lp) <= Lp_Units lp /\
  (NodeBondAddress lp <> EmptyString -> BondedNodes lp = []).

Definition housed (pools : gmap string Pool) (lp : LiquidityProvider) : Prop := is_Some (pools !! lp_pool lp).

(** Savers, whose pools have a separator of their own in the name, bond nothing. *)
Definition savers_pool_key (pool : string) : bool := contains_char "/" pool || contains_char "~" pool.

Definition sound_position (pools : gmap string Pool) (lp : LiquidityProvider) : Prop :=
  sound_bonds lp /\ housed pools lp /\ (savers_pool_key (lp_pool lp) = true -> BondedNodes lp = []).

Record positions_sound_in (lps : gmap string LiquidityProvider) (pools : gmap string Pool) : Prop := {
  ps_books : books lps pools;
  ps_positions : map_Forall (fun _ => sound_position pools) lps;
}.

Definition positions_sound `{Semver, CosmosBank} (k : KVStore) : Prop :=
  positions_sound_in (kv_lps k) (kv_pools k).

(** Whether it holds can be computed. *)
Definition sound_bonds_b (lp : LiquidityProvider) : bool :=
  bool_decide (NoDup (map LPB_NodeAddress (BondedNodes lp))) &&
  forallb (fun b => (0 <? LPB_Units b) && (LPB_Units b <? 2 ^ 256)) (BondedNodes lp) &&
  (total_bonded (BondedNodes lp) <=? Lp_Units lp) &&
  (String.eqb (NodeBondAddress lp) EmptyString || (length (BondedNodes lp) =? 0)%nat).

Definition positions_sound_b `{Semver, CosmosBank} (k : KVStore) : bool :=
  liquidity_books_b k &&
  forallb (fun e => sound_bonds_b (snd e) && bool_decide (is_Some (kv_pools k !! lp_pool (snd e)))
                    && (negb (savers_pool_key (lp_pool (snd e))) || (length (BondedNodes (snd e)) =? 0)%nat))
    (map_to_list (kv_lps k)).

Lemma sound_bonds_b_spec lp : sound_bonds_b lp = true <-> sound_bonds lp.
Proof.
  unfold sound_bonds_b, sound_bonds, bonds_wf.
  rewrite !andb_true_iff, bool_decide_eq_true, orb_true_iff, Z.leb_le, String.eqb_eq, Nat.eqb_eq.
  assert (Hf : forallb (fun b => (0 <? LPB_Units b) && (LPB_Units b <? 2 ^ 256)) (BondedNodes lp) = true <->
               Forall (fun b => 0 < LPB_Units b < 2 ^ 256) (BondedNodes lp)).
  { rewrite forallb_forall, Forall_forall. setoid_rewrite <- list_elem_of_In.
    split; intros H x Hx; specialize (H x Hx); [apply andb_prop in H|apply andb_true_iff]; lia. }
  rewrite Hf, length_zero_iff_nil. destruct (decide (NodeBondAddress lp = EmptyString)); tauto.
Qed.

Lemma positions_sound_b_spec `{Semver, CosmosBank} (k : KVStore) :
  positions_sound_b k = true <-> positions_sound k.
Proof.
  unfold positions_sound_b. rewrite andb_true_iff, liquidity_books_b_spec.
  pose proof (map_forallb (fun _ => sound_position (kv_pools k))
    (fun _ lp => sound_bonds_b lp && bool_decide (is_Some (kv_pools k !! lp_pool lp))
                 && (negb (savers_pool_key (lp_pool lp)) || (length (BondedNodes lp) =? 0)%nat)) (kv_lps k)) as Hm.
  cbv beta in Hm. rewrite Hm.
  - split; [by intros []|by intros []].
  - intros _ lp. unfold sound_position, housed.
    rewrite !andb_true_iff, sound_bonds_b_spec, bool_decide_eq_true, orb_true_iff, negb_true_iff, Nat.eqb_eq,
      length_zero_iff_nil. destruct (savers_pool_key _); intuition congruence.
Qed.

(** ** Updates *)

(** Two positions that exchange units in one pool. *)
Lemma books_transfer lps pools ka kb a a' b b' :
  books lps pools -> ka <> kb -> lps !! ka = Some a -> lp_stored ka a' -> lp_stored kb b' ->
  (lps !! kb = Some b \/ lps !! kb = None /\ Lp_Units b = 0 /\ PendingCacao b = 0 /\ PendingAsset b = 0) ->
  lp_pool a' = lp_pool a -> lp_pool b' = lp_pool a -> lp_pool b = lp_pool a ->
  Lp_Units a' + Lp_Units b' = Lp_Units a + Lp_Units b ->
  PendingCacao a' = PendingCacao a -> PendingAsset a' = PendingAsset a ->
  PendingCacao b' = PendingCacao b -> PendingAsset b' = PendingAsset b ->
  books (<[kb := b']> (<[ka := a']> lps)) pools.
Proof.
  intros [Hl Hp] Hne Ha Hsa Hsb Hb Hpa Hpb Hpb0 Hu Hc1 Ha1 Hc2 Ha2. split.
  { apply map_Forall_insert_2; [done|]. by apply map_Forall_insert_2. }
  assert (Hsum : forall f pool, (f = Lp_Units \/ f = PendingCacao \/ f = PendingAsset) ->
    sum_in f (<[kb := b']> (<[ka := a']> lps)) pool = sum_in f lps pool).
  { intros f pool Hf. rewrite !sum_in_insert.
    - unfold entry_of. rewrite lookup_insert_ne, Ha, Hpb, Hpa by done. cbn [from_option].
      assert (from_option f 0 (lps !! kb) = f b) as ->.
      { destruct Hb as [->|(-> & ? & ? & ?)]; [done|]. cbn. destruct Hf as [->|[->| ->]]; by symmetry. }
      destruct (String.eqb _ _); destruct Hf as [->|[->| ->]]; lia.
    - intros old Ho. congruence.
    - intros old Ho. rewrite lookup_insert_ne in Ho by done. destruct Hb as [Hb|[Hb _]]; congruence. }
  intros q r Hq. destruct (Hp _ _ Hq) as (H1 & H2 & H3 & H4 & H5 & H6 & H7 & H8).
  unfold pool_stored. rewrite !Hsum by auto. by split_and!.
Qed.

(** A position that changes in nothing the books look at. *)
Lemma books_rebond lps pools key a a' :
  books lps pools -> lps !! key = Some a -> lp_stored key a' -> lp_pool a' = lp_pool a ->
  Lp_Units a' = Lp_Units a -> PendingCacao a' = PendingCacao a -> PendingAsset a' = PendingAsset a ->
  books (<[key := a']> lps) pools.
Proof.
  intros [Hl Hp] Ha Hs Hpa H1 H2 H3. split; [by apply map_Forall_insert_2|].
  assert (Hsum : forall f pool, f a' = f a -> sum_in f (<[key := a']> lps) pool = sum_in f lps pool).
  { intros f pool Hf. rewrite sum_in_insert by (intros old Ho; congruence).
    unfold entry_of. rewrite Ha. cbn. destruct (String.eqb _ _); lia. }
  intros q r Hq. destruct (Hp _ _ Hq) as (G1 & G2 & G3 & G4 & G5 & G6 & G7 & G8).
  unfold pool_stored. rewrite !Hsum by done. by split_and!.
Qed.

(** ** One position that is slashed *)

Section slashed.
Context {V : Semver} {B : CosmosBank} {A : SdkAddress} {AL : SdkAddressLaws A} {R : MapRange} {L : AddressLib}.
Context {U : SdkUint} {UL : SdkUintLaws U} {D : SdkDec} {DL : SdkDecLaws D} {T : UintText} {C : PubKeyCodec}.
Implicit Types k : KVStore.

(** What a slash for a node may do to a position: take units that were bonded to
    that node, and nothing else. *)
Record slashed_from (node : AccAddress) (lp lp' : LiquidityProvider) : Prop := {
  sl_asset : Lp_Asset lp' = Lp_Asset lp;
  sl_address : Lp_GetAddress lp' = Lp_GetAddress lp;
  sl_pending : PendingCacao lp' = PendingCacao lp /\ PendingAsset lp' = PendingAsset lp;
  sl_units : Lp_Units lp' <= Lp_Units lp;
  sl_bonded : Lp_Units lp - Lp_Units lp' = GetUnitsBondedToNode lp node - GetUnitsBondedToNode lp' node;
  sl_remaining : GetRemainingUnits lp' = GetRemainingUnits lp;
  sl_others : forall m, m <> node -> m <> EmptyString ->
    GetUnitsBondedToNode lp' m = GetUnitsBondedToNode lp m;
}.

#[export] Instance slashed_from_preorder node : PreOrder (slashed_from node).
Proof.
  split.
  - intros lp. by split; try split; try lia.
  - intros x y z [] []. split; try congruence; try lia.
    intros m Hm He. exact (eq_trans (sl_others1 m Hm He) (sl_others0 m Hm He)).
Qed.

Lemma bonded_units_at lp m :
  NodeBondAddress lp = EmptyString -> m <> EmptyString ->
  GetUnitsBondedToNode lp m = bonded_at m (BondedNodes lp).
Proof.
  intros He Hm. unfold GetUnitsBondedToNode, bonded_at. rewrite He.
  destruct (acc_equals EmptyString m) eqn:E; [|done]. by apply acc_equals_law in E as <-.
Qed.

Lemma deprecated_bond lp node :
  sound_bonds lp -> NodeBondAddress lp <> EmptyString -> GetUnitsBondedToNode lp node <> 0 ->
  NodeBondAddress lp = node /\ GetUnitsBondedToNode lp node = Lp_Units lp.
Proof.
  intros (_ & _ & Hnil) He H. unfold GetUnitsBondedToNode in *. rewrite (Hnil He) in *.
  destruct (acc_equals (NodeBondAddress lp) node) eqn:E; [|done]. by apply acc_equals_law in E.
Qed.

Lemma bonded_le_units lp node :
  sound_bonds lp -> is_uint (Lp_Units lp) -> node <> EmptyString -> 0 <= GetUnitsBondedToNode lp node <= Lp_Units lp.
Proof.
  intros Hs Hu Hn. unfold is_uint in Hu. destruct (decide (GetUnitsBondedToNode lp node = 0)) as [->|H0]; [lia|].
  destruct (decide (NodeBondAddress lp = EmptyString)) as [He|He].
  - destruct Hs as (Hw & Ht & _). rewrite bonded_units_at by done.
    pose proof (total_bonded_at (BondedNodes lp) node Hw). lia.
  - destruct (deprecated_bond lp node Hs He H0) as [_ ->]. lia.
Qed.

Lemma remaining_units lp :
  sound_bonds lp -> is_uint (Lp_Units lp) ->
  GetRemainingUnits lp = Ok (if decide (NodeBondAddress lp = EmptyString)
                             then Lp_Units lp - total_bonded (BondedNodes lp) else 0).
Proof.
  intros (Hw & Ht & _) Hu. unfold is_uint in Hu. case_decide as He.
  - rewrite GetRemainingUnits_Ok by (done || (unfold is_uint; lia)). f_equal. lia.
  - unfold GetRemainingUnits. destruct (acc_empty (NodeBondAddress lp)) eqn:E; [|done].
    by apply acc_empty_law in E.
Qed.

Lemma bond_singleton_wf node u : 0 < u < 2 ^ 256 -> bonds_wf [mkLPBondedNode node u].
Proof. intros Hu. split; [apply NoDup_singleton|by apply Forall_singleton]. Qed.

Lemma unbond_slashed lp node s :
  sound_bonds lp -> is_uint (Lp_Units lp) -> node <> EmptyString ->
  GetUnitsBondedToNode lp node <> 0 -> 0 <= s <= GetUnitsBondedToNode lp node ->
  exists lp1, Lp_Unbond lp node s = Ok lp1 /\ Lp_Units lp1 = Lp_Units lp /\
    sound_bonds (with_units lp1 (Lp_Units lp - s)) /\
    slashed_from node lp (with_units lp1 (Lp_Units lp - s)).
Proof.
  intros Hsb Hu Hn H0 Hs. pose proof (bonded_le_units lp node Hsb Hu Hn) as Hle.
  assert (Hdone : forall lp1, Lp_Unbond lp node s = Ok lp1 ->
    Lp_Asset lp1 = Lp_Asset lp /\ Lp_GetAddress lp1 = Lp_GetAddress lp /\ Lp_Units lp1 = Lp_Units lp /\
    PendingCacao lp1 = PendingCacao lp /\ PendingAsset lp1 = PendingAsset lp ->
    NodeBondAddress lp1 = EmptyString -> bonds_wf (BondedNodes lp1) ->
    total_bonded (BondedNodes lp1) <= Lp_Units lp - s ->
    GetUnitsBondedToNode lp node - s = bonded_at node (BondedNodes lp1) ->
    GetRemainingUnits lp = Ok (Lp_Units lp - s - total_bonded (BondedNodes lp1)) ->
    (forall m, m <> node -> m <> EmptyString -> bonded_at m (BondedNodes lp1) = GetUnitsBondedToNode lp m) ->
    exists lp1, Lp_Unbond lp node s = Ok lp1 /\ Lp_Units lp1 = Lp_Units lp /\
      sound_bonds (with_units lp1 (Lp_Units lp - s)) /\ slashed_from node lp (with_units lp1 (Lp_Units lp - s))).
  { intros lp1 Hr (Ha & Hg & Hlu & Hc & Hp) He Hw Ht Hb Hrem Ho. exists lp1.
    assert (Hsound : sound_bonds (with_units lp1 (Lp_Units lp - s))) by (split_and!; done).
    split_and!; [done|done|done|]. split; try done.
    - cbn. lia.
    - rewrite (bonded_units_at (with_units _ _)) by done. cbn [with_units with_position Lp_Units BondedNodes]. lia.
    - rewrite remaining_units by (done || (unfold is_uint in *; cbn; lia)).
      cbn [with_units with_position NodeBondAddress BondedNodes Lp_Units]. rewrite decide_True by done.
      by rewrite Hrem.
    - intros m Hm Hme. rewrite bonded_units_at by done. by apply Ho. }
  destruct (decide (NodeBondAddress lp = EmptyString)) as [He|He].
  - destruct Hsb as (Hw & Ht & Hd) eqn:Esb. rewrite bonded_units_at in * by done.
    destruct (unbond_first_Ok node s (BondedNodes lp) Hw) as (r & Hr & Hwr & _ & Htr & Hbr); [unfold is_uint in Hu; lia|].
    apply (Hdone (with_bonds lp (NodeBondAddress lp) r)); try done.
    + unfold Lp_Unbond. rewrite (proj2 (acc_empty_law _) He). cbn [negb]. by rewrite Hr.
    + cbn [with_bonds BondedNodes]. lia.
    + cbn [with_bonds BondedNodes]. rewrite Hbr, decide_True by done. lia.
    + rewrite remaining_units, decide_True by done. cbn [with_bonds BondedNodes]. f_equal. lia.
    + intros m Hm Hme. cbn [with_bonds BondedNodes]. rewrite Hbr, decide_False by done. by rewrite bonded_units_at.
  - destruct (deprecated_bond lp node Hsb He H0) as [Hna Hall]. rewrite Hall in *.
    assert (Hother : forall m, m <> node -> m <> EmptyString -> GetUnitsBondedToNode lp m = 0).
    { intros m Hm _. destruct (decide (GetUnitsBondedToNode lp m = 0)) as [|Hm0]; [done|].
      destruct (deprecated_bond lp m Hsb He Hm0). congruence. }
    assert (Hrem : GetRemainingUnits lp = Ok 0) by (by rewrite remaining_units, decide_False).
    assert (Hunb : Lp_Unbond lp node s = Ok (with_bonds lp EmptyString
              (if s <? Lp_Units lp then [mkLPBondedNode node (Lp_Units lp - s)] else []))).
    { unfold Lp_Unbond. destruct (acc_empty (NodeBondAddress lp)) eqn:Ee; [by apply acc_empty_law in Ee|].
      cbn [negb]. destruct Hsb as (_ & _ & Hnil).
      destruct (Z.ltb_spec s (Lp_Units lp)); [|by rewrite (Hnil He)].
      rewrite SafeSub_total by (unfold is_uint in *; lia). cbn [mbind outcome_bind]. by rewrite Z.max_r by lia. }
    unfold is_uint in Hu. apply (Hdone _ Hunb); try done; cbn [with_bonds BondedNodes];
      destruct (Z.ltb_spec s (Lp_Units lp)); try (apply bond_singleton_wf; lia); try (by split; constructor).
    all: unfold total_bonded, sumZ, bonded_at; cbn -[bonded_to]; rewrite ?(proj2 (bonded_to_spec _ _)) by done; cbn; try lia.
    + rewrite Hrem. f_equal. lia.
    + rewrite Hrem. f_equal. lia.
    + intros m Hm Hme. rewrite (proj2 (bonded_to_ne m _)) by (cbn; congruence). by rewrite Hother.
    + intros m Hm Hme. by rewrite Hother.
Qed.

(** ** Slashing a node *)

Definition plain_address (a : Address) : Prop := Address_IsEmpty a = false /\ contains_char "/" a = false.

(** Keys of the positions of the reserve. *)
Definition pol_key (pol : Address) (key : string) : Prop := exists a, key = position_key a pol.

(** What a slash does to the store: it moves units to the positions of the reserve. *)
Record slash_step (node : AccAddress) (pol : Address) (k k' : KVStore) : Prop := {
  st_lps : k' = set_kv_lps k (kv_lps k');
  st_sound : positions_sound k -> positions_sound k';
  st_position : forall key lp, kv_lps k !! key = Some lp -> ~ pol_key pol key ->
    exists lp', kv_lps k' !! key = Some lp' /\ slashed_from node lp lp';
  st_new : forall key, kv_lps k !! key = None -> ~ pol_key pol key -> kv_lps k' !! key = None;
}.

Definition lp_key (lp : LiquidityProvider) : string := GetKey (LiquidityProvider_Key lp).

(** A position that a slash of the node takes units of. *)
Definition pays_slash k (node : AccAddress) (lp : LiquidityProvider) : bool :=
  IsAvailable (GetPool k (Lp_Asset lp)) && negb (GetUnitsBondedToNode lp node =? 0).

(** The positions of [l] lose the part [s] of [nb] of what they have bonded to the
    node, and no other one but those of the reserve changes. *)
Record slash_taken (node : AccAddress) (pol : Address) (s nb : Z) (k k' : KVStore)
    (l : list LiquidityProvider) : Prop := {
  tk_lost : forall lp, lp ∈ l -> exists lp', kv_lps k' !! lp_key lp = Some lp' /\
    Lp_Units lp' = Lp_Units lp - GetSafeShare s nb (GetUnitsBondedToNode lp node);
  tk_rest : forall i, i ∉ map lp_key l -> ~ pol_key pol i -> kv_lps k' !! i = kv_lps k !! i;
}.

(** What is reported for them: the whole slash for each, in the asset of its pool. *)
Definition slash_reports k (s nb : Z) (l : list LiquidityProvider) : list PoolAmt :=
  map (fun lp => mkPoolAmt (Pool_Asset (GetPool k (Lp_Asset lp))) (i64 (GetSafeShare s nb nb))) l.

Lemma slash_taken_nil node pol s nb k : slash_taken node pol s nb k k [].
Proof. split; [|done]. intros lp Hlp. by apply elem_of_nil in Hlp. Qed.

Lemma slash_taken_app node pol s nb k1 k2 k3 l1 l2 :
  slash_taken node pol s nb k1 k2 l1 -> slash_taken node pol s nb k2 k3 l2 ->
  Forall (fun lp => (lp_key lp ∉ map lp_key l2) /\ ~ pol_key pol (lp_key lp)) l1 ->
  slash_taken node pol s nb k1 k3 (l1 ++ l2).
Proof.
  intros [L1 R1] [L2 R2] Hd. rewrite Forall_forall in Hd. split.
  - intros lp [Hlp|Hlp]%elem_of_app; [|by apply L2]. destruct (Hd lp Hlp) as [Hn Hp].
    destruct (L1 lp Hlp) as (lp' & H & Hu). exists lp'. split; [|done]. by rewrite R2.
  - intros i Hi Hp. rewrite map_app, elem_of_app in Hi.
    rewrite R2, R1; tauto.
Qed.

Lemma set_kv_lps_id k : set_kv_lps k (kv_lps k) = k.
Proof. by destruct k. Qed.

#[export] Instance slash_step_preorder node pol : PreOrder (slash_step node pol).
Proof.
  split.
  - intros k. split; [by rewrite set_kv_lps_id|done|intros key lp Hk _; by exists lp|done].
  - intros x y z [Hy Sy Py Ny] [Hz Sz Pz Nz]. split.
    + rewrite Hz. by rewrite Hy at 1.
    + auto.
    + intros key lp Hk Hp. destruct (Py key lp Hk Hp) as (l1 & H1 & G1).
      destruct (Pz key l1 H1 Hp) as (l2 & H2 & G2). exists l2. split; [done|]. by transitivity l1.
    + auto.
Qed.

Lemma with_units_more lp u : sound_bonds lp -> Lp_Units lp <= u -> sound_bonds (with_units lp u).
Proof. intros (Hw & Ht & Hd) Hu. split_and!; [done|cbn [with_units with_position BondedNodes Lp_Units]; lia|done]. Qed.

(** The position of the reserve, stored or not. *)
Lemma reserve_position k pol p key :
  positions_sound k -> plain_address pol -> kv_pools k !! key = Some p ->
  let pl := GetLiquidityProvider k (Pool_Asset p) pol in
  GetKey (LiquidityProvider_Key pl) = position_key (Pool_Asset p) pol /\
  lp_pool pl = key /\ contains_char "/" (Lp_GetAddress pl) = false /\ sound_bonds pl /\
  (savers_pool_key (lp_pool pl) = true -> BondedNodes pl = []) /\
  is_uint (PendingCacao pl) /\ is_uint (PendingAsset pl) /\ is_uint (Lp_Units pl) /\
  (kv_lps k !! position_key (Pool_Asset p) pol = Some pl \/
   kv_lps k !! position_key (Pool_Asset p) pol = None /\
   Lp_Units pl = 0 /\ PendingCacao pl = 0 /\ PendingAsset pl = 0).
Proof.
  intros [[Hl Hp] Hpos] [Hpe Hps] Hk pl. destruct (Hp _ _ Hk) as (Hkey & _).
  destruct (GetLiquidityProvider_books k (Pool_Asset p) pol) as (Ha & Hg & Hst); [by split|done|done|].
  fold pl in Ha, Hg, Hst. rewrite Lp_Key_position.
  split; [by apply position_key_upper|]. split; [unfold lp_pool; congruence|].
  split.
  { unfold GetKey in Hg. by rewrite <- contains_slash_ToUpper, Hg, contains_slash_ToUpper. }
  destruct Hst as [[Hs Hst]|[Hs ->]].
  - destruct Hst as (_ & _ & H1 & H2 & H3). destruct (Hpos _ _ Hs) as (? & _ & ?). split_and!; try done. by left.
  - destruct (IsChain _ _ _); (split_and!; try done; [|by right]); by split_and!; [split; constructor|..].
Qed.

Lemma slash_position_step node pol s nb k t am lp addr k' t' am' :
  positions_sound k -> node <> EmptyString -> plain_address pol -> contains_char "/" addr = false ->
  GetKey addr <> GetKey pol -> kv_lps k !! position_key (Lp_Asset lp) addr = Some lp ->
  savers_pool_key (lp_pool lp) = false -> 0 <= s -> 0 <= nb ->
  slash_position node pol s nb (k, (t, am)) lp = Ok (k', (t', am')) ->
  let l := List.filter (pays_slash k node) [lp] in
  slash_step node pol k k' /\ slash_taken node pol s nb k k' l /\
  t' = t + Z.of_nat (length l) * GetSafeShare s nb nb /\ am' = am ++ slash_reports k s nb l.
Proof.
  cbn [List.filter]. cbv zeta.
  intros Hk Hn Hpol Hs Hne Hlp Hsav Hs0 Hnb H. pose proof Hk as [[Hl Hp] Hpos].
  assert (Hsame : Ok (k, (t, am)) = Ok (k', (t', am')) ->
    slash_step node pol k k' /\ slash_taken node pol s nb k k' [] /\
    t' = t + Z.of_nat (length (@nil LiquidityProvider)) * GetSafeShare s nb nb /\ am' = am ++ slash_reports k s nb []).
  { intros [= <- <- <-]. split; [done|]. split; [by apply slash_taken_nil|]. cbn. rewrite app_nil_r. split; [lia|done]. }
  destruct (Hpos _ _ Hlp) as (Hsb & [p Hpool] & _). destruct (Hl _ _ Hlp) as (Hkey & Hslash & Hu & Huc & Hua).
  assert (Hgp : GetPool k (Lp_Asset lp) = p).
  { unfold GetPool. unfold lp_pool in Hpool. by rewrite Hpool. }
  unfold slash_position in H. unfold pays_slash. rewrite Hgp in *. cbv zeta in H.
  destruct (IsAvailable p); cbn [andb]; [|by apply Hsame].
  destruct (Z.eqb_spec (GetUnitsBondedToNode lp node) 0) as [|H0]; cbn [negb]; [by apply Hsame|].
  pose proof (bonded_le_units lp node Hsb Hu Hn) as Hble.
  pose proof (GetSafeShare_range s nb (GetUnitsBondedToNode lp node) Hs0 Hnb (proj1 Hble)) as Hsr.
  destruct (unbond_slashed lp node _ Hsb Hu Hn H0 Hsr) as (lp1 & Hun & Hu1 & Hsb1 & Hsl).
  set (q := GetSafeShare s nb (GetUnitsBondedToNode lp node)) in *.
  apply bind_Ok in H as (t1 & [-> _]%uint_add_Ok & H). rewrite Hun in H. cbn [mbind outcome_bind] in H.
  apply bind_Ok in H as (u & [-> Hu']%uint_sub_Ok & H). apply bind_Ok in H as (pu & [-> Hpu]%uint_add_Ok & H).
  rewrite Hu1 in H, Hu'.
  destruct (reserve_position k pol p _ Hk Hpol Hpool) as (Hplk & Hplp & Hpls & Hplb & Hplsv & Hplc & Hpla & Hplu & Hplst).
  set (pl := GetLiquidityProvider k (Pool_Asset p) pol) in *.
  set (lp' := with_units lp1 (Lp_Units lp - q)) in *. set (pl' := with_units pl (Lp_Units pl + q)) in *.
  assert (Hk1 : GetKey (LiquidityProvider_Key lp') = position_key (Lp_Asset lp) addr).
  { rewrite Hkey, !Lp_Key_position. by rewrite (sl_asset _ _ _ Hsl), (sl_address _ _ _ Hsl). }
  assert (Hk2 : GetKey (LiquidityProvider_Key pl') = position_key (Pool_Asset p) pol) by done.
  assert (Hdiff : position_key (Lp_Asset lp) addr <> position_key (Pool_Asset p) pol).
  { intros E. apply position_key_inj in E as [_ E]; [by apply Hne|done|apply Hpol]. }
  assert (Hlps : kv_lps k' = <[position_key (Pool_Asset p) pol := pl']>
                    (<[position_key (Lp_Asset lp) addr := lp']> (kv_lps k))).
  { injection H as <- _ _. unfold SetLiquidityProviders, SetLiquidityProvider. cbn [fold_left kv_lps set_kv_lps].
    fold lp' pl'. by rewrite Hk1, Hk2. }
  assert (Hpools : k' = set_kv_lps k (kv_lps k')) by (injection H as <- _ _; done).
  assert (Hlp'p : lp_pool lp' = lp_pool lp) by (unfold lp_pool; by rewrite (sl_asset _ _ _ Hsl)).
  assert (Hun1 : Lp_Units lp' = Lp_Units lp - q) by done.
  assert (Hun2 : Lp_Units pl' = Lp_Units pl + q) by done.
  split; [split|split].
  - done.
  - intros _. destruct (sl_pending _ _ _ Hsl) as [Hpc Hpa].
    assert (Hpl : kv_pools k' = kv_pools k) by (by rewrite Hpools).
    unfold positions_sound. rewrite Hlps, Hpl. split.
    + unfold is_uint in *. eapply (books_transfer _ _ _ _ lp lp' pl pl'); try done.
      * unfold lp_stored. rewrite Hk1, Hun1, (sl_address _ _ _ Hsl), Hpc, Hpa. unfold is_uint. split_and!; try done; lia.
      * rewrite Hun1, Hun2. lia.
    + apply map_Forall_insert_2; [|apply map_Forall_insert_2]; try done.
      * split; [apply with_units_more; [done|lia]|]. unfold housed. change (lp_pool pl') with (lp_pool pl).
        split; [by rewrite Hplp|done].
      * split; [done|]. unfold housed. rewrite Hlp'p, Hsav. by split.
  - intros key l Hkl Hnp. rewrite Hlps. rewrite lookup_insert_ne by (intros <-; apply Hnp; by eexists).
    destruct (decide (key = position_key (Lp_Asset lp) addr)) as [->|Hne'].
    + rewrite lookup_insert_eq. exists lp'. split; [done|]. rewrite Hlp in Hkl. by injection Hkl as <-.
    + rewrite lookup_insert_ne by done. by exists l.
  - intros key Hkl Hnp. rewrite Hlps. rewrite lookup_insert_ne by (intros <-; apply Hnp; by eexists).
    by rewrite lookup_insert_ne by congruence.
  - split.
    + intros lq ->%list_elem_of_singleton. exists lp'. split; [|done]. rewrite Hlps. unfold lp_key. rewrite <- Hkey.
      by rewrite lookup_insert_ne, lookup_insert_eq.
    + intros i Hi Hnp. cbn [map] in Hi. rewrite list_elem_of_singleton in Hi. unfold lp_key in Hi. rewrite <- Hkey in Hi.
      rewrite Hlps. rewrite lookup_insert_ne by (intros <-; apply Hnp; by eexists). by rewrite lookup_insert_ne by congruence.
  - injection H as _ <- <-. cbn [length slash_reports map]. rewrite Hgp. split; [lia|done].
Qed.

Lemma liquidity_pools_distinct v : NoDup (map (fun a => GetKey (Asset_String a)) (GetLiquidityPools v)).
Proof.
  unfold GetLiquidityPools.
  repeat (destruct (GTE _ _); [apply (bool_decide_unpack _); by vm_compute|]).
  apply (bool_decide_unpack _); by vm_compute.
Qed.

Lemma liquidity_pools_plain v a : a ∈ GetLiquidityPools v -> savers_pool_key (GetKey (Asset_String a)) = false.
Proof.
  assert (H : forallb (fun a => negb (savers_pool_key (GetKey (Asset_String a)))) (GetLiquidityPools v) = true).
  { unfold GetLiquidityPools. repeat (destruct (GTE _ _); [by vm_compute|]). by vm_compute. }
  rewrite forallb_forall in H. intros Ha%list_elem_of_In%H. by apply negb_true_iff.
Qed.

Lemma Asset_Equals_key a b : Asset_Equals a b = true -> GetKey (Asset_String a) = GetKey (Asset_String b).
Proof.
  intros (Hc & Hs & _ & H1 & H2)%Asset_Equals_fields. unfold Asset_String, Chain_String, Symbol_String.
  rewrite !GetKey_app. unfold GetKey. rewrite ?ToUpper_idem. by rewrite Hc, Hs, H1, H2.
Qed.

Lemma ContainsAsset_plain v a :
  ContainsAsset a (GetLiquidityPools v) = true -> savers_pool_key (GetKey (Asset_String a)) = false.
Proof.
  unfold ContainsAsset. rewrite existsb_exists. intros (b & Hb%list_elem_of_In & He%Asset_Equals_key).
  rewrite <- He. by eapply liquidity_pools_plain.
Qed.

Lemma plain_pools v l :
  Forall (fun lp => exists a, a ∈ GetLiquidityPools v /\ lp_pool lp = GetKey (Asset_String a)) l ->
  Forall (fun lp => savers_pool_key (lp_pool lp) = false) l.
Proof.
  intros H. eapply Forall_impl; [exact H|]. cbn. intros lp (a & Ha & ->). by eapply liquidity_pools_plain.
Qed.

(** The positions of an address that are considered are stored, each under its own key. *)
Lemma stored_positions k assets addr :
  positions_sound k -> plain_address addr -> NoDup (map (fun a => GetKey (Asset_String a)) assets) ->
  let l := GetLiquidityProviderByAssets k assets addr in
  Forall (fun lp => kv_lps k !! position_key (Lp_Asset lp) addr = Some lp) l /\ NoDup (map lp_pool l) /\
  Forall (fun lp => exists a, a ∈ assets /\ lp_pool lp = GetKey (Asset_String a)) l.
Proof.
  intros [Hb _] [He Hs]. unfold GetLiquidityProviderByAssets.
  induction assets as [|a assets IH]; intros Hnd; [by split; [|split]; constructor|].
  cbn [map] in Hnd. apply NoDup_cons in Hnd as [Hna Hnd]. destruct (IH Hnd) as (IH1 & IH2 & IH3).
  assert (IH3' : Forall (fun lp => exists b, b ∈ a :: assets /\ lp_pool lp = GetKey (Asset_String b))
    (List.filter (fun lp => 0 <? Lp_Units lp) (map (fun a => GetLiquidityProvider k a addr) assets))).
  { eapply Forall_impl; [exact IH3|]. cbn. intros lp (b & Hbin & Hlb). exists b. split; [by right|done]. }
  cbn [map List.filter]. destruct (Z.ltb_spec 0 (Lp_Units (GetLiquidityProvider k a addr))) as [Hpos|]; [|done].
  destruct (GetLiquidityProvider_books k a addr Hb He Hs) as (Ha & _ & Hst).
  set (lp := GetLiquidityProvider k a addr) in *.
  destruct Hst as [[Hst _]|[_ Hst]]; [|rewrite Hst in Hpos; by destruct (IsChain _ _ _)].
  assert (Hk : position_key (Lp_Asset lp) addr = position_key a addr) by by apply position_key_upper.
  split_and!.
  - constructor; [by rewrite Hk|done].
  - cbn [map]. constructor; [|done]. intros (lp' & Hlp' & Hin)%list_elem_of_fmap.
    rewrite Forall_forall in IH3. destruct (IH3 _ Hin) as (b & Hbin & Hlb). apply Hna.
    unfold lp_pool in *. rewrite <- Ha, Hlp', Hlb. apply list_elem_of_fmap. by exists b.
  - constructor; [|done]. exists a. split; [by left|]. by unfold lp_pool.
Qed.

Lemma slash_positions_step node pol s nb addr l : forall k t am k' t' am',
  positions_sound k -> node <> EmptyString -> plain_address pol -> plain_address addr ->
  GetKey addr <> GetKey pol -> 0 <= s -> 0 <= nb ->
  Forall (fun lp => kv_lps k !! position_key (Lp_Asset lp) addr = Some lp) l -> NoDup (map lp_pool l) ->
  Forall (fun lp => savers_pool_key (lp_pool lp) = false) l ->
  foldM (slash_position node pol s nb) (k, (t, am)) l = Ok (k', (t', am')) ->
  let paid := List.filter (pays_slash k node) l in
  slash_step node pol k k' /\ slash_taken node pol s nb k k' paid /\
  t' = t + Z.of_nat (length paid) * GetSafeShare s nb nb /\ am' = am ++ slash_reports k s nb paid.
Proof.
  induction l as [|lp l IH]; intros k t am k' t' am' Hk Hn Hpol Hadr Hne Hs Hnb Hl Hnd Hsv H.
  { injection H as <- <- <-. cbn. rewrite app_nil_r. split_and!; [done|by apply slash_taken_nil|lia|done]. }
  assert (Hkeys : Forall (fun lp => lp_key lp = position_key (Lp_Asset lp) addr) (lp :: l)).
  { pose proof Hk as [[Hb _] _]. eapply Forall_impl; [exact Hl|]. cbn. intros x Hx. symmetry. by apply (Hb _ _ Hx). }
  apply Forall_cons in Hkeys as [Hkey Hkeys].
  apply Forall_cons in Hl as [Hlp Hl]. apply Forall_cons in Hsv as [Hsv0 Hsv]. cbn [map] in Hnd. apply NoDup_cons in Hnd as [Hni Hnd].
  assert (Hdiff : lp_key lp ∉ map lp_key l).
  { intros (x & Hx & Hin)%list_elem_of_fmap. rewrite Forall_forall in Hkeys. rewrite Hkey, (Hkeys x Hin) in Hx.
    apply position_key_inj in Hx as [E _]; [|apply Hadr..]. apply Hni, list_elem_of_fmap. by exists x. }
  assert (Hres : forall a, ~ pol_key pol (position_key a addr)).
  { intros a [b E]. apply position_key_inj in E as [_ E]; [done|apply Hadr|apply Hpol]. }
  cbn [foldM] in H. apply bind_Ok in H as ([k1 [t1 am1]] & H1 & H).
  destruct (slash_position_step node pol s nb k t am lp addr k1 t1 am1 Hk Hn Hpol (proj2 Hadr) Hne Hlp Hsv0 Hs Hnb H1)
    as (Hstep & Htk & Ht & Ham). clear H1.
  assert (Hpool : forall l, List.filter (pays_slash k1 node) l = List.filter (pays_slash k node) l /\
                            slash_reports k1 s nb l = slash_reports k s nb l).
  { intros l0. by rewrite (st_lps _ _ _ _ Hstep). }
  assert (Hsub : forall x, x ∈ List.filter (pays_slash k node) [lp] -> x = lp).
  { intros x Hx. cbn in Hx. destruct (pays_slash k node lp); [by apply list_elem_of_singleton in Hx|by apply elem_of_nil in Hx]. }
  destruct (IH k1 t1 am1 k' t' am') as (Hstep' & Htk' & Ht' & Ham'); try done.
  - by apply (st_sound _ _ _ _ Hstep).
  - rewrite Forall_forall in Hl, Hkeys |- *. intros x Hx. rewrite (tk_rest _ _ _ _ _ _ _ Htk); [by apply Hl| |done].
    intros (y & Hy & Hin%Hsub)%list_elem_of_fmap. subst y. apply Hdiff, list_elem_of_fmap. exists x.
    by rewrite (Hkeys x Hx).
  - rewrite (proj1 (Hpool l)) in Htk', Ht', Ham'. rewrite (proj2 (Hpool _)) in Ham'.
    change (List.filter (pays_slash k node) (lp :: l)) with (List.filter (pays_slash k node) ([lp] ++ l)).
    cbv zeta. rewrite List.filter_app, length_app. split_and!; [by transitivity k1| |lia|].
    + eapply slash_taken_app; [exact Htk|exact Htk'|]. apply Forall_forall. intros x ->%Hsub. split; [|by rewrite Hkey].
      intros (y & Hy & Hin)%list_elem_of_fmap. apply list_elem_of_In, filter_In in Hin as [Hin%list_elem_of_In _].
      apply Hdiff, list_elem_of_fmap. by exists y.
    + rewrite Ham', Ham. unfold slash_reports. by rewrite map_app, app_assoc.
Qed.

Definition plain_providers (pol : Address) (l : list BondProvider) : Prop :=
  Forall (fun b => plain_address (acc_string (BondProvider_BondAddress b)) /\
                   GetKey (acc_string (BondProvider_BondAddress b)) <> GetKey pol) l.

(** The positions that the providers of a node are slashed in. *)
Definition slashed_positions k (node : AccAddress) (l : list BondProvider) : list LiquidityProvider :=
  concat (map (fun b => List.filter (pays_slash k node) (bondable k (acc_string (BondProvider_BondAddress b)))) l).

Definition provider_keys (l : list BondProvider) : list string :=
  map (fun b => GetKey (acc_string (BondProvider_BondAddress b))) l.

Lemma bondable_keys k node addr : positions_sound k -> plain_address addr ->
  Forall (fun lp => exists a, lp_key lp = position_key a addr) (List.filter (pays_slash k node) (bondable k addr)).
Proof.
  intros Hk Hadr. destruct (stored_positions k _ _ Hk Hadr (liquidity_pools_distinct (kv_version k))) as (Hst & _).
  pose proof Hk as [[Hb _] _]. rewrite Forall_forall in *. intros x [Hx%list_elem_of_In _]%list_elem_of_In%filter_In.
  exists (Lp_Asset x). symmetry. by apply (Hb _ _ (Hst x Hx)).
Qed.

Lemma bondable_same k m addr : Address_IsEmpty addr = false -> (forall a, m !! position_key a addr = kv_lps k !! position_key a addr) ->
  bondable (set_kv_lps k m) addr = bondable k addr.
Proof.
  intros Hne Hm. unfold bondable, GetLiquidityProviderByAssets. f_equal. apply map_ext. intros a.
  unfold GetLiquidityProvider. cbn [kv_lps set_kv_lps kv_version].
  assert (H : forall r, Lp_Asset r = a -> Lp_GetAddress r = addr ->
    m !! GetKey (LiquidityProvider_Key r) = kv_lps k !! GetKey (LiquidityProvider_Key r)).
  { intros r0 Ha Hadr. rewrite Lp_Key_position, Ha, Hadr. apply Hm. }
  destruct (negb _); (rewrite H; [done|done|unfold Lp_GetAddress; cbn -[Address_IsEmpty]; by rewrite ?Hne]).
Qed.

Lemma slash_providers_step node pol s nb l : forall k t am k' t' am',
  positions_sound k -> node <> EmptyString -> plain_address pol -> plain_providers pol l -> 0 <= s -> 0 <= nb ->
  foldM (slash_provider node pol s nb) (k, (t, am)) l = Ok (k', (t', am')) ->
  slash_step node pol k k' /\
  (exists n : nat, length am' = (length am + n)%nat /\ t' = t + Z.of_nat n * GetSafeShare s nb nb) /\
  (NoDup (provider_keys l) ->
     slash_taken node pol s nb k k' (slashed_positions k node l) /\
     am' = am ++ slash_reports k s nb (slashed_positions k node l)).
Proof.
  induction l as [|b l IH]; intros k t am k' t' am' Hk Hn Hpol Hl Hs Hnb H.
  { injection H as <- <- <-. split; [done|]. split; [exists 0%nat; split; lia|]. intros _.
    split; [apply slash_taken_nil|by rewrite app_nil_r]. }
  apply Forall_cons in Hl as [[Hadr Hne] Hl]. cbn [foldM] in H. apply bind_Ok in H as ([k1 [t1 am1]] & H1 & H).
  unfold slash_provider in H1. cbn [fst] in H1. set (addr := acc_string (BondProvider_BondAddress b)) in *.
  destruct (stored_positions k _ _ Hk Hadr (liquidity_pools_distinct (kv_version k))) as (Hst & Hnd & Hin).
  assert (Hsv : Forall (fun lp => savers_pool_key (lp_pool lp) = false) (bondable k addr)) by by eapply plain_pools.
  destruct (slash_positions_step node pol s nb _ _ _ _ _ _ _ _ Hk Hn Hpol Hadr Hne Hs Hnb Hst Hnd Hsv H1)
    as (Hstep & Htk & Ht & Ham). fold (bondable k addr) in Htk, Ht, Ham.
  destruct (IH k1 t1 am1 k' t' am') as (Hstep' & (n' & Hlen' & Ht') & Htk'); try done.
  { by apply (st_sound _ _ _ _ Hstep). }
  split; [by transitivity k1|]. set (paid := List.filter (pays_slash k node) (bondable k addr)) in *.
  split.
  { exists (length paid + n')%nat. rewrite Ham, length_app in Hlen'. unfold slash_reports in Hlen'.
    rewrite length_map in Hlen'. split; lia. }
  unfold provider_keys. cbn [map]. fold (provider_keys l). intros [Hni Hndl]%NoDup_cons. fold addr in Hni.
  pose proof (bondable_keys k node addr Hk Hadr) as Hpk. fold paid in Hpk.
  assert (Hsame : slashed_positions k1 node l = slashed_positions k node l).
  { unfold slashed_positions. f_equal. apply map_ext_in. intros b' Hb'%list_elem_of_In.
    unfold plain_providers in Hl. rewrite Forall_forall in Hl. destruct (Hl b' Hb') as [Hadr' Hne'].
    rewrite (st_lps _ _ _ _ Hstep). rewrite bondable_same; [done|apply Hadr'|]. intros a. apply (tk_rest _ _ _ _ _ _ _ Htk).
    - intros (x & Hx & Hxin)%list_elem_of_fmap. rewrite Forall_forall in Hpk. destruct (Hpk x Hxin) as [a' Ha'].
      rewrite Ha' in Hx. apply position_key_inj in Hx as [_ E]; [|apply Hadr'|apply Hadr].
      apply Hni. unfold provider_keys. apply list_elem_of_fmap. exists b'. by rewrite <- E.
    - intros [a' E]. apply position_key_inj in E as [_ E]; [done|apply Hadr'|apply Hpol]. }
  destruct (Htk' Hndl) as [Htk2 Ham2]. rewrite Hsame in Htk2, Ham2.
  change (slashed_positions k node (b :: l)) with (paid ++ slashed_positions k node l). split.
  - eapply slash_taken_app; [exact Htk|exact Htk2|]. eapply Forall_impl; [exact Hpk|]. cbn. intros x [a Ha]. split.
    + intros (y & Hy & Hyin)%list_elem_of_fmap. rewrite Ha in Hy. unfold slashed_positions in Hyin.
      apply list_elem_of_In, in_concat in Hyin as (ys & (b' & <- & Hb'%list_elem_of_In)%in_map_iff & Hyin%list_elem_of_In).
      unfold plain_providers in Hl. rewrite Forall_forall in Hl. destruct (Hl b' Hb') as [Hadr' _].
      pose proof (bondable_keys k node _ Hk Hadr') as Hpk'. rewrite Forall_forall in Hpk'.
      destruct (Hpk' y Hyin) as [a' Ha']. rewrite Ha' in Hy. apply position_key_inj in Hy as [_ E]; [|apply Hadr|apply Hadr'].
      apply Hni. apply list_elem_of_fmap. by exists b'.
    + rewrite Ha. intros [a' E]. apply position_key_inj in E as [_ E]; [done|apply Hadr|apply Hpol].
  - rewrite Ham2, Ham. unfold slash_reports. rewrite map_app, app_assoc. f_equal. apply map_ext. intros x.
    by rewrite (st_lps _ _ _ _ Hstep).
Qed.

(** What a slash does: nothing when there is nothing to slash or the node has the bond
    of a genesis node. Otherwise each position of a provider that pays loses the part of
    its bonded units that the slash is of the bond, and is reported. *)
Definition slash_outcome k (na : NodeAccount) (slash : Z) (pol : Address) k' (total : Z) (amounts : list PoolAmt) : Prop :=
  let providers := Providers (GetBondProviders k (NodeAddress na)) in
  let paying := slashed_positions k (NodeAddress na) providers in
  if (slash =? 0) || genesis_bond k (NodeAccount_BondAddress na) then k' = k /\ total = 0 /\ amounts = []
  else exists bond, CalcNodeLiquidityBond k na = Ok bond /\ bond <> 0 /\
    let s := Z.min slash bond in
    total = Z.of_nat (length amounts) * GetSafeShare s bond bond /\
    (NoDup (provider_keys providers) ->
       slash_taken (NodeAddress na) pol s bond k k' paying /\ amounts = slash_reports k s bond paying).

Lemma SlashNodeAccountLP_step k na slash k' total amounts :
  positions_sound k -> NodeAddress na <> EmptyString -> 0 <= slash ->
  (forall pol, GetModuleAddress k ReserveName = Ok pol ->
     plain_address pol /\ plain_providers pol (Providers (GetBondProviders k (NodeAddress na)))) ->
  SlashNodeAccountLP k na slash = Ok (k', (total, amounts)) ->
  exists pol, slash_step (NodeAddress na) pol k k' /\ (k' = k \/ GetModuleAddress k ReserveName = Ok pol) /\
    slash_outcome k na slash pol k' total amounts.
Proof.
  intros Hk Hn Hs Hpol H. unfold SlashNodeAccountLP in H. unfold slash_outcome. cbv zeta.
  assert (Hnone : Ok (k, (0, [])) = Ok (k', (total, amounts)) ->
    exists pol, slash_step (NodeAddress na) pol k k' /\ (k' = k \/ GetModuleAddress k ReserveName = Ok pol) /\
      k' = k /\ total = 0 /\ amounts = []).
  { intros [= <- <- <-]. exists EmptyString. split; [done|]. split; [by left|done]. }
  destruct (slash =? 0); cbn [orb]; [by apply Hnone|].
  destruct (genesis_bond _ _); [by apply Hnone|]. clear Hnone.
  apply bind_Ok in H as (bond & Hbond & H). apply bind_Ok in H as (pol & Hp & H).
  destruct (Z.eqb_spec bond 0) as [|Hb]; [done|]. destruct (Hpol pol Hp) as [Hplain Hprov].
  apply CalcNodeLiquidityBond_nonneg in Hbond as Hb0.
  assert (Hmin : (if bond <? slash then bond else slash) = Z.min slash bond).
  { destruct (Z.ltb_spec bond slash); lia. }
  rewrite Hmin in H.
  apply slash_providers_step in H as (Hstep & (n & Hlen & Ht) & Htk); [|done..|lia|lia].
  exists pol. split; [done|]. split; [by right|]. exists bond. split_and!; [done|done| |exact Htk].
  rewrite Ht. cbn in Hlen. rewrite Hlen. lia.
Qed.

(** C20: A slash takes units that were bonded to the node and nothing else. Whatever a
    provider loses goes to the position of the reserve in the same pool, so that the
    books and the pools stay as they are; what is not bonded, and what is bonded to
    other nodes, is untouched. Nothing happens without a slash or to a genesis bond.
    Otherwise, no provider being listed twice, each position of a provider in an
    available pool with units bonded to the node loses exactly the part of them that
    the slash is of the bond, no other one does, and each is reported, in the order of
    the providers. The amount that is returned counts the whole slash once for every
    position that is slashed, not in proportion to it. *)
Theorem slash_takes_bonded_units k na slash k' total amounts pol :
  positions_sound k -> NodeAddress na <> EmptyString -> 0 <= slash ->
  GetModuleAddress k ReserveName = Ok pol -> plain_address pol ->
  plain_providers pol (Providers (GetBondProviders k (NodeAddress na))) ->
  SlashNodeAccountLP k na slash = Ok (k', (total, amounts)) ->
  positions_sound k' /\ k' = set_kv_lps k (kv_lps k') /\
  (forall key lp, kv_lps k !! key = Some lp -> ~ pol_key pol key ->
     exists lp', kv_lps k' !! key = Some lp' /\ slashed_from (NodeAddress na) lp lp') /\
  (forall p pool, kv_pools k !! p = Some pool ->
     sum_in Lp_Units (kv_lps k') p = sum_in Lp_Units (kv_lps k) p) /\
  slash_outcome k na slash pol k' total amounts.
Proof.
  intros Hk Hn Hs Hpol Hplain Hprov H.
  destruct (SlashNodeAccountLP_step k na slash k' total amounts Hk Hn Hs) as (pol' & Hstep & Hp' & Hout); [|done|].
  { intros q Hq. rewrite Hpol in Hq. by injection Hq as <-. }
  assert (Hsame : k' = k \/ pol' = pol) by (destruct Hp' as [|Hp']; [by left|right; congruence]).
  assert (Hstep' : slash_step (NodeAddress na) pol k k') by (by destruct Hsame as [->| ->]).
  destruct Hstep' as [Hlps Hsound Hpos _]. specialize (Hsound Hk). split_and!; try done.
  - intros p pool Hp. assert (Hpl : kv_pools k' = kv_pools k) by (by rewrite Hlps).
    destruct Hsound as [[_ Hb'] _]. destruct Hk as [[_ Hb] _]. rewrite Hpl in Hb'.
    destruct (Hb _ _ Hp) as (_ & _ & _ & _ & _ & <- & _). by destruct (Hb' _ _ Hp) as (_ & _ & _ & _ & _ & <- & _).
  - destruct Hsame as [->| <-]; [|done]. unfold slash_outcome in *. destruct (_ || _); [done|].
    destruct Hout as (bond & Hb & Hb0 & Ht & Htk). exists bond. split_and!; [done..|].
    intros [[Hlost _] Ham]%Htk. by split.
Qed.
End slashed.

(** ** Bonding *)

Section bonding_facts.
Context {V : Semver} {B : CosmosBank} {A : SdkAddress} {AL : SdkAddressLaws A} {R : MapRange} {L : AddressLib}.
Context {U : SdkUint} {UL : SdkUintLaws U} {D : SdkDec} {DL : SdkDecLaws D} {T : UintText} {C : PubKeyCodec}.
Context {AK : AccountKeeper}.
Implicit Types k : KVStore.

(** What neither the positions nor the pools see. *)
Definition same_positions k k' : Prop := kv_lps k' = kv_lps k /\ kv_pools k' = kv_pools k.

#[export] Instance same_positions_preorder : PreOrder same_positions.
Proof.
  split; [by split|]. intros x y z [H1 H2] [H3 H4]. split; congruence.
Qed.

Lemma same_positions_sound k k' : same_positions k k' -> positions_sound k -> positions_sound k'.
Proof. intros [H1 H2]. unfold positions_sound. by rewrite H1, H2. Qed.

Lemma k_SetNodeAccount_positions k na : same_positions k (k_SetNodeAccount k na).
Proof. unfold k_SetNodeAccount. by repeat destruct (if _ then _ else _) || case_match. Qed.

Lemma payBondProviderReward_positions k p bp k' bp' e :
  payBondProviderReward k p bp = Ok (k', bp', e) -> same_positions k k'.
Proof.
  unfold payBondProviderReward. destruct (BondProvider_Reward p) as [r|]; [|done].
  destruct (SendFromModuleToAccount _ _ _ _) as [k1|e1|] eqn:E; [|by intros [= <- _ _]|done].
  apply SendFromModuleToAccount_frame in E as [b ->]. cbv zeta.
  destruct (NewAddress _ _) as [x|x|]; [|by intros [= <- _ _]|done].
  destruct (GetModuleAddress _ _) as [y|y|]; [|by intros [= <- _ _]|done]. by intros [= <- _ _].
Qed.

(** Changing the bonds of a stored position. *)
Lemma rebond_sound k key lp lp' :
  positions_sound k -> kv_lps k !! key = Some lp -> sound_bonds lp' ->
  Lp_Asset lp' = Lp_Asset lp -> Lp_GetAddress lp' = Lp_GetAddress lp -> Lp_Units lp' = Lp_Units lp ->
  PendingCacao lp' = PendingCacao lp -> PendingAsset lp' = PendingAsset lp ->
  (savers_pool_key (lp_pool lp) = true -> BondedNodes lp' = []) ->
  positions_sound (SetLiquidityProvider k lp') /\ kv_lps (SetLiquidityProvider k lp') = <[key := lp']> (kv_lps k).
Proof.
  intros [Hb Hpos] Hlp Hs Ha Hg Hu Hc Hp Hsv. pose proof Hb as [Hl _]. destruct (Hl _ _ Hlp) as (Hkey & Hsl & H1 & H2 & H3).
  assert (Hk : GetKey (LiquidityProvider_Key lp') = key) by (rewrite Hkey, !Lp_Key_position; congruence).
  unfold SetLiquidityProvider, positions_sound. cbn [kv_lps kv_pools set_kv_lps]. rewrite Hk. split; [|done].
  destruct (Hpos _ _ Hlp) as (_ & Hh & _). split.
  - eapply books_rebond; try done; [|unfold lp_pool; congruence].
    unfold lp_stored. rewrite Hk, Hg, Hu, Hc, Hp. by split_and!.
  - apply map_Forall_insert_2; [|done]. split; [done|]. unfold housed, lp_pool in *. by rewrite Ha.
Qed.

(** A position that has units left is stored. *)
Lemma stored_position k asset addr :
  positions_sound k -> plain_address addr -> Lp_Units (GetLiquidityProvider k asset addr) <> 0 ->
  kv_lps k !! position_key asset addr = Some (GetLiquidityProvider k asset addr) /\
  sound_bonds (GetLiquidityProvider k asset addr) /\ is_uint (Lp_Units (GetLiquidityProvider k asset addr)).
Proof.
  intros [Hb Hpos] [He Hs] Hu. destruct (GetLiquidityProvider_books k asset addr Hb He Hs) as (_ & _ & Hst).
  destruct Hst as [[Hst Hd]|[_ Hst]]; [|rewrite Hst in Hu; by destruct (IsChain _ _ _)].
  split; [done|]. split; [by apply (Hpos _ _ Hst)|]. apply Hd.
Qed.

Lemma bonded_sum_nonneg l acc b :
  0 <= acc -> foldM (fun acc b => uint_add acc (LPB_Units b)) acc l = Ok b -> 0 <= b.
Proof.
  apply foldM_nonneg. intros a x c Ha Hc. apply uint_add_Ok in Hc as [-> Hc]. unfold is_uint in Hc. lia.
Qed.

Lemma create_account_positions k msg na k' na' :
  create_account k msg na = Ok (k', na') -> same_positions k k' /\ kv_version k' = kv_version k.
Proof.
  unfold create_account. destruct (_ && _); [|by intros [= <- _]].
  destruct (SendFromModuleToAccount _ _ _ _) as [k1|e1|] eqn:E; [|by intros [= <- _]|done].
  apply SendFromModuleToAccount_frame in E as [b ->]. by intros [= <- _].
Qed.

Definition bond_change (node : AccAddress) (u : Z) (lp lp' : LiquidityProvider) : Prop :=
  Lp_Units lp' = Lp_Units lp /\
  (exists r, GetRemainingUnits lp = Ok r /\ GetRemainingUnits lp' = Ok (r - u) /\ 0 < u <= r) /\
  forall m, m <> EmptyString ->
    GetUnitsBondedToNode lp' m = GetUnitsBondedToNode lp m + if decide (m = node) then u else 0.

Lemma bond_changes lp node units r :
  sound_bonds lp -> is_uint (Lp_Units lp) -> 0 <= units ->
  GetRemainingUnits lp = Ok r -> r <> 0 -> units <= r ->
  exists lp' u, (u ← units_to_bond lp units; Lp_Bond lp node u) = Ok lp' /\
    u = (if units =? 0 then r else units) /\ bond_change node u lp lp' /\ sound_bonds lp' /\
    lp' = with_bonds lp (NodeBondAddress lp) (BondedNodes lp').
Proof.
  intros Hs Hu H0 Hr Hr0 Hle. rewrite remaining_units in Hr by done.
  destruct (decide (NodeBondAddress lp = EmptyString)) as [He|He]; [|by injection Hr].
  injection Hr as Hr. pose proof Hs as (Hw & Ht & Hd). unfold is_uint in Hu.
  set (u := if units =? 0 then r else units). assert (Hur : 0 < u <= r).
  { unfold u. destruct (Z.eqb_spec units 0); lia. }
  assert (Hto : units_to_bond lp units = Ok u).
  { unfold units_to_bond, u. destruct (units =? 0); [|done]. rewrite remaining_units, decide_True by done.
    by rewrite Hr. }
  assert (Hue : u = if units =? 0 then r else units) by done. clearbody u.
  pose proof (total_bonded_at (BondedNodes lp) node Hw) as Hnn.
  destruct (Lp_Bond_total lp node u) as [lp' Hlp']; [done|lia|lia|]. exists lp', u.
  rewrite Hto. cbn [mbind outcome_bind]. split; [done|]. split; [done|].
  apply Lp_Bond_Ok in Hlp' as (bonds & -> & Hwf & Htot & Hat); [|done|lia].
  assert (Hs' : sound_bonds (with_bonds lp (NodeBondAddress lp) bonds)).
  { split_and!; [done|cbn [with_bonds BondedNodes Lp_Units]; lia|done]. }
  split; [|by split]. split; [done|]. split.
  - exists r. rewrite !remaining_units by (done || (unfold is_uint; cbn [with_bonds Lp_Units]; lia)).
    cbn [with_bonds NodeBondAddress BondedNodes Lp_Units]. rewrite !decide_True by done.
    rewrite Htot. split; [f_equal; lia|]. split; [f_equal; lia|done].
  - intros m Hm. rewrite !bonded_units_at by done. cbn [with_bonds BondedNodes]. by rewrite Hat.
Qed.

Lemma bond_Run_positions k msg k' :
  positions_sound k -> plain_address (Bond_BondAddress msg) -> 0 <= Bond_Units msg ->
  bond_Run k msg = Ok k' ->
  let key := position_key (Bond_Asset msg) (Bond_BondAddress msg) in
  positions_sound k' /\ kv_pools k' = kv_pools k /\
  (forall i, i <> key -> kv_lps k' !! i = kv_lps k !! i) /\
  if Asset_IsEmpty (Bond_Asset msg) then kv_lps k' = kv_lps k
  else exists lp lp' u,
    kv_lps k !! key = Some lp /\ kv_lps k' !! key = Some lp' /\
    (Bond_Units msg = 0 -> GetRemainingUnits lp = Ok u) /\ (Bond_Units msg <> 0 -> u = Bond_Units msg) /\
    bond_change (Bond_NodeAddress msg) u lp lp'.
Proof.
  intros Hk Hadr Hu0 H key. unfold bond_Run in H. apply bind_Ok in H as ([] & Hval & H).
  unfold bond_handleV107 in H. cbv zeta in H.
  apply bind_Ok in H as ([k1 na] & (Hs1 & Hv1)%create_account_positions & H).
  apply bind_Ok in H as (bp & _ & H). apply bind_Ok in H as ([k2 bp2] & Hbond & H).
  apply bind_Ok in H as ([k3 bp3] & Hrew & [= <-]).
  assert (Hs3 : same_positions k2 (SetBondProviders (k_SetNodeAccount k3 na) bp3)).
  { transitivity k3.
    - unfold bond_reward in Hrew. destruct (BondProviders_HasRewards _ _); [|by injection Hrew as <- _].
      apply bind_Ok in Hrew as ([[k4 bp4] e] & H4%payBondProviderReward_positions & [= <- _]). done.
    - transitivity (k_SetNodeAccount k3 na); [apply k_SetNodeAccount_positions|done]. }
  clear Hrew. set (k4 := SetBondProviders _ _) in *. clearbody k4.
  unfold bond_position in Hbond. unfold bond_validateV107 in Hval.
  apply bind_Ok in Hval as ([] & _ & Hval). cbv zeta in Hval.
  destruct (_ =? NodeStatus_Ready); [done|]. destruct (0 <? _); [done|]. destruct (negb (IsChain _ _ _)); [done|].
  destruct ((-1 <? OperatorFee msg) && _); [done|]. apply bind_Ok in Hval as ([] & _ & Hval).
  destruct (Asset_IsEmpty (Bond_Asset msg)) eqn:Ea.
  { injection Hbond as <- _. assert (Hs : same_positions k k4) by by transitivity k1.
    split; [by eapply same_positions_sound|]. destruct Hs as [Hs Hs']. by rewrite Hs. }
  unfold check_bond_asset in Hval. destruct (_ || _); [done|]. cbv zeta in Hval.
  set (lp := GetLiquidityProvider k (Bond_Asset msg) (Bond_BondAddress msg)) in *.
  assert (Hlp1 : GetLiquidityProvider k1 (Bond_Asset msg) (Bond_BondAddress msg) = lp).
  { unfold lp, GetLiquidityProvider. by rewrite Hv1, (proj1 Hs1). }
  rewrite Hlp1 in Hbond. apply bind_Ok in Hval as (r & Hr & Hval).
  destruct (Z.eqb_spec r 0) as [|Hr0]; [done|]. destruct (Z.ltb_spec r (Bond_Units msg)) as [|Hle]; [done|].
  destruct (_ && _); [done|]. apply bind_Ok in Hval as (nb & _ & Hval). apply bind_Ok in Hval as (lb & _ & Hval).
  apply bind_Ok in Hval as (tb & _ & Hval). destruct (_ && _); [done|].
  destruct (ContainsAsset (Bond_Asset msg) _) eqn:Hca; [|done]. clear Hval. apply ContainsAsset_plain in Hca.
  assert (Hun : Lp_Units lp <> 0).
  { intros E. apply Hr0. unfold GetRemainingUnits in Hr. destruct (negb _); [by injection Hr as <-|].
    apply bind_Ok in Hr as (b & Hb & Hr%SafeSub_inv). rewrite E in Hr.
    apply bonded_sum_nonneg in Hb; lia. }
  destruct (stored_position k _ _ Hk Hadr Hun) as (Hst & Hsb & Hlu). fold lp key in Hst, Hsb, Hlu.
  destruct (bond_changes lp (Bond_NodeAddress msg) (Bond_Units msg) r Hsb Hlu Hu0 Hr Hr0 Hle)
    as (lp' & u & Hb' & Hu & Hch & Hsb' & Hlp').
  apply bind_Ok in Hbond as (u' & Hu' & Hbond). rewrite Hu' in Hb'. cbn [mbind outcome_bind] in Hb'.
  rewrite Hb' in Hbond. cbn [mbind outcome_bind] in Hbond. apply bind_Ok in Hbond as (from & _ & [= <- _]).
  assert (Hk1 : positions_sound k1) by by eapply same_positions_sound.
  assert (Hst1 : kv_lps k1 !! key = Some lp) by (by rewrite (proj1 Hs1)).
  destruct (rebond_sound k1 key lp lp' Hk1 Hst1 Hsb') as [Hsound Hlps]; [by rewrite Hlp'..| |].
  { pose proof Hk as [[Hbk _] _]. destruct (Hbk _ _ Hst) as (Hkl & Hsl & _). rewrite Lp_Key_position in Hkl.
    unfold key in Hkl. apply position_key_inj in Hkl as [Hkl _]; [|apply Hadr|done].
    unfold lp_pool. rewrite <- Hkl, Hca. done. }
  split; [by eapply same_positions_sound|]. destruct Hs3 as [Hs3 Hs3'].
  rewrite Hs3, Hs3', Hlps, (proj1 Hs1). split_and!.
  - exact (proj2 Hs1).
  - intros i Hi. by rewrite lookup_insert_ne.
  - exists lp, lp', u. rewrite lookup_insert_eq. split_and!; try done.
    + intros E. rewrite Hu, E. done.
    + intros E. rewrite Hu. by destruct (Z.eqb_spec (Bond_Units msg) 0).
Qed.

(** C21: Bonding moves free units of one position to the node. No more than are free
    are bonded, all of them when none are named; no unit is created, no other bond,
    position or pool changes, and no position ends with more units bonded than it
    has. *)
Theorem bond_keeps_positions k msg k' :
  positions_sound k -> plain_address (Bond_BondAddress msg) -> 0 <= Bond_Units msg ->
  bond_Run k msg = Ok k' ->
  let key := position_key (Bond_Asset msg) (Bond_BondAddress msg) in
  positions_sound k' /\ kv_pools k' = kv_pools k /\
  (forall i, i <> key -> kv_lps k' !! i = kv_lps k !! i) /\
  if Asset_IsEmpty (Bond_Asset msg) then kv_lps k' = kv_lps k
  else exists lp lp' u,
    kv_lps k !! key = Some lp /\ kv_lps k' !! key = Some lp' /\
    (Bond_Units msg = 0 -> GetRemainingUnits lp = Ok u) /\ (Bond_Units msg <> 0 -> u = Bond_Units msg) /\
    bond_change (Bond_NodeAddress msg) u lp lp'.
Proof. apply bond_Run_positions. Qed.
End bonding_facts.

(** ** Witnesses *)

Section bond_witnesses.
Import Reference ReferenceBank ReferenceRange ReferenceAddress ReferenceText.

#[local] Instance bond_address : SdkAddress := {|
  acc_equals := String.eqb;
  acc_empty a := String.eqb a EmptyString;
  acc_string a := "maya1" +:+ a;
  acc_from_bech32 s := if HasPrefix s "maya1" then Some (String.substring 5 (String.length s - 5) s) else None;
|}.
#[local] Instance bond_codec : PubKeyCodec := {| pubkey_decodes s := negb (String.eqb s "bad") |}.
#[local] Instance bond_accounts : AccountKeeper := {| has_account _ _ := true |}.
Lemma bond_address_laws : SdkAddressLaws bond_address.
Proof.
  split; [apply String.eqb_eq|intros a; apply String.eqb_eq|].
  intros a _. cbn [acc_from_bech32 acc_string bond_address].
  assert (HasPrefix ("maya1" +:+ a) "maya1" = true) as -> by (by destruct a).
  assert (H : forall s, String.substring 0 (String.length s) s = s).
  { induction s as [|c s IH]; [done|]. cbn. by rewrite IH. }
  f_equal. change (String.substring 5 (5 + String.length a - 5) ("maya1" +:+ a) = a).
  replace (5 + String.length a - 5)%nat with (String.length a) by lia. apply H.
Qed.

(** "alice" runs "node1" and has bonded 200 units of bitcoin and 200 of ether to it. *)
Definition eth_pool : Pool := mkPool 5000 1000 ETHAsset 500 PoolStatus_Available 0 18 0 0 0.

Definition bonded_position (asset : Asset) (pending : Z) : LiquidityProvider :=
  with_bonds (position asset "maya1alice" "3alice" 400 pending) EmptyString [mkLPBondedNode "node1" 200].

Definition bond_start : KVStore :=
  let k := set_kv_pools (empty_kv (semver_release 1 124 0) (fun _ => 0) 10 ReferenceBank.empty)
             (<["ETH.ETH" := eth_pool]> (<["BTC.BTC" := btc_pool]> ∅)) in
  let k := set_kv_lps k
    (<["BTC.BTC/MAYA1ALICE" := bonded_position BTCAsset 70]>
     (<["ETH.ETH/MAYA1ALICE" := bonded_position ETHAsset 0]>
      (<["ETH.ETH/MAYA1BOB" := position ETHAsset "maya1bob" "3bob" 100 0]>
       (<["BTC.BTC/MAYA1BOB" := position BTCAsset "maya1bob" "3bob" 100 0]> ∅)))) in
  SetBondProviders k (mkBondProviders "node1" 0 [mkBondProvider "alice" true None]).

Definition bond_node : NodeAccount :=
  NewNodeAccount "node1" NodeStatus_Standby EmptyPubKeySet EmptyString EmptyString 0 "maya1alice" 1.

Lemma bond_start_sound : positions_sound bond_start.
Proof.
  assert (H : positions_sound_b bond_start = true) by by vm_compute. by apply positions_sound_b_spec.
Qed.

Definition bond_slash : outcome (KVStore * (Z * list PoolAmt)) := SlashNodeAccountLP bond_start bond_node 1000.

(** A slash of 1000 takes 25 units of each of the two positions and reports 2000. *)
Lemma slash_takes_bonded_units_witness :
  exists k' amounts, bond_slash = Ok (k', (2000, amounts)) /\ positions_sound k' /\
    Lp_Units (GetLiquidityProvider k' BTCAsset "maya1alice") = 375 /\
    Lp_Units (GetLiquidityProvider k' ETHAsset "maya1reserve") = 25.
Proof.
  assert (Hr : match bond_slash with
    | Ok (k', (total, _)) => (total =? 2000) && (Lp_Units (GetLiquidityProvider k' BTCAsset "maya1alice") =? 375)
        && (Lp_Units (GetLiquidityProvider k' ETHAsset "maya1reserve") =? 25)
    | _ => false end = true) by by vm_compute.
  destruct bond_slash as [[k' [total amounts]]| |] eqn:E; [|discriminate Hr..].
  destruct (slash_takes_bonded_units (AL := bond_address_laws) bond_start bond_node 1000 k' total amounts "maya1reserve")
    as (Hs & _); [apply bond_start_sound|done|lia|by vm_compute| | |exact E|].
  - by split; vm_compute.
  - constructor; [|constructor]. split; [by split; vm_compute|by vm_compute].
  - rewrite !andb_true_iff, !Z.eqb_eq in Hr. destruct Hr as [[-> H1] H2].
    exists k', amounts. exact (conj eq_refl (conj Hs (conj H1 H2))).
Defined.

Definition bond_tx : Tx := mkTx "T1" BASEChain "maya1alice" "maya1bond" [NewCoin BaseNative 1] [] EmptyString.

Definition bond_message : MsgBond :=
  NewMsgBond bond_tx "node1" 1 "maya1alice" EmptyString "alice" (-1) BTCAsset 150.

Definition bond_run : outcome KVStore := bond_Run bond_start bond_message.

Lemma bond_keeps_positions_witness :
  exists k', bond_run = Ok k' /\ positions_sound k' /\
    GetUnitsBondedToNode (GetLiquidityProvider k' BTCAsset "maya1alice") "node1" = 350.
Proof.
  assert (Hr : match bond_run with
    | Ok k' => GetUnitsBondedToNode (GetLiquidityProvider k' BTCAsset "maya1alice") "node1" =? 350
    | _ => false end = true) by by vm_compute.
  destruct bond_run as [k'| |] eqn:E; [|discriminate Hr..]. apply Z.eqb_eq in Hr.
  destruct (bond_keeps_positions (AL := bond_address_laws) bond_start bond_message k') as (Hs & _);
    [apply bond_start_sound|by split; vm_compute|by vm_compute|exact E|].
  exists k'. exact (conj eq_refl (conj Hs Hr)).
Defined.
End bond_witnesses.
