(* ===== verification/LiquidityLedger.v ===== *)
(** Every operation on the positions of liquidity providers keeps the books and the
    bonds: deposits, withdrawals, bonding, unbonding and the slash of a vault, in any
    order and any number. *)
From stdpp Require Import relations.
From S2P Require Import Prelude GoText Sdk Constants Floats Shares Chains Keys Addresses Assets Coins Txs.
From S2P Require Import NodeAccounts Votes TxOuts Vaults ObservedTxs Pools Mimirs StreamingSwaps SwapMsgs.
From S2P Require Import LiquidityProviders Records MayaNames Stores Keeper Nodes Bonds VaultStore Halts Gas.
From S2P Require Import TradeAccounts Swapper Swaps Affiliates Decimals Memos Collectors SwapChecks.
From S2P Require Import Liquidity AddLiquidity LiquidityBooks Withdraw WithdrawBooks Slashing Bonding BondBooks.

(** ** The invariant *)

Definition pool_nonneg (p : Pool) : Prop := 0 <= BalanceCacao p /\ 0 <= BalanceAsset p /\ 0 <= SynthUnits p.

Definition pool_nonneg_b (p : Pool) : bool :=
  (0 <=? BalanceCacao p) && (0 <=? BalanceAsset p) && (0 <=? SynthUnits p).

Record ledger_sound `{Semver, CosmosBank} (k : KVStore) : Prop := {
  ls_positions : positions_sound k;
  ls_pools : map_Forall (fun _ => pool_nonneg) (kv_pools k);
}.

Definition ledger_sound_b `{Semver, CosmosBank} (k : KVStore) : bool :=
  positions_sound_b k && forallb (fun e => pool_nonneg_b (snd e)) (map_to_list (kv_pools k)).

Lemma ledger_sound_b_spec `{Semver, CosmosBank} (k : KVStore) : ledger_sound_b k = true <-> ledger_sound k.
Proof.
  unfold ledger_sound_b. rewrite andb_true_iff, positions_sound_b_spec.
  pose proof (map_forallb (fun _ => pool_nonneg) (fun _ => pool_nonneg_b) (kv_pools k)) as Hm.
  cbv beta in Hm. rewrite Hm.
  - split; [by intros []|by intros []].
  - intros _ p. unfold pool_nonneg, pool_nonneg_b. rewrite !andb_true_iff. lia.
Qed.

(** Pools that change in nothing the books look at. *)
Definition pool_core (p : Pool) : Asset * Z * Z * Z :=
  (Pool_Asset p, LPUnits p, PendingInboundCacao p, PendingInboundAsset p).

Record keeps_ledger `{Semver, CosmosBank} (k k' : KVStore) : Prop := {
  kl_lps : kv_lps k' = kv_lps k;
  kl_pools : pool_core <$> kv_pools k' = pool_core <$> kv_pools k;
  kl_nonneg : map_Forall (fun _ => pool_nonneg) (kv_pools k) ->
    map_Forall (fun _ => pool_nonneg) (kv_pools k');
}.

#[export] Instance keeps_ledger_preorder `{Semver, CosmosBank} : PreOrder keeps_ledger.
Proof.
  split; [by split|]. intros x y z [] []. split; [congruence|congruence|auto].
Qed.

Lemma same_positions_keeps `{Semver, CosmosBank} (k k' : KVStore) : same_positions k k' -> keeps_ledger k k'.
Proof. intros [Hl Hp]. split; [done|by rewrite Hp|]. by rewrite Hp. Qed.

Lemma core_lookup (ps ps' : gmap string Pool) i p' :
  pool_core <$> ps' = pool_core <$> ps -> ps' !! i = Some p' ->
  exists p, ps !! i = Some p /\ pool_core p = pool_core p'.
Proof.
  intros He Hp. pose proof (f_equal (lookup i) He) as Hi. rewrite !lookup_fmap, Hp in Hi.
  destruct (ps !! i) as [p|]; [|discriminate Hi]. exists p. split; [done|].
  change (Some (pool_core p') = Some (pool_core p)) in Hi. congruence.
Qed.

Lemma keeps_ledger_sound `{Semver, CosmosBank} (k k' : KVStore) :
  keeps_ledger k k' -> ledger_sound k -> ledger_sound k'.
Proof.
  intros [Hl Hp Hn] [[[Hb1 Hb2] Hpos] Hnn]. split; [|by apply Hn].
  split; [split|]; rewrite Hl; [done| |].
  - intros i p' Hi. destruct (core_lookup _ _ _ _ Hp Hi) as (p & Hpi & [= Ha Hu Hc Hs]).
    destruct (Hb2 _ _ Hpi) as (H1 & H2 & H3 & H4 & H5 & H6 & H7 & H8). unfold pool_stored.
    rewrite <- Ha, <- Hu, <- Hc, <- Hs. by split_and!.
  - intros i lp Hi. destruct (Hpos _ _ Hi) as (Hsb & [p Hh] & Hsv). split; [done|]. split; [|done].
    unfold housed. destruct (core_lookup _ _ _ _ (eq_sym Hp) Hh) as (p' & -> & _). by eexists.
Qed.

(** What the manager of outbound transactions promises its clients: a scheduled item
    leaves the books and the bonds sound. *)
Class TxOutStoreLaws `{V : Semver} `{B : CosmosBank} (TO : TxOutStore) : Prop := {
  try_add_keeps : forall k toi minOut k' ok,
    TryAddTxOutItem k toi minOut = Ok (k', ok) -> ledger_sound k -> ledger_sound k';
  unsafe_add_keeps : forall k toi height k',
    UnSafeAddTxOutItem k toi height = Ok k' -> ledger_sound k -> ledger_sound k';
}.

(** ** Updates of one position and its pool *)

Lemma update_sound `{Semver, CosmosBank} (k k' : KVStore) key lp p' pool :
  ledger_sound k -> books (kv_lps k') (kv_pools k') ->
  kv_lps k' = <[key := lp]> (kv_lps k) -> kv_pools k' = <[pool := p']> (kv_pools k) ->
  lp_pool lp = pool -> sound_bonds lp -> (savers_pool_key pool = true -> BondedNodes lp = []) ->
  pool_nonneg p' -> ledger_sound k'.
Proof.
  intros [[_ Hpos] Hnn] Hb Hl Hp Hpool Hs Hsv Hn. split; [split; [done|]|].
  - rewrite Hl, Hp. apply map_Forall_insert_2.
    + split; [done|]. unfold housed. rewrite Hpool, lookup_insert_eq. split; [by eexists|done].
    + intros i x Hi. destruct (Hpos _ _ Hi) as (H1 & H2 & H3). split; [done|]. split; [|done].
      unfold housed in *. destruct (decide (pool = lp_pool x)) as [<-|].
      * rewrite lookup_insert_eq. by eexists.
      * by rewrite lookup_insert_ne.
  - rewrite Hp. by apply map_Forall_insert_2.
Qed.

Lemma remove_sound `{Semver, CosmosBank} (k k' : KVStore) key p' pool :
  ledger_sound k -> books (kv_lps k') (kv_pools k') ->
  kv_lps k' = delete key (kv_lps k) -> kv_pools k' = <[pool := p']> (kv_pools k) ->
  pool_nonneg p' -> ledger_sound k'.
Proof.
  intros [[_ Hpos] Hnn] Hb Hl Hp Hn. split; [split; [done|]|].
  - rewrite Hl, Hp. apply map_Forall_delete. intros i x Hi. destruct (Hpos _ _ Hi) as (H1 & H2 & H3).
    split; [done|]. split; [|done]. unfold housed in *. destruct (decide (pool = lp_pool x)) as [<-|].
    + rewrite lookup_insert_eq. by eexists.
    + by rewrite lookup_insert_ne.
  - rewrite Hp. by apply map_Forall_insert_2.
Qed.

(** ** Deposits and withdrawals *)

Section add_and_withdraw.
Context {V : Semver} {B : CosmosBank} {BL : CosmosBankLaws B} {A : SdkAddress} {AL : SdkAddressLaws A} {R : MapRange} {L : AddressLib}.
Context {U : SdkUint} {UL : SdkUintLaws U} {D : SdkDec} {DL : SdkDecLaws D} {T : UintText} {C : PubKeyCodec}.
Implicit Types k : KVStore.

Lemma addLiquidity_ledger k asset addCacao addAsset runeAddr assetAddr tx stage tier k' :
  ledger_sound k -> is_uint addCacao -> is_uint addAsset ->
  contains_char "/" (fetch_address runeAddr assetAddr) = false ->
  (IsVaultAsset asset = true -> Address_IsEmpty runeAddr = true) ->
  addLiquidityV108 k asset addCacao addAsset runeAddr assetAddr tx stage tier = Ok k' ->
  ledger_sound k'.
Proof.
  intros Hk Hc Ha Hs Hv H. pose proof Hk as [[Hb Hpos] Hnn].
  destruct (addLiquidity_inv _ _ _ _ _ _ _ _ _ _ Hb Hc Ha Hs Hv H)
    as (p & p' & old & su & Hp & Hp' & Hl' & Hb' & Hold & Hbal & Hpool & Hopool & Hgr & Hb1 & Hb2 & Hb3 & _).
  destruct (Hnn _ _ Hp) as (N1 & N2 & N3). specialize (Hbal N1 N2 N3).
  assert (Hsb : sound_bonds su /\ (savers_pool_key (GetKey (Asset_String asset)) = true -> BondedNodes su = [])).
  { destruct Hold as [Hold|[Hnone _]].
    - destruct (Hpos _ _ Hold) as ((W1 & W2 & W3) & _ & Hsv). unfold sound_bonds. rewrite Hb1, Hb2.
      split; [split_and!; [done|lia|done]|]. intros Hk0. apply Hsv. by rewrite Hopool.
    - specialize (Hb3 Hnone). unfold sound_bonds, bonds_wf, total_bonded. rewrite Hb1, Hb3.
      split; [|done]. split_and!; [constructor|constructor| |done].
      destruct Hb' as [Hl _]. assert (Hsu : kv_lps k' !! position_key asset (fetch_address runeAddr assetAddr) = Some su)
        by (by rewrite Hl', lookup_insert_eq).
      destruct (Hl _ _ Hsu) as (_ & _ & [Hu _] & _). by unfold sumZ. }
  destruct Hsb as [Hsb Hsv]. eapply update_sound; [exact Hk|exact Hb'|exact Hl'|exact Hp'|done..].
Qed.

Lemma sumZ_zero {X} (f : X -> Z) l : Forall (fun x => f x = 0) l -> sumZ f l = 0.
Proof. induction 1; cbn; unfold sumZ in *; lia. Qed.

(** A pool that is made has no positions. *)
Lemma new_pool_sound k p k' :
  ledger_sound k -> kv_pools k !! GetKey (Asset_String (Pool_Asset p)) = None ->
  LPUnits p = 0 -> PendingInboundCacao p = 0 -> PendingInboundAsset p = 0 -> pool_nonneg p ->
  SetPool k p = Ok k' -> ledger_sound k'.
Proof.
  intros [[[Hl Hp] Hpos] Hnn] Hnone Hu Hc Ha Hn H. assert (Hne : Asset_IsEmpty (Pool_Asset p) = false).
  { unfold SetPool in H. by destruct (Asset_IsEmpty _). }
  apply SetPool_stored in H as ->. set (key := GetKey _) in *.
  assert (Hz : forall f, sum_in f (kv_lps k) key = 0).
  { intros f. unfold sum_in, map_sum. apply sumZ_zero, Forall_forall. intros [i lp] Hi%elem_of_map_to_list. cbn.
    destruct (String.eqb_spec (lp_pool lp) key) as [E|]; [|done].
    destruct (Hpos _ _ Hi) as (_ & [q Hq] & _). rewrite E, Hnone in Hq. done. }
  split; [split; [split|]|]; cbn [kv_lps kv_pools set_kv_pools].
  - done.
  - apply map_Forall_insert_2; [|done]. unfold pool_stored. rewrite !Hz, Hu, Hc, Ha.
    by split_and!.
  - intros i lp Hi. destruct (Hpos _ _ Hi) as (H1 & [q Hq] & H3). split; [done|]. split; [|done].
    unfold housed. destruct (decide (key = lp_pool lp)) as [<-|]; [rewrite lookup_insert_eq|rewrite lookup_insert_ne by done];
      by eexists.
  - by apply map_Forall_insert_2.
Qed.

(** A deposit whose addresses name one position; savers have none on the Maya chain. *)
Record plain_deposit (msg : MsgAddLiquidity) : Prop := {
  pd_cacao : is_uint (CacaoAmount msg);
  pd_asset : is_uint (AssetAmount msg);
  pd_bps : 0 <= Add_AffiliateBasisPoints msg;
  pd_address : contains_char "/" (fetch_address (Add_CacaoAddress msg) (Add_AssetAddress msg)) = false;
  pd_affiliate : contains_char "/" (Add_AffiliateAddress msg) = false;
  pd_saver : IsVaultAsset (Add_Asset msg) = true -> Address_IsEmpty (Add_CacaoAddress msg) = true;
  pd_saver_affiliate : IsVaultAsset (Add_Asset msg) = true -> Add_AffiliateBasisPoints msg <> 0 ->
    forall v, IsChain (Add_AffiliateAddress msg) BASEChain v = false;
}.

Lemma share_uint bps amount : is_uint amount -> 0 <= bps -> is_uint (GetSafeShare bps 10000 amount).
Proof. intros Ha Hb. unfold is_uint in *. pose proof (GetSafeShare_range bps 10000 amount). lia. Qed.

Lemma rest_uint amount bps r :
  is_uint amount -> 0 <= bps -> SafeSub amount (GetSafeShare bps 10000 amount) = Ok r -> is_uint r.
Proof.
  intros Ha Hb ->%SafeSub_inv. pose proof (share_uint bps amount Ha Hb). unfold is_uint in *.
  pose proof (GetSafeShare_range bps 10000 amount). lia.
Qed.

Lemma ensure_pool_ledger k msg k' p :
  ledger_sound k -> ensure_pool k msg = Ok (k', p) ->
  ledger_sound k' /\ kv_pools k' !! GetKey (Asset_String (Pool_Asset p)) = Some p.
Proof.
  intros Hk H. unfold ensure_pool in H. cbv zeta in H. set (q := GetPool k (Add_Asset msg)) in H.
  destruct (kv_pools k !! GetKey (Asset_String (Add_Asset msg))) as [r|] eqn:E.
  - assert (Hq : q = r) by (unfold q, GetPool; by rewrite E). clearbody q. subst q.
    destruct Hk as [[[? Hp] ?] ?] eqn:Ek. destruct (Hp _ _ E) as (Hkey & Hne & _).
    unfold Pool_IsEmpty in H. rewrite Hne in H. injection H as <- <-. split; [done|]. by rewrite <- Hkey.
  - assert (Hq : q = NewPool) by (unfold q, GetPool; by rewrite E). clearbody q. subst q.
    change (Pool_IsEmpty NewPool) with true in H. cbn match in H. set (r := mkPool _ _ _ _ _ _ _ _ _ _) in H.
    apply bind_Ok in H as (k1 & H1 & [= <- <-]).
    pose proof (SetPool_stored _ _ _ H1) as Hs. split.
    + refine (new_pool_sound k r k1 Hk E _ _ _ _ H1); [done..|by split_and!].
    + rewrite Hs. cbn [kv_pools set_kv_pools Pool_Asset]. by rewrite lookup_insert_eq.
Qed.

Lemma set_decimals_keeps k p msg k' :
  kv_pools k !! GetKey (Asset_String (Pool_Asset p)) = Some p -> set_decimals k p msg = Ok k' -> keeps_ledger k k'.
Proof.
  intros Hp H. unfold set_decimals in H. cbv zeta in H. destruct (_ && _); [|by injection H as <-].
  apply SetPool_stored in H as ->. cbn [Pool_Asset]. split; [done| |].
  - cbn [kv_pools set_kv_pools]. rewrite fmap_insert. apply insert_id. by rewrite lookup_fmap, Hp.
  - intros Hn. cbn [kv_pools set_kv_pools]. apply map_Forall_insert_2; [|done]. exact (Hn _ _ Hp).
Qed.

Lemma add_Run_ledger k msg k' :
  ledger_sound k -> plain_deposit msg -> add_Run k msg = Ok k' -> ledger_sound k'.
Proof.
  intros Hk [Hc Ha Hb Hs Haf Hv Hva] H. unfold add_Run in H. apply bind_Ok in H as ([] & _ & H).
  unfold add_handleV112 in H. destruct (needsSwap msg).
  { unfold add_swapV110 in H. destruct (HasSwapQueueItem _ _ _); [done|].
    destruct (contains_char ":" _); [done|].
    apply bind_Ok in H as (bps & _ & H). cbv zeta in H. apply bind_Ok in H as ([] & _ & [= <-]).
    apply (keeps_ledger_sound k); [by apply same_positions_keeps|done]. }
  apply bind_Ok in H as ([k1 p] & [Hk1 Hp]%ensure_pool_ledger & H); [|done].
  apply bind_Ok in H as (k2 & H2%set_decimals_keeps & H); [|done]. cbv zeta in H.
  apply (keeps_ledger_sound k1) in H2; [|done]. destruct (Z.eqb_spec (Add_AffiliateBasisPoints msg) 0) as [|Hne].
  { by eapply addLiquidity_ledger; [exact H2|..|exact H]. }
  apply bind_Ok in H as (ur & Hur & H). apply bind_Ok in H as (ua & Hua & H). apply bind_Ok in H as (k3 & H3 & H).
  assert (Hk3 : ledger_sound k3).
  { eapply addLiquidity_ledger; [exact H2|exact (rest_uint _ _ _ Hc Hb Hur)|exact (rest_uint _ _ _ Ha Hb Hua)|exact Hs|exact Hv|exact H3]. }
  eapply addLiquidity_ledger; [exact Hk3|exact (share_uint _ _ Hc Hb)|exact (share_uint _ _ Ha Hb)| | |exact H].
  - destruct (IsChain _ _ _); unfold fetch_address.
    + destruct (Address_IsEmpty (Add_AffiliateAddress msg)); [done|exact Haf].
    + exact Haf.
  - intros Hvault. by rewrite (Hva Hvault Hne).
Qed.

Lemma vault_key a : IsVaultAsset a = true -> savers_pool_key (GetKey (Asset_String a)) = true.
Proof.
  unfold IsVaultAsset, IsSyntheticAsset, Asset_String. intros ->. rewrite !GetKey_app.
  unfold savers_pool_key. rewrite !contains_char_app.
  destruct (Asset_Trade a); [change (contains_char "~" (GetKey "~")) with true
                            |change (contains_char "/" (GetKey "/")) with true];
    by rewrite ?orb_true_r.
Qed.

(** The units that leave a position are free ones. *)
Lemma withdraw_ledger k msg k' w :
  ledger_sound k -> contains_char "/" (WithdrawAddress msg) = false ->
  withdraw k msg = Ok (k', w) -> ledger_sound k'.
Proof.
  intros Hk Hs H. pose proof Hk as [[Hb Hpos] Hnn].
  assert (Hw : exists checked, withdraw_with k checked msg = Ok (k', w)).
  { unfold withdraw in H. destruct (GTE _ _); by eexists. }
  destruct Hw as [checked Hw]. set (p := GetPool k (Wd_Asset msg)).
  assert (Hp : pool_nonneg p).
  { unfold p, GetPool. destruct (kv_pools k !! _) as [q|] eqn:E; [by apply (Hnn _ _ E)|by repeat split]. }
  destruct Hp as (N1 & N2 & N3).
  destruct (withdraw_inv k checked msg k' w Hb Hs N1 N2 N3 Hw)
    as (su & q & r & Hsu0 & Hq & [wc_pools0 wc_position0 _ _ wc_claim0 wc_balances0 _ _ _ _] & (rem & Hrem & Hle) & Hqs & Hkey & Hpk & Hb' & _).
  fold p in Hpk, Hq. destruct wc_position0 as (su' & Ha & Hg & Hu & Hu0 & [Hb1 Hb2] & _ & _ & _ & _ & Hl').
  destruct (Hpos _ _ Hsu0) as (Hsb & Hh & Hsv). pose proof Hb as [Hl _].
  destruct (Hl _ _ Hsu0) as (Hk0 & Hsl & Hun & _).
  assert (Hn : pool_nonneg r).
  { assert (BalanceCacao q = BalanceCacao p /\ BalanceAsset q = BalanceAsset p) as [E1 E2] by (by rewrite Hq).
    rewrite E1, E2 in wc_balances0. destruct (wc_balances0 N1 N2) as (M1 & M2 & M3). split_and!; lia. }
  assert (Hpool : GetKey (Asset_String (Pool_Asset q)) = lp_pool su').
  { rewrite Hq. cbn [Pool_Asset set_SynthUnits]. rewrite Hpk. unfold lp_pool. rewrite Ha.
    rewrite Hk0, Lp_Key_position in Hkey. symmetry in Hk0. rewrite Lp_Key_position in Hk0.
    apply position_key_inj in Hk0 as [E _]; [by symmetry|done|done]. }
  rewrite Hpool in wc_pools0. rewrite Hkey in Hl'.
  destruct Hl' as [Hl'|(Hl' & _)]; [|eapply remove_sound; [exact Hk|exact Hb'|exact Hl'|exact wc_pools0|exact Hn]].
  assert (Hlpp : lp_pool su' = lp_pool su) by (unfold lp_pool; by rewrite Ha).
  eapply update_sound; [exact Hk|exact Hb'|exact Hl'|exact wc_pools0|done| | |exact Hn].
  - destruct Hsb as (W1 & W2 & W3). unfold sound_bonds. rewrite Hb1, Hb2. split_and!; [done| |done].
    destruct (decide (BondedNodes su = [])) as [->|Hne]; [by unfold total_bonded, sumZ; cbn|].
    assert (Hd : NodeBondAddress su = EmptyString).
    { destruct (decide (NodeBondAddress su = EmptyString)); [done|]. exfalso. by apply Hne, W3. }
    rewrite remaining_units, decide_True in Hrem by done. injection Hrem as Hrem.
    assert (Hc : paid_units w <= GetSafeShare (Wd_BasisPoints msg) 10000 (Lp_Units su)).
    { apply wc_claim0. left. apply not_true_iff_false. intros Hvault. apply Hne, Hsv.
      rewrite <- Hlpp, <- Hpool. by apply vault_key. }
    lia.
  - rewrite Hlpp, Hb1. exact Hsv.
Qed.

(** ** Paying for a withdrawal *)

Context {TO : TxOutStore} {TL : TxOutStoreLaws TO}.

Lemma withdraw_transfer_sound k msg gas coin addr k' :
  withdraw_transfer k msg gas coin addr = Ok k' -> ledger_sound k -> ledger_sound k'.
Proof.
  unfold withdraw_transfer. cbv zeta. intros H. apply bind_Ok in H as ([maxGas rate] & _ & H).
  destruct (TryAddTxOutItem _ _ _) as [[k1 ok]| |] eqn:E; [|done..]. destruct ok; [|done]. injection H as <-.
  by eapply try_add_keeps.
Qed.

Lemma pay_asset_sound k msg lp w k' : pay_asset k msg lp w = Ok k' -> ledger_sound k -> ledger_sound k'.
Proof.
  unfold pay_asset. destruct (_ =? 0); [by intros [= <-]|]. cbv zeta. destruct (_ && _).
  - unfold withdraw_swapV110. destruct (HasSwapQueueItem _ _ _); [done|]. cbv zeta. intros H.
    apply bind_Ok in H as ([] & _ & [= <-]). by apply keeps_ledger_sound, same_positions_keeps.
  - apply withdraw_transfer_sound.
Qed.

Lemma pay_cacao_sound k msg lp w k' : pay_cacao k msg lp w = Ok k' -> ledger_sound k -> ledger_sound k'.
Proof.
  unfold pay_cacao. intros H Hk. apply bind_Ok in H as (pol & _ & H). destruct (_ =? 0); [by injection H as <-|].
  apply bind_Ok in H as (g & _ & H). cbv zeta in H. apply bind_Ok in H as (k1 & H1%withdraw_transfer_sound & H); [|done].
  destruct (_ && _); [|by injection H as <-].
  apply bind_Ok in H as (x & _ & [= <-]). apply (keeps_ledger_sound k1); [by apply same_positions_keeps|done].
Qed.

Lemma SendFromModuleToModule_keeps k from to coins k' :
  SendFromModuleToModule k from to coins = Ok k' -> keeps_ledger k k'.
Proof. intros [b ->]%SendFromModuleToModule_frame. by apply same_positions_keeps. Qed.

Lemma withdraw_Run_ledger k msg k' :
  ledger_sound k -> contains_char "/" (WithdrawAddress msg) = false ->
  withdraw_Run k msg = Ok k' -> ledger_sound k'.
Proof.
  intros Hk Hs H. unfold withdraw_Run in H. apply bind_Ok in H as ([] & _ & H). unfold withdraw_handleV110 in H.
  cbv zeta in H. apply bind_Ok in H as ([k1 w] & H1 & H).
  destruct (withdraw k msg) as [r| |] eqn:E; [|done..]. injection H1 as ->.
  apply bind_Ok in H as (k2 & H2%pay_asset_sound & H); [|by eapply withdraw_ledger].
  apply bind_Ok in H as (k3 & H3%pay_cacao_sound & H); [|done].
  destruct (Coin_IsEmpty _); [by injection H as <-|]. eapply keeps_ledger_sound; [|exact H3].
  by eapply SendFromModuleToModule_keeps.
Qed.

(** ** Slashing a vault *)

Lemma subsidize_fund_ledger k f k' e :
  ledger_sound k -> subsidize_fund k f = Ok (k', e) -> ledger_sound k'.
Proof.
  intros Hk H. unfold subsidize_fund in H. cbv zeta in H. set (p := GetPool k (fund_asset f)) in *.
  destruct (Pool_IsEmpty p) eqn:He; [by injection H as <- _|].
  apply bind_Ok in H as (c & [-> Hc]%uint_add_Ok & H). apply bind_Ok in H as (a & ->%SafeSub_inv & H).
  apply bind_Ok in H as (k1 & H1%SetPool_stored & H). cbn [Pool_Asset set_BalanceAsset set_BalanceCacao] in H1.
  assert (Hst : kv_pools k !! GetKey (Asset_String (Pool_Asset p)) = Some p).
  { destruct (kv_pools k !! GetKey (Asset_String (fund_asset f))) as [q|] eqn:E.
    - assert (Hpq : p = q) by (unfold p, GetPool; by rewrite E).
      destruct Hk as [[[_ Hp] _] _]. destruct (Hp _ _ E) as (Hq & _). rewrite Hpq, <- Hq. exact E.
    - exfalso. assert (Hpe : p = NewPool) by (unfold p, GetPool; by rewrite E). rewrite Hpe in He. by vm_compute in He. }
  assert (K1 : keeps_ledger k k1).
  { subst k1. set (p' := set_BalanceAsset _ _). split; [done| |].
    - cbn [kv_pools set_kv_pools]. apply map_eq. intros i. rewrite !lookup_fmap.
      destruct (decide (GetKey (Asset_String (Pool_Asset p)) = i)) as [<-|].
      + by rewrite lookup_insert_eq, Hst.
      + by rewrite lookup_insert_ne.
    - intros Hn. cbn [kv_pools set_kv_pools]. apply map_Forall_insert_2; [|done].
      destruct (Hn _ _ Hst) as (N1 & N2 & N3). unfold is_uint in Hc. split_and!; cbn; lia. }
  destruct (subsidiseRune f =? 0); [injection H as <- _; by eapply keeps_ledger_sound|].
  destruct (SendFromModuleToModule _ _ _ _) as [k2| |] eqn:E2; [| |done]; injection H as <- _;
    (eapply keeps_ledger_sound; [|exact Hk]); [|done].
  transitivity k1; [done|]. by eapply SendFromModuleToModule_keeps.
Qed.

Lemma subsidize_funds_ledger funds : forall k k' e,
  ledger_sound k -> subsidize_funds k funds = Ok (k', e) -> ledger_sound k'.
Proof.
  induction funds as [|f funds IH]; intros k k' e Hk H; [by injection H as <- _|].
  cbn [subsidize_funds] in H. apply bind_Ok in H as ([k1 e1] & H1 & H).
  apply subsidize_fund_ledger in H1; [|done]. destruct e1; [by injection H as <- _|]. by eapply IH.
Qed.

Lemma remove_pol_ledger k funds pol asgard signer stolen liquidity asset k' :
  ledger_sound k -> contains_char "/" pol = false ->
  remove_pol k funds pol asgard signer stolen liquidity asset = Ok k' -> ledger_sound k'.
Proof.
  intros Hk Hs H. unfold remove_pol in H. cbv zeta in H. destruct (_ || _); [by injection H as <-|].
  apply bind_Ok in H as (part & _ & H). unfold logged in H.
  destruct (withdraw_Run _ _) as [k1| |] eqn:E; [|by injection H as <-|done]. injection H as <-.
  by eapply withdraw_Run_ledger; [exact Hk| |exact E].
Qed.

Lemma foldM_keeps {X Y} (P : X -> Prop) (f : X -> Y -> outcome X) (Q : Y -> Prop) :
  (forall x y x', P x -> Q y -> f x y = Ok x' -> P x') ->
  forall l x x', P x -> Forall Q l -> foldM f x l = Ok x' -> P x'.
Proof.
  intros Hf l. induction l as [|y l IH]; intros x x' Hx Hl H; [by injection H as <-|].
  apply Forall_cons in Hl as [Hy Hl]. cbn [foldM] in H. apply bind_Ok in H as (x1 & H1 & H).
  eapply IH; [|done|exact H]. by eapply Hf.
Qed.

Lemma subsidize_pools_ledger k coins stolen slashed k' e :
  ledger_sound k -> (forall pol, GetModuleAddress k ReserveName = Ok pol -> plain_address pol) ->
  subsidizePoolsWithSlashBond k coins stolen slashed = Ok (k', e) -> ledger_sound k'.
Proof.
  intros Hk Hpol H. unfold subsidizePoolsWithSlashBond in H. destruct (GTE _ _); [|by injection H as <- _].
  unfold subsidizePoolWithSlashBondV92 in H. destruct (_ || _); [by injection H as <- _|].
  destruct (GetModuleAddress k ReserveName) as [pol|x|] eqn:Ep; [|by injection H as <- _|done].
  destruct (Hpol _ eq_refl) as [_ Hslash].
  apply bind_Ok in H as (liq & _ & H). cbv zeta in H. apply bind_Ok in H as (funds & _ & H).
  apply bind_Ok in H as (rich & _ & H). apply bind_Ok in H as ([k1 e1] & H1 & H).
  assert (Hk1 : ledger_sound k1).
  { destruct rich; [by eapply subsidize_funds_ledger|by injection H1 as <- _]. }
  destruct e1; [by injection H as <- _|].
  destruct (GetModuleAddress k1 AsgardName); [|by injection H as <- _|done].
  destruct (ListActiveValidators k1); [by injection H as <- _|].
  apply bind_Ok in H as (k2 & H2 & [= <- _]).
  eapply (foldM_keeps ledger_sound _ (fun _ => True)); [|exact Hk1| |exact H2]; [|by apply Forall_true].
  intros x y x' Hx _ Hy. by eapply remove_pol_ledger; [exact Hx| |exact Hy].
Qed.
End add_and_withdraw.

(** ** Slashing, bonding and unbonding *)

Section slash_bond_unbond.
Context {V : Semver} {B : CosmosBank} {BL : CosmosBankLaws B} {A : SdkAddress} {AL : SdkAddressLaws A} {R : MapRange} {L : AddressLib}.
Context {U : SdkUint} {UL : SdkUintLaws U} {D : SdkDec} {DL : SdkDecLaws D} {T : UintText} {C : PubKeyCodec}.
Context {K : PubKeyAddress} {AK : AccountKeeper} {TO : TxOutStore} {TL : TxOutStoreLaws TO}.
Implicit Types k : KVStore.

(** The reserve is no provider of a node, and the accounts of the nodes have names. *)
Record reserve_apart k : Prop := {
  ra_reserve : forall v pol, NewAddress (acc_string (bank_module ReserveName)) v = Ok pol -> plain_address pol;
  ra_providers : forall pol node, GetModuleAddress k ReserveName = Ok pol ->
    plain_providers pol (Providers (GetBondProviders k node));
  ra_addresses : forall node, Forall (fun b => plain_address (acc_string (BondProvider_BondAddress b)))
    (Providers (GetBondProviders k node));
  ra_members : forall pk na, GetNodeAccountByPubKey k pk = Ok na -> NodeAddress na <> EmptyString;
}.

Lemma reserve_apart_lps k lps : reserve_apart k -> reserve_apart (set_kv_lps k lps).
Proof. by intros []; split. Qed.

Lemma slash_ledger k na slash k' total amounts :
  ledger_sound k -> reserve_apart k -> NodeAddress na <> EmptyString -> 0 <= slash ->
  SlashNodeAccountLP k na slash = Ok (k', (total, amounts)) ->
  ledger_sound k' /\ k' = set_kv_lps k (kv_lps k').
Proof.
  intros [Hpos Hnn] [Hp Hprov _ _] Hn Hs H.
  destruct (SlashNodeAccountLP_step k na slash k' total amounts Hpos Hn Hs) as (pol & [Hlps Hst _ _] & _);
    [by intros pol Hpol; split; [by eapply Hp|apply Hprov]|done|].
  split; [|done]. split; [by apply Hst|]. by rewrite Hlps.
Qed.

Lemma SetMimir_ledger k key v :
  ledger_sound k -> reserve_apart k -> ledger_sound (SetMimir k key v) /\ reserve_apart (SetMimir k key v).
Proof.
  intros Hk [H1 H2 H3 H4]. unfold SetMimir. destruct (haveKraken k); [done|].
  split; [|by split]. apply (keeps_ledger_sound k); [by apply same_positions_keeps|done].
Qed.

Lemma slash_coins_ledger vault coins : forall k t s k' t' s',
  ledger_sound k -> reserve_apart k -> 0 <= t -> foldM (slash_coin vault) (k, (t, s)) coins = Ok (k', (t', s')) ->
  ledger_sound k' /\ reserve_apart k' /\ 0 <= t'.
Proof.
  induction coins as [|coin coins IH]; intros k t s k' t' s' Hk Hr Ht H; [by injection H as <- <- _|].
  cbn [foldM] in H. apply bind_Ok in H as ([k1 [t1 s1]] & H1 & H). unfold slash_coin in H1. cbv zeta in H1.
  destruct (_ || _); [injection H1 as <- <- _; by eapply IH|]. apply bind_Ok in H1 as (a & _ & H1).
  destruct (_ =? 0); [injection H1 as <- <- _; by eapply IH|].
  apply bind_Ok in H1 as (b & [Hb Hb']%uint_add_Ok & [= <- <- _]). unfold is_uint in Hb'.
  assert (Hp : ledger_sound (pause_on_slash k coin b) /\ reserve_apart (pause_on_slash k coin b)).
  { unfold pause_on_slash. cbv zeta. destruct (_ && _); [|done].
    destruct (SetMimir_ledger k mimirStopFundYggdrasil (kv_height k) Hk Hr). by apply SetMimir_ledger. }
  destruct Hp. eapply IH; [done..| |exact H]. lia.
Qed.

Lemma slash_member_ledger bond total k slashed member k' slashed' :
  ledger_sound k -> reserve_apart k -> 0 <= bond -> 0 <= total ->
  slash_member bond total (k, slashed) member = Ok (k', slashed') ->
  ledger_sound k' /\ reserve_apart k'.
Proof.
  intros Hk Hr Hb Ht H. unfold slash_member in H.
  destruct (GetNodeAccountByPubKey k member) as [na|e|] eqn:E; [|by injection H as <- _|done].
  apply bind_Ok in H as (nb & Hnb%CalcNodeLiquidityBond_nonneg & H). destruct (nb =? 0); [by injection H as <- _|].
  cbv zeta in H. set (s := if _ <? _ then _ else _) in H.
  assert (Hs : 0 <= s).
  { pose proof (GetSafeShare_range nb bond total Hnb Hb Ht). unfold s. destruct (_ <? _); lia. }
  clearbody s. destruct (SlashNodeAccountLP k na s) as [[k1 [sl am]]|e|] eqn:Es; [|by injection H as <- _|done].
  apply bind_Ok in H as (c & _ & [= <- _]).
  destruct (slash_ledger _ _ _ _ _ _ Hk Hr (ra_members _ Hr _ _ E) Hs Es) as [Hk1 He].
  split; [done|]. rewrite He. by apply reserve_apart_lps.
Qed.

Lemma slash_members_ledger bond total members : forall k slashed k' slashed',
  ledger_sound k -> reserve_apart k -> 0 <= bond -> 0 <= total ->
  foldM (slash_member bond total) (k, slashed) members = Ok (k', slashed') ->
  ledger_sound k' /\ reserve_apart k'.
Proof.
  induction members as [|m members IH]; intros k slashed k' slashed' Hk Hr Hb Ht H; [by injection H as <- _|].
  cbn [foldM] in H. apply bind_Ok in H as ([k1 s1] & H1 & H).
  apply slash_member_ledger in H1 as [Hk1 Hr1]; [|done..]. by eapply IH; [..|exact H].
Qed.

Lemma membership_bond_nonneg k membership b : membership_bond k membership = Ok b -> 0 <= b.
Proof.
  apply foldM_nonneg; [|done]. intros a x c Ha Hc.
  destruct (GetNodeAccountByPubKey k x); [|by injection Hc as <-|done].
  apply bind_Ok in Hc as (nb & _ & [-> Hc]%uint_add_Ok). unfold is_uint in Hc. lia.
Qed.

Lemma SlashVaultToLP_ledger k pk coins subsidize k' e :
  ledger_sound k -> reserve_apart k -> SlashVaultToLP k pk coins subsidize = Ok (k', e) -> ledger_sound k'.
Proof.
  intros Hk Hr H. unfold SlashVaultToLP in H. destruct (Coins_IsEmpty coins); [by injection H as <- _|].
  destruct (GetVault k pk) as [vault|x|]; [|by injection H as <- _|done]. cbv zeta in H.
  apply bind_Ok in H as (bond & Hbond%membership_bond_nonneg & H).
  apply bind_Ok in H as ([k1 [t s]] & H1 & H). apply slash_coins_ledger in H1 as (Hk1 & Hr1 & Ht); [|done..].
  apply bind_Ok in H as ([k2 sl] & H2 & H). apply slash_members_ledger in H2 as [Hk2 Hr2]; [|done..].
  destruct subsidize; [|by injection H as <- _]. eapply subsidize_pools_ledger; [exact Hk2|intros pol; apply Hr2|exact H].
Qed.

(** Any unbonding leaves a position no more bonded than it is worth. *)
Lemma unbond_sound lp node u lp' :
  sound_bonds lp -> is_uint (Lp_Units lp) -> 0 <= u < 2 ^ 256 -> Lp_Unbond lp node u = Ok lp' ->
  sound_bonds lp' /\ lp' = with_bonds lp (NodeBondAddress lp') (BondedNodes lp').
Proof.
  intros (Hw & Ht & Hd) Hu Hu0 H. unfold Lp_Unbond in H. unfold is_uint in Hu.
  destruct (acc_empty (NodeBondAddress lp)) eqn:E; cbn [negb] in H.
  - destruct (unbond_first_Ok node u (BondedNodes lp) Hw Hu0) as (r & Hr & Hwr & _ & Htr & _). rewrite Hr in H.
    injection H as <-. split; [|done]. pose proof (total_bonded_at (BondedNodes lp) node Hw).
    split_and!; [done|cbn [with_bonds BondedNodes Lp_Units]; lia|].
    intros Hne. apply acc_empty_law in E. done.
  - assert (Hnil : BondedNodes lp = []).
    { apply Hd. intros Ee. apply acc_empty_law in Ee. congruence. }
    destruct (Z.ltb_spec u (Lp_Units lp)).
    + rewrite SafeSub_total in H by (unfold is_uint; lia). cbn [mbind outcome_bind] in H. injection H as <-. rewrite Z.max_r by lia.
      split; [|done]. split_and!; [apply bond_singleton_wf; lia| |done].
      unfold total_bonded, sumZ. cbn. lia.
    + injection H as <-. split; [|done]. rewrite Hnil. split_and!; [by split; constructor| |done].
      unfold total_bonded, sumZ. cbn. lia.
Qed.

Lemma unbond_stored k key lp node u lp' :
  ledger_sound k -> kv_lps k !! key = Some lp -> savers_pool_key (lp_pool lp) = false -> 0 <= u < 2 ^ 256 ->
  Lp_Unbond lp node u = Ok lp' ->
  ledger_sound (SetLiquidityProvider k lp') /\
  SetLiquidityProvider k lp' = set_kv_lps k (<[key := lp']> (kv_lps k)).
Proof.
  intros [Hpos Hnn] Hlp Hsv Hu H. pose proof Hpos as [[Hl _] Hp].
  destruct (Hp _ _ Hlp) as (Hsb & _ & _). destruct (Hl _ _ Hlp) as (_ & _ & Hlu & _).
  destruct (unbond_sound _ _ _ _ Hsb Hlu Hu H) as [Hsb' He].
  destruct (rebond_sound k key lp lp' Hpos Hlp Hsb') as [Hs Hlps]; [by rewrite He..|by rewrite Hsv|].
  split; [by split|]. unfold SetLiquidityProvider in *. cbn [kv_lps set_kv_lps] in Hlps. by rewrite Hlps.
Qed.

Lemma release_positions_ledger acc node units l : forall k w t k' w' t',
  ledger_sound k -> node <> EmptyString -> is_uint units -> plain_address (acc_string acc) ->
  Forall (fun lp => kv_lps k !! position_key (Lp_Asset lp) (acc_string acc) = Some lp) l ->
  NoDup (map lp_pool l) -> Forall (fun lp => savers_pool_key (lp_pool lp) = false) l ->
  foldM (release_position acc node units) (k, (w, t)) l = Ok (k', (w', t')) ->
  ledger_sound k' /\ k' = set_kv_lps k (kv_lps k').
Proof.
  induction l as [|lp l IH]; intros k w t k' w' t' Hk Hn Hu Hadr Hl Hnd Hsv H.
  { injection H as <- _ _. split; [done|]. by rewrite set_kv_lps_id. }
  apply Forall_cons in Hl as [Hlp Hl]. apply Forall_cons in Hsv as [Hsv0 Hsv]. cbn [map] in Hnd.
  apply NoDup_cons in Hnd as [Hni Hnd]. cbn [foldM] in H. apply bind_Ok in H as ([k1 [w1 t1]] & H1 & H).
  unfold release_position in H1. cbv zeta in H1. set (wu := if _ || _ then _ else _) in H1.
  assert (Hwu : 0 <= wu < 2 ^ 256).
  { destruct Hk as [[[Hb _] Hp] _]. destruct (Hb _ _ Hlp) as (_ & _ & Hlu & _). destruct (Hp _ _ Hlp) as (Hsb & _).
    pose proof (bonded_le_units lp node Hsb Hlu Hn). unfold is_uint in *. unfold wu. destruct (_ || _); lia. }
  clearbody wu. apply bind_Ok in H1 as (v & _ & H1). apply bind_Ok in H1 as (w2 & _ & H1).
  apply bind_Ok in H1 as (t2 & _ & H1). apply bind_Ok in H1 as (lp' & Hlp' & [= <- _ _]).
  destruct (unbond_stored _ _ _ _ _ _ Hk Hlp Hsv0 Hwu Hlp') as [Hk1 He]. rewrite He in *.
  assert (Hl' : Forall (fun x => <[position_key (Lp_Asset lp) (acc_string acc) := lp']> (kv_lps k)
    !! position_key (Lp_Asset x) (acc_string acc) = Some x) l).
  { rewrite Forall_forall in Hl |- *. intros x Hx. rewrite lookup_insert_ne; [by apply Hl|].
    intros E. apply position_key_inj in E as [E _]; [|apply Hadr..]. apply Hni.
    apply list_elem_of_fmap. exists x. by split. }
  destruct (IH _ _ _ _ _ _ Hk1 Hn Hu Hadr Hl' Hnd Hsv H) as [Hk' He']. split; [done|]. by rewrite He' at 1.
Qed.

Lemma BondProviders_Get_in bp acc :
  BondProvider_IsEmpty (BondProviders_Get bp acc) = false ->
  BondProviders_Get bp acc ∈ Providers bp /\ BondProvider_BondAddress (BondProviders_Get bp acc) = acc.
Proof.
  unfold BondProviders_Get. destruct (List.find _ _) as [p|] eqn:E; [|by unfold BondProvider_IsEmpty; cbn; rewrite (proj2 (acc_empty_law _) eq_refl)].
  intros _. apply find_some in E as [Hin He]. split; [by apply list_elem_of_In|].
  unfold is_provider in He. by apply acc_equals_law in He.
Qed.

Lemma release_ledger k na acc assets units bp k' bp' :
  ledger_sound k -> NodeAddress na <> EmptyString -> is_uint units -> plain_address (acc_string acc) ->
  NoDup (map (fun a => GetKey (Asset_String a)) assets) ->
  Forall (fun a => savers_pool_key (GetKey (Asset_String a)) = false) assets ->
  release_positions k na acc assets units bp = Ok (k', bp') -> ledger_sound k'.
Proof.
  intros Hk Hn Hu Hadr Hnd Hsv H. unfold release_positions in H. cbv zeta in H.
  apply bind_Ok in H as ([k1 [w t]] & H1 & H).
  destruct (stored_positions k assets _ (ls_positions _ Hk) Hadr Hnd) as (Hst & Hnd' & Hin).
  apply release_positions_ledger in H1 as [Hk1 _]; try done.
  - destruct (BondProvider_HasRewards _); [|by injection H as <- _].
    apply bind_Ok in H as ([[k2 bp2] e] & H2%payBondProviderReward_positions & H).
    destruct e; [done|]. injection H as <- _. by eapply keeps_ledger_sound; [apply same_positions_keeps|].
  - eapply Forall_impl; [exact Hin|]. cbn. intros lp (a & Ha & ->). rewrite Forall_forall in Hsv. by apply Hsv.
Qed.

Lemma total_value_nonneg k ygg total : getTotalYggValueInRune k ygg = Ok total -> 0 <= total.
Proof.
  apply foldM_nonneg; [|done]. intros a x c Ha Hc.
  destruct (IsBase _); apply uint_add_Ok in Hc as [-> Hc]; unfold is_uint in Hc; lia.
Qed.

Lemma uncapped_nonneg part total alloc : 0 <= GetUncappedShare part total alloc.
Proof. apply GetUncappedShare_uint. Qed.

Lemma SetVault_positions k v k' : SetVault k v = Ok k' -> same_positions k k'.
Proof.
  unfold SetVault. intros H. apply bind_Ok in H as (k1 & H1 & [= <-]).
  destruct (IsAsgard v); [|by injection H1 as <-]. unfold addAsgardIndex in H1.
  apply bind_Ok in H1 as (pks & _ & H1). destruct (existsb _ _); by injection H1 as <-.
Qed.

Lemma DeleteVault_positions k pk k' : DeleteVault k pk = Ok k' -> same_positions k k'.
Proof.
  unfold DeleteVault. destruct (GetVault k pk) as [v|e|]; [|by destruct (String.eqb _ _); [intros [= <-]|]|done].
  destruct (HasFunds v); [done|]. intros H. apply bind_Ok in H as (k1 & H1 & [= <-]).
  destruct (IsAsgard v); [|by injection H1 as <-]. destruct (RemoveFromAsgardIndex k pk) eqn:E; [|by injection H1 as <-|done].
  injection H1 as ->. unfold RemoveFromAsgardIndex in E. by apply bind_Ok in E as (pks & _ & [= <-]).
Qed.

Lemma close_vault_positions k ygg k' : close_vault k ygg = Ok k' -> same_positions k k'.
Proof.
  unfold close_vault. intros H. apply bind_Ok in H as (v & _ & H).
  apply bind_Ok in H as (k1 & H1%SetVault_positions & H%DeleteVault_positions). by transitivity k1.
Qed.

Lemma RequestYggReturn_sound k na k' : RequestYggReturn k na = Ok k' -> ledger_sound k -> ledger_sound k'.
Proof.
  unfold RequestYggReturn. destruct (negb _); [by intros [= <-]|]. intros H Hk. apply bind_Ok in H as (ygg & _ & H).
  destruct (_ || _); [by injection H as <-|]. apply bind_Ok in H as (active & _ & H).
  apply bind_Ok in H as (retiring & _ & H). cbv zeta in H. apply bind_Ok in H as (vault & _ & H).
  destruct (Vault_IsEmpty vault); [done|].
  eapply (foldM_keeps ledger_sound _ (fun _ => True)); [|exact Hk|by apply Forall_true|exact H].
  clear H. intros x chain x' Hx _ H. cbv beta in H. destruct (_ || _); [by injection H as <-|].
  apply bind_Ok in H as (addr & _ & H). destruct (Address_IsEmpty addr); [by injection H as <-|].
  apply bind_Ok in H as (rate & _ & H). apply bind_Ok in H as (r & _ & H). by eapply unsafe_add_keeps.
Qed.

Lemma settle_vault_ledger k na k' b :
  ledger_sound k -> reserve_apart k -> NodeAddress na <> EmptyString ->
  settle_vault k na = Ok (k', b) -> ledger_sound k' /\ (b = true -> k' = set_kv_lps k (kv_lps k')).
Proof.
  intros Hk Hr Hn H. unfold settle_vault in H. apply bind_Ok in H as (ygg & _ & H).
  destruct (HasFunds ygg); [|by injection H as <- _; rewrite set_kv_lps_id].
  apply bind_Ok in H as ([can total] & _ & H). destruct (negb can).
  - destruct (RequestYggReturn k na) as [k1| |] eqn:E; [|done..]. injection H as <- <-.
    split; [|done]. by eapply RequestYggReturn_sound.
  - cbv zeta in H. set (s := GetUncappedShare _ _ _) in H. assert (Hs : 0 <= s) by apply uncapped_nonneg.
    clearbody s. destruct (SlashNodeAccountLP k na s) as [[k1 [t am]]| |] eqn:E; [|done..]. injection H as <- _.
    by destruct (slash_ledger _ _ _ _ _ _ Hk Hr Hn Hs E).
Qed.

Lemma refund_ledger k acc asset units na k' na' :
  ledger_sound k -> reserve_apart k -> NodeAddress na <> EmptyString -> is_uint units ->
  (Asset_IsEmpty asset = false -> savers_pool_key (GetKey (Asset_String asset)) = false) ->
  refundBond k acc asset units na = Ok (k', na') -> ledger_sound k'.
Proof.
  intros Hk Hr Hn Hu Hsv H. unfold refundBond, refundBondV109 in H. destruct (_ || _); [by injection H as <- _|].
  apply bind_Ok in H as (bond & Hbond%CalcNodeLiquidityBond_nonneg & H). apply bind_Ok in H as (ygg & _ & H).
  destruct (_ && negb (IsYggdrasil ygg)); [done|]. cbv zeta in H.
  apply bind_Ok in H as (rune & _ & H). apply bind_Ok in H as ([k1 sl] & H1 & H).
  assert (Hk1 : ledger_sound k1).
  { unfold slash_remains in H1. cbv zeta in H1. set (s := if _ <? _ then _ else _) in H1.
    assert (Hs : 0 <= s).
    { unfold s. pose proof (uncapped_nonneg (u64 (GetConfigInt64 k (ConstantName_String "SlashPenalty"))) 10000 rune).
      destruct (_ <? _); lia. }
    clearbody s. destruct (SlashNodeAccountLP k na s) as [[k2 [t am]]| |] eqn:E; [|done..]. injection H1 as <- _.
    by destruct (slash_ledger _ _ _ _ _ _ Hk Hr Hn Hs E). }
  destruct (Asset_IsEmpty asset && _); [done|]. apply bind_Ok in H as ([k2 bp2] & H2 & H).
  apply bind_Ok in H as ([k3 e] & H3 & H). apply bind_Ok in H as (k4 & H4%close_vault_positions & [= <- _]).
  assert (Hk2 : ledger_sound k2).
  { destruct (BondProvider_IsEmpty _) eqn:Ee; cbn [negb andb] in H2; [by injection H2 as <- _|].
    destruct (negb (bond =? 0)); [|by injection H2 as <- _].
    destruct (BondProviders_Get_in _ _ Ee) as [Hin Ha]. pose proof (ra_addresses _ Hr (NodeAddress na)) as Hadr.
    rewrite Forall_forall in Hadr. specialize (Hadr _ Hin). rewrite Ha in Hadr.
    eapply release_ledger; [exact Hk1|exact Hn|exact Hu|exact Hadr| | |exact H2].
    - destruct (Asset_IsEmpty asset); [apply liquidity_pools_distinct|apply NoDup_singleton].
    - destruct (Asset_IsEmpty asset); [|by apply Forall_singleton, Hsv].
      rewrite Forall_forall. intros a. apply liquidity_pools_plain. }
  apply (keeps_ledger_sound k3); [by apply same_positions_keeps|].
  eapply subsidize_pools_ledger; [|intros pol; apply Hr|exact H3].
  apply (keeps_ledger_sound k2); [|done]. apply same_positions_keeps.
  transitivity (k_SetNodeAccount k2 (if RequestedToLeave na then UpdateStatus na NodeStatus_Disabled (kv_height k2) else na));
    [apply k_SetNodeAccount_positions|done].
Qed.

Lemma drop_provider_positions k na a k' : drop_provider k na a = Ok k' -> same_positions k k'.
Proof.
  unfold drop_provider. destruct (acc_empty a); [by intros [= <-]|]. cbv zeta. intros H.
  apply bind_Ok in H as (b & _ & H). destruct (_ && _); [|by injection H as <-].
  destruct (BondProviders_Remove _ _) as [bp removed]. injection H as <-. by destruct removed.
Qed.

Lemma unbond_Run_ledger k msg k' :
  ledger_sound k -> reserve_apart k -> is_uint (UnBond_Units msg) ->
  NodeAddress (GetNodeAccount k (UnBond_NodeAddress msg)) <> EmptyString ->
  unbond_Run k msg = Ok k' -> ledger_sound k'.
Proof.
  intros Hk Hr Hu Hn H. unfold unbond_Run in H. apply bind_Ok in H as ([] & Hval & H).
  assert (Hsv : Asset_IsEmpty (UnBond_Asset msg) = false ->
    savers_pool_key (GetKey (Asset_String (UnBond_Asset msg))) = false).
  { intros Ha. unfold unbond_validateV105 in Hval. apply bind_Ok in Hval as ([] & _ & Hval). cbv zeta in Hval.
    destruct (_ || _); [done|]. destruct (0 <? _); [done|]. apply bind_Ok in Hval as ([] & _ & Hval).
    destruct (IsJailed _ _); [done|]. apply bind_Ok in Hval as (from & _ & Hval).
    destruct (_ && _); [done|]. rewrite Ha in Hval. destruct (_ =? 0); [done|]. destruct (_ <? _); [done|].
    destruct (ContainsAsset _ _) eqn:Hc; [|done]. by eapply ContainsAsset_plain. }
  clear Hval. unfold unbond_handleV108 in H. cbv zeta in H. set (na := GetNodeAccount _ _) in *. clearbody na.
  apply bind_Ok in H as ([k1 settled] & [Hk1 He1]%settle_vault_ledger & H); [|done..].
  destruct settled; cbn [negb] in H; [|by injection H as <-]. specialize (He1 eq_refl).
  assert (Hr1 : reserve_apart k1) by (rewrite He1; by apply reserve_apart_lps).
  destruct (_ <? _); [done|]. apply bind_Ok in H as (vaults & _ & H). destruct (existsb _ _); [done|].
  apply bind_Ok in H as (from & _ & H). set (provider := if Address_Equals _ _ && _ then _ else _) in H. clearbody provider.
  apply bind_Ok in H as ([k2 na2] & H2 & H).
  destruct (refundBond k1 provider (UnBond_Asset msg) (UnBond_Units msg) na) as [[k3 na3]| |] eqn:E; [|done..].
  injection H2 as -> ->. apply refund_ledger in E as Hk2; [|done..].
  apply bind_Ok in H as (k4 & H4%drop_provider_positions & H).
  assert (Hk4 : ledger_sound k4) by (by apply (keeps_ledger_sound k2); [apply same_positions_keeps|]).
  destruct (Coin_IsEmpty _); [by injection H as <-|]. apply bind_Ok in H as (reward & _ & [= <-]).
  apply (keeps_ledger_sound k4); [|done]. apply same_positions_keeps, k_SetNodeAccount_positions.
Qed.

Lemma bond_Run_ledger k msg k' :
  ledger_sound k -> plain_address (Bond_BondAddress msg) -> 0 <= Bond_Units msg ->
  bond_Run k msg = Ok k' -> ledger_sound k'.
Proof.
  intros [Hpos Hnn] Ha Hu H. destruct (bond_Run_positions k msg k' Hpos Ha Hu H) as (Hs & Hp & _).
  split; [done|]. by rewrite Hp.
Qed.

(** ** Any sequence of operations *)

(** What the messages of liquidity providers, bond providers and the slasher do. *)
Inductive liquidity_step : KVStore -> KVStore -> Prop :=
  | step_add k msg k' : plain_deposit msg -> add_Run k msg = Ok k' -> liquidity_step k k'
  | step_withdraw k msg k' : contains_char "/" (WithdrawAddress msg) = false ->
      withdraw_Run k msg = Ok k' -> liquidity_step k k'
  | step_slash k pk coins subsidize k' e : reserve_apart k ->
      SlashVaultToLP k pk coins subsidize = Ok (k', e) -> liquidity_step k k'
  | step_bond k msg k' : plain_address (Bond_BondAddress msg) -> 0 <= Bond_Units msg ->
      bond_Run k msg = Ok k' -> liquidity_step k k'
  | step_unbond k msg k' : reserve_apart k -> is_uint (UnBond_Units msg) ->
      NodeAddress (GetNodeAccount k (UnBond_NodeAddress msg)) <> EmptyString ->
      unbond_Run k msg = Ok k' -> liquidity_step k k'.

Lemma liquidity_step_sound k k' : liquidity_step k k' -> ledger_sound k -> ledger_sound k'.
Proof.
  intros H Hk. destruct H; [by eapply add_Run_ledger|by eapply withdraw_Run_ledger|
    by eapply SlashVaultToLP_ledger|by eapply bond_Run_ledger|by eapply unbond_Run_ledger].
Qed.

(** Whatever sequence of deposits, withdrawals, slashes of vaults, bonds and
    unbonds is run, in any order: the units and the pending amounts of every pool stay
    the sums over its positions, no position ends with more units bonded than it has,
    every position has its pool, savers bond nothing and no balance is negative. *)
Theorem liquidity_steps_sound k k' :
  ledger_sound k -> rtc liquidity_step k k' -> ledger_sound k'.
Proof. intros Hk H. induction H as [|x y z Hxy _ IH]; [done|]. by eapply IH, liquidity_step_sound. Qed.
End slash_bond_unbond.

(** ** A run of every operation *)

Section ledger_witnesses.
Import Reference ReferenceBank ReferenceRange ReferenceAddress ReferenceText.

#[local] Existing Instance bond_address.
#[local] Existing Instance bond_codec.
#[local] Existing Instance bond_accounts.
#[local] Instance ledger_txout : TxOutStore := {|
  TryAddTxOutItem := fun k _ _ => Ok (k, true);
  UnSafeAddTxOutItem := fun k _ _ => Ok k;
|}.
#[local] Instance ledger_keys : PubKeyAddress := {|
  pubkey_address pk chain := Ok pk;
  GetThorAddress pk := Ok ("node" +:+ pk);
|}.

Lemma ledger_txout_laws : TxOutStoreLaws ledger_txout.
Proof. split; [by intros k toi m k' ok [= <- _] Hk|by intros k toi h k' [= <-] Hk]. Qed.

(** A vault of the node that "alice" bonds to, and a reserve that takes part. *)
Definition ledger_vault : Vault :=
  mkVault 1 "vault" [NewCoin BTCAsset 500] VaultType_AsgardVault VaultStatus_ActiveVault 1 ["1"] ["BTC"]
    0 0 [] [] [] EmptyPubKey.

Definition ledger_start : KVStore :=
  let k := set_kv_vaults bond_start {[ "VAULT" := ledger_vault ]} in
  let k := k_SetNodeAccount k
    (NewNodeAccount "node2" NodeStatus_Active EmptyPubKeySet EmptyString EmptyString 0 "maya1carol" 1) in
  SetMimir (SetMimir k "SlashPenalty" 15000) "POL-BTC-BTC" 1.

Definition ledger_bond : outcome KVStore := bond_Run ledger_start bond_message.

Definition ledger_slash : outcome (KVStore * option string) :=
  k ← ledger_bond; SlashVaultToLP k "vault" [NewCoin BTCAsset 100] true.

Definition ledger_withdraw : outcome KVStore :=
  '(k, _) ← ledger_slash;
  withdraw_Run k (NewMsgWithdrawLiquidity (add_tx "maya1bob" []) "maya1bob" 5000 BTCAsset EmptyAsset "bob").

Definition ledger_deposit : MsgAddLiquidity :=
  NewMsgAddLiquidity (add_tx "maya1bob" [NewCoin BaseAsset 50]) BTCAsset 50 0 "maya1bob" "3bob" NoAddress 0 "bob" 0.

Definition ledger_unbond : MsgUnBond :=
  NewMsgUnBond (add_tx "maya1alice" []) "node1" "maya1alice" EmptyString "alice" BTCAsset 50.

Definition ledger_add : outcome KVStore := k ← ledger_withdraw; add_Run k ledger_deposit.
Definition ledger_end : outcome KVStore := k ← ledger_add; unbond_Run k ledger_unbond.

Definition apart_address (a : Address) : bool :=
  negb (Address_IsEmpty a) && negb (contains_char "/" a) && negb (String.eqb (GetKey a) "MAYA1RESERVE").

Definition apart_b (k : KVStore) : bool :=
  forallb (fun e => forallb (fun b => apart_address (acc_string (BondProvider_BondAddress b))) (Providers (snd e)))
    (map_to_list (kv_bond_providers k)) &&
  forallb (fun e => negb (String.eqb (NodeAddress (snd e)) EmptyString)) (map_to_list (kv_node_accounts k)).

Lemma apart_address_spec a :
  apart_address a = true -> plain_address a /\ GetKey a <> "MAYA1RESERVE".
Proof.
  unfold apart_address. rewrite !andb_true_iff, !negb_true_iff, String.eqb_neq. intros [[H1 H2] H3].
  by split; [split|].
Qed.

Lemma reserve_string v : NewAddress (acc_string (bank_module ReserveName)) v = Ok "maya1reserve".
Proof. unfold NewAddress. destruct (GTE _ _); [by vm_compute|]. destruct (GTE _ _); by vm_compute. Qed.

Lemma apart_b_spec k : apart_b k = true -> reserve_apart k.
Proof.
  unfold apart_b. intros [H1 H2]%andb_prop. rewrite forallb_forall in H1, H2.
  assert (Hp : forall node, Forall (fun b => apart_address (acc_string (BondProvider_BondAddress b)) = true)
    (Providers (GetBondProviders k node))).
  { intros node. unfold GetBondProviders. destruct (kv_bond_providers k !! _) as [bp|] eqn:E; [|by constructor].
    apply elem_of_map_to_list, list_elem_of_In, H1 in E. rewrite forallb_forall in E. apply Forall_forall.
    intros b Hb%list_elem_of_In. by apply E. }
  split.
  - intros v pol. rewrite reserve_string. intros [= <-]. by split; vm_compute.
  - intros pol node. unfold GetModuleAddress. rewrite reserve_string. intros [= <-].
    eapply Forall_impl; [apply Hp|]. cbn beta. intros b Hb%apart_address_spec. exact Hb.
  - intros node. eapply Forall_impl; [apply Hp|]. cbn beta. intros b [Hb _]%apart_address_spec. exact Hb.
  - intros pk na H. change (Ok (GetNodeAccount k ("node" +:+ pk)) = Ok na) in H. injection H as <-. unfold GetNodeAccount.
    destruct (kv_node_accounts k !! _) as [x|] eqn:E; [|by cbn].
    apply elem_of_map_to_list, list_elem_of_In, H2, negb_true_iff, String.eqb_neq in E. exact E.
Qed.

Lemma ledger_deposit_plain : plain_deposit ledger_deposit.
Proof.
  assert (Hv : IsVaultAsset (Add_Asset ledger_deposit) = false) by by vm_compute.
  split; [by split; vm_compute|by split; vm_compute|by vm_compute|by vm_compute|by vm_compute| |].
  - intros H. by rewrite Hv in H.
  - intros H. by rewrite Hv in H.
Qed.

Definition ledger_check : bool :=
  match ledger_bond, ledger_add, ledger_end with
  | Ok k1, Ok k4, Ok k5 =>
      apart_b k1 && apart_b k4 && negb (String.eqb (NodeAddress (GetNodeAccount k4 "node1")) EmptyString) &&
      (GetUnitsBondedToNode (GetLiquidityProvider k5 BTCAsset "maya1alice") "node1" =? 276)
  | _, _, _ => false
  end.

(** "alice" bonds 150 units more, the vault is slashed, "bob" withdraws and deposits,
    and "alice" releases 50 of the 326 units that are left to her node. *)
Lemma liquidity_steps_sound_witness :
  exists k5, ledger_end = Ok k5 /\ rtc liquidity_step ledger_start k5 /\ ledger_sound k5 /\
    GetUnitsBondedToNode (GetLiquidityProvider k5 BTCAsset "maya1alice") "node1" = 276.
Proof.
  assert (Hr : ledger_check = true) by by vm_compute. unfold ledger_check in Hr.
  assert (H0 : ledger_sound_b ledger_start = true) by by vm_compute. apply ledger_sound_b_spec in H0.
  destruct ledger_bond as [k1| |] eqn:E1; [|discriminate Hr..].
  destruct ledger_add as [k4| |] eqn:E4; [|discriminate Hr..].
  destruct ledger_end as [k5| |] eqn:E5; [|discriminate Hr..].
  rewrite !andb_true_iff, negb_true_iff, String.eqb_neq, Z.eqb_eq in Hr. destruct Hr as [[[A1 A4] N4] U5].
  apply apart_b_spec in A1, A4. exists k5. split; [reflexivity|].
  unfold ledger_end in E5. rewrite E4 in E5. cbn [mbind outcome_bind] in E5.
  unfold ledger_add in E4. apply bind_Ok in E4 as (k3 & E3 & E4). unfold ledger_withdraw in E3.
  apply bind_Ok in E3 as ([k2 e] & E2 & E3). unfold ledger_slash in E2. rewrite E1 in E2.
  cbn [mbind outcome_bind] in E2.
  assert (Hs : rtc liquidity_step ledger_start k5).
  { eapply rtc_l; [eapply step_bond; [| |exact E1]; [by split; vm_compute|by vm_compute]|].
    eapply rtc_l; [eapply step_slash; [exact A1|exact E2]|].
    eapply rtc_l; [eapply step_withdraw; [|exact E3]; by vm_compute|].
    eapply rtc_l; [eapply step_add; [|exact E4]|].
    - exact ledger_deposit_plain.
    - apply rtc_once. refine (step_unbond k4 ledger_unbond k5 A4 _ N4 E5). by split; vm_compute. }
  split; [exact Hs|]. split; [|exact U5].
  exact (liquidity_steps_sound (AL := bond_address_laws) (TL := ledger_txout_laws) ledger_start k5 H0 Hs).
Defined.
End ledger_witnesses.
