(* ===== verification/Outbounds.v ===== *)
(** [x/mayachain/manager_txout_current.go]: the manager of outbound transactions. It
    takes the fees, chooses the vaults that send and the block they send in, and
    pays what stays on the Maya chain at once. *)
From stdpp Require Import pretty.
From S2P Require Import Prelude GoText Sdk Constants Floats Shares Chains Keys Addresses Assets Coins Txs.
From S2P Require Import NodeAccounts Votes TxOuts Vaults ObservedTxs Pools Mimirs StreamingSwaps SwapMsgs.
From S2P Require Import LiquidityProviders Records MayaNames Stores Keeper Nodes Bonds VaultStore Halts Gas.
From S2P Require Import TradeAccounts Swapper Swaps Affiliates Decimals Memos Collectors SwapChecks.
From S2P Require Import Liquidity AddLiquidity Withdraw Slashing.

(** ** Items, voters and messages *)

Definition toi_with_amount (o : TxOutItem) (amt : Z) : TxOutItem :=
  mkTxOutItem (Toi_Chain o) (Toi_ToAddress o) (Toi_VaultPubKey o) (set_Amount (Toi_Coin o) amt) (Toi_Memo o)
    (MaxGas o) (GasRate o) (InHash o) (OutHash o) (TxOuts.ModuleName o) (Toi_Aggregator o)
    (AggregatorTargetAsset o) (Toi_AggregatorTargetLimit o) (VaultPubKeyEddsa o).

Definition toi_with_vault (o : TxOutItem) (pk : PubKey) : TxOutItem :=
  mkTxOutItem (Toi_Chain o) (Toi_ToAddress o) pk (Toi_Coin o) (Toi_Memo o)
    (MaxGas o) (GasRate o) (InHash o) (OutHash o) (TxOuts.ModuleName o) (Toi_Aggregator o)
    (AggregatorTargetAsset o) (Toi_AggregatorTargetLimit o) (VaultPubKeyEddsa o).

Definition toi_with_gas (o : TxOutItem) (gas : Gas) (rate : Z) : TxOutItem :=
  mkTxOutItem (Toi_Chain o) (Toi_ToAddress o) (Toi_VaultPubKey o) (Toi_Coin o) (Toi_Memo o)
    gas rate (InHash o) (OutHash o) (TxOuts.ModuleName o) (Toi_Aggregator o)
    (AggregatorTargetAsset o) (Toi_AggregatorTargetLimit o) (VaultPubKeyEddsa o).

Definition toi_with_memo (o : TxOutItem) (memo : string) (inHash : TxID) : TxOutItem :=
  mkTxOutItem (Toi_Chain o) (Toi_ToAddress o) (Toi_VaultPubKey o) (Toi_Coin o) memo
    (MaxGas o) (GasRate o) inHash (OutHash o) (TxOuts.ModuleName o) (Toi_Aggregator o)
    (AggregatorTargetAsset o) (Toi_AggregatorTargetLimit o) (VaultPubKeyEddsa o).

Definition toi_with_module (o : TxOutItem) (module : string) : TxOutItem :=
  mkTxOutItem (Toi_Chain o) (Toi_ToAddress o) (Toi_VaultPubKey o) (Toi_Coin o) (Toi_Memo o)
    (MaxGas o) (GasRate o) (InHash o) (OutHash o) module (Toi_Aggregator o)
    (AggregatorTargetAsset o) (Toi_AggregatorTargetLimit o) (VaultPubKeyEddsa o).

Definition voter_with_actions (m : ObservedTxVoter) (finalised : Z) (actions : list TxOutItem)
  : ObservedTxVoter :=
  mkObservedTxVoter (Voter_TxID m) (Voter_Tx m) (Voter_Height m) (Voter_Txs m) actions (ObservedTxs.OutTxs m)
    finalised (UpdatedVault m) (Reverted m) (OutboundHeight m).

Definition voter_with_outbound (m : ObservedTxVoter) (height : Z) : ObservedTxVoter :=
  mkObservedTxVoter (Voter_TxID m) (Voter_Tx m) (Voter_Height m) (Voter_Txs m) (Actions m) (ObservedTxs.OutTxs m)
    (FinalisedHeight m) (UpdatedVault m) (Reverted m) height.

Definition with_gas_withheld (m : Network) (v : Z) : Network :=
  mkNetwork (BondRewardRune m) (TotalBondUnits m) (LPIncomeSplit m) (NodeIncomeSplit m)
    (OutboundGasSpentCacao m) v.

Record MsgOutboundTx := mkMsgOutboundTx {
  OutMsg_Tx : ObservedTx;
  OutMsg_InTxID : TxID;
  OutMsg_Signer : AccAddress;
}.

Record MsgRefundTx := mkMsgRefundTx {
  Refund_Tx : ObservedTx;
  Refund_InTxID : TxID;
  Refund_Signer : AccAddress;
}.

Definition NewMsgOutboundTx (tx : ObservedTx) (txID : TxID) (signer : AccAddress) : MsgOutboundTx :=
  mkMsgOutboundTx tx txID signer.
Definition NewMsgRefundTx (tx : ObservedTx) (txID : TxID) (signer : AccAddress) : MsgRefundTx :=
  mkMsgRefundTx tx txID signer.

Section outbound_messages.
Context `{A : SdkAddress}.

Definition MsgOutboundTx_ValidateBasic (m : MsgOutboundTx) : outcome unit :=
  if acc_empty (OutMsg_Signer m) then Err "invalid address"
  else if TxID_IsEmpty (OutMsg_InTxID m) then Err "In Tx ID cannot be empty"
  else ObservedTx_Valid (OutMsg_Tx m).

Definition MsgRefundTx_ValidateBasic (m : MsgRefundTx) : outcome unit :=
  if acc_empty (Refund_Signer m) then Err "invalid address"
  else if TxID_IsEmpty (Refund_InTxID m) then Err "In Tx ID cannot be empty"
  else ObservedTx_Valid (Refund_Tx m).
End outbound_messages.

(** The handlers that a payment on the Maya chain may reach by a memo that is
    neither an outbound nor a refund. *)
Class InternalHandlers `{Semver, CosmosBank} := {
  handle_internal : KVStore -> ObservedTx -> Memo -> outcome KVStore;
}.

Section outbounds.
Context `{V : Semver} `{B : CosmosBank} `{A : SdkAddress} `{R : MapRange} `{L : AddressLib}.
Context `{U : SdkUint} `{D : SdkDec} `{SH : Sha256} `{T : UintText} `{C : PubKeyCodec} `{K : PubKeyAddress}.
Context `{SS : SliceSort} {IH : InternalHandlers}.
Implicit Types (k : KVStore) (gm : GasMgr).

(** ** Payments on the Maya chain *)

(** The first part of [CommonOutboundTxHandler.handleV96]: the transaction is
    noted with the inbound one it answers. *)
Definition note_out_tx k (tx : Tx) (inTxID : TxID) : outcome (KVStore * ObservedTxVoter) :=
  '(voter, _) ← AddOutTx (GetObservedTxInVoter k inTxID) tx;
  Ok (SetObservedTxInVoter k voter, voter).

(** [processOneTxIn] and the internal handler, for a transaction of the network
    itself. The message is validated when it is made and when it is handled. *)
Definition native_handler k (tx : ObservedTx) (signer : AccAddress) : outcome KVStore :=
  match Tx_Coins (Obs_Tx tx) with
  | [_] =>
      match ParseMemoWithMAYANames k (Tx_Memo (Obs_Tx tx)) with
      | (MOutbound txID as memo, []) =>
          _ ← MsgOutboundTx_ValidateBasic (NewMsgOutboundTx tx txID signer);
          if Chain_Equals (Tx_Chain (Obs_Tx tx)) BASEChain
          then '(k, _) ← note_out_tx k (Obs_Tx tx) txID; Ok k
          else handle_internal k tx memo
      | (MRefund txID as memo, []) =>
          _ ← MsgRefundTx_ValidateBasic (NewMsgRefundTx tx txID signer);
          if Chain_Equals (Tx_Chain (Obs_Tx tx)) BASEChain
          then '(k, _) ← note_out_tx k (Obs_Tx tx) txID; Ok k
          else handle_internal k tx memo
      | (memo, []) => handle_internal k tx memo
      | (_, e :: _) => Err e
      end
  | _ => Err "only send 1 coins per message"
  end.

Definition native_transfer k (toi : TxOutItem) (addr : AccAddress) (polAddress affColAddress : Address)
  : outcome KVStore :=
  if IsTradeAsset (Coin_Asset (Toi_Coin toi)) then
    match TradeMgr_Deposit k (Coin_Asset (Toi_Coin toi)) (Coin_Amount (Toi_Coin toi)) addr with
    | Ok (k, _) => Ok k
    | Err _ => Err "fail to deposit to trade account"
    | Panic => Panic
    end
  else if Address_Equals polAddress (Toi_ToAddress toi)
  then SendFromModuleToModule k (TxOuts.ModuleName toi) ReserveName [Toi_Coin toi]
  else if Address_Equals affColAddress (Toi_ToAddress toi)
  then SendFromModuleToModule k (TxOuts.ModuleName toi) AffiliateCollectorName [Toi_Coin toi]
  else SendFromModuleToAccount k (TxOuts.ModuleName toi) addr [Toi_Coin toi].

Definition nativeTxOut k (toi : TxOutItem) : outcome KVStore :=
  addr ← AccAddress_of (Toi_ToAddress toi);
  let toi := if String.eqb (TxOuts.ModuleName toi) EmptyString then toi_with_module toi AsgardName else toi in
  k ← (if String.eqb (TxOuts.ModuleName toi) Stores.ModuleName
       then MintToModule k (TxOuts.ModuleName toi) (Toi_Coin toi) else Ok k);
  polAddress ← GetModuleAddress k ReserveName;
  affColAddress ← GetModuleAddress k AffiliateCollectorName;
  k ← native_transfer k toi addr polAddress affColAddress;
  from ← GetModuleAddress k (TxOuts.ModuleName toi);
  let outboundTxFee := mimir_or_constant k "OutboundTransactionFee" in
  let tx := NewTx BlankTxID from (Toi_ToAddress toi) [Toi_Coin toi]
              [NewCoin BaseAsset (u64 outboundTxFee)] (Toi_Memo toi) in
  active ← GetAsgardVaultsByStatus k VaultStatus_ActiveVault;
  match active with
  | [] => Err "dev error: no pubkey for native txn"
  | vault :: _ =>
      native_handler k (NewObservedTx tx (kv_height k) (Vault_PubKey vault) (kv_height k))
        (bank_module AsgardName)
  end.

Definition addToBlockOut k (item : TxOutItem) (outboundHeight : Z) : outcome KVStore :=
  if IsBASEChain (Toi_Chain item) then nativeTxOut k item else Ok (AppendTxOut k outboundHeight item).

Definition UnSafeAddTxOutItem_current k (toi : TxOutItem) (height : Z) : outcome KVStore :=
  if IsNoop (Toi_ToAddress toi) then Ok k else addToBlockOut k toi height.

(** ** The vaults that send *)

(** The vaults that hold some of the asset and are not frozen, with how many of
    their size the amount would take. *)
Fixpoint vaults_necessary (toi : TxOutItem) (maxGasAsset : Coin) (vaults : list Vault)
  : outcome (list (Vault * Z)) :=
  match vaults with
  | [] => Ok []
  | vault :: vaults' =>
      let held := Coin_Amount (Vault_GetCoin vault (Coin_Asset (Toi_Coin toi))) in
      if held =? 0 then vaults_necessary toi maxGasAsset vaults'
      else if (0 <? Z.of_nat (length (Frozen vault)))
              && Chains_Has (fst (NewChains (Frozen vault))) (GetChain (Coin_Asset maxGasAsset))
      then vaults_necessary toi maxGasAsset vaults'
      else
        quotient ← uint_quo (Coin_Amount (Toi_Coin toi)) held;
        estimate ← amount_uint64 quotient;
        rest ← vaults_necessary toi maxGasAsset vaults';
        Ok ((vault, estimate) :: rest)
  end.

(** What each vault sends, and what is left over. *)
Fixpoint take_from_vaults (transactionFeeAsset : Z) (maxGasAsset : Coin) (toi : TxOutItem)
    (vaults : list Vault) : outcome (list TxOutItem * Z) :=
  match vaults with
  | [] => Ok ([], Coin_Amount (Toi_Coin toi))
  | vault :: vaults' =>
      let skip := take_from_vaults transactionFeeAsset maxGasAsset toi vaults' in
      match Vault_GetAddress vault (Toi_Chain toi) with
      | Panic => Panic
      | Err _ => skip
      | Ok fromAddr =>
          let held := Coin_Amount (Vault_GetCoin vault (Coin_Asset (Toi_Coin toi))) in
          let gasAsset := Vault_GetCoin vault (GetGasAsset (Toi_Chain toi)) in
          if Address_IsEmpty fromAddr || Address_Equals (Toi_ToAddress toi) fromAddr then skip
          else if held <=? transactionFeeAsset then skip
          else if Coin_IsEmpty gasAsset || (Coin_Amount gasAsset <? Coin_Amount maxGasAsset) then skip
          else
            let toi := toi_with_vault toi (Vault_PubKey vault) in
            if Coin_Amount (Toi_Coin toi) <=? held then Ok ([toi], 0)
            else
              remainingAmount ← SafeSub (Coin_Amount (Toi_Coin toi)) held;
              amount ← SafeSub (Coin_Amount (Toi_Coin toi)) remainingAmount;
              '(outputs, remaining) ← take_from_vaults transactionFeeAsset maxGasAsset
                                        (toi_with_amount toi remainingAmount) vaults';
              Ok (toi_with_amount toi amount :: outputs, remaining)
      end
  end.

Definition discoverOutbounds (transactionFeeAsset : Z) (maxGasAsset : Coin) (toi : TxOutItem)
    (vaults : list Vault) : outcome (list TxOutItem * Z) :=
  vaults ← (if (1 <? length vaults)%nat then
              necessary ← vaults_necessary toi maxGasAsset vaults;
              Ok (map fst (stable_sort (fun x y => snd x <? snd y) necessary))
            else Ok vaults);
  take_from_vaults transactionFeeAsset maxGasAsset toi vaults.

(** The yggdrasil vaults of nodes that observed the transaction and are not jailed. *)
Fixpoint ygg_candidates k (tx : ObservedTx) (gasAsset : Asset) (vaults : list Vault) : outcome (list Vault) :=
  match vaults with
  | [] => Ok []
  | vault :: vaults' =>
      if negb (IsYggdrasil vault) || negb (HasAsset vault gasAsset) then ygg_candidates k tx gasAsset vaults'
      else
        addr ← GetThorAddress (Vault_PubKey vault);
        if negb (ObservedTx_HasSigned tx addr)
           || IsJailed (GetNodeAccountJail k addr) (kv_height k)
        then ygg_candidates k tx gasAsset vaults'
        else rest ← ygg_candidates k tx gasAsset vaults'; Ok (vault :: rest)
  end.

Definition collectYggdrasilPools k (tx : ObservedTx) (gasAsset : Asset) : outcome (list Vault) :=
  ygg_candidates k tx gasAsset (GetVaultIterator k).

Definition deduct_all (pending : list TxOutItem) (vaults : list Vault) : outcome (list Vault) :=
  mapM_outcome (fun v => DeductVaultPendingOutbounds v pending) vaults.

(** Yggdrasil vaults first, then the active and the retiring asgard vaults, each
    with the less secure first. *)
Definition candidate_vaults k (toi : TxOutItem) : outcome (list Vault) :=
  let signingTransactionPeriod := kv_constants k "SigningTransactionPeriod" in
  let pendingOutbounds := GetPendingOutbounds k (Coin_Asset (Toi_Coin toi)) in
  let activeNodeAccounts := ListActiveValidators k in
  ygg ← (if (0 <? length activeNodeAccounts)%nat then
           let '(_, tx) := GetTx (GetObservedTxInVoter k (InHash toi)) activeNodeAccounts in
           ygg ← (match collectYggdrasilPools k tx (GetGasAsset (Toi_Chain toi)) with
                  | Err _ => Err "fail to collect yggdrasil pool: %w" | r => r end);
           deduct_all pendingOutbounds ygg
         else Ok []);
  yggs ← SortBySecurity k ygg signingTransactionPeriod;
  active ← (match GetAsgardVaultsByStatus k VaultStatus_ActiveVault with Err _ => Ok [] | r => r end);
  active ← SortBySecurity k active signingTransactionPeriod;
  active ← deduct_all pendingOutbounds active;
  retiring ← (match GetAsgardVaultsByStatus k VaultStatus_RetiringVault with Err _ => Ok [] | r => r end);
  retiring ← SortBySecurity k retiring signingTransactionPeriod;
  retiring ← deduct_all pendingOutbounds retiring;
  Ok (yggs ++ active ++ retiring).

Definition choose_vaults k (toi : TxOutItem) (transactionFeeAsset : Z) (maxGasAsset : Coin)
  : outcome (list TxOutItem) :=
  if IsBASEChain (Toi_Chain toi) || negb (PubKey_IsEmpty (Toi_VaultPubKey toi)) then Ok [toi]
  else
    vaults ← candidate_vaults k toi;
    '(outputs, remaining) ← discoverOutbounds transactionFeeAsset maxGasAsset toi vaults;
    if negb (remaining =? 0) then Err "insufficient funds for outbound request: %s %s remaining"
    else Ok outputs.

(** ** Fees *)

(** The memo an item is sent with, and the hash of what it answers. What follows a
    bar in the memo of the inbound transaction is passed on. *)
Definition prepare_memo k (toi : TxOutItem) : TxOutItem :=
  let memo := if String.eqb (Toi_Memo toi) EmptyString then "OUT:" +:+ TxID_String (InHash toi)
              else Toi_Memo toi in
  if TxID_IsEmpty (InHash toi) then toi_with_memo toi memo BlankTxID
  else
    match split_at "|" (Tx_Memo (Obs_Tx (Voter_Tx (GetObservedTxInVoter k (InHash toi))))) with
    | (_, Some data) =>
        toi_with_memo toi (String.substring 0 (Z.to_nat MaxMemoSize) (memo +:+ "|" +:+ data)) (InHash toi)
    | (_, None) => toi_with_memo toi memo (InHash toi)
    end.

Definition memo_is (m : Memo) (t : TxType) : bool := bool_decide (GetType m = t).

Definition pays_fee (memo : Memo * list string) : bool :=
  match snd memo with
  | [] => negb (memo_is (fst memo) TxYggdrasilFund) && negb (memo_is (fst memo) TxYggdrasilReturn)
          && negb (memo_is (fst memo) TxMigrate) && negb (memo_is (fst memo) TxRagnarok)
  | _ => false
  end.

Definition outbound_gas_coins k (o : TxOutItem) : outcome TxOutItem :=
  if Gas_IsEmpty (MaxGas o) then
    maxGasCoin ← (match GetMaxGas k (Toi_Chain o) with Err _ => Err "fail to get max gas coin: %w" | r => r end);
    if Gas_IsEmpty [maxGasCoin] && negb (Chain_Equals (Toi_Chain o) BASEChain)
       && negb (Chain_Equals (Toi_Chain o) THORChain)
    then Err "max gas cannot be empty: %s"
    else
      rate ← GetGasRate k (Toi_Chain o);
      rate ← amount_uint64 rate;
      Ok (toi_with_gas o [maxGasCoin] (i64 rate))
  else Ok o.

(** A synth paid as a fee is burnt; what fails of it is logged. *)
Definition burn_synth_fee k (o : TxOutItem) (assetFee : Z) : outcome KVStore :=
  let coin := NewCoin (Coin_Asset (Toi_Coin o)) assetFee in
  if IsSyntheticAsset (Coin_Asset (Toi_Coin o))
     && (String.eqb (TxOuts.ModuleName o) EmptyString || String.eqb (TxOuts.ModuleName o) AsgardName)
  then
    match SendFromModuleToModule k AsgardName Stores.ModuleName [coin] with
    | Panic => Panic
    | Err _ => Ok k
    | Ok k' =>
        match BurnFromModule k' Stores.ModuleName coin with
        | Panic => Panic
        | Err _ => Ok k'
        | Ok k'' => Ok k''
        end
    end
  else Ok k.

(** The store, the pool that is charged, the fees in CACAO and the items so far. *)
Definition fee_state : Type := KVStore * Pool * Z * list TxOutItem.

Definition charge_cacao (o : TxOutItem) (transactionFeeRune finalRuneFee : Z) : outcome (TxOutItem * Z) :=
  let runeFee := if Coin_Amount (Toi_Coin o) <=? transactionFeeRune then Coin_Amount (Toi_Coin o)
                 else transactionFeeRune in
  finalRuneFee ← uint_add finalRuneFee runeFee;
  amount ← SafeSub (Coin_Amount (Toi_Coin o)) runeFee;
  Ok (toi_with_amount o amount, finalRuneFee).

(** The pool takes the fee in the asset, and gives the reserve its worth in CACAO. *)
Definition charge_asset k (pool : Pool) (o : TxOutItem) (transactionFeeAsset finalRuneFee : Z)
  : outcome (KVStore * Pool * TxOutItem * Z) :=
  units ← GetPoolUnits pool;
  if units =? 0 then Ok (k, pool, o, finalRuneFee)
  else
    let assetFee := if Coin_Amount (Toi_Coin o) <=? transactionFeeAsset then Coin_Amount (Toi_Coin o)
                    else transactionFeeAsset in
    amount ← SafeSub (Coin_Amount (Toi_Coin o)) assetFee;
    let o := toi_with_amount o amount in
    k ← burn_synth_fee k o assetFee;
    if isLiquidityAuction k then Ok (k, pool, o, finalRuneFee)
    else
      runeFee ← RuneDisbursementForAssetAdd pool assetFee;
      let poolDeduct := if BalanceCacao pool <? runeFee then BalanceCacao pool else runeFee in
      finalRuneFee ← uint_add finalRuneFee poolDeduct;
      balanceAsset ← (if IsSyntheticAsset (Coin_Asset (Toi_Coin o)) then Ok (BalanceAsset pool)
                      else uint_add (BalanceAsset pool) assetFee);
      balanceCacao ← SafeSub (BalanceCacao pool) poolDeduct;
      Ok (k, set_BalanceCacao (set_BalanceAsset pool balanceAsset) balanceCacao, o, finalRuneFee).

Definition charge_fee k (pool : Pool) (toi o : TxOutItem) (feeRune feeAsset finalRuneFee : Z)
  : outcome (KVStore * Pool * TxOutItem * Z) :=
  if IsBase (Coin_Asset (Toi_Coin o)) then
    '(o, finalRuneFee) ← charge_cacao o feeRune finalRuneFee; Ok (k, pool, o, finalRuneFee)
  else
    let pool := if Pool_IsEmpty pool then GetPool k (GetLayer1Asset (Coin_Asset (Toi_Coin toi))) else pool in
    charge_asset k pool o feeAsset finalRuneFee.

(** The item of an inactive vault, or of the end of the network, leaves the gas. A
    vault that is not found is inactive. *)
Definition leave_gas k (memo : Memo) (o : TxOutItem) : outcome TxOutItem :=
  inactive ← (match GetVault k (Toi_VaultPubKey o) with
              | Ok vault => Ok (Vault_Status vault =? VaultStatus_InactiveVault)
              | Err _ => Ok true
              | Panic => Panic
              end);
  if (memo_is memo TxRagnarok || inactive) && IsGasAsset (Coin_Asset (Toi_Coin o)) then
    amount ← SafeSub (Coin_Amount (Toi_Coin o))
               (Coin_Amount (GetCoin (ToCoins (MaxGas o)) (Coin_Asset (Toi_Coin o))));
    Ok (toi_with_amount o amount)
  else Ok o.

(** An item with nothing left is dropped, unless it answers a withdrawal. *)
Definition drop_zero_item k (o : TxOutItem) : outcome unit :=
  if negb (TxID_IsEmpty (InHash o)) && negb (TxID_Equals (InHash o) BlankTxID) then
    let tx := Voter_Tx (GetObservedTxInVoter k (InHash o)) in
    if ObservedTx_IsEmpty tx then Ok tt
    else
      match ParseMemoWithMAYANames k (Tx_Memo (Obs_Tx tx)) with
      | (memo, []) => if memo_is memo TxWithdraw then Err "tx out item has zero coin" else Ok tt
      | _ => Ok tt
      end
  else Ok tt.

Definition note_action k (o : TxOutItem) : KVStore :=
  if TxID_Equals (InHash o) BlankTxID then k
  else
    let voter := GetObservedTxInVoter k (InHash o) in
    SetObservedTxInVoter k (voter_with_actions voter (kv_height k) (Actions voter ++ [o])).

Definition finish_output (toi : TxOutItem) (decimals feeRune feeAsset : Z) (st : fee_state) (o : TxOutItem)
  : outcome fee_state :=
  let '(k, pool, finalRuneFee, finalOutput) := st in
  o ← outbound_gas_coins k o;
  let memo := ParseMemoWithMAYANames k (Toi_Memo o) in
  '(k, pool, o, finalRuneFee) ←
    (if pays_fee memo then charge_fee k pool toi o feeRune feeAsset finalRuneFee
     else Ok (k, pool, o, finalRuneFee));
  o ← leave_gas k (fst memo) o;
  if Coin_IsEmpty (Toi_Coin o) && negb (memo_is (fst memo) TxYggdrasilReturn) then
    _ ← drop_zero_item k o; Ok (k, pool, finalRuneFee, finalOutput)
  else
    amount ← RoundToDecimal (Coin_Amount (Toi_Coin o)) decimals;
    let o := toi_with_amount o amount in
    Ok (note_action k o, pool, finalRuneFee, finalOutput ++ [o]).

Definition AddBondFeeToReserve k (fee : Z) : outcome KVStore :=
  SendFromModuleToModule k BondName ReserveName [NewCoin BaseNative fee].

(** A fee that cannot be sent is logged. *)
Definition fee_to_reserve k (module : string) (fee : Z) : outcome KVStore :=
  if fee =? 0 then Ok k
  else
    match (if String.eqb module BondName then AddBondFeeToReserve k fee else AddPoolFeeToReserve k fee) with
    | Err _ => Ok k
    | r => r
    end.

Definition prepareTxOutItem gm k (toi : TxOutItem) : outcome (KVStore * list TxOutItem * Z) :=
  let toi := prepare_memo k toi in
  if Address_IsEmpty (Toi_ToAddress toi) then Err "empty to address, can't send out"
  else if negb (IsChain (Toi_ToAddress toi) (Toi_Chain toi) (kv_version k))
  then Err "to address(%s), is not of chain(%s)"
  else
    let toiPool := GetPool k (GetLayer1Asset (Coin_Asset (Toi_Coin toi))) in
    feeRune ← GetFee gm k (Toi_Chain toi) BaseAsset;
    feeAsset ← GetFee gm k (Toi_Chain toi) (Coin_Asset (Toi_Coin toi));
    maxGasAsset ← (match GetMaxGas k (Toi_Chain toi) with Err _ => Ok NoCoin | r => r end);
    outputs ← choose_vaults k toi feeAsset maxGasAsset;
    '(k, pool, finalRuneFee, finalOutput) ←
      foldM (finish_output toi (Pool_Decimals toiPool) feeRune feeAsset) (k, NewPool, 0, []) outputs;
    k ← (if Pool_IsEmpty pool then Ok k else SetPool k pool);
    k ← fee_to_reserve k (TxOuts.ModuleName toi) finalRuneFee;
    Ok (k, finalOutput, finalRuneFee).
(** ** The block an item goes out in *)

Definition positive_mimir k (key : string) : Z :=
  let v := GetMimir k key in if v <=? 0 then kv_constants k key else v.

(** The value scheduled for the heights from [height] to [lastHeight]; an empty block
    past the largest offset ends the search. *)
Fixpoint sum_scheduled (blocks : nat) k (height maxHeight lastHeight sumValue : Z) : outcome Z :=
  match blocks with
  | O => Ok sumValue
  | S blocks' =>
      if lastHeight <? height then Ok sumValue
      else
        value ← GetTxOutValue k height;
        if (maxHeight <? height) && (value =? 0) then Ok sumValue
        else
          sumValue ← uint_add sumValue value;
          sum_scheduled blocks' k (height + 1) maxHeight lastHeight sumValue
  end.

(** The first of [count] blocks that is empty or has room for the value. *)
Fixpoint find_space (count : nat) k (targetBlock runeValue minVolumeThreshold : Z) : outcome Z :=
  match count with
  | O => Ok targetBlock
  | S count' =>
      txOutValue ← GetTxOutValue k targetBlock;
      if txOutValue =? 0 then Ok targetBlock
      else
        sum ← uint_add txOutValue runeValue;
        if sum <=? minVolumeThreshold then Ok targetBlock
        else find_space count' k (i64 (targetBlock + 1)) runeValue minVolumeThreshold
  end.

(** The type of the memo does not depend on the names that it may hold. *)
Definition CalcTxOutHeight k (toi : TxOutItem) : outcome Z :=
  let memo := fst (ParseMemoWithMAYANames k (Toi_Memo toi)) in
  let minTxOutVolumeThreshold := positive_mimir k "MinTxOutVolumeThreshold" in
  let minVolumeThreshold := u64 minTxOutVolumeThreshold in
  let txOutDelayRate := positive_mimir k "TxOutDelayRate" in
  let txOutDelayMax := positive_mimir k "TxOutDelayMax" in
  let maxTxOutOffset := positive_mimir k "MaxTxOutOffset" in
  if negb (memo_is memo TxRefund) && negb (memo_is memo TxOutbound) then Ok (kv_height k)
  else if (minVolumeThreshold =? 0) || (txOutDelayRate =? 0) then Ok (kv_height k)
  else
    let asset := Coin_Asset (Toi_Coin toi) in
    let runeValue :=
      if IsBase asset then Coin_Amount (Toi_Coin toi)
      else AssetValueInRune (GetPool k (GetLayer1Asset asset)) (Coin_Amount (Toi_Coin toi)) in
    sumValue ← sum_scheduled (Z.to_nat txOutDelayMax) k (kv_height k + 1)
                 (i64 (kv_height k + maxTxOutOffset)) (i64 (kv_height k + txOutDelayMax)) runeValue;
    sumValue ← amount_uint64 sumValue;
    let rate := i64 (txOutDelayRate - Z.quot (i64 sumValue) minTxOutVolumeThreshold) in
    let rate := if rate <? 1 then 1 else rate in
    value ← amount_uint64 runeValue;
    let minBlocks := Z.quot (i64 value) rate in
    let minBlocks := if maxTxOutOffset <? minBlocks then maxTxOutOffset else minBlocks in
    find_space (Z.to_nat txOutDelayMax) k (i64 (kv_height k + minBlocks)) runeValue minVolumeThreshold.

Definition blacklist : list Address := ["bnb136ns6lfw4zs5hg4n85vdthaad7hq5m4gtkgf23"].

(** The height for all items of one request: that of an earlier one for the same
    inbound transaction, or a new one, which the voter keeps. *)
Definition schedule k (toi : TxOutItem) (memo : string) : outcome (KVStore * Z) :=
  if negb (IsBASEChain (Toi_Chain toi)) && negb (TxID_IsEmpty (InHash toi))
     && negb (TxID_Equals (InHash toi) BlankTxID)
  then
    let voter := GetObservedTxInVoter k (InHash toi) in
    targetHeight ← CalcTxOutHeight k (toi_with_memo toi memo (InHash toi));
    let targetHeight := if 0 <? Voter_Height voter
                        then i64 (targetHeight - kv_height k + Voter_Height voter) else targetHeight in
    let outboundHeight := if kv_height k <? targetHeight then targetHeight else kv_height k in
    if 0 <? OutboundHeight voter then Ok (k, OutboundHeight voter)
    else Ok (SetObservedTxInVoter k (voter_with_outbound voter outboundHeight), outboundHeight)
  else Ok (k, kv_height k).

Definition note_withheld k (chain : Chain) (fee : Z) : outcome KVStore :=
  if negb (fee =? 0) && negb (IsBASEChain chain) then
    fee ← amount_uint64 fee;
    let network := GetNetwork k in
    Ok (SetNetwork k (with_gas_withheld network (u64 (OutboundGasWithheldCacao network + fee))))
  else Ok k.

Definition cachedTryAddTxOutItem gm k (toi : TxOutItem) (minOut : Z) : outcome (KVStore * bool) :=
  '(k, outputs, totalOutboundFeeCacao) ←
    (match prepareTxOutItem gm k toi with Err _ => Err "fail to prepare outbound tx: %w" | r => r end);
  match outputs with
  | [] => Err "not enough asset to pay for fees"
  | output :: _ =>
      sumOut ← foldM (fun sum o => uint_add sum (Coin_Amount (Toi_Coin o))) 0 outputs;
      if sumOut <? minOut then
        _ ← amount_uint64 sumOut; _ ← amount_uint64 minOut;
        Err "outbound amount does not meet requirements (%d/%d)"
      else if existsb (Address_Equals (Toi_ToAddress toi)) blacklist
      then Err "non-supported outbound address"
      else
        '(k, outboundHeight) ← schedule k toi (Toi_Memo output);
        k ← foldM (fun k o => addToBlockOut k o outboundHeight) k outputs;
        k ← note_withheld k (Toi_Chain toi) totalOutboundFeeCacao;
        Ok (k, true)
  end.

(** ** The fees of affiliates *)

Definition memo_asset (m : Memo) : Asset :=
  match m with
  | MSwap s => Swap_Asset s
  | MAddLiquidity asset _ _ _ _ | MWithdrawLiquidity asset _ _ _ | MDonate asset
  | MBond asset _ _ _ _ | MUnbond asset _ _ _ => asset
  | _ => EmptyAsset
  end.

(** The amount less the fees of the affiliates of the inbound transaction. An error
    comes before anything changes; an error of the fees themselves is logged, and
    they are zero then. A hierarchy of names that is deeper than [fuel] counts as a
    panic. *)
Definition takeAffiliateFee (fuel : nat) gm k (toi : TxOutItem) : outcome (KVStore * Z) :=
  let amount := Coin_Amount (Toi_Coin toi) in
  let prefix := fst (split_at ":" (Toi_Memo toi)) in
  if String.eqb prefix "REFUND" || String.eqb prefix "MIGRATE" then Ok (k, amount)
  else
    let inbound := Obs_Tx (Voter_Tx (GetObservedTxInVoter k (InHash toi))) in
    if String.eqb (Tx_Memo inbound) EmptyString then Err "fail to get observe tx in voter: %w"
    else if HasPrefix (Tx_Memo inbound) PreferredAssetSwapMemoPrefix then Ok (k, amount)
    else
      match ParseMemoWithMAYANames k (Tx_Memo inbound) with
      | (memo, []) =>
          if IsNativeBase (Coin_Asset (Toi_Coin toi)) && negb (IsNativeBase (memo_asset memo))
          then Ok (k, amount)
          else if memo_is memo TxSwap && (0 <? length (GetAffiliatesBasisPoints memo))%nat then
            let tx := mkTx (InHash toi) (Toi_Chain toi) (FromAddress inbound) (Toi_ToAddress toi)
                        [Toi_Coin toi] [NewCoin (GetGasAsset (Toi_Chain toi)) 1] (Tx_Memo inbound) in
            match ListActiveValidators k with
            | [] => Err "dev err: no active node accounts"
            | node :: _ =>
                match skimAffiliateFeesV118 fuel gm k tx (NodeAddress node) (Tx_Memo inbound) 0 AsgardName with
                | Ok (Some (k, total)) => rest ← SafeSub amount total; Ok (k, rest)
                | Ok None | Panic => Panic
                | Err _ => rest ← SafeSub amount 0; Ok (k, rest)
                end
            end
          else Ok (k, amount)
      | (_, _ :: _) => Err "fail to parse memo: %w"
      end.

(** The changes are made on a copy, which an error discards. *)
Definition TryAddTxOutItem_current (fuel : nat) gm k (toi : TxOutItem) (minOut : Z)
  : outcome (KVStore * bool) :=
  if IsNoop (Toi_ToAddress toi) then Ok (k, true)
  else if IsEVM (Toi_Chain toi) && Address_Equals (Toi_ToAddress toi) EVMNullAddress then Ok (k, true)
  else
    match takeAffiliateFee fuel gm k toi with
    | Panic => Panic
    | Err _ => cachedTryAddTxOutItem gm k toi minOut
    | Ok (k', amount) =>
        cachedTryAddTxOutItem gm k'
          (if IsTradeAsset (Coin_Asset (Toi_Coin toi)) then toi else toi_with_amount toi amount) minOut
    end.

(** ** The items of a block *)

Definition GetBlockOut k : TxOut := GetTxOut k (kv_height k).
Definition GetOutboundItems k : list TxOutItem := TxArray (GetTxOut k (kv_height k)).
Definition GetOutboundItemByToAddress k (to : Address) : list TxOutItem :=
  List.filter (fun item => Address_Equals (Toi_ToAddress item) to) (GetOutboundItems k).
Definition ClearOutboundItems k : KVStore := ClearTxOut k (kv_height k).

(** The first action that equals the item is changed in the voter. *)
Fixpoint update_action (f : TxOutItem -> TxOutItem) (txOut : TxOutItem) (actions : list TxOutItem)
  : option (list TxOutItem) :=
  match actions with
  | [] => None
  | tx :: actions' =>
      if TxOutItem_Equals tx txOut then Some (f tx :: actions')
      else rest ← update_action f txOut actions'; Some (tx :: rest)
  end.

Definition update_voter_action k (f : TxOutItem -> TxOutItem) (txOut : TxOutItem) : outcome KVStore :=
  if String.eqb (InHash txOut) BlankTxID then Ok k
  else
    let voter := GetObservedTxInVoter k (InHash txOut) in
    match update_action f txOut (Actions voter) with
    | Some actions => Ok (SetObservedTxInVoter k (voter_with_actions voter (FinalisedHeight voter) actions))
    | None => Err "fail to find tx out in ObservedTxVoter %s"
    end.

Definition updateTxOutGasV88 k (txOut : TxOutItem) (gas : Gas) : outcome KVStore :=
  update_voter_action k (fun tx => toi_with_gas tx gas (GasRate tx)) txOut.

Definition updateTxOutGasRate k (txOut : TxOutItem) (gasRate : Z) : outcome KVStore :=
  update_voter_action k (fun tx => toi_with_gas tx (MaxGas tx) gasRate) txOut.

(** One item at the end of the block. The gas and its rate come from caches in the
    source: nothing that they depend on changes in the loop. *)
Definition refresh_gas (st : KVStore * list TxOutItem) (tx : TxOutItem)
  : outcome (KVStore * list TxOutItem) :=
  let '(k, items) := st in
  let voter := GetObservedTxInVoter k (InHash tx) in
  if (0 <? OutboundHeight voter) && (OutboundHeight voter <? kv_height k) then Ok (k, items ++ [tx])
  else
    maxGas ← (match GetMaxGas k (Toi_Chain tx) with Err _ => Ok NoCoin | r => r end);
    gasRate ← GetGasRate k (Toi_Chain tx);
    gasRate ← amount_uint64 gasRate;
    let gasRate := i64 gasRate in
    let more := match MaxGas tx with
                | [] => true
                | gas :: _ => Coin_Amount gas <? Coin_Amount maxGas
                end in
    k ← (if more then logged k (updateTxOutGasV88 k tx [maxGas]) else Ok k);
    k ← logged k (updateTxOutGasRate k tx gasRate);
    Ok (k, items ++ [toi_with_gas tx (if more then [maxGas] else MaxGas tx) gasRate]).

Definition TxOutStorage_EndBlock k : outcome KVStore :=
  let txOut := GetBlockOut k in
  '(k, items) ← foldM refresh_gas (k, []) (TxArray txOut);
  Ok (SetTxOut k (mkTxOut (TxOut_Height txOut) items)).
End outbounds.

(** The manager, as the interface its clients are proved against. *)
Definition TxOutStorage `{V : Semver} `{B : CosmosBank} `{A : SdkAddress} `{R : MapRange} `{L : AddressLib}
    `{U : SdkUint} `{D : SdkDec} `{SH : Sha256} `{T : UintText} `{C : PubKeyCodec} `{K : PubKeyAddress}
    `{SS : SliceSort} `{IH : !InternalHandlers} (fuel : nat) (gm : GasMgr) : TxOutStore :=
  {| TryAddTxOutItem := TryAddTxOutItem_current fuel gm;
     UnSafeAddTxOutItem := UnSafeAddTxOutItem_current |}.
