(* ===== verification/OutboundBooks.v ===== *)
(** The manager of outbound transactions: what its payments and fees keep of the books
    of the liquidity providers, what it takes from the vaults and from a pool, and when
    it sends. *)
From stdpp Require Import pretty.
From S2P Require Import Prelude GoText Sdk Constants Floats Shares Chains Keys Addresses Assets Coins Txs.
From S2P Require Import NodeAccounts Votes TxOuts Vaults ObservedTxs Pools Mimirs StreamingSwaps SwapMsgs.
From S2P Require Import LiquidityProviders Records MayaNames Stores Keeper Nodes Bonds VaultStore Halts Gas.
From S2P Require Import TradeAccounts Swapper Swaps Affiliates Decimals Memos Collectors SwapChecks.
From S2P Require Import Liquidity AddLiquidity LiquidityBooks Withdraw WithdrawBooks Slashing Bonding BondBooks.
From S2P Require Import LiquidityLedger Outbounds.

(** What is assumed of the handlers that a payment of the network may reach. *)
Class InternalHandlersLaws `{V : Semver} `{B : CosmosBank} (IH : InternalHandlers) : Prop := {
  handle_internal_sound : forall k tx memo k',
    handle_internal k tx memo = Ok k' -> ledger_sound k -> ledger_sound k';
}.

Section outbound_books.
Context `{V : Semver} `{B : CosmosBank} `{A : SdkAddress} `{R : MapRange} `{L : AddressLib}.
Context `{U : SdkUint} {UL : SdkUintLaws U} `{D : SdkDec} {DL : SdkDecLaws D} `{SH : Sha256} `{T : UintText} `{C : PubKeyCodec} `{K : PubKeyAddress}.
Context `{SS : SliceSort} {IH : InternalHandlers}.
Implicit Types (k : KVStore) (gm : GasMgr).

(** ** Payments *)

Lemma same_positions_ledger k k' : same_positions k k' -> ledger_sound k -> ledger_sound k'.
Proof. intros H. by apply keeps_ledger_sound, same_positions_keeps. Qed.

Lemma send_module_positions k from to coins k' :
  SendFromModuleToModule k from to coins = Ok k' -> same_positions k k'.
Proof. by intros [b ->]%SendFromModuleToModule_frame. Qed.

Lemma send_account_positions k from to coins k' :
  SendFromModuleToAccount k from to coins = Ok k' -> same_positions k k'.
Proof. by intros [b ->]%SendFromModuleToAccount_frame. Qed.

Lemma burn_positions k module coin k' : BurnFromModule k module coin = Ok k' -> same_positions k k'.
Proof.
  unfold BurnFromModule. intros H. apply bind_Ok in H as (c & _ & H). apply bind_Ok in H as (b & _ & [= <-]). by split.
Qed.

Lemma mint_positions k module coin k' : MintToModule k module coin = Ok k' -> same_positions k k'.
Proof.
  intros H. pose proof H as [Hp _]%MintToModule_frame. split; [|done].
  apply MintToModule_swap_frame in H as (? & ? & ? & ? & ? & ->). by destruct k.
Qed.

Lemma note_positions k tx txID k' voter : note_out_tx k tx txID = Ok (k', voter) -> same_positions k k'.
Proof. unfold note_out_tx. intros H. apply bind_Ok in H as ([v b] & _ & [= <- _]). done. Qed.

Lemma native_transfer_positions k toi addr pol aff k' :
  native_transfer k toi addr pol aff = Ok k' -> same_positions k k'.
Proof.
  unfold native_transfer. destruct (IsTradeAsset _).
  - destruct (TradeMgr_Deposit _ _ _ _) as [[k1 r]| |] eqn:E; [|done..]. intros [= <-].
    unfold TradeMgr_Deposit in E. cbv zeta in E. apply bind_Ok in E as (u & _ & E).
    apply bind_Ok in E as (t & _ & E). by apply bind_Ok in E as (d & _ & [= <- _]).
  - destruct (Address_Equals _ _); [apply send_module_positions|].
    destruct (Address_Equals _ _); [apply send_module_positions|apply send_account_positions].
Qed.

Context {IL : InternalHandlersLaws IH}.

Lemma native_handler_sound k tx signer k' :
  native_handler k tx signer = Ok k' -> ledger_sound k -> ledger_sound k'.
Proof.
  assert (Hn : forall id, ('(k1, _) ← note_out_tx k (Obs_Tx tx) id; Ok k1) = Ok k' ->
    ledger_sound k -> ledger_sound k').
  { intros id H. apply bind_Ok in H as ([k1 v] & H%note_positions & [= <-]). by apply same_positions_ledger. }
  unfold native_handler. destruct (Tx_Coins _) as [|c [|c' cs]]; [done| |done].
  destruct (ParseMemoWithMAYANames _ _) as [m [|e es]]; [|by destruct m].
  destruct m; try (by apply handle_internal_sound);
    (intros H; apply bind_Ok in H as ([] & _ & H); destruct (Chain_Equals _ _);
     [by eapply Hn|by eapply handle_internal_sound]).
Qed.

Lemma nativeTxOut_sound k toi k' : nativeTxOut k toi = Ok k' -> ledger_sound k -> ledger_sound k'.
Proof.
  unfold nativeTxOut. intros H Hk. apply bind_Ok in H as (addr & _ & H). cbv zeta in H.
  set (t := if String.eqb _ _ then _ else _) in H. clearbody t.
  apply bind_Ok in H as (k1 & H1 & H). apply bind_Ok in H as (pol & _ & H). apply bind_Ok in H as (aff & _ & H).
  apply bind_Ok in H as (k2 & H2%native_transfer_positions & H). apply bind_Ok in H as (from & _ & H).
  apply bind_Ok in H as ([|v vs] & _ & H); [done|]. eapply native_handler_sound; [exact H|].
  apply (same_positions_ledger k1); [done|].
  destruct (String.eqb _ _); [|by injection H1 as <-]. apply (same_positions_ledger k); [by eapply mint_positions|done].
Qed.

Lemma addToBlockOut_sound k item height k' :
  addToBlockOut k item height = Ok k' -> ledger_sound k -> ledger_sound k'.
Proof.
  unfold addToBlockOut. destruct (IsBASEChain _); [apply nativeTxOut_sound|]. intros [= <-].
  apply same_positions_ledger. unfold AppendTxOut, SetTxOut. by destruct (TxOut_IsEmpty _).
Qed.

Lemma UnSafeAdd_sound k toi height k' :
  UnSafeAddTxOutItem_current k toi height = Ok k' -> ledger_sound k -> ledger_sound k'.
Proof.
  unfold UnSafeAddTxOutItem_current. destruct (IsNoop _); [by intros [= <-]|]. apply addToBlockOut_sound.
Qed.

(** ** Fees *)

Lemma burn_fee_positions k o fee k' : burn_synth_fee k o fee = Ok k' -> same_positions k k'.
Proof.
  unfold burn_synth_fee. cbv zeta. destruct (_ && _); [|by intros [= <-]].
  destruct (SendFromModuleToModule _ _ _ _) as [k1| |] eqn:E1; [|by intros [= <-]|done].
  apply send_module_positions in E1.
  destruct (BurnFromModule _ _ _) as [k2| |] eqn:E2; [|by intros [= <-]|done].
  apply burn_positions in E2. intros [= <-]. by transitivity k1.
Qed.

Definition item_amount (o : TxOutItem) : Z := Coin_Amount (Toi_Coin o).
Definition item_asset (o : TxOutItem) : Asset := Coin_Asset (Toi_Coin o).

(** What a charge in the asset does: the CACAO of the pool pays the reserve, the item
    pays the pool at most what it loses. *)
(** An item with another amount. *)
Definition reamounted (o o' : TxOutItem) : Prop := o' = toi_with_amount o (item_amount o').

Lemma reamounted_refl o : reamounted o o.
Proof. by destruct o as [c a v [x y z]]. Qed.

Record charged (pool pool' : Pool) (o o' : TxOutItem) (final final' : Z) : Prop := {
  ch_cacao : BalanceCacao pool' + final' = BalanceCacao pool + final;
  ch_amount : 0 <= item_amount o' <= item_amount o;
  ch_grows : BalanceAsset pool <= BalanceAsset pool';
  ch_total : item_amount o' + BalanceAsset pool' <= item_amount o + BalanceAsset pool;
}.

(** The pool that is charged is a stored one, with other balances. *)
Definition same_core (pool pool' : Pool) : Prop :=
  pool_core pool' = pool_core pool /\ (pool_nonneg pool -> pool_nonneg pool').

Lemma charge_asset_inv k pool o feeAsset final k' pool' o' final' :
  charge_asset k pool o feeAsset final = Ok (k', pool', o', final') ->
  same_positions k k' /\ same_core pool pool' /\ reamounted o o' /\
  (0 <= item_amount o -> 0 <= feeAsset -> charged pool pool' o o' final final').
Proof.
  unfold charge_asset, item_amount, item_asset. intros H. pose proof (reamounted_refl o) as Hrefl. apply bind_Ok in H as (units & _ & H).
  destruct (units =? 0).
  { injection H as <- <- <- <-. split_and!; [done..|]. intros Ho Hf. split; unfold item_amount; lia. }
  cbv zeta in H. set (fee := if _ <=? _ then _ else _) in H.
  assert (Hfee : 0 <= Coin_Amount (Toi_Coin o) -> 0 <= feeAsset -> 0 <= fee <= Coin_Amount (Toi_Coin o))
    by (unfold fee; destruct (Z.leb_spec (Coin_Amount (Toi_Coin o)) feeAsset); lia).
  clearbody fee. apply bind_Ok in H as (amount & Ham%SafeSub_inv & H).
  apply bind_Ok in H as (k1 & H1%burn_fee_positions & H).
  destruct (isLiquidityAuction k1).
  { injection H as <- <- <- <-. split_and!; [done..|]. intros Ho Hf. specialize (Hfee Ho Hf).
    split; unfold item_amount; cbn; lia. }
  apply bind_Ok in H as (runeFee & _ & H). apply bind_Ok in H as (f & [-> _]%uint_add_Ok & H).
  apply bind_Ok in H as (ba & Hba & H). apply bind_Ok in H as (bc & Hbc%SafeSub_inv & H).
  injection H as <- <- <- <-. set (deduct := if _ <? _ then _ else _) in *.
  assert (Hd : deduct <= BalanceCacao pool)
    by (unfold deduct; destruct (Z.ltb_spec (BalanceCacao pool) runeFee); lia).
  assert (Hb : ba = BalanceAsset pool \/ ba = BalanceAsset pool + fee /\ 0 <= ba).
  { destruct (IsSyntheticAsset _); [left; by injection Hba|]. right. by apply uint_add_Ok in Hba as [-> [Hr _]]. }
  split_and!; [done|split; [done|unfold pool_nonneg; cbn; lia]|done|].
  intros Ho Hf. specialize (Hfee Ho Hf). split; unfold item_amount; cbn; lia.
Qed.

Lemma charge_cacao_inv o fee final o' final' :
  charge_cacao o fee final = Ok (o', final') ->
  reamounted o o' /\ (0 <= item_amount o -> 0 <= fee ->
    0 <= item_amount o' /\ final <= final' /\ item_amount o' + final' = item_amount o + final).
Proof.
  unfold charge_cacao, item_amount. cbv zeta. intros H. set (f := if _ <=? _ then _ else _) in H.
  assert (0 <= Coin_Amount (Toi_Coin o) -> 0 <= fee -> 0 <= f <= Coin_Amount (Toi_Coin o)) by (unfold f; destruct (Z.leb_spec (Coin_Amount (Toi_Coin o)) fee); lia).
  apply bind_Ok in H as (f' & [-> _]%uint_add_Ok & H). apply bind_Ok in H as (a & ->%SafeSub_inv & [= <- <-]).
  split; [done|]. cbn. lia.
Qed.

(** The pool a fee is taken from: the one in use, or the stored one. *)
Definition fee_source k (a : Asset) (pool : Pool) : Pool :=
  if Pool_IsEmpty pool then GetPool k (GetLayer1Asset a) else pool.

Lemma charge_fee_inv k pool toi o feeRune feeAsset final k' pool' o' final' :
  charge_fee k pool toi o feeRune feeAsset final = Ok (k', pool', o', final') ->
  let base := IsBase (item_asset o) in
  same_positions k k' /\ reamounted o o' /\
  (if base then pool' = pool else same_core (fee_source k (item_asset toi) pool) pool') /\
  (0 <= item_amount o -> 0 <= feeRune -> 0 <= feeAsset ->
   if base then 0 <= item_amount o' /\ final <= final' /\ item_amount o' + final' = item_amount o + final
   else charged (fee_source k (item_asset toi) pool) pool' o o' final final').
Proof.
  unfold charge_fee. fold (item_asset o). destruct (IsBase (item_asset o)); cbv zeta; intros H.
  - apply bind_Ok in H as ([o1 f] & [Hr Hi]%charge_cacao_inv & [= <- <- <- <-]). split_and!; [done..|].
    intros Ho Hf _. by apply Hi.
  - apply charge_asset_inv in H as (Hk & Hc & Ha & Hi). split_and!; [done..|]. intros Ho _ Hf. by apply Hi.
Qed.

Lemma RoundToDecimal_nonneg amt dec r : 0 <= amt -> RoundToDecimal amt dec = Ok r -> 0 <= r.
Proof. intros Ha H. by apply RoundToDecimal_le in H as [? _]. Qed.

Definition gas_nonneg (g : Gas) : Prop := Forall (fun c => 0 <= Coin_Amount c) g.

Lemma outbound_gas_inv k o o' : outbound_gas_coins k o = Ok o' ->
  Toi_Coin o' = Toi_Coin o /\ (gas_nonneg (MaxGas o) -> gas_nonneg (MaxGas o')).
Proof.
  unfold outbound_gas_coins. destruct (Gas_IsEmpty _); [|by intros [= <-]]. intros H.
  apply bind_Ok in H as (c & Hc & H). destruct (_ && _); [done|]. apply bind_Ok in H as (r & _ & H).
  apply bind_Ok in H as (r' & _ & [= <-]). split; [done|]. intros _. constructor; [|constructor].
  destruct (GetMaxGas k _) as [x| |] eqn:E; [|done..]. injection Hc as <-. by apply GetMaxGas_nonneg in E.
Qed.

Lemma leave_gas_inv k memo o o' : leave_gas k memo o = Ok o' ->
  reamounted o o' /\
  (gas_nonneg (MaxGas o) -> 0 <= item_amount o -> 0 <= item_amount o' <= item_amount o).
Proof.
  unfold leave_gas. intros H. apply bind_Ok in H as (i & _ & H). destruct (_ && _); [|injection H as <-; split; [apply reamounted_refl|lia]].
  apply bind_Ok in H as (a & ->%SafeSub_inv & [= <-]). split; [done|]. intros Hg Ho. unfold item_amount in *. cbn.
  assert (0 <= Coin_Amount (GetCoin (ToCoins (MaxGas o)) (Coin_Asset (Toi_Coin o)))); [|lia].
  unfold GetCoin. destruct (List.find _ _) as [c|] eqn:E; [|done].
  apply find_some in E as [E _]. unfold ToCoins in E. apply in_map_iff in E as (c0 & <- & Hin).
  unfold gas_nonneg in Hg. rewrite List.Forall_forall in Hg. exact (Hg _ Hin).
Qed.

(** ** The vaults that send *)

(** An item that a vault of the list sends, of the asset and to the address that is
    asked for: the vault has it, and can pay the gas. *)
Definition sent_by (fee : Z) (gas : Coin) (toi : TxOutItem) (vaults : list Vault) (o : TxOutItem) : Prop :=
  exists v, List.In v vaults /\ Toi_VaultPubKey o = Vault_PubKey v /\
    o = toi_with_amount (toi_with_vault toi (Vault_PubKey v)) (item_amount o) /\
    fee < Coin_Amount (Vault_GetCoin v (item_asset toi)) /\
    0 <= item_amount o <= Coin_Amount (Vault_GetCoin v (item_asset toi)) /\
    Coin_Amount gas <= Coin_Amount (Vault_GetCoin v (GetGasAsset (Toi_Chain toi))).

Lemma sent_by_weaken fee gas toi vaults vaults' o :
  (forall v, List.In v vaults -> List.In v vaults') ->
  sent_by fee gas toi vaults o -> sent_by fee gas toi vaults' o.
Proof. intros Hv (v & Hin & H). exists v. split; [by apply Hv|done]. Qed.

Lemma take_from_vaults_spec fee gas vaults : forall toi outs remaining,
  0 <= fee -> 0 <= item_amount toi ->
  take_from_vaults fee gas toi vaults = Ok (outs, remaining) ->
  sumZ item_amount outs + remaining = item_amount toi /\ 0 <= remaining /\
  Forall (sent_by fee gas toi vaults) outs /\
  map Toi_VaultPubKey outs `sublist_of` map Vault_PubKey vaults.
Proof.
  induction vaults as [|vault vaults IHv]; intros toi outs remaining Hf Ha H.
  { injection H as <- <-. split_and!; [done|done|constructor|done]. }
  assert (Hskip : take_from_vaults fee gas toi vaults = Ok (outs, remaining) ->
    sumZ item_amount outs + remaining = item_amount toi /\ 0 <= remaining /\
    Forall (sent_by fee gas toi (vault :: vaults)) outs /\
    map Toi_VaultPubKey outs `sublist_of` map Vault_PubKey (vault :: vaults)).
  { intros Hs. destruct (IHv _ _ _ Hf Ha Hs) as (H1 & H2 & H3 & H4). split_and!; [done..| |by constructor].
    eapply Forall_impl; [exact H3|]. intros o. apply sent_by_weaken. by right. }
  cbn [take_from_vaults] in H. cbv zeta in H.
  destruct (Vault_GetAddress vault _) as [from| |]; [|by apply Hskip|done].
  destruct (_ || _); [by apply Hskip|]. destruct (Z.leb_spec (Coin_Amount (Vault_GetCoin vault (Coin_Asset (Toi_Coin toi)))) fee) as [|Hheld]; [by apply Hskip|].
  destruct (_ || _) eqn:Hg; [by apply Hskip|]. apply orb_false_elim in Hg as [_ Hg%Z.ltb_ge].
  fold (item_asset toi) in Hheld, H. set (held := Coin_Amount (Vault_GetCoin vault (item_asset toi))) in *.
  change (item_amount (toi_with_vault toi (Vault_PubKey vault))) with (item_amount toi) in H.
  change (Coin_Amount (Toi_Coin (toi_with_vault toi (Vault_PubKey vault)))) with (item_amount toi) in H.
  assert (Hin : List.In vault (vault :: vaults)) by by left.
  destruct (Z.leb_spec (item_amount toi) held) as [Hle|Hgt].
  - injection H as <- <-. cbn [sumZ foldr map]. change (item_amount (toi_with_vault toi (Vault_PubKey vault))) with (item_amount toi).
    split_and!; [lia|lia| |apply sublist_skip, sublist_nil_l].
    constructor; [|constructor]. exists vault. split_and!; [done|done|by destruct toi as [? ? ? [? ? ?]]|done|done|done|done].
  - apply bind_Ok in H as (rem & ->%SafeSub_inv & H). apply bind_Ok in H as (am & ->%SafeSub_inv & H).
    apply bind_Ok in H as ([outs' rem'] & H & [= <- <-]). rewrite Z.max_r in H |- * by lia.
    apply IHv in H as (H1 & H2 & H3 & H4); [|done|cbn; lia].
    change (item_amount (toi_with_amount (toi_with_vault toi (Vault_PubKey vault)) (item_amount toi - held)))
      with (item_amount toi - held) in H1.
    rewrite sumZ_cons. cbn [item_amount toi_with_amount set_Amount Toi_Coin Coin_Amount].
    split_and!; [lia|lia| |by constructor]. constructor.
    + exists vault. split_and!; [done|done|done|done|cbn; lia|cbn; lia|done].
    + eapply Forall_impl; [exact H3|]. intros o. intros (v & Hv & Hpk & Ho & Hr). exists v.
      split_and!; [by right|done|exact Ho|apply Hr..].
Qed.

Lemma vaults_necessary_sub toi gas vaults : forall l,
  vaults_necessary toi gas vaults = Ok l -> map fst l `sublist_of` vaults.
Proof.
  induction vaults as [|v vaults IHv]; intros l H; [by injection H as <-|].
  cbn [vaults_necessary] in H. cbv zeta in H. destruct (_ =? 0); [constructor; by apply IHv|].
  destruct (_ && _); [constructor; by apply IHv|]. apply bind_Ok in H as (q & _ & H).
  apply bind_Ok in H as (e & _ & H). apply bind_Ok in H as (rest & Hr & [= <-]). constructor. by apply IHv.
Qed.

Lemma discoverOutbounds_inv fee gas toi vaults outs remaining :
  0 <= fee -> 0 <= item_amount toi ->
  discoverOutbounds fee gas toi vaults = Ok (outs, remaining) ->
  sumZ item_amount outs + remaining = item_amount toi /\ 0 <= remaining /\
  Forall (sent_by fee gas toi vaults) outs /\
  submseteq (map Toi_VaultPubKey outs) (map Vault_PubKey vaults).
Proof.
  intros Hf Ha H. unfold discoverOutbounds in H. apply bind_Ok in H as (vs & Hvs & H).
  apply take_from_vaults_spec in H as (H1 & H2 & H3 & H4); [|done..].
  assert (Hsub : submseteq vs vaults).
  { destruct (1 <? _)%nat; [|by injection Hvs as <-]. apply bind_Ok in Hvs as (l & Hl & [= <-]).
    apply vaults_necessary_sub, sublist_submseteq in Hl. by rewrite stable_sort_perm. }
  split_and!; [done..| |].
  - eapply Forall_impl; [exact H3|]. intros o. apply sent_by_weaken. intros v.
    rewrite <- !list_elem_of_In. intros Hv. by eapply elem_of_submseteq.
  - etrans; [by apply sublist_submseteq|]. by apply fmap_submseteq.
Qed.

Definition can_send (fee : Z) (gas : Coin) (toi : TxOutItem) (v : Vault) : bool :=
  match Vault_GetAddress v (Toi_Chain toi) with
  | Ok from =>
      negb (Address_IsEmpty from || Address_Equals (Toi_ToAddress toi) from)
      && (fee <? Coin_Amount (Vault_GetCoin v (item_asset toi)))
      && negb (Coin_IsEmpty (Vault_GetCoin v (GetGasAsset (Toi_Chain toi)))
               || (Coin_Amount (Vault_GetCoin v (GetGasAsset (Toi_Chain toi))) <? Coin_Amount gas))
  | _ => false
  end.

Definition is_frozen (gas : Coin) (v : Vault) : bool :=
  (0 <? Z.of_nat (length (Frozen v))) && Chains_Has (fst (NewChains (Frozen v))) (GetChain (Coin_Asset gas)).

Definition emptied (toi : TxOutItem) (outs : list TxOutItem) (v : Vault) : Prop :=
  exists o, List.In o outs /\ Toi_VaultPubKey o = Vault_PubKey v /\
    item_amount o = Coin_Amount (Vault_GetCoin v (item_asset toi)).

(** Something is left over only when all that can send have sent all they hold. *)
Lemma take_from_vaults_full fee gas vaults : forall toi outs remaining,
  take_from_vaults fee gas toi vaults = Ok (outs, remaining) -> 0 <= fee -> 0 < remaining ->
  forall v, List.In v vaults -> can_send fee gas toi v = true -> emptied toi outs v.
Proof.
  induction vaults as [|vault vaults IHv]; intros toi outs remaining H Hf Hr v Hin Hc; [done|].
  assert (Hskip : take_from_vaults fee gas toi vaults = Ok (outs, remaining) ->
    can_send fee gas toi vault = false -> emptied toi outs v).
  { intros Hs Hn. destruct Hin as [->|Hin]; [congruence|]. by eapply IHv. }
  unfold can_send in Hskip. cbn [take_from_vaults] in H. cbv zeta in H.
  destruct (Vault_GetAddress vault _) as [from| |]; [|by apply Hskip|done]. fold (item_asset toi) in H.
  destruct (_ || _); [by apply Hskip|].
  set (held := Coin_Amount (Vault_GetCoin vault (item_asset toi))) in *. rewrite Z.ltb_antisym in Hskip.
  destruct (Z.leb_spec held fee); [by apply Hskip|]. destruct (_ || _); [by apply Hskip|]. clear Hskip.
  change (Coin_Amount (Toi_Coin (toi_with_vault toi (Vault_PubKey vault)))) with (item_amount toi) in H.
  destruct (Z.leb_spec (item_amount toi) held); [injection H as <- <-; lia|].
  apply bind_Ok in H as (rem & ->%SafeSub_inv & H). apply bind_Ok in H as (am & ->%SafeSub_inv & H).
  apply bind_Ok in H as ([outs' rem'] & H & [= <- <-]). destruct Hin as [->|Hin].
  - eexists. split; [by left|]. split; [done|]. unfold held in *. cbn. lia.
  - destruct (IHv _ _ _ H Hf Hr v Hin Hc) as (o & Ho & Hpk & Ham). exists o. split; [by right|]. by split.
Qed.

Lemma vaults_necessary_has toi gas vaults v : forall l,
  vaults_necessary toi gas vaults = Ok l -> List.In v vaults ->
  Coin_Amount (Vault_GetCoin v (item_asset toi)) <> 0 -> is_frozen gas v = false ->
  List.In v (map fst l).
Proof.
  induction vaults as [|x vaults IHv]; intros l H Hin Hh Hz; [done|]. unfold item_asset, is_frozen in *.
  cbn [vaults_necessary] in H. cbv zeta in H. destruct (Z.eqb_spec (Coin_Amount (Vault_GetCoin x (Coin_Asset (Toi_Coin toi)))) 0).
  { destruct Hin as [->|Hin]; [done|by apply IHv]. }
  destruct (_ && Chains_Has (fst (NewChains (Frozen x))) _) eqn:Hx. { destruct Hin as [->|Hin]; [congruence|by apply IHv]. }
  apply bind_Ok in H as (q & _ & H). apply bind_Ok in H as (e & _ & H).
  apply bind_Ok in H as (rest & Hr & [= <-]). destruct Hin as [->|Hin]; [by left|right; by apply IHv].
Qed.

(** C19: What is asked for is what the vaults send and what is left over. Every vault
    sends at most once, no more than it holds, and has enough to pay for the gas; a
    vault that holds no more than the fee sends nothing. Something is left over only
    when every vault that can send and is not frozen has sent all it holds. *)
Theorem discoverOutbounds_spec fee gas toi vaults outs remaining :
  0 <= fee -> 0 <= item_amount toi ->
  discoverOutbounds fee gas toi vaults = Ok (outs, remaining) ->
  sumZ item_amount outs + remaining = item_amount toi /\ 0 <= remaining /\
  Forall (sent_by fee gas toi vaults) outs /\
  submseteq (map Toi_VaultPubKey outs) (map Vault_PubKey vaults) /\
  (0 < remaining -> forall v, List.In v vaults -> can_send fee gas toi v = true ->
     is_frozen gas v = false -> emptied toi outs v).
Proof.
  intros Hf Ha H. destruct (discoverOutbounds_inv _ _ _ _ _ _ Hf Ha H) as (H1 & H2 & H3 & H4).
  split_and!; [done..|]. intros Hr v Hin Hc Hz. unfold discoverOutbounds in H.
  apply bind_Ok in H as (vs & Hvs & H). eapply take_from_vaults_full; [exact H|done|done| |done].
  destruct (1 <? _)%nat; [|by injection Hvs as <-]. apply bind_Ok in Hvs as (l & Hl & [= <-]).
  apply in_map_iff. assert (Hin' : List.In v (map fst l)).
  { eapply vaults_necessary_has; [exact Hl|done| |done]. unfold can_send in Hc.
    destruct (Vault_GetAddress v _); [|done..]. rewrite !andb_true_iff in Hc. destruct Hc as [[_ Hc%Z.ltb_lt] _]. lia. }
  apply in_map_iff in Hin' as (x & <- & Hx). exists x. split; [done|].
  rewrite <- list_elem_of_In in *. by rewrite stable_sort_perm.
Qed.

(** What is chosen for an item adds up to it. *)
Lemma choose_vaults_inv k toi fee gas outs :
  choose_vaults k toi fee gas = Ok outs -> 0 <= fee -> 0 <= item_amount toi ->
  sumZ item_amount outs = item_amount toi /\
  Forall (fun o => item_asset o = item_asset toi /\ 0 <= item_amount o /\ MaxGas o = MaxGas toi) outs.
Proof.
  unfold choose_vaults. intros H Hf Ha. destruct (_ || _).
  { injection H as <-. split; [cbn; lia|]. by constructor. }
  apply bind_Ok in H as (vs & _ & H). apply bind_Ok in H as ([o r] & Hd & H).
  destruct (Z.eqb_spec r 0) as [->|]; [|done]. injection H as <-.
  apply discoverOutbounds_inv in Hd as (H1 & _ & H3 & _); [|done..]. split; [lia|].
  eapply Forall_impl; [exact H3|]. intros x (v & _ & _ & -> & _ & Hx & _). cbn.
  split_and!; [done|apply Hx|done].
Qed.

(** ** Fees of a whole request *)

(** How one item of the request changes the pool and the fees, and what is left. *)
Definition fee_taken k (a : Asset) (pool pool' : Pool) (o o1 : TxOutItem) (final final' : Z) : Prop :=
  (pool' = pool /\ final' = final /\ item_amount o1 = item_amount o) \/
  (if IsBase (item_asset o)
   then pool' = pool /\ final <= final' /\ item_amount o1 + final' = item_amount o + final
   else same_core (fee_source k a pool) pool' /\ charged (fee_source k a pool) pool' o o1 final final').

Lemma reamounted_asset o o' : reamounted o o' -> item_asset o' = item_asset o.
Proof. by intros ->. Qed.

Lemma reamounted_gas o o' : reamounted o o' -> MaxGas o' = MaxGas o.
Proof. by intros ->. Qed.

Lemma note_action_positions k o : same_positions k (note_action k o).
Proof. unfold note_action. by destruct (TxID_Equals _ _). Qed.

Lemma finish_output_inv toi dec feeRune feeAsset k pool final outs o k' pool' final' outs' :
  finish_output toi dec feeRune feeAsset (k, pool, final, outs) o = Ok (k', pool', final', outs') ->
  same_positions k k' /\
  (pool' = pool \/ same_core (fee_source k (item_asset toi) pool) pool') /\
  (0 <= feeRune -> 0 <= feeAsset -> 0 <= item_amount o -> gas_nonneg (MaxGas o) ->
   exists o1 extra, outs' = outs ++ extra /\ fee_taken k (item_asset toi) pool pool' o o1 final final' /\
     Forall (fun x => item_asset x = item_asset o /\ 0 <= item_amount x) extra /\
     sumZ item_amount extra <= item_amount o1).
Proof.
  unfold finish_output. intros H. apply bind_Ok in H as (oa & [Hca Hga]%outbound_gas_inv & H).
  assert (Hao : item_asset oa = item_asset o /\ item_amount oa = item_amount o)
    by (unfold item_asset, item_amount; by rewrite Hca).
  destruct Hao as [Haa Ham]. cbv zeta in H. apply bind_Ok in H as ([[[k1 p1] ob] f1] & Hfee & H).
  assert (Hf : same_positions k k1 /\ (p1 = pool \/ same_core (fee_source k (item_asset toi) pool) p1) /\
    reamounted oa ob /\ (0 <= feeRune -> 0 <= feeAsset -> 0 <= item_amount o ->
      0 <= item_amount ob /\ fee_taken k (item_asset toi) pool p1 o ob final f1)).
  { unfold fee_taken. destruct (pays_fee _).
    - apply charge_fee_inv in Hfee. cbv zeta in Hfee. rewrite Haa, Ham in Hfee.
      destruct Hfee as (Hk & Hre & Hp & Hi). destruct (IsBase (item_asset o)).
      + split_and!; [done|by left|done|]. intros Hr Hfa Ho. destruct (Hi Ho Hr Hfa) as (? & ? & ?). split; [done|by right].
      + split_and!; [done|by right|done|]. intros Hr Hfa Ho. destruct (Hi Ho Hr Hfa) as [? Hamt ? ?].
        rewrite Ham in *. split; [lia|]. right. split; [done|split; lia].
    - injection Hfee as <- <- <- <-. split_and!; [done|by left|apply reamounted_refl|]. intros _ _ Ho.
      split; [by rewrite Ham|by left]. }
  clear Hfee. destruct Hf as (Hk & Hp & Hre & Hi).
  apply bind_Ok in H as (oc & [Hrc Hoc]%leave_gas_inv & H).
  assert (Hac : item_asset oc = item_asset o) by (by rewrite (reamounted_asset _ _ Hrc), (reamounted_asset _ _ Hre)).
  rewrite (reamounted_gas _ _ Hre) in Hoc. destruct (Coin_IsEmpty _ && _).
  - apply bind_Ok in H as ([] & _ & [= <- <- <- <-]). split_and!; [done..|]. intros Hr Hfa Ho Hg.
    destruct (Hi Hr Hfa Ho) as [Hob Ht]. exists ob, []. rewrite app_nil_r. by split_and!.
  - apply bind_Ok in H as (r & Hround & [= <- <- <- <-]).
    split_and!; [etrans; [exact Hk|apply note_action_positions]|done|]. intros Hr Hfa Ho Hg.
    destruct (Hi Hr Hfa Ho) as [Hob Ht]. specialize (Hoc (Hga Hg) Hob).
    apply RoundToDecimal_le in Hround; [|apply Hoc]. fold (item_amount oc) in Hround.
    eexists ob, [_]. split; [reflexivity|]. cbn. split_and!; [done| |unfold item_amount in *; cbn in *; lia].
    constructor; [|constructor]. split; [exact Hac|]. cbn. lia.
Qed.

Lemma ledger_pool k a : ledger_sound k ->
  pool_nonneg (GetPool k a) /\
  (Pool_IsEmpty (GetPool k a) = false ->
   kv_pools k !! GetKey (Asset_String a) = Some (GetPool k a) /\
   GetKey (Asset_String (Pool_Asset (GetPool k a))) = GetKey (Asset_String a)).
Proof.
  intros [[[_ Hb] _] Hn]. unfold GetPool. destruct (kv_pools k !! _) as [p|] eqn:E; cbn.
  - split; [by apply (Hn _ _ E)|]. destruct (Hb _ _ E) as [Hk _]. done.
  - by split_and!.
Qed.

(** The pool in use is the stored one, with other balances, or none. *)
Definition fee_pool k0 (pool : Pool) : Prop :=
  Pool_IsEmpty pool = true \/
  exists p, kv_pools k0 !! GetKey (Asset_String (Pool_Asset pool)) = Some p /\
    pool_core pool = pool_core p /\ pool_nonneg pool.

Lemma fee_source_same k k' a pool : same_positions k k' -> fee_source k' a pool = fee_source k a pool.
Proof. intros [_ Hp]. unfold fee_source, GetPool. by rewrite Hp. Qed.

Lemma same_core_asset pool pool' : same_core pool pool' -> Pool_Asset pool' = Pool_Asset pool.
Proof. intros [Hc _]. unfold pool_core in Hc. congruence. Qed.

Lemma fee_pool_step k0 a pool pool' : ledger_sound k0 -> fee_pool k0 pool ->
  pool' = pool \/ same_core (fee_source k0 a pool) pool' -> fee_pool k0 pool'.
Proof.
  intros Hk Hp [->|Hc]; [done|]. pose proof (same_core_asset _ _ Hc) as Ha. destruct Hc as [Hc Hn].
  unfold fee_pool, Pool_IsEmpty in *. rewrite Ha. unfold fee_source, Pool_IsEmpty in *.
  destruct (Asset_IsEmpty (Pool_Asset pool)) eqn:E.
  - destruct (ledger_pool k0 (GetLayer1Asset a) Hk) as [Hg Hs]. unfold Pool_IsEmpty in Hs.
    destruct (Asset_IsEmpty (Pool_Asset (GetPool k0 (GetLayer1Asset a)))) eqn:E'; [by left|]. destruct (Hs eq_refl) as [Hl Hkey]. rewrite Hkey.
    right. eexists. split; [exact Hl|]. split; [done|by apply Hn].
  - rewrite E. destruct Hp as [|(p & Hl & Hcp & Hnp)]; [done|]. right. exists p.
    split; [done|]. split; [by rewrite Hc|by apply Hn].
Qed.

Lemma finish_outputs_pool toi dec feeRune feeAsset k0 outputs k pool final outs k' pool' final' outs' :
  ledger_sound k0 -> same_positions k0 k -> fee_pool k0 pool ->
  foldM (finish_output toi dec feeRune feeAsset) (k, pool, final, outs) outputs = Ok (k', pool', final', outs') ->
  same_positions k0 k' /\ fee_pool k0 pool'.
Proof.
  intros Hk0 Hk Hp H.
  apply (foldM_keeps (fun st : fee_state => same_positions k0 st.1.1.1 /\ fee_pool k0 st.1.1.2) _ (fun _ => True)) in H;
    [exact H| |done|by apply Forall_true].
  clear H Hk Hp. intros [[[k1 p1] f1] o1] o [[[k2 p2] f2] o2] [Hk Hp] _ H. cbn in *.
  apply finish_output_inv in H as (Hk' & Hp' & _). rewrite (fee_source_same k0 k1) in Hp' by done.
  split; [by transitivity k1|by eapply fee_pool_step].
Qed.

Lemma set_fee_pool_sound k0 k pool k' : ledger_sound k0 -> same_positions k0 k -> fee_pool k0 pool ->
  (if Pool_IsEmpty pool then Ok k else SetPool k pool) = Ok k' -> ledger_sound k'.
Proof.
  intros Hk0 Hk Hp H. destruct (Pool_IsEmpty pool) eqn:E; [injection H as <-; by eapply same_positions_ledger|].
  destruct Hp as [Hp|(p & Hl & Hc & Hn)]; [congruence|]. apply SetPool_stored in H as ->.
  apply (keeps_ledger_sound k0); [|done]. destruct Hk as [Hlp Hpo]. split; cbn; [done| |].
  - rewrite Hpo, fmap_insert, Hc. apply insert_id. by rewrite lookup_fmap, Hl.
  - rewrite Hpo. intros Hall. by apply map_Forall_insert_2.
Qed.

Lemma fee_to_reserve_positions k module fee k' : fee_to_reserve k module fee = Ok k' -> same_positions k k'.
Proof.
  unfold fee_to_reserve. destruct (fee =? 0); [by intros [= <-]|].
  destruct (if String.eqb module BondName then _ else _) as [k1| |] eqn:E; [|by intros [= <-]|done].
  intros [= <-]. destruct (String.eqb _ _); by eapply send_module_positions.
Qed.

Lemma prepareTxOutItem_sound gm k toi k' outs fee :
  prepareTxOutItem gm k toi = Ok (k', outs, fee) -> ledger_sound k -> ledger_sound k'.
Proof.
  unfold prepareTxOutItem. cbv zeta. intros H Hk. destruct (Address_IsEmpty _); [done|]. destruct (negb _); [done|].
  apply bind_Ok in H as (fr & _ & H). apply bind_Ok in H as (fa & _ & H). apply bind_Ok in H as (mg & _ & H).
  apply bind_Ok in H as (outputs & _ & H). apply bind_Ok in H as ([[[k1 pool] final] out] & H1 & H).
  apply finish_outputs_pool with (k0 := k) in H1 as [Hs Hp]; [|done|done|by left].
  apply bind_Ok in H as (k2 & H2 & H). apply bind_Ok in H as (k3 & H3%fee_to_reserve_positions & [= <- _ _]).
  eapply same_positions_ledger; [exact H3|]. by eapply set_fee_pool_sound.
Qed.

(** ** What a request takes and gives *)

Lemma u64_nonneg x : 0 <= u64 x.
Proof. unfold u64. apply Z.mod_pos_bound. lia. Qed.

Lemma uncapped_share_nonneg part total alloc : 0 <= GetUncappedShare part total alloc.
Proof. apply GetUncappedShare_uint. Qed.

Lemma RuneValueInAsset_nonneg p amt r : RuneValueInAsset p amt = Ok r -> 0 <= r.
Proof.
  unfold RuneValueInAsset. destruct (_ || _); [by intros [= <-]|]. cbv zeta.
  apply RoundToDecimal_nonneg, uncapped_share_nonneg.
Qed.

Lemma gas_asset_fee_nonneg gm k chain pool nf r : gas_asset_fee gm k chain pool nf = Ok r -> 0 <= r.
Proof.
  unfold gas_asset_fee. cbv zeta. intros H. apply bind_Ok in H as (m & _ & H). apply bind_Ok in H as (b & _ & H).
  apply bind_Ok in H as (f & Hf & [= <-]). apply RoundToDecimal_nonneg in Hf; [|apply uncapped_share_nonneg].
  destruct (Z.ltb_spec f m); lia.
Qed.

Lemma GetFee_nonneg gm k chain asset r : GetFee gm k chain asset = Ok r -> 0 <= r.
Proof.
  unfold GetFee. cbv zeta. destruct (_ && _); [intros [= <-]; apply u64_nonneg|].
  destruct (_ || _).
  { unfold getRuneInAssetValue. cbv zeta. destruct (_ || _); [intros [= <-]; apply u64_nonneg|].
    apply RuneValueInAsset_nonneg. }
  destruct (NetworkFee_Valid _); [|intros [= <-]; apply u64_nonneg..]. intros H.
  apply bind_Ok in H as (f & Hf%gas_asset_fee_nonneg & H). destruct (_ && _); [by injection H as <-|].
  destruct (_ || _); [by injection H as <-|]. destruct (IsBase asset).
  - injection H as <-. unfold AssetValueInRune. destruct (_ || _); [done|apply uncapped_share_nonneg].
  - destruct (_ || _); [by injection H as <-|]. by apply RuneValueInAsset_nonneg in H.
Qed.

(** The items so far, the fees and the pool against what went in. *)
Record fees_ok k0 (a : Asset) (total : Z) (st : fee_state) : Prop := {
  fo_store : same_positions k0 st.1.1.1;
  fo_items : Forall (fun x => item_asset x = a /\ 0 <= item_amount x) st.2;
  fo_base : IsBase a = true ->
    st.1.1.2 = NewPool /\ 0 <= st.1.2 /\ sumZ item_amount st.2 + st.1.2 <= total;
  fo_pool : IsBase a = false ->
    let stored := GetPool k0 (GetLayer1Asset a) in
    let used := fee_source k0 a st.1.1.2 in
    Pool_Asset used = Pool_Asset stored /\
    BalanceCacao used + st.1.2 = BalanceCacao stored /\ BalanceAsset stored <= BalanceAsset used /\
    sumZ item_amount st.2 + BalanceAsset used <= total + BalanceAsset stored;
}.

Lemma fee_source_full k a pool : Pool_IsEmpty pool = false -> fee_source k a pool = pool.
Proof. unfold fee_source. by intros ->. Qed.

Lemma fees_ok_step toi dec feeRune feeAsset k0 total st o st' :
  0 <= feeRune -> 0 <= feeAsset -> (IsBase (item_asset toi) = false -> Pool_IsEmpty (GetPool k0 (GetLayer1Asset (item_asset toi))) = false) ->
  fees_ok k0 (item_asset toi) total st -> item_asset o = item_asset toi -> 0 <= item_amount o ->
  gas_nonneg (MaxGas o) -> finish_output toi dec feeRune feeAsset st o = Ok st' ->
  fees_ok k0 (item_asset toi) (total + item_amount o) st'.
Proof.
  destruct st as [[[k pool] final] outs], st' as [[[k' pool'] final'] outs'].
  intros Hr Hf Hp0 [Hk Hit Hb Hnb] Ha Ho Hg H. cbn [fst snd] in *.
  apply finish_output_inv in H as (Hk' & Hcore & Hi).
  rewrite (fee_source_same k0 k) in Hcore by done.
  destruct (Hi Hr Hf Ho Hg) as (o1 & extra & -> & Ht & Hex & Hsum). clear Hi.
  unfold fee_taken in Ht. rewrite (fee_source_same k0 k) in Ht by done. rewrite Ha in Ht, Hex.
  split; cbn [fst snd]; [by transitivity k|by apply Forall_app| |].
  - intros E. rewrite E in Ht. destruct (Hb E) as (Hpool & Hfin & Htot). rewrite sumZ_app.
    destruct Ht as [(-> & -> & Hx)|(-> & Hle & Hx)]; (split; [done|lia]).
  - intros E. rewrite E in Ht. specialize (Hnb E). cbv zeta in Hnb |- *. destruct Hnb as (Hpa & Hc & Hge & Htot).
    rewrite sumZ_app. destruct Ht as [(-> & -> & Hx)|[Hcr [Hcc _ Hgr Hct]]]; [split_and!; [done..|lia]|].
    apply same_core_asset in Hcr. rewrite (fee_source_full k0 _ pool').
    + rewrite Hcr. split_and!; [done|lia..].
    + specialize (Hp0 E). unfold Pool_IsEmpty in *. by rewrite Hcr, Hpa.
Qed.

Lemma fees_ok_outputs toi dec feeRune feeAsset k0 outputs : forall total st st',
  0 <= feeRune -> 0 <= feeAsset -> (IsBase (item_asset toi) = false -> Pool_IsEmpty (GetPool k0 (GetLayer1Asset (item_asset toi))) = false) ->
  fees_ok k0 (item_asset toi) total st ->
  Forall (fun o => item_asset o = item_asset toi /\ 0 <= item_amount o /\ gas_nonneg (MaxGas o)) outputs ->
  foldM (finish_output toi dec feeRune feeAsset) st outputs = Ok st' ->
  fees_ok k0 (item_asset toi) (total + sumZ item_amount outputs) st'.
Proof.
  induction outputs as [|o outputs IHo]; intros total st st' Hr Hf Hp Hst Ho H.
  { injection H as <-. cbn. by rewrite Z.add_0_r. }
  cbn [foldM] in H. apply bind_Ok in H as (st1 & H1 & H). apply Forall_cons in Ho as [(Ha & Hn & Hg) Ho].
  rewrite sumZ_cons, Z.add_assoc. eapply IHo; [done..| |exact Ho|exact H].
  exact (fees_ok_step _ _ _ _ _ _ _ _ _ Hr Hf Hp Hst Ha Hn Hg H1).
Qed.

(** What a pool has of a store, after the fees of a request are in it. *)
Lemma set_fee_pool_get k0 k pool a k' : ledger_sound k0 -> same_positions k0 k ->
  Pool_Asset (fee_source k0 a pool) = Pool_Asset (GetPool k0 (GetLayer1Asset a)) ->
  Pool_IsEmpty (GetPool k0 (GetLayer1Asset a)) = false ->
  (if Pool_IsEmpty pool then Ok k else SetPool k pool) = Ok k' ->
  GetPool k' (GetLayer1Asset a) = fee_source k0 a pool.
Proof.
  intros Hk0 [_ Hk] Ha Hp H. unfold fee_source in *. destruct (Pool_IsEmpty pool).
  - injection H as <-. unfold GetPool. by rewrite Hk.
  - apply SetPool_stored in H as ->. unfold GetPool at 1. cbn.
    destruct (ledger_pool k0 (GetLayer1Asset a) Hk0) as [_ Hs]. destruct (Hs Hp) as [_ Hkey].
    by rewrite <- Hkey, <- Ha, lookup_insert_eq.
Qed.

Lemma prepare_memo_same k toi : item_asset (prepare_memo k toi) = item_asset toi /\
  item_amount (prepare_memo k toi) = item_amount toi /\ MaxGas (prepare_memo k toi) = MaxGas toi.
Proof.
  unfold prepare_memo. cbv zeta. destruct (TxID_IsEmpty _); [done|].
  by destruct (split_at _ _) as [h [d|]].
Qed.

(** C18: Nothing is made up when a request is prepared. Of CACAO, what is sent and the
    fees are at most what is asked for. Of another asset, what is sent and what the
    pool gains are at most what is asked for, and the fees in CACAO are what the pool
    gives for it. *)
Theorem prepareTxOutItem_conserves gm k toi k' outs fee :
  let a := item_asset toi in
  let pool := GetPool k (GetLayer1Asset a) in
  ledger_sound k -> (IsBase a = false -> Pool_IsEmpty pool = false) ->
  0 <= item_amount toi -> gas_nonneg (MaxGas toi) ->
  prepareTxOutItem gm k toi = Ok (k', outs, fee) ->
  Forall (fun o => item_asset o = a /\ 0 <= item_amount o) outs /\
  (IsBase a = true -> 0 <= fee /\ sumZ item_amount outs + fee <= item_amount toi) /\
  (IsBase a = false ->
     let pool' := GetPool k' (GetLayer1Asset a) in
     BalanceCacao pool' + fee = BalanceCacao pool /\ BalanceAsset pool <= BalanceAsset pool' /\
     sumZ item_amount outs + (BalanceAsset pool' - BalanceAsset pool) <= item_amount toi).
Proof.
  cbv zeta. intros Hk Hp Ha Hg H. unfold prepareTxOutItem in H. cbv zeta in H.
  destruct (prepare_memo_same k toi) as (M1 & M2 & M3). set (t := prepare_memo k toi) in *. clearbody t.
  rewrite <- M1, <- M2 in *. rewrite <- M3 in Hg. clear M1 M2 M3. destruct (Address_IsEmpty _); [done|].
  destruct (negb _); [done|]. apply bind_Ok in H as (fr & Hfr%GetFee_nonneg & H).
  apply bind_Ok in H as (fa & Hfa%GetFee_nonneg & H). apply bind_Ok in H as (mg & _ & H).
  apply bind_Ok in H as (outputs & [Hsum Hout]%choose_vaults_inv & H); [|done..].
  apply bind_Ok in H as ([[[k1 pool] final] out] & H1 & H).
  apply (fees_ok_outputs t _ fr fa k outputs 0) in H1 as [Hs Hit Hb Hnb]; [|done|done|done| |].
  2: { split; cbn; [done|constructor|by intros _; split_and!|]. intros Hba. cbv zeta. unfold fee_source. cbn.
       split_and!; [done|lia..]. }
  2: { eapply Forall_impl; [exact Hout|]. intros o (H2 & H3 & H4). by rewrite H4. }
  cbn [fst snd] in *. rewrite Hsum in Hb, Hnb. apply bind_Ok in H as (k2 & H2 & H).
  apply bind_Ok in H as (k3 & [_ H3]%fee_to_reserve_positions & [= <- <- <-]). split; [done|]. split.
  - intros E. destruct (Hb E) as (_ & ? & ?). lia.
  - intros E. destruct (Hnb E) as (Hpa & Hc & Hge & Htot).
    assert (Hget : GetPool k3 (GetLayer1Asset (item_asset t)) = fee_source k (item_asset t) pool).
    { unfold GetPool. rewrite H3. fold (GetPool k2 (GetLayer1Asset (item_asset t))).
      eapply set_fee_pool_get; [done|done|done|by apply Hp|exact H2]. }
    rewrite Hget. lia.
Qed.

(** ** The manager keeps the books *)

Lemma schedule_positions k toi memo k' h : schedule k toi memo = Ok (k', h) -> same_positions k k'.
Proof.
  unfold schedule. destruct (_ && _); [|by intros [= <- _]]. cbv zeta. intros H.
  apply bind_Ok in H as (t & _ & H). destruct (0 <? OutboundHeight _); by injection H as <- _.
Qed.

Lemma note_withheld_positions k chain fee k' : note_withheld k chain fee = Ok k' -> same_positions k k'.
Proof.
  unfold note_withheld. destruct (_ && _); [|by intros [= <-]]. intros H.
  apply bind_Ok in H as (f & _ & [= <-]). by split.
Qed.

Lemma add_outputs_sound height outputs : forall k k',
  foldM (fun k o => addToBlockOut k o height) k outputs = Ok k' -> ledger_sound k -> ledger_sound k'.
Proof.
  intros k k' H Hk. apply (foldM_keeps ledger_sound _ (fun _ => True)) in H; [done| |done|by apply Forall_true].
  intros x o x' Hx _ Ho. by eapply addToBlockOut_sound.
Qed.

Lemma cachedTryAdd_sound gm k toi minOut k' ok :
  cachedTryAddTxOutItem gm k toi minOut = Ok (k', ok) -> ledger_sound k -> ledger_sound k'.
Proof.
  unfold cachedTryAddTxOutItem. intros H Hk. apply bind_Ok in H as ([[k1 outs] fee] & H1 & H).
  destruct (prepareTxOutItem gm k toi) as [r| |] eqn:E; [|done..]. injection H1 as ->.
  apply prepareTxOutItem_sound in E; [|done]. destruct outs as [|output outs]; [done|].
  apply bind_Ok in H as (sum & _ & H). destruct (sum <? minOut).
  { apply bind_Ok in H as (a & _ & H). by apply bind_Ok in H as (b & _ & H). }
  destruct (existsb _ _); [done|]. apply bind_Ok in H as ([k2 h] & H2%schedule_positions & H).
  apply bind_Ok in H as (k3 & H3%add_outputs_sound & H); [|by eapply same_positions_ledger].
  apply bind_Ok in H as (k4 & H4%note_withheld_positions & [= <- _]). by eapply same_positions_ledger.
Qed.

Lemma takeAffiliateFee_positions fuel gm k toi k' amount :
  takeAffiliateFee fuel gm k toi = Ok (k', amount) -> same_positions k k'.
Proof.
  unfold takeAffiliateFee. cbv zeta. destruct (_ || _); [by intros [= <- _]|].
  destruct (String.eqb _ _); [done|]. destruct (HasPrefix _ _); [by intros [= <- _]|].
  destruct (ParseMemoWithMAYANames _ _) as [memo [|e es]]; [|done].
  destruct (_ && _); [by intros [= <- _]|]. destruct (_ && _); [|by intros [= <- _]].
  destruct (ListActiveValidators k) as [|node nodes]; [done|].
  destruct (skimAffiliateFeesV118 _ _ _ _ _ _ _ _) as [[[k1 total]|]| |] eqn:E; [|done| |done].
  - intros H. apply bind_Ok in H as (r & _ & [= <- _]).
    apply skim_pays in E as (names & ? & ? & ? & ? & ->). by destruct k.
  - intros H. by apply bind_Ok in H as (r & _ & [= <- _]).
Qed.

Lemma TryAdd_sound fuel gm k toi minOut k' ok :
  TryAddTxOutItem_current fuel gm k toi minOut = Ok (k', ok) -> ledger_sound k -> ledger_sound k'.
Proof.
  unfold TryAddTxOutItem_current. destruct (IsNoop _); [by intros [= <- _]|].
  destruct (_ && _); [by intros [= <- _]|]. intros H Hk.
  destruct (takeAffiliateFee _ _ _ _) as [[k1 amount]| |] eqn:E; [| |done].
  - eapply cachedTryAdd_sound; [exact H|]. eapply same_positions_ledger; [|exact Hk].
    by eapply takeAffiliateFee_positions.
  - by eapply cachedTryAdd_sound.
Qed.

#[export] Instance TxOutStorage_laws fuel gm : TxOutStoreLaws (TxOutStorage fuel gm).
Proof.
  split; [intros k toi minOut k' ok; apply TryAdd_sound|intros k toi height k'; apply UnSafeAdd_sound].
Qed.

Lemma update_voter_positions k f txOut k' : update_voter_action k f txOut = Ok k' -> same_positions k k'.
Proof.
  unfold update_voter_action. destruct (String.eqb _ _); [by intros [= <-]|]. cbv zeta.
  destruct (update_action _ _ _); [|done]. by intros [= <-].
Qed.

Lemma logged_positions k r k' : (forall k1, r = Ok k1 -> same_positions k k1) ->
  logged k r = Ok k' -> same_positions k k'.
Proof. intros Hr. destruct r as [k1| |]; [|by intros [= <-]|done]. intros [= <-]. by apply Hr. Qed.

Lemma refresh_gas_positions k items tx k' items' :
  refresh_gas (k, items) tx = Ok (k', items') -> same_positions k k'.
Proof.
  unfold refresh_gas. cbv zeta. destruct (_ && _); [by intros [= <- _]|]. intros H.
  apply bind_Ok in H as (g & _ & H). apply bind_Ok in H as (r & _ & H). apply bind_Ok in H as (r' & _ & H).
  apply bind_Ok in H as (k1 & H1 & H). apply bind_Ok in H as (k2 & H2 & [= <- _]). transitivity k1.
  - set (more := match MaxGas tx with [] => true | _ => _ end) in *. destruct more; [|by injection H1 as <-].
    apply logged_positions in H1; [done|]. intros k3. apply update_voter_positions.
  - apply logged_positions in H2; [done|]. intros k3. apply update_voter_positions.
Qed.

Lemma EndBlock_positions k k' : TxOutStorage_EndBlock k = Ok k' -> same_positions k k'.
Proof.
  unfold TxOutStorage_EndBlock. cbv zeta. intros H. apply bind_Ok in H as ([k1 items] & H1 & [= <-]).
  apply (foldM_keeps (fun st : KVStore * list TxOutItem => same_positions k st.1) _ (fun _ => True)) in H1;
    [|clear|done|by apply Forall_true].
  - etrans; [exact H1|]. unfold SetTxOut. by destruct (TxOut_IsEmpty _).
  - intros [x l] tx [x' l'] Hx _ Hr%refresh_gas_positions. by transitivity x.
Qed.

(** ** The block an item goes out in *)

Definition outbound_value k (toi : TxOutItem) : Z :=
  if IsBase (item_asset toi) then item_amount toi
  else AssetValueInRune (GetPool k (GetLayer1Asset (item_asset toi))) (item_amount toi).

(** A block that has nothing to send, or room for the value. *)
Definition block_open k (value threshold height : Z) : Prop :=
  exists v, GetTxOutValue k height = Ok v /\ (v = 0 \/ v + value <= threshold).

Lemma find_space_spec k value threshold count : forall t r,
  0 <= t -> t + Z.of_nat count < 2 ^ 63 -> find_space count k t value threshold = Ok r ->
  t <= r <= t + Z.of_nat count /\ (forall u, t <= u < r -> ~ block_open k value threshold u) /\
  (block_open k value threshold r \/ r = t + Z.of_nat count).
Proof.
  induction count as [|count IHc]; intros t r Ht Hb H.
  { injection H as <-. split; [lia|]. split; [lia|right; lia]. }
  cbn [find_space] in H. apply bind_Ok in H as (v & Hv & H).
  destruct (Z.eqb_spec v 0) as [->|Hv0].
  { injection H as <-. split; [lia|]. split; [lia|left]. exists 0. by split; [|left]. }
  apply bind_Ok in H as (s & [-> _]%uint_add_Ok & H). destruct (Z.leb_spec (v + value) threshold).
  { injection H as <-. split; [lia|]. split; [lia|left]. exists v. by split; [|right]. }
  rewrite i64_id in H by (unfold is_i64; lia). apply IHc in H as (H1 & H2 & H3); [|lia..].
  split; [lia|]. split.
  - intros u Hu. destruct (decide (u = t)) as [->|]; [|apply H2; lia].
    intros (v' & Hv' & Ho). rewrite Hv in Hv'. injection Hv' as <-. lia.
  - destruct H3 as [H3|H3]; [by left|right; lia].
Qed.

(** An outbound or a refund goes out in the first block with room from the one its
    value delays it to, which is no further than the largest offset; the search is
    bounded. Anything else goes out at once. *)
Theorem CalcTxOutHeight_spec k toi target :
  let memo := fst (ParseMemoWithMAYANames k (Toi_Memo toi)) in
  let offset := positive_mimir k "MaxTxOutOffset" in
  let delay := positive_mimir k "TxOutDelayMax" in
  let threshold := u64 (positive_mimir k "MinTxOutVolumeThreshold") in
  0 <= kv_height k -> 0 <= offset -> 0 <= delay -> kv_height k + offset + delay < 2 ^ 63 ->
  0 <= outbound_value k toi < 2 ^ 63 ->
  CalcTxOutHeight k toi = Ok target ->
  kv_height k <= target <= kv_height k + offset + delay /\
  (GetType memo <> TxRefund -> GetType memo <> TxOutbound -> target = kv_height k) /\
  (target = kv_height k \/
   exists first, kv_height k <= first <= target /\ first <= kv_height k + offset /\
     (forall h, first <= h < target -> ~ block_open k (outbound_value k toi) threshold h) /\
     (block_open k (outbound_value k toi) threshold target \/ target = first + delay)).
Proof.
  cbv zeta. intros Hh Hoff Hdel Hmax Hval H. unfold CalcTxOutHeight in H. cbv zeta in H.
  fold (item_asset toi) in H. fold (item_amount toi) in H. fold (outbound_value k toi) in H.
  set (offset := positive_mimir k "MaxTxOutOffset") in *. set (delay := positive_mimir k "TxOutDelayMax") in *.
  unfold memo_is in H. destruct (_ && _) eqn:Hmemo; [injection H as <-; split; [lia|]; split; [done|by left]|].
  assert (Hm : GetType (fst (ParseMemoWithMAYANames k (Toi_Memo toi))) <> TxRefund ->
    GetType (fst (ParseMemoWithMAYANames k (Toi_Memo toi))) <> TxOutbound -> target = kv_height k).
  { intros H1 H2. rewrite !bool_decide_eq_false_2 in Hmemo by done. done. }
  destruct (_ || _); [injection H as <-; split; [lia|]; split; [done|by left]|].
  apply bind_Ok in H as (sum & _ & H). apply bind_Ok in H as (sum64 & _ & H).
  set (rate := if _ <? 1 then 1 else _) in H.
  assert (Hrate : 1 <= rate) by (unfold rate; destruct (Z.ltb_spec (i64 (positive_mimir k "TxOutDelayRate" -
    Z.quot (i64 sum64) (positive_mimir k "MinTxOutVolumeThreshold"))) 1); lia).
  clearbody rate. apply bind_Ok in H as (value & Hvalue & H). unfold amount_uint64 in Hvalue.
  destruct ((0 <=? outbound_value k toi) && _); [|done]. injection Hvalue as <-. rewrite (i64_id (outbound_value k toi)) in H by (unfold is_i64; lia).
  assert (Hq : 0 <= Z.quot (outbound_value k toi) rate) by (apply Z.quot_pos; lia).
  set (blocks := if offset <? _ then _ else _) in H.
  assert (Hbl : 0 <= blocks <= offset)
    by (unfold blocks; destruct (Z.ltb_spec offset (Z.quot (outbound_value k toi) rate)); lia).
  clearbody blocks. rewrite i64_id in H by (unfold is_i64; lia).
  apply find_space_spec in H as (H1 & H2 & H3); [|lia..]. rewrite Z2Nat.id in H1, H3 by done.
  split; [lia|]. split; [done|]. right. exists (kv_height k + blocks). split_and!; [lia..|done|done].
Qed.

(** ** Any sequence of operations, with the manager itself *)

Context {AL : SdkAddressLaws A} {BL : CosmosBankLaws B} {AK : AccountKeeper}.

Inductive market_step (fuel : nat) gm : KVStore -> KVStore -> Prop :=
  | step_liquidity k k' : liquidity_step (TO := TxOutStorage fuel gm) k k' -> market_step fuel gm k k'
  | step_outbound k toi minOut k' ok :
      TryAddTxOutItem_current fuel gm k toi minOut = Ok (k', ok) -> market_step fuel gm k k'
  | step_outbound_at k toi height k' :
      UnSafeAddTxOutItem_current k toi height = Ok k' -> market_step fuel gm k k'
  | step_end_block k k' : TxOutStorage_EndBlock k = Ok k' -> market_step fuel gm k k'.

Lemma market_step_sound fuel gm k k' : market_step fuel gm k k' -> ledger_sound k -> ledger_sound k'.
Proof.
  intros Hxy Hk. destruct Hxy.
  - by eapply (liquidity_step_sound (TL := TxOutStorage_laws fuel gm)).
  - by eapply TryAdd_sound.
  - by eapply UnSafeAdd_sound.
  - eapply same_positions_ledger; [by eapply EndBlock_positions|done].
Qed.
End outbound_books.

(** ** A run with the manager *)

Section market_witnesses.
Import Reference ReferenceBank ReferenceRange ReferenceAddress ReferenceText ReferenceSort.
#[local] Existing Instance bond_address.
#[local] Existing Instance bond_codec.
#[local] Existing Instance bond_accounts.
#[local] Existing Instance ledger_keys.
#[local] Instance market_sha : Sha256 := {| sha256_hex s := s |}.
#[local] Instance market_handlers : InternalHandlers := {| handle_internal _ _ _ := Err "no handler" |}.

Lemma market_handlers_laws : InternalHandlersLaws market_handlers.
Proof. by split. Qed.

#[local] Instance market_txout : TxOutStore := TxOutStorage 5 newGasMgr.

Definition market_hash : TxID := "ABCDEF0123456789ABCDEF0123456789ABCDEF0123456789ABCDEF0123456789".

Definition market_item (chain : Chain) (to : Address) (asset : Asset) (amount : Z) (memo : string) : TxOutItem :=
  mkTxOutItem chain to EmptyPubKey (NewCoin asset amount) memo [] 0 market_hash EmptyString EmptyString
    EmptyString EmptyString None EmptyPubKey.

Definition market_vault (pk : PubKey) (amount : Z) : Vault :=
  mkVault 1 pk [NewCoin BTCAsset amount] VaultType_AsgardVault VaultStatus_ActiveVault 1 ["1"] ["BTC"]
    0 0 [] [] [] EmptyPubKey.

Definition market_start : outcome KVStore :=
  let k := set_kv_network_fees ledger_start {[ "BTC" := mkNetworkFee "BTC" 1 1 ]} in
  let k := SetMimir (SetMimir (SetMimir k "OutboundTransactionFee" 2) "TxOutDelayRate" 25) "TxOutDelayMax" 5 in
  let k := SetMimir (SetMimir k "MaxTxOutOffset" 3) "MinTxOutVolumeThreshold" 1000 in
  SetVault
    (set_kv_bank k (ReferenceBank.mkState (<[(AsgardName, Asset_Native BaseAsset) := 10000]> ∅)
                      (<[Asset_Native BaseAsset := 10000]> ∅)))
    (market_vault "vault" 5000).

Definition market_message : MsgWithdrawLiquidity :=
  NewMsgWithdrawLiquidity (mkTx market_hash BASEChain "maya1bob" "asgard" [] [] EmptyString) "maya1bob" 5000
    BTCAsset EmptyAsset "bob".

(** A payment of bitcoin is scheduled, "alice" bonds, the vault is slashed, "bob"
    withdraws and is paid in CACAO and in bitcoin, and the block ends. *)
Definition market_states (start : outcome KVStore) : outcome (KVStore * KVStore * KVStore) :=
  k0 ← start;
  '(k1, _) ← TryAddTxOutItem_current 5 newGasMgr k0 (market_item BTCChain "3bob" BTCAsset 100 EmptyString) 1;
  k2 ← bond_Run k1 bond_message;
  '(k3, _) ← SlashVaultToLP k2 "vault" [NewCoin BTCAsset 100] true;
  k4 ← withdraw_Run k3 market_message;
  k5 ← TxOutStorage_EndBlock k4;
  Ok (k0, k2, k5).

Lemma market_states_steps start k0 k2 k5 :
  market_states start = Ok (k0, k2, k5) -> reserve_apart k2 -> rtc (market_step 5 newGasMgr) k0 k5.
Proof.
  unfold market_states. intros H A2. apply bind_Ok in H as (x0 & _ & H).
  apply bind_Ok in H as ([k1 ok] & E1 & H). apply bind_Ok in H as (x2 & E2 & H).
  apply bind_Ok in H as ([k3 e] & E3 & H). apply bind_Ok in H as (k4 & E4 & H).
  apply bind_Ok in H as (x5 & E5 & [= -> -> ->]).
  eapply rtc_l; [exact (step_outbound _ _ _ _ _ _ _ E1)|].
  eapply rtc_l; [refine (step_liquidity _ _ _ _ (step_bond _ bond_message _ _ _ E2)); [by split; vm_compute|by vm_compute]|].
  eapply rtc_l; [exact (step_liquidity _ _ _ _ (step_slash _ _ _ _ _ _ A2 E3))|].
  eapply rtc_l; [refine (step_liquidity _ _ _ _ (step_withdraw _ market_message _ _ E4)); by vm_compute|].
  apply rtc_once. exact (step_end_block _ _ _ _ E5).
Qed.

Definition market_check (r : outcome (KVStore * KVStore * KVStore)) : bool :=
  match r with
  | Ok (k0, k2, k5) =>
      ledger_sound_b k0 && apart_b k2 && (length (TxArray (GetTxOut k5 (kv_height k5 + 3))) =? 2)%nat
  | _ => false
  end.

Lemma market_checked : market_check (market_states market_start) = true.
Proof. by vm_compute. Qed.

Lemma market_check_spec r : market_check r = true -> exists k0 k2 k5, r = Ok (k0, k2, k5) /\
  ledger_sound k0 /\ reserve_apart k2 /\ length (TxArray (GetTxOut k5 (kv_height k5 + 3))) = 2%nat.
Proof.
  destruct r as [[[k0 k2] k5]| |]; [|discriminate..]. cbn [market_check].
  rewrite !andb_true_iff, Nat.eqb_eq. intros [[H0 A2] Hn]. exists k0, k2, k5. split; [reflexivity|].
  split; [by apply ledger_sound_b_spec|]. split; [by apply apart_b_spec|exact Hn].
Qed.

(** *** Two vaults for a request that neither can pay alone *)

Definition market_request : TxOutItem := market_item BTCChain "3bob" BTCAsset 900 EmptyString.
Definition market_vaults : list Vault := [market_vault "v1" 400; market_vault "v2" 700; market_vault "v3" 10].

Lemma discoverOutbounds_spec_witness :
  exists outs, discoverOutbounds 20 (NewCoin BTCAsset 5) market_request market_vaults = Ok (outs, 0) /\
    map (fun o => (Toi_VaultPubKey o, item_amount o)) outs = [("v2", 700); ("v1", 200)] /\
    sumZ item_amount outs + 0 = 900.
Proof.
  destruct (discoverOutbounds 20 (NewCoin BTCAsset 5) market_request market_vaults) as [[outs rem]| |] eqn:E;
    [|vm_compute in E; discriminate E..].
  assert (Hr : rem = 0 /\ map (fun o => (Toi_VaultPubKey o, item_amount o)) outs = [("v2", 700); ("v1", 200)])
    by (vm_compute in E; injection E as <- <-; by vm_compute).
  destruct Hr as [-> Hm]. exists outs. refine (conj eq_refl (conj Hm _)).
  assert (Ha : 0 <= item_amount market_request) by by vm_compute.
  exact (proj1 (discoverOutbounds_spec 20 (NewCoin BTCAsset 5) market_request market_vaults outs 0
    ltac:(by vm_compute) Ha E)).
Defined.

(** *** A fee in bitcoin *)

Definition market_pool (k : KVStore) : Pool := GetPool k (GetLayer1Asset BTCAsset).

Definition fee_store : outcome KVStore :=
  k ← market_start;
  Ok (SetMimir (SetMimir (set_kv_network_fees k {[ "BTC" := mkNetworkFee "BTC" 10 10 ]})
        "MaxOutboundFeeMultiplierBasisPoints" 20000) "MinOutboundFeeMultiplierBasisPoints" 10000).

Definition prepare_with (start : outcome KVStore) : outcome (KVStore * KVStore * list TxOutItem * Z) :=
  k ← start; '(k', outs, fee) ← prepareTxOutItem newGasMgr k market_request; Ok (k, k', outs, fee).

Definition prepare_check (r : outcome (KVStore * KVStore * list TxOutItem * Z)) : bool :=
  match r with
  | Ok (k, k', outs, fee) =>
      ledger_sound_b k && negb (Pool_IsEmpty (market_pool k)) && (BalanceCacao (market_pool k) =? 5000)
      && (BalanceAsset (market_pool k) =? 1000) && (BalanceCacao (market_pool k') =? 4167)
      && (BalanceAsset (market_pool k') =? 1200) && (fee =? 833)
      && bool_decide (map item_amount outs = [700])
  | _ => false
  end.

Lemma market_prepared : prepare_check (prepare_with fee_store) = true.
Proof. by vm_compute. Qed.

Lemma market_prepare_inv r : prepare_check r = true -> exists k k' outs fee, r = Ok (k, k', outs, fee) /\
  ledger_sound k /\ Pool_IsEmpty (market_pool k) = false /\ BalanceCacao (market_pool k) = 5000 /\
  BalanceAsset (market_pool k) = 1000 /\ BalanceCacao (market_pool k') = 4167 /\
  BalanceAsset (market_pool k') = 1200 /\ fee = 833 /\ map item_amount outs = [700].
Proof.
  destruct r as [[[[k k'] outs] fee]| |]; [|discriminate..]. cbn [prepare_check].
  rewrite !andb_true_iff, !Z.eqb_eq, negb_true_iff, bool_decide_eq_true, ledger_sound_b_spec.
  intros [[[[[[[? ?] ?] ?] ?] ?] ?] ?]. by exists k, k', outs, fee.
Qed.

Lemma prepare_with_inv start k k' outs fee : prepare_with start = Ok (k, k', outs, fee) ->
  prepareTxOutItem newGasMgr k market_request = Ok (k', outs, fee).
Proof.
  unfold prepare_with. intros H. apply bind_Ok in H as (x & _ & H).
  by apply bind_Ok in H as ([[k1 o] f] & H & [= -> -> -> ->]).
Qed.

(** Of 900 the vaults send 700: the pool takes 200 and gives the reserve 833 CACAO. *)
Lemma prepareTxOutItem_conserves_witness :
  exists k k' outs fee, prepare_with fee_store = Ok (k, k', outs, fee) /\ map item_amount outs = [700] /\
    fee = 833 /\ BalanceAsset (market_pool k') = 1200 /\
    sumZ item_amount outs + (BalanceAsset (market_pool k') - BalanceAsset (market_pool k)) <= 900.
Proof.
  destruct (market_prepare_inv _ market_prepared) as (k & k' & outs & fee & E & Hk & Hp & _ & _ & _ & Ha & Hf & Hm).
  exists k, k', outs, fee. refine (conj E (conj Hm (conj Hf (conj Ha _)))).
  assert (H0 : 0 <= item_amount market_request) by by vm_compute.
  assert (Hg : gas_nonneg (MaxGas market_request)) by constructor.
  destruct (prepareTxOutItem_conserves newGasMgr k market_request k' outs fee Hk (fun _ => Hp) H0 Hg
    (prepare_with_inv _ _ _ _ _ E)) as (_ & _ & Hb).
  assert (Hi : IsBase (item_asset market_request) = false) by by vm_compute.
  exact (proj2 (proj2 (Hb Hi))).
Defined.

(** *** A block that is full *)

Definition market_payment : TxOutItem := market_item BTCChain "3bob" BTCAsset 150 ("OUT:" +:+ market_hash).

Definition queued_store (start : outcome KVStore) : outcome KVStore :=
  k ← start; Ok (AppendTxOut k (kv_height k + 3) (market_item BTCChain "3bob" BTCAsset 100 EmptyString)).

Definition height_check (r : outcome KVStore) : bool :=
  match r with
  | Ok k =>
      (kv_height k =? 10) && (positive_mimir k "MaxTxOutOffset" =? 3) && (positive_mimir k "TxOutDelayMax" =? 5)
      && (outbound_value k market_payment =? 750)
      && match CalcTxOutHeight k market_payment with Ok h => h =? 14 | _ => false end
  | _ => false
  end.

Lemma height_checked : height_check (queued_store market_start) = true.
Proof. by vm_compute. Qed.

Lemma height_check_inv r : height_check r = true -> exists k, r = Ok k /\ kv_height k = 10 /\
  positive_mimir k "MaxTxOutOffset" = 3 /\ positive_mimir k "TxOutDelayMax" = 5 /\
  outbound_value k market_payment = 750 /\ CalcTxOutHeight k market_payment = Ok 14.
Proof.
  destruct r as [k| |]; [|discriminate..]. cbn [height_check]. rewrite !andb_true_iff, !Z.eqb_eq.
  intros [[[[H1 H2] H3] H4] Ht]. exists k. split_and!; [done..|].
  destruct (CalcTxOutHeight k market_payment) as [h| |]; [|discriminate..]. by apply Z.eqb_eq in Ht as ->.
Qed.

(** The largest offset leads to block 13, which has no room: block 14 sends. *)
Lemma CalcTxOutHeight_spec_witness :
  exists k, queued_store market_start = Ok k /\ CalcTxOutHeight k market_payment = Ok 14 /\ 10 <= 14 <= 10 + 3 + 5.
Proof.
  destruct (height_check_inv _ height_checked) as (k & E & Hh & Ho & Hd & Hv & Ht). exists k.
  refine (conj E (conj Ht _)). rewrite <- Hh, <- Ho, <- Hd.
  refine (proj1 (CalcTxOutHeight_spec k market_payment 14 _ _ _ _ _ Ht)).
  all: rewrite ?Hh, ?Ho, ?Hd, ?Hv; lia.
Defined.
End market_witnesses.
