(* ===== verification/SwapHandler.v ===== *)
(** [x/mayachain/handler_swap.go]: the handler of a swap at the current version, with
    what it does for a streaming swap, for a swap to the collectors of affiliate fees
    and for a deposit of a saver. *)
From S2P Require Import Prelude GoText Sdk Constants Floats Shares Chains Keys Addresses Assets Coins Txs.
From S2P Require Import NodeAccounts Votes TxOuts Vaults ObservedTxs Pools Mimirs StreamingSwaps SwapMsgs.
From S2P Require Import LiquidityProviders Records MayaNames Stores Keeper FuzzyAssets Nodes Bonds VaultStore Halts Gas.
From S2P Require Import TradeAccounts Aggregators Swapper Swaps Affiliates Decimals Memos Collectors SwapChecks.
From S2P Require Import Liquidity AddLiquidity.

(** The version of the software, which a file made by the build holds. *)
Class BuildVersion `{V : Semver} := { LatestVersion : Version }.

Definition with_Interval (m : StreamingSwap) (v : Z) : StreamingSwap :=
  mkStreamingSwap (Swp_TxID m) v (Quantity m) (Count m) (LastHeight m) (StreamingSwaps.TradeTarget m)
    (Deposit m) (In m) (Out m) (FailedSwaps m) (FailedSwapReasons m).

Definition with_Quantity (m : StreamingSwap) (v : Z) : StreamingSwap :=
  mkStreamingSwap (Swp_TxID m) (Interval m) v (Count m) (LastHeight m) (StreamingSwaps.TradeTarget m)
    (Deposit m) (In m) (Out m) (FailedSwaps m) (FailedSwapReasons m).

Definition StreamingSwapMinBPFeeMulti : Z := 100.

(** The message with another first amount and price limit. *)
Definition with_size (msg : MsgSwap) (amount target : Z) : MsgSwap :=
  let coins := match Tx_Coins (Msg_Tx msg) with
               | [] => []
               | c :: cs => set_Amount c amount :: cs
               end in
  mkMsgSwap (set_Coins (Msg_Tx msg) coins) (TargetAsset msg) (Destination msg) target (AffiliateAddress msg)
    (AffiliateBasisPoints msg) (Signer msg) (Aggregator msg) (AggregatorTargetAddress msg)
    (AggregatorTargetLimit msg) (Msg_OrderType msg) (SwapMsgs.StreamQuantity msg) (SwapMsgs.StreamInterval msg).

Section swap_handler.
Context `{V : Semver} `{B : CosmosBank} `{A : SdkAddress} `{R : MapRange} `{L : AddressLib}.
Context `{U : SdkUint} `{D : SdkDec} `{SH : Sha256} `{T : UintText} `{C : PubKeyCodec} {TO : TxOutStore} {BV : BuildVersion}.
Implicit Types (k : KVStore) (gm : GasMgr).

(** ** How many parts a streaming swap may have *)

Definition swap_pools k (sourceAsset targetAsset : Asset) : list Pool :=
  map (fun a => GetPool k (GetLayer1Asset a))
    (List.filter (fun a => negb (IsNativeBase a)) [sourceAsset; targetAsset]).

(** The depth in CACAO of a pool that stands for those of the swap. *)
Definition virtual_depth (pools : list Pool) : outcome Z :=
  totalCacaoDepth ← foldM (fun t p => uint_add t (BalanceCacao p)) 0 pools;
  match pools with
  | [] => Err "dev error: no pools selected during a streaming swap"
  | [_] => Ok totalCacaoDepth
  | [p1; p2] =>
      product ← uint_mul (BalanceCacao p1) (BalanceCacao p2);
      num ← uint_mul64 product 2;
      denom ← uint_add (BalanceCacao p1) (BalanceCacao p2);
      if denom =? 0 then Err "dev error: both pools have no rune balance" else uint_quo num denom
  | _ => Err "dev error: unsupported number of pools in a streaming swap: %d"
  end.

(** The least part, in the source asset. *)
Definition min_size k (sourceAsset : Asset) (pools : list Pool) : outcome Z :=
  virtualDepth ← virtual_depth pools;
  let virtualDepth :=
    match pools with
    | p :: _ => if negb (IsNativeBase sourceAsset)
                then GetUncappedShare virtualDepth (BalanceCacao p) (BalanceAsset p) else virtualDepth
    | [] => virtualDepth
    end in
  let minBP := i64 (GetConfigInt64 k "StreamingSwapMinBPFee" * StreamingSwapMinBPFeeMulti) in
  let minBP := Z.quot minBP (Z.of_nat (length pools)) in
  if minBP =? 0 then Err "streaming swaps are not allowed with a min BP of zero"
  else
    Ok (GetSafeShare (SafeUintFromInt64 minBP) (SafeUintFromInt64 (10000 * StreamingSwapMinBPFeeMulti))
          virtualDepth).

Definition getMaxSwapQuantityV110 k (sourceAsset targetAsset : Asset) (swp : StreamingSwap) : outcome Z :=
  if Interval swp =? 0 then Ok 0
  else
    minSize ← min_size k sourceAsset (swap_pools k sourceAsset targetAsset);
    if minSize =? 0 then Ok 1
    else
      maxSwapQuantity ← uint_quo (Deposit swp) minSize;
      let maxLength :=
        if Asset_IsNative sourceAsset && Asset_IsNative targetAsset
        then GetConfigInt64 k "StreamingSwapMaxLengthNative"
        else GetConfigInt64 k "StreamingSwapMaxLength" in
      let maxSwapInMaxLength := Z.quot (u64 maxLength) (Interval swp) in
      if maxSwapInMaxLength <? maxSwapQuantity then Ok maxSwapInMaxLength
      else if maxSwapQuantity =? 0 then Ok 1
      else amount_uint64 maxSwapQuantity.

(** ** The handler *)

(** The streaming swap of the message with its interval and quantity, which the first
    part settles. *)
Definition settle_stream k (msg : MsgSwap) (source : Asset) (swp : StreamingSwap) : outcome StreamingSwap :=
  if Count swp =? 0 then
    let maxLength := u64 (GetConfigInt64 k "StreamingSwapMaxLength") in
    let swp := if maxLength <? Interval swp then with_Interval swp maxLength else swp in
    maxSwapQuantity ← getMaxSwapQuantityV110 k source (TargetAsset msg) swp;
    Ok (if (Quantity swp =? 0) || (maxSwapQuantity <? Quantity swp)
        then with_Quantity swp maxSwapQuantity else swp)
  else Ok swp.

Definition network_matches k (msg : MsgSwap) : bool :=
  SoftEquals MainNet (Address_GetNetwork MainNet LatestVersion (Destination msg) (kv_version k) (GetChain (TargetAsset msg))).

(** What precedes the swap: the streaming swap is stored, and the message gets the
    amount and the limit of the part to swap. *)
Definition swap_prepare k (msg : MsgSwap) : outcome (KVStore * MsgSwap * StreamingSwap * string) :=
  if negb (network_matches k msg) then Err "address(%s) is not same network"
  else if IsBase (TargetAsset msg) && negb (IsNativeBase (TargetAsset msg))
  then Err "target asset can't be %s"
  else
    dexAgg ← (if 0 <? str_len (Aggregator msg)
              then FetchDexAggregator (kv_version k) (Asset_Chain (TargetAsset msg)) (Aggregator msg)
              else Ok EmptyString);
    swp ← GetStreamingSwap msg;
    if IsStreaming msg then
      match Tx_Coins (Msg_Tx msg) with
      | [] => Panic
      | coin :: _ =>
          let id := Tx_ID (Msg_Tx msg) in
          let swp := if StreamingSwapExists k id then k_GetStreamingSwap k id else swp in
          swp ← settle_stream k msg (Coin_Asset coin) swp;
          '(amount, target) ← NextSize swp (kv_version k);
          Ok (SetStreamingSwap k swp, with_size msg amount target, swp, dexAgg)
      end
    else Ok (k, msg, swp, dexAgg).

Definition synth_depth_mult k : Z :=
  let v := GetMimir k "VirtualMultSynthsBasisPoints" in
  if v <? 1 then kv_constants k "VirtualMultSynthsBasisPoints" else v.

(** A swap to the module of the collectors credits the first affiliate of the memo. A
    memo that does not parse credits the owner of the empty name. *)
Definition collect_swap gm k (msg : MsgSwap) (memo : Memo * list string) (emit : Z) : outcome KVStore :=
  mayaname ←
    (match memo with
     | (mem, []) =>
         match GetAffiliates mem with
         | aff :: _ => GetMAYAName k aff
         | [] => Err "failed to process swap to affiliate collector, affiliate MAYAName not provided in memo"
         end
     | _ => Ok (bare_name EmptyString)
     end);
  if negb (IsNativeBase (TargetAsset msg))
  then Err "failed to process swap to affiliate collector, swap target asset is %s, expected CACAO"
  else
    transactionFee ← GetFee gm k BASEChain BaseAsset;
    addCacaoAmt ← SafeSub emit transactionFee;
    match updateAffiliateCollector gm k addCacaoAmt mayaname 0 with
    | Ok (k, _) => Ok k
    | Err _ => Err "failed to update affiliate collector, err: %w"
    | Panic => Panic
    end.

Definition getMsgAddLiquidityFromMemo (asset : Asset) (destination affAddr : Address) (affPts : Z) (tx : Tx)
    (signer : AccAddress) (tier : Z) : MsgAddLiquidity :=
  let runeCoin := GetCoin (Tx_Coins tx) BaseAsset in
  let assetCoin := GetCoin (Tx_Coins tx) asset in
  let '(runeAddr, assetAddr) :=
    if Chain_Equals (Tx_Chain tx) BASEChain then (FromAddress tx, destination)
    else (destination, FromAddress tx) in
  let assetAddr := if Chain_Equals (Asset_Chain asset) BASEChain then runeAddr else assetAddr in
  NewMsgAddLiquidity tx asset (Coin_Amount runeCoin) (Coin_Amount assetCoin) runeAddr assetAddr affAddr affPts
    signer tier.

(** The deposit of a saver that follows a swap. An error of the memo is dropped: the
    error that is returned then is nil. *)
Definition swap_followup k (msg : MsgSwap) (memo : Memo * list string) (emit : Z) : outcome KVStore :=
  match memo with
  | (_, _ :: _) => Ok k
  | (MAddLiquidity asset addr affAddr affPts _, []) =>
      let asset := fuzzyAssetMatchV123 k asset in
      let tx := set_Coins (Msg_Tx msg) [NewCoin asset emit] in
      add_Run k (getMsgAddLiquidityFromMemo asset addr affAddr affPts tx (Signer msg) 0)
  | _ => Ok k
  end.

(** What follows the swap. *)
Definition swap_finish gm k (msg : MsgSwap) (swp : StreamingSwap) (emit : Z) : outcome KVStore :=
  let affColAddress := match GetModuleAddress k AffiliateCollectorName with Ok a => a | _ => NoAddress end in
  let memo := ParseMemoWithMAYANames k (Tx_Memo (Msg_Tx msg)) in
  if Address_Equals (Destination msg) affColAddress then collect_swap gm k msg memo emit
  else
    _ ← (if IsSyntheticAsset (TargetAsset msg) && negb (IsStreaming msg)
         then isSynthMintPaused k (TargetAsset msg) emit else Ok tt);
    let preferred := HasPrefix (Tx_Memo (Msg_Tx msg)) PreferredAssetSwapMemoPrefix
                     && Address_Equals (FromAddress (Msg_Tx msg)) affColAddress in
    if IsStreaming msg then
      match Tx_Coins (Msg_Tx msg) with
      | [] => Panic
      | coin :: _ =>
          i ← uint_add (In swp) (Coin_Amount coin);
          o ← uint_add (Out swp) emit;
          let swp := with_In_Out swp i o in
          let k := SetStreamingSwap k swp in
          if negb (IsLastSwap swp) then Ok k
          else if preferred then Ok k else swap_followup k msg memo (Out swp)
      end
    else if preferred then Ok k else swap_followup k msg memo emit.

Definition swap_execute gm (p : KVStore * MsgSwap * StreamingSwap * string) : outcome KVStore :=
  let '(k, msg, swp, dexAgg) := p in
  '(k, emit, _) ← Swap k (Msg_Tx msg) (TargetAsset msg) (Destination msg) (Msg_TradeTarget msg) dexAgg
                    (AggregatorTargetAddress msg) (AggregatorTargetLimit msg) swp (synth_depth_mult k);
  swap_finish gm k msg swp emit.

Definition swap_handleV118 gm k (msg : MsgSwap) : outcome KVStore :=
  p ← swap_prepare k msg; swap_execute gm p.

Definition swap_Run gm k (msg : MsgSwap) : outcome KVStore :=
  _ ← swap_validateV123 k msg; swap_handleV118 gm k msg.

(** The first amount of the message when the handler returns: the part of a streaming
    swap is written to the coins that the message shares with its caller. *)
Definition amount_after k (msg : MsgSwap) : outcome Z :=
  let coins := match swap_validateV123 k msg with
               | Ok _ => match swap_prepare k msg with
                         | Ok (_, msg', _, _) => Tx_Coins (Msg_Tx msg')
                         | _ => Tx_Coins (Msg_Tx msg)
                         end
               | _ => Tx_Coins (Msg_Tx msg)
               end in
  match coins with c :: _ => Ok (Coin_Amount c) | [] => Ok 0 end.
End swap_handler.
