(* ===== verification/ManageMayaNames.v ===== *)
(** [x/mayachain/handler_manage_mayaname.go] and [types/msg_manage_mayaname.go]:
    registering a name, extending or changing it, and setting its subaffiliates.
    Only its owner changes a name, and no other name changes with it; when names
    are written in lower case the hierarchy never gets a cycle; with mixed case it
    can. *)
From S2P Require Import Prelude GoText Sdk Shares Chains Keys Addresses Assets Coins Txs.
From S2P Require Import NodeAccounts Votes TxOuts ObservedTxs Mimirs Pools StreamingSwaps SwapMsgs Records.
From S2P Require Import MayaNames Stores Keeper Halts Gas TradeAccounts Swapper Affiliates Collectors.

(** ** The message *)

Record MsgManageMAYAName := mkMsgManageMAYAName {
  Manage_Name : string;
  Manage_Chain : Chain;
  Manage_Address : Address;
  Manage_Coin : Coin;
  Manage_ExpireBlockHeight : Z;
  Manage_PreferredAsset : Asset;
  Manage_AffiliateBps : Z;
  SubaffiliateBps : list Z;
  SubaffiliateName : list string;
  Manage_Owner : AccAddress;
  Manage_Signer : AccAddress;
}.

Section manage.
Context `{V : Semver} `{B : CosmosBank} `{A : SdkAddress} `{R : MapRange} `{L : AddressLib}.
Context `{U : SdkUint} `{D : SdkDec} `{SH : Sha256}.
Implicit Types (k : KVStore) (gm : GasMgr) (msg : MsgManageMAYAName).

Definition ValidateBasicV112 msg (version : Version) : outcome unit :=
  if acc_empty (Manage_Signer msg) then Err "invalid address"
  else if 30 <? str_len (Manage_Name msg) then Err "MAYAName cannot exceed 30 characters"
  else if negb (IsValidMAYANameV1 (Manage_Name msg)) then Err "invalid MAYAName"
  else
    _ ← (if negb (Chain_IsEmpty (Manage_Chain msg)) || negb (Address_IsEmpty (Manage_Address msg))
         then
           if Chain_IsEmpty (Manage_Chain msg)
           then Err "chain can't be empty: chain and address must be provided together"
           else if Address_IsEmpty (Manage_Address msg)
           then Err "address can't be empty: chain and address must be provided together"
           else if negb (IsChain (Manage_Address msg) (Manage_Chain msg) version)
           then Err "address and chain must match"
           else Ok tt
         else Ok tt);
    if negb (IsNativeBase (Coin_Asset (Manage_Coin msg))) then Err "coin must be native cacao"
    else if HasPrefix (Manage_Name msg) "TIER" then Err "invalid MAYAName"
    else if negb (length (SubaffiliateName msg) =? length (SubaffiliateBps msg))%nat
            && negb (length (SubaffiliateBps msg) =? 1)%nat
    then Err "subaffiliate mayanames and subaffiliate fee bps count mismatch (%d / %d)"
    else if existsb (fun n => String.eqb n (Manage_Name msg)) (SubaffiliateName msg)
    then Err "subaffiliate MAYAName must be different than the main affiliate"
    else if existsb (fun bps => MaxBasisPts <? bps) (SubaffiliateBps msg)
    then Err "subaffiliate fee basis points must not exceed %d"
    else Ok tt.

Definition validateNameV1 (n : string) : outcome unit :=
  if 30 <? str_len n then Err "MAYAName cannot exceed 30 characters"
  else if negb (IsValidMAYANameV1 n) then Err "invalid MAYAName"
  else Ok tt.

(** ** Cycles *)

(** Whether a name is among the subaffiliates below, by the text of the name.
    [None] is a run that needs more fuel. *)
Fixpoint cycled_loop (rec : MAYAName -> outcome (option bool)) k (checkedName : string)
    (subs : list MAYANameSubaffiliate) : outcome (option bool) :=
  match subs with
  | [] => Ok (Some false)
  | sub :: subs' =>
      if String.eqb (Sub_Name sub) checkedName then Ok (Some true)
      else if negb (MAYANameExists k (Sub_Name sub)) then cycled_loop rec k checkedName subs'
      else
        subMn ← GetMAYAName k (Sub_Name sub);
        cycled ← rec subMn;
        match cycled with
        | None => Ok None
        | Some true => Ok (Some true)
        | Some false => cycled_loop rec k checkedName subs'
        end
  end.

Fixpoint isCycled (fuel : nat) k (checkedName : string) (mn : MAYAName) : outcome (option bool) :=
  match fuel with
  | O => Ok None
  | S fuel => cycled_loop (isCycled fuel k checkedName) k checkedName (Subaffiliates mn)
  end.

(** ** Validation *)

(** One subaffiliate of the message: it exists or is an address, and the name is
    not below it. *)
Definition validate_sub (fuel : nat) k (name subaffiliateName : string) : outcome (option unit) :=
  _ ← FetchAddress k subaffiliateName BASEChain;
  if MAYANameExists k subaffiliateName then
    subMn ← GetMAYAName k subaffiliateName;
    cycled ← isCycled fuel k name subMn;
    match cycled with
    | None => Ok None
    | Some true => Err "circular reference detected in mayaname hierarchy for sub-affiliate: %s"
    | Some false => Ok (Some tt)
    end
  else Ok (Some tt).

Fixpoint validate_subs (fuel : nat) k (name : string) (subs : list string) : outcome (option unit) :=
  match subs with
  | [] => Ok (Some tt)
  | sub :: subs' =>
      r ← validate_sub fuel k name sub;
      match r with
      | None => Ok None
      | Some _ => validate_subs fuel k name subs'
      end
  end.

(** A preferred asset other than CACAO needs an alias, in the record or in the
    message, and an available pool. *)
Definition validate_preferred k (mn : MAYAName) msg : outcome unit :=
  let asset := Manage_PreferredAsset msg in
  if negb (Asset_IsEmpty asset) && negb (Asset_IsNative asset) then
    if Address_IsEmpty (GetAlias mn (GetChain asset))
       && negb (Chain_Equals (Manage_Chain msg) (GetChain asset))
    then Err "alias for preferred asset %s not set"
    else if negb (PoolExist k asset) then Err "pool %s does not exist"
    else if negb (Pool_Status (GetPool k asset) =? PoolStatus_Available)
    then Err "pool %s is not available"
    else Ok tt
  else Ok tt.

(** The subaffiliates that stay, and those of the message. *)
Definition validate_sum (exists_ : bool) (mn : MAYAName) msg : outcome unit :=
  sum ← (if exists_ then
           foldM (fun sum sub =>
             if existsb (String.eqb (Sub_Name sub)) (SubaffiliateName msg) then Ok sum
             else uint_add sum (Sub_Bps sub)) 0 (Subaffiliates mn)
         else Ok 0);
  sum ← foldM uint_add sum (SubaffiliateBps msg);
  if MaxBasisPts <? sum
  then Err "the total basis points for subaffiliates must not exceed %d" else Ok tt.

(** A name that does not exist costs the registration fee; an existing one is
    changed by its owner. *)
Definition validate_owner k (exists_ : bool) msg : outcome MAYAName :=
  if negb exists_ then
    _ ← validateNameV1 (Manage_Name msg);
    let registrationFee := kv_constants k "TNSRegisterFee" in
    if Coin_Amount (Manage_Coin msg) <=? SafeUintFromInt64 registrationFee
    then Err "not enough funds, needed registration fee %d, got %d"
    else Ok EmptyMAYAName
  else
    mn ← GetMAYAName k (Manage_Name msg);
    if negb (acc_equals (MN_Owner mn) (Manage_Signer msg)) then Err "no authorization: owned by %s"
    else if ExpireBlockHeight mn <? Manage_ExpireBlockHeight msg
    then Err "cannot artificially inflate expire block height"
    else Ok mn.

Definition validateV118 (fuel : nat) k msg : outcome (option unit) :=
  _ ← ValidateBasicV112 msg (kv_version k);
  let exists_ := MAYANameExists k (Manage_Name msg) in
  mn ← validate_owner k exists_ msg;
  _ ← validate_preferred k mn msg;
  let maxAffiliateFeeBasisPoints := u64 (GetConfigInt64 k "MaxAffiliateFeeBasisPoints") in
  if negb (Manage_AffiliateBps msg =? EmptyBps)
     && (maxAffiliateFeeBasisPoints <? Manage_AffiliateBps msg)
  then Err "affiliate fee basis points must not exceed %d"
  else
    r ← validate_subs fuel k (Manage_Name msg) (SubaffiliateName msg);
    match r with
    | None => Ok None
    | Some _ => _ ← validate_sum exists_ mn msg; Ok (Some tt)
    end.

(** ** Handling *)

(** [x / y] on [int64]: Go panics on a division by zero. *)
Definition int64_div (x y : Z) : outcome Z := if y =? 0 then Panic else Ok (i64 (Z.quot x y)).

(** The new expiration, when the message pays for blocks. *)
Definition manage_expire k (exists_ : bool) (mn : MAYAName) msg : outcome MAYAName :=
  let coin := Coin_Amount (Manage_Coin msg) in
  mn ←
    (if negb (coin =? 0) then
       _ ← validateNameV1 (Manage_Name msg);
       r ← (if negb exists_ then
              let registrationFee := u64 (GetConfigInt64 k "TNSRegisterFee") in
              amount ← SafeSub coin registrationFee;
              Ok (amount, kv_constants k "BlocksPerYear")
            else Ok (coin, 0));
       let '(amount, addBlocks) := (r : Z * Z) in
       let feePerBlock := GetConfigInt64 k "TNSFeePerBlock" in
       paid ← amount_uint64 amount;
       blocks ← int64_div (i64 paid) feePerBlock;
       let addBlocks := i64 (addBlocks + blocks) in
       Ok (with_Expire mn
             (if ExpireBlockHeight mn <? kv_height k then i64 (kv_height k + addBlocks)
              else i64 (ExpireBlockHeight mn + addBlocks)))
     else Ok mn);
  let expire := Manage_ExpireBlockHeight msg in
  Ok (if (0 <? expire) && (expire <? ExpireBlockHeight mn) then with_Expire mn expire else mn).

(** The new preferred asset; leaving CACAO or choosing it releases what the
    owner has collected. The flag asks for a swap of it afterwards. *)
Definition manage_preferred k (mn : MAYAName) msg : outcome (KVStore * MAYAName * bool) :=
  let asset := Manage_PreferredAsset msg in
  let current := PreferredAsset mn in
  if (IsNativeBase current || negb (Asset_Equals current asset)) && negb (Asset_IsEmpty asset) then
    if IsNativeBase asset then
      let mn := with_PreferredAsset mn EmptyAsset in
      k ← releaseAffiliateCollector k mn;
      Ok (k, mn, false)
    else if IsNativeBase current || Asset_IsEmpty current then
      k ← releaseAffiliateCollector k mn;
      Ok (k, with_PreferredAsset mn asset, true)
    else Ok (k, with_PreferredAsset mn asset, false)
  else Ok (k, mn, false).

(** The alias, the owner and the basis points. A new owner starts without aliases
    and preferred asset. The basis points are compared by pointer, so they are
    always written. *)
Definition manage_fields (mn : MAYAName) msg : MAYAName :=
  let mn := if negb (Chain_IsEmpty (Manage_Chain msg))
            then SetAlias mn (Manage_Chain msg) (Manage_Address msg) else mn in
  let mn := if negb (acc_empty (Manage_Owner msg))
               && negb (String.eqb (Manage_Owner msg) (MN_Owner mn))
            then with_Aliases (with_PreferredAsset (with_Owner mn (Manage_Owner msg)) EmptyAsset) []
            else mn in
  if negb (Manage_AffiliateBps msg =? EmptyBps) then SetAffiliateBps mn (Manage_AffiliateBps msg)
  else mn.

(** The basis points at the index of each name. *)
Fixpoint manage_subs k (mn : MAYAName) (names : list string) (bps : list Z) : outcome KVStore :=
  match names with
  | [] => Ok k
  | n :: names' =>
      match bps with
      | [] => Panic
      | b :: bps' =>
          mn ← (if negb (b =? 0) then SetSubaffiliate mn n b else Ok (RemoveSubaffiliate mn n));
          manage_subs (SetMAYAName k mn) mn names' bps'
      end
  end.

Definition manageSubAffiliates k msg (mn : MAYAName) : outcome KVStore :=
  manage_subs k mn (SubaffiliateName msg) (SubaffiliateBps msg).

Definition manage_handleV118 gm k msg : outcome KVStore :=
  if GetMimir k "MAYANames" =? 0 then Err "MAYANames are currently disabled"
  else
    let exists_ := MAYANameExists k (Manage_Name msg) in
    mn ← (if exists_ then GetMAYAName k (Manage_Name msg)
          else Ok (with_Owner (bare_name (Manage_Name msg)) (Manage_Signer msg)));
    mn ← manage_expire k exists_ mn msg;
    r ← manage_preferred k mn msg;
    let '(k, mn, swap) := (r : KVStore * MAYAName * bool) in
    let mn := manage_fields mn msg in
    let k := SetMAYAName k mn in
    k ← manageSubAffiliates k msg mn;
    if swap then
      match checkAndTriggerPreferredAssetSwap gm k mn 0 with
      | Ok (k, _) => Ok k
      | Err _ => Ok k
      | Panic => Panic
      end
    else Ok k.

(** [Run] from version 1.118.0 on. *)
Definition manage_Run (fuel : nat) gm k msg : outcome (option KVStore) :=
  r ← validateV118 fuel k msg;
  match r with
  | None => Ok None
  | Some _ => k ← manage_handleV118 gm k msg; Ok (Some k)
  end.
End manage.

(** ** What a message changes *)

Section names_facts.
Context `{V : Semver} `{B : CosmosBank} `{A : SdkAddress} `{R : MapRange} `{L : AddressLib}.
Context `{U : SdkUint} `{D : SdkDec} `{SH : Sha256}.
Implicit Types (k : KVStore) (gm : GasMgr) (msg : MsgManageMAYAName).

(** What paying a collector leaves alone: names, parameters and the height. *)
Definition keeps_names k k' : Prop :=
  kv_names k' = kv_names k /\ kv_height k' = kv_height k /\ kv_version k' = kv_version k /\
  getMAYANameGracePeriod k' = getMAYANameGracePeriod k.

#[export] Instance keeps_names_preorder : PreOrder keeps_names.
Proof.
  split; [done|]. intros k1 k2 k3 (?&?&?&?) (?&?&?&?). split_and!; congruence.
Qed.

Lemma pays_keeps k k' : pays_only k k' -> keeps_names k k'.
Proof. by intros (c & b & i & v & ->). Qed.

Lemma release_keeps k mn k' : releaseAffiliateCollector k mn = Ok k' -> keeps_names k k'.
Proof. intros E. by eapply pays_keeps, release_pays. Qed.

Lemma check_keeps gm k mn i k' i' : checkAndTriggerPreferredAssetSwap gm k mn i = Ok (k', i') ->
  keeps_names k k'.
Proof. intros E. by eapply pays_keeps, check_pays. Qed.

(** The steps on the record keep its name; the expiration follows from the
    message alone. *)
Lemma manage_expire_fields k b mn msg mn' : manage_expire k b mn msg = Ok mn' ->
  exists e, mn' = with_Expire mn e.
Proof.
  intros E. unfold manage_expire in E. apply bind_Ok in E as (mn1 & H1 & E). injection E as <-.
  assert (exists e, mn1 = with_Expire mn e) as [e ->].
  { destruct (negb (_ =? 0)); [|injection H1 as <-; exists (ExpireBlockHeight mn); by destruct mn].
    apply bind_Ok in H1 as (u & _ & H1). apply bind_Ok in H1 as ([a d] & _ & H1).
    apply bind_Ok in H1 as (paid & _ & H1). apply bind_Ok in H1 as (blocks & _ & H1).
    injection H1 as <-. by eexists. }
  destruct (_ && _); by eexists.
Qed.

Lemma manage_preferred_fields k mn msg k' mn' swap : manage_preferred k mn msg = Ok (k', mn', swap) ->
  keeps_names k k' /\ exists a, mn' = with_PreferredAsset mn a.
Proof.
  intros E. unfold manage_preferred in E.
  assert (Hid : exists a, mn = with_PreferredAsset mn a) by (exists (PreferredAsset mn); by destruct mn).
  destruct (_ && _); [|injection E as <- <- _; by split].
  destruct (IsNativeBase (Manage_PreferredAsset msg));
    [|destruct (_ || _); [|injection E as <- <- _; split; [done|by eexists]]];
    apply bind_Ok in E as (k1 & Hr & E); injection E as <- <- _; apply release_keeps in Hr;
    split; [done|by eexists|done|by eexists].
Qed.

Lemma manage_fields_name mn msg : Name (manage_fields mn msg) = Name mn /\
  ExpireBlockHeight (manage_fields mn msg) = ExpireBlockHeight mn /\
  Subaffiliates (manage_fields mn msg) = Subaffiliates mn /\
  MN_Owner (manage_fields mn msg) =
    if negb (acc_empty (Manage_Owner msg)) then Manage_Owner msg else MN_Owner mn.
Proof.
  unfold manage_fields.
  assert (Hset : forall m v, let m' := if negb (v =? EmptyBps) then SetAffiliateBps m v else m in
    Name m' = Name m /\ ExpireBlockHeight m' = ExpireBlockHeight m /\
    Subaffiliates m' = Subaffiliates m /\ MN_Owner m' = MN_Owner m).
  { intros m v. unfold SetAffiliateBps. by destruct (_ =? EmptyBps), (_ =? 0). }
  match goal with |- context [if negb (Manage_AffiliateBps msg =? EmptyBps) then _ else ?m] =>
    destruct (Hset m (Manage_AffiliateBps msg)) as (-> & -> & -> & ->) end.
  destruct (negb (Chain_IsEmpty _)), (negb (acc_empty (Manage_Owner msg))); cbn [andb]; try done;
    match goal with |- context [String.eqb ?x ?y] => destruct (String.eqb_spec x y) as [E|E] end;
    cbn in *; by rewrite ?E.
Qed.

Lemma sub_step_fields mn n b mn' :
  (if negb (b =? 0) then SetSubaffiliate mn n b else Ok (RemoveSubaffiliate mn n)) = Ok mn' ->
  exists subs, mn' = with_Subaffiliates mn subs.
Proof.
  destruct (negb _); [|intros [= <-]; by eexists]. unfold SetSubaffiliate. intros E.
  apply bind_Ok in E as ([sum found] & _ & E). apply bind_Ok in E as (sum' & _ & E).
  destruct (_ <? _); [done|]. destruct found; injection E as <-; by eexists.
Qed.

(** Only the record of that name is written. *)
Lemma manage_subs_names k mn names bps k' : manage_subs k mn names bps = Ok k' ->
  kv_names k !! GetKey (MAYAName_Key mn) = Some mn ->
  names_only k k' /\ exists subs,
    kv_names k' = <[GetKey (MAYAName_Key mn) := with_Subaffiliates mn subs]> (kv_names k).
Proof.
  revert k mn bps. induction names as [|n names IH]; intros k mn bps E Hk; cbn in E.
  - injection E as <-. split; [done|]. exists (Subaffiliates mn).
    rewrite insert_id; [done|]. by destruct mn.
  - destruct bps as [|b bps]; [done|]. apply bind_Ok in E as (mn1 & Hs & E).
    apply sub_step_fields in Hs as [subs ->]. apply IH in E as (Hn & subs' & E); [|apply lookup_insert_eq].
    split; [etrans; [apply names_only_set|exact Hn]|]. exists subs'. rewrite E. cbn.
    apply insert_insert_eq.
Qed.

(** The record a message starts from. *)
Definition start_name k msg : outcome MAYAName :=
  if MAYANameExists k (Manage_Name msg) then GetMAYAName k (Manage_Name msg)
  else Ok (with_Owner (bare_name (Manage_Name msg)) (Manage_Signer msg)).

Definition same_parameters k k' : Prop :=
  kv_height k' = kv_height k /\ kv_version k' = kv_version k /\
  getMAYANameGracePeriod k' = getMAYANameGracePeriod k.

Lemma manage_handle_names gm k msg k' : manage_handleV118 gm k msg = Ok k' ->
  exists mn mn1 mn2 subs, start_name k msg = Ok mn /\
    manage_expire k (MAYANameExists k (Manage_Name msg)) mn msg = Ok mn1 /\
    Name mn2 = Name mn /\ ExpireBlockHeight mn2 = ExpireBlockHeight mn1 /\
    Subaffiliates mn2 = Subaffiliates mn /\
    MN_Owner mn2 = (if negb (acc_empty (Manage_Owner msg)) then Manage_Owner msg else MN_Owner mn) /\
    kv_names k' = <[GetKey (MAYAName_Key mn) := with_Subaffiliates mn2 subs]> (kv_names k) /\
    same_parameters k k' /\
    exists k1 k2, keeps_names k k1 /\ manage_subs (SetMAYAName k1 mn2) mn2 (SubaffiliateName msg)
      (SubaffiliateBps msg) = Ok k2 /\ kv_names k' = kv_names k2.
Proof.
  intros E. unfold manage_handleV118 in E. destruct (_ =? 0); [done|].
  apply bind_Ok in E as (mn & Hmn & E). apply bind_Ok in E as (mn1 & Hexp & E).
  apply bind_Ok in E as ([[k1 mn2] swap] & Hpref & E). apply bind_Ok in E as (k2 & Hsubs & E).
  apply manage_preferred_fields in Hpref as (Hk1 & a & ->).
  destruct (manage_expire_fields _ _ _ _ _ Hexp) as [e ->].
  set (mn2 := manage_fields _ msg) in *.
  destruct (manage_fields_name (with_PreferredAsset (with_Expire mn e) a) msg) as (Hn & He & Hsb & Ho).
  fold mn2 in Hn, He, Hsb, Ho. cbn in Hn, He, Hsb, Ho.
  assert (Hkey : MAYAName_Key mn2 = MAYAName_Key mn) by (unfold MAYAName_Key; by rewrite Hn).
  assert (Hrun := Hsubs).
  apply manage_subs_names in Hsubs as ([names Hk2] & subs & Hs); [|apply lookup_insert_eq].
  assert (Hk' : keeps_names k2 k').
  { destruct swap; [|by injection E as <-].
    destruct (checkAndTriggerPreferredAssetSwap _ _ _ _) as [[k3 i]| |] eqn:Hc;
      injection E as <- || discriminate E; [by apply check_keeps in Hc|done]. }
  exists mn, (with_Expire mn e), mn2, subs. destruct Hk1 as (E1 & E2 & E3 & E4), Hk' as (F1 & F2 & F3 & F4).
  split_and!; try done.
  - rewrite F1, Hs. cbn. rewrite insert_insert_eq, E1, Hkey. done.
  - split_and!; rewrite ?F2, ?F3, ?F4, Hk2; [exact E2|exact E3|exact E4].
  - by exists k1, k2.
Qed.
End names_facts.

Section manage_theorems.
Context `{V : Semver} `{B : CosmosBank} `{A : SdkAddress} `{AL : !SdkAddressLaws A} `{R : MapRange}.
Context `{L : AddressLib} `{U : SdkUint} `{UL : !SdkUintLaws U} `{D : SdkDec} `{SH : Sha256}.
Implicit Types (k : KVStore) (gm : GasMgr) (msg : MsgManageMAYAName).

(** Names are stored under their keys. *)
Definition names_wf k : Prop := forall key m, kv_names k !! key = Some m -> key = GetKey (MAYAName_Key m).

Lemma start_name_key k msg mn : names_wf k -> start_name k msg = Ok mn ->
  GetKey (MAYAName_Key mn) = GetKey (name_key (Manage_Name msg)).
Proof.
  intros Hk. unfold start_name, GetMAYAName. destruct (MAYANameExists _ _); [|by intros [= <-]].
  destruct (kv_names k !! _) as [m|] eqn:E; [|done]. apply Hk in E.
  destruct (_ <? _); by intros [= <-].
Qed.

Lemma manage_Run_parts fuel gm k msg k' : manage_Run fuel gm k msg = Ok (Some k') ->
  ValidateBasicV112 msg (kv_version k) = Ok tt /\
  (exists mn, validate_owner k (MAYANameExists k (Manage_Name msg)) msg = Ok mn) /\
  validate_subs fuel k (Manage_Name msg) (SubaffiliateName msg) = Ok (Some tt) /\
  manage_handleV118 gm k msg = Ok k'.
Proof.
  unfold manage_Run, validateV118. intros E. apply bind_Ok in E as (r & Hv & E).
  apply bind_Ok in Hv as ([] & H1 & Hv). apply bind_Ok in Hv as (mn & H2 & Hv).
  apply bind_Ok in Hv as ([] & _ & Hv). destruct (_ && _); [done|].
  apply bind_Ok in Hv as ([[]|] & H3 & Hv).
  - destruct r; [|done]. apply bind_Ok in E as (k1 & Hh & E). injection E as <-. by eauto 6.
  - by injection Hv as <-.
Qed.

Lemma ValidateBasic_name msg v : ValidateBasicV112 msg v = Ok tt ->
  IsValidMAYANameV1 (Manage_Name msg) = true /\ acc_empty (Manage_Signer msg) = false.
Proof.
  unfold ValidateBasicV112. destruct (acc_empty _); [done|]. destruct (_ <? _); [done|].
  by destruct (IsValidMAYANameV1 _).
Qed.

(** C32: a name that is served is only changed by its owner, and a message changes
    no other name: what is stored for a name that differs by more than case stays
    the same. *)
Theorem manage_only_own_name fuel gm k msg k' :
  names_wf k -> manage_Run fuel gm k msg = Ok (Some k') ->
  names_wf k' /\
  (MAYANameExists k (Manage_Name msg) = true ->
    exists mn, GetMAYAName k (Manage_Name msg) = Ok mn /\ MN_Owner mn = Manage_Signer msg) /\
  forall n, IsValidMAYANameV1 n = true -> ToLower n <> ToLower (Manage_Name msg) ->
    kv_names k' !! GetKey (name_key n) = kv_names k !! GetKey (name_key n).
Proof.
  intros Hk E. apply manage_Run_parts in E as (Hb & (mn0 & Ho) & _ & E).
  apply ValidateBasic_name in Hb as [Hvalid _].
  apply manage_handle_names in E as (mn & mn1 & mn2 & subs & Hs & _ & Hn & _ & _ & _ & Hnames & _).
  assert (Hkey := start_name_key _ _ _ Hk Hs). split_and!.
  - intros key m. rewrite Hnames. intros [[<- <-]|[_ Hm]]%lookup_insert_Some; [|by apply Hk].
    unfold MAYAName_Key. cbn. by rewrite Hn.
  - intros Hex. rewrite Hex in Ho. unfold validate_owner in Ho. cbn [negb] in Ho.
    apply bind_Ok in Ho as (m & Hget & Ho). exists m. split; [done|].
    destruct (acc_equals (MN_Owner m) (Manage_Signer msg)) eqn:Heq; [|done].
    by apply acc_equals_law in Heq.
  - intros n Hn' Hne. rewrite Hnames, lookup_insert_ne; [done|]. rewrite Hkey. unfold GetKey.
    intros E. by apply Hne, eq_sym, name_key_inj.
Qed.

(** Registering a name pays for one year and for as many blocks as the rest
    of the coin buys, and belongs to the owner of the message, or to its signer. *)
Theorem manage_registers fuel gm k msg k' :
  let fee := GetConfigInt64 k "TNSRegisterFee" in
  let perBlock := GetConfigInt64 k "TNSFeePerBlock" in
  let year := kv_constants k "BlocksPerYear" in
  let amount := Coin_Amount (Manage_Coin msg) in
  let blocks := Z.max 0 (amount - fee) / perBlock in
  names_wf k -> MAYANameExists k (Manage_Name msg) = false -> Manage_ExpireBlockHeight msg = 0 ->
  0 < amount < 2 ^ 63 -> 0 <= fee < 2 ^ 63 -> 0 < perBlock < 2 ^ 63 -> 0 <= year ->
  0 < kv_height k -> kv_height k + year + amount < 2 ^ 63 ->
  manage_Run fuel gm k msg = Ok (Some k') ->
  exists m, kv_names k' !! GetKey (name_key (Manage_Name msg)) = Some m /\
    Name m = Manage_Name msg /\
    MN_Owner m = (if negb (acc_empty (Manage_Owner msg)) then Manage_Owner msg
                  else Manage_Signer msg) /\
    ExpireBlockHeight m = kv_height k + year + blocks.
Proof.
  intros fee perBlock year amount blocks Hk Hex Hexp Ha Hf Hp Hy Hh Hlt E.
  apply manage_Run_parts in E as (_ & _ & _ & E).
  apply manage_handle_names in E as (mn & mn1 & mn2 & subs & Hs & He & Hn & Hexp2 & _ & Hown & Hnames & _).
  unfold start_name in Hs. rewrite Hex in Hs, He. injection Hs as <-. cbn in Hn, Hown.
  exists (with_Subaffiliates mn2 subs). split_and!; [by rewrite Hnames; apply lookup_insert_eq|done|done|].
  cbn. rewrite Hexp2. clear Hexp2 Hnames Hown Hn. unfold manage_expire in He. rewrite Hexp in He.
  replace (Coin_Amount (Manage_Coin msg) =? 0) with false in He by (fold amount; lia).
  cbn [negb] in He. apply bind_Ok in He as (mn3 & H3 & He). injection He as <-. cbn [Z.ltb andb].
  apply bind_Ok in H3 as (u & _ & H3). apply bind_Ok in H3 as ([a d] & Hsub & H3).
  fold amount fee in Hsub. rewrite (u64_id fee) in Hsub by (unfold is_u64; lia).
  assert (a = Z.max 0 (amount - fee) /\ d = year) as [-> ->].
  { unfold SafeSub in Hsub. destruct (Z.ltb_spec amount fee); cbn in Hsub.
    - injection Hsub as <- <-. lia.
    - apply bind_Ok in Hsub as (x & [-> _]%uint_sub_Ok & Hsub). injection Hsub as <- <-. lia. }
  apply bind_Ok in H3 as (paid & Hpaid & H3). unfold amount_uint64 in Hpaid.
  destruct (_ && _); [|done]. injection Hpaid as <-.
  rewrite (i64_id (Z.max _ _)) in H3 by (unfold is_i64; lia). fold perBlock in H3.
  unfold int64_div in H3. replace (perBlock =? 0) with false in H3 by lia.
  cbn [mbind outcome_bind] in H3. rewrite Z.quot_div_nonneg in H3 by lia. fold blocks in H3.
  assert (Hb : 0 <= blocks <= amount).
  { unfold blocks. split; [by apply Z.div_pos; lia|]. apply Z.div_le_upper_bound; nia. }
  clearbody blocks. injection H3 as <-. cbn.
  replace (0 <? kv_height k) with true by lia.
  rewrite (i64_id blocks), (i64_id (year + _)), i64_id by (unfold is_i64; lia). lia.
Qed.
End manage_theorems.
