(* ===== verification/NameHierarchy.v ===== *)
(** The hierarchy of subaffiliates that [handler_manage_mayaname.go] maintains.
    When names are written in lower case it never gets a cycle, so both the check
    for cycles and the division of fees return; a message that writes a name in
    another case than it is stored in closes a cycle that the check misses. *)
From S2P Require Import Prelude GoText Sdk Shares Chains Keys Addresses Assets Coins Txs.
From S2P Require Import NodeAccounts Votes TxOuts ObservedTxs Mimirs Pools StreamingSwaps SwapMsgs Records.
From S2P Require Import MayaNames Stores Keeper Halts Gas TradeAccounts Swapper Affiliates Collectors.
From S2P Require Import ManageMayaNames.

Section hierarchy.
Context `{V : Semver} `{B : CosmosBank} `{A : SdkAddress} `{AL : !SdkAddressLaws A} `{R : MapRange}.
Context `{L : AddressLib} `{U : SdkUint} `{D : SdkDec} `{SH : Sha256}.
Implicit Types (k : KVStore) (gm : GasMgr) (msg : MsgManageMAYAName).

Definition text_key (n : string) : string := GetKey (name_key n).

(** No name is below itself. *)
Definition acyclic k : Prop := exists rank, ranked rank k.

(** ** Edges *)

(** The subaffiliates that are read under a key: none when the name expired. *)
Definition served_subs k (key : string) : list MAYANameSubaffiliate :=
  match kv_names k !! key with
  | Some m => if kv_height k <=? name_expiration k m then Subaffiliates m else []
  | None => []
  end.

Lemma served_subs_get k n m : GetMAYAName k n = Ok m -> served_subs k (text_key n) = Subaffiliates m.
Proof.
  unfold GetMAYAName, served_subs, text_key. destruct (kv_names k !! _) as [r|]; [|done].
  destruct (Z.ltb_spec (name_expiration k r) (kv_height k)), (Z.leb_spec (kv_height k) (name_expiration k r));
    try lia; by intros [= <-].
Qed.

Lemma served_subs_absent k n : MAYANameExists k n = false -> served_subs k (text_key n) = [].
Proof.
  unfold MAYANameExists, GetMAYAName, served_subs, text_key.
  destruct (kv_names k !! _) as [r|]; [|done].
  destruct (Z.ltb_spec (name_expiration k r) (kv_height k)), (Z.leb_spec (kv_height k) (name_expiration k r));
    try lia; done.
Qed.

Lemma ranked_served rank k x s : ranked rank k -> s ∈ served_subs k x -> (rank (sub_key s) < rank x)%nat.
Proof.
  intros Hk. unfold served_subs. destruct (kv_names k !! x) as [m|] eqn:E; [|by intros ?%elem_of_nil].
  destruct (Z.leb_spec (kv_height k) (name_expiration k m)) as [Hs|]; [|by intros ?%elem_of_nil].
  destruct (Hk _ _ E) as [_ Hsubs]. specialize (Hsubs Hs).
  intros Hin. by eapply Forall_forall in Hsubs.
Qed.

(** ** Paths to a key *)

Fixpoint reach (fuel : nat) k (n x : string) : bool :=
  String.eqb x n ||
  match fuel with
  | O => false
  | S fuel => existsb (fun s => reach fuel k n (sub_key s)) (served_subs k x)
  end.

Lemma reach_stable rank k n f f' x : ranked rank k -> (rank x <= f)%nat -> (rank x <= f')%nat ->
  reach f k n x = reach f' k n x.
Proof.
  intros Hk. revert f' x. induction f as [|f IH]; intros f' x Hf Hf'.
  - destruct f' as [|f']; [done|]. cbn. f_equal.
    destruct (served_subs k x) as [|s l] eqn:E; [done|].
    pose proof (ranked_served rank k x s Hk ltac:(rewrite E; left)). lia.
  - destruct f' as [|f']; cbn; f_equal.
    + destruct (served_subs k x) as [|s l] eqn:E; [done|].
      pose proof (ranked_served rank k x s Hk ltac:(rewrite E; left)). lia.
    + assert (H : Forall (fun s => (rank (sub_key s) < rank x)%nat) (served_subs k x)).
      { apply Forall_forall. intros s. by apply ranked_served. }
      clear -H IH Hf Hf'. induction H as [|s l Hs H IHl]; [done|]. cbn.
      by rewrite (IH f'), IHl by lia.
Qed.

Lemma reach_rank rank k n f x : ranked rank k -> reach f k n x = true -> (rank n <= rank x)%nat.
Proof.
  intros Hk. revert x. induction f as [|f IH]; intros x; cbn.
  - rewrite orb_false_r. by intros ->%String.eqb_eq.
  - intros [->%String.eqb_eq|H]%orb_prop; [done|]. apply existsb_exists in H as (s & Hs & H).
    apply IH in H. apply list_elem_of_In, (ranked_served rank) in Hs; [lia|done].
Qed.

(** The key reaches [n], with the fuel its rank gives. *)
Definition above (rank : string -> nat) k (n x : string) : bool := reach (rank x) k n x.

Lemma above_step rank k n x s : ranked rank k -> s ∈ served_subs k x ->
  above rank k n (sub_key s) = true -> above rank k n x = true.
Proof.
  intros Hk Hs H. assert (Hlt := ranked_served rank k x s Hk Hs). unfold above in *.
  destruct (rank x) as [|r] eqn:Hr; [lia|]. cbn. apply orb_true_iff. right.
  apply existsb_exists. exists s. split; [by apply list_elem_of_In|].
  by rewrite (reach_stable rank k n r (rank (sub_key s))) by (done || lia).
Qed.

(** ** What the check for cycles finds *)

(** The texts of names the code compares: valid, and in lower case. *)
Definition canonical (n : string) : Prop := IsValidMAYANameV1 n = true /\ ToLower n = n.

Lemma canonical_inj n n' : canonical n -> canonical n' -> text_key n = text_key n' -> n = n'.
Proof. intros [H1 H2] [H3 H4] E. apply name_key_inj in E; [congruence|done..]. Qed.

Definition canonical_names k : Prop := forall key m, kv_names k !! key = Some m ->
  canonical (Name m) /\ Forall (fun s => canonical (Sub_Name s)) (Subaffiliates m).

Lemma served_subs_canonical k x : canonical_names k ->
  Forall (fun s => canonical (Sub_Name s)) (served_subs k x).
Proof.
  intros Hc. unfold served_subs. destruct (kv_names k !! x) as [m|] eqn:E; [|constructor].
  destruct (_ <=? _); [|constructor]. by destruct (Hc _ _ E).
Qed.

Lemma cycled_loop_false rec k n subs : cycled_loop rec k n subs = Ok (Some false) ->
  Forall (fun s => Sub_Name s <> n /\ (MAYANameExists k (Sub_Name s) = true ->
    exists m, GetMAYAName k (Sub_Name s) = Ok m /\ rec m = Ok (Some false))) subs.
Proof.
  induction subs as [|s subs IH]; intros E; [constructor|]. cbn in E.
  destruct (String.eqb_spec (Sub_Name s) n) as [|Hne]; [done|].
  destruct (MAYANameExists k (Sub_Name s)) eqn:Hex; cbn [negb] in E.
  - apply bind_Ok in E as (m & Hm & E). apply bind_Ok in E as ([[]|] & Hr & E); try done.
    constructor; [by eauto|by apply IH].
  - constructor; [|by apply IH]. split; [done|]. by rewrite Hex.
Qed.

(** When the check finds no cycle, no path leads from the name to the checked one. *)
Lemma isCycled_sound fuel k n t m : canonical_names k -> canonical n -> canonical t -> t <> n ->
  GetMAYAName k t = Ok m -> isCycled fuel k n m = Ok (Some false) ->
  forall f, reach f k (text_key n) (text_key t) = false.
Proof.
  intros Hc Hn. revert t m. induction fuel as [|fuel IH]; [done|]; intros t m Ht Hne Hget E f.
  cbn in E. apply cycled_loop_false in E.
  assert (Hsubs := served_subs_canonical k (text_key t) Hc).
  assert (Hkey : String.eqb (text_key t) (text_key n) = false).
  { apply String.eqb_neq. intros H. by apply Hne, canonical_inj. }
  destruct f as [|f]; cbn; rewrite Hkey; [done|]. cbn.
  rewrite (served_subs_get _ _ _ Hget) in *. apply existsb_Forall_false.
  clear Hget. induction E as [|s l [Hs Hrec] E IHl]; [constructor|].
  apply Forall_cons in Hsubs as [Hs1 Hsubs]. constructor; [|by apply IHl].
  change (sub_key s) with (text_key (Sub_Name s)).
  destruct (MAYANameExists k (Sub_Name s)) eqn:Hex.
  - destruct (Hrec eq_refl) as (m' & Hget' & Hrec'). by apply (IH _ m').
  - assert (Hne' : String.eqb (text_key (Sub_Name s)) (text_key n) = false).
    { apply String.eqb_neq. intros H. by apply Hs, canonical_inj. }
    destruct f; cbn; by rewrite Hne', ?(served_subs_absent _ _ Hex).
Qed.

(** ** The edges a message adds *)

Definition sub_texts (P : string -> Prop) (subs : list MAYANameSubaffiliate) : Prop :=
  Forall (fun s => P (Sub_Name s)) subs.

Lemma sub_step_texts (P : string -> Prop) mn n b mn' : P n -> sub_texts P (Subaffiliates mn) ->
  (if negb (b =? 0) then SetSubaffiliate mn n b else Ok (RemoveSubaffiliate mn n)) = Ok mn' ->
  Name mn' = Name mn /\ sub_texts P (Subaffiliates mn').
Proof.
  intros Hn Hp. destruct (negb _).
  - unfold SetSubaffiliate. intros E. apply bind_Ok in E as ([sum found] & _ & E).
    apply bind_Ok in E as (sum' & _ & E). destruct (_ <? _); [done|].
    destruct found as [i|]; injection E as <-; (split; [done|]); cbn.
    + apply Forall_alter; [done|]. by intros s _.
    + apply Forall_app. by repeat constructor.
  - intros [= <-]. split; [done|]. cbn.
    destruct (remove_first_split (sub_named n) (Subaffiliates mn)) as [[_ ->]|(l1 & s & l2 & E & _ & _ & ->)];
      [done|]. unfold sub_texts in *. rewrite E in Hp.
    apply Forall_app in Hp as [H1 [_ H2]%Forall_cons]. by apply Forall_app.
Qed.

Lemma manage_subs_texts (P : string -> Prop) k mn names bps k' :
  Forall P names -> sub_texts P (Subaffiliates mn) -> manage_subs k mn names bps = Ok k' ->
  kv_names k !! text_key (Name mn) = Some mn ->
  exists m, kv_names k' !! text_key (Name mn) = Some m /\ Name m = Name mn /\
    sub_texts P (Subaffiliates m).
Proof.
  intros Hnames. revert k mn bps. induction Hnames as [|n names Hn Hnames IH];
    intros k mn bps Hp E Hk; cbn in E.
  - injection E as <-. by exists mn.
  - destruct bps as [|b bps]; [done|]. apply bind_Ok in E as (mn1 & Hs & E).
    apply (sub_step_texts P) in Hs as [Hname Hp1]; [|done..].
    apply IH in E as (m & Hm & Hmn & Hpm); [|done|].
    + rewrite Hname in *. by exists m.
    + unfold SetMAYAName. cbn. apply lookup_insert_eq.
Qed.

(** What a successful validation says of one subaffiliate of the message. *)
Lemma validate_subs_sound fuel k name subs : canonical_names k -> canonical name ->
  Forall canonical subs -> Forall (fun n => n <> name) subs ->
  validate_subs fuel k name subs = Ok (Some tt) ->
  Forall (fun n => forall f, reach f k (text_key name) (text_key n) = false) subs.
Proof.
  intros Hc Hname Hsubs Hne E. induction Hsubs as [|n subs Hn Hsubs IH]; [constructor|].
  apply Forall_cons in Hne as [Hn1 Hne]. cbn in E.
  apply bind_Ok in E as ([u|] & Hv & E); [|done]. constructor; [|by apply IH].
  unfold validate_sub in Hv. apply bind_Ok in Hv as (addr & _ & Hv).
  destruct (MAYANameExists k n) eqn:Hex.
  - apply bind_Ok in Hv as (m & Hm & Hv). apply bind_Ok in Hv as ([[]|] & Hcyc & Hv); [done| |done].
    by eapply isCycled_sound.
  - assert (Hkey : String.eqb (text_key n) (text_key name) = false).
    { apply String.eqb_neq. intros H. by apply Hn1, canonical_inj. }
    intros f. destruct f; cbn; by rewrite Hkey, ?(served_subs_absent _ _ Hex).
Qed.

(** The new rank: what reaches the changed name moves above its new subaffiliates. *)
Definition raised (rank : string -> nat) k (n : string) (names : list string) (x : string) : nat :=
  rank x + if above rank k n x then S (list_max (map (fun t => rank (text_key t)) names)) else 0.

Lemma raised_edge rank k n names x s : ranked rank k -> s ∈ served_subs k x ->
  (raised rank k n names (sub_key s) < raised rank k n names x)%nat.
Proof.
  intros Hk Hs. assert (Hlt := ranked_served rank k x s Hk Hs). unfold raised.
  destruct (above rank k n (sub_key s)) eqn:E; [|destruct (above rank k n x); lia].
  rewrite (above_step rank k n x s) by done. lia.
Qed.

Lemma raised_new rank k n names t : above rank k n (text_key t) = false -> t ∈ names ->
  (raised rank k n names (text_key t) < raised rank k n names n)%nat.
Proof.
  intros Ht Hin. unfold raised. rewrite Ht.
  assert (above rank k n n = true) as ->.
  { unfold above. destruct (rank n); cbn; by rewrite String.eqb_refl. }
  assert (rank (text_key t) <= list_max (map (fun t => rank (text_key t)) names))%nat; [|lia].
  assert (Hall := proj1 (list_max_le (map (fun t => rank (text_key t)) names) _) (le_n _)).
  eapply List.Forall_forall in Hall; [exact Hall|]. apply in_map_iff. exists t.
  split; [done|]. by apply list_elem_of_In.
Qed.

Lemma ValidateBasic_subs msg v : ValidateBasicV112 msg v = Ok tt ->
  Forall (fun n => n <> Manage_Name msg) (SubaffiliateName msg).
Proof.
  unfold ValidateBasicV112. destruct (acc_empty _); [done|]. destruct (_ <? _); [done|].
  destruct (negb (IsValidMAYANameV1 _)); [done|]. intros E. apply bind_Ok in E as (u & _ & E).
  destruct (negb (IsNativeBase _)); [done|]. destruct (HasPrefix _ _); [done|].
  destruct (_ && _); [done|]. destruct (existsb _ (SubaffiliateName msg)) eqn:Hex; [done|].
  apply existsb_Forall_false in Hex. eapply Forall_impl; [exact Hex|]. intros n. apply String.eqb_neq.
Qed.

(** The record a message starts from is served, or it has no subaffiliates. *)
Lemma start_name_subs k msg mn : canonical_names k -> canonical (Manage_Name msg) ->
  names_wf k -> start_name k msg = Ok mn ->
  Name mn = Manage_Name msg /\ Subaffiliates mn = [] \/
  kv_names k !! text_key (Manage_Name msg) = Some mn /\ Name mn = Manage_Name msg /\
    Subaffiliates mn = served_subs k (text_key (Manage_Name msg)).
Proof.
  intros Hc Hn Hk E. unfold start_name in E. destruct (MAYANameExists k _); [|by injection E as <-; left].
  assert (Hs := served_subs_get _ _ _ E). unfold GetMAYAName in E.
  destruct (kv_names k !! _) as [r|] eqn:Hr; [|done]. destruct (_ <? _); injection E as <-; [by left|].
  right. split_and!; [done| |done]. apply canonical_inj; [by destruct (Hc _ _ Hr)|done|].
  symmetry. exact (Hk _ _ Hr).
Qed.

(** C28: the hierarchy of names stays without cycle: when names are written in lower
    case, whatever message is accepted, no name is below itself afterwards. *)
Theorem manage_keeps_acyclic fuel gm k msg k' :
  acyclic k -> canonical_names k -> Forall canonical (Manage_Name msg :: SubaffiliateName msg) ->
  manage_Run fuel gm k msg = Ok (Some k') -> acyclic k' /\ canonical_names k'.
Proof.
  intros [rank Hrank] Hc [Hn Hsubs]%Forall_cons E.
  assert (Hwf : names_wf k) by (intros key m Hm; by destruct (Hrank _ _ Hm)).
  apply manage_Run_parts in E as (Hb & _ & Hv & E). apply ValidateBasic_subs in Hb.
  apply validate_subs_sound in Hv; [|done..].
  set (n := text_key (Manage_Name msg)) in *.
  apply manage_handle_names in E as (mn & mn1 & mn2 & subs & Hs & _ & Hn2 & _ & Hsub2 & _ & Hnames &
    (Hh & Hver & Hgrace) & k1 & k2 & _ & Hrun & Hk2).
  assert (Hstart := start_name_subs _ _ _ Hc Hn Hwf Hs).
  assert (Hname : Name mn = Manage_Name msg) by tauto.
  assert (Hkey : GetKey (MAYAName_Key mn) = n) by (unfold MAYAName_Key; by rewrite Hname).
  set (P t := canonical t /\ (raised rank k n (SubaffiliateName msg) (text_key t)
                              < raised rank k n (SubaffiliateName msg) n)%nat).
  assert (Hold : sub_texts P (Subaffiliates mn2)).
  { rewrite Hsub2. destruct Hstart as [[_ ->]|(_ & _ & ->)]; [constructor|].
    assert (Hcs := served_subs_canonical k n Hc). fold n. apply Forall_forall. intros s Hin.
    split; [by eapply Forall_forall in Hcs|by apply (raised_edge rank k n _ n s)]. }
  assert (Hnew : Forall P (SubaffiliateName msg)).
  { apply Forall_forall. intros t Hin. split; [by eapply Forall_forall in Hsubs|].
    apply raised_new; [|done]. eapply Forall_forall in Hv; [|exact Hin]. apply Hv. }
  apply (manage_subs_texts P) in Hrun as (m & Hm & Hmn & Hpm); [|done..|apply lookup_insert_eq].
  rewrite Hn2, Hname in Hm, Hmn. fold n in Hm. rewrite <- Hk2, Hnames, Hkey, lookup_insert_eq in Hm.
  injection Hm as <-. rewrite Hkey in Hnames. split.
  - exists (raised rank k n (SubaffiliateName msg)). intros key m'. rewrite Hnames.
    intros [[<- <-]|[Hne Hm']]%lookup_insert_Some.
    + split; [by unfold MAYAName_Key; rewrite Hmn|]. intros _.
      eapply Forall_impl; [exact Hpm|]. by intros s [_ ?].
    + destruct (Hrank _ _ Hm') as [Hkm _]. split; [done|].
      unfold name_expiration. rewrite Hh, Hver, Hgrace. intros Hserved.
      apply Forall_forall. intros s Hin. apply raised_edge; [done|].
      unfold served_subs. rewrite Hm'. unfold name_expiration.
      by rewrite (proj2 (Z.leb_le _ _) Hserved).
  - intros key m'. rewrite Hnames. intros [[<- <-]|[_ Hm']]%lookup_insert_Some; [|by apply (Hc key)].
    rewrite Hmn. split; [done|]. eapply Forall_impl; [exact Hpm|]. by intros s [? _].
Qed.

(** ** Accepting or refusing a message returns *)

Lemma cycled_loop_returns rec k n subs :
  (forall s m, s ∈ subs -> GetMAYAName k (Sub_Name s) = Ok m -> rec m <> Ok None) ->
  cycled_loop rec k n subs <> Ok None.
Proof.
  induction subs as [|s subs IH]; intros H; [done|]. cbn. destruct (String.eqb _ _); [done|].
  assert (IH' : cycled_loop rec k n subs <> Ok None).
  { apply IH. intros s' m Hin. apply H. by right. }
  destruct (MAYANameExists _ _); [|done]. cbn [negb].
  destruct (GetMAYAName k (Sub_Name s)) as [m| |] eqn:Hm; [|done..]. cbn [mbind outcome_bind].
  assert (Hr := H s m ltac:(left) Hm). destruct (rec m) as [[[]|]| |]; done.
Qed.

Lemma isCycled_returns rank fuel k n t m : ranked rank k -> (rank (text_key t) < fuel)%nat ->
  GetMAYAName k t = Ok m -> isCycled fuel k n m <> Ok None.
Proof.
  intros Hk. revert t m. induction fuel as [|fuel IH]; [lia|]. intros t m Hf Hm. cbn [isCycled].
  apply cycled_loop_returns. intros s m' Hin Hm'. apply (IH (Sub_Name s)); [|done].
  rewrite <- (served_subs_get _ _ _ Hm) in Hin. apply (ranked_served rank) in Hin; [|done].
  change (sub_key s) with (text_key (Sub_Name s)) in Hin. lia.
Qed.

Lemma validate_subs_returns rank fuel k name subs : ranked rank k ->
  Forall (fun n => rank (text_key n) < fuel)%nat subs -> validate_subs fuel k name subs <> Ok None.
Proof.
  intros Hk Hsubs. induction Hsubs as [|n subs Hn Hsubs IH]; [done|]. cbn. unfold validate_sub.
  destruct (FetchAddress _ _ _); [|done..]. cbn [mbind outcome_bind].
  destruct (MAYANameExists _ _); [|done].
  destruct (GetMAYAName k n) as [m| |] eqn:Hm; [|done..]. cbn [mbind outcome_bind].
  pose proof (isCycled_returns rank fuel k name n m Hk Hn Hm).
  by destruct (isCycled _ _ _ _) as [[[]|]| |].
Qed.

(** A message about a hierarchy without cycle is accepted or refused after
    finitely many steps. *)
Theorem manage_Run_returns gm k msg : acyclic k ->
  exists enough, forall fuel, (enough <= fuel)%nat -> manage_Run fuel gm k msg <> Ok None.
Proof.
  intros [rank Hk].
  exists (S (list_max (map (fun t => rank (text_key t)) (SubaffiliateName msg)))). intros fuel Hf.
  assert (Hsubs : Forall (fun n => rank (text_key n) < fuel)%nat (SubaffiliateName msg)).
  { apply Forall_forall. intros n Hn%list_elem_of_In.
    assert (Hall := proj1 (list_max_le (map (fun t => rank (text_key t)) (SubaffiliateName msg)) _) (le_n _)).
    rewrite List.Forall_forall in Hall. specialize (Hall (rank (text_key n))). cbv beta in Hall.
    rewrite in_map_iff in Hall. specialize (Hall ltac:(by eauto)). lia. }
  pose proof (validate_subs_returns rank fuel k (Manage_Name msg) _ Hk Hsubs) as Hv.
  unfold manage_Run, validateV118.
  destruct (ValidateBasicV112 _ _); [|done..]. cbn [mbind outcome_bind].
  destruct (validate_owner _ _ _); [|done..]. cbn [mbind outcome_bind].
  destruct (validate_preferred _ _ _); [|done..]. cbn [mbind outcome_bind].
  destruct (_ && _); [done|]. destruct (validate_subs _ _ _ _) as [[u|]| |]; [|done..].
  cbn [mbind outcome_bind]. destruct (validate_sum _ _ _); [|done..]. cbn [mbind outcome_bind].
  by destruct (manage_handleV118 _ _ _).
Qed.
End hierarchy.

(** ** Examples *)

Section hierarchy_witnesses.
Import Reference ReferenceBank ReferenceRange ReferenceAddress.

#[local] Instance reference_sha : Sha256 := {| sha256_hex s := s |}.

(** The owner of [name] makes [sub] its subaffiliate, with 10%. *)
Definition manage_example (name sub : string) : MsgManageMAYAName :=
  mkMsgManageMAYAName name EmptyChain NoAddress (NewCoin BaseNative 0) 0 EmptyAsset EmptyBps
    [1000] [sub] EmptyString "alice".

Definition two_names : KVStore :=
  SetMAYAName
    (SetMAYAName (empty_kv (semver_release 1 123 0) affiliate_constants 10 empty)
       (example_name "cat" []))
    (example_name "dog" []).

Lemma two_names_acyclic : acyclic two_names.
Proof.
  exists (fun _ => 0%nat). intros key m. cbn [kv_names two_names SetMAYAName set_kv_names empty_kv].
  intros [[<- <-]|[_ [[<- <-]|[_ [=]]]%lookup_insert_Some]]%lookup_insert_Some;
    (split; [done|constructor]).
Qed.

Lemma two_names_canonical : canonical_names two_names.
Proof.
  intros key m. cbn [kv_names two_names SetMAYAName set_kv_names empty_kv].
  intros [[<- <-]|[_ [[<- <-]|[_ [=]]]%lookup_insert_Some]]%lookup_insert_Some;
    (split; [by split|constructor]).
Qed.

Lemma two_names_wf : names_wf two_names.
Proof. intros key m Hm. destruct two_names_acyclic as [rank Hk]. by destruct (Hk _ _ Hm). Qed.

(** "dog" takes "cat" as a subaffiliate. *)
Definition dog_takes_cat : outcome (option KVStore) :=
  manage_Run 10 newGasMgr two_names (manage_example "dog" "cat").

Lemma dog_takes_cat_ok : match dog_takes_cat with Ok (Some _) => true | _ => false end = true.
Proof. by vm_compute. Qed.

Lemma manage_keeps_acyclic_witness :
  exists k, dog_takes_cat = Ok (Some k) /\ acyclic k /\ canonical_names k.
Proof.
  pose proof dog_takes_cat_ok as Hr. destruct dog_takes_cat as [[k|]| |] eqn:E; [|done..].
  exists k. split; [done|].
  apply (manage_keeps_acyclic 10 newGasMgr two_names (manage_example "dog" "cat") k);
    [apply two_names_acyclic|apply two_names_canonical|by repeat constructor|exact E].
Defined.

Lemma manage_only_own_name_witness :
  exists k, dog_takes_cat = Ok (Some k) /\
    kv_names k !! text_key "cat" = kv_names two_names !! text_key "cat".
Proof.
  pose proof dog_takes_cat_ok as Hr. destruct dog_takes_cat as [[k|]| |] eqn:E; [|done..].
  exists k. split; [done|].
  apply (manage_only_own_name 10 newGasMgr two_names (manage_example "dog" "cat") k);
    [apply two_names_wf|exact E|done|done].
Defined.

Lemma manage_Run_returns_witness :
  exists enough, forall fuel, (enough <= fuel)%nat ->
    manage_Run fuel newGasMgr two_names (manage_example "cat" "CAT") <> Ok None.
Proof. apply manage_Run_returns, two_names_acyclic. Defined.

(** Registering costs 100, and 10 for each block beyond the first 5000. *)
Definition fee_constants (key : string) : Z :=
  if String.eqb key "TNSRegisterFee" then 100
  else if String.eqb key "TNSFeePerBlock" then 10
  else if String.eqb key "BlocksPerYear" then 5000 else 0.

Definition registering : KVStore := empty_kv (semver_release 1 123 0) fee_constants 10 empty.

Definition register_bird : MsgManageMAYAName :=
  mkMsgManageMAYAName "bird" EmptyChain NoAddress (NewCoin BaseNative 1000) 0 EmptyAsset EmptyBps
    [] [] EmptyString "alice".

Lemma manage_registers_witness :
  exists k m, manage_Run 1 newGasMgr registering register_bird = Ok (Some k) /\
    kv_names k !! text_key "bird" = Some m /\ MN_Owner m = "alice"%string /\
    ExpireBlockHeight m = 5100.
Proof.
  assert (Hr : match manage_Run 1 newGasMgr registering register_bird with
    | Ok (Some _) => true | _ => false end = true) by by vm_compute.
  destruct (manage_Run _ _ _ _) as [[k|]| |] eqn:E; [|done..].
  destruct (manage_registers 1 newGasMgr registering register_bird k) as (m & H1 & _ & H2 & H3);
    [by intros key m|by vm_compute..|exact E|].
  exists k, m. split_and!; [done|exact H1|exact H2|]. rewrite H3. by vm_compute.
Defined.

(** C40: the owner of "cat" may make "CAT" its subaffiliate: the check compares the
    names as they are written, but the store does not tell them apart. Dividing a
    fee of which "cat" gets a share then never returns. *)
Theorem case_variant_cycle :
  exists k, manage_Run 10 newGasMgr two_names (manage_example "cat" "CAT") = Ok (Some k) /\
  forall fuel, calculateAffiliateSharesV118 fuel k (10 ^ 10) ["cat"] [100] 0 = Ok None.
Proof.
  set (cat := with_AffiliateBps (example_name "cat" [mkMAYANameSubaffiliate "CAT" 1000]) None).
  assert (Hr : match manage_Run 10 newGasMgr two_names (manage_example "cat" "CAT") with
    | Ok (Some k) => MAYANameExists k "cat" && bool_decide (GetMAYAName k "cat" = Ok cat)
        && (max_sub_bps k EmptyMAYAName 0 =? 500)
    | _ => false end = true) by by vm_compute.
  destruct (manage_Run _ _ _ _) as [[k|]| |]; [|done..]. exists k. split; [done|]. intros fuel.
  apply andb_prop in Hr as [[Hex Hget%bool_decide_eq_true]%andb_prop Hmax%Z.eqb_eq].
  apply (affiliate_diverges fuel k "cat" 100 (10 ^ 10) cat 0); rewrite ?Hmax; try done.
  intros fuel' a. by apply (self_subaffiliate_diverges fuel' k cat (mkMAYANameSubaffiliate "CAT" 1000) []).
Qed.
End hierarchy_witnesses.
