(* ===== verification/CacaoPools.v ===== *)
(** [handler_cacao_pool_deposit.go] and [handler_cacao_pool_withdraw.go]: deposits
    into the CACAO pool and withdrawals from it, and the invariant that
    [CACAOPoolInvariant] of [keeper/v1/invariants.go] checks. *)
From S2P Require Import Prelude GoText Sdk Shares Chains Keys Addresses Assets Coins Txs.
From S2P Require Import NodeAccounts Votes TxOuts Mimirs Pools SwapMsgs Records MayaNames Stores Keeper Halts Gas.
From S2P Require Import Affiliates Decimals Memos Collectors.

(** ** Messages *)

Record MsgCacaoPoolDeposit := mkMsgCacaoPoolDeposit {
  Deposit_Signer : AccAddress;
  Deposit_Tx : Tx;
}.

Record MsgCacaoPoolWithdraw := mkMsgCacaoPoolWithdraw {
  Withdraw_Signer : AccAddress;
  Withdraw_Tx : Tx;
  BasisPoints : Z;
  Withdraw_AffiliateBasisPoints : Z;
}.

Definition NewMsgCacaoPoolDeposit (signer : AccAddress) (tx : Tx) : MsgCacaoPoolDeposit :=
  mkMsgCacaoPoolDeposit signer tx.

Definition NewMsgCacaoPoolWithdraw (signer : AccAddress) (tx : Tx) (basisPoints affiliateBps : Z)
  : MsgCacaoPoolWithdraw :=
  mkMsgCacaoPoolWithdraw signer tx basisPoints affiliateBps.

Definition errBadVersion : string := "bad version".

Section handlers.
Context `{V : Semver} `{B : CosmosBank} `{A : SdkAddress} `{R : MapRange} `{L : AddressLib}.
Context `{U : SdkUint} `{D : SdkDec} `{SH : Sha256} `{T : UintText}.
Implicit Types (k : KVStore) (gm : GasMgr).

Definition MsgCacaoPoolDeposit_ValidateBasic (m : MsgCacaoPoolDeposit) : outcome unit :=
  let tx := Deposit_Tx m in
  if negb (Chain_Equals (Tx_Chain tx) BASEChain) then Err "chain must be MAYAChain"
  else
    match Tx_Coins tx with
    | [coin] =>
        if negb (IsBASEChain (Asset_Chain (Coin_Asset coin))) then Err "coin chain must be MAYAChain"
        else if negb (IsNativeBase (Coin_Asset coin)) then Err "coin must be CACAO"
        else if acc_empty (Deposit_Signer m) then Err "signer must not be empty"
        else if Coin_Amount coin =? 0 then Err "coins amount must not be zero"
        else Ok tt
    | _ => Err "coins must be length 1 (CACAO)"
    end.

Definition MsgCacaoPoolWithdraw_ValidateBasic (m : MsgCacaoPoolWithdraw) : outcome unit :=
  if negb (Coins_IsEmpty (Tx_Coins (Withdraw_Tx m))) then Err "coins must be empty (zero amount)"
  else if acc_empty (Withdraw_Signer m) then Err "signer must not be empty"
  else if (BasisPoints m =? 0) || (MaxBasisPts <? BasisPoints m) then Err "invalid basis points"
  else if MaxBasisPts <? Withdraw_AffiliateBasisPoints m
  then Err "the total basis points for subaffiliates must not exceed %d"
  else Ok tt.

Definition cacaoPoolValue k : outcome Z := GetRuneBalanceOfModule k CACAOPoolName.

(** ** Deposits *)

Definition deposit_validateV118 k (msg : MsgCacaoPoolDeposit) : outcome unit :=
  _ ← MsgCacaoPoolDeposit_ValidateBasic msg;
  if GetConfigInt64 k "CACAOPoolEnabled" <=? 0 then Err "CACAOPool disabled" else Ok tt.

Definition deposit_validate k (msg : MsgCacaoPoolDeposit) : outcome unit :=
  if GTE (kv_version k) (semver_release 1 118 0) then deposit_validateV118 k msg
  else Err errBadVersion.

(** The units a deposit of [amount] gets. *)
Definition deposit_units (amount poolValue totalUnits : Z) : Z :=
  if negb (totalUnits =? 0) then GetSafeShare amount poolValue totalUnits else amount.

Definition deposit_handleV118 k (msg : MsgCacaoPoolDeposit) : outcome KVStore :=
  poolValue ← cacaoPoolValue k;
  match Tx_Coins (Deposit_Tx msg) with
  | [] => Panic
  | coin :: _ =>
      k ← SendFromModuleToModule k AsgardName CACAOPoolName [coin];
      let cacaoProvider := GetCACAOProvider k (Deposit_Signer msg) in
      depositAmount ← uint_add (DepositAmount cacaoProvider) (Coin_Amount coin);
      let cacaoPool := GetCACAOPool k in
      totalUnits ← TotalUnits cacaoPool;
      let depositUnits := deposit_units (Coin_Amount coin) poolValue totalUnits in
      units ← uint_add (Provider_Units cacaoProvider) depositUnits;
      let k := SetCACAOProvider k
        (mkCACAOProvider (CacaoAddress cacaoProvider) depositAmount (WithdrawAmount cacaoProvider)
           units (kv_height k) (Provider_LastWithdrawHeight cacaoProvider)) in
      poolUnits ← uint_add (PoolUnits cacaoPool) depositUnits;
      deposited ← uint_add (CacaoDeposited cacaoPool) (Coin_Amount coin);
      Ok (SetCACAOPool k (mkCACAOPool (ReserveUnits cacaoPool) poolUnits deposited
                            (CacaoWithdrawn cacaoPool)))
  end.

Definition deposit_handle k (msg : MsgCacaoPoolDeposit) : outcome KVStore :=
  if GTE (kv_version k) (semver_release 1 118 0) then deposit_handleV118 k msg
  else Err errBadVersion.

(** [Run] logs the first coin before it validates the message. *)
Definition deposit_Run k (msg : MsgCacaoPoolDeposit) : outcome KVStore :=
  match Tx_Coins (Deposit_Tx msg) with
  | [] => Panic
  | _ => _ ← deposit_validate k msg; deposit_handle k msg
  end.

(** ** Withdrawals *)

Definition withdraw_validateV118 k (msg : MsgCacaoPoolWithdraw) : outcome unit :=
  _ ← MsgCacaoPoolWithdraw_ValidateBasic msg;
  if GetConfigInt64 k "CACAOPoolEnabled" <=? 0 then Err "CACAOPool disabled" else Ok tt.

Definition withdraw_validate k (msg : MsgCacaoPoolWithdraw) : outcome unit :=
  if GTE (kv_version k) (semver_release 1 118 0) then withdraw_validateV118 k msg
  else Err errBadVersion.

(** The yield the affiliates share, read only when there are some. *)
Definition withdraw_yield (affiliates : bool) (cacaoProvider : CACAOProvider)
    (cacaoPool : CACAOPool) (basisPoints totalCacaoPoolValue : Z) : outcome Z :=
  if affiliates then
    totalUnits ← TotalUnits cacaoPool;
    let currentValue := GetSafeShare (Provider_Units cacaoProvider) totalUnits totalCacaoPoolValue in
    depositRemaining ← SafeSub (DepositAmount cacaoProvider) (WithdrawAmount cacaoProvider);
    currentYield ← SafeSub currentValue depositRemaining;
    Ok (GetSafeShare basisPoints MaxBasisPts currentYield)
  else Ok 0.

(** The part of both versions that computes the amount and updates the records:
    the new store, the amount and the yield of the provider that is withdrawn.
    The first version has no affiliates. *)
Definition withdraw_records k (msg : MsgCacaoPoolWithdraw) (affiliates : bool)
  : outcome (KVStore * Z * Z) :=
  let cacaoProvider := GetCACAOProvider k (Withdraw_Signer msg) in
  let depositMaturity := GetConfigInt64 k "CACAOPoolDepositMaturityBlocks" in
  let blocksSinceLastDeposit := i64 (kv_height k - LastDepositHeight cacaoProvider) in
  if blocksSinceLastDeposit <? depositMaturity then Err "deposit reaches maturity in %d blocks"
  else
    let cacaoPool := GetCACAOPool k in
    let withdrawUnits := GetSafeShare (BasisPoints msg) MaxBasisPts (Provider_Units cacaoProvider) in
    totalCacaoPoolValue ← cacaoPoolValue k;
    withdrawYield ← withdraw_yield affiliates cacaoProvider cacaoPool (BasisPoints msg)
                      totalCacaoPoolValue;
    totalUnits ← TotalUnits cacaoPool;
    let withdrawAmount := GetSafeShare withdrawUnits totalUnits totalCacaoPoolValue in
    pendingCacao ← GetRuneBalanceOfModule k CACAOPoolName;
    if pendingCacao <? withdrawAmount then Err "not enough CACAO in CACAOPool module"
    else
      units ← SafeSub (Provider_Units cacaoProvider) withdrawUnits;
      withdrawn ← uint_add (WithdrawAmount cacaoProvider) withdrawAmount;
      let k := SetCACAOProvider k
        (mkCACAOProvider (CacaoAddress cacaoProvider) (DepositAmount cacaoProvider) withdrawn units
           (LastDepositHeight cacaoProvider) (kv_height k)) in
      poolUnits ← SafeSub (PoolUnits cacaoPool) withdrawUnits;
      total ← uint_add (CacaoWithdrawn cacaoPool) withdrawAmount;
      Ok (SetCACAOPool k (mkCACAOPool (ReserveUnits cacaoPool) poolUnits (CacaoDeposited cacaoPool)
                            total), withdrawAmount, withdrawYield).

(** Sending the provider what is left of the amount. *)
Definition withdraw_pay k (signer : AccAddress) (withdrawAmount affiliateAmount : Z)
  : outcome KVStore :=
  userAmount ← SafeSub withdrawAmount affiliateAmount;
  SendFromModuleToAccount k CACAOPoolName signer [NewCoin BaseNative userAmount].

(** ** The invariant the keeper checks *)

(** The sums of the providers' units, deposits and withdrawals, in the order of
    an iteration over the store. A provider without an address is skipped. *)
Definition add_provider (s : Z * Z * Z) (kv : string * CACAOProvider) : outcome (Z * Z * Z) :=
  let '(units, deposited, withdrawn) := s in
  let rp := snd kv in
  if acc_empty (CacaoAddress rp) then Ok s
  else
    units ← uint_add units (Provider_Units rp);
    deposited ← uint_add deposited (DepositAmount rp);
    withdrawn ← uint_add withdrawn (WithdrawAmount rp);
    Ok (units, deposited, withdrawn).

(** Whether the invariant is broken. *)
Definition CACAOPoolInvariant k : outcome bool :=
  let cacaoPool := GetCACAOPool k in
  r ← foldM add_provider (0, 0, 0) (map_to_list (kv_cacao_providers k));
  let '(units, deposited, withdrawn) := (r : Z * Z * Z) in
  Ok (negb (units =? PoolUnits cacaoPool) || negb (deposited =? CacaoDeposited cacaoPool)
      || negb (withdrawn =? CacaoWithdrawn cacaoPool)).

Definition withdraw_handleV118 k (msg : MsgCacaoPoolWithdraw) : outcome KVStore :=
  r ← withdraw_records k msg false;
  let '(k, withdrawAmount, _) := (r : KVStore * Z * Z) in
  withdraw_pay k (Withdraw_Signer msg) withdrawAmount 0.

(** From version 1.121.0 on the affiliates of the memo share the yield. *)
Definition withdraw_handleV121 (fuel : nat) gm k (msg : MsgCacaoPoolWithdraw)
  : outcome (option KVStore) :=
  let affiliates := negb (Withdraw_AffiliateBasisPoints msg =? 0) in
  r ← withdraw_records k msg affiliates;
  let '(k, withdrawAmount, withdrawYield) := (r : KVStore * Z * Z) in
  r ←
    (if affiliates && negb (withdrawYield =? 0) then
       let tx := Withdraw_Tx msg in
       let tx := mkTx (Tx_ID tx) (Tx_Chain tx) (FromAddress tx) (ToAddress tx)
                   [NewCoin BaseNative withdrawYield] (Tx_Gas tx) (Tx_Memo tx) in
       skimAffiliateFeesV118 fuel gm k tx (Withdraw_Signer msg) (Tx_Memo tx) MaxBasisPts CACAOPoolName
     else Ok (Some (k, 0)));
  match r with
  | None => Ok None
  | Some (k, affiliateAmount) =>
      let affiliateAmount := if withdrawYield <? affiliateAmount then withdrawYield else affiliateAmount in
      k ← withdraw_pay k (Withdraw_Signer msg) withdrawAmount affiliateAmount;
      Ok (Some k)
  end.

Definition withdraw_handle (fuel : nat) gm k (msg : MsgCacaoPoolWithdraw) : outcome (option KVStore) :=
  if GTE (kv_version k) (semver_release 1 121 0) then withdraw_handleV121 fuel gm k msg
  else if GTE (kv_version k) (semver_release 1 118 0) then
    k ← withdraw_handleV118 k msg; Ok (Some k)
  else Err errBadVersion.

Definition withdraw_Run (fuel : nat) gm k (msg : MsgCacaoPoolWithdraw) : outcome (option KVStore) :=
  _ ← withdraw_validate k msg; withdraw_handle fuel gm k msg.
End handlers.

(** ** The records of the pool add up *)

Section cacao_facts.
Context {V : Semver} {B : CosmosBank} {A : SdkAddress} {AL : SdkAddressLaws A} {R : MapRange}.
Context {U : SdkUint} {D : SdkDec} {UL : SdkUintLaws U} {DL : SdkDecLaws D} {L : AddressLib}.
Context {SH : Sha256} {T : UintText}.
Implicit Types (k : KVStore) (gm : GasMgr).

Definition providers_sum (f : CACAOProvider -> Z) k : Z :=
  map_sum (fun _ => f) (kv_cacao_providers k).

Definition provider_wf (key : string) (rp : CACAOProvider) : Prop :=
  key = GetKey (CACAOProvider_Key rp) /\ acc_empty (CacaoAddress rp) = false /\
  is_uint (Provider_Units rp) /\ is_uint (DepositAmount rp) /\ is_uint (WithdrawAmount rp).

Record cacao_inv k : Prop := {
  ci_providers : forall key rp, kv_cacao_providers k !! key = Some rp -> provider_wf key rp;
  ci_units : PoolUnits (kv_cacao_pool k) = providers_sum Provider_Units k;
  ci_deposited : CacaoDeposited (kv_cacao_pool k) = providers_sum DepositAmount k;
  ci_withdrawn : CacaoWithdrawn (kv_cacao_pool k) = providers_sum WithdrawAmount k;
  ci_uint : is_uint (PoolUnits (kv_cacao_pool k)) /\ is_uint (CacaoDeposited (kv_cacao_pool k)) /\
    is_uint (CacaoWithdrawn (kv_cacao_pool k)) /\ is_uint (ReserveUnits (kv_cacao_pool k));
}.

(** The record the handlers start from, and what the sums hold of it. *)
Lemma GetCACAOProvider_inv k signer : cacao_inv k -> acc_empty signer = false ->
  let rp := GetCACAOProvider k signer in
  provider_wf (GetKey (acc_string signer)) rp /\
  forall f, f (empty_provider signer) = 0 ->
    from_option f 0 (kv_cacao_providers k !! GetKey (acc_string signer)) = f rp.
Proof.
  intros Hinv Hs rp. unfold rp, GetCACAOProvider.
  destruct (kv_cacao_providers k !! _) as [x|] eqn:E; cbn.
  - split; [by apply (ci_providers k)|done].
  - split; [by repeat split|done].
Qed.

Lemma provider_le k signer (f : CACAOProvider -> Z) :
  cacao_inv k -> acc_empty signer = false -> f (empty_provider signer) = 0 ->
  (forall key rp, provider_wf key rp -> 0 <= f rp) ->
  0 <= f (GetCACAOProvider k signer) <= providers_sum f k.
Proof.
  intros Hinv Hs Hf Hpos.
  assert (Hall : forall (key : string) rp, kv_cacao_providers k !! key = Some rp -> 0 <= f rp)
    by (intros key rp H; by apply (Hpos key), (ci_providers k)).
  destruct (GetCACAOProvider_inv k signer Hinv Hs) as [Hwf Hold].
  split; [by apply (Hpos _ _ Hwf)|]. rewrite <- (Hold f Hf).
  destruct (kv_cacao_providers k !! _) as [x|] eqn:E; cbn.
  - by eapply (map_sum_entry (fun _ => f)).
  - by apply map_sum_nonneg.
Qed.

(** Writing back a provider and the pool, both changed by the same amounts. *)
Lemma cacao_update k k0 signer units deposited withdrawn h1 h2 pool :
  cacao_inv k -> acc_empty signer = false ->
  kv_cacao_providers k0 = kv_cacao_providers k ->
  let old := GetCACAOProvider k signer in
  let new := mkCACAOProvider (CacaoAddress old) deposited withdrawn units h1 h2 in
  is_uint units -> is_uint deposited -> is_uint withdrawn ->
  is_uint (PoolUnits pool) -> is_uint (CacaoDeposited pool) -> is_uint (CacaoWithdrawn pool) ->
  is_uint (ReserveUnits pool) ->
  PoolUnits pool = PoolUnits (kv_cacao_pool k) - Provider_Units old + units ->
  CacaoDeposited pool = CacaoDeposited (kv_cacao_pool k) - DepositAmount old + deposited ->
  CacaoWithdrawn pool = CacaoWithdrawn (kv_cacao_pool k) - WithdrawAmount old + withdrawn ->
  cacao_inv (SetCACAOPool (SetCACAOProvider k0 new) pool).
Proof.
  intros Hinv Hs Hk old new ??????? Eu Ed Ew.
  destruct (GetCACAOProvider_inv k signer Hinv Hs) as [(Hkey & Hne & _) Hold]. fold old in Hkey, Hne, Hold.
  assert (Hsum : forall f, f (empty_provider signer) = 0 ->
    providers_sum f (SetCACAOPool (SetCACAOProvider k0 new) pool)
    = providers_sum f k - f old + f new).
  { intros f Hf. unfold providers_sum. cbn. rewrite Hk, map_sum_insert.
    change (CACAOProvider_Key new) with (CACAOProvider_Key old). by rewrite <- Hkey, Hold. }
  split; cbn [kv_cacao_pool SetCACAOPool set_kv_cacao_pool].
  - intros key rp. cbn. rewrite Hk. intros [[<- <-]|[_ Hrp]]%lookup_insert_Some.
    + unfold provider_wf; by split_and!.
    + by apply (ci_providers k).
  - by rewrite Hsum, Eu, (ci_units k Hinv).
  - by rewrite Hsum, Ed, (ci_deposited k Hinv).
  - by rewrite Hsum, Ew, (ci_withdrawn k Hinv).
  - by split_and!.
Qed.

Lemma cacao_inv_bank k b : cacao_inv k -> cacao_inv (set_kv_bank k b).
Proof. intros [? ? ? ? ?]. by split. Qed.

Lemma wf_nonneg (key : string) rp : provider_wf key rp ->
  0 <= Provider_Units rp /\ 0 <= DepositAmount rp /\ 0 <= WithdrawAmount rp.
Proof. intros (_ & _ & [] & [] & []). lia. Qed.

Lemma deposit_inv k msg k' : cacao_inv k -> acc_empty (Deposit_Signer msg) = false ->
  deposit_handleV118 k msg = Ok k' -> cacao_inv k'.
Proof.
  intros Hinv Hs Hrun. unfold deposit_handleV118 in Hrun. invert_ok.
  destruct (Tx_Coins _) as [|coin coins]; [done|]. invert_ok.
  apply SendFromModuleToModule_frame in Hv0 as [b ->].
  assert (Hinv' := cacao_inv_bank k b Hinv). destruct (ci_uint k Hinv) as (?&?&?&?).
  destruct (GetCACAOProvider_inv k _ Hinv Hs) as [(_ & _ & ? & ? & ?) _].
  apply uint_add_Ok in Hv1 as [-> ?]. apply uint_add_Ok in Hv3 as [-> ?].
  apply uint_add_Ok in Hv4 as [-> ?]. apply uint_add_Ok in Hv5 as [-> ?].
  change (GetCACAOProvider (set_kv_bank k b)) with (GetCACAOProvider k) in *.
  change (GetCACAOPool (set_kv_bank k b)) with (kv_cacao_pool k) in *.
  apply (cacao_update k); try done; cbn [PoolUnits CacaoDeposited CacaoWithdrawn]; lia.
Qed.

(** What the common part of a withdrawal does: the provider and the pool lose
    the same units and gain the same withdrawn amount. *)
Lemma withdraw_records_inv k msg affiliates k' amount yield :
  cacao_inv k -> acc_empty (Withdraw_Signer msg) = false ->
  0 <= BasisPoints msg ->
  withdraw_records k msg affiliates = Ok (k', amount, yield) ->
  cacao_inv k' /\ kv_bank k' = kv_bank k /\
  0 <= amount <= bank_balance (kv_bank k) (bank_module CACAOPoolName) (Asset_Native BaseNative) /\
  CacaoWithdrawn (kv_cacao_pool k') = CacaoWithdrawn (kv_cacao_pool k) + amount.
Proof.
  intros Hinv Hs Hb Hrun. unfold withdraw_records in Hrun.
  destruct (_ <? GetConfigInt64 _ _); [done|].
  invert_ok.
  unfold cacaoPoolValue, GetRuneBalanceOfModule, GetBalanceOfModule in *.
  apply uint_of_big_Ok in Hv as [-> Hbal]. apply uint_of_big_Ok in Hv2 as [-> _].
  set (bal := bank_balance _ _ _) in *.
  destruct (ci_uint k Hinv) as (?&?&?&?).
  destruct (GetCACAOProvider_inv k _ Hinv Hs) as [(_ & _ & ? & ? & ?) _].
  assert (Hle : forall f, f (empty_provider (Withdraw_Signer msg)) = 0 ->
    (forall key rp, provider_wf key rp -> 0 <= f rp) ->
    0 <= f (GetCACAOProvider k (Withdraw_Signer msg)) <= providers_sum f k)
    by (intros; by apply provider_le).
  pose proof (Hle Provider_Units eq_refl (fun key rp W => proj1 (wf_nonneg key rp W))) as Hu.
  rewrite <- (ci_units k Hinv) in Hu.
  set (old := GetCACAOProvider k (Withdraw_Signer msg)) in *.
  assert (Hw := GetSafeShare_range (BasisPoints msg) MaxBasisPts (Provider_Units old)
                  Hb ltac:(done) ltac:(lia)).
  set (w := GetSafeShare _ _ (Provider_Units old)) in *.
  apply uint_add_Ok in Hv1 as [-> [Ht _]]. cbn [ReserveUnits PoolUnits GetCACAOPool] in *.
  assert (Ha := GetSafeShare_range w (ReserveUnits (kv_cacao_pool k) + PoolUnits (kv_cacao_pool k)) bal
                  ltac:(lia) Ht (proj1 Hbal)).
  unfold SafeSub in *.
  destruct (Z.ltb_spec (Provider_Units old) w); [lia|].
  destruct (Z.ltb_spec (PoolUnits (GetCACAOPool k)) w); [unfold GetCACAOPool in *; lia|].
  apply uint_sub_Ok in Hv3 as [-> ?]. apply uint_add_Ok in Hv4 as [-> ?].
  apply uint_sub_Ok in Hv5 as [-> ?]. apply uint_add_Ok in Hv6 as [-> ?].
  split; [|split_and!; try done; unfold GetCACAOPool; cbn; lia].
  unfold GetCACAOPool in *.
  apply (cacao_update k); try done; cbn [PoolUnits CacaoDeposited CacaoWithdrawn]; fold old; lia.
Qed.

Lemma cacao_withdraw_inv k msg k' : cacao_inv k -> acc_empty (Withdraw_Signer msg) = false ->
  0 <= BasisPoints msg -> withdraw_handleV118 k msg = Ok k' -> cacao_inv k'.
Proof.
  intros Hinv Hs Hb Hrun. unfold withdraw_handleV118 in Hrun. invert_ok.
  destruct v as [[k1 amount] yield]. apply withdraw_records_inv in Hv as (Hk1 & _); [|done..].
  unfold withdraw_pay in Hrun. invert_ok. apply SendFromModuleToAccount_frame in Hrun as [b ->].
  by apply cacao_inv_bank.
Qed.

(** Under the invariant the check of the keeper reports nothing. *)
Lemma add_provider_sums l u d w :
  Forall (fun kv => provider_wf (fst kv) (snd kv)) l -> 0 <= u -> 0 <= d -> 0 <= w ->
  is_uint (u + sumZ (fun kv => Provider_Units (snd kv)) l) ->
  is_uint (d + sumZ (fun kv => DepositAmount (snd kv)) l) ->
  is_uint (w + sumZ (fun kv => WithdrawAmount (snd kv)) l) ->
  foldM add_provider (u, d, w) l =
    Ok (u + sumZ (fun kv => Provider_Units (snd kv)) l, d + sumZ (fun kv => DepositAmount (snd kv)) l,
        w + sumZ (fun kv => WithdrawAmount (snd kv)) l).
Proof.
  intros Hl. revert u d w. induction Hl as [|[key rp] l Hx Hl IH]; intros u d w Hu0 Hd0 Hw0 Hu Hd Hw.
  - cbn. by rewrite !Z.add_0_r.
  - rewrite !sumZ_cons in *. cbn [fst snd foldM add_provider] in *. destruct Hx as (_ & -> & ? & ? & ?).
    assert (Hnn : forall f, (forall rp key, provider_wf key rp -> 0 <= f rp) ->
      0 <= sumZ (fun kv => f (snd kv)) l).
    { intros f Hf. apply sumZ_nonneg. eapply Forall_impl; [exact Hl|]. intros kv. apply Hf. }
    pose proof (Hnn Provider_Units ltac:(intros; by apply (wf_nonneg key0))).
    pose proof (Hnn DepositAmount ltac:(intros; by apply (wf_nonneg key0))).
    pose proof (Hnn WithdrawAmount ltac:(intros; by apply (wf_nonneg key0))).
    unfold is_uint in *.
    rewrite !uint_add_law, !checked_in by (unfold is_uint; lia). cbn [mbind outcome_bind].
    rewrite IH by (unfold is_uint; lia). by rewrite !Z.add_assoc.
Qed.

Lemma cacao_inv_checks k : cacao_inv k -> CACAOPoolInvariant k = Ok false.
Proof.
  intros Hinv. destruct (ci_uint k Hinv) as (?&?&?&?). unfold CACAOPoolInvariant, GetCACAOPool.
  rewrite (ci_units k Hinv), (ci_deposited k Hinv), (ci_withdrawn k Hinv) in *.
  unfold providers_sum, map_sum in *.
  rewrite add_provider_sums; try done; try (rewrite ?Z.add_0_l; by apply ci_uint).
  - cbn. by rewrite !Z.eqb_refl.
  - apply Forall_forall. intros [key rp] Hk%elem_of_map_to_list. by apply (ci_providers k Hinv).
Qed.

Lemma pays_only_cacao k k' : pays_only k k' -> cacao_inv k -> cacao_inv k'.
Proof. intros (c & b & i & v & ->) [? ? ? ? ?]. by split. Qed.

Lemma withdraw_pay_inv k signer amount affiliateAmount k' : cacao_inv k ->
  withdraw_pay k signer amount affiliateAmount = Ok k' -> cacao_inv k'.
Proof.
  intros Hinv H. unfold withdraw_pay in H. apply bind_Ok in H as (user & _ & H).
  apply SendFromModuleToAccount_frame in H as [b ->]. by apply cacao_inv_bank.
Qed.

Lemma withdraw_V121_inv fuel gm k msg k' : cacao_inv k -> acc_empty (Withdraw_Signer msg) = false ->
  0 <= BasisPoints msg -> withdraw_handleV121 fuel gm k msg = Ok (Some k') -> cacao_inv k'.
Proof.
  intros Hinv Hs Hb E. unfold withdraw_handleV121 in E.
  apply bind_Ok in E as ([[k1 amount] yield] & Hr & E).
  apply withdraw_records_inv in Hr as (Hk1 & _); [|done..].
  apply bind_Ok in E as ([[k2 affiliateAmount]|] & Ha & E); [|done].
  apply bind_Ok in E as (k3 & Hp & E). injection E as <-.
  eapply withdraw_pay_inv; [|exact Hp]. clear Hp. destruct (_ && _); [|by injection Ha as <- _].
  apply skim_pays in Ha as [names Ha]. eapply pays_only_cacao; [exact Ha|].
  destruct Hk1 as [? ? ? ? ?]. by split.
Qed.

Lemma withdraw_validate_signer k msg : withdraw_validate k msg = Ok tt ->
  acc_empty (Withdraw_Signer msg) = false.
Proof.
  unfold withdraw_validate, withdraw_validateV118, MsgCacaoPoolWithdraw_ValidateBasic.
  destruct (GTE _ _); [|done]. destruct (negb _); [done|]. by destruct (acc_empty _).
Qed.

Lemma deposit_validate_signer k msg : deposit_validate k msg = Ok tt ->
  acc_empty (Deposit_Signer msg) = false.
Proof.
  unfold deposit_validate, deposit_validateV118, MsgCacaoPoolDeposit_ValidateBasic.
  destruct (GTE _ _); [|done]. destruct (negb _); [done|]. destruct (Tx_Coins _) as [|c []]; [done| |done].
  destruct (negb _); [done|]. destruct (negb _); [done|]. by destruct (acc_empty _).
Qed.

(** What may happen to the CACAO pool: a deposit or a withdrawal that succeeds, or
    anything that leaves its records alone. *)
Inductive cacao_step : KVStore -> KVStore -> Prop :=
| cacao_deposit k msg k' : deposit_Run k msg = Ok k' -> cacao_step k k'
| cacao_withdraw fuel gm k msg k' : 0 <= BasisPoints msg ->
    withdraw_Run fuel gm k msg = Ok (Some k') -> cacao_step k k'
| cacao_other k k' : kv_cacao_pool k' = kv_cacao_pool k ->
    kv_cacao_providers k' = kv_cacao_providers k -> cacao_step k k'.

Lemma cacao_step_inv k k' : cacao_step k k' -> cacao_inv k -> cacao_inv k'.
Proof.
  intros Hstep Hinv. destruct Hstep as [k msg k' E|fuel gm k msg k' Hb E|k k' E1 E2].
  - unfold deposit_Run in E. destruct (Tx_Coins _); [done|].
    apply bind_Ok in E as ([] & Hv%deposit_validate_signer & E). unfold deposit_handle in E.
    destruct (GTE _ _); [|done]. by eapply deposit_inv.
  - unfold withdraw_Run in E. apply bind_Ok in E as ([] & Hv%withdraw_validate_signer & E).
    unfold withdraw_handle in E. destruct (GTE _ _); [by eapply withdraw_V121_inv|].
    destruct (GTE _ _); [|done]. apply bind_Ok in E as (k1 & E & Hk). injection Hk as <-.
    by eapply cacao_withdraw_inv.
  - destruct Hinv as [H1 H2 H3 H4 H5]. split; unfold providers_sum in *; by rewrite ?E1, ?E2.
Qed.

(** C22: starting from an empty CACAO pool, whatever deposits and withdrawals follow,
    the units, deposits and withdrawals of the pool are the sums of its providers',
    and the check of the keeper reports nothing. *)
Theorem cacao_pool_adds_up k k' :
  kv_cacao_pool k = NewCACAOPool -> kv_cacao_providers k = ∅ -> rtc cacao_step k k' ->
  PoolUnits (kv_cacao_pool k') = providers_sum Provider_Units k' /\
  CacaoDeposited (kv_cacao_pool k') = providers_sum DepositAmount k' /\
  CacaoWithdrawn (kv_cacao_pool k') = providers_sum WithdrawAmount k' /\
  CACAOPoolInvariant k' = Ok false.
Proof.
  intros Hp He Hsteps. assert (Hinv : cacao_inv k).
  { split; unfold providers_sum; rewrite ?He, ?Hp, ?map_sum_empty; done. }
  assert (Hinv' : cacao_inv k').
  { clear Hp He. induction Hsteps as [|k1 k2 k3 H12 _ IH]; [done|]. by apply IH, (cacao_step_inv k1). }
  split_and!; [by apply ci_units|by apply ci_deposited|by apply ci_withdrawn|by apply cacao_inv_checks].
Qed.

(** A first deposit gets a unit per CACAO; a later one gets its share of the
    units, up to two units of rounding, as long as it is not larger than the
    pool. A deposit larger than the pool is capped at the units that exist: the
    rest of it is shared by everyone, so its owner loses up to half of the
    excess. A deposit into a pool with units but no CACAO gets nothing. *)
Theorem deposit_units_spec amount poolValue totalUnits :
  0 < amount -> 0 <= poolValue < 2 ^ 255 -> 0 <= totalUnits <= 10 ^ 17 ->
  (totalUnits = 0 -> deposit_units amount poolValue totalUnits = amount) /\
  (0 < totalUnits -> poolValue = 0 -> deposit_units amount poolValue totalUnits = 0) /\
  (0 < totalUnits -> 0 < poolValue -> amount <= poolValue ->
    Z.abs (deposit_units amount poolValue totalUnits * poolValue - amount * totalUnits)
      <= 2 * poolValue) /\
  (0 < totalUnits -> 0 < poolValue -> poolValue <= amount ->
    deposit_units amount poolValue totalUnits = totalUnits).
Proof.
  intros Ha Hv Ht. unfold deposit_units. split_and!.
  - by intros ->.
  - intros ? ->. replace (totalUnits =? 0) with false by lia. cbn [negb].
    unfold GetSafeShare, GetUncappedShare. by replace (0 <=? amount) with true by lia.
  - intros. replace (totalUnits =? 0) with false by lia. cbn [negb].
    destruct (GetSafeShare_error amount poolValue totalUnits) as (_ & He & _); [lia..|].
    by rewrite Z.min_l in He by lia.
  - intros. replace (totalUnits =? 0) with false by lia. cbn [negb].
    apply GetSafeShare_error; lia.
Qed.
End cacao_facts.

Section cacao_witnesses.
Import Reference ReferenceBank ReferenceRange ReferenceAddress ReferenceText.

#[local] Instance reference_sha : Sha256 := {| sha256_hex s := s |}.

Definition cacao_constants (key : string) : Z :=
  if String.eqb key "CACAOPoolEnabled" then 1 else 0.

(** "alice" deposits 1000 CACAO and takes half of it back. *)
Definition cacao_start : KVStore :=
  empty_kv (semver_release 1 123 0) cacao_constants 10
    (mkState (<[("asgard", "cacao") := 1000]> ∅) ∅).

Definition cacao_tx (coins : Coins) : Tx := mkTx "A1" BASEChain "alice" "asgard" coins [] EmptyString.

Definition cacao_run : outcome (option KVStore) :=
  k ← deposit_Run cacao_start
        (mkMsgCacaoPoolDeposit "alice" (cacao_tx [NewCoin BaseNative 1000]));
  withdraw_Run 1 newGasMgr k (mkMsgCacaoPoolWithdraw "alice" (cacao_tx []) 5000 0).

Lemma cacao_pool_adds_up_witness :
  exists k, cacao_run = Ok (Some k) /\ PoolUnits (kv_cacao_pool k) = 500 /\
    providers_sum Provider_Units k = 500 /\ CACAOPoolInvariant k = Ok false.
Proof.
  assert (Hr : match cacao_run with
    | Ok (Some k) => PoolUnits (kv_cacao_pool k) =? 500 | _ => false end = true) by by vm_compute.
  unfold cacao_run in *. destruct (deposit_Run _ _) as [k1| |] eqn:E1; [|done..].
  cbn [mbind outcome_bind] in *. destruct (withdraw_Run _ _ _ _) as [[k2|]| |] eqn:E2; [|done..].
  apply Z.eqb_eq in Hr.
  assert (Hsteps : rtc cacao_step cacao_start k2).
  { eapply rtc_l; [by eapply cacao_deposit|]. eapply rtc_l; [|done].
    by eapply cacao_withdraw; [|exact E2]. }
  destruct (cacao_pool_adds_up cacao_start k2 eq_refl eq_refl Hsteps) as (H1 & _ & _ & H4).
  exists k2. split_and!; [done|done|by rewrite <- H1|exact H4].
Defined.

Lemma deposit_units_spec_witness :
  deposit_units 500 1000 3000 = 1500 /\ deposit_units 4000 1000 3000 = 3000 /\
  Z.abs (deposit_units 500 1000 3000 * 1000 - 500 * 3000) <= 2 * 1000.
Proof.
  split; [by vm_compute|]. split; [apply (deposit_units_spec 4000 1000 3000); lia|].
  apply (deposit_units_spec 500 1000 3000); lia.
Defined.
End cacao_witnesses.
