(* ===== verification/SwapQueue.v ===== *)
(** [x/mayachain/manager_swap_queue.go] and the scoring of
    [manager_swap_queue_current.go]: the order in which a block's swaps run, and
    how many of them do. *)
From S2P Require Import Prelude GoText Sdk Shares Chains Keys Assets Coins Txs.
From S2P Require Import NodeAccounts Votes Mimirs Pools SwapMsgs Records MayaNames Stores Keeper TradeAccounts StreamingSwaps SwapMsgs Swapper.

(** ** Items of the queue *)

Record swapItem := mkSwapItem {
  item_index : Z;
  item_msg : MsgSwap;
  item_fee : Z;
  item_slip : Z;
}.

Abbreviation swapItems := (list swapItem) (only parsing).

(** The zero value of a slot that [make] creates. *)
Definition zero_item : swapItem :=
  mkSwapItem 0 (mkMsgSwap EmptyTx EmptyAsset NoAddress 0 NoAddress 0 EmptyString EmptyString
                  EmptyString None 0 0 0) 0 0.

Definition item_ID (i : swapItem) : TxID := Tx_ID (Msg_Tx (item_msg i)).

(** ** Sorting the queue *)

Record score := mkScore {
  score_msg : MsgSwap;
  score_score : Z;
  score_index : Z;
}.

Definition score_ID (s : score) : TxID := Tx_ID (Msg_Tx (score_msg s)).

(** Whether a score belongs to an item. *)
Definition scores_item (s : score) (item : swapItem) : bool :=
  TxID_Equals (score_ID s) (item_ID item) && (score_index s =? item_index item).

(** [for j, score := range scores { if ... { scores[j].score += i; break } }] *)
Fixpoint add_score (i : Z) (item : swapItem) (scores : list score) : list score :=
  match scores with
  | [] => []
  | s :: scores' =>
      if scores_item s item
      then mkScore (score_msg s) (score_score s + i) (score_index s) :: scores'
      else s :: add_score i item scores'
  end.

(** [for i, item := range bySlip { ... }], from position [i]. *)
Fixpoint add_slip_scores (i : Z) (bySlip : swapItems) (scores : list score) : list score :=
  match bySlip with
  | [] => scores
  | item :: bySlip' => add_slip_scores (i + 1) bySlip' (add_score i item scores)
  end.

(** [for i, item := range byFee { scores[i] = score{...} }], from position [i]. *)
Fixpoint fee_scores (i : Z) (byFee : swapItems) : list score :=
  match byFee with
  | [] => []
  | item :: byFee' => mkScore (item_msg item) i (item_index item) :: fee_scores (i + 1) byFee'
  end.

Definition by_fee (a b : swapItem) : bool := item_fee b <? item_fee a.
Definition by_slip (a b : swapItem) : bool := item_slip b <? item_slip a.

(** [byFee := items] and [bySlip := items] do not copy the slice: the three names
    share one array, which both sorts reorder in place, one after the other. So
    [byFee], [bySlip] and [items] all read what the second sort leaves. *)
Definition Sort (items : swapItems) : swapItems :=
  let items := stable_sort by_fee items in
  let items := stable_sort by_slip items in
  let scores := fee_scores 0 items in
  let scores := add_slip_scores 0 items scores in
  let scores := stable_sort (fun a b => str_ltb (TxID_String (score_ID a)) (TxID_String (score_ID b))) scores in
  let scores := stable_sort (fun a b => score_score a <? score_score b) scores in
  map (fun s => default zero_item
         (List.find (fun item => TxID_Equals (item_ID item) (score_ID s)
                                 && (score_index s =? item_index item)) items)) scores.

(** How many of [queueLen] swaps a block does. *)
Definition getTodoNum (queueLen minSwapsPerBlock maxSwapsPerBlock : Z) : Z :=
  let todo := Z.quot queueLen 2 in
  let todo := if queueLen <=? minSwapsPerBlock then queueLen else todo in
  if maxSwapsPerBlock <? todo then maxSwapsPerBlock else todo.

(** ** Scoring the queue *)

Section scoring.
Context `{V : Semver} `{B : CosmosBank} `{A : SdkAddress} `{R : MapRange}.
Context `{U : SdkUint} `{D : SdkDec}.
Implicit Types k : KVStore.

(** The fee, in CACAO, and the slip of one swap, added to the item. *)
Definition getLiquidityFeeAndSlip k (pool : Pool) (sourceCoin : Coin) (item : swapItem)
    (virtualDepthMult : Z) : outcome swapItem :=
  let x := Coin_Amount sourceCoin in
  let '(X, Y) := if IsBase (Coin_Asset sourceCoin) then (BalanceCacao pool, BalanceAsset pool)
                 else (BalanceAsset pool, BalanceCacao pool) in
  let X := GetUncappedShare (u64 virtualDepthMult) 10000 X in
  let Y := GetUncappedShare (u64 virtualDepthMult) 10000 Y in
  fee ← CalcLiquidityFee X x Y;
  let fee := if IsBase (Coin_Asset sourceCoin) then AssetValueInRune pool fee else fee in
  let slipFeeAddedBasisPoints := getSlipFeeAddedBasisPoints k in
  slip ← CalcSwapSlip X x slipFeeAddedBasisPoints;
  fee ← uint_add (item_fee item) fee;
  slip ← uint_add (item_slip item) slip;
  Ok (mkSwapItem (item_index item) (item_msg item) fee slip).

(** The pool the local map holds for an asset: none for CACAO, whose zero value
    is empty. *)
Definition queue_pool k (a : Asset) : Pool :=
  if IsBase a then NewPool else GetPool k (GetLayer1Asset a).

Definition pool_unusable (pool : Pool) : bool :=
  Pool_IsEmpty pool || (BalanceCacao pool =? 0) || (BalanceAsset pool =? 0).

(** One round of [scoreMsgs]. *)
Definition score_item k (synthVirtualDepthMult : Z) (item : swapItem) : outcome swapItem :=
  match Tx_Coins (Msg_Tx (item_msg item)) with
  | [] => Panic
  | coin :: _ =>
      let sourceAsset := Coin_Asset coin in
      let targetAsset := TargetAsset (item_msg item) in
      let nonBaseAsset := if IsBase sourceAsset then targetAsset else sourceAsset in
      let pool := queue_pool k nonBaseAsset in
      if pool_unusable pool then Ok item
      else if negb (IsAvailable pool) && negb (IsSyntheticAsset sourceAsset) then Ok item
      else
        let virtualDepthMult :=
          if IsSyntheticAsset nonBaseAsset then synthVirtualDepthMult else 10000 in
        item ← getLiquidityFeeAndSlip k pool coin item virtualDepthMult;
        if IsBase sourceAsset || IsBase targetAsset then Ok item
        else
          let runeCoin := NewCoin BaseAsset (AssetValueInRune pool (Coin_Amount coin)) in
          let pool := queue_pool k targetAsset in
          if pool_unusable pool || negb (IsAvailable pool) then Ok item
          else
            let virtualDepthMult :=
              if IsSyntheticAsset targetAsset then synthVirtualDepthMult else 10000 in
            getLiquidityFeeAndSlip k pool runeCoin item virtualDepthMult
  end.

Fixpoint scoreMsgs k (items : swapItems) (synthVirtualDepthMult : Z) : outcome swapItems :=
  match items with
  | [] => Ok []
  | item :: items' =>
      item' ← score_item k synthVirtualDepthMult item;
      items'' ← scoreMsgs k items' synthVirtualDepthMult;
      Ok (item' :: items'')
  end.

(** The swaps of a block, in order: [EndBlock] scores and sorts what it fetched
    and handles the first ones. *)
Definition swaps_to_do k (swaps : swapItems)
    (minSwapsPerBlock maxSwapsPerBlock synthVirtualDepthMult : Z) : outcome swapItems :=
  swaps ← scoreMsgs k swaps synthVirtualDepthMult;
  let swaps := Sort swaps in
  let todo := getTodoNum (Z.of_nat (length swaps)) minSwapsPerBlock maxSwapsPerBlock in
  Ok (take (Z.to_nat todo) swaps).
End scoring.

(** ** The order of the queue *)

(** What identifies an item: its transaction, up to case, and its index. *)
Definition item_key (i : swapItem) : string * Z := (ToUpper (item_ID i), item_index i).
Definition score_key (s : score) : string * Z := (ToUpper (score_ID s), score_index s).

Lemma scores_item_key s item : scores_item s item = true <-> score_key s = item_key item.
Proof.
  unfold scores_item, TxID_Equals, TxID_String, score_key, item_key.
  rewrite andb_true_iff, EqualFold_spec, Z.eqb_eq. split; [intros [-> ->]|intros [= -> ->]]; done.
Qed.

Lemma find_item_key s item :
  TxID_Equals (item_ID item) (score_ID s) && (score_index s =? item_index item) = scores_item s item.
Proof. unfold scores_item, TxID_Equals, TxID_String. by rewrite EqualFold_sym. Qed.

(** Every item scores its position twice. *)
Fixpoint final_scores (i : Z) (l : swapItems) : list score :=
  match l with
  | [] => []
  | item :: l' => mkScore (item_msg item) (i + i) (item_index item) :: final_scores (i + 1) l'
  end.

Lemma add_score_app i item F s S :
  Forall (fun s => score_key s <> item_key item) F -> score_key s = item_key item ->
  add_score i item (F ++ s :: S) =
    F ++ mkScore (score_msg s) (score_score s + i) (score_index s) :: S.
Proof.
  intros HF Hs. induction HF as [|t F Ht HF IH]; cbn.
  - by rewrite (proj2 (scores_item_key s item) Hs).
  - destruct (scores_item t item) eqn:E; [by apply scores_item_key in E|]. by rewrite IH.
Qed.

Lemma add_slip_scores_spec i l F :
  NoDup (map score_key F ++ map item_key l) ->
  add_slip_scores i l (F ++ fee_scores i l) = F ++ final_scores i l.
Proof.
  revert i F. induction l as [|item l IH]; intros i F Hd; [done|]. cbn.
  cbn in Hd. rewrite add_score_app; [|apply Forall_forall|done].
  - cbn. set (s := mkScore (item_msg item) (i + i) (item_index item)).
    rewrite (cons_middle s F), (cons_middle s F), !app_assoc. apply IH.
    rewrite map_app, <- app_assoc. exact Hd.
  - intros s Hs E. apply NoDup_app in Hd as (_ & Hd & _). apply (Hd (score_key s)).
    + by apply (list_elem_of_fmap_2 score_key).
    + rewrite E. apply list_elem_of_here.
Qed.

Lemma final_scores_lower i l : Forall (fun s => 2 * i <= score_score s) (final_scores i l).
Proof.
  revert i. induction l as [|item l IH]; intros i; constructor; cbn; [lia|].
  eapply Forall_impl; [apply IH|]. cbn. intros. lia.
Qed.

Lemma final_scores_sorted i l :
  StronglySorted (fun a b => (score_score b <? score_score a) = false) (final_scores i l).
Proof.
  revert i. induction l as [|item l IH]; intros i; constructor; [apply IH|].
  eapply Forall_impl; [apply final_scores_lower|]. cbn. intros s Hs. apply Z.ltb_ge. lia.
Qed.

Lemma final_scores_inj i l s t :
  s ∈ final_scores i l -> t ∈ final_scores i l -> score_score s = score_score t -> s = t.
Proof.
  revert i. induction l as [|item l IH]; intros i Hs Ht E; [by inversion Hs|].
  pose proof (final_scores_lower (i + 1) l) as Hlow. rewrite Forall_forall in Hlow.
  cbn in Hs, Ht. apply elem_of_cons in Hs as [->|Hs], Ht as [->|Ht]; cbn in *.
  - done.
  - apply Hlow in Ht. lia.
  - apply Hlow in Hs. lia.
  - by eapply IH.
Qed.

(** The sort by ID leaves no trace: all scores differ. *)
Lemma sort_scores i l (less : score -> score -> bool) :
  stable_sort (fun a b => score_score a <? score_score b) (stable_sort less (final_scores i l)) =
  final_scores i l.
Proof.
  set (S := stable_sort _ _).
  assert (HS : Permutation S (final_scores i l)) by (unfold S; by rewrite !stable_sort_perm).
  assert (Transitive (fun a b => (score_score b <? score_score a) = false)).
  { intros x y z. rewrite !Z.ltb_ge. lia. }
  apply (Sorted_unique_strong (fun a b => (score_score b <? score_score a) = false)).
  - intros x y Hx Hy Hxy%Z.ltb_ge Hyx%Z.ltb_ge. rewrite HS in Hx.
    apply (final_scores_inj i l); [done..|lia].
  - apply stable_sort_sorted. intros x y. rewrite Z.ltb_lt, Z.ltb_ge. lia.
  - apply StronglySorted_Sorted, final_scores_sorted.
  - done.
Qed.

Lemma find_item (all : swapItems) item s :
  NoDup (map item_key all) -> item ∈ all -> score_key s = item_key item ->
  List.find (fun it => TxID_Equals (item_ID it) (score_ID s) && (score_index s =? item_index it)) all
    = Some item.
Proof.
  intros Hd Hin Hs. induction all as [|it all IH]; [by inversion Hin|]. cbn.
  rewrite find_item_key. cbn in Hd. apply NoDup_cons in Hd as [Hni Hd].
  apply elem_of_cons in Hin as [->|Hin].
  - by rewrite (proj2 (scores_item_key s it) Hs).
  - destruct (scores_item s it) eqn:E; [|by apply IH].
    apply scores_item_key in E. destruct Hni. rewrite <- E, Hs.
    by apply (list_elem_of_fmap_2 item_key).
Qed.

Lemma map_find_scores (all l : swapItems) i :
  NoDup (map item_key all) -> (forall it, it ∈ l -> it ∈ all) ->
  map (fun s => default zero_item (List.find (fun it =>
    TxID_Equals (item_ID it) (score_ID s) && (score_index s =? item_index it)) all))
    (final_scores i l) = l.
Proof.
  intros Hd. revert i. induction l as [|it l IH]; intros i Hin; [done|]. cbn [final_scores map].
  rewrite (find_item all it) by (done || apply Hin, list_elem_of_here).
  cbn. f_equal. apply IH. intros. by apply Hin, list_elem_of_further.
Qed.

(** What the code does, without the scores. *)
Lemma Sort_slip_fee items :
  NoDup (map item_key items) -> Sort items = stable_sort by_slip (stable_sort by_fee items).
Proof.
  intros Hd. unfold Sort. set (l := stable_sort by_slip _).
  assert (Hl : NoDup (map item_key l)) by (unfold l; by rewrite !stable_sort_perm).
  pose proof (add_slip_scores_spec 0 l [] Hl) as Hs. cbn [app] in Hs. rewrite Hs.
  rewrite sort_scores. by apply map_find_scores.
Qed.

Lemma Sort_perm items : NoDup (map item_key items) -> Permutation (Sort items) items.
Proof. intros Hd. rewrite Sort_slip_fee by done. by rewrite !stable_sort_perm. Qed.

(** [a] goes before [b]: more slip, or as much slip and at least the fee. *)
Definition goes_before (a b : swapItem) : Prop :=
  item_slip b < item_slip a \/ item_slip b = item_slip a /\ item_fee b <= item_fee a.

Lemma Sort_sorted items : NoDup (map item_key items) -> StronglySorted goes_before (Sort items).
Proof.
  intros Hd. rewrite Sort_slip_fee by done.
  set (fees := fun a b => by_fee b a = false).
  assert (Hf : StronglySorted fees (stable_sort by_fee items)).
  { apply Sorted_StronglySorted.
    - intros x y z. unfold fees, by_fee. rewrite !Z.ltb_ge. lia.
    - apply stable_sort_sorted. intros x y. unfold by_fee. rewrite Z.ltb_lt, Z.ltb_ge. lia. }
  apply (stable_sort_lex by_slip) in Hf.
  - eapply StronglySorted_weaken; [|exact Hf]. unfold lex, fees, goes_before, by_slip, by_fee.
    intros a b [Hs Hfee]. rewrite !Z.ltb_ge in *. lia.
  - unfold by_slip. intros x y. rewrite Z.ltb_lt, Z.ltb_ge. lia.
  - unfold by_slip. intros x y z. rewrite !Z.ltb_ge. lia.
Qed.

(** C33: on items with distinct keys the queue is reordered, nothing lost, by slip
    first; the fee decides only between equal slips, and neither the sum of the
    two ranks nor the transaction id, which the code computes and sorts by,
    changes anything: both slices share an array, so both ranks are one. *)
Theorem Sort_spec items :
  NoDup (map item_key items) ->
  Sort items = stable_sort by_slip (stable_sort by_fee items) /\
  Permutation (Sort items) items /\ StronglySorted goes_before (Sort items).
Proof.
  intros Hd. split_and!; [by apply Sort_slip_fee|by apply Sort_perm|by apply Sort_sorted].
Qed.

(** ** The swaps of a block *)

Section queue_facts.
Context {V : Semver} {B : CosmosBank} {A : SdkAddress} {R : MapRange}.
Context {U : SdkUint} {D : SdkDec} {UL : SdkUintLaws U} {DL : SdkDecLaws D}.
Implicit Types k : KVStore.

Lemma CalcSwapSlip_total X x bps :
  0 <= X < 2 ^ 84 -> 0 <= x < 2 ^ 84 -> 0 <= bps <= 50 ->
  exists s, CalcSwapSlip X x bps = Ok s /\ 0 <= s <= 10050.
Proof.
  intros HX Hx Hb. assert (Hprec : 0 < prec < 2 ^ 60) by done.
  assert (Hlim : dec_limit = 2 ^ 315) by done. unfold CalcSwapSlip. cbv zeta.
  rewrite !dec_of_big_law, dec_of_int_law.
  assert (Hxp : 0 <= x * prec < 2 ^ (84 + 60)) by (apply mul_fits; lia).
  assert (HXp : 0 <= X * prec < 2 ^ (84 + 60)) by (apply mul_fits; lia).
  rewrite dec_add_total by lia. cbn [mbind outcome_bind].
  destruct (Z.eqb_spec (x * prec + X * prec) 0) as [|Hden]; [exists 0; split; [done|lia]|].
  set (den := x * prec + X * prec) in *. assert (Hd : 0 < den) by lia.
  assert (Hle : x * prec * prec <= prec * den).
  { rewrite (Z.mul_comm prec den). apply Z.mul_le_mono_nonneg_r; lia. }
  assert (Hqb : x * prec * prec / den <= prec) by (apply Z.div_le_upper_bound; lia).
  destruct (dec_quo_total (x * prec) den) as [q Hq]; [lia|lia|lia|].
  pose proof (dec_quo_rounds (x * prec) den q ltac:(lia) Hd Hq) as Rq. rewrite Hq. cbn [mbind outcome_bind].
  assert (Hq1 : q <= prec) by (eapply rounds_to_le; [| |exact Rq]; lia).
  assert (Hq0 : 0 <= q) by (eapply rounds_to_nonneg; [| |exact Rq]; lia).
  assert (Hmul : q * (10000 * prec) = q * 10000 * prec) by ring.
  destruct (dec_mul_total q (10000 * prec)) as [r Hr]; [lia|lia| |].
  { rewrite Hmul, Z.div_mul by lia. lia. }
  pose proof (dec_mul_rounds q (10000 * prec) r Hq0 ltac:(lia) Hr) as Rr.
  assert (r = q * 10000) as -> by (eapply rounds_to_exact; [| |exact Rr]; lia).
  rewrite Hr. cbn [mbind outcome_bind].
  assert (Hrb : q * 10000 / prec <= 10000) by (apply Z.div_le_upper_bound; lia).
  destruct (dec_round_int64_total (q * 10000)) as [c Hc]; [lia|lia|].
  pose proof (dec_round_int64_rounds (q * 10000) c ltac:(lia) Hc) as Rc. rewrite Hc. cbn [mbind outcome_bind].
  assert (c <= 10000) by (eapply rounds_to_le; [| |exact Rc]; lia).
  assert (0 <= c) by (eapply rounds_to_nonneg; [| |exact Rc]; lia).
  rewrite u64_id, uint_add_law, checked_in by (unfold is_u64, is_uint; lia).
  exists (c + bps). split; [done|lia].
Qed.

Lemma getSlipFeeAddedBasisPoints_range k : 0 <= getSlipFeeAddedBasisPoints k <= 50.
Proof.
  unfold getSlipFeeAddedBasisPoints. cbv zeta.
  destruct (Z.ltb_spec (GetConfigInt64 k "SlipFeeAddedBasisPoints") 0); [cbn; lia|].
  destruct (Z.ltb_spec 50 (GetConfigInt64 k "SlipFeeAddedBasisPoints")); [cbn; lia|].
  cbn [orb]. rewrite u64_id; unfold is_u64; lia.
Qed.

(** Pools of depths below 2^84. *)
Definition pools_bounded k : Prop := forall a p, kv_pools k !! a = Some p ->
  0 <= BalanceCacao p < 2 ^ 84 /\ 0 <= BalanceAsset p < 2 ^ 84.

Definition pool_bounded (p : Pool) : Prop :=
  0 <= BalanceCacao p < 2 ^ 84 /\ 0 <= BalanceAsset p < 2 ^ 84.

Lemma queue_pool_bounded k a : pools_bounded k -> pool_bounded (queue_pool k a).
Proof.
  intros Hp. unfold queue_pool, GetPool. destruct (IsBase a); [by split|].
  destruct (kv_pools k !! _) eqn:E; [by eapply Hp|by split].
Qed.

(** The value of an amount fits, even when the price rounds badly. *)
Lemma AssetValueInRune_range p f :
  pool_bounded p -> 0 <= f < 2 ^ 84 -> 0 <= AssetValueInRune p f < 2 ^ 144.
Proof.
  intros [Hc Ha] Hf. unfold AssetValueInRune. destruct (_ || _); [by split|].
  assert (Hprec : 0 < prec < 2 ^ 60) by done.
  destruct (GetUncappedShare_inv (BalanceCacao p) (BalanceAsset p) f)
    as [->|(ratio & r & _ & _ & Hr & _ & H2 & H3)]; [lia..|by split|].
  split; [apply GetUncappedShare_nonneg; lia|].
  assert (Hfp : 0 <= f * prec < 2 ^ (84 + 60)) by (apply mul_fits; lia).
  apply (Z.le_lt_trans _ (f * prec)); [|lia].
  eapply rounds_to_le; [| |exact H3]; [lia|].
  eapply rounds_to_le; [| |exact H2]; [lia|].
  assert (0 <= f * prec * prec) by (apply Z.mul_nonneg_nonneg; lia).
  rewrite <- (Z.mul_1_r (f * prec * prec)) at 1. apply Z.mul_le_mono_nonneg_l; lia.
Qed.

(** One more swap adds at most 10050 to the slip and a 256-bit amount to the fee. *)
Lemma getLiquidityFeeAndSlip_total k p coin item mult :
  pool_bounded p -> 0 <= Coin_Amount coin < 2 ^ 84 -> 0 <= mult <= 10000 ->
  0 <= item_slip item < 2 ^ 64 -> 0 <= item_fee item < 2 ^ 200 ->
  exists item', getLiquidityFeeAndSlip k p coin item mult = Ok item' /\
    item_msg item' = item_msg item /\ item_index item' = item_index item /\
    item_slip item <= item_slip item' <= item_slip item + 10050 /\
    item_fee item <= item_fee item' < item_fee item + 2 ^ 144.
Proof.
  intros Hp Hamt Hm Hs Hf. destruct (Hp) as [Hc Ha]. unfold getLiquidityFeeAndSlip. cbv zeta.
  rewrite u64_id by (unfold is_u64; lia).
  destruct (if IsBase _ then _ else _) as [X0 Y0] eqn:EXY.
  assert (HXY : 0 <= X0 < 2 ^ 84 /\ 0 <= Y0 < 2 ^ 84)
    by (destruct (IsBase _); injection EXY as <- <-; done).
  destruct HXY as [HX0 HY0].
  assert (Hdepth : forall a, 0 <= a < 2 ^ 84 -> 0 <= GetUncappedShare mult 10000 a < 2 ^ 84).
  { intros a Hab. pose proof (GetUncappedShare_le mult 10000 a ltac:(lia) ltac:(lia)).
    pose proof (GetUncappedShare_nonneg mult 10000 a ltac:(lia) ltac:(lia) ltac:(lia)). lia. }
  apply Hdepth in HX0, HY0. set (X := GetUncappedShare mult 10000 X0) in *.
  set (Y := GetUncappedShare mult 10000 Y0) in *. set (x := Coin_Amount coin) in *.
  assert (Hfee : exists f, CalcLiquidityFee X x Y = Ok f /\ 0 <= f < 2 ^ 84).
  { destruct (Z.eq_dec (X + x) 0) as [E|E].
    - assert (X = 0) as -> by lia. assert (x = 0) as -> by lia.
      exists 0. unfold CalcLiquidityFee.
      split; [|done].
      repeat (rewrite ?uint_mul_law, ?uint_add_law, ?checked_in by done; cbn [mbind outcome_bind]).
      done.
    - destruct (formulas_return X x Y) as (e & f & _ & Hff); [lia..|].
      exists f. split; [done|]. apply CalcLiquidityFee_Ok in Hff as (? & Hff & _); [|lia..].
      split; [done|]. apply (Z.le_lt_trans _ Y); [|lia].
      apply (Z.mul_le_mono_pos_r _ _ ((x + X) * (x + X))); [nia|].
      transitivity (x * x * Y); [done|]. rewrite (Z.mul_comm Y).
      apply Z.mul_le_mono_nonneg_r; nia. }
  destruct Hfee as (f & -> & Hff). cbn [mbind outcome_bind].
  assert (Hfv : 0 <= (if IsBase (Coin_Asset coin) then AssetValueInRune p f else f) < 2 ^ 144).
  { destruct (IsBase _); [by apply AssetValueInRune_range|lia]. }
  set (fv := if IsBase _ then _ else _) in *.
  destruct (CalcSwapSlip_total X x (getSlipFeeAddedBasisPoints k)) as (s & -> & Hsr);
    [done|done|apply getSlipFeeAddedBasisPoints_range|].
  cbn [mbind outcome_bind]. rewrite !uint_add_law, !checked_in by (unfold is_uint; lia).
  cbn [mbind outcome_bind]. eexists. split; [reflexivity|]. cbn. split_and!; (done || lia).
Qed.
(** A message in the queue: it has a coin, and its value in CACAO, which the
    second leg of a double swap trades, is in range as well. *)
Definition item_ok k (item : swapItem) : Prop :=
  item_fee item = 0 /\ item_slip item = 0 /\
  exists coin coins, Tx_Coins (Msg_Tx (item_msg item)) = coin :: coins /\
    0 <= Coin_Amount coin < 2 ^ 84 /\
    forall a p, kv_pools k !! a = Some p -> AssetValueInRune p (Coin_Amount coin) < 2 ^ 84.

(** Scoring changes the fee and the slip only. *)
Definition scored (item item' : swapItem) : Prop :=
  item_msg item' = item_msg item /\ item_index item' = item_index item /\
  0 <= item_slip item' <= 20100 /\ 0 <= item_fee item'.

Lemma score_item_total k mult item :
  pools_bounded k -> 0 <= mult <= 10000 -> item_ok k item ->
  exists item', score_item k mult item = Ok item' /\ scored item item'.
Proof.
  intros Hp Hm (Hf & Hs & coin & coins & Hc & Hamt & Hval). unfold score_item. rewrite Hc.
  cbv zeta. assert (Hself : scored item item) by (unfold scored; split_and!; congruence || lia).
  set (a := if IsBase (Coin_Asset coin) then _ else _).
  pose proof (queue_pool_bounded k a Hp) as Hqp.
  destruct (pool_unusable (queue_pool k a)) eqn:Eu; [by exists item|].
  destruct (_ && _); [by exists item|].
  set (m1 := if IsSyntheticAsset a then mult else 10000).
  assert (Hm1 : 0 <= m1 <= 10000) by (unfold m1; destruct (IsSyntheticAsset a); lia).
  destruct (getLiquidityFeeAndSlip_total k (queue_pool k a) coin item m1)
    as (i1 & -> & Hmsg & Hidx & Hsl & Hfe); [done|done|done|lia|lia|].
  cbn [mbind outcome_bind]. assert (Hi1 : scored item i1) by (unfold scored; split_and!; congruence || lia).
  destruct (_ || _); [by exists i1|]. destruct (_ || _); [by exists i1|].
  set (m2 := if IsSyntheticAsset (TargetAsset (item_msg item)) then mult else 10000).
  assert (Hm2 : 0 <= m2 <= 10000) by (unfold m2; destruct (IsSyntheticAsset (TargetAsset (item_msg item))); lia).
  set (v := AssetValueInRune (queue_pool k a) (Coin_Amount coin)) in *.
  assert (Hv : 0 <= v < 2 ^ 84).
  { pose proof (AssetValueInRune_range _ _ Hqp Hamt) as Hr. fold v in Hr.
    split; [lia|]. unfold v, queue_pool, GetPool. destruct (IsBase a); [done|].
    destruct (kv_pools k !! _) eqn:E; [by eapply Hval|done]. }
  pose proof (queue_pool_bounded k (TargetAsset (item_msg item)) Hp) as Hqp2.
  destruct (getLiquidityFeeAndSlip_total k (queue_pool k (TargetAsset (item_msg item)))
              (NewCoin BaseAsset v) i1 m2)
    as (i2 & -> & Hmsg2 & Hidx2 & Hsl2 & Hfe2); [done|done|done|lia|lia|].
  exists i2. split; [done|]. unfold scored. split_and!; congruence || lia.
Qed.

Lemma scoreMsgs_total k items mult :
  pools_bounded k -> 0 <= mult <= 10000 -> Forall (item_ok k) items ->
  exists items', scoreMsgs k items mult = Ok items' /\ Forall2 scored items items'.
Proof.
  intros Hp Hm. induction 1 as [|item items Hi _ (items' & IH & Hs)]; cbn; [by exists []|].
  destruct (score_item_total k mult item Hp Hm Hi) as (i' & -> & Hi').
  cbn [mbind outcome_bind]. rewrite IH. cbn. exists (i' :: items'). by split; [|constructor].
Qed.

Lemma scored_keys items items' :
  Forall2 scored items items' -> map item_key items' = map item_key items.
Proof.
  induction 1 as [|i i' l l' (Hm & Hi & _) _ IH]; cbn; [done|].
  rewrite IH. unfold item_key, item_ID. by rewrite Hm, Hi.
Qed.

Lemma getTodoNum_range n min max :
  1 <= n -> 1 <= min -> 1 <= max ->
  1 <= getTodoNum n min max <= n /\ getTodoNum n min max <= max /\
  (n <= min -> n <= max -> getTodoNum n min max = n) /\
  (getTodoNum n min max = max \/ n <= 2 * getTodoNum n min max + 1).
Proof.
  intros Hn Hmin Hmax. unfold getTodoNum. cbv zeta.
  pose proof (quot_nonneg_bounds n 2 ltac:(lia) ltac:(lia)).
  pose proof (quot_nonneg n 2 ltac:(lia) ltac:(lia)).
  destruct (Z.leb_spec n min).
  - destruct (Z.ltb_spec max n); lia.
  - destruct (Z.ltb_spec max (Z.quot n 2)); lia.
Qed.

Lemma swaps_to_do_total k swaps min max mult :
  pools_bounded k -> 0 <= mult <= 10000 -> Forall (item_ok k) swaps -> NoDup (map item_key swaps) ->
  exists queue, scoreMsgs k swaps mult = Ok queue /\ Forall2 scored swaps queue /\
    Permutation (Sort queue) queue /\ StronglySorted goes_before (Sort queue) /\
    swaps_to_do k swaps min max mult =
      Ok (take (Z.to_nat (getTodoNum (Z.of_nat (length swaps)) min max)) (Sort queue)).
Proof.
  intros Hp Hm Hok Hd. destruct (scoreMsgs_total k swaps mult Hp Hm Hok) as (queue & Hq & Hs).
  assert (Hdq : NoDup (map item_key queue)) by (by rewrite (scored_keys swaps queue)).
  exists queue. pose proof (Sort_perm queue Hdq) as Hperm. pose proof (Sort_sorted queue Hdq).
  split_and!; try done. unfold swaps_to_do. rewrite Hq. cbn [mbind outcome_bind].
  by rewrite (Permutation_length Hperm), <- (Forall2_length _ _ _ Hs).
Qed.

(** On pools and amounts below 2^84 a block scores its queue without a panic
    and does the first swaps of the sorted queue: at least one, all of them when
    both bounds allow it, otherwise the upper bound or half of the queue. Those
    left for later have no more slip than any that is done, and no swap is lost or
    done twice. *)
Theorem swaps_to_do_spec k swaps min max mult :
  pools_bounded k -> 0 <= mult <= 10000 -> Forall (item_ok k) swaps ->
  NoDup (map item_key swaps) -> swaps <> [] -> 1 <= min -> 1 <= max ->
  exists queue todo later, scoreMsgs k swaps mult = Ok queue /\ Forall2 scored swaps queue /\
    swaps_to_do k swaps min max mult = Ok todo /\ Permutation (todo ++ later) queue /\
    Forall (fun a => Forall (fun b => goes_before a b) later) todo /\
    1 <= Z.of_nat (length todo) <= max /\
    (Z.of_nat (length swaps) <= min -> Z.of_nat (length swaps) <= max -> later = []) /\
    (Z.of_nat (length todo) = max \/ Z.of_nat (length later) <= Z.of_nat (length todo) + 1).
Proof.
  intros Hp Hm Hok Hd Hne Hmin Hmax.
  destruct (swaps_to_do_total k swaps min max mult Hp Hm Hok Hd)
    as (queue & Hq & Hs & Hperm & Hsort & Hdo).
  pose proof (Permutation_length Hperm) as Hlen. rewrite <- (Forall2_length _ _ _ Hs) in Hlen.
  assert (Hn : 1 <= Z.of_nat (length swaps)) by (destruct swaps; [done|cbn; lia]).
  pose proof (getTodoNum_range _ _ _ Hn Hmin Hmax) as Hnum.
  set (n := getTodoNum (Z.of_nat (length swaps)) min max) in *.
  exists queue, (take (Z.to_nat n) (Sort queue)), (drop (Z.to_nat n) (Sort queue)).
  rewrite length_take, length_drop, Hlen, take_drop. split_and!; try done; try lia.
  - apply Forall_forall. intros a Ha. apply Forall_forall. intros b Hb.
    rewrite <- (take_drop (Z.to_nat n) (Sort queue)) in Hsort.
    apply StronglySorted_app in Hsort as (Hab & _). by apply Hab.
  - intros Hle1 Hle2. apply drop_ge. lia.
Qed.
End queue_facts.

(** ** Witnesses *)

Section queue_witnesses.
Import Reference ReferenceBank ReferenceRange.

Definition queue_msg (id : TxID) (coin : Coin) (target : Asset) : MsgSwap :=
  mkMsgSwap (mkTx id BASEChain "alice" "asgard" [coin] [] EmptyString) target "bob" 0 NoAddress 0
    "signer" EmptyString EmptyString None OrderType_market 0 0.

Definition queue_item (id : TxID) (amt fee slip : Z) : swapItem :=
  mkSwapItem 0 (queue_msg id (NewCoin BaseAsset amt) BTCAsset) fee slip.

Definition queue_example : swapItems :=
  [queue_item "A1" 1 0 30; queue_item "B2" 1 100 20; queue_item "C3" 1 90 10].

(** By the sum of its ranks "B2" would be first: it has the highest fee and the
    second slip, "A1" the highest slip and the lowest fee. *)
Example Sort_ignores_fee : map item_ID (Sort queue_example) = ["A1"; "B2"; "C3"].
Proof. by vm_compute. Qed.

Lemma Sort_spec_witness :
  map item_ID (Sort (rev queue_example)) = ["A1"; "B2"; "C3"] /\
  Sort (rev queue_example) = stable_sort by_slip (stable_sort by_fee (rev queue_example)) /\
  Permutation (Sort (rev queue_example)) (rev queue_example) /\
  StronglySorted goes_before (Sort (rev queue_example)).
Proof.
  split; [by vm_compute|]. apply (Sort_spec (rev queue_example)).
  apply (bool_decide_unpack _). by vm_compute.
Defined.

Definition queue_swaps : swapItems :=
  [queue_item "A1" 1000 0 0; queue_item "B2" 3000 0 0; queue_item "C3" 2000 0 0].

Lemma swap_example_bounded : pools_bounded swap_example.
Proof.
  intros a p. cbn [kv_pools set_kv_pools swap_example].
  intros [[<- <-]|[_ [=]]]%lookup_insert_Some. by repeat split.
Qed.

Lemma queue_swaps_ok : Forall (item_ok swap_example) queue_swaps.
Proof.
  repeat constructor; cbn [item_msg queue_item Msg_Tx queue_msg Tx_Coins]; eexists _, _;
    (split; [reflexivity|]); (split; [done|]); intros a p; cbn [kv_pools set_kv_pools swap_example];
    (intros [[<- <-]|[_ [=]]]%lookup_insert_Some); by vm_compute.
Qed.

Lemma swaps_to_do_spec_witness :
  swaps_to_do swap_example queue_swaps 1 100 10000 = Ok [mkSwapItem 0 (item_msg (queue_item "B2" 3000 0 0)) 0 7] /\
  exists queue todo later, scoreMsgs swap_example queue_swaps 10000 = Ok queue /\
    Forall2 scored queue_swaps queue /\
    swaps_to_do swap_example queue_swaps 1 100 10000 = Ok todo /\
    Permutation (todo ++ later) queue /\
    Forall (fun a => Forall (fun b => goes_before a b) later) todo /\
    1 <= Z.of_nat (length todo) <= 100 /\
    (Z.of_nat 3 <= 1 -> Z.of_nat 3 <= 100 -> later = []) /\
    (Z.of_nat (length todo) = 100 \/ Z.of_nat (length later) <= Z.of_nat (length todo) + 1).
Proof.
  split; [by vm_compute|].
  apply (swaps_to_do_spec swap_example queue_swaps 1 100 10000); try (done || lia).
  - apply swap_example_bounded.
  - apply queue_swaps_ok.
  - apply (bool_decide_unpack _). by vm_compute.
Defined.
End queue_witnesses.
