(* ===== verification/SwapBlocks.v ===== *)
(** [FetchQueue] and [EndBlock] of
    [x/mayachain/manager_swap_queue_current.go]: a block of swaps, from the queue
    in the store to the store that is left. The handler of a swap, the refunds and
    the outbound transactions are operations of other components. *)
From stdpp Require Import pretty.
From S2P Require Import Prelude GoText Sdk Shares Chains Keys Addresses Assets Coins Txs.
From S2P Require Import NodeAccounts Votes TxOuts ObservedTxs Mimirs Pools StreamingSwaps SwapMsgs.
From S2P Require Import Records MayaNames Stores Keeper Halts Gas TradeAccounts Swapper Affiliates Decimals.
From S2P Require Import Memos Collectors SwapQueue.

(** What a block of swaps asks of other components. [swap_handle] is the handler
    of a swap in its cached context: the amount of the first coin afterwards,
    which it may overwrite, and the new store or an error. The other operations
    log their errors: they return the store as they leave it. *)
Class SwapActions `{V : Semver} `{B : CosmosBank} := {
  swap_handle : KVStore -> MsgSwap -> outcome (Z * (KVStore + string));
  refundTx : KVStore -> ObservedTx -> string -> outcome KVStore;
  send_outbound : KVStore -> TxOutItem -> outcome KVStore;
  FetchDexAggregator : Version -> Chain -> string -> outcome string;
}.

Section swap_blocks.
Context `{V : Semver} `{B : CosmosBank} `{A : SdkAddress} `{R : MapRange} `{L : AddressLib}.
Context `{U : SdkUint} `{D : SdkDec} `{T : UintText} {SA : SwapActions}.
Implicit Types k : KVStore.

(** ** The queue *)

Definition queue_key (entry : (string * Z) * MsgSwap) : string :=
  fst (fst entry) +:+ String "-" (print_int (snd (fst entry))).

(** The order in which the store iterates over the queue: by key. *)
Definition GetSwapQueueIterator k : list ((string * Z) * MsgSwap) :=
  stable_sort (fun a b => str_ltb (queue_key a) (queue_key b)) (map_to_list (kv_swap_items k)).

(** Whether a streaming swap has to wait for a later block. *)
Definition streaming_waits k (msg : MsgSwap) : outcome bool :=
  if 0 <? GetConfigInt64 k "StreamingSwapPause" then Ok true
  else
    swp ← GetStreamingSwap msg;
    let swp := if StreamingSwapExists k (Tx_ID (Msg_Tx msg))
               then k_GetStreamingSwap k (Tx_ID (Msg_Tx msg)) else swp in
    if 0 <? LastHeight swp then
      if kv_height k <=? LastHeight swp then Ok true
      else if i64 (Interval swp) =? 0 then Panic
      else if negb (Z.rem (kv_height k - LastHeight swp) (i64 (Interval swp)) =? 0) then Ok true
      else Ok (isTradingHalt k (Halt_MsgSwap msg))
    else Ok false.

Fixpoint fetch_items k (entries : list ((string * Z) * MsgSwap)) : outcome swapItems :=
  match entries with
  | [] => Ok []
  | entry :: entries' =>
      let msg := snd entry in
      match ParseInt (List.last (Split "-" (queue_key entry)) EmptyString) with
      | None => fetch_items k entries'
      | Some i =>
          waits ← (if IsStreaming msg then streaming_waits k msg else Ok false);
          items ← fetch_items k entries';
          Ok (if (waits : bool) then items else mkSwapItem i msg 0 0 :: items)
      end
  end.

Definition FetchQueue k : outcome swapItems := fetch_items k (GetSwapQueueIterator k).

(** ** One swap of a block *)

Definition set_first_amount (msg : MsgSwap) (amount : Z) : MsgSwap :=
  match Tx_Coins (Msg_Tx msg) with
  | [] => msg
  | c :: cs =>
      mkMsgSwap (set_Coins (Msg_Tx msg) (mkCoin (Coin_Asset c) amount (Coin_Decimals c) :: cs))
        (TargetAsset msg) (Destination msg) (Msg_TradeTarget msg) (AffiliateAddress msg)
        (AffiliateBasisPoints msg) (Signer msg) (Aggregator msg) (AggregatorTargetAddress msg)
        (AggregatorTargetLimit msg) (Msg_OrderType msg) (SwapMsgs.StreamQuantity msg)
        (SwapMsgs.StreamInterval msg)
  end.

Definition first_amount (msg : MsgSwap) : outcome Z :=
  match Tx_Coins (Msg_Tx msg) with [] => Panic | c :: _ => Ok (Coin_Amount c) end.

(** The collector gets its CACAO back in the books before the coins are moved; an
    error after that is logged only. *)
Definition cleanupFailedPreferredAssetSwap k (memo : string) (cacaoAmt : Z)
  : outcome (KVStore * option string) :=
  let prefix := PreferredAssetSwapMemoPrefix +:+ "-" in
  if negb (HasPrefix memo prefix) then Ok (k, Some "failed to get mayaname from memo: %s"%string)
  else
    let name := String.substring (String.length prefix) (String.length memo) memo in
    match GetMAYAName k name with
    | Panic => Panic
    | Err _ => Ok (k, Some "failed to get mayaname: %w"%string)
    | Ok tn =>
        let affCol := GetAffiliateCollector k (MN_Owner tn) in
        total ← uint_add (CacaoAmount affCol) cacaoAmt;
        let k := SetAffiliateCollector k (mkAffiliateFeeCollector (OwnerAddress affCol) total) in
        match SendFromModuleToModule k AsgardName AffiliateCollectorName
                [NewCoin BaseAsset cacaoAmt] with
        | Panic => Panic
        | Err _ => Ok (k, Some "failed to send cacao back to affiliate collector: %w"%string)
        | Ok k => Ok (k, None)
        end
    end.

Definition is_preferred_asset_swap k (msg : MsgSwap) : bool :=
  HasPrefix (Tx_Memo (Msg_Tx msg)) PreferredAssetSwapMemoPrefix
  && Address_Equals (FromAddress (Msg_Tx msg))
       (match GetModuleAddress k AffiliateCollectorName with Ok a => a | _ => NoAddress end).

(** What follows a failed swap, before its refund: the message, with the deposit
    of a streaming swap that never swapped, and whether it is refunded. *)
Definition failed_swap k (msg : MsgSwap) (index : Z) (swp : StreamingSwap)
  : outcome (KVStore * MsgSwap * bool) :=
  let id := Tx_ID (Msg_Tx msg) in
  if IsStreaming msg then
    let swp := if StreamingSwapExists k id then k_GetStreamingSwap k id else swp in
    if (In swp =? 0) && (Out swp =? 0) then
      let k := RemoveStreamingSwap k id in
      Ok (RemoveSwapQueueItem k id index, set_first_amount msg (Deposit swp), true)
    else Ok (k, msg, false)
  else if is_preferred_asset_swap k msg then
    amount ← first_amount msg;
    r ← cleanupFailedPreferredAssetSwap k (Tx_Memo (Msg_Tx msg)) amount;
    Ok (fst (r : KVStore * option string), msg, false)
  else Ok (k, msg, true).

(** The transaction to refund, with the vault that observed it if it is known. *)
Definition refund_observation k (msg : MsgSwap) : ObservedTx :=
  let voter := GetObservedTxInVoter k (Tx_ID (Msg_Tx msg)) in
  let pk := if negb (ObservedTx_IsEmpty (Voter_Tx voter)) then ObservedPubKey (Voter_Tx voter)
            else EmptyPubKey in
  mkObservedTx (Msg_Tx msg) Status_incomplete [] 0 [] pk 0 0 EmptyString EmptyString None.

(** The output of a streaming swap that is done. *)
Definition streaming_outbound k (msg : MsgSwap) (swp : StreamingSwap)
  : outcome (KVStore + string) :=
  let chain := GetChain (TargetAsset msg) in
  match (if (0 <? str_len (Aggregator msg)) then
           FetchDexAggregator (kv_version k) chain (Aggregator msg)
         else Ok EmptyString) with
  | Panic => Panic
  | Err e => Ok (inr e)
  | Ok dexAgg =>
      k ← send_outbound k
            (mkTxOutItem chain (Destination msg) EmptyPubKey (NewCoin (TargetAsset msg) (Out swp))
               EmptyString [] 0 (Tx_ID (Msg_Tx msg)) EmptyString EmptyString dexAgg
               (AggregatorTargetAddress msg) (AggregatorTargetLimit msg) EmptyPubKey);
      Ok (inl k)
  end.

(** What is left of the deposit goes back. [handleErr.Error()] is taken of the
    error of the last attempt, a nil pointer when that succeeded. *)
Definition streaming_remainder k (msg : MsgSwap) (swp : StreamingSwap) (handleErr : option string)
  : outcome KVStore :=
  if In swp <? Deposit swp then
    remainder ← SafeSub (Deposit swp) (In swp);
    match Tx_Coins (Msg_Tx msg), handleErr with
    | c :: _, Some e =>
        let tx := set_Coins (Msg_Tx msg) [NewCoin (Coin_Asset c) remainder] in
        refundTx k (mkObservedTx tx Status_incomplete [] 0 [] EmptyPubKey 0 0 EmptyString
                      EmptyString None) e
    | _, _ => Panic
    end
  else Ok k.

(** A streaming swap that is done leaves the queue; it ends the block when its
    memo or its aggregator is not found any more. *)
Definition streaming_done k (msg : MsgSwap) (index : Z) (swp : StreamingSwap)
    (handleErr : option string) : outcome (KVStore * option string) :=
  let id := Tx_ID (Msg_Tx msg) in
  let k := RemoveSwapQueueItem k id index in
  let k := RemoveStreamingSwap k id in
  let '(memo, errs) := ParseMemoWithMAYANames k (Tx_Memo (Msg_Tx msg)) in
  match errs with
  | e :: _ => Ok (k, Some e)
  | [] =>
      let isSaversAdd := bool_decide (GetType memo = TxAdd) in
      r ← (if negb (Out swp =? 0) && negb isSaversAdd then streaming_outbound k msg swp
           else Ok (inl k));
      match (r : KVStore + string) with
      | inr e => Ok (k, Some e)
      | inl k =>
          k ← streaming_remainder k msg swp handleErr;
          Ok (k, None)
      end
  end.

Definition streaming_recorded k (msg : MsgSwap) (index : Z) (handleErr : option string)
    (triggerRefund : bool) : outcome (KVStore * option string) :=
  let swp := k_GetStreamingSwap k (Tx_ID (Msg_Tx msg)) in
  let swp := record_attempt swp (match handleErr with Some e => inr e | None => inl 0 end)
               (kv_height k) in
  let k := if triggerRefund then k else SetStreamingSwap k swp in
  if is_ok (StreamingSwap_Valid swp) && StreamingSwap_IsDone swp
  then streaming_done k msg index swp handleErr
  else Ok (k, None).

(** The store after a swap, with the error that ends the block, if any. *)
Definition do_swap k (pick : swapItem) : outcome (KVStore * option string) :=
  swp ← GetStreamingSwap (item_msg pick);
  r ← swap_handle k (item_msg pick);
  let '(amount, res) := (r : Z * (KVStore + string)) in
  let msg := set_first_amount (item_msg pick) amount in
  let index := item_index pick in
  s ← (match res with
       | inl k => Ok (k, msg, false)
       | inr _ => failed_swap k msg index swp
       end);
  let '(k, msg, triggerRefund) := (s : KVStore * MsgSwap * bool) in
  let handleErr := match res with inl _ => None | inr e => Some e end in
  k ← (match handleErr with
       | Some e => if triggerRefund then refundTx k (refund_observation k msg) e else Ok k
       | None => Ok k
       end);
  if IsStreaming msg then streaming_recorded k msg index handleErr triggerRefund
  else Ok (RemoveSwapQueueItem k (Tx_ID (Msg_Tx msg)) index, None).

Fixpoint do_swaps k (picks : swapItems) : outcome (KVStore * option string) :=
  match picks with
  | [] => Ok (k, None)
  | pick :: picks' =>
      r ← do_swap k pick;
      match (r : KVStore * option string) with
      | (k, Some e) => Ok (k, Some e)
      | (k, None) => do_swaps k picks'
      end
  end.

(** ** A block *)

Definition queue_parameter k (least : Z) (name : string) : Z :=
  let m := GetMimir k name in if m <? least then kv_constants k name else m.

Definition minSwaps k : Z := queue_parameter k 0 "MinSwapsPerBlock".
Definition maxSwaps k : Z := queue_parameter k 0 "MaxSwapsPerBlock".
Definition synthDepth k : Z := queue_parameter k 1 "VirtualMultSynthsBasisPoints".

Definition SwapQueue_EndBlock k : outcome (KVStore * option string) :=
  swaps ← FetchQueue k;
  picks ← swaps_to_do k swaps (minSwaps k) (maxSwaps k) (synthDepth k);
  do_swaps k picks.

(** Blocks of swaps one after the other; [others n] is what the rest of the chain
    does before the [n]th. *)
Fixpoint run_blocks (others : nat -> KVStore -> KVStore) (n : nat) k : outcome KVStore :=
  match n with
  | O => Ok k
  | S n' =>
      r ← SwapQueue_EndBlock (others n k);
      run_blocks others n' (fst (r : KVStore * option string))
  end.
End swap_blocks.

(** ** Keys of the queue *)

Lemma split_at_more sep s x h t : split_at sep s = (h, Some t) ->
  split_at sep (s +:+ x) = (h, Some (t +:+ x)) /\ (String.length t < String.length s)%nat.
Proof.
  revert h. induction s as [|c s IH]; intros h; [done|]. rewrite str_app_cons. cbn.
  destruct (Ascii.eqb c sep); [intros [= <- <-]; split; [done|lia]|].
  destruct (split_at sep s) as [h' [t'|]] eqn:E; [|done]. intros [= <- ->].
  destruct (IH h' eq_refl) as [-> Hl]. split; [done|lia].
Qed.

Lemma last_part sep a b : str_forallb (fun c => negb (Ascii.eqb c sep)) b = true ->
  List.last (Split sep (a +:+ String sep b)) EmptyString = b.
Proof.
  intros Hb. unfold Split. assert (Hn : (String.length a < String.length (a +:+ String sep b))%nat).
  { rewrite str_app_length. cbn. lia. }
  revert Hn. generalize (String.length (a +:+ String sep b)). intros n. revert a.
  induction n as [|n IH]; intros a Hn; [lia|]. cbn [split_all_fuel].
  assert (Hne : forall m s, split_all_fuel m sep s <> []).
  { intros [|m] s; cbn; [done|]. by destruct (split_at sep s) as [? []]. }
  destruct (split_at sep a) as [h [t|]] eqn:E.
  - destruct (split_at_more sep a (String sep b) h t E) as [-> Hl].
    specialize (IH t ltac:(lia)). specialize (Hne n (t +:+ String sep b)).
    by destruct (split_all_fuel n sep _).
  - assert (Ha : str_forallb (fun c => negb (Ascii.eqb c sep)) a = true).
    { clear IH Hn. revert h E. induction a as [|c a IH]; intros h E; [done|]. cbn in *.
      destruct (Ascii.eqb c sep); [done|]. destruct (split_at sep a) as [h' [t'|]]; [done|]. by apply (IH h'). }
    rewrite split_at_app by done. cbn. specialize (Hne n b).
    assert (Hs : split_all_fuel n sep b = [b]) by (destruct n; cbn; by rewrite ?split_at_absent).
    by rewrite Hs.
Qed.

Lemma print_int_no_dash i : 0 <= i -> str_forallb (fun c => negb (Ascii.eqb c "-")) (print_int i) = true.
Proof.
  intros Hi. unfold print_int. rewrite (proj2 (Z.ltb_ge i 0) Hi).
  pose proof (pretty_parses (Z.to_N i)) as H. unfold parse_digits in H.
  destruct (String.eqb _ _); [done|]. revert H. generalize 0. generalize (pretty (Z.to_N i)).
  induction s as [|c s IH]; intros acc H; [done|]. cbn in *. destruct (is_digit c) eqn:Ec; [|done].
  rewrite (IH _ H), andb_true_r.
  assert (Hall : implb (is_digit c) (negb (Ascii.eqb c "-")) = true).
  { clear. revert c. apply ascii_ind_bool. by vm_compute. }
  by rewrite Ec in Hall.
Qed.

Lemma queue_key_index entry : 0 <= snd (fst entry) < 2 ^ 63 ->
  ParseInt (List.last (Split "-" (queue_key entry)) EmptyString) = Some (snd (fst entry)).
Proof.
  intros Hi. unfold queue_key. rewrite last_part by (apply print_int_no_dash; lia).
  apply print_int_parses. unfold is_i64. lia.
Qed.

(** ** Queues that only hold plain swaps *)

Section block_facts.
Context {V : Semver} {B : CosmosBank} {A : SdkAddress} {R : MapRange} {L : AddressLib}.
Context {U : SdkUint} {D : SdkDec} {T : UintText} {SA : SwapActions}.
Context {UL : SdkUintLaws U} {DL : SdkDecLaws D}.
Implicit Types k : KVStore.

Abbreviation entry := ((string * Z) * MsgSwap)%type (only parsing).

(** The key an entry is stored under, by [SetSwapQueueItem]. *)
Definition entry_keyed (e : entry) : Prop :=
  fst (fst e) = GetKey (TxID_String (Tx_ID (Msg_Tx (snd e)))) /\ 0 <= snd (fst e) < 2 ^ 63.

Definition entry_item (e : entry) : swapItem := mkSwapItem (snd (fst e)) (snd e) 0 0.

Lemma fetch_plain k (l : list entry) :
  Forall (fun e => entry_keyed e /\ IsStreaming (snd e) = false) l ->
  fetch_items k l = Ok (map entry_item l).
Proof.
  induction 1 as [|e l [[_ Hi] Hs] _ IH]; [done|]. cbn [fetch_items].
  by rewrite queue_key_index, Hs, IH by done.
Qed.

Lemma entry_key (e : entry) : entry_keyed e -> item_key (entry_item e) = fst e.
Proof.
  destruct e as [[id i] msg]. intros [He _]. cbn in He. unfold item_key, item_ID. cbn. by rewrite He.
Qed.

Lemma queue_iterator_perm k : Permutation (GetSwapQueueIterator k) (map_to_list (kv_swap_items k)).
Proof. apply stable_sort_perm. Qed.

Definition queue_plain k : Prop := forall key msg, kv_swap_items k !! key = Some msg ->
  entry_keyed (key, msg) /\ IsStreaming msg = false.

Lemma FetchQueue_plain k : queue_plain k ->
  exists swaps, FetchQueue k = Ok swaps /\
    Permutation swaps (map entry_item (map_to_list (kv_swap_items k))) /\
    NoDup (map item_key swaps).
Proof.
  intros Hp. set (l := map_to_list (kv_swap_items k)).
  assert (Hl : Forall (fun e => entry_keyed e /\ IsStreaming (snd e) = false) l).
  { apply Forall_forall. intros [key msg] Hin. by apply Hp, elem_of_map_to_list. }
  assert (Hit : Forall (fun e => entry_keyed e /\ IsStreaming (snd e) = false) (GetSwapQueueIterator k)).
  { by rewrite queue_iterator_perm. }
  exists (map entry_item (GetSwapQueueIterator k)). unfold FetchQueue. rewrite (fetch_plain k _ Hit).
  split; [done|]. split; [by rewrite queue_iterator_perm|].
  rewrite queue_iterator_perm, map_map.
  replace (map (fun e => item_key (entry_item e)) (map_to_list (kv_swap_items k))) with l.*1.
  { apply NoDup_fst_map_to_list. }
  fold l. clear Hit. induction Hl as [|e l' [He _] _ IH]; [done|]. cbn. by rewrite IH, entry_key.
Qed.

(** ** A block of plain swaps *)

(** An attempt at a plain swap ends without a panic, whether the handler accepts the swap
    or refuses it, and leaves the queue alone; [P] holds once the swap is out of it. *)
Definition swap_settles (P : KVStore -> Prop) k (key : string * Z) (msg : MsgSwap) : Prop :=
  exists amount res k', swap_handle k msg = Ok (amount, res) /\
    match res with
    | inl k1 => k' = k1
    | inr err =>
        let msg := set_first_amount msg amount in
        if is_preferred_asset_swap k msg
        then exists e, cleanupFailedPreferredAssetSwap k (Tx_Memo (Msg_Tx msg)) amount = Ok (k', e)
        else refundTx k (refund_observation k msg) err = Ok k'
    end /\
    kv_swap_items k' = kv_swap_items k /\ P (set_kv_swap_items k' (delete key (kv_swap_items k))).

(** What a block relies on: a property [P] of the store that holds between the swaps,
    keeps the queue well formed and in range, and under which every swap settles. *)
Record quiet (P : KVStore -> Prop) : Prop := {
  quiet_queue : forall k, P k -> queue_plain k /\ pools_bounded k /\ 0 <= synthDepth k <= 10000 /\
    1 <= minSwaps k /\ 1 <= maxSwaps k;
  quiet_items : forall k e, P k -> e ∈ map_to_list (kv_swap_items k) -> item_ok k (entry_item e);
  quiet_swap : forall k key msg, P k -> kv_swap_items k !! key = Some msg -> swap_settles P k key msg;
}.

Lemma set_first_amount_same msg amount :
  Tx_ID (Msg_Tx (set_first_amount msg amount)) = Tx_ID (Msg_Tx msg) /\
  IsStreaming (set_first_amount msg amount) = IsStreaming msg /\
  Tx_Memo (Msg_Tx (set_first_amount msg amount)) = Tx_Memo (Msg_Tx msg) /\
  (Tx_Coins (Msg_Tx msg) <> [] -> first_amount (set_first_amount msg amount) = Ok amount).
Proof.
  unfold set_first_amount, first_amount. destruct (Tx_Coins (Msg_Tx msg)) eqn:E; [done|].
  by split_and!.
Qed.

(** A plain swap leaves the queue, whether it succeeds or fails. *)
Lemma do_swap_plain (P : KVStore -> Prop) k e pick :
  quiet P -> P k -> e ∈ map_to_list (kv_swap_items k) ->
  item_msg pick = snd e -> item_index pick = snd (fst e) ->
  exists k', do_swap k pick = Ok (k', None) /\ P k' /\
    kv_swap_items k' = delete (fst e) (kv_swap_items k).
Proof.
  intros HP Hk He Hmsg Hidx. destruct e as [key msg]. cbn [fst snd] in *.
  assert (Hlook := He). apply elem_of_map_to_list in Hlook.
  destruct (quiet_queue P HP k Hk) as (Hpl & _). destruct (Hpl _ _ Hlook) as [[Hkey _] Hstr].
  destruct (quiet_items P HP k _ Hk He) as (_ & _ & coin & coins & Hc & _). cbn in Hc.
  destruct (quiet_swap P HP k key msg Hk Hlook) as (amount & res & k1 & Hh & Hres & Hq & Hk1).
  destruct (set_first_amount_same msg amount) as (Hid & Hst & Hmemo & Hamt).
  unfold do_swap. rewrite Hmsg, Hidx. unfold GetStreamingSwap. rewrite Hc.
  cbn [mbind outcome_bind]. rewrite Hh. cbn [mbind outcome_bind].
  assert (Hend : forall t, exists k',
    (if IsStreaming (set_first_amount msg amount)
     then streaming_recorded k1 (set_first_amount msg amount) (snd key)
            (match res with inl _ => None | inr e => Some e end) t
     else Ok (RemoveSwapQueueItem k1 (Tx_ID (Msg_Tx (set_first_amount msg amount))) (snd key), None))
      = Ok (k', None) /\ P k' /\ kv_swap_items k' = delete key (kv_swap_items k)).
  { intros t. rewrite Hst, Hstr, Hid. eexists. split; [reflexivity|]. unfold RemoveSwapQueueItem. cbn in Hkey.
    rewrite <- Hkey, Hq. by destruct key. }
  destruct res as [k2|err]; cbn [mbind outcome_bind]; [subst k2; by apply Hend|]. cbv zeta in Hres.
  unfold failed_swap. rewrite Hst, Hstr. destruct (is_preferred_asset_swap k _).
  - destruct Hres as [e Hcl]. rewrite Hamt by (by rewrite Hc). cbn [mbind outcome_bind]. rewrite Hcl.
    cbn [mbind outcome_bind fst]. apply Hend.
  - cbn [mbind outcome_bind]. rewrite Hres. cbn [mbind outcome_bind]. apply Hend.
Qed.

Lemma do_swaps_plain (P : KVStore -> Prop) picks k :
  quiet P -> P k -> NoDup (map item_key picks) ->
  Forall (fun p => exists e, e ∈ map_to_list (kv_swap_items k) /\ item_msg p = snd e /\
                             item_index p = snd (fst e) /\ item_key p = fst e) picks ->
  exists k', do_swaps k picks = Ok (k', None) /\ P k' /\
    (size (kv_swap_items k') + length picks = size (kv_swap_items k))%nat.
Proof.
  intros HP. revert k. induction picks as [|p picks IH]; intros k Hk Hd Hall; cbn.
  { exists k. split_and!; (done || lia). }
  cbn in Hd. apply NoDup_cons in Hd as [Hni Hd]. apply Forall_cons in Hall as [Hp Hall].
  destruct Hp as (e & He & Hmsg & Hidx & Hkey).
  destruct (do_swap_plain P k e p HP Hk He Hmsg Hidx) as (k1 & -> & Hk1 & Hq).
  cbn [mbind outcome_bind]. destruct (IH k1 Hk1 Hd) as (k' & -> & Hk' & Hsz).
  { apply Forall_forall. intros p' Hp'. rewrite Forall_forall in Hall.
    destruct (Hall p' Hp') as (e' & He' & Hrest). exists e'. split; [|done].
    destruct e' as [key' msg']. apply elem_of_map_to_list in He'. apply elem_of_map_to_list.
    rewrite Hq, lookup_delete_ne; [done|]. intros E. cbn in Hrest. destruct Hrest as (_ & _ & Hk2).
    apply Hni. rewrite Hkey, E, <- Hk2. by apply (list_elem_of_fmap_2 item_key). }
  exists k'. split_and!; [done..|]. destruct e as [key msg]. apply elem_of_map_to_list in He.
  cbn [fst] in *. rewrite Hq, map_size_delete_Some in Hsz by by eexists.
  assert (size (kv_swap_items k) <> 0)%nat.
  { intros E. apply map_size_empty_inv in E. by rewrite E in He. }
  lia.
Qed.

(** Every item of the queue that is done was fetched from the store. *)
Lemma picks_from_queue k (swaps queue : swapItems) :
  queue_plain k -> Permutation swaps (map entry_item (map_to_list (kv_swap_items k))) ->
  Forall2 scored swaps queue ->
  Forall (fun p => exists e, e ∈ map_to_list (kv_swap_items k) /\ item_msg p = snd e /\
                             item_index p = snd (fst e) /\ item_key p = fst e) queue.
Proof.
  intros Hp Hperm Hs. apply Forall_forall. intros p Hin.
  apply list_elem_of_lookup in Hin as [i Hi].
  destruct (Forall2_lookup_r _ _ _ _ _ Hs Hi) as (s & Hsi & Hm & Hx & _).
  apply list_elem_of_lookup_2 in Hsi. rewrite Hperm in Hsi.
  apply list_elem_of_fmap in Hsi as ([key msg] & -> & He). exists (key, msg).
  split; [done|]. cbn in Hm, Hx. split_and!; [done..|].
  unfold item_key, item_ID. rewrite Hm, Hx. apply elem_of_map_to_list in He.
  apply (entry_key (key, msg)). by apply Hp.
Qed.

Lemma getTodoNum_zero min max : 1 <= min -> 1 <= max -> getTodoNum 0 min max = 0.
Proof.
  intros. unfold getTodoNum. cbv zeta. change (Z.quot 0 2) with 0.
  by rewrite (proj2 (Z.leb_le 0 _)), (proj2 (Z.ltb_ge _ 0)) by lia.
Qed.

Lemma EndBlock_plain (P : KVStore -> Prop) k :
  quiet P -> P k ->
  exists k', SwapQueue_EndBlock k = Ok (k', None) /\ P k' /\
    Z.of_nat (size (kv_swap_items k')) =
      Z.of_nat (size (kv_swap_items k)) -
      getTodoNum (Z.of_nat (size (kv_swap_items k))) (minSwaps k) (maxSwaps k).
Proof.
  intros HP Hk. destruct (quiet_queue P HP k Hk) as (Hpl & Hb & Hmult & Hmin & Hmax).
  destruct (FetchQueue_plain k Hpl) as (swaps & Hf & Hperm & Hd).
  assert (Hlen : length swaps = size (kv_swap_items k)).
  { rewrite (Permutation_length Hperm). by rewrite length_map, length_map_to_list. }
  assert (Hok : Forall (item_ok k) swaps).
  { rewrite Hperm. apply Forall_fmap, Forall_forall. intros e He. by apply (quiet_items P HP). }
  destruct (swaps_to_do_total k swaps (minSwaps k) (maxSwaps k) (synthDepth k) Hb Hmult Hok Hd)
    as (queue & _ & Hs & Hsp & _ & Hdo).
  set (n := getTodoNum _ _ _) in Hdo. unfold SwapQueue_EndBlock. rewrite Hf.
  cbn [mbind outcome_bind]. rewrite Hdo. cbn [mbind outcome_bind].
  assert (Hq : Forall (fun p => exists e, e ∈ map_to_list (kv_swap_items k) /\ item_msg p = snd e /\
                 item_index p = snd (fst e) /\ item_key p = fst e) (Sort queue)).
  { rewrite Hsp. by eapply picks_from_queue. }
  destruct (do_swaps_plain P (take (Z.to_nat n) (Sort queue)) k HP Hk) as (k' & -> & Hk' & Hsz).
  { rewrite <- firstn_map. apply (sublist_NoDup _ (map item_key (Sort queue))); [|apply sublist_take].
    by rewrite Hsp, (scored_keys swaps queue). }
  { by apply Forall_take. }
  exists k'. split_and!; [done..|]. rewrite length_take, (Permutation_length Hsp) in Hsz.
  rewrite <- (Forall2_length _ _ _ Hs), Hlen in Hsz. rewrite <- Hlen in *. fold n.
  destruct (Z.eq_dec (Z.of_nat (length swaps)) 0) as [E|E].
  - assert (Hn : n = 0) by (unfold n; rewrite E; by apply getTodoNum_zero). lia.
  - pose proof (getTodoNum_range (Z.of_nat (length swaps)) (minSwaps k) (maxSwaps k)
      ltac:(lia) Hmin Hmax) as (Hr & _). fold n in Hr. lia.
Qed.

(** As many blocks as there are swaps leave none. *)
Lemma run_blocks_drain (P : KVStore -> Prop) (others : nat -> KVStore -> KVStore) n : forall k,
  quiet P ->
  (forall i k, P k -> P (others i k) /\ kv_swap_items (others i k) = kv_swap_items k) ->
  P k -> (size (kv_swap_items k) <= n)%nat ->
  exists k', run_blocks others n k = Ok k' /\ P k' /\ kv_swap_items k' = ∅.
Proof.
  induction n as [|n IH]; intros k HP Ho Hk Hn.
  { exists k. split; [done|]. split; [done|]. apply map_size_empty_inv. lia. }
  cbn [run_blocks]. destruct (Ho (S n) k Hk) as [Hk1 Hq].
  destruct (EndBlock_plain P (others (S n) k) HP Hk1) as (k2 & -> & Hk2 & Hsz).
  cbn [mbind outcome_bind fst]. apply IH; [done..|]. rewrite Hq in Hsz.
  destruct (quiet_queue P HP _ Hk1) as (_ & _ & _ & Hmin & Hmax).
  destruct (decide (size (kv_swap_items k) = 0)%nat) as [E|E].
  - rewrite E in Hsz. rewrite getTodoNum_zero in Hsz by done. lia.
  - assert (Hs1 : 1 <= Z.of_nat (size (kv_swap_items k))) by lia.
    pose proof (getTodoNum_range _ _ _ Hs1 Hmin Hmax). lia.
Qed.

(** *** An executable form *)

Definition entry_keyed_b (e : entry) : bool :=
  String.eqb (fst (fst e)) (GetKey (TxID_String (Tx_ID (Msg_Tx (snd e))))) && (0 <=? snd (fst e))
  && (snd (fst e) <? 2 ^ 63).

Definition below_84 (x : Z) : bool := (0 <=? x) && (x <? 2 ^ 84).

Definition item_ok_b k (msg : MsgSwap) : bool :=
  match Tx_Coins (Msg_Tx msg) with
  | [] => false
  | coin :: _ => below_84 (Coin_Amount coin)
      && forallb (fun e : string * Pool => AssetValueInRune (snd e) (Coin_Amount coin) <? 2 ^ 84) (map_to_list (kv_pools k))
  end.

Definition ready_b k : bool :=
  forallb (fun e => entry_keyed_b e && negb (IsStreaming (snd e)) && item_ok_b k (snd e)) (map_to_list (kv_swap_items k))
  && forallb (fun e : string * Pool => below_84 (BalanceCacao (snd e)) && below_84 (BalanceAsset (snd e))) (map_to_list (kv_pools k))
  && (0 <=? synthDepth k) && (synthDepth k <=? 10000) && (1 <=? minSwaps k) && (1 <=? maxSwaps k).

(** The store after an attempt at a plain swap, the swap still in the queue. *)
Definition attempt_swap k (msg : MsgSwap) : outcome KVStore :=
  '(amount, res) ← swap_handle k msg;
  match (res : KVStore + string) with
  | inl k' => Ok k'
  | inr err =>
      let msg := set_first_amount msg amount in
      if is_preferred_asset_swap k msg
      then r ← cleanupFailedPreferredAssetSwap k (Tx_Memo (Msg_Tx msg)) amount; Ok (fst (r : KVStore * option string))
      else refundTx k (refund_observation k msg) err
  end.

#[local] Instance swap_msg_dec : EqDecision MsgSwap.
Proof. solve_decision. Defined.

(** The swaps settle in whatever order they are attempted. *)
Fixpoint settling (n : nat) k : bool :=
  match n with
  | O => ready_b k && bool_decide (kv_swap_items k = ∅)
  | S n =>
      ready_b k &&
      forallb (fun e : entry => match attempt_swap k (snd e) with
        | Ok k' => bool_decide (kv_swap_items k' = kv_swap_items k)
                   && settling n (set_kv_swap_items k' (delete (fst e) (kv_swap_items k)))
        | _ => false
        end) (map_to_list (kv_swap_items k))
  end.

Definition settles k : Prop := exists n, settling n k = true.

Lemma below_84_spec x : below_84 x = true <-> 0 <= x < 2 ^ 84.
Proof. unfold below_84. by rewrite andb_true_iff, Z.leb_le, Z.ltb_lt. Qed.

Lemma ready_b_spec k : ready_b k = true ->
  queue_plain k /\ pools_bounded k /\ 0 <= synthDepth k <= 10000 /\ 1 <= minSwaps k /\ 1 <= maxSwaps k /\
  forall e, e ∈ map_to_list (kv_swap_items k) -> item_ok k (entry_item e).
Proof.
  unfold ready_b. rewrite !andb_true_iff, !Z.leb_le, !forallb_forall.
  intros [[[[[Hq Hp] H1] H2] H3] H4].
  assert (Hpools : forall a p, kv_pools k !! a = Some p -> (a, p) ∈ map_to_list (kv_pools k))
    by (intros a p Ha; by apply elem_of_map_to_list).
  split_and!; try done.
  - intros key msg Hk%elem_of_map_to_list%list_elem_of_In%Hq. rewrite !andb_true_iff in Hk.
    destruct Hk as [[Hk Hs] _]. unfold entry_keyed_b in Hk. rewrite !andb_true_iff, String.eqb_eq, Z.leb_le, Z.ltb_lt in Hk.
    split; [|by apply negb_true_iff]. split; [apply Hk|]. lia.
  - intros a p Ha%Hpools%list_elem_of_In%Hp. by rewrite andb_true_iff, !below_84_spec in Ha.
  - intros [key msg] Hk%list_elem_of_In%Hq. rewrite !andb_true_iff in Hk. destruct Hk as [_ Hk].
    unfold item_ok_b in Hk. cbn [snd] in Hk. split; [done|]. split; [done|]. cbn [entry_item item_msg snd].
    destruct (Tx_Coins (Msg_Tx msg)) as [|coin coins]; [done|]. exists coin, coins. split; [done|].
    rewrite andb_true_iff, below_84_spec, forallb_forall in Hk. destruct Hk as [Hc Hv]. split; [done|].
    intros a p Ha%Hpools%list_elem_of_In%Hv. by apply Z.ltb_lt.
Qed.

Lemma attempt_settles (P : KVStore -> Prop) k key msg k' : attempt_swap k msg = Ok k' ->
  kv_swap_items k' = kv_swap_items k -> P (set_kv_swap_items k' (delete key (kv_swap_items k))) ->
  swap_settles P k key msg.
Proof.
  intros H Hq Hp. unfold attempt_swap in H. apply bind_Ok in H as ([amount res] & Hh & H).
  exists amount, res, k'. split; [done|]. split; [|done]. destruct res as [k1|err]; [by injection H|].
  cbv zeta in *. destruct (is_preferred_asset_swap k _); [|done].
  apply bind_Ok in H as ([k1 e] & H & [= <-]). by exists e.
Qed.

Lemma settling_ready n k : settling n k = true -> ready_b k = true.
Proof. destruct n; cbn [settling]; by rewrite andb_true_iff; intros [? _]. Qed.

Lemma settles_quiet : quiet settles.
Proof.
  split.
  - intros k [n Hn%settling_ready%ready_b_spec]. tauto.
  - intros k e [n Hn%settling_ready%ready_b_spec] He. by apply Hn.
  - intros k key msg [n Hn] Hk. destruct n as [|n]; cbn [settling] in Hn; apply andb_true_iff in Hn as [_ Hn].
    { apply bool_decide_eq_true in Hn. by rewrite Hn in Hk. }
    rewrite forallb_forall in Hn. apply elem_of_map_to_list, list_elem_of_In, Hn in Hk. cbn [fst snd] in Hk.
    destruct (attempt_swap k msg) as [k'| |] eqn:E; [|done..]. apply andb_true_iff in Hk as [Hq%bool_decide_eq_true Hs].
    eapply attempt_settles; [exact E|exact Hq|by exists n].
Qed.
End block_facts.
