(* ===== verification/SwapMarket.v ===== *)
(** Refunds ([refundTx] of [x/mayachain/helpers.go]), and the swaps of a block with
    the handler of a swap, the refunds and the manager of outbound transactions in
    place. *)
From stdpp Require Import pretty relations.
From S2P Require Import Prelude GoText Sdk Constants Floats Shares Chains Keys Addresses Assets Coins Txs.
From S2P Require Import NodeAccounts Votes TxOuts Vaults ObservedTxs Pools Mimirs StreamingSwaps SwapMsgs.
From S2P Require Import LiquidityProviders Records MayaNames Stores Keeper FuzzyAssets Nodes Bonds VaultStore Halts Gas.
From S2P Require Import TradeAccounts Aggregators Swapper Swaps Affiliates Decimals Memos Collectors SwapChecks.
From S2P Require Import Liquidity AddLiquidity LiquidityBooks Withdraw WithdrawBooks Slashing Bonding BondBooks.
From S2P Require Import LiquidityLedger Outbounds OutboundBooks SwapHandler SwapQueue SwapBlocks.

Section swap_market.
Context `{V : Semver} `{B : CosmosBank} `{A : SdkAddress} `{R : MapRange} `{L : AddressLib}.
Context `{U : SdkUint} `{D : SdkDec} `{SH : Sha256} `{T : UintText} `{C : PubKeyCodec} {TO : TxOutStore}.
Context {BV : BuildVersion}.
Implicit Types (k : KVStore) (gm : GasMgr).

(** ** Refunds *)

(** What cannot be sent back: an external coin stays in its vault, a native one goes to
    the reserve. An error is logged. *)
Definition unrefundableCoinCleanup k (toi : TxOutItem) : outcome KVStore :=
  let coin := Toi_Coin toi in
  if IsTradeAsset (Coin_Asset coin) then Ok k
  else if negb (Asset_IsNative (Coin_Asset coin)) then Ok k
  else if negb (String.eqb (GetModuleName toi) ReserveName)
  then logged k (SendFromModuleToModule k (GetModuleName toi) ReserveName [coin])
  else Ok k.

(** Where a coin goes back to: the address the memo names, if it is one of its chain. *)
Definition refund_address k (tx : Tx) (coin : Coin) : Address :=
  match ParseMemoWithMAYANames k (Tx_Memo tx) with
  | (MSwap mem, []) =>
      let addr := Swap_RefundAddress mem in
      if negb (Address_IsEmpty addr) && negb (IsBASEChain (GetChain (Coin_Asset coin)))
         && IsChain addr (GetChain (Coin_Asset coin)) (kv_version k)
      then addr else FromAddress tx
  | _ => FromAddress tx
  end.

Definition refund_item k (tx : ObservedTx) (module : string) (coin : Coin) (vault : PubKey * PubKey) : TxOutItem :=
  let t := Obs_Tx tx in
  mkTxOutItem (GetChain (Coin_Asset coin)) (refund_address k t coin) (fst vault) coin
    (Memo_String LatestVersion (MRefund (Tx_ID t))) [] 0 (Tx_ID t) EmptyString module EmptyString EmptyString (Some 0)
    (snd vault).

Definition refundable k (coin : Coin) : bool :=
  let asset := Coin_Asset coin in
  if IsTradeAsset asset then false
  else if IsBase asset && Chain_Equals (GetChain asset) ETHChain then false
  else IsBase asset || negb (BalanceCacao (GetPool k (GetLayer1Asset asset)) =? 0).

(** The coins one after the other; an error ends the loop, and what is done stays. *)
Fixpoint refund_coins k (tx : ObservedTx) (module : string) (coins : Coins)
  : outcome (KVStore * option string) :=
  match coins with
  | [] => Ok (k, None)
  | coin :: coins' =>
      if negb (refundable k coin) then refund_coins k tx module coins'
      else
        match (if negb (PubKey_IsEmpty (ObservedPubKey tx))
               then vault ← GetVault k (ObservedPubKey tx); Ok (Vault_PubKey vault, PubKeyEddsa vault)
               else Ok (EmptyPubKey, EmptyPubKey)) with
        | Panic => Panic
        | Err _ => Ok (k, Some "fail to get vault: %w"%string)
        | Ok vault =>
            let toi := refund_item k tx module coin vault in
            k ← (match TryAddTxOutItem k toi 0 with
                 | Ok (k', _) => Ok k'
                 | Err _ => unrefundableCoinCleanup k toi
                 | Panic => Panic
                 end);
            refund_coins k tx module coins'
        end
  end.

Definition refundTxV124 k (tx : ObservedTx) (module : string) : outcome (KVStore * option string) :=
  refund_coins k tx module (Tx_Coins (Obs_Tx tx)).

(** ** The swaps of a block *)

(** An output that cannot be sent is cleaned up. *)
Definition send_swap_outbound k (toi : TxOutItem) : outcome KVStore :=
  match TryAddTxOutItem k toi 0 with
  | Ok (k', _) => Ok k'
  | Err _ => unrefundableCoinCleanup k toi
  | Panic => Panic
  end.

(** The handler in its copy of the store, which an error discards. *)
Definition cached_swap gm k (msg : MsgSwap) : outcome (Z * (KVStore + string)) :=
  amount ← amount_after k msg;
  match swap_Run gm k msg with
  | Ok k' => Ok (amount, inl k')
  | Err e => Ok (amount, inr e)
  | Panic => Panic
  end.
End swap_market.

Definition SwapQueueActions `{V : Semver} `{B : CosmosBank} `{A : SdkAddress} `{R : MapRange} `{L : AddressLib}
    `{U : SdkUint} `{D : SdkDec} `{SH : Sha256} `{T : UintText} `{C : PubKeyCodec} {TO : TxOutStore}
    {BV : BuildVersion} (gm : GasMgr) : SwapActions :=
  {| swap_handle := cached_swap gm;
     refundTx k tx _ := '(k', _) ← refundTxV124 k tx EmptyString; Ok k';
     send_outbound := send_swap_outbound;
     SwapBlocks.FetchDexAggregator := Aggregators.FetchDexAggregator |}.

(** ** The books through a block of swaps *)

Section swap_books.
Context {V : Semver} {B : CosmosBank} {BL : CosmosBankLaws B} {A : SdkAddress} {AL : SdkAddressLaws A} {R : MapRange} {L : AddressLib}.
Context {U : SdkUint} {UL : SdkUintLaws U} {D : SdkDec} {DL : SdkDecLaws D} {SH : Sha256} {T : UintText} {C : PubKeyCodec}.
Context {TO : TxOutStore} {TL : TxOutStoreLaws TO} {BV : BuildVersion}.
Implicit Types (k : KVStore) (gm : GasMgr).

Lemma same_core_trans p q r : same_core p q -> same_core q r -> same_core p r.
Proof. intros [H1 H2] [H3 H4]. split; [congruence|auto]. Qed.

Lemma swap_units_core k p p' : swap_units k p = Ok p' -> same_core p p'.
Proof.
  unfold swap_units. intros H. apply bind_Ok in H as (s & _ & H).
  apply bind_Ok in H as ([q u] & (su & -> & Hsu)%CalcUnits_synths & [= <-]). split; [done|].
  unfold pool_nonneg. cbn. intros (? & ? & ?). split_and!; [done|done|by apply Hsu].
Qed.

Lemma swap_balances_core p source target x e p' : swap_balances p source target x e = Ok p' -> same_core p p'.
Proof.
  unfold swap_balances. intros H.
  assert (Hn : forall c a, 0 <= c -> 0 <= a -> same_core p (set_BalanceAsset (set_BalanceCacao p c) a))
    by (intros c a Hc Ha; split; [done|unfold pool_nonneg; cbn; tauto]).
  assert (Hc : forall c, 0 <= c -> same_core p (set_BalanceCacao p c))
    by (intros c Hc; split; [done|unfold pool_nonneg; cbn; tauto]).
  destruct (IsBase source).
  - apply bind_Ok in H as (c & [-> [Hb _]]%uint_add_Ok & H). cbv zeta in H.
    destruct (negb _); [|injection H as <-; by apply Hc]. apply bind_Ok in H as (a & ->%SafeSub_inv & [= <-]).
    apply Hn; [done|lia].
  - apply bind_Ok in H as (c & ->%SafeSub_inv & H). cbv zeta in H.
    destruct (negb _); [|injection H as <-; apply Hc; lia].
    apply bind_Ok in H as (a & [-> [Ha _]]%uint_add_Ok & [= <-]). apply Hn; [lia|done].
Qed.

Lemma swap_frame_lps k k' : swap_frame k k' -> kv_lps k' = kv_lps k.
Proof. intros (? & ? & ? & ? & ? & ->). by destruct k. Qed.

(** A swap leaves the units and the pending amounts of its pool alone. *)
Lemma swapOne_keeps k tx target swapTarget mult k' e evt :
  swapOne k tx target swapTarget mult = Ok (k', e, evt) -> ledger_sound k -> keeps_ledger k k'.
Proof.
  intros H Hk. pose proof (swap_frame_lps _ _ (swapOne_frame _ _ _ _ _ _ _ _ H)) as Hl.
  destruct (Tx_Coins tx) as [|coin coins] eqn:Hc; [unfold swapOne in H; by rewrite Hc in H|].
  destruct (swapOne_inv _ _ _ _ _ _ _ _ _ _ Hc H) as
    (k1 & x & p0 & p & X & Y & k2 & k3 & p3 & p4 & Hw & Hlk & Hu & _ & _ & _ & _ & _ & _ & Hk2 & Hk3 & Hb & Hu4 & Hset & _).
  cbv zeta in *. apply swap_withdraw_frame in Hw as (Hk1 & _ & _). rewrite Hk1 in Hlk.
  apply swap_burn_pools in Hk2. apply swap_mint_pools in Hk3.
  assert (Hcore : same_core p0 p4).
  { eapply same_core_trans; [by eapply swap_units_core|].
    eapply same_core_trans; [by eapply swap_balances_core|].
    destruct (_ || _); [by eapply swap_units_core|]. injection Hu4 as <-. by split. }
  pose proof (same_core_asset _ _ Hcore) as Ha. destruct Hcore as [Hcore Hnn].
  destruct Hk as [[[_ Hb2] _] Hn]. destruct (Hb2 _ _ Hlk) as [Hkey _].
  apply SetPool_stored in Hset as ->. rewrite Ha, <- Hkey, Hk3, Hk2, Hk1 in *. split; cbn.
  - exact Hl.
  - rewrite fmap_insert, Hcore. apply insert_id. by rewrite lookup_fmap, Hlk.
  - intros Hall. apply map_Forall_insert_2; [|done]. apply Hnn, (Hn _ _ Hlk).
Qed.

Lemma swapOne_sound k tx target swapTarget mult k' e evt :
  swapOne k tx target swapTarget mult = Ok (k', e, evt) -> ledger_sound k -> ledger_sound k'.
Proof. intros H Hk. eapply keeps_ledger_sound; [by eapply swapOne_keeps|done]. Qed.

Lemma AddToLiquidityFees_positions k asset fee k' : AddToLiquidityFees k asset fee = Ok k' -> same_positions k k'.
Proof.
  unfold AddToLiquidityFees. cbv zeta. intros H. apply bind_Ok in H as (a & _ & H). apply bind_Ok in H as (b & _ & H).
  apply bind_Ok in H as (c & _ & H). apply bind_Ok in H as (d & _ & H).
  destruct (GTE _ _); [|injection H as <-; by split]. repeat (apply bind_Ok in H as (? & _ & H)).
  injection H as <-. by split.
Qed.

Lemma Swap_sound k tx target destination swapTarget agg aggTarget limit swp mult k' e evts :
  Swap k tx target destination swapTarget agg aggTarget limit swp mult = Ok (k', e, evts) ->
  ledger_sound k -> ledger_sound k'.
Proof.
  unfold Swap. intros H Hk. apply bind_Ok in H as (source & _ & H).
  apply bind_Ok in H as ([[k1 amt] evs] & H1 & H).
  assert (Hk1 : ledger_sound k1).
  { unfold swap_legs in H1. destruct (_ && _).
    - apply bind_Ok in H1 as ([[k2 a2] e2] & H2%swapOne_sound & H1); [|done]. cbv zeta in H1.
      apply bind_Ok in H1 as ([[k3 a3] e3] & H3%swapOne_sound & [= <- _ _]); done.
    - by apply bind_Ok in H1 as ([[k2 a2] e2] & H2%swapOne_sound & [= <- _ _]). }
  destruct (_ && _); [done|]. destruct (amt =? 0); [done|]. cbv zeta in H.
  apply bind_Ok in H as (k2 & H2 & H). apply bind_Ok in H as (k3 & H3 & [= <- _ _]).
  assert (Hk2 : ledger_sound k2).
  { unfold record_fees in H2. apply (foldM_keeps ledger_sound _ (fun _ => True)) in H2; [done| |done|by apply Forall_true].
    intros y ev y' Hy _ Hy'. eapply same_positions_ledger; [by eapply AddToLiquidityFees_positions|done]. }
  unfold swap_outbound in H3. destruct (_ && _); [|by injection H3 as <-].
  apply bind_Ok in H3 as ([k4 ok] & H4%try_add_keeps & H3); [|done]. destruct ok; [by injection H3 as <-|done].
Qed.

(** ** The handler *)

(** A memo whose first word is that of a deposit of liquidity. *)
Definition deposit_memo (memo : string) : bool :=
  match StringToTxType (getp (memo_parts memo) 0) with Ok TxAdd => true | _ => false end.

Lemma deposit_memo_kind k memo asset addr aff pts tier :
  ParseMemoWithMAYANames k memo = (MAddLiquidity asset addr aff pts tier, []) -> deposit_memo memo = true.
Proof.
  unfold ParseMemoWithMAYANames, deposit_memo. destruct (String.eqb memo EmptyString); [done|].
  destruct (StringToTxType _) as [t| |]; [|done..].
  destruct (parse k t _ _) as [[m s]| |] eqn:E; [|done..]. intros [= -> _].
  by apply parse_type in E as <-.
Qed.

Lemma pays_positions k k' : pays_only k k' -> same_positions k k'.
Proof. intros (? & ? & ? & ? & ->). by destruct k. Qed.

Lemma collect_swap_positions gm k msg memo emit k' : collect_swap gm k msg memo emit = Ok k' -> same_positions k k'.
Proof.
  unfold collect_swap. intros H. apply bind_Ok in H as (mn & _ & H). destruct (negb _); [done|].
  apply bind_Ok in H as (fee & _ & H). apply bind_Ok in H as (add & _ & H).
  destruct (updateAffiliateCollector _ _ _ _ _) as [[k1 i]| |] eqn:E; [|done..]. injection H as <-.
  apply pays_positions. unfold updateAffiliateCollector in E. apply bind_Ok in E as (t & _ & E). cbv zeta in E.
  etrans; [|by eapply check_pays]. apply pays_collector.
Qed.

Lemma followup_parse k k' msg emit k1 : deposit_memo (Tx_Memo (Msg_Tx msg)) = false ->
  swap_followup k msg (ParseMemoWithMAYANames k' (Tx_Memo (Msg_Tx msg))) emit = Ok k1 -> k1 = k.
Proof.
  intros Hd H. unfold swap_followup in H.
  destruct (ParseMemoWithMAYANames k' _) as [m [|e es]] eqn:E; [|by destruct m; injection H as <-].
  destruct m; try (by injection H as <-). apply deposit_memo_kind in E. congruence.
Qed.

Lemma swap_finish_positions gm k msg swp emit k' : deposit_memo (Tx_Memo (Msg_Tx msg)) = false ->
  swap_finish gm k msg swp emit = Ok k' -> same_positions k k'.
Proof.
  intros Hd H. unfold swap_finish in H. cbv zeta in H. destruct (Address_Equals (Destination msg) _).
  { by apply collect_swap_positions in H. }
  apply bind_Ok in H as ([] & _ & H). destruct (IsStreaming msg).
  - destruct (Tx_Coins _) as [|coin coins]; [done|]. apply bind_Ok in H as (i & _ & H).
    apply bind_Ok in H as (o & _ & H). destruct (negb _); [by injection H as <-|].
    destruct (_ && _); [by injection H as <-|]. by apply followup_parse in H as ->.
  - destruct (_ && _); [by injection H as <-|]. by apply followup_parse in H as ->.
Qed.

Lemma swap_prepare_inv k msg k' msg' swp agg : swap_prepare k msg = Ok (k', msg', swp, agg) ->
  same_positions k k' /\ Tx_Memo (Msg_Tx msg') = Tx_Memo (Msg_Tx msg).
Proof.
  unfold swap_prepare. destruct (negb _); [done|]. destruct (_ && _); [done|]. intros H.
  apply bind_Ok in H as (a & _ & H). apply bind_Ok in H as (s & _ & H).
  destruct (IsStreaming msg); [|by injection H as <- <- _ _]. destruct (Tx_Coins _) as [|c cs]; [done|].
  cbv zeta in H. apply bind_Ok in H as (s1 & _ & H). apply bind_Ok in H as ([am t] & _ & [= <- <- _ _]).
  by split.
Qed.

Lemma swap_Run_sound gm k msg k' : deposit_memo (Tx_Memo (Msg_Tx msg)) = false ->
  swap_Run gm k msg = Ok k' -> ledger_sound k -> ledger_sound k'.
Proof.
  intros Hd H Hk. unfold swap_Run in H. apply bind_Ok in H as ([] & _ & H). unfold swap_handleV118 in H.
  apply bind_Ok in H as ([[[k1 msg1] swp] agg] & [Hs Hm]%swap_prepare_inv & H). rewrite <- Hm in Hd.
  unfold swap_execute in H. apply bind_Ok in H as ([[k2 emit] evts] & H2%Swap_sound & H);
    [|by eapply same_positions_ledger].
  eapply same_positions_ledger; [|exact H2]. by eapply swap_finish_positions.
Qed.

(** ** Refunds *)

Lemma cleanup_positions k toi k' : unrefundableCoinCleanup k toi = Ok k' -> same_positions k k'.
Proof.
  unfold unrefundableCoinCleanup. cbv zeta. destruct (IsTradeAsset _); [by intros [= <-]|].
  destruct (negb _); [by intros [= <-]|]. destruct (negb _); [|by intros [= <-]].
  intros H%logged_positions; [done|]. intros k1. apply send_module_positions.
Qed.

Lemma send_or_cleanup_sound k toi k' :
  match TryAddTxOutItem k toi 0 with
  | Ok (k', _) => Ok k' | Err _ => unrefundableCoinCleanup k toi | Panic => Panic
  end = Ok k' -> ledger_sound k -> ledger_sound k'.
Proof.
  destruct (TryAddTxOutItem k toi 0) as [[k1 ok]| |] eqn:E; [| |done].
  - intros [= <-]. by eapply try_add_keeps.
  - intros H%cleanup_positions. by apply same_positions_ledger.
Qed.

Lemma refund_coins_sound tx module coins : forall k k' e,
  refund_coins k tx module coins = Ok (k', e) -> ledger_sound k -> ledger_sound k'.
Proof.
  induction coins as [|coin coins IHc]; intros k k' e H Hk; [by injection H as <- _|].
  cbn [refund_coins] in H. destruct (negb (refundable k coin)); [by eapply IHc|].
  destruct (if negb _ then _ else _) as [vault| |]; [|by injection H as <- _|done]. cbv zeta in H.
  apply bind_Ok in H as (k1 & H1%send_or_cleanup_sound & H); [|done]. by eapply IHc.
Qed.

(** ** The swaps of a block *)

Context (gm : GasMgr).

#[local] Instance market_actions : SwapActions := SwapQueueActions gm.

Lemma refundTx_sound k tx reason k' : refundTx k tx reason = Ok k' -> ledger_sound k -> ledger_sound k'.
Proof.
  cbn. intros H. apply bind_Ok in H as ([k1 e] & H & [= <-]). by eapply refund_coins_sound.
Qed.

Lemma failed_swap_inv k msg index swp k' msg' t : failed_swap k msg index swp = Ok (k', msg', t) ->
  same_positions k k' /\ Tx_Memo (Msg_Tx msg') = Tx_Memo (Msg_Tx msg).
Proof.
  unfold failed_swap. cbv zeta. intros H. destruct (IsStreaming msg).
  - destruct (_ && _); injection H as <- <- _; [|done]. split; [done|]. unfold set_first_amount.
    by destruct (Tx_Coins _).
  - destruct (is_preferred_asset_swap k msg); [|by injection H as <- <- _].
    apply bind_Ok in H as (am & _ & H). apply bind_Ok in H as ([k1 e] & H1 & [= <- <- _]). split; [|done]. cbn.
    unfold cleanupFailedPreferredAssetSwap in H1. cbv zeta in H1. destruct (negb _); [by injection H1 as <- _|].
    destruct (GetMAYAName _ _); [|by injection H1 as <- _|done]. apply bind_Ok in H1 as (tot & _ & H1).
    destruct (SendFromModuleToModule _ _ _ _) as [k2| |] eqn:E; [|by injection H1 as <- _|done].
    injection H1 as <- _. apply send_module_positions in E. exact E.
Qed.

Lemma streaming_done_sound k msg index swp err k' e :
  streaming_done k msg index swp err = Ok (k', e) -> ledger_sound k -> ledger_sound k'.
Proof.
  unfold streaming_done. cbv zeta. intros H Hk. set (k0 := RemoveStreamingSwap _ _) in H.
  assert (Hk0 : ledger_sound k0) by (by apply (same_positions_ledger k)). clearbody k0.
  destruct (ParseMemoWithMAYANames k0 _) as [memo [|er ers]]; [|by injection H as <- _].
  apply bind_Ok in H as (r & Hr & H).
  assert (Hs : forall k1, r = inl k1 -> ledger_sound k1).
  { intros k1 ->. destruct (_ && _); [|by injection Hr as <-]. unfold streaming_outbound in Hr. cbv zeta in Hr.
    destruct (if _ <? _ then _ else _) as [agg| |]; [|done..]. apply bind_Ok in Hr as (k2 & H2 & [= <-]).
    eapply send_or_cleanup_sound; [exact H2|done]. }
  destruct r as [k1|er]; [|injection H as <- _; by eapply Hk0]. specialize (Hs k1 eq_refl).
  apply bind_Ok in H as (k2 & H2 & [= <- _]). unfold streaming_remainder in H2.
  destruct (In swp <? Deposit swp); [|by injection H2 as <-]. apply bind_Ok in H2 as (rem & _ & H2).
  destruct (Tx_Coins _); [done|]. destruct err; [|done]. by eapply refundTx_sound.
Qed.

Lemma streaming_recorded_sound k msg index err t k' e :
  streaming_recorded k msg index err t = Ok (k', e) -> ledger_sound k -> ledger_sound k'.
Proof.
  unfold streaming_recorded. cbv zeta. intros H Hk. set (k0 := if t then k else _) in H.
  assert (Hk0 : ledger_sound k0) by (unfold k0; destruct t; [done|by apply (same_positions_ledger k)]).
  clearbody k0. destruct (_ && _); [by eapply streaming_done_sound|by injection H as <- _].
Qed.

Lemma do_swap_sound k pick k' e : deposit_memo (Tx_Memo (Msg_Tx (item_msg pick))) = false ->
  do_swap k pick = Ok (k', e) -> ledger_sound k -> ledger_sound k'.
Proof.
  intros Hd H Hk. unfold do_swap in H. apply bind_Ok in H as (swp & _ & H). apply bind_Ok in H as ([am res] & Hr & H).
  cbv zeta in H. apply bind_Ok in H as ([[k1 msg1] t] & H1 & H). apply bind_Ok in H as (k2 & H2 & H).
  assert (Hk1 : ledger_sound k1).
  { cbn in Hr. unfold cached_swap in Hr. apply bind_Ok in Hr as (a & _ & Hr).
    destruct (swap_Run gm k (item_msg pick)) as [k0| |] eqn:E; [| |done]; injection Hr as _ <-.
    - injection H1 as <- _ _. by eapply swap_Run_sound.
    - apply failed_swap_inv in H1 as [Hs _]. by eapply same_positions_ledger. }
  assert (Hk2 : ledger_sound k2).
  { destruct res as [k0|er]; [by injection H2 as <-|]. destruct t; [|by injection H2 as <-].
    by eapply refundTx_sound. }
  destruct (IsStreaming msg1); [by eapply streaming_recorded_sound|].
  injection H as <- _. by apply (same_positions_ledger k2).
Qed.

Lemma do_swaps_sound picks : forall k k' e,
  Forall (fun i => deposit_memo (Tx_Memo (Msg_Tx (item_msg i))) = false) picks ->
  do_swaps k picks = Ok (k', e) -> ledger_sound k -> ledger_sound k'.
Proof.
  induction picks as [|pick picks IHp]; intros k k' e Hd H Hk; [by injection H as <- _|].
  apply Forall_cons in Hd as [Hd Hds]. cbn [do_swaps] in H. apply bind_Ok in H as ([k1 er] & H1 & H).
  apply do_swap_sound in H1; [|done..]. destruct er; [by injection H as <- _|]. by eapply IHp.
Qed.

(** No swap of the queue is followed by a deposit of liquidity. *)
Definition queue_no_deposits k : Prop :=
  map_Forall (fun _ msg => deposit_memo (Tx_Memo (Msg_Tx msg)) = false) (kv_swap_items k).

Definition no_deposit (i : swapItem) : Prop := deposit_memo (Tx_Memo (Msg_Tx (item_msg i))) = false.

Lemma getLiquidityFeeAndSlip_msg k pool coin item mult item' :
  getLiquidityFeeAndSlip k pool coin item mult = Ok item' -> item_msg item' = item_msg item.
Proof.
  unfold getLiquidityFeeAndSlip. cbv zeta. destruct (if IsBase (Coin_Asset coin) then _ else _) as [X Y]. intros H.
  apply bind_Ok in H as (f & _ & H). apply bind_Ok in H as (sl & _ & H). apply bind_Ok in H as (f' & _ & H).
  by apply bind_Ok in H as (s' & _ & [= <-]).
Qed.

Lemma score_item_msg k mult item item' : score_item k mult item = Ok item' -> item_msg item' = item_msg item.
Proof.
  unfold score_item. destruct (Tx_Coins _) as [|coin coins]; [done|]. cbv zeta.
  destruct (pool_unusable _); [by intros [= <-]|]. destruct (_ && _); [by intros [= <-]|]. intros H.
  apply bind_Ok in H as (i1 & H1%getLiquidityFeeAndSlip_msg & H). destruct (_ || _); [by injection H as <-|].
  destruct (_ || _); [by injection H as <-|]. apply getLiquidityFeeAndSlip_msg in H. congruence.
Qed.

Lemma scoreMsgs_no_deposit k mult items : forall items',
  Forall no_deposit items -> scoreMsgs k items mult = Ok items' -> Forall no_deposit items'.
Proof.
  induction items as [|i items IHi]; intros items' Hf H; [by injection H as <-|].
  apply Forall_cons in Hf as [Hi Hf]. cbn [scoreMsgs] in H. apply bind_Ok in H as (i1 & H1%score_item_msg & H).
  apply bind_Ok in H as (rest & Hr & [= <-]). constructor; [unfold no_deposit; by rewrite H1|by apply IHi].
Qed.

Lemma Sort_no_deposit items : Forall no_deposit items -> Forall no_deposit (Sort items).
Proof.
  intros Hf. unfold Sort. cbv zeta. set (sorted := stable_sort by_slip (stable_sort by_fee items)).
  assert (Hs : Forall no_deposit sorted) by (unfold sorted; by rewrite !stable_sort_perm).
  apply Forall_forall. intros i Hi. apply list_elem_of_fmap in Hi as (sc & -> & _).
  destruct (List.find _ sorted) as [x|] eqn:E; cbn; [|by vm_compute].
  apply find_some in E as [E _]. rewrite List.Forall_forall in Hs. by apply Hs.
Qed.

Lemma fetch_no_deposit k entries : forall items,
  Forall (fun e : (string * Z) * MsgSwap => deposit_memo (Tx_Memo (Msg_Tx (snd e))) = false) entries ->
  fetch_items k entries = Ok items -> Forall no_deposit items.
Proof.
  induction entries as [|e entries IHe]; intros items Hf H; [by injection H as <-|].
  apply Forall_cons in Hf as [He Hf]. cbn [fetch_items] in H. cbv zeta in H.
  destruct (ParseInt _) as [i|]; [|by apply IHe].
  apply bind_Ok in H as (w & _ & H). apply bind_Ok in H as (rest & Hr & [= <-]). apply IHe in Hr; [|done].
  destruct w; [done|by constructor].
Qed.

Lemma SwapQueue_EndBlock_sound k k' e : queue_no_deposits k ->
  SwapQueue_EndBlock k = Ok (k', e) -> ledger_sound k -> ledger_sound k'.
Proof.
  intros Hq H Hk. unfold SwapQueue_EndBlock in H. apply bind_Ok in H as (swaps & Hf & H).
  apply bind_Ok in H as (picks & Hp & H). eapply do_swaps_sound; [|exact H|exact Hk].
  unfold swaps_to_do in Hp. apply bind_Ok in Hp as (scored & Hs & [= <-]).
  apply Forall_take, Sort_no_deposit. eapply scoreMsgs_no_deposit; [|exact Hs].
  eapply fetch_no_deposit; [|exact Hf]. unfold GetSwapQueueIterator. rewrite stable_sort_perm.
  apply Forall_forall. intros [key msg] Hin. apply elem_of_map_to_list in Hin. exact (Hq _ _ Hin).
Qed.
End swap_books.

(** ** Queues that empty *)

Section queue_drains.
Context {V : Semver} {B : CosmosBank} {A : SdkAddress} {R : MapRange} {L : AddressLib}.
Context {U : SdkUint} {UL : SdkUintLaws U} {D : SdkDec} {DL : SdkDecLaws D} {SH : Sha256} {T : UintText} {C : PubKeyCodec}.
Context {TO : TxOutStore} {BV : BuildVersion} (gm : GasMgr).
Implicit Types k : KVStore.

#[local] Instance drain_actions : SwapActions := SwapQueueActions gm.

(** C23: a queue of plain swaps empties, as long as every attempt settles. Let [P] be a
    property of the store under which the pools and the amounts stay below 2^84, the limits
    of a block are positive, and an attempt at a swap of the queue, by the handler and by
    the refund when that refuses it, does not panic, leaves the queue alone and keeps [P]
    once the swap is out. If nobody else adds to the queue and all keep [P], then every
    block ends without an error or a panic and does its share of the queue, whether its
    swaps are accepted or refused, so that after as many blocks as there are swaps none is
    left. *)
Theorem queue_drains (P : KVStore -> Prop) (others : nat -> KVStore -> KVStore) n k :
  quiet P ->
  (forall i k, P k -> P (others i k) /\ kv_swap_items (others i k) = kv_swap_items k) ->
  P k -> (size (kv_swap_items k) <= n)%nat ->
  (exists k', SwapQueue_EndBlock k = Ok (k', None) /\ P k' /\
     Z.of_nat (size (kv_swap_items k')) = Z.of_nat (size (kv_swap_items k)) -
       getTodoNum (Z.of_nat (size (kv_swap_items k))) (minSwaps k) (maxSwaps k)) /\
  exists k', run_blocks others n k = Ok k' /\ P k' /\ kv_swap_items k' = ∅.
Proof. intros HP Ho Hk Hn. split; [by apply EndBlock_plain|by apply run_blocks_drain]. Qed.
End queue_drains.

(** *** Two swaps *)

Section drain_witness.
Import Reference ReferenceBank ReferenceRange ReferenceAddress ReferenceText ReferenceSort.
#[local] Existing Instance bond_address.
#[local] Existing Instance bond_codec.
#[local] Existing Instance ledger_keys.
#[local] Existing Instance bond_accounts.
#[local] Instance drain_sha : Sha256 := {| sha256_hex s := s |}.
#[local] Instance drain_handlers : InternalHandlers := {| handle_internal _ _ _ := Err "no handler" |}.
#[local] Instance drain_build : BuildVersion := {| LatestVersion := semver_release 1 124 0 |}.
#[local] Instance drain_store : TxOutStore := TxOutStorage 5 newGasMgr.
#[local] Instance drain_swaps : SwapActions := SwapQueueActions newGasMgr.

Definition chain_hash (n : Z) : TxID :=
  "ABCDEF0123456789ABCDEF0123456789ABCDEF0123456789ABCDEF012345678" +:+ print_int n.

(** 500 CACAO of "bob" for bitcoin, [limit] at the least. *)
Definition swap_message (id : TxID) (amount limit : Z) : MsgSwap :=
  NewMsgSwap (mkTx id BASEChain "maya1bob" "maya1asgard" [NewCoin BaseAsset amount] [] "=:BTC.BTC:3bob") BTCAsset
    "3bob" limit NoAddress 0 EmptyString EmptyString None OrderType_market 0 0 "bob".

(** A store of one block with two swaps, the second of which asks for more than it gets. *)
Definition drain_start : outcome KVStore :=
  k ← market_start;
  let k := SetMimir (SetMimir k "MinSwapsPerBlock" 1) "MaxSwapsPerBlock" 2 in
  let k := SetMimir k "VirtualMultSynthsBasisPoints" 10000 in
  let k := set_kv_bank k (ReferenceBank.mkState
      (<[(ReserveName, Asset_Native BaseAsset) := 5000]> (<[(AsgardName, Asset_Native BaseAsset) := 10000]> ∅))
      (<[Asset_Native BaseAsset := 15000]> ∅)) in
  Ok (SetSwapQueueItem (SetSwapQueueItem k (swap_message (chain_hash 1) 300 0) 0)
        (swap_message (chain_hash 2) 200 5000) 0).

(** The first swap is accepted, the second one is not. *)
Definition drain_check (r : outcome KVStore) : bool :=
  match r with
  | Ok k => settling 2 k && (size (kv_swap_items k) =? 2)%nat
      && match swap_handle k (swap_message (chain_hash 1) 300 0) with Ok (_, inl _) => true | _ => false end
      && match swap_handle k (swap_message (chain_hash 2) 200 5000) with Ok (_, inr _) => true | _ => false end
  | _ => false
  end.

Lemma drain_checked : drain_check drain_start = true.
Proof. by vm_compute. Qed.

Lemma drain_check_spec r : drain_check r = true -> exists k, r = Ok k /\ settles k /\ size (kv_swap_items k) = 2%nat.
Proof.
  destruct r as [k| |]; [|done..]. unfold drain_check. rewrite !andb_true_iff, Nat.eqb_eq.
  intros [[[H1 H2] _] _]. exists k. split; [done|]. split; [by exists 2%nat|done].
Qed.

Lemma queue_drains_witness : exists k, drain_start = Ok k /\ size (kv_swap_items k) = 2%nat /\
  exists k', run_blocks (fun _ k => k) 2 k = Ok k' /\ kv_swap_items k' = ∅.
Proof.
  destruct (drain_check_spec _ drain_checked) as (k & E & Hk & Hs). exists k. split; [exact E|]. split; [exact Hs|].
  destruct (queue_drains newGasMgr settles (fun _ k => k) 2 k settles_quiet (fun _ k Hk => conj Hk eq_refl) Hk)
    as (_ & k' & Hr & _ & Hq).
  - rewrite Hs. apply Nat.le_refl.
  - exists k'. exact (conj Hr Hq).
Defined.
End drain_witness.
