(* ===== verification/OutboundHandlers.v ===== *)
(** [x/mayachain/handler_common_outbound.go], [handler_outbound_tx.go] and
    [handler_refund.go]: an outbound transaction that the nodes have observed settles
    the item it pays, and one that pays no item slashes the vault it left. *)
From stdpp Require Import pretty.
From S2P Require Import Prelude GoText Sdk Constants Floats Shares Chains Keys Addresses Assets Coins Txs.
From S2P Require Import NodeAccounts Votes TxOuts Vaults ObservedTxs Pools Mimirs StreamingSwaps SwapMsgs.
From S2P Require Import LiquidityProviders Records MayaNames Stores Keeper Nodes Bonds VaultStore Halts Gas.
From S2P Require Import TradeAccounts Swapper Swaps Affiliates Decimals Memos Collectors SwapChecks.
From S2P Require Import Liquidity AddLiquidity LiquidityBooks Withdraw WithdrawBooks Slashing Bonding BondBooks.
From S2P Require Import LiquidityLedger Outbounds.
From S2P Require Import OutboundBooks.

Definition MaxETHGas : Z := 50000000.

Section outbound_handlers.
Context `{V : Semver} `{B : CosmosBank} `{A : SdkAddress} `{R : MapRange} `{L : AddressLib}.
Context `{U : SdkUint} `{D : SdkDec} `{T : UintText} `{C : PubKeyCodec} `{K : PubKeyAddress} {TO : TxOutStore}.
Context `{SS : SliceSort}.
Implicit Types (k : KVStore) (gm : GasMgr).

(** ** Heights *)

(** A smaller height is ignored. *)
Definition SetLastSignedHeight k (height : Z) : KVStore :=
  if height <? bl_last_signed (kv_ballots k) then k else set_bl_last_signed k height.

Definition GetLastSignedHeight k : Z := bl_last_signed (kv_ballots k).

Definition GetLastChainHeight k (chain : Chain) : Z :=
  default 0 (bl_chain_heights (kv_ballots k) !! GetKey (Chain_String chain)).

Definition SetLastChainHeight k (chain : Chain) (height : Z) : outcome KVStore :=
  if height <? GetLastChainHeight k chain
  then Err "last block height %d is larger than %d, block height can't go backward "
  else Ok (set_bl_chain_heights k (<[GetKey (Chain_String chain) := height]> (bl_chain_heights (kv_ballots k)))).

(** ** Which item a transaction pays *)

Definition item_matches (tx : ObservedTx) (inTxID : TxID) (item : TxOutItem) : bool :=
  TxID_Equals (InHash item) inTxID
  && TxID_IsEmpty (OutHash item)
  && Chain_Equals (Tx_Chain (Obs_Tx tx)) (Toi_Chain item)
  && Address_Equals (ToAddress (Obs_Tx tx)) (Toi_ToAddress item)
  && EqualFold (ObservedTxs.Aggregator tx) (Toi_Aggregator item)
  && EqualFold (AggregatorTarget tx) (AggregatorTargetAsset item)
  && PubKey_Equals (ObservedPubKey tx) (Toi_VaultPubKey item).

(** The coin of the item, or that coin rounded to the decimals of its pool. *)
Definition coin_matches k (tx : Tx) (item : TxOutItem) : outcome bool :=
  let coin := Toi_Coin item in
  if Coins_EqualsEx (Tx_Coins tx) [coin] then Ok true
  else
    let p := GetPool k (Coin_Asset coin) in
    if Pool_IsEmpty p then Ok false
    else
      amount ← RoundToDecimal (Coin_Amount coin) (Pool_Decimals p);
      Ok (Coins_EqualsEx (Tx_Coins tx) [NewCoin (Coin_Asset coin) amount]).

Definition gas_spent (asset : Asset) (gas : Gas) : Z := Coin_Amount (GetCoin (ToCoins gas) asset).

(** An outbound of the gas asset may spend less on gas and pay more; what it does not
    spend is noted with the gas manager. *)
Definition gas_matches gm (tx : Tx) (item : TxOutItem) : outcome (GasMgr * bool) :=
  let asset := GetGasAsset (Toi_Chain item) in
  if negb (Asset_Equals (Coin_Asset (Toi_Coin item)) asset) then Ok (gm, false)
  else
    let maxGasAmt := gas_spent asset (MaxGas item) in
    let realGasAmt := gas_spent asset (Tx_Gas tx) in
    intendToSpend ← uint_add (Coin_Amount (Toi_Coin item)) maxGasAmt;
    actualSpend ← uint_add (Coin_Amount (GetCoin (Tx_Coins tx) asset)) realGasAmt;
    if negb (intendToSpend =? actualSpend) then Ok (gm, false)
    else if realGasAmt <? maxGasAmt then
      diffGas ← uint_sub maxGasAmt realGasAmt;
      gm ← AddGasAsset gm [NewCoin asset diffGas] false;
      Ok (gm, true)
    else Ok (gm, negb (maxGasAmt <? realGasAmt)).

(** More gas than the limit of Ethereum, on a transaction that was given less. *)
Definition eth_overspent (tx : Tx) (item : TxOutItem) : bool :=
  Chain_Equals (Toi_Chain item) ETHChain
  && (MaxETHGas <=? gas_spent ETHAsset (Tx_Gas tx)) && (gas_spent ETHAsset (MaxGas item) <? MaxETHGas).

Definition match_coin gm k (tx : Tx) (item : TxOutItem) : outcome (GasMgr * bool) :=
  exact ← coin_matches k tx item;
  '(gm, matched) ← (if exact : bool then Ok (gm, true) else gas_matches gm tx item);
  Ok (gm, matched && negb (eth_overspent tx item)).

Definition with_OutHash (i : TxOutItem) (h : TxID) : TxOutItem :=
  mkTxOutItem (Toi_Chain i) (Toi_ToAddress i) (Toi_VaultPubKey i) (Toi_Coin i) (Toi_Memo i) (MaxGas i)
    (GasRate i) (InHash i) h (TxOuts.ModuleName i) (Toi_Aggregator i) (AggregatorTargetAsset i)
    (Toi_AggregatorTargetLimit i) (VaultPubKeyEddsa i).

(** The first item of a block that the transaction pays gets its hash. *)
Fixpoint settle_items gm k (tx : ObservedTx) (inTxID : TxID) (items : list TxOutItem)
  : outcome (GasMgr * option (list TxOutItem)) :=
  match items with
  | [] => Ok (gm, None)
  | item :: items' =>
      '(gm, matched) ← (if item_matches tx inTxID item then match_coin gm k (Obs_Tx tx) item
                        else Ok (gm, false));
      if matched : bool then Ok (gm, Some (with_OutHash item (Tx_ID (Obs_Tx tx)) :: items'))
      else
        '(gm, r) ← settle_items gm k tx inTxID items';
        Ok (gm, option_map (cons item) r)
  end.

(** One scheduled block; those older than a signing period are expired. *)
Definition settle_height (tx : ObservedTx) (inTxID : TxID) (period : Z) (s : GasMgr * KVStore * bool)
    (height : Z) : outcome (GasMgr * KVStore * bool) :=
  let '(gm, k, shouldSlash) := s in
  if height <? i64 (kv_height k - period) then Ok (gm, k, shouldSlash)
  else
    let txOut := GetTxOut k height in
    '(gm, r) ← settle_items gm k tx inTxID (TxArray txOut);
    match r with
    | Some items => Ok (gm, SetTxOut k (mkTxOut (TxOut_Height txOut) items), false)
    | None => Ok (gm, k, shouldSlash)
    end.

(** [for height := outHeight; height <= ctx.BlockHeight(); height += period], for a
    positive period. *)
Definition outbound_heights (outHeight current period : Z) : list Z :=
  map (fun i => outHeight + Z.of_nat i * period)
    (seq 0 (Z.to_nat ((current - outHeight) `div` period + 1))).

(** ** The handler *)

Definition slashV96 k (tx : ObservedTx) : outcome (KVStore * option string) :=
  toSlash ← Adds_deprecated (Tx_Coins (Obs_Tx tx)) (ToCoins (Tx_Gas (Obs_Tx tx)));
  SlashVaultToLP k (ObservedPubKey tx) toSlash true.

Definition voter_out_height (voter : ObservedTxVoter) : Z :=
  if OutboundHeight voter =? 0 then FinalisedHeight voter else OutboundHeight voter.

Definition common_outbound_handleV96 gm k (tx : ObservedTx) (inTxID : TxID) : outcome (GasMgr * KVStore) :=
  '(k, voter) ← note_out_tx k (Obs_Tx tx) inTxID;
  if Chain_Equals (Tx_Chain (Obs_Tx tx)) BASEChain then Ok (gm, k)
  else
    let signingTransPeriod := kv_constants k "SigningTransactionPeriod" in
    '(gm, k, shouldSlash) ←
      foldM (settle_height tx inTxID signingTransPeriod) (gm, k, true)
        (outbound_heights (voter_out_height voter) (kv_height k) signingTransPeriod);
    k ← (if shouldSlash : bool then
           '(k, failed) ← slashV96 k tx;
           match failed with Some e => Err e | None => Ok k end
         else Ok k);
    Ok (gm, SetLastSignedHeight k (FinalisedHeight voter)).

Definition common_outbound_handle gm k (tx : ObservedTx) (inTxID : TxID) : outcome (GasMgr * KVStore) :=
  if GTE (kv_version k) (semver_release 1 96 0) then common_outbound_handleV96 gm k tx inTxID
  else Err "bad version".

Definition outbound_Run gm k (msg : MsgOutboundTx) : outcome (GasMgr * KVStore) :=
  _ ← (if GTE (kv_version k) (semver_release 0 1 0) then MsgOutboundTx_ValidateBasic msg else Err "bad version");
  common_outbound_handle gm k (OutMsg_Tx msg) (OutMsg_InTxID msg).

Definition refund_Run gm k (msg : MsgRefundTx) : outcome (GasMgr * KVStore) :=
  _ ← (if GTE (kv_version k) (semver_release 0 1 0) then MsgRefundTx_ValidateBasic msg else Err "bad version");
  common_outbound_handle gm k (Refund_Tx msg) (Refund_InTxID msg).

(** ** What the handler does *)

(** The item is open, it asks for what the transaction did, and the amounts agree. *)
Definition answers k (tx : ObservedTx) (inTxID : TxID) (item : TxOutItem) : Prop :=
  item_matches tx inTxID item = true /\ exists gm gm', match_coin gm k (Obs_Tx tx) item = Ok (gm', true).

(** The first item of a block that answers, if there is one, gets the hash. *)
Definition block_settled k (tx : ObservedTx) (inTxID : TxID) (items items' : list TxOutItem) : Prop :=
  exists before item after, items = before ++ item :: after /\
    Forall (fun i => ~ answers k tx inTxID i) before /\ answers k tx inTxID item /\
    items' = before ++ with_OutHash item (Tx_ID (Obs_Tx tx)) :: after.

Definition block_open k (tx : ObservedTx) (inTxID : TxID) (items : list TxOutItem) : Prop :=
  Exists (answers k tx inTxID) items.

Definition blocks_keyed k : Prop := map_Forall (fun h b => TxOut_Height b = h) (kv_tx_outs k).

Lemma gas_matches_agree gm1 gm2 tx item gm1' gm2' b1 b2 :
  gas_matches gm1 tx item = Ok (gm1', b1) -> gas_matches gm2 tx item = Ok (gm2', b2) -> b1 = b2.
Proof.
  unfold gas_matches. cbv zeta. destruct (negb _); [intros [= _ <-] [= _ <-]; done|].
  intros H1 H2. apply bind_Ok in H1 as (i1 & E1 & H1). rewrite E1 in H2. cbn [mbind outcome_bind] in H2.
  apply bind_Ok in H1 as (a1 & E2 & H1). rewrite E2 in H2. cbn [mbind outcome_bind] in H2.
  destruct (negb _); [congruence|]. destruct (_ <? _); [|congruence].
  apply bind_Ok in H1 as (d1 & E3 & H1). rewrite E3 in H2. cbn [mbind outcome_bind] in H2.
  apply bind_Ok in H1 as (g1 & _ & [= _ <-]). by apply bind_Ok in H2 as (g2 & _ & [= _ <-]).
Qed.

Lemma match_coin_agree gm1 gm2 k tx item gm1' gm2' b1 b2 :
  match_coin gm1 k tx item = Ok (gm1', b1) -> match_coin gm2 k tx item = Ok (gm2', b2) -> b1 = b2.
Proof.
  unfold match_coin. intros H1 H2. apply bind_Ok in H1 as (e & E & H1). rewrite E in H2. cbn [mbind outcome_bind] in H2.
  apply bind_Ok in H1 as ([g1 m1] & E1 & [= _ <-]). apply bind_Ok in H2 as ([g2 m2] & E2 & [= _ <-]).
  destruct e; [injection E1 as _ <-; by injection E2 as _ <-|]. f_equal. by eapply gas_matches_agree.
Qed.

Lemma settle_items_spec k tx inTxID items : forall gm gm' r,
  settle_items gm k tx inTxID items = Ok (gm', r) ->
  match r with
  | Some items' => block_settled k tx inTxID items items'
  | None => ~ block_open k tx inTxID items
  end.
Proof.
  induction items as [|item items IHi]; intros gm gm' r H.
  { injection H as _ <-. intros Hx. by inversion Hx. }
  cbn [settle_items] in H. apply bind_Ok in H as ([gm1 b] & H1 & H).
  assert (Hb : b = true <-> answers k tx inTxID item).
  { unfold answers. destruct (item_matches tx inTxID item).
    - split; [intros ->; eauto|]. intros (_ & g & g' & Hg). by eapply match_coin_agree.
    - injection H1 as _ <-. split; [done|]. by intros [? _]. }
  destruct b.
  - injection H as _ <-. exists [], item, items. split; [done|]. split; [constructor|].
    split; [by apply Hb|done].
  - apply bind_Ok in H as ([gm2 r'] & H2%IHi & [= _ <-]).
    assert (Hn : ~ answers k tx inTxID item) by (intros Ha%Hb; done).
    destruct r' as [items'|]; cbn.
    + destruct H2 as (l & i & r & -> & Hl & Hi & ->). exists (item :: l), i, r.
      split; [done|]. split; [by constructor|]. done.
    + intros Hx. inversion Hx; [by apply Hn|by apply H2].
Qed.

Lemma answers_tx_outs k m tx inTxID item :
  answers (set_kv_tx_outs k m) tx inTxID item <-> answers k tx inTxID item.
Proof. done. Qed.

Lemma GetTxOut_height k h : blocks_keyed k -> TxOut_Height (GetTxOut k h) = h.
Proof.
  intros Hk. unfold GetTxOut. destruct (kv_tx_outs k !! h) eqn:E; [|done]. by apply Hk in E.
Qed.


Definition block_items k (h : Z) : list TxOutItem := TxArray (GetTxOut k h).

(** A block that is not expired has its first answering item settled, if it has one. *)
Definition height_result k k' (tx : ObservedTx) (inTxID : TxID) (expired h : Z) : Prop :=
  (expired <= h /\ block_settled k tx inTxID (block_items k h) (block_items k' h)) \/
  (GetTxOut k' h = GetTxOut k h /\ (expired <= h -> ~ block_open k tx inTxID (block_items k h))).

Lemma block_settled_open k tx inTxID l l' : block_settled k tx inTxID l l' -> block_open k tx inTxID l.
Proof. intros (l1 & i & r & -> & _ & Hi & _). apply Exists_app. right. by left. Qed.

Lemma settle_height_spec tx inTxID period gm k s h gm' k' s' :
  blocks_keyed k -> settle_height tx inTxID period (gm, k, s) h = Ok (gm', k', s') ->
  (exists m, k' = set_kv_tx_outs k m) /\ blocks_keyed k' /\
  (forall h', h' <> h -> GetTxOut k' h' = GetTxOut k h') /\
  height_result k k' tx inTxID (i64 (kv_height k - period)) h /\
  (s' = false <-> s = false \/
     (i64 (kv_height k - period) <= h /\ block_open k tx inTxID (block_items k h))) /\
  (s' = true -> k' = k).
Proof.
  intros Hk H. unfold settle_height in H. set (low := i64 (kv_height k - period)) in *. clearbody low.
  assert (Hsame : exists m, k = set_kv_tx_outs k m) by (exists (kv_tx_outs k); by destruct k).
  destruct (Z.ltb_spec h low) as [Hlow|Hlow].
  { injection H as <- <- <-. split_and!; try done; [right; split; [done|lia]|]. split; [by left|]. intros [?|[? _]]; [done|lia]. }
  cbv zeta in H. apply bind_Ok in H as ([gm1 r] & Hr%settle_items_spec & H).
  destruct r as [items|]; injection H as <- <- <-.
  - assert (Hne : TxOut_IsEmpty (mkTxOut (TxOut_Height (GetTxOut k h)) items) = false).
    { destruct Hr as (l & i & r & _ & _ & _ & ->). unfold TxOut_IsEmpty. cbn. by destruct l. }
    unfold SetTxOut. rewrite Hne. cbn [TxOut_Height]. rewrite GetTxOut_height by done.
    split_and!.
    + by eexists.
    + intros h' b. cbn. intros [[<- <-]|[_ Hb]]%lookup_insert_Some; [done|by apply Hk].
    + intros h' Hh. unfold GetTxOut. cbn. by rewrite lookup_insert_ne.
    + left. split; [done|]. unfold block_items at 2, GetTxOut. cbn. rewrite lookup_insert_eq. exact Hr.
    + split; [|done]. intros _. right. split; [done|]. by eapply block_settled_open.
    + done.
  - split_and!; try done; [right; by split|]. split; [by left|]. by intros [?|[_ ?]].
Qed.

Lemma settle_heights_spec tx inTxID period hs : forall gm k s gm' k' s',
  NoDup hs -> blocks_keyed k -> foldM (settle_height tx inTxID period) (gm, k, s) hs = Ok (gm', k', s') ->
  (exists m, k' = set_kv_tx_outs k m) /\
  (forall h, h ∉ hs -> GetTxOut k' h = GetTxOut k h) /\
  (forall h, h ∈ hs -> height_result k k' tx inTxID (i64 (kv_height k - period)) h) /\
  (s' = false <-> s = false \/
     exists h, h ∈ hs /\ i64 (kv_height k - period) <= h /\ block_open k tx inTxID (block_items k h)) /\
  (s' = true -> k' = k).
Proof.
  induction hs as [|h hs IHh]; intros gm k s gm' k' s' Hd Hk H.
  { injection H as <- <- <-. split_and!; [exists (kv_tx_outs k); by destruct k|done|by intros ? ?%elem_of_nil| |done].
    split; [by left|]. intros [?|(h & []%elem_of_nil & _)]; done. }
  cbn [foldM] in H. apply bind_Ok in H as ([[gm1 k1] s1] & H1%settle_height_spec & H); [|done].
  apply NoDup_cons in Hd as [Hn Hd]. destruct H1 as ([m ->] & Hk1 & Hoth & Hh & Hs1 & Hks1).
  apply IHh in H as ([m' ->] & Hout & Hin & Hs & Hks); [|done..]. clear IHh.
  split_and!.
  - by exists m'.
  - intros h' [Hne Hni]%not_elem_of_cons. rewrite Hout by done. by apply Hoth.
  - intros h' [->|Hh']%elem_of_cons.
    + unfold height_result, block_items in *. by rewrite Hout.
    + assert (Hne : h' <> h) by (intros ->; done). specialize (Hin _ Hh').
      unfold height_result, block_items in *. rewrite (Hoth _ Hne) in Hin. exact Hin.
  - rewrite Hs, Hs1. split.
    + intros [[?|?]|(h' & Hh' & Hl & Ho)]; [by left|right; exists h; split; [by left|done]|].
      right. exists h'. assert (Hne : h' <> h) by (intros ->; done). unfold block_items in Ho.
      rewrite (Hoth _ Hne) in Ho. split; [by right|done].
    + intros [?|(h' & [->|Hh']%elem_of_cons & Hl & Ho)]; [by left; left|by left; right|].
      right. exists h'. assert (Hne : h' <> h) by (intros ->; done). unfold block_items.
      rewrite (Hoth _ Hne). done.
  - intros Hs'. destruct s1.
    + etrans; [by apply Hks|by apply Hks1].
    + rewrite (proj2 Hs) in Hs'; [done|by left].
Qed.

Lemma outbound_heights_spec out current period h : 0 < period ->
  h ∈ outbound_heights out current period <->
  out <= h <= current /\ exists n : nat, h = out + Z.of_nat n * period.
Proof.
  intros Hp. unfold outbound_heights. rewrite list_elem_of_fmap. split.
  - intros (i & -> & Hi%elem_of_seq). pose proof (Z.mul_div_le (current - out) period Hp). split; [nia|eauto].
  - intros [Hh (n & ->)]. exists n. split; [done|]. apply elem_of_seq.
    assert (Z.of_nat n <= (current - out) / period) by (apply Z.div_le_lower_bound; lia). lia.
Qed.

Lemma outbound_heights_NoDup out current period : 0 < period -> NoDup (outbound_heights out current period).
Proof.
  intros Hp. unfold outbound_heights. apply NoDup_fmap_2; [|apply NoDup_seq]. intros i j Hij. nia.
Qed.

Lemma note_out_blocks k tx txID k' voter : note_out_tx k tx txID = Ok (k', voter) ->
  kv_tx_outs k' = kv_tx_outs k /\ kv_height k' = kv_height k /\ kv_constants k' = kv_constants k.
Proof. unfold note_out_tx. intros H. by apply bind_Ok in H as ([v b] & _ & [= <- _]). Qed.

(** The blocks an outbound may be scheduled in: a signing period apart, from the one it
    was first scheduled for. *)
Definition due_block k (voter : ObservedTxVoter) (h : Z) : Prop :=
  voter_out_height voter <= h <= kv_height k /\
  exists n : nat, h = voter_out_height voter + Z.of_nat n * kv_constants k "SigningTransactionPeriod".

(** C10: an outbound transaction that the nodes observed settles what it pays and
    nothing else: in every block it may be scheduled in that is not expired, the first
    open item that asks for it gets its hash. If one of these blocks has such an item no
    funds move; otherwise the vault is slashed for the coins and the gas, and no item
    is settled. *)
Theorem common_outbound_spec gm k tx inTxID gm' k' :
  Chain_Equals (Tx_Chain (Obs_Tx tx)) BASEChain = false -> 0 < kv_constants k "SigningTransactionPeriod" ->
  blocks_keyed k -> common_outbound_handleV96 gm k tx inTxID = Ok (gm', k') ->
  exists k1 voter k2, note_out_tx k (Obs_Tx tx) inTxID = Ok (k1, voter) /\
    k' = SetLastSignedHeight k2 (FinalisedHeight voter) /\
    let expired := i64 (kv_height k - kv_constants k "SigningTransactionPeriod") in
    let due_open h := due_block k voter h /\ expired <= h /\ block_open k1 tx inTxID (block_items k h) in
    ((exists h, due_open h) /\ (exists m, k2 = set_kv_tx_outs k1 m) /\
     (forall h, due_block k voter h -> height_result k1 k2 tx inTxID expired h) /\
     (forall h, ~ due_block k voter h -> GetTxOut k2 h = GetTxOut k h)) \/
    ((forall h, ~ due_open h) /\ slashV96 k1 tx = Ok (k2, None)).
Proof.
  intros Hc Hp Hk H. unfold common_outbound_handleV96 in H. apply bind_Ok in H as ([k1 voter] & Hn & H).
  pose proof (note_out_blocks _ _ _ _ _ Hn) as (Ht & Hh & Hcs). rewrite Hc, Hcs, Hh in H. cbv zeta in H.
  apply bind_Ok in H as ([[gm1 k2] s] & H1 & H).
  apply settle_heights_spec in H1 as ([m ->] & Hout & Hin & Hs & Hks);
    [|by apply outbound_heights_NoDup|unfold blocks_keyed; by rewrite Ht]. rewrite ?Hh, ?Hcs in *.
  assert (Hg : forall h, GetTxOut k1 h = GetTxOut k h) by (intros h; unfold GetTxOut; by rewrite Ht).
  assert (Hd : forall h, due_block k voter h <-> h ∈ outbound_heights (voter_out_height voter) (kv_height k)
      (kv_constants k "SigningTransactionPeriod")) by (intros h; symmetry; by apply outbound_heights_spec).
  apply bind_Ok in H as (k3 & H3 & [= _ <-]). exists k1, voter. destruct s.
  - rewrite (Hks eq_refl) in H3. apply bind_Ok in H3 as ([k4 [e|]] & H4 & H3); [done|]. injection H3 as <-.
    exists k4. split; [exact Hn|]. split; [done|]. right. split; [|exact H4]. intros h (Hdue & Hl & Ho).
    assert (Hf : true = false); [|done]. apply Hs. right. exists h. unfold block_items in *. rewrite Hg.
    split; [by apply Hd|done].
  - injection H3 as <-. exists (set_kv_tx_outs k1 m). split; [exact Hn|]. split; [done|]. left.
    destruct (proj1 Hs eq_refl) as [|(h & Hdue & Hl & Ho)]; [done|]. split; [|split; [by eexists|split]].
    + exists h. unfold block_items in *. rewrite Hg in Ho. split; [by apply Hd|done].
    + intros h' Hh'. apply Hin. by apply Hd.
    + intros h' Hh'. rewrite <- Hg. apply Hout. by rewrite <- Hd.
Qed.
End outbound_handlers.

(** ** A scheduled payment is made *)

Section outbound_witness.
Import Reference ReferenceBank ReferenceRange ReferenceAddress ReferenceText ReferenceSort.
#[local] Existing Instance bond_address.
#[local] Existing Instance bond_codec.
#[local] Existing Instance ledger_keys.
#[local] Instance outbound_sha : Sha256 := {| sha256_hex s := s |}.
#[local] Instance outbound_handlers : InternalHandlers := {| handle_internal _ _ _ := Err "no handler" |}.
#[local] Instance outbound_txout : TxOutStore := TxOutStorage 5 newGasMgr.

Definition paid_hash : TxID := "1234560123456789ABCDEF0123456789ABCDEF0123456789ABCDEF0123456789".

Definition paid_item (h : TxID) : TxOutItem :=
  with_OutHash (mkTxOutItem BTCChain "3bob" "vault" (NewCoin BTCAsset 100) "OUT" [NewCoin BTCAsset 7] 1 market_hash
    EmptyString EmptyString EmptyString EmptyString None EmptyPubKey) h.

(** 103 bitcoins with 4 of gas for an item of 100 with 7, which was scheduled twice: the
    3 of gas that are saved are noted twice. *)
Definition paid_tx : ObservedTx :=
  mkObservedTx (mkTx paid_hash BTCChain "3vault" "3bob" [NewCoin BTCAsset 103] [NewCoin BTCAsset 4] "OUT")
    Status_incomplete [] 3 [] "vault" 0 3 EmptyString EmptyString None.

Definition paid_voter : ObservedTxVoter :=
  mkObservedTxVoter market_hash paid_tx 4 [] [] [] 4 false false 5.

Definition paid_start : KVStore :=
  let k := empty_kv (semver_release 1 124 0) (fun s => if String.eqb s "SigningTransactionPeriod" then 5 else 0)
             10 ReferenceBank.empty in
  SetObservedTxInVoter (AppendTxOut (AppendTxOut k 5 (paid_item EmptyString)) 10 (paid_item EmptyString)) paid_voter.

Definition paid_run : outcome (GasMgr * KVStore) := common_outbound_handleV96 newGasMgr paid_start paid_tx market_hash.

Definition paid_check (r : outcome (GasMgr * KVStore)) : bool :=
  match r with
  | Ok (gm, k) => bool_decide (block_items k 5 = [paid_item paid_hash] /\ block_items k 10 = [paid_item paid_hash])
                  && (gas_spent BTCAsset (gm_gas gm) =? 6)
  | _ => false
  end.

Lemma paid_keyed : blocks_keyed paid_start.
Proof. unfold blocks_keyed. apply (bool_decide_unpack _). by vm_compute. Qed.

Lemma paid_checked : paid_check paid_run = true.
Proof. by vm_compute. Qed.

Lemma common_outbound_spec_witness :
  exists gm k', paid_run = Ok (gm, k') /\ block_items k' 10 = [paid_item paid_hash] /\
    exists k1 voter k2, note_out_tx paid_start (Obs_Tx paid_tx) market_hash = Ok (k1, voter) /\
      k' = SetLastSignedHeight k2 (FinalisedHeight voter).
Proof.
  destruct paid_run as [[gm k']| |] eqn:E; pose proof paid_checked as Hc; rewrite E in Hc; [|discriminate Hc..].
  cbn [paid_check] in Hc. apply andb_true_iff in Hc as [[_ H10]%bool_decide_eq_true _].
  assert (Hn : Chain_Equals (Tx_Chain (Obs_Tx paid_tx)) BASEChain = false) by by vm_compute.
  assert (Hp : 0 < kv_constants paid_start "SigningTransactionPeriod") by by vm_compute.
  destruct (common_outbound_spec newGasMgr paid_start paid_tx market_hash gm k' Hn Hp paid_keyed E)
    as (k1 & voter & k2 & H1 & H2 & _).
  exists gm, k'. split; [reflexivity|]. split; [exact H10|]. exists k1, voter, k2. split; [exact H1|exact H2].
Defined.
End outbound_witness.
