(* ===== verification/InternalTxs.v ===== *)
(** Transactions of the network itself: [x/mayachain/handler_migrate.go],
    [handler_ragnarok.go], [handler_yggdrasil.go], [handler_consolidate.go] and
    [handler_noop.go], with their messages. *)
From stdpp Require Import pretty.
From S2P Require Import Prelude GoText Sdk Constants Floats Shares Chains Keys Addresses Assets Coins Txs.
From S2P Require Import NodeAccounts Votes TxOuts Vaults ObservedTxs Pools Mimirs StreamingSwaps SwapMsgs.
From S2P Require Import LiquidityProviders Records MayaNames Stores Keeper Nodes Bonds VaultStore Halts Gas.
From S2P Require Import TradeAccounts Swapper Swaps Affiliates Decimals Memos Collectors SwapChecks.
From S2P Require Import Liquidity AddLiquidity LiquidityBooks Withdraw WithdrawBooks Slashing Bonding BondBooks.
From S2P Require Import LiquidityLedger Outbounds.
From S2P Require Import OutboundBooks OutboundHandlers.

(** ** Messages *)

Record MsgMigrate := mkMsgMigrate {
  Migrate_Tx : ObservedTx;
  Migrate_BlockHeight : Z;
  Migrate_Signer : AccAddress;
}.

Record MsgRagnarok := mkMsgRagnarok {
  Ragnarok_Tx : ObservedTx;
  Ragnarok_BlockHeight : Z;
  Ragnarok_Signer : AccAddress;
}.

Record MsgYggdrasil := mkMsgYggdrasil {
  Ygg_Tx : Tx;
  Ygg_PubKey : PubKey;
  Ygg_BlockHeight : Z;
  Ygg_AddFunds : bool;
  Ygg_Coins : Coins;
  Ygg_Signer : AccAddress;
}.

Record MsgConsolidate := mkMsgConsolidate {
  Consolidate_Tx : ObservedTx;
  Consolidate_Signer : AccAddress;
}.

Record MsgNoOp := mkMsgNoOp {
  NoOp_Tx : ObservedTx;
  NoOp_Signer : AccAddress;
  NoOp_Action : string;
}.

Section internal_messages.
Context `{A : SdkAddress}.

Definition height_msg_valid (tx : ObservedTx) (height : Z) (signer : AccAddress) : outcome unit :=
  if acc_empty signer then Err "invalid address"
  else if height <=? 0 then Err "invalid block height"
  else ObservedTx_Valid tx.

Definition MsgMigrate_ValidateBasic (m : MsgMigrate) : outcome unit :=
  height_msg_valid (Migrate_Tx m) (Migrate_BlockHeight m) (Migrate_Signer m).

Definition MsgRagnarok_ValidateBasic (m : MsgRagnarok) : outcome unit :=
  height_msg_valid (Ragnarok_Tx m) (Ragnarok_BlockHeight m) (Ragnarok_Signer m).

Definition MsgYggdrasil_ValidateBasic (m : MsgYggdrasil) : outcome unit :=
  if acc_empty (Ygg_Signer m) then Err "invalid address"
  else if PubKey_IsEmpty (Ygg_PubKey m) then Err "pubkey cannot be empty"
  else if Ygg_BlockHeight m <=? 0 then Err "invalid block height"
  else
    _ ← Tx_Valid (Ygg_Tx m);
    if (length (Ygg_Coins m) =? 0)%nat then Err "no coins" else Coins_Valid (Ygg_Coins m).

Definition MsgConsolidate_ValidateBasic (m : MsgConsolidate) : outcome unit :=
  _ ← ObservedTx_Valid (Consolidate_Tx m);
  if acc_empty (Consolidate_Signer m) then Err "invalid address" else Ok tt.

Definition MsgNoOp_ValidateBasic (m : MsgNoOp) : outcome unit :=
  _ ← ObservedTx_Valid (NoOp_Tx m);
  if acc_empty (NoOp_Signer m) then Err "invalid address" else Ok tt.
End internal_messages.

Section internal_txs.
Context `{V : Semver} `{B : CosmosBank} `{A : SdkAddress} `{R : MapRange} `{L : AddressLib}.
Context `{U : SdkUint} `{D : SdkDec} `{T : UintText} `{C : PubKeyCodec} `{K : PubKeyAddress} {TO : TxOutStore}.
Context `{SS : SliceSort}.
Implicit Types (k : KVStore).

(** ** Items that the network scheduled itself *)

(** An item without an inbound transaction, from the address of its vault. *)
Definition moves_between (item : TxOutItem) (tx : Tx) : bool :=
  let fromAddress := match pubkey_address (Toi_VaultPubKey item) (Toi_Chain item) with
                     | Ok a => a | _ => NoAddress end in
  TxID_Equals (InHash item) BlankTxID && TxID_IsEmpty (OutHash item)
  && Address_Equals (Toi_ToAddress item) (ToAddress tx) && Address_Equals fromAddress (FromAddress tx).

(** The gas asset may pay for its gas, up to the limit. *)
Definition gas_within (item : TxOutItem) (tx : Tx) : outcome bool :=
  let asset := GetGasAsset (Toi_Chain item) in
  if negb (Asset_Equals (Coin_Asset (Toi_Coin item)) asset) then Ok false
  else
    intendToSpend ← uint_add (Coin_Amount (Toi_Coin item)) (gas_spent asset (MaxGas item));
    actualSpend ← uint_add (Coin_Amount (GetCoin (Tx_Coins tx) asset)) (gas_spent asset (Tx_Gas tx));
    Ok ((intendToSpend =? actualSpend) && (gas_spent asset (Tx_Gas tx) <=? gas_spent asset (MaxGas item))).

(** The first item that [accept] takes gets the hash; [None] when there is none. *)
Fixpoint settle_internal (accept : TxOutItem -> outcome bool) (tx : Tx) (items : list TxOutItem)
  : outcome (option (list TxOutItem)) :=
  match items with
  | [] => Ok None
  | item :: items' =>
      matched ← (if moves_between item tx then accept item else Ok false);
      if matched : bool then Ok (Some (with_OutHash item (Tx_ID tx) :: items'))
      else r ← settle_internal accept tx items'; Ok (option_map (cons item) r)
  end.

Definition settle_internal_height k (accept : TxOutItem -> outcome bool) (tx : Tx) (height : Z) : outcome (KVStore * bool) :=
  let txOut := GetTxOut k height in
  r ← settle_internal accept tx (TxArray txOut);
  Ok (match r with
      | Some items => (SetTxOut k (mkTxOut (TxOut_Height txOut) items), true)
      | None => (k, false)
      end).

(** The vault is slashed for the coins and the gas; an error fails the message. *)
Definition slash_tx k (pk : PubKey) (tx : Tx) (subsidize : bool) : outcome KVStore :=
  toSlash ← Adds_deprecated (Tx_Coins tx) (ToCoins (Tx_Gas tx));
  '(k, failed) ← SlashVaultToLP k pk toSlash subsidize;
  match failed with Some _ => Err "fail to slash account" | None => Ok k end.

(** ** Migrations *)

Definition contains_coin (tx : Tx) (item : TxOutItem) : outcome bool :=
  if Coins_Contains (Tx_Coins tx) (Toi_Coin item) then Ok true else gas_within item tx.

Definition equals_coin (tx : Tx) (item : TxOutItem) : outcome bool :=
  if fst (Coins_Equals (Tx_Coins tx) [Toi_Coin item]) then Ok true else gas_within item tx.

Definition migrate_handleV96 k (msg : MsgMigrate) : outcome KVStore :=
  let tx := Obs_Tx (Migrate_Tx msg) in
  '(k, settled) ← settle_internal_height k (contains_coin tx) tx (Migrate_BlockHeight msg);
  k ← (if settled : bool then Ok k else slash_tx k (ObservedPubKey (Migrate_Tx msg)) tx true);
  Ok (SetLastSignedHeight k (Migrate_BlockHeight msg)).

Definition migrate_Run k (msg : MsgMigrate) : outcome KVStore :=
  _ ← (if GTE (kv_version k) (semver_release 0 1 0) then MsgMigrate_ValidateBasic msg else Err "bad version");
  if GTE (kv_version k) (semver_release 1 96 0) then migrate_handleV96 k msg else Err "bad version".

(** ** Ragnarok *)

(** The first item that is settled is one less to wait for. *)
Definition ragnarok_height (tx : Tx) (s : KVStore * bool) (height : Z) : outcome (KVStore * bool) :=
  let '(k, settled) := s in
  '(k, found) ← settle_internal_height k (equals_coin tx) tx height;
  Ok (if (found : bool) && negb settled
      then (set_bl_ragnarok_pending k (i64 (bl_ragnarok_pending (kv_ballots k) - 1)), true)
      else (k, settled)).

Definition ragnarok_handleV96 k (msg : MsgRagnarok) : outcome KVStore :=
  let tx := Obs_Tx (Ragnarok_Tx msg) in
  if Chain_Equals (Tx_Chain tx) BASEChain then Ok k
  else
    '(k, settled) ←
      foldM (ragnarok_height tx) (k, false)
        (outbound_heights (Ragnarok_BlockHeight msg) (kv_height k) (kv_constants k "SigningTransactionPeriod"));
    k ← (if settled : bool then Ok k else slash_tx k (ObservedPubKey (Ragnarok_Tx msg)) tx true);
    Ok (SetLastSignedHeight k (Ragnarok_BlockHeight msg)).

Definition ragnarok_Run k (msg : MsgRagnarok) : outcome KVStore :=
  _ ← (if GTE (kv_version k) (semver_release 0 1 0) then MsgRagnarok_ValidateBasic msg else Err "bad version");
  if GTE (kv_version k) (semver_release 1 96 0) then ragnarok_handleV96 k msg else Err "bad version".

(** ** Yggdrasil vaults *)

(** A vault that is not stored is a new one. *)
Definition vault_or_new k (pk : PubKey) : outcome Vault :=
  match GetVault k pk with
  | Err e => if String.eqb e errVaultNotFound
             then Ok (mkVault (kv_height k) pk [] VaultType_UnknownVault VaultStatus_InactiveVault 0 [] [] 0 0 [] []
                        [] EmptyPubKey)
             else Err e
  | r => r
  end.

Definition as_yggdrasil (m : Vault) : Vault :=
  mkVault (Vaults.BlockHeight m) (Vault_PubKey m) (Vault_Coins m) VaultType_YggdrasilVault VaultStatus_ActiveVault
    (Vault_StatusSince m) (Membership m) (Vault_Chains m) (InboundTxCount m) (OutboundTxCount m)
    (PendingTxBlockHeights m) (Routers m) (Frozen m) (PubKeyEddsa m).

Definition key_address_is (chain : Chain) (address : Address) (pk : PubKey) : bool :=
  match pubkey_address pk chain with
  | Ok addr => negb (Address_IsEmpty addr) && Address_Equals addr address
  | _ => false
  end.

(** Errors in listing the vaults or the account of the node are logged. *)
Definition returns_to_asgard k (msg : MsgYggdrasil) : bool :=
  let status := match GetNodeAccountByPubKey k (Ygg_PubKey msg) with
                | Ok na => NodeAccount_Status na | _ => NodeStatus_Unknown end in
  let vaults s := match GetAsgardVaultsByStatus k s with Ok vs => vs | _ => [] end in
  negb (status =? NodeStatus_Active)
  && existsb (fun v => key_address_is (Tx_Chain (Ygg_Tx msg)) (ToAddress (Ygg_Tx msg)) (Vault_PubKey v))
       (vaults VaultStatus_ActiveVault ++ vaults VaultStatus_RetiringVault).

Definition Vaults_HasAddress (vaults : list Vault) (chain : Chain) (address : Address) : outcome bool :=
  foldM (fun found v =>
    if found : bool then Ok true
    else match pubkey_address (Vault_PubKey v) chain with
         | Ok addr => Ok (Address_Equals addr address)
         | Err _ => Err "fail to get address from (%s) for chain(%s)"
         | Panic => Panic
         end) false vaults.

(** Whether all that is left on the chain of the contract is its gas asset. *)
Definition contract_free (vault : Vault) (contract : ChainContract) : bool :=
  if HasFundsForChain vault (Contract_Chain contract) then
    match List.filter (fun c => Chain_Equals (GetChain (Coin_Asset c)) (Contract_Chain contract)
                                && negb (Coin_Amount c =? 0)) (Vault_Coins vault) with
    | [c] => Asset_Equals (Coin_Asset c) (GetGasAsset (Contract_Chain contract))
    | _ => false
    end
  else true.

Definition update_contract (s : KVStore * Vault) (contract : ChainContract) : outcome (KVStore * Vault) :=
  let '(k, vault) := s in
  if contract_free vault contract then
    let vault := UpdateContract vault contract in
    k ← SetVault k vault; Ok (k, vault)
  else Ok (k, vault).

(** The routers of the last active vault. *)
Definition active_routers (vaults : list Vault) : list ChainContract :=
  foldl (fun routers v => if Vault_IsActive v then Routers v else routers) [] vaults.

Definition handleYggdrasilReturnV1 k (msg : MsgYggdrasil) (vault : Vault) (slashed : bool) : outcome KVStore :=
  if IsYggdrasil vault then
    asgardVaults ← GetAsgardVaults k;
    let vaults := List.filter (fun v => Vault_IsActive v || IsRetiring v) asgardVaults in
    isAsgardReceipient ← Vaults_HasAddress vaults (Tx_Chain (Ygg_Tx msg)) (ToAddress (Ygg_Tx msg));
    k ← (if isAsgardReceipient : bool then Ok k else slash_tx k (Ygg_PubKey msg) (Ygg_Tx msg) (negb slashed));
    '(k, _) ← foldM update_contract (k, vault) (active_routers asgardVaults);
    Ok k
  else Ok k.

(** A return only has to name the addresses, not the coins. *)
Definition yggdrasil_handleV96 k (msg : MsgYggdrasil) : outcome KVStore :=
  let tx := Ygg_Tx msg in
  let returned := negb (Ygg_AddFunds msg) && returns_to_asgard k msg in
  '(k, settled) ← settle_internal_height k (fun item => m ← equals_coin tx item; Ok (negb (Ygg_AddFunds msg) || m)) tx
                    (Ygg_BlockHeight msg);
  let shouldSlash := negb (returned || settled) in
  k ← (if shouldSlash then slash_tx k (Ygg_PubKey msg) tx true else Ok k);
  vault ← vault_or_new k (Ygg_PubKey msg);
  let vault := if Vault_IsType vault VaultType_UnknownVault then as_yggdrasil vault else vault in
  let k := SetLastSignedHeight k (Ygg_BlockHeight msg) in
  if Ygg_AddFunds msg then Ok k else handleYggdrasilReturnV1 k msg vault shouldSlash.

Definition yggdrasil_Run k (msg : MsgYggdrasil) : outcome KVStore :=
  _ ← (if GTE (kv_version k) (semver_release 0 1 0) then MsgYggdrasil_ValidateBasic msg else Err "bad version");
  if GTE (kv_version k) (semver_release 1 96 0) then yggdrasil_handleV96 k msg else Err "bad version".

(** ** Consolidations and transactions without effect *)

Definition consolidate_handleV96 k (msg : MsgConsolidate) : outcome KVStore :=
  let tx := Obs_Tx (Consolidate_Tx msg) in
  let notAsgard := match GetVault k (ObservedPubKey (Consolidate_Tx msg)) with
                   | Ok vault => negb (IsAsgard vault)
                   | _ => false
                   end in
  if negb (Address_Equals (FromAddress tx) (ToAddress tx)) || notAsgard
  then slash_tx k (ObservedPubKey (Consolidate_Tx msg)) tx true
  else Ok k.

Definition consolidate_Run k (msg : MsgConsolidate) : outcome KVStore :=
  _ ← (if GTE (kv_version k) (semver_release 0 1 0) then MsgConsolidate_ValidateBasic msg else Err "bad version");
  if GTE (kv_version k) (semver_release 1 96 0) then consolidate_handleV96 k msg else Err "bad version".

(** "novault" takes the coins out of the books of the vault again. *)
Definition noop_handleV1 k (msg : MsgNoOp) : outcome KVStore :=
  if negb (EqualFold (NoOp_Action msg) "novault") then Ok k
  else
    match GetVault k (ObservedPubKey (NoOp_Tx msg)) with
    | Panic => Panic
    | Err _ => Ok k
    | Ok vault =>
        vault ← SubFunds vault (Tx_Coins (Obs_Tx (NoOp_Tx msg)));
        logged k (SetVault k vault)
    end.

Definition noop_Run k (msg : MsgNoOp) : outcome KVStore :=
  if GTE (kv_version k) (semver_release 0 1 0) then
    _ ← MsgNoOp_ValidateBasic msg; noop_handleV1 k msg
  else Err "bad version".
End internal_txs.
