(* ===== verification/NodeHandlers.v ===== *)
(** What the nodes and the admins send themselves: [x/mayachain/handler_ban.go],
    [handler_network_fee.go], [handler_forgive_slash.go], [handler_node_pause_chain.go],
    [handler_mimir.go], [handler_version.go] and [handler_set_node_keys.go]. *)
From stdpp Require Import pretty.
From S2P Require Import Prelude GoText Sdk Constants Floats Shares Chains Keys Addresses Assets Coins Txs.
From S2P Require Import NodeAccounts Votes TxOuts Vaults ObservedTxs Pools Mimirs StreamingSwaps SwapMsgs.
From S2P Require Import LiquidityProviders Records MayaNames Stores Keeper Nodes Bonds VaultStore Halts Gas.
From S2P Require Import TradeAccounts Swapper Swaps Affiliates Decimals Memos Collectors SwapChecks.
From S2P Require Import Liquidity AddLiquidity LiquidityBooks Withdraw WithdrawBooks Slashing Bonding BondBooks.
From S2P Require Import LiquidityLedger.

(** ** Messages *)

Record MsgBan := mkMsgBan { MsgBan_NodeAddress : AccAddress; MsgBan_Signer : AccAddress }.

Record MsgNetworkFee := mkMsgNetworkFee {
  MsgFee_BlockHeight : Z;
  MsgFee_Chain : Chain;
  MsgFee_TransactionSize : Z;
  MsgFee_TransactionFeeRate : Z;
  MsgFee_Signer : AccAddress;
}.

(** Without an address every active node is meant. *)
Record MsgForgiveSlash := mkMsgForgiveSlash {
  MsgForgive_Blocks : Z;
  MsgForgive_NodeAddress : option AccAddress;
  MsgForgive_Signer : AccAddress;
}.

Record MsgNodePauseChain := mkMsgNodePauseChain { Pause_Value : Z; Pause_Signer : AccAddress }.

Record MsgMimir := mkMsgMimir { MsgMimir_Key : string; MsgMimir_Value : Z; MsgMimir_Signer : AccAddress }.

Record MsgSetVersion := mkMsgSetVersion { MsgVersion_Version : string; MsgVersion_Signer : AccAddress }.

Record MsgSetNodeKeys := mkMsgSetNodeKeys {
  Keys_PubKeySetSet : PubKeySet;
  Keys_ValidatorConsPubKey : string;
  Keys_Signer : AccAddress;
}.

(** What an account of a user holds, and its payments to a module; the flags of the
    transfers between chains, sends first, which another keeper has. *)
Class AccountBank `{CosmosBank} := {
  bank_collect : AccAddress -> string -> list (string * Z) -> BankState -> outcome BankState;
  bank_has : BankState -> AccAddress -> list (string * Z) -> bool;
  ibc_params : BankState -> bool * bool;
  set_ibc_params : BankState -> bool * bool -> BankState;
}.

(** [semver.Parse], whether a version has no build and no pre-release, and [LT]. *)
Class SemverReader `{Semver} := {
  semver_parse : string -> outcome Version;
  semver_plain : Version -> bool;
  semver_lt : Version -> Version -> bool;
}.

Definition with_banned (m : NodeAccount) : NodeAccount :=
  mkNodeAccount (NodeAddress m) (NodeAccount_Status m) (NodeAccount_PubKeySet m) (AztecAddress m)
    (ValidatorConsPubKey m) (Bond m) (ActiveBlockHeight m) (NodeAccount_BondAddress m) (NodeAccount_StatusSince m)
    (SignerMembership m) (RequestedToLeave m) true 1 (IPAddress m) (NodeAccount_Version m) (NodeAccount_Type m)
    (NodeAccount_Reward m).

Definition with_version (m : NodeAccount) (v : string) : NodeAccount :=
  mkNodeAccount (NodeAddress m) (NodeAccount_Status m) (NodeAccount_PubKeySet m) (AztecAddress m)
    (ValidatorConsPubKey m) (Bond m) (ActiveBlockHeight m) (NodeAccount_BondAddress m) (NodeAccount_StatusSince m)
    (SignerMembership m) (RequestedToLeave m) (ForcedToLeave m) (LeaveScore m) (IPAddress m) v (NodeAccount_Type m)
    (NodeAccount_Reward m).

Definition with_keys (m : NodeAccount) (pks : PubKeySet) (cons : string) : NodeAccount :=
  mkNodeAccount (NodeAddress m) (NodeAccount_Status m) pks (AztecAddress m) cons (Bond m) (ActiveBlockHeight m)
    (NodeAccount_BondAddress m) (NodeAccount_StatusSince m) (SignerMembership m) (RequestedToLeave m)
    (ForcedToLeave m) (LeaveScore m) (IPAddress m) (NodeAccount_Version m) (NodeAccount_Type m)
    (NodeAccount_Reward m).

Definition set_Ban_BlockHeight (m : BanVoter) (h : Z) : BanVoter := mkBanVoter (Ban_NodeAddress m) h (Ban_Signers m).
Definition set_NetworkFee_BlockHeight (m : ObservedNetworkFeeVoter) (h : Z) : ObservedNetworkFeeVoter :=
  mkObservedNetworkFeeVoter h (ReportBlockHeight m) (NetworkFeeVoter_Chain m) (NetworkFee_Signers m) (FeeRate m).
Definition set_Forgive_BlockHeight (m : ForgiveSlashVoter) (h : Z) : ForgiveSlashVoter :=
  mkForgiveSlashVoter (Forgive_NodeAddress m) h (ProposedBlockHeight m) (Forgive_Signers m).
Definition set_ProposedBlockHeight (m : ForgiveSlashVoter) (h : Z) : ForgiveSlashVoter :=
  mkForgiveSlashVoter (Forgive_NodeAddress m) (Forgive_BlockHeight m) h (Forgive_Signers m).

Section node_handlers.
Context `{V : Semver} `{B : CosmosBank} `{A : SdkAddress} `{R : MapRange} `{L : AddressLib}.
Context `{U : SdkUint} `{D : SdkDec} `{T : UintText} `{C : PubKeyCodec} `{K : PubKeyAddress} `{CK : ConsensusKeys}.
Context `{AB : AccountBank} `{SR : SemverReader} `{!SemverText} `{!SemverParse}.
Implicit Types (k : KVStore).

(** The module of the vaults counts as a signer. *)
Definition isSignedByActiveNodeAccounts k (signers : list AccAddress) : bool :=
  negb (length signers =? 0)%nat &&
  forallb (fun signer =>
    acc_equals signer (bank_module AsgardName) ||
    (let na := GetNodeAccount k signer in
     negb (NodeAccount_IsEmpty na) && (NodeAccount_Status na =? NodeStatus_Active)
     && (NodeAccount_Type na =? NodeTypeValidator))) signers.

Definition can_be_named (na : NodeAccount) : bool :=
  (NodeAccount_Status na =? NodeStatus_Active) || (NodeAccount_Status na =? NodeStatus_Standby).

(** ** Bans *)

Definition GetBanVoter k (addr : AccAddress) : BanVoter :=
  default (mkBanVoter addr 0 []) (bl_bans (kv_ballots k) !! GetKey (acc_string addr)).
Definition SetBanVoter k (ban : BanVoter) : KVStore :=
  set_bl_bans k (<[GetKey (acc_string (Ban_NodeAddress ban)) := ban]> (bl_bans (kv_ballots k))).

Definition MsgBan_ValidateBasic (m : MsgBan) : outcome unit :=
  if acc_empty (MsgBan_Signer m) then Err "invalid address"
  else if acc_empty (MsgBan_NodeAddress m) then Err "invalid address"
  else Ok tt.

Definition ban_validate k (msg : MsgBan) : outcome unit :=
  if GTE (kv_version k) (semver_release 0 1 0) then
    _ ← MsgBan_ValidateBasic msg;
    if isSignedByActiveNodeAccounts k [MsgBan_Signer msg] then Ok tt else Err "not authorized"
  else Err "bad version".

(** A first vote costs a thousandth of the least bond. *)
Definition charge_banner k (banner : NodeAccount) (bannerBond : Z) (voter : BanVoter) (signer : AccAddress)
  : outcome KVStore :=
  if negb (HasSigned voter signer) && (Ban_BlockHeight voter =? 0) then
    let minBond := mimir_or_constant k "MinimumBondInCacao" in
    let slashAmount := u64 minBond / 1000 in
    let slashAmount := if bannerBond <? slashAmount then bannerBond else slashAmount in
    '(k, _) ← SlashNodeAccountLP k banner slashAmount; Ok k
  else Ok k.

Definition ban_handleV90 k (msg : MsgBan) : outcome KVStore :=
  let toBan := GetNodeAccount k (MsgBan_NodeAddress msg) in
  _ ← NodeAccount_Valid toBan;
  if ForcedToLeave toBan then Ok k
  else if negb (can_be_named toBan)
  then Err "cannot ban a node account that is not currently active or standby"
  else
    let banner := GetNodeAccount k (MsgBan_Signer msg) in
    _ ← NodeAccount_Valid banner;
    bannerBond ← CalcNodeLiquidityBond k banner;
    let active := ListActiveValidators k in
    let voter := GetBanVoter k (MsgBan_NodeAddress msg) in
    k ← charge_banner k banner bannerBond voter (MsgBan_Signer msg);
    let voter := fst (Sign voter (MsgBan_Signer msg)) in
    let k := SetBanVoter k voter in
    if negb (HasConsensus voter active) then Ok k
    else if 0 <? Ban_BlockHeight voter then Ok k
    else
      let k := SetBanVoter k (set_Ban_BlockHeight voter (kv_height k)) in
      Ok (k_SetNodeAccount k (with_banned toBan)).

Definition ban_Run k (msg : MsgBan) : outcome KVStore :=
  _ ← ban_validate k msg;
  if GTE (kv_version k) (semver_release 1 90 0) then ban_handleV90 k msg else Err "bad version".

(** ** Network fees *)

(** The key of a voter: what it is about, without the size of a transaction. *)
Definition fee_voter_key (v : ObservedNetworkFeeVoter) : string :=
  let key := Chain_String (NetworkFeeVoter_Chain v) +:+ "-" +:+ print_int (ReportBlockHeight v) in
  GetKey (if 0 <? FeeRate v then key +:+ "-" +:+ print_int (FeeRate v) else key).

Definition GetObservedNetworkFeeVoter k (height : Z) (chain : Chain) (rate : Z) : ObservedNetworkFeeVoter :=
  let record := mkObservedNetworkFeeVoter 0 height chain [] (if 0 <? rate then rate else 0) in
  default record (bl_fee_voters (kv_ballots k) !! fee_voter_key record).

Definition SetObservedNetworkFeeVoter k (voter : ObservedNetworkFeeVoter) : KVStore :=
  set_bl_fee_voters k (<[fee_voter_key voter := voter]> (bl_fee_voters (kv_ballots k))).

Definition MsgNetworkFee_ValidateBasic (m : MsgNetworkFee) : outcome unit :=
  if MsgFee_BlockHeight m <=? 0 then Err "block height can't be negative, or zero"
  else if acc_empty (MsgFee_Signer m) then Err "invalid address"
  else if Chain_IsEmpty (MsgFee_Chain m) then Err "chain can't be empty"
  else if MsgFee_TransactionSize m <=? 0 then Err "invalid transaction size"
  else if MsgFee_TransactionFeeRate m <=? 0 then Err "invalid transaction fee rate"
  else Ok tt.

Definition network_fee_validate k (msg : MsgNetworkFee) : outcome unit :=
  if GTE (kv_version k) (semver_release 0 1 0) then
    _ ← MsgNetworkFee_ValidateBasic msg;
    if isSignedByActiveNodeAccounts k [MsgFee_Signer msg] then Ok tt else Err "not authorized"
  else Err "bad version".

Definition network_fee_handleV47 k (msg : MsgNetworkFee) : outcome KVStore :=
  let active := ListActiveValidators k in
  let signer := MsgFee_Signer msg in
  let voter := GetObservedNetworkFeeVoter k (MsgFee_BlockHeight msg) (MsgFee_Chain msg)
                 (i64 (MsgFee_TransactionFeeRate msg)) in
  let observeSlashPoints := kv_constants k "ObserveSlashPoints" in
  let observeFlex := kv_constants k "ObservationDelayFlexibility" in
  let k := IncSlashPoints k observeSlashPoints [signer] in
  let '(voter, signed) := Sign voter signer in
  if negb signed then Ok k
  else
    let k := SetObservedNetworkFeeVoter k voter in
    if negb (HasConsensus voter active) then Ok k
    else if 0 <? NetworkFee_BlockHeight voter then
      Ok (if kv_height k <=? i64 (NetworkFee_BlockHeight voter + observeFlex)
          then DecSlashPoints k observeSlashPoints [signer] else k)
    else
      let voter := set_NetworkFee_BlockHeight voter (kv_height k) in
      let k := SetObservedNetworkFeeVoter k voter in
      let k := DecSlashPoints k observeSlashPoints (GetSigners voter) in
      SaveNetworkFee k (MsgFee_Chain msg)
        (mkNetworkFee (MsgFee_Chain msg) (MsgFee_TransactionSize msg) (MsgFee_TransactionFeeRate msg)).

Definition network_fee_Run k (msg : MsgNetworkFee) : outcome KVStore :=
  _ ← network_fee_validate k msg;
  if GTE (kv_version k) (semver_release 0 47 0) then network_fee_handleV47 k msg else Err "bad version".

(** ** Forgiving slash points *)

Definition GetForgiveSlashVoter k (addr : AccAddress) : ForgiveSlashVoter :=
  default (NewForgiveSlashVoter addr) (bl_forgive_voters (kv_ballots k) !! GetKey (acc_string addr)).
Definition SetForgiveSlashVoter k (v : ForgiveSlashVoter) : KVStore :=
  set_bl_forgive_voters k (<[GetKey (acc_string (Forgive_NodeAddress v)) := v]> (bl_forgive_voters (kv_ballots k))).

(** The check of the number of blocks compares pointers, and never fails. *)
Definition MsgForgiveSlash_ValidateBasic (m : MsgForgiveSlash) : outcome unit :=
  if acc_empty (MsgForgive_Signer m) then Err "invalid address" else Ok tt.

Definition forgive_validate k (msg : MsgForgiveSlash) : outcome unit :=
  if GTE (kv_version k) (semver_release 0 1 0) then
    _ ← MsgForgiveSlash_ValidateBasic msg;
    if isSignedByActiveNodeAccounts k [MsgForgive_Signer msg] then Ok tt else Err "not authorized"
  else Err "bad version".

Definition check_forgiven k (addr : option AccAddress) : outcome unit :=
  match addr with
  | None => Ok tt
  | Some addr =>
      let na := GetNodeAccount k addr in
      _ ← NodeAccount_Valid na;
      if can_be_named na then Ok tt
      else Err "cannot forgive slash of a node account that is not currently active or standby"
  end.

Definition forgive_handleV1 k (msg : MsgForgiveSlash) : outcome KVStore :=
  _ ← check_forgiven k (MsgForgive_NodeAddress msg);
  _ ← NodeAccount_Valid (GetNodeAccount k (MsgForgive_Signer msg));
  let active := ListActiveValidators k in
  let voter := GetForgiveSlashVoter k (default EmptyString (MsgForgive_NodeAddress msg)) in
  let voter := if negb (HasSigned voter (MsgForgive_Signer msg)) && (ProposedBlockHeight voter =? 0)
               then set_ProposedBlockHeight voter (kv_height k) else voter in
  if ForgiveSlashVoter_HasExpired voter (kv_height k) then Ok k
  else
    let voter := fst (Sign voter (MsgForgive_Signer msg)) in
    let k := SetForgiveSlashVoter k voter in
    if negb (HasConsensus voter active) then Ok k
    else if 0 <? Forgive_BlockHeight voter then Ok k
    else
      let k := SetForgiveSlashVoter k (set_Forgive_BlockHeight voter (kv_height k)) in
      let blocks := i64 (MsgForgive_Blocks msg) in
      Ok (DecSlashPoints k blocks
            (match MsgForgive_NodeAddress msg with
             | Some addr => [addr]
             | None => map NodeAddress active
             end)).

Definition forgive_Run k (msg : MsgForgiveSlash) : outcome KVStore :=
  _ ← forgive_validate k msg; forgive_handleV1 k msg.

(** ** Pausing the chains *)

Definition GetNodePauseChain k (acc : AccAddress) : Z :=
  default (-1) (bl_pauses (kv_ballots k) !! GetKey (acc_string acc)).
Definition SetNodePauseChain k (acc : AccAddress) : KVStore :=
  set_bl_pauses k (<[GetKey (acc_string acc) := kv_height k]> (bl_pauses (kv_ballots k))).

Definition pause_validate k (msg : MsgNodePauseChain) : outcome unit :=
  if GTE (kv_version k) (semver_release 0 1 0) then
    if acc_empty (Pause_Signer msg) then Err "invalid address"
    else if isSignedByActiveNodeAccounts k [Pause_Signer msg] then Ok tt else Err "%+v are not authorized"
  else Err "bad version".

(** One use per node and churn, longer or shorter by a number of blocks. *)
Definition pause_handleV87 k (msg : MsgNodePauseChain) : outcome KVStore :=
  active ← GetAsgardVaultsByStatus k VaultStatus_ActiveVault;
  let lastChurn := foldl (fun h v => Z.max h (Vault_StatusSince v)) (-1) active in
  if lastChurn <? GetNodePauseChain k (Pause_Signer msg)
  then Err "node has already chosen pause/resume since the last churn"
  else
    let pauseHeight := GetMimir k "NodePauseChainGlobal" in
    let blocks := mimir_or_constant k "NodePauseChainBlocks" in
    let paused := kv_height k <? pauseHeight in
    let '(k, pauseHeight) :=
      if 0 <? Pause_Value msg then
        (SetNodePauseChain k (Pause_Signer msg),
         if paused then i64 (pauseHeight + blocks) else i64 (kv_height k + blocks))
      else if (Pause_Value msg <? 0) && paused
      then (SetNodePauseChain k (Pause_Signer msg), i64 (pauseHeight - blocks))
      else (k, pauseHeight) in
    Ok (SetMimir k "NodePauseChainGlobal" pauseHeight).

Definition pause_Run k (msg : MsgNodePauseChain) : outcome KVStore :=
  _ ← pause_validate k msg;
  if GTE (kv_version k) (semver_release 1 87 0) then pause_handleV87 k msg else Err "bad version".

(** ** Parameters *)

Definition ADMINS : list string :=
  ["maya1tqn0l6spm9fukjv6az9nhffm40k0003rlqp5xt"; "maya18z343fsdlav47chtkyp0aawqt6sgxsh3vjy2vz";
   "maya1a7gg93dgwlulsrqf6qtage985ujhpu068zllw7"; "maya1py0w7j7kfzf8p5qytwl8dc329aa0a646wrazem"].

Definition SymbolicNodeMimirValue : string := "ACCEPT_".

Definition isAdmin (acc : AccAddress) : bool :=
  existsb (fun admin => match acc_from_bech32 admin with
                        | Some addr => acc_equals acc addr
                        | None => false
                        end) ADMINS.

Definition in_range (lo hi c : Ascii.ascii) : bool :=
  ((Ascii.nat_of_ascii lo <=? Ascii.nat_of_ascii c) && (Ascii.nat_of_ascii c <=? Ascii.nat_of_ascii hi))%nat.

(** [MimirKeyRegexV109]: letters, digits, dashes and underscores, one at least. *)
Definition mimirValidKeyV109 (key : string) : bool :=
  negb (String.eqb key EmptyString) &&
  forallb (fun c => in_range "a" "z" c || in_range "A" "Z" c || in_range "0" "9" c
                    || Ascii.eqb c "-" || Ascii.eqb c "_") (String.list_ascii_of_string key).

(** The prefix of a key that is shorter than it is sliced out of bounds. *)
Definition mimir_validateV109 k (msg : MsgMimir) : outcome unit :=
  let key := MsgMimir_Key msg in
  if String.eqb key EmptyString then Err "key cannot be empty"
  else if acc_empty (MsgMimir_Signer msg) then Err "invalid address"
  else if negb (mimirValidKeyV109 key) || (64 <? str_len key) then Err "invalid mimir key"
  else if isAdmin (MsgMimir_Signer msg) then Ok tt
  else if negb (isSignedByActiveNodeAccounts k [MsgMimir_Signer msg]) then Err "%s is not authorizaed"
  else if str_len key <? str_len SymbolicNodeMimirValue then Panic
  else if HasPrefix key SymbolicNodeMimirValue then Ok tt
  else Err "invalid symbolic node mimir value".

Definition DeleteMimir k (key : string) : KVStore := set_kv_mimirs k (delete (GetKey key) (kv_mimirs k)).

Definition SetNodeMimir k (key : string) (value : Z) (acc : AccAddress) : KVStore :=
  let key := ToUpper key in
  set_kv_node_mimirs k (<[GetKey key := NodeMimirs_Set (GetNodeMimirs k key) key value acc]> (kv_node_mimirs k)).

(** Only a key in capitals gets here to the parameters of the transfers. *)
Definition setIBCTransfer k (key : string) (value : Z) : KVStore :=
  let '(sends, receives) := ibc_params (kv_bank k) in
  let set old := if value =? 1 then true else if value =? 0 then false else old in
  if String.eqb key "IBCRECEIVEENABLED" then set_kv_bank k (set_ibc_params (kv_bank k) (sends, set receives))
  else if String.eqb key "IBCSENDENABLED" then set_kv_bank k (set_ibc_params (kv_bank k) (set sends, receives))
  else k.

Definition SendFromAccountToModule k (from : AccAddress) (to : string) (coins : Coins) : outcome KVStore :=
  cs ← native_coins coins;
  b ← bank_collect from to cs (kv_bank k);
  Ok (set_kv_bank k b).

(** The fee of a native transaction goes to the reserve. *)
Definition charge_native_fee k (from : AccAddress) : outcome KVStore :=
  let cost := u64 (mimir_or_constant k "NativeTransactionFee") in
  if cost =? 0 then Ok k else SendFromAccountToModule k from ReserveName [NewCoin BaseNative cost].

Definition mimir_handleV92 k (msg : MsgMimir) : outcome KVStore :=
  let key := MsgMimir_Key msg in
  let value := MsgMimir_Value msg in
  let currentMimirValue := GetMimir k key in
  if isAdmin (MsgMimir_Signer msg) then
    if value <? 0 then Ok (DeleteMimir k key)
    else
      let k := SetMimir k key value in
      Ok (if String.eqb (ToUpper key) "IBCRECEIVEENABLED" || String.eqb (ToUpper key) "IBCSENDENABLED"
          then setIBCTransfer k key value else k)
  else
    k ← charge_native_fee k (NodeAddress (GetNodeAccount k (MsgMimir_Signer msg)));
    let k := SetNodeMimir k key value (MsgMimir_Signer msg) in
    if value =? currentMimirValue then Ok k
    else
      let '(voted, majority) := NodeMimirs_HasSuperMajority (GetNodeMimirs k key) key
                                  (GetNodeAddresses (ListActiveValidators k)) in
      if negb majority then Ok k
      else if currentMimirValue =? voted then Ok k
      else Ok (SetMimir k key voted).

Definition mimir_Run k (msg : MsgMimir) : outcome KVStore :=
  _ ← (if GTE (kv_version k) (semver_release 1 109 0) then mimir_validateV109 k msg else Err "bad version");
  mimir_handleV92 k msg.

(** ** Versions *)

Definition pays_native_fee k (signer : AccAddress) : outcome bool :=
  let cost := mimir_or_constant k "NativeTransactionFee" in
  c ← bank_coin (Asset_Native BaseNative) cost;
  Ok (bank_has (kv_bank k) signer (if cost =? 0 then [] else [c])).

Definition version_validateV80 k (msg : MsgSetVersion) : outcome unit :=
  if acc_empty (MsgVersion_Signer msg) then Err "invalid address"
  else
    v ← semver_parse (MsgVersion_Version msg);
    if negb (semver_plain v) then Err "BASEChain doesn't use Pre/Build version"
    else
      let na := GetNodeAccount k (MsgVersion_Signer msg) in
      if NodeAccount_IsEmpty na then Err "%s is not authorizaed"
      else if negb (NodeAccount_Type na =? NodeTypeValidator) then Err "%s is not authorized"
      else
        pays ← pays_native_fee k (MsgVersion_Signer msg);
        if pays : bool then Ok tt else Err "not enough rune for transaction in node account".

(** A lower version is not stored, but paid for. *)
Definition version_handleV105 k (msg : MsgSetVersion) : outcome KVStore :=
  let na := GetNodeAccount k (MsgVersion_Signer msg) in
  version ← semver_parse (MsgVersion_Version msg);
  let na := if semver_lt (GetVersion na) version then with_version na (version_string version) else na in
  charge_native_fee (k_SetNodeAccount k na) (MsgVersion_Signer msg).

Definition version_Run k (msg : MsgSetVersion) : outcome KVStore :=
  _ ← (if GTE (kv_version k) (semver_release 0 80 0) then version_validateV80 k msg else Err "bad version");
  if GTE (kv_version k) (semver_release 1 105 0) then version_handleV105 k msg else Err "bad version".

(** ** Keys *)

Definition node_keys_validateV115 k (msg : MsgSetNodeKeys) : outcome unit :=
  let signer := Keys_Signer msg in
  if acc_empty signer then Err "invalid address"
  else
    _ ← cons_address (Keys_ValidatorConsPubKey msg);
    if PubKeySet_IsEmpty (Keys_PubKeySetSet msg) then Err "node pub keys cannot be empty"
    else
      let na := GetNodeAccount k signer in
      if NodeAccount_IsEmpty na then Err "unauthorized account(%s)"
      else
        pays ← pays_native_fee k signer;
        if negb pays then Err "not enough balance"
        else if NodeAccount_Status na =? NodeStatus_Active then Err "node %s is active, so it can't update itself"
        else if NodeAccount_Status na =? NodeStatus_Disabled
        then Err "node %s is disabled, so it can't update itself"
        else
          _ ← EnsureNodeKeysUnique k (Keys_ValidatorConsPubKey msg) (Keys_PubKeySetSet msg);
          addr ← GetThorAddress (Secp256k1 (Keys_PubKeySetSet msg));
          if negb (acc_equals signer addr) then Err "node address must match secp256k1 pubkey"
          else if negb (PubKeySet_IsEmpty (NodeAccount_PubKeySet na))
          then Err "node %s already has pubkey set assigned"
          else Ok tt.

Definition node_keys_handleV105 k (msg : MsgSetNodeKeys) : outcome KVStore :=
  let na := GetNodeAccount k (Keys_Signer msg) in
  k ← charge_native_fee k (Keys_Signer msg);
  let na := UpdateStatus na NodeStatus_Standby (kv_height k) in
  Ok (k_SetNodeAccount k (with_keys na (Keys_PubKeySetSet msg) (Keys_ValidatorConsPubKey msg))).

Definition node_keys_Run k (msg : MsgSetNodeKeys) : outcome KVStore :=
  _ ← (if GTE (kv_version k) (semver_release 1 115 0) then node_keys_validateV115 k msg else Err "bad version");
  node_keys_handleV105 k msg.
End node_handlers.

(** ** What the votes of the nodes decide *)

Section node_facts.
Context {V : Semver} {B : CosmosBank} {A : SdkAddress} {R : MapRange} {L : AddressLib}.
Context {U : SdkUint} {D : SdkDec} {T : UintText} {C : PubKeyCodec} {K : PubKeyAddress} {CK : ConsensusKeys}.
Context {AB : AccountBank} {SR : SemverReader} {ST : SemverText} {SP : SemverParse}.
Implicit Types (k : KVStore).

Lemma charge_native_frame k from k' : charge_native_fee k from = Ok k' -> exists b, k' = set_kv_bank k b.
Proof.
  unfold charge_native_fee. cbv zeta. destruct (_ =? 0).
  - intros [= <-]. exists (kv_bank k). by destruct k.
  - unfold SendFromAccountToModule. intros H. apply bind_Ok in H as (cs & _ & H).
    apply bind_Ok in H as (b & _ & [= <-]). by exists b.
Qed.

(** A key with the prefix is not the one that disables the parameters. *)
Lemma accepted_not_kraken key : HasPrefix key SymbolicNodeMimirValue = true -> GetKey KRAKEN <> GetKey key.
Proof.
  unfold HasPrefix. intros H%String.prefix_correct. destruct key as [|c key]; [done|].
  cbn in H. injection H as -> _. discriminate.
Qed.

Lemma mimir_validate_node k msg : isAdmin (MsgMimir_Signer msg) = false -> mimir_validateV109 k msg = Ok tt ->
  isSignedByActiveNodeAccounts k [MsgMimir_Signer msg] = true /\
  HasPrefix (MsgMimir_Key msg) SymbolicNodeMimirValue = true.
Proof.
  intros Ha. unfold mimir_validateV109. cbv zeta. rewrite Ha. destruct (String.eqb _ _); [done|].
  destruct (acc_empty _); [done|]. destruct (_ || _); [done|].
  destruct (isSignedByActiveNodeAccounts _ _); [|done]. cbn [negb]. destruct (_ <? _); [done|].
  destruct (HasPrefix _ _); done.
Qed.

Lemma GetMimir_votes k votes bank key : GTE (kv_version k) (semver_release 1 92 0) = true ->
  GetMimir (set_kv_node_mimirs (set_kv_bank k bank) votes) key = GetMimir k key.
Proof. intros Hv. unfold GetMimir. cbn [kv_version set_kv_node_mimirs set_kv_bank]. by rewrite Hv. Qed.

Lemma GetMimir_set k key value other : GTE (kv_version k) (semver_release 1 92 0) = true ->
  GetKey KRAKEN <> GetKey key -> GetMimir (SetMimir k key value) other <> GetMimir k other ->
  GetKey other = GetKey key /\ GetMimir (SetMimir k key value) other = value.
Proof.
  intros Hv Hk Hne. unfold SetMimir in *. destruct (haveKraken k) eqn:Ek; [done|].
  assert (Ek' : haveKraken (set_kv_mimirs k (<[GetKey key := value]> (kv_mimirs k))) = false).
  { unfold haveKraken in *. cbn [kv_mimirs set_kv_mimirs]. by rewrite lookup_insert_ne by done. }
  unfold GetMimir in *. rewrite Ek' in *. rewrite Ek in Hne. cbn [kv_version set_kv_mimirs kv_mimirs] in *.
  rewrite Hv in *. cbn [negb] in *. destruct (decide (GetKey key = GetKey other)) as [E|E].
  - rewrite E, lookup_insert_eq. done.
  - by rewrite lookup_insert_ne in Hne.
Qed.

(** C15: the nodes change a parameter only together: if what a key reads as differs
    after the message of a node, the node is an active validator, the key is the one
    that it sent and starts with the prefix of keys that are up to the nodes, and a
    super majority of the active nodes has voted for the value it has now. *)
Theorem mimir_by_majority k msg k' key :
  GTE (kv_version k) (semver_release 1 92 0) = true -> isAdmin (MsgMimir_Signer msg) = false ->
  mimir_Run k msg = Ok k' -> GetMimir k' key <> GetMimir k key ->
  isSignedByActiveNodeAccounts k [MsgMimir_Signer msg] = true /\
  HasPrefix (MsgMimir_Key msg) SymbolicNodeMimirValue = true /\ GetKey key = GetKey (MsgMimir_Key msg) /\
  NodeMimirs_HasSuperMajority (GetNodeMimirs k' (MsgMimir_Key msg)) (MsgMimir_Key msg)
    (GetNodeAddresses (ListActiveValidators k)) = (GetMimir k' key, true).
Proof.
  intros Hv Ha H Hne. unfold mimir_Run in H. apply bind_Ok in H as ([] & H1 & H).
  destruct (GTE _ (semver_release 1 109 0)); [|done].
  destruct (mimir_validate_node k msg Ha H1) as [Hs Hp]. split; [exact Hs|]. split; [exact Hp|].
  unfold mimir_handleV92 in H. cbv zeta in H. rewrite Ha in H.
  apply bind_Ok in H as (k1 & [b ->]%charge_native_frame & H).
  set (k2 := SetNodeMimir _ _ _ _) in H. assert (E2 : forall x, GetMimir k2 x = GetMimir k x)
    by (intros x; by apply (GetMimir_votes k)).
  assert (Hv2 : GTE (kv_version k2) (semver_release 1 92 0) = true) by exact Hv.
  assert (Ha2 : ListActiveValidators k2 = ListActiveValidators k) by done.
  clearbody k2. destruct (_ =? _); [injection H as <-; by rewrite E2 in Hne|].
  destruct (NodeMimirs_HasSuperMajority _ _ _) as [voted maj] eqn:Em. destruct maj; [|injection H as <-; by rewrite E2 in Hne].
  cbn [negb] in H. destruct (_ =? voted); [injection H as <-; by rewrite E2 in Hne|]. injection H as <-.
  rewrite <- E2 in Hne. destruct (GetMimir_set k2 (MsgMimir_Key msg) voted key Hv2 (accepted_not_kraken _ Hp) Hne)
    as [Hk Hval]. split; [exact Hk|]. rewrite Hval, <- Ha2.
  rewrite <- Em. f_equal. unfold GetNodeMimirs, SetMimir. by destruct (haveKraken k2).
Qed.

(** ** Bans *)

Lemma slash_node_frame k na slash k' r : SlashNodeAccountLP k na slash = Ok (k', r) ->
  exists m, k' = set_kv_lps k m.
Proof.
  unfold SlashNodeAccountLP. set (P (s : KVStore * (Z * list PoolAmt)) := exists m, fst s = set_kv_lps k m).
  assert (H0 : forall r0, P (k, r0)) by (intros r0; exists (kv_lps k); by destruct k).
  destruct (slash =? 0); [by intros [= <- _]; apply (H0 (0, []))|].
  destruct (genesis_bond _ _); [by intros [= <- _]; apply (H0 (0, []))|]. intros H.
  apply bind_Ok in H as (bond & _ & H). apply bind_Ok in H as (pol & _ & H). destruct (bond =? 0); [done|].
  cbv zeta in H. apply (foldM_keeps P _ (fun _ => True)) in H; [exact H| |by apply H0|by apply Forall_true].
  intros s b s' Hs _ Hb. unfold slash_provider in Hb.
  apply (foldM_keeps P _ (fun _ => True)) in Hb; [exact Hb| |exact Hs|by apply Forall_true].
  clear s s' b Hs Hb. intros [k1 [t am]] lp s' [m Hm] _ Hp. cbn in Hm. subst k1. unfold slash_position in Hp.
  cbv zeta in Hp. destruct (IsAvailable _); [|injection Hp as <-; by exists m].
  destruct (_ =? 0); [injection Hp as <-; by exists m|].
  apply bind_Ok in Hp as (x1 & _ & Hp). apply bind_Ok in Hp as (x2 & _ & Hp). apply bind_Ok in Hp as (x3 & _ & Hp).
  apply bind_Ok in Hp as (x4 & _ & [= <-]). by eexists.
Qed.

(** A node that votes for the first time, while nobody is banned by the votes yet,
    loses the thousandth of the least bond, or its bond when that is less. *)
Definition pays_for_vote k (banner : NodeAccount) (voter : BanVoter) (signer : AccAddress) k' : Prop :=
  if negb (HasSigned voter signer) && (Ban_BlockHeight voter =? 0) then
    exists bond slashed, CalcNodeLiquidityBond k banner = Ok bond /\
      SlashNodeAccountLP k banner (Z.min bond (u64 (mimir_or_constant k "MinimumBondInCacao") / 1000))
        = Ok (k', slashed)
  else k' = k.

Lemma charge_banner_pays k banner bond voter signer k' : CalcNodeLiquidityBond k banner = Ok bond ->
  charge_banner k banner bond voter signer = Ok k' ->
  (exists m, k' = set_kv_lps k m) /\ pays_for_vote k banner voter signer k'.
Proof.
  intros Hbond H. unfold charge_banner, pays_for_vote in *.
  destruct (negb _ && _); [|injection H as <-; split; [exists (kv_lps k); by destruct k|done]].
  cbv zeta in H. apply bind_Ok in H as ([k1 r] & H1 & [= <-]). split; [by apply slash_node_frame in H1|].
  exists bond, r. split; [done|]. rewrite <- H1. f_equal.
  destruct (Z.ltb_spec bond (u64 (mimir_or_constant k "MinimumBondInCacao") / 1000)); lia.
Qed.

Definition bans_keyed k : Prop :=
  map_Forall (fun key v => key = GetKey (acc_string (Ban_NodeAddress v))) (bl_bans (kv_ballots k)).

Lemma GetBanVoter_key k addr : bans_keyed k ->
  GetKey (acc_string (Ban_NodeAddress (GetBanVoter k addr))) = GetKey (acc_string addr).
Proof.
  intros Hk. unfold GetBanVoter. destruct (bl_bans _ !! _) eqn:E; [|done]. symmetry. exact (Hk _ _ E).
Qed.

Lemma GetBanVoter_set k v addr : GetKey (acc_string (Ban_NodeAddress v)) = GetKey (acc_string addr) ->
  GetBanVoter (SetBanVoter k v) addr = v.
Proof. intros Hx. unfold GetBanVoter, SetBanVoter. cbn. by rewrite Hx, lookup_insert_eq. Qed.

Lemma GetNodeAccount_key k addr : nodes_inv k ->
  GetKey (acc_string (NodeAddress (GetNodeAccount k addr))) = GetKey (acc_string addr).
Proof.
  intros [_ Hk _]. unfold GetNodeAccount. destruct (kv_node_accounts k !! _) eqn:E; [|done].
  symmetry. exact (proj1 (Hk _ _ E)).
Qed.

Lemma Sign_address (v : BanVoter) signer : Ban_NodeAddress (fst (Sign v signer)) = Ban_NodeAddress v /\
  Ban_BlockHeight (fst (Sign v signer)) = Ban_BlockHeight v.
Proof. unfold Sign. by destruct (HasSigned v signer). Qed.

Lemma SetNodeAccount_writes k na : NodeAccount_IsEmpty na = false ->
  exists na', ForcedToLeave na' = ForcedToLeave na /\
    kv_node_accounts (k_SetNodeAccount k na) = <[GetKey (acc_string (NodeAddress na)) := na']> (kv_node_accounts k) /\
    kv_ballots (k_SetNodeAccount k na) = kv_ballots k /\ kv_lps (k_SetNodeAccount k na) = kv_lps k /\
    kv_height (k_SetNodeAccount k na) = kv_height k.
Proof.
  intros Hne. unfold k_SetNodeAccount. rewrite Hne. cbv zeta.
  destruct ((NodeAccount_Status na =? NodeStatus_Active) && _);
    (eexists; refine (conj _ (conj eq_refl (conj eq_refl (conj eq_refl eq_refl)))); done).
Qed.

(** C16: what a vote to ban a node does. Only an active validator votes, its vote is
    noted, and it pays once: its first vote slashes its bonded liquidity by the
    thousandth of the least bond, unless the votes had already banned the node, and
    nothing else changes a position, a second vote of it least of all. The node is
    forced to leave exactly when the votes are those of a super majority of the active
    nodes for the first time; no other account is touched. *)
Theorem ban_spec k msg k' :
  nodes_inv k -> bans_keyed k -> ban_Run k msg = Ok k' ->
  let addr := MsgBan_NodeAddress msg in
  let voter := GetBanVoter k addr in
  let voted := fst (Sign voter (MsgBan_Signer msg)) in
  ForcedToLeave (GetNodeAccount k addr) = false ->
  isSignedByActiveNodeAccounts k [MsgBan_Signer msg] = true /\
  (exists k1, pays_for_vote k (GetNodeAccount k (MsgBan_Signer msg)) voter (MsgBan_Signer msg) k1 /\
     kv_lps k' = kv_lps k1) /\
  (HasSigned voter (MsgBan_Signer msg) = true -> kv_lps k' = kv_lps k) /\
  Ban_Signers (GetBanVoter k' addr) = Ban_Signers voted /\
  (ForcedToLeave (GetNodeAccount k' addr) = true <->
     HasConsensus voted (ListActiveValidators k) = true /\ Ban_BlockHeight voter <= 0) /\
  (forall other, GetKey (acc_string other) <> GetKey (acc_string addr) ->
     GetNodeAccount k' other = GetNodeAccount k other).
Proof.
  intros Hn Hb H addr voter voted Hf. unfold ban_Run in H. apply bind_Ok in H as ([] & H1 & H).
  destruct (GTE _ (semver_release 1 90 0)); [|done]. unfold ban_validate in H1. destruct (GTE _ _); [|done].
  apply bind_Ok in H1 as ([] & _ & H1). destruct (isSignedByActiveNodeAccounts _ _); [|done]. clear H1.
  unfold ban_handleV90 in H. cbv zeta in H. apply bind_Ok in H as ([] & Hv & H). fold addr in H, Hv. rewrite Hf in H.
  destruct (negb (can_be_named _)) eqn:Hc; [done|]. apply bind_Ok in H as ([] & _ & H).
  apply bind_Ok in H as (bond & Hbond & H). fold voter in H. apply bind_Ok in H as (k1 & Hch & H).
  apply (charge_banner_pays _ _ _ _ _ _ Hbond) in Hch as [[m ->] Hpay].
  fold voted in H. destruct (Sign_address voter (MsgBan_Signer msg)) as [Haddr Hheight]. fold voted in Haddr, Hheight.
  assert (Hkey : GetKey (acc_string (Ban_NodeAddress voted)) = GetKey (acc_string addr))
    by (rewrite Haddr; by apply GetBanVoter_key).
  assert (Hlps : HasSigned voter (MsgBan_Signer msg) = true -> m = kv_lps k)
    by (intros Hs; unfold pays_for_vote in Hpay; rewrite Hs in Hpay; cbn in Hpay; by rewrite <- Hpay at 1).
  assert (Hget : forall x (v : BanVoter), GetKey (acc_string (Ban_NodeAddress v)) = GetKey (acc_string addr) ->
            GetBanVoter (SetBanVoter x v) addr = v)
    by (intros x v Hx; by apply GetBanVoter_set).
  split; [done|]. destruct (HasConsensus voted _) eqn:Hcons; cbn [negb] in H.
  2: { injection H as <-. rewrite (Hget _ _ Hkey). split; [by eexists|]. split; [exact Hlps|]. split; [done|]. split; [|done].
       split; [|by intros [? _]]. intros Hx. assert (Hx' : ForcedToLeave (GetNodeAccount k addr) = true) by exact Hx.
       congruence. }
  destruct (Z.ltb_spec 0 (Ban_BlockHeight voted)) as [Hlt|Hle]; rewrite Hheight in *.
  { injection H as <-. rewrite (Hget _ _ Hkey). split; [by eexists|]. split; [exact Hlps|]. split; [done|]. split; [|done].
    split; [|intros [_ ?]; lia]. intros Hx. assert (Hx' : ForcedToLeave (GetNodeAccount k addr) = true) by exact Hx.
    congruence. }
  injection H as <-. set (k2 := SetBanVoter _ _).
  assert (Hne : NodeAccount_IsEmpty (with_banned (GetNodeAccount k addr)) = false).
  { unfold NodeAccount_IsEmpty. cbn. unfold NodeAccount_Valid in Hv. destruct (acc_empty _); [done|].
    destruct (Address_IsEmpty _); [done|]. by destruct (_ =? NodeStatus_Unknown). }
  pose proof (GetNodeAccount_key k addr Hn) as Hnk.
  destruct (SetNodeAccount_writes k2 (with_banned (GetNodeAccount k addr)) Hne) as (na & Hna & Hacc & Hbal & Hl & Hh).
  cbn [NodeAddress with_banned] in Hacc. rewrite Hnk in Hacc. change (kv_lps k2) with m in Hl.
  change (kv_height k2) with (kv_height k) in Hh. change (kv_node_accounts k2) with (kv_node_accounts k) in Hacc.
  set (k3 := k_SetNodeAccount k2 _) in *. clearbody k3.
  split; [|split; [|split; [|split]]].
  - eexists. split; [exact Hpay|]. by rewrite Hl.
  - intros Hs. rewrite Hl. by apply Hlps.
  - unfold GetBanVoter. rewrite Hbal. change (bl_bans (kv_ballots k2)) with
      (<[GetKey (acc_string (Ban_NodeAddress voted)) := set_Ban_BlockHeight voted (kv_height (SetBanVoter (set_kv_lps k m) voted))]>
         (bl_bans (kv_ballots (SetBanVoter (set_kv_lps k m) voted)))).
    by rewrite Hkey, lookup_insert_eq.
  - unfold GetNodeAccount. rewrite Hacc, lookup_insert_eq. cbn [default]. tauto.
  - intros other Ho. unfold GetNodeAccount. rewrite Hacc, Hh, lookup_insert_ne by done. done.
Qed.
End node_facts.

(** ** Witnesses *)

Section node_witnesses.
Import Reference ReferenceBank ReferenceRange ReferenceAddress ReferenceText ReferenceSort.
#[local] Existing Instance bond_address.
#[local] Existing Instance bond_codec.
#[local] Existing Instance ledger_keys.
#[local] Instance node_cons : ConsensusKeys := {| cons_address s := Ok s |}.
#[local] Instance node_bank : AccountBank := {|
  bank_collect _ _ _ b := Ok b; bank_has _ _ _ := true; ibc_params _ := (true, true); set_ibc_params b _ := b |}.

Definition active_node (name : string) : NodeAccount :=
  NewNodeAccount name NodeStatus_Active EmptyPubKeySet EmptyString EmptyString 0 ("maya1" +:+ name) 1.

(** Three nodes, of which "n1" has voted to ban "n3" and for a value of 7. *)
Definition node_start : KVStore :=
  let k := empty_kv (semver_release 1 124 0) (fun _ => 0) 10 ReferenceBank.empty in
  let k := foldr (fun n k => k_SetNodeAccount k (active_node n)) k ["n1"; "n2"; "n3"] in
  SetNodeMimir (SetBanVoter k (mkBanVoter "n3" 0 ["maya1n1"])) "ACCEPT_FEE" 7 "n1".

Definition vote_message : MsgMimir := mkMsgMimir "ACCEPT_FEE" 7 "n2".
Definition ban_message : MsgBan := mkMsgBan "n3" "n2".

Definition vote_check (r : outcome KVStore) : bool :=
  match r with Ok k => GetMimir k "ACCEPT_FEE" =? 7 | _ => false end.

Lemma vote_checked : vote_check (mimir_Run node_start vote_message) = true.
Proof. by vm_compute. Qed.

Lemma vote_check_spec r : vote_check r = true -> exists k', r = Ok k' /\ GetMimir k' "ACCEPT_FEE" = 7.
Proof. destruct r; [|discriminate..]. cbn [vote_check]. rewrite Z.eqb_eq. eauto. Qed.

Lemma vote_start_facts : GTE (kv_version node_start) (semver_release 1 92 0) = true /\
  isAdmin (MsgMimir_Signer vote_message) = false /\ GetMimir node_start "ACCEPT_FEE" = -1.
Proof. by vm_compute. Qed.

Lemma mimir_by_majority_witness :
  exists k', mimir_Run node_start vote_message = Ok k' /\ GetMimir node_start "ACCEPT_FEE" = -1 /\
    GetMimir k' "ACCEPT_FEE" = 7 /\
    NodeMimirs_HasSuperMajority (GetNodeMimirs k' (MsgMimir_Key vote_message)) (MsgMimir_Key vote_message)
      (GetNodeAddresses (ListActiveValidators node_start)) = (GetMimir k' "ACCEPT_FEE", true).
Proof.
  destruct (vote_check_spec _ vote_checked) as (k' & E & Hv). destruct vote_start_facts as (H1 & H2 & H0).
  exists k'. split; [exact E|]. split; [exact H0|]. split; [exact Hv|].
  assert (Hne : GetMimir k' "ACCEPT_FEE" <> GetMimir node_start "ACCEPT_FEE") by (rewrite Hv, H0; discriminate).
  exact (proj2 (proj2 (proj2 (mimir_by_majority node_start vote_message k' "ACCEPT_FEE" H1 H2 E Hne)))).
Defined.

Lemma votes_inv k voter key value acc : nodes_inv k -> nodes_inv (SetNodeMimir (SetBanVoter k voter) key value acc).
Proof. intros [H1 H2 H3]. by split. Qed.

Lemma node_start_inv : nodes_inv node_start.
Proof.
  unfold node_start. cbv zeta. apply votes_inv. cbn [foldr]. do 3 apply SetNodeAccount_inv.
  split; [done|apply map_Forall_empty|apply map_Forall_empty].
Qed.

(** "alice" has bonded 200 units of bitcoin, worth 4000 CACAO, to "n2", and the least
    bond is a million. *)
Definition ban_start : KVStore :=
  let lp := with_bonds (position BTCAsset "maya1alice" "3alice" 400 0) EmptyString [mkLPBondedNode "n2" 200] in
  let k := SetBondProviders (SetMimir node_start "MinimumBondInCacao" 1000000)
             (mkBondProviders "n2" 0 [mkBondProvider "alice" true None]) in
  SetLiquidityProvider (set_kv_pools k {[ "BTC.BTC" := btc_pool ]}) lp.

Lemma ban_start_inv : nodes_inv ban_start.
Proof.
  assert (H : forall k bps pools lps, nodes_inv k -> nodes_inv (set_kv_lps (set_kv_pools (SetBondProviders k bps) pools) lps))
    by (intros k bps pools lps [H1 H2 H3]; by split).
  assert (Hm : forall k key v, nodes_inv k -> nodes_inv (SetMimir k key v))
    by (intros k key v [H1 H2 H3]; unfold SetMimir; destruct (haveKraken k); by split).
  apply H, Hm, node_start_inv.
Qed.

Definition ban_check (r : outcome KVStore) : bool :=
  match r with
  | Ok k => ForcedToLeave (GetNodeAccount k "n3")
            && (Lp_Units (GetLiquidityProvider k BTCAsset "maya1alice") =? 350)
  | _ => false
  end.

Lemma ban_checked : ban_check (ban_Run ban_start ban_message) = true.
Proof. by vm_compute. Qed.

Lemma ban_check_spec r : ban_check r = true -> exists k', r = Ok k' /\ ForcedToLeave (GetNodeAccount k' "n3") = true /\
  Lp_Units (GetLiquidityProvider k' BTCAsset "maya1alice") = 350.
Proof.
  destruct r as [k'| |]; [|discriminate..]. unfold ban_check. rewrite andb_true_iff, Z.eqb_eq. intros [H1 H2].
  by exists k'.
Qed.

Lemma ban_start_facts : bans_keyed ban_start /\ ForcedToLeave (GetNodeAccount ban_start "n3") = false.
Proof. split; [|by vm_compute]. unfold bans_keyed. apply (bool_decide_unpack _). by vm_compute. Qed.

(** The vote of "n2" bans "n3" and costs the units of "alice" that are worth 1000. *)
Lemma ban_spec_witness :
  exists k', ban_Run ban_start ban_message = Ok k' /\ ForcedToLeave (GetNodeAccount k' "n3") = true /\
    Lp_Units (GetLiquidityProvider k' BTCAsset "maya1alice") = 350 /\
    (exists k1, pays_for_vote ban_start (GetNodeAccount ban_start (MsgBan_Signer ban_message))
       (GetBanVoter ban_start (MsgBan_NodeAddress ban_message)) (MsgBan_Signer ban_message) k1 /\ kv_lps k' = kv_lps k1) /\
    HasConsensus (fst (Sign (GetBanVoter ban_start (MsgBan_NodeAddress ban_message)) (MsgBan_Signer ban_message)))
      (ListActiveValidators ban_start) = true.
Proof.
  destruct (ban_check_spec _ ban_checked) as (k' & E & Hv & Hu). destruct ban_start_facts as [Hb Hf].
  destruct (ban_spec ban_start ban_message k' ban_start_inv Hb E Hf) as (_ & Hpay & _ & _ & Hleave & _).
  exists k'. exact (conj E (conj Hv (conj Hu (conj Hpay (proj1 (proj1 Hleave Hv)))))).
Defined.
End node_witnesses.
