(* ===== verification/Market.v ===== *)
(** The chain through its operations: deposits, withdrawals, slashes, bonds, swaps,
    refunds, outbound transactions, messages of the nodes and ends of blocks, in any
    order and with the handlers and the managers themselves in place. *)
From stdpp Require Import pretty relations.
From S2P Require Import Prelude GoText Sdk Constants Floats Shares Chains Keys Addresses Assets Coins Txs.
From S2P Require Import NodeAccounts Votes TxOuts Vaults ObservedTxs Pools Mimirs StreamingSwaps SwapMsgs.
From S2P Require Import LiquidityProviders Records MayaNames Stores Keeper FuzzyAssets Nodes Bonds VaultStore Halts Gas.
From S2P Require Import TradeAccounts Aggregators Swapper Swaps Affiliates Decimals Memos Collectors SwapChecks.
From S2P Require Import Liquidity AddLiquidity LiquidityBooks Withdraw WithdrawBooks Slashing Bonding BondBooks.
From S2P Require Import LiquidityLedger Outbounds OutboundBooks SwapHandler SwapQueue SwapBlocks SwapMarket.
From S2P Require Import OutboundHandlers InternalTxs NodeHandlers.

Section market_books.
Context `{V : Semver} `{B : CosmosBank} `{A : SdkAddress} `{R : MapRange} `{L : AddressLib}.
Context `{U : SdkUint} {UL : SdkUintLaws U} `{D : SdkDec} {DL : SdkDecLaws D} `{SH : Sha256} `{T : UintText} `{C : PubKeyCodec} `{K : PubKeyAddress}.
Context `{SS : SliceSort} {IH : InternalHandlers} {IL : InternalHandlersLaws IH} {BV : BuildVersion}.
Context {AL : SdkAddressLaws A} {BL : CosmosBankLaws B} {AK : AccountKeeper} {CK : ConsensusKeys}.
Context {AB : AccountBank} {SR : SemverReader} {ST : SemverText} {SP : SemverParse}.
Context (fuel : nat) (gm : GasMgr).
Implicit Types k : KVStore.

#[local] Instance market_store : TxOutStore := TxOutStorage fuel gm.
#[local] Instance market_swaps : SwapActions := SwapQueueActions gm.
#[local] Instance market_store_laws : TxOutStoreLaws market_store := TxOutStorage_laws fuel gm.

(** ** Steps that touch no position *)

(** The positions stay, and the reserve stays apart from the providers of the nodes. *)
Definition quiet k k' : Prop := same_positions k k' /\ (reserve_apart k -> reserve_apart k').

#[local] Instance quiet_preorder : PreOrder quiet.
Proof.
  split; [by intros k; split|]. intros k1 k2 k3 [H1 A1] [H2 A2]. split; [by etrans|]. by intros; apply A2, A1.
Qed.

Lemma quiet_tx_outs k m : quiet k (set_kv_tx_outs k m).
Proof. split; [done|]. by intros []; split. Qed.

Lemma quiet_ballots k b : quiet k (set_kv_ballots k b).
Proof. split; [done|]. by intros []; split. Qed.

Lemma signed_quiet k h : quiet k (SetLastSignedHeight k h).
Proof. unfold SetLastSignedHeight. destruct (_ <? _); [done|]. apply quiet_ballots. Qed.

Lemma SetTxOut_quiet k b : quiet k (SetTxOut k b).
Proof. unfold SetTxOut. destruct (TxOut_IsEmpty b); [done|]. apply quiet_tx_outs. Qed.

Lemma note_quiet k tx txID k' voter : note_out_tx k tx txID = Ok (k', voter) -> quiet k k'.
Proof.
  intros H. split; [by eapply note_positions|]. unfold note_out_tx in H. apply bind_Ok in H as ([v b] & _ & [= <- _]).
  by intros []; split.
Qed.

Lemma settle_internal_quiet k accept tx h k' b :
  settle_internal_height k accept tx h = Ok (k', b) -> quiet k k'.
Proof.
  unfold settle_internal_height. cbv zeta. intros H. apply bind_Ok in H as ([items|] & _ & H); injection H as <- _; [|done].
  apply SetTxOut_quiet.
Qed.

Lemma settle_heights_quiet tx inTxID period hs g k s g' k' s' :
  foldM (settle_height tx inTxID period) (g, k, s) hs = Ok (g', k', s') -> quiet k k'.
Proof.
  intros H. apply (foldM_keeps (fun x : GasMgr * KVStore * bool => quiet k x.1.2) _ (fun _ => True)) in H;
    [exact H| |done|by apply Forall_true].
  intros [[g1 k1] s1] h [[g2 k2] s2] Hq _ Hs. cbn in *. etrans; [exact Hq|]. unfold settle_height in Hs.
  destruct (h <? _); [by injection Hs as _ <- _|]. cbv zeta in Hs.
  apply bind_Ok in Hs as ([g3 [items|]] & _ & Hs); injection Hs as _ <- _; [apply SetTxOut_quiet|done].
Qed.

Lemma ragnarok_heights_quiet tx hs k s k' s' : foldM (ragnarok_height tx) (k, s) hs = Ok (k', s') -> quiet k k'.
Proof.
  intros H. apply (foldM_keeps (fun x : KVStore * bool => quiet k x.1) _ (fun _ => True)) in H;
    [exact H| |done|by apply Forall_true].
  intros [k1 s1] h [k2 s2] Hq _ Hs. cbn in *. etrans; [exact Hq|]. unfold ragnarok_height in Hs.
  apply bind_Ok in Hs as ([k3 found] & H3%settle_internal_quiet & [= Hs]). etrans; [exact H3|].
  destruct (found && _); injection Hs as <- _; [apply quiet_ballots|done].
Qed.

Lemma quiet_ledger k k' : quiet k k' -> ledger_sound k -> ledger_sound k'.
Proof. intros [H _]. by apply same_positions_ledger. Qed.

(** ** Transactions of the vaults *)

Lemma slash_tx_ledger k pk tx subsidize k' : ledger_sound k -> reserve_apart k ->
  slash_tx k pk tx subsidize = Ok k' -> ledger_sound k'.
Proof.
  intros Hk Hr H. unfold slash_tx in H. apply bind_Ok in H as (coins & _ & H).
  apply bind_Ok in H as ([k1 [e|]] & H1 & H); [done|]. injection H as <-. by eapply SlashVaultToLP_ledger.
Qed.

(** What is not settled is slashed. *)
Lemma settled_or_slashed k k1 (settled : bool) pk tx k' : ledger_sound k -> reserve_apart k -> quiet k k1 ->
  (if settled then Ok k1 else slash_tx k1 pk tx true) = Ok k' -> ledger_sound k'.
Proof.
  intros Hk Hr [Hs Ha] H. assert (Hk1 : ledger_sound k1) by (by eapply same_positions_ledger).
  destruct settled; [by injection H as <-|]. eapply slash_tx_ledger; [exact Hk1|by apply Ha|exact H].
Qed.

Lemma common_outbound_sound g k tx inTxID g' k' : reserve_apart k ->
  common_outbound_handle g k tx inTxID = Ok (g', k') -> ledger_sound k -> ledger_sound k'.
Proof.
  intros Hr H Hk. unfold common_outbound_handle in H. destruct (GTE _ _); [|done].
  unfold common_outbound_handleV96 in H. apply bind_Ok in H as ([k1 voter] & Hn%note_quiet & H). destruct (Chain_Equals _ _).
  { injection H as _ <-. by eapply quiet_ledger. }
  cbv zeta in H. apply bind_Ok in H as ([[g2 k2] s] & H2%settle_heights_quiet & H).
  apply bind_Ok in H as (k3 & H3 & [= _ <-]). apply (quiet_ledger k3); [apply signed_quiet|].
  assert (Hq : quiet k k2) by (by etrans). destruct s; [|injection H3 as <-; by eapply quiet_ledger].
  apply bind_Ok in H3 as ([k4 [e|]] & H4 & H3); [done|]. injection H3 as <-. unfold slashV96 in H4.
  apply bind_Ok in H4 as (coins & _ & H4). destruct Hq as [Hs Ha].
  eapply SlashVaultToLP_ledger; [by eapply same_positions_ledger|by apply Ha|exact H4].
Qed.

Lemma outbound_Run_sound g k msg g' k' : reserve_apart k ->
  outbound_Run g k msg = Ok (g', k') -> ledger_sound k -> ledger_sound k'.
Proof.
  intros Hr H. unfold outbound_Run in H. apply bind_Ok in H as ([] & _ & H). by eapply common_outbound_sound.
Qed.

Lemma refund_Run_sound g k msg g' k' : reserve_apart k ->
  refund_Run g k msg = Ok (g', k') -> ledger_sound k -> ledger_sound k'.
Proof.
  intros Hr H. unfold refund_Run in H. apply bind_Ok in H as ([] & _ & H). by eapply common_outbound_sound.
Qed.

Lemma migrate_Run_sound k msg k' : reserve_apart k ->
  migrate_Run k msg = Ok k' -> ledger_sound k -> ledger_sound k'.
Proof.
  intros Hr H Hk. unfold migrate_Run in H. apply bind_Ok in H as ([] & _ & H). destruct (GTE _ _); [|done].
  unfold migrate_handleV96 in H. cbv zeta in H. apply bind_Ok in H as ([k1 s] & H1%settle_internal_quiet & H).
  apply bind_Ok in H as (k2 & H2 & [= <-]). apply (quiet_ledger k2); [apply signed_quiet|].
  by eapply settled_or_slashed; [..|exact H2].
Qed.

Lemma ragnarok_Run_sound k msg k' : reserve_apart k ->
  ragnarok_Run k msg = Ok k' -> ledger_sound k -> ledger_sound k'.
Proof.
  intros Hr H Hk. unfold ragnarok_Run in H. apply bind_Ok in H as ([] & _ & H). destruct (GTE _ _); [|done].
  unfold ragnarok_handleV96 in H. cbv zeta in H. destruct (Chain_Equals _ _); [by injection H as <-|].
  apply bind_Ok in H as ([k1 s] & H1%ragnarok_heights_quiet & H).
  apply bind_Ok in H as (k2 & H2 & [= <-]). apply (quiet_ledger k2); [apply signed_quiet|].
  by eapply settled_or_slashed; [..|exact H2].
Qed.

Lemma consolidate_Run_sound k msg k' : reserve_apart k ->
  consolidate_Run k msg = Ok k' -> ledger_sound k -> ledger_sound k'.
Proof.
  intros Hr H Hk. unfold consolidate_Run in H. apply bind_Ok in H as ([] & _ & H). destruct (GTE _ _); [|done].
  unfold consolidate_handleV96 in H. cbv zeta in H.
  destruct (_ || _); [by eapply slash_tx_ledger|by injection H as <-].
Qed.

Lemma noop_Run_sound k msg k' : noop_Run k msg = Ok k' -> ledger_sound k -> ledger_sound k'.
Proof.
  intros H. unfold noop_Run in H. destruct (GTE _ _); [|done]. apply bind_Ok in H as ([] & _ & H).
  unfold noop_handleV1 in H. destruct (negb _); [by injection H as <-|].
  destruct (GetVault _ _) as [v|e|]; [|by injection H as <-|done]. apply bind_Ok in H as (v' & _ & H).
  apply same_positions_ledger. eapply logged_positions; [|exact H]. intros k1. apply SetVault_positions.
Qed.

(** After a slash of a vault the reserve is still no provider of a node. *)
Definition apart_after_slash k : Prop := forall k1 k2 pk tx,
  quiet k k1 -> slash_tx k1 pk tx true = Ok k2 -> reserve_apart k2.

Lemma update_contracts_positions contracts k vault k' vault' :
  foldM update_contract (k, vault) contracts = Ok (k', vault') -> same_positions k k'.
Proof.
  intros H. apply (foldM_keeps (fun x : KVStore * Vault => same_positions k x.1) _ (fun _ => True)) in H;
    [exact H| |done|by apply Forall_true].
  intros [k1 v1] c [k2 v2] Hq _ Hs. cbn in *. unfold update_contract in Hs.
  destruct (contract_free v1 c); [|by injection Hs as <- _]. cbv zeta in Hs.
  apply bind_Ok in Hs as (k3 & H3%SetVault_positions & [= <- _]). by etrans.
Qed.

Lemma ygg_return_sound k msg vault slashed k' : reserve_apart k ->
  handleYggdrasilReturnV1 k msg vault slashed = Ok k' -> ledger_sound k -> ledger_sound k'.
Proof.
  intros Hr H Hk. unfold handleYggdrasilReturnV1 in H. destruct (IsYggdrasil vault); [|by injection H as <-].
  apply bind_Ok in H as (vaults & _ & H). cbv zeta in H. apply bind_Ok in H as (ok & _ & H).
  apply bind_Ok in H as (k1 & H1 & H). apply bind_Ok in H as ([k2 v2] & H2%update_contracts_positions & [= <-]).
  apply (same_positions_ledger _ _ H2). destruct ok; [by injection H1 as <-|]. by eapply slash_tx_ledger.
Qed.

Lemma yggdrasil_Run_sound k msg k' : reserve_apart k -> apart_after_slash k ->
  yggdrasil_Run k msg = Ok k' -> ledger_sound k -> ledger_sound k'.
Proof.
  intros Hr Hs H Hk. unfold yggdrasil_Run in H. apply bind_Ok in H as ([] & _ & H). destruct (GTE _ _); [|done].
  unfold yggdrasil_handleV96 in H. cbv zeta in H. apply bind_Ok in H as ([k1 s] & H1%settle_internal_quiet & H).
  apply bind_Ok in H as (k2 & H2 & H). apply bind_Ok in H as (vault & _ & H).
  assert (Hk2 : ledger_sound k2 /\ reserve_apart k2).
  { destruct H1 as [Hp Ha]. destruct (negb _); [|injection H2 as <-; split; [by eapply same_positions_ledger|by apply Ha]].
    split; [|by eapply Hs; [split|]]. eapply slash_tx_ledger; [by eapply same_positions_ledger|by apply Ha|exact H2]. }
  destruct Hk2 as [Hk2 Hr2]. destruct (signed_quiet k2 (Ygg_BlockHeight msg)) as [Hp Ha].
  assert (Hk3 : ledger_sound (SetLastSignedHeight k2 (Ygg_BlockHeight msg))) by (by eapply same_positions_ledger).
  destruct (Ygg_AddFunds msg); [by injection H as <-|]. eapply ygg_return_sound; [by apply Ha|exact H|exact Hk3].
Qed.

(** ** Messages of the nodes *)

Lemma fold_positions {X} (f : KVStore -> X -> KVStore) l : (forall k x, same_positions k (f k x)) ->
  forall k, same_positions k (fold_left f l k).
Proof. intros Hf. induction l as [|x l IHl]; intros k; [done|]. cbn. etrans; [apply Hf|apply IHl]. Qed.

Lemma IncSlashPoints_positions k pts addrs : same_positions k (IncSlashPoints k pts addrs).
Proof. apply fold_positions. by intros. Qed.

Lemma DecSlashPoints_positions k pts addrs : same_positions k (DecSlashPoints k pts addrs).
Proof. apply fold_positions. by intros. Qed.

Lemma charge_banner_sound k banner bond voter signer k' : reserve_apart k -> acc_empty (NodeAddress banner) = false ->
  0 <= bond -> charge_banner k banner bond voter signer = Ok k' -> ledger_sound k -> ledger_sound k'.
Proof.
  intros Hr He Hb H Hk. unfold charge_banner in H. destruct (_ && _); [|by injection H as <-]. cbv zeta in H.
  apply bind_Ok in H as ([k1 [t am]] & H1 & [= <-]).
  eapply slash_ledger in H1; [by apply H1|done|done|intros E; rewrite E, (proj2 (acc_empty_law EmptyString) eq_refl) in He; discriminate He|].
  pose proof (u64_nonneg (mimir_or_constant k "MinimumBondInCacao")). destruct (_ <? _); [done|].
  apply Z.div_pos; lia.
Qed.

Lemma NodeAccount_Valid_address na : NodeAccount_Valid na = Ok tt -> acc_empty (NodeAddress na) = false.
Proof. unfold NodeAccount_Valid. by destruct (acc_empty _). Qed.

Lemma ban_Run_sound k msg k' : reserve_apart k -> ban_Run k msg = Ok k' -> ledger_sound k -> ledger_sound k'.
Proof.
  intros Hr H Hk. unfold ban_Run in H. apply bind_Ok in H as ([] & _ & H). destruct (GTE _ _); [|done].
  unfold ban_handleV90 in H. cbv zeta in H. apply bind_Ok in H as ([] & _ & H).
  destruct (ForcedToLeave _); [by injection H as <-|]. destruct (negb _); [done|].
  apply bind_Ok in H as ([] & Hv%NodeAccount_Valid_address & H).
  apply bind_Ok in H as (bond & Hb%CalcNodeLiquidityBond_nonneg & H).
  apply bind_Ok in H as (k1 & H1%charge_banner_sound & H); [|done..].
  destruct (negb _); [injection H as <-; by apply (same_positions_ledger k1)|].
  destruct (_ <? _); injection H as <-; [by apply (same_positions_ledger k1)|].
  eapply same_positions_ledger; [apply k_SetNodeAccount_positions|by apply (same_positions_ledger k1)].
Qed.

Lemma SaveNetworkFee_positions k chain fee k' : SaveNetworkFee k chain fee = Ok k' -> same_positions k k'.
Proof. unfold SaveNetworkFee. intros H. by apply bind_Ok in H as ([] & _ & [= <-]). Qed.

Lemma network_fee_positions k msg k' : network_fee_Run k msg = Ok k' -> same_positions k k'.
Proof.
  intros H. unfold network_fee_Run in H. apply bind_Ok in H as ([] & _ & H). destruct (GTE _ _); [|done].
  unfold network_fee_handleV47 in H. cbv zeta in H. destruct (Sign _ _) as [voter signed].
  pose proof (IncSlashPoints_positions k (kv_constants k "ObserveSlashPoints") [MsgFee_Signer msg]) as Hi.
  etrans; [exact Hi|]. clear Hi. set (k1 := IncSlashPoints _ _ _) in *. clearbody k1.
  destruct (negb signed); [by injection H as <-|]. destruct (negb _); [by injection H as <-|].
  destruct (0 <? _).
  - injection H as <-. by destruct (_ <=? _).
  - apply SaveNetworkFee_positions in H. etrans; [|exact H].
    apply (DecSlashPoints_positions (SetObservedNetworkFeeVoter (SetObservedNetworkFeeVoter k1 voter) _)).
Qed.

Lemma forgive_positions k msg k' : forgive_Run k msg = Ok k' -> same_positions k k'.
Proof.
  intros H. unfold forgive_Run in H. apply bind_Ok in H as ([] & _ & H). unfold forgive_handleV1 in H.
  cbv zeta in H. apply bind_Ok in H as ([] & _ & H). apply bind_Ok in H as ([] & _ & H).
  destruct (ForgiveSlashVoter_HasExpired _ _); [by injection H as <-|]. destruct (negb (HasConsensus _ _)); [by injection H as <-|].
  destruct (0 <? _); injection H as <-; [done|]. set (k1 := SetForgiveSlashVoter k _).
  apply (DecSlashPoints_positions (SetForgiveSlashVoter k1 _)).
Qed.

Lemma SetMimir_positions k key v : same_positions k (SetMimir k key v).
Proof. unfold SetMimir. by destruct (haveKraken k). Qed.

Lemma pause_positions k msg k' : pause_Run k msg = Ok k' -> same_positions k k'.
Proof.
  intros H. unfold pause_Run in H. apply bind_Ok in H as ([] & _ & H). destruct (GTE _ _); [|done].
  unfold pause_handleV87 in H. apply bind_Ok in H as (active & _ & H). cbv zeta in H. destruct (_ <? _); [done|].
  destruct (if 0 <? Pause_Value msg then _ else _) as [k1 h] eqn:E. injection H as <-.
  etrans; [|apply SetMimir_positions]. destruct (0 <? _); [by injection E as <- _|].
  destruct (_ && _); by injection E as <- _.
Qed.

Lemma charge_native_positions k from k' : charge_native_fee k from = Ok k' -> same_positions k k'.
Proof. by intros [b ->]%charge_native_frame. Qed.

Lemma mimir_positions k msg k' : mimir_Run k msg = Ok k' -> same_positions k k'.
Proof.
  intros H. unfold mimir_Run in H. apply bind_Ok in H as ([] & _ & H). unfold mimir_handleV92 in H. cbv zeta in H.
  destruct (isAdmin _).
  - destruct (_ <? _); injection H as <-; [done|]. etrans; [apply SetMimir_positions|].
    destruct (_ || _); [|done]. unfold setIBCTransfer. destruct (ibc_params _). by repeat destruct (String.eqb _ _).
  - apply bind_Ok in H as (k1 & H1%charge_native_positions & H). destruct (_ =? _); [by injection H as <-|].
    destruct (NodeMimirs_HasSuperMajority _ _ _) as [voted maj]. destruct (negb maj); [by injection H as <-|].
    destruct (_ =? voted); injection H as <-; [done|]. etrans; [exact H1|].
    apply (SetMimir_positions (SetNodeMimir k1 _ _ _)).
Qed.

Lemma version_positions k msg k' : version_Run k msg = Ok k' -> same_positions k k'.
Proof.
  intros H. unfold version_Run in H. apply bind_Ok in H as ([] & _ & H). destruct (GTE _ _); [|done].
  unfold version_handleV105 in H. cbv zeta in H. apply bind_Ok in H as (v & _ & H%charge_native_positions).
  etrans; [apply k_SetNodeAccount_positions|exact H].
Qed.

Lemma node_keys_positions k msg k' : node_keys_Run k msg = Ok k' -> same_positions k k'.
Proof.
  intros H. unfold node_keys_Run in H. apply bind_Ok in H as ([] & _ & H). unfold node_keys_handleV105 in H.
  cbv zeta in H. apply bind_Ok in H as (k1 & H1%charge_native_positions & [= <-]).
  etrans; [exact H1|apply k_SetNodeAccount_positions].
Qed.

(** ** The chain *)

Inductive node_step : KVStore -> KVStore -> Prop :=
  | step_ban k msg k' : reserve_apart k -> ban_Run k msg = Ok k' -> node_step k k'
  | step_fee k msg k' : network_fee_Run k msg = Ok k' -> node_step k k'
  | step_forgive k msg k' : forgive_Run k msg = Ok k' -> node_step k k'
  | step_pause k msg k' : pause_Run k msg = Ok k' -> node_step k k'
  | step_mimir k msg k' : mimir_Run k msg = Ok k' -> node_step k k'
  | step_version k msg k' : version_Run k msg = Ok k' -> node_step k k'
  | step_keys k msg k' : node_keys_Run k msg = Ok k' -> node_step k k'.

Inductive vault_step : KVStore -> KVStore -> Prop :=
  | step_outbound_tx k g msg g' k' : reserve_apart k -> outbound_Run g k msg = Ok (g', k') -> vault_step k k'
  | step_refund_tx k g msg g' k' : reserve_apart k -> refund_Run g k msg = Ok (g', k') -> vault_step k k'
  | step_migrate k msg k' : reserve_apart k -> migrate_Run k msg = Ok k' -> vault_step k k'
  | step_ragnarok k msg k' : reserve_apart k -> ragnarok_Run k msg = Ok k' -> vault_step k k'
  | step_yggdrasil k msg k' : reserve_apart k -> apart_after_slash k -> yggdrasil_Run k msg = Ok k' -> vault_step k k'
  | step_consolidate k msg k' : reserve_apart k -> consolidate_Run k msg = Ok k' -> vault_step k k'
  | step_noop k msg k' : noop_Run k msg = Ok k' -> vault_step k k'.

Inductive chain_step : KVStore -> KVStore -> Prop :=
  | step_market k k' : market_step fuel gm k k' -> chain_step k k'
  | step_node k k' : node_step k k' -> chain_step k k'
  | step_vault k k' : vault_step k k' -> chain_step k k'
  | step_swap k msg k' : deposit_memo (Tx_Memo (Msg_Tx msg)) = false ->
      swap_Run gm k msg = Ok k' -> chain_step k k'
  | step_swaps k k' e : queue_no_deposits k -> SwapQueue_EndBlock k = Ok (k', e) -> chain_step k k'
  | step_refund k tx module k' e : refundTxV124 k tx module = Ok (k', e) -> chain_step k k'.

Lemma node_step_sound k k' : node_step k k' -> ledger_sound k -> ledger_sound k'.
Proof.
  destruct 1; [by eapply ban_Run_sound|apply same_positions_ledger..].
  - by eapply network_fee_positions.
  - by eapply forgive_positions.
  - by eapply pause_positions.
  - by eapply mimir_positions.
  - by eapply version_positions.
  - by eapply node_keys_positions.
Qed.

Lemma vault_step_sound k k' : vault_step k k' -> ledger_sound k -> ledger_sound k'.
Proof.
  destruct 1; [by eapply outbound_Run_sound|by eapply refund_Run_sound|by eapply migrate_Run_sound|
    by eapply ragnarok_Run_sound|by eapply yggdrasil_Run_sound|by eapply consolidate_Run_sound|by eapply noop_Run_sound].
Qed.

Lemma chain_step_sound k k' : chain_step k k' -> ledger_sound k -> ledger_sound k'.
Proof.
  intros H Hk. destruct H as [k k' H|k k' H|k k' H|k msg k' Hm H|k k' e Hq H|k tx module k' e H].
  - by eapply market_step_sound.
  - by eapply node_step_sound.
  - by eapply vault_step_sound.
  - by eapply swap_Run_sound.
  - by eapply SwapQueue_EndBlock_sound.
  - unfold refundTxV124 in H. by eapply refund_coins_sound.
Qed.

End market_books.

(** ** A run of the chain *)

Section chain_witness.
Import Reference ReferenceBank ReferenceRange ReferenceAddress ReferenceText ReferenceSort.
#[local] Existing Instance bond_address.
#[local] Existing Instance bond_codec.
#[local] Existing Instance bond_accounts.
#[local] Existing Instance ledger_keys.
#[local] Instance chain_sha : Sha256 := {| sha256_hex s := s |}.
#[local] Instance chain_handlers : InternalHandlers := {| handle_internal _ _ _ := Err "no handler" |}.
#[local] Instance chain_build : BuildVersion := {| LatestVersion := semver_release 1 124 0 |}.
#[local] Instance chain_cons : ConsensusKeys := {| cons_address s := Ok s |}.
#[local] Instance chain_bank : AccountBank := {|
  bank_collect _ _ _ b := Ok b; bank_has _ _ _ := true; ibc_params _ := (true, true); set_ibc_params b _ := b |}.
#[local] Existing Instance digit_parse.
#[local] Existing Instance digit_text.
#[local] Instance chain_reader : SemverReader := {|
  semver_parse s := Ok (semver_make s); semver_plain _ := true; semver_lt a b := GTE b a && negb (GTE a b) |}.
#[local] Instance chain_store : TxOutStore := TxOutStorage 5 newGasMgr.
#[local] Instance chain_swaps : SwapActions := SwapQueueActions newGasMgr.

Lemma chain_handlers_laws : InternalHandlersLaws chain_handlers.
Proof. by split. Qed.

(** Two swaps wait: the second asks for more than it can get. *)
Definition chain_start : outcome KVStore :=
  k ← market_start;
  let k := SetMimir (SetMimir k "MinSwapsPerBlock" 10) "MaxSwapsPerBlock" 100 in
  let k := SetMimir k "VirtualMultSynthsBasisPoints" 10000 in
  let k := set_kv_bank k (ReferenceBank.mkState
      (<[(ReserveName, Asset_Native BaseAsset) := 5000]> (<[(AsgardName, Asset_Native BaseAsset) := 10000]> ∅))
      (<[Asset_Native BaseAsset := 15000]> ∅)) in
  Ok (SetSwapQueueItem (SetSwapQueueItem k (swap_message (chain_hash 1) 300 0) 0)
        (swap_message (chain_hash 2) 200 5000) 0).

Definition chain_vote : MsgMimir := mkMsgMimir "ACCEPT_FEE" 7 "node2".

(** A payment that no vault was asked for. *)
Definition chain_migrate : MsgMigrate :=
  mkMsgMigrate (mkObservedTx (mkTx (chain_hash 3) BTCChain "vault" "3else" [NewCoin BTCAsset 50] [NewCoin BTCAsset 1] "MIGRATE:10")
    Status_incomplete [] 10 [] "vault" 0 10 EmptyString EmptyString None) 10 "node2".

Definition chain_states (start : outcome KVStore) : outcome (KVStore * KVStore * KVStore * KVStore * KVStore) :=
  k0 ← start;
  '(k1, _) ← TryAddTxOutItem_current 5 newGasMgr k0 (market_item BTCChain "3bob" BTCAsset 100 EmptyString) 1;
  k2 ← bond_Run k1 bond_message;
  '(k3, _) ← SlashVaultToLP k2 "vault" [NewCoin BTCAsset 100] true;
  k4 ← withdraw_Run k3 market_message;
  k5 ← swap_Run newGasMgr k4 (swap_message (chain_hash 4) 500 0);
  k6 ← mimir_Run k5 chain_vote;
  '(k7, _) ← SwapQueue_EndBlock k6;
  k8 ← migrate_Run k7 chain_migrate;
  k9 ← TxOutStorage_EndBlock k8;
  Ok (k0, k2, k6, k7, k9).

Definition plain_queue_b k : bool :=
  forallb (fun e => negb (deposit_memo (Tx_Memo (Msg_Tx (snd e))))) (map_to_list (kv_swap_items k)).

Lemma plain_queue_b_spec k : plain_queue_b k = true -> queue_no_deposits k.
Proof.
  unfold plain_queue_b. rewrite forallb_forall. intros H i m Hm.
  by apply elem_of_map_to_list, list_elem_of_In, H, negb_true_iff in Hm.
Qed.

Lemma chain_states_steps start k0 k2 k6 k7 k9 :
  chain_states start = Ok (k0, k2, k6, k7, k9) -> reserve_apart k2 -> queue_no_deposits k6 -> reserve_apart k7 ->
  rtc (chain_step 5 newGasMgr) k0 k9.
Proof.
  unfold chain_states. intros H A2 Q6 A7. apply bind_Ok in H as (x0 & _ & H).
  apply bind_Ok in H as ([k1 ok] & E1 & H). apply bind_Ok in H as (x2 & E2 & H).
  apply bind_Ok in H as ([k3 e3] & E3 & H). apply bind_Ok in H as (k4 & E4 & H).
  apply bind_Ok in H as (k5 & E5 & H). apply bind_Ok in H as (x6 & E6 & H).
  apply bind_Ok in H as ([x7 e7] & E7 & H). apply bind_Ok in H as (k8 & E8 & H).
  apply bind_Ok in H as (x9 & E9 & [= -> -> -> -> ->]).
  eapply rtc_l; [exact (step_market _ _ _ _ (step_outbound _ _ _ _ _ _ _ E1))|].
  eapply rtc_l; [refine (step_market _ _ _ _ (step_liquidity _ _ _ _ (step_bond _ bond_message _ _ _ E2))); [by split; vm_compute|by vm_compute]|].
  eapply rtc_l; [exact (step_market _ _ _ _ (step_liquidity _ _ _ _ (step_slash _ _ _ _ _ _ A2 E3)))|].
  eapply rtc_l; [refine (step_market _ _ _ _ (step_liquidity _ _ _ _ (step_withdraw _ market_message _ _ E4))); by vm_compute|].
  eapply rtc_l; [refine (step_swap _ _ _ (swap_message (chain_hash 4) 500 0) _ _ E5); by vm_compute|].
  eapply rtc_l; [exact (step_node _ _ _ _ (step_mimir _ _ _ E6))|].
  eapply rtc_l; [exact (step_swaps _ _ _ _ _ Q6 E7)|].
  eapply rtc_l; [exact (step_vault _ _ _ _ (step_migrate _ _ _ _ _ A7 E8))|].
  apply rtc_once. exact (step_market _ _ _ _ (step_end_block _ _ _ _ E9)).
Qed.

Definition chain_check (r : outcome (KVStore * KVStore * KVStore * KVStore * KVStore)) : bool :=
  match r with
  | Ok (k0, k2, k6, k7, k9) =>
      ledger_sound_b k0 && apart_b k2 && plain_queue_b k6 && apart_b k7
      && bool_decide (map item_amount (TxArray (GetTxOut k9 13)) = [100; 90]
                      /\ map item_amount (TxArray (GetTxOut k9 14)) = [67; 36])
      && (BalanceAsset (GetPool k7 BTCAsset) =? 707) && (BalanceAsset (GetPool k9 BTCAsset) =? 656)
  | _ => false
  end.

Lemma chain_checked : chain_check (chain_states chain_start) = true.
Proof. by vm_compute. Qed.

Lemma chain_check_spec r : chain_check r = true -> exists k0 k2 k6 k7 k9, r = Ok (k0, k2, k6, k7, k9) /\
  ledger_sound k0 /\ reserve_apart k2 /\ queue_no_deposits k6 /\ reserve_apart k7 /\
  map item_amount (TxArray (GetTxOut k9 14)) = [67; 36] /\ BalanceAsset (GetPool k9 BTCAsset) = 656.
Proof.
  destruct r as [[[[[k0 k2] k6] k7] k9]| |]; [|discriminate..]. cbn [chain_check].
  rewrite !andb_true_iff, !Z.eqb_eq, bool_decide_eq_true, ledger_sound_b_spec.
  intros [[[[[[H0 A2%apart_b_spec] Q6%plain_queue_b_spec] A7%apart_b_spec] [_ Hi]] _] Hb].
  by exists k0, k2, k6, k7, k9.
Qed.

End chain_witness.
