(* ===== verification/Effects.v ===== *)
(** Computations that change the store and may fail, keeping what they changed: the
    managers run at the end of a block without a cache, and the errors of their parts
    are often logged only. *)
From S2P Require Import Prelude GoText Sdk Stores Keeper.

Section effects.
Context `{V : Semver} `{B : CosmosBank}.
Implicit Types (k : KVStore).

(** An error leaves the store as it was when the error arose. *)
Definition effect (X : Type) : Type := KVStore -> outcome (KVStore * (string + X)).

#[global] Instance effect_ret : MRet effect := fun X x k => Ok (k, inr x).
#[global] Instance effect_bind : MBind effect := fun X Y f m k =>
  match m k with
  | Ok (k, inr x) => f x k
  | Ok (k, inl e) => Ok (k, inl e)
  | Err e => Err e
  | Panic => Panic
  end.

(** What the store says. *)
Definition reads {X} (f : KVStore -> X) : effect X := fun k => Ok (k, inr (f k)).

(** A computation that does not change the store. *)
Definition computes {X} (f : KVStore -> outcome X) : effect X := fun k =>
  match f k with
  | Ok x => Ok (k, inr x)
  | Err e => Ok (k, inl e)
  | Panic => Panic
  end.

Definition fails {X} (e : string) : effect X := fun k => Ok (k, inl e).

(** A change of the store that is made or not at all. *)
Definition changes (f : KVStore -> outcome KVStore) : effect unit := fun k =>
  match f k with
  | Ok k => Ok (k, inr tt)
  | Err e => Ok (k, inl e)
  | Panic => Panic
  end.

Definition writes (f : KVStore -> KVStore) : effect unit := fun k => Ok (f k, inr tt).

(** An error is logged; what was done before it stays. *)
Definition logs {X} (m : effect X) : effect (option X) := fun k =>
  match m k with
  | Ok (k, inr x) => Ok (k, inr (Some x))
  | Ok (k, inl _) => Ok (k, inr None)
  | Err e => Err e
  | Panic => Panic
  end.

(** A computation in a cache: an error undoes it. *)
Definition cached {X} (m : effect X) : effect X := fun k =>
  match m k with
  | Ok (_, inl e) => Ok (k, inl e)
  | r => r
  end.

Fixpoint each {X} (f : X -> effect unit) (l : list X) : effect unit :=
  match l with
  | [] => mret tt
  | x :: l' => _ ← f x; each f l'
  end.

Lemma bind_done {X Y} (m : effect X) (f : X -> effect Y) k k' y :
  (m ≫= f) k = Ok (k', inr y) <-> exists k1 x, m k = Ok (k1, inr x) /\ f x k1 = Ok (k', inr y).
Proof.
  unfold mbind, effect_bind. destruct (m k) as [[k1 [e|x]]| |]; split; try done; try (by intros (? & ? & ? & _)).
  - by eauto.
  - by intros (k2 & x2 & [= <- <-] & H).
Qed.

Lemma computes_done {X} (f : KVStore -> outcome X) k k' x :
  computes f k = Ok (k', inr x) <-> f k = Ok x /\ k' = k.
Proof. unfold computes. destruct (f k); (split; [intros H|intros [H ->]]); by simplify_eq. Qed.

Lemma changes_done (f : KVStore -> outcome KVStore) k k' x : changes f k = Ok (k', inr x) <-> f k = Ok k'.
Proof. destruct x. unfold changes. destruct (f k); split; intros H; by simplify_eq. Qed.

(** ** Weakest preconditions *)

(** What holds when the computation ends: [Q] of the result, [E] after an error. *)
Definition wp {X} (m : effect X) (Q : X -> KVStore -> Prop) (E : KVStore -> Prop) k : Prop :=
  forall k' r, m k = Ok (k', r) -> match r with inr x => Q x k' | inl _ => E k' end.

Section rules.
Context {X : Type}.
Implicit Types (Q : X -> KVStore -> Prop) (E : KVStore -> Prop).

Lemma wp_ret (x : X) Q E k : Q x k -> wp (mret x) Q E k.
Proof. by intros H k' r [= <- <-]. Qed.

Lemma wp_reads (f : KVStore -> X) Q E k : Q (f k) k -> wp (reads f) Q E k.
Proof. by intros H k' r [= <- <-]. Qed.

Lemma wp_fails e Q E k : E k -> wp (fails e) Q E k.
Proof. by intros H k' r [= <- <-]. Qed.

Lemma wp_computes (f : KVStore -> outcome X) Q E k :
  (forall e, f k = Err e -> E k) -> (forall x, f k = Ok x -> Q x k) -> wp (computes f) Q E k.
Proof.
  intros He Hq k' r H. unfold computes in H. destruct (f k) as [x|e|]; [| |done]; injection H as <- <-.
  - by apply Hq.
  - by apply (He e).
Qed.

Lemma wp_mono (m : effect X) Q Q' E E' k : wp m Q E k ->
  (forall x k', Q x k' -> Q' x k') -> (forall k', E k' -> E' k') -> wp m Q' E' k.
Proof. intros H Hq He k' [e|x] Hm; [by eapply He, (H _ _ Hm)|by eapply Hq, (H _ _ Hm)]. Qed.

Lemma wp_bind {Y} (m : effect Y) (f : Y -> effect X) Q E k :
  wp m (fun y k' => wp (f y) Q E k') E k -> wp (m ≫= f) Q E k.
Proof.
  intros H k' r Hb. unfold mbind, effect_bind in Hb. destruct (m k) as [[k1 [e|y]]| |] eqn:Em; [| |done..].
  - injection Hb as <- <-. exact (H _ _ Em).
  - exact (H _ _ Em _ _ Hb).
Qed.

Lemma wp_cached (m : effect X) Q E k : E k -> wp m Q (fun _ => True) k -> wp (cached m) Q E k.
Proof.
  intros He Hm k' r H. unfold cached in H. destruct (m k) as [[k1 [e|x]]| |] eqn:Em; [| |done..].
  - by injection H as <- <-.
  - injection H as <- <-. exact (Hm _ _ Em).
Qed.
End rules.

Lemma wp_changes (f : KVStore -> outcome KVStore) Q E k :
  (forall e, f k = Err e -> E k) -> (forall k', f k = Ok k' -> Q tt k') -> wp (changes f) Q E k.
Proof.
  intros He Hq k' r H. unfold changes in H. destruct (f k) as [k1|e|]; [| |done]; injection H as <- <-.
  - by apply Hq.
  - by apply (He e).
Qed.

Lemma wp_writes (f : KVStore -> KVStore) (Q : unit -> KVStore -> Prop) E k : Q tt (f k) -> wp (writes f) Q E k.
Proof. by intros H k' r [= <- <-]. Qed.

Lemma wp_logs {X} (m : effect X) (Q : option X -> KVStore -> Prop) E k :
  wp m (fun x => Q (Some x)) (Q None) k -> wp (logs m) Q E k.
Proof.
  intros Hm k' r H. unfold logs in H. destruct (m k) as [[k1 [e|x]]| |] eqn:Em; [| |done..];
    injection H as <- <-; exact (Hm _ _ Em).
Qed.

Lemma wp_each {X} (f : X -> effect unit) (P : KVStore -> Prop) l :
  (forall x k, x ∈ l -> P k -> wp (f x) (fun _ => P) P k) -> forall k, P k -> wp (each f l) (fun _ => P) P k.
Proof.
  induction l as [|x l IHl]; intros Hf k Hk; [by apply wp_ret|]. cbn [each]. apply wp_bind.
  eapply wp_mono; [apply Hf; [by left|exact Hk]| |done]. intros [] k1 Hk1. apply IHl; [|exact Hk1].
  intros y k2 Hy. apply Hf. by right.
Qed.
End effects.

(** Goes through the computation to its next proper step. *)
Ltac wp_step :=
  cbv beta;
  lazymatch goal with
  | |- wp (mbind _ _) _ _ _ => apply wp_bind
  | |- wp (mret _) _ _ _ => apply wp_ret
  | |- wp (reads _) _ _ _ => apply wp_reads
  | |- wp (fails _) _ _ _ => apply wp_fails
  | |- wp (writes _) _ _ _ => apply wp_writes
  | |- wp (logs _) _ _ _ => apply wp_logs
  | |- wp (computes _) _ _ _ => apply wp_computes
  | |- wp (changes _) _ _ _ => apply wp_changes
  end;
  cbv beta.
