(* ===== verification/Rewards.v ===== *)
(** The rewards of a block: [UpdateNetwork] and [paySaverYield] of
    [x/mayachain/manager_network_current.go]. *)
From stdpp Require Import pretty.
From S2P Require Import Prelude GoText Sdk Constants Floats Shares Chains Keys Addresses Assets Coins Txs.
From S2P Require Import NodeAccounts Votes TxOuts Vaults ObservedTxs Pools Mimirs StreamingSwaps SwapMsgs.
From S2P Require Import LiquidityProviders Records MayaNames Stores Keeper FuzzyAssets Nodes Bonds VaultStore Halts Gas.
From S2P Require Import Swapper Swaps Affiliates Collectors SwapChecks Liquidity AddLiquidity LiquidityBooks Slashing Bonding BondBooks LiquidityLedger Effects.

(** [Dec.MulInt64] and [Dec.QuoInt64]: a product by an integer is exact, a quotient is
    truncated. *)
Class SdkDecInt := {
  dec_mul_int64 : Z -> Z -> outcome Z;
  dec_quo_int64 : Z -> Z -> outcome Z;
}.

Class SdkDecIntLaws (I : SdkDecInt) : Prop := {
  dec_mul_int64_exact : forall a b c, dec_mul_int64 a b = Ok c -> c = a * b;
  dec_quo_int64_exact : forall a b c, dec_quo_int64 a b = Ok c -> c = Z.quot a b;
}.

(** Minting gives its coins to the module. *)
Class BankMintLaws (B : CosmosBank) : Prop := {
  bank_mint_balance : forall m cs b b' a d, bank_mint m cs b = Ok b' ->
    bank_balance b' a d = bank_balance b a d + moved (bank_module m) a d cs;
}.

Definition with_rewards (n : Network) (bond units lp node : Z) : Network :=
  mkNetwork bond units lp node (OutboundGasSpentCacao n) (OutboundGasWithheldCacao n).

Definition with_CacaoDeposited (p : CACAOPool) (v : Z) : CACAOPool :=
  mkCACAOPool (ReserveUnits p) (PoolUnits p) v (CacaoWithdrawn p).

Section rewards.
Context `{V : Semver} `{B : CosmosBank} `{A : SdkAddress} `{R : MapRange} `{L : AddressLib}.
Context `{U : SdkUint} `{D : SdkDec} `{DI : SdkDecInt}.
Implicit Types (k : KVStore).

(** ** The shares of a block *)

Definition getTotalProvidedLiquidityRune k : outcome (list Pool * Z) :=
  let pools := List.filter (fun p => negb (Asset_IsNative (Pool_Asset p)) && negb (BalanceCacao p =? 0))
                 (GetPoolIterator k) in
  total ← foldM (fun t p => uint_add t (BalanceCacao p)) 0 pools;
  Ok (pools, total).

Definition getTotalActiveBond k : outcome Z :=
  foldM (fun t na => b ← CalcNodeLiquidityBond k na; uint_add t b) 0 (ListActiveValidators k).

Definition getTotalActiveNodeWithBond k : outcome Z :=
  foldM (fun t na => b ← CalcNodeLiquidityBond k na; Ok (if b =? 0 then t else i64 (t + 1))) 0
    (ListActiveValidators k).

Definition calcPoolDeficit (lpDeficit totalFees poolFees : Z) : Z := GetSafeShare poolFees totalFees lpDeficit.

(** All of the fees up to three quarters of the liquidity in bonds, none when it is all
    bonded; the same in basis points. *)
Definition incentive_curve (totalProvidedLiquidity totalBonded totalLiquidityFees : Z) : outcome (Z * Z) :=
  let tlD := dec_of_big totalProvidedLiquidity in
  let tbD := dec_of_big totalBonded in
  xD ← dec_quo tbD tlD;
  three_quarters ← dec_quo_int64 (dec_of_int 3) 4;
  if xD <=? three_quarters then Ok (totalLiquidityFees, 10000)
  else
    let tfD := dec_of_big totalLiquidityFees in
    yD ← dec_sub (dec_of_int 1) xD;
    partD ← dec_mul_int64 yD 4;
    points ← dec_mul_int64 partD 10000;
    bondShare ← dec_round_int64 points;
    bondSplitD ← dec_mul partD tfD;
    bondSplit ← dec_round_int64 bondSplitD;
    Ok (u64 bondSplit, u64 bondShare).

(** The part of the fees for the bonds. *)
Definition calcBlockRewards k (totalProvidedLiquidity totalBonded totalLiquidityFees : Z) : outcome (Z * Z) :=
  let incentiveCurveControl := GetMimir k "IncentiveCurveControl" in
  if (0 <=? incentiveCurveControl) && (incentiveCurveControl <=? 10000)
  then Ok (GetSafeShare incentiveCurveControl 10000 totalLiquidityFees, incentiveCurveControl)
  else if (totalProvidedLiquidity =? 0) || (totalBonded =? 0) || (totalProvidedLiquidity <? totalBonded)
  then Ok (totalLiquidityFees, 10000)
  else incentive_curve totalProvidedLiquidity totalBonded totalLiquidityFees.

(** ** The yield of savers *)

(** The less the closer the synths are to their maximum. *)
Definition saver_basis_points k (pool : Pool) : outcome Z :=
  let basisPts := mimir_or_constant k "SynthYieldBasisPoints" in
  let max := mimir_or_constant k "MaxSynthsForSaversYield" in
  if 0 <? max then
    synthSupply ← GetTotalSupply k (GetSyntheticAsset (Pool_Asset pool));
    '(pool, _) ← CalcUnits pool (kv_version k) synthSupply;
    units ← GetPoolUnits pool;
    let synthPerPoolDepth := GetUncappedShare (SynthUnits pool) units 10000 in
    let lostYield := GetUncappedShare synthPerPoolDepth (u64 max) (u64 basisPts) in
    left ← SafeSub (u64 basisPts) lostYield;
    Ok (i64 left)
  else Ok basisPts.

Definition saver_earnings (pool saver : Pool) (basisPts runeAmt : Z) : outcome Z :=
  assetAmt ← RuneValueInAsset pool runeAmt;
  twice ← uint_mul64 (BalanceAsset pool) 2;
  let earnings := GetSafeShare (BalanceAsset saver) twice assetAmt in
  Ok (GetSafeShare (u64 basisPts) 10000 earnings).

Definition paySaverYield (asset : Asset) (runeAmt : Z) : effect unit :=
  pool ← reads (fun k => GetPool k (GetLayer1Asset asset));
  if (BalanceAsset pool =? 0) || negb (Pool_Status pool =? PoolStatus_Available) then mret tt
  else
    saver ← reads (fun k => GetPool k (GetSyntheticAsset asset));
    if (BalanceAsset saver =? 0) || (LPUnits saver =? 0) then mret tt
    else
      basisPts ← computes (fun k => saver_basis_points k pool);
      if basisPts <=? 0 then mret tt
      else
        earnings ← computes (fun _ => saver_earnings pool saver basisPts runeAmt);
        if earnings =? 0 then mret tt
        else
          let coin := NewCoin (GetSyntheticAsset (Pool_Asset saver)) earnings in
          _ ← changes (fun k => MintToModule k ModuleName coin);
          _ ← changes (fun k => SendFromModuleToModule k ModuleName AsgardName [coin]);
          balance ← computes (fun _ => uint_add (BalanceAsset saver) earnings);
          _ ← changes (fun k => SetPool k (set_BalanceAsset saver balance));
          _ ← computes (fun k => GetModuleAddress k ModuleName);
          _ ← computes (fun k => GetModuleAddress k AsgardName);
          mret tt.

(** ** What the pools give back *)

(** The deficit is sent before it is capped at what the pool holds. *)
Definition take_deficit (amts : list PoolAmt) (pool : Pool) (poolDeficit : Z) : effect (list PoolAmt) :=
  if poolDeficit =? 0 then mret amts
  else
    _ ← changes (fun k => SendFromModuleToModule k AsgardName ReserveName [NewCoin BaseNative poolDeficit]);
    let poolDeficit := if BalanceCacao pool <? poolDeficit then BalanceCacao pool else poolDeficit in
    balance ← computes (fun _ => SafeSub (BalanceCacao pool) poolDeficit);
    _ ← changes (fun k => SetPool k (set_BalanceCacao pool balance));
    amount ← computes (fun _ => amount_uint64 poolDeficit);
    mret (amts ++ [mkPoolAmt (Pool_Asset pool) (i64 (0 - i64 amount))]).

Definition deduct_pool (totalLiquidityFees lpDeficit : Z) (amts : list PoolAmt) (pool : Pool) : effect (list PoolAmt) :=
  if negb (IsAvailable pool) then mret amts
  else
    poolFees ← reads (fun k => GetPoolLiquidityFees k (u64 (kv_height k)) (Pool_Asset pool));
    if (BalanceCacao pool =? 0) || (poolFees =? 0) then mret amts
    else
      let poolDeficit := calcPoolDeficit lpDeficit totalLiquidityFees poolFees in
      yield ← computes (fun _ => SafeSub poolFees poolDeficit);
      _ ← logs (paySaverYield (Pool_Asset pool) yield);
      take_deficit amts pool poolDeficit.

Fixpoint deduct_pools (totalLiquidityFees lpDeficit : Z) (amts : list PoolAmt) (pools : list Pool)
  : effect (list PoolAmt) :=
  match pools with
  | [] => mret amts
  | pool :: pools' =>
      amts ← deduct_pool totalLiquidityFees lpDeficit amts pool;
      deduct_pools totalLiquidityFees lpDeficit amts pools'
  end.

Definition deductPoolRewardDeficit (pools : list Pool) (totalLiquidityFees lpDeficit : Z) : effect (list PoolAmt) :=
  deduct_pools totalLiquidityFees lpDeficit [] pools.

(** ** The block *)

(** Nothing is sent when the reserve holds less; whether it was sent. *)
Definition pay_from (to : string) (amount : Z) : effect bool :=
  reserve ← computes (fun k => GetRuneBalanceOfModule k ReserveName);
  if negb (amount =? 0) && (amount <=? reserve) then
    _ ← changes (fun k => SendFromModuleToModule k ReserveName to [NewCoin BaseNative amount]);
    mret true
  else mret false.

(** The twentieth of the fees for the CACAO pool. *)
Definition pay_cacao_pool (tenPercent : Z) : effect unit :=
  enabled ← reads (fun k => 0 <? GetConfigInt64 k "CACAOPoolRewardsEnabled");
  if enabled : bool then
    fivePercent ← computes (fun _ => uint_quo64 tenPercent 2);
    sent ← pay_from CACAOPoolName fivePercent;
    if sent : bool then
      deposited ← computes (fun k => uint_add (CacaoDeposited (GetCACAOPool k)) fivePercent);
      writes (fun k => SetCACAOPool k (with_CacaoDeposited (GetCACAOPool k) deposited))
    else mret tt
  else mret tt.

(** The bond reward is recorded even if the reserve could not pay it. *)
Definition distribute (network : Network) (tenPercent bondReward bondShare : Z) : effect unit :=
  _ ← pay_from BondName bondReward;
  bondRewardRune ← computes (fun _ => uint_add (BondRewardRune network) bondReward);
  _ ← pay_from MayaFund tenPercent;
  i ← computes getTotalActiveNodeWithBond;
  totalBondUnits ← computes (fun _ => uint_add (TotalBondUnits network) (u64 i));
  _ ← pay_cacao_pool tenPercent;
  writes (fun k => SetNetwork k (with_rewards network bondRewardRune totalBondUnits
                     (i64 (10000 - i64 bondShare)) (i64 bondShare))).

Definition pay_rewards (network : Network) (pools : list Pool) (totalProvidedLiquidity : Z) : effect unit :=
  totalLiquidityFees ← reads (fun k => GetTotalLiquidityFees k (u64 (kv_height k)));
  totalBonded ← computes getTotalActiveBond;
  let tenPercent := GetSafeShare 1000 10000 totalLiquidityFees in
  twentyPercent ← computes (fun _ => uint_mul64 tenPercent 2);
  rewardsLiquidityFees ← computes (fun _ => uint_sub totalLiquidityFees twentyPercent);
  rewards ← computes (fun k => calcBlockRewards k totalProvidedLiquidity totalBonded rewardsLiquidityFees);
  let '(bondReward, bondShare) := rewards in
  lpDeficit ← computes (fun _ => uint_add bondReward twentyPercent);
  _ ← deductPoolRewardDeficit pools totalLiquidityFees lpDeficit;
  distribute network tenPercent bondReward bondShare.

Definition UpdateNetwork : effect unit :=
  network ← reads GetNetwork;
  totalReserve ← computes (fun k => GetRuneBalanceOfModule k ReserveName);
  if totalReserve =? 0 then mret tt
  else
    liquidity ← computes getTotalProvidedLiquidityRune;
    let '(pools, totalProvidedLiquidity) := liquidity in
    if totalProvidedLiquidity =? 0 then mret tt
    else pay_rewards network pools totalProvidedLiquidity.
End rewards.

(** ** What the rewards move *)

Section reward_facts.
Context {V : Semver} {B : CosmosBank} {BL : CosmosBankLaws B} {BM : BankMintLaws B} {A : SdkAddress} {R : MapRange} {L : AddressLib}.
Context {U : SdkUint} {UL : SdkUintLaws U} {D : SdkDec} {DL : SdkDecLaws D} {DI : SdkDecInt} {IL : SdkDecIntLaws DI}.
Implicit Types (k : KVStore).

Lemma incentive_curve_spec liquidity bonded fees reward share :
  0 < bonded <= liquidity -> 0 <= fees < 2 ^ 64 ->
  incentive_curve liquidity bonded fees = Ok (reward, share) ->
  0 <= reward <= fees /\ 0 <= share <= 10000 /\
  ((reward = fees /\ share = 10000 /\ 4 * bonded * prec <= (3 * prec + 4) * liquidity) \/
   (fees <= 10 ^ 17 -> Z.abs (reward * liquidity - 4 * (liquidity - bonded) * fees) <= 2 * liquidity /\
    Z.abs (share * liquidity - 40000 * (liquidity - bonded)) <= 2 * liquidity)).
Proof.
  intros Hb Hf H. assert (Hp : prec = 1000000000000000000) by done.
  unfold incentive_curve in H. cbv zeta in H. rewrite !dec_of_big_law, !dec_of_int_law in H.
  apply bind_Ok in H as (x & Hx & H). apply dec_quo_rounds in Hx; [|lia..]. rewrite Hp in *.
  pose proof (fun p => rounds_to_bounds _ _ _ p Hx) as Hxb. specialize (Hxb ltac:(lia)).
  assert (Hx1 : x <= 1000000000000000000) by (eapply rounds_to_le; [| |exact Hx]; lia).
  apply bind_Ok in H as (q & ->%dec_quo_int64_exact & H).
  change (Z.quot (3 * 1000000000000000000) 4) with 750000000000000000 in H.
  destruct (Z.leb_spec x 750000000000000000) as [Hle|Hgt].
  { injection H as <- <-. split; [lia|]. split; [lia|]. left. split; [done|]. split; [done|]. nia. }
  apply bind_Ok in H as (y & ->%dec_sub_exact & H). apply bind_Ok in H as (p & ->%dec_mul_int64_exact & H).
  apply bind_Ok in H as (pts & ->%dec_mul_int64_exact & H). apply bind_Ok in H as (s & Hs & H).
  apply dec_round_int64_rounds in Hs; [|lia]. rewrite Hp in Hs. apply bind_Ok in H as (m & Hm & H).
  apply dec_mul_rounds in Hm; [|nia..]. rewrite Hp in Hm.
  apply (rounds_to_exact _ _ _ ((1 * 1000000000000000000 - x) * 4 * fees)) in Hm as ->; [|lia|ring].
  apply bind_Ok in H as (r & Hr & [= <- <-]). apply dec_round_int64_rounds in Hr; [|nia]. rewrite Hp in Hr.
  assert (R1 : 0 <= r <= fees).
  { split; [eapply rounds_to_nonneg; [| |exact Hr]; nia|eapply rounds_to_le; [| |exact Hr]; nia]. }
  assert (S1 : 0 <= s <= 10000).
  { split; [eapply rounds_to_nonneg; [| |exact Hs]; nia|eapply rounds_to_le; [| |exact Hs]; nia]. }
  rewrite !u64_id by (unfold is_u64; lia). split; [done|]. split; [done|]. right. intros Hf17.
  apply rounds_to_bounds in Hr; [|lia]. apply rounds_to_bounds in Hs; [|lia].
  assert (Hxl : Z.abs (x * liquidity - bonded * 1000000000000000000) <= liquidity) by nia.
  split; nia.
Qed.

Lemma calcBlockRewards_range k liquidity bonded fees reward share :
  0 <= liquidity -> 0 <= bonded -> 0 <= fees < 2 ^ 64 ->
  calcBlockRewards k liquidity bonded fees = Ok (reward, share) -> 0 <= reward <= fees /\ 0 <= share <= 10000.
Proof.
  intros Hl Hb Hf H. unfold calcBlockRewards in H. cbv zeta in H. destruct (_ && _) eqn:E.
  { injection H as <- <-. apply andb_true_iff in E as [?%Z.leb_le ?%Z.leb_le]. split; [|done].
    apply GetSafeShare_range; lia. }
  destruct (Z.eqb_spec liquidity 0); [injection H as <- <-; lia|].
  destruct (Z.eqb_spec bonded 0); [injection H as <- <-; lia|].
  destruct (Z.ltb_spec liquidity bonded); [injection H as <- <-; lia|]. cbn [orb] in H.
  apply incentive_curve_spec in H as (? & ? & _); [done|lia|done].
Qed.

(** ** The yield of savers *)

Lemma contains_mark_ToLower c s : c = "/"%char \/ c = "~"%char -> contains_char c (ToLower s) = contains_char c s.
Proof.
  intros Hc. unfold contains_char, ToLower. f_equal. induction s as [|x s IHs]; [done|]. cbn. rewrite IHs. f_equal.
  apply eqb_prop. revert x. apply ascii_ind_bool. by destruct Hc as [-> | ->]; vm_compute.
Qed.

(** The denomination of a synth has a mark that "cacao" does not have. *)
Lemma synth_is_not_cacao a : Asset_Native (GetSyntheticAsset a) <> Asset_Native BaseNative.
Proof.
  assert (Hs : Asset_Synth (GetSyntheticAsset a) = true).
  { unfold GetSyntheticAsset, IsSyntheticAsset. by destruct (Asset_Synth a) eqn:E. }
  destruct (GetSyntheticAsset a) as [c s t y d]. cbn in Hs. subst y. change (Asset_Native BaseNative) with "cacao"%string.
  assert (He : forall x, Asset_Synth x = false -> Asset_Equals (mkAsset c s t true d) x = false).
  { intros x Hx. unfold Asset_Equals. cbn [Asset_Synth]. rewrite Hx. cbn. by rewrite andb_false_r. }
  unfold Asset_Native, IsBase. rewrite !He by done. intros H.
  set (mark := if d then "~"%char else "/"%char).
  assert (Hm : mark = "/"%char \/ mark = "~"%char) by (unfold mark; destruct d; [by right|by left]).
  assert (E : contains_char mark (ToLower (Asset_String (mkAsset c s t true d))) = contains_char mark "cacao") by (by rewrite H).
  rewrite contains_mark_ToLower in E by done. unfold Asset_String in E. cbn in E. rewrite !contains_char_app in E.
  unfold mark in E. destruct d; cbn in E; by rewrite orb_true_r in E.
Qed.

(** ** Books of a block *)

Definition pool_key (p : Pool) : string := GetKey (Asset_String (Pool_Asset p)).

(** The CACAO of the modules, of the pools and of the records, and the pools but for
    that of a saver. *)
Record yield_frame (saver : string) k k' : Prop := {
  yf_pools : pools_inv k -> pools_inv k' /\ pools_cacao k' = pools_cacao k;
  yf_others : forall key, key <> saver -> kv_pools k' !! key = kv_pools k !! key;
  yf_bank : forall m, is_module m = true -> cacao_of k' m = cacao_of k m;
  yf_network : kv_network k' = kv_network k;
  yf_cacao_pool : kv_cacao_pool k' = kv_cacao_pool k;
  yf_fees : kv_pool_fees k' = kv_pool_fees k;
}.

Lemma mint_synth_frame saver k a amount k' :
  MintToModule k ModuleName (NewCoin (GetSyntheticAsset a) amount) = Ok k' -> yield_frame saver k k'.
Proof.
  intros H. pose proof (MintToModule_swap_frame _ _ _ _ H) as (u & t & m & p & b & Hk).
  apply MintToModule_frame in H as [Hp (c & b' & Hc & Hb & Hkb)]. split.
  - intros Hi. unfold pools_inv, pools_cacao. by rewrite Hp.
  - intros key _. by rewrite Hp.
  - intros mo Hmo. unfold cacao_of. rewrite Hkb, (bank_mint_balance _ _ _ _ _ _ Hb).
    unfold Coin_Native in Hc. destruct (negb _); [done|]. apply bank_coin_law in Hc as ->.
    unfold moved, denom_amount. cbn [sumZ foldr fst snd Coin_Asset NewCoin].
    destruct (String.eqb_spec (Asset_Native (GetSyntheticAsset a)) (Asset_Native BaseNative)) as [E|];
      [by apply synth_is_not_cacao in E|]. destruct (String.eqb _ _); lia.
  - by rewrite Hk.
  - by rewrite Hk.
  - by rewrite Hk.
Qed.

#[local] Instance yield_frame_preorder saver : PreOrder (yield_frame saver).
Proof.
  split; [by intros k; split|]. intros k1 k2 k3 [A1 B1 C1 D1 E1 F1] [A2 B2 C2 D2 E2 F2]. split.
  - intros Hi. destruct (A1 Hi) as [Hi2 Hp2]. destruct (A2 Hi2) as [Hi3 Hp3]. split; [done|congruence].
  - intros key Hk. rewrite B2, B1; done.
  - intros m Hm. rewrite C2, C1; done.
  - congruence.
  - congruence.
  - congruence.
Qed.

Lemma send_synth_frame saver k a amount k' :
  SendFromModuleToModule k ModuleName AsgardName [NewCoin (GetSyntheticAsset a) amount] = Ok k' -> yield_frame saver k k'.
Proof.
  intros H. pose proof (SendFromModuleToModule_frame _ _ _ _ _ H) as [b ->]. split; try done.
  intros m Hm. unfold SendFromModuleToModule in H. cbn [native_coins] in H. invert_ok.
  apply bank_coin_law in Hv1 as ->. unfold cacao_of. cbn [kv_bank set_kv_bank].
  rewrite (bank_send_balance _ _ _ _ _ _ _ Hv0). unfold moved, denom_amount.
  cbn [sumZ foldr fst snd Coin_Asset Coin_Amount NewCoin].
  destruct (String.eqb_spec (Asset_Native (GetSyntheticAsset a)) (Asset_Native BaseNative)) as [E|];
    [by apply synth_is_not_cacao in E|]. destruct (String.eqb _ _), (String.eqb _ _); lia.
Qed.

Lemma save_saver_frame k a balance k' : kv_pools k !! GetKey (Asset_String a) = Some (GetPool k a) ->
  is_uint balance -> SetPool k (set_BalanceAsset (GetPool k a) balance) = Ok k' ->
  pools_inv k -> yield_frame (GetKey (Asset_String a)) k k'.
Proof.
  intros Hp Hb H Hi. destruct (Hi _ _ Hp) as [Hkey (W1 & W2 & W3 & W4 & W5 & W6)].
  assert (Hset := H). apply (SetPool_inv _ (GetPool k a)) in H as (H1 & H2 & H3 & _); [|done|done|by rewrite Hkey|by split_and!].
  cbn [BalanceCacao set_BalanceAsset] in H2. unfold SetPool in Hset. destruct (Asset_IsEmpty _); [done|]. injection Hset as <-.
  cbn [Pool_Asset set_BalanceAsset] in *. rewrite Hkey in *. split; try done.
  - intros _. split; [done|lia].
  - intros key Hk. cbn. by rewrite lookup_insert_ne.
Qed.

(** Paying the yield of the savers of a pool moves no CACAO. *)
Lemma paySaverYield_frame asset amount k0 : pools_inv k0 ->
  let saver := GetKey (Asset_String (GetSyntheticAsset asset)) in
  wp (paySaverYield asset amount) (fun _ k => yield_frame saver k0 k) (yield_frame saver k0) k0.
Proof.
  intros Hi saver. unfold paySaverYield. do 2 wp_step. destruct (_ || _); [by wp_step|]. do 2 wp_step.
  destruct (Z.eqb_spec (BalanceAsset (GetPool k0 (GetSyntheticAsset asset))) 0) as [|Hb]; cbn [orb]; [by wp_step|].
  destruct (_ =? 0); [by wp_step|].
  assert (Hst : kv_pools k0 !! saver = Some (GetPool k0 (GetSyntheticAsset asset))).
  { unfold GetPool in *. fold saver in Hb. fold saver. by destruct (kv_pools k0 !! saver). }
  do 2 wp_step; [done|]. intros pts _. destruct (pts <=? 0); [by wp_step|].
  do 2 wp_step; [done|]. intros earnings _. destruct (earnings =? 0); [by wp_step|]. cbv zeta.
  do 2 wp_step; [done|]. intros k1 F1. assert (Hp1 : kv_pools k1 = kv_pools k0) by (by apply MintToModule_frame in F1 as [Hp _]).
  apply (mint_synth_frame saver) in F1. do 2 wp_step; [done|]. intros k2 F2.
  assert (Hp2 : kv_pools k2 = kv_pools k1) by (by apply SendFromModuleToModule_frame in F2 as [b ->]).
  apply (send_synth_frame saver) in F2. assert (F : yield_frame saver k0 k2) by (by etrans).
  do 2 wp_step; [done|]. intros balance [-> Hu]%uint_add_Ok.
  assert (Hg : GetPool k0 (GetSyntheticAsset asset) = GetPool k2 (GetSyntheticAsset asset))
    by (unfold GetPool; by rewrite Hp2, Hp1).
  do 2 wp_step; [done|]. intros k3 F3. rewrite Hg in F3, Hu, Hst.
  apply save_saver_frame in F3; [|unfold saver in Hst; by rewrite Hp2, Hp1|done|by apply (yf_pools _ _ _ F)].
  assert (F' : yield_frame saver k0 k3) by (etrans; [exact F|exact F3]).
  do 2 (do 2 wp_step; [done|]; intros _ _). by wp_step.
Qed.

(** *** The deficits of the pools *)

Definition fees_nonneg k : Prop := map_Forall (fun _ fee => 0 <= fee) (kv_pool_fees k).

(** What the deductions keep, and the pools that are still to come. *)
Record drained (l : list Pool) k0 k : Prop := {
  dr_pools : pools_inv k;
  dr_backed : cacao_of k AsgardName - pools_cacao k = cacao_of k0 AsgardName - pools_cacao k0;
  dr_sum : cacao_of k AsgardName + cacao_of k ReserveName = cacao_of k0 AsgardName + cacao_of k0 ReserveName;
  dr_reserve : cacao_of k0 ReserveName <= cacao_of k ReserveName;
  dr_others : forall m, is_module m = true -> m <> AsgardName -> m <> ReserveName -> cacao_of k m = cacao_of k0 m;
  dr_network : kv_network k = kv_network k0;
  dr_cacao_pool : kv_cacao_pool k = kv_cacao_pool k0;
  dr_fees : kv_pool_fees k = kv_pool_fees k0;
  dr_stored : forall p, p ∈ l -> kv_pools k !! pool_key p = Some p;
}.

Lemma drained_less l l' k0 k : l' ⊆ l -> drained l k0 k -> drained l' k0 k.
Proof. intros Hl []. split; try done. intros p Hp. by auto. Qed.

Lemma drained_yield saver l k0 k k' : (forall p, p ∈ l -> pool_key p <> saver) ->
  drained l k0 k -> yield_frame saver k k' -> drained l k0 k'.
Proof.
  intros Hs [A1 A2 A3 Ar A4 A5 A6 A7 A8] [B1 B2 B3 B4 B5 B6]. destruct (B1 A1) as [Hi Hp]. split.
  - exact Hi.
  - rewrite B3 by done. lia.
  - rewrite !B3 by done. lia.
  - rewrite !B3 by done. lia.
  - intros m Hm H1 H2. rewrite B3 by done. by apply A4.
  - congruence.
  - congruence.
  - congruence.
  - intros p Hpl. rewrite B2 by (by apply Hs). by apply A8.
Qed.

Lemma drained_deduct p l k0 k k1 k2 d : drained (p :: l) k0 k -> NoDup (map pool_key (p :: l)) ->
  0 <= d <= BalanceCacao p ->
  SendFromModuleToModule k AsgardName ReserveName [NewCoin BaseNative d] = Ok k1 ->
  SetPool k1 (set_BalanceCacao p (BalanceCacao p - d)) = Ok k2 -> drained l k0 k2.
Proof.
  intros [A1 A2 A3 Ar A4 A5 A6 A7 A8] Hn Hd H1 H2. pose proof (A8 p ltac:(by left)) as Hp.
  assert (Hc : forall m, is_module m = true -> cacao_of k1 m = cacao_of k m - (if String.eqb m AsgardName then d else 0)
    + (if String.eqb m ReserveName then d else 0)) by (intros m Hm; by eapply module_send_cacao).
  apply SendFromModuleToModule_frame in H1 as [b ->].
  destruct (A1 _ _ Hp) as [_ (W1 & W2 & W3 & W4 & W5 & W6)]. pose proof H2 as Hset.
  apply (SetPool_inv _ p) in H2 as (I2 & P2 & B2 & N2);
    [|exact A1|done|exact Hp|unfold pool_wf, is_uint in *; cbn; split_and!; lia].
  cbn [BalanceCacao set_BalanceCacao] in P2. unfold SetPool in Hset. destruct (Asset_IsEmpty _); [done|]. injection Hset as <-.
  assert (Hc2 : forall m, cacao_of k m = cacao_of k m) by done. clear Hc2.
  assert (Ha : cacao_of (set_kv_bank k b) AsgardName = cacao_of k AsgardName - d) by (rewrite Hc by done; cbn; lia).
  assert (Hr : cacao_of (set_kv_bank k b) ReserveName = cacao_of k ReserveName + d) by (rewrite Hc by done; cbn; lia).
  change (pools_cacao (set_kv_bank k b)) with (pools_cacao k) in P2. split; try done.
  - change (cacao_of (set_kv_pools ?x ?y) AsgardName) with (cacao_of x AsgardName). lia.
  - change (cacao_of (set_kv_pools ?x ?y) ?m) with (cacao_of x m). lia.
  - change (cacao_of (set_kv_pools ?x ?y) ?m) with (cacao_of x m). lia.
  - intros m Hm M1 M2. change (cacao_of (set_kv_pools ?x ?y) m) with (cacao_of x m).
    rewrite Hc by done. apply String.eqb_neq in M1 as E1, M2 as E2. rewrite E1, E2, <- A4 by done. lia.
  - intros q Hq. cbn [kv_pools set_kv_pools]. cbn [map] in Hn. apply NoDup_cons in Hn as [Hn _].
    change (GetKey (Asset_String (Pool_Asset (set_BalanceCacao p (BalanceCacao p - d))))) with (pool_key p).
    rewrite lookup_insert_ne; [apply A8; by right|]. intros E. apply Hn.
    change (pool_key p = pool_key q) in E. rewrite E. by apply list_elem_of_fmap_2.
Qed.

(** The key of the savers of a pool is not one of the list. *)
Definition apart_savers (l : list Pool) : Prop := forall p q, p ∈ l -> q ∈ l ->
  pool_key q <> GetKey (Asset_String (GetSyntheticAsset (Pool_Asset p))).

Lemma deduct_rest amts p l k0 k d : drained (p :: l) k0 k -> NoDup (map pool_key (p :: l)) ->
  Asset_IsEmpty (Pool_Asset p) = false -> 0 <= d <= BalanceCacao p ->
  wp (take_deficit amts p d) (fun _ => drained l k0) (drained [] k0) k.
Proof.
  intros Hk Hn He Hd. assert (Hl : drained l k0 k) by (eapply drained_less; [|exact Hk]; by intros q; right).
  assert (Hnil : forall x, drained l k0 x -> drained [] k0 x) by (intros x; apply drained_less; by intros q ?%elem_of_nil).
  unfold take_deficit. destruct (_ =? 0); [by wp_step|]. do 2 wp_step; [by intros; apply Hnil|]. intros k1 H1. cbv zeta.
  destruct (Z.ltb_spec (BalanceCacao p) d); [lia|]. do 2 wp_step; [by intros e He'; apply SafeSub_no_Err in He'|].
  intros balance ->%SafeSub_inv. rewrite Z.max_r by lia. do 2 wp_step.
  { intros e. unfold SetPool. cbn [Pool_Asset set_BalanceCacao]. by rewrite He. }
  intros k2 H2. assert (Hl2 : drained l k0 k2) by (by eapply drained_deduct). do 2 wp_step; [by intros; apply Hnil|].
  intros amount _. by wp_step.
Qed.

Lemma deduct_pool_drained total deficit amts p l k0 k :
  drained (p :: l) k0 k -> NoDup (map pool_key (p :: l)) -> apart_savers (p :: l) -> fees_nonneg k0 ->
  Asset_IsEmpty (Pool_Asset p) = false -> 0 <= total -> 0 <= deficit -> (IsAvailable p = true -> deficit <= BalanceCacao p) ->
  wp (deduct_pool total deficit amts p) (fun _ => drained l k0) (drained [] k0) k.
Proof.
  intros Hk Hn Ha Hf He Ht Hd Hb. assert (Hl : drained l k0 k) by (eapply drained_less; [|exact Hk]; by intros q; right).
  assert (Hnil : drained [] k0 k) by (eapply drained_less; [|exact Hk]; by intros q ?%elem_of_nil).
  unfold deduct_pool. destruct (IsAvailable p); cbn [negb]; [|by wp_step]. specialize (Hb eq_refl). do 2 wp_step.
  set (fees := GetPoolLiquidityFees _ _ _). destruct (_ || _); [by wp_step|]. cbv zeta. do 2 wp_step; [done|]. intros yield _.
  assert (Hfees : 0 <= fees).
  { unfold fees, GetPoolLiquidityFees. rewrite (dr_fees _ _ _ Hk). destruct (kv_pool_fees k0 !! _) eqn:E; [|done]. exact (Hf _ _ E). }
  assert (Hdef : 0 <= calcPoolDeficit deficit total fees <= deficit) by (by apply GetSafeShare_range).
  set (d := calcPoolDeficit _ _ _) in *. do 2 wp_step.
  assert (Hy : forall k1, yield_frame (GetKey (Asset_String (GetSyntheticAsset (Pool_Asset p)))) k k1 -> drained (p :: l) k0 k1).
  { intros k1 F1. eapply drained_yield; [|exact Hk|exact F1]. intros q Hq. apply Ha; [by left|exact Hq]. }
  eapply wp_mono; [apply paySaverYield_frame, (dr_pools _ _ _ Hk)| |].
  - intros _ k1 F1%Hy. apply deduct_rest; [done..|lia].
  - intros k1 F1%Hy. apply deduct_rest; [done..|lia].
Qed.

Lemma deduct_pools_drained total deficit k0 l : forall amts k,
  drained l k0 k -> NoDup (map pool_key l) -> apart_savers l -> fees_nonneg k0 -> 0 <= total -> 0 <= deficit ->
  Forall (fun p => Asset_IsEmpty (Pool_Asset p) = false /\ (IsAvailable p = true -> deficit <= BalanceCacao p)) l ->
  wp (deduct_pools total deficit amts l) (fun _ => drained [] k0) (drained [] k0) k.
Proof.
  induction l as [|p l IHl]; intros amts k Hk Hn Ha Hf Ht Hd Hl; cbn [deduct_pools]; [by wp_step|].
  apply Forall_cons in Hl as [[He Hb] Hl]. wp_step. eapply wp_mono; [by apply deduct_pool_drained| |done].
  cbv beta. intros amts' k1 Hk1. cbn [map] in Hn. apply NoDup_cons in Hn as [_ Hn]. apply IHl; try done.
  intros q q' Hq Hq'. apply Ha; by right.
Qed.

Lemma iterator_keys k : pools_inv k -> NoDup (map pool_key (GetPoolIterator k)).
Proof.
  intros Hi. unfold GetPoolIterator. set (l := stable_sort _ _).
  assert (Hl : Permutation l (map_to_list (kv_pools k))) by apply stable_sort_perm.
  assert (E : map pool_key (map snd l) = map fst l).
  { rewrite map_map. apply map_ext_in. intros [key p] Hp%list_elem_of_In. rewrite Hl in Hp.
    apply elem_of_map_to_list in Hp. exact (proj1 (Hi _ _ Hp)). }
  rewrite E. assert (Hf : Permutation (map fst l) (map fst (map_to_list (kv_pools k)))) by (by apply Permutation_map).
  rewrite Hf. apply NoDup_fst_map_to_list.
Qed.

(** The pools with CACAO of external chains: stored, each once. *)
Lemma liquidity_pools k pools total : pools_inv k -> getTotalProvidedLiquidityRune k = Ok (pools, total) ->
  NoDup (map pool_key pools) /\ 0 <= total /\
  forall p, p ∈ pools -> kv_pools k !! pool_key p = Some p.
Proof.
  intros Hi H. unfold getTotalProvidedLiquidityRune in H. cbv zeta in H. apply bind_Ok in H as (t & Ht & [= <- <-]).
  split; [by apply NoDup_map_filter, iterator_keys|]. split.
  - eapply foldM_nonneg; [|done|exact Ht]. intros a p c Ha [-> Hc]%uint_add_Ok. unfold is_uint in Hc. lia.
  - intros p [Hp _]%list_elem_of_In%filter_In. apply list_elem_of_In, GetPoolIterator_elem in Hp as [key Hp].
    by rewrite <- (proj1 (Hi _ _ Hp)) in Hp.
Qed.

(** *** What is paid *)

Definition block_cacao k : Z :=
  cacao_of k AsgardName + cacao_of k ReserveName + cacao_of k BondName + cacao_of k MayaFund + cacao_of k CACAOPoolName.

(** The books while the rewards are paid: the bond module has got [b], and the module
    of the CACAO pool has got [c] that is not in its record. *)
Record rewarded k0 (b c : Z) k : Prop := {
  rw_pools : pools_inv k;
  rw_backed : cacao_of k AsgardName - pools_cacao k = cacao_of k0 AsgardName - pools_cacao k0;
  rw_sum : block_cacao k = block_cacao k0;
  rw_bond : cacao_of k BondName = cacao_of k0 BondName + b;
  rw_cacao_pool : cacao_of k CACAOPoolName - CacaoDeposited (kv_cacao_pool k) =
    cacao_of k0 CACAOPoolName - CacaoDeposited (kv_cacao_pool k0) + c;
  rw_network : kv_network k = kv_network k0;
}.

Lemma drained_rewarded k0 k : drained [] k0 k -> rewarded k0 0 0 k.
Proof.
  intros [A1 A2 A3 _ A4 A5 A6 _ _].
  assert (H : forall m, m ∈ [BondName; MayaFund; CACAOPoolName] -> cacao_of k m = cacao_of k0 m).
  { intros m Hm. repeat (apply elem_of_cons in Hm as [->|Hm]; [by apply A4|]). by apply elem_of_nil in Hm. }
  assert (H1 := H BondName ltac:(by left)). assert (H2 := H MayaFund ltac:(by right; left)).
  assert (H3 := H CACAOPoolName ltac:(by right; right; left)).
  split; try done; [unfold block_cacao; lia|lia|rewrite H3, A6; lia].
Qed.

Lemma pay_from_wp to amount k : is_module to = true -> to <> ReserveName ->
  wp (pay_from to amount)
    (fun sent k' => if sent then (exists b, k' = set_kv_bank k b) /\
        forall m, is_module m = true -> cacao_of k' m = cacao_of k m - (if String.eqb m ReserveName then amount else 0)
          + (if String.eqb m to then amount else 0)
      else k' = k /\ (amount = 0 \/ cacao_of k ReserveName < amount)) (fun k' => k' = k) k.
Proof.
  intros Hm Hr. unfold pay_from. do 2 wp_step; [done|]. intros reserve Hb.
  assert (E : reserve = cacao_of k ReserveName).
  { unfold GetRuneBalanceOfModule, GetBalanceOfModule in Hb. by apply uint_of_big_Ok in Hb as [-> _]. }
  destruct (Z.eqb_spec amount 0) as [H0|H0]; cbn [negb andb]; [wp_step; by split; [|left]|].
  destruct (Z.leb_spec amount reserve); [|wp_step; split; [done|right; lia]].
  do 2 wp_step; [done|]. intros k1 H1. wp_step. split; [by eapply SendFromModuleToModule_frame|].
  intros m Hmo. by eapply module_send_cacao.
Qed.

#[local] Ltac compute_names :=
  repeat match goal with
  | H : context [String.eqb ?a ?b] |- _ =>
      let v := eval vm_compute in (String.eqb a b) in change (String.eqb a b) with v in H
  | |- context [String.eqb ?a ?b] =>
      let v := eval vm_compute in (String.eqb a b) in change (String.eqb a b) with v
  end;
  cbv iota in *.

(** A payment keeps the books, but for what the module gets. *)
Lemma pay_from_rewarded to amount k0 b c k : to ∈ [BondName; MayaFund; CACAOPoolName] -> rewarded k0 b c k ->
  wp (pay_from to amount)
    (fun sent k' => rewarded k0 (b + (if sent && String.eqb to BondName then amount else 0))
                      (c + (if sent && String.eqb to CACAOPoolName then amount else 0)) k' /\
                    (sent = false -> amount = 0 \/ cacao_of k ReserveName < amount) /\
                    kv_cacao_pool k' = kv_cacao_pool k)
    (rewarded k0 b c) k.
Proof.
  intros Hto Hk. eapply wp_mono; [apply pay_from_wp| |by intros k' ->].
  { repeat (apply elem_of_cons in Hto as [->|Hto]; [done|]). by apply elem_of_nil in Hto. }
  { repeat (apply elem_of_cons in Hto as [->|Hto]; [done|]). by apply elem_of_nil in Hto. }
  cbv beta. intros [] k'; [|intros [-> ?]; cbn [andb]; rewrite !Z.add_0_r; by split_and!].
  intros [[bank ->] Hc]. cbn [andb]. split; [|done]. destruct Hk as [A1 A2 A3 A4 A5 A6].
  pose proof (Hc AsgardName eq_refl) as C1. pose proof (Hc ReserveName eq_refl) as C2.
  pose proof (Hc BondName eq_refl) as C3. pose proof (Hc MayaFund eq_refl) as C4.
  pose proof (Hc CACAOPoolName eq_refl) as C5. clear Hc. unfold block_cacao in *.
  repeat (apply elem_of_cons in Hto as [->|Hto]; [compute_names; split; try done;
    change (pools_cacao (set_kv_bank k bank)) with (pools_cacao k);
    change (kv_cacao_pool (set_kv_bank k bank)) with (kv_cacao_pool k); unfold block_cacao; lia|]).
  by apply elem_of_nil in Hto.
Qed.

Lemma pay_cacao_pool_rewarded tenPercent k0 b k : rewarded k0 b 0 k ->
  wp (pay_cacao_pool tenPercent) (fun _ => rewarded k0 b 0) (fun k' => exists c, rewarded k0 b c k') k.
Proof.
  intros Hk. unfold pay_cacao_pool. do 2 wp_step. destruct (0 <? _); [|by wp_step].
  do 2 wp_step; [by eauto|]. intros five _. wp_step.
  eapply wp_mono; [apply pay_from_rewarded; [by right; right; left|exact Hk]| |by eauto]. cbv beta.
  intros [] k1 (H1 & _ & Hp); cbn [andb] in H1; [|rewrite !Z.add_0_r in H1; by wp_step].
  compute_names. rewrite Z.add_0_r, Z.add_0_l in H1. do 2 wp_step; [by eauto|]. intros dep [-> _]%uint_add_Ok.
  wp_step. destruct H1 as [A1 A2 A3 A4 A5 A6]. split; try done. cbn [kv_cacao_pool SetCACAOPool set_kv_cacao_pool CacaoDeposited with_CacaoDeposited].
  change (cacao_of (SetCACAOPool k1 ?x) ?m) with (cacao_of k1 m). unfold GetCACAOPool. lia.
Qed.

(** When no fees are larger than what a pool holds, every deficit is paid by the pool. *)
Record fees_covered k : Prop := {
  fc_pools : pools_inv k;
  fc_assets : forall p, p ∈ GetPoolIterator k -> Asset_IsEmpty (Pool_Asset p) = false /\
    (IsAvailable p = true -> BalanceCacao p <> 0 -> GetTotalLiquidityFees k (u64 (kv_height k)) <= BalanceCacao p);
  fc_savers : forall p q, p ∈ GetPoolIterator k -> q ∈ GetPoolIterator k ->
    Asset_IsNative (Pool_Asset p) = false -> Asset_IsNative (Pool_Asset q) = false ->
    pool_key q <> GetKey (Asset_String (GetSyntheticAsset (Pool_Asset p)));
  fc_total : 0 <= GetTotalLiquidityFees k (u64 (kv_height k)) < 2 ^ 64;
  fc_fees : fees_nonneg k;
}.

(** What [UpdateNetwork] leaves when it ends without an error. *)
Definition rewards_paid k0 k : Prop :=
  rewarded k0 0 0 k \/
  exists reward share units b, 0 <= reward <= GetTotalLiquidityFees k0 (u64 (kv_height k0)) /\ 0 <= share <= 10000 /\
    kv_network k = with_rewards (kv_network k0) (BondRewardRune (kv_network k0) + reward) units (10000 - share) share /\
    (b = reward \/ (b = 0 /\ cacao_of k0 ReserveName < reward)) /\
    exists k1, k = SetNetwork k1 (kv_network k) /\ rewarded k0 b 0 k1.

Lemma getTotalActiveBond_nonneg k b : getTotalActiveBond k = Ok b -> 0 <= b.
Proof.
  apply foldM_nonneg; [|done]. intros a x c Ha H. apply bind_Ok in H as (d & _ & [-> Hc]%uint_add_Ok).
  unfold is_uint in Hc. lia.
Qed.

Lemma distribute_wp k0 ten reward share k1 :
  0 <= reward <= GetTotalLiquidityFees k0 (u64 (kv_height k0)) -> 0 <= share <= 10000 -> drained [] k0 k1 ->
  wp (distribute (GetNetwork k0) ten reward share) (fun _ => rewards_paid k0)
    (fun k => exists b c, rewarded k0 b c k) k1.
Proof.
  intros Hr Hs H1. pose proof (dr_reserve _ _ _ H1) as Hres. apply drained_rewarded in H1. unfold distribute. wp_step.
  eapply wp_mono; [apply pay_from_rewarded; [by left|exact H1]| |by eauto]. cbv beta.
  intros sent k2 (H2 & Hn2 & _). rewrite Z.add_0_l in H2. compute_names.
  rewrite andb_false_r, andb_true_r, Z.add_0_r in H2. set (b := if sent : bool then reward else 0) in *.
  assert (Hb : b = reward \/ (b = 0 /\ cacao_of k0 ReserveName < reward)).
  { unfold b. destruct sent; [by left|]. destruct (Hn2 eq_refl) as [->|?]; [by left|right; split; [done|lia]]. }
  do 2 wp_step; [by eauto|]. intros total [-> _]%uint_add_Ok. wp_step.
  eapply wp_mono; [apply pay_from_rewarded; [by right; left|exact H2]| |by eauto]. cbv beta.
  intros sent3 k3 (H3 & _ & _). compute_names. rewrite !andb_false_r, !Z.add_0_r in H3.
  do 2 wp_step; [by eauto|]. intros i _. do 2 wp_step; [by eauto|]. intros units _. wp_step.
  eapply wp_mono; [by apply pay_cacao_pool_rewarded| |by intros k' [c Hc]; eauto]. cbv beta.
  intros _ k4 H4. wp_step. right. exists reward, share, units, b. do 2 (split; [done|]). split; [|split; [exact Hb|by exists k4]].
  unfold SetNetwork, GetNetwork. cbn [kv_network set_kv_network].
  rewrite !i64_id; [done|unfold is_i64; rewrite ?i64_id; unfold is_i64; lia..].
Qed.

Lemma pay_rewards_wp k0 pools liquidity : fees_covered k0 ->
  getTotalProvidedLiquidityRune k0 = Ok (pools, liquidity) ->
  wp (pay_rewards (GetNetwork k0) pools liquidity) (fun _ => rewards_paid k0)
    (fun k => exists b c, rewarded k0 b c k) k0.
Proof.
  intros [F1 F2 F3 F4 F5] Hpools. pose proof (liquidity_pools _ _ _ F1 Hpools) as (P1 & P2 & P3).
  assert (Hin : forall p, p ∈ pools -> p ∈ GetPoolIterator k0 /\ Asset_IsNative (Pool_Asset p) = false /\ BalanceCacao p <> 0).
  { intros p Hp. unfold getTotalProvidedLiquidityRune in Hpools. cbv zeta in Hpools.
    apply bind_Ok in Hpools as (t & _ & [= <- _]). apply list_elem_of_In, filter_In in Hp as [Hp Hf].
    apply andb_true_iff in Hf as [Hf1 Hf2]. split; [by apply list_elem_of_In|].
    by apply negb_true_iff in Hf1, Hf2; apply Z.eqb_neq in Hf2. }
  assert (Hd0 : drained pools k0 k0) by (split; try done; exact P3).
  assert (He0 : exists b c, rewarded k0 b c k0) by (exists 0, 0; split; try done; lia).
  unfold pay_rewards. do 2 wp_step. set (fees := GetTotalLiquidityFees _ _) in *.
  do 2 wp_step; [done|]. intros bonded Hbond%getTotalActiveBond_nonneg. cbv zeta.
  pose proof (GetSafeShare_range 1000 10000 fees ltac:(lia) ltac:(lia) ltac:(lia)) as Hten.
  set (ten := GetSafeShare 1000 10000 fees) in *. do 2 wp_step; [done|]. intros twenty [-> _]%uint_mul64_Ok.
  do 2 wp_step; [done|]. intros rest [-> Hrest]%uint_sub_Ok. unfold is_uint in Hrest.
  do 2 wp_step; [done|]. intros [reward share] Hr. apply calcBlockRewards_range in Hr as [Hr Hs]; [|lia..].
  do 2 wp_step; [done|]. intros deficit [-> _]%uint_add_Ok. wp_step.
  eapply wp_mono; [apply (deduct_pools_drained _ _ k0)| |].
  - exact Hd0.
  - exact P1.
  - intros p q Hp Hq. destruct (Hin p Hp) as (Ip & Np & _), (Hin q Hq) as (Iq & Nq & _). by apply F3.
  - exact F5.
  - lia.
  - lia.
  - apply Forall_forall. intros p Hp. destruct (Hin p Hp) as (Ip & Np & Bp). destruct (F2 p Ip) as [A1 A2].
    split; [exact A1|]. intros Hav. specialize (A2 Hav Bp). lia.
  - cbv beta. intros _ k1 H1. apply distribute_wp; [lia|lia|exact H1].
  - cbv beta. intros k1 H1%drained_rewarded. by eauto.
Qed.

(** C17: the rewards of a block move CACAO and make none up. When the fees of the block
    are no more than each available pool holds, unless it is empty, the pools are stored
    under their assets, and the fees are in range ([fees_covered]): the pools stay backed, by what the vaults of the
    network hold more than they do, and the five modules together hold the same,
    whether the computation ends with an error or not. Without an error the module of
    the CACAO pool gets exactly what its record gains, the bonds are promised no more
    than the fees, and the module of the bonds gets what they are promised unless the
    reserve had less; the two shares make up the whole. *)
Theorem UpdateNetwork_conserves k k' r :
  fees_covered k -> UpdateNetwork k = Ok (k', r) ->
  cacao_of k' AsgardName - pools_cacao k' = cacao_of k AsgardName - pools_cacao k /\
  block_cacao k' = block_cacao k /\
  (r = inr tt ->
   cacao_of k' CACAOPoolName - cacao_of k CACAOPoolName =
     CacaoDeposited (GetCACAOPool k') - CacaoDeposited (GetCACAOPool k) /\
   let reward := BondRewardRune (GetNetwork k') - BondRewardRune (GetNetwork k) in
   0 <= reward <= GetTotalLiquidityFees k (u64 (kv_height k)) /\
   (reward <= cacao_of k ReserveName -> cacao_of k' BondName = cacao_of k BondName + reward) /\
   (GetNetwork k' = GetNetwork k \/
    0 <= NodeIncomeSplit (GetNetwork k') /\ 0 <= LPIncomeSplit (GetNetwork k') /\
    NodeIncomeSplit (GetNetwork k') + LPIncomeSplit (GetNetwork k') = 10000)).
Proof.
  intros Hf H. assert (Hw : wp UpdateNetwork (fun _ => rewards_paid k) (fun x => exists b c, rewarded k b c x) k).
  { assert (H0 : rewarded k 0 0 k) by (split; try done; [apply (fc_pools _ Hf)|lia|lia]).
    unfold UpdateNetwork. do 2 wp_step. do 2 wp_step; [by eauto|]. intros reserve _. destruct (_ =? 0); [wp_step; by left|].
    do 2 wp_step; [by eauto|]. intros [pools total] Hp. destruct (total =? 0); [wp_step; by left|]. by apply pay_rewards_wp. }
  apply Hw in H. destruct r as [e|[]].
  { destruct H as (b & c & [_ H1 H2 _ _ _]). split; [exact H1|]. by split. }
  destruct H as [[A1 A2 A3 A4 A5 A6]|(reward & share & units & b & Hr & Hs & Hn & Hb & k1 & Hk & [A1 A2 A3 A4 A5 A6])].
  - split; [exact A2|]. split; [exact A3|]. intros _. unfold GetCACAOPool, GetNetwork. rewrite A6.
    split; [lia|]. cbv zeta. pose proof (fc_total _ Hf). split; [lia|]. split; [lia|by left].
  - unfold GetCACAOPool, GetNetwork. rewrite Hn in *. rewrite Hk.
    change (cacao_of (SetNetwork k1 ?x) ?m) with (cacao_of k1 m). change (pools_cacao (SetNetwork k1 ?x)) with (pools_cacao k1).
    change (block_cacao (SetNetwork k1 ?x)) with (block_cacao k1).
    change (kv_cacao_pool (SetNetwork k1 ?x)) with (kv_cacao_pool k1). cbn [kv_network SetNetwork set_kv_network].
    split; [exact A2|]. split; [exact A3|]. intros _. cbn. split; [lia|]. split; [lia|]. split; [lia|]. right. lia.
Qed.
End reward_facts.

(** ** A block with fees *)

Section reward_witness.
Import Reference ReferenceBank ReferenceRange ReferenceAddress.
#[local] Existing Instance bond_address.
#[local] Instance reference_dec_int : SdkDecInt := {|
  dec_mul_int64 a b := Ok (a * b);
  dec_quo_int64 a b := if b =? 0 then Panic else Ok (Z.quot a b);
|}.

Lemma reference_dec_int_laws : SdkDecIntLaws reference_dec_int.
Proof. split; [by intros a b c [= <-]|]. intros a b c. cbn. destruct (b =? 0); [done|by intros [= <-]]. Qed.

Lemma reference_mint_laws : BankMintLaws ReferenceBank.bank.
Proof.
  split. intros m cs b b' a d H. cbn in *. unfold ReferenceBank.change in H. apply bind_Ok in H as (bs & H & [= <-]).
  cbn. rewrite (ReferenceBank.move_balance _ _ _ _ _ a d H). lia.
Qed.

(** 1000 CACAO of fees of the pool of bitcoin, which has savers; four fifths of the
    liquidity are bonded. *)
Definition reward_start : KVStore :=
  let k := k_SetNodeAccount ledger_start
    (NewNodeAccount "node1" NodeStatus_Active EmptyPubKeySet EmptyString EmptyString 0 "maya1alice" 1) in
  let k := set_kv_total_fees k {[ 10 := 1000 ]} in
  let k := set_kv_pool_fees k {[ (10, GetKey (Asset_String BTCAsset)) := 1000 ]} in
  let k := set_kv_pools k
    (<[GetKey (Asset_String (GetSyntheticAsset BTCAsset)) :=
        mkPool 0 600 (GetSyntheticAsset BTCAsset) 600 PoolStatus_Available 0 8 0 0 0]> (kv_pools k)) in
  let k := SetMimir (SetMimir k "SynthYieldBasisPoints" 5000) "CACAOPoolRewardsEnabled" 1 in
  set_kv_bank k (ReferenceBank.mkState
      (<[(ReserveName, Asset_Native BaseAsset) := 5000]> (<[(AsgardName, Asset_Native BaseAsset) := 12000]> ∅))
      (<[Asset_Native BaseAsset := 17000]> ∅)).
Lemma reward_start_covered : fees_covered reward_start.
Proof.
  split.
  - assert (H : map_Forall (fun a p => GetKey (Asset_String (Pool_Asset p)) = a /\ pool_wf p) (kv_pools reward_start))
      by (unfold pool_wf, is_uint; apply (bool_decide_unpack _); by vm_compute).
    exact H.
  - apply Forall_forall. apply (bool_decide_unpack _). vm_compute. reflexivity.
  - assert (H : Forall (fun p => Forall (fun q => Asset_IsNative (Pool_Asset p) = false -> Asset_IsNative (Pool_Asset q) = false ->
      pool_key q <> GetKey (Asset_String (GetSyntheticAsset (Pool_Asset p)))) (GetPoolIterator reward_start)) (GetPoolIterator reward_start))
      by (apply (bool_decide_unpack _); by vm_compute).
    intros p q Hp Hq. rewrite Forall_forall in H. specialize (H p Hp). cbv beta in H. rewrite Forall_forall in H. exact (H q Hq).
  - by split; vm_compute.
  - unfold fees_nonneg. apply (bool_decide_unpack _). by vm_compute.
Qed.

Definition reward_check (r : outcome (KVStore * (string + unit))) : bool :=
  match r with
  | Ok (k, inr tt) =>
      bool_decide (map (cacao_of k) [AsgardName; ReserveName; BondName; MayaFund; CACAOPoolName] = [11160; 5050; 640; 100; 50])
      && (BalanceCacao (GetPool k BTCAsset) =? 4160) && (BalanceAsset (GetPool k (GetSyntheticAsset BTCAsset)) =? 605)
      && (NodeIncomeSplit (GetNetwork k) =? 8000)
  | _ => false
  end.

Lemma reward_checked : reward_check (UpdateNetwork reward_start) = true.
Proof. by vm_compute. Qed.

Lemma reward_check_inv r : reward_check r = true -> exists k, r = Ok (k, inr tt) /\
  BalanceCacao (GetPool k BTCAsset) = 4160 /\ BalanceAsset (GetPool k (GetSyntheticAsset BTCAsset)) = 605.
Proof.
  destruct r as [[k [e|[]]]| |]; [discriminate| |discriminate..]. cbn [reward_check].
  rewrite !andb_true_iff, !Z.eqb_eq. intros [[[_ H1] H2] _]. by exists k.
Qed.

(** The pool gives 840 and its savers get 5 synths; nothing is made up. *)
Lemma UpdateNetwork_conserves_witness :
  exists k, UpdateNetwork reward_start = Ok (k, inr tt) /\ BalanceCacao (GetPool k BTCAsset) = 4160 /\
    BalanceAsset (GetPool k (GetSyntheticAsset BTCAsset)) = 605 /\ block_cacao k = block_cacao reward_start.
Proof.
  destruct (reward_check_inv _ reward_checked) as (k & E & H1 & H2). exists k. refine (conj E (conj H1 (conj H2 _))).
  exact (proj1 (proj2 (UpdateNetwork_conserves (BM := reference_mint_laws) (IL := reference_dec_int_laws) reward_start k
    (inr tt) reward_start_covered E))).
Defined.
End reward_witness.
