(* ===== verification/Contributions.v ===== *)
(** Donations to pools, contributions to the reserve and the messages of the trade
    accounts: [x/mayachain/handler_donate.go], [handler_reserve_contrib.go],
    [handler_trade_account_deposit.go] and [handler_trade_account_withdrawal.go]. *)
From stdpp Require Import pretty.
From S2P Require Import Prelude GoText Sdk Constants Floats Shares Chains Keys Addresses Assets Coins Txs.
From S2P Require Import NodeAccounts Votes TxOuts Vaults ObservedTxs Pools Mimirs StreamingSwaps SwapMsgs.
From S2P Require Import LiquidityProviders Records MayaNames Stores Keeper Nodes Bonds VaultStore Halts Gas.
From S2P Require Import TradeAccounts Swapper Swaps Affiliates Decimals Memos Collectors SwapChecks.
From S2P Require Import Liquidity AddLiquidity LiquidityBooks Withdraw WithdrawBooks Slashing Bonding BondBooks.
From S2P Require Import LiquidityLedger NodeHandlers.

(** ** Messages *)

Record MsgDonate := mkMsgDonate {
  Donate_Asset : Asset;
  Donate_AssetAmount : Z;
  Donate_CacaoAmount : Z;
  Donate_Tx : Tx;
  Donate_Signer : AccAddress;
}.

Record MsgReserveContributor := mkMsgReserveContributor {
  Reserve_Tx : Tx;
  Reserve_Contributor : ReserveContributor;
  Reserve_Signer : AccAddress;
}.

Record MsgTradeAccountDeposit := mkMsgTradeAccountDeposit {
  TradeDep_Tx : Tx;
  TradeDep_Asset : Asset;
  TradeDep_Amount : Z;
  TradeDep_Address : AccAddress;
  TradeDep_Signer : AccAddress;
}.

Record MsgTradeAccountWithdrawal := mkMsgTradeAccountWithdrawal {
  TradeOut_Tx : Tx;
  TradeOut_Asset : Asset;
  TradeOut_Amount : Z;
  TradeOut_AssetAddress : Address;
  TradeOut_Signer : AccAddress;
}.

Section messages.
Context `{V : Semver} `{A : SdkAddress} `{L : AddressLib}.

Definition donate_ValidateBasic (m : MsgDonate) : outcome unit :=
  if acc_empty (Donate_Signer m) then Err "invalid address"
  else if Asset_IsEmpty (Donate_Asset m) then Err "donate asset cannot be empty"
  else if IsBase (Donate_Asset m) then Err "asset cannot be cacao"
  else if (Donate_CacaoAmount m =? 0) && (Donate_AssetAmount m =? 0)
  then Err "rune and asset amount cannot be zero"
  else Tx_Valid (Donate_Tx m).

Definition reserve_ValidateBasic (m : MsgReserveContributor) : outcome unit :=
  _ ← Tx_Valid (Reserve_Tx m);
  if acc_empty (Reserve_Signer m) then Err "invalid address"
  else ReserveContributor_Valid (Reserve_Contributor m).

Definition trade_deposit_ValidateBasic (m : MsgTradeAccountDeposit) : outcome unit :=
  if Asset_IsEmpty (TradeDep_Asset m) then Err "asset cannot be empty"
  else if IsBASEChain (GetChain (TradeDep_Asset m)) then Err "asset cannot be mayaChain asset"
  else if TradeDep_Amount m =? 0 then Err "amount cannot be zero"
  else if acc_empty (TradeDep_Address m) then Err "invalid address"
  else if acc_empty (TradeDep_Signer m) then Err "invalid address"
  else if TxID_IsEmpty (Tx_ID (TradeDep_Tx m)) then Err "txID cannot be empty"
  else Ok tt.

Definition trade_withdrawal_ValidateBasic (m : MsgTradeAccountWithdrawal) : outcome unit :=
  if Asset_IsEmpty (TradeOut_Asset m) then Err "asset cannot be empty"
  else if negb (IsTradeAsset (TradeOut_Asset m)) then Err "asset must be a trade asset"
  else if TradeOut_Amount m =? 0 then Err "amount cannot be zero"
  else if Address_IsEmpty (TradeOut_AssetAddress m) then Err "asset address cannot be empty"
  else if acc_empty (TradeOut_Signer m) then Err "invalid address"
  else if TxID_IsEmpty (Tx_ID (TradeOut_Tx m)) then Err "txID cannot be empty"
  else Ok tt.

Definition trade_withdrawal_ValidateBasicVersioned (m : MsgTradeAccountWithdrawal) (version : Version)
  : outcome unit :=
  _ ← trade_withdrawal_ValidateBasic m;
  if negb (IsChain (TradeOut_AssetAddress m) (GetChain (GetLayer1Asset (TradeOut_Asset m))) version)
  then Err "asset address does not match asset chain"
  else Ok tt.
End messages.

Section contributions.
Context `{V : Semver} `{B : CosmosBank} `{A : SdkAddress} `{R : MapRange} `{L : AddressLib}.
Context `{U : SdkUint} `{D : SdkDec} {TO : TxOutStore}.
Implicit Types (k : KVStore).

(** ** Donations *)

Definition donate_validateV80 k (msg : MsgDonate) : outcome unit :=
  _ ← donate_ValidateBasic msg;
  if IsSyntheticAsset (Donate_Asset msg) then Err "invalid message"
  else if isLiquidityAuction k && negb (Pool_Status (GetPool k (Donate_Asset msg)) =? PoolStatus_Available)
  then Err "invalid pool status"
  else Ok tt.

(** The positions of a pool, in the order of their keys. *)
Definition GetLiquidityProviderIterator k (asset : Asset) : list LiquidityProvider :=
  let prefix := GetKey (LiquidityProvider_Key (empty_position asset EmptyString EmptyString)) in
  map snd (stable_sort (fun a b => str_ltb (fst a) (fst b))
    (List.filter (fun e => HasPrefix (fst e) prefix) (map_to_list (kv_lps k)))).

(** A position that is promised a part of a donation: the part and its tier. *)
Record donate := mkDonate {
  donate_lp : LiquidityProvider;
  donate_claim : Z;
  donate_tier : Z;
}.

(** The positions with pending assets and a tier, and the totals of the tiers. *)
Definition donations k (pool : Pool) (cacao : Z) (lps : list LiquidityProvider)
  : outcome (list donate * (Z * Z * Z)) :=
  foldM (fun '(ds, (t1, t2, t3)) lp =>
    if (PendingAsset lp =? 0) || negb (acc_empty (NodeBondAddress lp)) then Ok (ds, (t1, t2, t3))
    else
      let tier := GetLiquidityAuctionTier k (Lp_CacaoAddress lp) in
      if (tier <? 1) || (3 <? tier) then Ok (ds, (t1, t2, t3))
      else
        let share := GetSafeShare (PendingAsset lp) (PendingInboundAsset pool) cacao in
        let ds := ds ++ [mkDonate lp share tier] in
        if tier =? 1 then t1 ← uint_add t1 share; Ok (ds, (t1, t2, t3))
        else if tier =? 2 then t2 ← uint_add t2 share; Ok (ds, (t1, t2, t3))
        else t3 ← uint_add t3 share; Ok (ds, (t1, t2, t3)))
    ([], (0, 0, 0)) lps.

(** The second and third tiers give up a part of their claims to the first. *)
Definition tiered_claim k (totals : Z * Z * Z) (d : donate) : outcome Z :=
  let '(t1, t2, t3) := totals in
  let tier2Share := GetSafeShare 1000 10000 t2 in
  let tier3Share := GetSafeShare 3300 10000 t3 in
  tier1Share ← uint_add tier2Share tier3Share;
  let claim := donate_claim d in
  if donate_tier d =? kv_constants k "WithdrawTier1" then uint_add claim (GetSafeShare claim t1 tier1Share)
  else if donate_tier d =? kv_constants k "WithdrawTier2" then uint_sub claim (GetSafeShare claim t2 tier2Share)
  else if donate_tier d =? kv_constants k "WithdrawTier3" then uint_sub claim (GetSafeShare claim t3 tier3Share)
  else Ok claim.

(** The units of a position are set to its claim, not raised by it. *)
Definition give_claim (cacao totalPendingAsset : Z) (totals : Z * Z * Z) (s : KVStore * Pool) (d : donate)
  : outcome (KVStore * Pool) :=
  let '(k, pool) := s in
  claim ← tiered_claim k totals d;
  if claim =? 0 then Ok (k, pool)
  else
    let lp := donate_lp d in
    pending ← SafeSub (PendingInboundAsset pool) (PendingAsset lp);
    balanceCacao ← uint_add (BalanceCacao pool) claim;
    balanceAsset ← uint_add (BalanceAsset pool) (PendingAsset lp);
    units ← uint_add (LPUnits pool) claim;
    let lp := with_position lp (Lp_CacaoAddress lp) (Lp_AssetAddress lp) (kv_height k) claim (PendingCacao lp) 0
                EmptyString claim (GetSafeShare claim cacao totalPendingAsset) in
    Ok (SetLiquidityProvider k lp,
        mkPool balanceCacao balanceAsset (Pool_Asset pool) units (Pool_Status pool) (StatusSince pool)
          (Pool_Decimals pool) (SynthUnits pool) (PendingInboundCacao pool) pending).

Definition addLiquidityFromDonateV102 k (msg : MsgDonate) (pool : Pool) : outcome KVStore :=
  let cacao := Donate_CacaoAmount msg in
  '(ds, totals) ← donations k pool cacao (GetLiquidityProviderIterator k (Donate_Asset msg));
  '(k, pool) ← foldM (give_claim cacao (PendingInboundAsset pool) totals) (k, pool) ds;
  SetPool k pool.

(** In an auction only an administrator may donate; what fails then is dropped, as the
    loop over the administrators reuses the variable. *)
Definition donate_handleV101 k (msg : MsgDonate) : outcome KVStore :=
  let pool := GetPool k (Donate_Asset msg) in
  if Asset_IsEmpty (Pool_Asset pool) then Err "pool %s not exist"
  else if isLiquidityAuction k then
    match addLiquidityFromDonateV102 k msg pool with
    | Panic => Panic
    | r =>
        if negb (forallb (fun admin => match acc_from_bech32 admin with Some _ => true | None => false end) ADMINS)
        then Err "fail to parse the address of an administrator"
        else if negb (isAdmin (Donate_Signer msg)) then Err "only admin can donate to liquidity auction"
        else match r with Ok k' => Ok k' | _ => Ok k end
    end
  else
    balanceAsset ← uint_add (BalanceAsset pool) (Donate_AssetAmount msg);
    balanceCacao ← uint_add (BalanceCacao pool) (Donate_CacaoAmount msg);
    SetPool k (set_BalanceCacao (set_BalanceAsset pool balanceAsset) balanceCacao).

(** From 1.101.0 on. *)
Definition donate_Run k (msg : MsgDonate) : outcome KVStore :=
  _ ← donate_validateV80 k msg; donate_handleV101 k msg.

(** ** The reserve *)

(** The coins were sent before, by the handler of deposits. *)
Definition reserve_Run k (msg : MsgReserveContributor) : outcome KVStore :=
  if GTE (kv_version k) (semver_release 0 1 0) then _ ← reserve_ValidateBasic msg; Ok k
  else Err "bad version".

(** ** Trade accounts *)

Definition trade_deposit_validateV123 k (msg : MsgTradeAccountDeposit) : outcome unit :=
  if GetConfigInt64 k "TradeAccountsEnabled" <=? 0 then Err "trade accounts are disabled"
  else if GetConfigInt64 k "TradeAccountsDepositEnabled" <=? 0 then Err "trade accounts deposits are disabled"
  else trade_deposit_ValidateBasic msg.

Definition trade_deposit_Run k (msg : MsgTradeAccountDeposit) : outcome KVStore :=
  if negb (GTE (kv_version k) (semver_release 1 123 0)) then Err "bad version"
  else
    _ ← trade_deposit_validateV123 k msg;
    '(k, _) ← TradeMgr_Deposit k (TradeDep_Asset msg) (TradeDep_Amount msg) (TradeDep_Address msg);
    Ok k.

Definition trade_withdrawal_validateV123 k (msg : MsgTradeAccountWithdrawal) : outcome unit :=
  if GetConfigInt64 k "TradeAccountsEnabled" <=? 0 then Err "trade accounts are disabled"
  else if GetConfigInt64 k "TradeAccountsWithdrawEnabled" <=? 0
  then Err "trade accounts withdrawals are disabled"
  else trade_withdrawal_ValidateBasicVersioned msg (kv_version k).

(** [hash] is the hash of the bytes of the transaction that carries the message, in
    upper-case hexadecimal digits. *)
Definition trade_withdrawal_handleV123 k (hash : string) (msg : MsgTradeAccountWithdrawal) : outcome KVStore :=
  '(k, withdraw) ← TradeMgr_Withdrawal k (TradeOut_Asset msg) (TradeOut_Amount msg) (TradeOut_Signer msg);
  if withdraw =? 0 then Err "nothing to withdraw"
  else
    let layer1Asset := GetLayer1Asset (TradeOut_Asset msg) in
    txID ← NewTxID hash;
    let toi := mkTxOutItem (GetChain layer1Asset) (TradeOut_AssetAddress msg) EmptyPubKey
                 (NewCoin layer1Asset withdraw) EmptyString [] 0 txID EmptyString EmptyString EmptyString
                 EmptyString None EmptyPubKey in
    '(k, ok) ← TryAddTxOutItem k toi 0;
    if ok : bool then Ok k else Err errFailAddOutboundTx.

Definition trade_withdrawal_Run k (hash : string) (msg : MsgTradeAccountWithdrawal) : outcome KVStore :=
  if negb (GTE (kv_version k) (semver_release 1 123 0)) then Err "bad version"
  else
    _ ← trade_withdrawal_validateV123 k msg;
    trade_withdrawal_handleV123 k hash msg.
End contributions.

(** ** What a donation does to its pool *)

Section donation_facts.
Context `{V : Semver} `{B : CosmosBank} `{A : SdkAddress} `{R : MapRange} `{L : AddressLib}.
Context `{U : SdkUint} {UL : SdkUintLaws U} `{D : SdkDec} {DL : SdkDecLaws D}.
Implicit Types (k : KVStore) (p : Pool) (d : donate).

(** Outside an auction both sides grow, and nobody gets units. *)
Definition gift (asset cacao : Z) p p' : Prop :=
  p' = set_BalanceCacao (set_BalanceAsset p (BalanceAsset p + asset)) (BalanceCacao p + cacao) /\
  is_uint (BalanceAsset p + asset) /\ is_uint (BalanceCacao p + cacao).

(** In an auction the units grow with the CACAO, and what was pending joins the assets. *)
Record auction_gift (given settled : Z) p p' : Prop := {
  ag_cacao : BalanceCacao p' = BalanceCacao p + given;
  ag_units : LPUnits p' = LPUnits p + given;
  ag_asset : BalanceAsset p' = BalanceAsset p + settled;
  ag_pending : PendingInboundAsset p' = Z.max 0 (PendingInboundAsset p - settled);
  ag_same : Pool_Asset p' = Pool_Asset p /\ SynthUnits p' = SynthUnits p /\
            PendingInboundCacao p' = PendingInboundCacao p /\ Pool_Status p' = Pool_Status p;
}.

Lemma auction_gift_refl p : is_uint (PendingInboundAsset p) -> auction_gift 0 0 p p.
Proof. unfold is_uint. intros Hp. split; [lia|lia|lia|lia|done]. Qed.

Lemma auction_gift_trans g1 s1 g2 s2 p1 p2 p3 : 0 <= s1 -> 0 <= s2 ->
  auction_gift g1 s1 p1 p2 -> auction_gift g2 s2 p2 p3 -> auction_gift (g1 + g2) (s1 + s2) p1 p3.
Proof.
  intros H1 H2 [A1 A2 A3 A4 (A5 & A6 & A7 & A8)] [B1 B2 B3 B4 (B5 & B6 & B7 & B8)].
  split; [lia|lia|lia|lia|]. repeat split; congruence.
Qed.

(** The positions that wait for a donation: not bonded, with assets pending and a tier. *)
Definition tier_of k (lp : LiquidityProvider) : Z := GetLiquidityAuctionTier k (Lp_CacaoAddress lp).

Definition waiting k (lp : LiquidityProvider) : bool :=
  negb (PendingAsset lp =? 0) && acc_empty (NodeBondAddress lp) && (1 <=? tier_of k lp) && (tier_of k lp <=? 3).

(** Their part of the donation before the tiers are weighed, by what is pending, and
    the sum of the parts of a tier. *)
Definition entitled p (cacao : Z) (lp : LiquidityProvider) : Z :=
  GetSafeShare (PendingAsset lp) (PendingInboundAsset p) cacao.

Definition tier_total k p cacao (lps : list LiquidityProvider) (tier : Z) : Z :=
  sumZ (entitled p cacao) (List.filter (fun lp => tier_of k lp =? tier) lps).

(** The second tier gives up a tenth, the third one a third, and the first one
    shares that by the parts of its positions. *)
Definition weighed k (part tier t1 t2 t3 : Z) : Z :=
  let up2 := GetSafeShare 1000 10000 t2 in
  let up3 := GetSafeShare 3300 10000 t3 in
  if tier =? kv_constants k "WithdrawTier1" then part + GetSafeShare part t1 (up2 + up3)
  else if tier =? kv_constants k "WithdrawTier2" then part - GetSafeShare part t2 up2
  else if tier =? kv_constants k "WithdrawTier3" then part - GetSafeShare part t3 up3
  else part.

Definition claim_of k p cacao (lps : list LiquidityProvider) (lp : LiquidityProvider) : Z :=
  weighed k (entitled p cacao lp) (tier_of k lp) (tier_total k p cacao lps 1) (tier_total k p cacao lps 2)
    (tier_total k p cacao lps 3).

(** The positions that are given units. *)
Definition recipients k p cacao (lps : list LiquidityProvider) : list LiquidityProvider :=
  List.filter (fun lp => negb (claim_of k p cacao (List.filter (waiting k) lps) lp =? 0)) (List.filter (waiting k) lps).

(** A position whose pending assets have joined the pool for [claim] units. *)
Definition settled k p cacao (claim : Z) (lp : LiquidityProvider) : LiquidityProvider :=
  with_position lp (Lp_CacaoAddress lp) (Lp_AssetAddress lp) (kv_height k) claim (PendingCacao lp) 0 EmptyString
    claim (GetSafeShare claim cacao (PendingInboundAsset p)).

Definition promise k p cacao (lp : LiquidityProvider) : donate := mkDonate lp (entitled p cacao lp) (tier_of k lp).

Lemma tier_total_cons k p cacao lp lps tier :
  tier_total k p cacao (lp :: lps) tier =
  (if tier_of k lp =? tier then entitled p cacao lp else 0) + tier_total k p cacao lps tier.
Proof. unfold tier_total. cbn [List.filter]. by destruct (_ =? _). Qed.

Lemma donations_exact k p cacao lps ds totals :
  donations k p cacao lps = Ok (ds, totals) ->
  let ws := List.filter (waiting k) lps in
  ds = map (promise k p cacao) ws /\
  totals = (tier_total k p cacao ws 1, tier_total k p cacao ws 2, tier_total k p cacao ws 3).
Proof.
  unfold donations. cbv zeta. match goal with |- foldM ?f _ _ = _ -> _ => set (step := f) end.
  assert (Hgen : forall l t1 t2 t3 acc, foldM step (acc, (t1, t2, t3)) l = Ok (ds, totals) ->
    ds = acc ++ map (promise k p cacao) (List.filter (waiting k) l) /\
    totals = (t1 + tier_total k p cacao (List.filter (waiting k) l) 1,
              t2 + tier_total k p cacao (List.filter (waiting k) l) 2,
              t3 + tier_total k p cacao (List.filter (waiting k) l) 3)); [|intros H; by apply (Hgen lps 0 0 0 [])].
  intros l. induction l as [|lp l IHl]; intros t1 t2 t3 acc H.
  { injection H as <- <-. rewrite app_nil_r. unfold tier_total, sumZ. cbn. by rewrite !Z.add_0_r. }
  cbn [foldM] in H. apply bind_Ok in H as ([acc' [[u1 u2] u3]] & Hstep & [-> ->]%IHl). clear IHl. subst step.
  cbn beta iota zeta in Hstep.
  cbn [List.filter]. fold (tier_of k lp) (entitled p cacao lp) (promise k p cacao lp) in Hstep.
  destruct (waiting k lp) eqn:Hw; unfold waiting in Hw.
  2:{ assert (Hsame : Ok (acc, (t1, t2, t3)) = Ok (acc', (u1, u2, u3))); [|by injection Hsame as <- <- <- <-].
      rewrite !andb_false_iff, !negb_false_iff, !Z.leb_gt in Hw.
      destruct (PendingAsset lp =? 0); [exact Hstep|].
      destruct (acc_empty _); [|exact Hstep]. cbn [negb orb] in Hstep.
      destruct (Z.ltb_spec (tier_of k lp) 1); [exact Hstep|].
      destruct (Z.ltb_spec 3 (tier_of k lp)); [exact Hstep|].
      destruct Hw as [[[|]|]|]; first [done|lia]. }
  rewrite !andb_true_iff, negb_true_iff, !Z.leb_le in Hw. destruct Hw as [[[Hw1 Hw2] Hw3] Hw4].
  rewrite Hw1, Hw2, (proj2 (Z.ltb_ge _ 1)), (proj2 (Z.ltb_ge 3 _)) in Hstep by done. cbn [negb orb map] in *.
  rewrite !tier_total_cons.
  destruct (Z.eqb_spec (tier_of k lp) 1); [|destruct (Z.eqb_spec (tier_of k lp) 2)];
    apply bind_Ok in Hstep as (t & [-> _]%uint_add_Ok & [= <- <- <- <-]); rewrite <- app_assoc;
    (split; [done|]);
    repeat match goal with |- context [tier_of k lp =? ?n] => destruct (Z.eqb_spec (tier_of k lp) n); try lia end;
    (apply (f_equal2 pair); [apply (f_equal2 pair)|]); lia.
Qed.

Lemma tiered_claim_exact k k0 t1 t2 t3 p cacao lp c : kv_constants k = kv_constants k0 ->
  tiered_claim k (t1, t2, t3) (promise k0 p cacao lp) = Ok c ->
  c = weighed k0 (entitled p cacao lp) (tier_of k0 lp) t1 t2 t3.
Proof.
  intros Hk H. unfold tiered_claim, weighed in *. cbv zeta in *. rewrite Hk in H. cbn [donate_tier donate_claim promise] in H.
  apply bind_Ok in H as (s & [-> _]%uint_add_Ok & H).
  destruct (_ =? _); [by apply uint_add_Ok in H as [-> _]|].
  destruct (_ =? _); [by apply uint_sub_Ok in H as [-> _]|].
  destruct (_ =? _); [by apply uint_sub_Ok in H as [-> _]|]. by injection H.
Qed.

(** Each position that waits is settled with its claim, unless that is nothing. *)
Lemma gifts_exact k p cacao ws t1 t2 t3 :
  let claim lp := weighed k (entitled p cacao lp) (tier_of k lp) t1 t2 t3 in
  forall l k0 q k' q', kv_constants k0 = kv_constants k -> kv_height k0 = kv_height k -> is_uint (PendingInboundAsset q) -> Forall (fun lp => is_uint (PendingAsset lp)) l ->
  ws = List.filter (fun lp => negb (claim lp =? 0)) l ->
  foldM (give_claim cacao (PendingInboundAsset p) (t1, t2, t3)) (k0, q) (map (promise k p cacao) l)
    = Ok (k', q') ->
  k' = SetLiquidityProviders k0 (map (fun lp => settled k p cacao (claim lp) lp) ws) /\
  auction_gift (sumZ claim ws) (sumZ PendingAsset ws) q q'.
Proof.
  intros claim l. revert ws. induction l as [|lp l IHl]; intros ws k0 q k' q' Hc0 Hh0 Hq Hl -> H.
  { injection H as <- <-. split; [done|by apply auction_gift_refl]. }
  apply Forall_cons in Hl as [Hu Hl]. cbn [map foldM] in H. apply bind_Ok in H as ([k1 q1] & H1 & H).
  unfold give_claim in H1. cbv zeta in H1. apply bind_Ok in H1 as (c & Hc & H1).
  apply (tiered_claim_exact _ k) in Hc; [|done]. fold (claim lp) in Hc. cbn [List.filter].
  destruct (Z.eqb_spec c 0) as [Hz|Hz]; rewrite Hc in Hz.
  { injection H1 as <- <-. rewrite Hz. cbn [negb map]. by eapply IHl. }
  rewrite (proj2 (Z.eqb_neq _ _)) by done. cbn [negb map]. rewrite !sumZ_cons.
  apply bind_Ok in H1 as (pend & ->%SafeSub_inv & H1). apply bind_Ok in H1 as (bc & [-> _]%uint_add_Ok & H1).
  apply bind_Ok in H1 as (ba & [-> _]%uint_add_Ok & H1). apply bind_Ok in H1 as (u & [-> _]%uint_add_Ok & H1).
  cbn [donate_lp promise] in H1. injection H1 as <- <-. subst c. unfold is_uint in *.
  assert (Hs : 0 <= sumZ PendingAsset (List.filter (fun lp => negb (claim lp =? 0)) l)).
  { apply sumZ_nonneg, Forall_forall. intros x Hx. apply list_elem_of_In, filter_In in Hx as [Hx _].
    rewrite Forall_forall in Hl. apply Hl. by apply list_elem_of_In. }
  rewrite Hh0 in H. eapply IHl in H as [-> Ha]; [|done|done|cbn; lia|done|reflexivity].
  split; [done|]. eapply auction_gift_trans; [lia|exact Hs| |exact Ha]. by split.
Qed.

Lemma GetLiquidityProviderIterator_uint k asset :
  map_Forall (fun _ lp => is_uint (PendingAsset lp)) (kv_lps k) ->
  Forall (fun lp => is_uint (PendingAsset lp)) (GetLiquidityProviderIterator k asset).
Proof.
  intros Hk. apply Forall_forall. intros lp Hlp. unfold GetLiquidityProviderIterator in Hlp.
  apply list_elem_of_In, in_map_iff in Hlp as ([key lp'] & <- & Hin). apply list_elem_of_In in Hin.
  rewrite stable_sort_perm in Hin. apply list_elem_of_In, filter_In in Hin as [Hin _].
  apply list_elem_of_In, elem_of_map_to_list in Hin. by apply (Hk key).
Qed.

Lemma waiting_uint k asset :
  map_Forall (fun _ lp => is_uint (PendingAsset lp)) (kv_lps k) ->
  Forall (fun lp => is_uint (PendingAsset lp)) (List.filter (waiting k) (GetLiquidityProviderIterator k asset)).
Proof.
  intros Hk%(GetLiquidityProviderIterator_uint k asset). rewrite Forall_forall in *. intros lp Hlp.
  apply list_elem_of_In, filter_In in Hlp as [Hlp _]. apply Hk. by apply list_elem_of_In.
Qed.

(** What a donation in an auction gives out. *)
Definition auction_outcome k (asset : Asset) (cacao : Z) p p' (lps : gmap string LiquidityProvider) : Prop :=
  let all := GetLiquidityProviderIterator k asset in
  let claim := claim_of k p cacao (List.filter (waiting k) all) in
  let given := recipients k p cacao all in
  auction_gift (sumZ claim given) (sumZ PendingAsset given) p p' /\
  lps = kv_lps (SetLiquidityProviders k (map (fun lp => settled k p cacao (claim lp) lp) given)).

Lemma SetLiquidityProviders_lps k l :
  SetLiquidityProviders k l = set_kv_lps k (kv_lps (SetLiquidityProviders k l)).
Proof.
  unfold SetLiquidityProviders. revert k. induction l as [|lp l IHl]; intros k; cbn [fold_left]; [by destruct k|].
  by rewrite IHl at 1.
Qed.

Lemma addLiquidityFromDonate_inv k msg p k' :
  is_uint (PendingInboundAsset p) -> map_Forall (fun _ lp => is_uint (PendingAsset lp)) (kv_lps k) ->
  addLiquidityFromDonateV102 k msg p = Ok k' ->
  exists lps p', SetPool (set_kv_lps k lps) p' = Ok k' /\
    auction_outcome k (Donate_Asset msg) (Donate_CacaoAmount msg) p p' lps.
Proof.
  intros Hp Hk H. unfold addLiquidityFromDonateV102 in H. cbv zeta in H.
  apply bind_Ok in H as ([ds totals] & Hd & H). apply bind_Ok in H as ([k1 p1] & H1 & H).
  apply donations_exact in Hd as [-> ->].
  eapply gifts_exact in H1 as [Hk1 Ha]; [|done|done|done|by apply waiting_uint|reflexivity].
  rewrite Hk1, SetLiquidityProviders_lps in H. by exists (kv_lps k1), p1; subst k1.
Qed.

(** Giving a donation out may panic, but it does not fail. *)
Lemma then_no_Err {X Y} (m : outcome X) (f : X -> outcome Y) e :
  (forall e', m <> Err e') -> (forall x, f x <> Err e) -> m ≫= f <> Err e.
Proof. intros Hm Hf. destruct m as [x|e'|]; [apply Hf|by destruct (Hm e')|done]. Qed.

Lemma foldM_no_Err {X Y} (f : X -> Y -> outcome X) (l : list Y) x e :
  (forall x y e', f x y <> Err e') -> foldM f x l <> Err e.
Proof.
  intros Hf. revert x. induction l as [|y l IHl]; intros x; cbn [foldM]; [done|].
  apply then_no_Err; [apply Hf|apply IHl].
Qed.

Lemma donations_no_Err k p cacao lps e : donations k p cacao lps <> Err e.
Proof.
  apply foldM_no_Err. intros [l [[t1 t2] t3]] lp e'. cbn beta iota zeta.
  destruct (_ || _); [done|]. destruct (_ || _); [done|].
  destruct (_ =? 1); [|destruct (_ =? 2)]; (apply then_no_Err; [apply uint_add_no_Err|done]).
Qed.

Lemma tiered_claim_no_Err k totals d e : tiered_claim k totals d <> Err e.
Proof.
  destruct totals as [[t1 t2] t3]. unfold tiered_claim. cbv zeta.
  apply then_no_Err; [apply uint_add_no_Err|]. intros s. destruct (_ =? _); [apply uint_add_no_Err|].
  destruct (_ =? _); [apply uint_sub_no_Err|]. destruct (_ =? _); [apply uint_sub_no_Err|done].
Qed.

Lemma give_claim_no_Err cacao pending totals s d e : give_claim cacao pending totals s d <> Err e.
Proof.
  destruct s as [k p]. unfold give_claim. cbv zeta. apply then_no_Err; [apply tiered_claim_no_Err|]. intros c.
  destruct (c =? 0); [done|]. apply then_no_Err; [apply SafeSub_no_Err|]. intros b.
  do 3 (apply then_no_Err; [apply uint_add_no_Err|]; intros ?). done.
Qed.

Lemma addLiquidityFromDonate_no_Err k msg p e : Asset_IsEmpty (Pool_Asset p) = false ->
  is_uint (PendingInboundAsset p) -> map_Forall (fun _ lp => is_uint (PendingAsset lp)) (kv_lps k) ->
  addLiquidityFromDonateV102 k msg p <> Err e.
Proof.
  intros Hne Hp Hk H. unfold addLiquidityFromDonateV102 in H. cbv zeta in H.
  destruct (donations _ _ _ _) as [[ds totals]|e'|] eqn:Ed; cbn in H; [|by apply donations_no_Err in Ed|done].
  apply donations_exact in Ed as [-> ->].
  destruct (foldM _ _ _) as [[k1 p1]|e'|] eqn:E; cbn in H; [| |done].
  2:{ apply foldM_no_Err in E; [done|]. apply give_claim_no_Err. }
  eapply gifts_exact in E as [_ Ha]; [|done|done|done|by apply waiting_uint|reflexivity]. unfold SetPool in H.
  destruct (ag_same _ _ _ _ Ha) as [Hs _]. by rewrite Hs, Hne in H.
Qed.

(** C14: a donation changes nothing but the pool of its asset, and in an auction the
    positions in it. Outside an auction the pool gains exactly the two amounts and nobody
    gets units. In an auction only an administrator may donate. Each position that waits
    for it has a claim: its part, by what it has pending, of the CACAO donated, weighed by
    its tier. The positions with a claim have it as their units afterwards and nothing
    pending; the pool gains the sum of these claims as CACAO and as units, and what these
    positions had pending as its asset, which its pending deposits lose, never less than
    nothing. *)
Theorem donate_Run_spec k msg k' :
  let p := GetPool k (Donate_Asset msg) in
  is_uint (PendingInboundAsset p) -> map_Forall (fun _ lp => is_uint (PendingAsset lp)) (kv_lps k) ->
  donate_Run k msg = Ok k' ->
  exists lps p', k' = set_kv_pools (set_kv_lps k lps) (<[GetKey (Asset_String (Pool_Asset p)) := p']> (kv_pools k)) /\
    if isLiquidityAuction k
    then isAdmin (Donate_Signer msg) = true /\
         auction_outcome k (Donate_Asset msg) (Donate_CacaoAmount msg) p p' lps
    else lps = kv_lps k /\ gift (Donate_AssetAmount msg) (Donate_CacaoAmount msg) p p'.
Proof.
  cbv zeta. intros Hp Hk H. unfold donate_Run in H. apply bind_Ok in H as ([] & _ & H).
  unfold donate_handleV101 in H. cbv zeta in H. set (p := GetPool k (Donate_Asset msg)) in *.
  destruct (Asset_IsEmpty (Pool_Asset p)) eqn:Hne; [done|]. destruct (isLiquidityAuction k).
  2:{ apply bind_Ok in H as (ba & [-> Ha]%uint_add_Ok & H). apply bind_Ok in H as (bc & [-> Hb]%uint_add_Ok & H).
      apply SetPool_stored in H as ->. eexists (kv_lps k), _. split; [by destruct k|]. split; [done|]. split; [done|]. by split. }
  destruct (addLiquidityFromDonateV102 k msg p) as [k1|e|] eqn:E; [| |done].
  2:{ by apply addLiquidityFromDonate_no_Err in E. }
  destruct (forallb _ _); cbn [negb] in H; [|done]. destruct (isAdmin _); cbn [negb] in H; [|done].
  injection H as <-. apply addLiquidityFromDonate_inv in E as (lps & p' & H & Ha); [|done..].
  apply SetPool_stored in H as ->. destruct (ag_same _ _ _ _ (proj1 Ha)) as [-> _].
  exists lps, p'. split; [done|]. by split.
Qed.
End donation_facts.

(** ** A donation in an auction *)

Section donation_witness.
Import Reference ReferenceBank ReferenceRange ReferenceAddress.
#[local] Existing Instance bond_address.

(** Two deposits of bitcoin, of the first and of the second tier, wait for a donation of
    1000 CACAO. *)
Definition auction_start : KVStore :=
  let k := empty_kv (semver_release 1 124 0)
             (fun name => if String.eqb name "WithdrawTier1" then 1 else if String.eqb name "WithdrawTier2" then 2
                          else if String.eqb name "WithdrawTier3" then 3 else 0) 10 ReferenceBank.empty in
  let k := set_kv_pools k {[ GetKey (Asset_String BTCAsset) :=
             mkPool 0 0 BTCAsset 0 PoolStatus_Available 0 8 0 0 400 ]} in
  let waiting addr amount := mkLiquidityProvider BTCAsset addr "1bc" 0 0 0 0 amount EmptyString 0 0 EmptyString 0 0 [] in
  let k := SetLiquidityProviders k [waiting "maya1alice" 300; waiting "maya1bob" 100] in
  let k := SetLiquidityAuctionTier (SetLiquidityAuctionTier k "maya1alice" 1) "maya1bob" 2 in
  SetMimir k "LiquidityAuction" 100.

Definition donation (signer : AccAddress) : MsgDonate :=
  mkMsgDonate BTCAsset 0 1000
    (NewTx "AAAAAA0123456789ABCDEF0123456789ABCDEF0123456789ABCDEF0123456789" "maya1carol" "maya1dave"
       [NewCoin BaseAsset 1000] [NewCoin BaseAsset 1] "donate:BTC.BTC") signer.

Definition donation_check (r : outcome KVStore) : bool :=
  match r with
  | Ok k => let p := GetPool k BTCAsset in
      (BalanceCacao p =? 1000) && (BalanceAsset p =? 400) && (LPUnits p =? 1000) && (PendingInboundAsset p =? 0)
      && bool_decide (map Lp_Units (GetLiquidityProviderIterator k BTCAsset) = [775; 225])
  | _ => false
  end.

Lemma donation_checked : donation_check (donate_Run auction_start (donation "tqn0l6spm9fukjv6az9nhffm40k0003rlqp5xt")) = true.
Proof. by vm_compute. Qed.

Lemma donation_refused : match donate_Run auction_start (donation "eve") with
  Err e => String.eqb e "only admin can donate to liquidity auction" | _ => false end = true.
Proof. by vm_compute. Qed.

Lemma donation_check_spec r : donation_check r = true -> exists k, r = Ok k /\ LPUnits (GetPool k BTCAsset) = 1000.
Proof.
  destruct r as [k| |]; [|done..]. unfold donation_check. cbv zeta. rewrite !andb_true_iff.
  intros [[[[_ _] H] _] _]. exists k. split; [done|]. by apply Z.eqb_eq.
Qed.

Lemma auction_uint : map_Forall (fun _ lp => is_uint (PendingAsset lp)) (kv_lps auction_start) /\
  is_uint (PendingInboundAsset (GetPool auction_start BTCAsset)).
Proof.
  split; [|by split; vm_compute].
  apply (bool_decide_unpack (map_Forall (fun _ lp => 0 <= PendingAsset lp < 2 ^ 256) (kv_lps auction_start))). by vm_compute.
Qed.

Lemma donate_Run_spec_witness : exists k lps p',
  donate_Run auction_start (donation "tqn0l6spm9fukjv6az9nhffm40k0003rlqp5xt") = Ok k /\
  LPUnits (GetPool k BTCAsset) = 1000 /\
  k = set_kv_pools (set_kv_lps auction_start lps) (<[GetKey "BTC.BTC" := p']> (kv_pools auction_start)).
Proof.
  destruct (donation_check_spec _ donation_checked) as (k & E & Hu).
  destruct (donate_Run_spec auction_start (donation "tqn0l6spm9fukjv6az9nhffm40k0003rlqp5xt") k
    (proj2 auction_uint) (proj1 auction_uint) E) as (lps & p' & H & _).
  exists k, lps, p'. split; [exact E|]. split; [exact Hu|]. exact H.
Defined.
End donation_witness.
