(* ===== verification/Leaving.v ===== *)
(** [x/mayachain/handler_leave.go]: a node asks to leave. An active node is marked and
    leaves with the next change of the validators; another one gets its bond back. *)
From stdpp Require Import pretty.
From S2P Require Import Prelude GoText Sdk Constants Floats Shares Chains Keys Addresses Assets Coins Txs.
From S2P Require Import NodeAccounts Votes TxOuts Vaults ObservedTxs Pools Mimirs StreamingSwaps SwapMsgs.
From S2P Require Import LiquidityProviders Records MayaNames Stores Keeper Nodes Bonds VaultStore Halts Gas.
From S2P Require Import TradeAccounts Swapper Swaps Affiliates Decimals Memos Collectors SwapChecks.
From S2P Require Import Liquidity AddLiquidity LiquidityBooks Withdraw WithdrawBooks Slashing Bonding BondBooks.
From S2P Require Import LiquidityLedger.

Record MsgLeave := mkMsgLeave {
  Leave_Tx : Tx;
  Leave_NodeAddress : AccAddress;
  Leave_Signer : AccAddress;
}.

Definition with_leave (m : NodeAccount) (requested : bool) (score : Z) : NodeAccount :=
  mkNodeAccount (NodeAddress m) (NodeAccount_Status m) (NodeAccount_PubKeySet m) (AztecAddress m)
    (ValidatorConsPubKey m) (Bond m) (ActiveBlockHeight m) (NodeAccount_BondAddress m)
    (NodeAccount_StatusSince m) (SignerMembership m) requested (ForcedToLeave m) score (IPAddress m)
    (NodeAccount_Version m) (NodeAccount_Type m) (NodeAccount_Reward m).

Section leaving.
Context `{V : Semver} `{B : CosmosBank} `{A : SdkAddress} `{R : MapRange} `{L : AddressLib}.
Context `{U : SdkUint} `{D : SdkDec} `{T : UintText} `{C : PubKeyCodec} `{K : PubKeyAddress} {TO : TxOutStore}.
Implicit Types (k : KVStore).

Definition leave_ValidateBasic (m : MsgLeave) : outcome unit :=
  if Address_IsEmpty (FromAddress (Leave_Tx m)) then Err "from address cannot be empty"
  else if TxID_IsEmpty (Tx_ID (Leave_Tx m)) then Err "tx id cannot be empty"
  else if acc_empty (Leave_Signer m) then Err "signer cannot be empty "
  else if acc_empty (Leave_NodeAddress m) then Err "node address cannot be empty"
  else Ok tt.

Definition leave_validateV1 k (msg : MsgLeave) : outcome unit :=
  _ ← leave_ValidateBasic msg;
  if IsJailed (GetNodeAccountJail k (Leave_NodeAddress msg)) (kv_height k)
  then Err "failed to leave due to jail status: (release height %d) %s" else Ok tt.

(** ** Abandoned vaults *)

(** The value in CACAO of what is left, when it is gas in small amounts only. *)
Fixpoint abandoned_value k (coins : Coins) (total : Z) : outcome (option Z) :=
  match coins with
  | [] => Ok (Some total)
  | c :: coins' =>
      if Coin_Amount c =? 0 then abandoned_value k coins' total
      else if negb (IsGasAsset (Coin_Asset c)) then Ok None
      else
        match GetMaxGas k (GetChain (Coin_Asset c)) with
        | Panic => Panic
        | Err _ => Ok None
        | Ok maxGas =>
            limit ← uint_mul64 (Coin_Amount maxGas) 10;
            if limit <? Coin_Amount c then Ok None
            else
              total ← uint_add total (AssetValueInRune (GetPool k (Coin_Asset c)) (Coin_Amount c));
              abandoned_value k coins' total
        end
  end.

Definition canAbandonVault k (vault : Vault) : outcome bool :=
  value ← abandoned_value k (Vault_Coins vault) 0;
  Ok (match value with Some total => total <=? 100 * One | None => false end).

(** ** The handler *)

(** The age of the node in its status, over its slash points. *)
Definition leave_score k (na : NodeAccount) : outcome Z :=
  let age := u64 ((kv_height k - NodeAccount_StatusSince na) * One) in
  let slashPts := GetNodeAccountSlashPoints k (NodeAddress na) in
  if slashPts =? 0 then Ok age
  else score ← uint_quo64 age (u64 slashPts); amount_uint64 score.

(** The bond is paid out and the node is disabled. *)
Definition leave_disabled k (na : NodeAccount) (bondAddr : AccAddress) : outcome (KVStore * NodeAccount) :=
  '(k, na) ← refundBond k bondAddr EmptyAsset 0 na;
  Ok (k, UpdateStatus na NodeStatus_Disabled (kv_height k)).

(** A node with a yggdrasil vault; one that is abandoned does not disable the node. *)
Definition leave_with_vault k (na : NodeAccount) (bondAddr : AccAddress) : outcome (KVStore * NodeAccount) :=
  vault ← GetVault k (node_key na);
  if negb (IsYggdrasil vault) then Ok (k, na)
  else if negb (HasFunds vault) then leave_disabled k na bondAddr
  else
    abandon ← canAbandonVault k vault;
    if abandon : bool then refundBond k bondAddr EmptyAsset 0 na
    else k ← RequestYggReturn k na; Ok (k, na).

Definition leave_inactive k (na : NodeAccount) (bondAddr : AccAddress) : outcome (KVStore * NodeAccount) :=
  let bondLockPeriod := mimir_or_constant k (ConstantName_String "BondLockupPeriod") in
  if i64 (kv_height k - NodeAccount_StatusSince na) <? bondLockPeriod then Err "node can not unbond before %d"
  else
    vaults ← GetAsgardVaultsByStatus k VaultStatus_RetiringVault;
    if existsb (fun v => PubKeys_Contains (GetMembership v) (node_key na)) vaults then Ok (k, na)
    else if negb (VaultExists k (node_key na)) then leave_disabled k na bondAddr
    else leave_with_vault k na bondAddr.

Definition leave_active k (na : NodeAccount) : outcome (KVStore * NodeAccount) :=
  if LeaveScore na =? 0
  then score ← leave_score k na; Ok (k, with_leave na (RequestedToLeave na) score)
  else Ok (k, na).

Definition leave_handleV76 k (msg : MsgLeave) : outcome KVStore :=
  let na := GetNodeAccount k (Leave_NodeAddress msg) in
  if NodeAccount_IsEmpty na then Err "node account doesn't exist"
  else if negb (Address_Equals (NodeAccount_BondAddress na) (FromAddress (Leave_Tx msg)))
  then Err "%s are not authorized to manage %s"
  else
    let coin := GetCoin (Tx_Coins (Leave_Tx msg)) BaseAsset in
    k ← (if Coin_IsEmpty coin then Ok k
         else SendFromModuleToAccount k BondName (NodeAddress na) [coin]);
    bondAddr ← AccAddress_of (NodeAccount_BondAddress na);
    '(k, na) ← (if NodeAccount_Status na =? NodeStatus_Active then leave_active k na
                else leave_inactive k na bondAddr);
    Ok (k_SetNodeAccount k (with_leave na true (LeaveScore na))).

Definition leave_Run k (msg : MsgLeave) : outcome KVStore :=
  _ ← (if GTE (kv_version k) (semver_release 0 1 0) then leave_validateV1 k msg else Err "invalid version");
  if GTE (kv_version k) (semver_release 0 76 0) then leave_handleV76 k msg else Err "bad version".
End leaving.
