(* ===== verification/Observers.v ===== *)
(** [x/mayachain/manager_observer_current.go] with [keeper_observer.go] and the parts of
    [keeper_txin.go] and [keeper_last_height.go] that record who observed what: the
    nodes that observed the transactions of a block on every chain, the heights they
    have seen, the voters of outbound transactions and the links between hashes. *)
From stdpp Require Import pretty.
From S2P Require Import Prelude GoText Sdk Constants Floats Shares Chains Keys Addresses Assets Coins Txs.
From S2P Require Import NodeAccounts Votes TxOuts Vaults ObservedTxs Pools Mimirs StreamingSwaps SwapMsgs.
From S2P Require Import LiquidityProviders Records MayaNames Stores Keeper Nodes.

(** The observers of the block, by chain. *)
Record ObserverMgr := mkObserverMgr { om_chains : gmap string (list AccAddress) }.

Definition newObserverMgr : ObserverMgr := mkObserverMgr ∅.

Section observers.
Context `{A : SdkAddress}.
Implicit Types om : ObserverMgr.

(** The first occurrence of every address stays. *)
Fixpoint unique_from (seen : list string) (addrs : list AccAddress) : list AccAddress :=
  match addrs with
  | [] => []
  | val :: addrs' =>
      if bool_decide (acc_string val ∈ seen) then unique_from seen addrs'
      else val :: unique_from (acc_string val :: seen) addrs'
  end.

Definition unique_addresses (addrs : list AccAddress) : list AccAddress := unique_from [] addrs.

Definition AppendObserver om (chain : Chain) (addrs : list AccAddress) : ObserverMgr :=
  let all := default [] (om_chains om !! chain) ++ addrs in
  mkObserverMgr (<[chain := unique_addresses all]> (om_chains om)).

(** How often each address occurs in the lists of the chains. *)
Definition tracker om : gmap string nat :=
  foldl (fun t addr => <[acc_string addr := S (default O (t !! acc_string addr))]> t) ∅
    (concat (map snd (map_to_list (om_chains om)))).

(** The addresses that occur as often as there are chains. A text that is no address
    counts as the empty one. *)
Definition List_observers om : list AccAddress :=
  let result := omap (fun e : string * nat =>
    if (size (om_chains om) <=? snd e)%nat then Some (default EmptyString (acc_from_bech32 (fst e))) else None)
    (map_to_list (tracker om)) in
  stable_sort (fun a b => str_ltb (acc_string a) (acc_string b)) result.

Context `{V : Semver} `{B : CosmosBank}.
Implicit Types k : KVStore.

Definition GetObservingAddresses k : list AccAddress := bl_observers (kv_ballots k).

Definition AddObservingAddresses k (inAddresses : list AccAddress) : KVStore :=
  match inAddresses with
  | [] => k
  | _ => set_bl_observers k (unique_addresses (GetObservingAddresses k ++ inAddresses))
  end.

Definition ClearObservingAddresses k : KVStore := set_bl_observers k [].

Definition ObserverMgr_EndBlock om k : ObserverMgr * KVStore :=
  (newObserverMgr, AddObservingAddresses k (List_observers om)).

(** ** Heights, voters and links *)

Definition observe_key (chain : Chain) (address : AccAddress) : string * string :=
  (GetKey (acc_string address), Chain_String chain).

(** A smaller height is ignored. *)
Definition SetLastObserveHeight k (chain : Chain) (address : AccAddress) (height : Z) : KVStore :=
  let key := observe_key chain address in
  match bl_observe_heights (kv_ballots k) !! key with
  | Some lastHeight =>
      if height <? lastHeight then k
      else set_bl_observe_heights k (<[key := height]> (bl_observe_heights (kv_ballots k)))
  | None => set_bl_observe_heights k (<[key := height]> (bl_observe_heights (kv_ballots k)))
  end.

Definition SetObservedTxOutVoter k (tx : ObservedTxVoter) : KVStore :=
  set_bl_out_voters k (<[GetKey (TxID_String (Voter_TxID tx)) := tx]> (bl_out_voters (kv_ballots k))).

Definition GetObservedTxOutVoter k (hash : TxID) : ObservedTxVoter :=
  default (NewObservedTxVoter hash []) (bl_out_voters (kv_ballots k) !! GetKey (TxID_String hash)).

Definition SetObservedLink k (inhash outhash : TxID) : KVStore :=
  let key := GetKey (TxID_String inhash) in
  let record := default [] (bl_links (kv_ballots k) !! key) in
  if existsb (String.eqb (TxID_String outhash)) record then k
  else set_bl_links k (<[key := record ++ [TxID_String outhash]]> (bl_links (kv_ballots k))).

(** A link that is no hash is skipped. *)
Definition GetObservedLink k (inhash : TxID) : list TxID :=
  omap (fun s => match NewTxID s with Ok hash => Some hash | _ => None end)
    (default [] (bl_links (kv_ballots k) !! GetKey (TxID_String inhash))).
End observers.

(** ** Who observed every chain *)

Lemma str_ltb_asym s t : str_ltb s t = true -> str_ltb t s = false.
Proof.
  unfold str_ltb, String.ltb. rewrite (String.compare_antisym t s). by destruct (String.compare s t).
Qed.

Section observer_facts.
Context {A : SdkAddress} {AL : SdkAddressLaws A}.
Implicit Types om : ObserverMgr.

Definition occurs (s : string) (l : list AccAddress) : nat :=
  length (List.filter (fun a => String.eqb (acc_string a) s) l).

Lemma acc_string_wf_inj a b : acc_wf a -> acc_wf b -> acc_string a = acc_string b -> a = b.
Proof. intros Ha%acc_roundtrip Hb%acc_roundtrip H. rewrite H in Ha. congruence. Qed.

Lemma unique_from_elem seen l a : Forall acc_wf (a :: l) ->
  a ∈ unique_from seen l <-> a ∈ l /\ acc_string a ∉ seen.
Proof.
  intros [Ha Hl]%Forall_cons. revert seen. induction Hl as [|x l Hx Hl IHl]; intros seen; cbn.
  { split; [by intros ?%elem_of_nil|by intros [?%elem_of_nil _]]. }
  rewrite elem_of_cons. case_bool_decide as Hs.
  - rewrite IHl. split; [tauto|]. intros [[->|?] ?]; [done|tauto].
  - rewrite elem_of_cons, IHl, not_elem_of_cons. split; [intros [->|?]; tauto|].
    intros [[->|Hin] Hn]; [by left|]. destruct (decide (acc_string a = acc_string x)) as [E|]; [|tauto].
    left. by apply acc_string_wf_inj.
Qed.

Lemma unique_from_NoDup seen l : NoDup (map acc_string (unique_from seen l)) /\
  forall a, a ∈ unique_from seen l -> a ∈ l /\ acc_string a ∉ seen.
Proof.
  revert seen. induction l as [|x l IHl]; intros seen; cbn; [by split; [constructor|intros ? ?%elem_of_nil]|].
  case_bool_decide as Hs.
  - destruct (IHl seen) as [H1 H2]. split; [done|]. intros a [? ?]%H2. split; [by right|done].
  - destruct (IHl (acc_string x :: seen)) as [H1 H2]. split.
    + cbn. constructor; [|done]. intros (y & Hy & Hin)%list_elem_of_fmap. apply H2 in Hin as [_ Hin].
      apply Hin. rewrite Hy. by left.
    + intros a [->|Hin]%elem_of_cons; [split; [by left|done]|]. apply H2 in Hin as [? ?%not_elem_of_cons].
      split; [by right|tauto].
Qed.

(** The lists hold valid addresses, each once. *)
Definition om_wf om : Prop := forall chain addrs, om_chains om !! chain = Some addrs ->
  Forall acc_wf addrs /\ NoDup (map acc_string addrs).

Lemma AppendObserver_wf om chain addrs : om_wf om -> Forall acc_wf addrs -> om_wf (AppendObserver om chain addrs).
Proof.
  intros Hom Ha c l Hl. unfold AppendObserver in Hl. cbn in Hl.
  destruct (decide (c = chain)) as [->|Hn]; [|rewrite lookup_insert_ne in Hl by done; by eapply Hom].
  rewrite lookup_insert_eq in Hl. injection Hl as <-. unfold unique_addresses.
  destruct (unique_from_NoDup [] (default [] (om_chains om !! chain) ++ addrs)) as [H1 H2]. split; [|done].
  apply Forall_forall. intros a [Hin _]%H2. apply elem_of_app in Hin as [Hin|Hin].
  - destruct (om_chains om !! chain) as [l|] eqn:E; cbn in Hin; [|by apply elem_of_nil in Hin].
    apply Hom in E as [E _]. rewrite Forall_forall in E. by apply E.
  - rewrite Forall_forall in Ha. by apply Ha.
Qed.

Lemma AppendObserver_elem om chain addrs c l a : om_wf om -> Forall acc_wf (a :: addrs) ->
  om_chains (AppendObserver om chain addrs) !! c = Some l ->
  a ∈ l <-> (exists l0, om_chains om !! c = Some l0 /\ a ∈ l0) \/ (c = chain /\ a ∈ addrs).
Proof.
  intros Hom [Ha Hl]%Forall_cons H. unfold AppendObserver in H. cbn in H.
  destruct (decide (c = chain)) as [->|Hn].
  2:{ rewrite lookup_insert_ne in H by done. split; [intros; left; eauto|]. intros [(l0 & H0 & ?)|[? _]]; [|done].
      congruence. }
  rewrite lookup_insert_eq in H. injection H as <-. unfold unique_addresses. rewrite unique_from_elem.
  - rewrite elem_of_app. destruct (om_chains om !! chain) as [l0|] eqn:E; cbn.
    + split; [intros [[?|?] _]; eauto|]. intros [(? & [= <-] & ?)|[_ ?]]; (split; [tauto|by intros ?%elem_of_nil]).
    + split; [intros [[?%elem_of_nil|?] _]; [done|eauto]|]. intros [(? & [=] & _)|[_ ?]]; split; [tauto|by intros ?%elem_of_nil].
  - apply Forall_cons. split; [done|]. apply Forall_app. split; [|done].
    destruct (om_chains om !! chain) as [l0|] eqn:E; cbn; [|constructor]. by apply Hom in E as [E _].
Qed.

Lemma tracker_occurs t l s :
  default O (foldl (fun (t : gmap string nat) addr => <[acc_string addr := S (default O (t !! acc_string addr))]> t) t l !! s)
  = (default O (t !! s) + occurs s l)%nat.
Proof.
  revert t. induction l as [|x l IHl]; intros t; cbn; [unfold occurs; cbn; lia|]. rewrite IHl. unfold occurs. cbn.
  destruct (String.eqb_spec (acc_string x) s) as [<-|Hn]; cbn.
  - rewrite lookup_insert_eq. cbn. lia.
  - by rewrite lookup_insert_ne.
Qed.

Lemma tracker_count om s :
  default O (tracker om !! s) = occurs s (concat (map snd (map_to_list (om_chains om)))).
Proof. unfold tracker. by rewrite tracker_occurs, lookup_empty. Qed.

Lemma tracker_entry om s n : tracker om !! s = Some n ->
  n = occurs s (concat (map snd (map_to_list (om_chains om)))) /\ (0 < n)%nat.
Proof.
  intros H. split.
  - pose proof (tracker_count om s) as Ht. by rewrite H in Ht.
  - unfold tracker in H. revert H. generalize (concat (map snd (map_to_list (om_chains om)))). intros l.
    assert (Hp : forall t : gmap string nat, (forall n, t !! s = Some n -> (0 < n)%nat) ->
      foldl (fun (t : gmap string nat) addr => <[acc_string addr := S (default O (t !! acc_string addr))]> t) t l !! s
        = Some n -> (0 < n)%nat); [|apply Hp; intros m; by rewrite lookup_empty].
    induction l as [|x l IHl]; intros t Ht; cbn; [apply Ht|]. apply IHl. intros m.
    destruct (decide (s = acc_string x)) as [->|Hn]; [rewrite lookup_insert_eq; intros [= <-]; lia|].
    rewrite lookup_insert_ne by done. apply Ht.
Qed.

Lemma occurs_once s l : NoDup (map acc_string l) ->
  (occurs s l <= 1)%nat /\ (occurs s l = 1%nat <-> exists a, a ∈ l /\ acc_string a = s).
Proof.
  unfold occurs. induction l as [|x l IHl]; cbn; intros H.
  { split; [lia|]. split; [done|]. by intros (a & ?%elem_of_nil & _). }
  apply NoDup_cons in H as [Hx H]. destruct (IHl H) as [H1 H2]. destruct (String.eqb_spec (acc_string x) s) as [E|Hn]; cbn.
  - assert (H0 : length (List.filter (fun a => String.eqb (acc_string a) s) l) = 0%nat).
    { destruct (decide (length (List.filter (fun a => String.eqb (acc_string a) s) l) = 1%nat)) as [H3|]; [|lia].
      apply H2 in H3 as (a & Ha & Hs). destruct Hx. rewrite E, <- Hs. by apply list_elem_of_fmap_2. }
    split; [lia|]. split; [|lia]. intros _. exists x. by split; [left|].
  - split; [done|]. rewrite H2. split; intros (a & Ha & Hs); exists a; (split; [|done]); [by right|].
    apply elem_of_cons in Ha as [->|?]; [done|done].
Qed.

Lemma occurs_concat s ls : Forall (fun l => NoDup (map acc_string l)) ls ->
  (occurs s (concat ls) <= length ls)%nat /\
  (occurs s (concat ls) = length ls <-> forall l, l ∈ ls -> exists a, a ∈ l /\ acc_string a = s).
Proof.
  induction 1 as [|l ls Hl Hls [IH1 IH2]]; cbn.
  { split; [done|]. split; [by intros _ l ?%elem_of_nil|done]. }
  destruct (occurs_once s l Hl) as [H1 H2]. unfold occurs in *. rewrite List.filter_app, length_app. split; [lia|].
  split.
  - intros H l' [->|Hin]%elem_of_cons; [apply H2; lia|]. apply IH2; [lia|done].
  - intros H. rewrite (proj2 H2) by (apply H; by left). rewrite (proj2 IH2); [done|].
    intros l' Hl'. apply H. by right.
Qed.

(** The observers of every chain. *)
Lemma List_observers_elem om a : om_wf om ->
  a ∈ List_observers om <->
  om_chains om <> ∅ /\ forall chain addrs, om_chains om !! chain = Some addrs -> a ∈ addrs.
Proof.
  intros Hom. unfold List_observers. rewrite (stable_sort_perm _ _). rewrite list_elem_of_omap.
  assert (Hls : Forall (fun l : list AccAddress => NoDup (map acc_string l)) (map snd (map_to_list (om_chains om)))).
  { apply Forall_forall. intros l ([c l'] & -> & Hin)%list_elem_of_fmap. apply elem_of_map_to_list in Hin.
    by eapply Hom. }
  assert (Hsz : length (map snd (map_to_list (om_chains om))) = size (om_chains om))
    by (rewrite length_map; apply length_map_to_list).
  pose proof (fun s => proj2 (occurs_concat s _ Hls)) as Hocc. pose proof (fun s => proj1 (occurs_concat s _ Hls)) as Hle.
  rewrite Hsz in Hocc, Hle.
  assert (Hall : forall s, (forall l, l ∈ map snd (map_to_list (om_chains om)) -> exists a, a ∈ l /\ acc_string a = s) <->
    forall chain addrs, om_chains om !! chain = Some addrs -> exists a, a ∈ addrs /\ acc_string a = s).
  { intros s. split; intros H.
    - intros c l Hl. apply H. apply list_elem_of_fmap. exists (c, l). split; [done|]. by apply elem_of_map_to_list.
    - intros l ([c l'] & -> & Hin)%list_elem_of_fmap. apply elem_of_map_to_list in Hin. by eapply H. }
  split.
  - intros ([s n] & Hin & Hs). apply elem_of_map_to_list in Hin. apply tracker_entry in Hin as [-> Hn]. cbn in Hs.
    specialize (Hle s). destruct (Nat.leb_spec (size (om_chains om)) (occurs s (concat (map snd (map_to_list (om_chains om))))));
      [|done]. injection Hs as <-. assert (E := proj1 (Hall s) (proj1 (Hocc s) ltac:(lia))).
    assert (Hne : om_chains om <> ∅) by (intros E0%(f_equal size); rewrite map_size_empty in E0; lia).
    split; [done|]. intros c l Hl. destruct (E c l Hl) as (b & Hb & <-). apply Hom in Hl as [Hl _].
    rewrite Forall_forall in Hl. by rewrite (acc_roundtrip b) by (by apply Hl).
  - intros [Hne H]. assert (Ho : occurs (acc_string a) (concat (map snd (map_to_list (om_chains om)))) = size (om_chains om)).
    { apply Hocc, Hall. intros c l Hl. exists a. split; [by eapply H|done]. }
    assert (Hsize : size (om_chains om) <> 0%nat) by (by intros ?%map_size_empty_inv).
    pose proof (tracker_count om (acc_string a)) as Ht.
    exists (acc_string a, size (om_chains om)). split.
    + apply elem_of_map_to_list. destruct (tracker om !! acc_string a) as [n|]; cbn in Ht; [f_equal; lia|lia].
    + cbn. rewrite Nat.leb_refl. f_equal. apply map_choose in Hne as (c & l & Hl). pose proof (H c l Hl) as Hin.
      apply Hom in Hl as [Hl _]. rewrite Forall_forall in Hl. by rewrite acc_roundtrip by (by apply Hl).
Qed.

(** The observations of a block, as they come. *)
Definition observe_all (obs : list (Chain * list AccAddress)) : ObserverMgr :=
  foldl (fun om o => AppendObserver om (fst o) (snd o)) newObserverMgr obs.

Lemma no_observers c : om_chains newObserverMgr !! c = None.
Proof. apply lookup_empty. Qed.

Lemma observe_all_spec obs : Forall (fun o => Forall acc_wf (snd o)) obs ->
  om_wf (observe_all obs) /\
  (forall c, is_Some (om_chains (observe_all obs) !! c) <-> exists addrs, (c, addrs) ∈ obs) /\
  (forall c l a, acc_wf a -> om_chains (observe_all obs) !! c = Some l ->
     a ∈ l <-> exists addrs, (c, addrs) ∈ obs /\ a ∈ addrs).
Proof.
  unfold observe_all. induction obs as [|[c0 l0] obs IHo] using rev_ind; intros Hobs.
  { cbn [foldl]. split; [intros c l; by rewrite no_observers|]. split.
    - intros c. rewrite no_observers. split; [by intros [? [=]]|by intros [? ?%elem_of_nil]].
    - intros c l a _. by rewrite no_observers. }
  apply Forall_app in Hobs as [Ho [Hl0 _]%Forall_cons]. destruct (IHo Ho) as (H1 & H2 & H3). clear IHo.
  rewrite foldl_app. cbn [foldl fst snd] in *. set (om := foldl _ _ obs) in *. split; [by apply AppendObserver_wf|]. split.
  - intros c. unfold AppendObserver. cbn. setoid_rewrite elem_of_app. setoid_rewrite list_elem_of_singleton.
    destruct (decide (c = c0)) as [->|Hn].
    + rewrite lookup_insert_eq. split; [intros _; exists l0; by right|by eexists].
    + rewrite lookup_insert_ne, H2 by done. split; intros [l Hl]; exists l; [by left|]. by destruct Hl as [?|[= ? _]].
  - intros c l a Ha Hc. rewrite (AppendObserver_elem _ _ _ _ _ _ H1 ltac:(by apply Forall_cons) Hc).
    setoid_rewrite elem_of_app. setoid_rewrite list_elem_of_singleton. split.
    + intros [(l1 & Hl1 & Hin)|[-> Hin]]; [|exists l0; split; [by right|done]].
      apply (H3 _ _ _ Ha Hl1) in Hin as (addrs & ? & ?). exists addrs. split; [by left|done].
    + intros (addrs & [Hin|[= -> ->]] & Ha'); [left|by right].
      destruct (proj2 (H2 c)) as [l1 Hl1]; [by exists addrs|]. exists l1. split; [done|]. apply (H3 _ _ _ Ha Hl1). by exists addrs.
Qed.

Lemma List_observers_NoDup om : om_wf om -> NoDup (List_observers om).
Proof.
  intros Hom. unfold List_observers. rewrite (stable_sort_perm _ _).
  assert (Hwf : forall s n, tracker om !! s = Some n -> exists a, acc_wf a /\ acc_string a = s).
  { intros s n [-> Hn]%tracker_entry. unfold occurs in Hn.
    destruct (List.filter _ _) as [|a l] eqn:E; [cbn in Hn; lia|].
    assert (Ha : List.In a (a :: l)) by (by left). rewrite <- E in Ha. apply filter_In in Ha as [Ha Hs].
    apply String.eqb_eq in Hs. exists a. split; [|done]. apply in_concat in Ha as (l' & Hl' & Ha).
    apply list_elem_of_In, list_elem_of_fmap in Hl' as ([c l''] & -> & Hc). apply elem_of_map_to_list, Hom in Hc as [Hc _].
    rewrite Forall_forall in Hc. by apply Hc, list_elem_of_In. }
  pose proof (NoDup_fst_map_to_list (tracker om)) as Hnd.
  assert (Hall : Forall (fun e => tracker om !! fst e = Some (snd e)) (map_to_list (tracker om)))
    by (apply Forall_forall; intros [s n]; by intros ?%elem_of_map_to_list).
  induction (map_to_list (tracker om)) as [|[s n] l IHl]; cbn; [constructor|].
  apply NoDup_cons in Hnd as [Hs Hnd]. apply Forall_cons in Hall as [He Hall]. cbn in He, Hs.
  destruct (_ <=? n)%nat; [|by apply IHl]. constructor; [|by apply IHl].
  intros ([s' n'] & Hin & Hx)%list_elem_of_omap. destruct (_ <=? _)%nat; [|done]. injection Hx as Hx. cbn in Hx.
  rewrite Forall_forall in Hall. pose proof (Hall _ Hin) as He'. cbn in He'.
  destruct (Hwf _ _ He) as (a & Ha & <-), (Hwf _ _ He') as (b & Hb & <-). rewrite !acc_roundtrip in Hx by done.
  cbn in Hx. subst b. apply Hs. apply list_elem_of_fmap. by exists (acc_string a, n').
Qed.

(** The observers of a block are the nodes that observed a transaction on every chain
    of which a transaction was observed in that block, each once and in the order of their
    addresses: neither the order nor the repetition of the observations matters. *)
Theorem List_observers_spec obs :
  Forall (fun o => Forall acc_wf (snd o)) obs ->
  let observers := List_observers (observe_all obs) in
  (forall a, acc_wf a -> a ∈ observers <->
     obs <> [] /\ forall chain addrs, (chain, addrs) ∈ obs -> exists addrs', (chain, addrs') ∈ obs /\ a ∈ addrs') /\
  NoDup observers /\ Sorted (fun a b => str_ltb (acc_string b) (acc_string a) = false) observers.
Proof.
  intros Hobs observers. destruct (observe_all_spec obs Hobs) as (H1 & H2 & H3). split; [|split].
  - intros a Ha. unfold observers. rewrite List_observers_elem by done. split.
    + intros [Hne H]. split.
      * intros ->. apply Hne. done.
      * intros c l Hin. destruct (proj2 (H2 c)) as [l' Hl']; [by exists l|]. apply (H3 _ _ _ Ha Hl'). by eapply H.
    + intros [Hne H]. split.
      * destruct obs as [|[c l] obs]; [done|]. destruct (proj2 (H2 c)) as [l' Hl']; [exists l; by left|].
        intros E. by rewrite E, lookup_empty in Hl'.
      * intros c l Hl. destruct (proj1 (H2 c)) as [addrs Hin]; [by exists l|]. apply (H3 _ _ _ Ha Hl). by eapply H.
  - by apply List_observers_NoDup.
  - apply stable_sort_sorted. intros x y. apply str_ltb_asym.
Qed.
End observer_facts.

(** ** A block *)

Section observer_witness.
Import Reference.

(** "bob" has seen bitcoin only. *)
Lemma List_observers_spec_witness :
  List_observers (observe_all [("BTC", ["carol"; "alice"]); ("ETH", ["alice"]); ("BTC", ["bob"]); ("ETH", ["carol"; "alice"])])
    = ["alice"; "carol"] /\
  NoDup (List_observers (observe_all [("BTC", ["carol"; "alice"]); ("ETH", ["alice"]); ("BTC", ["bob"]); ("ETH", ["carol"; "alice"])])).
Proof.
  split; [by vm_compute|]. apply List_observers_spec. unfold acc_wf. apply (bool_decide_unpack _). by vm_compute.
Defined.
End observer_witness.
