(* ===== verification/ObservedMsgs.v ===== *)
(** What an observed transaction asks for: [processOneTxIn] of [x/mayachain/handler.go]
    reads its memo and makes a message of it, and the internal handler passes the message
    to the handler of its kind. *)
From stdpp Require Import pretty.
From S2P Require Import Prelude GoText Sdk Constants Floats Shares Chains Keys Addresses Assets Coins Txs.
From S2P Require Import NodeAccounts Votes TxOuts Vaults ObservedTxs Pools Mimirs StreamingSwaps SwapMsgs.
From S2P Require Import LiquidityProviders Records MayaNames Stores Keeper FuzzyAssets Nodes Bonds VaultStore Halts Gas.
From S2P Require Import TradeAccounts Aggregators Swapper Swaps Affiliates Decimals Memos ManageMayaNames Collectors SwapChecks.
From S2P Require Import Liquidity AddLiquidity LiquidityBooks Withdraw WithdrawBooks Slashing Bonding BondBooks CacaoPools.
From S2P Require Import LiquidityLedger Outbounds OutboundBooks SwapHandler SwapQueue SwapBlocks SwapMarket.
From S2P Require Import OutboundHandlers InternalTxs NodeHandlers Contributions Leaving.

(** The addresses of the tokens that aggregators may pay out in, from the data of
    [common/tokenlist]. *)
Class TokenLists `{Semver} := {
  evm_tokens : Chain -> Version -> list string;
  radix_tokens : Version -> list string;
}.

Definition LegacyMaxAffiliateFeeBasisPoints : Z := 1000.

(** ** Messages *)

Inductive Msg :=
| M_Swap (m : MsgSwap)
| M_AddLiquidity (m : MsgAddLiquidity)
| M_WithdrawLiquidity (m : MsgWithdrawLiquidity)
| M_Donate (m : MsgDonate)
| M_Refund (m : MsgRefundTx)
| M_Outbound (m : MsgOutboundTx)
| M_Migrate (m : MsgMigrate)
| M_Bond (m : MsgBond)
| M_UnBond (m : MsgUnBond)
| M_Ragnarok (m : MsgRagnarok)
| M_Leave (m : MsgLeave)
| M_Yggdrasil (m : MsgYggdrasil)
| M_Reserve (m : MsgReserveContributor)
| M_NoOp (m : MsgNoOp)
| M_Consolidate (m : MsgConsolidate)
| M_ManageMAYAName (m : MsgManageMAYAName)
| M_CacaoPoolDeposit (m : MsgCacaoPoolDeposit)
| M_CacaoPoolWithdraw (m : MsgCacaoPoolWithdraw)
| M_TradeAccountDeposit (m : MsgTradeAccountDeposit)
| M_TradeAccountWithdrawal (m : MsgTradeAccountWithdrawal).

(** ** Assets on other exchanges *)

(** The only item that ends with the text, or nothing. *)
Definition findUniqueItemBySuffixIgnoreCase (items : list string) (suffix : string) : string :=
  match List.filter (fun item => HasSuffix (ToLower item) (ToLower suffix)) items with
  | [item] => item
  | _ => EmptyString
  end.

Definition externalAssetMatchV111 `{TokenLists} (version : Version) (chain : Chain) (hint : string) : string :=
  if String.eqb hint EmptyString then hint
  else
    let tokenAddresses :=
      if IsEVM chain then evm_tokens chain version
      else if String.eqb chain XRDChain then radix_tokens version else [] in
    let token := findUniqueItemBySuffixIgnoreCase tokenAddresses hint in
    if String.eqb token EmptyString then hint else token.

Section observed_messages.
Context `{V : Semver} `{B : CosmosBank} `{A : SdkAddress} `{R : MapRange} `{L : AddressLib}.
Context `{U : SdkUint} `{D : SdkDec} `{SH : Sha256} `{T : UintText} `{C : PubKeyCodec} `{K : PubKeyAddress}.
Context `{SS : SliceSort} {TO : TxOutStore} {BV : BuildVersion} {AK : AccountKeeper} {TL : TokenLists}.
Implicit Types (k : KVStore) (gm : GasMgr) (tx : ObservedTx) (signer : AccAddress).

(** ** A message for every memo *)

Definition getMsgSwapFromMemo (m : SwapMemo) tx signer : MsgSwap :=
  let destination := if Address_IsEmpty (Swap_Destination m) then FromAddress (Obs_Tx tx) else Swap_Destination m in
  NewMsgSwap (Obs_Tx tx) (Swap_Asset m) destination (Swap_SlipLimit m) (Swap_AffiliateAddress m)
    (Swap_AffiliateBasisPoints m) (DexAggregator m) (DexTargetAddress m) (DexTargetLimit m) (Swap_OrderType m)
    (Memos.StreamQuantity m) (Memos.StreamInterval m) signer.

Definition getMsgWithdrawFromMemo (version : Version) (asset : Asset) (amt : Z) (withdrawalAsset : Asset)
    (pairAddress : Address) tx signer : MsgWithdrawLiquidity :=
  let fromAddress := FromAddress (Obs_Tx tx) in
  let fromAddress :=
    if negb (IsChain fromAddress BASEChain version) && negb (Address_Equals pairAddress NoAddress)
       && IsChain pairAddress BASEChain version
    then pairAddress else fromAddress in
  NewMsgWithdrawLiquidity (Obs_Tx tx) fromAddress (if negb (amt =? 0) then amt else MaxWithdrawBasisPoints)
    asset withdrawalAsset signer.

Definition getMsgDonateFromMemo (asset : Asset) tx signer : MsgDonate :=
  let coins := Tx_Coins (Obs_Tx tx) in
  mkMsgDonate asset (Coin_Amount (GetCoin coins asset)) (Coin_Amount (GetCoin coins BaseAsset)) (Obs_Tx tx) signer.

Definition getMsgBondFromMemo (asset : Asset) (addr additional : AccAddress) (units operatorFee : Z) tx signer
  : MsgBond :=
  NewMsgBond (Obs_Tx tx) addr (Coin_Amount (GetCoin (Tx_Coins (Obs_Tx tx)) BaseAsset)) (FromAddress (Obs_Tx tx))
    additional signer operatorFee asset units.

Definition getMsgManageMAYANameFromMemo (m : ManageMAYANameMemo) tx signer : outcome MsgManageMAYAName :=
  match Tx_Coins (Obs_Tx tx) with
  | [] => Err "transaction must have rune in it"
  | coin :: _ =>
      Ok (mkMsgManageMAYAName (NameMemo_Name m) (NameMemo_Chain m) (NameMemo_Address m) coin (NameMemo_Expire m)
            (NameMemo_PreferredAsset m) (NameMemo_AffiliateBps m) (NameMemo_SubaffiliateBps m)
            (NameMemo_SubaffiliateName m) (NameMemo_Owner m) signer)
  end.

(** Assets are completed to those of a pool first. *)
Definition msg_of_memo k (memo : Memo) tx signer (coin : Coin) : outcome Msg :=
  let t := Obs_Tx tx in
  match memo with
  | MAddLiquidity asset addr affAddr affPts tier =>
      Ok (M_AddLiquidity (getMsgAddLiquidityFromMemo (fuzzyAssetMatchV123 k asset) addr affAddr affPts t signer tier))
  | MWithdrawLiquidity asset amt withdrawalAsset pairAddress =>
      Ok (M_WithdrawLiquidity (getMsgWithdrawFromMemo (kv_version k) (fuzzyAssetMatchV123 k asset) amt
            withdrawalAsset pairAddress tx signer))
  | MSwap m =>
      let asset := fuzzyAssetMatchV123 k (Swap_Asset m) in
      let dex := externalAssetMatchV111 (kv_version k) (GetChain asset) (DexTargetAddress m) in
      Ok (M_Swap (getMsgSwapFromMemo
        (mkSwapMemo asset (Swap_Destination m) (Swap_SlipLimit m) (Swap_AffiliateAddress m)
           (Swap_AffiliateBasisPoints m) (DexAggregator m) dex (DexTargetLimit m) (Swap_OrderType m)
           (Memos.StreamInterval m) (Memos.StreamQuantity m) (Swap_RefundAddress m) (Affiliates m)
           (AffiliatesBasisPoints m)) tx signer))
  | MDonate asset => Ok (M_Donate (getMsgDonateFromMemo (fuzzyAssetMatchV123 k asset) tx signer))
  | MRefund txID => Ok (M_Refund (NewMsgRefundTx tx txID signer))
  | MOutbound txID => Ok (M_Outbound (NewMsgOutboundTx tx txID signer))
  | MMigrate h => Ok (M_Migrate (mkMsgMigrate tx h signer))
  | MBond asset addr additional units operatorFee =>
      Ok (M_Bond (getMsgBondFromMemo asset addr additional units operatorFee tx signer))
  | MUnbond asset addr additional units =>
      Ok (M_UnBond (NewMsgUnBond t addr (FromAddress t) additional signer asset units))
  | MRagnarok h => Ok (M_Ragnarok (mkMsgRagnarok tx h signer))
  | MLeave addr => Ok (M_Leave (mkMsgLeave t addr signer))
  | MYggdrasilFund h => Ok (M_Yggdrasil (mkMsgYggdrasil t (ObservedPubKey tx) h true (Tx_Coins t) signer))
  | MYggdrasilReturn h => Ok (M_Yggdrasil (mkMsgYggdrasil t (ObservedPubKey tx) h false (Tx_Coins t) signer))
  | MReserve =>
      let res := NewReserveContributor (FromAddress t) (Coin_Amount (GetCoin (Tx_Coins t) BaseAsset)) in
      Ok (M_Reserve (mkMsgReserveContributor t res signer))
  | MNoOp action => Ok (M_NoOp (mkMsgNoOp tx signer action))
  | MConsolidate => Ok (M_Consolidate (mkMsgConsolidate tx signer))
  | MMAYAName m => m ← getMsgManageMAYANameFromMemo m tx signer; Ok (M_ManageMAYAName m)
  | MCacaoPoolDeposit => Ok (M_CacaoPoolDeposit (NewMsgCacaoPoolDeposit signer t))
  | MCacaoPoolWithdraw basisPts affiliateBps _ _ =>
      Ok (M_CacaoPoolWithdraw (NewMsgCacaoPoolWithdraw signer t basisPts affiliateBps))
  | MTradeAccountDeposit addr =>
      Ok (M_TradeAccountDeposit (mkMsgTradeAccountDeposit t (Coin_Asset coin) (Coin_Amount coin) addr signer))
  | MTradeAccountWithdrawal addr =>
      Ok (M_TradeAccountWithdrawal (mkMsgTradeAccountWithdrawal t (Coin_Asset coin) (Coin_Amount coin) addr signer))
  | EmptyMemo => Err "invalid memo"
  end.

(** An affiliate gets at most a tenth. *)
Definition MsgAddLiquidity_ValidateBasicV108 (m : MsgAddLiquidity) : outcome unit :=
  _ ← MsgAddLiquidity_ValidateBasicV112 m;
  if LegacyMaxAffiliateFeeBasisPoints <? Add_AffiliateBasisPoints m
  then Err "affiliate fee basis points can't be more than %d" else Ok tt.

Definition msg_valid k (m : Msg) : outcome unit :=
  match m with
  | M_AddLiquidity m => MsgAddLiquidity_ValidateBasicV108 m
  | M_Swap m => MsgSwap_ValidateBasicV112 m (kv_version k)
  | M_ManageMAYAName m => ValidateBasicV112 m (kv_version k)
  | M_TradeAccountWithdrawal m => trade_withdrawal_ValidateBasicVersioned m (kv_version k)
  | M_WithdrawLiquidity m => MsgWithdrawLiquidity_ValidateBasic m
  | M_Donate m => donate_ValidateBasic m
  | M_Refund m => MsgRefundTx_ValidateBasic m
  | M_Outbound m => MsgOutboundTx_ValidateBasic m
  | M_Migrate m => MsgMigrate_ValidateBasic m
  | M_Bond m => MsgBond_ValidateBasic m
  | M_UnBond m => MsgUnBond_ValidateBasic m
  | M_Ragnarok m => MsgRagnarok_ValidateBasic m
  | M_Leave m => leave_ValidateBasic m
  | M_Yggdrasil m => MsgYggdrasil_ValidateBasic m
  | M_Reserve m => reserve_ValidateBasic m
  | M_NoOp m => MsgNoOp_ValidateBasic m
  | M_Consolidate m => MsgConsolidate_ValidateBasic m
  | M_CacaoPoolDeposit m => MsgCacaoPoolDeposit_ValidateBasic m
  | M_CacaoPoolWithdraw m => MsgCacaoPoolWithdraw_ValidateBasic m
  | M_TradeAccountDeposit m => trade_deposit_ValidateBasic m
  end.

Definition processOneTxInV123 k tx signer : outcome Msg :=
  match Tx_Coins (Obs_Tx tx) with
  | [coin] =>
      match ParseMemoWithMAYANames k (Tx_Memo (Obs_Tx tx)) with
      | (memo, []) => m ← msg_of_memo k memo tx signer coin; _ ← msg_valid k m; Ok m
      | (_, e :: _) => Err e
      end
  | _ => Err "only send 1 coins per message"
  end.

(** From 1.123.0 on. *)
Definition processOneTxIn k tx signer : outcome Msg := processOneTxInV123 k tx signer.

(** ** The handler of a message *)

(** Too deep a hierarchy of names, for the fuel given, counts as a panic. *)
Definition within_fuel {X} (r : outcome (option X)) : outcome X :=
  match r with Ok (Some x) => Ok x | Ok None => Panic | Err e => Err e | Panic => Panic end.

(** The handler works on a copy of the store, which an error discards. The gas manager is
    not copied; what a handler that fails has added to it is left out here. *)
Definition internal_handler (fuel : nat) (hash : string) gm k (m : Msg) : outcome (GasMgr * KVStore) :=
  match m with
  | M_Outbound m => outbound_Run gm k m
  | M_Refund m => refund_Run gm k m
  | M_Swap m => k ← swap_Run gm k m; Ok (gm, k)
  | M_AddLiquidity m => k ← add_Run k m; Ok (gm, k)
  | M_WithdrawLiquidity m => k ← Withdraw.withdraw_Run k m; Ok (gm, k)
  | M_Donate m => k ← donate_Run k m; Ok (gm, k)
  | M_Migrate m => k ← migrate_Run k m; Ok (gm, k)
  | M_Bond m => k ← bond_Run k m; Ok (gm, k)
  | M_UnBond m => k ← unbond_Run k m; Ok (gm, k)
  | M_Ragnarok m => k ← ragnarok_Run k m; Ok (gm, k)
  | M_Leave m => k ← leave_Run k m; Ok (gm, k)
  | M_Yggdrasil m => k ← yggdrasil_Run k m; Ok (gm, k)
  | M_Reserve m => k ← reserve_Run k m; Ok (gm, k)
  | M_NoOp m => k ← noop_Run k m; Ok (gm, k)
  | M_Consolidate m => k ← consolidate_Run k m; Ok (gm, k)
  | M_ManageMAYAName m => k ← within_fuel (manage_Run fuel gm k m); Ok (gm, k)
  | M_CacaoPoolDeposit m => k ← deposit_Run k m; Ok (gm, k)
  | M_CacaoPoolWithdraw m => k ← within_fuel (CacaoPools.withdraw_Run fuel gm k m); Ok (gm, k)
  | M_TradeAccountDeposit m => k ← trade_deposit_Run k m; Ok (gm, k)
  | M_TradeAccountWithdrawal m => k ← trade_withdrawal_Run k hash m; Ok (gm, k)
  end.
End observed_messages.
