(* ===== verification/ObservedIn.v ===== *)
(** [x/mayachain/handler_observed_txin.go]: the nodes report the transactions sent to the
    vaults, and the network acts on one once enough of them agree on it. *)
From stdpp Require Import pretty.
From S2P Require Import Prelude GoText Sdk Constants Floats Shares Chains Keys Addresses Assets Coins Txs.
From S2P Require Import NodeAccounts Votes TxOuts Vaults ObservedTxs Pools Mimirs StreamingSwaps SwapMsgs.
From S2P Require Import LiquidityProviders Records MayaNames Stores Keeper FuzzyAssets Nodes Bonds VaultStore Halts Gas.
From S2P Require Import TradeAccounts Aggregators Swapper Swaps Affiliates Decimals Memos ManageMayaNames Collectors SwapChecks.
From S2P Require Import Liquidity AddLiquidity LiquidityBooks Withdraw WithdrawBooks Slashing Bonding BondBooks CacaoPools.
From S2P Require Import LiquidityLedger Outbounds OutboundBooks SwapHandler SwapQueue SwapBlocks SwapMarket.
From S2P Require Import OutboundHandlers InternalTxs NodeHandlers Contributions Leaving Observers ObservedMsgs.

Record MsgObservedTx := mkMsgObservedTx {
  Observed_Txs : list ObservedTx;
  Observed_Signer : AccAddress;
}.

Definition voter_agreed (m : ObservedTxVoter) (height finalised : Z) : ObservedTxVoter :=
  mkObservedTxVoter (Voter_TxID m) (Voter_Tx m) height (Voter_Txs m) (Actions m) (ObservedTxs.OutTxs m) finalised
    (UpdatedVault m) (Reverted m) (OutboundHeight m).

Definition voter_updated (m : ObservedTxVoter) : ObservedTxVoter :=
  mkObservedTxVoter (Voter_TxID m) (Voter_Tx m) (Voter_Height m) (Voter_Txs m) (Actions m) (ObservedTxs.OutTxs m)
    (FinalisedHeight m) true (Reverted m) (OutboundHeight m).

Definition tx_with_memo (t : Tx) (memo : string) : Tx :=
  mkTx (Tx_ID t) (Tx_Chain t) (FromAddress t) (ToAddress t) (Tx_Coins t) (Tx_Gas t) memo.

Definition obs_with_memo (o : ObservedTx) (memo : string) : ObservedTx :=
  mkObservedTx (tx_with_memo (Obs_Tx o) memo) (Obs_Status o) (OutHashes o) (BlockHeight o) (Obs_Signers o)
    (ObservedPubKey o) (KeysignMs o) (FinaliseHeight o) (ObservedTxs.Aggregator o) (AggregatorTarget o)
    (ObservedTxs.AggregatorTargetLimit o).

Definition vault_with_inbound (m : Vault) (n : Z) : Vault :=
  mkVault (Vaults.BlockHeight m) (Vault_PubKey m) (Vault_Coins m) (Vault_Type m) (Vault_Status m)
    (Vault_StatusSince m) (Membership m) (Vault_Chains m) n (OutboundTxCount m) (PendingTxBlockHeights m)
    (Routers m) (Frozen m) (PubKeyEddsa m).

(** A computation whose error is logged: what it did before stays. *)
Definition ignored {S : Type} (r : outcome (S * option string)) : outcome S :=
  match r with Ok (s, _) => Ok s | Err e => Err e | Panic => Panic end.

Section observed_in.
Context `{V : Semver} `{B : CosmosBank} `{A : SdkAddress} `{R : MapRange} `{L : AddressLib}.
Context `{U : SdkUint} `{D : SdkDec} `{SH : Sha256} `{T : UintText} `{C : PubKeyCodec} `{K : PubKeyAddress}.
Context `{SS : SliceSort} {TO : TxOutStore} {BV : BuildVersion} {AK : AccountKeeper} {TL : TokenLists}.
Implicit Types (k : KVStore) (gm : GasMgr) (om : ObserverMgr) (tx : ObservedTx) (signer : AccAddress).
Implicit Types (nas : list NodeAccount) (voter : ObservedTxVoter) (msg : MsgObservedTx).

(** ** Validation *)

(** [own] is the address of the transaction that must be the vault's. *)
Definition observed_tx_valid (own : Tx -> Address) (notOwn : string) tx : outcome unit :=
  _ ← ObservedTx_Valid tx;
  match Tx_Coins (Obs_Tx tx) with
  | [] => Panic
  | coin :: _ =>
      obAddr ← pubkey_address (ObservedPubKey tx) (GetChain (Coin_Asset coin));
      if negb (Address_Equals (own (Obs_Tx tx)) obAddr) then Err notOwn
      else if (0 <? length (Obs_Signers tx))%nat then Err "signers must be empty"
      else if (0 <? length (OutHashes tx))%nat then Err "out hashes must be empty"
      else if negb (bool_decide (Obs_Status tx = Status_incomplete)) then Err "status must be incomplete"
      else Ok tt
  end.

Definition observed_ValidateBasic (own : Tx -> Address) (notOwn : string) msg : outcome unit :=
  if acc_empty (Observed_Signer msg) then Err "invalid address"
  else
    match Observed_Txs msg with
    | [] => Err "Txs cannot be empty"
    | txs => forM_check (observed_tx_valid own notOwn) txs
    end.

Definition in_ValidateBasic msg : outcome unit :=
  observed_ValidateBasic ToAddress "request is not an inbound observed transaction" msg.

Definition in_validateV1 k msg : outcome unit :=
  _ ← in_ValidateBasic msg;
  if negb (isSignedByActiveNodeAccounts k [Observed_Signer msg]) then Err "%+v are not authorized" else Ok tt.

(** ** Agreement on one transaction *)

Definition observe_points k : Z := kv_constants k "ObserveSlashPoints".
Definition observe_flex k : Z := kv_constants k "ObservationDelayFlexibility".

(** The observation costs points, and the height it was made at is noted. *)
Definition note_observation k tx signer : KVStore :=
  SetLastObserveHeight (IncSlashPoints k (observe_points k) [signer]) (Tx_Chain (Obs_Tx tx)) signer
    (BlockHeight tx).

(** Whether an observation of what was agreed on at [since] is only a bit late. *)
Definition bit_late k voter tx (since : Z) : bool :=
  (kv_height k <=? i64 (since + observe_flex k)) && ObservedTx_Equals (Voter_Tx voter) tx.

(** The transaction has become final. The points of those who observed it are given back,
    then and a bit later. *)
Definition finalise k voter nas tx signer : KVStore * ObservedTxVoter * bool :=
  let '(voter, finalised) := HasFinalised voter nas in
  if negb finalised then (k, voter, false)
  else if FinalisedHeight voter =? 0 then
    let voter := fst (GetTx (voter_agreed voter (kv_height k) (kv_height k)) nas) in
    (DecSlashPoints k (observe_points k) (GetSigners (Voter_Tx voter)), voter, true)
  else if bit_late k voter tx (FinalisedHeight voter)
  then (DecSlashPoints k (observe_points k) [signer], voter, false)
  else (k, voter, false).

(** The nodes agree on it, but it is not final yet. *)
Definition discover k voter nas tx signer : KVStore * ObservedTxVoter * bool :=
  let '(voter, consensus) := ObservedTxVoter_HasConsensus voter nas in
  if negb (consensus && negb (IsFinal tx) && (FinalisedHeight voter =? 0)) then (k, voter, false)
  else if Voter_Height voter =? 0 then
    let voter := fst (GetTx (voter_agreed voter (kv_height k) (FinalisedHeight voter)) nas) in
    (DecSlashPoints k (observe_points k) (GetSigners (Voter_Tx voter)), voter, true)
  else if bit_late k voter tx (Voter_Height voter)
  then (DecSlashPoints k (observe_points k) [signer], voter, false)
  else (k, voter, false).

Definition in_preflightV110 k voter nas tx signer : KVStore * ObservedTxVoter * bool :=
  let k := note_observation k tx signer in
  let '(voter, added) := ObservedTxVoter_Add voter tx signer in
  if negb added then (k, voter, false)
  else
    let '(k, voter, ok) := finalise k voter nas tx signer in
    let '(k, voter, ok) := if ok : bool then (k, voter, true) else discover k voter nas tx signer in
    (SetObservedTxInVoter k voter, voter, ok).

(** ** The funds of the vault *)

Definition isFromAsgard k tx : outcome bool :=
  asgardVaults ← GetAsgardVaults k;
  Vaults_HasAddress asgardVaults (Tx_Chain (Obs_Tx tx)) (FromAddress (Obs_Tx tx)).

Definition credit_asgard (vault : Vault) voter tx : outcome (Vault * ObservedTxVoter) :=
  if IsAsgard vault && negb (UpdatedVault voter) then
    vault ← (if negb (Address_Equals (FromAddress (Obs_Tx tx)) (ToAddress (Obs_Tx tx))) then
               vault ← AddFunds vault (Tx_Coins (Obs_Tx tx));
               Ok (vault_with_inbound vault (i64 (InboundTxCount vault + 1)))
             else Ok vault);
    Ok (vault, voter_updated voter)
  else Ok (vault, voter).

(** A yggdrasil vault is funded by an asgard vault only. An error counts as no. *)
Definition credit_yggdrasil k (vault : Vault) voter tx (memo : Memo) : outcome (Vault * ObservedTxVoter) :=
  if IsYggdrasil vault && memo_is memo TxYggdrasilFund then
    fromAsgard ← (match isFromAsgard k tx with Err _ => Ok false | r => r end);
    '(vault, voter) ← (if negb (UpdatedVault voter) && fromAsgard
                       then vault ← AddFunds vault (Tx_Coins (Obs_Tx tx)); Ok (vault, voter_updated voter)
                       else Ok (vault, voter));
    Ok (RemovePendingTxBlockHeights vault (GetBlockHeight memo), voter)
  else Ok (vault, voter).

Definition credit_vault k (vault : Vault) voter tx (memo : Memo) (finalised : bool)
  : outcome (Vault * ObservedTxVoter) :=
  if finalised || memo_is memo TxMigrate then
    '(vault, voter) ← credit_asgard vault voter tx;
    credit_yggdrasil k vault voter tx memo
  else Ok (vault, voter).

(** ** What the transaction asks for *)

Definition addSwapDirectV118 k (msg : MsgSwap) : KVStore :=
  if Coins_IsEmpty (Tx_Coins (Msg_Tx msg)) then k else SetSwapQueueItem k msg 0.

Definition refund_in gm k tx : outcome (GasMgr * KVStore) :=
  k ← ignored (refundTxV124 k tx EmptyString); Ok (gm, k).

Definition halts_msg (m : Msg) : option halt_msg :=
  match m with
  | M_Swap m => Some (Halt_MsgSwap m)
  | M_AddLiquidity m => Some (Halt_MsgAddLiquidity (Add_Asset m))
  | _ => None
  end.

Definition trading_stopped k (m : Msg) : bool :=
  match halts_msg m with
  | Some h => isTradingHalt k h || RagnarokInProgress k
  | None => false
  end.

(** A transaction that expects no answer is done. *)
Definition mark_done k (memo : Memo) (hash : TxID) : KVStore :=
  if negb (HasOutbound (GetType memo))
  then SetObservedTxInVoter k (ObservedTxVoter_SetDone (GetObservedTxInVoter k hash)) else k.

(** What cannot be handled is sent back. *)
Definition act_on (fuel : nat) (hash : string) gm k voter (memo : Memo) tx signer : outcome (GasMgr * KVStore) :=
  match processOneTxIn k (Voter_Tx voter) signer with
  | Panic => Panic
  | Err _ => refund_in gm k tx
  | Ok m =>
      if trading_stopped k m then refund_in gm k tx
      else
        match m with
        | M_Swap swapMsg => Ok (gm, addSwapDirectV118 k swapMsg)
        | _ =>
            match internal_handler fuel hash gm k m with
            | Panic => Panic
            | Err _ => refund_in gm k tx
            | Ok (gm, k) => Ok (gm, mark_done k memo (Tx_ID (Obs_Tx tx)))
            end
        end
  end.

(** ** The handler *)

(** The chain heights do not go back; an error is logged. *)
Definition note_chain_height k tx : KVStore :=
  match SetLastChainHeight k (Tx_Chain (Obs_Tx tx)) (BlockHeight tx) with Ok k => k | _ => k end.

(** After the vault: the observers are noted, and what is final is acted on. *)
Definition in_settled (fuel : nat) (hash : string) om gm k (vault : Vault) voter (memo : Memo) (finalised : bool)
    tx signer : outcome (ObserverMgr * GasMgr * KVStore) :=
  if negb (IsAsgard vault) then Ok (om, gm, k)
  else if TxType_IsOutbound (GetType memo) || TxType_IsInternal (GetType memo) then Ok (om, gm, k)
  else
    let om := AppendObserver om (Tx_Chain (Obs_Tx tx)) (GetSigners (Voter_Tx voter)) in
    if negb finalised then Ok (om, gm, k)
    else
      '(gm, k) ← (if Vault_Status vault =? VaultStatus_InactiveVault then refund_in gm k tx
                  else act_on fuel hash gm k voter memo tx signer);
      Ok (om, gm, k).

(** The transaction is agreed on. *)
Definition in_agreed (fuel : nat) (hash : string) om gm k voter nas tx signer
  : outcome (ObserverMgr * GasMgr * KVStore) :=
  if Reverted voter then Ok (om, gm, k)
  else
    match GetVault k (ObservedPubKey tx) with
    | Panic => Panic
    | Err _ => Ok (om, gm, k)
    | Ok vault =>
        let voter := set_Voter_Tx voter (obs_with_memo (Voter_Tx voter) (Tx_Memo (Obs_Tx tx))) in
        let '(voter, finalised) := HasFinalised voter nas in
        let memo := fst (ParseMemoWithMAYANames k (Tx_Memo (Obs_Tx tx))) in
        '(vault, voter) ← credit_vault k vault voter tx memo finalised;
        let k := SetObservedTxInVoter (note_chain_height k tx) voter in
        match SetVault k vault with
        | Panic => Panic
        | Err _ => Ok (om, gm, k)
        | Ok k => in_settled fuel hash om gm k vault voter memo finalised tx signer
        end
    end.

Definition in_tx (fuel : nat) (hash : string) nas signer (s : ObserverMgr * GasMgr * KVStore) tx
  : outcome (ObserverMgr * GasMgr * KVStore) :=
  let '(om, gm, k) := s in
  if negb (VaultExists k (ObservedPubKey tx)) then Ok (om, gm, k)
  else
    let '(k, voter, ok) := in_preflightV110 k (GetObservedTxInVoter k (Tx_ID (Obs_Tx tx))) nas tx signer in
    if negb ok then
      Ok (if (Voter_Height voter =? kv_height k) || (FinalisedHeight voter =? kv_height k)
          then AppendObserver om (Tx_Chain (Obs_Tx tx)) [signer] else om, gm, k)
    else in_agreed fuel hash om gm k voter nas tx signer.

Definition in_handleV112 (fuel : nat) (hash : string) om gm k msg : outcome (ObserverMgr * GasMgr * KVStore) :=
  foldM (in_tx fuel hash (ListActiveValidators k) (Observed_Signer msg)) (om, gm, k) (Observed_Txs msg).

(** From 1.112.0 on, with the agreement as it is from 1.110.0 on. *)
Definition in_Run (fuel : nat) (hash : string) om gm k msg : outcome (ObserverMgr * GasMgr * KVStore) :=
  _ ← in_validateV1 k msg; in_handleV112 fuel hash om gm k msg.
End observed_in.

(** ** A transaction that is final *)

(** The two voters differ in the observations they hold. *)
Definition same_but_observations (v v' : ObservedTxVoter) : Prop := v' = set_Voter_Txs v (Voter_Txs v').

Definition voter_final (v : ObservedTxVoter) : Prop :=
  FinalisedHeight v <> 0 /\ ObservedTx_IsEmpty (Voter_Tx v) = false /\ IsFinal (Voter_Tx v) = true.

#[export] Instance same_but_observations_preorder : PreOrder same_but_observations.
Proof.
  split; [by intros []|]. intros v1 v2 v3 H1 H2. unfold same_but_observations in *.
  by rewrite H2, H1.
Qed.

Lemma same_voter_final v v' : same_but_observations v v' -> voter_final v -> voter_final v'.
Proof. unfold same_but_observations. intros ->. by destruct v. Qed.

Section observed_in_facts.
Context `{V : Semver} `{B : CosmosBank} `{A : SdkAddress} {AL : SdkAddressLaws A} `{R : MapRange} `{L : AddressLib}.
Context `{U : SdkUint} `{D : SdkDec} `{SH : Sha256} `{T : UintText} `{C : PubKeyCodec} `{K : PubKeyAddress}.
Context `{SS : SliceSort} {SSL : SliceSortLaws SS} {TO : TxOutStore} {BV : BuildVersion} {AK : AccountKeeper} {TL : TokenLists}.
Implicit Types (k : KVStore) (gm : GasMgr) (om : ObserverMgr) (tx : ObservedTx) (signer : AccAddress).
Implicit Types (nas : list NodeAccount) (voter : ObservedTxVoter).

(** The slash points and the heights seen may differ. *)
Definition noted k k' : Prop := exists points heights,
  k' = set_bl_observe_heights (set_kv_slash_points k points) heights.

#[export] Instance noted_preorder : PreOrder noted.
Proof.
  split.
  - intros k. exists (kv_slash_points k), (bl_observe_heights (kv_ballots k)).
    destruct k as [? ? ? ? ? ? ? ? ? ? ? ? ? ? ? ? ? ? ? ? ? ? ? ? ? ? ? ? ? ? ? ? ? b]. by destruct b.
  - intros k1 k2 k3 (p1 & h1 & ->) (p2 & h2 & ->). by exists p2, h2.
Qed.

Lemma points_noted k points : noted k (set_kv_slash_points k points).
Proof.
  exists points, (bl_observe_heights (kv_ballots k)).
  destruct k as [? ? ? ? ? ? ? ? ? ? ? ? ? ? ? ? ? ? ? ? ? ? ? ? ? ? ? ? ? ? ? ? ? b]. by destruct b.
Qed.

Lemma SetPoints_noted k a p : noted k (SetNodeAccountSlashPoints k a p).
Proof. apply points_noted. Qed.

Lemma IncSlashPoints_noted k p addrs : noted k (IncSlashPoints k p addrs).
Proof.
  unfold IncSlashPoints. revert k. induction addrs as [|a addrs IHs]; intros k; cbn; [done|].
  etrans; [|apply IHs]. apply SetPoints_noted.
Qed.

Lemma DecSlashPoints_noted k p addrs : noted k (DecSlashPoints k p addrs).
Proof.
  unfold DecSlashPoints. revert k. induction addrs as [|a addrs IHs]; intros k; cbn; [done|].
  etrans; [|apply IHs]. apply SetPoints_noted.
Qed.

Lemma SetLastObserveHeight_noted k chain a h : noted k (SetLastObserveHeight k chain a h).
Proof.
  unfold SetLastObserveHeight. cbv zeta.
  assert (H : forall m, noted k (set_bl_observe_heights k m)).
  { intros m. exists (kv_slash_points k), m. by destruct k. }
  destruct (bl_observe_heights _ !! _); [destruct (_ <? _); [done|]|]; apply H.
Qed.

Lemma note_observation_noted k tx signer : noted k (note_observation k tx signer).
Proof. unfold note_observation. etrans; [apply IncSlashPoints_noted|apply SetLastObserveHeight_noted]. Qed.

Lemma noted_voters k k' : noted k k' -> kv_voters k' = kv_voters k /\ kv_height k' = kv_height k.
Proof. by intros (p & h & ->). Qed.

Lemma Add_same voter tx signer : same_but_observations voter (fst (ObservedTxVoter_Add voter tx signer)).
Proof.
  unfold ObservedTxVoter_Add. destruct (add_scan _ _ _ _ _) as [[i|]|]; cbn; [|by destruct voter|by destruct voter].
  destruct (Voter_Txs voter !! i) as [t|]; cbn; [|by destruct voter]. destruct (Sign t signer) as [t' ok]. by destruct voter.
Qed.

Lemma GetTx_final voter nas : voter_final voter -> GetTx voter nas = (voter, Voter_Tx voter).
Proof. intros (_ & H1 & H2). unfold GetTx. by rewrite H1, H2. Qed.

(** What is final is not agreed on again. *)
Lemma in_preflight_final k voter nas tx signer : voter_final voter ->
  exists k1 voter', noted k k1 /\ same_but_observations voter voter' /\
    (in_preflightV110 k voter nas tx signer = (k1, voter', false) \/
     in_preflightV110 k voter nas tx signer = (SetObservedTxInVoter k1 voter', voter', false)).
Proof.
  intros Hv. unfold in_preflightV110. cbv zeta. pose proof (note_observation_noted k tx signer) as Hn.
  set (k0 := note_observation k tx signer) in *. pose proof (Add_same voter tx signer) as Ha.
  destruct (ObservedTxVoter_Add voter tx signer) as [v added]. cbn [fst] in Ha. destruct added; cbn [negb].
  2:{ exists k0, v. split; [done|]. split; [done|]. by left. }
  pose proof (same_voter_final _ _ Ha Hv) as Hv'. destruct Hv' as (F1 & F2 & F3).
  assert (Hf : finalise k0 v nas tx signer =
    (if bit_late k0 v tx (FinalisedHeight v) then DecSlashPoints k0 (observe_points k0) [signer] else k0, v, false)).
  { unfold finalise, HasFinalised. rewrite GetTx_final by done. rewrite F2, F3. cbn [negb].
    rewrite (proj2 (Z.eqb_neq _ _) F1). by destruct (bit_late _ _ _ _). }
  rewrite Hf. set (k1 := if bit_late k0 v tx _ then _ else k0).
  assert (Hd : discover k1 v nas tx signer = (k1, v, false)).
  { unfold discover, ObservedTxVoter_HasConsensus. rewrite GetTx_final by done. rewrite F2. cbn [negb].
    rewrite (proj2 (Z.eqb_neq _ _) F1), !andb_false_r. done. }
  rewrite Hd. exists k1, v. split; [|split; [done|by right]].
  etrans; [exact Hn|]. unfold k1. destruct (bit_late _ _ _ _); [apply DecSlashPoints_noted|done].
Qed.

(** The voter of a transaction is stored under its id, and the transaction is final. *)
Definition settled k (id : TxID) : Prop :=
  let v := GetObservedTxInVoter k id in voter_final v /\ GetKey (TxID_String (Voter_TxID v)) = GetKey (TxID_String id).

(** Only the voter of the transaction, and in it only the observations, differ. *)
Definition observed_again (id : TxID) k k' : Prop := exists k1 voters,
  noted k k1 /\ k' = set_kv_voters k1 voters /\
  (forall key, key <> GetKey (TxID_String id) -> voters !! key = kv_voters k !! key) /\
  same_but_observations (GetObservedTxInVoter k id) (GetObservedTxInVoter k' id).

Lemma observed_again_trans id k1 k2 k3 :
  observed_again id k1 k2 -> observed_again id k2 k3 -> observed_again id k1 k3.
Proof.
  intros (a & va & (p1 & h1 & ->) & -> & Ka & Sa) (b & vb & (p2 & h2 & ->) & -> & Kb & Sb).
  exists (set_bl_observe_heights (set_kv_slash_points k1 p2) h2), vb. split; [by exists p2, h2|]. split; [done|].
  split; [|by etrans]. intros key Hk. rewrite Kb by done. by apply Ka.
Qed.

Lemma observed_again_settled id k k' : observed_again id k k' -> settled k id -> settled k' id.
Proof.
  intros (k1 & vs & _ & _ & _ & Hs) [H1 H2]. split; [by eapply same_voter_final|].
  unfold same_but_observations in Hs. rewrite Hs. cbn. exact H2.
Qed.

Lemma observed_again_noted id k k' : noted k k' -> observed_again id k k'.
Proof.
  intros Hn. destruct (noted_voters _ _ Hn) as [Hv _]. exists k', (kv_voters k'). split; [done|].
  split; [by destruct k'|]. split; [by rewrite Hv|]. unfold GetObservedTxInVoter. by rewrite Hv.
Qed.

Lemma in_tx_settled fuel hash nas signer om gm k tx : settled k (Tx_ID (Obs_Tx tx)) ->
  exists om' k', in_tx fuel hash nas signer (om, gm, k) tx = Ok (om', gm, k') /\
    observed_again (Tx_ID (Obs_Tx tx)) k k'.
Proof.
  intros [Hv Hid]. unfold in_tx. set (id := Tx_ID (Obs_Tx tx)) in *.
  destruct (VaultExists k (ObservedPubKey tx)); cbn [negb].
  2:{ exists om, k. split; [done|]. by apply observed_again_noted. }
  destruct (in_preflight_final k _ nas tx signer Hv) as (k1 & v & Hn & Hs & [-> | ->]); cbn [negb].
  - eexists _, _. split; [done|]. by apply observed_again_noted.
  - eexists _, _. split; [done|]. destruct (noted_voters _ _ Hn) as [Hvs _].
    assert (Hkey : GetKey (TxID_String (Voter_TxID v)) = GetKey (TxID_String id)).
    { unfold same_but_observations in Hs. by rewrite Hs. }
    exists k1, (<[GetKey (TxID_String id) := v]> (kv_voters k)). unfold SetObservedTxInVoter. rewrite Hvs, Hkey.
    split; [done|]. split; [done|]. split; [by intros key Hne; rewrite lookup_insert_ne|].
    unfold GetObservedTxInVoter at 2. cbn [kv_voters set_kv_voters]. by rewrite lookup_insert_eq.
Qed.

(** Observations of transactions that arrive one after the other. *)
Definition observe_in (fuel : nat) (hash : string) (s : ObserverMgr * GasMgr * KVStore)
    (o : list NodeAccount * AccAddress * ObservedTx) : outcome (ObserverMgr * GasMgr * KVStore) :=
  let '(nas, signer, tx) := o in in_tx fuel hash nas signer s tx.

(** C11: an inbound transaction is acted on once. After it has become final, however many
    more observations of it arrive, from whomever, of whatever content and under whatever
    set of active nodes: no vault, pool, balance, queue or scheduled payment changes, nor the
    voter of another transaction; only slash points, the heights the nodes have seen and
    the observations of its own voter do. *)
Theorem in_final_once fuel hash om gm k id os :
  settled k id -> Forall (fun o => Tx_ID (Obs_Tx o.2) = id) os ->
  exists om' k', foldM (observe_in fuel hash) (om, gm, k) os = Ok (om', gm, k') /\
    observed_again id k k' /\ settled k' id.
Proof.
  intros Hs Hos. revert om k Hs. induction Hos as [|[[nas signer] tx] os Hid _ IHs]; intros om k Hs.
  { exists om, k. split; [done|]. split; [by apply observed_again_noted|done]. }
  cbn [snd] in Hid. subst id. destruct (in_tx_settled fuel hash nas signer om gm k tx Hs) as (om1 & k1 & H1 & Ho).
  destruct (IHs om1 k1 (observed_again_settled _ _ _ Ho Hs)) as (om' & k' & H2 & Ho2 & Hs2).
  exists om', k'. cbn [foldM observe_in]. rewrite H1. cbn [mbind outcome_bind]. split; [exact H2|].
  split; [by eapply observed_again_trans|done].
Qed.

(** ** Who decides *)

Definition votes_for nas (t : ObservedTx) (txs : list ObservedTx) : Z :=
  Z.of_nat (size (consensus_voters nas (IsFinal t) t txs)).

Definition agreed_on nas voter (t : ObservedTx) : Prop :=
  t ∈ Voter_Txs voter /\ HasSuperMajority (votes_for nas t (Voter_Txs voter)) (Z.of_nat (length nas)) = true.

Definition undecided nas voter : Prop := forall t, ~ agreed_on nas voter t.

Definition same_report (x tx : ObservedTx) : Prop :=
  Obs_Tx x = Obs_Tx tx \/ fst (Tx_EqualsEx (Obs_Tx x) (Obs_Tx tx)) = true.

Lemma getConsensusTx_spec voter nas final :
  let c := getConsensusTx voter nas final in
  c = EmptyObservedTx \/ (agreed_on nas voter c /\ IsFinal c = final).
Proof.
  unfold getConsensusTx. destruct (List.find _ _) as [c|] eqn:E; [|by left]. right.
  apply find_some in E as [Hin Hc]. destruct (Bool.eqb (IsFinal c) final) eqn:Ef; [|done].
  apply eqb_prop in Ef. cbn [negb] in Hc. subst final. by split; [split; [apply list_elem_of_In|]|].
Qed.

Lemma votes_for_same nas (t t' : ObservedTx) txs : Obs_Tx t' = Obs_Tx t -> IsFinal t' = IsFinal t ->
  votes_for nas t' txs = votes_for nas t txs.
Proof. intros H1 H2. unfold votes_for, consensus_voters. by rewrite H1, H2. Qed.

(** Observations that do not support a transaction do not count for it. *)
Lemma votes_for_ext nas (c : ObservedTx) txs txs' :
  (forall x, supports (IsFinal c) c x -> x ∈ txs <-> x ∈ txs') -> votes_for nas c txs = votes_for nas c txs'.
Proof.
  intros H. unfold votes_for. do 2 f_equal. apply set_eq. intros s. rewrite !consensus_voters_spec.
  split; intros (a & x & Hx & Hs & Hr); exists a, x; (split; [by apply (H x Hs)|by split]).
Qed.

(** What [Add] changes: the observation that now holds the signature. *)
Lemma Add_changes voter tx signer voter1 : acc_wf signer -> ObservedTxVoter_Add voter tx signer = (voter1, true) ->
  exists x, x ∈ Voter_Txs voter1 /\ signer ∈ GetSigners x /\ same_report x tx /\
    ((Voter_Txs voter1 = Voter_Txs voter ++ [x] /\ Obs_Tx x = Obs_Tx tx) \/
     exists i e, Voter_Txs voter !! i = Some e /\ Voter_Txs voter1 = <[i := x]> (Voter_Txs voter) /\
       Obs_Tx x = Obs_Tx e /\ IsFinal x = IsFinal e).
Proof.
  intros Hw H. unfold ObservedTxVoter_Add in H. destruct (add_scan _ _ _ _ _) as [r|] eqn:E; [|done].
  apply add_scan_Some in E as [_ Hr]. destruct Hr as [->|(i & e & -> & Hi & He)]; cbn in H.
  - injection H as <-. exists (set_Obs_Signers tx [acc_string signer]). cbn [Voter_Txs set_Voter_Txs].
    split; [apply elem_of_app; right; by left|]. rewrite GetSigners_new by done. split; [by left|]. split; [by left|by left].
  - rewrite Hi in H. pose proof (GetSigners_Sign e signer Hw) as Hg. unfold Sign in H, Hg.
    destruct (HasSigned e signer); [done|]. injection H as <-.
    cbn [fst] in Hg. set (x := set_Signers e _) in *. exists x. cbn [Voter_Txs set_Voter_Txs]. split.
    { apply (list_elem_of_lookup_2 _ i). apply list_lookup_insert_eq. by eapply lookup_lt_Some. }
    split; [rewrite Hg; apply elem_of_app; right; by left|]. split.
    + right. unfold ObservedTx_Equals in He. rewrite <- Tx_Equals_verdict. by destruct (fst (Tx_Equals _ _)).
    + right. by exists i, e.
Qed.

(** A voter that decides with one more observation decides for that observation. *)
Lemma add_decides nas voter tx signer voter1 c :
  acc_wf signer -> fst (Tx_EqualsEx (Obs_Tx tx) (Obs_Tx tx)) = true ->
  undecided nas voter -> ObservedTxVoter_Add voter tx signer = (voter1, true) -> agreed_on nas voter1 c ->
  exists x, x ∈ Voter_Txs voter1 /\ supports (IsFinal c) c x /\ signer ∈ GetSigners x /\ same_report x tx.
Proof.
  intros Hw Hrefl Hu H [Hc Hm]. destruct (Add_changes _ _ _ _ Hw H) as (x & Hx & Hs & Hr & Hcase).
  exists x. split; [done|]. split; [|done].
  destruct (decide (IsFinal x = IsFinal c /\ fst (Tx_EqualsEx (Obs_Tx c) (Obs_Tx x)) = true)) as [Hsup|Hno]; [done|].
  exfalso. destruct Hcase as [[Htxs Hobs]|(i & e & Hi & Htxs & Hobs & Hfin)]; rewrite Htxs in *.
  - apply elem_of_app in Hc as [Hc|Hc%list_elem_of_singleton].
    + apply (Hu c). split; [done|]. rewrite <- Hm. f_equal. symmetry. apply votes_for_ext. intros y Hy.
      rewrite elem_of_app, list_elem_of_singleton. split; [intros [?| ->]; [done|by destruct Hno]|by left].
    + subst c. apply Hno. by rewrite Hobs.
  - assert (Hin : forall y, y <> x -> y ∈ <[i := x]> (Voter_Txs voter) -> y ∈ Voter_Txs voter).
    { intros y Hy (j & Hj)%list_elem_of_lookup. destruct (decide (j = i)) as [->|Hn].
      - rewrite list_lookup_insert_eq in Hj by (by eapply lookup_lt_Some). by injection Hj as <-.
      - rewrite list_lookup_insert_ne in Hj by done. by eapply list_elem_of_lookup_2. }
    assert (Hv : votes_for nas c (<[i := x]> (Voter_Txs voter)) = votes_for nas c (Voter_Txs voter)).
    { apply votes_for_ext. intros y [Hy1 Hy2]. split.
      - apply Hin. intros ->. by apply Hno.
      - intros (j & Hj)%list_elem_of_lookup. destruct (decide (j = i)) as [->|Hn].
        + rewrite Hi in Hj. injection Hj as ->. destruct Hno. split; [congruence|]. by rewrite Hobs.
        + apply (list_elem_of_lookup_2 _ j). by rewrite list_lookup_insert_ne. }
    rewrite Hv in Hm. destruct (decide (c = x)) as [->|Hcx].
    + apply (Hu e). split; [by eapply list_elem_of_lookup_2|]. by rewrite <- (votes_for_same nas e x).
    + apply (Hu c). by split; [apply Hin|].
Qed.

Lemma EqualsEx_memo t u : fst (Tx_EqualsEx t u) = true -> EqualFold (Tx_Memo t) (Tx_Memo u) = true.
Proof.
  unfold Tx_EqualsEx. repeat (destruct (negb _); [done|]). destruct (Gas_Equals _ _) as [same [g g2]].
  destruct same; cbn [negb fst]; [|done]. unfold set_Gas. cbn [Tx_Memo]. by destruct (EqualFold (Tx_Memo t) (Tx_Memo u)).
Qed.

Lemma same_coins_refl cs : same_coins cs cs.
Proof.
  exists cs. split; [done|]. induction cs as [|c cs IHc]; constructor; [|done].
  unfold Coin_Equals. by rewrite Asset_Equals_refl, Z.eqb_refl.
Qed.

Lemma same_tx_refl t : same_tx t t.
Proof.
  unfold same_tx, Chain_Equals. rewrite !EqualFold_refl. pose proof (same_coins_refl (Tx_Coins t)).
  pose proof (same_coins_refl (Tx_Gas t)). tauto.
Qed.

(** Nothing was agreed on for good yet. *)
Lemma GetTx_open voter nas : IsFinal (Voter_Tx voter) = false \/ ObservedTx_IsEmpty (Voter_Tx voter) = true ->
  GetTx voter nas =
    let finalTx := getConsensusTx voter nas true in
    let discoverTx := getConsensusTx voter nas false in
    let t := if negb (ObservedTx_IsEmpty finalTx) then finalTx
             else if negb (ObservedTx_IsEmpty discoverTx) then discoverTx else Voter_Tx voter in
    (set_Voter_Tx voter t, t).
Proof.
  intros H. unfold GetTx. replace (_ && _) with false by (destruct H as [-> | ->]; by rewrite ?andb_false_r).
  cbv zeta. destruct (ObservedTx_IsEmpty (getConsensusTx voter nas true)); cbn [negb]; [|done].
  destruct (ObservedTx_IsEmpty (getConsensusTx voter nas false)); cbn [negb]; [|done]. by destruct voter.
Qed.

Lemma getConsensusTx_ext v v' nas final : Voter_Txs v' = Voter_Txs v -> getConsensusTx v' nas final = getConsensusTx v nas final.
Proof. intros H. unfold getConsensusTx. by rewrite H. Qed.

Lemma consensus_nonempty voter nas final : ObservedTx_IsEmpty (getConsensusTx voter nas final) = false ->
  agreed_on nas voter (getConsensusTx voter nas final) /\ IsFinal (getConsensusTx voter nas final) = final.
Proof. intros H. destruct (getConsensusTx_spec voter nas final) as [E|?]; [|done]. by rewrite E in H. Qed.

Lemma agreed_on_ext nas v v' t : Voter_Txs v' = Voter_Txs v -> agreed_on nas v t -> agreed_on nas v' t.
Proof. intros H [H1 H2]. unfold agreed_on. by rewrite H. Qed.

Lemma GetTx_agreed voter nas : ObservedTx_IsEmpty (Voter_Tx voter) = false -> IsFinal (Voter_Tx voter) = true ->
  GetTx voter nas = (voter, Voter_Tx voter).
Proof. intros H1 H2. unfold GetTx. by rewrite H1, H2. Qed.

(** The transaction that the voter would agree on now, if any. *)
Definition current_tx v nas : ObservedTx :=
  if negb (ObservedTx_IsEmpty (getConsensusTx v nas true)) then getConsensusTx v nas true
  else if negb (ObservedTx_IsEmpty (getConsensusTx v nas false)) then getConsensusTx v nas false else EmptyObservedTx.

Lemma current_tx_spec v nas : ObservedTx_IsEmpty (current_tx v nas) = false -> agreed_on nas v (current_tx v nas).
Proof.
  unfold current_tx. destruct (ObservedTx_IsEmpty (getConsensusTx v nas true)) eqn:E1; cbn [negb].
  - destruct (ObservedTx_IsEmpty (getConsensusTx v nas false)) eqn:E2; cbn [negb]; [done|]. intros _.
    by apply consensus_nonempty in E2 as [? _].
  - intros _. by apply consensus_nonempty in E1 as [? _].
Qed.

Lemma GetTx_current v w nas : Voter_Txs w = Voter_Txs v -> Voter_Tx w = EmptyObservedTx \/ Voter_Tx w = current_tx v nas ->
  GetTx w nas = (set_Voter_Tx w (current_tx v nas), current_tx v nas).
Proof.
  intros Ht Hw. destruct (ObservedTx_IsEmpty (Voter_Tx w)) eqn:E1.
  - rewrite GetTx_open by (by right). cbv zeta. rewrite !(getConsensusTx_ext v w) by done. unfold current_tx in *.
    destruct Hw as [-> | ->]; [done|]. destruct (ObservedTx_IsEmpty (getConsensusTx v nas true)) eqn:E2; cbn [negb] in *; [|congruence].
    by destruct (ObservedTx_IsEmpty (getConsensusTx v nas false)).
  - destruct Hw as [Hw|Hw]; [by rewrite Hw in E1|]. destruct (IsFinal (Voter_Tx w)) eqn:E2.
    + rewrite GetTx_agreed, Hw by done. f_equal. rewrite <- Hw. by destruct w.
    + rewrite GetTx_open by (by left). cbv zeta. rewrite !(getConsensusTx_ext v w) by done. rewrite Hw. unfold current_tx.
      destruct (ObservedTx_IsEmpty (getConsensusTx v nas true)); cbn [negb]; [|done].
      by destruct (ObservedTx_IsEmpty (getConsensusTx v nas false)).
Qed.

Lemma noted_height k k' : noted k k' -> kv_height k' = kv_height k.
Proof. by intros [_ ?]%noted_voters. Qed.

(** The first agreement of a voter, that holds the last observation already. *)
Lemma first_agreement k v nas tx signer k' v' : Voter_Tx v = EmptyObservedTx ->
  (let '(k1, v1, ok) := finalise k v nas tx signer in
   if ok : bool then (k1, v1, true) else discover k1 v1 nas tx signer) = (k', v', true) ->
  noted k k' /\ Voter_Txs v' = Voter_Txs v /\ Voter_TxID v' = Voter_TxID v /\ Voter_Tx v' = current_tx v nas /\
  ObservedTx_IsEmpty (current_tx v nas) = false /\ Voter_Height v' = kv_height k /\
  (IsFinal (current_tx v nas) = true -> FinalisedHeight v' = kv_height k).
Proof.
  intros He H. unfold finalise, HasFinalised in H. rewrite (GetTx_current v v nas eq_refl (or_introl He)) in H.
  set (t := current_tx v nas) in *. set (w := set_Voter_Tx v t) in *.
  destruct (ObservedTx_IsEmpty t) eqn:E1; cbn [negb] in H.
  { unfold discover, ObservedTxVoter_HasConsensus in H. rewrite (GetTx_current v w nas eq_refl (or_intror eq_refl)) in H.
    fold t in H. by rewrite E1 in H. }
  destruct (IsFinal t) eqn:E2; cbn [negb] in H.
  - destruct (FinalisedHeight w =? 0) eqn:E3.
    + rewrite GetTx_agreed in H by done. cbn [fst] in H. injection H as <- <-. split; [apply DecSlashPoints_noted|]. done.
    + destruct (bit_late _ _ _ _); unfold discover, ObservedTxVoter_HasConsensus in H;
        rewrite (GetTx_current v w nas eq_refl (or_intror eq_refl)) in H; fold t in H; cbn [FinalisedHeight set_Voter_Tx] in H, E3;
        unfold w in H, E3; cbn [FinalisedHeight set_Voter_Tx] in H, E3; rewrite E3, !andb_false_r in H; done.
  - unfold discover, ObservedTxVoter_HasConsensus in H. rewrite (GetTx_current v w nas eq_refl (or_intror eq_refl)) in H.
    fold t in H. destruct (negb _) eqn:E3; [done|]. destruct (Voter_Height _ =? 0).
    + rewrite (GetTx_current v (voter_agreed (set_Voter_Tx w t) (kv_height k) (FinalisedHeight (set_Voter_Tx w t))) nas
        eq_refl (or_intror eq_refl)) in H. fold t in H. cbn [fst] in H.
      injection H as <- <-. split; [apply DecSlashPoints_noted|]. done.
    + by destruct (bit_late _ _ _ _).
Qed.

(** C13: agreement. When nothing was agreed on before an observation and something is with
    it, the network agrees on what that observation says: the observation agreed on has a
    super majority of the active nodes, it supports one that the last observer signed and
    that reports the same transaction as he did, memo included, and the voter notes the
    height and is stored. *)
Theorem agreed_with_last_observer k voter nas tx signer k' voter' :
  acc_wf signer -> NoDup (map coin_key (Tx_Coins (Obs_Tx tx))) -> NoDup (map coin_key (Tx_Gas (Obs_Tx tx))) ->
  Voter_Tx voter = EmptyObservedTx -> undecided nas voter ->
  in_preflightV110 k voter nas tx signer = (k', voter', true) ->
  let agreed := Voter_Tx voter' in
  agreed_on nas voter' agreed /\
  (exists x, x ∈ Voter_Txs voter' /\ supports (IsFinal agreed) agreed x /\ signer ∈ GetSigners x /\ same_report x tx) /\
  EqualFold (Tx_Memo (Obs_Tx agreed)) (Tx_Memo (Obs_Tx tx)) = true /\
  Voter_Height voter' = kv_height k /\ (IsFinal agreed = true -> FinalisedHeight voter' = kv_height k) /\
  (exists k1, noted k k1 /\ k' = SetObservedTxInVoter k1 voter').
Proof.
  intros Hw Hn1 Hn2 He Hu H agreed. unfold in_preflightV110 in H. cbv zeta in H.
  pose proof (note_observation_noted k tx signer) as Hnote. set (k0 := note_observation k tx signer) in *.
  pose proof (Add_same voter tx signer) as Hs. destruct (ObservedTxVoter_Add voter tx signer) as [v added] eqn:Ha.
  cbn [fst] in Hs. destruct added; cbn [negb] in H; [|done].
  assert (Hv : Voter_Tx v = EmptyObservedTx) by (unfold same_but_observations in Hs; by rewrite Hs).
  destruct (let '(k1, v1, ok) := finalise k0 v nas tx signer in
    if ok : bool then (k1, v1, true) else discover k1 v1 nas tx signer) as [[k1 v1] ok] eqn:E.
  assert (HE : (SetObservedTxInVoter k1 v1, v1, ok) = (k', voter', true)).
  { destruct (finalise k0 v nas tx signer) as [[k2 v2] ok2]. rewrite <- H. by rewrite E. }
  injection HE as <- <- ->. apply first_agreement in E as (F1 & F2 & F3 & F4 & F5 & F6 & F7); [|done].
  unfold agreed. rewrite F4. pose proof (current_tx_spec v nas F5) as Hagreed.
  assert (Hrefl : fst (Tx_EqualsEx (Obs_Tx tx) (Obs_Tx tx)) = true).
  { pose proof (Tx_EqualsEx_spec (Obs_Tx tx) (Obs_Tx tx) Hn1 Hn2) as Hspec.
    destruct (Tx_EqualsEx (Obs_Tx tx) (Obs_Tx tx)) as [b [t1 t2]]. cbn [fst]. apply Hspec, same_tx_refl. }
  destruct (add_decides _ _ _ _ _ _ Hw Hrefl Hu Ha Hagreed) as (x & Hx & Hsup & Hsig & Hrep).
  split; [by eapply agreed_on_ext|]. split; [exists x; by rewrite F2|]. split.
  { destruct Hsup as [_ Hsup%EqualsEx_memo]. apply EqualFold_spec in Hsup. apply EqualFold_spec. rewrite Hsup.
    destruct Hrep as [-> |Hr%EqualsEx_memo%EqualFold_spec]; [done|exact Hr]. }
  rewrite F6, (noted_height _ _ Hnote). split; [done|]. split.
  { intros Hf. rewrite F7 by done. by apply noted_height. }
  exists k1. split; [by etrans|done].
Qed.

(** *** What is done with an agreed transaction *)

Lemma AddFunds_same cs : forall m m', AddFunds m cs = Ok m' -> same_vault m m'.
Proof.
  induction cs as [|c cs IHcs]; intros m m' H; [by injection H as <-|].
  unfold AddFunds in H. cbn [foldM] in H. apply bind_Ok in H as (m1 & H1 & H%IHcs). rewrite <- H. clear H.
  unfold addFund in H1. apply bind_Ok in H1 as (o & _ & H1). destruct o; [by injection H1 as <-|].
  cbv zeta in H1. injection H1 as <-. by destruct (negb _).
Qed.

(** The first agreement of a voter that has agreed on nothing. *)
Lemma preflight_first k voter nas tx signer k' voter' : Voter_Tx voter = EmptyObservedTx ->
  in_preflightV110 k voter nas tx signer = (k', voter', true) ->
  (exists k1, noted k k1 /\ k' = SetObservedTxInVoter k1 voter') /\ agreed_on nas voter' (Voter_Tx voter') /\
  ObservedTx_IsEmpty (Voter_Tx voter') = false.
Proof.
  intros He H. unfold in_preflightV110 in H. cbv zeta in H.
  pose proof (note_observation_noted k tx signer) as Hnote. set (k0 := note_observation k tx signer) in *.
  pose proof (Add_same voter tx signer) as Hs. destruct (ObservedTxVoter_Add voter tx signer) as [v added] eqn:Ha.
  cbn [fst] in Hs. destruct added; cbn [negb] in H; [|done].
  assert (Hv : Voter_Tx v = EmptyObservedTx) by (unfold same_but_observations in Hs; by rewrite Hs).
  destruct (let '(k1, v1, ok) := finalise k0 v nas tx signer in
    if ok : bool then (k1, v1, true) else discover k1 v1 nas tx signer) as [[k1 v1] ok] eqn:E.
  assert (HE : (SetObservedTxInVoter k1 v1, v1, ok) = (k', voter', true)).
  { destruct (finalise k0 v nas tx signer) as [[k2 v2] ok2]. rewrite <- H. by rewrite E. }
  injection HE as <- <- ->. apply first_agreement in E as (F1 & F2 & F3 & F4 & F5 & _); [|done]. rewrite F4.
  split; [exists k1; split; [by etrans|done]|]. split; [|done].
  eapply agreed_on_ext; [exact F2|]. by apply current_tx_spec.
Qed.

Lemma SetVault_Ok k pks (vault : Vault) : getAsgardIndex k = Ok pks ->
  exists index, SetVault k vault =
    Ok (set_kv_vaults (set_kv_asgard_index k index)
          (<[GetKey (PubKey_String (Vault_PubKey vault)) := vault]> (kv_vaults k))).
Proof.
  intros Hp. unfold SetVault, addAsgardIndex. rewrite Hp.
  assert (Hsame : k = set_kv_asgard_index k (kv_asgard_index k)) by by destruct k.
  destruct (IsAsgard vault); [|by exists (kv_asgard_index k); rewrite <- Hsame].
  cbn [mbind outcome_bind]. destruct (existsb _ _); [by exists (kv_asgard_index k); rewrite <- Hsame|by eexists].
Qed.

Lemma note_chain_height_kept k tx : exists heights, note_chain_height k tx = set_bl_chain_heights k heights.
Proof.
  assert (Hsame : k = set_bl_chain_heights k (bl_chain_heights (kv_ballots k))).
  { destruct k as [? ? ? ? ? ? ? ? ? ? ? ? ? ? ? ? ? ? ? ? ? ? ? ? ? ? ? ? ? ? ? ? ? b]. by destruct b. }
  unfold note_chain_height, SetLastChainHeight. destruct (_ <? _); by eexists.
Qed.

(** A swap is asked for with the coins and the memo of the transaction. *)
Lemma processOneTxIn_swap k tx signer m : processOneTxIn k tx signer = Ok (M_Swap m) -> Msg_Tx m = Obs_Tx tx.
Proof.
  unfold processOneTxIn, processOneTxInV123. destruct (Tx_Coins (Obs_Tx tx)) as [|coin [|]]; [done| |done].
  destruct (ParseMemoWithMAYANames _ _) as [memo [|]]; [|done]. intros H.
  apply bind_Ok in H as (m' & Hm & H). apply bind_Ok in H as (u & _ & [= ->]).
  destruct memo; cbn [msg_of_memo] in Hm; try done; [by injection Hm as <-|].
  apply bind_Ok in Hm as (x & _ & [=]).
Qed.

(** The vault once the coins of [tx] are added, and the voter that is stored with it. *)
Definition credited (vault : Vault) : Vault := vault_with_inbound vault (i64 (InboundTxCount vault + 1)).

Definition rewritten voter tx : ObservedTxVoter :=
  voter_updated (set_Voter_Tx voter (obs_with_memo (Voter_Tx voter) (Tx_Memo (Obs_Tx tx)))).

Lemma credit_vault_swap k vault voter tx memo vault' : IsAsgard vault = true -> UpdatedVault voter = false ->
  Address_Equals (FromAddress (Obs_Tx tx)) (ToAddress (Obs_Tx tx)) = false -> memo_is memo TxYggdrasilFund = false ->
  AddFunds vault (Tx_Coins (Obs_Tx tx)) = Ok vault' ->
  credit_vault k vault voter tx memo true = Ok (credited vault', voter_updated voter).
Proof.
  intros Ha Hu Hne Hm Hf. unfold credit_vault, credit_asgard. cbn [orb]. rewrite Ha, Hu, Hne, Hf.
  cbn [negb andb mbind outcome_bind]. unfold credit_yggdrasil. by rewrite Hm, andb_false_r.
Qed.

(** C38: defect: what is done is what the last observer reports, not what was agreed on. Take
    any observation that makes the network agree for the first time, on a final transaction
    to an active asgard vault, while the observer's own memo is that of a swap. Whatever
    transaction is agreed on, the vault is credited with the coins that the observer reports,
    and the transaction that is acted on, and stored, is the agreed one with the memo that he
    reports: a swap of the agreed coins is queued as that memo says. The witness shows that
    the two may have nothing in common: when nodes leave, an observer may end the wait of
    others for a transaction of 1000 bitcoin by "bob" with a report of a million by "eve". *)
Theorem last_observer_rewrites fuel hash nas signer om gm k tx k1 voter vault vault' pks :
  let memo := fst (ParseMemoWithMAYANames k1 (Tx_Memo (Obs_Tx tx))) in
  Voter_Tx (GetObservedTxInVoter k (Tx_ID (Obs_Tx tx))) = EmptyObservedTx ->
  in_preflightV110 k (GetObservedTxInVoter k (Tx_ID (Obs_Tx tx))) nas tx signer = (k1, voter, true) ->
  IsFinal (Voter_Tx voter) = true -> Reverted voter = false -> UpdatedVault voter = false ->
  getAsgardIndex k = Ok pks -> GetVault k (ObservedPubKey tx) = Ok vault -> IsAsgard vault = true ->
  Vault_Status vault <> VaultStatus_InactiveVault ->
  Address_Equals (FromAddress (Obs_Tx tx)) (ToAddress (Obs_Tx tx)) = false ->
  AddFunds vault (Tx_Coins (Obs_Tx tx)) = Ok vault' -> GetType memo = TxSwap ->
  let acted := Voter_Tx (rewritten voter tx) in
  agreed_on nas voter (Voter_Tx voter) /\
  Tx_Coins (Obs_Tx acted) = Tx_Coins (Obs_Tx (Voter_Tx voter)) /\ Tx_Memo (Obs_Tx acted) = Tx_Memo (Obs_Tx tx) /\
  exists k2,
    kv_vaults k2 = <[GetKey (PubKey_String (Vault_PubKey vault)) := credited vault']> (kv_vaults k) /\
    kv_voters k2 !! GetKey (TxID_String (Voter_TxID voter)) = Some (rewritten voter tx) /\
    in_tx fuel hash nas signer (om, gm, k) tx =
      ('(gm, k') ← act_on fuel hash gm k2 (rewritten voter tx) memo tx signer;
       Ok (AppendObserver om (Tx_Chain (Obs_Tx tx)) (GetSigners acted), gm, k')) /\
    forall m, processOneTxIn k2 acted signer = Ok (M_Swap m) -> trading_stopped k2 (M_Swap m) = false ->
      act_on fuel hash gm k2 (rewritten voter tx) memo tx signer = Ok (gm, addSwapDirectV118 k2 m) /\
      Msg_Tx m = Obs_Tx acted.
Proof.
  intros memo He Hpre Hfin Hrev Hupd Hidx Hv Has Hst Hne Hfund Hmemo acted.
  pose proof (preflight_first k _ nas tx signer k1 voter He Hpre) as (Hk1 & Hagreed & Hnonempty).
  destruct Hk1 as (k0 & Hnote & ->). destruct Hnote as (points & heights & ->).
  split; [exact Hagreed|]. split; [done|]. split; [done|].
  unfold in_tx.
  assert (VaultExists k (ObservedPubKey tx) = true) as ->.
  { unfold VaultExists, GetVault in *. by destruct (kv_vaults k !! _). }
  cbn [negb]. rewrite Hpre. cbn [negb]. unfold in_agreed. rewrite Hrev.
  match goal with |- context [GetVault ?k1 (ObservedPubKey tx)] => change (GetVault k1 (ObservedPubKey tx)) with (GetVault k (ObservedPubKey tx)) end.
  rewrite Hv. cbv zeta.
  assert (Hfinal : HasFinalised (set_Voter_Tx voter (obs_with_memo (Voter_Tx voter) (Tx_Memo (Obs_Tx tx)))) nas =
    (set_Voter_Tx voter (obs_with_memo (Voter_Tx voter) (Tx_Memo (Obs_Tx tx))), true)).
  { unfold HasFinalised. rewrite GetTx_agreed by done. cbn [Voter_Tx set_Voter_Tx].
    change (ObservedTx_IsEmpty (obs_with_memo ?o _)) with (ObservedTx_IsEmpty o).
    change (IsFinal (obs_with_memo ?o _)) with (IsFinal o). by rewrite Hnonempty, Hfin. }
  rewrite Hfinal. clear Hfinal.
  assert (Has' : IsAsgard vault' = true /\ Vault_Status vault' = Vault_Status vault /\ Vault_PubKey vault' = Vault_PubKey vault).
  { apply AddFunds_same in Hfund. unfold same_vault in Hfund. unfold IsAsgard, Vault_IsType in *.
    by injection Hfund as _ -> <- -> _ _ _ _ _ _ _ _. }
  destruct Has' as (Has' & Hst' & Hpk').
  fold memo. cbn [mbind outcome_bind].
  erewrite credit_vault_swap; [|done|done|done|unfold memo_is; by rewrite Hmemo|exact Hfund].
  cbn [mbind outcome_bind]. fold (rewritten voter tx).
  set (k1 := SetObservedTxInVoter _ voter) in *. destruct (note_chain_height_kept k1 tx) as [heights' ->].
  destruct (SetVault_Ok (SetObservedTxInVoter (set_bl_chain_heights k1 heights') (rewritten voter tx)) pks (credited vault') Hidx)
    as [index Hset].
  rewrite Hset.
  exists (set_kv_vaults (set_kv_asgard_index (SetObservedTxInVoter (set_bl_chain_heights k1 heights') (rewritten voter tx)) index)
    (<[GetKey (PubKey_String (Vault_PubKey vault')) := credited vault']> (kv_vaults k))).
  split; [cbn; by rewrite Hpk'|]. split; [cbn; by rewrite lookup_insert_eq|]. split.
  - unfold in_settled. change (IsAsgard (credited vault')) with (IsAsgard vault'). rewrite Has', Hmemo. cbn [negb orb TxType_IsOutbound TxType_IsInternal].
    change (Vault_Status (credited vault')) with (Vault_Status vault'). rewrite Hst'.
    by rewrite (proj2 (Z.eqb_neq _ _)) by done.
  - intros m Hm Htr. split; [|by eapply processOneTxIn_swap].
    unfold act_on. fold acted. by rewrite Hm, Htr.
Qed.
End observed_in_facts.

(** ** A change of the nodes *)

Section observed_witnesses.
Import Reference ReferenceBank ReferenceRange ReferenceAddress ReferenceText ReferenceSort.
#[local] Existing Instance bond_address.
#[local] Existing Instance bond_codec.
#[local] Existing Instance bond_accounts.
#[local] Existing Instance ledger_keys.
#[local] Existing Instance digit_parse.
#[local] Existing Instance digit_text.
#[local] Instance observed_sha : Sha256 := {| sha256_hex s := s |}.
#[local] Instance observed_handlers : InternalHandlers := {| handle_internal _ _ _ := Err "no handler" |}.
#[local] Instance observed_build : BuildVersion := {| LatestVersion := semver_release 1 124 0 |}.
#[local] Instance observed_tokens : TokenLists := {| evm_tokens _ _ := []; radix_tokens _ := [] |}.
#[local] Instance observed_store : TxOutStore := TxOutStorage 5 newGasMgr.

Definition inbound_hash : TxID := "AAAAAA0123456789ABCDEF0123456789ABCDEF0123456789ABCDEF0123456789".

(** A swap of bitcoin for CACAO, as a node reports it. *)
Definition inbound (amount : Z) (memo : string) : ObservedTx :=
  NewObservedTx (mkTx inbound_hash BTCChain "3user" "vault" [NewCoin BTCAsset amount] [NewCoin BTCAsset 1] memo) 100 "vault" 100.

Definition node_with (name : AccAddress) (status : NodeStatus) : NodeAccount :=
  NewNodeAccount name status EmptyPubKeySet EmptyString EmptyString 0 EmptyString 1.

Definition with_nodes k (statuses : list (AccAddress * NodeStatus)) : KVStore :=
  set_kv_node_accounts k (list_to_map (map (fun e => (GetKey (acc_string e.1), node_with e.1 e.2)) statuses)).

Definition four_nodes (fourth : NodeStatus) : list (AccAddress * NodeStatus) :=
  [("node1", NodeStatus_Active); ("node2", NodeStatus_Active); ("node3", NodeStatus_Active); ("node4", fourth)].

Definition report (signer : AccAddress) (s : ObserverMgr * GasMgr * KVStore) (amount : Z) (memo : string) :=
  let '(om, gm, k) := s in in_Run 5 inbound_hash om gm k (mkMsgObservedTx [inbound amount memo] signer).

Definition honest_memo : string := "=:MAYA.CACAO:maya1bob".

(** Two of four nodes report it. *)
Definition two_reports : outcome (ObserverMgr * GasMgr * KVStore) :=
  k ← market_start;
  let k := with_nodes k (four_nodes NodeStatus_Active) in
  s ← report "node1" (newObserverMgr, newGasMgr, k) 1000 honest_memo;
  report "node2" s 1000 honest_memo.

Definition third_report (fourth : NodeStatus) (amount : Z) (memo : string) : outcome (ObserverMgr * GasMgr * KVStore) :=
  '(om, gm, k) ← two_reports;
  report "node3" (om, gm, with_nodes k (four_nodes fourth)) amount memo.

(** *** Agreement *)

Definition undecided_b nas voter : bool :=
  forallb (fun t => negb (HasSuperMajority (votes_for nas t (Voter_Txs voter)) (Z.of_nat (length nas)))) (Voter_Txs voter).

Lemma undecided_b_spec nas voter : undecided_b nas voter = true -> undecided nas voter.
Proof.
  unfold undecided_b. rewrite forallb_forall. intros H t [Ht%list_elem_of_In Hm]. apply H in Ht. by rewrite Hm in Ht.
Qed.

Definition third_preflight k : KVStore * ObservedTxVoter * bool :=
  in_preflightV110 k (GetObservedTxInVoter k inbound_hash) (ListActiveValidators k) (inbound 1000 honest_memo) "node3".

Definition agree_check (r : outcome (ObserverMgr * GasMgr * KVStore)) : bool :=
  match r with
  | Ok (_, _, k) =>
      bool_decide (Voter_Tx (GetObservedTxInVoter k inbound_hash) = EmptyObservedTx)
      && undecided_b (ListActiveValidators k) (GetObservedTxInVoter k inbound_hash) && (third_preflight k).2
  | _ => false
  end.

Lemma agree_checked : agree_check two_reports = true.
Proof. by vm_compute. Qed.

Lemma agree_check_spec r : agree_check r = true -> exists om gm k,
  r = Ok (om, gm, k) /\ Voter_Tx (GetObservedTxInVoter k inbound_hash) = EmptyObservedTx /\
  undecided (ListActiveValidators k) (GetObservedTxInVoter k inbound_hash) /\ (third_preflight k).2 = true.
Proof.
  destruct r as [[[om gm] k]| |]; [|done..]. unfold agree_check. rewrite !andb_true_iff. intros [[H1 H2] H3].
  exists om, gm, k. split; [done|]. split; [by apply bool_decide_eq_true in H1|]. split; [by apply undecided_b_spec|done].
Qed.

(** The third of four nodes decides, for what he reports. *)
Lemma agreed_with_last_observer_witness : exists om gm k k' voter',
  two_reports = Ok (om, gm, k) /\ third_preflight k = (k', voter', true) /\
  EqualFold (Tx_Memo (Obs_Tx (Voter_Tx voter'))) honest_memo = true.
Proof.
  destruct (agree_check_spec _ agree_checked) as (om & gm & k & E & H1 & H2 & H3).
  destruct (third_preflight k) as [[k' voter'] ok] eqn:Ep. cbn [snd] in H3. subst ok.
  exists om, gm, k, k', voter'. split; [exact E|]. split; [exact Ep|].
  assert (Hw : acc_wf "node3") by (unfold acc_wf; apply (bool_decide_unpack _); by vm_compute).
  assert (Hn : forall m, NoDup (map coin_key [NewCoin BTCAsset m])) by (intros m; apply NoDup_singleton).
  destruct (agreed_with_last_observer (AL := bond_address_laws) k _ _ (inbound 1000 honest_memo) "node3" k' voter' Hw
    (Hn 1000) (Hn 1) H1 H2 Ep) as (_ & _ & H & _).
  exact H.
Defined.

(** *** Late observations *)

Definition settled_b k (id : TxID) : bool :=
  let v := GetObservedTxInVoter k id in
  negb (FinalisedHeight v =? 0) && negb (ObservedTx_IsEmpty (Voter_Tx v)) && IsFinal (Voter_Tx v)
  && String.eqb (GetKey (TxID_String (Voter_TxID v))) (GetKey (TxID_String id)).

Definition settled_check (r : outcome (ObserverMgr * GasMgr * KVStore)) : bool :=
  match r with Ok (_, _, k) => settled_b k inbound_hash | _ => false end.

Lemma settled_checked : settled_check (third_report NodeStatus_Active 1000 honest_memo) = true.
Proof. by vm_compute. Qed.

Lemma settled_check_spec r : settled_check r = true ->
  exists om gm k, r = Ok (om, gm, k) /\ settled k inbound_hash.
Proof.
  destruct r as [[[om gm] k]| |]; [|done..]. unfold settled_check, settled_b. cbv zeta. rewrite !andb_true_iff.
  intros [[[H1 H2] H3] H4]. exists om, gm, k. split; [done|]. split; [|by apply String.eqb_eq].
  split; [by apply Z.eqb_neq, negb_true_iff|]. split; [by apply negb_true_iff|done].
Qed.

(** A fourth node reports something else, twice; nothing comes of it. *)
Lemma in_final_once_witness : exists om gm k om' k',
  third_report NodeStatus_Active 1000 honest_memo = Ok (om, gm, k) /\
  foldM (observe_in 5 inbound_hash) (om, gm, k)
    [([], "node4", inbound 5000 "=:MAYA.CACAO:maya1eve"); ([], "node4", inbound 6000 "=:MAYA.CACAO:maya1eve")]
    = Ok (om', gm, k') /\ kv_vaults k' = kv_vaults k.
Proof.
  destruct (settled_check_spec _ settled_checked) as (om & gm & k & E & Hs).
  destruct (in_final_once 5 inbound_hash om gm k inbound_hash
    [([], "node4", inbound 5000 "=:MAYA.CACAO:maya1eve"); ([], "node4", inbound 6000 "=:MAYA.CACAO:maya1eve")] Hs)
    as (om' & k' & H1 & H2 & _).
  { repeat constructor. }
  exists om, gm, k, om', k'. split; [exact E|]. split; [exact H1|].
  destruct H2 as (k1 & vs & (p & h & ->) & -> & _). reflexivity.
Defined.

(** *** One node alone *)

Definition stolen k : Prop :=
  let voter := GetObservedTxInVoter k inbound_hash in
  map (fun t => (Obs_Signers t, map Coin_Amount (Tx_Coins (Obs_Tx t)), Tx_Memo (Obs_Tx t))) (Voter_Txs voter)
    = [(["maya1node1"; "maya1node2"], [1000], honest_memo); (["maya1node3"], [1000000], "=:MAYA.CACAO:maya1eve")] /\
  map Coin_Amount (Tx_Coins (Obs_Tx (Voter_Tx voter))) = [1000] /\
  map (fun e => map Coin_Amount (Vault_Coins e.2)) (map_to_list (kv_vaults k)) = [[1005000]] /\
  map (fun e => (Destination e.2, map Coin_Amount (Tx_Coins (Msg_Tx e.2)))) (map_to_list (kv_swap_items k))
    = [("maya1eve", [1000])].

#[local] Instance stolen_dec k : Decision (stolen k).
Proof. unfold stolen. apply _. Defined.

Definition stolen_check (r : outcome (ObserverMgr * GasMgr * KVStore)) : bool :=
  match r with Ok (_, _, k) => bool_decide (stolen k) | _ => false end.

Lemma stolen_check_spec r : stolen_check r = true -> exists om gm k, r = Ok (om, gm, k) /\ stolen k.
Proof.
  destruct r as [[[om gm] k]| |]; [|done..]. intros H%bool_decide_eq_true. by exists om, gm, k.
Qed.

(** Two of four nodes report a swap of 1000 bitcoin by "bob"; then the fourth node leaves,
    and two of three are enough. Now the third node reports a swap of a million by "eve"
    under the same id: the swap of the 1000 goes to "eve", and the vault, that held 5000,
    is credited with a million. *)
Definition stolen_memo : string := "=:MAYA.CACAO:maya1eve".

Lemma swap_stolen :
  exists om gm k, third_report NodeStatus_Standby 1000000 stolen_memo = Ok (om, gm, k) /\ stolen k.
Proof. apply stolen_check_spec. by vm_compute. Qed.

Definition node_left : outcome (ObserverMgr * GasMgr * KVStore) :=
  '(om, gm, k) ← two_reports; Ok (om, gm, with_nodes k (four_nodes NodeStatus_Standby)).

Definition lone_report : ObservedTx := inbound 1000000 stolen_memo.

Definition lone_preflight k : KVStore * ObservedTxVoter * bool :=
  in_preflightV110 k (GetObservedTxInVoter k inbound_hash) (ListActiveValidators k) lone_report "node3".

Definition lone_voter k : ObservedTxVoter := (lone_preflight k).1.2.

(** The hypotheses, and what was agreed on. *)
Definition lone_facts k (vault vault' : Vault) : Prop :=
  Voter_Tx (GetObservedTxInVoter k inbound_hash) = EmptyObservedTx /\ (lone_preflight k).2 = true /\
  IsFinal (Voter_Tx (lone_voter k)) = true /\ Reverted (lone_voter k) = false /\ UpdatedVault (lone_voter k) = false /\
  IsAsgard vault = true /\ Vault_Status vault <> VaultStatus_InactiveVault /\
  GetType (fst (ParseMemoWithMAYANames (lone_preflight k).1.1 stolen_memo)) = TxSwap /\
  map Coin_Amount (Tx_Coins (Obs_Tx (Voter_Tx (lone_voter k)))) = [1000] /\
  Tx_Memo (Obs_Tx (Voter_Tx (lone_voter k))) = honest_memo /\
  map Coin_Amount (Vault_Coins vault) = [5000] /\ map Coin_Amount (Vault_Coins vault') = [1005000].

#[local] Instance lone_facts_dec k vault vault' : Decision (lone_facts k vault vault').
Proof. unfold lone_facts. apply _. Defined.

Definition lone_check (r : outcome (ObserverMgr * GasMgr * KVStore)) : bool :=
  match r with
  | Ok (_, _, k) =>
      match getAsgardIndex k, GetVault k "vault" with
      | Ok _, Ok vault => match AddFunds vault [NewCoin BTCAsset 1000000] with
                          | Ok vault' => bool_decide (lone_facts k vault vault')
                          | _ => false
                          end
      | _, _ => false
      end
  | _ => false
  end.

Lemma lone_checked : lone_check node_left = true.
Proof. by vm_compute. Qed.

Lemma lone_check_spec r : lone_check r = true -> exists om gm k pks vault vault',
  r = Ok (om, gm, k) /\ getAsgardIndex k = Ok pks /\ GetVault k "vault" = Ok vault /\
  AddFunds vault [NewCoin BTCAsset 1000000] = Ok vault' /\ lone_facts k vault vault'.
Proof.
  destruct r as [[[om gm] k]| |]; [|done..]. unfold lone_check.
  destruct (getAsgardIndex k) as [pks| |] eqn:E1; [|done..]. destruct (GetVault k "vault") as [vault| |] eqn:E2; [|done..].
  destruct (AddFunds vault _) as [vault'| |] eqn:E3; [|done..]. intros H%bool_decide_eq_true.
  by exists om, gm, k, pks, vault, vault'.
Qed.

(** What is stored: the vault holds 1005000, and the agreed transaction of 1000 asks for
    what the lone report says. *)
Lemma last_observer_rewrites_witness : exists om gm k k2 vault' r,
  node_left = Ok (om, gm, k) /\ in_tx 5 inbound_hash (ListActiveValidators k) "node3" (om, gm, k) lone_report = r /\
  map Coin_Amount (Vault_Coins (credited vault')) = [1005000] /\
  (exists key, kv_vaults k2 = <[key := credited vault']> (kv_vaults k)) /\
  Tx_Memo (Obs_Tx (Voter_Tx (lone_voter k))) = honest_memo /\
  Tx_Memo (Obs_Tx (Voter_Tx (rewritten (lone_voter k) lone_report))) = stolen_memo /\
  r = ('(gm, k') ← act_on 5 inbound_hash gm k2 (rewritten (lone_voter k) lone_report)
                     (fst (ParseMemoWithMAYANames (lone_preflight k).1.1 stolen_memo)) lone_report "node3";
       Ok (AppendObserver om BTCChain (GetSigners (Voter_Tx (rewritten (lone_voter k) lone_report))), gm, k')).
Proof.
  destruct (lone_check_spec _ lone_checked) as (om & gm & k & pks & vault & vault' & E & E1 & E2 & E3 & H).
  destruct H as (H1 & H2 & H3 & H4 & H5 & H6 & H7 & H8 & H9 & H10 & H11 & H12).
  assert (Hp : lone_preflight k = ((lone_preflight k).1.1, lone_voter k, true)).
  { unfold lone_voter. destruct (lone_preflight k) as [[k1 v] ok]. cbn [fst snd] in *. by rewrite H2. }
  assert (Hne : Address_Equals (FromAddress (Obs_Tx lone_report)) (ToAddress (Obs_Tx lone_report)) = false) by by vm_compute.
  destruct (last_observer_rewrites 5 inbound_hash (ListActiveValidators k) "node3" om gm k lone_report
    (lone_preflight k).1.1 (lone_voter k) vault vault' pks H1 Hp H3 H4 H5 E1 E2 H6 H7 Hne E3 H8)
    as (_ & _ & Hm & k2 & Hv & _ & Hr & _).
  exists om, gm, k, k2, vault', (in_tx 5 inbound_hash (ListActiveValidators k) "node3" (om, gm, k) lone_report).
  refine (conj E (conj eq_refl (conj H12 (conj (ex_intro _ _ Hv) (conj H10 (conj Hm Hr)))))).
Defined.
End observed_witnesses.
