(* ===== verification/ObservedOut.v ===== *)
(** [x/mayachain/handler_observed_txout.go] and [addGasFees] of [helpers.go]: the nodes
    report the transactions that left the vaults; once enough of them agree the vault is
    debited and the payment is settled, or what left it is slashed. *)
From stdpp Require Import pretty.
From S2P Require Import Prelude GoText Sdk Constants Floats Shares Chains Keys Addresses Assets Coins Txs.
From S2P Require Import NodeAccounts Votes TxOuts Vaults ObservedTxs Pools Mimirs StreamingSwaps SwapMsgs.
From S2P Require Import LiquidityProviders Records MayaNames Stores Keeper FuzzyAssets Nodes Bonds VaultStore Halts Gas.
From S2P Require Import TradeAccounts Aggregators Swapper Swaps Affiliates Decimals Memos ManageMayaNames Collectors SwapChecks.
From S2P Require Import Liquidity AddLiquidity LiquidityBooks Withdraw WithdrawBooks Slashing Bonding BondBooks CacaoPools.
From S2P Require Import LiquidityLedger Outbounds OutboundBooks SwapHandler SwapQueue SwapBlocks SwapMarket.
From S2P Require Import OutboundHandlers InternalTxs NodeHandlers Contributions Leaving Observers ObservedMsgs ObservedIn.

Definition vault_after_payment (m : Vault) (status : VaultStatus) (outbounds : Z) (frozen : list string) : Vault :=
  mkVault (Vaults.BlockHeight m) (Vault_PubKey m) (Vault_Coins m) (Vault_Type m) status (Vault_StatusSince m)
    (Membership m) (Vault_Chains m) (InboundTxCount m) outbounds (PendingTxBlockHeights m) (Routers m) frozen
    (PubKeyEddsa m).

Section observed_out.
Context `{V : Semver} `{B : CosmosBank} `{A : SdkAddress} `{R : MapRange} `{L : AddressLib}.
Context `{U : SdkUint} `{D : SdkDec} `{SH : Sha256} `{T : UintText} `{C : PubKeyCodec} `{K : PubKeyAddress}.
Context `{SS : SliceSort} {TO : TxOutStore} {BV : BuildVersion} {AK : AccountKeeper} {TL : TokenLists}.
Implicit Types (k : KVStore) (gm : GasMgr) (om : ObserverMgr) (tx : ObservedTx) (signer : AccAddress).
Implicit Types (nas : list NodeAccount) (voter : ObservedTxVoter) (msg : MsgObservedTx).

Definition out_ValidateBasic msg : outcome unit :=
  observed_ValidateBasic FromAddress "Request is not an outbound observed transaction" msg.

Definition out_validateV1 k msg : outcome unit :=
  _ ← out_ValidateBasic msg;
  if negb (isSignedByActiveNodeAccounts k [Observed_Signer msg]) then Err "%+v are not authorized" else Ok tt.

(** ** Agreement *)

(** The hash at the end of the memo is linked to that of the transaction. *)
Definition link_memo k tx : KVStore :=
  match Split ":" (Tx_Memo (Obs_Tx tx)) with
  | _ :: (_ :: _) as parts =>
      match NewTxID (List.last parts EmptyString) with
      | Ok inhash => SetObservedLink k inhash (Tx_ID (Obs_Tx tx))
      | _ => k
      end
  | _ => k
  end.

(** As for an inbound transaction, except that only a final one is agreed on, and the
    height of the agreement is not noted. *)
Definition out_preflightV89 k voter nas tx signer : KVStore * ObservedTxVoter * bool :=
  let k := note_observation k tx signer in
  let '(voter, added) := ObservedTxVoter_Add voter tx signer in
  if negb added then (k, voter, false)
  else
    let k := link_memo k tx in
    let '(voter, finalised) := HasFinalised voter nas in
    let '(k, voter, ok) :=
      if negb finalised then (k, voter, false)
      else if FinalisedHeight voter =? 0 then
        let voter := fst (GetTx (voter_agreed voter (Voter_Height voter) (kv_height k)) nas) in
        (DecSlashPoints k (observe_points k) (GetSigners (Voter_Tx voter)), voter, true)
      else if bit_late k voter tx (FinalisedHeight voter)
      then (DecSlashPoints k (observe_points k) [signer], voter, false)
      else (k, voter, false) in
    (SetObservedTxOutVoter k voter, voter, ok).

(** ** Gas *)

(** The gas of the transaction, or the rate of its chain where that is what it costs. *)
Definition gas_fee k (tx : Tx) : outcome Gas :=
  if Chain_Equals (Tx_Chain tx) THORChain
  then rate ← GetGasRate k (Tx_Chain tx); Ok [NewCoin (GetGasAsset (Tx_Chain tx)) rate]
  else Ok (Tx_Gas tx).

(** In the wind-down the providers pay for the gas of a gas asset. *)
Definition subsidised_gas gm k (tx : Tx) (fee : Gas) : outcome GasMgr :=
  if RagnarokInProgress k && negb (Coin_IsEmpty (GetCoin (Tx_Coins tx) (GetGasAsset (Tx_Chain tx))))
  then Ok gm else AddGasAsset gm fee true.

(** The gas manager keeps the gas even if the vault cannot be written. *)
Definition addGasFeesV108 gm k tx : outcome (GasMgr * KVStore * option string) :=
  let t := Obs_Tx tx in
  if (length (Tx_Gas t) =? 0)%nat then Ok (gm, k, None)
  else
    fee ← gas_fee k t;
    gm ← subsidised_gas gm k t fee;
    if negb (VaultExists k (ObservedPubKey tx)) then Ok (gm, k, None)
    else
      match GetVault k (ObservedPubKey tx) with
      | Panic => Panic
      | Err e => Ok (gm, k, Some e)
      | Ok vault =>
          vault ← SubFunds vault (ToCoins fee);
          match SetVault k vault with
          | Panic => Panic
          | Err e => Ok (gm, k, Some e)
          | Ok k => Ok (gm, k, None)
          end
      end.

(** ** What should not have left the vault *)

Definition slash_extra k tx : outcome KVStore :=
  match GetVault k (ObservedPubKey tx) with
  | Panic => Panic
  | Err _ => Ok k
  | Ok vault =>
      toSlash ← Adds_deprecated (Tx_Coins (Obs_Tx tx)) (ToCoins (Tx_Gas (Obs_Tx tx)));
      k ← ignored (SlashVaultToLP k (ObservedPubKey tx) toSlash true);
      vault ← SubFunds vault toSlash;
      logged k (SetVault k vault)
  end.

(** ** The payment *)

(** A chain that is frozen is released when a transaction on it is seen. *)
Definition unfreeze (frozen : list string) (coins : Coins) : list string :=
  fold_left (fun frozen coin => remove_first (EqualFold (Chain_String (GetChain (Coin_Asset coin)))) frozen)
    coins frozen.

Definition debited (vault : Vault) (tx : Tx) (memo : Memo) : outcome Vault :=
  vault ← (if negb (Address_Equals (FromAddress tx) (ToAddress tx)) then
             vault ← SubFunds vault (Tx_Coins tx);
             Ok (vault_after_payment vault (Vault_Status vault) (i64 (OutboundTxCount vault + 1)) (Frozen vault))
           else Ok vault);
  let vault := if IsAsgard vault && memo_is memo TxMigrate
               then RemovePendingTxBlockHeights vault (GetBlockHeight memo) else vault in
  let status := if negb (HasFunds vault) && (Vault_Status vault =? VaultStatus_RetiringVault)
                then VaultStatus_InactiveVault else Vault_Status vault in
  Ok (vault_after_payment vault status (OutboundTxCount vault) (unfreeze (Frozen vault) (Tx_Coins tx))).

Definition debit_vault k tx (memo : Memo) : outcome KVStore :=
  match GetVault k (ObservedPubKey tx) with
  | Panic => Panic
  | Err _ => Ok k
  | Ok vault => vault ← debited vault (Obs_Tx tx) memo; logged k (SetVault k vault)
  end.

(** The funds leave the vault after the message is processed. *)
Definition out_settle (fuel : nat) (hash : string) gm k voter (memo : Memo) tx (m : Msg)
  : outcome (GasMgr * KVStore) :=
  match internal_handler fuel hash gm k m with
  | Panic => Panic
  | Err _ => Ok (gm, k)
  | Ok (gm, k) =>
      k ← debit_vault (SetObservedTxOutVoter k (ObservedTxVoter_SetDone voter)) tx memo; Ok (gm, k)
  end.

(** The gas of an inactive vault is not repaid. *)
Definition out_pay (fuel : nat) (hash : string) om gm k voter txOut (memo : Memo) tx (m : Msg)
  : outcome (ObserverMgr * GasMgr * KVStore) :=
  match GetVault k (ObservedPubKey tx) with
  | Panic => Panic
  | Err _ => Ok (om, gm, k)
  | Ok vault =>
      '(gm, k, failed) ← (if negb (Vault_Status vault =? VaultStatus_InactiveVault) then addGasFeesV108 gm k tx
                          else Ok (gm, k, None));
      match (failed : option string) with
      | Some _ => Ok (om, gm, k)
      | None =>
          let om := AppendObserver om (Tx_Chain (Obs_Tx tx)) (GetSigners txOut) in
          '(gm, k) ← out_settle fuel hash gm k voter memo tx m;
          Ok (om, gm, k)
      end
  end.

Definition out_agreed (fuel : nat) (hash : string) om gm k voter nas tx signer
  : outcome (ObserverMgr * GasMgr * KVStore) :=
  let memo := fst (ParseMemoWithMAYANames k (Tx_Memo (Obs_Tx tx))) in
  if memo_is memo TxUnknown || TxType_IsInbound (GetType memo)
  then k ← slash_extra k tx; Ok (om, gm, k)
  else
    let '(voter, txOut) := GetTx voter nas in
    let txOut := obs_with_memo txOut (Tx_Memo (Obs_Tx tx)) in
    match processOneTxIn k txOut signer with
    | Panic => Panic
    | Err _ => Ok (om, gm, k)
    | Ok m =>
        if Chain_IsEmpty (Tx_Chain (Obs_Tx tx)) then Ok (om, gm, k)
        else out_pay fuel hash om gm k voter txOut memo tx m
    end.

Definition out_tx (fuel : nat) (hash : string) nas signer (s : ObserverMgr * GasMgr * KVStore) tx
  : outcome (ObserverMgr * GasMgr * KVStore) :=
  let '(om, gm, k) := s in
  if negb (VaultExists k (ObservedPubKey tx)) then Ok (om, gm, k)
  else
    let '(k, voter, ok) := out_preflightV89 k (GetObservedTxOutVoter k (Tx_ID (Obs_Tx tx))) nas tx signer in
    if negb ok then
      Ok (if FinalisedHeight voter =? kv_height k then AppendObserver om (Tx_Chain (Obs_Tx tx)) [signer] else om,
          gm, k)
    else out_agreed fuel hash om gm k voter nas tx signer.

Definition out_handleV114 (fuel : nat) (hash : string) om gm k msg : outcome (ObserverMgr * GasMgr * KVStore) :=
  foldM (out_tx fuel hash (ListActiveValidators k) (Observed_Signer msg)) (om, gm, k) (Observed_Txs msg).

(** From 1.114.0 on. *)
Definition out_Run (fuel : nat) (hash : string) om gm k msg : outcome (ObserverMgr * GasMgr * KVStore) :=
  _ ← out_validateV1 k msg; out_handleV114 fuel hash om gm k msg.
End observed_out.

(** ** A payment that is final *)

Section observed_out_facts.
Context `{V : Semver} `{B : CosmosBank} `{A : SdkAddress} `{R : MapRange} `{L : AddressLib}.
Context `{U : SdkUint} `{D : SdkDec} `{SH : Sha256} `{T : UintText} `{C : PubKeyCodec} `{K : PubKeyAddress}.
Context `{SS : SliceSort} {TO : TxOutStore} {BV : BuildVersion} {AK : AccountKeeper} {TL : TokenLists}.
Implicit Types (k : KVStore) (gm : GasMgr) (om : ObserverMgr) (tx : ObservedTx) (signer : AccAddress).
Implicit Types (nas : list NodeAccount) (voter : ObservedTxVoter).

(** The slash points, the heights seen and the links of the hashes may differ. *)
Definition noted_out k k' : Prop := exists points heights links,
  k' = set_bl_links (set_bl_observe_heights (set_kv_slash_points k points) heights) links.

Lemma noted_out_noted k k' : noted k k' -> noted_out k k'.
Proof.
  intros (p & h & ->). exists p, h, (bl_links (kv_ballots k)).
  destruct k as [? ? ? ? ? ? ? ? ? ? ? ? ? ? ? ? ? ? ? ? ? ? ? ? ? ? ? ? ? ? ? ? ? b]. by destruct b.
Qed.

#[export] Instance noted_out_preorder : PreOrder noted_out.
Proof.
  split; [by intros k; apply noted_out_noted|].
  intros k1 k2 k3 (p1 & h1 & l1 & ->) (p2 & h2 & l2 & ->). by exists p2, h2, l2.
Qed.

Lemma link_memo_noted k tx : noted_out k (link_memo k tx).
Proof.
  unfold link_memo. destruct (Split _ _) as [|x [|y parts]]; try done. destruct (NewTxID _) as [h| |]; try done.
  unfold SetObservedLink. cbv zeta. destruct (existsb _ _); [done|].
  exists (kv_slash_points k), (bl_observe_heights (kv_ballots k)). eexists.
  destruct k as [? ? ? ? ? ? ? ? ? ? ? ? ? ? ? ? ? ? ? ? ? ? ? ? ? ? ? ? ? ? ? ? ? b]. by destruct b.
Qed.

Lemma noted_out_voters k k' : noted_out k k' ->
  bl_out_voters (kv_ballots k') = bl_out_voters (kv_ballots k) /\ kv_height k' = kv_height k.
Proof. by intros (p & h & l & ->). Qed.

(** What is final is not paid again. *)
Lemma out_preflight_final k voter nas tx signer : voter_final voter ->
  exists k1 voter', noted_out k k1 /\ same_but_observations voter voter' /\
    (out_preflightV89 k voter nas tx signer = (k1, voter', false) \/
     out_preflightV89 k voter nas tx signer = (SetObservedTxOutVoter k1 voter', voter', false)).
Proof.
  intros Hv. unfold out_preflightV89. cbv zeta.
  pose proof (noted_out_noted _ _ (note_observation_noted k tx signer)) as Hn.
  set (k0 := note_observation k tx signer) in *. pose proof (Add_same voter tx signer) as Ha.
  destruct (ObservedTxVoter_Add voter tx signer) as [v added]. cbn [fst] in Ha. destruct added; cbn [negb].
  2:{ exists k0, v. split; [done|]. split; [done|]. by left. }
  destruct (same_voter_final _ _ Ha Hv) as (F1 & F2 & F3). set (k1 := link_memo k0 tx).
  assert (Hl : noted_out k k1) by (etrans; [exact Hn|apply link_memo_noted]).
  unfold HasFinalised. rewrite GetTx_final by (by eapply same_voter_final). rewrite F2, F3. cbn [negb].
  rewrite (proj2 (Z.eqb_neq _ _) F1). destruct (bit_late _ _ _ _).
  - eexists _, v. split; [|split; [done|by right]].
    etrans; [exact Hl|]. apply noted_out_noted, DecSlashPoints_noted.
  - exists k1, v. split; [done|]. split; [done|by right].
Qed.

(** The voter of a payment is stored under its id, and the payment is final. *)
Definition settled_out k (id : TxID) : Prop :=
  let v := GetObservedTxOutVoter k id in voter_final v /\ GetKey (TxID_String (Voter_TxID v)) = GetKey (TxID_String id).

Definition observed_out_again (id : TxID) k k' : Prop := exists k1 voters,
  noted_out k k1 /\ k' = set_bl_out_voters k1 voters /\
  (forall key, key <> GetKey (TxID_String id) -> voters !! key = bl_out_voters (kv_ballots k) !! key) /\
  same_but_observations (GetObservedTxOutVoter k id) (GetObservedTxOutVoter k' id).

Lemma observed_out_again_trans id k1 k2 k3 :
  observed_out_again id k1 k2 -> observed_out_again id k2 k3 -> observed_out_again id k1 k3.
Proof.
  intros (a & va & (p1 & h1 & l1 & ->) & -> & Ka & Sa) (b & vb & (p2 & h2 & l2 & ->) & -> & Kb & Sb).
  exists (set_bl_links (set_bl_observe_heights (set_kv_slash_points k1 p2) h2) l2), vb.
  split; [by exists p2, h2, l2|]. split; [done|]. split; [|by etrans]. intros key Hk. rewrite Kb by done. by apply Ka.
Qed.

Lemma observed_out_again_settled id k k' : observed_out_again id k k' -> settled_out k id -> settled_out k' id.
Proof.
  intros (k1 & vs & _ & _ & _ & Hs) [H1 H2]. split; [by eapply same_voter_final|].
  unfold same_but_observations in Hs. rewrite Hs. cbn. exact H2.
Qed.

Lemma observed_out_again_noted id k k' : noted_out k k' -> observed_out_again id k k'.
Proof.
  intros Hn. destruct (noted_out_voters _ _ Hn) as [Hv _]. exists k', (bl_out_voters (kv_ballots k')). split; [done|].
  split; [|split; [by rewrite Hv|]].
  - destruct k' as [? ? ? ? ? ? ? ? ? ? ? ? ? ? ? ? ? ? ? ? ? ? ? ? ? ? ? ? ? ? ? ? ? b]. by destruct b.
  - unfold GetObservedTxOutVoter. by rewrite Hv.
Qed.

Lemma out_tx_settled fuel hash nas signer om gm k tx : settled_out k (Tx_ID (Obs_Tx tx)) ->
  exists om' k', out_tx fuel hash nas signer (om, gm, k) tx = Ok (om', gm, k') /\
    observed_out_again (Tx_ID (Obs_Tx tx)) k k'.
Proof.
  intros [Hv Hid]. unfold out_tx. set (id := Tx_ID (Obs_Tx tx)) in *.
  destruct (VaultExists k (ObservedPubKey tx)); cbn [negb].
  2:{ exists om, k. split; [done|]. by apply observed_out_again_noted. }
  destruct (out_preflight_final k _ nas tx signer Hv) as (k1 & v & Hn & Hs & [-> | ->]); cbn [negb].
  - eexists _, _. split; [done|]. by apply observed_out_again_noted.
  - eexists _, _. split; [done|]. destruct (noted_out_voters _ _ Hn) as [Hvs _].
    assert (Hkey : GetKey (TxID_String (Voter_TxID v)) = GetKey (TxID_String id)).
    { unfold same_but_observations in Hs. by rewrite Hs. }
    exists k1, (<[GetKey (TxID_String id) := v]> (bl_out_voters (kv_ballots k))).
    unfold SetObservedTxOutVoter. rewrite Hvs, Hkey.
    split; [done|]. split; [done|]. split; [by intros key Hne; rewrite lookup_insert_ne|].
    unfold GetObservedTxOutVoter at 2.
    change (bl_out_voters (kv_ballots (set_bl_out_voters k1 ?m))) with m. by rewrite lookup_insert_eq.
Qed.

(** Observations of payments that arrive one after the other. *)
Definition observe_out (fuel : nat) (hash : string) (s : ObserverMgr * GasMgr * KVStore)
    (o : list NodeAccount * AccAddress * ObservedTx) : outcome (ObserverMgr * GasMgr * KVStore) :=
  let '(nas, signer, tx) := o in out_tx fuel hash nas signer s tx.

(** C12: a payment is settled once. After its observation has become final, however many
    more observations of it arrive, from whomever and under whatever set of active nodes:
    the vault is not debited again, nobody is slashed, no scheduled payment is closed and
    no gas is repaid; only slash points, the heights seen, the links of the hashes and the
    observations of its own voter change. *)
Theorem out_final_once fuel hash om gm k id os :
  settled_out k id -> Forall (fun o => Tx_ID (Obs_Tx o.2) = id) os ->
  exists om' k', foldM (observe_out fuel hash) (om, gm, k) os = Ok (om', gm, k') /\
    observed_out_again id k k' /\ settled_out k' id.
Proof.
  intros Hs Hos. revert om k Hs. induction Hos as [|[[nas signer] tx] os Hid _ IHs]; intros om k Hs.
  { exists om, k. split; [done|]. split; [by apply observed_out_again_noted|done]. }
  cbn [snd] in Hid. subst id. destruct (out_tx_settled fuel hash nas signer om gm k tx Hs) as (om1 & k1 & H1 & Ho).
  destruct (IHs om1 k1 (observed_out_again_settled _ _ _ Ho Hs)) as (om' & k' & H2 & Ho2 & Hs2).
  exists om', k'. cbn [foldM observe_out]. rewrite H1. cbn [mbind outcome_bind]. split; [exact H2|].
  split; [by eapply observed_out_again_trans|done].
Qed.
End observed_out_facts.

Section out_witness.
Import Reference ReferenceBank ReferenceRange ReferenceAddress ReferenceText ReferenceSort.
#[local] Existing Instance bond_address.
#[local] Existing Instance bond_codec.
#[local] Existing Instance bond_accounts.
#[local] Existing Instance ledger_keys.
#[local] Existing Instance digit_parse.
#[local] Existing Instance digit_text.
#[local] Existing Instance observed_sha.
#[local] Existing Instance observed_handlers.
#[local] Existing Instance observed_build.
#[local] Existing Instance observed_tokens.
#[local] Existing Instance observed_store.

Definition payment_hash : TxID := "BBBBBB0123456789ABCDEF0123456789ABCDEF0123456789ABCDEF0123456789".

(** A node reports that 40 bitcoin left the vault, at a cost of 2. *)
Definition payment (amount : Z) : ObservedTx :=
  NewObservedTx (mkTx payment_hash BTCChain "vault" "3user" [NewCoin BTCAsset amount] [NewCoin BTCAsset 2]
    ("OUT:" +:+ inbound_hash))
    100 "vault" 100.

Definition report_out (amount : Z) (r : outcome (ObserverMgr * GasMgr * KVStore)) (signer : AccAddress) :=
  '(om, gm, k) ← r; out_Run 5 payment_hash om gm k (mkMsgObservedTx [payment amount] signer).

Definition three_reports : outcome (ObserverMgr * GasMgr * KVStore) :=
  fold_left (report_out 40) ["node1"; "node2"; "node3"]
    (k ← market_start; Ok (newObserverMgr, newGasMgr, with_nodes k (four_nodes NodeStatus_Active))).

Definition settled_out_b k (id : TxID) : bool :=
  let v := GetObservedTxOutVoter k id in
  negb (FinalisedHeight v =? 0) && negb (ObservedTx_IsEmpty (Voter_Tx v)) && IsFinal (Voter_Tx v)
  && String.eqb (GetKey (TxID_String (Voter_TxID v))) (GetKey (TxID_String id)).

Definition paid_once k : bool :=
  bool_decide (map (fun e => (map Coin_Amount (Vault_Coins e.2), OutboundTxCount e.2)) (map_to_list (kv_vaults k))
    = [([4958], 1)]).

Definition payment_check (r : outcome (ObserverMgr * GasMgr * KVStore)) : bool :=
  match r with Ok (_, _, k) => settled_out_b k payment_hash && paid_once k | _ => false end.

Lemma payment_checked : payment_check three_reports = true.
Proof. by vm_compute. Qed.

Lemma payment_check_spec r : payment_check r = true ->
  exists om gm k, r = Ok (om, gm, k) /\ settled_out k payment_hash /\ paid_once k = true.
Proof.
  destruct r as [[[om gm] k]| |]; [|done..]. unfold payment_check, settled_out_b. cbv zeta. rewrite !andb_true_iff.
  intros [[[[H1 H2] H3] H4] H5]. exists om, gm, k. split; [done|]. split; [|exact H5]. split; [|by apply String.eqb_eq].
  split; [by apply Z.eqb_neq, negb_true_iff|]. split; [by apply negb_true_iff|done].
Qed.

(** A fourth node reports a payment of 4000 under the same id: the vault, which was
    debited 40 and the gas, stays as it is. *)
Lemma out_final_once_witness : exists om gm k om' k',
  three_reports = Ok (om, gm, k) /\ paid_once k = true /\
  foldM (observe_out 5 payment_hash) (om, gm, k) [([], "node4", payment 40); ([], "node4", payment 4000)]
    = Ok (om', gm, k') /\ kv_vaults k' = kv_vaults k.
Proof.
  destruct (payment_check_spec _ payment_checked) as (om & gm & k & E & Hs & Hp).
  destruct (out_final_once 5 payment_hash om gm k payment_hash
    [([], "node4", payment 40); ([], "node4", payment 4000)] Hs) as (om' & k' & H1 & H2 & _).
  { repeat constructor. }
  exists om, gm, k, om', k'. split; [exact E|]. split; [exact Hp|]. split; [exact H1|].
  destruct H2 as (k1 & vs & (p & h & l & ->) & -> & _). reflexivity.
Defined.
End out_witness.
